(* ===== verification/_CoqProject ===== *)
-Q . S2P
Prelude.v
Records.v
Errors.v
Json.v
Regex.v
Redaction.v
Tenancy.v
WorkflowModels.v
Storage.v
Collections.v
PlanStorage.v
Checkpoint.v
Events.v
PlanValidation.v
PlanOrder.v
PlanSpec.v
PlanRecords.v
PlanTheorems.v
PlanReading.v
WorkflowRepository.v
PlanRepository.v
PlanDecisions.v
PlanAttempts.v
MemoryRepository.v
PlanResults.v
PlanGenerator.v
PlanContent.v
PlanEffects.v
PlanInvariants.v
PlanHistory.v
WorkflowCoordinator.v
PlanService.v
Recovery.v
Continuation.v
Tools.v
Scheduler.v
PlanExecution.v
PlanLoop.v
RecoveryWorker.v
WorkflowSpec.v
WorkflowRefinement.v
PlanRefinement.v
PlanAttemptRefinement.v
PlanSystem.v
ExecutionRefinement.v
SchedulerRefinement.v
ExecutionFacts.v
PlanOutcomes.v
PlanCreation.v
PlanRounds.v
RecoveryRefinement.v
RecoveryOutcomes.v
WorkflowHistory.v
Leases.v
WorkflowInvariants.v
WorkflowSystem.v
Scenario.v
PlanScenario.v
ToolScenario.v
MemoryTheorems.v
WorkflowOperations.v
CheckpointWriting.v
ToolFacts.v
StoredResults.v
ToolResults.v
ExecutionOutcomes.v
RecoveryWorkerFacts.v
LoopTermination.v
ExecutionTheorems.v
WorkflowTheorems.v
OperationTheorems.v
PlanRepositoryTheorems.v
RecoveryTheorems.v
ToolTheorems.v
RecoveryWorkerTheorems.v
TenantRuntime.v
RuntimePool.v
RuntimePoolFacts.v
RuntimePoolRuns.v
RuntimeTheorems.v
