(* ===== verification/Prelude.v ===== *)
(** * MultiClaw: a verified model of the durable workflow core

    MultiClaw is a multi-tenant agent server written in Python ([src/src/multiclaw/]).
    Agents run tools on behalf of users, and a run may be interrupted at any point: a
    process dies, a user has to approve a step, another process takes over.  What makes
    this safe is a database-backed workflow engine: runs with leases and fencing tokens,
    approvals, tool executions, append-only checkpoints, Plans, and a recovery service
    that decides from the last checkpoint how to go on.  This library models that engine,
    operation by operation, and proves what it promises.

    ** The program's parts and the files that model them

    - [tenancy/context.py], the identity every operation is scoped by: [Tenancy].
    - [workflow/models.py], statuses, transition tables, records, checkpoint payload
      classes: [WorkflowModels] (vocabulary and records) and [Checkpoint] (payloads);
      [RunLeaseHandle], the lease that a long execution shares: [Continuation].
    - [storage/schema.py], [storage/engine.py], [storage/dialect.py]: [Storage], the tables
      as finite maps with their primary keys, UNIQUE, CHECK and foreign keys, the
      transaction, and the environment (clock, uuid4, sha256).
    - [workflow/recovery.py], the codec part: [Json] (the canonical printer and a parser of
      [json.loads]) and [Checkpoint] (encoding, decoding, scope checks).
    - [storage/repositories/workflow.py], every method: [WorkflowRepository].  A method is
      a computation in the exception-state monad over the database; [SELECT ... FOR UPDATE],
      guarded [UPDATE] and [rowcount] are written out.
    - [workflow/coordinator.py], every operation with its transaction: [WorkflowCoordinator]
      (a [co_] prefix marks the operations whose names the repository has too).
    - [workflow/recovery.py], [RecoveryService]: [Recovery].
    - [planner/models.py] and [planner/validation.py]: [PlanValidation] (drafts, limits,
      dependency order, credential scan, digests), [Regex] (the matcher of the regular
      expressions that the scan uses), [Records] (the stored Plan aggregate), [PlanRecords]
      (when a step is ready, and the interface [PlanReader] of the Plan repository).
    - [storage/repositories/plans.py], [PlanRepository]: [PlanStorage] (the constraints of
      the Plan tables and the inserts), [PlanReading] (hydration, the integrity check and
      [get]), [PlanRepository] (creating and revising), [PlanDecisions] (decisions, the
      revision claims of a transaction, and the unit of work of [storage/uow.py]),
      [PlanAttempts] (step attempts under a lease, round accounting, and the instance
      [plan_repository] of [PlanReader]).  [Collections] holds what is shared about sorted
      lists and dictionaries.
    - [storage/repositories/memory.py] and [memory/models.py], the entries of sessions and
      of long-term memory: [MemoryRepository].
    - [planner/models.py], the result documents of steps: [PlanResults] (their JSON form,
      reader and writer).
    - [planner/policy.py] and [planner/generator.py]: [PlanGenerator], whether a goal needs
      a Plan, and the making of drafts with their one repair.  The language model is a
      function from requests to answers.
    - [planner/service.py]: [PlanService], the first version of a Plan, revisions by the
      user and after a failure, and decisions.
    - [workflow/continuation.py]: [Continuation], storing assistant output and tool results.
    - [planner/execution.py]: [PlanExecution] (selecting and starting steps, verifying the
      stored results, reuse across versions, recording results) and [PlanLoop] (the loop,
      cancellation, revision after a failure, the final summary, recovery).
    - [tools/base.py], [tools/registry.py], [governance/permission.py],
      [governance/models.py], [governance/audit.py], the execution guard of
      [governance/sandbox/execution_guard.py] and [events/bus.py]: [Tools].
    - [tools/scheduler.py], [CoreToolScheduler]: [Scheduler], a durable call of a tool from
      its validation to its recorded result, calls without a run, requests for approval,
      and the repetition of interrupted executions.
    - [workflow/recovery.py], [WorkflowRecoveryWorker] and
      [RuntimeRecoveryContinuationService]: [RecoveryWorker], the search for runs that nobody
      works on, taking one over, and carrying out what the recovery service decided, with the
      scheduler, the execution of Plans and the agent.
    - [runtime/models.py], the runtime of a tenant, its run counters and leases, and its
      closing, with the counters that [runtime/factory.py] gives it: [TenantRuntime].
      [runtime/pool.py]: [RuntimePool], each call of the pool as a process that runs from one
      point where it may be suspended to the next, so that calls interleave.
    - [events/types.py] and [events/router.py]: [Events].  [security/redaction.py]:
      [Redaction].

    The components call each other as in the source: the coordinator opens a transaction
    and calls the repository; the repository reads and writes the tables; recovery reads
    through the repository, decodes with the codec and takes its lease through the
    coordinator.  The Plan repository is seen by the coordinator and by recovery through
    the type class [PlanReader]; the theorems about them rely on the one law [PlanReads],
    that its readers change nothing, and [plan_repository_reads] discharges it.

    ** How behaviour is modelled

    An operation that may raise is a computation [stM] (this file): it maps a world to a
    value or an exception, and the world it leaves.  A transaction puts the database back
    when its body raises.  The world is the database with the position in the streams of
    clock readings and of fresh identifiers; both streams and the digest are fields of the
    class [Env], arbitrary functions in every theorem, so that nothing depends on what the
    clock says or on the digest, except where a theorem asks for a digest without
    collisions.  A Python [str] is the byte string of its UTF-8 encoding.  Integers are
    unbounded, as in Python.

    [WorkflowSystem] puts the operations together: a [request] is one call of an operation,
    one of [recover], one transaction of the planning service or of the execution of a
    Plan, one write of the memory repository, or one unit of work with any list of calls of
    the Plan repository ([PlanSystem]), and [exec_all] runs any sequence of them.  Since each
    write transaction is atomic, the sequences are the interleavings of any number of
    processes.  Computations of several transactions (the execution of a Plan, the call of
    a tool) have refinement theorems of their own: their effects are those of their
    transactions in a row.  The work of a step, done by an agent, and that of a tool are
    computations that the theorems take as given; they ask of them only that they move the
    database as the engine does, and a tool may do so in the middle of a call, as a
    heartbeat does.

    ** What is proved

    - Against a specification: [WorkflowSpec] states, as a relation between databases, what
      a request may do to each table; [WorkflowRefinement] and [RecoveryRefinement] show
      that every operation moves the database only along it ([engine_refines_spec]).
      [PlanEffects] states the same for the Plan tables, in terms of whole versions, decisions
      and attempts; [PlanRefinement] and [PlanAttemptRefinement] show that the Plan
      repository follows it, and it is one of the effects of [WorkflowSpec].
      [ExecutionRefinement] does it for memory, service, continuation and Plan execution.
      [WorkflowHistory], [WorkflowInvariants], [PlanInvariants] and [PlanHistory] draw the
      consequences.
    - [WorkflowTheorems], on all sequences of requests: a superseded lease never writes
      again; the database stays well formed; the quota of a tenant holds; a run has at most
      one open execution; terminal runs are final; approvals are decided once; results are
      written once; tokens grow; checkpoints are append-only.
    - [OperationTheorems], with [WorkflowOperations] and [CheckpointWriting], on single
      operations: every branch of [acquire_run], [heartbeat] and [decide_approval]; failed
      requests roll back; what [checkpoint] stores decodes to what was given; finishing a
      run seals it; the codec is canonical, authentic and bounded.  One theorem records a
      defect: an execution in [failed_retryable] blocks its run for good.
    - [RecoveryTheorems], with [RecoveryOutcomes]: recovery fails closed, repeats only what
      the recovery strategy of the execution's row allows, and works only on approved
      Plans.
    - [PlanTheorems], with [PlanOrder] and [PlanSpec]: an accepted plan is a topological
      order of its draft within its limits, the ordering loop decides exactly the graphs
      it should, rejections are justified, stored plans validate again unchanged, digests
      identify plans, no accepted text looks like a credential, and an ordered plan never
      stalls.

    - [PlanRepositoryTheorems], with [PlanContent] (what a stored version holds),
      [PlanOutcomes], [PlanCreation] and [PlanRounds]: after any requests every
      Plan reads back as versions that validation accepted; the history is immutable; a
      decision sent again gets its first answer, rebuilt from the history; a run has at
      most one running attempt; a superseded lease commits no Plan work; an attempt starts
      only on a ready step of the approved version within its limits; creating a Plan
      succeeds and reads back; rounds stay within their budget.

    - [ExecutionTheorems], with [ExecutionFacts] (what a verified result is),
      [ExecutionOutcomes], [StoredResults] and [LoopTermination]: executing a Plan follows
      the specification and ends; the next step is the first ready one, with the recorded
      results of its dependencies; a stored result reads back and cannot be altered
      unnoticed; a cancellation seals the run.  Two theorems record defects: a revision
      asked for by a user always raises, and a step that rests on a reused result cannot
      be recorded.
    - [ToolTheorems], with [SchedulerRefinement] (the scheduler follows the specification),
      [ToolFacts] (what a transaction of the scheduler leaves behind, and when a tool is
      called) and [ToolResults] (recorded results): a tool is called only when its call is
      recorded and its run is held and not cancelled; an interrupted execution is repeated
      only when its stored input, its tool and its approval allow it; a reported success is
      on record and reads back; a call without approval stays inside the workspace; an
      approval is good for one call.  One theorem records a defect: a heartbeat during a
      call makes its result impossible to record.
    - [RecoveryWorkerTheorems], with [RecoveryRefinement] (a round of the worker follows
      the specification) and [RecoveryWorkerFacts]: no idle run is overlooked; the worker
      calls itself at most once; a run that cannot go on is sealed.  One theorem records a
      defect: when the last checkpoint of such a run names an execution that has ended,
      it is never sealed.
    - [RuntimeTheorems], with [RuntimePoolFacts] (a counter is the sum of the shares of the
      leases; what a step does, and the invariant of the locks) and
      [RuntimePoolRuns] (evictions and closing), on all interleavings: one call at a time
      works for a tenant; the pool stays within its capacity; what runs is not evicted; a
      closed pool stays empty.  Two theorems record defects: a runtime created while a run
      is running is never evicted, and two acquisitions can block each other for ever.
    - [MemoryTheorems]: what is saved reads back, and the message a Plan was made from is
      never lost.  [Events]: an event reaches exactly the subscribers of its scope.
      [Redaction]: no field with a secret name keeps its value.

    [Scenario], [PlanScenario] and [ToolScenario] are a concrete engine, a Plan with its
    execution, and tools with a round of the recovery worker, on which the theorems are run.

    ** Bounds and fuel

    The JSON parser takes fuel, twice the length of the text plus two: every call consumes a
    character or hands over to a part of the same value; [json_loads_print] shows that it
    suffices for every printed text.  The ordering loop of a draft runs at most one turn
    for each step; [order_loop_spec] shows that nothing is left when it stops.  A repetition
    in a regular expression runs at most once for each character left, since an iteration
    that consumes nothing ends it.  The execution loop takes fuel, one unit for each turn;
    [execution_terminates] shows that the number of stored steps times the limit of
    attempts, plus two, is enough.  The recovery worker takes the depth of its nested calls;
    [repetitions_never_nest] shows that two levels are enough.  Everything else is structural.

    ** Not modelled

    Row locks are no-ops, since transactions are atomic; so is the lock of
    [RunLeaseHandle].  Connection handling is outside; the events of an operation are values
    that it returns or leaves in the execution state.  Which characters outside ASCII are
    word characters is a parameter ([UnicodeData]).  The Plan repository is that of the
    SQLite dialect: the MySQL branches of its two duplicate checks, and a savepoint that
    fails to roll back, are left out.  The ranking of memory queries is left out.  Of a tool
    call, the resolution of paths, case folding and name-based UUIDs are parameters, and a
    timeout is an exception that the tool raises or that comes before its work.  Of the
    recovery worker, the rows of delegated jobs, the runtimes and the sessions that are busy
    are parameters, and the stream of a background run and missing tables are left out.  Of the
    runtime pool, the assembly of a runtime and the success of closing its parts are
    parameters; locks have no queue: any of those who wait may be next.  The background
    runs, the inference limits and the agent loop schedule the operations modelled here with
    queues and streams, and the deletion of accounts, the secrets and the collaboration
    service are other services on the same database; they are left out, as are those of
    the tools that do I/O: network and file access, HTTP handlers, authentication, sandboxes and
    encryption are outside the scope. *)

From stdpp Require Import base gmap strings list fin_maps relations.

(** ** Record update

    A row of a table is a record, and an SQL [UPDATE ... SET] changes some of its
    columns.  [r <| col := v |>] is that update; the setter of a column is derived
    from the record's eta expansion, declared once per record as an [Eta]. *)

Class Eta (R : Type) := eta : R → R.
Class Setter {R E : Type} (proj : R → E) := setter : (E → E) → R → R.

Ltac solve_setter R proj :=
  let inst := constr:(_ : Eta R) in
  let e := eval hnf in inst in
  lazymatch eval pattern proj in e with
  | ?h _ =>
      exact (fun f (r : R) =>
        ltac:(let t := eval cbv beta in (h (fun r' => f (proj r')) r) in exact t))
  end.

Global Hint Extern 1 (@Setter ?R ?E ?proj) => solve_setter R proj : typeclass_instances.
Arguments setter {R E} proj {_} _ _ /.

Declare Scope multiclaw_scope.
Delimit Scope multiclaw_scope with mc.
Open Scope multiclaw_scope.

Notation "r <| f := v |>" := (setter f (λ _, v) r)
  (at level 1, left associativity, f at level 11) : multiclaw_scope.

(** ** Outcomes and the exception-state monad

    Python code that raises is a computation in [stM]: it takes a state, and gives
    either a value or an exception, together with the state it leaves behind. *)

Inductive result (E A : Type) : Type :=
| Ok (a : A)
| Err (e : E).
Arguments Ok {E A} _.
Arguments Err {E A} _.

Definition stM (S E A : Type) : Type := S → result E A * S.

#[export] Instance stM_ret {S E} : MRet (stM S E) := λ A a s, (Ok a, s).
#[export] Instance stM_bind {S E} : MBind (stM S E) := λ A B f m s,
  match m s with
  | (Ok a, s') => f a s'
  | (Err e, s') => (Err e, s')
  end.

#[export] Instance result_ret {E} : MRet (result E) := λ A a, Ok a.
#[export] Instance result_bind {E} : MBind (result E) := λ A B f m,
  match m with
  | Ok a => f a
  | Err e => Err e
  end.

(** [if not b: raise e], for code that touches no state. *)
Definition ensure {E} (b : bool) (e : E) : result E unit := if b then Ok tt else Err e.

Lemma ensure_Ok {E} b (e : E) u : ensure b e = Ok u ↔ b = true.
Proof. destruct b, u; simpl; naive_solver. Qed.

Lemma result_bind_Ok {E A B} (m : result E A) (f : A → result E B) b :
  (m ≫= f) = Ok b ↔ ∃ a, m = Ok a ∧ f a = Ok b.
Proof. destruct m; unfold mbind, result_bind; naive_solver. Qed.

Lemma ensure_bind_Ok {E B} b (e : E) (f : unit → result E B) v :
  (ensure b e ≫= f) = Ok v ↔ b = true ∧ f tt = Ok v.
Proof. destruct b; unfold mbind, result_bind; simpl; naive_solver. Qed.

(** [raises_only P r]: an exception of [r] satisfies [P]. *)
Definition raises_only {E A} (P : E → Prop) (r : result E A) : Prop :=
  match r with Ok _ => True | Err e => P e end.

Lemma raises_only_ensure {E} (P : E → Prop) b e : (b = false → P e) → raises_only P (ensure b e).
Proof. destruct b; simpl; auto. Qed.

Lemma raises_only_bind {E A B} (P : E → Prop) (r : result E A) (f : A → result E B) :
  raises_only P r → (∀ a, r = Ok a → raises_only P (f a)) → raises_only P (r ≫= f).
Proof. destruct r; simpl; auto. Qed.

Section Computations.
Context {S E : Type}.

Definition throw {A} (e : E) : stM S E A := λ s, (Err e, s).
Definition gets {A} (f : S → A) : stM S E A := λ s, (Ok (f s), s).
Definition modify (f : S → S) : stM S E unit := λ s, (Ok tt, f s).

(** [guard b e] raises [e] when the condition the code requires is false. *)
Definition require (b : bool) (e : E) : stM S E unit :=
  if b then mret tt else throw e.

(** A computation that touches no state, inside one that does. *)
Definition lift {A} (r : result E A) : stM S E A := λ s, (r, s).

(** A transaction scope: when the body raises, the part of the state that is
    transactional goes back to what it was on entry ([restore entry exit]). *)
Definition transaction {A} (restore : S → S → S) (m : stM S E A) : stM S E A :=
  λ s, match m s with
       | (Ok a, s') => (Ok a, s')
       | (Err e, s') => (Err e, restore s s')
       end.

(** [try: m / except ...: handler]; the handler re-raises what it does not handle. *)
Definition catch {A} (m : stM S E A) (handler : E → stM S E A) : stM S E A :=
  λ s, match m s with
       | (Ok a, s') => (Ok a, s')
       | (Err e, s') => handler e s'
       end.

(** [raises m s e]: run on [s], the computation raises [e]. *)
Definition raises {A} (m : stM S E A) (s : S) (e : E) : Prop := (m s).1 = Err e.
Definition returns {A} (m : stM S E A) (s : S) (a : A) : Prop := (m s).1 = Ok a.
End Computations.

(** ** Runs that follow a relation

    [moves R m]: whatever the outcome of [m], the state it leaves is [R]-reachable
    from the one it started on.  The rules below let a proof about a composed
    operation follow the composition. *)

Definition moves {S E A} (R : relation S) (m : stM S E A) : Prop := ∀ s, R s (m s).2.

Section Moves.
Context {S E : Type} (R : relation S) `{!PreOrder R}.

Lemma moves_ret {A} (a : A) : moves (E:=E) R (mret a).
Proof. intros s. simpl. reflexivity. Qed.

Lemma moves_throw {A} (e : E) : moves R (throw e : stM S E A).
Proof. intros s. simpl. reflexivity. Qed.

Lemma moves_gets {A} (f : S → A) : moves (E:=E) R (gets f).
Proof. intros s. simpl. reflexivity. Qed.

Lemma moves_require b (e : E) : moves R (require b e).
Proof. destruct b; [apply moves_ret | apply moves_throw]. Qed.

Lemma moves_lift {A} (r : result E A) : moves R (lift r : stM S E A).
Proof. intros s. simpl. reflexivity. Qed.

Lemma moves_bind {A B} (m : stM S E A) (f : A → stM S E B) :
  moves R m → (∀ a, moves R (f a)) → moves R (m ≫= f).
Proof.
  intros Hm Hf s. unfold mbind, stM_bind. specialize (Hm s).
  destruct (m s) as [[a|e] s']; simpl in *; [etrans; [done|apply Hf] | done].
Qed.

Lemma moves_catch {A} (m : stM S E A) h :
  moves R m → (∀ e, moves R (h e)) → moves R (catch m h).
Proof.
  intros Hm Hh s. unfold catch. specialize (Hm s).
  destruct (m s) as [[a|e] s']; simpl in *; [done|]. etrans; [done|apply Hh].
Qed.

Lemma moves_transaction {A} restore (m : stM S E A) :
  moves R m → (∀ s s', R s (restore s s')) → moves R (transaction restore m).
Proof.
  intros Hm Hr s. unfold transaction. specialize (Hm s).
  destruct (m s) as [[a|e] s']; simpl in *; auto.
Qed.
End Moves.

Lemma require_Ok {S E} b (e : E) (s s' : S) u :
  require b e s = (Ok u, s') ↔ b = true ∧ s' = s.
Proof.
  destruct b, u; (split; [intros [=]; subst; auto|intros [? ->]]); done.
Qed.

Lemma bind_Ok {S E A B} (m : stM S E A) (f : A → stM S E B) s b s2 :
  (m ≫= f) s = (Ok b, s2) ↔ ∃ a s1, m s = (Ok a, s1) ∧ f a s1 = (Ok b, s2).
Proof.
  unfold mbind, stM_bind. destruct (m s) as [[a|e] s1]; naive_solver.
Qed.

Lemma bind_run {S E A B} (m : stM S E A) (f : A → stM S E B) s a s' :
  m s = (Ok a, s') → (m ≫= f) s = f a s'.
Proof. unfold mbind, stM_bind. by intros ->. Qed.

Lemma catch_Ok {S E A} (m : stM S E A) h s a s' :
  catch m h s = (Ok a, s') →
  m s = (Ok a, s') ∨ ∃ e s1, m s = (Err e, s1) ∧ h e s1 = (Ok a, s').
Proof. unfold catch. destruct (m s) as [[x|e] s1]; [by left|]. right. by exists e, s1. Qed.

(** ** Stable sorting

    Python's [sorted(l, key=...)] and an [ORDER BY]: insertion sort on a boolean
    order, which keeps equal elements in their original order. *)

Section Sorting.
Context {A : Type} (leb : A → A → bool).

Fixpoint insert_by (x : A) (l : list A) : list A :=
  match l with
  | [] => [x]
  | y :: l' => if leb x y then x :: l else y :: insert_by x l'
  end.

Fixpoint sort_by (l : list A) : list A :=
  match l with
  | [] => []
  | x :: l' => insert_by x (sort_by l')
  end.

Lemma insert_by_perm x l : insert_by x l ≡ₚ x :: l.
Proof.
  induction l as [|y l IH]; simpl; [done|].
  destruct (leb x y); [done|]. rewrite IH. constructor.
Qed.

Lemma sort_by_perm l : sort_by l ≡ₚ l.
Proof.
  induction l as [|x l IH]; simpl; [done|]. by rewrite insert_by_perm, IH.
Qed.

(** Each element is below the next one. *)
Fixpoint ordered (l : list A) : Prop :=
  match l with
  | [] => True
  | x :: l' => match l' with [] => True | y :: _ => leb x y = true end ∧ ordered l'
  end.

Lemma sort_by_ordered_id l : ordered l → sort_by l = l.
Proof.
  induction l as [|x l IH]; simpl; [done|]. intros [Hx Hl]. rewrite IH by done.
  destruct l as [|y l]; simpl; [done|]. by rewrite Hx.
Qed.

Hypothesis leb_total : ∀ x y, leb x y = false → leb y x = true.

Lemma insert_by_ordered x l : ordered l → ordered (insert_by x l).
Proof.
  induction l as [|y l IH]; simpl; [done|]. intros [Hy Hl].
  destruct (leb x y) eqn:E; simpl; [done|]. specialize (IH Hl).
  destruct l as [|z l]; simpl in *; [split; [by apply leb_total|done]|].
  destruct (leb x z); simpl in *; (split; [|done]); [by apply leb_total|done].
Qed.

Lemma sort_by_ordered l : ordered (sort_by l).
Proof. induction l as [|x l IH]; simpl; [done|]. by apply insert_by_ordered. Qed.
End Sorting.

(** The head of a sorted list is below every element. *)
Lemma sort_by_head {A} (leb : A → A → bool) l h :
  (∀ x y, leb x y = false → leb y x = true) →
  (∀ x, leb x x = true) → (∀ x y z, leb x y = true → leb y z = true → leb x z = true) →
  head (sort_by leb l) = Some h → h ∈ l ∧ ∀ x, x ∈ l → leb h x = true.
Proof.
  intros Htot Hrefl Htrans Hh.
  pose proof (sort_by_ordered leb Htot l) as Ho. pose proof (sort_by_perm leb l) as Hp.
  setoid_rewrite <-Hp. clear Hp. revert Hh. generalize dependent (sort_by leb l). clear l.
  intros l Ho Hh. destruct l as [|y l]; [done|]. injection Hh as ->. split; [by left|].
  intros x Hx. revert h Ho Hx. induction l as [|y l IH]; intros h Ho Hx.
  - apply list_elem_of_singleton in Hx as ->. apply Hrefl.
  - destruct Ho as [Hhy Ho]. apply elem_of_cons in Hx as [->|Hx]; [apply Hrefl|].
    eapply Htrans; [exact Hhy|]. by apply IH.
Qed.

(** Sorting commutes with a map that the order does not see. *)
Lemma sort_by_map {A B} (leA : A → A → bool) (leB : B → B → bool) (g : A → B) l :
  (∀ x y, leB (g x) (g y) = leA x y) →
  sort_by leB (map g l) = map g (sort_by leA l).
Proof.
  intros Hg.
  assert (Hins : ∀ x l, insert_by leB (g x) (map g l) = map g (insert_by leA x l)).
  { intros x l'. induction l' as [|y l' IH]; simpl; [done|].
    rewrite Hg. destruct (leA x y); simpl; [done|]. by rewrite IH. }
  induction l as [|x l IH]; simpl; [done|]. by rewrite IH, Hins.
Qed.
