(* ===== verification/Records.v ===== *)
(** * Records that exceptions carry ([tenancy/context.py], [planner/models.py] 42-187)

    The identity of a scoped operation and the Plan aggregate as its readers see it: an
    exception of the Plan repository hands the latest aggregate to its caller, so these
    records come before the exceptions. *)

From S2P Require Import Prelude.
From stdpp Require Import base gmap strings list.

(** ** The tenant context *)

Record TenantContext : Type := MkTenantContext {
  tc_tenant_id : string;
  tc_workspace_id : string;
  tc_session_id : option string;
  tc_run_id : option string;
  tc_request_started_at_ms : Z;
}.

#[export] Instance eta_TenantContext : Eta TenantContext := λ c,
  MkTenantContext (tc_tenant_id c) (tc_workspace_id c) (tc_session_id c)
    (tc_run_id c) (tc_request_started_at_ms c).

#[export] Instance TenantContext_eq_dec : EqDecision TenantContext.
Proof. solve_decision. Defined.

(** ** Enumerations *)

Inductive PlanStatus : Type :=
| PLAN_AWAITING | PLAN_APPROVED | PLAN_REJECTED | PLAN_ARCHIVED.

Inductive PlanTriggerMode : Type := TRIGGER_AUTOMATIC | TRIGGER_EXPLICIT.

Inductive PlanDecisionAction : Type := DECIDE_APPROVE | DECIDE_REJECT | DECIDE_REVISE.

Inductive PlanStepRunStatus : Type :=
| STEP_PENDING | STEP_RUNNING | STEP_SUCCEEDED | STEP_FAILED_RETRYABLE
| STEP_FAILED_TERMINAL | STEP_CANCELLED.

#[export] Instance PlanStatus_eq_dec : EqDecision PlanStatus.
Proof. solve_decision. Defined.
#[export] Instance PlanTriggerMode_eq_dec : EqDecision PlanTriggerMode.
Proof. solve_decision. Defined.
#[export] Instance PlanDecisionAction_eq_dec : EqDecision PlanDecisionAction.
Proof. solve_decision. Defined.
#[export] Instance PlanStepRunStatus_eq_dec : EqDecision PlanStepRunStatus.
Proof. solve_decision. Defined.

(** ** Records *)

Record PlanDecisionRecord : Type := MkPlanDecisionRecord {
  pdr_decision_id : string;
  pdr_plan_version : Z;
  pdr_expected_plan_cas_version : Z;
  pdr_action : PlanDecisionAction;
  pdr_feedback : option string;
  pdr_decided_by : string;
  pdr_resulting_plan_version : option Z;
  pdr_created_at : Z;
}.

Record PlanStepRecord : Type := MkPlanStepRecord {
  pst_step_id : string;
  pst_logical_step_key : string;
  pst_supersedes_step_id : option string;
  pst_ordinal : Z;
  pst_title : string;
  pst_description : string;
  pst_expected_outcome : string;
  pst_assigned_agent_profile_id : option string;
  pst_max_attempts : Z;
  pst_definition_digest : string;
}.

Record PlanStepRunRecord : Type := MkPlanStepRunRecord {
  psr_step_run_id : string;
  psr_run_id : string;
  psr_plan_id : string;
  psr_plan_version : Z;
  psr_step_id : string;
  psr_attempt : Z;
  psr_status : PlanStepRunStatus;
  psr_result_summary : option string;
  psr_result_ref : option string;
  psr_result_digest : option string;
  psr_error_code : option string;
  psr_error_detail_redacted : option string;
  psr_reused_from_step_run_id : option string;
  psr_version : Z;
  psr_started_at : Z;
  psr_finished_at : option Z;
}.

Record PlanVersionRecord : Type := MkPlanVersionRecord {
  pvr_plan_id : string;
  pvr_plan_version : Z;
  pvr_objective : string;
  pvr_constraints : list string;
  pvr_generation_reason : string;
  pvr_parent_version : option Z;
  pvr_revision_feedback : option string;
  pvr_schema_version : Z;
  pvr_content_digest : string;
  pvr_created_at : Z;
  pvr_steps : list PlanStepRecord;
  pvr_dependencies : gmap string (list string);
}.

Record PlanSnapshot : Type := MkPlanSnapshot {
  ps_context : TenantContext;
  ps_plan_id : string;
  ps_source_message_id : string;
  ps_trigger_mode : PlanTriggerMode;
  ps_status : PlanStatus;
  ps_current_version : Z;
  ps_approved_version : option Z;
  ps_aggregate_version : Z;
  ps_created_at : Z;
  ps_updated_at : Z;
  ps_current : PlanVersionRecord;
  ps_versions : list PlanVersionRecord;
  ps_decisions : list PlanDecisionRecord;
}.

#[export] Instance PlanDecisionRecord_eq_dec : EqDecision PlanDecisionRecord.
Proof. solve_decision. Defined.
#[export] Instance PlanStepRecord_eq_dec : EqDecision PlanStepRecord.
Proof. solve_decision. Defined.
#[export] Instance PlanStepRunRecord_eq_dec : EqDecision PlanStepRunRecord.
Proof. solve_decision. Defined.
#[export] Instance PlanVersionRecord_eq_dec : EqDecision PlanVersionRecord.
Proof. solve_decision. Defined.
#[export] Instance PlanSnapshot_eq_dec : EqDecision PlanSnapshot.
Proof. solve_decision. Defined.

#[export] Instance eta_PlanDecisionRecord : Eta PlanDecisionRecord := λ d,
  MkPlanDecisionRecord (pdr_decision_id d) (pdr_plan_version d)
    (pdr_expected_plan_cas_version d) (pdr_action d) (pdr_feedback d) (pdr_decided_by d)
    (pdr_resulting_plan_version d) (pdr_created_at d).

#[export] Instance eta_PlanSnapshot : Eta PlanSnapshot := λ s,
  MkPlanSnapshot (ps_context s) (ps_plan_id s) (ps_source_message_id s)
    (ps_trigger_mode s) (ps_status s) (ps_current_version s) (ps_approved_version s)
    (ps_aggregate_version s) (ps_created_at s) (ps_updated_at s) (ps_current s)
    (ps_versions s) (ps_decisions s).
