(* ===== verification/Errors.v ===== *)
(** * Exceptions

    The exceptions the modelled code raises, one constructor per Python class,
    carrying the message the source gives them: the workflow hierarchy of
    [workflow/models.py], the Plan exceptions of [planner/models.py],
    [planner/validation.py], [planner/generator.py] and [planner/policy.py], those of the
    tool scheduler and of its guard, and the exceptions of the language and of the
    database layer the modelled code lets through. *)

From S2P Require Import Prelude.
From S2P Require Import Records.
From stdpp Require Import base strings.

(** What an [IntegrityError] of the database says.  The tables of the workflow report
    the table only; those of the Plan report the constraint, since the Plan repository
    looks at it: a duplicate names its table, its key and the columns of that key. *)
Inductive violation : Type :=
| ConstraintFailed (table : string)
| DuplicateKey (table key_name : string) (columns : list string)
| CheckFailed (constraint : string)
| ForeignKeyFailed (constraint : string).

#[export] Instance violation_eq_dec : EqDecision violation.
Proof. solve_decision. Defined.

Inductive exn : Type :=
| ValueError (msg : string)
| RuntimeError (msg : string)
| TypeError (msg : string)
| AssertionError
| KeyError
| IndexError
| AttributeError
| IntegrityError (v : violation)
| ValidationError
| NoResultFound
| LeaseConflictError (msg : string)
| StaleFenceError (msg : string)
| InvalidTransitionError (msg : string)
| VersionConflictError (msg : string)
| TenantRunQuotaError (msg : string)
| CheckpointTooLargeError (msg : string)
| CorruptCheckpointError (msg : string)
| IncompatibleCheckpointError (msg : string)
| PlanValidationError (msg : string)
| PlanNotFoundError (msg : string)
| PlanDecisionIdempotencyError (msg : string)
| PlanVersionConflictError (latest : PlanSnapshot)
| PlanRevisionLimitError (msg : string)
| PlanExecutionBlocked (msg : string)
| PlanCancellationRequested
| PlanStepAlreadyRunningError (msg : string)
| PlanAttemptLimitError (msg : string)
| PlanRoundBudgetExceeded (msg : string)
| PlanGenerationError (msg : string)
| PlanningUnavailableError (msg : string)
| ExecutionConflictError (msg : string)
| ExecutionTimeoutError.

#[export] Instance exn_eq_dec : EqDecision exn.
Proof. solve_decision. Defined.

(** The exceptions that the source groups under [WorkflowError]. *)
Definition WorkflowError (e : exn) : bool :=
  match e with
  | LeaseConflictError _ | StaleFenceError _ | InvalidTransitionError _
  | VersionConflictError _ | TenantRunQuotaError _ | CheckpointTooLargeError _
  | CorruptCheckpointError _ | IncompatibleCheckpointError _ => true
  | _ => false
  end.
