(* ===== verification/Json.v ===== *)
(** * JSON as the program writes and reads it

    [canonical_json] of [workflow/recovery.py] is [json.dumps] with sorted keys, compact
    separators and [ensure_ascii=False]; stored documents are read with [json.loads].
    Python strings are the UTF-8 byte strings of the database columns, so code point
    order is byte order and a character outside ASCII is copied byte by byte.  Integers
    are unbounded; a float keeps the text it was written with.  Not modelled: the
    interpreter's recursion limit and its limit of 4300 digits per integer. *)

From S2P Require Import Prelude.
From stdpp Require Import base strings list.
From Stdlib Require Import Ascii String DecimalString DecimalZ DecimalFacts Decimal.

Inductive json : Type :=
| JNull
| JBool (b : bool)
| JInt (z : Z)
| JFloat (lexeme : string)
| JStr (s : string)
| JArr (l : list json)
| JObj (l : list (string * json)).

(** ** Text

    A Python [str] is the byte string of its UTF-8 encoding; its [len] counts the bytes
    that do not continue a character. *)

Definition utf8_continuation (c : ascii) : bool :=
  let n := N_of_ascii c in (128 <=? n)%N && (n <=? 191)%N.

Fixpoint utf8_length (s : string) : Z :=
  match s with
  | EmptyString => 0
  | String c s => (if utf8_continuation c then 0 else 1) + utf8_length s
  end%Z.

Definition ascii_lower (c : ascii) : ascii :=
  let n := N_of_ascii c in
  if (65 <=? n)%N && (n <=? 90)%N then ascii_of_N (n + 32) else c.

(** ** Printing *)

Definition DQUOTE : ascii := "034"%char.
Definition BACKSLASH : ascii := "092"%char.
Definition ch (c : ascii) : string := String c EmptyString.

(** [str(z)]. *)
Definition str_of_int (z : Z) : string := NilZero.string_of_int (Z.to_int z).

Definition hex_digit (n : N) : ascii :=
  ascii_of_N (if (n <? 10)%N then 48 + n else 87 + n)%N.

(** One byte of a string inside quotes. *)
Definition escape_char (c : ascii) : string :=
  if Ascii.eqb c DQUOTE then String BACKSLASH (ch DQUOTE)
  else if Ascii.eqb c BACKSLASH then String BACKSLASH (ch BACKSLASH)
  else match N_of_ascii c with
  | 8%N => String BACKSLASH "b"
  | 9%N => String BACKSLASH "t"
  | 10%N => String BACKSLASH "n"
  | 12%N => String BACKSLASH "f"
  | 13%N => String BACKSLASH "r"
  | n => if (n <? 32)%N
         then String BACKSLASH ("u00" +:+ ch (hex_digit (n / 16)) +:+ ch (hex_digit (n mod 16)))
         else ch c
  end.

Fixpoint escape (s : string) : string :=
  match s with
  | EmptyString => EmptyString
  | String c s => escape_char c +:+ escape s
  end.

Definition quoted (s : string) : string := String DQUOTE (escape s +:+ ch DQUOTE).

Fixpoint join (sep : string) (l : list string) : string :=
  match l with
  | [] => ""
  | [s] => s
  | s :: l => s +:+ sep +:+ join sep l
  end.

Definition key_leb {A} (x y : string * A) : bool := String.leb x.1 y.1.

Fixpoint print_json (j : json) : string :=
  match j with
  | JNull => "null"
  | JBool true => "true"
  | JBool false => "false"
  | JInt z => str_of_int z
  | JFloat x => x
  | JStr s => quoted s
  | JArr l => "[" +:+ join "," (map print_json l) +:+ "]"
  | JObj l =>
    let members := map (λ '(k, v), (k, print_json v)) l in
    "{" +:+ join "," (map (λ '(k, t), quoted k +:+ ":" +:+ t) (sort_by key_leb members))
        +:+ "}"
  end.

(** ** Parsing *)

Definition is_ws (c : ascii) : bool :=
  match N_of_ascii c with 9%N | 10%N | 13%N | 32%N => true | _ => false end.

Fixpoint skip_ws (s : string) : string :=
  match s with
  | String c s' => if is_ws c then skip_ws s' else s
  | EmptyString => EmptyString
  end.

Definition is_digit (c : ascii) : bool :=
  let n := N_of_ascii c in (48 <=? n)%N && (n <=? 57)%N.

Fixpoint span_digits (s : string) : string * string :=
  match s with
  | String c s' =>
    if is_digit c then let '(a, b) := span_digits s' in (String c a, b) else ("", s)
  | EmptyString => ("", "")
  end.

(** [0|[1-9]\d*]: a zero ends the integer part. *)
Definition scan_natural (s : string) : string * string :=
  match s with
  | String "0"%char s' => ("0", s')
  | _ => span_digits s
  end.

Definition hex_value (c : ascii) : option N :=
  let n := N_of_ascii c in
  if is_digit c then Some (n - 48)%N
  else if (97 <=? n)%N && (n <=? 102)%N then Some (n - 87)%N
  else if (65 <=? n)%N && (n <=? 70)%N then Some (n - 55)%N
  else None.

Definition hex4 (a b c d : ascii) : option N :=
  a ← hex_value a; b ← hex_value b; c ← hex_value c; d ← hex_value d;
  Some (((a * 16 + b) * 16 + c) * 16 + d)%N.

(** A code point as UTF-8 bytes (a lone surrogate keeps its three-byte form). *)
Definition utf8_encode (n : N) : string :=
  if (n <? 128)%N then ch (ascii_of_N n)
  else if (n <? 2048)%N then
    String (ascii_of_N (192 + n / 64)) (ch (ascii_of_N (128 + n mod 64)))
  else if (n <? 65536)%N then
    String (ascii_of_N (224 + n / 4096))
      (String (ascii_of_N (128 + (n / 64) mod 64)) (ch (ascii_of_N (128 + n mod 64))))
  else
    String (ascii_of_N (240 + n / 262144))
      (String (ascii_of_N (128 + (n / 4096) mod 64))
        (String (ascii_of_N (128 + (n / 64) mod 64)) (ch (ascii_of_N (128 + n mod 64))))).

Definition simple_escape (c : ascii) : option ascii :=
  match c with
  | "034"%char => Some "034"%char
  | "092"%char => Some "092"%char
  | "/"%char => Some "/"%char
  | "b"%char => Some "008"%char
  | "f"%char => Some "012"%char
  | "n"%char => Some "010"%char
  | "r"%char => Some "013"%char
  | "t"%char => Some "009"%char
  | _ => None
  end.

Definition is_high_surrogate (n : N) : bool := (55296 <=? n)%N && (n <=? 56319)%N.
Definition is_low_surrogate (n : N) : bool := (56320 <=? n)%N && (n <=? 57343)%N.

(** The body of a string, after its opening quote: the decoded text and what follows
    the closing quote.  Control characters are refused, as with [strict=True]. *)
Fixpoint scan_string (s : string) : option (string * string) :=
  let emit (t : string) (r : option (string * string)) :=
    '(u, rest) ← r; Some (t +:+ u, rest) in
  match s with
  | EmptyString => None
  | String c s1 =>
    if Ascii.eqb c DQUOTE then Some ("", s1)
    else if Ascii.eqb c BACKSLASH then
      match s1 with
      | String "u"%char (String h1 (String h2 (String h3 (String h4 s2)))) =>
        match hex4 h1 h2 h3 h4 with
        | None => None
        | Some n =>
          if is_high_surrogate n then
            match s2 with
            | String "092"%char
                (String "u"%char (String g1 (String g2 (String g3 (String g4 s3))))) =>
              match hex4 g1 g2 g3 g4 with
              | None => None
              | Some m =>
                if is_low_surrogate m
                then emit (utf8_encode (65536 + (n - 55296) * 1024 + (m - 56320)))
                       (scan_string s3)
                else emit (utf8_encode n) (scan_string s2)
              end
            | _ => emit (utf8_encode n) (scan_string s2)
            end
          else emit (utf8_encode n) (scan_string s2)
        end
      | String e s2 =>
        match simple_escape e with
        | None => None
        | Some x => emit (ch x) (scan_string s2)
        end
      | EmptyString => None
      end
    else if (N_of_ascii c <? 32)%N then None
    else emit (ch c) (scan_string s1)
  end.

(** A number: an integer unless a fraction or an exponent follows. *)
Definition scan_fraction (s : string) : string * string :=
  match s with
  | String "."%char s' =>
    match span_digits s' with
    | (EmptyString, _) => ("", s)
    | (d, rest) => ("." +:+ d, rest)
    end
  | _ => ("", s)
  end.

Definition scan_exponent (s : string) : string * string :=
  match s with
  | String e s' =>
    if Ascii.eqb e "e"%char || Ascii.eqb e "E"%char then
      let '(sign, s2) :=
        match s' with
        | String "+"%char s2 => ("+", s2)
        | String "-"%char s2 => ("-", s2)
        | _ => ("", s')
        end in
      match span_digits s2 with
      | (EmptyString, _) => ("", s)
      | (d, rest) => (ch e +:+ sign +:+ d, rest)
      end
    else ("", s)
  | EmptyString => ("", s)
  end.

Definition number_of (sign digits rest : string) : option (json * string) :=
  match digits with
  | EmptyString => None
  | _ =>
    let '(f, r1) := scan_fraction rest in
    let '(e, r2) := scan_exponent r1 in
    match f, e with
    | EmptyString, EmptyString =>
      i ← NilZero.int_of_string (sign +:+ digits);
      Some (JInt (Z.of_int i), rest)
    | _, _ => Some (JFloat (sign +:+ digits +:+ f +:+ e), r2)
    end
  end.

Definition scan_number (s : string) : option (json * string) :=
  match s with
  | String "-"%char s' => let '(d, rest) := scan_natural s' in number_of "-" d rest
  | _ => let '(d, rest) := scan_natural s in number_of "" d rest
  end.

(** [s] without the prefix [p]. *)
Fixpoint strip (p s : string) : option string :=
  match p, s with
  | EmptyString, _ => Some s
  | String a p, String b s => if Ascii.eqb a b then strip p s else None
  | String _ _, EmptyString => None
  end.

Definition scan_constant (s : string) : option (json * string) :=
  match strip "null" s with
  | Some r => Some (JNull, r)
  | None => match strip "true" s with
  | Some r => Some (JBool true, r)
  | None => match strip "false" s with
  | Some r => Some (JBool false, r)
  | None => match strip "NaN" s with
  | Some r => Some (JFloat "NaN", r)
  | None => match strip "Infinity" s with
  | Some r => Some (JFloat "Infinity", r)
  | None => match strip "-Infinity" s with
  | Some r => Some (JFloat "-Infinity", r)
  | None => None
  end end end end end end.

(** [dict(pairs)]: a repeated key keeps its first place and takes the last value. *)
Fixpoint dict_insert (k : string) (v : json) (l : list (string * json))
    : list (string * json) :=
  match l with
  | [] => [(k, v)]
  | (k', v') :: l => if String.eqb k k' then (k, v) :: l else (k', v') :: dict_insert k v l
  end.

Definition dict_of (pairs : list (string * json)) : list (string * json) :=
  fold_left (λ d '(k, v), dict_insert k v d) pairs [].

Definition head_is (c : ascii) (s : string) : option string :=
  match s with
  | String x s' => if Ascii.eqb x c then Some s' else None
  | EmptyString => None
  end.

(** Values, the elements of an array after its bracket or a comma, and the members of
    an object likewise; the fuel bounds the nesting and the number of elements. *)
Fixpoint parse_value (fuel : nat) (s : string) : option (json * string) :=
  match fuel with
  | O => None
  | S fuel =>
    match s with
    | EmptyString => None
    | String c s1 =>
      if Ascii.eqb c DQUOTE then '(t, rest) ← scan_string s1; Some (JStr t, rest)
      else if Ascii.eqb c "{"%char then
        match head_is "}" (skip_ws s1) with
        | Some rest => Some (JObj [], rest)
        | None => '(l, rest) ← parse_members fuel (skip_ws s1); Some (JObj (dict_of l), rest)
        end
      else if Ascii.eqb c "["%char then
        match head_is "]" (skip_ws s1) with
        | Some rest => Some (JArr [], rest)
        | None => '(l, rest) ← parse_elements fuel (skip_ws s1); Some (JArr l, rest)
        end
      else match scan_constant s with
      | Some r => Some r
      | None => scan_number s
      end
    end
  end
with parse_elements (fuel : nat) (s : string) : option (list json * string) :=
  match fuel with
  | O => None
  | S fuel =>
    '(v, r1) ← parse_value fuel s;
    match head_is "," (skip_ws r1) with
    | Some r2 => '(l, rest) ← parse_elements fuel (skip_ws r2); Some (v :: l, rest)
    | None => rest ← head_is "]" (skip_ws r1); Some ([v], rest)
    end
  end
with parse_members (fuel : nat) (s : string) : option (list (string * json) * string) :=
  match fuel with
  | O => None
  | S fuel =>
    s1 ← head_is DQUOTE s;
    '(k, r1) ← scan_string s1;
    r2 ← head_is ":" (skip_ws r1);
    '(v, r3) ← parse_value fuel (skip_ws r2);
    match head_is "," (skip_ws r3) with
    | Some r4 => '(l, rest) ← parse_members fuel (skip_ws r4); Some ((k, v) :: l, rest)
    | None => rest ← head_is "}" (skip_ws r3); Some ([(k, v)], rest)
    end
  end.

(** [json.loads]; [None] is a [JSONDecodeError]. *)
Definition json_loads (s : string) : option json :=
  '(j, rest) ← parse_value (2 * String.length s + 2) (skip_ws s);
  match skip_ws rest with EmptyString => Some j | _ => None end.

(** ** Reading back what was printed *)

Section JsonInduction.
Variable P : json → Prop.
Hypothesis Hnull : P JNull.
Hypothesis Hbool : ∀ b, P (JBool b).
Hypothesis Hint : ∀ z, P (JInt z).
Hypothesis Hfloat : ∀ x, P (JFloat x).
Hypothesis Hstr : ∀ s, P (JStr s).
Hypothesis Harr : ∀ l, Forall P l → P (JArr l).
Hypothesis Hobj : ∀ l, Forall (λ kv, P kv.2) l → P (JObj l).

Fixpoint json_nested_ind (j : json) : P j :=
  match j with
  | JNull => Hnull
  | JBool b => Hbool b
  | JInt z => Hint z
  | JFloat x => Hfloat x
  | JStr s => Hstr s
  | JArr l => Harr l
      ((fix go (l : list json) : Forall P l :=
          match l with
          | [] => @Forall_nil_2 _ _
          | x :: l => Forall_cons_2 _ _ _ (json_nested_ind x) (go l)
          end) l)
  | JObj l => Hobj l
      ((fix go (l : list (string * json)) : Forall (λ kv, P kv.2) l :=
          match l with
          | [] => @Forall_nil_2 _ _
          | kv :: l => Forall_cons_2 _ _ _ (json_nested_ind kv.2) (go l)
          end) l)
  end.
End JsonInduction.

(** No floats, and no repeated key in an object. *)
Fixpoint plain (j : json) : bool :=
  match j with
  | JFloat _ => false
  | JArr l => forallb plain l
  | JObj l => bool_decide (NoDup (map fst l)) && forallb (λ kv, plain kv.2) l
  | _ => true
  end.

(** The value with the keys of every object in order. *)
Fixpoint canon (j : json) : json :=
  match j with
  | JArr l => JArr (map canon l)
  | JObj l => JObj (sort_by key_leb (map (λ kv, (kv.1, canon kv.2)) l))
  | _ => j
  end.

Lemma str_app_assoc (a b c : string) : (a +:+ b) +:+ c = a +:+ (b +:+ c).
Proof. induction a as [|x a IH]; simpl; [done|]. unfold String.app in *. by rewrite IH. Qed.

Lemma str_app_nil (a : string) : a +:+ "" = a.
Proof. induction a as [|x a IH]; simpl; [done|]. unfold String.app in *. by rewrite IH. Qed.

Lemma str_length_app (a b : string) :
  String.length (a +:+ b) = (String.length a + String.length b)%nat.
Proof. induction a as [|x a IH]; simpl; [done|]. unfold String.app in *. by rewrite IH. Qed.

Lemma scan_escape_char c t :
  scan_string (escape_char c +:+ t) = '(u, rest) ← scan_string t; Some (ch c +:+ u, rest).
Proof. destruct c as [[] [] [] [] [] [] [] []]; reflexivity. Qed.

Lemma scan_string_escape s rest :
  scan_string (escape s +:+ String DQUOTE rest) = Some (s, rest).
Proof.
  induction s as [|c s IH]; [reflexivity|].
  cbn [escape]. rewrite str_app_assoc, scan_escape_char, IH. reflexivity.
Qed.

(** *** Integers *)

(** What may follow a number: nothing that could continue it. *)
Definition ends_number (s : string) : bool :=
  match s with
  | EmptyString => true
  | String c _ =>
    negb (is_digit c || Ascii.eqb c "."%char || Ascii.eqb c "e"%char ||
          Ascii.eqb c "E"%char)
  end.

Lemma ends_number_inv s :
  ends_number s = true →
  span_digits s = ("", s) ∧ scan_fraction s = ("", s) ∧ scan_exponent s = ("", s).
Proof.
  destruct s as [|c s]; [done|]. cbn [ends_number].
  rewrite negb_true_iff, !orb_false_iff. intros (((Hd & Hp) & He) & HE).
  split_and!; simpl.
  - by rewrite Hd.
  - destruct (ascii_dec c "."%char) as [->|Hc]; [done|].
    unfold scan_fraction. by destruct c as [[] [] [] [] [] [] [] []].
  - by rewrite He, HE.
Qed.

Lemma span_digits_uint d rest :
  ends_number rest = true →
  span_digits (NilEmpty.string_of_uint d +:+ rest) = (NilEmpty.string_of_uint d, rest).
Proof.
  intros Hr. induction d; simpl; try (unfold String.app in *; by rewrite IHd).
  by destruct (ends_number_inv _ Hr).
Qed.

Lemma scan_natural_unorm d rest :
  ends_number rest = true → d = unorm d →
  scan_natural (NilEmpty.string_of_uint d +:+ rest) = (NilEmpty.string_of_uint d, rest).
Proof.
  intros Hr Hd. pose proof (span_digits_uint d rest Hr) as Hs.
  destruct d; try exact Hs.
  - by destruct (unorm_nonnil Nil).
  - enough (d = Nil) as ->; [done|].
    unfold unorm in Hd. destruct (nzhead (D0 d)) eqn:E; try discriminate Hd;
      [by injection Hd | by destruct (nzhead_nonzero _ _ E)].
Qed.

Lemma to_uint_unorm z : ∃ d, d = unorm d ∧ d ≠ Nil ∧
  ((Z.to_int z = Decimal.Pos d ∧ str_of_int z = NilEmpty.string_of_uint d) ∨
   (Z.to_int z = Decimal.Neg d ∧
    str_of_int z = String "-"%char (NilEmpty.string_of_uint d))).
Proof.
  assert (Hn : Z.to_int z = norm (Z.to_int z)).
  { by rewrite <-DecimalZ.to_of, DecimalZ.of_to. }
  unfold str_of_int. destruct (Z.to_int z) as [d|d] eqn:E.
  - assert (Hd : d = unorm d) by (simpl in Hn; congruence).
    assert (d ≠ Nil) by (rewrite Hd; apply unorm_nonnil).
    exists d. split_and!; [done|done|left]. split; [done|]. by destruct d.
  - assert (Hd : d = unorm d).
    { simpl in Hn. destruct (nzhead d) eqn:Ed; [done|..];
        (rewrite <-unorm_nzhead in Ed by (rewrite Ed; done)); congruence. }
    assert (d ≠ Nil) by (rewrite Hd; apply unorm_nonnil).
    exists d. split_and!; [done|done|right]. split; [done|]. by destruct d.
Qed.

Lemma uint_string_digit d :
  d ≠ Nil → ∃ c s, NilEmpty.string_of_uint d = String c s ∧ is_digit c = true.
Proof. destruct d; intros ?; simpl; eauto; done. Qed.

Lemma int_of_str z : NilZero.int_of_string (str_of_int z) = Some (Z.to_int z).
Proof.
  destruct (to_uint_unorm z) as (d & _ & Hn & [[E _]|[E _]]);
    unfold str_of_int; rewrite E; apply NilZero.isi; congruence.
Qed.

Lemma number_of_int sign digits rest z :
  digits ≠ "" → ends_number rest = true →
  NilZero.int_of_string (sign +:+ digits) = Some (Z.to_int z) →
  number_of sign digits rest = Some (JInt z, rest).
Proof.
  intros Hd (_ & Hf & He)%ends_number_inv Hi. unfold number_of.
  destruct digits as [|c s]; [done|]. rewrite Hf, He, Hi. simpl.
  by rewrite DecimalZ.of_to.
Qed.

Lemma scan_number_str z rest :
  ends_number rest = true → scan_number (str_of_int z +:+ rest) = Some (JInt z, rest).
Proof.
  intros Hr. destruct (to_uint_unorm z) as (d & Hd & Hn & Hz).
  pose proof (scan_natural_unorm d rest Hr Hd) as Hs.
  destruct (uint_string_digit d Hn) as (c & s & Hc & Hdig).
  pose proof (int_of_str z) as Hi.
  destruct Hz as [[_ E]|[_ E]]; rewrite E in *; rewrite Hc in *; unfold scan_number.
  - transitivity (number_of "" (String c s) rest); [|by apply number_of_int].
    rewrite Hs. by destruct c as [[] [] [] [] [] [] [] []].
  - change ((String "-" (String c s)) +:+ rest) with (String "-" (String c s +:+ rest)).
    cbv beta iota. rewrite Hs. by apply number_of_int.
Qed.

Lemma scan_constant_int z rest :
  scan_constant (str_of_int z +:+ rest) = None.
Proof.
  destruct (to_uint_unorm z) as (d & _ & Hn & Hz).
  destruct (uint_string_digit d Hn) as (c & s & Hc & Hdig).
  destruct Hz as [[_ ->]|[_ ->]]; rewrite Hc;
    by destruct c as [[] [] [] [] [] [] [] []].
Qed.

(** *** Values *)

Definition reads_back (j : json) : Prop := ∀ fuel rest,
  (2 * String.length (print_json j) ≤ fuel)%nat → ends_number rest = true →
  parse_value fuel (print_json j +:+ rest) = Some (canon j, rest).

Definition not_ws_head (s : string) : Prop :=
  match s with EmptyString => False | String c _ => is_ws c = false end.

Lemma skip_ws_head s rest : not_ws_head s → skip_ws (s +:+ rest) = s +:+ rest.
Proof. destruct s as [|c s]; simpl; [done|]. by intros ->. Qed.

Lemma str_of_int_head z : ∃ c s, str_of_int z = String c s ∧ is_ws c = false ∧
  Ascii.eqb c DQUOTE = false ∧ Ascii.eqb c "{"%char = false ∧ Ascii.eqb c "["%char = false ∧
  Ascii.eqb c "]"%char = false.
Proof.
  destruct (to_uint_unorm z) as (d & _ & Hn & Hz).
  destruct (uint_string_digit d Hn) as (c & s & Hc & Hd).
  destruct Hz as [[_ ->]|[_ ->]]; [rewrite Hc|]; eexists _, _; (split; [done|]);
    [|done]. by destruct c as [[] [] [] [] [] [] [] []].
Qed.

Lemma print_json_head j :
  plain j = true → not_ws_head (print_json j) ∧
  ∀ rest, head_is "]"%char (print_json j +:+ rest) = None.
Proof.
  destruct j as [|[]|z|x|s|l|l]; intros Hp; try (split; [done|by intros]).
  - destruct (str_of_int_head z) as (c & s & Hs & Hw & _ & _ & _ & Hb).
    cbn [print_json]. rewrite Hs. split; [done|]. intros rest. simpl. by rewrite Hb.
Qed.

Lemma head_is_sep s : head_is ","%char (skip_ws ("," +:+ s)) = Some s.
Proof. reflexivity. Qed.

Lemma parse_elements_print l :
  l ≠ [] → Forall reads_back l → forallb plain l = true → ∀ fuel rest,
  (2 * String.length (join "," (map print_json l)) + 1 ≤ fuel)%nat →
  parse_elements fuel (join "," (map print_json l) +:+ ("]" +:+ rest)) =
    Some (map canon l, rest).
Proof.
  induction l as [|v l IH]; [done|]. intros _ Hf Hp fuel rest Hlen.
  apply Forall_cons in Hf as [Hv Hl]. simpl in Hp. apply andb_true_iff in Hp as [_ Hp].
  destruct fuel as [|fuel]; [simpl in Hlen; lia|].
  destruct l as [|w l].
  - cbn -[mult] in *. rewrite (Hv fuel) by (done || lia). done.
  - change (join "," (map print_json (v :: w :: l)))
      with (print_json v +:+ "," +:+ join "," (map print_json (w :: l))) in *.
    rewrite !str_length_app in Hlen. rewrite !str_app_assoc. cbn [parse_elements].
    rewrite (Hv fuel) by (done || lia). cbn [mbind option_bind]. rewrite head_is_sep.
    assert (Hw : not_ws_head (join "," (map print_json (w :: l)))).
    { simpl in Hp. apply andb_true_iff in Hp as [Hpw _].
      destruct (print_json_head w Hpw) as [Hh _].
      cbn [map]. destruct (print_json w) as [|c s] eqn:E; [done|]. destruct l; simpl; done. }
    rewrite (skip_ws_head _ _ Hw).
    rewrite IH; [done..|]. cbn [String.length] in Hlen. lia.
Qed.

Definition member_text (kv : string * json) : string :=
  quoted kv.1 +:+ ":" +:+ print_json kv.2.

Lemma member_text_app k v tail :
  member_text (k, v) +:+ tail =
  String DQUOTE (escape k +:+ String DQUOTE (":" +:+ (print_json v +:+ tail))).
Proof.
  unfold member_text, quoted. cbn [fst snd]. rewrite !str_app_assoc.
  transitivity (String DQUOTE ((escape k +:+ ch DQUOTE) +:+ (":" +:+ (print_json v +:+ tail))));
    [done|]. by rewrite str_app_assoc.
Qed.

Lemma parse_one_member k v fuel tail :
  reads_back v → plain v = true → ends_number tail = true →
  (2 * String.length (member_text (k, v)) ≤ fuel)%nat →
  parse_members (S fuel) (member_text (k, v) +:+ tail) =
  match head_is "," (skip_ws tail) with
  | Some r4 => '(l, rest) ← parse_members fuel (skip_ws r4); Some ((k, canon v) :: l, rest)
  | None => rest ← head_is "}" (skip_ws tail); Some ([(k, canon v)], rest)
  end.
Proof.
  intros Hv Hp Ht Hfu. rewrite member_text_app. unfold member_text in Hfu.
  rewrite !str_length_app in Hfu. cbn [parse_members].
  transitivity ('(k0, r1) ← scan_string (escape k +:+ String DQUOTE (":" +:+ (print_json v +:+ tail)));
    r2 ← head_is ":" (skip_ws r1);
    '(v, r3) ← parse_value fuel (skip_ws r2);
    match head_is "," (skip_ws r3) with
    | Some r4 => '(l, rest) ← parse_members fuel (skip_ws r4); Some ((k0, v) :: l, rest)
    | None => rest ← head_is "}" (skip_ws r3); Some ([(k0, v)], rest)
    end); [done|].
  rewrite scan_string_escape.
  transitivity ('(v, r3) ← parse_value fuel (skip_ws (print_json v +:+ tail));
    match head_is "," (skip_ws r3) with
    | Some r4 => '(l, rest) ← parse_members fuel (skip_ws r4); Some ((k, v) :: l, rest)
    | None => rest ← head_is "}" (skip_ws r3); Some ([(k, v)], rest)
    end); [done|].
  rewrite (skip_ws_head _ _ (proj1 (print_json_head v Hp))).
  by rewrite (Hv fuel tail) by (done || (simpl in Hfu; lia)).
Qed.

Lemma parse_members_print l :
  l ≠ [] → Forall (λ kv, reads_back kv.2) l → forallb (λ kv, plain kv.2) l = true →
  ∀ fuel rest,
  (2 * String.length (join "," (map member_text l)) + 1 ≤ fuel)%nat →
  parse_members fuel (join "," (map member_text l) +:+ ("}" +:+ rest)) =
    Some (map (λ kv, (kv.1, canon kv.2)) l, rest).
Proof.
  induction l as [|[k v] l IH]; [done|]. intros _ Hf Hp fuel rest Hlen.
  apply Forall_cons in Hf as [Hv Hl]. simpl in Hp. apply andb_true_iff in Hp as [Hpv Hp].
  destruct fuel as [|fuel]; [simpl in Hlen; lia|].
  pose proof (λ tail, parse_one_member k v fuel tail Hv Hpv) as Hone.
  destruct l as [|w l].
  - cbn [map join] in *. rewrite Hone; [done|done|lia].
  - change (join "," (map member_text ((k, v) :: w :: l)))
      with (member_text (k, v) +:+ "," +:+ join "," (map member_text (w :: l))) in *.
    rewrite !str_length_app in Hlen. rewrite !str_app_assoc.
    rewrite Hone; [|done|lia]. rewrite head_is_sep.
    assert (Hw : not_ws_head (join "," (map member_text (w :: l)))).
    { cbn [map]. destruct l; done. }
    rewrite (skip_ws_head _ _ Hw).
    rewrite IH; [done..|]. cbn [String.length] in Hlen. lia.
Qed.

Lemma dict_of_nodup l : NoDup (map fst l) → dict_of l = l.
Proof.
  intros Hn. unfold dict_of.
  assert (Hgen : ∀ d l, NoDup (map fst (d ++ l)) →
    fold_left (λ d '(k, v), dict_insert k v d) l d = d ++ l).
  { clear. intros d l. revert d. induction l as [|[k v] l IH]; intros d Hn; simpl.
    { by rewrite List.app_nil_r. }
    assert (Hi : dict_insert k v d = d ++ [(k, v)]).
    { rewrite List.map_app in Hn. apply NoDup_app in Hn as (_ & Hdis & _). clear IH.
      induction d as [|[k' v'] d IHd]; simpl; [done|].
      destruct (String.eqb_spec k k') as [->|].
      - destruct (Hdis k'); simpl; by left.
      - rewrite IHd; [done|]. intros x Hx. apply Hdis. by right. }
    rewrite Hi, IH; [by rewrite <-List.app_assoc|]. by rewrite <-List.app_assoc. }
  by rewrite Hgen.
Qed.

Lemma print_obj_sorted l :
  print_json (JObj l) = "{" +:+ join "," (map member_text (sort_by key_leb l)) +:+ "}".
Proof.
  cbn [print_json].
  rewrite (sort_by_map key_leb key_leb (λ '(k, v), (k, print_json v)))
    by (by intros [] []).
  rewrite map_map. do 3 f_equal. apply map_ext. by intros [k v].
Qed.

Lemma forallb_perm {A} (p : A → bool) l l' : l ≡ₚ l' → forallb p l = forallb p l'.
Proof.
  induction 1; simpl; [done|congruence| |congruence].
  by destruct (p x), (p y).
Qed.

Lemma canon_obj l :
  canon (JObj l) = JObj (map (λ kv, (kv.1, canon kv.2)) (sort_by key_leb l)).
Proof.
  cbn [canon]. by rewrite (sort_by_map key_leb key_leb (λ kv, (kv.1, canon kv.2))).
Qed.

Lemma reads_back_obj l :
  Forall (λ kv, plain kv.2 = true → reads_back kv.2) l → plain (JObj l) = true →
  reads_back (JObj l).
Proof.
  intros Hf Hp fuel rest Hlen Hr. cbn [plain] in Hp.
  apply andb_true_iff in Hp as [Hn%bool_decide_eq_true Hp].
  pose proof (sort_by_perm key_leb l) as Hperm.
  rewrite print_obj_sorted, canon_obj in *. rewrite !str_length_app in Hlen.
  set (m := sort_by key_leb l) in *.
  assert (Hpm : forallb (λ kv, plain kv.2) m = true)
    by (by rewrite (forallb_perm _ _ _ Hperm)).
  assert (Hfm : Forall (λ kv, reads_back kv.2) m).
  { rewrite Hperm. rewrite forallb_forall in Hp. rewrite Forall_forall in Hf |- *.
    intros kv Hin. apply Hf; [done|]. by apply Hp, list_elem_of_In. }
  assert (Hnm : NoDup (map fst (map (λ kv, (kv.1, canon kv.2)) m))).
  { rewrite map_map. simpl. assert (map fst l ≡ₚ map fst m) as <-; [|exact Hn].
    by apply Permutation_map. }
  clearbody m. rewrite !str_app_assoc.
  destruct fuel as [|fuel]; [simpl in Hlen; lia|].
  destruct m as [|kv m]; [done|].
  transitivity ('(l, rest) ← parse_members fuel
      (join "," (map member_text (kv :: m)) +:+ ("}" +:+ rest));
    Some (JObj (dict_of l), rest)).
  { destruct kv as [k v], m; done. }
  rewrite (parse_members_print (kv :: m)); [|done..|cbn [String.length] in Hlen; lia].
  cbn [mbind option_bind]. by rewrite dict_of_nodup.
Qed.

Lemma reads_back_arr l :
  Forall (λ v, plain v = true → reads_back v) l → plain (JArr l) = true →
  reads_back (JArr l).
Proof.
  intros Hf Hp fuel rest Hlen Hr. cbn [plain] in Hp.
  cbn [print_json canon] in *. rewrite !str_length_app in Hlen. rewrite !str_app_assoc.
  assert (Hfm : Forall reads_back l).
  { rewrite forallb_forall in Hp. rewrite Forall_forall in Hf |- *.
    intros v Hin. apply Hf; [done|]. by apply Hp, list_elem_of_In. }
  destruct fuel as [|fuel]; [simpl in Hlen; lia|].
  destruct l as [|v l]; [done|].
  assert (Hhead : not_ws_head (join "," (map print_json (v :: l))) ∧ ∀ rest,
    head_is "]"%char (join "," (map print_json (v :: l)) +:+ rest) = None).
  { simpl in Hp. apply andb_true_iff in Hp as [Hpv _].
    destruct (print_json_head v Hpv) as [H1 H2]. cbn [map].
    destruct l as [|w l]; [done|]. cbn [join map] in *.
    split; [by destruct (print_json v)|]. intros r. by rewrite str_app_assoc. }
  destruct Hhead as [Hh1 Hh2].
  transitivity (match head_is "]" (skip_ws (join "," (map print_json (v :: l)) +:+ ("]" +:+ rest))) with
    | Some rest => Some (JArr [], rest)
    | None => '(l, rest) ← parse_elements fuel
        (skip_ws (join "," (map print_json (v :: l)) +:+ ("]" +:+ rest)));
      Some (JArr l, rest)
    end); [done|].
  rewrite (skip_ws_head _ _ Hh1), Hh2.
  rewrite (parse_elements_print (v :: l)); [done..|cbn [String.length] in Hlen; lia].
Qed.

Lemma plain_reads_back j : plain j = true → reads_back j.
Proof.
  induction j as [|b|z|x|s|l IH|l IH] using json_nested_ind; intros Hp.
  1-2: intros [|fuel] rest Hlen Hr; [simpl in Hlen; try destruct b; simpl in Hlen; lia|];
       try destruct b; done.
  - intros [|fuel] rest Hlen Hr;
      destruct (str_of_int_head z) as (c & s & Hs & _ & H1 & H2 & H3 & _);
      cbn [print_json canon] in *; [rewrite Hs in Hlen; simpl in Hlen; lia|].
    transitivity (match scan_constant (str_of_int z +:+ rest) with
      | Some r => Some r | None => scan_number (str_of_int z +:+ rest) end).
    { rewrite Hs. change (String c s +:+ rest) with (String c (s +:+ rest)).
      cbn [parse_value]. by rewrite H1, H2, H3. }
    by rewrite scan_constant_int, scan_number_str.
  - done.
  - intros [|fuel] rest Hlen Hr; [simpl in Hlen; lia|]. cbn [print_json canon].
    transitivity ('(t, rest) ← scan_string (escape s +:+ String DQUOTE rest); Some (JStr t, rest)).
    { unfold quoted. transitivity (parse_value (S fuel)
        (String DQUOTE ((escape s +:+ ch DQUOTE) +:+ rest))); [done|].
      by rewrite str_app_assoc. }
    by rewrite scan_string_escape.
  - by apply reads_back_arr.
  - by apply reads_back_obj.
Qed.

Lemma json_loads_print j : plain j = true → json_loads (print_json j) = Some (canon j).
Proof.
  intros Hp. unfold json_loads.
  destruct (print_json_head j Hp) as [Hh _].
  rewrite <-(str_app_nil (print_json j)) at 2. rewrite (skip_ws_head _ _ Hh).
  by rewrite (plain_reads_back j Hp) by (done || lia).
Qed.

(** Printing ignores the order in which an object lists its members. *)
Lemma key_leb_total {A} (x y : string * A) : key_leb x y = false → key_leb y x = true.
Proof.
  unfold key_leb. intros E. by destruct (String.leb_total x.1 y.1) as [H|H];
    [rewrite H in E|].
Qed.

Lemma ordered_map_value {A B} (f : A → B) (l : list (string * A)) :
  ordered key_leb l → ordered key_leb (map (λ kv, (kv.1, f kv.2)) l).
Proof.
  induction l as [|x l IH]; simpl; [done|]. intros [Hx Hl]. split; [|auto].
  by destruct l.
Qed.

Lemma print_canon j : print_json (canon j) = print_json j.
Proof.
  induction j as [| | | | |l IH|l IH] using json_nested_ind; try done.
  - cbn [canon print_json]. rewrite map_map. do 3 f_equal.
    rewrite Forall_forall in IH. apply map_ext_in. intros v Hv.
    by apply IH, list_elem_of_In.
  - rewrite canon_obj, !print_obj_sorted.
    rewrite (sort_by_ordered_id key_leb (map _ _))
      by (apply ordered_map_value, sort_by_ordered, key_leb_total).
    rewrite map_map. do 3 f_equal. apply map_ext_in. intros kv Hkv.
    unfold member_text. simpl. do 2 f_equal.
    rewrite Forall_forall in IH. apply IH.
    by rewrite <-(sort_by_perm key_leb l), list_elem_of_In.
Qed.

Lemma print_json_canon_eq j k :
  plain j = true → plain k = true →
  print_json j = print_json k ↔ canon j = canon k.
Proof.
  intros Hj Hk. split; intros H.
  - apply json_loads_print in Hj, Hk. congruence.
  - by rewrite <-(print_canon j), H, print_canon.
Qed.
