(* ===== verification/Regex.v ===== *)
(** * Regular expressions (the part of Python's [re] that the planner uses)

    A backtracking matcher over code points: [rmatch] tries the alternatives in the
    order [re] tries them and answers with what its continuation answers first.  Texts
    are the code points of a UTF-8 byte string ([decode]); the patterns are compiled with
    [re.IGNORECASE], so a literal letter stands for every character that folds to it.
    Which characters outside ASCII are word characters is data of the Unicode database,
    a parameter. *)

From S2P Require Import Prelude.
From S2P Require Import Json.
From stdpp Require Import base strings list.
From Stdlib Require Import Ascii String.

(** ** Code points *)

(** The code points of a UTF-8 byte string: a byte that does not continue a character
    starts one, and each continuation byte adds six bits to the one before it. *)
Fixpoint decode_from (acc : option N) (s : string) : list N :=
  match s with
  | EmptyString => match acc with Some n => [n] | None => [] end
  | String c s =>
    let b := N_of_ascii c in
    if utf8_continuation c
    then decode_from (Some (N.lor (N.shiftl (default 0%N acc) 6) (N.land b 63))) s
    else
      let start := if (b <? 128)%N then b else if (b <? 224)%N then N.land b 31
                   else if (b <? 240)%N then N.land b 15 else N.land b 7 in
      match acc with Some n => [n] | None => [] end ++ decode_from (Some start) s
  end.

Definition decode (s : string) : list N := decode_from None s.

(** ** Character classes *)

Definition is_letter (n : N) : bool :=
  ((65 <=? n) && (n <=? 90))%N || ((97 <=? n) && (n <=? 122))%N.

(** The characters a letter stands for under [IGNORECASE]: its two cases and, for the
    letters that have them, the characters outside ASCII that fold to it. *)
Definition folds_to (letter n : N) : bool :=
  let lower := if ((65 <=? n) && (n <=? 90))%N then (n + 32)%N else n in
  (lower =? letter)%N
  || ((letter =? 105)%N && ((n =? 304)%N || (n =? 305)%N))
  || ((letter =? 115)%N && (n =? 383)%N)
  || ((letter =? 107)%N && (n =? 8490)%N).

(** [str.isspace] of one character: [\s]. *)
Definition is_space (n : N) : bool :=
  ((9 <=? n) && (n <=? 13))%N || ((28 <=? n) && (n <=? 32))%N
  || bool_decide (n ∈ [133; 160; 5760; 8232; 8233; 8239; 8287; 12288]%N)
  || ((8192 <=? n) && (n <=? 8202))%N.

(** [A-Za-z0-9] with [IGNORECASE]: the four characters outside ASCII that fold to a
    letter belong to it. *)
Definition ignorecase_alnum (n : N) : bool :=
  is_letter n || ((48 <=? n) && (n <=? 57))%N || bool_decide (n ∈ [304; 305; 383; 8490]%N).

Definition one_of (l : list N) (n : N) : bool := bool_decide (n ∈ l).

(** Which code points from 128 on are word characters ([\w]). *)
Class UnicodeData := unicode_word : N → bool.

Section Matching.
Context `{UnicodeData}.

(** [\w]. *)
Definition is_word (n : N) : bool :=
  if (n <? 128)%N then is_letter n || ((48 <=? n) && (n <=? 57))%N || (n =? 95)%N
  else unicode_word n.

(** ** Patterns *)

Inductive regex : Type :=
| REmpty
| RChar (p : N → bool)
| RCat (r1 r2 : regex)
| RAlt (r1 r2 : regex)
| RStar (r : regex)
| RWordBoundary
| REnd
| RAhead (r : regex)
| RNotAhead (r : regex)
| RNotBehind (p : N → bool).

(** [r{n,}]. *)
Fixpoint RAtLeast (n : nat) (r : regex) : regex :=
  match n with 0%nat => RStar r | S n => RCat r (RAtLeast n r) end.

Definition RPlus (r : regex) : regex := RAtLeast 1 r.
Definition ROpt (r : regex) : regex := RAlt r REmpty.
Definition RAny : regex := RChar (λ _, true).

(** A literal: letters in lower case, matched without regard to case. *)
Fixpoint RLit (s : string) : regex :=
  match s with
  | EmptyString => REmpty
  | String c s =>
    let n := N_of_ascii c in
    RCat (RChar (if is_letter n then folds_to n else N.eqb n)) (RLit s)
  end.

Fixpoint RAlts (l : list regex) : regex :=
  match l with
  | [] => RChar (λ _, false)
  | [r] => r
  | r :: l => RAlt r (RAlts l)
  end.

Fixpoint RCats (l : list regex) : regex :=
  match l with [] => REmpty | r :: l => RCat r (RCats l) end.

(** ** The matcher

    A position is the text that is left and the character before it.  [rmatch r k]
    matches [r] here and hands each way of doing so, in order of preference, to [k]
    until one is accepted.  An iteration of a star that consumes nothing ends the star;
    the others shorten the text, so its length bounds their number. *)

Definition position : Type := option N * list N.

Fixpoint rmatch {A} (r : regex) (k : position → option A) (p : position) : option A :=
  match r with
  | REmpty => k p
  | RChar f =>
    match p.2 with
    | c :: s => if f c then k (Some c, s) else None
    | [] => None
    end
  | RCat r1 r2 => rmatch r1 (rmatch r2 k) p
  | RAlt r1 r2 =>
    match rmatch r1 k p with Some a => Some a | None => rmatch r2 k p end
  | RStar r =>
    (fix star (n : nat) (p : position) : option A :=
       match n with
       | 0%nat => k p
       | S n =>
         match rmatch r (λ p', if Nat.ltb (List.length p'.2) (List.length p.2)
                               then star n p' else None) p with
         | Some a => Some a
         | None => k p
         end
       end) (List.length p.2) p
  | RWordBoundary =>
    let before := match p.1 with Some c => is_word c | None => false end in
    let after := match p.2 with c :: _ => is_word c | [] => false end in
    if xorb before after then k p else None
  | REnd =>
    match p.2 with
    | [] => k p
    | [c] => if (c =? 10)%N then k p else None
    | _ => None
    end
  | RAhead r => match rmatch r (λ _, Some tt) p with Some _ => k p | None => None end
  | RNotAhead r => match rmatch r (λ _, Some tt) p with Some _ => None | None => k p end
  | RNotBehind f => match p.1 with Some c => if f c then None else k p | None => k p end
  end.

(** [pattern.search(text) is not None], from a position on. *)
Fixpoint search_from (r : regex) (before : option N) (s : list N) : bool :=
  match rmatch r (λ _, Some tt) (before, s) with
  | Some _ => true
  | None => match s with [] => false | c :: s => search_from r (Some c) s end
  end.

Definition search (r : regex) (text : string) : bool := search_from r None (decode text).

(** ** Substitution

    [pattern.sub(repl, text)] for a pattern that matches no empty text.  The pattern is a
    first group and what follows it; the replacement is computed from the text before the
    match (in reverse), the text of the group and the text of the match. *)

Definition replacement : Type := list N → list N → list N → list N.

(** The text between two positions. *)
Definition between (s s' : list N) : list N := take (List.length s - List.length s') s.

(** The end of the group and the end of the match. *)
Definition match_here (r1 r2 : regex) (before : list N) (s : list N)
    : option (list N * list N) :=
  rmatch r1 (λ p1, rmatch r2 (λ p2, Some (p1.2, p2.2)) p1) (head before, s).

(** At most one turn for each character of the text. *)
Fixpoint sub_loop (r1 r2 : regex) (repl : replacement) (n : nat) (before s : list N)
    : list N :=
  match n, s with
  | S n, c :: rest =>
    match match_here r1 r2 before s with
    | Some (s1, s2) =>
      repl before (between s s1) (between s s2) ++
      sub_loop r1 r2 repl n (rev (between s s2) ++ before) s2
    | None => c :: sub_loop r1 r2 repl n (c :: before) rest
    end
  | _, _ => s
  end.

Definition sub (r1 r2 : regex) (repl : replacement) (s : list N) : list N :=
  sub_loop r1 r2 repl (List.length s) [] s.

(** A replacement without a reference to the match. *)
Definition sub_text (r : regex) (text : string) (s : list N) : list N :=
  sub REmpty r (λ _ _ _, decode text) s.

End Matching.

(** The UTF-8 bytes of code points. *)
Definition encode (l : list N) : string := foldr (λ n s, utf8_encode n +:+ s) EmptyString l.
