(* ===== verification/Redaction.v ===== *)
(** * Redaction ([src/multiclaw/security/redaction.py])

    What leaves the system in logs, events and results goes through [redact]: the values
    of fields with secret names are replaced, and the texts that look like credentials or
    paths are rewritten, pattern after pattern, with [re.sub].  Values are JSON trees,
    which cannot be circular; mappings, lists and texts are the cases of the source that
    they can take. *)

From S2P Require Import Prelude.
From S2P Require Import Json.
From S2P Require Import Regex.
From stdpp Require Import base strings list.

Definition REDACTED : string := "[REDACTED]".
Definition REDACTED_PATH : string := "[REDACTED PATH]".

Definition TRACE_FORBIDDEN_KEYS : list string :=
  ["tenant_id"; "workspace_id"; "session_id"; "run_id"; "request_id"; "email";
   "provider_name"; "path"].

Section Redaction.
Context `{UnicodeData}.

(** ** Patterns *)

Definition spaces : regex := RStar (RChar is_space).
Definition spaces1 : regex := RPlus (RChar is_space).
Definition nonspaces : regex := RPlus (RChar (λ c, negb (is_space c))).
Definition char (n : N) : regex := RChar (N.eqb n).

Definition SECRET_KEY_RE : regex :=
  let mark := ROpt (RChar (one_of [95; 45]%N)) in
  RAlts [RLit "authorization";
         RCats [RLit "api"; mark; RLit "key"];
         RCats [RLit "access"; mark; RLit "token"];
         RCats [RLit "refresh"; mark; RLit "token"];
         RLit "password"; RLit "secret"].

(** [[A-Za-z_]*] with [IGNORECASE]. *)
Definition name_part : regex :=
  RStar (RChar (λ c, is_letter c || one_of [95; 304; 305; 383; 8490]%N c)).

(** [[A-Za-z0-9]] and the characters that end a path, both without [IGNORECASE]. *)
Definition alnum (c : N) : bool := is_letter c || ((48 <=? c) && (c <=? 57))%N.
Definition path_chars : regex :=
  RPlus (RChar (λ c, negb (is_space c || one_of [44; 59; 34; 39]%N c))).

(** The substitutions of [_STRING_PATTERNS], in their order: a pattern, split after its
    first group, and its replacement. *)
Definition STRING_PATTERNS : list (regex * regex * replacement) :=
  [(REmpty,
    RCats [RWordBoundary; RLit "authorization"; spaces; char 58; spaces; RLit "bearer";
           spaces1; nonspaces],
    λ _ _ _, decode "Authorization: [REDACTED]");
   (REmpty,
    RCats [RWordBoundary; RLit "bearer"; spaces1; nonspaces],
    λ _ _ _, decode "Bearer [REDACTED]");
   (RCats [RWordBoundary; name_part; SECRET_KEY_RE; name_part],
    RCats [RWordBoundary; spaces; RChar (one_of [58; 61]%N); spaces; nonspaces],
    λ _ group _, group ++ decode "=[REDACTED]");
   (REmpty,
    RCats [RWordBoundary; RAlt (RCats [char 115; char 107]) (RCats [char 103; char 104; char 112]);
           char 95; RPlus (RChar (λ c, alnum c || one_of [95; 45]%N c)); RWordBoundary],
    λ _ _ _, decode REDACTED)].

Definition PATH_PATTERNS : list regex :=
  [RCats [RNotBehind (λ c, alnum c || one_of [58; 46]%N c); char 47; RNotAhead (char 47);
          path_chars];
   RCats [RNotBehind alnum; char 46; ROpt (char 46); char 47; path_chars];
   RCats [RWordBoundary; RChar is_letter; char 58; char 92; path_chars];
   RCats [RNotBehind alnum; char 92; char 92; path_chars]].

(** [_replace_path_match]: the path of a URL stays. *)
Definition replace_path_match : replacement := λ before _ matched,
  match before with
  | 47 :: 47 :: 58 :: _ => matched
  | 47 :: 58 :: _ => matched
  | _ => decode REDACTED_PATH
  end%N.

Definition redact_string (value : string) : string :=
  let result := foldl (λ s '(r1, r2, repl), sub r1 r2 repl s) (decode value) STRING_PATTERNS in
  encode (foldl (λ s r, sub REmpty r replace_path_match s) result PATH_PATTERNS).

(** ** Values *)

Fixpoint redact (value : json) : json :=
  match value with
  | JObj l =>
    JObj (map (λ '(k, v), (k, if search SECRET_KEY_RE k then JStr REDACTED else redact v)) l)
  | JArr l => JArr (map redact l)
  | JStr s => JStr (redact_string s)
  | _ => value
  end.

Definition redact_trace_attributes (attributes : list (string * json))
    : list (string * json) :=
  map (λ '(k, v),
    (k, if bool_decide (k ∈ TRACE_FORBIDDEN_KEYS) || search SECRET_KEY_RE k
        then JStr REDACTED else redact v)) attributes.

(** [str.lower] as far as ASCII texts can be found in its result. *)
Definition lower (s : list N) : list N :=
  flat_map (λ c, if ((65 <=? c) && (c <=? 90))%N then [(c + 32)%N]
                 else if (c =? 304)%N then [105; 775]%N
                 else if (c =? 8490)%N then [107%N] else [c]) s.

Fixpoint starts_with (token s : list N) : bool :=
  match token, s with
  | [], _ => true
  | a :: token, b :: s => N.eqb a b && starts_with token s
  | _ :: _, [] => false
  end.

Fixpoint mentions (token s : list N) : bool :=
  starts_with token s || match s with [] => false | _ :: s => mentions token s end.

Definition public_error_message (message : string) : string :=
  let lowered := lower (decode (redact_string message)) in
  let any := existsb (λ token, mentions (decode token) lowered) in
  if any ["database"; "sqlite"; "mysql"; "alembic"] then "service temporarily unavailable"
  else if any ["secret"; "authorization"; "token"; "password"; "keyring"]
  then "request could not be completed"
  else if any ["mcp"; "filesystem"; "workspace"; "path"] then "request could not be completed"
  else if any ["timeout"; "timed out"] then "request timed out"
  else "request could not be completed".

(** ** What redaction hides *)

(** Every field with a secret name, at any depth, holds the placeholder. *)
Fixpoint secrets_hidden (value : json) : bool :=
  match value with
  | JObj l =>
    forallb (λ kv, if search SECRET_KEY_RE kv.1
                   then match kv.2 with JStr s => String.eqb s REDACTED | _ => false end
                   else secrets_hidden kv.2) l
  | JArr l => forallb secrets_hidden l
  | _ => true
  end.

(** The tree without its texts and numbers, secret fields cut off. *)
Fixpoint outline (value : json) : json :=
  match value with
  | JObj l => JObj (map (λ kv, (kv.1, if search SECRET_KEY_RE kv.1 then JNull
                                     else outline kv.2)) l)
  | JArr l => JArr (map outline l)
  | _ => JNull
  end.

(** Redaction is complete on names and changes nothing but values: in what [redact]
    gives, every field whose name looks secret holds the placeholder, at any depth, and
    the objects keep their fields and the lists their length. *)
Theorem redaction_hides_secret_fields value :
  secrets_hidden (redact value) = true ∧ outline (redact value) = outline value.
Proof.
  induction value as [| | | | |l IH|l IH] using json_nested_ind; try done; simpl;
    rewrite Forall_forall in IH; setoid_rewrite list_elem_of_In in IH.
  - split; [|f_equal; rewrite map_map; apply map_ext_in; intros v Hv; by apply IH].
    apply forallb_forall. intros v (u&<-&Hu)%in_map_iff. by apply IH.
  - split.
    + apply forallb_forall. intros kv ([k v]&<-&Hu)%in_map_iff. simpl.
      destruct (search SECRET_KEY_RE k) eqn:E; [done|by apply (IH (k, v))].
    + f_equal. rewrite map_map. apply map_ext_in. intros [k v] Hv. simpl.
      destruct (search SECRET_KEY_RE k); [done|]. f_equal. by apply (IH (k, v)).
Qed.
End Redaction.
