(* ===== verification/Tenancy.v ===== *)
(** * Tenant context ([src/multiclaw/tenancy/context.py])

    The identity every scoped operation carries: tenant, workspace, and optionally
    a session and a run.  A value is built by the checking constructor and narrowed
    by [for_session] and [for_run], which re-run the check as [dataclasses.replace]
    does. *)

From S2P Require Import Prelude Records Errors.
From stdpp Require Import base strings.

(** Truth of a Python [str | None]: neither [None] nor empty. *)
Definition truthy (v : option string) : bool :=
  match v with
  | None | Some "" => false
  | Some _ => true
  end.

Definition require_non_empty (name : string) (value : option string)
    : result exn string :=
  match value with
  | None | Some "" => Err (ValueError (name +:+ " is required"))
  | Some v => Ok v
  end.

(** [TenantContext.__post_init__]. *)
Definition post_init (c : TenantContext) : result exn TenantContext :=
  match require_non_empty "tenant_id" (Some (tc_tenant_id c)) with
  | Err e => Err e
  | Ok _ =>
    match require_non_empty "workspace_id" (Some (tc_workspace_id c)) with
    | Err e => Err e
    | Ok _ =>
      if truthy (tc_run_id c) && negb (truthy (tc_session_id c))
      then Err (ValueError "session_id is required when run_id is set")
      else Ok c
    end
  end.

Definition for_session (c : TenantContext) (session_id : string)
    : result exn TenantContext :=
  match require_non_empty "session_id" (Some session_id) with
  | Err e => Err e
  | Ok sid => post_init (c <| tc_session_id := Some sid |> <| tc_run_id := None |>)
  end.

Definition for_run (c : TenantContext) (session_id run_id : string)
    : result exn TenantContext :=
  match require_non_empty "session_id" (Some session_id) with
  | Err e => Err e
  | Ok sid =>
    match require_non_empty "run_id" (Some run_id) with
    | Err e => Err e
    | Ok rid => post_init (c <| tc_session_id := Some sid |> <| tc_run_id := Some rid |>)
    end
  end.

(** What the constructor guarantees of every context it lets through. *)
Definition valid_context (c : TenantContext) : Prop :=
  tc_tenant_id c ≠ "" ∧ tc_workspace_id c ≠ "" ∧
  (truthy (tc_run_id c) = true → truthy (tc_session_id c) = true).

Lemma require_non_empty_Ok name v s :
  require_non_empty name v = Ok s ↔ v = Some s ∧ s ≠ "".
Proof. destruct v as [[|]|]; naive_solver. Qed.

Lemma post_init_Ok c c' : post_init c = Ok c' ↔ c' = c ∧ valid_context c.
Proof.
  unfold post_init, valid_context.
  destruct (tc_tenant_id c) as [|a t]; [naive_solver|].
  destruct (tc_workspace_id c) as [|b w]; [naive_solver|]. simpl.
  destruct (truthy (tc_run_id c)), (truthy (tc_session_id c)); naive_solver.
Qed.

Lemma for_run_scope c sid rid c' :
  for_run c sid rid = Ok c' →
  valid_context c' ∧
  tc_tenant_id c' = tc_tenant_id c ∧ tc_workspace_id c' = tc_workspace_id c ∧
  tc_session_id c' = Some sid ∧ tc_run_id c' = Some rid.
Proof.
  unfold for_run.
  destruct (require_non_empty _ (Some sid)) as [s|] eqn:Hs; [|done].
  destruct (require_non_empty _ (Some rid)) as [r|] eqn:Hr; [|done].
  apply require_non_empty_Ok in Hs as [[= <-] _], Hr as [[= <-] _].
  intros [-> Hv]%post_init_Ok. done.
Qed.

Lemma for_session_scope c sid c' :
  for_session c sid = Ok c' →
  valid_context c' ∧
  tc_tenant_id c' = tc_tenant_id c ∧ tc_workspace_id c' = tc_workspace_id c ∧
  tc_session_id c' = Some sid ∧ tc_run_id c' = None.
Proof.
  unfold for_session.
  destruct (require_non_empty _ (Some sid)) as [s|] eqn:Hs; [|done].
  apply require_non_empty_Ok in Hs as [[= <-] _].
  intros [-> Hv]%post_init_Ok. done.
Qed.
