(* ===== verification/WorkflowModels.v ===== *)
(** * Workflow vocabulary ([src/multiclaw/workflow/models.py])

    The enumerations of the workflow engine with the strings they are stored as,
    the legal transition tables, and the records the repository hands out. *)

From S2P Require Import Prelude Records Errors Tenancy.
From stdpp Require Import base strings list sets.

(** ** Enumerations

    A Python [class X(str, Enum)]: its members in order, the value of each, and
    [X(value)], which looks a value up and fails when there is none. *)

Class StrEnum (A : Type) `{EqDecision A} := {
  enum_members : list A;
  enum_value : A → string;
  enum_members_all : ∀ a, a ∈ enum_members;
  enum_value_inj : ∀ a b, enum_value a = enum_value b → a = b;
}.

Definition enum_of_value {A} `{StrEnum A} (s : string) : option A :=
  List.find (λ a, bool_decide (enum_value a = s)) enum_members.

Lemma find_value_unique {A} (f : A → string) (l : list A) a :
  a ∈ l → (∀ x y, f x = f y → x = y) →
  List.find (λ x, bool_decide (f x = f a)) l = Some a.
Proof.
  intros Ha Hinj. induction l as [|x l IH]; [by apply elem_of_nil in Ha|]. simpl.
  case_bool_decide as Hx; [by rewrite (Hinj _ _ Hx)|].
  apply IH. apply elem_of_cons in Ha as [->|]; [done|done].
Qed.

Lemma enum_of_value_value {A} `{StrEnum A} (a : A) :
  enum_of_value (enum_value a) = Some a.
Proof.
  apply (find_value_unique enum_value); [apply enum_members_all | apply enum_value_inj].
Qed.

Lemma enum_of_value_Some {A} `{StrEnum A} s (a : A) :
  enum_of_value s = Some a → enum_value a = s.
Proof.
  unfold enum_of_value. intros Hf.
  apply List.find_some in Hf as [_ Hv]. by apply bool_decide_eq_true in Hv.
Qed.

Ltac solve_enum :=
  first [ solve [intros []; set_solver]
        | solve [intros [] []; (reflexivity || discriminate)] ].

Inductive RunStatus : Type :=
| RUN_RUNNING | RUN_AWAITING_USER | RUN_RESUMING | RUN_COMPLETED
| RUN_FAILED_TERMINAL | RUN_CANCELLED | RUN_BLOCKED_CORRUPT | RUN_BLOCKED_INCOMPATIBLE.

#[export] Instance RunStatus_eq_dec : EqDecision RunStatus.
Proof. solve_decision. Defined.

#[export] Program Instance RunStatus_enum : StrEnum RunStatus := {|
  enum_members := [RUN_RUNNING; RUN_AWAITING_USER; RUN_RESUMING; RUN_COMPLETED;
    RUN_FAILED_TERMINAL; RUN_CANCELLED; RUN_BLOCKED_CORRUPT; RUN_BLOCKED_INCOMPATIBLE];
  enum_value s := match s with
    | RUN_RUNNING => "running" | RUN_AWAITING_USER => "awaiting_user"
    | RUN_RESUMING => "resuming" | RUN_COMPLETED => "completed"
    | RUN_FAILED_TERMINAL => "failed_terminal" | RUN_CANCELLED => "cancelled"
    | RUN_BLOCKED_CORRUPT => "blocked_corrupt"
    | RUN_BLOCKED_INCOMPATIBLE => "blocked_incompatible"
    end |}.
Solve All Obligations with solve_enum.

Inductive ApprovalStatus : Type :=
| APPROVAL_AWAITING_USER | APPROVAL_APPROVED | APPROVAL_REJECTED | APPROVAL_EXPIRED.

#[export] Instance ApprovalStatus_eq_dec : EqDecision ApprovalStatus.
Proof. solve_decision. Defined.

#[export] Program Instance ApprovalStatus_enum : StrEnum ApprovalStatus := {|
  enum_members := [APPROVAL_AWAITING_USER; APPROVAL_APPROVED; APPROVAL_REJECTED;
    APPROVAL_EXPIRED];
  enum_value s := match s with
    | APPROVAL_AWAITING_USER => "awaiting_user" | APPROVAL_APPROVED => "approved"
    | APPROVAL_REJECTED => "rejected" | APPROVAL_EXPIRED => "expired"
    end |}.
Solve All Obligations with solve_enum.

Inductive ExecutionStatus : Type :=
| EXEC_NOT_STARTED | EXEC_REPLAYING | EXEC_EXECUTING | EXEC_SUCCEEDED
| EXEC_FAILED_RETRYABLE | EXEC_FAILED_TERMINAL | EXEC_UNCERTAIN
| EXEC_BLOCKED_INCOMPATIBLE | EXEC_BLOCKED_CORRUPT.

#[export] Instance ExecutionStatus_eq_dec : EqDecision ExecutionStatus.
Proof. solve_decision. Defined.

#[export] Program Instance ExecutionStatus_enum : StrEnum ExecutionStatus := {|
  enum_members := [EXEC_NOT_STARTED; EXEC_REPLAYING; EXEC_EXECUTING; EXEC_SUCCEEDED;
    EXEC_FAILED_RETRYABLE; EXEC_FAILED_TERMINAL; EXEC_UNCERTAIN;
    EXEC_BLOCKED_INCOMPATIBLE; EXEC_BLOCKED_CORRUPT];
  enum_value s := match s with
    | EXEC_NOT_STARTED => "not_started" | EXEC_REPLAYING => "replaying"
    | EXEC_EXECUTING => "executing" | EXEC_SUCCEEDED => "succeeded"
    | EXEC_FAILED_RETRYABLE => "failed_retryable"
    | EXEC_FAILED_TERMINAL => "failed_terminal" | EXEC_UNCERTAIN => "uncertain"
    | EXEC_BLOCKED_INCOMPATIBLE => "blocked_incompatible"
    | EXEC_BLOCKED_CORRUPT => "blocked_corrupt"
    end |}.
Solve All Obligations with solve_enum.

Inductive RecoveryStrategy : Type :=
| READ_ONLY_REPLAY | IDEMPOTENT_RETRY | MANUAL_UNCERTAIN.

#[export] Instance RecoveryStrategy_eq_dec : EqDecision RecoveryStrategy.
Proof. solve_decision. Defined.

#[export] Program Instance RecoveryStrategy_enum : StrEnum RecoveryStrategy := {|
  enum_members := [READ_ONLY_REPLAY; IDEMPOTENT_RETRY; MANUAL_UNCERTAIN];
  enum_value s := match s with
    | READ_ONLY_REPLAY => "read_only_replay" | IDEMPOTENT_RETRY => "idempotent_retry"
    | MANUAL_UNCERTAIN => "manual_uncertain"
    end |}.
Solve All Obligations with solve_enum.

Inductive CheckpointPhase : Type :=
| RUN_STARTED | PLAN_AWAITING_APPROVAL | PLAN_STEP_READY | PLAN_REPLAN_REQUIRED
| MODEL_OUTPUT_COMMITTED | AWAITING_APPROVAL | EXECUTION_DISPATCHING
| EXECUTION_RESULT_OBSERVED | RUN_TERMINAL.

#[export] Instance CheckpointPhase_eq_dec : EqDecision CheckpointPhase.
Proof. solve_decision. Defined.

#[export] Program Instance CheckpointPhase_enum : StrEnum CheckpointPhase := {|
  enum_members := [RUN_STARTED; PLAN_AWAITING_APPROVAL; PLAN_STEP_READY;
    PLAN_REPLAN_REQUIRED; MODEL_OUTPUT_COMMITTED; AWAITING_APPROVAL;
    EXECUTION_DISPATCHING; EXECUTION_RESULT_OBSERVED; RUN_TERMINAL];
  enum_value s := match s with
    | RUN_STARTED => "run_started"
    | PLAN_AWAITING_APPROVAL => "plan_awaiting_approval"
    | PLAN_STEP_READY => "plan_step_ready"
    | PLAN_REPLAN_REQUIRED => "plan_replan_required"
    | MODEL_OUTPUT_COMMITTED => "model_output_committed"
    | AWAITING_APPROVAL => "awaiting_approval"
    | EXECUTION_DISPATCHING => "execution_dispatching"
    | EXECUTION_RESULT_OBSERVED => "execution_result_observed"
    | RUN_TERMINAL => "run_terminal"
    end |}.
Solve All Obligations with solve_enum.

Inductive RecoveryAction : Type :=
| RESUME_MODEL | AWAIT_USER | AWAIT_PLAN_DECISION | RESUME_PLAN_STEP
| RESUME_PLAN_REVISION | REPLAY_READ_ONLY | RETRY_IDEMPOTENT
| MARK_MANUAL_UNCERTAIN | TERMINAL_NOOP.

#[export] Instance RecoveryAction_eq_dec : EqDecision RecoveryAction.
Proof. solve_decision. Defined.

(** ** Transition tables *)

Definition TERMINAL_RUN_STATUSES : list RunStatus :=
  [RUN_COMPLETED; RUN_FAILED_TERMINAL; RUN_CANCELLED; RUN_BLOCKED_CORRUPT;
   RUN_BLOCKED_INCOMPATIBLE].

Definition TERMINAL_EXECUTION_STATUSES : list ExecutionStatus :=
  [EXEC_SUCCEEDED; EXEC_FAILED_TERMINAL; EXEC_UNCERTAIN; EXEC_BLOCKED_INCOMPATIBLE;
   EXEC_BLOCKED_CORRUPT].

(** [LEGAL_RUN_TRANSITIONS.get(source, frozenset())]. *)
Definition LEGAL_RUN_TRANSITIONS (source : RunStatus) : list RunStatus :=
  match source with
  | RUN_RUNNING => [RUN_AWAITING_USER; RUN_COMPLETED; RUN_FAILED_TERMINAL;
      RUN_BLOCKED_INCOMPATIBLE; RUN_BLOCKED_CORRUPT; RUN_CANCELLED]
  | RUN_AWAITING_USER => [RUN_RESUMING; RUN_CANCELLED]
  | RUN_RESUMING => [RUN_RUNNING; RUN_AWAITING_USER; RUN_FAILED_TERMINAL;
      RUN_BLOCKED_INCOMPATIBLE; RUN_BLOCKED_CORRUPT; RUN_CANCELLED]
  | _ => []
  end.

(** [LEGAL_APPROVAL_TRANSITIONS]. *)
Definition LEGAL_APPROVAL_TRANSITIONS (source : ApprovalStatus) : list ApprovalStatus :=
  match source with
  | APPROVAL_AWAITING_USER => [APPROVAL_APPROVED; APPROVAL_REJECTED; APPROVAL_EXPIRED]
  | _ => []
  end.

(** [LEGAL_EXECUTION_TRANSITIONS.get(source, frozenset())]. *)
Definition LEGAL_EXECUTION_TRANSITIONS (source : ExecutionStatus)
    : list ExecutionStatus :=
  match source with
  | EXEC_NOT_STARTED => [EXEC_REPLAYING; EXEC_EXECUTING; EXEC_BLOCKED_INCOMPATIBLE;
      EXEC_BLOCKED_CORRUPT]
  | EXEC_REPLAYING => [EXEC_EXECUTING; EXEC_BLOCKED_INCOMPATIBLE; EXEC_BLOCKED_CORRUPT]
  | EXEC_EXECUTING => [EXEC_SUCCEEDED; EXEC_FAILED_RETRYABLE; EXEC_FAILED_TERMINAL;
      EXEC_UNCERTAIN; EXEC_BLOCKED_INCOMPATIBLE; EXEC_BLOCKED_CORRUPT]
  | _ => []
  end.

Definition run_terminal (s : RunStatus) : bool := bool_decide (s ∈ TERMINAL_RUN_STATUSES).
Definition exec_terminal (s : ExecutionStatus) : bool :=
  bool_decide (s ∈ TERMINAL_EXECUTION_STATUSES).

(** ** Records handed out by the repository *)

Record RunLease : Type := MkRunLease {
  rl_context : TenantContext;
  rl_lease_owner : string;
  rl_fencing_token : Z;
  rl_version : Z;
  rl_lease_expires_at : Z;
}.

#[export] Instance RunLease_eq_dec : EqDecision RunLease.
Proof. solve_decision. Defined.

Record RunRecord : Type := MkRunRecord {
  rr_context : TenantContext;
  rr_status : RunStatus;
  rr_plan_id : option string;
  rr_initial_plan_version : option Z;
  rr_active_plan_version : option Z;
  rr_cancel_requested_at : option Z;
  rr_runtime_instance_id : option string;
  rr_lease_owner : option string;
  rr_fencing_token : Z;
  rr_lease_expires_at : option Z;
  rr_heartbeat_at : option Z;
  rr_version : Z;
  rr_created_at : Z;
  rr_updated_at : Z;
  rr_finished_at : option Z;
}.

#[export] Instance RunRecord_eq_dec : EqDecision RunRecord.
Proof. solve_decision. Defined.

Record ExecutionRecord : Type := MkExecutionRecord {
  er_context : TenantContext;
  er_execution_id : string;
  er_approval_id : option string;
  er_tool_call_id : string;
  er_tool_name : string;
  er_tool_kind : string;
  er_status : ExecutionStatus;
  er_recovery_strategy : RecoveryStrategy;
  er_version : Z;
  er_created_at : Z;
  er_updated_at : Z;
  er_finished_at : option Z;
}.

Record ExecutionRecoveryRecord : Type := MkExecutionRecoveryRecord {
  xr_context : TenantContext;
  xr_execution_id : string;
  xr_approval_id : option string;
  xr_tool_call_id : string;
  xr_tool_name : string;
  xr_tool_kind : string;
  xr_status : ExecutionStatus;
  xr_recovery_strategy : RecoveryStrategy;
  xr_idempotency_key : option string;
  xr_input_payload_json : string;
  xr_input_hash : string;
  xr_input_ref : string;
  xr_external_request_id : option string;
  xr_result_ref : option string;
  xr_result_digest : option string;
  xr_version : Z;
}.

Record CheckpointRecord : Type := MkCheckpointRecord {
  cr_checkpoint_id : string;
  cr_tenant_id : string;
  cr_workspace_id : string;
  cr_session_id : string;
  cr_run_id : string;
  cr_approval_id : option string;
  cr_execution_id : option string;
  cr_phase : string;
  cr_checkpoint_seq : Z;
  cr_payload_json : string;
  cr_payload_hash : string;
  cr_schema_version : Z;
  cr_created_at : Z;
}.

Record CheckpointWrite : Type := MkCheckpointWrite {
  cw_checkpoint_id : string;
  cw_checkpoint_seq : Z;
  cw_phase : CheckpointPhase;
  cw_payload_json : string;
  cw_payload_hash : string;
  cw_schema_version : Z;
}.

Record ApprovalRecord : Type := MkApprovalRecord {
  ar_context : TenantContext;
  ar_approval_id : string;
  ar_tool_call_id : string;
  ar_status : ApprovalStatus;
  ar_requested_at : Z;
  ar_resolved_at : option Z;
  ar_expires_at : Z;
  ar_version : Z;
}.

Record WorkflowRuntimeCounters : Type := MkWorkflowRuntimeCounters {
  active_run_count : Z;
  active_executing_run_count : Z;
  awaiting_user_run_count : Z;
  checkpointed_awaiting_user_run_count : Z;
}.

(** ** Facts about the tables the components share *)

Lemma run_terminal_spec s : run_terminal s = true ↔ s ∈ TERMINAL_RUN_STATUSES.
Proof. apply bool_decide_eq_true. Qed.

Lemma legal_run_source_active s t :
  t ∈ LEGAL_RUN_TRANSITIONS s → run_terminal s = false.
Proof. destruct s; simpl; intros H; try reflexivity; by apply elem_of_nil in H. Qed.

Lemma legal_exec_source_open s t :
  t ∈ LEGAL_EXECUTION_TRANSITIONS s → exec_terminal s = false.
Proof. destruct s; simpl; intros H; try reflexivity; by apply elem_of_nil in H. Qed.
