(* ===== verification/Storage.v ===== *)
(** * The database ([src/multiclaw/storage/schema.py], [engine.py], [dialect.py])

    A table is a finite map from its primary key to a row.  Rows are records whose
    fields are the columns; a column with a CHECK that lists an enumeration's values
    is the enumeration, a nullable column is an option, integers are unbounded [Z].
    [INSERT] checks the constraints of the table (primary key, UNIQUE, CHECK, foreign
    keys) and raises [IntegrityError].  A foreign key with a NULL component is not
    checked, as in SQL. *)

From S2P Require Import Prelude Records Errors Json Regex Tenancy WorkflowModels.
From stdpp Require Import base gmap strings list fin_maps sets.

(** ** Rows *)

Record workspace : Type := MkWorkspace {
  wsp_id : string;
  wsp_tenant_id : string;
  wsp_slug : string;
  wsp_name : string;
  wsp_status : string;
  wsp_created_at : Z;
  wsp_updated_at : Z;
}.

Record chat_session : Type := MkChatSession {
  ses_id : string;
  ses_tenant_id : string;
  ses_workspace_id : string;
  ses_title : string;
  ses_status : string;
  ses_created_at : Z;
  ses_updated_at : Z;
  ses_last_message_at : option Z;
  ses_metadata_json : string;
}.

Record memory_entry : Type := MkMemoryEntry {
  mem_id : string;
  mem_tenant_id : string;
  mem_workspace_id : string;
  mem_session_id : option string;
  mem_content : string;
  mem_type : string;
  mem_role : string;
  mem_turn_index : Z;
  mem_created_at : Z;
  mem_metadata_json : string;
}.

Record agent_plan_version : Type := MkAgentPlanVersion {
  pv_tenant_id : string;
  pv_workspace_id : string;
  pv_session_id : string;
  pv_plan_id : string;
  pv_plan_version : Z;
  pv_objective : string;
  pv_constraints_json : string;
  pv_generation_reason : string;
  pv_parent_version : option Z;
  pv_revision_feedback : option string;
  pv_schema_version : Z;
  pv_content_digest : string;
  pv_created_at : Z;
}.

Record agent_plan : Type := MkAgentPlan {
  pl_id : string;
  pl_tenant_id : string;
  pl_workspace_id : string;
  pl_session_id : string;
  pl_source_message_id : string;
  pl_trigger_mode : PlanTriggerMode;
  pl_status : PlanStatus;
  pl_current_version : Z;
  pl_approved_version : option Z;
  pl_version : Z;
  pl_created_at : Z;
  pl_updated_at : Z;
}.

#[export] Instance eta_agent_plan : Eta agent_plan := λ p,
  MkAgentPlan (pl_id p) (pl_tenant_id p) (pl_workspace_id p) (pl_session_id p)
    (pl_source_message_id p) (pl_trigger_mode p) (pl_status p) (pl_current_version p)
    (pl_approved_version p) (pl_version p) (pl_created_at p) (pl_updated_at p).

Record agent_plan_step : Type := MkAgentPlanStep {
  ste_tenant_id : string;
  ste_workspace_id : string;
  ste_session_id : string;
  ste_plan_id : string;
  ste_plan_version : Z;
  ste_step_id : string;
  ste_logical_step_key : string;
  ste_supersedes_step_id : option string;
  ste_ordinal : Z;
  ste_title : string;
  ste_description : string;
  ste_expected_outcome : string;
  ste_assigned_agent_profile_id : option string;
  ste_max_attempts : Z;
  ste_definition_digest : string;
}.

Record agent_plan_step_dependency : Type := MkAgentPlanStepDependency {
  dep_tenant_id : string;
  dep_workspace_id : string;
  dep_session_id : string;
  dep_plan_id : string;
  dep_plan_version : Z;
  dep_step_id : string;
  dep_depends_on_step_id : string;
}.

Record agent_plan_decision : Type := MkAgentPlanDecision {
  dec_tenant_id : string;
  dec_workspace_id : string;
  dec_session_id : string;
  dec_plan_id : string;
  dec_decision_id : string;
  dec_plan_version : Z;
  dec_expected_plan_cas_version : Z;
  dec_action : PlanDecisionAction;
  dec_feedback : option string;
  dec_decided_by : string;
  dec_resulting_plan_version : option Z;
  dec_created_at : Z;
}.

#[export] Instance eta_agent_plan_decision : Eta agent_plan_decision := λ d,
  MkAgentPlanDecision (dec_tenant_id d) (dec_workspace_id d) (dec_session_id d)
    (dec_plan_id d) (dec_decision_id d) (dec_plan_version d)
    (dec_expected_plan_cas_version d) (dec_action d) (dec_feedback d) (dec_decided_by d)
    (dec_resulting_plan_version d) (dec_created_at d).

#[export] Instance agent_plan_decision_eq_dec : EqDecision agent_plan_decision.
Proof. solve_decision. Defined.

Record agent_plan_step_run : Type := MkAgentPlanStepRun {
  srn_tenant_id : string;
  srn_workspace_id : string;
  srn_session_id : string;
  srn_plan_id : string;
  srn_plan_version : Z;
  srn_step_id : string;
  srn_step_run_id : string;
  srn_run_id : string;
  srn_attempt : Z;
  srn_status : PlanStepRunStatus;
  srn_result_summary : option string;
  srn_result_ref : option string;
  srn_result_digest : option string;
  srn_error_code : option string;
  srn_error_detail_redacted : option string;
  srn_reused_from_step_run_id : option string;
  srn_version : Z;
  srn_started_at : Z;
  srn_finished_at : option Z;
}.

#[export] Instance eta_agent_plan_step_run : Eta agent_plan_step_run := λ r,
  MkAgentPlanStepRun (srn_tenant_id r) (srn_workspace_id r) (srn_session_id r)
    (srn_plan_id r) (srn_plan_version r) (srn_step_id r) (srn_step_run_id r)
    (srn_run_id r) (srn_attempt r) (srn_status r) (srn_result_summary r)
    (srn_result_ref r) (srn_result_digest r) (srn_error_code r)
    (srn_error_detail_redacted r) (srn_reused_from_step_run_id r) (srn_version r)
    (srn_started_at r) (srn_finished_at r).

Record agent_run : Type := MkAgentRun {
  run_run_id : string;
  run_tenant_id : string;
  run_workspace_id : string;
  run_session_id : string;
  run_plan_id : option string;
  run_initial_plan_version : option Z;
  run_active_plan_version : option Z;
  run_cancel_requested_at : option Z;
  run_run_status : RunStatus;
  run_runtime_instance_id : option string;
  run_lease_owner : option string;
  run_fencing_token : Z;
  run_lease_expires_at : option Z;
  run_heartbeat_at : option Z;
  run_schema_version : Z;
  run_version : Z;
  run_created_at : Z;
  run_updated_at : Z;
  run_finished_at : option Z;
}.

#[export] Instance eta_agent_run : Eta agent_run := λ r,
  MkAgentRun (run_run_id r) (run_tenant_id r) (run_workspace_id r) (run_session_id r)
    (run_plan_id r) (run_initial_plan_version r) (run_active_plan_version r)
    (run_cancel_requested_at r) (run_run_status r) (run_runtime_instance_id r)
    (run_lease_owner r) (run_fencing_token r) (run_lease_expires_at r)
    (run_heartbeat_at r) (run_schema_version r) (run_version r) (run_created_at r)
    (run_updated_at r) (run_finished_at r).

Record approval_request : Type := MkApprovalRequest {
  apr_approval_id : string;
  apr_tenant_id : string;
  apr_workspace_id : string;
  apr_session_id : string;
  apr_run_id : string;
  apr_tool_call_id : string;
  apr_approval_status : ApprovalStatus;
  apr_requested_at : Z;
  apr_resolved_at : option Z;
  apr_expires_at : Z;
  apr_version : Z;
}.

#[export] Instance eta_approval_request : Eta approval_request := λ a,
  MkApprovalRequest (apr_approval_id a) (apr_tenant_id a) (apr_workspace_id a)
    (apr_session_id a) (apr_run_id a) (apr_tool_call_id a) (apr_approval_status a)
    (apr_requested_at a) (apr_resolved_at a) (apr_expires_at a) (apr_version a).

Record tool_execution : Type := MkToolExecution {
  exe_execution_id : string;
  exe_tenant_id : string;
  exe_workspace_id : string;
  exe_session_id : string;
  exe_run_id : string;
  exe_approval_id : option string;
  exe_tool_call_id : string;
  exe_tool_name : string;
  exe_tool_kind : string;
  exe_execution_status : ExecutionStatus;
  exe_recovery_strategy : RecoveryStrategy;
  exe_idempotency_key : option string;
  exe_input_payload_json : string;
  exe_input_hash : string;
  exe_external_request_id : option string;
  exe_result_ref : option string;
  exe_result_digest : option string;
  exe_schema_version : Z;
  exe_version : Z;
  exe_created_at : Z;
  exe_updated_at : Z;
  exe_finished_at : option Z;
}.

#[export] Instance eta_tool_execution : Eta tool_execution := λ e,
  MkToolExecution (exe_execution_id e) (exe_tenant_id e) (exe_workspace_id e)
    (exe_session_id e) (exe_run_id e) (exe_approval_id e) (exe_tool_call_id e)
    (exe_tool_name e) (exe_tool_kind e) (exe_execution_status e)
    (exe_recovery_strategy e) (exe_idempotency_key e) (exe_input_payload_json e)
    (exe_input_hash e) (exe_external_request_id e) (exe_result_ref e)
    (exe_result_digest e) (exe_schema_version e) (exe_version e) (exe_created_at e)
    (exe_updated_at e) (exe_finished_at e).

Record execution_checkpoint : Type := MkExecutionCheckpoint {
  ckp_checkpoint_id : string;
  ckp_tenant_id : string;
  ckp_workspace_id : string;
  ckp_session_id : string;
  ckp_run_id : string;
  ckp_approval_id : option string;
  ckp_execution_id : option string;
  ckp_phase : string;
  ckp_checkpoint_seq : Z;
  ckp_payload_json : string;
  ckp_payload_hash : string;
  ckp_schema_version : Z;
  ckp_created_at : Z;
}.

Record audit_log : Type := MkAuditLog {
  aud_audit_id : string;
  aud_tenant_id : string;
  aud_workspace_id : string;
  aud_session_id : option string;
  aud_run_id : option string;
  aud_approval_id : option string;
  aud_execution_id : option string;
  aud_event_type : string;
  aud_status : string;
  aud_tool_name : option string;
  aud_detail_redacted : string;
  aud_created_at : Z;
}.

(** ** The tables *)

Record Db : Type := MkDb {
  workspaces : gmap string workspace;
  chat_sessions : gmap string chat_session;
  memory_entries : gmap string memory_entry;
  agent_plans : gmap string agent_plan;
  agent_plan_versions : gmap (string * string * string * string * Z) agent_plan_version;
  agent_plan_steps : gmap string agent_plan_step;
  agent_plan_step_dependencies :
    gmap (string * string * string * string * Z * string * string) agent_plan_step_dependency;
  agent_plan_decisions :
    gmap (string * string * string * string * string) agent_plan_decision;
  agent_plan_step_runs :
    gmap (string * string * string * string * Z * string * string) agent_plan_step_run;
  agent_runs : gmap string agent_run;
  approval_requests : gmap string approval_request;
  tool_executions : gmap string tool_execution;
  execution_checkpoints : gmap string execution_checkpoint;
  audit_logs : gmap string audit_log;
}.

#[export] Instance eta_Db : Eta Db := λ d,
  MkDb (workspaces d) (chat_sessions d) (memory_entries d) (agent_plans d)
    (agent_plan_versions d) (agent_plan_steps d) (agent_plan_step_dependencies d)
    (agent_plan_decisions d) (agent_plan_step_runs d) (agent_runs d) (approval_requests d)
    (tool_executions d) (execution_checkpoints d) (audit_logs d).

Definition empty_db : Db := MkDb ∅ ∅ ∅ ∅ ∅ ∅ ∅ ∅ ∅ ∅ ∅ ∅ ∅ ∅.

(** ** Connections and transactions

    A connection sees the tables, reads the database clock once per statement, and
    draws fresh identifiers.  The clock, [uuid4] and SHA-256 are outside the source:
    they are the fields of [Env], with the word
    characters of the Unicode database.  [w_ticks] and [w_draws] say how many readings and
    draws were made; a rollback restores the tables only. *)

Class Env : Type := {
  env_clock : nat → Z;
  env_uuid4 : nat → string;
  env_sha256_hex : string → string;
  #[global] env_unicode :: UnicodeData;
}.

Record World : Type := MkWorld {
  w_db : Db;
  w_ticks : nat;
  w_draws : nat;
}.

#[export] Instance eta_World : Eta World := λ w, MkWorld (w_db w) (w_ticks w) (w_draws w).

Notation M := (stM World exn).

Definition db_now_ms `{Env} : M Z := λ w,
  (Ok (env_clock (w_ticks w)), w <| w_ticks := S (w_ticks w) |>).

Definition uuid4 `{Env} : M string := λ w,
  (Ok (env_uuid4 (w_draws w)), w <| w_draws := S (w_draws w) |>).

Definition rollback (entry exit : World) : World := exit <| w_db := w_db entry |>.

(** [Database.write_transaction]: commit on success, roll back on any exception. *)
Definition write_transaction {A} (m : M A) : M A := transaction rollback m.

Definition set_db (d : Db) : M unit := modify (λ w, w <| w_db := d |>).

(** ** Rows in a scope *)

Definition rows {K V} `{Countable K} (m : gmap K V) : list V := (map_to_list m).*2.

(** [SELECT count( * ) ... WHERE p]. *)
Definition count_rows {K V} `{Countable K} (p : V → bool) (m : gmap K V) : Z :=
  Z.of_nat (length (List.filter p (rows m))).

(** [EXISTS (SELECT 1 ... WHERE p)]. *)
Definition exists_row {K V} `{Countable K} (p : V → bool) (m : gmap K V) : bool :=
  existsb p (rows m).

(** The run a row belongs to: (tenant, workspace, session, run). *)
Definition scope_key : Type := string * string * string * string.

(** A scope predicate compares a row's four columns with a context whose session
    and run may be absent; [column == None] is [IS NULL], false of these columns. *)
Definition in_scope (c : TenantContext) (k : scope_key) : bool :=
  let '(t, w, s, r) := k in
  bool_decide (t = tc_tenant_id c) && bool_decide (w = tc_workspace_id c) &&
  bool_decide (Some s = tc_session_id c) && bool_decide (Some r = tc_run_id c).

Definition run_scope (r : agent_run) : scope_key :=
  (run_tenant_id r, run_workspace_id r, run_session_id r, run_run_id r).
Definition approval_scope (a : approval_request) : scope_key :=
  (apr_tenant_id a, apr_workspace_id a, apr_session_id a, apr_run_id a).
Definition execution_scope (e : tool_execution) : scope_key :=
  (exe_tenant_id e, exe_workspace_id e, exe_session_id e, exe_run_id e).
Definition checkpoint_scope (k : execution_checkpoint) : scope_key :=
  (ckp_tenant_id k, ckp_workspace_id k, ckp_session_id k, ckp_run_id k).

(** ** Constraints and inserts *)

Definition fk_session (d : Db) (t w s : string) : bool :=
  match chat_sessions d !! s with
  | Some x => bool_decide (ses_tenant_id x = t) && bool_decide (ses_workspace_id x = w)
  | None => false
  end.

Definition fk_plan_version (d : Db) (t w s : string) (p : option string) (v : option Z)
    : bool :=
  match p, v with
  | Some p, Some v => bool_decide (is_Some (agent_plan_versions d !! (t, w, s, p, v)))
  | _, _ => true
  end.

Definition fk_run (d : Db) (k : scope_key) : bool :=
  match agent_runs d !! k.2 with
  | Some r => bool_decide (run_scope r = k)
  | None => false
  end.

Definition fk_approval (d : Db) (k : scope_key) (a : option string) : bool :=
  match a with
  | None => true
  | Some a =>
    match approval_requests d !! a with
    | Some x => bool_decide (approval_scope x = k)
    | None => false
    end
  end.

Definition fk_execution (d : Db) (k : scope_key) (e : option string) : bool :=
  match e with
  | None => true
  | Some e =>
    match tool_executions d !! e with
    | Some x => bool_decide (execution_scope x = k)
    | None => false
    end
  end.

(** [ck_agent_runs_plan_binding_complete]. *)
Definition plan_binding_complete {A B C} (p : option A) (i : option B) (a : option C)
    : bool :=
  match p, i, a with
  | None, None, None | Some _, Some _, Some _ => true
  | _, _, _ => false
  end.

Definition agent_runs_constraints (d : Db) (r : agent_run) : bool :=
  bool_decide (agent_runs d !! run_run_id r = None) &&
  plan_binding_complete (run_plan_id r) (run_initial_plan_version r)
    (run_active_plan_version r) &&
  fk_session d (run_tenant_id r) (run_workspace_id r) (run_session_id r) &&
  fk_plan_version d (run_tenant_id r) (run_workspace_id r) (run_session_id r)
    (run_plan_id r) (run_initial_plan_version r) &&
  fk_plan_version d (run_tenant_id r) (run_workspace_id r) (run_session_id r)
    (run_plan_id r) (run_active_plan_version r).

Definition insert_agent_runs (r : agent_run) : M unit :=
  d ← gets w_db;
  require (agent_runs_constraints d r) (IntegrityError (ConstraintFailed "agent_runs")) ;;
  set_db (d <| agent_runs := <[run_run_id r := r]> (agent_runs d) |>).

Definition approval_requests_constraints (d : Db) (a : approval_request) : bool :=
  bool_decide (approval_requests d !! apr_approval_id a = None) &&
  negb (exists_row (λ x, bool_decide (approval_scope x = approval_scope a) &&
                         bool_decide (apr_tool_call_id x = apr_tool_call_id a))
          (approval_requests d)) &&
  fk_run d (approval_scope a).

Definition insert_approval_requests (a : approval_request) : M unit :=
  d ← gets w_db;
  require (approval_requests_constraints d a) (IntegrityError (ConstraintFailed "approval_requests")) ;;
  set_db (d <| approval_requests := <[apr_approval_id a := a]> (approval_requests d) |>).

Definition tool_executions_constraints (d : Db) (e : tool_execution) : bool :=
  bool_decide (tool_executions d !! exe_execution_id e = None) &&
  negb (exists_row (λ x, bool_decide (execution_scope x = execution_scope e) &&
                         bool_decide (exe_tool_call_id x = exe_tool_call_id e))
          (tool_executions d)) &&
  fk_run d (execution_scope e) &&
  fk_approval d (execution_scope e) (exe_approval_id e).

Definition insert_tool_executions (e : tool_execution) : M unit :=
  d ← gets w_db;
  require (tool_executions_constraints d e) (IntegrityError (ConstraintFailed "tool_executions")) ;;
  set_db (d <| tool_executions := <[exe_execution_id e := e]> (tool_executions d) |>).

Definition execution_checkpoints_constraints (d : Db) (k : execution_checkpoint) : bool :=
  bool_decide (execution_checkpoints d !! ckp_checkpoint_id k = None) &&
  negb (exists_row (λ x, bool_decide (checkpoint_scope x = checkpoint_scope k) &&
                         bool_decide (ckp_checkpoint_seq x = ckp_checkpoint_seq k))
          (execution_checkpoints d)) &&
  fk_run d (checkpoint_scope k) &&
  fk_approval d (checkpoint_scope k) (ckp_approval_id k) &&
  fk_execution d (checkpoint_scope k) (ckp_execution_id k).

Definition insert_execution_checkpoints (k : execution_checkpoint) : M unit :=
  d ← gets w_db;
  require (execution_checkpoints_constraints d k)
    (IntegrityError (ConstraintFailed "execution_checkpoints")) ;;
  set_db (d <| execution_checkpoints :=
                 <[ckp_checkpoint_id k := k]> (execution_checkpoints d) |>).

Definition fk_workspace (d : Db) (t w : string) : bool :=
  match workspaces d !! w with
  | Some x => bool_decide (wsp_tenant_id x = t)
  | None => false
  end.

Definition audit_logs_constraints (d : Db) (a : audit_log) : bool :=
  let t := aud_tenant_id a in
  let w := aud_workspace_id a in
  bool_decide (audit_logs d !! aud_audit_id a = None) &&
  fk_workspace d t w &&
  match aud_session_id a with
  | None => true
  | Some s =>
    fk_session d t w s &&
    match aud_run_id a with
    | None => true
    | Some r =>
      fk_run d (t, w, s, r) && fk_approval d (t, w, s, r) (aud_approval_id a) &&
      fk_execution d (t, w, s, r) (aud_execution_id a)
    end
  end.

Definition insert_audit_logs (a : audit_log) : M unit :=
  d ← gets w_db;
  require (audit_logs_constraints d a) (IntegrityError (ConstraintFailed "audit_logs")) ;;
  set_db (d <| audit_logs := <[aud_audit_id a := a]> (audit_logs d) |>).

(** ** Lemmas on tables *)

Lemma elem_of_rows {K V} `{Countable K} (m : gmap K V) v :
  v ∈ rows m ↔ ∃ k, m !! k = Some v.
Proof.
  unfold rows. rewrite list_elem_of_fmap. split.
  - intros ([k v'] & -> & Hkv%elem_of_map_to_list). by exists k.
  - intros [k Hk]. exists (k, v). split; [done|]. by apply elem_of_map_to_list.
Qed.

Lemma exists_row_true {K V} `{Countable K} (p : V → bool) (m : gmap K V) :
  exists_row p m = true ↔ ∃ k v, m !! k = Some v ∧ p v = true.
Proof.
  unfold exists_row. rewrite existsb_exists. split.
  - intros (v & Hv & Hp). apply list_elem_of_In, elem_of_rows in Hv as [k Hk]. eauto.
  - intros (k & v & Hk & Hp). exists v. split; [|done].
    apply list_elem_of_In, elem_of_rows. eauto.
Qed.

Lemma exists_row_false {K V} `{Countable K} (p : V → bool) (m : gmap K V) :
  exists_row p m = false ↔ ∀ k v, m !! k = Some v → p v = false.
Proof.
  rewrite <-not_true_iff_false, exists_row_true. split.
  - intros Hn k v Hk. destruct (p v) eqn:E; [|done]. destruct Hn; eauto.
  - intros Ha (k & v & Hk & Hp). by rewrite (Ha _ _ Hk) in Hp.
Qed.

Lemma rows_insert_fresh {K V} `{Countable K} (m : gmap K V) k v :
  m !! k = None → rows (<[k:=v]> m) ≡ₚ v :: rows m.
Proof. intros Hk. unfold rows. by rewrite (map_to_list_insert m k v Hk). Qed.

Lemma filter_Permutation {A} (p : A → bool) (l l' : list A) :
  l ≡ₚ l' → length (List.filter p l) = length (List.filter p l').
Proof.
  induction 1; simpl; [done| |by repeat case_match|congruence].
  case_match; simpl; congruence.
Qed.

Lemma count_rows_insert_fresh {K V} `{Countable K} (p : V → bool) (m : gmap K V) k v :
  m !! k = None →
  count_rows p (<[k:=v]> m) = ((if p v then 1 else 0) + count_rows p m)%Z.
Proof.
  intros Hk. unfold count_rows.
  rewrite (filter_Permutation p _ _ (rows_insert_fresh m k v Hk)). simpl.
  destruct (p v); simpl; lia.
Qed.

Lemma count_rows_insert_update {K V} `{Countable K} (p : V → bool) (m : gmap K V) k v v' :
  m !! k = Some v →
  count_rows p (<[k:=v']> m) =
    (count_rows p m + (if p v' then 1 else 0) - (if p v then 1 else 0))%Z.
Proof.
  intros Hk.
  rewrite <-(insert_delete_id m k v Hk) at 2.
  rewrite <-(insert_delete_eq m k v').
  rewrite !count_rows_insert_fresh by apply lookup_delete_eq.
  destruct (p v'), (p v); lia.
Qed.

Lemma count_rows_nonneg {K V} `{Countable K} (p : V → bool) (m : gmap K V) :
  (0 ≤ count_rows p m)%Z.
Proof. unfold count_rows. lia. Qed.

Lemma in_scope_true c t w s r :
  in_scope c (t, w, s, r) = true ↔
  t = tc_tenant_id c ∧ w = tc_workspace_id c ∧ tc_session_id c = Some s ∧
  tc_run_id c = Some r.
Proof.
  unfold in_scope. rewrite !andb_true_iff, !bool_decide_eq_true. naive_solver.
Qed.
