(* ===== verification/Collections.v ===== *)
(** * Sorted lists, dictionaries and tables

    Generic facts that the components share: a sorted list is determined by its elements,
    a dictionary built by repeated assignment holds what was assigned, and the rows of a
    table that knows its keys are distinct. *)

From S2P Require Import Prelude Records Errors Json Regex Tenancy WorkflowModels Storage.
From Stdlib Require Import OrderedTypeEx.
From stdpp Require Import base gmap strings list sorting fin_maps.

(** ** Sorting *)

Section Sorted.
Context {A : Type} (leb : A → A → bool).
Hypothesis leb_total : ∀ x y, leb x y = false → leb y x = true.
Hypothesis leb_trans : ∀ x y z, leb x y = true → leb y z = true → leb x z = true.

Local Notation le := (λ x y, leb x y = true).

Lemma ordered_strongly l : ordered leb l ↔ StronglySorted le l.
Proof using leb_trans.
  induction l as [|x l IH]; simpl; [split; [constructor|done]|]. rewrite IH. clear IH. split.
  - intros [Hx Hl]. constructor; [done|]. destruct Hl as [|y l Hl Hy]; [constructor|].
    constructor; [done|]. eapply Forall_impl; [exact Hy|]. simpl. eauto.
  - intros Hl. inversion Hl as [|? ? H1 H2]; subst. split; [|done].
    destruct l as [|y l]; [done|]. by inversion H2.
Qed.

Lemma strongly_filter (p : A → bool) l :
  StronglySorted le l → StronglySorted le (List.filter p l).
Proof.
  induction 1 as [|x l Hl IH Hx]; simpl; [constructor|]. destruct (p x); [|done].
  constructor; [done|]. apply Forall_forall. intros y Hy%list_elem_of_In%filter_In.
  rewrite Forall_forall in Hx. apply Hx, list_elem_of_In, Hy.
Qed.

Lemma filter_perm (p : A → bool) l1 l2 :
  l1 ≡ₚ l2 → List.filter p l1 ≡ₚ List.filter p l2.
Proof. induction 1; simpl; repeat case_match; by eauto using Permutation. Qed.

Lemma strongly_map {B} (f : B → A) l :
  StronglySorted le (map f l) ↔ StronglySorted (λ x y, leb (f x) (f y) = true) l.
Proof.
  induction l as [|x l IH]; simpl; [split; constructor|]. split.
  - inversion 1 as [|? ? H1 H2]; subst. constructor; [by apply IH|].
    by apply Forall_fmap in H2.
  - inversion 1; subst. constructor; [by apply IH|]. by apply Forall_fmap.
Qed.

(** Two sorted arrangements of the same elements are equal. *)
Lemma strongly_unique l m :
  (∀ x y, x ∈ m → y ∈ m → leb x y = true → leb y x = true → x = y) →
  StronglySorted le l → StronglySorted le m → l ≡ₚ m → l = m.
Proof using leb_trans.
  intros Hanti Hl Hm Hp. assert (Htr : Transitive le) by (intros x y z; apply leb_trans).
  apply (Sorted_unique_strong le); [|by apply StronglySorted_Sorted..|done].
  intros x y Hx Hy. rewrite Hp in Hx. by apply Hanti.
Qed.

Lemma sort_by_unique l m :
  (∀ x y, x ∈ m → y ∈ m → leb x y = true → leb y x = true → x = y) →
  StronglySorted le m → l ≡ₚ m → sort_by leb l = m.
Proof using leb_total leb_trans.
  intros Hanti Hm Hp. apply strongly_unique; [done| |done|by rewrite sort_by_perm].
  by apply ordered_strongly, sort_by_ordered.
Qed.

Lemma sort_by_filter_unique (p : A → bool) l m :
  (∀ x y, x ∈ m → y ∈ m → leb x y = true → leb y x = true → x = y) →
  StronglySorted le m → List.filter p l ≡ₚ m → List.filter p (sort_by leb l) = m.
Proof using leb_total leb_trans.
  intros Hanti Hm Hp. apply strongly_unique; [done| |done|].
  - by apply strongly_filter, ordered_strongly, sort_by_ordered.
  - rewrite <-Hp. apply filter_perm, sort_by_perm.
Qed.
End Sorted.

(** Sorting sees of two lists with the same filtered elements the same filtered list. *)
Lemma filter_sort_by {A} (leb : A → A → bool) (p : A → bool) l m :
  (∀ x y, leb x y = false → leb y x = true) →
  (∀ x y z, leb x y = true → leb y z = true → leb x z = true) →
  (∀ x y, x ∈ m → y ∈ m → leb x y = true → leb y x = true → x = y) →
  List.filter p l ≡ₚ List.filter p m →
  List.filter p (sort_by leb l) = List.filter p (sort_by leb m).
Proof.
  intros Htot Htr Hanti Hp. apply sort_by_filter_unique; [done|done| | |].
  - intros x y [Hx _]%list_elem_of_In%filter_In [Hy _]%list_elem_of_In%filter_In.
    apply Hanti; rewrite <-(sort_by_perm leb); by apply list_elem_of_In.
  - by apply strongly_filter, ordered_strongly, sort_by_ordered.
  - rewrite Hp. symmetry. apply filter_perm, sort_by_perm.
Qed.

(** ** The order of strings *)

Lemma string_lt_trans a b c :
  String.compare a b = Lt → String.compare b c = Lt → String.compare a c = Lt.
Proof.
  change String.compare with String_as_OT.cmp. rewrite !String_as_OT.cmp_lt.
  apply String_as_OT.lt_trans.
Qed.

Lemma string_compare_refl s : String.compare s s = Eq.
Proof. by apply String_as_OT.cmp_eq. Qed.

Lemma string_leb_trans a b c :
  String.leb a b = true → String.leb b c = true → String.leb a c = true.
Proof.
  unfold String.leb. destruct (String.compare a b) eqn:E1; [| |done].
  - by apply String.compare_eq_iff in E1 as ->.
  - destruct (String.compare b c) eqn:E2; [| |done].
    + apply String.compare_eq_iff in E2 as ->. by rewrite E1.
    + by rewrite (string_lt_trans a b c).
Qed.

Lemma string_leb_total a b : String.leb a b = false → String.leb b a = true.
Proof.
  unfold String.leb. rewrite (String.compare_antisym b a). by destruct (String.compare a b).
Qed.

Lemma string_leb_antisym a b : String.leb a b = true → String.leb b a = true → a = b.
Proof.
  unfold String.leb. rewrite (String.compare_antisym b a).
  destruct (String.compare a b) eqn:E; [|done|done].
  by apply String.compare_eq_iff in E.
Qed.

(** ** Dictionaries *)

Section Dictionaries.
Context {A K V : Type} `{Countable K} (key : A → K) (val : A → V).

(** [{key(x): val(x) for x in l}]. *)
Definition dict_from (l : list A) : gmap K V := foldl (λ m x, <[key x := val x]> m) ∅ l.

Lemma foldl_insert_lookup (m : gmap K V) l k :
  NoDup (map key l) →
  foldl (λ m x, <[key x := val x]> m) m l !! k =
  match List.find (λ x, bool_decide (key x = k)) l with
  | Some x => Some (val x)
  | None => m !! k
  end.
Proof.
  revert m. induction l as [|x l IH]; intros m; simpl; [done|].
  intros [Hx Hn]%NoDup_cons. rewrite IH by done. case_bool_decide as Hk.
  - destruct (List.find _ l) as [y|] eqn:E; [|by rewrite Hk, lookup_insert_eq].
    apply find_some in E as [Hy Hky]. apply bool_decide_eq_true in Hky. destruct Hx.
    rewrite Hk, <-Hky. by apply list_elem_of_fmap_2, list_elem_of_In.
  - destruct (List.find _ l); [done|]. by rewrite lookup_insert_ne.
Qed.

Lemma dict_from_lookup l k v :
  NoDup (map key l) →
  dict_from l !! k = Some v ↔ ∃ x, x ∈ l ∧ key x = k ∧ val x = v.
Proof.
  intros Hn. unfold dict_from. rewrite foldl_insert_lookup by done. rewrite lookup_empty. split.
  - destruct (List.find _ l) as [x|] eqn:E; [|done]. intros [= <-].
    apply find_some in E as [Hx Hk]. apply bool_decide_eq_true in Hk.
    exists x. split_and!; [by apply list_elem_of_In|done|done].
  - intros (x&Hx&<-&<-). destruct (List.find _ l) as [y|] eqn:E.
    + apply find_some in E as [Hy Hk]. apply bool_decide_eq_true in Hk. do 2 f_equal.
      apply list_elem_of_In in Hy. induction l as [|z l IH]; [by apply elem_of_nil in Hx|].
      apply NoDup_cons in Hn as [Hz Hn]. rewrite elem_of_cons in Hx, Hy.
      destruct Hx as [->|Hx], Hy as [->|Hy]; try done.
      * destruct Hz. rewrite <-Hk. by apply list_elem_of_fmap_2.
      * destruct Hz. rewrite Hk. by apply list_elem_of_fmap_2.
      * by apply IH.
    + eapply find_none in E; [|by apply list_elem_of_In]. by apply bool_decide_eq_false in E.
Qed.

Lemma find_key l k x :
  NoDup (map key l) → x ∈ l → key x = k →
  List.find (λ x, bool_decide (key x = k)) l = Some x.
Proof.
  induction l as [|y l IH]; intros Hn Hx Hk; [by apply elem_of_nil in Hx|]. simpl.
  apply NoDup_cons in Hn as [Hy Hn]. apply elem_of_cons in Hx as [->|Hx].
  - by rewrite bool_decide_eq_true_2.
  - rewrite bool_decide_eq_false_2; [by apply IH|]. intros Hky. destruct Hy.
    rewrite Hky, <-Hk. by apply list_elem_of_fmap_2.
Qed.

(** Rows inserted at fresh keys. *)
Lemma foldl_insert_Some (m : gmap K V) l k v :
  NoDup (map key l) → (∀ x, x ∈ l → m !! key x = None) →
  foldl (λ m x, <[key x := val x]> m) m l !! k = Some v ↔
  (∃ x, x ∈ l ∧ key x = k ∧ val x = v) ∨ m !! k = Some v.
Proof.
  intros Hn Hf. rewrite foldl_insert_lookup by done. split.
  - destruct (List.find _ l) as [x|] eqn:E; [|by right]. intros [= <-]. left.
    apply find_some in E as [Hx Hk]. apply bool_decide_eq_true in Hk.
    exists x. split_and!; [by apply list_elem_of_In|done|done].
  - intros [(x&Hx&Hk&<-)|Hm]; [by rewrite (find_key l k x)|].
    destruct (List.find _ l) as [x|] eqn:E; [|done].
    apply find_some in E as [Hx Hk]. apply bool_decide_eq_true in Hk. exfalso.
    apply list_elem_of_In, Hf in Hx. congruence.
Qed.

Lemma dict_from_size l : size (dict_from l) = length l ↔ NoDup (map key l).
Proof.
  assert (Hdom : dom (dict_from l) = list_to_set (map key l)).
  { unfold dict_from. rewrite <-(right_id_L ∅ (∪) (list_to_set (map key l))).
    rewrite <-(dom_empty_L (D:=gset K) (M:=gmap K) (A:=V)).
    generalize (∅ : gmap K V). induction l as [|x l IH]; intros m; simpl; [set_solver|].
    rewrite IH, dom_insert_L. set_solver. }
  rewrite <-size_dom, Hdom. rewrite <-(length_map key l). split.
  - intros Hs. clear Hdom. induction (map key l) as [|x m IH]; [constructor|].
    rewrite list_to_set_cons in Hs. cbn [length] in Hs.
    assert (Hle : size (list_to_set m : gset K) ≤ length m).
    { clear. induction m as [|y m IH]; [by rewrite list_to_set_nil, size_empty|].
      rewrite list_to_set_cons, size_union_alt, size_singleton. cbn [length].
      assert (size (list_to_set m ∖ {[y]} : gset K) ≤ size (list_to_set m : gset K))
        by (apply subseteq_size; set_solver). lia. }
    destruct (decide (x ∈ m)) as [Hx|Hx].
    + replace ({[x]} ∪ list_to_set m : gset K) with (list_to_set m : gset K) in Hs by set_solver. lia.
    + rewrite size_union in Hs by set_solver. rewrite size_singleton in Hs.
      constructor; [done|]. apply IH. lia.
  - intros Hn. by apply size_list_to_set.
Qed.
End Dictionaries.

Lemma omap_map_lookup {K A B} `{Countable K} (g : A → option B) (l : list (K * A)) k b :
  NoDup l.*1 →
  (list_to_map (omap (λ ka, pair ka.1 <$> g ka.2) l) : gmap K B) !! k = Some b ↔
  ∃ a, (k, a) ∈ l ∧ g a = Some b.
Proof.
  intros Hn. assert (Hin : ∀ k b, (k, b) ∈ omap (λ ka, pair ka.1 <$> g ka.2) l ↔
    ∃ a, (k, a) ∈ l ∧ g a = Some b).
  { clear. intros k b. rewrite list_elem_of_omap. split.
    - intros ([k' a]&Hk&Hg). simpl in Hg. destruct (g a) eqn:E; [|done].
      injection Hg as <- <-. eauto.
    - intros (a&Ha&Hg). exists (k, a). simpl. by rewrite Hg. }
  rewrite <-Hin. symmetry. apply elem_of_list_to_map'. intros b' Hb. rewrite Hin.
  intros (a'&Ha'&Hg'). apply Hin in Hb as (a&Ha&Hg).
  assert (a = a') as <-; [|congruence]. clear Hin Hg Hg'.
  induction l as [|[k0 a0] l IH]; [by apply elem_of_nil in Ha|]. simpl in Hn.
  apply NoDup_cons in Hn as [Hk0 Hn]. rewrite elem_of_cons in Ha, Ha'.
  destruct Ha as [[= -> ->]|Ha], Ha' as [[= ->]|Ha']; try done.
  - subst. destruct Hk0. apply list_elem_of_fmap. by exists (k0, a').
  - destruct Hk0. apply list_elem_of_fmap. by exists (k0, a).
  - by apply IH.
Qed.

(** ** Rows *)

Lemma rows_NoDup {K V} `{Countable K} (key : V → K) (m : gmap K V) :
  (∀ k v, m !! k = Some v → key v = k) → NoDup (rows m).
Proof.
  intros Hk. unfold rows. apply (NoDup_fmap_1 key).
  rewrite <-list_fmap_compose.
  replace ((key ∘ snd) <$> map_to_list m) with ((map_to_list m).*1);
    [apply NoDup_fst_map_to_list|].
  apply list_fmap_ext. intros i [k v] Hi. simpl.
  symmetry. apply Hk, elem_of_map_to_list. by eapply list_elem_of_lookup_2.
Qed.

Lemma elem_of_filter_bool {A} (p : A → bool) l x : x ∈ List.filter p l ↔ x ∈ l ∧ p x = true.
Proof. rewrite !list_elem_of_In. apply filter_In. Qed.

(** An element is determined by its key. *)
Lemma NoDup_map_inj {A K} (key : A → K) (l : list A) x y :
  NoDup (map key l) → x ∈ l → y ∈ l → key x = key y → x = y.
Proof.
  induction l as [|a l IH]; [by intros _ []%elem_of_nil|].
  simpl. intros [Ha Hl]%NoDup_cons [->|Hx]%elem_of_cons [->|Hy]%elem_of_cons E; [done|..].
  - destruct Ha. rewrite E. by apply list_elem_of_fmap_2.
  - destruct Ha. rewrite <- E. by apply list_elem_of_fmap_2.
  - by apply IH.
Qed.

Lemma NoDup_filter_bool {A} (p : A → bool) (l : list A) : NoDup l → NoDup (List.filter p l).
Proof. rewrite !NoDup_ListNoDup. apply List.NoDup_filter. Qed.

Lemma filter_filter_bool {A} (p q : A → bool) (l : list A) :
  List.filter p (List.filter q l) = List.filter (λ x, q x && p x) l.
Proof.
  induction l as [|x l IH]; simpl; [done|]. destruct (q x); simpl; [|done].
  destruct (p x); by rewrite IH.
Qed.

(** Lists without repetitions that have the same elements. *)
Lemma same_elements_perm {A} (l m : list A) :
  NoDup l → NoDup m → (∀ x, x ∈ l ↔ x ∈ m) → l ≡ₚ m.
Proof. apply NoDup_Permutation. Qed.

Lemma mapM_Forall2 {E A B} (f : A → result E B) l k :
  mapM f l = Ok k → Forall2 (λ x y, f x = Ok y) l k.
Proof.
  revert k. induction l as [|x l IH]; intros k Hk; [injection Hk as <-; constructor|].
  change (mapM f (x :: l)) with (y ← f x; k ← mapM f l; mret (y :: k)) in Hk.
  apply result_bind_Ok in Hk as (y&Hy&Hk). apply result_bind_Ok in Hk as (m&Hm&[= <-]).
  constructor; auto.
Qed.

Lemma mapM_Ok {E A B} (f : A → result E B) (g : A → B) l :
  (∀ x, x ∈ l → f x = Ok (g x)) → mapM f l = Ok (map g l).
Proof.
  induction l as [|x l IH]; intros Hf; [done|].
  change (mapM f (x :: l)) with (y ← f x; k ← mapM f l; mret (y :: k)).
  rewrite (Hf x), IH by set_solver. done.
Qed.
