(* ===== verification/PlanStorage.v ===== *)
(** * The Plan tables ([storage/schema.py] 111-470, 569-688)

    What an [INSERT] or [UPDATE] of a Plan table checks.  The constraints of a row are a
    list of conditions with the violation each reports: CHECKs first, then keys, then
    foreign keys; the first one that fails is the [IntegrityError].  UNIQUE constraints
    that the primary key implies are left out. *)

From S2P Require Import Prelude Records Errors Json Tenancy WorkflowModels Storage.
From stdpp Require Import base gmap strings list fin_maps sets.

(** ** Scopes and keys *)

(** The Plan a row belongs to: (tenant, workspace, session, plan). *)
Definition plan_key : Type := string * string * string * string.

Definition plan_scope (p : agent_plan) : plan_key :=
  (pl_tenant_id p, pl_workspace_id p, pl_session_id p, pl_id p).
Definition version_scope (v : agent_plan_version) : plan_key :=
  (pv_tenant_id v, pv_workspace_id v, pv_session_id v, pv_plan_id v).
Definition step_scope (s : agent_plan_step) : plan_key :=
  (ste_tenant_id s, ste_workspace_id s, ste_session_id s, ste_plan_id s).
Definition dependency_scope (x : agent_plan_step_dependency) : plan_key :=
  (dep_tenant_id x, dep_workspace_id x, dep_session_id x, dep_plan_id x).
Definition decision_scope (x : agent_plan_decision) : plan_key :=
  (dec_tenant_id x, dec_workspace_id x, dec_session_id x, dec_plan_id x).
Definition step_run_plan (x : agent_plan_step_run) : plan_key :=
  (srn_tenant_id x, srn_workspace_id x, srn_session_id x, srn_plan_id x).

(** The run an attempt belongs to. *)
Definition step_run_scope (x : agent_plan_step_run) : scope_key :=
  (srn_tenant_id x, srn_workspace_id x, srn_session_id x, srn_run_id x).

Definition version_key (v : agent_plan_version) := (version_scope v, pv_plan_version v).
Definition dependency_key (x : agent_plan_step_dependency) :=
  (dependency_scope x, dep_plan_version x, dep_step_id x, dep_depends_on_step_id x).
Definition decision_key (x : agent_plan_decision) := (decision_scope x, dec_decision_id x).
Definition step_run_key (x : agent_plan_step_run) :=
  (step_run_plan x, srn_plan_version x, srn_step_id x, srn_step_run_id x).

(** ** Constraints *)

(** The violation of the first condition that is false. *)
Fixpoint first_violation (l : list (bool * violation)) : option violation :=
  match l with
  | [] => None
  | (true, _) :: l => first_violation l
  | (false, v) :: _ => Some v
  end.

Definition check_constraints (l : list (bool * violation)) : M unit :=
  match first_violation l with
  | None => mret tt
  | Some v => throw (IntegrityError v)
  end.

Definition is_digest (s : string) : bool := bool_decide (utf8_length s = 64%Z).

Definition fk_memory (d : Db) (t w s m : string) : bool :=
  match memory_entries d !! m with
  | Some x => bool_decide (mem_tenant_id x = t) && bool_decide (mem_workspace_id x = w) &&
              bool_decide (mem_session_id x = Some s)
  | None => false
  end.

Definition fk_plan (d : Db) (k : plan_key) : bool :=
  match agent_plans d !! k.2 with
  | Some p => bool_decide (plan_scope p = k)
  | None => false
  end.

Definition fk_version (d : Db) (k : plan_key) (v : option Z) : bool :=
  match v with
  | Some v => bool_decide (is_Some (agent_plan_versions d !! (k, v)))
  | None => true
  end.

(** A step of a version of the Plan. *)
Definition fk_version_step (d : Db) (k : plan_key) (v : Z) (s : string) : bool :=
  match agent_plan_steps d !! s with
  | Some x => bool_decide (step_scope x = k) && bool_decide (ste_plan_version x = v)
  | None => false
  end.

(** A step of any version of the Plan. *)
Definition fk_plan_step (d : Db) (k : plan_key) (s : option string) : bool :=
  match s with
  | None => true
  | Some s =>
    match agent_plan_steps d !! s with
    | Some x => bool_decide (step_scope x = k)
    | None => false
    end
  end.

Definition fk_plan_run (d : Db) (k : scope_key) (plan_id : string) : bool :=
  match agent_runs d !! k.2 with
  | Some r => bool_decide (run_scope r = k) && bool_decide (run_plan_id r = Some plan_id)
  | None => false
  end.

Definition fk_reused_step_run (d : Db) (x : agent_plan_step_run) : bool :=
  match srn_reused_from_step_run_id x with
  | None => true
  | Some s =>
    exists_row (λ y, bool_decide (step_run_plan y = step_run_plan x) &&
                     bool_decide (srn_run_id y = srn_run_id x) &&
                     bool_decide (srn_step_run_id y = s)) (agent_plan_step_runs d)
  end.

(** ** [agent_plans] *)

Definition agent_plans_checks (p : agent_plan) : list (bool * violation) :=
  [(Z.leb 1 (pl_current_version p), CheckFailed "ck_agent_plans_current_version_positive");
   (match pl_approved_version p with
    | Some a => Z.leb a (pl_current_version p)
    | None => true
    end, CheckFailed "ck_agent_plans_approved_version_valid")].

Definition agent_plans_constraints (d : Db) (p : agent_plan) : list (bool * violation) :=
  agent_plans_checks p ++
  [(bool_decide (agent_plans d !! pl_id p = None),
      DuplicateKey "agent_plans" "PRIMARY" ["id"]);
   (fk_session d (pl_tenant_id p) (pl_workspace_id p) (pl_session_id p),
      ForeignKeyFailed "fk_agent_plans_chat_sessions");
   (fk_memory d (pl_tenant_id p) (pl_workspace_id p) (pl_session_id p)
      (pl_source_message_id p),
      ForeignKeyFailed "fk_agent_plans_source_message_memory_entries")].

Definition insert_agent_plans (p : agent_plan) : M unit :=
  d ← gets w_db;
  check_constraints (agent_plans_constraints d p) ;;
  set_db (d <| agent_plans := <[pl_id p := p]> (agent_plans d) |>).

(** ** [agent_plan_versions] *)

Definition agent_plan_versions_constraints (d : Db) (v : agent_plan_version)
    : list (bool * violation) :=
  [(Z.leb 1 (pv_plan_version v),
      CheckFailed "ck_agent_plan_versions_plan_version_positive");
   (Z.leb 1 (pv_schema_version v),
      CheckFailed "ck_agent_plan_versions_schema_version_positive");
   (is_digest (pv_content_digest v),
      CheckFailed "ck_agent_plan_versions_content_digest_valid");
   (match pv_parent_version v with
    | Some p => Z.ltb p (pv_plan_version v)
    | None => true
    end, CheckFailed "ck_agent_plan_versions_parent_version_valid");
   (bool_decide (agent_plan_versions d !! version_key v = None),
      DuplicateKey "agent_plan_versions" "PRIMARY"
        ["tenant_id"; "workspace_id"; "session_id"; "plan_id"; "plan_version"]);
   (fk_plan d (version_scope v), ForeignKeyFailed "fk_agent_plan_versions_plan_agent_plans");
   (fk_version d (version_scope v) (pv_parent_version v),
      ForeignKeyFailed "fk_agent_plan_versions_parent_agent_plan_versions")].

Definition insert_agent_plan_versions (v : agent_plan_version) : M unit :=
  d ← gets w_db;
  check_constraints (agent_plan_versions_constraints d v) ;;
  set_db (d <| agent_plan_versions := <[version_key v := v]> (agent_plan_versions d) |>).

(** ** [agent_plan_steps] *)

Definition agent_plan_steps_constraints (d : Db) (s : agent_plan_step)
    : list (bool * violation) :=
  [(Z.leb 1 (ste_ordinal s) && Z.leb (ste_ordinal s) 20,
      CheckFailed "ck_agent_plan_steps_ordinal_valid");
   (Z.leb 1 (ste_max_attempts s) && Z.leb (ste_max_attempts s) 20,
      CheckFailed "ck_agent_plan_steps_max_attempts_valid");
   (is_digest (ste_definition_digest s),
      CheckFailed "ck_agent_plan_steps_definition_digest_valid");
   (bool_decide (agent_plan_steps d !! ste_step_id s = None),
      DuplicateKey "agent_plan_steps" "PRIMARY" ["step_id"]);
   (negb (exists_row (λ x, bool_decide (step_scope x = step_scope s) &&
                           bool_decide (ste_plan_version x = ste_plan_version s) &&
                           bool_decide (ste_logical_step_key x = ste_logical_step_key s))
            (agent_plan_steps d)),
      DuplicateKey "agent_plan_steps" "uq_agent_plan_steps_scope_version_logical_key"
        ["tenant_id"; "workspace_id"; "session_id"; "plan_id"; "plan_version";
         "logical_step_key"]);
   (fk_version d (step_scope s) (Some (ste_plan_version s)),
      ForeignKeyFailed "fk_agent_plan_steps_version_agent_plan_versions");
   (fk_plan_step d (step_scope s) (ste_supersedes_step_id s),
      ForeignKeyFailed "fk_agent_plan_steps_supersedes_agent_plan_steps")].

Definition insert_agent_plan_steps (s : agent_plan_step) : M unit :=
  d ← gets w_db;
  check_constraints (agent_plan_steps_constraints d s) ;;
  set_db (d <| agent_plan_steps := <[ste_step_id s := s]> (agent_plan_steps d) |>).

(** ** [agent_plan_step_dependencies] *)

Definition agent_plan_step_dependencies_constraints (d : Db)
    (x : agent_plan_step_dependency) : list (bool * violation) :=
  [(negb (bool_decide (dep_step_id x = dep_depends_on_step_id x)),
      CheckFailed "ck_agent_plan_step_dependencies_distinct_steps");
   (bool_decide (agent_plan_step_dependencies d !! dependency_key x = None),
      DuplicateKey "agent_plan_step_dependencies" "PRIMARY"
        ["tenant_id"; "workspace_id"; "session_id"; "plan_id"; "plan_version"; "step_id";
         "depends_on_step_id"]);
   (fk_version_step d (dependency_scope x) (dep_plan_version x) (dep_step_id x),
      ForeignKeyFailed "fk_agent_plan_step_dependencies_step_agent_plan_steps");
   (fk_version_step d (dependency_scope x) (dep_plan_version x) (dep_depends_on_step_id x),
      ForeignKeyFailed "fk_agent_plan_step_dependencies_source_agent_plan_steps")].

Definition insert_agent_plan_step_dependencies (x : agent_plan_step_dependency) : M unit :=
  d ← gets w_db;
  check_constraints (agent_plan_step_dependencies_constraints d x) ;;
  set_db (d <| agent_plan_step_dependencies :=
                 <[dependency_key x := x]> (agent_plan_step_dependencies d) |>).

(** ** [agent_plan_decisions] *)

Definition agent_plan_decisions_checks (x : agent_plan_decision)
    : list (bool * violation) :=
  [(Z.leb 1 (dec_plan_version x),
      CheckFailed "ck_agent_plan_decisions_plan_version_positive");
   (Z.leb 1 (dec_expected_plan_cas_version x),
      CheckFailed "ck_agent_plan_decisions_expected_cas_positive");
   (Z.leb 1 (utf8_length (dec_decision_id x)) && Z.leb (utf8_length (dec_decision_id x)) 128,
      CheckFailed "ck_agent_plan_decisions_decision_id_length")].

Definition agent_plan_decisions_references (d : Db) (x : agent_plan_decision)
    : list (bool * violation) :=
  [(fk_version d (decision_scope x) (Some (dec_plan_version x)),
      ForeignKeyFailed "fk_agent_plan_decisions_version_agent_plan_versions");
   (fk_version d (decision_scope x) (dec_resulting_plan_version x),
      ForeignKeyFailed "fk_agent_plan_decisions_result_agent_plan_versions")].

Definition agent_plan_decisions_constraints (d : Db) (x : agent_plan_decision)
    : list (bool * violation) :=
  agent_plan_decisions_checks x ++
  [(bool_decide (agent_plan_decisions d !! decision_key x = None),
      DuplicateKey "agent_plan_decisions" "PRIMARY"
        ["tenant_id"; "workspace_id"; "session_id"; "plan_id"; "decision_id"])] ++
  agent_plan_decisions_references d x.

Definition insert_agent_plan_decisions (x : agent_plan_decision) : M unit :=
  d ← gets w_db;
  check_constraints (agent_plan_decisions_constraints d x) ;;
  set_db (d <| agent_plan_decisions := <[decision_key x := x]> (agent_plan_decisions d) |>).

(** ** [agent_plan_step_runs] *)

Definition agent_plan_step_runs_checks (x : agent_plan_step_run)
    : list (bool * violation) :=
  [(Z.leb 1 (srn_attempt x), CheckFailed "ck_agent_plan_step_runs_attempt_positive");
   (Z.leb 1 (srn_version x), CheckFailed "ck_agent_plan_step_runs_version_positive");
   (match srn_result_digest x with Some g => is_digest g | None => true end,
      CheckFailed "ck_agent_plan_step_runs_result_digest_valid");
   (match srn_finished_at x with Some f => Z.leb (srn_started_at x) f | None => true end,
      CheckFailed "ck_agent_plan_step_runs_finished_at_valid")].

Definition same_attempt (x y : agent_plan_step_run) : bool :=
  bool_decide (step_run_scope x = step_run_scope y) &&
  bool_decide (srn_step_id x = srn_step_id y) && bool_decide (srn_attempt x = srn_attempt y).

Definition same_step_run (x y : agent_plan_step_run) : bool :=
  bool_decide (step_run_plan x = step_run_plan y) &&
  bool_decide (srn_run_id x = srn_run_id y) &&
  bool_decide (srn_step_run_id x = srn_step_run_id y).

Definition agent_plan_step_runs_constraints (d : Db) (x : agent_plan_step_run)
    : list (bool * violation) :=
  agent_plan_step_runs_checks x ++
  [(bool_decide (agent_plan_step_runs d !! step_run_key x = None),
      DuplicateKey "agent_plan_step_runs" "PRIMARY"
        ["tenant_id"; "workspace_id"; "session_id"; "plan_id"; "plan_version"; "step_id";
         "step_run_id"]);
   (negb (exists_row (same_attempt x) (agent_plan_step_runs d)),
      DuplicateKey "agent_plan_step_runs" "uq_agent_plan_step_runs_scope_run_step_attempt"
        ["tenant_id"; "workspace_id"; "session_id"; "run_id"; "step_id"; "attempt"]);
   (negb (exists_row (same_step_run x) (agent_plan_step_runs d)),
      DuplicateKey "agent_plan_step_runs" "uq_agent_plan_step_runs_scope_plan_run_step_run"
        ["tenant_id"; "workspace_id"; "session_id"; "plan_id"; "run_id"; "step_run_id"]);
   (fk_version_step d (step_run_plan x) (srn_plan_version x) (srn_step_id x),
      ForeignKeyFailed "fk_agent_plan_step_runs_step_agent_plan_steps");
   (fk_plan_run d (step_run_scope x) (srn_plan_id x),
      ForeignKeyFailed "fk_agent_plan_step_runs_run_agent_runs");
   (fk_reused_step_run d x,
      ForeignKeyFailed "fk_agent_plan_step_runs_reuse_agent_plan_step_runs")].

Definition insert_agent_plan_step_runs (x : agent_plan_step_run) : M unit :=
  d ← gets w_db;
  check_constraints (agent_plan_step_runs_constraints d x) ;;
  set_db (d <| agent_plan_step_runs := <[step_run_key x := x]> (agent_plan_step_runs d) |>).

(** ** [memory_entries] *)

Definition memory_entries_constraints (d : Db) (m : memory_entry)
    : list (bool * violation) :=
  [(bool_decide (memory_entries d !! mem_id m = None),
      DuplicateKey "memory_entries" "PRIMARY" ["id"]);
   (fk_workspace d (mem_tenant_id m) (mem_workspace_id m),
      ForeignKeyFailed "fk_memory_entries_workspaces");
   (match mem_session_id m with
    | Some s => fk_session d (mem_tenant_id m) (mem_workspace_id m) s
    | None => true
    end, ForeignKeyFailed "fk_memory_entries_chat_sessions")].

Definition insert_memory_entries (m : memory_entry) : M unit :=
  d ← gets w_db;
  check_constraints (memory_entries_constraints d m) ;;
  set_db (d <| memory_entries := <[mem_id m := m]> (memory_entries d) |>).

(** ** Lemmas *)

(** Every condition holds. *)
Definition satisfied (l : list (bool * violation)) : Prop := Forall (λ bv, bv.1 = true) l.

Lemma first_violation_None l : first_violation l = None ↔ satisfied l.
Proof.
  unfold satisfied. induction l as [|[[] v] l IH]; simpl.
  - split; [by constructor|done].
  - rewrite IH. split; [by constructor|by inversion 1].
  - split; [done|by inversion 1].
Qed.

Lemma satisfied_cons b v l : satisfied ((b, v) :: l) ↔ b = true ∧ satisfied l.
Proof. unfold satisfied. by rewrite Forall_cons. Qed.

Lemma satisfied_app l m : satisfied (l ++ m) ↔ satisfied l ∧ satisfied m.
Proof. unfold satisfied. by rewrite Forall_app. Qed.

Lemma satisfied_nil : satisfied [] ↔ True.
Proof. split; [done|by constructor]. Qed.

Lemma check_constraints_cases l w :
  (check_constraints l w = (Ok tt, w) ∧ satisfied l) ∨
  ∃ v, check_constraints l w = (Err (IntegrityError v), w) ∧ first_violation l = Some v.
Proof.
  unfold check_constraints. destruct (first_violation l) eqn:E; [right; eauto|].
  left. split; [done|]. by apply first_violation_None.
Qed.

Lemma check_constraints_Ok l w : satisfied l → check_constraints l w = (Ok tt, w).
Proof. intros Hl%first_violation_None. unfold check_constraints. by rewrite Hl. Qed.

Lemma rows_lookup {K V} `{Countable K} (m : gmap K V) k v : m !! k = Some v → v ∈ rows m.
Proof. intros. apply elem_of_rows. eauto. Qed.
