(* ===== verification/Checkpoint.v ===== *)
(** * Checkpoint payloads ([workflow/models.py] 76-275, [workflow/recovery.py] 64-186, 622-666)

    One record per payload class, its field declarations as a decidable check, the
    canonical encoding with its digest, and the decoding that recovery trusts.  A
    [Literal] field with a default has one value and is not stored in the record; it is
    written by [model_dump] and checked by [model_validate]. *)

From S2P Require Import Prelude Records Errors Json Tenancy WorkflowModels Storage.
From stdpp Require Import base strings list.
From Stdlib Require Import Ascii String.

(** ** Field declarations *)

Definition hex_any (c : ascii) : bool :=
  match hex_value c with Some _ => true | None => false end.
Definition hex_lower (c : ascii) : bool :=
  hex_any c && negb ((65 <=? N_of_ascii c)%N && (N_of_ascii c <=? 70)%N).

Definition str_between (lo hi : Z) (s : string) : bool :=
  Z.leb lo (utf8_length s) && Z.leb (utf8_length s) hi.

Definition UUID_FIELD (s : string) : bool := str_between 36 36 s.
Definition MESSAGE_ID_FIELD (s : string) : bool := str_between 1 128 s.
Definition TOOL_CALL_ID_FIELD (s : string) : bool := str_between 1 128 s.
Definition CURSOR_FIELD (s : string) : bool := str_between 1 255 s.
Definition REF_FIELD (s : string) : bool := str_between 1 255 s.
Definition DIGEST_FIELD (s : string) : bool := str_between 64 64 s.
Definition OPTIONAL_REQUEST_ID_FIELD (s : option string) : bool :=
  match s with None => true | Some s => str_between 1 255 s end.
Definition OPTIONAL_IDEMPOTENCY_KEY_FIELD (s : option string) : bool :=
  match s with None => true | Some s => str_between 1 128 s end.

(** [UUID_PATTERN]: hexadecimal digits with hyphens at the four places. *)
Definition UUID_PATTERN (s : string) : bool :=
  let l := String.list_ascii_of_string s in
  Nat.eqb (List.length l) 36 &&
  forallb (λ ic, if bool_decide (ic.1 ∈ [8; 13; 18; 23]%nat)
                 then Ascii.eqb ic.2 "-"%char else hex_any ic.2)
    (combine (seq 0 36) l).

Definition SHA256_PATTERN (s : string) : bool :=
  let l := String.list_ascii_of_string s in
  Nat.eqb (List.length l) 64 && forallb hex_lower l.

Definition uuid_pattern_field (s : string) : bool := UUID_FIELD s && UUID_PATTERN s.
Definition sha256_pattern_field (s : string) : bool := DIGEST_FIELD s && SHA256_PATTERN s.

(** ** Payload classes *)

Record RunStartedPayload : Type := MkRunStarted {
  rsp_tenant_id : string;
  rsp_workspace_id : string;
  rsp_session_id : string;
  rsp_run_id : string;
  rsp_started_at_ms : Z;
  rsp_model_cursor : string;
  rsp_cursor : string;
}.

Record PlanAwaitingApprovalPayload : Type := MkPlanAwaitingApproval {
  pap_run_id : string;
  pap_plan_id : string;
  pap_plan_version : Z;
  pap_plan_digest : string;
  pap_decision_cursor : string;
  pap_cursor : string;
}.

Record PlanStepReadyPayload : Type := MkPlanStepReady {
  psp_run_id : string;
  psp_plan_id : string;
  psp_plan_version : Z;
  psp_plan_digest : string;
  psp_step_id : string;
  psp_step_run_id : string;
  psp_attempt : Z;
  psp_execution_cursor : string;
  psp_cursor : string;
}.

Record PlanReplanRequiredPayload : Type := MkPlanReplanRequired {
  prp_run_id : string;
  prp_plan_id : string;
  prp_plan_version : Z;
  prp_plan_digest : string;
  prp_failed_step_run_id : string;
  prp_failure_digest : string;
  prp_cursor : string;
}.

Record ModelOutputPayload : Type := MkModelOutput {
  mop_run_id : string;
  mop_message_id : string;
  mop_output_digest : string;
  mop_model_cursor : string;
  mop_cursor : string;
}.

Record AwaitingApprovalPayload : Type := MkAwaitingApproval {
  aap_run_id : string;
  aap_approval_id : string;
  aap_tool_call_id : string;
  aap_approval_expires_at_ms : Z;
  aap_resume_cursor : string;
  aap_cursor : string;
}.

Record ExecutionDispatchingPayload : Type := MkExecutionDispatching {
  edp_run_id : string;
  edp_execution_id : string;
  edp_tool_call_id : string;
  edp_recovery_strategy : RecoveryStrategy;
  edp_input_hash : string;
  edp_input_ref : string;
  edp_idempotency_key : option string;
  edp_dispatch_cursor : string;
  edp_cursor : string;
}.

Record ExecutionResultObservedPayload : Type := MkExecutionResultObserved {
  eop_run_id : string;
  eop_execution_id : string;
  eop_result_status : ExecutionStatus;
  eop_result_digest : string;
  eop_result_ref : string;
  eop_external_request_id : option string;
  eop_resume_cursor : string;
  eop_cursor : string;
}.

Record RunTerminalPayload : Type := MkRunTerminal {
  rtp_run_id : string;
  rtp_terminal_status : RunStatus;
  rtp_finished_at_ms : Z;
  rtp_final_digest : string;
}.

Inductive CheckpointPayload : Type :=
| PRunStarted (p : RunStartedPayload)
| PPlanAwaitingApproval (p : PlanAwaitingApprovalPayload)
| PPlanStepReady (p : PlanStepReadyPayload)
| PPlanReplanRequired (p : PlanReplanRequiredPayload)
| PModelOutput (p : ModelOutputPayload)
| PAwaitingApproval (p : AwaitingApprovalPayload)
| PExecutionDispatching (p : ExecutionDispatchingPayload)
| PExecutionResultObserved (p : ExecutionResultObservedPayload)
| PRunTerminal (p : RunTerminalPayload).

(** [PHASE_PAYLOADS], read from the class to its phase. *)
Definition phase_of (p : CheckpointPayload) : CheckpointPhase :=
  match p with
  | PRunStarted _ => RUN_STARTED
  | PPlanAwaitingApproval _ => PLAN_AWAITING_APPROVAL
  | PPlanStepReady _ => PLAN_STEP_READY
  | PPlanReplanRequired _ => PLAN_REPLAN_REQUIRED
  | PModelOutput _ => MODEL_OUTPUT_COMMITTED
  | PAwaitingApproval _ => AWAITING_APPROVAL
  | PExecutionDispatching _ => EXECUTION_DISPATCHING
  | PExecutionResultObserved _ => EXECUTION_RESULT_OBSERVED
  | PRunTerminal _ => RUN_TERMINAL
  end.

Definition payload_run_id (p : CheckpointPayload) : string :=
  match p with
  | PRunStarted p => rsp_run_id p
  | PPlanAwaitingApproval p => pap_run_id p
  | PPlanStepReady p => psp_run_id p
  | PPlanReplanRequired p => prp_run_id p
  | PModelOutput p => mop_run_id p
  | PAwaitingApproval p => aap_run_id p
  | PExecutionDispatching p => edp_run_id p
  | PExecutionResultObserved p => eop_run_id p
  | PRunTerminal p => rtp_run_id p
  end.

(** The constraints of the fields, then the class's [model_validator]. *)
Definition execution_cursors : list string :=
  ["dispatch_step"; "continue_step"; "select_next"; "final_summary"].

Definition payload_ok (p : CheckpointPayload) : bool :=
  match p with
  | PRunStarted p =>
    UUID_FIELD (rsp_tenant_id p) && UUID_FIELD (rsp_workspace_id p) &&
    UUID_FIELD (rsp_session_id p) && UUID_FIELD (rsp_run_id p) &&
    CURSOR_FIELD (rsp_model_cursor p) && CURSOR_FIELD (rsp_cursor p) &&
    bool_decide (rsp_cursor p = rsp_model_cursor p)
  | PPlanAwaitingApproval p =>
    uuid_pattern_field (pap_run_id p) && uuid_pattern_field (pap_plan_id p) &&
    Z.leb 1 (pap_plan_version p) && sha256_pattern_field (pap_plan_digest p) &&
    CURSOR_FIELD (pap_decision_cursor p) && CURSOR_FIELD (pap_cursor p) &&
    bool_decide (pap_cursor p = pap_decision_cursor p)
  | PPlanStepReady p =>
    uuid_pattern_field (psp_run_id p) && uuid_pattern_field (psp_plan_id p) &&
    Z.leb 1 (psp_plan_version p) && sha256_pattern_field (psp_plan_digest p) &&
    uuid_pattern_field (psp_step_id p) && uuid_pattern_field (psp_step_run_id p) &&
    (Z.leb 1 (psp_attempt p) && Z.leb (psp_attempt p) 20) &&
    bool_decide (psp_execution_cursor p ∈ execution_cursors) &&
    CURSOR_FIELD (psp_cursor p) &&
    bool_decide (psp_cursor p = psp_execution_cursor p)
  | PPlanReplanRequired p =>
    uuid_pattern_field (prp_run_id p) && uuid_pattern_field (prp_plan_id p) &&
    Z.leb 1 (prp_plan_version p) && sha256_pattern_field (prp_plan_digest p) &&
    uuid_pattern_field (prp_failed_step_run_id p) &&
    sha256_pattern_field (prp_failure_digest p) && CURSOR_FIELD (prp_cursor p) &&
    bool_decide (prp_cursor p = "generate_revision")
  | PModelOutput p =>
    UUID_FIELD (mop_run_id p) && MESSAGE_ID_FIELD (mop_message_id p) &&
    DIGEST_FIELD (mop_output_digest p) && CURSOR_FIELD (mop_model_cursor p) &&
    CURSOR_FIELD (mop_cursor p) && bool_decide (mop_cursor p = mop_model_cursor p)
  | PAwaitingApproval p =>
    UUID_FIELD (aap_run_id p) && UUID_FIELD (aap_approval_id p) &&
    TOOL_CALL_ID_FIELD (aap_tool_call_id p) && CURSOR_FIELD (aap_resume_cursor p) &&
    CURSOR_FIELD (aap_cursor p) && bool_decide (aap_cursor p = aap_resume_cursor p)
  | PExecutionDispatching p =>
    UUID_FIELD (edp_run_id p) && UUID_FIELD (edp_execution_id p) &&
    TOOL_CALL_ID_FIELD (edp_tool_call_id p) && DIGEST_FIELD (edp_input_hash p) &&
    REF_FIELD (edp_input_ref p) && OPTIONAL_IDEMPOTENCY_KEY_FIELD (edp_idempotency_key p) &&
    CURSOR_FIELD (edp_dispatch_cursor p) && CURSOR_FIELD (edp_cursor p) &&
    bool_decide (edp_cursor p = edp_dispatch_cursor p) &&
    negb (bool_decide (edp_recovery_strategy p = IDEMPOTENT_RETRY) &&
          negb (truthy (edp_idempotency_key p)))
  | PExecutionResultObserved p =>
    UUID_FIELD (eop_run_id p) && UUID_FIELD (eop_execution_id p) &&
    DIGEST_FIELD (eop_result_digest p) && REF_FIELD (eop_result_ref p) &&
    OPTIONAL_REQUEST_ID_FIELD (eop_external_request_id p) &&
    CURSOR_FIELD (eop_resume_cursor p) && CURSOR_FIELD (eop_cursor p) &&
    bool_decide (eop_cursor p = eop_resume_cursor p)
  | PRunTerminal p =>
    UUID_FIELD (rtp_run_id p) && DIGEST_FIELD (rtp_final_digest p) &&
    run_terminal (rtp_terminal_status p)
  end.

(** ** [model_dump] and [model_validate] *)

Definition opt_str (s : option string) : json :=
  match s with Some s => JStr s | None => JNull end.

Definition model_dump (p : CheckpointPayload) : list (string * json) :=
  ("schema_version", JInt 1) ::
  match p with
  | PRunStarted p =>
    [("tenant_id", JStr (rsp_tenant_id p)); ("workspace_id", JStr (rsp_workspace_id p));
     ("session_id", JStr (rsp_session_id p)); ("run_id", JStr (rsp_run_id p));
     ("started_at_ms", JInt (rsp_started_at_ms p));
     ("model_cursor", JStr (rsp_model_cursor p)); ("next_step", JStr "model_inference");
     ("cursor", JStr (rsp_cursor p))]
  | PPlanAwaitingApproval p =>
    [("run_id", JStr (pap_run_id p)); ("plan_id", JStr (pap_plan_id p));
     ("plan_version", JInt (pap_plan_version p));
     ("plan_digest", JStr (pap_plan_digest p));
     ("decision_cursor", JStr (pap_decision_cursor p));
     ("next_step", JStr "plan_decision"); ("cursor", JStr (pap_cursor p))]
  | PPlanStepReady p =>
    [("run_id", JStr (psp_run_id p)); ("plan_id", JStr (psp_plan_id p));
     ("plan_version", JInt (psp_plan_version p));
     ("plan_digest", JStr (psp_plan_digest p)); ("step_id", JStr (psp_step_id p));
     ("step_run_id", JStr (psp_step_run_id p)); ("attempt", JInt (psp_attempt p));
     ("execution_cursor", JStr (psp_execution_cursor p));
     ("next_step", JStr "plan_step_execution"); ("cursor", JStr (psp_cursor p))]
  | PPlanReplanRequired p =>
    [("run_id", JStr (prp_run_id p)); ("plan_id", JStr (prp_plan_id p));
     ("plan_version", JInt (prp_plan_version p));
     ("plan_digest", JStr (prp_plan_digest p));
     ("failed_step_run_id", JStr (prp_failed_step_run_id p));
     ("failure_digest", JStr (prp_failure_digest p));
     ("revision_cursor", JStr "generate_revision"); ("next_step", JStr "plan_revision");
     ("cursor", JStr (prp_cursor p))]
  | PModelOutput p =>
    [("run_id", JStr (mop_run_id p)); ("message_id", JStr (mop_message_id p));
     ("output_digest", JStr (mop_output_digest p));
     ("model_cursor", JStr (mop_model_cursor p));
     ("next_step", JStr "tool_plan_or_terminal"); ("cursor", JStr (mop_cursor p))]
  | PAwaitingApproval p =>
    [("run_id", JStr (aap_run_id p)); ("approval_id", JStr (aap_approval_id p));
     ("tool_call_id", JStr (aap_tool_call_id p));
     ("approval_expires_at_ms", JInt (aap_approval_expires_at_ms p));
     ("resume_cursor", JStr (aap_resume_cursor p));
     ("next_step", JStr "approval_resolution"); ("cursor", JStr (aap_cursor p))]
  | PExecutionDispatching p =>
    [("run_id", JStr (edp_run_id p)); ("execution_id", JStr (edp_execution_id p));
     ("tool_call_id", JStr (edp_tool_call_id p));
     ("recovery_strategy", JStr (enum_value (edp_recovery_strategy p)));
     ("input_hash", JStr (edp_input_hash p)); ("input_ref", JStr (edp_input_ref p));
     ("idempotency_key", opt_str (edp_idempotency_key p));
     ("dispatch_cursor", JStr (edp_dispatch_cursor p));
     ("next_step", JStr "execution_observation"); ("cursor", JStr (edp_cursor p))]
  | PExecutionResultObserved p =>
    [("run_id", JStr (eop_run_id p)); ("execution_id", JStr (eop_execution_id p));
     ("result_status", JStr (enum_value (eop_result_status p)));
     ("result_digest", JStr (eop_result_digest p)); ("result_ref", JStr (eop_result_ref p));
     ("external_request_id", opt_str (eop_external_request_id p));
     ("resume_cursor", JStr (eop_resume_cursor p));
     ("next_step", JStr "continue_or_terminal"); ("cursor", JStr (eop_cursor p))]
  | PRunTerminal p =>
    [("run_id", JStr (rtp_run_id p));
     ("terminal_status", JStr (enum_value (rtp_terminal_status p)));
     ("finished_at_ms", JInt (rtp_finished_at_ms p));
     ("final_digest", JStr (rtp_final_digest p)); ("next_step", JNull); ("cursor", JNull)]
  end.

(** Lookup in the dict, and what each kind of field accepts. *)
Definition field (k : string) (d : list (string * json)) : option json :=
  snd <$> List.find (λ kv, String.eqb kv.1 k) d.

Definition str_field (k : string) (d : list (string * json)) : option string :=
  match field k d with Some (JStr s) => Some s | _ => None end.

(** [StrictInt]: a bool is refused. *)
Definition int_field (k : string) (d : list (string * json)) : option Z :=
  match field k d with Some (JInt z) => Some z | _ => None end.

Definition enum_field {A} `{StrEnum A} (k : string) (d : list (string * json)) : option A :=
  match field k d with Some (JStr s) => enum_of_value s | _ => None end.

(** [str | None = None]. *)
Definition opt_str_field (k : string) (d : list (string * json)) : option (option string) :=
  match field k d with
  | None | Some JNull => Some None
  | Some (JStr s) => Some (Some s)
  | _ => None
  end.

Definition literal_field (k v : string) (d : list (string * json)) : option unit :=
  match field k d with
  | None => Some tt
  | Some (JStr s) => if String.eqb s v then Some tt else None
  | _ => None
  end.

Definition null_field (k : string) (d : list (string * json)) : option unit :=
  match field k d with None | Some JNull => Some tt | _ => None end.

(** [schema_version: Literal[1] = 1]. *)
Definition schema_version_field (d : list (string * json)) : option unit :=
  match field "schema_version" d with
  | None => Some tt
  | Some (JInt 1) => Some tt
  | _ => None
  end.

(** [extra="forbid"]. *)
Definition only_fields (names : list string) (d : list (string * json)) : option unit :=
  if forallb (λ kv, existsb (String.eqb kv.1) ("schema_version" :: names)) d
  then Some tt else None.

(** The shape of each class: field names, types, literals. *)
Definition payload_shape (phase : CheckpointPhase) (d : list (string * json))
    : option CheckpointPayload :=
  _ ← schema_version_field d;
  match phase with
  | RUN_STARTED =>
    _ ← only_fields ["tenant_id"; "workspace_id"; "session_id"; "run_id";
          "started_at_ms"; "model_cursor"; "next_step"; "cursor"] d;
    t ← str_field "tenant_id" d; w ← str_field "workspace_id" d;
    s ← str_field "session_id" d; r ← str_field "run_id" d;
    at_ ← int_field "started_at_ms" d; m ← str_field "model_cursor" d;
    _ ← literal_field "next_step" "model_inference" d; c ← str_field "cursor" d;
    Some (PRunStarted (MkRunStarted t w s r at_ m c))
  | PLAN_AWAITING_APPROVAL =>
    _ ← only_fields ["run_id"; "plan_id"; "plan_version"; "plan_digest";
          "decision_cursor"; "next_step"; "cursor"] d;
    r ← str_field "run_id" d; p ← str_field "plan_id" d;
    v ← int_field "plan_version" d; g ← str_field "plan_digest" d;
    x ← str_field "decision_cursor" d; _ ← literal_field "next_step" "plan_decision" d;
    c ← str_field "cursor" d;
    Some (PPlanAwaitingApproval (MkPlanAwaitingApproval r p v g x c))
  | PLAN_STEP_READY =>
    _ ← only_fields ["run_id"; "plan_id"; "plan_version"; "plan_digest"; "step_id";
          "step_run_id"; "attempt"; "execution_cursor"; "next_step"; "cursor"] d;
    r ← str_field "run_id" d; p ← str_field "plan_id" d;
    v ← int_field "plan_version" d; g ← str_field "plan_digest" d;
    s ← str_field "step_id" d; sr ← str_field "step_run_id" d;
    a ← int_field "attempt" d; x ← str_field "execution_cursor" d;
    _ ← literal_field "next_step" "plan_step_execution" d; c ← str_field "cursor" d;
    Some (PPlanStepReady (MkPlanStepReady r p v g s sr a x c))
  | PLAN_REPLAN_REQUIRED =>
    _ ← only_fields ["run_id"; "plan_id"; "plan_version"; "plan_digest";
          "failed_step_run_id"; "failure_digest"; "revision_cursor"; "next_step";
          "cursor"] d;
    r ← str_field "run_id" d; p ← str_field "plan_id" d;
    v ← int_field "plan_version" d; g ← str_field "plan_digest" d;
    s ← str_field "failed_step_run_id" d; f ← str_field "failure_digest" d;
    _ ← literal_field "revision_cursor" "generate_revision" d;
    _ ← literal_field "next_step" "plan_revision" d; c ← str_field "cursor" d;
    Some (PPlanReplanRequired (MkPlanReplanRequired r p v g s f c))
  | MODEL_OUTPUT_COMMITTED =>
    _ ← only_fields ["run_id"; "message_id"; "output_digest"; "model_cursor";
          "next_step"; "cursor"] d;
    r ← str_field "run_id" d; m ← str_field "message_id" d;
    g ← str_field "output_digest" d; x ← str_field "model_cursor" d;
    _ ← literal_field "next_step" "tool_plan_or_terminal" d; c ← str_field "cursor" d;
    Some (PModelOutput (MkModelOutput r m g x c))
  | AWAITING_APPROVAL =>
    _ ← only_fields ["run_id"; "approval_id"; "tool_call_id"; "approval_expires_at_ms";
          "resume_cursor"; "next_step"; "cursor"] d;
    r ← str_field "run_id" d; a ← str_field "approval_id" d;
    t ← str_field "tool_call_id" d; e ← int_field "approval_expires_at_ms" d;
    x ← str_field "resume_cursor" d;
    _ ← literal_field "next_step" "approval_resolution" d; c ← str_field "cursor" d;
    Some (PAwaitingApproval (MkAwaitingApproval r a t e x c))
  | EXECUTION_DISPATCHING =>
    _ ← only_fields ["run_id"; "execution_id"; "tool_call_id"; "recovery_strategy";
          "input_hash"; "input_ref"; "idempotency_key"; "dispatch_cursor"; "next_step";
          "cursor"] d;
    r ← str_field "run_id" d; e ← str_field "execution_id" d;
    t ← str_field "tool_call_id" d; s ← enum_field "recovery_strategy" d;
    h ← str_field "input_hash" d; i ← str_field "input_ref" d;
    k ← opt_str_field "idempotency_key" d; x ← str_field "dispatch_cursor" d;
    _ ← literal_field "next_step" "execution_observation" d; c ← str_field "cursor" d;
    Some (PExecutionDispatching (MkExecutionDispatching r e t s h i k x c))
  | EXECUTION_RESULT_OBSERVED =>
    _ ← only_fields ["run_id"; "execution_id"; "result_status"; "result_digest";
          "result_ref"; "external_request_id"; "resume_cursor"; "next_step"; "cursor"] d;
    r ← str_field "run_id" d; e ← str_field "execution_id" d;
    s ← enum_field "result_status" d; g ← str_field "result_digest" d;
    f ← str_field "result_ref" d; q ← opt_str_field "external_request_id" d;
    x ← str_field "resume_cursor" d;
    _ ← literal_field "next_step" "continue_or_terminal" d; c ← str_field "cursor" d;
    Some (PExecutionResultObserved (MkExecutionResultObserved r e s g f q x c))
  | RUN_TERMINAL =>
    _ ← only_fields ["run_id"; "terminal_status"; "finished_at_ms"; "final_digest";
          "next_step"; "cursor"] d;
    r ← str_field "run_id" d; s ← enum_field "terminal_status" d;
    f ← int_field "finished_at_ms" d; g ← str_field "final_digest" d;
    _ ← null_field "next_step" d; _ ← null_field "cursor" d;
    Some (PRunTerminal (MkRunTerminal r s f g))
  end.

(** [PHASE_PAYLOADS[phase].model_validate(data)]; [None] is a [ValidationError]. *)
Definition model_validate (phase : CheckpointPhase) (d : list (string * json))
    : option CheckpointPayload :=
  p ← payload_shape phase d;
  if payload_ok p then Some p else None.

(** ** Encoding *)

Definition canonical_json (d : list (string * json)) : string := print_json (JObj d).

Definition is_alnum (c : ascii) : bool :=
  let n := N_of_ascii c in
  is_digit c || ((97 <=? n)%N && (n <=? 122)%N) || ((65 <=? n)%N && (n <=? 90)%N).

(** [_normalize_key] for the ASCII names that payload classes declare. *)
Fixpoint normalize_key (k : string) : string :=
  match k with
  | EmptyString => EmptyString
  | String c k =>
    if is_alnum c then String (ascii_lower c) (normalize_key k) else normalize_key k
  end.

(** [sub in s]. *)
Fixpoint contains (sub s : string) : bool :=
  match strip sub s with
  | Some _ => true
  | None => match s with EmptyString => false | String _ s => contains sub s end
  end.

Definition SECRET_KEY_MARKERS : list string :=
  ["secret"; "token"; "password"; "apikey"; "authorization"].

Definition secret_key (k : string) : bool :=
  existsb (λ marker, contains marker (normalize_key k)) SECRET_KEY_MARKERS.

(** The first forbidden key, in the order of the traversal. *)
Fixpoint find_secret (j : json) : option string :=
  match j with
  | JArr l =>
    (fix go (l : list json) : option string :=
       match l with
       | [] => None
       | x :: l => match find_secret x with Some k => Some k | None => go l end
       end) l
  | JObj l =>
    (fix go (l : list (string * json)) : option string :=
       match l with
       | [] => None
       | (k, v) :: l =>
         if secret_key k then Some k
         else match find_secret v with Some k => Some k | None => go l end
       end) l
  | _ => None
  end.

Definition reject_secret_fields (j : json) : result exn unit :=
  match find_secret j with
  | Some k => Err (CorruptCheckpointError
                ("checkpoint payload contains forbidden key '" +:+ k +:+ "'"))
  | None => Ok tt
  end.

Record EncodedCheckpointPayload : Type := MkEncodedCheckpointPayload {
  ecp_payload_json : string;
  ecp_payload_hash : string;
  ecp_schema_version : Z;
}.

Definition encode_checkpoint_payload `{Env} (p : CheckpointPayload) (max_bytes : Z)
    : result exn EncodedCheckpointPayload :=
  let data := model_dump p in
  _ ← reject_secret_fields (JObj data);
  let encoded := canonical_json data in
  let n := Z.of_nat (String.length encoded) in
  _ ← ensure (Z.leb n max_bytes)
        (CheckpointTooLargeError ("checkpoint payload exceeds " +:+ str_of_int max_bytes +:+
           " bytes (" +:+ str_of_int n +:+ " bytes)"));
  Ok {| ecp_payload_json := encoded;
        ecp_payload_hash := env_sha256_hex encoded;
        ecp_schema_version := 1 |}.

(** ** Decoding *)

(** A phase given as the enumeration ([inl]) or as text ([inr]). *)
Definition parse_phase (value : CheckpointPhase + string) : result exn CheckpointPhase :=
  match value with
  | inl p => Ok p
  | inr s =>
    match enum_of_value s with
    | Some p => Ok p
    | None => Err (IncompatibleCheckpointError
                ("unsupported checkpoint phase '" +:+ s +:+ "'"))
    end
  end.

(** A payload given as an instance ([inl]) or as a dict ([inr]). *)
Definition validate_phase_payload (phase : CheckpointPhase + string)
    (payload : CheckpointPayload + list (string * json))
    : result exn (CheckpointPhase * CheckpointPayload) :=
  ph ← parse_phase phase;
  let validated :=
    match payload with
    | inl p => if bool_decide (phase_of p = ph) then model_validate ph (model_dump p)
               else None
    | inr d => model_validate ph d
    end in
  match validated with
  | Some p => Ok (ph, p)
  | None => Err (CorruptCheckpointError "checkpoint payload does not match phase schema")
  end.

Definition decode_json_object (payload_json : string)
    : result exn (list (string * json)) :=
  match json_loads payload_json with
  | None => Err (CorruptCheckpointError "checkpoint payload_json is not valid JSON")
  | Some (JObj d) => Ok d
  | Some _ =>
    Err (CorruptCheckpointError "checkpoint payload_json must decode to an object")
  end.

(** [payload_data.get("schema_version") == version].  A bool compares as an integer.  A
    float never compares equal here: it is refused with this error rather than by the
    payload class a step later. *)
Definition py_equals_int (v : option json) (n : Z) : bool :=
  match v with
  | Some (JInt z) => Z.eqb z n
  | Some (JBool b) => Z.eqb (Z.b2z b) n
  | _ => false
  end.

(** [recovery._validate_checkpoint_scope]: the payload against its row. *)
Definition validate_row_scope (k : CheckpointRecord) (p : CheckpointPayload)
    : result exn unit :=
  _ ← ensure (bool_decide (payload_run_id p = cr_run_id k))
        (CorruptCheckpointError "checkpoint payload run_id does not match row scope");
  match p with
  | PRunStarted p =>
    _ ← ensure (bool_decide (rsp_tenant_id p = cr_tenant_id k))
      (CorruptCheckpointError "checkpoint payload tenant_id does not match row scope");
    _ ← ensure (bool_decide (rsp_workspace_id p = cr_workspace_id k))
      (CorruptCheckpointError "checkpoint payload workspace_id does not match row scope");
    ensure (bool_decide (rsp_session_id p = cr_session_id k))
      (CorruptCheckpointError "checkpoint payload session_id does not match row scope")
  | PAwaitingApproval p =>
    ensure (bool_decide (cr_approval_id k = Some (aap_approval_id p)))
      (CorruptCheckpointError "checkpoint approval_id does not match payload")
  | PExecutionDispatching p =>
    ensure (bool_decide (cr_execution_id k = Some (edp_execution_id p)))
      (CorruptCheckpointError "checkpoint execution_id does not match payload")
  | PExecutionResultObserved p =>
    ensure (bool_decide (cr_execution_id k = Some (eop_execution_id p)))
      (CorruptCheckpointError "checkpoint execution_id does not match payload")
  | _ => Ok tt
  end.

Definition decode_checkpoint `{Env} (k : CheckpointRecord)
    : result exn (CheckpointPhase * CheckpointPayload) :=
  _ ← ensure (Z.eqb (cr_schema_version k) 1)
        (IncompatibleCheckpointError ("unsupported checkpoint schema_version " +:+
           str_of_int (cr_schema_version k)));
  data ← decode_json_object (cr_payload_json k);
  _ ← ensure (py_equals_int (field "schema_version" data) (cr_schema_version k))
        (CorruptCheckpointError "checkpoint schema version does not match payload");
  phase ← parse_phase (inr (cr_phase k));
  match model_validate phase data with
  | None => Err (CorruptCheckpointError "checkpoint payload does not match phase schema")
  | Some p =>
    let encoded := canonical_json (model_dump p) in
    _ ← ensure (bool_decide (env_sha256_hex encoded = cr_payload_hash k))
          (CorruptCheckpointError "checkpoint payload hash mismatch");
    _ ← reject_secret_fields (JObj (model_dump p));
    _ ← validate_row_scope k p;
    Ok (phase, p)
  end.

(** ** Payloads survive encoding and decoding *)

(** Evaluate a statement about a payload: its class, its optional and enumerated
    fields. *)
Ltac by_payload_cases :=
  repeat match goal with
  | p : CheckpointPayload |- _ => destruct p as [[]|[]|[]|[]|[]|[]|[]|[]|[]]
  end;
  repeat match goal with
  | o : option string |- _ => destruct o
  | o : RecoveryStrategy |- _ => destruct o
  | o : ExecutionStatus |- _ => destruct o
  | o : RunStatus |- _ => destruct o
  end; reflexivity.

Lemma find_secret_dump p : find_secret (JObj (model_dump p)) = None.
Proof. by_payload_cases. Qed.

Lemma plain_dump p : plain (JObj (model_dump p)) = true.
Proof. by_payload_cases. Qed.

Definition sorted_dump (p : CheckpointPayload) : list (string * json) :=
  sort_by key_leb (model_dump p).

Lemma canon_dump p : canon (JObj (model_dump p)) = JObj (sorted_dump p).
Proof. by_payload_cases. Qed.

Lemma payload_shape_sorted p : payload_shape (phase_of p) (sorted_dump p) = Some p.
Proof. by_payload_cases. Qed.

Lemma payload_shape_dump p : payload_shape (phase_of p) (model_dump p) = Some p.
Proof. by_payload_cases. Qed.

Lemma schema_version_sorted p : field "schema_version" (sorted_dump p) = Some (JInt 1).
Proof. by_payload_cases. Qed.

Lemma decode_canonical p :
  decode_json_object (canonical_json (model_dump p)) = Ok (sorted_dump p).
Proof.
  unfold decode_json_object, canonical_json.
  by rewrite json_loads_print, canon_dump by apply plain_dump.
Qed.

Lemma payload_shape_phase phase d p : payload_shape phase d = Some p → phase_of p = phase.
Proof.
  unfold payload_shape. destruct phase; simpl; intros H;
    repeat (apply bind_Some in H as (? & _ & H)); by injection H as <-.
Qed.

Lemma model_validate_Some phase d p :
  model_validate phase d = Some p → phase_of p = phase ∧ payload_ok p = true.
Proof.
  unfold model_validate. intros (q & Hq & Hp)%bind_Some.
  destruct (payload_ok q) eqn:E; [|done]. injection Hp as <-.
  split; [by eapply payload_shape_phase|done].
Qed.

Lemma model_validate_instance p :
  payload_ok p = true → model_validate (phase_of p) (model_dump p) = Some p.
Proof. intros Hp. unfold model_validate. rewrite payload_shape_dump. simpl. by rewrite Hp. Qed.

Lemma encode_checkpoint_payload_eq `{Env} p max_bytes :
  encode_checkpoint_payload p max_bytes =
  let s := canonical_json (model_dump p) in
  let n := Z.of_nat (String.length s) in
  if Z.leb n max_bytes then Ok (MkEncodedCheckpointPayload s (env_sha256_hex s) 1)
  else Err (CheckpointTooLargeError ("checkpoint payload exceeds " +:+
         str_of_int max_bytes +:+ " bytes (" +:+ str_of_int n +:+ " bytes)")).
Proof.
  unfold encode_checkpoint_payload, reject_secret_fields. rewrite find_secret_dump.
  cbv zeta. cbn [mbind result_bind]. by destruct (Z.leb _ max_bytes).
Qed.

Lemma encode_Ok `{Env} p max_bytes e :
  encode_checkpoint_payload p max_bytes = Ok e →
  ecp_payload_json e = canonical_json (model_dump p) ∧
  ecp_payload_hash e = env_sha256_hex (canonical_json (model_dump p)) ∧
  ecp_schema_version e = 1%Z ∧
  (Z.of_nat (String.length (ecp_payload_json e)) ≤ max_bytes)%Z.
Proof.
  rewrite encode_checkpoint_payload_eq. cbv zeta. destruct (Z.leb_spec0
    (Z.of_nat (String.length (canonical_json (model_dump p)))) max_bytes); [|done].
  by intros [= <-].
Qed.

Lemma decode_of_encode `{Env} p k :
  payload_ok p = true →
  cr_schema_version k = 1%Z → cr_phase k = enum_value (phase_of p) →
  cr_payload_json k = canonical_json (model_dump p) →
  cr_payload_hash k = env_sha256_hex (canonical_json (model_dump p)) →
  validate_row_scope k p = Ok tt →
  decode_checkpoint k = Ok (phase_of p, p).
Proof.
  intros Hp Hv Hph Hj Hh Hs. unfold decode_checkpoint.
  rewrite Hv, Hj, Hph, Hh, decode_canonical. unfold parse_phase.
  rewrite enum_of_value_value. unfold model_validate, reject_secret_fields.
  cbn [mbind result_bind ensure Z.eqb Pos.eqb]. rewrite schema_version_sorted.
  cbn [mbind result_bind ensure py_equals_int Z.eqb Pos.eqb].
  rewrite payload_shape_sorted. cbn [mbind option_bind].
  rewrite Hp, find_secret_dump, bool_decide_true by done.
  cbn [mbind result_bind ensure]. by rewrite Hs.
Qed.

Lemma decode_checkpoint_Ok `{Env} k ph p :
  decode_checkpoint k = Ok (ph, p) →
  cr_schema_version k = 1%Z ∧ cr_phase k = enum_value ph ∧ phase_of p = ph ∧
  payload_ok p = true ∧
  cr_payload_hash k = env_sha256_hex (canonical_json (model_dump p)) ∧
  validate_row_scope k p = Ok tt.
Proof.
  unfold decode_checkpoint.
  intros (? & Hv%ensure_Ok & H1)%result_bind_Ok.
  apply result_bind_Ok in H1 as (data & _ & H1).
  apply result_bind_Ok in H1 as (? & _ & H1).
  apply result_bind_Ok in H1 as (phase & Hph & H1).
  destruct (model_validate phase data) as [q|] eqn:Hm; [|done].
  apply result_bind_Ok in H1 as (? & Hh%ensure_Ok & H1).
  apply result_bind_Ok in H1 as (? & _ & H1).
  apply result_bind_Ok in H1 as ([] & Hs & H1). injection H1 as <- <-.
  apply model_validate_Some in Hm as [? ?].
  apply Z.eqb_eq in Hv. apply bool_decide_eq_true in Hh.
  split_and!; try done. simpl in Hph.
  destruct (enum_of_value (cr_phase k)) as [ph0|] eqn:E; [|done]. injection Hph as ->.
  by apply enum_of_value_Some in E.
Qed.

Lemma validate_row_scope_run k p :
  validate_row_scope k p = Ok tt → payload_run_id p = cr_run_id k.
Proof.
  unfold validate_row_scope. intros (? & H%ensure_Ok & _)%result_bind_Ok.
  by apply bool_decide_eq_true in H.
Qed.

Lemma sorted_dump_inj p q : sorted_dump p = sorted_dump q → p = q.
Proof.
  intros H. assert (Hp : phase_of p = phase_of q).
  { destruct p as [p|p|p|p|p|p|p|p|p], q as [q|q|q|q|q|q|q|q|q]; try reflexivity;
      exfalso; apply (f_equal (map fst)) in H; vm_compute in H; discriminate H. }
  pose proof (payload_shape_sorted p) as H1. pose proof (payload_shape_sorted q) as H2.
  rewrite Hp, H in H1. congruence.
Qed.

Lemma canonical_dump_inj p q :
  canonical_json (model_dump p) = canonical_json (model_dump q) → p = q.
Proof.
  unfold canonical_json. intros H.
  apply print_json_canon_eq in H; [|apply plain_dump..].
  rewrite !canon_dump in H. injection H as H. by apply sorted_dump_inj.
Qed.
