(* ===== verification/Events.v ===== *)
(** * Scoped events ([src/multiclaw/events/types.py] and [router.py])

    An event belongs to one run of one tenant.  The router keeps the handlers of each
    scope in the order of their subscription and delivers an event to those of its own
    scope only.  What a handler does is outside: a delivery is the list of subscriptions
    that are called, and a handler that fails does not stop the others.  The time of the
    constructor ([occurred_at_ms]) is not modelled. *)

From S2P Require Import Prelude.
From S2P Require Import Records Errors Json Tenancy.
From S2P Require Import Checkpoint.
From stdpp Require Import base gmap strings list.

(** ** Scopes and events *)

Record EventScope : Type := MkEventScope {
  es_tenant_id : string;
  es_workspace_id : string;
  es_session_id : string;
  es_run_id : string;
}.

Definition scope_value (s : string) : bool := str_between 1 36 s && negb (String.eqb s "*").

Definition EventScope_ok (s : EventScope) : bool :=
  scope_value (es_tenant_id s) && scope_value (es_workspace_id s) &&
  scope_value (es_session_id s) && scope_value (es_run_id s).

Definition scope_of_context (c : TenantContext) : result exn EventScope :=
  match tc_session_id c, tc_run_id c with
  | Some s, Some r =>
    let scope := MkEventScope (tc_tenant_id c) (tc_workspace_id c) s r in
    if EventScope_ok scope then Ok scope else Err ValidationError
  | _, _ => Err (ValueError "event scope requires session and run")
  end.

Record ScopedEvent : Type := MkScopedEvent {
  ev_scope : EventScope;
  ev_event_type : string;
  ev_data : list (string * json);
}.

Definition ScopedEvent_ok (e : ScopedEvent) : bool :=
  EventScope_ok (ev_scope e) && str_between 1 128 (ev_event_type e) &&
  negb (String.eqb (ev_event_type e) "*").

Definition from_scope (s : EventScope) (event_type : string) (data : list (string * json))
    : result exn ScopedEvent :=
  let e := MkScopedEvent s event_type data in
  if ScopedEvent_ok e then Ok e else Err ValidationError.

Definition from_context (c : TenantContext) (event_type : string)
    (data : list (string * json)) : result exn ScopedEvent :=
  s ← scope_of_context c; from_scope s event_type data.

(** ** The router *)

Definition event_key : Type := string * string * string * string.

Definition event_scope_key (s : EventScope) : event_key :=
  (es_tenant_id s, es_workspace_id s, es_session_id s, es_run_id s).

Section Router.
Context {Handler : Type}.

(** The handlers of each scope, oldest subscription first. *)
Local Notation router := (gmap event_key (list (string * Handler))).
Implicit Types (r : router) (h : Handler).

Definition subscribe (s : EventScope) (sub_id : string) h r : router :=
  let k := event_scope_key s in <[k := default [] (r !! k) ++ [(sub_id, h)]]> r.

Definition unsubscribe (k : event_key) (sub_id : string) r : router :=
  match r !! k with
  | None => r
  | Some handlers =>
    match List.filter (λ sh, negb (String.eqb sh.1 sub_id)) handlers with
    | [] => delete k r
    | remaining => <[k := remaining]> r
    end
  end.

Definition clear r : router := ∅.

(** The handlers that are called, in order, each with its own copy of the event. *)
Definition publish (e : ScopedEvent) r : list (string * Handler * ScopedEvent) :=
  map (λ sh, (sh.1, sh.2, e)) (default [] (r !! event_scope_key (ev_scope e))).

(** ** Isolation *)

(** What happens to a router. *)
Inductive router_call : Type :=
| Subscribe (s : EventScope) (sub_id : string) (h : Handler)
| Unsubscribe (k : event_key) (sub_id : string)
| Clear.

Definition route (k : router_call) r : router :=
  match k with
  | Subscribe s i h => subscribe s i h r
  | Unsubscribe k i => unsubscribe k i r
  | Clear => clear r
  end.

Definition routed (l : list router_call) : router := foldl (λ r k, route k r) ∅ l.

Lemma unsubscribe_lookup k i r k' sh :
  sh ∈ default [] (unsubscribe k i r !! k') → sh ∈ default [] (r !! k') ∧ (k' = k → sh.1 ≠ i).
Proof.
  unfold unsubscribe. destruct (r !! k) as [handlers|] eqn:E.
  - assert (Hf : ∀ x, x ∈ List.filter (λ sh, negb (String.eqb sh.1 i)) handlers →
                 x ∈ handlers ∧ x.1 ≠ i).
    { intros x Hx%list_elem_of_In. apply filter_In in Hx as [Hx Hi].
      apply negb_true_iff, String.eqb_neq in Hi. split; [by apply list_elem_of_In|done]. }
    destruct (List.filter _ handlers) as [|x l] eqn:F.
    + destruct (decide (k' = k)) as [->|Hk].
      * rewrite lookup_delete_eq. intros Hx. by apply elem_of_nil in Hx.
      * rewrite lookup_delete_ne by done. by split.
    + destruct (decide (k' = k)) as [->|Hk].
      * rewrite lookup_insert_eq, E. simpl. intros Hx%Hf. naive_solver.
      * rewrite lookup_insert_ne by done. by split.
  - intros Hx. split; [done|]. intros ->. rewrite E in Hx. by apply elem_of_nil in Hx.
Qed.

(** A subscription that is not taken back stays. *)
Lemma route_keeps k c r sh :
  sh ∈ default [] (r !! k) → c ≠ Unsubscribe k sh.1 → c ≠ Clear →
  sh ∈ default [] (route c r !! k).
Proof.
  intros Hx Hu Hc. destruct c as [s i h|k0 i|]; simpl; [| |done].
  - unfold subscribe. destruct (decide (event_scope_key s = k)) as [<-|Hk].
    + rewrite lookup_insert_eq. simpl. apply elem_of_app. by left.
    + by rewrite lookup_insert_ne.
  - unfold unsubscribe. destruct (r !! k0) as [handlers|] eqn:E; [|done].
    destruct (decide (k0 = k)) as [->|Hk].
    + rewrite E in Hx. simpl in Hx.
      assert (Hf : sh ∈ List.filter (λ sh, negb (String.eqb sh.1 i)) handlers).
      { apply list_elem_of_In, filter_In. split; [by apply list_elem_of_In|].
        apply negb_true_iff, String.eqb_neq. intros <-. by apply Hu. }
      destruct (List.filter _ handlers) as [|y l]; [by apply elem_of_nil in Hf|].
      by rewrite lookup_insert_eq.
    + destruct (List.filter _ handlers);
        [by rewrite lookup_delete_ne|by rewrite lookup_insert_ne].
Qed.

Lemma route_cases k c r sh :
  sh ∈ default [] (route c r !! k) ↔
  (sh ∈ default [] (r !! k) ∧ c ≠ Unsubscribe k sh.1 ∧ c ≠ Clear) ∨
  ∃ s, c = Subscribe s sh.1 sh.2 ∧ event_scope_key s = k.
Proof.
  split.
  - destruct c as [s i h|k0 i|]; simpl; intros Hx.
    + unfold subscribe in Hx. destruct (decide (event_scope_key s = k)) as [Hk|Hk].
      * rewrite Hk, lookup_insert_eq in Hx. simpl in Hx.
        apply elem_of_app in Hx as [Hx|Hx%list_elem_of_singleton]; [by left|].
        subst sh. right. by exists s.
      * rewrite lookup_insert_ne in Hx by done. by left.
    + apply unsubscribe_lookup in Hx as [Hx Hi]. left. split_and!; [done| |done].
      intros [= -> ->]. by apply Hi.
    + unfold clear in Hx. rewrite lookup_empty in Hx. by apply elem_of_nil in Hx.
  - intros [(Hx&Hu&Hc)|(s&->&<-)]; [by apply route_keeps|]. simpl. unfold subscribe.
    rewrite lookup_insert_eq. simpl. apply elem_of_app. right.
    destruct sh. by apply list_elem_of_singleton.
Qed.

(** A scope is known by its key. *)
Lemma event_scope_key_inj s s' : event_scope_key s = event_scope_key s' → s = s'.
Proof. destruct s, s'. unfold event_scope_key. simpl. congruence. Qed.

Lemma routed_handlers l s i h :
  (i, h) ∈ default [] (routed l !! event_scope_key s) ↔
  ∃ l1 l2, l = l1 ++ Subscribe s i h :: l2 ∧
    Unsubscribe (event_scope_key s) i ∉ l2 ∧ Clear ∉ l2.
Proof.
  unfold routed. induction l as [|c l IH] using rev_ind.
  { simpl. rewrite lookup_empty. split; [by intros Hx%elem_of_nil|].
    by intros ([|? ?]&l2&?&_). }
  rewrite foldl_app. simpl. rewrite route_cases, IH. simpl. split.
  - intros [((l1&l2&->&Hu&Hc)&Hcu&Hcc)|(s'&->&<-%event_scope_key_inj)].
    + exists l1, (l2 ++ [c]). rewrite <-(assoc_L (++)). split; [done|].
      rewrite !elem_of_app, !list_elem_of_singleton. naive_solver.
    + exists l, []. split; [done|]. split; apply not_elem_of_nil.
  - intros (l1&l2&Hl&Hu&Hc). destruct l2 as [|c' l2 _] using rev_ind.
    + apply app_inj_tail in Hl as [-> ->]. right. by exists s.
    + left. change (l1 ++ Subscribe s i h :: l2 ++ [c'])
        with (l1 ++ ([Subscribe s i h] ++ l2) ++ [c']) in Hl.
      rewrite (assoc_L (++)) in Hl. apply app_inj_tail in Hl as [-> ->].
      rewrite !elem_of_app, !list_elem_of_singleton in Hu, Hc.
      split; [|naive_solver]. exists l1, l2. naive_solver.
Qed.

(** Events stay in their scope.  Whatever subscriptions were made and taken back, an
    event reaches exactly the handlers that were subscribed for the very tenant,
    workspace, session and run of the event and not unsubscribed since; each is given
    the event itself. *)
Theorem events_reach_their_scope_only l e i h e' :
  (i, h, e') ∈ publish e (routed l) ↔
  e' = e ∧ ∃ l1 l2, l = l1 ++ Subscribe (ev_scope e) i h :: l2 ∧
    Unsubscribe (event_scope_key (ev_scope e)) i ∉ l2 ∧ Clear ∉ l2.
Proof.
  rewrite <-routed_handlers. unfold publish. rewrite list_elem_of_fmap. split.
  - intros ([i' h']&[= -> -> ->]&Hx). by split.
  - intros [-> Hx]. by exists (i, h).
Qed.
End Router.
