(* ===== verification/PlanValidation.v ===== *)
(** * Plan drafts and their validation ([planner/models.py] 404-466, 635-655, [planner/validation.py])

    A draft is what the model proposes: steps with the keys of the steps they depend on.
    [validate_plan_draft] checks the configured limits, orders the steps so that every
    step comes after the ones it depends on, and rejects a draft that has a dependency
    cycle, a chain of dependencies that is too long, text that looks like a credential,
    or too much content. *)

From S2P Require Import Prelude.
From S2P Require Import Records.
From S2P Require Import Errors.
From S2P Require Import Json.
From S2P Require Import Regex.
From S2P Require Import Tenancy.
From S2P Require Import WorkflowModels.
From S2P Require Import Storage.
From S2P Require Import Checkpoint.
From stdpp Require Import base gmap strings list.
From Stdlib Require Import Ascii String.

(** ** Drafts *)

Record PlanDraftStep : Type := MkPlanDraftStep {
  logical_step_key : string;
  title : string;
  description : string;
  expected_outcome : string;
  depends_on : list string;
  max_attempts : Z;
}.

Record PlanDraft : Type := MkPlanDraft {
  pd_objective : string;
  pd_constraints : list string;
  pd_generation_reason : string;
  pd_steps : list PlanDraftStep;
}.

(** A validated step is a draft step with its place in the order. *)
Record ValidatedPlanStep : Type := MkValidatedPlanStep {
  vps_step :> PlanDraftStep;
  ordinal : Z;
}.

Record ValidatedPlanDraft : Type := MkValidatedPlanDraft {
  objective : string;
  constraints : list string;
  generation_reason : string;
  steps : list ValidatedPlanStep;
}.

(** [^[a-z0-9_-]{1,64}$]. *)
Definition LOGICAL_STEP_KEY (s : string) : bool :=
  str_between 1 64 s &&
  forallb (λ c, is_digit c || ((97 <=? N_of_ascii c) && (N_of_ascii c <=? 122))%N
                || Ascii.eqb c "_"%char || Ascii.eqb c "-"%char)
    (String.list_ascii_of_string s).

Definition count_between {A} (lo hi : nat) (l : list A) : bool :=
  Nat.leb lo (List.length l) && Nat.leb (List.length l) hi.

(** The field declarations of the classes. *)
Definition PlanDraftStep_ok (s : PlanDraftStep) : bool :=
  LOGICAL_STEP_KEY (logical_step_key s) && str_between 1 200 (title s) &&
  str_between 1 4000 (description s) && str_between 1 2000 (expected_outcome s) &&
  count_between 0 20 (depends_on s) &&
  Z.leb 1 (max_attempts s) && Z.leb (max_attempts s) 20.

Definition ConstraintText (s : string) : bool := str_between 1 1000 s.

Definition PlanDraft_ok (d : PlanDraft) : bool :=
  str_between 1 16000 (pd_objective d) &&
  count_between 0 20 (pd_constraints d) && forallb ConstraintText (pd_constraints d) &&
  str_between 1 1000 (pd_generation_reason d) &&
  count_between 1 20 (pd_steps d) && forallb PlanDraftStep_ok (pd_steps d).

Definition ValidatedPlanStep_ok (s : ValidatedPlanStep) : bool :=
  PlanDraftStep_ok s && Z.leb 1 (ordinal s) && Z.leb (ordinal s) 20.

Definition ValidatedPlanDraft_ok (v : ValidatedPlanDraft) : bool :=
  str_between 1 16000 (objective v) &&
  count_between 0 20 (constraints v) && forallb ConstraintText (constraints v) &&
  str_between 1 1000 (generation_reason v) &&
  count_between 1 20 (steps v) && forallb ValidatedPlanStep_ok (steps v).

(** ** Serialisation *)

(** [model_dump(mode='json')], with the fields in declaration order. *)
Definition dump_step (s : ValidatedPlanStep) : json :=
  JObj [("logical_step_key", JStr (logical_step_key s));
        ("title", JStr (title s));
        ("description", JStr (description s));
        ("expected_outcome", JStr (expected_outcome s));
        ("depends_on", JArr (map JStr (depends_on s)));
        ("max_attempts", JInt (max_attempts s));
        ("ordinal", JInt (ordinal s))].

Definition dump_plan (v : ValidatedPlanDraft) : json :=
  JObj [("objective", JStr (objective v));
        ("constraints", JArr (map JStr (constraints v)));
        ("generation_reason", JStr (generation_reason v));
        ("steps", JArr (map dump_step (steps v)))].

Definition canonical_plan_bytes (v : ValidatedPlanDraft) : string :=
  print_json (dump_plan v).

Definition plan_content_digest `{Env} (v : ValidatedPlanDraft) : string :=
  env_sha256_hex (canonical_plan_bytes v).

(** The value whose digest identifies a step definition; dependencies and place in the
    order are not part of it. *)
Definition step_definition (s : PlanDraftStep) : json :=
  JObj [("logical_step_key", JStr (logical_step_key s));
        ("title", JStr (title s));
        ("description", JStr (description s));
        ("expected_outcome", JStr (expected_outcome s));
        ("max_attempts", JInt (max_attempts s))].

Definition step_definition_digest `{Env} (s : ValidatedPlanStep) : string :=
  env_sha256_hex (print_json (step_definition s)).

(** ** Credentials *)

Section Credentials.
Context `{UnicodeData}.

Definition SPACES : regex := RStar (RChar is_space).
Definition SEPARATOR : regex := RCats [SPACES; RChar (one_of [58; 61]%N); SPACES].

Definition AUTHORIZATION_NAME : regex := RLit "authorization".

Definition SECRET_ASSIGNMENT_NAME_PATTERN : regex :=
  let mark := ROpt (RChar (one_of [95; 45]%N)) in
  RAlts [RCats [RLit "api"; mark; RLit "key"];
         RCats [RLit "access"; mark; RLit "token"];
         RCats [RLit "refresh"; mark; RLit "token"];
         RLit "password"; RLit "secret"].

Definition SECRET_NAME_PATTERN : regex :=
  RAlt AUTHORIZATION_NAME SECRET_ASSIGNMENT_NAME_PATTERN.

(** A text in quotes [q], or one whose closing quote is missing. *)
Definition quoted_value (q : N) : regex :=
  RCat (RChar (N.eqb q))
    (RAlt (RCat (RStar (RAlt (RCat (RChar (N.eqb 92)) RAny)
                             (RChar (λ c, negb (one_of [q; 92%N] c)))))
                (RChar (N.eqb q)))
          (RCat (RStar RAny) REnd)).

Definition QUOTED_ASSIGNMENT_VALUE_PATTERN : regex :=
  RAlt (quoted_value 34) (quoted_value 39).

Definition UNQUOTED_ASSIGNMENT_VALUE_PATTERN : regex :=
  RPlus (RChar (λ c, negb (is_space c))).

Definition ASSIGNMENT_VALUE_PATTERN : regex :=
  RAlt QUOTED_ASSIGNMENT_VALUE_PATTERN UNQUOTED_ASSIGNMENT_VALUE_PATTERN.

Definition AUTHORIZATION_SCHEME_PATTERN : regex :=
  RAlts [RLit "basic"; RLit "bearer"; RLit "digest"; RLit "token"; RLit "negotiate"].

Definition AUTHORIZATION_VALUE_PATTERN : regex :=
  RAlt QUOTED_ASSIGNMENT_VALUE_PATTERN
       (RCats [AUTHORIZATION_SCHEME_PATTERN; RPlus (RChar is_space);
               ASSIGNMENT_VALUE_PATTERN]).

Definition AUTHORIZATION_ASSIGNMENT_PATTERN : regex :=
  RCats [AUTHORIZATION_NAME; SEPARATOR; AUTHORIZATION_VALUE_PATTERN].

Definition SECRET_ASSIGNMENT_PATTERN : regex :=
  RCats [SECRET_ASSIGNMENT_NAME_PATTERN; SEPARATOR; ASSIGNMENT_VALUE_PATTERN].

(** [[A-Za-z0-9._~+/=-]]. *)
Definition BEARER_TOKEN_CHAR_PATTERN : regex :=
  RChar (λ c, ignorecase_alnum c || one_of [46; 95; 126; 43; 47; 61; 45]%N c).

Definition STANDALONE_BEARER_PATTERN : regex :=
  RCats [RWordBoundary; RLit "bearer"; RPlus (RChar is_space);
         RAhead (RCat (RAtLeast 8 BEARER_TOKEN_CHAR_PATTERN)
                      (RNotAhead BEARER_TOKEN_CHAR_PATTERN));
         RPlus BEARER_TOKEN_CHAR_PATTERN].

Definition TOKEN_PREFIX_PATTERN : regex :=
  let mark := RChar (one_of [45; 95]%N) in
  RCats [RWordBoundary;
         RAlts [RCat (RLit "sk") mark; RCat (RLit "ghp") mark; RLit "github_pat_"];
         RPlus (RChar (λ c, ignorecase_alnum c || one_of [95; 45]%N c))].

Definition SECRET_KEY : string → bool := search SECRET_NAME_PATTERN.

Definition SECRET_VALUE_PATTERN : regex :=
  RAlts [AUTHORIZATION_ASSIGNMENT_PATTERN; SECRET_ASSIGNMENT_PATTERN;
         STANDALONE_BEARER_PATTERN; TOKEN_PREFIX_PATTERN].

Definition SECRET_VALUE : string → bool := search SECRET_VALUE_PATTERN.

Definition sanitize_plan_text (value : string) : string :=
  Regex.encode (sub_text SECRET_VALUE_PATTERN "[REDACTED]" (Regex.decode value)).

(** Where a credential was found. *)
Inductive credential : Type :=
| CredentialField
| CredentialContent.

Definition credential_message (c : credential) : string :=
  match c with
  | CredentialField => "Plan contains credential-shaped field"
  | CredentialContent => "Plan contains credential-shaped content"
  end.

(** The first credential in the order of the traversal. *)
Fixpoint find_credential (j : json) : option credential :=
  match j with
  | JObj l =>
    (fix go (l : list (string * json)) : option credential :=
       match l with
       | [] => None
       | (k, v) :: l =>
         if SECRET_KEY k then Some CredentialField
         else match find_credential v with Some c => Some c | None => go l end
       end) l
  | JArr l =>
    (fix go (l : list json) : option credential :=
       match l with
       | [] => None
       | x :: l => match find_credential x with Some c => Some c | None => go l end
       end) l
  | JStr s => if SECRET_VALUE s then Some CredentialContent else None
  | _ => None
  end.

Definition reject_credentials (j : json) : result exn unit :=
  match find_credential j with
  | Some c => Err (PlanValidationError (credential_message c))
  | None => Ok tt
  end.

End Credentials.

(** ** The dependency graph *)

Definition indexes (keys : list string) : gmap string nat :=
  foldl (λ m ik, <[ik.2 := ik.1]> m) ∅ (combine (seq 0 (List.length keys)) keys).

(** [key=order.__getitem__] of a sort. *)
Definition by_index (order : gmap string nat) (x y : string) : bool :=
  Nat.leb (default 0%nat (order !! x)) (default 0%nat (order !! y)).

Definition steps_by_key (l : list PlanDraftStep) : gmap string PlanDraftStep :=
  foldl (λ m s, <[logical_step_key s := s]> m) ∅ l.

Record Graph : Type := MkGraph {
  outgoing : gmap string (list string);
  indegree : gmap string Z;
}.

(** The dependencies of one step, in their order. *)
Fixpoint add_dependencies (known : gmap string PlanDraftStep) (key : string)
    (deps : list string) (g : Graph) : result exn Graph :=
  match deps with
  | [] => Ok g
  | d :: deps =>
    _ ← ensure (negb (bool_decide (d = key))) (PlanValidationError "self dependency");
    _ ← ensure (bool_decide (is_Some (known !! d)))
          (PlanValidationError ("missing dependency " +:+ d));
    add_dependencies known key deps
      {| outgoing := <[d := default [] (outgoing g !! d) ++ [key]]> (outgoing g);
         indegree := <[key := (default 0 (indegree g !! key) + 1)%Z]> (indegree g) |}
  end.

Fixpoint add_steps (known : gmap string PlanDraftStep) (limit : Z)
    (l : list PlanDraftStep) (g : Graph) : result exn Graph :=
  match l with
  | [] => Ok g
  | s :: l =>
    _ ← ensure (Z.leb (max_attempts s) limit)
          (PlanValidationError "step max_attempts exceeds configured limit");
    _ ← ensure (bool_decide (NoDup (depends_on s)))
          (PlanValidationError "duplicate dependency");
    g ← add_dependencies known (logical_step_key s) (depends_on s) g;
    add_steps known limit l g
  end.

(** ** Ordering the steps

    The loop keeps the keys whose dependencies are all ordered, the number of
    dependencies each key still waits for, and the length of the longest chain that
    ends in it. *)

Record Frontier : Type := MkFrontier {
  ready : list string;
  waiting : gmap string Z;
  depth : gmap string Z;
}.

Section Ordering.
Context (order : gmap string nat) (out : gmap string (list string)) (limit : Z).

(** [indegree[k]] and [depth[k]]. *)
Definition waits (f : Frontier) (k : string) : Z := default 0%Z (waiting f !! k).
Definition deep (f : Frontier) (k : string) : Z := default 0%Z (depth f !! k).

(** The length of the longest chain to a child once [key] is before it. *)
Definition chain_through (key c : string) (f : Frontier) : Z :=
  Z.max (deep f c) (deep f key + 1).

(** The child waits for one dependency less, and is ready when that was the last. *)
Definition release (key c : string) (f : Frontier) : Frontier :=
  let n := (waits f c - 1)%Z in
  {| ready := if Z.eqb n 0 then sort_by (by_index order) (ready f ++ [c]) else ready f;
     waiting := <[c := n]> (waiting f);
     depth := <[c := chain_through key c f]> (depth f) |}.

(** The loop over the children of the key that was taken. *)
Fixpoint visit_children (key : string) (children : list string) (f : Frontier)
    : result exn Frontier :=
  match children with
  | [] => Ok f
  | c :: children =>
    _ ← ensure (Z.leb (chain_through key c f) limit)
          (PlanValidationError "dependency depth exceeds configured limit");
    visit_children key children (release key c f)
  end.

(** [while ready: ...], for at most [n] turns: the keys taken, and what is left. *)
Fixpoint order_loop (n : nat) (f : Frontier) (ordered : list string)
    : result exn (list string * Frontier) :=
  match n, ready f with
  | S n, key :: rest =>
    f ← visit_children key (sort_by (by_index order) (default [] (out !! key)))
          {| ready := rest; waiting := waiting f; depth := depth f |};
    order_loop n f (ordered ++ [key])
  | _, _ => Ok (ordered, f)
  end.
End Ordering.

(** The topological order of the steps of a draft, with the checks on its edges. *)
Definition dependency_order (l : list PlanDraftStep) (max_depth max_attempts : Z)
    : result exn (list string) :=
  let keys := map logical_step_key l in
  let zero := {| outgoing := ∅; indegree := list_to_map (map (λ k, (k, 0%Z)) keys) |} in
  g ← add_steps (steps_by_key l) max_attempts l zero;
  let original := indexes keys in
  let start := filter (λ k, default 0%Z (indegree g !! k) = 0%Z) keys in
  '(ordered, _) ← order_loop original (outgoing g) (Z.min max_depth 10) (List.length keys)
      {| ready := sort_by (by_index original) start;
         waiting := indegree g;
         depth := list_to_map (map (λ k, (k, 1%Z)) keys) |} [];
  _ ← ensure (Nat.eqb (List.length ordered) (List.length keys))
        (PlanValidationError "Plan dependency cycle");
  Ok ordered.

(** ** Validation *)

Definition MAX_PLAN_CONTENT_BYTES : Z := 262144.

Definition require_positive_int (value : Z) (name : string) : result exn unit :=
  ensure (Z.ltb 0 value) (PlanValidationError (name +:+ " must be a positive integer")).

Record PlanLimits : Type := MkPlanLimits {
  max_steps : Z;
  max_depth : Z;
  max_step_attempts : Z;
  max_content_bytes : Z;
}.

Definition empty_step : PlanDraftStep := MkPlanDraftStep "" "" "" "" [] 0.

(** The validated step for a key and its place in the order. *)
Definition place (l : list PlanDraftStep) (canonical : gmap string nat) (ik : nat * string)
    : ValidatedPlanStep :=
  let s := default empty_step (steps_by_key l !! ik.2) in
  {| vps_step :=
       {| logical_step_key := logical_step_key s;
          title := title s;
          description := description s;
          expected_outcome := expected_outcome s;
          depends_on := sort_by (by_index canonical) (depends_on s);
          max_attempts := max_attempts s |};
     ordinal := Z.of_nat ik.1 |}.

(** The validated draft for an order of the keys. *)
Definition arrange (d : PlanDraft) (ordered : list string) : ValidatedPlanDraft :=
  {| objective := pd_objective d;
     constraints := pd_constraints d;
     generation_reason := pd_generation_reason d;
     steps := map (place (pd_steps d) (indexes ordered))
                (combine (seq 1 (List.length ordered)) ordered) |}.

Definition validate_plan_draft `{UnicodeData} (d : PlanDraft) (lim : PlanLimits)
    : result exn ValidatedPlanDraft :=
  _ ← require_positive_int (max_steps lim) "max_steps";
  _ ← require_positive_int (max_depth lim) "max_depth";
  _ ← require_positive_int (max_step_attempts lim) "max_attempts";
  _ ← require_positive_int (max_content_bytes lim) "max_content_bytes";
  _ ← ensure (Z.leb (Z.of_nat (List.length (pd_steps d))) (Z.min (max_steps lim) 20))
        (PlanValidationError "Plan exceeds configured step limit");
  _ ← ensure (bool_decide (NoDup (map logical_step_key (pd_steps d))))
        (PlanValidationError "duplicate logical_step_key");
  ordered ← dependency_order (pd_steps d) (max_depth lim) (max_step_attempts lim);
  let validated := arrange d ordered in
  _ ← ensure (ValidatedPlanDraft_ok validated) ValidationError;
  _ ← reject_credentials (dump_plan validated);
  let content_limit := Z.min (max_content_bytes lim) MAX_PLAN_CONTENT_BYTES in
  _ ← ensure (Z.leb (Z.of_nat (String.length (canonical_plan_bytes validated))) content_limit)
        (PlanValidationError ("Plan content exceeds " +:+ str_of_int content_limit +:+ " bytes"));
  Ok validated.
