(* ===== verification/PlanOrder.v ===== *)
(** * The order of plan steps: what the validation loop computes

    The graph of a draft as a function from keys to the keys they depend on; the
    invariant of the loop of [validate_plan_draft] and, from it, what each of its
    outcomes says of that graph. *)

From S2P Require Import Prelude.
From S2P Require Import Records.
From S2P Require Import Errors.
From S2P Require Import Collections PlanValidation.
From stdpp Require Import base gmap strings list sorting.

(** ** Maps built by a loop over a list *)

Lemma steps_by_key_lookup l k s :
  NoDup (map logical_step_key l) →
  steps_by_key l !! k = Some s ↔ s ∈ l ∧ logical_step_key s = k.
Proof.
  intros Hnd. unfold steps_by_key.
  pose proof (dict_from_lookup logical_step_key (λ s, s) l k s Hnd) as Hl.
  unfold dict_from in Hl. rewrite Hl. naive_solver.
Qed.

Lemma combine_seq_lookup (o : list string) n i k :
  (i, k) ∈ combine (seq n (List.length o)) o ↔ ∃ j, i = (n + j)%nat ∧ o !! j = Some k.
Proof.
  revert n. induction o as [|x o IH]; intros n; simpl.
  - setoid_rewrite lookup_nil. rewrite elem_of_nil. naive_solver.
  - rewrite elem_of_cons, IH. split.
    + intros [[= -> ->]|(j&->&?)]; [exists 0%nat|exists (S j)]; (split; [lia|done]).
    + intros ([|j]&->&Hj); simpl in Hj.
      * injection Hj as ->. left. f_equal. lia.
      * right. exists j. split; [lia|done].
Qed.

Lemma combine_seq_snd (o : list string) n :
  map snd (combine (seq n (List.length o)) o) = o.
Proof. revert n. induction o as [|x o IH]; intros n; simpl; [done|]. by rewrite IH. Qed.

Lemma indexes_lookup o k i :
  NoDup o → indexes o !! k = Some i ↔ o !! i = Some k.
Proof.
  intros Hnd. unfold indexes.
  pose proof (dict_from_lookup snd fst (combine (seq 0 (List.length o)) o) k i) as Hl.
  unfold dict_from in Hl. rewrite Hl by (by rewrite combine_seq_snd). split.
  - intros ([j y]&Hj&Hy&Hi). simpl in *. subst.
    apply combine_seq_lookup in Hj as (j'&->&?). done.
  - intros Hi. exists (i, k). split; [|done]. apply combine_seq_lookup. eauto.
Qed.

(** ** Orders and chains *)

Section Graph.
Context (deps : string → list string) (keys : list string).

(** Every element comes after its dependencies. *)
Definition topological (o : list string) : Prop :=
  ∀ l1 k l2, o = l1 ++ k :: l2 → ∀ d, d ∈ deps k → d ∈ l1.

(** Each key depends on the next. *)
Fixpoint chain (c : list string) : Prop :=
  match c with
  | [] => True
  | k :: c => k ∈ keys ∧ match c with [] => True | d :: _ => d ∈ deps k end ∧ chain c
  end.

(** Keys that wait for each other: each depends on one of them. *)
Definition deadlocked (u : list string) : Prop :=
  u ≠ [] ∧ ∀ k, k ∈ u → k ∈ keys ∧ ∃ d, d ∈ u ∧ d ∈ deps k.

Lemma topological_snoc o k :
  topological o → (∀ d, d ∈ deps k → d ∈ o) → topological (o ++ [k]).
Proof.
  intros Ho Hk l1 x l2 Heq d Hd.
  destruct l2 as [|y l2] using rev_ind.
  - apply app_inj_tail in Heq as [-> ->]. by apply Hk.
  - clear IHl2. rewrite app_comm_cons, app_assoc in Heq.
    apply app_inj_tail in Heq as [-> _]. by eapply Ho.
Qed.

(** An order rules out a deadlock. *)
Lemma topological_no_deadlock o u :
  topological o → (∀ k, k ∈ keys → k ∈ o) → ¬ deadlocked u.
Proof.
  intros Ho Hin [Hne Hu].
  assert (Hnone : ∀ l1 l2, o = l1 ++ l2 → ∀ k, k ∈ l1 → k ∉ u).
  { induction l1 as [|x l1 IH] using rev_ind; intros l2 -> k Hk.
    { by apply elem_of_nil in Hk. }
    rewrite <-app_assoc in *. simpl in *. apply elem_of_app in Hk as [Hk|Hk]; [by eapply IH|].
    apply list_elem_of_singleton in Hk as ->. intros Hx. destruct (Hu x Hx) as (_&d&Hd&Hdx).
    eapply IH; [done| |exact Hd]. by eapply Ho. }
  destruct u as [|k u]; [done|].
  destruct (Hu k (list_elem_of_here _ _)) as [Hk _].
  eapply (Hnone o []); [by rewrite app_nil_r|by apply Hin|by left].
Qed.
End Graph.

(** ** The loop over the children of a key *)

Definition cycle_error : exn := PlanValidationError "Plan dependency cycle".
Definition depth_error : exn :=
  PlanValidationError "dependency depth exceeds configured limit".

Lemma default_lookup_insert {A} (a : A) (m : gmap string A) k v k' :
  default a (<[k := v]> m !! k') = if decide (k' = k) then v else default a (m !! k').
Proof.
  destruct (decide (k' = k)) as [->|Hne]; [by rewrite lookup_insert_eq|].
  by rewrite lookup_insert_ne by done.
Qed.

Lemma by_index_total order x y : by_index order x y = false → by_index order y x = true.
Proof. unfold by_index. rewrite Nat.leb_gt, Nat.leb_le. lia. Qed.

Lemma list_filter_agree {A} (P Q : A → Prop) `{!∀ x, Decision (P x), !∀ x, Decision (Q x)} (l : list A) :
  (∀ x, x ∈ l → P x ↔ Q x) → filter P l = filter Q l.
Proof.
  induction l as [|x l IH]; intros Hl; [done|]. rewrite !filter_cons.
  rewrite IH by (intros; apply Hl; by right).
  destruct (Hl x (list_elem_of_here _ _)). repeat case_decide; naive_solver.
Qed.

Section Children.
Context (order : gmap string nat) (limit : Z) (key : string).

(** What the loop does to the frontier when it does not raise. *)
Record visited (children : list string) (f f' : Frontier) : Prop := {
  visited_waits k : waits f' k = (waits f k - if decide (k ∈ children) then 1 else 0)%Z;
  visited_deep k : deep f' k =
    if decide (k ∈ children) then Z.max (deep f k) (deep f key + 1) else deep f k;
  visited_limit k : k ∈ children → (deep f' k <= limit)%Z;
  visited_ready : ready f' ≡ₚ ready f ++ filter (λ c, waits f c = 1%Z) children;
  visited_ordered : ordered (by_index order) (ready f) → ordered (by_index order) (ready f');
}.

Lemma waits_release c f k :
  waits (release order key c f) k = if decide (k = c) then (waits f c - 1)%Z else waits f k.
Proof. apply default_lookup_insert. Qed.

Lemma deep_release c f k :
  deep (release order key c f) k = if decide (k = c) then chain_through key c f else deep f k.
Proof. apply default_lookup_insert. Qed.

Lemma visited_nil f : visited [] f f.
Proof.
  split.
  - intros k. rewrite decide_False by set_solver. lia.
  - intros k. by rewrite decide_False by set_solver.
  - set_solver.
  - by rewrite app_nil_r.
  - done.
Qed.

Lemma visited_cons c children f f' :
  c ∉ children → key ≠ c → key ∉ children → (chain_through key c f <= limit)%Z →
  visited children (release order key c f) f' → visited (c :: children) f f'.
Proof.
  intros Hc Hkc Hk Hlim [Vw Vd Vl Vr Vo].
  assert (Hkey : deep (release order key c f) key = deep f key).
  { by rewrite deep_release, decide_False. }
  unfold chain_through in *.
  split.
  - intros k. rewrite Vw, waits_release. destruct (decide (k = c)) as [->|]; repeat case_decide; set_solver by lia.
  - intros k. rewrite Vd, Hkey, deep_release. unfold chain_through.
    destruct (decide (k = c)) as [->|]; repeat case_decide; set_solver by lia.
  - intros k [->|Hin]%elem_of_cons; [|by apply Vl].
    rewrite Vd, deep_release, decide_False, decide_True by done. unfold chain_through. lia.
  - rewrite Vr, filter_cons.
    rewrite (list_filter_agree _ (λ x, waits f x = 1%Z)).
    2:{ intros x Hx. rewrite waits_release, decide_False; set_solver. }
    unfold release. simpl.
    destruct (Z.eqb_spec (waits f c - 1) 0); case_decide; try lia; [|done].
    rewrite sort_by_perm, <-app_assoc. done.
  - intros Ho. apply Vo. unfold release. simpl.
    destruct (Z.eqb _ _); [apply sort_by_ordered, by_index_total|done].
Qed.

Lemma visit_children_spec children f :
  NoDup children → key ∉ children →
  match visit_children order limit key children f with
  | Ok f' => visited children f f'
  | Err e => e = depth_error ∧ ∃ c, c ∈ children ∧ (limit < chain_through key c f)%Z
  end.
Proof.
  revert f. induction children as [|c children IH]; intros f Hnd Hk; simpl.
  { apply visited_nil. }
  apply NoDup_cons in Hnd as [Hc Hnd]. apply not_elem_of_cons in Hk as [Hkc Hk].
  unfold mbind, result_bind, ensure.
  destruct (Z.leb_spec (chain_through key c f) limit) as [Hle|Hgt].
  2:{ split; [done|]. exists c. split; [by left|lia]. }
  specialize (IH (release order key c f) Hnd Hk).
  destruct (visit_children _ _ _ _ _) as [f'|e]; [by apply visited_cons|].
  destruct IH as (->&c'&Hc'&Hlt). split; [done|]. exists c'. split; [by right|].
  unfold chain_through in *. rewrite !deep_release in Hlt.
  rewrite !decide_False in Hlt; [done|done|set_solver].
Qed.
End Children.

(** ** The invariant of the loop *)

Section Loop.
Context (deps : string → list string) (keys : list string).
Context (order : gmap string nat) (out : gmap string (list string)) (limit : Z).
Hypothesis deps_keys : ∀ k d, k ∈ keys → d ∈ deps k → d ∈ keys.
Hypothesis deps_nodup : ∀ k, k ∈ keys → NoDup (deps k).
Hypothesis deps_irrefl : ∀ k, k ∈ keys → k ∉ deps k.
Hypothesis keys_nodup : NoDup keys.
Hypothesis out_spec : ∀ k, k ∈ keys →
  default [] (out !! k) = filter (λ c, k ∈ deps c) keys.

(** The dependencies of [k] that are not ordered yet. *)
Definition missing (o : list string) (k : string) : list string :=
  filter (λ d, d ∉ o) (deps k).

Record Inv (o : list string) (f : Frontier) : Prop := {
  inv_nodup : NoDup (o ++ ready f);
  inv_keys k : k ∈ o ++ ready f → k ∈ keys;
  inv_waits k : k ∈ keys → waits f k = Z.of_nat (length (missing o k));
  inv_ready k : k ∈ keys → missing o k = [] → k ∈ o ++ ready f;
  inv_done k d : k ∈ o ++ ready f → d ∈ deps k → d ∈ o;
  inv_topological : topological deps o;
  inv_deep k d : k ∈ keys → d ∈ deps k → d ∈ o → (deep f d < deep f k)%Z;
  inv_limit k : k ∈ keys → (deep f k <= limit)%Z;
  inv_chain k : k ∈ keys → ∃ c, chain deps keys (k :: c) ∧ Z.of_nat (length (k :: c)) = deep f k;
  inv_ordered : ordered (by_index order) (ready f);
}.

Definition children (key : string) : list string :=
  sort_by (by_index order) (default [] (out !! key)).

Lemma elem_of_children key c : key ∈ keys → c ∈ children key ↔ c ∈ keys ∧ key ∈ deps c.
Proof.
  intros Hk. unfold children. rewrite sort_by_perm, (out_spec _ Hk), list_elem_of_filter.
  naive_solver.
Qed.

Lemma children_nodup key : key ∈ keys → NoDup (children key).
Proof.
  intros Hk. unfold children. rewrite sort_by_perm, (out_spec _ Hk). by apply NoDup_filter.
Qed.

Lemma children_irrefl key : key ∈ keys → key ∉ children key.
Proof. intros Hk [_ Hd]%elem_of_children; [by apply (deps_irrefl key)|done]. Qed.

Lemma missing_nil o k : missing o k = [] ↔ ∀ d, d ∈ deps k → d ∈ o.
Proof.
  unfold missing. split.
  - intros Hm d Hd. destruct (decide (d ∈ o)) as [|Hn]; [done|].
    assert (Hin : d ∈ filter (λ d, d ∉ o) (deps k)) by (by apply list_elem_of_filter).
    rewrite Hm in Hin. by apply elem_of_nil in Hin.
  - intros Hd. destruct (filter _ _) as [|d l] eqn:E; [done|].
    assert (Hin : d ∈ filter (λ d, d ∉ o) (deps k)) by (rewrite E; by left).
    apply list_elem_of_filter in Hin as [Hn Hin]. by destruct Hn; apply Hd.
Qed.

Lemma missing_snoc o k key :
  k ∈ keys → key ∉ o →
  Z.of_nat (length (missing (o ++ [key]) k)) =
  (Z.of_nat (length (missing o k)) - if decide (key ∈ deps k) then 1 else 0)%Z.
Proof.
  intros Hk Ho. unfold missing. specialize (deps_nodup k Hk).
  induction (deps k) as [|d l IH]; [done|]. apply NoDup_cons in deps_nodup as [Hd Hl].
  rewrite !filter_cons. specialize (IH Hl).
  destruct (decide (d = key)) as [->|Hne].
  - rewrite (decide_False (P:=key ∉ o ++ [key])) by set_solver.
    rewrite (decide_True (P:=key ∉ o)) by done. rewrite IH. simpl.
    rewrite decide_False, decide_True by set_solver. lia.
  - rewrite (decide_ext (d ∉ o ++ [key]) (d ∉ o)) by set_solver.
    rewrite (decide_ext (key ∈ d :: l) (key ∈ l)) by set_solver.
    destruct (decide (d ∉ o)); simpl; lia.
Qed.

Section Step.
Context (o : list string) (f f' : Frontier) (key : string) (rest : list string).
Hypothesis inv : Inv o f.
Hypothesis taken : ready f = key :: rest.
Hypothesis step : visited order limit key (children key)
  {| ready := rest; waiting := waiting f; depth := depth f |} f'.

Lemma step_key : key ∈ keys.
Proof. apply (inv_keys _ _ inv). rewrite taken, elem_of_app, elem_of_cons. auto. Qed.

Lemma step_fresh : key ∉ o.
Proof.
  pose proof (inv_nodup _ _ inv) as Hn. rewrite taken in Hn.
  apply NoDup_app in Hn as (_&Hn&_). intros Hin. apply (Hn _ Hin). by left.
Qed.

Lemma step_child c : c ∈ children key → c ∉ o ++ ready f.
Proof.
  intros [Hc Hd]%elem_of_children Hin; [|apply step_key].
  apply step_fresh. by apply (inv_done _ _ inv c).
Qed.

Lemma step_waits k : k ∈ keys → waits f' k = Z.of_nat (length (missing (o ++ [key]) k)).
Proof.
  intros Hk. rewrite (visited_waits _ _ _ _ _ _ step), missing_snoc by (done || apply step_fresh).
  change (waits _ k) with (waits f k). rewrite (inv_waits _ _ inv k Hk).
  pose proof (elem_of_children key k step_key).
  repeat case_decide; naive_solver.
Qed.

Lemma step_ready k :
  k ∈ (o ++ [key]) ++ ready f' ↔ k ∈ o ++ ready f ∨ (k ∈ children key ∧ missing (o ++ [key]) k = []).
Proof.
  rewrite (visited_ready _ _ _ _ _ _ step), taken. simpl.
  assert (Hm : k ∈ children key → waits f k = 1%Z ↔ missing (o ++ [key]) k = []).
  { intros [Hk Hd]%elem_of_children; [|apply step_key].
    rewrite <-length_zero_iff_nil, (inv_waits _ _ inv k Hk).
    pose proof (missing_snoc o k key Hk step_fresh) as Hs. rewrite decide_True in Hs by done. lia. }
  rewrite !elem_of_app, list_elem_of_filter, !elem_of_cons, !elem_of_nil.
  change (waits {| ready := rest; waiting := waiting f; depth := depth f |} k) with (waits f k).
  naive_solver.
Qed.

Lemma step_deep k : deep f' k =
  if decide (k ∈ children key) then Z.max (deep f k) (deep f key + 1) else deep f k.
Proof. apply (visited_deep _ _ _ _ _ _ step). Qed.

Lemma step_inv : Inv (o ++ [key]) f'.
Proof.
  pose proof step_key as Hkey. pose proof step_fresh as Hfresh.
  split.
  - rewrite (visited_ready _ _ _ _ _ _ step). simpl.
    pose proof (inv_nodup _ _ inv) as Hn. rewrite taken in Hn.
    rewrite cons_middle, app_assoc in Hn. rewrite app_assoc.
    apply NoDup_app. split; [done|]. split.
    + intros x Hx [_ Hc]%list_elem_of_filter. apply step_child in Hc. rewrite taken in Hc. set_solver.
    + apply NoDup_filter, children_nodup, Hkey.
  - intros k [Hin|[Hc _]]%step_ready; [by apply (inv_keys _ _ inv)|].
    by apply elem_of_children in Hc as [? _].
  - apply step_waits.
  - intros k Hk Hm. apply step_ready. destruct (decide (k ∈ children key)); [by right|left].
    apply (inv_ready _ _ inv); [done|]. apply missing_nil. intros d Hd.
    assert (Hin : d ∈ o ++ [key]) by (by apply missing_nil with k).
    apply elem_of_app in Hin as [| ->%list_elem_of_singleton]; [done|].
    exfalso. apply n, elem_of_children; done.
  - intros k d [Hin|[_ Hm]]%step_ready Hd; [|by apply missing_nil with k].
    apply elem_of_app. left. by apply (inv_done _ _ inv k).
  - apply topological_snoc; [apply (inv_topological _ _ inv)|].
    intros d. apply (inv_done _ _ inv). rewrite taken. set_solver.
  - intros k d Hk Hd Hin. rewrite !step_deep.
    assert (Hdc : d ∉ children key).
    { intros Hc%step_child. rewrite taken in Hc. set_solver. }
    rewrite (decide_False (P:=d ∈ children key)) by done.
    apply elem_of_app in Hin as [Hin| ->%list_elem_of_singleton].
    + pose proof (inv_deep _ _ inv k d Hk Hd Hin). case_decide; lia.
    + rewrite decide_True by (by apply elem_of_children). lia.
  - intros k Hk. destruct (decide (k ∈ children key)) as [Hc|Hc].
    + by apply (visited_limit _ _ _ _ _ _ step).
    + rewrite step_deep, decide_False by done. by apply (inv_limit _ _ inv).
  - intros k Hk. rewrite step_deep. case_decide as Hc; [|by apply (inv_chain _ _ inv)].
    destruct (Z.max_spec (deep f k) (deep f key + 1)) as [[_ ->]|[_ ->]];
      [|by apply (inv_chain _ _ inv)].
    destruct (inv_chain _ _ inv key Hkey) as (c&Hch&Hlen).
    exists (key :: c). apply elem_of_children in Hc as [_ Hd]; [|done].
    split; [split_and!; done|]. simpl in *. lia.
  - apply (visited_ordered _ _ _ _ _ _ step). simpl.
    pose proof (inv_ordered _ _ inv) as Ho. rewrite taken in Ho. apply Ho.
Qed.
End Step.

(** ** The loop *)

Lemma inv_length o f : Inv o f → (length (o ++ ready f) <= length keys)%nat.
Proof.
  intros Hi. apply submseteq_length, NoDup_submseteq; [apply (inv_nodup _ _ Hi)|].
  apply (inv_keys _ _ Hi).
Qed.

(** A turn of the loop for each key is enough, and it raises only for a chain that is
    too long. *)
Lemma order_loop_spec n f o :
  Inv o f → (length keys <= n + length o)%nat →
  match order_loop order out limit n f o with
  | Ok (o', f') => Inv o' f' ∧ ready f' = []
  | Err e => e = depth_error ∧ ∃ c, chain deps keys c ∧ (limit < Z.of_nat (length c))%Z
  end.
Proof.
  revert f o. induction n as [|n IH]; intros f o Hi Hn.
  { simpl. split; [done|]. pose proof (inv_length _ _ Hi) as Hl. rewrite length_app in Hl.
    apply length_zero_iff_nil. lia. }
  simpl. destruct (ready f) as [|key rest] eqn:Hr; [done|]. fold (children key).
  pose proof (step_key _ _ _ _ Hi Hr) as Hkey.
  pose proof (visit_children_spec order limit key (children key)
    {| ready := rest; waiting := waiting f; depth := depth f |}
    (children_nodup key Hkey) (children_irrefl key Hkey)) as Hv.
  unfold mbind, result_bind. destruct (visit_children _ _ _ _ _) as [f1|e].
  - apply IH; [by eapply step_inv|]. rewrite length_app. simpl. lia.
  - destruct Hv as (->&c&Hc&Hlt). split; [done|].
    apply elem_of_children in Hc as [Hc Hd]; [|done].
    destruct (inv_chain _ _ Hi key Hkey) as (l&Hch&Hlen). exists (c :: key :: l).
    split; [split_and!; done|]. pose proof (inv_limit _ _ Hi c Hc).
    unfold chain_through in Hlt. change (deep _ c) with (deep f c) in Hlt.
    change (deep _ key) with (deep f key) in Hlt. simpl in *. lia.
Qed.

Lemma inv_chain_limit o f c :
  Inv o f → (∀ k, k ∈ keys → k ∈ o) → (1 <= limit)%Z →
  chain deps keys c → (Z.of_nat (length c) <= limit)%Z.
Proof.
  intros Hi Hall Hlim. destruct c as [|k c]; [simpl; lia|]. intros Hch.
  assert (Hk : k ∈ keys) by apply Hch.
  trans (deep f k); [|by apply (inv_limit _ _ Hi)]. clear Hlim.
  revert k Hk Hch. induction c as [|d c IH]; intros k Hk (_&Hd&Hch).
  - destruct (inv_chain _ _ Hi k Hk) as (l&_&Hl). simpl in *. lia.
  - assert (Hdk : d ∈ keys) by apply Hch. specialize (IH d Hdk Hch).
    pose proof (inv_deep _ _ Hi k d Hk Hd (Hall d Hdk)). simpl in *. lia.
Qed.

(** What the loop leaves when it ends: an order of all keys, or a deadlock. *)
Lemma inv_complete o f :
  Inv o f → ready f = [] → length o = length keys → o ≡ₚ keys.
Proof.
  intros Hi Hr Hlen. pose proof (inv_nodup _ _ Hi) as Hn. pose proof (inv_keys _ _ Hi) as Hk.
  rewrite Hr, app_nil_r in *. apply submseteq_length_Permutation; [|lia].
  by apply NoDup_submseteq.
Qed.

Lemma inv_deadlock o f :
  Inv o f → ready f = [] → length o ≠ length keys → ∃ u, deadlocked deps keys u.
Proof.
  intros Hi Hr Hlen. exists (filter (λ k, k ∉ o) keys).
  pose proof (inv_ready _ _ Hi) as Hready. rewrite Hr, app_nil_r in Hready. split.
  - intros Hnil. apply Hlen. apply Nat.le_antisymm.
    + pose proof (inv_length _ _ Hi). by rewrite Hr, app_nil_r in *.
    + apply submseteq_length, NoDup_submseteq; [done|]. intros k Hk.
      destruct (decide (k ∈ o)) as [|Hn]; [done|].
      assert (Hin : k ∈ filter (λ k, k ∉ o) keys) by (by apply list_elem_of_filter).
      rewrite Hnil in Hin. by apply elem_of_nil in Hin.
  - intros k [Hn Hk]%list_elem_of_filter. split; [done|].
    destruct (missing o k) as [|d l] eqn:Hm; [by destruct Hn; apply Hready|].
    assert (Hd : d ∈ missing o k) by (rewrite Hm; by left).
    apply list_elem_of_filter in Hd as [Hdo Hd]. exists d. split; [|done].
    apply list_elem_of_filter. eauto.
Qed.

(** On keys that are in order already, the loop takes them one after the other. *)
Hypothesis order_indexes : order = indexes keys.

Lemma index_at l1 k l2 : keys = l1 ++ k :: l2 → order !! k = Some (length l1).
Proof.
  intros Heq. rewrite order_indexes, indexes_lookup, Heq by done. by apply list_lookup_middle.
Qed.

Lemma head_in_order o f key rest h l :
  Inv o f → topological deps keys → keys = o ++ h :: l → ready f = key :: rest → key = h.
Proof.
  intros Hi Ht Heq Hr. pose proof (step_key _ _ _ _ Hi Hr) as Hkey.
  pose proof (step_fresh _ _ _ _ Hi Hr) as Hfresh.
  assert (Hh : h ∈ ready f).
  { assert (Hin : h ∈ o ++ ready f).
    { apply (inv_ready _ _ Hi); [rewrite Heq; set_solver|]. apply missing_nil.
      intros d. by apply (Ht o h l). }
    apply elem_of_app in Hin as [Hin|]; [|done]. exfalso.
    pose proof keys_nodup as Hn. rewrite Heq in Hn. apply NoDup_app in Hn as (_&Hn&_).
    apply (Hn _ Hin). by left. }
  assert (Hle : by_index order key h = true).
  { eapply (sort_by_head (by_index order) (ready f)); [apply by_index_total| | | |done].
    - intros x. by apply Nat.leb_refl.
    - unfold by_index. intros x y z. rewrite !Nat.leb_le. lia.
    - rewrite sort_by_ordered_id by apply (inv_ordered _ _ Hi). by rewrite Hr. }
  rewrite Heq in Hkey. apply elem_of_app in Hkey as [?|Hkey]; [done|].
  apply elem_of_cons in Hkey as [?|(l1&l2&->)%list_elem_of_split]; [done|].
  unfold by_index in Hle. rewrite (index_at _ _ _ Heq) in Hle.
  rewrite (index_at (o ++ h :: l1) key l2) in Hle by (by rewrite Heq, <-app_assoc).
  simpl in Hle. rewrite length_app in Hle. simpl in Hle. apply Nat.leb_le in Hle. lia.
Qed.

Lemma order_loop_in_order n f o o' f' :
  Inv o f → topological deps keys → o `prefix_of` keys →
  order_loop order out limit n f o = Ok (o', f') → o' `prefix_of` keys.
Proof.
  intros Hi Ht. revert f o Hi. induction n as [|n IH]; intros f o Hi Hp; simpl; [by intros [= -> ->]|].
  destruct (ready f) as [|key rest] eqn:Hr; [by intros [= -> ->]|]. fold (children key).
  pose proof (step_key _ _ _ _ Hi Hr) as Hkey.
  pose proof (visit_children_spec order limit key (children key)
    {| ready := rest; waiting := waiting f; depth := depth f |}
    (children_nodup key Hkey) (children_irrefl key Hkey)) as Hv.
  unfold mbind, result_bind. destruct (visit_children _ _ _ _ _) as [f1|e]; [|done].
  apply IH; [by eapply step_inv|]. destruct Hp as [[|h l] Heq].
  - rewrite app_nil_r in Heq. by destruct (step_fresh _ _ _ _ Hi Hr); rewrite <-Heq.
  - rewrite (head_in_order _ _ _ _ _ _ Hi Ht Heq Hr). exists l. by rewrite <-app_assoc.
Qed.
End Loop.

(** ** The graph of a draft *)

Definition edges (g : Graph) (k : string) : list string := default [] (outgoing g !! k).
Definition degree (g : Graph) (k : string) : Z := default 0%Z (indegree g !! k).

(** The errors that speak of the whole graph; the others speak of one step. *)
Definition graph_error (e : exn) : bool := bool_decide (e = cycle_error ∨ e = depth_error).

(** What the loop over the steps requires of each. *)
Definition step_ok (known : gmap string PlanDraftStep) (limit : Z) (s : PlanDraftStep) : Prop :=
  (max_attempts s <= limit)%Z ∧ NoDup (depends_on s) ∧
  ∀ d, d ∈ depends_on s → d ≠ logical_step_key s ∧ is_Some (known !! d).

Lemma add_dependencies_spec known key deps g :
  match add_dependencies known key deps g with
  | Ok g' =>
    (∀ d, d ∈ deps → d ≠ key ∧ is_Some (known !! d)) ∧
    (NoDup deps → ∀ d, edges g' d = edges g d ++ if decide (d ∈ deps) then [key] else []) ∧
    (∀ k, degree g' k = degree g k + if decide (k = key) then Z.of_nat (length deps) else 0)%Z
  | Err e => graph_error e = false ∧ ∃ d, d ∈ deps ∧ ¬ (d ≠ key ∧ is_Some (known !! d))
  end.
Proof.
  revert g. induction deps as [|d deps IH]; intros g; simpl.
  { split_and!; [set_solver| |].
    - intros _ d. by rewrite app_nil_r.
    - intros k. case_decide; lia. }
  unfold mbind, result_bind, ensure.
  case_bool_decide as Hk; simpl; [split; [done|set_solver]|].
  case_bool_decide as Hs; simpl; [|split; [done|set_solver]].
  specialize (IH {| outgoing := <[d := default [] (outgoing g !! d) ++ [key]]> (outgoing g);
         indegree := <[key := (default 0 (indegree g !! key) + 1)%Z]> (indegree g) |}).
  destruct (add_dependencies _ _ _ _) as [g'|e]; [|set_solver]. destruct IH as (Hd&He&Hn).
  split_and!.
  - intros x [->|Hx]%elem_of_cons; [done|by apply Hd].
  - intros [Hdn Hnd]%NoDup_cons x. rewrite He by done. unfold edges. simpl.
    rewrite default_lookup_insert. destruct (decide (x = d)) as [->|Hne].
    + rewrite (decide_False (P:=d ∈ deps)), decide_True by set_solver. by rewrite app_nil_r.
    + by rewrite (decide_ext (x ∈ d :: deps) (x ∈ deps)) by set_solver.
  - intros k. rewrite Hn. unfold degree. simpl. rewrite default_lookup_insert.
    case_decide; subst; lia.
Qed.

Lemma add_steps_spec known limit l g :
  NoDup (map logical_step_key l) →
  match add_steps known limit l g with
  | Ok g' =>
    (∀ s, s ∈ l → step_ok known limit s) ∧
    (∀ d, edges g' d = edges g d ++ map logical_step_key (filter (λ s, d ∈ depends_on s) l)) ∧
    (∀ s, s ∈ l → degree g' (logical_step_key s) =
       degree g (logical_step_key s) + Z.of_nat (length (depends_on s)))%Z ∧
    (∀ k, k ∉ map logical_step_key l → degree g' k = degree g k)
  | Err e => graph_error e = false ∧ ∃ s, s ∈ l ∧ ¬ step_ok known limit s
  end.
Proof.
  revert g. induction l as [|s l IH]; intros g Hnd; simpl.
  { split_and!; try set_solver. intros d. by rewrite app_nil_r. }
  apply NoDup_cons in Hnd as [Hs Hnd].
  unfold mbind at 1, result_bind at 1, ensure at 1.
  destruct (Z.leb_spec (max_attempts s) limit) as [Ha|Ha].
  2:{ split; [done|]. exists s. split; [by left|]. intros [? _]. lia. }
  unfold mbind at 1, result_bind at 1, ensure at 1. case_bool_decide as Hd.
  2:{ split; [done|]. exists s. split; [by left|]. by intros (_&?&_). }
  unfold mbind at 1, result_bind at 1.
  pose proof (add_dependencies_spec known (logical_step_key s) (depends_on s) g) as Had.
  destruct (add_dependencies _ _ _ _) as [g1|e].
  2:{ destruct Had as (?&d&?&Hn). split; [done|]. exists s. split; [by left|].
      intros (_&_&?). naive_solver. }
  destruct Had as (Hk&He&Hn).
  specialize (IH g1 Hnd). destruct (add_steps _ _ _ _) as [g'|e]; [|set_solver].
  destruct IH as (IHs&IHe&IHd&IHn). split_and!.
  - intros x [->|Hx]%elem_of_cons; [by split_and!|by apply IHs].
  - intros d. rewrite IHe, He, filter_cons, <-app_assoc by done. by case_decide.
  - intros x [->|Hx]%elem_of_cons.
    + rewrite IHn by done. by rewrite Hn, decide_True.
    + rewrite IHd, Hn, decide_False by done || (intros Heq; apply Hs; rewrite <-Heq;
        by apply list_elem_of_fmap_2). lia.
  - intros k [Hks Hkl]%not_elem_of_cons. rewrite IHn, Hn, decide_False by done. lia.
Qed.

(** The keys a key depends on. *)
Definition deps_of (l : list PlanDraftStep) (k : string) : list string :=
  default [] (depends_on <$> steps_by_key l !! k).

Section Draft.
Context (l : list PlanDraftStep).
Let keys := map logical_step_key l.
Hypothesis keys_nodup : NoDup keys.

Lemma deps_of_step s : s ∈ l → deps_of l (logical_step_key s) = depends_on s.
Proof.
  intros Hs. unfold deps_of.
  by rewrite (proj2 (steps_by_key_lookup l _ s keys_nodup)) by done.
Qed.

Lemma known_key d : is_Some (steps_by_key l !! d) ↔ d ∈ keys.
Proof.
  unfold keys. split.
  - intros [s [Hs <-]%steps_by_key_lookup]; [|done]. by apply list_elem_of_fmap_2.
  - intros (s&->&Hs)%list_elem_of_fmap. exists s. by apply steps_by_key_lookup.
Qed.

Lemma dependents d l' :
  (∀ s, s ∈ l' → s ∈ l) →
  map logical_step_key (filter (λ s, d ∈ depends_on s) l') =
  filter (λ c, d ∈ deps_of l c) (map logical_step_key l').
Proof.
  induction l' as [|s l' IH]; intros Hsub; [done|].
  simpl. rewrite !filter_cons, deps_of_step by set_solver.
  case_decide; simpl; by rewrite IH by set_solver.
Qed.

Lemma const_map_lookup (v : Z) k :
  k ∈ keys → default 0%Z ((list_to_map (map (λ k, (k, v)) keys) : gmap string Z) !! k) = v.
Proof.
  intros Hk. erewrite (elem_of_list_to_map_1 _ k v); [done| |].
  - by rewrite <-list_fmap_compose, list_fmap_id.
  - apply list_elem_of_fmap. by exists k.
Qed.

(** The frontier the loop starts on. *)
Definition start (g : Graph) : Frontier :=
  {| ready := sort_by (by_index (indexes keys)) (filter (λ k, default 0%Z (indegree g !! k) = 0%Z) keys);
     waiting := indegree g;
     depth := list_to_map (map (λ k, (k, 1%Z)) keys) |}.

Lemma start_inv g limit :
  (1 <= limit)%Z →
  (∀ s, s ∈ l → degree g (logical_step_key s) = Z.of_nat (length (depends_on s))) →
  Inv (deps_of l) keys (indexes keys) limit [] (start g).
Proof.
  intros Hlim Hdeg.
  assert (Hw : ∀ k, k ∈ keys → degree g k = Z.of_nat (length (deps_of l k))).
  { intros k (s&->&Hs)%list_elem_of_fmap. by rewrite Hdeg, deps_of_step. }
  assert (Hm : ∀ k, missing (deps_of l) [] k = deps_of l k).
  { intros k. unfold missing. induction (deps_of l k) as [|d ds IH]; [done|].
    rewrite filter_cons, IH. by rewrite decide_True by set_solver. }
  assert (Hr : ∀ k, k ∈ ready (start g) ↔ k ∈ keys ∧ deps_of l k = []).
  { intros k. simpl. rewrite sort_by_perm, list_elem_of_filter. fold (degree g k).
    rewrite <-length_zero_iff_nil. split; [intros [H0 Hk]|intros [Hk H0]];
      rewrite (Hw k Hk) in *; (split; [done || lia|done || lia]). }
  assert (Hd : ∀ k, k ∈ keys → deep (start g) k = 1%Z).
  { intros k. apply const_map_lookup. }
  split; simpl ([] ++ _).
  - simpl. rewrite sort_by_perm. by apply NoDup_filter.
  - intros k Hk. by apply Hr.
  - intros k Hk. rewrite Hm. apply Hw, Hk.
  - intros k Hk Hmk. apply Hr. by rewrite Hm in Hmk.
  - intros k d [_ ->]%Hr Hin. by apply elem_of_nil in Hin.
  - intros l1 k l2 Heq. by destruct l1.
  - intros k d _ _ Hin. by apply elem_of_nil in Hin.
  - intros k Hk. by rewrite Hd.
  - intros k Hk. exists []. rewrite Hd by done. simpl. auto.
  - simpl. apply sort_by_ordered, by_index_total.
Qed.

(** ** What the order of a draft is *)

Definition depth_limit (max_depth : Z) : Z := Z.min max_depth 10.

(** An accepted draft. *)
Record order_of (max_depth max_attempts : Z) (o : list string) : Prop := {
  order_steps s : s ∈ l → step_ok (steps_by_key l) max_attempts s;
  order_keys : o ≡ₚ keys;
  order_topological : topological (deps_of l) o;
  order_depth c : chain (deps_of l) keys c → (Z.of_nat (length c) <= depth_limit max_depth)%Z;
  order_stable : topological (deps_of l) keys → o = keys;
}.

(** What the loop over the steps leaves in the graph. *)
Record graph_of (g : Graph) : Prop := {
  graph_out k : default [] (outgoing g !! k) = filter (λ c, k ∈ deps_of l c) keys;
  graph_degree s : s ∈ l → degree g (logical_step_key s) = Z.of_nat (length (depends_on s));
}.

Lemma graph_built max_attempts :
  match add_steps (steps_by_key l) max_attempts l
          {| outgoing := ∅; indegree := list_to_map (map (λ k, (k, 0%Z)) keys) |} with
  | Ok g => graph_of g ∧ ∀ s, s ∈ l → step_ok (steps_by_key l) max_attempts s
  | Err e => graph_error e = false ∧ ∃ s, s ∈ l ∧ ¬ step_ok (steps_by_key l) max_attempts s
  end.
Proof.
  set (zero := MkGraph _ _).
  pose proof (add_steps_spec (steps_by_key l) max_attempts l zero keys_nodup) as Hadd.
  destruct (add_steps _ _ _ _) as [g|e]; [|done]. destruct Hadd as (Hok&Hout&Hdeg&_).
  split; [|done]. split.
  - intros k. etrans; [apply Hout|]. by apply (dependents k l).
  - intros s Hs. rewrite Hdeg by done. unfold degree, zero. simpl.
    rewrite const_map_lookup; [lia|]. by apply list_elem_of_fmap_2.
Qed.

Lemma ordering_outcome g max_depth max_attempts :
  (1 <= max_depth)%Z → graph_of g → (∀ s, s ∈ l → step_ok (steps_by_key l) max_attempts s) →
  match order_loop (indexes keys) (outgoing g) (depth_limit max_depth) (length keys) (start g) [] with
  | Ok (o, _) =>
    if Nat.eqb (length o) (length keys) then order_of max_depth max_attempts o
    else ∃ u, deadlocked (deps_of l) keys u
  | Err e =>
    e = depth_error ∧
    ∃ c, chain (deps_of l) keys c ∧ (depth_limit max_depth < Z.of_nat (length c))%Z
  end.
Proof.
  intros Hmd [Hout Hdeg] Hok.
  assert (Hlim : (1 <= depth_limit max_depth)%Z) by (unfold depth_limit; lia).
  assert (Hdeps : ∀ k, k ∈ keys →
    NoDup (deps_of l k) ∧ k ∉ deps_of l k ∧ ∀ d, d ∈ deps_of l k → d ∈ keys).
  { intros k (s&->&Hs)%list_elem_of_fmap. rewrite deps_of_step by done.
    destruct (Hok s Hs) as (_&?&Hd). split_and!; [done|by intros ?%Hd; naive_solver|].
    intros d Hin. apply known_key, Hd, Hin. }
  pose proof (start_inv g _ Hlim Hdeg) as Hi.
  pose proof (order_loop_spec (deps_of l) keys (indexes keys) (outgoing g) (depth_limit max_depth)
    (λ k d Hk, proj2 (proj2 (Hdeps k Hk)) d) (λ k Hk, proj1 (Hdeps k Hk))
    (λ k Hk, proj1 (proj2 (Hdeps k Hk))) keys_nodup (λ k _, Hout k) (length keys)
    (start g) [] Hi ltac:(simpl; lia)) as Hl.
  destruct (order_loop _ _ _ _ _ _) as [[o f]|e] eqn:E; [|done]. destruct Hl as [Hf Hr].
  destruct (Nat.eqb_spec (length o) (length keys)) as [Hlen|Hlen];
    [|by eapply inv_deadlock; naive_solver].
  assert (Hp : o ≡ₚ keys) by (by eapply inv_complete). split.
  - done.
  - done.
  - apply (inv_topological _ _ _ _ _ _ Hf).
  - intros c. eapply inv_chain_limit; [done| |done]. intros k. by rewrite Hp.
  - intros Ht. eapply order_loop_in_order in E; [|naive_solver..|done|done|apply prefix_nil].
    destruct E as [l2 Heq]. rewrite Heq, length_app in Hlen.
    destruct l2; [by rewrite app_nil_r in Heq|simpl in Hlen; lia].
Qed.

Lemma dependency_order_spec max_depth max_attempts :
  (1 <= max_depth)%Z →
  match dependency_order l max_depth max_attempts with
  | Ok o => order_of max_depth max_attempts o
  | Err e =>
    (graph_error e = false ∧ ∃ s, s ∈ l ∧ ¬ step_ok (steps_by_key l) max_attempts s)
    ∨ (e = depth_error ∧
       ∃ c, chain (deps_of l) keys c ∧ (depth_limit max_depth < Z.of_nat (length c))%Z)
    ∨ (e = cycle_error ∧ ∃ u, deadlocked (deps_of l) keys u)
  end.
Proof.
  intros Hmd. unfold dependency_order. fold keys.
  pose proof (graph_built max_attempts) as Hg.
  unfold mbind at 1, result_bind at 1. destruct (add_steps _ _ _ _) as [g|e]; [|by left].
  destruct Hg as [Hg Hok]. pose proof (ordering_outcome g _ _ Hmd Hg Hok) as Ho.
  fold (start g) (depth_limit max_depth). unfold mbind, result_bind.
  destruct (order_loop _ _ _ _ _ _) as [[o f]|e]; [|by right; left].
  unfold ensure. destruct (Nat.eqb _ _); [done|by right; right].
Qed.
End Draft.
