(* ===== verification/PlanSpec.v ===== *)
(** * What a validated plan is

    The specification of [validate_plan_draft]: how the accepted plan relates to the
    draft ([plan_of]), what it means to read a stored plan back ([reloaded]), and the
    lemmas that connect both to the order that [dependency_order] computes. *)

From S2P Require Import Prelude.
From S2P Require Import Records.
From S2P Require Import Errors.
From S2P Require Import Json.
From S2P Require Import Regex.
From S2P Require Import Checkpoint.
From S2P Require Import PlanValidation.
From S2P Require Import PlanOrder.
From stdpp Require Import base gmap strings list sorting.

(** ** The specification *)

(** The same step but for the order of its dependencies. *)
Definition same_step (s s' : PlanDraftStep) : Prop :=
  logical_step_key s = logical_step_key s' ∧ title s = title s' ∧
  description s = description s' ∧ expected_outcome s = expected_outcome s' ∧
  max_attempts s = max_attempts s' ∧ depends_on s ≡ₚ depends_on s'.

Definition plan_keys (v : ValidatedPlanDraft) : list string :=
  map (λ s, logical_step_key (vps_step s)) (steps v).

(** [c] is a chain of steps of the plan, each depending on the next. *)
Fixpoint dependency_chain (c : list ValidatedPlanStep) : Prop :=
  match c with
  | s :: ((t :: _) as c) => logical_step_key t ∈ depends_on s ∧ dependency_chain c
  | _ => True
  end.

Record plan_of (d : PlanDraft) (lim : PlanLimits) (v : ValidatedPlanDraft) : Prop := {
  plan_objective : objective v = pd_objective d;
  plan_constraints : constraints v = pd_constraints d;
  plan_reason : generation_reason v = pd_generation_reason d;
  (** the steps of the draft, each once *)
  plan_keys_unique : NoDup (plan_keys v);
  plan_keys_draft : plan_keys v ≡ₚ map logical_step_key (pd_steps d);
  plan_steps (s : ValidatedPlanStep) : s ∈ steps v → ∃ s0, s0 ∈ pd_steps d ∧ same_step s s0;
  (** numbered from one *)
  plan_ordinals : map ordinal (steps v) = map Z.of_nat (seq 1 (length (steps v)));
  (** every dependency is an earlier step *)
  plan_ordered (s : ValidatedPlanStep) k : s ∈ steps v → k ∈ depends_on s →
    ∃ t : ValidatedPlanStep, t ∈ steps v ∧ logical_step_key t = k ∧ (ordinal t < ordinal s)%Z;
  (** and no chain is longer than the limit *)
  plan_depth (c : list ValidatedPlanStep) : (∀ s, s ∈ c → s ∈ steps v) → dependency_chain c →
    (Z.of_nat (length c) <= Z.min (max_depth lim) 10)%Z;
}.

(** A draft rebuilt from a plan: the same steps in the same order, the dependencies of
    each in any order. *)
Definition reloaded (v : ValidatedPlanDraft) (d : PlanDraft) : Prop :=
  pd_objective d = objective v ∧ pd_constraints d = constraints v ∧
  pd_generation_reason d = generation_reason v ∧
  Forall2 (λ s0 (s : ValidatedPlanStep), same_step s0 s) (pd_steps d) (steps v).

(** The limits a stored plan is read back with ([plans.py] 2157-2162). *)
Definition stored_limits : PlanLimits := {|
  max_steps := 20;
  max_depth := 10;
  max_step_attempts := 20;
  max_content_bytes := MAX_PLAN_CONTENT_BYTES;
|}.

(** ** The arranged steps *)

Lemma combine_seq_at (o : list string) n i :
  combine (seq n (List.length o)) o !! i = (λ k, ((n + i)%nat, k)) <$> o !! i.
Proof.
  revert n i. induction o as [|x o IH]; intros n [|i]; simpl; try done.
  - by rewrite Nat.add_0_r.
  - rewrite IH. destruct (o !! i); simpl; [|done]. do 2 f_equal. lia.
Qed.

Section Arranged.
Context (d : PlanDraft) (o : list string).
Let l := pd_steps d.
Hypothesis keys_nodup : NoDup (map logical_step_key l).
Hypothesis o_keys : o ≡ₚ map logical_step_key l.

Lemma o_nodup : NoDup o.
Proof. by rewrite o_keys. Qed.

Lemma arranged_at i s :
  steps (arrange d o) !! i = Some s ↔
  ∃ k, o !! i = Some k ∧ s = place l (indexes o) (S i, k).
Proof.
  simpl. rewrite list_lookup_fmap, combine_seq_at.
  destruct (o !! i); simpl; naive_solver.
Qed.

Lemma placed ik : ik.2 ∈ o → ∃ s0, s0 ∈ l ∧ logical_step_key s0 = ik.2 ∧
  steps_by_key l !! ik.2 = Some s0 ∧ same_step (place l (indexes o) ik) s0.
Proof.
  intros Hin. rewrite o_keys in Hin. apply list_elem_of_fmap in Hin as (s0&Hk&Hs0).
  exists s0. assert (Hl : steps_by_key l !! ik.2 = Some s0) by (by apply steps_by_key_lookup).
  split_and!; try done. unfold place, same_step. rewrite Hl. simpl. by rewrite sort_by_perm.
Qed.

Lemma placed_key i k : k ∈ o → logical_step_key (place l (indexes o) (i, k)) = k.
Proof. intros Hk. destruct (placed (i, k) Hk) as (s0&_&Hkey&_&Hs&_). by rewrite Hs. Qed.

Lemma arranged_keys : plan_keys (arrange d o) = o.
Proof.
  apply list_eq. intros i. unfold plan_keys. rewrite list_lookup_fmap.
  destruct (steps (arrange d o) !! i) as [s|] eqn:E.
  - apply arranged_at in E as (k&Hk&->). simpl. rewrite Hk. f_equal.
    apply (placed_key (S i)). by eapply list_elem_of_lookup_2.
  - simpl in *. rewrite list_lookup_fmap, combine_seq_at in E. by destruct (o !! i).
Qed.

Lemma arranged_length : length (steps (arrange d o)) = length o.
Proof. rewrite <-arranged_keys at 2. unfold plan_keys. by rewrite length_fmap. Qed.

Lemma arranged_ordinals :
  map ordinal (steps (arrange d o)) = map Z.of_nat (seq 1 (length (steps (arrange d o)))).
Proof.
  rewrite arranged_length. simpl. rewrite map_map.
  apply list_eq. intros i. rewrite !list_lookup_fmap, combine_seq_at.
  destruct (o !! i) eqn:E; simpl.
  - rewrite lookup_seq_lt by (by eapply lookup_lt_Some). done.
  - rewrite lookup_seq_ge; [done|]. by apply lookup_ge_None.
Qed.

Lemma arranged_step (s : ValidatedPlanStep) :
  s ∈ steps (arrange d o) → ∃ i k s0, o !! i = Some k ∧ s = place l (indexes o) (S i, k) ∧
    s0 ∈ l ∧ logical_step_key s0 = k ∧ same_step s s0 ∧ depends_on s ≡ₚ deps_of l k.
Proof.
  intros [i (k&Hk&->)%arranged_at]%list_elem_of_lookup_1.
  destruct (placed (S i, k)) as (s0&Hs0&Hkey&_&Hsame); [by eapply list_elem_of_lookup_2|].
  exists i, k, s0. split_and!; try done. simpl in Hkey. rewrite <-Hkey.
  rewrite (deps_of_step l keys_nodup) by done. rewrite Hkey. apply Hsame.
Qed.
End Arranged.

(** ** From the order to the plan *)

Lemma topological_lookup deps o i k d :
  topological deps o → o !! i = Some k → d ∈ deps k → ∃ j, (j < i)%nat ∧ o !! j = Some d.
Proof.
  intros Ht Hi Hd.
  assert (Hin : d ∈ take i o).
  { eapply (Ht _ _ (drop (S i) o)); [|exact Hd]. symmetry. by apply take_drop_middle. }
  apply list_elem_of_lookup_1 in Hin as [j Hj]. apply lookup_take_Some in Hj as [? ?]. eauto.
Qed.

Section Accepted.
Context (d : PlanDraft) (lim : PlanLimits) (o : list string).
Let l := pd_steps d.
Let v := arrange d o.
Hypothesis keys_nodup : NoDup (map logical_step_key l).
Hypothesis accepted : order_of l (max_depth lim) (max_step_attempts lim) o.

Lemma accepted_chain c :
  (∀ s, s ∈ c → s ∈ steps v) → dependency_chain c →
  chain (deps_of l) (map logical_step_key l) (map (λ s, logical_step_key (vps_step s)) c).
Proof.
  pose proof (order_keys _ _ _ _ accepted) as Hp.
  induction c as [|s c IH]; intros Hin Hc; [done|].
  destruct (arranged_step d o keys_nodup Hp s) as (i&k&s0&Hi&Heq&Hs0&Hkey&Hsame&Hdeps);
    [apply Hin; by left|].
  assert (Hk : logical_step_key s = k)
    by (rewrite Heq; apply placed_key; [done|done|by eapply list_elem_of_lookup_2]).
  clear Heq.
  split_and!.
  - rewrite Hk, <-Hkey. by apply list_elem_of_fmap_2.
  - destruct c as [|t c]; simpl; [done|]. destruct Hc as [Hc _]. rewrite Hdeps in Hc. by rewrite Hk.
  - apply IH; [set_solver|]. destruct c; [done|]. apply Hc.
Qed.

Lemma accepted_plan_of : plan_of d lim v.
Proof.
  pose proof (order_keys _ _ _ _ accepted) as Hp. pose proof (o_nodup d o keys_nodup Hp) as Hn.
  pose proof (arranged_keys d o keys_nodup Hp) as Hkeys.
  split; try done.
  - unfold v. by rewrite Hkeys.
  - unfold v. by rewrite Hkeys.
  - intros s Hs. edestruct (arranged_step d o keys_nodup Hp s Hs) as (?&?&s0&_&_&?&_&?&_). eauto.
  - apply (arranged_ordinals d o keys_nodup Hp).
  - intros s k' Hs Hk'.
    destruct (arranged_step d o keys_nodup Hp s Hs) as (i&k&s0&Hi&->&_&_&_&Hdeps).
    rewrite Hdeps in Hk'.
    destruct (topological_lookup _ _ _ _ _ (order_topological _ _ _ _ accepted) Hi Hk') as (j&Hj&Hjk).
    exists (place l (indexes o) (S j, k')). split_and!.
    + eapply list_elem_of_lookup_2, arranged_at. eauto.
    + apply placed_key; [done|done|]. by eapply list_elem_of_lookup_2.
    + simpl. lia.
  - intros c Hin Hc. pose proof (order_depth _ _ _ _ accepted _ (accepted_chain c Hin Hc)) as Hd.
    by rewrite length_map in Hd.
Qed.
End Accepted.

(** ** Reading a plan back *)

Lemma ordered_Sorted {A} (leb : A → A → bool) l : ordered leb l → Sorted leb l.
Proof.
  induction l as [|x [|y l] IH]; simpl; [by constructor|by repeat constructor|].
  intros [Hx Hl]. constructor; [by apply IH|]. constructor. by rewrite Hx.
Qed.

#[export] Instance by_index_trans o : Transitive (λ x y, Is_true (by_index o x y)).
Proof. intros x y z. unfold by_index. rewrite !Is_true_true, !Nat.leb_le. lia. Qed.

(** Sorting by the place in an order forgets how the list was arranged. *)
Lemma sort_by_index_perm o l1 l2 :
  NoDup o → (∀ k, k ∈ l1 → k ∈ o) → l1 ≡ₚ l2 →
  sort_by (by_index (indexes o)) l1 = sort_by (by_index (indexes o)) l2.
Proof.
  intros Hn Hin Hp. apply (Sorted_unique_strong (λ x y, Is_true (by_index (indexes o) x y))).
  - intros x y Hx Hy. rewrite sort_by_perm in Hx, Hy. rewrite <-Hp in Hy.
    apply Hin, list_elem_of_lookup_1 in Hx as [i Hi], Hy as [j Hj].
    unfold by_index. rewrite (proj2 (indexes_lookup o x i Hn) Hi).
    rewrite (proj2 (indexes_lookup o y j Hn) Hj). simpl. rewrite !Is_true_true, !Nat.leb_le.
    intros. assert (i = j) as -> by lia. congruence.
  - apply ordered_Sorted, sort_by_ordered, by_index_total.
  - apply ordered_Sorted, sort_by_ordered, by_index_total.
  - by rewrite !sort_by_perm.
Qed.

Section Reloaded.
Context (d d' : PlanDraft) (o : list string) (lim : PlanLimits) (depth' attempts' : Z).
Let l := pd_steps d.
Let l' := pd_steps d'.
Hypothesis keys_nodup : NoDup (map logical_step_key l).
Hypothesis accepted : order_of l (max_depth lim) (max_step_attempts lim) o.
Hypothesis again : reloaded (arrange d o) d'.
Hypothesis depth_looser : (depth_limit (max_depth lim) <= depth_limit depth')%Z.
Hypothesis attempts_looser : ∀ s, s ∈ l → (max_attempts s <= attempts')%Z.

Let Hp := order_keys _ _ _ _ accepted.

Lemma reloaded_keys : map logical_step_key l' = o.
Proof.
  rewrite <-(arranged_keys d o keys_nodup Hp). unfold plan_keys.
  destruct again as (_&_&_&Hs). fold l' in Hs. revert Hs. generalize (steps (arrange d o)).
  induction l' as [|s' r IH]; intros vs Hs; inversion Hs as [|? s ? vs' Hs1 Hs2]; subst; [done|].
  simpl. f_equal; [apply Hs1|by apply IH].
Qed.

Lemma reloaded_nodup : NoDup (map logical_step_key l').
Proof. rewrite reloaded_keys. by apply (o_nodup d o keys_nodup). Qed.

Lemma reloaded_step s' :
  s' ∈ l' → ∃ s0, s0 ∈ l ∧ same_step s' s0 ∧ logical_step_key s' ∈ o ∧
    steps_by_key l !! logical_step_key s' = Some s0.
Proof.
  intros [i Hi]%list_elem_of_lookup_1. destruct again as (_&_&_&Hs).
  destruct (Forall2_lookup_l _ _ _ _ _ Hs Hi) as (s&Hsi&(E1&E2&E3&E4&E5&E6)).
  apply arranged_at in Hsi as (k&Hk&->).
  assert (Hko : k ∈ o) by (by eapply list_elem_of_lookup_2).
  rewrite (placed_key d o keys_nodup Hp (S i) k Hko) in E1.
  destruct (placed d o keys_nodup Hp (S i, k) Hko) as (s0&Hs0&Hkey&Hl&(F1&F2&F3&F4&F5&F6)).
  exists s0. rewrite E1. split_and!; try done. unfold same_step. simpl in Hkey.
  split_and!; try congruence. by rewrite E6.
Qed.

Lemma reloaded_deps k : k ∈ o → deps_of l' k ≡ₚ deps_of l k.
Proof.
  rewrite <-reloaded_keys. intros (s'&->&Hs')%list_elem_of_fmap.
  destruct (reloaded_step s' Hs') as (s0&Hs0&Hsame&_&_).
  rewrite (deps_of_step l' reloaded_nodup s' Hs').
  rewrite (proj1 Hsame), (deps_of_step l keys_nodup s0 Hs0). apply Hsame.
Qed.

Lemma reloaded_steps_ok s' :
  s' ∈ l' → step_ok (steps_by_key l') attempts' s'.
Proof.
  intros Hs'. destruct (reloaded_step s' Hs') as (s0&Hs0&(E1&_&_&_&E5&E6)&_&_).
  destruct (order_steps _ _ _ _ accepted s0 Hs0) as (_&Hn&Hd).
  split_and!; [rewrite E5; by apply attempts_looser|by rewrite E6|]. intros k. rewrite E6, E1. intros [Hk Hsome]%Hd.
  split; [done|]. apply (known_key l' reloaded_nodup). rewrite reloaded_keys, Hp.
  by apply (known_key l keys_nodup).
Qed.

Lemma reloaded_topological : topological (deps_of l') (map logical_step_key l').
Proof.
  rewrite reloaded_keys. intros l1 k l2 Heq k' Hk'.
  eapply (order_topological _ _ _ _ accepted); [exact Heq|]. rewrite <-reloaded_deps; [done|].
  rewrite Heq. set_solver.
Qed.

Lemma reloaded_chain c :
  chain (deps_of l') (map logical_step_key l') c → chain (deps_of l) (map logical_step_key l) c.
Proof.
  rewrite reloaded_keys. induction c as [|k c IH]; [done|]. intros (Hk&Hd&Hc).
  split_and!; [by rewrite <-Hp| |by apply IH].
  destruct c as [|k' c]; [done|]. by rewrite <-reloaded_deps.
Qed.

Lemma reloaded_arrange : arrange d' o = arrange d o.
Proof.
  destruct again as (E1&E2&E3&_). simpl in *. unfold arrange. rewrite E1, E2, E3. f_equal.
  apply map_ext_in. intros [i k] Hin%list_elem_of_In. apply combine_seq_lookup in Hin as (j&_&Hj).
  assert (Hk : k ∈ map logical_step_key l')
    by (rewrite reloaded_keys; by eapply list_elem_of_lookup_2).
  apply list_elem_of_fmap in Hk as (s'&->&Hs').
  destruct (reloaded_step s' Hs') as (s0&Hs0&(F1&F2&F3&F4&F5&F6)&Ho&Hl).
  unfold place. simpl. fold l l'. rewrite Hl.
  rewrite (proj2 (steps_by_key_lookup l' _ s' reloaded_nodup)) by done. simpl.
  rewrite F1, F2, F3, F4, F5. do 2 f_equal. apply sort_by_index_perm; [|intros k Hk|done].
  - by apply (o_nodup d o keys_nodup).
  - destruct (order_steps _ _ _ _ accepted s0 Hs0) as (_&_&Hd). rewrite F6 in Hk.
    apply Hd in Hk as [_ Hk]. apply (known_key l keys_nodup) in Hk. by rewrite Hp.
Qed.

Lemma reloaded_order : (1 <= depth')%Z → dependency_order l' depth' attempts' = Ok o.
Proof.
  intros Hmd.
  pose proof (dependency_order_spec l' reloaded_nodup depth' attempts' Hmd) as Hspec.
  destruct (dependency_order _ _ _) as [o'|e].
  - f_equal. rewrite (order_stable _ _ _ _ Hspec); [apply reloaded_keys|apply reloaded_topological].
  - exfalso. destruct Hspec as [(_&s'&Hs'&Hn)|[(_&c&Hc&Hlen)|(_&u&Hu)]].
    + by apply Hn, reloaded_steps_ok.
    + apply reloaded_chain, (order_depth _ _ _ _ accepted) in Hc. lia.
    + revert Hu. eapply topological_no_deadlock; [apply reloaded_topological|done].
Qed.
End Reloaded.

(** ** The whole validation *)

Definition limits_positive (lim : PlanLimits) : bool :=
  Z.ltb 0 (max_steps lim) && Z.ltb 0 (max_depth lim) &&
  Z.ltb 0 (max_step_attempts lim) && Z.ltb 0 (max_content_bytes lim).

Definition content_fits (lim : PlanLimits) (v : ValidatedPlanDraft) : Prop :=
  (Z.of_nat (String.length (canonical_plan_bytes v)) <=
     Z.min (max_content_bytes lim) MAX_PLAN_CONTENT_BYTES)%Z.

Lemma validate_plan_draft_Ok `{UnicodeData} d lim v :
  validate_plan_draft d lim = Ok v ↔
  limits_positive lim = true ∧
  (Z.of_nat (length (pd_steps d)) <= Z.min (max_steps lim) 20)%Z ∧
  NoDup (map logical_step_key (pd_steps d)) ∧
  ∃ o, dependency_order (pd_steps d) (max_depth lim) (max_step_attempts lim) = Ok o ∧
    v = arrange d o ∧ ValidatedPlanDraft_ok v = true ∧
    find_credential (dump_plan v) = None ∧ content_fits lim v.
Proof.
  unfold validate_plan_draft, require_positive_int, limits_positive, reject_credentials, content_fits.
  repeat (rewrite ensure_bind_Ok; cbv beta). rewrite result_bind_Ok, !andb_true_iff.
  rewrite Z.leb_le, bool_decide_eq_true. setoid_rewrite ensure_bind_Ok.
  split.
  - intros (?&?&?&?&?&?&o&?&?&[[] [Hc Hv]]%result_bind_Ok). apply ensure_bind_Ok in Hv as [Hb [= <-]].
    split_and!; try done. exists o. split_and!; try done; [|by apply Z.leb_le].
    by destruct (find_credential (dump_plan (arrange d o))).
  - intros ([[[? ?] ?] ?]&?&?&o&?&->&?&Hc&?). split_and!; try done. exists o. split_and!; try done.
    rewrite Hc. apply result_bind_Ok. exists tt. split; [done|]. apply ensure_bind_Ok.
    split; [by apply Z.leb_le|done].
Qed.

(** What acceptance gives. *)
Lemma validated_order `{UnicodeData} d lim v :
  validate_plan_draft d lim = Ok v →
  NoDup (map logical_step_key (pd_steps d)) ∧
  ∃ o, order_of (pd_steps d) (max_depth lim) (max_step_attempts lim) o ∧ v = arrange d o.
Proof.
  intros (Hpos&_&Hn&o&Ho&->&_)%validate_plan_draft_Ok. split; [done|]. exists o. split; [|done].
  unfold limits_positive in Hpos. rewrite !andb_true_iff, !Z.ltb_lt in Hpos.
  pose proof (dependency_order_spec _ Hn (max_depth lim) (max_step_attempts lim) ltac:(lia)) as Hs.
  by rewrite Ho in Hs.
Qed.

Lemma arranged_attempts d o v lim :
  NoDup (map logical_step_key (pd_steps d)) →
  order_of (pd_steps d) (max_depth lim) (max_step_attempts lim) o → v = arrange d o →
  ValidatedPlanDraft_ok v = true → ∀ s, s ∈ pd_steps d → (max_attempts s <= 20)%Z.
Proof.
  intros Hn Ho -> Hok s Hs. pose proof (order_keys _ _ _ _ Ho) as Hp.
  assert (Hk : logical_step_key s ∈ o) by (rewrite Hp; by apply list_elem_of_fmap_2).
  apply list_elem_of_lookup_1 in Hk as [i Hi].
  assert (Hv : place (pd_steps d) (indexes o) (S i, logical_step_key s) ∈ steps (arrange d o)).
  { eapply list_elem_of_lookup_2, arranged_at. eauto. }
  unfold ValidatedPlanDraft_ok in Hok. rewrite !andb_true_iff, !forallb_forall in Hok.
  destruct Hok as [_ Hok]. specialize (Hok _ (proj1 (list_elem_of_In _ _) Hv)).
  unfold ValidatedPlanStep_ok, PlanDraftStep_ok in Hok. rewrite !andb_true_iff, !Z.leb_le in Hok.
  unfold place in Hok. simpl in Hok.
  rewrite (proj2 (steps_by_key_lookup (pd_steps d) _ s Hn)) in Hok by done. simpl in Hok. lia.
Qed.

Lemma validated_reloads `{UnicodeData} d lim v d' :
  validate_plan_draft d lim = Ok v → reloaded v d' →
  validate_plan_draft d' stored_limits = Ok v.
Proof.
  intros Hv Hr. destruct (validated_order _ _ _ Hv) as (Hn&o&Ho&Heq).
  apply validate_plan_draft_Ok in Hv as (Hpos&Hlen&_&_&_&_&Hok&Hc&Hb).
  pose proof (arranged_attempts _ _ _ _ Hn Ho Heq Hok) as Ha.
  rewrite Heq in Hr. pose proof (order_keys _ _ _ _ Ho) as Hp.
  assert (Hd : (depth_limit (max_depth lim) <= depth_limit 10)%Z) by (unfold depth_limit; lia).
  assert (Hlen' : length (pd_steps d') = length (pd_steps d)).
  { rewrite <-(length_fmap logical_step_key (pd_steps d)), <-Hp.
    rewrite <-(reloaded_keys d d' o lim Hn Ho Hr). by rewrite length_fmap. }
  apply validate_plan_draft_Ok. split_and!; [done|rewrite Hlen'; unfold stored_limits; simpl max_steps; lia| |].
  - by apply (reloaded_nodup d d' o lim).
  - exists o. split_and!; try done.
    + by apply (reloaded_order d d' o lim).
    + rewrite Heq. symmetry. by apply (reloaded_arrange d d' o lim).
    + unfold content_fits, stored_limits in *. simpl max_content_bytes. lia.
Qed.

(** ** Why a draft is rejected *)

Definition plan_error (e : exn) : Prop := ∃ m, e = PlanValidationError m.

Lemma add_dependencies_error known key deps g :
  raises_only plan_error (add_dependencies known key deps g).
Proof.
  revert g. induction deps as [|k deps IH]; intros g; simpl; [done|].
  repeat (apply raises_only_bind; [apply raises_only_ensure; by eexists|intros _ _]). apply IH.
Qed.

Lemma add_steps_error known limit l g : raises_only plan_error (add_steps known limit l g).
Proof.
  revert g. induction l as [|s l IH]; intros g; simpl; [done|].
  repeat (apply raises_only_bind; [apply raises_only_ensure; by eexists|intros _ _]).
  apply raises_only_bind; [apply add_dependencies_error|]. intros g' _. apply IH.
Qed.

Lemma visit_children_error order limit key cs f :
  raises_only plan_error (visit_children order limit key cs f).
Proof.
  revert f. induction cs as [|c cs IH]; intros f; simpl; [done|].
  apply raises_only_bind; [apply raises_only_ensure; by eexists|]. intros _ _. apply IH.
Qed.

Lemma order_loop_error order out limit n f o :
  raises_only plan_error (order_loop order out limit n f o).
Proof.
  revert f o. induction n as [|n IH]; intros f o; simpl; [done|].
  destruct (ready f); [done|].
  apply raises_only_bind; [apply visit_children_error|]. intros f' _. apply IH.
Qed.

Lemma dependency_order_error l max_depth max_attempts :
  raises_only plan_error (dependency_order l max_depth max_attempts).
Proof.
  unfold dependency_order. apply raises_only_bind; [apply add_steps_error|]. intros g _.
  apply raises_only_bind; [apply order_loop_error|]. intros [o f] _.
  apply raises_only_bind; [|done]. apply raises_only_ensure. by eexists.
Qed.

(** An arranged draft satisfies the declarations of the validated classes. *)
Lemma arranged_ok d o :
  PlanDraft_ok d = true → NoDup (map logical_step_key (pd_steps d)) →
  o ≡ₚ map logical_step_key (pd_steps d) → ValidatedPlanDraft_ok (arrange d o) = true.
Proof.
  intros Hok Hn Hp. unfold PlanDraft_ok in Hok. rewrite !andb_true_iff in Hok.
  destruct Hok as [[[[[H1 H2] H3] H4] H5] H6].
  assert (Hlen : length (steps (arrange d o)) = length (pd_steps d)).
  { rewrite (arranged_length d o Hn Hp), Hp. by rewrite length_fmap. }
  unfold ValidatedPlanDraft_ok. rewrite !andb_true_iff. split_and!; try done.
  { unfold count_between in *. by rewrite Hlen. }
  apply forallb_forall. intros s Hs%list_elem_of_In.
  destruct (arranged_step d o Hn Hp s Hs) as (i&k&s0&Hi&Heq&Hs0&_&(E1&E2&E3&E4&E5&E6)&_).
  rewrite forallb_forall in H6. specialize (H6 _ (proj1 (list_elem_of_In _ _) Hs0)).
  unfold count_between in H5. rewrite andb_true_iff, !Nat.leb_le in H5.
  apply lookup_lt_Some in Hi. rewrite (arranged_length d o Hn Hp) in Hlen.
  unfold ValidatedPlanStep_ok, PlanDraftStep_ok, count_between in *.
  rewrite E1, E2, E3, E4, E5, E6. rewrite !andb_true_iff in *. destruct_and!. split_and!; try done.
  - rewrite Heq. simpl. apply Z.leb_le. lia.
  - rewrite Heq. simpl. apply Z.leb_le. lia.
Qed.

(** What a rejection says of the draft. *)
Record rejection (d : PlanDraft) (lim : PlanLimits) (e : exn) : Prop := {
  rejection_kind : PlanDraft_ok d = true → plan_error e;
  rejection_depth : e = depth_error →
    ∃ c, chain (deps_of (pd_steps d)) (map logical_step_key (pd_steps d)) c ∧
      (depth_limit (max_depth lim) < Z.of_nat (length c))%Z;
  rejection_cycle : e = cycle_error →
    ∃ u, deadlocked (deps_of (pd_steps d)) (map logical_step_key (pd_steps d)) u;
}.

Lemma rejection_other d lim e :
  graph_error e = false → (PlanDraft_ok d = true → plan_error e) → rejection d lim e.
Proof. unfold graph_error. rewrite bool_decide_eq_false. split; naive_solver. Qed.

Lemma rejection_order d lim :
  NoDup (map logical_step_key (pd_steps d)) → (1 <= max_depth lim)%Z →
  raises_only (rejection d lim)
    (dependency_order (pd_steps d) (max_depth lim) (max_step_attempts lim)).
Proof.
  intros Hn Hmd.
  pose proof (dependency_order_spec _ Hn (max_depth lim) (max_step_attempts lim) Hmd) as Hs.
  pose proof (dependency_order_error (pd_steps d) (max_depth lim) (max_step_attempts lim)) as He.
  destruct (dependency_order _ _ _) as [o|e]; [done|]. simpl in *.
  destruct Hs as [[Hg _]|[[-> Hc]|[-> Hu]]]; [by apply rejection_other|split; done..].
Qed.

Lemma rejection_ensure d lim b m :
  graph_error (PlanValidationError m) = false →
  raises_only (rejection d lim) (ensure b (PlanValidationError m)).
Proof.
  intros Hm. apply raises_only_ensure. intros _. apply rejection_other; [done|]. by eexists.
Qed.

Lemma validate_rejection `{UnicodeData} d lim :
  raises_only (rejection d lim) (validate_plan_draft d lim).
Proof.
  unfold validate_plan_draft, require_positive_int.
  apply raises_only_bind; [by apply rejection_ensure|intros _ _].
  apply raises_only_bind; [by apply rejection_ensure|intros [] Hmd%ensure_Ok].
  apply raises_only_bind; [by apply rejection_ensure|intros _ _].
  apply raises_only_bind; [by apply rejection_ensure|intros _ _].
  apply raises_only_bind; [by apply rejection_ensure|intros _ _].
  apply raises_only_bind; [by apply rejection_ensure|intros [] Hn%ensure_Ok].
  apply bool_decide_eq_true in Hn. apply Z.ltb_lt in Hmd.
  apply raises_only_bind; [apply rejection_order; [done|lia]|intros o Ho].
  apply raises_only_bind; [|intros _ _; apply raises_only_bind; [|intros _ _; apply raises_only_bind; [|done]]].
  - apply raises_only_ensure. intros Hv. apply rejection_other; [done|]. intros Hok.
    pose proof (dependency_order_spec _ Hn (max_depth lim) (max_step_attempts lim) ltac:(lia)) as Hs.
    rewrite Ho in Hs. rewrite arranged_ok in Hv; [done|done|done|apply (order_keys _ _ _ _ Hs)].
  - unfold reject_credentials. destruct (find_credential _) as [[]|]; [..|done];
      (apply rejection_other; [done|by eexists]).
  - by apply rejection_ensure.
Qed.
