(* ===== verification/PlanRecords.v ===== *)
(** * Plan steps that may run, and the readers of Plans ([planner/models.py] 112-150)

    The rules that say when a Plan run
    and a Plan step may be executed, and the interface through which other components
    read the Plan repository. *)

From S2P Require Import Prelude.
From S2P Require Import Records.
From S2P Require Import Errors.
From S2P Require Import Tenancy.
From S2P Require Import WorkflowModels.
From S2P Require Import Storage.
From stdpp Require Import base gmap strings list.

(** ** When a step may run *)

Definition TERMINAL_PLAN_STEP_STATUSES : list PlanStepRunStatus :=
  [STEP_FAILED_TERMINAL; STEP_CANCELLED].

Definition EXECUTABLE_PLAN_RUN_STATUSES : list RunStatus := [RUN_RESUMING; RUN_RUNNING].

Definition NON_DISPATCHABLE_PLAN_STEP_STATUSES : list PlanStepRunStatus :=
  [STEP_RUNNING; STEP_SUCCEEDED] ++ TERMINAL_PLAN_STEP_STATUSES.

Definition is_plan_run_executable (status : RunStatus) (cancel_requested_at : option Z) : bool :=
  bool_decide (status ∈ EXECUTABLE_PLAN_RUN_STATUSES) &&
  bool_decide (cancel_requested_at = None).

Definition is_plan_step_ready (step_id : string) (dependency_ids : list string)
    (latest : gmap string PlanStepRunRecord) : bool :=
  match latest !! step_id with
  | Some current =>
    negb (bool_decide (psr_status current ∈ NON_DISPATCHABLE_PLAN_STEP_STATUSES))
  | None => true
  end &&
  forallb (λ dependency_id,
    match latest !! dependency_id with
    | Some dependency => bool_decide (psr_status dependency = STEP_SUCCEEDED)
    | None => false
    end) dependency_ids.

(** ** The reading side of the Plan repository

    What its clients read: the aggregate, the attempts of a run that are running, and one
    attempt.  Readers change nothing. *)

Class PlanReader : Type := {
  plans_get : TenantContext → string → M (option PlanSnapshot);
  running_step_attempts : TenantContext → string → M (list PlanStepRunRecord);
  step_run_by_id : TenantContext → string → string → M (option PlanStepRunRecord);
}.
