(* ===== verification/PlanTheorems.v ===== *)
(** * Theorems on plan validation

    What [validate_plan_draft] guarantees of the plans it accepts, why it rejects the
    others, and what survives being stored and read back. *)

From S2P Require Import Prelude.
From S2P Require Import Records.
From S2P Require Import Errors.
From S2P Require Import Json.
From S2P Require Import Regex.
From S2P Require Import Storage.
From S2P Require Import Checkpoint.
From S2P Require Import PlanValidation.
From S2P Require Import PlanOrder.
From S2P Require Import PlanSpec.
From S2P Require Import PlanRecords.
From stdpp Require Import base gmap strings list.

(** ** Text and digests *)

(** Every text of a plan. *)
Definition step_texts (s : ValidatedPlanStep) : list string :=
  [logical_step_key s; title s; description s; expected_outcome s] ++ depends_on s.

Definition plan_texts (v : ValidatedPlanDraft) : list string :=
  [objective v; generation_reason v] ++ constraints v ++ concat (map step_texts (steps v)).

Section Texts.
Context `{UnicodeData}.

Lemma find_credential_arr l :
  find_credential (JArr l) = None ↔ ∀ x, x ∈ l → find_credential x = None.
Proof.
  simpl. induction l as [|x l IH]; [set_solver|].
  destruct (find_credential x) eqn:E; [split; [done|]|].
  - intros Hx. rewrite (Hx x (list_elem_of_here _ _)) in E. done.
  - rewrite IH. set_solver.
Qed.

Lemma find_credential_strs l :
  find_credential (JArr (map JStr l)) = None ↔ ∀ s, s ∈ l → SECRET_VALUE s = false.
Proof.
  rewrite find_credential_arr. split.
  - intros Hl s Hs. specialize (Hl (JStr s) (list_elem_of_fmap_2 _ _ _ Hs)). simpl in Hl.
    by destruct (SECRET_VALUE s).
  - intros Hl x (s&->&Hs)%list_elem_of_fmap. simpl. by rewrite Hl.
Qed.

Lemma find_credential_field k v l :
  find_credential (JObj ((k, v) :: l)) = None →
  find_credential v = None ∧ find_credential (JObj l) = None.
Proof. simpl. destruct (SECRET_KEY k); [done|]. by destruct (find_credential v). Qed.

Lemma find_credential_str s : find_credential (JStr s) = None → SECRET_VALUE s = false.
Proof. simpl. by destruct (SECRET_VALUE s). Qed.

Lemma step_no_credentials s :
  find_credential (dump_step s) = None → ∀ t, t ∈ step_texts s → SECRET_VALUE t = false.
Proof.
  unfold dump_step. intros (H1&Hd)%find_credential_field.
  apply find_credential_field in Hd as [H2 Hd]. apply find_credential_field in Hd as [H3 Hd].
  apply find_credential_field in Hd as [H4 Hd]. apply find_credential_field in Hd as [H5 _].
  apply find_credential_str in H1, H2, H3, H4. rewrite find_credential_strs in H5.
  unfold step_texts. intros t Ht. rewrite elem_of_app, !elem_of_cons, elem_of_nil in Ht.
  naive_solver.
Qed.
End Texts.

Lemma dump_step_plain s : plain (dump_step s) = true.
Proof.
  unfold dump_step. cbn. rewrite !andb_true_r. apply forallb_forall.
  by intros j (t&<-&_)%in_map_iff.
Qed.

Lemma dump_plan_plain v : plain (dump_plan v) = true.
Proof.
  unfold dump_plan. cbn -[dump_step]. rewrite !andb_true_iff. split_and!; try done;
    apply forallb_forall; intros j (t&<-&_)%in_map_iff; [done|apply dump_step_plain].
Qed.

Lemma strs_inj (l m : list string) : map canon (map JStr l) = map canon (map JStr m) → l = m.
Proof.
  rewrite !map_map. simpl. revert m.
  induction l as [|x l IH]; intros [|y m]; simpl; try done. intros [= -> Hm]. f_equal. by apply IH.
Qed.

Lemma dump_step_inj s t : canon (dump_step s) = canon (dump_step t) → s = t.
Proof.
  destruct s as [[]], t as [[]]. unfold dump_step. cbn. intros [= Hd]. subst.
  apply strs_inj in Hd. by subst.
Qed.

Lemma dump_plan_inj v w : canon (dump_plan v) = canon (dump_plan w) → v = w.
Proof.
  destruct v as [o1 c1 r1 s1], w as [o2 c2 r2 s2]. unfold dump_plan. cbn -[dump_step].
  intros [= Hc -> -> Hs]. apply strs_inj in Hc as ->. f_equal. revert s2 Hs.
  induction s1 as [|s s1 IH]; intros [|t s2]; cbn -[dump_step]; try done.
  intros Heq. pose proof (f_equal (hd JNull) Heq) as Hst. apply (f_equal tail) in Heq as Hs.
  cbn -[dump_step] in Hst, Hs. clear Heq. apply dump_step_inj in Hst as ->. f_equal. by apply IH.
Qed.

(** ** Readiness *)

(** The dependencies of a step of a stored version. *)
Definition dependency_ids (v : PlanVersionRecord) (step_id : string) : list string :=
  default [] (pvr_dependencies v !! step_id).

Definition step_ids (v : PlanVersionRecord) : list string := map pst_step_id (pvr_steps v).

Definition step_succeeded (latest : gmap string PlanStepRunRecord) (step_id : string) : Prop :=
  psr_status <$> latest !! step_id = Some STEP_SUCCEEDED.

#[export] Instance step_succeeded_dec latest s : Decision (step_succeeded latest s).
Proof. unfold step_succeeded. apply _. Defined.

(** The first element without a property, with the ones before it. *)
Lemma first_without {A} (P : A → Prop) `{!∀ x, Decision (P x)} (l : list A) x :
  x ∈ l → ¬ P x → ∃ l1 y l2, l = l1 ++ y :: l2 ∧ ¬ P y ∧ ∀ z, z ∈ l1 → P z.
Proof.
  induction l as [|y l IH]; intros Hx Hn; [by apply elem_of_nil in Hx|].
  destruct (decide (P y)) as [Hy|Hy]; [|exists [], y, l; set_solver].
  apply elem_of_cons in Hx as [->|Hx]; [done|].
  destruct (IH Hx Hn) as (l1&z&l2&->&Hz&Hl1). exists (y :: l1), z, l2. set_solver.
Qed.

(** ** The claims *)

Section Claims.
Context `{UnicodeData}.

(** C33: An accepted plan holds the steps of its draft, each once and with its content
    unchanged, numbered from one so that every dependency of a step is an earlier step,
    and no chain of dependencies is longer than the configured depth (and ten). *)
Theorem validated_plan_is_ordered d lim v :
  validate_plan_draft d lim = Ok v → plan_of d lim v.
Proof. intros (Hn&o&Ho&->)%validated_order. by apply accepted_plan_of. Qed.

(** The order exists exactly when it can: for a draft whose steps pass the checks on
    single steps, the loop succeeds if and only if no steps wait for each other and no
    chain of dependencies exceeds the limit; it never stops early. *)
Theorem dependency_order_decides l max_depth max_attempts :
  NoDup (map logical_step_key l) → (1 <= max_depth)%Z →
  (∀ s, s ∈ l → step_ok (steps_by_key l) max_attempts s) →
  (∃ o, dependency_order l max_depth max_attempts = Ok o) ↔
  (∀ u, ¬ deadlocked (deps_of l) (map logical_step_key l) u) ∧
  (∀ c, chain (deps_of l) (map logical_step_key l) c →
    (Z.of_nat (length c) <= Z.min max_depth 10)%Z).
Proof.
  intros Hn Hmd Hok. pose proof (dependency_order_spec l Hn max_depth max_attempts Hmd) as Hs.
  destruct (dependency_order l max_depth max_attempts) as [o|e].
  - split; [intros _|eauto]. split; [|apply (order_depth _ _ _ _ Hs)].
    intros u. eapply topological_no_deadlock; [apply (order_topological _ _ _ _ Hs)|].
    intros k. by rewrite (order_keys _ _ _ _ Hs).
  - split; [by intros [o [=]]|]. intros [Hu Hc].
    destruct Hs as [(_&s&Hs&Hns)|[(_&c&Hch&Hlen)|(_&u&Hdu)]]; exfalso.
    + by apply Hns, Hok.
    + specialize (Hc c Hch). unfold depth_limit in Hlen. lia.
    + by apply (Hu u).
Qed.

(** A rejection tells the truth: a draft that satisfies its field declarations is
    rejected only with [PlanValidationError]; the message about depth means that a chain
    of dependencies is longer than the limit, and the message about a cycle that there
    are steps that wait for each other. *)
Theorem plan_rejections_are_justified d lim e :
  validate_plan_draft d lim = Err e → rejection d lim e.
Proof. intros He. pose proof (validate_rejection d lim) as Hr. by rewrite He in Hr. Qed.

(** A plan that was accepted under any limits is accepted again, unchanged, when it
    is read back from storage, in whatever order its dependencies come. *)
Theorem stored_plan_revalidates d lim v d' :
  validate_plan_draft d lim = Ok v → reloaded v d' →
  validate_plan_draft d' stored_limits = Ok v.
Proof. apply validated_reloads. Qed.

(** No text of an accepted plan, in any of its fields, matches the pattern for
    credentials. *)
Theorem accepted_plan_has_no_credentials d lim v t :
  validate_plan_draft d lim = Ok v → t ∈ plan_texts v → SECRET_VALUE t = false.
Proof.
  intros (_&_&_&o&_&_&_&Hc&_)%validate_plan_draft_Ok Ht. unfold dump_plan in Hc.
  apply find_credential_field in Hc as [H1 Hc]. apply find_credential_field in Hc as [H2 Hc].
  apply find_credential_field in Hc as [H3 Hc]. apply find_credential_field in Hc as [H4 _].
  apply find_credential_str in H1, H3. rewrite find_credential_strs in H2.
  rewrite find_credential_arr in H4.
  unfold plan_texts in Ht. rewrite !elem_of_app, !elem_of_cons, elem_of_nil in Ht.
  destruct Ht as [[->|[->|[]]]|[Ht|Ht]]; [done|done|by apply H2|].
  apply list_elem_of_In, in_concat in Ht as (l&(s&<-&Hs)%in_map_iff&Ht).
  apply (step_no_credentials s); [|by apply list_elem_of_In].
  by apply H4, list_elem_of_fmap_2, list_elem_of_In.
Qed.
End Claims.

(** A plan in order never stalls: as long as no attempt is running or has failed for
    good, and some step has not succeeded, there is a step that [is_plan_step_ready]
    accepts. *)
Theorem ordered_plan_never_stalls v latest s :
  topological (dependency_ids v) (step_ids v) →
  (∀ k r, latest !! k = Some r →
     psr_status r ∉ [STEP_RUNNING; STEP_FAILED_TERMINAL; STEP_CANCELLED]) →
  s ∈ step_ids v → ¬ step_succeeded latest s →
  ∃ k, k ∈ step_ids v ∧ ¬ step_succeeded latest k ∧
    is_plan_step_ready k (dependency_ids v k) latest = true.
Proof.
  intros Ht Hlive Hs Hn.
  destruct (first_without (step_succeeded latest) _ _ Hs Hn) as (l1&k&l2&Heq&Hk&Hl1).
  exists k. split; [rewrite Heq; set_solver|]. split; [done|].
  unfold is_plan_step_ready, step_succeeded in *. apply andb_true_iff. split.
  - destruct (latest !! k) as [r|] eqn:E; [|done]. simpl in Hk.
    apply negb_true_iff, bool_decide_eq_false. specialize (Hlive k r E). revert Hlive Hk.
    destruct (psr_status r); vm_compute; set_solver.
  - apply forallb_forall. intros d Hd%list_elem_of_In.
    pose proof (Hl1 d (Ht _ _ _ Heq d Hd)) as Hsd. destruct (latest !! d); [|done].
    apply bool_decide_eq_true. by injection Hsd.
Qed.

(** With a digest that has no collision, two plans with the same content digest are
    the same plan, its order, its numbering and its dependencies included. *)
Theorem plan_digest_determines_plan `{Env} v w :
  (∀ a b, env_sha256_hex a = env_sha256_hex b → a = b) →
  plan_content_digest v = plan_content_digest w → v = w.
Proof.
  intros Hinj Hd. apply Hinj in Hd. apply print_json_canon_eq in Hd; [|apply dump_plan_plain..].
  by apply dump_plan_inj.
Qed.

(** ** Witnesses *)

Definition ascii_words : UnicodeData := λ _, false.

Definition sample_step (key : string) (deps : list string) : PlanDraftStep :=
  MkPlanDraftStep key "Title" "Description" "Outcome" deps 2.

Definition sample_draft_of (l : list PlanDraftStep) : PlanDraft :=
  MkPlanDraft "Objective" ["Constraint"] "Reason" l.

Definition sample_draft : PlanDraft :=
  sample_draft_of [sample_step "report" ["tests"; "build"]; sample_step "tests" ["build"];
                   sample_step "build" []].

Definition sample_plan : ValidatedPlanDraft :=
  MkValidatedPlanDraft "Objective" ["Constraint"] "Reason"
    [MkValidatedPlanStep (sample_step "build" []) 1;
     MkValidatedPlanStep (sample_step "tests" ["build"]) 2;
     MkValidatedPlanStep (sample_step "report" ["build"; "tests"]) 3].

Definition circular_draft : PlanDraft :=
  sample_draft_of [sample_step "a" ["b"]; sample_step "b" ["a"]].

Definition reloaded_draft : PlanDraft :=
  sample_draft_of [sample_step "build" []; sample_step "tests" ["build"];
                   sample_step "report" ["tests"; "build"]].

Lemma validated_plan_is_ordered_witness : plan_of sample_draft stored_limits sample_plan.
Proof. apply (@validated_plan_is_ordered ascii_words). vm_compute. reflexivity. Defined.

Lemma plan_rejections_are_justified_witness :
  rejection circular_draft stored_limits cycle_error.
Proof. apply (@plan_rejections_are_justified ascii_words). vm_compute. reflexivity. Defined.

Lemma stored_plan_revalidates_witness :
  @validate_plan_draft ascii_words reloaded_draft stored_limits = Ok sample_plan.
Proof.
  apply (@stored_plan_revalidates ascii_words sample_draft stored_limits).
  - vm_compute. reflexivity.
  - split_and!; try reflexivity. repeat constructor.
Defined.

Lemma accepted_plan_has_no_credentials_witness :
  @SECRET_VALUE ascii_words "Outcome" = false.
Proof.
  apply (@accepted_plan_has_no_credentials ascii_words sample_draft stored_limits sample_plan).
  - vm_compute. reflexivity.
  - set_solver.
Defined.

Lemma dependency_order_decides_witness :
  ¬ deadlocked (deps_of (pd_steps sample_draft))
      (map logical_step_key (pd_steps sample_draft)) ["tests"; "report"].
Proof.
  apply (dependency_order_decides (pd_steps sample_draft) 10 20).
  - apply (bool_decide_eq_true_1 _). vm_compute. reflexivity.
  - lia.
  - intros s Hs. repeat (apply elem_of_cons in Hs as [->|Hs]); [..|by apply elem_of_nil in Hs];
      (split_and!; [simpl; lia|apply (bool_decide_eq_true_1 _); vm_compute; reflexivity|]);
      intros k Hk; simpl in Hk; repeat (apply elem_of_cons in Hk as [->|Hk]);
      try (by apply elem_of_nil in Hk); (split; [vm_compute; discriminate|eexists; vm_compute; reflexivity]).
  - eexists. vm_compute. reflexivity.
Defined.

Definition collision_free : Env := {|
  env_clock _ := 0%Z; env_uuid4 _ := ""; env_sha256_hex s := s; env_unicode _ := false;
|}.

Lemma plan_digest_determines_plan_witness : sample_plan = arrange sample_draft ["build"; "tests"; "report"].
Proof.
  apply (@plan_digest_determines_plan collision_free); [by intros a b|].
  vm_compute. reflexivity.
Defined.

Definition stored_step (id : string) (n : Z) : PlanStepRecord :=
  MkPlanStepRecord id id None n "Title" "Description" "Outcome" None 2 "".

Definition stored_version : PlanVersionRecord :=
  MkPlanVersionRecord "plan" 1 "Objective" [] "Reason" None None 1 "" 0
    [stored_step "build" 1; stored_step "tests" 2] {[ "tests" := ["build"] ]}.

Lemma ordered_plan_never_stalls_witness :
  ∃ k, k ∈ step_ids stored_version ∧
    is_plan_step_ready k (dependency_ids stored_version k) ∅ = true.
Proof.
  edestruct (ordered_plan_never_stalls stored_version ∅ "tests") as (k&Hk&_&Hr).
  - intros l1 k l2 Heq d Hd. change (step_ids stored_version) with ["build"; "tests"] in Heq.
    destruct l1 as [|x [|y l1]].
    + injection Heq as <- _. by apply elem_of_nil in Hd.
    + injection Heq as <- <- _. exact Hd.
    + injection Heq as _ _ Heq. by destruct l1.
  - intros k r Hl. discriminate Hl.
  - apply (bool_decide_eq_true_1 _). vm_compute. reflexivity.
  - intros Hs. discriminate Hs.
  - exists k. split; [exact Hk|exact Hr].
Defined.
