(* ===== verification/PlanReading.v ===== *)
(** * The Plan repository: rows to records ([storage/repositories/plans.py])

    Rows are read back into records only after their content has been checked again: the
    draft that the rows of a version spell out must validate, in the stored order, and
    have the stored digests. *)

From S2P Require Import Prelude Records Errors Json Tenancy WorkflowModels Storage.
From S2P Require Import PlanStorage Regex Checkpoint PlanValidation PlanSpec PlanRecords.
From stdpp Require Import base gmap strings list.

(** [PlanningSettings], the limits that the repository uses. *)
Record PlanningSettings : Type := MkPlanningSettings {
  pls_max_steps : Z;
  pls_max_dependency_depth : Z;
  pls_max_revisions : Z;
  pls_max_step_attempts : Z;
}.

(** The declared bounds of the settings. *)
Definition PlanningSettings_ok (s : PlanningSettings) : bool :=
  Z.leb 1 (pls_max_steps s) && Z.leb (pls_max_steps s) 20 &&
  Z.leb 1 (pls_max_dependency_depth s) && Z.leb (pls_max_dependency_depth s) 10 &&
  Z.leb 0 (pls_max_revisions s) && Z.leb (pls_max_revisions s) 20 &&
  Z.leb 1 (pls_max_step_attempts s) && Z.leb (pls_max_step_attempts s) 20.

Definition draft_limits (s : PlanningSettings) : PlanLimits := {|
  max_steps := pls_max_steps s;
  max_depth := pls_max_dependency_depth s;
  max_step_attempts := pls_max_step_attempts s;
  max_content_bytes := MAX_PLAN_CONTENT_BYTES;
|}.

(** ** Rows in a Plan *)

Definition plan_predicate (d : Db) (k : plan_key) : option agent_plan :=
  p ← agent_plans d !! k.2;
  if bool_decide (plan_scope p = k) then Some p else None.

Definition version_scope_predicate (d : Db) (k : plan_key) : list agent_plan_version :=
  List.filter (λ v, bool_decide (version_scope v = k)) (rows (agent_plan_versions d)).
Definition step_scope_predicate (d : Db) (k : plan_key) : list agent_plan_step :=
  List.filter (λ s, bool_decide (step_scope s = k)) (rows (agent_plan_steps d)).
Definition dependency_scope_predicate (d : Db) (k : plan_key)
    : list agent_plan_step_dependency :=
  List.filter (λ x, bool_decide (dependency_scope x = k))
    (rows (agent_plan_step_dependencies d)).
Definition decision_scope_predicate (d : Db) (k : plan_key) : list agent_plan_decision :=
  List.filter (λ x, bool_decide (decision_scope x = k)) (rows (agent_plan_decisions d)).

(** [ORDER BY plan_version], [ORDER BY plan_version, ordinal] and
    [ORDER BY created_at, decision_id]. *)
Definition version_leb (a b : agent_plan_version) : bool :=
  Z.leb (pv_plan_version a) (pv_plan_version b).
Definition step_leb (a b : agent_plan_step) : bool :=
  Z.ltb (ste_plan_version a) (ste_plan_version b) ||
  (Z.eqb (ste_plan_version a) (ste_plan_version b) && Z.leb (ste_ordinal a) (ste_ordinal b)).
Definition decision_leb (a b : agent_plan_decision) : bool :=
  Z.ltb (dec_created_at a) (dec_created_at b) ||
  (Z.eqb (dec_created_at a) (dec_created_at b) &&
   String.leb (dec_decision_id a) (dec_decision_id b)).

(** ** Rows to records *)

Definition hydrate_step (s : agent_plan_step) : PlanStepRecord := {|
  pst_step_id := ste_step_id s;
  pst_logical_step_key := ste_logical_step_key s;
  pst_supersedes_step_id := ste_supersedes_step_id s;
  pst_ordinal := ste_ordinal s;
  pst_title := ste_title s;
  pst_description := ste_description s;
  pst_expected_outcome := ste_expected_outcome s;
  pst_assigned_agent_profile_id := ste_assigned_agent_profile_id s;
  pst_max_attempts := ste_max_attempts s;
  pst_definition_digest := ste_definition_digest s;
|}.

Definition hydrate_decision (x : agent_plan_decision) : PlanDecisionRecord := {|
  pdr_decision_id := dec_decision_id x;
  pdr_plan_version := dec_plan_version x;
  pdr_expected_plan_cas_version := dec_expected_plan_cas_version x;
  pdr_action := dec_action x;
  pdr_feedback := dec_feedback x;
  pdr_decided_by := dec_decided_by x;
  pdr_resulting_plan_version := dec_resulting_plan_version x;
  pdr_created_at := dec_created_at x;
|}.

Definition hydrate_step_run (x : agent_plan_step_run) : PlanStepRunRecord := {|
  psr_step_run_id := srn_step_run_id x;
  psr_run_id := srn_run_id x;
  psr_plan_id := srn_plan_id x;
  psr_plan_version := srn_plan_version x;
  psr_step_id := srn_step_id x;
  psr_attempt := srn_attempt x;
  psr_status := srn_status x;
  psr_result_summary := srn_result_summary x;
  psr_result_ref := srn_result_ref x;
  psr_result_digest := srn_result_digest x;
  psr_error_code := srn_error_code x;
  psr_error_detail_redacted := srn_error_detail_redacted x;
  psr_reused_from_step_run_id := srn_reused_from_step_run_id x;
  psr_version := srn_version x;
  psr_started_at := srn_started_at x;
  psr_finished_at := srn_finished_at x;
|}.

(** ** The integrity of a stored version *)

Section Integrity.
Context `{Env}.

Definition steps_by_id (l : list PlanStepRecord) : gmap string PlanStepRecord :=
  foldl (λ m s, <[pst_step_id s := s]> m) ∅ l.

(** The draft that a version spells out; a dependency that is no step is a [KeyError]. *)
Definition stored_draft_step (by_id : gmap string PlanStepRecord)
    (deps : gmap string (list string)) (s : PlanStepRecord) : result exn PlanDraftStep :=
  keys ← mapM (λ i, match by_id !! i with
                    | Some t => Ok (pst_logical_step_key t)
                    | None => Err KeyError
                    end) (default [] (deps !! pst_step_id s));
  Ok {| logical_step_key := pst_logical_step_key s;
        title := pst_title s;
        description := pst_description s;
        expected_outcome := pst_expected_outcome s;
        depends_on := keys;
        max_attempts := pst_max_attempts s |}.

Definition stored_draft (v : PlanVersionRecord) : result exn PlanDraft :=
  l ← mapM (stored_draft_step (steps_by_id (pvr_steps v)) (pvr_dependencies v)) (pvr_steps v);
  let draft := {| pd_objective := pvr_objective v;
                  pd_constraints := pvr_constraints v;
                  pd_generation_reason := pvr_generation_reason v;
                  pd_steps := l |} in
  _ ← ensure (PlanDraft_ok draft) ValidationError;
  Ok draft.

Definition validated_by_key (v : ValidatedPlanDraft) : gmap string ValidatedPlanStep :=
  foldl (λ m s, <[logical_step_key (vps_step s) := s]> m) ∅ (steps v).

Definition validate_version_integrity (v : PlanVersionRecord) : result exn unit :=
  let ids := steps_by_id (pvr_steps v) in
  _ ← ensure (bool_decide (pvr_schema_version v = 1%Z))
        (ValueError "Plan version schema is corrupt");
  _ ← ensure (bool_decide (map pst_ordinal (pvr_steps v) =
                           map Z.of_nat (seq 1 (List.length (pvr_steps v)))))
        (ValueError "Plan step ordinals are corrupt");
  _ ← ensure (bool_decide (size ids = List.length (pvr_steps v)))
        (ValueError "Plan step identifiers are corrupt");
  _ ← ensure (forallb (λ kl, bool_decide (is_Some (ids !! kl.1)))
                (map_to_list (pvr_dependencies v)))
        (ValueError "Plan dependency targets are corrupt");
  _ ← ensure (forallb (λ kl, forallb (λ i, bool_decide (is_Some (ids !! i))) kl.2)
                (map_to_list (pvr_dependencies v)))
        (ValueError "Plan dependency sources are corrupt");
  validated ←
    match (draft ← stored_draft v; validate_plan_draft draft stored_limits) with
    | Ok x => Ok x
    | Err _ => Err (ValueError "Plan version content is corrupt")
    end;
  _ ← ensure (bool_decide
                (map (λ s, (logical_step_key (vps_step s), ordinal s)) (steps validated) =
                 map (λ s, (pst_logical_step_key s, pst_ordinal s)) (pvr_steps v)))
        (ValueError "Plan step ordering is corrupt");
  _ ← ensure (forallb (λ s,
                match validated_by_key validated !! pst_logical_step_key s with
                | Some t => bool_decide (step_definition_digest t = pst_definition_digest s)
                | None => false
                end) (pvr_steps v))
        (ValueError "Plan step definition_digest is corrupt");
  ensure (bool_decide (plan_content_digest validated = pvr_content_digest v))
    (ValueError "Plan version content_digest is corrupt").

(** ** Reading a version *)

Definition as_string (j : json) : option string :=
  match j with JStr s => Some s | _ => None end.

Definition load_constraints (text : string) : result exn (list string) :=
  match json_loads text with
  | None => Err (ValueError "Plan constraints_json is corrupt")
  | Some (JArr l) =>
    match mapM as_string l with
    | Some c => Ok c
    | None => Err (ValueError "Plan constraints_json must contain a list of strings")
    end
  | Some _ => Err (ValueError "Plan constraints_json must contain a list of strings")
  end.

Definition hydrate_version (row : agent_plan_version) (l : list PlanStepRecord)
    (deps : gmap string (list string)) : result exn PlanVersionRecord :=
  c ← load_constraints (pv_constraints_json row);
  let v := {| pvr_plan_id := pv_plan_id row;
              pvr_plan_version := pv_plan_version row;
              pvr_objective := pv_objective row;
              pvr_constraints := c;
              pvr_generation_reason := pv_generation_reason row;
              pvr_parent_version := pv_parent_version row;
              pvr_revision_feedback := pv_revision_feedback row;
              pvr_schema_version := pv_schema_version row;
              pvr_content_digest := pv_content_digest row;
              pvr_created_at := pv_created_at row;
              pvr_steps := l;
              pvr_dependencies := deps |} in
  _ ← validate_version_integrity v;
  Ok v.

(** ** Reading a Plan *)

Definition step_ordinals (l : list agent_plan_step) : gmap (Z * string) Z :=
  foldl (λ m s, <[(ste_plan_version s, ste_step_id s) := ste_ordinal s]> m) ∅ l.

Definition steps_by_version (l : list agent_plan_step) (version : Z) : list PlanStepRecord :=
  map hydrate_step (List.filter (λ s, Z.eqb (ste_plan_version s) version) l).

Definition dependency_lists (l : list agent_plan_step_dependency)
    : gmap (Z * string) (list string) :=
  foldl (λ m x,
    let key := (dep_plan_version x, dep_step_id x) in
    <[key := default [] (m !! key) ++ [dep_depends_on_step_id x]]> m) ∅ l.

Definition by_ordinal (ordinals : gmap (Z * string) Z) (version : Z) (x y : string) : bool :=
  Z.leb (default 0%Z (ordinals !! (version, x))) (default 0%Z (ordinals !! (version, y))).

Definition dependencies_by_version (ordinals : gmap (Z * string) Z)
    (lists : gmap (Z * string) (list string)) (version : Z) : gmap string (list string) :=
  list_to_map (omap (λ kl,
    if Z.eqb kl.1.1 version
    then Some (kl.1.2, sort_by (by_ordinal ordinals version) kl.2)
    else None) (map_to_list lists)).

(** [step_ordinals[(version, dependency)]] of every dependency. *)
Definition ordinals_known (ordinals : gmap (Z * string) Z)
    (l : list agent_plan_step_dependency) : bool :=
  forallb (λ x, bool_decide
    (is_Some (ordinals !! (dep_plan_version x, dep_depends_on_step_id x)))) l.

Definition read_versions (d : Db) (k : plan_key) : result exn (list PlanVersionRecord) :=
  let version_rows := sort_by version_leb (version_scope_predicate d k) in
  let step_rows := sort_by step_leb (step_scope_predicate d k) in
  let dependency_rows := dependency_scope_predicate d k in
  let ordinals := step_ordinals step_rows in
  _ ← ensure (ordinals_known ordinals dependency_rows) KeyError;
  mapM (λ row,
    hydrate_version row (steps_by_version step_rows (pv_plan_version row))
      (dependencies_by_version ordinals (dependency_lists dependency_rows)
         (pv_plan_version row))) version_rows.

Definition read_decisions (d : Db) (k : plan_key) : list PlanDecisionRecord :=
  map hydrate_decision (sort_by decision_leb (decision_scope_predicate d k)).

Definition version_numbered (n : Z) (l : list PlanVersionRecord) : option PlanVersionRecord :=
  List.find (λ v, Z.eqb (pvr_plan_version v) n) l.

Definition read_plan (c : TenantContext) (d : Db) (k : plan_key) (p : agent_plan)
    : result exn PlanSnapshot :=
  versions ← read_versions d k;
  match version_numbered (pl_current_version p) versions with
  | None => Err (ValueError "Plan current_version references missing version data")
  | Some current =>
    Ok {| ps_context := c;
          ps_plan_id := pl_id p;
          ps_source_message_id := pl_source_message_id p;
          ps_trigger_mode := pl_trigger_mode p;
          ps_status := pl_status p;
          ps_current_version := pl_current_version p;
          ps_approved_version := pl_approved_version p;
          ps_aggregate_version := pl_version p;
          ps_created_at := pl_created_at p;
          ps_updated_at := pl_updated_at p;
          ps_current := current;
          ps_versions := versions;
          ps_decisions := read_decisions d k |}
  end.
End Integrity.
