(* ===== verification/WorkflowRepository.v ===== *)
(** * Workflow repository ([src/multiclaw/storage/repositories/workflow.py])

    The SQL of the workflow engine: run leases with fencing tokens, compare-and-swap
    status transitions, approvals, serial tool executions and checkpoints.  One
    definition per method, each statement reading the clock once; methods that the
    source prefixes with an underscore keep their name without it. *)

From S2P Require Import Prelude Records Errors Json Tenancy WorkflowModels Storage.
From stdpp Require Import base gmap strings list fin_maps sets pretty.
From Stdlib Require Import Ascii String.

(** The repository object's settings. *)
Record WorkflowRepository : Type := MkWorkflowRepository {
  repo_heartbeat_ms : Z;
  repo_lease_ttl_ms : Z;
  repo_plan_round_budget : option Z;
}.

Definition ACTIVE_RUN_STATUSES : list RunStatus :=
  [RUN_RUNNING; RUN_AWAITING_USER; RUN_RESUMING].
Definition TAKEOVER_ELIGIBLE_STATUSES : list RunStatus :=
  [RUN_RUNNING; RUN_AWAITING_USER; RUN_RESUMING].
Definition NONTERMINAL_EXECUTION_STATUSES : list ExecutionStatus :=
  List.filter (λ s, negb (exec_terminal s)) enum_members.

Definition run_active (r : agent_run) : bool :=
  bool_decide (run_run_status r ∈ ACTIVE_RUN_STATUSES).

(** ** Predicates *)

(** [lease_expires_at > now] and [lease_expires_at <= now]: false of NULL. *)
Definition expires_after (e : option Z) (now : Z) : bool :=
  match e with Some e => Z.ltb now e | None => false end.
Definition expired_by (e : option Z) (now : Z) : bool :=
  match e with Some e => Z.leb e now | None => false end.

(** [current_lease_predicate] at a clock reading. *)
Definition current_lease_predicate (lease : RunLease) (now : Z) (r : agent_run) : bool :=
  in_scope (rl_context lease) (run_scope r) &&
  bool_decide (run_lease_owner r = Some (rl_lease_owner lease)) &&
  bool_decide (run_fencing_token r = rl_fencing_token lease) &&
  bool_decide (run_version r = rl_version lease) &&
  expires_after (run_lease_expires_at r) now.

(** [SELECT ... WHERE _context_predicate(context) LIMIT 1]; [run_id] is the key. *)
Definition context_predicate (d : Db) (c : TenantContext) : option agent_run :=
  rid ← tc_run_id c;
  r ← agent_runs d !! rid;
  if in_scope c (run_scope r) then Some r else None.

Definition approval_scope_predicate (d : Db) (c : TenantContext) (approval_id : string)
    : option approval_request :=
  a ← approval_requests d !! approval_id;
  if in_scope c (approval_scope a) && bool_decide (apr_approval_id a = approval_id)
  then Some a else None.

(** The row of [tool_executions] with this id in the run's scope. *)
Definition execution_scope_predicate (d : Db) (c : TenantContext) (execution_id : string)
    : option tool_execution :=
  e ← tool_executions d !! execution_id;
  if in_scope c (execution_scope e) && bool_decide (exe_execution_id e = execution_id)
  then Some e else None.

Definition checkpoint_scope_predicate (d : Db) (c : TenantContext)
    : list execution_checkpoint :=
  List.filter (λ k, in_scope c (checkpoint_scope k)) (rows (execution_checkpoints d)).

(** [UPDATE agent_runs SET set_ WHERE _context_predicate(context) AND where_]; gives
    the row count. *)
Definition update_agent_runs `{Env} (c : TenantContext) (where_ : Z → agent_run → bool)
    (set_ : Z → agent_run → agent_run) : M Z :=
  now ← db_now_ms;
  d ← gets w_db;
  match context_predicate d c with
  | Some r =>
    if where_ now r
    then set_db (d <| agent_runs := <[run_run_id r := set_ now r]> (agent_runs d) |>) ;;
         mret 1%Z
    else mret 0%Z
  | None => mret 0%Z
  end.

Definition update_approval_requests `{Env} (c : TenantContext) (approval_id : string)
    (where_ : Z → approval_request → bool)
    (set_ : Z → approval_request → approval_request) : M Z :=
  now ← db_now_ms;
  d ← gets w_db;
  match approval_scope_predicate d c approval_id with
  | Some a =>
    if where_ now a
    then set_db (d <| approval_requests :=
                       <[apr_approval_id a := set_ now a]> (approval_requests d) |>) ;;
         mret 1%Z
    else mret 0%Z
  | None => mret 0%Z
  end.

(** The EXISTS subquery on the run's lease is part of [where_]. *)
Definition update_tool_executions `{Env} (c : TenantContext) (execution_id : string)
    (where_ : Db → Z → tool_execution → bool)
    (set_ : Z → tool_execution → tool_execution) : M Z :=
  now ← db_now_ms;
  d ← gets w_db;
  match execution_scope_predicate d c execution_id with
  | Some e =>
    if where_ d now e
    then set_db (d <| tool_executions :=
                       <[exe_execution_id e := set_ now e]> (tool_executions d) |>) ;;
         mret 1%Z
    else mret 0%Z
  | None => mret 0%Z
  end.

(** ** Rows to records *)

Definition run_record (r : agent_run) : RunRecord := {|
  rr_context := MkTenantContext (run_tenant_id r) (run_workspace_id r)
                  (Some (run_session_id r)) (Some (run_run_id r)) 0;
  rr_status := run_run_status r;
  rr_plan_id := run_plan_id r;
  rr_initial_plan_version := run_initial_plan_version r;
  rr_active_plan_version := run_active_plan_version r;
  rr_cancel_requested_at := run_cancel_requested_at r;
  rr_runtime_instance_id := run_runtime_instance_id r;
  rr_lease_owner := run_lease_owner r;
  rr_fencing_token := run_fencing_token r;
  rr_lease_expires_at := run_lease_expires_at r;
  rr_heartbeat_at := run_heartbeat_at r;
  rr_version := run_version r;
  rr_created_at := run_created_at r;
  rr_updated_at := run_updated_at r;
  rr_finished_at := run_finished_at r;
|}.

Definition run_from_row (r : agent_run) : M RunRecord :=
  require (plan_binding_complete (run_plan_id r) (run_initial_plan_version r)
             (run_active_plan_version r))
    (ValueError "run has an incomplete Plan binding") ;;
  lift (post_init (rr_context (run_record r))) ;;
  mret (run_record r).

Definition approval_from_row (c : TenantContext) (a : approval_request) : ApprovalRecord := {|
  ar_context := c;
  ar_approval_id := apr_approval_id a;
  ar_tool_call_id := apr_tool_call_id a;
  ar_status := apr_approval_status a;
  ar_requested_at := apr_requested_at a;
  ar_resolved_at := apr_resolved_at a;
  ar_expires_at := apr_expires_at a;
  ar_version := apr_version a;
|}.

Definition execution_from_row (c : TenantContext) (e : tool_execution) : ExecutionRecord := {|
  er_context := c;
  er_execution_id := exe_execution_id e;
  er_approval_id := exe_approval_id e;
  er_tool_call_id := exe_tool_call_id e;
  er_tool_name := exe_tool_name e;
  er_tool_kind := exe_tool_kind e;
  er_status := exe_execution_status e;
  er_recovery_strategy := exe_recovery_strategy e;
  er_version := exe_version e;
  er_created_at := exe_created_at e;
  er_updated_at := exe_updated_at e;
  er_finished_at := exe_finished_at e;
|}.

Definition execution_recovery_from_row (c : TenantContext) (e : tool_execution)
    : ExecutionRecoveryRecord := {|
  xr_context := c;
  xr_execution_id := exe_execution_id e;
  xr_approval_id := exe_approval_id e;
  xr_tool_call_id := exe_tool_call_id e;
  xr_tool_name := exe_tool_name e;
  xr_tool_kind := exe_tool_kind e;
  xr_status := exe_execution_status e;
  xr_recovery_strategy := exe_recovery_strategy e;
  xr_idempotency_key := exe_idempotency_key e;
  xr_input_payload_json := exe_input_payload_json e;
  xr_input_hash := exe_input_hash e;
  xr_input_ref := "tool_execution:" +:+ exe_execution_id e +:+ ":input_payload_json";
  xr_external_request_id := exe_external_request_id e;
  xr_result_ref := exe_result_ref e;
  xr_result_digest := exe_result_digest e;
  xr_version := exe_version e;
|}.

Definition checkpoint_from_row (k : execution_checkpoint) : CheckpointRecord := {|
  cr_checkpoint_id := ckp_checkpoint_id k;
  cr_tenant_id := ckp_tenant_id k;
  cr_workspace_id := ckp_workspace_id k;
  cr_session_id := ckp_session_id k;
  cr_run_id := ckp_run_id k;
  cr_approval_id := ckp_approval_id k;
  cr_execution_id := ckp_execution_id k;
  cr_phase := ckp_phase k;
  cr_checkpoint_seq := ckp_checkpoint_seq k;
  cr_payload_json := ckp_payload_json k;
  cr_payload_hash := ckp_payload_hash k;
  cr_schema_version := ckp_schema_version k;
  cr_created_at := ckp_created_at k;
|}.

(** ** Queries *)

(** Row locks: transactions are atomic in the model, so a lock changes nothing. *)
Definition lock_run (c : TenantContext) : M unit := mret tt.
Definition lock_tenant (tenant_id : string) : M unit := mret tt.

Definition get_run (c : TenantContext) : M (option RunRecord) :=
  d ← gets w_db;
  match context_predicate d c with
  | None => mret None
  | Some r => rec ← run_from_row r; mret (Some rec)
  end.

(** [ORDER BY created_at DESC, run_id DESC]. *)
Definition run_newest_first (a b : agent_run) : bool :=
  Z.ltb (run_created_at b) (run_created_at a) ||
  (Z.eqb (run_created_at a) (run_created_at b) && String.leb (run_run_id b) (run_run_id a)).

Definition plan_run_rows (d : Db) (c : TenantContext) (session_id plan_id : string)
    : list agent_run :=
  sort_by run_newest_first
    (List.filter (λ r,
       bool_decide (run_tenant_id r = tc_tenant_id c) &&
       bool_decide (run_workspace_id r = tc_workspace_id c) &&
       bool_decide (run_session_id r = session_id) &&
       bool_decide (run_plan_id r = Some plan_id)) (rows (agent_runs d))).

Definition get_plan_run (c : TenantContext) (plan_id : string) : M (option RunRecord) :=
  match tc_session_id c with
  | None => throw (ValueError "session_id is required for Plan run lookup")
  | Some s =>
    d ← gets w_db;
    match plan_run_rows d c s plan_id with
    | [] => mret None
    | r :: _ => rec ← run_from_row r; mret (Some rec)
    end
  end.

Fixpoint runs_from_rows (l : list agent_run) : M (list RunRecord) :=
  match l with
  | [] => mret []
  | r :: l => rec ← run_from_row r; recs ← runs_from_rows l; mret (rec :: recs)
  end.

Definition list_plan_runs (c : TenantContext) (plan_id : string) : M (list RunRecord) :=
  match tc_session_id c with
  | None => throw (ValueError "session_id is required for Plan run lookup")
  | Some s => d ← gets w_db; runs_from_rows (plan_run_rows d c s plan_id)
  end.

Definition active_runs_of (tenant_id : string) (r : agent_run) : bool :=
  bool_decide (run_tenant_id r = tenant_id) && run_active r.

Definition count_active_runs (tenant_id : string) : M Z :=
  gets (λ w, count_rows (active_runs_of tenant_id) (agent_runs (w_db w))).

Definition get_runtime_counters (c : TenantContext) : M WorkflowRuntimeCounters :=
  d ← gets w_db;
  let scope r := bool_decide (run_tenant_id r = tc_tenant_id c) &&
                 bool_decide (run_workspace_id r = tc_workspace_id c) in
  let checkpointed r :=
    exists_row (λ k, bool_decide (checkpoint_scope k = run_scope r))
      (execution_checkpoints d) in
  mret {|
    active_run_count := count_rows (λ r, run_active r && scope r) (agent_runs d);
    active_executing_run_count :=
      count_rows (λ r, scope r &&
        bool_decide (run_run_status r ∈ [RUN_RUNNING; RUN_RESUMING])) (agent_runs d);
    awaiting_user_run_count :=
      count_rows (λ r, scope r && bool_decide (run_run_status r = RUN_AWAITING_USER))
        (agent_runs d);
    checkpointed_awaiting_user_run_count :=
      count_rows (λ r, scope r && bool_decide (run_run_status r = RUN_AWAITING_USER) &&
        checkpointed r) (agent_runs d);
  |}.

Definition plan_version_exists (c : TenantContext) (plan_id : string) (plan_version : Z)
    (content_digest : option string) : M bool :=
  d ← gets w_db;
  mret match tc_session_id c with
  | None => false
  | Some s =>
    match agent_plan_versions d !!
            (tc_tenant_id c, tc_workspace_id c, s, plan_id, plan_version) with
    | None => false
    | Some v =>
      match content_digest with
      | None => true
      | Some g => bool_decide (pv_content_digest v = g)
      end
    end
  end.

Definition has_nonterminal_execution (c : TenantContext) : M bool :=
  d ← gets w_db;
  mret (Z.ltb 0 (count_rows (λ e,
    in_scope c (execution_scope e) && negb (exec_terminal (exe_execution_status e)))
    (tool_executions d))).

Definition get_execution (c : TenantContext) (execution_id : string)
    : M (option ExecutionRecord) :=
  d ← gets w_db;
  mret (execution_from_row c <$> execution_scope_predicate d c execution_id).

Definition get_execution_recovery (c : TenantContext) (execution_id : string)
    : M (option ExecutionRecoveryRecord) :=
  d ← gets w_db;
  mret (execution_recovery_from_row c <$> execution_scope_predicate d c execution_id).

Definition get_execution_by_tool_call_id (c : TenantContext) (tool_call_id : string)
    : M (option ExecutionRecoveryRecord) :=
  d ← gets w_db;
  mret (execution_recovery_from_row c <$>
    List.find (λ e, in_scope c (execution_scope e) &&
                    bool_decide (exe_tool_call_id e = tool_call_id))
      (rows (tool_executions d))).

(** Without an ORDER BY the database may pick any matching row; the model takes the
    first in key order. *)
Definition get_execution_by_approval_id (c : TenantContext) (approval_id : string)
    : M (option ExecutionRecoveryRecord) :=
  d ← gets w_db;
  mret (execution_recovery_from_row c <$>
    List.find (λ e, in_scope c (execution_scope e) &&
                    bool_decide (exe_approval_id e = Some approval_id))
      (rows (tool_executions d))).

Definition get_approval (c : TenantContext) (approval_id : string)
    : M (option ApprovalRecord) :=
  d ← gets w_db;
  mret (approval_from_row c <$> approval_scope_predicate d c approval_id).

Definition get_workspace_approval (tenant_id workspace_id approval_id : string)
    : M (option ApprovalRecord) :=
  d ← gets w_db;
  match approval_requests d !! approval_id with
  | Some a =>
    if bool_decide (apr_tenant_id a = tenant_id) &&
       bool_decide (apr_workspace_id a = workspace_id)
    then c ← lift (post_init (MkTenantContext tenant_id workspace_id
                     (Some (apr_session_id a)) (Some (apr_run_id a)) 0));
         mret (Some (approval_from_row c a))
    else mret None
  | None => mret None
  end.

(** [ORDER BY checkpoint_seq DESC LIMIT 1]. *)
Definition latest_checkpoint_row (l : list execution_checkpoint)
    : option execution_checkpoint :=
  head (sort_by (λ a b, Z.leb (ckp_checkpoint_seq b) (ckp_checkpoint_seq a)) l).

Definition get_latest_checkpoint (c : TenantContext) : M (option CheckpointRecord) :=
  d ← gets w_db;
  mret (checkpoint_from_row <$> latest_checkpoint_row (checkpoint_scope_predicate d c)).

(** [max(checkpoint_seq)], NULL when there is no row. *)
Definition max_checkpoint_seq (l : list execution_checkpoint) : option Z :=
  foldr (λ k acc, Some match acc with
                       | None => ckp_checkpoint_seq k
                       | Some m => Z.max (ckp_checkpoint_seq k) m
                       end) None l.

Definition get_next_checkpoint_seq (c : TenantContext) : M Z :=
  d ← gets w_db;
  mret (default 0 (max_checkpoint_seq (checkpoint_scope_predicate d c)) + 1)%Z.

Definition has_current_lease `{Env} (lease : RunLease) : M bool :=
  now ← db_now_ms;
  d ← gets w_db;
  mret match context_predicate d (rl_context lease) with
  | Some r => current_lease_predicate lease now r
  | None => false
  end.

Definition lease_of_row (c : TenantContext) (r : agent_run) : M RunLease :=
  match run_lease_owner r, run_lease_expires_at r with
  | Some o, Some e =>
    mret {| rl_context := c; rl_lease_owner := o; rl_fencing_token := run_fencing_token r;
            rl_version := run_version r; rl_lease_expires_at := e |}
  | _, _ => throw (TypeError "int() argument must not be None")
  end.

Definition get_live_lease `{Env} (c : TenantContext) (lease_owner : string)
    : M (option RunLease) :=
  now ← db_now_ms;
  d ← gets w_db;
  match context_predicate d c with
  | Some r =>
    if bool_decide (run_lease_owner r = Some lease_owner) &&
       expires_after (run_lease_expires_at r) now
    then l ← lease_of_row c r; mret (Some l)
    else mret None
  | None => mret None
  end.

Definition require_lease (c : TenantContext) (lease_owner : string)
    (fencing_token version : Z) : M RunLease :=
  d ← gets w_db;
  match context_predicate d c with
  | Some r =>
    if bool_decide (run_lease_owner r = Some lease_owner) &&
       bool_decide (run_fencing_token r = fencing_token) &&
       bool_decide (run_version r = version)
    then lease_of_row c r
    else throw NoResultFound
  | None => throw NoResultFound
  end.

(** ** Run leases *)

(** A value for a NOT NULL column. *)
Definition not_null (table : string) (v : option string) : M string :=
  match v with
  | Some s => mret s
  | None => throw (IntegrityError (ConstraintFailed table))
  end.

Definition create_run `{Env} (repo : WorkflowRepository) (c : TenantContext)
    (runtime_instance_id : string) (status : RunStatus) (plan_id : option string)
    (initial_plan_version active_plan_version : option Z) : M RunLease :=
  require (plan_binding_complete plan_id initial_plan_version active_plan_version)
    (ValueError "Plan run binding must be complete") ;;
  now ← db_now_ms;
  rid ← not_null "agent_runs" (tc_run_id c);
  sid ← not_null "agent_runs" (tc_session_id c);
  insert_agent_runs {|
    run_run_id := rid;
    run_tenant_id := tc_tenant_id c;
    run_workspace_id := tc_workspace_id c;
    run_session_id := sid;
    run_plan_id := plan_id;
    run_initial_plan_version := initial_plan_version;
    run_active_plan_version := active_plan_version;
    run_cancel_requested_at := None;
    run_run_status := status;
    run_runtime_instance_id := Some runtime_instance_id;
    run_lease_owner := Some runtime_instance_id;
    run_fencing_token := 1;
    run_lease_expires_at := Some (now + repo_lease_ttl_ms repo)%Z;
    run_heartbeat_at := Some now;
    run_schema_version := 1;
    run_version := 1;
    run_created_at := now;
    run_updated_at := now;
    run_finished_at := None |} ;;
  require_lease c runtime_instance_id 1 1.

(** The columns that every claim of a run's lease by an instance sets. *)
Definition claim_columns (repo : WorkflowRepository) (runtime_instance_id : string)
    (now : Z) (r : agent_run) : agent_run :=
  r <| run_runtime_instance_id := Some runtime_instance_id |>
    <| run_lease_owner := Some runtime_instance_id |>
    <| run_fencing_token := (run_fencing_token r + 1)%Z |>
    <| run_version := (run_version r + 1)%Z |>
    <| run_heartbeat_at := Some now |>
    <| run_lease_expires_at := Some (now + repo_lease_ttl_ms repo)%Z |>
    <| run_updated_at := now |>.

(** [if result.rowcount != 1: return None] and the lease with the next tokens. *)
Definition claimed (c : TenantContext) (runtime_instance_id : string)
    (current : RunRecord) (rowcount : Z) : M (option RunLease) :=
  if bool_decide (rowcount ≠ 1%Z) then mret None else
  l ← require_lease c runtime_instance_id
        (rr_fencing_token current + 1)%Z (rr_version current + 1)%Z;
  mret (Some l).

Definition take_over_run `{Env} (repo : WorkflowRepository) (c : TenantContext)
    (runtime_instance_id : string) : M (option RunLease) :=
  lock_run c ;;
  current ← get_run c;
  match current with
  | None => mret None
  | Some current =>
    require (bool_decide (rr_status current ∈ TAKEOVER_ELIGIBLE_STATUSES))
      (InvalidTransitionError
        ("cannot acquire terminal run: " +:+ enum_value (rr_status current))) ;;
    match rr_lease_expires_at current with
    | None => mret None
    | Some _ =>
      n ← update_agent_runs c (λ now r, expired_by (run_lease_expires_at r) now)
            (claim_columns repo runtime_instance_id);
      claimed c runtime_instance_id current n
    end
  end.

Definition resume_waiting_run `{Env} (repo : WorkflowRepository) (c : TenantContext)
    (runtime_instance_id : string) : M (option RunLease) :=
  lock_run c ;;
  current ← get_run c;
  match current with
  | None => mret None
  | Some current =>
    if bool_decide (rr_status current ≠ RUN_AWAITING_USER) then mret None else
    n ← update_agent_runs c
          (λ _ r, bool_decide (run_run_status r = RUN_AWAITING_USER))
          (λ now r, claim_columns repo runtime_instance_id now r
                      <| run_run_status := RUN_RESUMING |>);
    claimed c runtime_instance_id current n
  end.

(** The guard the three operations on a waiting Plan run share. *)
Definition waiting_plan_run (c : TenantContext) (plan_id : string) (plan_version : Z)
    (plan_digest : option string) (expected_run_version : Z) : M (option RunRecord) :=
  lock_run c ;;
  current ← get_run c;
  match current with
  | None => mret None
  | Some current =>
    if bool_decide (rr_status current ≠ RUN_AWAITING_USER) ||
       bool_decide (rr_plan_id current ≠ Some plan_id) ||
       bool_decide (rr_version current ≠ expected_run_version)
    then mret None else
    present ← plan_version_exists c plan_id plan_version plan_digest;
    mret (if present : bool then Some current else None)
  end.

Definition waiting_plan_where (plan_id : string) (expected_run_version : Z)
    (_ : Z) (r : agent_run) : bool :=
  bool_decide (run_run_status r = RUN_AWAITING_USER) &&
  bool_decide (run_plan_id r = Some plan_id) &&
  bool_decide (run_version r = expected_run_version).

(** The new [active_plan_version] names a stored version and the binding is complete
    by [get_run], so this UPDATE cannot violate a constraint of the table. *)
Definition resume_waiting_plan_run `{Env} (repo : WorkflowRepository) (c : TenantContext)
    (runtime_instance_id plan_id : string) (plan_version expected_run_version : Z)
    : M (option RunLease) :=
  current ← waiting_plan_run c plan_id plan_version None expected_run_version;
  match current with
  | None => mret None
  | Some current =>
    n ← update_agent_runs c (waiting_plan_where plan_id expected_run_version)
          (λ now r, claim_columns repo runtime_instance_id now r
                      <| run_run_status := RUN_RESUMING |>
                      <| run_active_plan_version := Some plan_version |>);
    claimed c runtime_instance_id current n
  end.

Definition fence_waiting_plan_run `{Env} (repo : WorkflowRepository) (c : TenantContext)
    (runtime_instance_id plan_id : string) (plan_version : Z) (plan_digest : string)
    (expected_run_version : Z) : M (option RunLease) :=
  current ← waiting_plan_run c plan_id plan_version (Some plan_digest)
              expected_run_version;
  match current with
  | None => mret None
  | Some current =>
    n ← update_agent_runs c (waiting_plan_where plan_id expected_run_version)
          (claim_columns repo runtime_instance_id);
    claimed c runtime_instance_id current n
  end.

Definition cancel_waiting_plan_run `{Env} (repo : WorkflowRepository) (c : TenantContext)
    (runtime_instance_id plan_id : string) (plan_version expected_run_version : Z)
    : M (option RunLease) :=
  current ← waiting_plan_run c plan_id plan_version None expected_run_version;
  match current with
  | None => mret None
  | Some current =>
    n ← update_agent_runs c (waiting_plan_where plan_id expected_run_version)
          (λ now r, claim_columns repo runtime_instance_id now r
                      <| run_run_status := RUN_CANCELLED |>
                      <| run_finished_at := Some now |>);
    claimed c runtime_instance_id current n
  end.

(** [coalesce(cancel_requested_at, now)] and, for a waiting run, the cancellation. *)
Definition cancellation_columns (repo : WorkflowRepository) (waiting : bool) (now : Z)
    (r : agent_run) : agent_run :=
  let r' := r <| run_cancel_requested_at := Some (default now (run_cancel_requested_at r)) |>
              <| run_updated_at := now |>
              <| run_version := (run_version r + 1)%Z |> in
  if waiting
  then r' <| run_run_status := RUN_CANCELLED |>
          <| run_heartbeat_at := Some now |>
          <| run_lease_expires_at := Some (now + repo_lease_ttl_ms repo)%Z |>
          <| run_finished_at := Some now |>
  else r'.

Definition request_cancellation `{Env} (repo : WorkflowRepository) (c : TenantContext)
    : M (option RunRecord) :=
  lock_run c ;;
  current ← get_run c;
  match current with
  | None => mret None
  | Some current =>
    if run_terminal (rr_status current) then mret (Some current) else
    if bool_decide (is_Some (rr_cancel_requested_at current))
    then mret (Some current) else
    _ ← update_agent_runs c
          (λ _ r, bool_decide (run_version r = rr_version current) &&
                  bool_decide (run_run_status r = rr_status current))
          (cancellation_columns repo
             (bool_decide (rr_status current = RUN_AWAITING_USER)));
    get_run c
  end.

Definition refresh_columns (repo : WorkflowRepository) (now : Z) (r : agent_run)
    : agent_run :=
  r <| run_heartbeat_at := Some now |>
    <| run_lease_expires_at := Some (now + repo_lease_ttl_ms repo)%Z |>
    <| run_updated_at := now |>
    <| run_version := (run_version r + 1)%Z |>.

(** The lease after an UPDATE that keeps the owner and the fencing token. *)
Definition renewed (lease : RunLease) (rowcount : Z) : M (option RunLease) :=
  if bool_decide (rowcount ≠ 1%Z) then mret None else
  l ← require_lease (rl_context lease) (rl_lease_owner lease)
        (rl_fencing_token lease) (rl_version lease + 1)%Z;
  mret (Some l).

Definition refresh_lease `{Env} (repo : WorkflowRepository) (lease : RunLease)
    : M (option RunLease) :=
  n ← update_agent_runs (rl_context lease) (current_lease_predicate lease)
        (refresh_columns repo);
  renewed lease n.

Definition validate_run_transition (current : RunRecord) (lease : RunLease)
    (target : RunStatus) : M unit :=
  require (bool_decide (rr_lease_owner current = Some (rl_lease_owner lease)) &&
           bool_decide (rr_fencing_token current = rl_fencing_token lease))
    (InvalidTransitionError "run lease no longer current") ;;
  require (bool_decide (rr_version current = rl_version lease))
    (InvalidTransitionError "run version no longer current") ;;
  require (bool_decide (target ∈ LEGAL_RUN_TRANSITIONS (rr_status current)))
    (InvalidTransitionError
      ("illegal run transition: " +:+ enum_value (rr_status current) +:+ " -> " +:+
       enum_value target)).

Definition transition_columns (repo : WorkflowRepository) (target : RunStatus) (now : Z)
    (r : agent_run) : agent_run :=
  let r' := refresh_columns repo now r <| run_run_status := target |> in
  if run_terminal target then r' <| run_finished_at := Some now |> else r'.

Definition transition_run `{Env} (repo : WorkflowRepository) (lease : RunLease)
    (target : RunStatus) : M (option RunLease) :=
  lock_run (rl_context lease) ;;
  current ← get_run (rl_context lease);
  match current with
  | None => mret None
  | Some current =>
    validate_run_transition current lease target ;;
    n ← update_agent_runs (rl_context lease) (current_lease_predicate lease)
          (transition_columns repo target);
    renewed lease n
  end.

(** ** Approvals *)

Definition mark_approval_expired `{Env} (c : TenantContext) (approval_id : string)
    (version : Z) : M bool :=
  n ← update_approval_requests c approval_id
        (λ now a, bool_decide (apr_approval_status a = APPROVAL_AWAITING_USER) &&
                  bool_decide (apr_version a = version) &&
                  Z.leb (apr_expires_at a) now)
        (λ now a, a <| apr_approval_status := APPROVAL_EXPIRED |>
                    <| apr_resolved_at := Some now |>
                    <| apr_version := (apr_version a + 1)%Z |>);
  mret (Z.eqb n 1).

(** [assert row is not None; return row]. *)
Definition assert_some {A} (v : option A) : M A :=
  match v with Some a => mret a | None => throw AssertionError end.

Definition resolve_approval `{Env} (c : TenantContext) (approval_id : string)
    (approved : bool) (version : Z) : M (option ApprovalRecord) :=
  let target := if approved then APPROVAL_APPROVED else APPROVAL_REJECTED in
  n ← update_approval_requests c approval_id
        (λ now a, bool_decide (apr_approval_status a = APPROVAL_AWAITING_USER) &&
                  bool_decide (apr_version a = version) &&
                  Z.ltb now (apr_expires_at a))
        (λ now a, a <| apr_approval_status := target |>
                    <| apr_resolved_at := Some now |>
                    <| apr_version := (apr_version a + 1)%Z |>);
  if bool_decide (n ≠ 1%Z) then mret None else
  resolved ← get_approval c approval_id;
  row ← assert_some resolved;
  mret (Some row).

(** [expires_at] is an SQL value: a number, or an expression in the clock of the insert. *)
Definition insert_approval `{Env} (lease : RunLease) (approval_id tool_call_id : string)
    (expires_at : Z → Z) : M (option ApprovalRecord) :=
  let c := rl_context lease in
  lock_run c ;;
  current ← has_current_lease lease;
  if negb current then mret None else
  now ← db_now_ms;
  sid ← not_null "approval_requests" (tc_session_id c);
  rid ← not_null "approval_requests" (tc_run_id c);
  insert_approval_requests {|
    apr_approval_id := approval_id;
    apr_tenant_id := tc_tenant_id c;
    apr_workspace_id := tc_workspace_id c;
    apr_session_id := sid;
    apr_run_id := rid;
    apr_tool_call_id := tool_call_id;
    apr_approval_status := APPROVAL_AWAITING_USER;
    apr_requested_at := now;
    apr_resolved_at := None;
    apr_expires_at := expires_at now;
    apr_version := 1 |} ;;
  inserted ← get_approval c approval_id;
  row ← assert_some inserted;
  mret (Some row).

(** ** Tool executions *)

(** SQL [LIKE] as SQLite evaluates it: [%] matches any run of characters, [_] one
    character (a lead byte and its continuation bytes), ASCII letters match either
    case, and there is no escape character. *)
Fixpoint drop_continuation (s : list ascii) : list ascii :=
  match s with
  | c :: s' => if utf8_continuation c then drop_continuation s' else s
  | [] => []
  end.

Fixpoint like (pattern s : list ascii) {struct pattern} : bool :=
  match pattern with
  | [] => match s with [] => true | _ => false end
  | "%"%char :: p =>
    (fix any (s : list ascii) : bool :=
       like p s || match s with [] => false | _ :: s' => any s' end) s
  | "_"%char :: p =>
    match s with [] => false | _ :: s' => like p (drop_continuation s') end
  | c :: p =>
    match s with
    | [] => false
    | x :: s' => Ascii.eqb (ascii_lower c) (ascii_lower x) && like p s'
    end
  end.

Definition round_counter_pattern (run_id : option string) : string :=
  "%" +:+ ch DQUOTE +:+ "run_id" +:+ ch DQUOTE +:+ ":" +:+ ch DQUOTE +:+
  default "None" run_id +:+ ch DQUOTE +:+ "%".

Definition is_round_counter (c : TenantContext) (m : memory_entry) : bool :=
  bool_decide (mem_tenant_id m = tc_tenant_id c) &&
  bool_decide (mem_workspace_id m = tc_workspace_id c) &&
  bool_decide (mem_session_id m = tc_session_id c) &&
  bool_decide (mem_type m = "plan_round_counter") &&
  like (String.list_ascii_of_string (round_counter_pattern (tc_run_id c)))
    (String.list_ascii_of_string (mem_metadata_json m)).

(** Rounds a Plan run has used: generated rounds in the ledger plus executions. *)
Definition plan_rounds_used (d : Db) (c : TenantContext) : Z :=
  (count_rows (is_round_counter c) (memory_entries d) +
   count_rows (λ e, in_scope c (execution_scope e)) (tool_executions d))%Z.

Definition check_plan_round_budget (repo : WorkflowRepository) (c : TenantContext)
    : M unit :=
  match repo_plan_round_budget repo with
  | None => mret tt
  | Some budget =>
    d ← gets w_db;
    match context_predicate d c ≫= run_plan_id with
    | None => mret tt
    | Some _ =>
      require (bool_decide (plan_rounds_used d c < budget)%Z)
        (PlanRoundBudgetExceeded "Plan round budget exceeded")
    end
  end.

Record ExecutionInput : Type := MkExecutionInput {
  xi_execution_id : string;
  xi_approval_id : option string;
  xi_tool_call_id : string;
  xi_tool_name : string;
  xi_tool_kind : string;
  xi_recovery_strategy : RecoveryStrategy;
  xi_idempotency_key : option string;
  xi_input_payload_json : string;
  xi_input_hash : string;
  xi_status : ExecutionStatus;
}.

Definition execution_row (c : TenantContext) (sid rid : string) (i : ExecutionInput)
    (now : Z) : tool_execution := {|
  exe_execution_id := xi_execution_id i;
  exe_tenant_id := tc_tenant_id c;
  exe_workspace_id := tc_workspace_id c;
  exe_session_id := sid;
  exe_run_id := rid;
  exe_approval_id := xi_approval_id i;
  exe_tool_call_id := xi_tool_call_id i;
  exe_tool_name := xi_tool_name i;
  exe_tool_kind := xi_tool_kind i;
  exe_execution_status := xi_status i;
  exe_recovery_strategy := xi_recovery_strategy i;
  exe_idempotency_key := xi_idempotency_key i;
  exe_input_payload_json := xi_input_payload_json i;
  exe_input_hash := xi_input_hash i;
  exe_external_request_id := None;
  exe_result_ref := None;
  exe_result_digest := None;
  exe_schema_version := 1;
  exe_version := 1;
  exe_created_at := now;
  exe_updated_at := now;
  exe_finished_at := None;
|}.

(** The [NOT EXISTS] subquery that serialises the executions of a run. *)
Definition open_execution (c : TenantContext) (d : Db) : bool :=
  exists_row (λ e, in_scope c (execution_scope e) &&
                   bool_decide (exe_execution_status e ∈ NONTERMINAL_EXECUTION_STATUSES))
    (tool_executions d).

Definition insert_execution `{Env} (repo : WorkflowRepository) (lease : RunLease)
    (i : ExecutionInput) : M (option ExecutionRecord) :=
  let c := rl_context lease in
  lock_run c ;;
  current ← has_current_lease lease;
  if negb current then mret None else
  check_plan_round_budget repo c ;;
  now ← db_now_ms;
  d ← gets w_db;
  if open_execution c d then mret None else
  sid ← not_null "tool_executions" (tc_session_id c);
  rid ← not_null "tool_executions" (tc_run_id c);
  insert_tool_executions (execution_row c sid rid i now) ;;
  inserted ← get_execution c (xi_execution_id i);
  row ← assert_some inserted;
  mret (Some row).

(** [EXISTS (SELECT 1 FROM agent_runs WHERE current_lease_predicate(lease))]. *)
Definition lease_exists (lease : RunLease) (d : Db) (now : Z) : bool :=
  match context_predicate d (rl_context lease) with
  | Some r => current_lease_predicate lease now r
  | None => false
  end.

Definition set_execution_status (target : ExecutionStatus) (now : Z) (e : tool_execution)
    : tool_execution :=
  let e' := e <| exe_execution_status := target |> in
  if exec_terminal target then e' <| exe_finished_at := Some now |> else e'.

Definition touch_execution (now : Z) (e : tool_execution) : tool_execution :=
  e <| exe_updated_at := now |> <| exe_version := (exe_version e + 1)%Z |>.

Definition illegal_execution_transition (source target : ExecutionStatus) : exn :=
  InvalidTransitionError
    ("illegal execution transition: " +:+ enum_value source +:+ " -> " +:+
     enum_value target).

Definition transition_execution `{Env} (lease : RunLease) (execution_id : string)
    (expected_status : ExecutionStatus) (expected_version : Z) (target : ExecutionStatus)
    : M (option ExecutionRecord) :=
  let c := rl_context lease in
  require (bool_decide (target ∈ LEGAL_EXECUTION_TRANSITIONS expected_status))
    (illegal_execution_transition expected_status target) ;;
  lock_run c ;;
  current ← has_current_lease lease;
  if negb current then mret None else
  n ← update_tool_executions c execution_id
        (λ d now e, bool_decide (exe_execution_status e = expected_status) &&
                    bool_decide (exe_version e = expected_version) &&
                    lease_exists lease d now)
        (λ now e, set_execution_status target now (touch_execution now e));
  if bool_decide (n ≠ 1%Z) then mret None else
  transitioned ← get_execution c execution_id;
  row ← assert_some transitioned;
  mret (Some row).

(** A write-once column: NULL or already the value given; absent values match. *)
Definition write_once (stored given : option string) : bool :=
  match given with
  | None => true
  | Some _ => bool_decide (stored = None) || bool_decide (stored = given)
  end.

(** [values[col] = given] only when a value is given. *)
Definition overwrite (given stored : option string) : option string :=
  match given with Some _ => given | None => stored end.

Record ExecutionMetadata : Type := MkExecutionMetadata {
  xm_external_request_id : option string;
  xm_result_ref : option string;
  xm_result_digest : option string;
  xm_target_status : option ExecutionStatus;
}.

Definition metadata_columns (m : ExecutionMetadata) (now : Z) (e : tool_execution)
    : tool_execution :=
  let e' := touch_execution now e
    <| exe_external_request_id :=
         overwrite (xm_external_request_id m) (exe_external_request_id e) |>
    <| exe_result_ref := overwrite (xm_result_ref m) (exe_result_ref e) |>
    <| exe_result_digest := overwrite (xm_result_digest m) (exe_result_digest e) |> in
  match xm_target_status m with
  | None => e'
  | Some t => set_execution_status t now e'
  end.

Definition update_execution_metadata `{Env} (lease : RunLease) (execution_id : string)
    (expected_status : ExecutionStatus) (expected_version : Z) (m : ExecutionMetadata)
    : M (option ExecutionRecoveryRecord) :=
  let c := rl_context lease in
  lock_run c ;;
  current ← has_current_lease lease;
  if negb current then mret None else
  match xm_target_status m with
  | None => mret tt
  | Some t => require (bool_decide (t ∈ LEGAL_EXECUTION_TRANSITIONS expected_status))
                (illegal_execution_transition expected_status t)
  end ;;
  n ← update_tool_executions c execution_id
        (λ d now e, bool_decide (exe_execution_status e = expected_status) &&
                    bool_decide (exe_version e = expected_version) &&
                    lease_exists lease d now &&
                    write_once (exe_external_request_id e) (xm_external_request_id m) &&
                    write_once (exe_result_ref e) (xm_result_ref m) &&
                    write_once (exe_result_digest e) (xm_result_digest m))
        (metadata_columns m);
  if bool_decide (n ≠ 1%Z) then mret None else
  updated ← get_execution_recovery c execution_id;
  row ← assert_some updated;
  mret (Some row).

(** ** Checkpoints and the audit log *)

(** [given is None or actual == given]. *)
Definition expected {A} `{EqDecision A} (given : option A) (actual : A) : bool :=
  match given with None => true | Some g => bool_decide (actual = g) end.

Record CheckpointInput : Type := MkCheckpointInput {
  ci_checkpoint_id : string;
  ci_checkpoint_seq : option Z;
  ci_phase : string;
  ci_payload_json : string;
  ci_payload_hash : string;
  ci_schema_version : Z;
  ci_approval_id : option string;
  ci_execution_id : option string;
  ci_expected_execution_status : option ExecutionStatus;
  ci_expected_execution_version : option Z;
}.

Definition check_checkpoint_execution (c : TenantContext) (i : CheckpointInput) : M unit :=
  match ci_execution_id i with
  | None => mret tt
  | Some eid =>
    execution ← get_execution_recovery c eid;
    match execution with
    | None => throw (VersionConflictError "execution record not found")
    | Some x =>
      require (bool_decide (ci_approval_id i = xr_approval_id x))
        (VersionConflictError "execution approval scope conflict") ;;
      require (expected (ci_expected_execution_status i) (xr_status x))
        (VersionConflictError "execution status conflict") ;;
      require (expected (ci_expected_execution_version i) (xr_version x))
        (VersionConflictError "execution version conflict")
    end
  end.

Definition insert_checkpoint `{Env} (lease : RunLease) (i : CheckpointInput)
    : M (option Z) :=
  let c := rl_context lease in
  lock_run c ;;
  current ← has_current_lease lease;
  if negb current then mret None else
  check_checkpoint_execution c i ;;
  seq ← match ci_checkpoint_seq i with
        | Some s => mret s
        | None => get_next_checkpoint_seq c
        end;
  now ← db_now_ms;
  sid ← not_null "execution_checkpoints" (tc_session_id c);
  rid ← not_null "execution_checkpoints" (tc_run_id c);
  insert_execution_checkpoints {|
    ckp_checkpoint_id := ci_checkpoint_id i;
    ckp_tenant_id := tc_tenant_id c;
    ckp_workspace_id := tc_workspace_id c;
    ckp_session_id := sid;
    ckp_run_id := rid;
    ckp_approval_id := ci_approval_id i;
    ckp_execution_id := ci_execution_id i;
    ckp_phase := ci_phase i;
    ckp_checkpoint_seq := seq;
    ckp_payload_json := ci_payload_json i;
    ckp_payload_hash := ci_payload_hash i;
    ckp_schema_version := ci_schema_version i;
    ckp_created_at := now |} ;;
  mret (Some seq).

Definition insert_audit_log `{Env} (c : TenantContext) (event_type status : string)
    (tool_name : option string) (detail_redacted : string)
    (approval_id execution_id : option string) : M unit :=
  audit_id ← uuid4;
  now ← db_now_ms;
  insert_audit_logs {|
    aud_audit_id := audit_id;
    aud_tenant_id := tc_tenant_id c;
    aud_workspace_id := tc_workspace_id c;
    aud_session_id := tc_session_id c;
    aud_run_id := tc_run_id c;
    aud_approval_id := approval_id;
    aud_execution_id := execution_id;
    aud_event_type := event_type;
    aud_status := status;
    aud_tool_name := tool_name;
    aud_detail_redacted := detail_redacted;
    aud_created_at := now |}.
