(* ===== verification/PlanRepository.v ===== *)
(** * The Plan repository: versions and decisions ([storage/repositories/plans.py])

    A repository is bound to a tenant context and the planning settings.  A write that
    needs several statements runs in a savepoint, which puts the database back when it
    fails.  Decisions are claimed by an aggregate version: approving and rejecting move
    the Plan at once, a revision claims the version first, appends the revised content and
    then finishes the claim.  The claims of a transaction live beside the database, in the
    transaction's own state, and a transaction does not commit while one is open. *)

From S2P Require Import Prelude Records Errors Json Tenancy WorkflowModels Storage.
From S2P Require Import PlanStorage Regex Checkpoint PlanValidation PlanSpec PlanRecords.
From S2P Require Import PlanReading WorkflowRepository.
From stdpp Require Import base gmap strings list.

(** ** Savepoints *)

(** [begin_nested] around [m]: an exception that the code rolls back on puts the tables
    back, any other one leaves them to the enclosing transaction. *)
Definition savepoint {A} (rolls_back : exn → bool) (m : M A) : M A := λ w,
  match m w with
  | (Ok a, w') => (Ok a, w')
  | (Err e, w') => (Err e, if rolls_back e then rollback w w' else w')
  end.

Definition any_exception (e : exn) : bool := true.

Definition is_integrity_error (e : exn) : bool :=
  match e with IntegrityError _ => true | _ => false end.

(** ** What a repository is asked *)

Record PlanDecisionRequest : Type := MkPlanDecisionRequest {
  req_decision_id : string;
  req_plan_id : string;
  req_plan_version : Z;
  req_expected_version : Z;
  req_action : PlanDecisionAction;
  req_feedback : option string;
}.

(** [not text.strip()]. *)
Definition blank (s : string) : bool := forallb is_space (Regex.decode s).

Definition PlanDecisionRequest_ok (r : PlanDecisionRequest) : bool :=
  str_between 1 128 (req_decision_id r) && str_between 36 36 (req_plan_id r) &&
  Z.leb 1 (req_plan_version r) && Z.leb 1 (req_expected_version r) &&
  match req_action r, req_feedback r with
  | DECIDE_REVISE, Some f => str_between 0 8000 f && negb (blank f)
  | DECIDE_REVISE, None => false
  | _, None => true
  | _, Some _ => false
  end.

Record PlanDecisionMutationResult : Type := MkPlanDecisionMutationResult {
  dmr_snapshot : PlanSnapshot;
  dmr_decision : PlanDecisionRecord;
  dmr_idempotent_replay : bool;
}.

Record PlanSummary : Type := MkPlanSummary {
  sum_plan_id : string;
  sum_session_id : string;
  sum_status : PlanStatus;
  sum_current_version : Z;
  sum_approved_version : option Z;
  sum_aggregate_version : Z;
  sum_latest_run_id : option string;
  sum_latest_run_status : option RunStatus;
}.

(** ** Statements *)

(** [UPDATE agent_plans SET set_ WHERE _plan_predicate AND where_]. *)
Definition update_agent_plans (k : plan_key) (where_ : agent_plan → bool)
    (set_ : agent_plan → agent_plan) : M Z :=
  d ← gets w_db;
  match plan_predicate d k with
  | Some p =>
    if where_ p
    then check_constraints (agent_plans_checks (set_ p)) ;;
         set_db (d <| agent_plans := <[pl_id p := set_ p]> (agent_plans d) |>) ;;
         mret 1%Z
    else mret 0%Z
  | None => mret 0%Z
  end.

Definition decision_predicate (d : Db) (k : plan_key) (decision_id : string)
    : option agent_plan_decision := agent_plan_decisions d !! (k, decision_id).

(** [UPDATE agent_plan_decisions SET set_ WHERE ... decision_id AND where_]. *)
Definition update_agent_plan_decisions (k : plan_key) (decision_id : string)
    (where_ : agent_plan_decision → bool)
    (set_ : agent_plan_decision → agent_plan_decision) : M Z :=
  d ← gets w_db;
  match decision_predicate d k decision_id with
  | Some x =>
    if where_ x
    then check_constraints (agent_plan_decisions_checks (set_ x) ++
                            agent_plan_decisions_references d (set_ x)) ;;
         set_db (d <| agent_plan_decisions :=
                        <[(k, decision_id) := set_ x]> (agent_plan_decisions d) |>) ;;
         mret 1%Z
    else mret 0%Z
  | None => mret 0%Z
  end.

(** One [INSERT] per row. *)
Fixpoint insert_each {A} (ins : A → M unit) (l : list A) : M unit :=
  match l with
  | [] => mret tt
  | x :: l => ins x ;; insert_each ins l
  end.

(** The tenant context of a Plan that may be in any session of the tenant. *)
Definition locate_context (tenant_id plan_id : string) : M TenantContext :=
  d ← gets w_db;
  match agent_plans d !! plan_id with
  | Some p =>
    if bool_decide (pl_tenant_id p = tenant_id)
    then lift (post_init {| tc_tenant_id := tenant_id;
                            tc_workspace_id := pl_workspace_id p;
                            tc_session_id := Some (pl_session_id p);
                            tc_run_id := None;
                            tc_request_started_at_ms := 0 |})
    else throw (PlanNotFoundError "Plan not found")
  | None => throw (PlanNotFoundError "Plan not found")
  end.

Section Repository.
Context `{Env}.
Context (ctx : TenantContext) (settings : PlanningSettings).

Definition require_session : M string :=
  match tc_session_id ctx with
  | Some s => mret s
  | None => throw (ValueError "PlanRepository requires session scope")
  end.

Definition scoped (session_id plan_id : string) : plan_key :=
  (tc_tenant_id ctx, tc_workspace_id ctx, session_id, plan_id).

(** ** Reading *)

Definition get_plan (plan_id : string) : M (option PlanSnapshot) :=
  sid ← require_session;
  d ← gets w_db;
  match plan_predicate d (scoped sid plan_id) with
  | None => mret None
  | Some p => s ← lift (read_plan ctx d (scoped sid plan_id) p); mret (Some s)
  end.

Definition lock_plan (plan_id : string) : M PlanSnapshot :=
  sid ← require_session;
  d ← gets w_db;
  match plan_predicate d (scoped sid plan_id) with
  | None => throw (PlanNotFoundError "Plan not found")
  | Some _ =>
    latest ← get_plan plan_id;
    match latest with
    | None => throw (PlanNotFoundError "Plan not found")
    | Some s => mret s
    end
  end.

Definition lock_aggregate (plan_id : string) : M PlanSnapshot := lock_plan plan_id.

(** [ORDER BY created_at DESC, id DESC]. *)
Definition plan_newest_first (a b : agent_plan) : bool :=
  Z.ltb (pl_created_at b) (pl_created_at a) ||
  (Z.eqb (pl_created_at a) (pl_created_at b) && String.leb (pl_id b) (pl_id a)).

(** The run of rank one in its Plan: the newest, by creation and then by id. *)
Definition latest_run (d : Db) (session_id plan_id : string) : option agent_run :=
  head (plan_run_rows d ctx session_id plan_id).

Definition list_for_session : M (list PlanSummary) :=
  sid ← require_session;
  d ← gets w_db;
  let in_session := λ p, bool_decide (pl_tenant_id p = tc_tenant_id ctx) &&
                         bool_decide (pl_workspace_id p = tc_workspace_id ctx) &&
                         bool_decide (pl_session_id p = sid) in
  mret (map (λ p, {|
    sum_plan_id := pl_id p;
    sum_session_id := pl_session_id p;
    sum_status := pl_status p;
    sum_current_version := pl_current_version p;
    sum_approved_version := pl_approved_version p;
    sum_aggregate_version := pl_version p;
    sum_latest_run_id := run_run_id <$> latest_run d sid (pl_id p);
    sum_latest_run_status := run_run_status <$> latest_run d sid (pl_id p) |})
    (sort_by plan_newest_first (List.filter in_session (rows (agent_plans d))))).

(** ** Versions *)

(** [{step.logical_step_key: str(uuid4()) for step in validated.steps}]. *)
Fixpoint draw_step_ids (l : list ValidatedPlanStep) (ids : gmap string string)
    : M (gmap string string) :=
  match l with
  | [] => mret ids
  | s :: l => i ← uuid4; draw_step_ids l (<[logical_step_key s := i]> ids)
  end.

Definition step_id_of (ids : gmap string string) (key : string) : result exn string :=
  match ids !! key with Some i => Ok i | None => Err KeyError end.

Definition version_row (k : plan_key) (plan_version : Z) (validated : ValidatedPlanDraft)
    (parent_version : option Z) (revision_feedback : option string) (created_at : Z)
    : agent_plan_version :=
  let '(t, w, s, p) := k in {|
    pv_tenant_id := t;
    pv_workspace_id := w;
    pv_session_id := s;
    pv_plan_id := p;
    pv_plan_version := plan_version;
    pv_objective := objective validated;
    pv_constraints_json := print_json (JArr (map JStr (constraints validated)));
    pv_generation_reason := generation_reason validated;
    pv_parent_version := parent_version;
    pv_revision_feedback := revision_feedback;
    pv_schema_version := 1;
    pv_content_digest := plan_content_digest validated;
    pv_created_at := created_at;
  |}.

Definition step_row (k : plan_key) (plan_version : Z) (supersedes : gmap string string)
    (step_id : string) (step : ValidatedPlanStep) : agent_plan_step :=
  let '(t, w, s, p) := k in {|
    ste_tenant_id := t;
    ste_workspace_id := w;
    ste_session_id := s;
    ste_plan_id := p;
    ste_plan_version := plan_version;
    ste_step_id := step_id;
    ste_logical_step_key := logical_step_key step;
    ste_supersedes_step_id := supersedes !! logical_step_key step;
    ste_ordinal := ordinal step;
    ste_title := title step;
    ste_description := description step;
    ste_expected_outcome := expected_outcome step;
    ste_assigned_agent_profile_id := None;
    ste_max_attempts := max_attempts step;
    ste_definition_digest := step_definition_digest step;
  |}.

Definition dependency_row (k : plan_key) (plan_version : Z) (ij : string * string)
    : agent_plan_step_dependency :=
  let '(t, w, s, p) := k in {|
    dep_tenant_id := t;
    dep_workspace_id := w;
    dep_session_id := s;
    dep_plan_id := p;
    dep_plan_version := plan_version;
    dep_step_id := ij.1;
    dep_depends_on_step_id := ij.2;
  |}.

Definition step_rows (k : plan_key) (plan_version : Z) (supersedes ids : gmap string string)
    (l : list ValidatedPlanStep) : result exn (list agent_plan_step) :=
  mapM (λ s, i ← step_id_of ids (logical_step_key (vps_step s));
             Ok (step_row k plan_version supersedes i s)) l.

(** (step, dependency) for every dependency of every step. *)
Definition dependency_pairs (l : list ValidatedPlanStep) : list (string * string) :=
  concat (map (λ s, map (λ x, (logical_step_key (vps_step s), x)) (depends_on s)) l).

Definition dependency_rows (k : plan_key) (plan_version : Z) (ids : gmap string string)
    (l : list ValidatedPlanStep) : result exn (list agent_plan_step_dependency) :=
  mapM (λ sx, i ← step_id_of ids sx.1; j ← step_id_of ids sx.2;
              Ok (dependency_row k plan_version (i, j))) (dependency_pairs l).

Definition insert_version (plan_id : string) (plan_version : Z)
    (validated : ValidatedPlanDraft) (parent_version : option Z)
    (revision_feedback : option string) (supersedes : gmap string string)
    (created_at : Z) : M unit :=
  sid ← require_session;
  let k := scoped sid plan_id in
  insert_agent_plan_versions
    (version_row k plan_version validated parent_version revision_feedback created_at) ;;
  ids ← draw_step_ids (steps validated) ∅;
  srows ← lift (step_rows k plan_version supersedes ids (steps validated));
  insert_each insert_agent_plan_steps srows ;;
  drows ← lift (dependency_rows k plan_version ids (steps validated));
  insert_each insert_agent_plan_step_dependencies drows.

Definition create_plan (plan_id source_message_id : string) (trigger_mode : PlanTriggerMode)
    (draft : PlanDraft) : M PlanSnapshot :=
  sid ← require_session;
  validated ← lift (validate_plan_draft draft (draft_limits settings));
  savepoint any_exception (
    now ← db_now_ms;
    insert_agent_plans {|
      pl_id := plan_id;
      pl_tenant_id := tc_tenant_id ctx;
      pl_workspace_id := tc_workspace_id ctx;
      pl_session_id := sid;
      pl_source_message_id := source_message_id;
      pl_trigger_mode := trigger_mode;
      pl_status := PLAN_AWAITING;
      pl_current_version := 1;
      pl_approved_version := None;
      pl_version := 1;
      pl_created_at := now;
      pl_updated_at := now |} ;;
    insert_version plan_id 1 validated None None ∅ now ;;
    created ← get_plan plan_id;
    match created with
    | None => throw (RuntimeError "Plan missing after materialization")
    | Some s => mret s
    end).

Definition validate_supersedes (plan_id : string) (plan_version : Z)
    (validated : ValidatedPlanDraft) (supersedes : gmap string string) : M unit :=
  let valid_keys := map (λ s, logical_step_key (vps_step s)) (steps validated) in
  require (forallb (λ kv, bool_decide (kv.1 ∈ valid_keys)) (map_to_list supersedes))
    (ValueError "supersedes contains an unknown logical_step_key") ;;
  let referenced_ids : gset string := list_to_set (map_to_list supersedes).*2 in
  if bool_decide (referenced_ids = ∅) then mret tt else
  sid ← require_session;
  d ← gets w_db;
  let found_ids : gset string := list_to_set (map ste_step_id (List.filter (λ s,
      Z.ltb (ste_plan_version s) plan_version &&
      bool_decide (ste_step_id s ∈ referenced_ids))
    (step_scope_predicate d (scoped sid plan_id)))) in
  require (bool_decide (found_ids = referenced_ids))
    (ValueError "Every supersedes_step_id must belong to an earlier version of the scoped Plan").

Definition append_version (plan_id : string) (expected_version : Z) (draft : PlanDraft)
    (parent_version : Z) (revision_feedback : option string)
    (supersedes : gmap string string) : M PlanSnapshot :=
  sid ← require_session;
  validated ← lift (validate_plan_draft draft (draft_limits settings));
  d ← gets w_db;
  match plan_predicate d (scoped sid plan_id) with
  | None => throw (ValueError "Plan not found")
  | Some p =>
    let current_version := pl_current_version p in
    require (bool_decide (pl_version p = expected_version))
      (ValueError "Plan version conflict") ;;
    require (bool_decide (parent_version = current_version))
      (ValueError "parent_version must equal current_version") ;;
    let next_version := (current_version + 1)%Z in
    validate_supersedes plan_id next_version validated supersedes ;;
    savepoint any_exception (
      now ← db_now_ms;
      insert_version plan_id next_version validated (Some parent_version)
        revision_feedback supersedes now ;;
      n ← update_agent_plans (scoped sid plan_id)
            (λ p, Z.eqb (pl_current_version p) current_version &&
                  Z.eqb (pl_version p) expected_version)
            (λ p, p <| pl_status := PLAN_AWAITING |>
                    <| pl_current_version := next_version |>
                    <| pl_version := (expected_version + 1)%Z |>
                    <| pl_updated_at := now |>);
      require (bool_decide (n = 1%Z)) (ValueError "Plan version conflict")) ;;
    revised ← get_plan plan_id;
    match revised with
    | None => throw (RuntimeError "Plan missing after revision")
    | Some s => mret s
    end
  end.
End Repository.
