(* ===== verification/PlanDecisions.v ===== *)
(** * The Plan repository: decisions ([storage/repositories/plans.py] 363-687, 801-1026)

    A decision is keyed by an id that its author chooses and by the aggregate version it
    was made on.  Sending it again is answered from the stored history: the snapshot is
    cut back to what it was when the decision took effect.  A revision is claimed first,
    and its claim is kept with the transaction ([tx_pending]) until the revised version
    exists; [unit_of_work] does not commit with an open claim. *)

From S2P Require Import Prelude Records Errors Json Tenancy WorkflowModels Storage.
From S2P Require Import PlanStorage Regex Checkpoint PlanValidation PlanSpec PlanRecords.
From S2P Require Import PlanReading WorkflowRepository PlanRepository.
From stdpp Require Import base gmap strings list.

(** ** Which duplicate it was *)

(** The column names in the message of SQLite for a duplicate. *)
Definition qualified (table : string) (columns : list string) : list string :=
  map (λ c, table +:+ "." +:+ c) columns.

(** [str(error.orig)] of SQLite, and whether [sqlite_errorcode] is that of a primary key
    or of a unique constraint. *)
Definition sqlite_message (v : violation) : string :=
  match v with
  | ConstraintFailed table => table
  | DuplicateKey table _ columns =>
    "UNIQUE constraint failed: " +:+ Json.join ", " (qualified table columns)
  | CheckFailed c => "CHECK constraint failed: " +:+ c
  | ForeignKeyFailed _ => "FOREIGN KEY constraint failed"
  end.

Definition sqlite_duplicate_code (v : violation) : bool :=
  match v with DuplicateKey _ _ _ => true | _ => false end.

(** [text in message]. *)
Fixpoint contains (text message : string) : bool :=
  match strip text message with
  | Some _ => true
  | None => match message with EmptyString => false | String _ m => contains text m end
  end.

Definition DECISION_KEY_COLUMNS : list string :=
  ["tenant_id"; "workspace_id"; "session_id"; "plan_id"; "decision_id"].

(** [_is_decision_id_duplicate] on SQLite. *)
Definition is_decision_id_duplicate (v : violation) : bool :=
  sqlite_duplicate_code v &&
  forallb (λ column, contains ("agent_plan_decisions." +:+ column) (sqlite_message v))
    DECISION_KEY_COLUMNS.

(** ** The snapshot at a decision *)

(** [max(l, key=...)]: the first element with the greatest key. *)
Fixpoint max_by {A} (key : A → Z) (best : A) (l : list A) : A :=
  match l with
  | [] => best
  | x :: l => max_by key (if Z.ltb (key best) (key x) then x else best) l
  end.

Definition latest_approval (l : list PlanDecisionRecord) : option Z :=
  match List.filter (λ x, bool_decide (pdr_action x = DECIDE_APPROVE)) l with
  | [] => None
  | x :: l => Some (pdr_plan_version (max_by pdr_expected_plan_cas_version x l))
  end.

Definition unambiguous (l : list PlanDecisionRecord) : bool :=
  bool_decide (NoDup (map pdr_expected_plan_cas_version l)).

Definition ambiguous_history : exn :=
  PlanDecisionIdempotencyError "Plan decision history has an ambiguous aggregate boundary".

(** The version that is current after a decision, and the status. *)
Definition decided_version (x : PlanDecisionRecord) : result exn Z :=
  match pdr_action x with
  | DECIDE_REVISE =>
    match pdr_resulting_plan_version x with
    | Some v => Ok v
    | None => Err (ValueError "revision decisions require begin_revision_decision")
    end
  | _ => Ok (pdr_plan_version x)
  end.

Definition decided_status (a : PlanDecisionAction) : PlanStatus :=
  match a with
  | DECIDE_APPROVE => PLAN_APPROVED
  | DECIDE_REJECT => PLAN_REJECTED
  | DECIDE_REVISE => PLAN_AWAITING
  end.

Definition snapshot_at_decision (s : PlanSnapshot) (x : PlanDecisionRecord)
    : result exn PlanSnapshot :=
  let decisions := List.filter (λ y,
    Z.leb (pdr_expected_plan_cas_version y) (pdr_expected_plan_cas_version x))
    (ps_decisions s) in
  _ ← ensure (unambiguous decisions && bool_decide (x ∈ decisions)) ambiguous_history;
  current_version ← decided_version x;
  let versions := List.filter (λ v, Z.leb (pvr_plan_version v) current_version)
                    (ps_versions s) in
  match version_numbered current_version versions with
  | None => Err (ValueError "Plan decision references missing version data")
  | Some current =>
    Ok (s <| ps_status := decided_status (pdr_action x) |>
          <| ps_current_version := current_version |>
          <| ps_approved_version := latest_approval decisions |>
          <| ps_aggregate_version := (pdr_expected_plan_cas_version x + 1)%Z |>
          <| ps_updated_at := match pdr_action x with
                              | DECIDE_REVISE => pvr_created_at current
                              | _ => pdr_created_at x
                              end |>
          <| ps_current := current |>
          <| ps_versions := versions |>
          <| ps_decisions := decisions |>)
  end.

Definition require_identical_decision (r : PlanDecisionRequest) (decided_by : string)
    (existing : PlanDecisionRecord) : result exn unit :=
  ensure (bool_decide (pdr_plan_version existing = req_plan_version r) &&
          bool_decide (pdr_expected_plan_cas_version existing = req_expected_version r) &&
          bool_decide (pdr_action existing = req_action r) &&
          bool_decide (pdr_feedback existing = req_feedback r) &&
          bool_decide (pdr_decided_by existing = decided_by))
    (PlanDecisionIdempotencyError "decision_id was already used with different input").

Definition require_current_decision_target (r : PlanDecisionRequest)
    (latest : PlanSnapshot) : result exn unit :=
  ensure (bool_decide (ps_status latest = PLAN_AWAITING) &&
          bool_decide (ps_current_version latest = req_plan_version r) &&
          bool_decide (ps_aggregate_version latest = req_expected_version r))
    (PlanVersionConflictError latest).

(** ** The state of a transaction *)

Record PlanTx : Type := MkPlanTx {
  tx_world : World;
  tx_pending : gmap (string * string) PlanDecisionRecord;
}.

#[export] Instance eta_PlanTx : Eta PlanTx := λ t, MkPlanTx (tx_world t) (tx_pending t).

Notation PM := (stM PlanTx exn).

(** A step of the connection inside the transaction. *)
Definition on_connection {A} (m : M A) : PM A := λ t,
  let '(r, w) := m (tx_world t) in (r, t <| tx_world := w |>).

Section Decisions.
Context `{Env}.
Context (ctx : TenantContext).

Local Notation scoped := (scoped ctx).
Local Notation get_plan := (get_plan ctx).
Local Notation require_session := (require_session ctx).

(** *** Claims *)

Definition revision_claim_key (plan_id : string) : PM (string * string) :=
  sid ← on_connection require_session; mret (sid, plan_id).

Definition pending_revision_claim (plan_id : string) : PM (option PlanDecisionRecord) :=
  key ← revision_claim_key plan_id;
  gets (λ t, tx_pending t !! key).

Definition register_revision_claim (plan_id : string) (x : PlanDecisionRecord) : PM unit :=
  key ← revision_claim_key plan_id;
  existing ← gets (λ t, tx_pending t !! key);
  require (match existing with Some y => bool_decide (y = x) | None => true end)
    (PlanDecisionIdempotencyError "Plan already has a different revision decision claim") ;;
  modify (λ t, t <| tx_pending := <[key := x]> (tx_pending t) |>).

Definition clear_revision_claim (plan_id decision_id : string) : PM unit :=
  key ← revision_claim_key plan_id;
  claim ← gets (λ t, tx_pending t !! key);
  match claim with
  | Some x =>
    if bool_decide (pdr_decision_id x = decision_id)
    then modify (λ t, t <| tx_pending := delete key (tx_pending t) |>)
    else mret tt
  | None => mret tt
  end.

(** *** Rows *)

Definition insert_decision (r : PlanDecisionRequest) (decided_by : string)
    (resulting_plan_version : option Z) (created_at : Z) : M unit :=
  sid ← require_session;
  insert_agent_plan_decisions {|
    dec_tenant_id := tc_tenant_id ctx;
    dec_workspace_id := tc_workspace_id ctx;
    dec_session_id := sid;
    dec_plan_id := req_plan_id r;
    dec_decision_id := req_decision_id r;
    dec_plan_version := req_plan_version r;
    dec_expected_plan_cas_version := req_expected_version r;
    dec_action := req_action r;
    dec_feedback := req_feedback r;
    dec_decided_by := decided_by;
    dec_resulting_plan_version := resulting_plan_version;
    dec_created_at := created_at |}.

Definition get_decision (plan_id decision_id : string) : M (option PlanDecisionRecord) :=
  sid ← require_session;
  d ← gets w_db;
  mret (hydrate_decision <$> decision_predicate d (scoped sid plan_id) decision_id).

Definition require_unambiguous_decision_history (plan_id : string) (through : Z)
    : M (list PlanDecisionRecord) :=
  sid ← require_session;
  d ← gets w_db;
  let decisions := map hydrate_decision
    (List.filter (λ x, Z.leb (dec_expected_plan_cas_version x) through)
       (decision_scope_predicate d (scoped sid plan_id))) in
  require (unambiguous decisions) ambiguous_history ;;
  mret decisions.

Definition decision_result (plan_id decision_id : string) (idempotent_replay : bool)
    : M PlanDecisionMutationResult :=
  snapshot ← get_plan plan_id;
  match snapshot with
  | None => throw (PlanNotFoundError "Plan not found")
  | Some s =>
    match List.find (λ x, bool_decide (pdr_decision_id x = decision_id)) (ps_decisions s) with
    | None => throw (RuntimeError "Plan decision missing from snapshot")
    | Some x =>
      at_decision ← lift (snapshot_at_decision s x);
      mret {| dmr_snapshot := at_decision;
              dmr_decision := x;
              dmr_idempotent_replay := idempotent_replay |}
    end
  end.

Definition decision_replay (r : PlanDecisionRequest) (decided_by : string)
    (existing : PlanDecisionRecord) : M PlanDecisionMutationResult :=
  lift (require_identical_decision r decided_by existing) ;;
  decision_result (req_plan_id r) (req_decision_id r) true.

Definition replay_decision (r : PlanDecisionRequest) (decided_by : string)
    : M (option PlanDecisionMutationResult) :=
  _ ← require_session;
  existing ← get_decision (req_plan_id r) (req_decision_id r);
  match existing with
  | None => mret None
  | Some x => a ← decision_replay r decided_by x; mret (Some a)
  end.

(** No decision has claimed the aggregate version. *)
Definition unclaimed (r : PlanDecisionRequest) (l : list PlanDecisionRecord) : M unit :=
  require (negb (existsb (λ x,
      bool_decide (pdr_expected_plan_cas_version x = req_expected_version r)) l))
    (PlanDecisionIdempotencyError
       "Plan aggregate version already has a different decision claim").

(** *** Approving and rejecting *)

Definition decide_columns (r : PlanDecisionRequest) (now : Z) (p : agent_plan) : agent_plan :=
  p <| pl_status := match req_action r with
                    | DECIDE_APPROVE => PLAN_APPROVED
                    | _ => PLAN_REJECTED
                    end |>
    <| pl_approved_version := match req_action r with
                              | DECIDE_APPROVE => Some (req_plan_version r)
                              | _ => pl_approved_version p
                              end |>
    <| pl_version := (pl_version p + 1)%Z |>
    <| pl_updated_at := now |>.

(** The body of the savepoint; [None] when the compare-and-swap finds no row. *)
Definition apply_decision (sid : string) (r : PlanDecisionRequest) (decided_by : string)
    : M (option PlanDecisionMutationResult) :=
  now ← db_now_ms;
  insert_decision r decided_by None now ;;
  n ← update_agent_plans (scoped sid (req_plan_id r))
        (λ p, bool_decide (pl_status p = PLAN_AWAITING) &&
              Z.eqb (pl_current_version p) (req_plan_version r) &&
              Z.eqb (pl_version p) (req_expected_version r))
        (decide_columns r now);
  if bool_decide (n = 1%Z)
  then a ← decision_result (req_plan_id r) (req_decision_id r) false; mret (Some a)
  else mret None.

Definition record_decision (r : PlanDecisionRequest) (decided_by : string)
    : PM PlanDecisionMutationResult :=
  sid ← on_connection require_session;
  pending ← pending_revision_claim (req_plan_id r);
  require (match pending with
           | Some x => bool_decide (pdr_decision_id x = req_decision_id r)
           | None => true
           end)
    (PlanDecisionIdempotencyError "Plan already has an unfinished revision decision claim") ;;
  on_connection (
    existing ← get_decision (req_plan_id r) (req_decision_id r);
    match existing with
    | Some x => decision_replay r decided_by x
    | None =>
      require (negb (bool_decide (req_action r = DECIDE_REVISE)))
        (ValueError "revision decisions require begin_revision_decision") ;;
      latest ← lock_plan ctx (req_plan_id r);
      existing ← get_decision (req_plan_id r) (req_decision_id r);
      match existing with
      | Some x => decision_replay r decided_by x
      | None =>
        lift (require_current_decision_target r latest) ;;
        history ← require_unambiguous_decision_history (req_plan_id r)
                    (req_expected_version r);
        unclaimed r history ;;
        before ← gets w_db;
        applied ← catch
          (savepoint any_exception (apply_decision sid r decided_by))
          (λ e, match e with
                | IntegrityError v =>
                  if negb (is_decision_id_duplicate v) then throw e else
                  existing ← get_decision (req_plan_id r) (req_decision_id r);
                  match existing with
                  | None => throw e
                  | Some x => a ← decision_replay r decided_by x; mret (Some a)
                  end
                | _ => throw e
                end);
        match applied with
        | Some a => mret a
        | None =>
          set_db before ;;
          conflict ← get_plan (req_plan_id r);
          match conflict with
          | None => throw (PlanNotFoundError "Plan not found")
          | Some s => throw (PlanVersionConflictError s)
          end
        end
      end
    end).

(** *** Revisions *)

Definition begin_revision_decision (r : PlanDecisionRequest) (decided_by : string)
    : PM PlanDecisionRecord :=
  _ ← on_connection require_session;
  require (bool_decide (req_action r = DECIDE_REVISE))
    (ValueError "begin_revision_decision requires a revise action") ;;
  pending ← pending_revision_claim (req_plan_id r);
  match pending with
  | Some x =>
    require (bool_decide (pdr_decision_id x = req_decision_id r))
      (PlanDecisionIdempotencyError "Plan already has a different revision decision claim") ;;
    lift (require_identical_decision r decided_by x) ;;
    mret x
  | None =>
    existing ← on_connection (get_decision (req_plan_id r) (req_decision_id r));
    _ ← lift (match existing with
              | Some x => require_identical_decision r decided_by x
              | None => Ok tt
              end);
    match existing ≫= λ x, pdr_resulting_plan_version x ≫= λ _, Some x with
    | Some x => mret x
    | None =>
      latest ← on_connection (lock_plan ctx (req_plan_id r));
      existing ← on_connection (get_decision (req_plan_id r) (req_decision_id r));
      match existing with
      | Some x =>
        lift (require_identical_decision r decided_by x) ;;
        match pdr_resulting_plan_version x with
        | Some _ => mret x
        | None =>
          lift (require_current_decision_target r latest) ;;
          _ ← on_connection (require_unambiguous_decision_history (req_plan_id r)
                               (req_expected_version r));
          register_revision_claim (req_plan_id r) x ;;
          mret x
        end
      | None =>
        lift (require_current_decision_target r latest) ;;
        history ← on_connection (require_unambiguous_decision_history (req_plan_id r)
                                   (req_expected_version r));
        on_connection (unclaimed r history) ;;
        '(x, is_open) ← on_connection (catch
          (savepoint any_exception (
            now ← db_now_ms;
            insert_decision r decided_by None now ;;
            inserted ← get_decision (req_plan_id r) (req_decision_id r);
            match inserted with
            | None => throw (RuntimeError "Plan decision missing after insert")
            | Some x => mret (x, true)
            end))
          (λ e, match e with
                | IntegrityError v =>
                  if negb (is_decision_id_duplicate v) then throw e else
                  existing ← get_decision (req_plan_id r) (req_decision_id r);
                  match existing with
                  | None => throw e
                  | Some x =>
                    lift (require_identical_decision r decided_by x) ;;
                    mret (x, bool_decide (pdr_resulting_plan_version x = None))
                  end
                | _ => throw e
                end));
        (if (is_open : bool) then register_revision_claim (req_plan_id r) x else mret tt) ;;
        mret x
      end
    end
  end.

(** The rows that prove that the claimed revision was appended. *)
Definition revision_appended (d : Db) (k : plan_key) (x : PlanDecisionRecord)
    (resulting_plan_version : Z) : bool :=
  let valid_resulting_version := (pdr_plan_version x + 1)%Z in
  bool_decide (resulting_plan_version = valid_resulting_version) &&
  match plan_predicate d k with
  | Some p => bool_decide (pl_status p = PLAN_AWAITING) &&
              Z.eqb (pl_current_version p) valid_resulting_version &&
              Z.eqb (pl_version p) (pdr_expected_plan_cas_version x + 1)
  | None => false
  end &&
  match agent_plan_versions d !! (k, valid_resulting_version) with
  | Some v => bool_decide (pv_parent_version v = Some (pdr_plan_version x)) &&
              bool_decide (pv_revision_feedback v = pdr_feedback x)
  | None => false
  end.

Definition finish_revision_decision (plan_id decision_id : string)
    (resulting_plan_version : Z) : PM PlanDecisionRecord :=
  sid ← on_connection require_session;
  require (Z.leb 1 resulting_plan_version)
    (ValueError "resulting_plan_version must be positive") ;;
  found ← on_connection (get_decision plan_id decision_id);
  match found with
  | None => throw (PlanNotFoundError "Plan decision not found")
  | Some existing =>
    require (bool_decide (pdr_action existing = DECIDE_REVISE))
      (PlanDecisionIdempotencyError "Plan decision is not a revision decision") ;;
    pending ← pending_revision_claim plan_id;
    match pdr_resulting_plan_version existing with
    | Some v =>
      require (bool_decide (v = resulting_plan_version))
        (PlanDecisionIdempotencyError
           "Plan decision already has a different resulting version") ;;
      require (bool_decide (pending = None))
        (PlanDecisionIdempotencyError
           "Revision decision changed after this transaction claimed it") ;;
      mret existing
    | None =>
      require (bool_decide (pending = Some existing))
        (PlanDecisionIdempotencyError
           "Revision decision is not claimed by this transaction") ;;
      _ ← on_connection (require_unambiguous_decision_history plan_id
                           (pdr_expected_plan_cas_version existing));
      d ← on_connection (gets w_db);
      if negb (revision_appended d (scoped sid plan_id) existing resulting_plan_version)
      then
        latest ← on_connection (get_plan plan_id);
        match latest with
        | None => throw (PlanNotFoundError "Plan not found")
        | Some s => throw (PlanVersionConflictError s)
        end
      else
        n ← on_connection (update_agent_plan_decisions (scoped sid plan_id) decision_id
              (λ x, bool_decide (dec_action x = DECIDE_REVISE) &&
                    Z.eqb (dec_plan_version x) (pdr_plan_version existing) &&
                    Z.eqb (dec_expected_plan_cas_version x)
                      (pdr_expected_plan_cas_version existing) &&
                    bool_decide (dec_decided_by x = pdr_decided_by existing) &&
                    Z.eqb (dec_created_at x) (pdr_created_at existing) &&
                    bool_decide (dec_resulting_plan_version x = None))
              (λ x, x <| dec_resulting_plan_version := Some resulting_plan_version |>));
        found ← on_connection (get_decision plan_id decision_id);
        match found with
        | None =>
          throw (if bool_decide (n = 1%Z)
                 then RuntimeError "Plan decision missing after finalization"
                 else PlanNotFoundError "Plan decision not found")
        | Some finished =>
          require (bool_decide (n = 1%Z) ||
                   bool_decide (pdr_resulting_plan_version finished =
                                Some resulting_plan_version))
            (PlanDecisionIdempotencyError
               "Plan decision already has a different resulting version") ;;
          clear_revision_claim plan_id decision_id ;;
          mret finished
        end
    end
  end.
End Decisions.

(** ** Units of work ([storage/uow.py])

    [TenantUnitOfWork]: the body runs in one write transaction, with no claim at first,
    and commits only when every claim has been finished. *)

Definition require_no_unfinished_revisions : PM unit :=
  pending ← gets tx_pending;
  require (bool_decide (pending = ∅))
    (RuntimeError "Cannot commit with an unfinished plan revision").

Definition unit_of_work {A} (body : PM A) : M A :=
  write_transaction (λ w,
    let '(r, t) := (a ← body; require_no_unfinished_revisions ;; mret a)
                     {| tx_world := w; tx_pending := ∅ |} in
    (r, tx_world t)).
