(* ===== verification/PlanAttempts.v ===== *)
(** * The Plan repository: step attempts and round accounting
    ([storage/repositories/plans.py] 97-177, 1149-1778)

    An attempt at a step is a row that is inserted RUNNING and ends once.  It is inserted
    only under the current lease of an executable run, on the approved current version of
    the run's Plan, when the step's dependencies have succeeded and no other attempt of
    the run is running.  Rounds of model work are counted from durable rows, and a round
    is reserved before it is spent. *)

From S2P Require Import Prelude Records Errors Json Tenancy WorkflowModels Storage.
From S2P Require Import PlanStorage Regex Checkpoint PlanValidation PlanSpec PlanRecords.
From S2P Require Import PlanReading WorkflowRepository PlanRepository PlanDecisions.
From stdpp Require Import base gmap strings list.
From Stdlib Require Import Ascii String.

(** ** Result documents ([planner/models.py] 404-443) *)

Record PlanStepResultDocument : Type := MkPlanStepResultDocument {
  doc_schema_version : Z;
  doc_plan_id : string;
  doc_plan_version : Z;
  doc_run_id : string;
  doc_step_id : string;
  doc_step_run_id : string;
  doc_attempt : Z;
  doc_status : string;
  doc_summary : string;
  doc_evidence : list string;
  doc_definition_digest : string;
  doc_dependency_result_digests : list (string * string);
  doc_tool_catalog_digest : string;
  doc_policy_digest : string;
  doc_skill_set_digest : string;
}.

Definition dump_result (r : PlanStepResultDocument) : json :=
  JObj [("schema_version", JInt (doc_schema_version r));
        ("plan_id", JStr (doc_plan_id r));
        ("plan_version", JInt (doc_plan_version r));
        ("run_id", JStr (doc_run_id r));
        ("step_id", JStr (doc_step_id r));
        ("step_run_id", JStr (doc_step_run_id r));
        ("attempt", JInt (doc_attempt r));
        ("status", JStr (doc_status r));
        ("summary", JStr (doc_summary r));
        ("evidence", JArr (map JStr (doc_evidence r)));
        ("definition_digest", JStr (doc_definition_digest r));
        ("dependency_result_digests",
           JObj (map (λ kv, (kv.1, JStr kv.2)) (doc_dependency_result_digests r)));
        ("tool_catalog_digest", JStr (doc_tool_catalog_digest r));
        ("policy_digest", JStr (doc_policy_digest r));
        ("skill_set_digest", JStr (doc_skill_set_digest r))].

Definition result_canonical_json (r : PlanStepResultDocument) : string :=
  print_json (dump_result r).

Definition result_digest `{Env} (r : PlanStepResultDocument) : string :=
  env_sha256_hex (result_canonical_json r).

(** ** Text *)

(** [json.dumps] with its default [ensure_ascii=True]: every character but the printable
    ones of ASCII is written as one or two [\u] escapes. *)
Definition u_escape (n : N) : string :=
  String BACKSLASH (String "u"%char (String (hex_digit (n / 4096))
    (String (hex_digit ((n / 256) mod 16))
       (String (hex_digit ((n / 16) mod 16)) (ch (hex_digit (n mod 16))))))).

Definition ascii_char (n : N) : string :=
  if (n <? 127)%N then ch (ascii_of_N n)
  else if (n <? 65536)%N then u_escape n
  else u_escape (55296 + (n - 65536) / 1024)%N +:+ u_escape (56320 + (n - 65536) mod 1024)%N.

Definition json_dumps_ascii (j : json) : string :=
  foldr (λ n s, ascii_char n +:+ s) "" (Regex.decode (print_json j)).

(** [text.split(",")]. *)
Fixpoint split_commas (s : string) : list string :=
  match s with
  | EmptyString => [""]
  | String c s =>
    if Ascii.eqb c ","%char then "" :: split_commas s
    else match split_commas s with
         | x :: l => String c x :: l
         | [] => [ch c]
         end
  end.

(** [text.strip()] of ASCII text. *)
Definition strip_left (s : string) : string :=
  let fix go (s : string) : string :=
    match s with
    | String c s' => if is_space (N_of_ascii c) then go s' else s
    | EmptyString => EmptyString
    end in go s.

Definition string_rev (s : string) : string :=
  String.string_of_list_ascii (rev (String.list_ascii_of_string s)).

Definition strip_text (s : string) : string :=
  string_rev (strip_left (string_rev (strip_left s))).

Definition ATTEMPT_KEY_COLUMNS : list string :=
  ["tenant_id"; "workspace_id"; "session_id"; "run_id"; "step_id"; "attempt"].

(** [_is_step_attempt_duplicate] on SQLite. *)
Definition is_step_attempt_duplicate (v : violation) : bool :=
  sqlite_duplicate_code v &&
  match strip "UNIQUE constraint failed: " (sqlite_message v) with
  | Some columns =>
    bool_decide (map strip_text (split_commas columns) =
                 qualified "agent_plan_step_runs" ATTEMPT_KEY_COLUMNS)
  | None => false
  end.

Section Attempts.
Context `{Env}.
Context (ctx : TenantContext) (settings : PlanningSettings).

Local Notation scoped := (scoped ctx).
Local Notation require_session := (require_session ctx).

(** ** Rounds *)

Definition PLAN_ROUND_KINDS : list string :=
  ["revision_generation"; "step_model"; "reflection"; "final_summary"].

(** The [LIKE] pattern of a string member of the metadata. *)
Definition member_pattern (name value : string) : list ascii :=
  String.list_ascii_of_string
    ("%" +:+ quoted name +:+ ":" +:+ ch DQUOTE +:+ value +:+ ch DQUOTE +:+ "%").

Definition is_plan_round (session_id run_id plan_id : string) (m : memory_entry) : bool :=
  bool_decide (mem_tenant_id m = tc_tenant_id ctx) &&
  bool_decide (mem_workspace_id m = tc_workspace_id ctx) &&
  bool_decide (mem_session_id m = Some session_id) &&
  bool_decide (mem_type m = "plan_round_counter") &&
  like (member_pattern "run_id" run_id) (String.list_ascii_of_string (mem_metadata_json m)) &&
  like (member_pattern "plan_id" plan_id) (String.list_ascii_of_string (mem_metadata_json m)).

Definition round_units (d : Db) (session_id run_id plan_id : string) : Z :=
  (count_rows (is_plan_round session_id run_id plan_id) (memory_entries d) +
   count_rows (λ e, bool_decide (execution_scope e =
                      (tc_tenant_id ctx, tc_workspace_id ctx, session_id, run_id)))
     (tool_executions d))%Z.

Definition count_round_units (run_id plan_id : string) : M Z :=
  match tc_session_id ctx with
  | None => throw (ValueError "session_id is required for Plan round accounting")
  | Some sid => d ← gets w_db; mret (round_units d sid run_id plan_id)
  end.

Definition round_metadata (run_id plan_id round_kind : string) (step_run_id : option string)
    : json :=
  JObj [("schema_version", JInt 1);
        ("plan_id", JStr plan_id);
        ("run_id", JStr run_id);
        ("step_run_id", match step_run_id with Some s => JStr s | None => JNull end);
        ("round_kind", JStr round_kind)].

Definition reserve_round_unit (run_id plan_id round_kind : string) (total_budget : Z)
    (step_run_id : option string) : M Z :=
  require (bool_decide (round_kind ∈ PLAN_ROUND_KINDS))
    (ValueError "unsupported Plan round kind") ;;
  require (Z.leb 1 total_budget) (ValueError "Plan round budget must be positive") ;;
  consumed ← count_round_units run_id plan_id;
  require (Z.ltb consumed total_budget)
    (PlanRoundBudgetExceeded "Plan round budget exceeded") ;;
  id ← uuid4;
  now ← db_now_ms;
  insert_memory_entries {|
    mem_id := id;
    mem_tenant_id := tc_tenant_id ctx;
    mem_workspace_id := tc_workspace_id ctx;
    mem_session_id := tc_session_id ctx;
    mem_content := "model";
    mem_type := "plan_round_counter";
    mem_role := "system";
    mem_turn_index := 0;
    mem_created_at := now;
    mem_metadata_json :=
      json_dumps_ascii (round_metadata run_id plan_id round_kind step_run_id) |} ;;
  mret (consumed + 1)%Z.

(** ** Reading attempts *)

Definition step_run_scope_predicate (d : Db) (session_id run_id : string)
    : list agent_plan_step_run :=
  List.filter (λ x, bool_decide (step_run_scope x =
      (tc_tenant_id ctx, tc_workspace_id ctx, session_id, run_id)))
    (rows (agent_plan_step_runs d)).

Definition version_attempts (d : Db) (session_id run_id plan_id : string) (plan_version : Z)
    : list agent_plan_step_run :=
  List.filter (λ x, bool_decide (srn_plan_id x = plan_id) &&
                    Z.eqb (srn_plan_version x) plan_version)
    (step_run_scope_predicate d session_id run_id).

(** [ORDER BY step_id, attempt DESC]. *)
Definition newest_attempt_first (a b : agent_plan_step_run) : bool :=
  String.ltb (srn_step_id a) (srn_step_id b) ||
  (String.eqb (srn_step_id a) (srn_step_id b) && Z.leb (srn_attempt b) (srn_attempt a)).

(** [latest.setdefault(step_id, ...)] on each row in turn. *)
Definition first_per_step (l : list agent_plan_step_run) : gmap string PlanStepRunRecord :=
  foldl (λ m x, match m !! srn_step_id x with
                | Some _ => m
                | None => <[srn_step_id x := hydrate_step_run x]> m
                end) ∅ l.

Definition latest_step_attempts (plan_id : string) (plan_version : Z) (run_id : string)
    : M (gmap string PlanStepRunRecord) :=
  sid ← require_session;
  d ← gets w_db;
  mret (first_per_step
    (sort_by newest_attempt_first (version_attempts d sid run_id plan_id plan_version))).

Definition step_attempts (plan_id : string) (plan_version : Z) (run_id step_id : string)
    : M (list PlanStepRunRecord) :=
  sid ← require_session;
  d ← gets w_db;
  mret (map hydrate_step_run
    (sort_by (λ a b, Z.leb (srn_attempt a) (srn_attempt b))
       (List.filter (λ x, bool_decide (srn_step_id x = step_id))
          (version_attempts d sid run_id plan_id plan_version)))).

Definition is_running (x : agent_plan_step_run) : bool :=
  bool_decide (srn_status x = STEP_RUNNING).

(** [ORDER BY plan_version, step_id, attempt, step_run_id]. *)
Definition attempt_leb (a b : agent_plan_step_run) : bool :=
  Z.ltb (srn_plan_version a) (srn_plan_version b) ||
  (Z.eqb (srn_plan_version a) (srn_plan_version b) &&
   (String.ltb (srn_step_id a) (srn_step_id b) ||
    (String.eqb (srn_step_id a) (srn_step_id b) &&
     (Z.ltb (srn_attempt a) (srn_attempt b) ||
      (Z.eqb (srn_attempt a) (srn_attempt b) &&
       String.leb (srn_step_run_id a) (srn_step_run_id b)))))).

Definition read_running_step_attempts (run_id : string) : M (list PlanStepRunRecord) :=
  sid ← require_session;
  d ← gets w_db;
  mret (map hydrate_step_run
    (sort_by attempt_leb (List.filter is_running (step_run_scope_predicate d sid run_id)))).

Definition step_run_rows (d : Db) (session_id run_id step_run_id : string)
    : list agent_plan_step_run :=
  List.filter (λ x, bool_decide (srn_step_run_id x = step_run_id))
    (step_run_scope_predicate d session_id run_id).

Definition read_step_run (run_id step_run_id : string) : M (option PlanStepRunRecord) :=
  sid ← require_session;
  d ← gets w_db;
  mret (hydrate_step_run <$> head (step_run_rows d sid run_id step_run_id)).

Definition has_running_attempt (run_id : string) : M bool :=
  sid ← require_session;
  d ← gets w_db;
  mret (existsb is_running (step_run_scope_predicate d sid run_id)).

Definition already_running : exn :=
  PlanStepAlreadyRunningError "Plan run already has a running step attempt".

Definition require_no_running_attempt (run_id : string) : M unit :=
  running ← has_running_attempt run_id;
  require (negb running) already_running.

Definition latest_attempt_number (run_id step_id : string) : M Z :=
  sid ← require_session;
  d ← gets w_db;
  mret (foldr (λ x n, Z.max (srn_attempt x) n) 0%Z
    (List.filter (λ x, bool_decide (srn_step_id x = step_id))
       (step_run_scope_predicate d sid run_id))).

(** ** The lease *)

Definition lease_matches_context (lease : RunLease) : M bool :=
  let c := rl_context lease in
  if bool_decide (tc_tenant_id c = tc_tenant_id ctx) &&
     bool_decide (tc_workspace_id c = tc_workspace_id ctx)
  then
    sid ← require_session;
    mret (bool_decide (tc_session_id c = Some sid) &&
          bool_decide (is_Some (tc_run_id c)) &&
          (bool_decide (tc_run_id ctx = None) || bool_decide (tc_run_id ctx = tc_run_id c)))
  else mret false.

Definition require_lease_scope (lease : RunLease) : M unit :=
  matches ← lease_matches_context lease;
  require matches (StaleFenceError "run lease scope is stale").

Definition plans_has_current_lease (lease : RunLease) : M bool :=
  matches ← lease_matches_context lease;
  if negb matches then mret false else has_current_lease lease.

(** [str(lease.context.run_id)]. *)
Definition leased_run_id (lease : RunLease) : string :=
  default "None" (tc_run_id (rl_context lease)).

Definition require_current_executable_lease (lease : RunLease) : M agent_run :=
  require_lease_scope lease ;;
  current ← plans_has_current_lease lease;
  require current (StaleFenceError "run lease is stale") ;;
  sid ← require_session;
  d ← gets w_db;
  let scope := (tc_tenant_id ctx, tc_workspace_id ctx, sid, leased_run_id lease) in
  match agent_runs d !! leased_run_id lease with
  | Some run =>
    require (bool_decide (run_scope run = scope)) (StaleFenceError "run lease is stale") ;;
    require (is_plan_run_executable (run_run_status run) (run_cancel_requested_at run))
      (PlanExecutionBlocked "Plan execution run is not executable") ;;
    mret run
  | None => throw (StaleFenceError "run lease is stale")
  end.

Definition lock_run_for_execution (lease : RunLease) : M agent_run :=
  _ ← require_session;
  require_lease_scope lease ;;
  lock_run (rl_context lease) ;;
  require_current_executable_lease lease.

(** ** When an attempt may start *)

Definition active_plan_version (run : agent_run) (p : agent_plan) (plan_id : string)
    (plan_version : Z) : bool :=
  bool_decide (default "None" (run_plan_id run) = plan_id) &&
  bool_decide (pl_status p = PLAN_APPROVED) &&
  Z.eqb (pl_current_version p) plan_version &&
  bool_decide (pl_approved_version p = Some plan_version) &&
  bool_decide (run_active_plan_version run = Some plan_version).

Definition require_active_plan_version (run : agent_run) (plan_id : string)
    (plan_version : Z) : M unit :=
  sid ← require_session;
  d ← gets w_db;
  require (match plan_predicate d (scoped sid plan_id) with
           | Some p => active_plan_version run p plan_id plan_version
           | None => false
           end)
    (PlanExecutionBlocked "Plan execution requires an approved current active version").

Definition positive_attempt_limit (value : Z) (label : string) : M Z :=
  require (Z.leb 1 value) (ValueError (label +:+ " must be a positive integer")) ;;
  mret value.

(** The attempts of a version that decide whether anything may start. *)
Definition any_latest (p : PlanStepRunStatus → bool) (latest : gmap string PlanStepRunRecord)
    : bool :=
  existsb (λ x, p (psr_status x)) (rows latest).

Definition stored_dependency_ids (d : Db) (k : plan_key) (plan_version : Z) (step_id : string)
    : list string :=
  sort_by String.leb (map dep_depends_on_step_id
    (List.filter (λ x, Z.eqb (dep_plan_version x) plan_version &&
                       bool_decide (dep_step_id x = step_id))
       (dependency_scope_predicate d k))).

Definition require_step_ready (run_id plan_id : string) (plan_version : Z) (step_id : string)
    : M (Z * Z) :=
  sid ← require_session;
  d ← gets w_db;
  match agent_plan_steps d !! step_id with
  | None => throw (PlanExecutionBlocked "Plan step does not belong to the active version")
  | Some s =>
    require (fk_version_step d (scoped sid plan_id) plan_version step_id)
      (PlanExecutionBlocked "Plan step does not belong to the active version") ;;
    latest ← latest_step_attempts plan_id plan_version run_id;
    require (negb (any_latest (λ t, bool_decide (t = STEP_RUNNING)) latest)) already_running ;;
    require (negb (any_latest (λ t, bool_decide (t ∈ TERMINAL_PLAN_STEP_STATUSES)) latest))
      (PlanExecutionBlocked
         "Plan execution is blocked by a failed dependency or terminal step") ;;
    require (is_plan_step_ready step_id
               (stored_dependency_ids d (scoped sid plan_id) plan_version step_id) latest)
      (PlanExecutionBlocked "Plan step is no longer ready") ;;
    let attempt := (match latest !! step_id with
                    | Some current => psr_attempt current
                    | None => 0
                    end + 1)%Z in
    step_limit ← positive_attempt_limit (ste_max_attempts s) "Plan step max_attempts";
    tenant_limit ← positive_attempt_limit (pls_max_step_attempts settings)
                     "planning.max_step_attempts";
    let attempt_limit := Z.min step_limit tenant_limit in
    require (Z.leb attempt attempt_limit)
      (PlanAttemptLimitError "Plan step attempt limit exceeded") ;;
    mret (attempt, attempt_limit)
  end.

(** ** Starting an attempt *)

Definition attempt_row (sid plan_id : string) (plan_version : Z)
    (step_id step_run_id run_id : string) (attempt started_at : Z) : agent_plan_step_run := {|
  srn_tenant_id := tc_tenant_id ctx;
  srn_workspace_id := tc_workspace_id ctx;
  srn_session_id := sid;
  srn_plan_id := plan_id;
  srn_plan_version := plan_version;
  srn_step_id := step_id;
  srn_step_run_id := step_run_id;
  srn_run_id := run_id;
  srn_attempt := attempt;
  srn_status := STEP_RUNNING;
  srn_result_summary := None;
  srn_result_ref := None;
  srn_result_digest := None;
  srn_error_code := None;
  srn_error_detail_redacted := None;
  srn_reused_from_step_run_id := None;
  srn_version := 1;
  srn_started_at := started_at;
  srn_finished_at := None;
|}.

Definition create_step_attempt (lease : RunLease) (plan_id : string) (plan_version : Z)
    (step_id : string) : M PlanStepRunRecord :=
  sid ← require_session;
  require_lease_scope lease ;;
  let run_id := leased_run_id lease in
  run ← lock_run_for_execution lease;
  require_no_running_attempt run_id ;;
  require_active_plan_version run plan_id plan_version ;;
  '(_, attempt_limit) ← require_step_ready run_id plan_id plan_version step_id;
  step_run_id ← uuid4;
  started_at ← db_now_ms;
  catch
    (savepoint is_integrity_error (
      '(attempt, _) ← require_step_ready run_id plan_id plan_version step_id;
      run ← require_current_executable_lease lease;
      require_active_plan_version run plan_id plan_version ;;
      require_no_running_attempt run_id ;;
      insert_agent_plan_step_runs
        (attempt_row sid plan_id plan_version step_id step_run_id run_id attempt started_at) ;;
      inserted ← read_step_run run_id step_run_id;
      match inserted with
      | None => throw (RuntimeError "Plan step attempt missing after insert")
      | Some x => mret x
      end))
    (λ e, match e with
          | IntegrityError _ =>
            running ← has_running_attempt run_id;
            if (running : bool) then throw already_running else
            latest_attempt ← latest_attempt_number run_id step_id;
            if Z.leb attempt_limit latest_attempt
            then throw (PlanAttemptLimitError "Plan step attempt limit exceeded")
            else throw e
          | _ => throw e
          end).

(** ** Reusing a result *)

(** A complete succeeded attempt that is not itself a reuse. *)
Definition reusable (x : PlanStepRunRecord) : bool :=
  bool_decide (psr_status x = STEP_SUCCEEDED) &&
  bool_decide (psr_reused_from_step_run_id x = None) &&
  bool_decide (is_Some (psr_result_ref x)) && bool_decide (is_Some (psr_result_digest x)) &&
  bool_decide (is_Some (psr_result_summary x)).

Definition reused_row (sid plan_id : string) (plan_version : Z)
    (step_id step_run_id run_id : string) (attempt now : Z) (source : PlanStepRunRecord)
    : agent_plan_step_run := {|
  srn_tenant_id := tc_tenant_id ctx;
  srn_workspace_id := tc_workspace_id ctx;
  srn_session_id := sid;
  srn_plan_id := plan_id;
  srn_plan_version := plan_version;
  srn_step_id := step_id;
  srn_step_run_id := step_run_id;
  srn_run_id := run_id;
  srn_attempt := attempt;
  srn_status := STEP_SUCCEEDED;
  srn_result_summary := psr_result_summary source;
  srn_result_ref := psr_result_ref source;
  srn_result_digest := psr_result_digest source;
  srn_error_code := None;
  srn_error_detail_redacted := None;
  srn_reused_from_step_run_id := Some (psr_step_run_id source);
  srn_version := 2;
  srn_started_at := now;
  srn_finished_at := Some now;
|}.

Definition create_reused_step_attempt (lease : RunLease) (plan_id : string)
    (plan_version : Z) (step_id source_step_run_id : string) : M PlanStepRunRecord :=
  sid ← require_session;
  require_lease_scope lease ;;
  let run_id := leased_run_id lease in
  run ← lock_run_for_execution lease;
  require_no_running_attempt run_id ;;
  require_active_plan_version run plan_id plan_version ;;
  source ← read_step_run run_id source_step_run_id;
  require (match source with
           | Some x => bool_decide (psr_plan_id x = plan_id) &&
                       bool_decide (psr_run_id x = run_id) && reusable x
           | None => false
           end)
    (PlanExecutionBlocked "Plan reuse source is not a complete succeeded attempt") ;;
  _ ← require_step_ready run_id plan_id plan_version step_id;
  now ← db_now_ms;
  step_run_id ← uuid4;
  catch
    (savepoint any_exception (
      run ← require_current_executable_lease lease;
      require_active_plan_version run plan_id plan_version ;;
      require_no_running_attempt run_id ;;
      source ← read_step_run run_id source_step_run_id;
      match source with
      | Some x =>
        require (reusable x) (PlanExecutionBlocked "Plan reuse source changed while locked") ;;
        '(attempt, _) ← require_step_ready run_id plan_id plan_version step_id;
        insert_agent_plan_step_runs
          (reused_row sid plan_id plan_version step_id step_run_id run_id attempt now x) ;;
        inserted ← read_step_run run_id step_run_id;
        match inserted with
        | None => throw (RuntimeError "Reused Plan step attempt missing after insert")
        | Some y => mret y
        end
      | None => throw (PlanExecutionBlocked "Plan reuse source changed while locked")
      end))
    (λ e, match e with
          | IntegrityError v =>
            if negb (is_step_attempt_duplicate v) then throw e else
            existing ← latest_step_attempts plan_id plan_version run_id;
            match existing !! step_id with
            | Some current =>
              if bool_decide (psr_status current = STEP_SUCCEEDED) &&
                 bool_decide (psr_reused_from_step_run_id current = Some source_step_run_id)
              then mret current else throw e
            | None => throw e
            end
          | _ => throw e
          end).

(** ** Ending an attempt *)

(** [UPDATE agent_plan_step_runs SET set_ WHERE ... step_run_id AND status = 'running' AND
    version = expected_version]. *)
Definition update_running_attempt (sid run_id step_run_id : string) (expected_version : Z)
    (set_ : agent_plan_step_run → agent_plan_step_run) : M Z :=
  d ← gets w_db;
  let scope := (tc_tenant_id ctx, tc_workspace_id ctx, sid, run_id) in
  let hits := List.filter (λ ix,
      bool_decide (step_run_scope ix.2 = scope) &&
      bool_decide (srn_step_run_id ix.2 = step_run_id) &&
      is_running ix.2 && Z.eqb (srn_version ix.2) expected_version)
    (map_to_list (agent_plan_step_runs d)) in
  insert_each (λ ix,
    check_constraints (agent_plan_step_runs_checks (set_ ix.2)) ;;
    d ← gets w_db;
    set_db (d <| agent_plan_step_runs := <[ix.1 := set_ ix.2]> (agent_plan_step_runs d) |>))
    hits ;;
  mret (Z.of_nat (List.length hits)).

Definition is_memory_ref (ref : string) : bool :=
  match strip "memory:" ref with Some (String _ _) => true | _ => false end.

(** The arguments of [finish_step_attempt] are consistent. *)
Definition check_outcome (status : PlanStepRunStatus) (doc : PlanStepResultDocument)
    (result_ref : string) (error_code error_detail : option string) : result exn unit :=
  _ ← ensure (bool_decide (status ∈
          [STEP_SUCCEEDED; STEP_FAILED_RETRYABLE; STEP_FAILED_TERMINAL]))
        (ValueError "Plan step attempt target status is not terminal");
  _ ← ensure (is_memory_ref result_ref)
        (ValueError "Plan step result reference is invalid");
  _ ← ensure (bool_decide (doc_status doc =
          if bool_decide (status = STEP_SUCCEEDED) then "succeeded" else "failed"))
        (ValueError "Plan step result status does not match attempt status");
  if bool_decide (status = STEP_SUCCEEDED)
  then ensure (bool_decide (error_code = None) && bool_decide (error_detail = None))
         (ValueError "Succeeded Plan step attempts cannot carry errors")
  else ensure (truthy error_code && truthy error_detail)
         (ValueError "Failed Plan step attempts require redacted error detail").

Definition same_identity (r : PlanStepResultDocument) (x : agent_plan_step_run) : bool :=
  bool_decide (doc_plan_id r = srn_plan_id x) &&
  Z.eqb (doc_plan_version r) (srn_plan_version x) &&
  bool_decide (doc_run_id r = srn_run_id x) && bool_decide (doc_step_id r = srn_step_id x) &&
  bool_decide (doc_step_run_id r = srn_step_run_id x) &&
  Z.eqb (doc_attempt r) (srn_attempt x).

Definition definition_proved (d : Db) (sid : string) (r : PlanStepResultDocument)
    (x : agent_plan_step_run) : bool :=
  match agent_plan_steps d !! srn_step_id x with
  | Some s => fk_version_step d (scoped sid (srn_plan_id x)) (srn_plan_version x) (srn_step_id x)
              && bool_decide (doc_definition_digest r = ste_definition_digest s)
  | None => false
  end.

Definition finish_columns (status : PlanStepRunStatus) (doc : PlanStepResultDocument)
    (result_ref : string) (error_code error_detail : option string)
    (expected_version finished_at : Z) (x : agent_plan_step_run) : agent_plan_step_run :=
  x <| srn_status := status |>
    <| srn_result_summary := Some (doc_summary doc) |>
    <| srn_result_ref := Some result_ref |>
    <| srn_result_digest := Some (result_digest doc) |>
    <| srn_error_code := error_code |>
    <| srn_error_detail_redacted := error_detail |>
    <| srn_version := (expected_version + 1)%Z |>
    <| srn_finished_at := Some finished_at |>.

Definition finish_step_attempt (lease : RunLease) (step_run_id : string)
    (expected_version : Z) (status : PlanStepRunStatus) (doc : PlanStepResultDocument)
    (result_ref : string) (error_code error_detail : option string) : M PlanStepRunRecord :=
  require_lease_scope lease ;;
  lift (check_outcome status doc result_ref error_code error_detail) ;;
  _ ← require_current_executable_lease lease;
  let run_id := leased_run_id lease in
  sid ← require_session;
  d ← gets w_db;
  match head (step_run_rows d sid run_id step_run_id) with
  | None => throw (PlanExecutionBlocked "Plan step attempt does not exist")
  | Some current =>
    require (is_running current)
      (PlanExecutionBlocked "Plan step attempt is no longer running") ;;
    require (Z.eqb (srn_version current) expected_version)
      (VersionConflictError "Plan step attempt version conflict") ;;
    require (same_identity doc current)
      (ValueError "Plan step result identity does not match attempt") ;;
    require (definition_proved d sid doc current)
      (ValueError "Plan step result definition proof is invalid") ;;
    finished_at ← db_now_ms;
    n ← update_running_attempt sid run_id step_run_id expected_version
          (finish_columns status doc result_ref error_code error_detail
             expected_version finished_at);
    require (bool_decide (n = 1%Z))
      (VersionConflictError "Plan step attempt version conflict") ;;
    finished ← read_step_run run_id step_run_id;
    match finished with
    | None => throw (RuntimeError "Plan step attempt missing after finish")
    | Some x => mret x
    end
  end.

Definition cancel_columns (expected_version finished_at : Z) (x : agent_plan_step_run)
    : agent_plan_step_run :=
  x <| srn_status := STEP_CANCELLED |>
    <| srn_version := (expected_version + 1)%Z |>
    <| srn_finished_at := Some finished_at |>.

Definition cancel_step_attempt (lease : RunLease) (step_run_id : string)
    (expected_version : Z) : M (option PlanStepRunRecord) :=
  require_lease_scope lease ;;
  lock_run (rl_context lease) ;;
  current_lease ← plans_has_current_lease lease;
  require current_lease (StaleFenceError "run lease is stale") ;;
  let run_id := leased_run_id lease in
  sid ← require_session;
  d ← gets w_db;
  match head (step_run_rows d sid run_id step_run_id) with
  | None => mret None
  | Some current =>
    if bool_decide (srn_status current = STEP_CANCELLED)
    then mret (Some (hydrate_step_run current))
    else
      require (is_running current && Z.eqb (srn_version current) expected_version)
        (PlanExecutionBlocked "Plan step attempt is no longer running") ;;
      finished_at ← db_now_ms;
      n ← update_running_attempt sid run_id step_run_id expected_version
            (cancel_columns expected_version finished_at);
      require (bool_decide (n = 1%Z))
        (VersionConflictError "Plan step attempt version conflict") ;;
      read_step_run run_id step_run_id
  end.
End Attempts.

(** ** The interface of the readers *)

(** The repository as its readers see it. *)
Definition plan_repository `{Env} : PlanReader := {|
  plans_get := get_plan;
  running_step_attempts := read_running_step_attempts;
  step_run_by_id := read_step_run;
|}.
