(* ===== verification/MemoryRepository.v ===== *)
(** * The memory repository ([src/multiclaw/storage/repositories/memory.py])

    Chat messages, step results and other notes of a tenant's workspace, visible in one
    session or, without a session, in all of them.  A repository is bound to a tenant
    context.  [save] rewrites the entry of the same identity and scope, or inserts it.
    Not modelled: [query], which ranks entries by the words they share with a text. *)

From S2P Require Import Prelude Records Errors Json Regex Tenancy WorkflowModels Storage.
From S2P Require Import Collections PlanStorage Checkpoint PlanValidation PlanSpec.
From S2P Require Import PlanRecords PlanReading WorkflowRepository PlanRepository.
From S2P Require Import PlanDecisions PlanAttempts.
From Stdlib Require Import Ascii.
From stdpp Require Import base gmap strings list.

(** ** Entries ([memory/models.py]) *)

Record MemoryEntry : Type := MkEntry {
  me_id : string;
  me_content : string;
  me_type : string;
  me_session_id : option string;
  me_role : string;
  me_turn_index : Z;
  me_created_at : Z;
  me_metadata : list (string * json);
}.

(** [_normalize_session_scope]. *)
Definition normalize_session_scope (session_id : option string) : option string :=
  match session_id with Some "" => None | s => s end.

Definition metadata_json (metadata : list (string * json)) : string :=
  json_dumps_ascii (JObj metadata).

(** [_load_metadata], and the class accepts only a dict. *)
Definition load_metadata (text : string) : result exn (list (string * json)) :=
  match text with
  | "" => Ok []
  | _ =>
    match json_loads text with
    | None => Err (ValueError "metadata_json")
    | Some (JObj l) => Ok l
    | Some _ => Err ValidationError
    end
  end.

Definition from_row (m : memory_entry) : result exn MemoryEntry :=
  metadata ← load_metadata (mem_metadata_json m);
  Ok {| me_id := mem_id m;
        me_content := mem_content m;
        me_type := mem_type m;
        me_session_id := normalize_session_scope (mem_session_id m);
        me_role := mem_role m;
        me_turn_index := mem_turn_index m;
        me_created_at := mem_created_at m;
        me_metadata := metadata |}.

(** What a caller gives [MemoryEntry(...)]; the identifier is drawn, and the time of the
    constructor is never stored. *)
Definition new_entry `{Env} (content type_ : string) (session_id : option string)
    (role : string) (turn_index : Z) (metadata : list (string * json)) : M MemoryEntry :=
  id ← uuid4;
  mret {| me_id := id;
          me_content := content;
          me_type := type_;
          me_session_id := normalize_session_scope session_id;
          me_role := role;
          me_turn_index := turn_index;
          me_created_at := 0;
          me_metadata := metadata |}.

(** ** The repository *)

(** [LIKE ... ESCAPE e]: a character after [e] stands for itself. *)
Fixpoint like_escape (e : ascii) (pattern s : list ascii) {struct pattern} : bool :=
  match pattern with
  | [] => match s with [] => true | _ => false end
  | c :: p =>
    if Ascii.eqb c e then
      match p, s with
      | c :: p, x :: s => Ascii.eqb (ascii_lower c) (ascii_lower x) && like_escape e p s
      | _, _ => false
      end
    else if Ascii.eqb c "%"%char then
      (fix any (s : list ascii) : bool :=
         like_escape e p s || match s with [] => false | _ :: s' => any s' end) s
    else if Ascii.eqb c "_"%char then
      match s with [] => false | _ :: s' => like_escape e p (drop_continuation s') end
    else
      match s with
      | [] => false
      | x :: s' => Ascii.eqb (ascii_lower c) (ascii_lower x) && like_escape e p s'
      end
  end.

Definition UNLISTED_TYPES : list string :=
  ["tool_result"; "run_event"; "run_journal"; "run_usage"; "tenant_usage"; "run_queue"].

Section Memory.
Context `{Env} (ctx : TenantContext).

Definition in_workspace (m : memory_entry) : bool :=
  bool_decide (mem_tenant_id m = tc_tenant_id ctx) &&
  bool_decide (mem_workspace_id m = tc_workspace_id ctx).

Definition visibility_filter (include_long_term : bool) (m : memory_entry) : bool :=
  match tc_session_id ctx with
  | None => bool_decide (mem_session_id m = None)
  | Some s =>
    bool_decide (mem_session_id m = Some s) ||
    (include_long_term && bool_decide (mem_session_id m = None))
  end.

(** The row of an identifier in this workspace and in exactly this session. *)
Definition exact_row (d : Db) (entry_id : string) (target_session_id : option string)
    : option memory_entry :=
  m ← memory_entries d !! entry_id;
  if in_workspace m && bool_decide (mem_session_id m = target_session_id)
  then Some m else None.

Definition get_row (entry_id : string) (target_session_id : option string)
    : M (option MemoryEntry) :=
  d ← gets w_db;
  match exact_row d entry_id target_session_id with
  | None => mret None
  | Some m => e ← lift (from_row m); mret (Some e)
  end.

Definition memory_get (entry_id : string) (target_session_id : option string)
    : M (option MemoryEntry) := get_row entry_id target_session_id.

Definition prepare_entry (e : MemoryEntry) : result exn MemoryEntry :=
  if bool_decide (me_type e = "chat_message") then
    match tc_session_id ctx with
    | None => Err (ValueError "session_id is required for chat_message entries")
    | Some s =>
      let session_id := default s (me_session_id e) in
      _ ← ensure (bool_decide (session_id = s))
            (ValueError "session_id must match the current context");
      Ok {| me_id := me_id e; me_content := me_content e; me_type := me_type e;
            me_session_id := Some session_id; me_role := me_role e;
            me_turn_index := me_turn_index e; me_created_at := me_created_at e;
            me_metadata := me_metadata e |}
    end
  else
    match me_session_id e with
    | None => Ok e
    | Some s =>
      _ ← ensure (bool_decide (tc_session_id ctx = Some s))
            (ValueError "session_id must match the current context");
      Ok e
    end.

Definition entry_row (e : MemoryEntry) (now : Z) : memory_entry := {|
  mem_id := me_id e;
  mem_tenant_id := tc_tenant_id ctx;
  mem_workspace_id := tc_workspace_id ctx;
  mem_session_id := me_session_id e;
  mem_content := me_content e;
  mem_type := me_type e;
  mem_role := me_role e;
  mem_turn_index := me_turn_index e;
  mem_created_at := now;
  mem_metadata_json := metadata_json (me_metadata e);
|}.

(** The number of rows it rewrites. *)
Definition full_scope_update (e : MemoryEntry) : M Z :=
  now ← db_now_ms;
  d ← gets w_db;
  match exact_row d (me_id e) (me_session_id e) with
  | None => mret 0%Z
  | Some _ =>
    set_db (d <| memory_entries := <[me_id e := entry_row e now]> (memory_entries d) |>) ;;
    mret 1%Z
  end.

Definition insert_entry (e : MemoryEntry) : M unit :=
  now ← db_now_ms;
  insert_memory_entries (entry_row e now).

Definition save (entry : MemoryEntry) : M MemoryEntry :=
  e ← lift (prepare_entry entry);
  n ← full_scope_update e;
  (if bool_decide (n = 0%Z) then
     catch (savepoint any_exception (insert_entry e))
       (λ x, if is_integrity_error x then
               n ← full_scope_update e;
               if bool_decide (n = 0%Z) then throw x else mret tt
             else throw x)
   else mret tt) ;;
  saved ← get_row (me_id e) (me_session_id e);
  assert_some saved.

(** ** Lists of entries *)

Definition newest_entry_first (a b : memory_entry) : bool :=
  Z.ltb (mem_created_at b) (mem_created_at a) ||
  (Z.eqb (mem_created_at a) (mem_created_at b) &&
   (Z.ltb (mem_turn_index b) (mem_turn_index a) ||
    (Z.eqb (mem_turn_index a) (mem_turn_index b) && String.leb (mem_id b) (mem_id a)))).

Definition of_type (entry_type : option string) (m : memory_entry) : bool :=
  match entry_type with
  | Some t => bool_decide (mem_type m = t)
  | None => bool_decide (mem_type m ∉ UNLISTED_TYPES)
  end.

Definition load_rows (entry_type : option string) (limit : option nat)
    (include_long_term : bool) : M (list MemoryEntry) :=
  require (negb (bool_decide (entry_type = Some "chat_message") &&
                 bool_decide (tc_session_id ctx = None)))
    (ValueError "session_id is required for chat_message queries") ;;
  d ← gets w_db;
  let found := sort_by newest_entry_first
    (List.filter (λ m, in_workspace m && of_type entry_type m &&
                       visibility_filter include_long_term m) (rows (memory_entries d))) in
  lift (mapM from_row match limit with Some n => take n found | None => found end).

Definition recent (limit : nat) (entry_type : option string) : M (list MemoryEntry) :=
  load_rows entry_type (Some limit) false.

(** The newest entries whose contents, joined by one character, fit in [max_chars]. *)
Fixpoint select_entries (max_chars used : Z) (selected l : list MemoryEntry)
    : list MemoryEntry :=
  match l with
  | [] => selected
  | e :: l =>
    let separator := match selected with [] => 0%Z | _ => 1%Z end in
    let next := (used + separator + utf8_length (me_content e))%Z in
    if Z.ltb max_chars next then select_entries max_chars used selected l
    else select_entries max_chars next (e :: selected) l
  end.

Definition memory_context (max_chars : Z) (limit : nat) (entry_type : option string)
    : M (list MemoryEntry) :=
  l ← recent limit entry_type;
  mret (select_entries max_chars 0 [] l).

(** ** The final summary of a run *)

Definition escape_like (s : string) : list ascii :=
  flat_map (λ c, if Ascii.eqb c "^"%char || Ascii.eqb c "%"%char || Ascii.eqb c "_"%char
                 then ["^"%char; c] else [c]) (String.list_ascii_of_string s).

Definition final_summary_row (session_id run_id : string) (m : memory_entry) : bool :=
  let text := String.list_ascii_of_string (mem_metadata_json m) in
  let chars := String.list_ascii_of_string in
  in_workspace m && bool_decide (mem_session_id m = Some session_id) &&
  bool_decide (mem_type m = "chat_message") && bool_decide (mem_role m = "assistant") &&
  like_escape "^" (chars ("%" +:+ quoted "kind" +:+ ":" +:+ quoted "plan_final_summary" +:+ "%"))
    text &&
  like_escape "^" (chars ("%" +:+ quoted "run_id" +:+ ":" +:+ ch DQUOTE) ++
                   escape_like run_id ++ chars (ch DQUOTE +:+ "%")) text.

Definition is_final_summary (run_id : string) (m : memory_entry) : bool :=
  match json_loads (mem_metadata_json m) with
  | Some (JObj l) =>
    match field "kind" l, field "run_id" l with
    | Some (JStr k), Some (JStr r) =>
      bool_decide (k = "plan_final_summary") && bool_decide (r = run_id)
    | _, _ => false
    end
  | _ => false
  end.

Definition has_final_summary (run_id : string) : M bool :=
  match tc_session_id ctx with
  | None => mret false
  | Some s =>
    d ← gets w_db;
    mret (existsb (is_final_summary run_id)
            (List.filter (final_summary_row s run_id) (rows (memory_entries d))))
  end.

(** ** Forgetting *)

(** The source message of a Plan cannot be deleted. *)
Definition is_source_message (d : Db) (m : memory_entry) : bool :=
  exists_row (λ p, bool_decide (pl_tenant_id p = mem_tenant_id m) &&
                   bool_decide (pl_workspace_id p = mem_workspace_id m) &&
                   bool_decide (Some (pl_session_id p) = mem_session_id m) &&
                   bool_decide (pl_source_message_id p = mem_id m)) (agent_plans d).

Definition forget (entry_id : string) : M unit :=
  d ← gets w_db;
  match memory_entries d !! entry_id with
  | Some m =>
    if in_workspace m && visibility_filter true m then
      require (negb (is_source_message d m))
        (IntegrityError (ForeignKeyFailed "fk_agent_plans_source_message_memory_entries")) ;;
      set_db (d <| memory_entries := delete entry_id (memory_entries d) |>)
    else mret tt
  | None => mret tt
  end.
End Memory.
