(* ===== verification/PlanResults.v ===== *)
(** * Step results as stored documents ([planner/models.py], [planner/execution.py] and
    [workflow/continuation.py])

    The result of an attempt is a document: canonical JSON in a memory entry, referred to
    as [memory:<id>] and identified by its digest.  It is read back with
    [model_validate_json], which checks every field again. *)

From S2P Require Import Prelude Records Errors Json Regex Tenancy WorkflowModels Storage.
From S2P Require Import Collections PlanStorage Checkpoint PlanValidation PlanSpec.
From S2P Require Import PlanRecords PlanReading WorkflowRepository PlanRepository.
From S2P Require Import PlanDecisions PlanAttempts MemoryRepository.
From Stdlib Require Import Ascii.
From stdpp Require Import base gmap strings list.

(** ** The class *)

Definition EvidenceText (s : string) : bool := str_between 1 2000 s.

Definition PlanStepResultDocument_ok (r : PlanStepResultDocument) : bool :=
  Z.eqb (doc_schema_version r) 1 &&
  uuid_pattern_field (doc_plan_id r) && Z.leb 1 (doc_plan_version r) &&
  uuid_pattern_field (doc_run_id r) && uuid_pattern_field (doc_step_id r) &&
  uuid_pattern_field (doc_step_run_id r) &&
  Z.leb 1 (doc_attempt r) && Z.leb (doc_attempt r) 20 &&
  bool_decide (doc_status r ∈ ["succeeded"; "failed"]) &&
  str_between 1 4000 (doc_summary r) &&
  count_between 0 20 (doc_evidence r) && forallb EvidenceText (doc_evidence r) &&
  SHA256_PATTERN (doc_definition_digest r) &&
  count_between 0 20 (doc_dependency_result_digests r) &&
  forallb (λ kv, LOGICAL_STEP_KEY kv.1 && SHA256_PATTERN kv.2)
    (doc_dependency_result_digests r) &&
  SHA256_PATTERN (doc_tool_catalog_digest r) && SHA256_PATTERN (doc_policy_digest r) &&
  SHA256_PATTERN (doc_skill_set_digest r).

(** [PlanStepResultDocument(...)]. *)
Definition make_document (r : PlanStepResultDocument) : result exn PlanStepResultDocument :=
  if PlanStepResultDocument_ok r then Ok r else Err ValidationError.

Definition str_list_field (k : string) (d : list (string * json)) : option (list string) :=
  match field k d with Some (JArr l) => mapM as_string l | _ => None end.

Definition str_dict_field (k : string) (d : list (string * json))
    : option (list (string * string)) :=
  match field k d with
  | Some (JObj l) => mapM (λ kv, s ← as_string kv.2; Some (kv.1, s)) l
  | _ => None
  end.

Definition RESULT_FIELDS : list string :=
  ["plan_id"; "plan_version"; "run_id"; "step_id"; "step_run_id"; "attempt"; "status";
   "summary"; "evidence"; "definition_digest"; "dependency_result_digests";
   "tool_catalog_digest"; "policy_digest"; "skill_set_digest"].

Definition document_shape (d : list (string * json)) : option PlanStepResultDocument :=
  _ ← only_fields RESULT_FIELDS d;
  _ ← schema_version_field d;
  plan_id ← str_field "plan_id" d;
  plan_version ← int_field "plan_version" d;
  run_id ← str_field "run_id" d;
  step_id ← str_field "step_id" d;
  step_run_id ← str_field "step_run_id" d;
  attempt ← int_field "attempt" d;
  status ← str_field "status" d;
  summary ← str_field "summary" d;
  evidence ← str_list_field "evidence" d;
  definition_digest ← str_field "definition_digest" d;
  dependencies ← str_dict_field "dependency_result_digests" d;
  tool_catalog_digest ← str_field "tool_catalog_digest" d;
  policy_digest ← str_field "policy_digest" d;
  skill_set_digest ← str_field "skill_set_digest" d;
  Some (MkPlanStepResultDocument 1 plan_id plan_version run_id step_id step_run_id attempt
          status summary evidence definition_digest dependencies tool_catalog_digest
          policy_digest skill_set_digest).

(** [model_validate_json]; [None] is a [ValidationError]. *)
Definition model_validate_json (content : string) : option PlanStepResultDocument :=
  match json_loads content with
  | Some (JObj d) =>
    r ← document_shape d;
    if PlanStepResultDocument_ok r then Some r else None
  | _ => None
  end.

(** ** References *)

Definition MAX_PLAN_STEP_RESULT_BYTES : Z := 262144.

Definition ref_char (c : ascii) : bool := is_alnum c || Ascii.eqb c "-"%char.

(** [_RESULT_REF.fullmatch], and its group. *)
Definition RESULT_REF (ref : string) : option string :=
  id ← strip "memory:" ref;
  if Nat.leb 1 (String.length id) && Nat.leb (String.length id) 64 &&
     forallb ref_char (String.list_ascii_of_string id)
  then Some id else None.

(** ** Writing a result ([continuation.persist_plan_step_result]) *)

Section Results.
Context `{Env}.

Definition result_metadata (r : PlanStepResultDocument) : list (string * json) :=
  [("schema_version", JInt 1); ("plan_id", JStr (doc_plan_id r));
   ("step_run_id", JStr (doc_step_run_id r))].

(** Gives the reference. *)
Definition persist_plan_step_result (c : TenantContext) (r : PlanStepResultDocument)
    : M string :=
  require (bool_decide (is_Some (tc_session_id c)))
    (ValueError "session_id is required for Plan step result persistence") ;;
  let content := result_canonical_json r in
  require (Z.leb (Z.of_nat (String.length content)) MAX_PLAN_STEP_RESULT_BYTES)
    (ValueError "Plan step result document exceeds 262144 bytes") ;;
  e ← new_entry content "plan_step_result" (tc_session_id c) "assistant" 0
        (result_metadata r);
  e ← save c e;
  mret ("memory:" +:+ me_id e).

(** ** Reading a result *)

Definition metadata_str (k v : string) (e : MemoryEntry) : bool :=
  bool_decide (str_field k (me_metadata e) = Some v).

(** The entry is a result of this attempt. *)
Definition is_result_entry (plan_id step_run_id : string) (e : MemoryEntry) : bool :=
  bool_decide (me_type e = "plan_step_result") && bool_decide (me_role e = "assistant") &&
  py_equals_int (field "schema_version" (me_metadata e)) 1 &&
  metadata_str "plan_id" plan_id e && metadata_str "step_run_id" step_run_id e.
End Results.

(** ** Documents survive being stored *)

(** The document as it is read back: the dependencies in the order of their keys. *)
Definition in_key_order (r : PlanStepResultDocument) : PlanStepResultDocument :=
  MkPlanStepResultDocument (doc_schema_version r) (doc_plan_id r) (doc_plan_version r)
    (doc_run_id r) (doc_step_id r) (doc_step_run_id r) (doc_attempt r) (doc_status r)
    (doc_summary r) (doc_evidence r) (doc_definition_digest r)
    (sort_by key_leb (doc_dependency_result_digests r)) (doc_tool_catalog_digest r)
    (doc_policy_digest r) (doc_skill_set_digest r).

Lemma plain_dump_result r :
  NoDup (map fst (doc_dependency_result_digests r)) → plain (dump_result r) = true.
Proof.
  intros Hn. unfold dump_result. cbn [plain forallb snd].
  assert (He : forallb plain (map JStr (doc_evidence r)) = true).
  { apply forallb_forall. by intros j (s&<-&_)%in_map_iff. }
  assert (Hd : forallb (λ kv, plain kv.2)
    (map (λ kv : string * string, (kv.1, JStr kv.2)) (doc_dependency_result_digests r)) = true).
  { apply forallb_forall. by intros kv (s&<-&_)%in_map_iff. }
  rewrite He, Hd, map_map, (bool_decide_eq_true_2 _ Hn). reflexivity.
Qed.

Lemma canon_strings l : map canon (map JStr l) = map JStr l.
Proof. rewrite map_map. by apply map_ext. Qed.

Lemma mapM_strings l : mapM as_string (map JStr l) = Some l.
Proof. apply mapM_Some_2. induction l; simpl; by constructor. Qed.

Lemma canon_dump_result r :
  canon (dump_result r) =
  JObj (sort_by key_leb
    (match dump_result (in_key_order r) with JObj l => l | _ => [] end)).
Proof.
  unfold dump_result. cbn [canon map fst snd]. rewrite canon_strings.
  do 2 f_equal. unfold in_key_order. cbn [doc_schema_version doc_plan_id doc_plan_version
    doc_run_id doc_step_id doc_step_run_id doc_attempt doc_status doc_summary doc_evidence
    doc_definition_digest doc_dependency_result_digests doc_tool_catalog_digest
    doc_policy_digest doc_skill_set_digest].
  do 11 f_equal. do 2 f_equal. rewrite map_map.
  rewrite (sort_by_map key_leb key_leb (λ kv : string * string, (kv.1, JStr kv.2))) by done.
  by rewrite <-(sort_by_map key_leb key_leb (λ kv : string * string, (kv.1, canon (JStr kv.2)))).
Qed.

Lemma document_shape_sorted r :
  doc_schema_version r = 1%Z →
  document_shape (sort_by key_leb (match dump_result r with JObj l => l | _ => [] end)) = Some r.
Proof.
  destruct r as [v p pv ru st sr at_ status su ev dd deps tc po sk]. cbn [doc_schema_version].
  intros ->. unfold dump_result. cbn [doc_schema_version doc_plan_id doc_plan_version
    doc_run_id doc_step_id doc_step_run_id doc_attempt doc_status doc_summary doc_evidence
    doc_definition_digest doc_dependency_result_digests doc_tool_catalog_digest
    doc_policy_digest doc_skill_set_digest].
  assert (He := mapM_strings ev).
  assert (Hd : mapM (λ kv : string * json, s ← as_string kv.2; Some (kv.1, s))
                 (map (λ kv : string * string, (kv.1, JStr kv.2)) deps) = Some deps).
  { apply mapM_Some_2. clear. induction deps as [|[k s] l IH]; simpl; by constructor. }
  revert He Hd. generalize (map JStr ev) as je.
  generalize (map (λ kv : string * string, (kv.1, JStr kv.2)) deps) as jd. intros jd je He Hd.
  unfold document_shape.
  change (str_list_field "evidence" ?l) with (mapM as_string je).
  change (str_dict_field "dependency_result_digests" ?l)
    with (mapM (λ kv : string * json, s ← as_string kv.2; Some (kv.1, s)) jd).
  rewrite He, Hd. reflexivity.
Qed.

Lemma count_between_perm {A} a b (l l' : list A) :
  l ≡ₚ l' → count_between a b l = count_between a b l'.
Proof. intros Hp. unfold count_between. by rewrite (Permutation_length Hp). Qed.

Lemma in_key_order_ok r :
  PlanStepResultDocument_ok r = true → PlanStepResultDocument_ok (in_key_order r) = true.
Proof.
  unfold PlanStepResultDocument_ok, in_key_order. simpl.
  rewrite (count_between_perm _ _ _ _ (sort_by_perm key_leb (doc_dependency_result_digests r))).
  by rewrite (forallb_perm _ _ _ (sort_by_perm key_leb (doc_dependency_result_digests r))).
Qed.

(** A document that is well formed is read back, in key order. *)
Lemma document_reads_back r :
  PlanStepResultDocument_ok r = true → NoDup (map fst (doc_dependency_result_digests r)) →
  model_validate_json (result_canonical_json r) = Some (in_key_order r).
Proof.
  intros Hok Hn. unfold model_validate_json, result_canonical_json.
  rewrite json_loads_print by (by apply plain_dump_result). rewrite canon_dump_result.
  rewrite document_shape_sorted; [by cbn; rewrite in_key_order_ok|].
  unfold PlanStepResultDocument_ok in Hok. rewrite !andb_true_iff, Z.eqb_eq in Hok. tauto.
Qed.

Lemma in_key_order_idem r : in_key_order (in_key_order r) = in_key_order r.
Proof.
  unfold in_key_order. simpl. f_equal. apply sort_by_ordered_id.
  by apply (sort_by_ordered key_leb), key_leb_total.
Qed.

(** Reading back does not change the text, hence not the digest. *)
Lemma in_key_order_text r : result_canonical_json (in_key_order r) = result_canonical_json r.
Proof.
  unfold result_canonical_json. rewrite <-(print_canon (dump_result r)).
  rewrite <-(print_canon (dump_result (in_key_order r))).
  by rewrite !canon_dump_result, in_key_order_idem.
Qed.

(** Two documents with the same text differ in the order of their dependencies at most. *)
Lemma canonical_json_inj r r' :
  NoDup (map fst (doc_dependency_result_digests r)) →
  NoDup (map fst (doc_dependency_result_digests r')) →
  PlanStepResultDocument_ok r = true → PlanStepResultDocument_ok r' = true →
  result_canonical_json r = result_canonical_json r' → in_key_order r = in_key_order r'.
Proof.
  intros Hn Hn' Hok Hok' Heq.
  pose proof (document_reads_back r Hok Hn) as H1. rewrite Heq in H1.
  rewrite document_reads_back in H1 by done. congruence.
Qed.
