(* ===== verification/PlanGenerator.v ===== *)
(** * Asking a model for a plan ([planner/policy.py] and [planner/generator.py])

    The policy decides whether a request is planned at all; the generator asks a language
    model for a plan, validates what comes back and asks once more with a repair message.
    Whatever the model is sent has gone through [sanitize_plan_text].

    The model behind the router is outside the source, and so are the locations that the
    validation library reports for a draft it refuses: both are parameters. *)

From S2P Require Import Prelude Records Errors Json Regex Tenancy WorkflowModels Storage.
From S2P Require Import Collections PlanStorage Checkpoint PlanValidation PlanSpec.
From S2P Require Import PlanRecords PlanReading WorkflowRepository PlanRepository.
From S2P Require Import PlanDecisions PlanAttempts MemoryRepository PlanResults.
From Stdlib Require Import Ascii.
From stdpp Require Import base gmap strings list.

(** ** The router *)

Record message : Type := MkMessage { msg_role : string; msg_content : string }.

(** A completion: the provider fails, its answer cannot be parsed, or it answers with tool
    calls ([None] when the answer has no list of them), each a name and its arguments. *)
Inductive completion : Type :=
| LLMProviderError
| LLMResponseParseError
| LLMResponse (tool_calls : option (list (string * json))).

(** [router.completion(model, messages, tools)]: the model, the one tool offered, the
    messages. *)
Definition router : Type := string → string → list message → completion.

(** Where [PlanDraft.model_validate] finds errors in a value: the parts of each place. *)
Definition error_reporter : Type := json → list (list string).

(** ** Policy *)

Inductive PlanningMode : Type := MODE_AUTO | MODE_ALWAYS | MODE_NEVER.
Inductive PlanningRoute : Type := ROUTE_DIRECT | ROUTE_PLAN.

Record PlanningDecision : Type := MkPlanningDecision {
  pld_mode : PlanningRoute;
  pld_reason : string;
}.

Definition route_of_value (s : string) : option PlanningRoute :=
  if String.eqb s "direct" then Some ROUTE_DIRECT
  else if String.eqb s "plan" then Some ROUTE_PLAN else None.

(** [PlanningDecision.model_validate]; [None] is a [ValidationError]. *)
Definition decision_of_json (j : json) : option PlanningDecision :=
  match j with
  | JObj d =>
    if forallb (λ kv, bool_decide (kv.1 ∈ ["mode"; "reason"])) d then
      mode ← str_field "mode" d ≫= route_of_value;
      reason ← str_field "reason" d;
      if str_between 0 500 reason then Some (MkPlanningDecision mode reason) else None
    else None
  | _ => None
  end.

Section Policy.
Context `{UnicodeData} (ask : router) (default_model classification_model : string).

Definition or_default (a b : string) : string := match a with "" => b | _ => a end.

Definition CLASSIFY_PROMPT : string :=
  "Classify whether the request requires a dependent multi-step plan. Return exactly one classify_planning_request function call.".

(** The model's answer, or [None] for any of the failures that fall back. *)
Definition classify (request : string) : option PlanningDecision :=
  match ask (or_default classification_model default_model) "classify_planning_request"
          [MkMessage "system" CLASSIFY_PROMPT; MkMessage "user" (sanitize_plan_text request)] with
  | LLMResponse (Some [(name, arguments)]) =>
    if String.eqb name "classify_planning_request" then
      d ← decision_of_json arguments;
      let reason := sanitize_plan_text (pld_reason d) in
      if str_between 0 500 reason then Some (MkPlanningDecision (pld_mode d) reason) else None
    else None
  | _ => None
  end.

Definition policy_decide (enabled : bool) (request : string) (mode : PlanningMode)
    : result exn PlanningDecision :=
  match mode with
  | MODE_NEVER => Ok (MkPlanningDecision ROUTE_DIRECT "planning explicitly disabled")
  | MODE_ALWAYS =>
    if enabled then Ok (MkPlanningDecision ROUTE_PLAN "planning explicitly requested")
    else Err (PlanningUnavailableError "planning is disabled")
  | MODE_AUTO =>
    if enabled then
      Ok (default (MkPlanningDecision ROUTE_DIRECT "automatic classification unavailable")
            (classify request))
    else Ok (MkPlanningDecision ROUTE_DIRECT "planning is disabled")
  end.
End Policy.

(** ** What a revision is asked with ([planner/models.py]) *)

Record CompletedStepContext : Type := MkCompletedStepContext {
  csc_logical_step_key : string;
  csc_summary : string;
  csc_result_digest : string;
}.

Record ImmutablePlanStepContext : Type := MkImmutablePlanStepContext {
  isc_logical_step_key : string;
  isc_title : string;
  isc_description : string;
  isc_expected_outcome : string;
  isc_max_attempts : Z;
  isc_definition_digest : string;
  isc_supersedes_step_id : option string;
  isc_depends_on : list string;
}.

Record ImmutablePlanVersionContext : Type := MkImmutablePlanVersionContext {
  ivc_plan_version : Z;
  ivc_content_digest : string;
  ivc_objective : string;
  ivc_constraints : list string;
  ivc_generation_reason : string;
  ivc_steps : list ImmutablePlanStepContext;
}.

Record PlanRevisionContext : Type := MkPlanRevisionContext {
  prc_plan_id : string;
  prc_parent_version : Z;
  prc_feedback : option string;
  prc_failed_step_key : option string;
  prc_failed_error : option string;
  prc_completed : list CompletedStepContext;
  prc_current_plan : option ImmutablePlanVersionContext;
}.

(** The field declarations. *)
Definition CompletedStepContext_ok (c : CompletedStepContext) : bool :=
  LOGICAL_STEP_KEY (csc_logical_step_key c) && str_between 1 4000 (csc_summary c) &&
  SHA256_PATTERN (csc_result_digest c).

Definition ImmutablePlanStepContext_ok (s : ImmutablePlanStepContext) : bool :=
  LOGICAL_STEP_KEY (isc_logical_step_key s) && str_between 1 200 (isc_title s) &&
  str_between 1 4000 (isc_description s) && str_between 1 2000 (isc_expected_outcome s) &&
  Z.leb 1 (isc_max_attempts s) && Z.leb (isc_max_attempts s) 20 &&
  SHA256_PATTERN (isc_definition_digest s) &&
  match isc_supersedes_step_id s with Some i => uuid_pattern_field i | None => true end &&
  count_between 0 20 (isc_depends_on s) && forallb LOGICAL_STEP_KEY (isc_depends_on s).

Definition ImmutablePlanVersionContext_ok (v : ImmutablePlanVersionContext) : bool :=
  Z.leb 1 (ivc_plan_version v) && SHA256_PATTERN (ivc_content_digest v) &&
  str_between 1 16000 (ivc_objective v) &&
  count_between 0 20 (ivc_constraints v) && forallb ConstraintText (ivc_constraints v) &&
  str_between 1 1000 (ivc_generation_reason v) &&
  count_between 1 20 (ivc_steps v) && forallb ImmutablePlanStepContext_ok (ivc_steps v).

Definition PlanRevisionContext_ok (r : PlanRevisionContext) : bool :=
  uuid_pattern_field (prc_plan_id r) && Z.leb 1 (prc_parent_version r) &&
  match prc_feedback r with Some f => str_between 0 8000 f | None => true end &&
  match prc_failed_step_key r with Some k => LOGICAL_STEP_KEY k | None => true end &&
  match prc_failed_error r with Some e => str_between 0 4000 e | None => true end &&
  count_between 0 20 (prc_completed r) && forallb CompletedStepContext_ok (prc_completed r) &&
  match prc_current_plan r with Some v => ImmutablePlanVersionContext_ok v | None => true end.

(** [sorted(steps, key=lambda step: (step.ordinal, step.step_id))]. *)
Definition ordinal_leb (a b : PlanStepRecord) : bool :=
  Z.ltb (pst_ordinal a) (pst_ordinal b) ||
  (Z.eqb (pst_ordinal a) (pst_ordinal b) && String.leb (pst_step_id a) (pst_step_id b)).

Definition in_order (l : list PlanStepRecord) : list PlanStepRecord := sort_by ordinal_leb l.

(** The steps behind a list of identifiers. *)
Definition steps_named (by_id : gmap string PlanStepRecord) (ids : list string)
    : result exn (list PlanStepRecord) :=
  mapM (λ i, match by_id !! i with Some s => Ok s | None => Err KeyError end) ids.

Definition revision_step_context (by_id : gmap string PlanStepRecord)
    (deps : gmap string (list string)) (s : PlanStepRecord)
    : result exn ImmutablePlanStepContext :=
  l ← steps_named by_id (default [] (deps !! pst_step_id s));
  Ok {| isc_logical_step_key := pst_logical_step_key s;
        isc_title := pst_title s;
        isc_description := pst_description s;
        isc_expected_outcome := pst_expected_outcome s;
        isc_max_attempts := pst_max_attempts s;
        isc_definition_digest := pst_definition_digest s;
        isc_supersedes_step_id := pst_supersedes_step_id s;
        isc_depends_on := map pst_logical_step_key (in_order l) |}.

Definition revision_current_plan_context (v : PlanVersionRecord)
    : result exn ImmutablePlanVersionContext :=
  let steps := in_order (pvr_steps v) in
  l ← mapM (revision_step_context (steps_by_id steps) (pvr_dependencies v)) steps;
  let c := {| ivc_plan_version := pvr_plan_version v;
              ivc_content_digest := pvr_content_digest v;
              ivc_objective := pvr_objective v;
              ivc_constraints := pvr_constraints v;
              ivc_generation_reason := pvr_generation_reason v;
              ivc_steps := l |} in
  if ImmutablePlanVersionContext_ok c then Ok c else Err ValidationError.

Definition make_revision_context (r : PlanRevisionContext) : result exn PlanRevisionContext :=
  if PlanRevisionContext_ok r then Ok r else Err ValidationError.

(** [revision.model_dump(mode="json")]. *)
Definition dump_step_context (s : ImmutablePlanStepContext) : json :=
  JObj [("logical_step_key", JStr (isc_logical_step_key s));
        ("title", JStr (isc_title s));
        ("description", JStr (isc_description s));
        ("expected_outcome", JStr (isc_expected_outcome s));
        ("max_attempts", JInt (isc_max_attempts s));
        ("definition_digest", JStr (isc_definition_digest s));
        ("supersedes_step_id", opt_str (isc_supersedes_step_id s));
        ("depends_on", JArr (map JStr (isc_depends_on s)))].

Definition dump_version_context (v : ImmutablePlanVersionContext) : json :=
  JObj [("plan_version", JInt (ivc_plan_version v));
        ("content_digest", JStr (ivc_content_digest v));
        ("objective", JStr (ivc_objective v));
        ("constraints", JArr (map JStr (ivc_constraints v)));
        ("generation_reason", JStr (ivc_generation_reason v));
        ("steps", JArr (map dump_step_context (ivc_steps v)))].

Definition dump_revision (r : PlanRevisionContext) : json :=
  JObj [("plan_id", JStr (prc_plan_id r));
        ("parent_version", JInt (prc_parent_version r));
        ("feedback", opt_str (prc_feedback r));
        ("failed_step_key", opt_str (prc_failed_step_key r));
        ("failed_error", opt_str (prc_failed_error r));
        ("completed", JArr (map (λ c,
           JObj [("logical_step_key", JStr (csc_logical_step_key c));
                 ("summary", JStr (csc_summary c));
                 ("result_digest", JStr (csc_result_digest c))]) (prc_completed r)));
        ("current_plan", match prc_current_plan r with
                         | Some v => dump_version_context v
                         | None => JNull
                         end)].

(** ** Generation *)

Definition step_of_json (j : json) : option PlanDraftStep :=
  match j with
  | JObj d =>
    if forallb (λ kv, bool_decide (kv.1 ∈ ["logical_step_key"; "title"; "description";
                        "expected_outcome"; "depends_on"; "max_attempts"])) d then
      key ← str_field "logical_step_key" d;
      title ← str_field "title" d;
      description ← str_field "description" d;
      expected_outcome ← str_field "expected_outcome" d;
      depends_on ← match field "depends_on" d with
                   | None => Some []
                   | Some _ => str_list_field "depends_on" d
                   end;
      max_attempts ← match field "max_attempts" d with
                     | None => Some 2%Z
                     | Some _ => int_field "max_attempts" d
                     end;
      Some (MkPlanDraftStep key title description expected_outcome depends_on max_attempts)
    else None
  | _ => None
  end.

(** [PlanDraft.model_validate]; [None] is a [ValidationError]. *)
Definition draft_of_json (j : json) : option PlanDraft :=
  match j with
  | JObj d =>
    if forallb (λ kv, bool_decide (kv.1 ∈ ["objective"; "constraints"; "generation_reason";
                        "steps"])) d then
      objective ← str_field "objective" d;
      constraints ← match field "constraints" d with
                    | None => Some []
                    | Some _ => str_list_field "constraints" d
                    end;
      reason ← str_field "generation_reason" d;
      steps ← match field "steps" d with
              | Some (JArr l) => mapM step_of_json l
              | _ => None
              end;
      let draft := MkPlanDraft objective constraints reason steps in
      if PlanDraft_ok draft then Some draft else None
    else None
  | _ => None
  end.

(** [text[:n]]. *)
Definition str_take (n : nat) (s : string) : string := Regex.encode (take n (Regex.decode s)).

Section Generator.
Context `{Env}.
Context (ask : option router) (report : error_reporter).
Context (default_model generation_model : string).

Fixpoint sanitize_prompt_value (value : json) : json :=
  match value with
  | JStr s => JStr (sanitize_plan_text s)
  | JArr l => JArr (map sanitize_prompt_value l)
  | JObj l => JObj (map (λ kv, (kv.1, sanitize_prompt_value kv.2)) l)
  | _ => value
  end.

Definition GENERATE_PROMPT : string :=
  "Create a bounded dependency-aware plan. Return exactly one submit_plan function call. Do not execute the objective.".

Definition NEWLINE : string := ch "010"%char.

Definition initial_messages (objective : string) (revision : option PlanRevisionContext)
    : list message :=
  let user := "Requested objective:" +:+ NEWLINE +:+ objective in
  let user := match revision with
              | None => user
              | Some r => user +:+ NEWLINE +:+ "Credential-redacted revision context:" +:+
                          NEWLINE +:+ print_json (sanitize_prompt_value (dump_revision r))
              end in
  [MkMessage "system" GENERATE_PROMPT; MkMessage "user" user].

(** Why an answer was refused. *)
Inductive refusal : Type :=
| BadDraft (arguments : json)
| BadStructure (location : string)
| BadPlan.

Definition validation_locations (e : refusal) : list string :=
  match e with
  | BadDraft arguments =>
    let locations := map (λ parts,
        or_default (str_take 256 (Json.join "." (map (λ p, str_take 64 (sanitize_plan_text p))
                                                   parts))) "plan")
      (take 8 (report arguments)) in
    match locations with [] => ["plan"] | _ => locations end
  | BadStructure location => [str_take 256 location]
  | BadPlan => ["plan"]
  end.

Definition repair_message (e : refusal) : message :=
  let error_class := match e with
                     | BadDraft _ => "ValidationError"
                     | _ => "PlanValidationError"
                     end in
  MkMessage "system"
    ("Invalid structured response; error_class=" +:+ error_class +:+ "; field_locations=" +:+
     Json.join "," (validation_locations e) +:+
     ". Return exactly one valid submit_plan function call.").

(** [_validated_response], with the exceptions that [_validate_response] turns into a
    repair message as refusals; no other exception can be raised. *)
Definition validated_response (tool_calls : option (list (string * json)))
    (safe_objective : string) (limits : PlanLimits) : refusal + ValidatedPlanDraft :=
  match tool_calls with
  | None => inl (BadStructure "response")
  | Some [(name, arguments)] =>
    if negb (String.eqb name "submit_plan") then inl (BadStructure "tool_calls.0.name") else
    match draft_of_json arguments with
    | None => inl (BadDraft arguments)
    | Some draft =>
      let draft := {| pd_objective := safe_objective;
                      pd_constraints := pd_constraints draft;
                      pd_generation_reason := pd_generation_reason draft;
                      pd_steps := pd_steps draft |} in
      match validate_plan_draft draft limits with
      | Ok v => inr v
      | Err ValidationError => inl (BadDraft arguments)  (* the draft has passed the same
                                                           declarations already *)
      | Err _ => inl BadPlan
      end
    end
  | Some _ => inl (BadStructure "tool_calls")
  end.

(** The answer to one request. *)
Definition ask_once (ask : router) (messages : list message) (safe_objective : string)
    (limits : PlanLimits) : result exn (message + ValidatedPlanDraft) :=
  match ask (or_default generation_model default_model) "submit_plan" messages with
  | LLMProviderError => Err (PlanGenerationError "plan generation unavailable")
  | LLMResponseParseError => Ok (inl (repair_message (BadStructure "response")))
  | LLMResponse tool_calls =>
    match validated_response tool_calls safe_objective limits with
    | inl e => Ok (inl (repair_message e))
    | inr v => Ok (inr v)
    end
  end.

(** [reserve attempt] runs before each request. *)
Definition generate (objective : string) (revision : option PlanRevisionContext)
    (limits : PlanLimits) (reserve : nat → M unit) : M ValidatedPlanDraft :=
  match ask with
  | None => throw (PlanGenerationError "plan generation unavailable")
  | Some ask =>
    let safe_objective := sanitize_plan_text objective in
    require (negb (blank safe_objective) && Z.leb (utf8_length safe_objective) 16000)
      (PlanGenerationError "invalid planning objective") ;;
    let messages := initial_messages safe_objective revision in
    reserve 0%nat ;;
    first ← lift (ask_once ask messages safe_objective limits);
    match first with
    | inr v => mret v
    | inl repair =>
      reserve 1%nat ;;
      second ← lift (ask_once ask (messages ++ [repair]) safe_objective limits);
      match second with
      | inr v => mret v
      | inl _ => throw (PlanGenerationError "two invalid structured responses")
      end
    end
  end.
End Generator.

(** [PlanningService._draft] of a validated plan. *)
Definition draft_of_validated (v : ValidatedPlanDraft) : PlanDraft := {|
  pd_objective := objective v;
  pd_constraints := constraints v;
  pd_generation_reason := generation_reason v;
  pd_steps := map vps_step (steps v);
|}.
