(* ===== verification/PlanContent.v ===== *)
(** * What a stored version of a Plan is

    A version is one row, the rows of its steps and the rows of its dependencies.
    [Content] is what they were written from: an accepted plan, the identifiers drawn for
    its steps, and the circumstances of the revision; [holds d k n c] says that version
    [n] of the Plan [k] consists of exactly the rows of [c].  The theorem of this file:
    reading those rows back succeeds, passes the integrity check and gives
    [content_record k n c], which spells out the accepted plan again. *)

From S2P Require Import Prelude Records Errors Json Regex Tenancy WorkflowModels Storage.
From S2P Require Import Collections PlanStorage Checkpoint PlanValidation PlanOrder.
From S2P Require Import PlanSpec.
From S2P Require Import PlanRecords PlanReading WorkflowRepository PlanRepository.
From stdpp Require Import base gmap strings list sorting fin_maps.

(** ** Accepted plans *)

Definition accepted `{UnicodeData} (v : ValidatedPlanDraft) : Prop :=
  ∃ d lim, validate_plan_draft d lim = Ok v.

(** What the store relies on. *)
Record well_planned (v : ValidatedPlanDraft) : Prop := {
  wpl_keys : NoDup (plan_keys v);
  wpl_ordinals : map ordinal (steps v) = map Z.of_nat (seq 1 (length (steps v)));
  wpl_known (s : ValidatedPlanStep) x :
    s ∈ steps v → x ∈ depends_on s → x ∈ plan_keys v ∧ x ≠ logical_step_key s;
  wpl_distinct (s : ValidatedPlanStep) : s ∈ steps v → NoDup (depends_on s);
  wpl_sorted (s : ValidatedPlanStep) : s ∈ steps v →
    StronglySorted (λ x y, by_index (indexes (plan_keys v)) x y = true) (depends_on s);
  wpl_ok : ValidatedPlanDraft_ok v = true;
}.

Lemma by_index_transitive o x y z :
  by_index o x y = true → by_index o y z = true → by_index o x z = true.
Proof. unfold by_index. rewrite !Nat.leb_le. lia. Qed.

Lemma accepted_well_planned `{UnicodeData} v : accepted v → well_planned v.
Proof.
  intros (d&lim&Hv). destruct (validated_order _ _ _ Hv) as (Hn&o&Ho&Heq).
  pose proof (order_keys _ _ _ _ Ho) as Hp.
  pose proof (accepted_plan_of d lim o Hn Ho) as Hof. rewrite <-Heq in Hof.
  assert (Hkeys : plan_keys v = o) by (rewrite Heq; by apply arranged_keys).
  assert (Hstep : ∀ s : ValidatedPlanStep, s ∈ steps v → ∃ s0, s0 ∈ pd_steps d ∧
    same_step s s0 ∧ depends_on s = sort_by (by_index (indexes o)) (depends_on s0)).
  { intros s Hs. rewrite Heq in Hs. apply list_elem_of_lookup_1 in Hs as [i Hi].
    apply arranged_at in Hi as (x&Hx&->).
    destruct (placed d o Hn Hp (S i, x)) as (s0&Hs0&_&Hl&Hsame);
      [by eapply list_elem_of_lookup_2|].
    exists s0. split_and!; [done|done|]. unfold place. by rewrite Hl. }
  split.
  - apply Hof.
  - apply Hof.
  - intros s x Hs Hx. destruct (plan_ordered _ _ _ Hof s x Hs Hx) as (t&Ht&<-&Hlt).
    split; [unfold plan_keys; apply list_elem_of_fmap; eauto|].
    intros Hk. assert (t = s) as ->; [|lia].
    apply list_elem_of_lookup_1 in Hs as [i Hi], Ht as [j Hj].
    pose proof (plan_keys_unique _ _ _ Hof) as Hnd. unfold plan_keys in Hnd.
    assert (i = j) as ->; [|congruence].
    eapply NoDup_lookup; [exact Hnd| |]; rewrite list_lookup_fmap; [by rewrite Hi|].
    rewrite Hj. simpl. by rewrite Hk.
  - intros s Hs. destruct (Hstep s Hs) as (s0&Hs0&_&->). rewrite sort_by_perm.
    apply (order_steps _ _ _ _ Ho s0 Hs0).
  - intros s Hs. destruct (Hstep s Hs) as (s0&Hs0&_&->). rewrite Hkeys.
    apply ordered_strongly; [apply by_index_transitive|apply sort_by_ordered, by_index_total].
  - apply validate_plan_draft_Ok in Hv. naive_solver.
Qed.

(** ** Content *)

Record Content : Type := MkContent {
  c_plan : ValidatedPlanDraft;
  c_ids : list string;
  c_supersedes : gmap string string;
  c_parent : option Z;
  c_feedback : option string;
  c_created_at : Z;
}.

(** The identifier of the step with a key. *)
Definition id_map (c : Content) : gmap string string :=
  list_to_map (zip (plan_keys (c_plan c)) (c_ids c)).
Definition id_of (c : Content) (key : string) : string := default "" (id_map c !! key).

Record content_ok (c : Content) : Prop := {
  cok_plan : well_planned (c_plan c);
  cok_length : length (c_ids c) = length (steps (c_plan c));
  cok_ids : NoDup (c_ids c);
}.

Section Rows.
Context `{Env} (k : plan_key) (n : Z) (c : Content).

Definition content_row : agent_plan_version :=
  version_row k n (c_plan c) (c_parent c) (c_feedback c) (c_created_at c).
Definition content_steps : list agent_plan_step :=
  zip_with (step_row k n (c_supersedes c)) (c_ids c) (steps (c_plan c)).
Definition content_pairs : list (string * string) :=
  map (λ sx, (id_of c sx.1, id_of c sx.2)) (dependency_pairs (steps (c_plan c))).
Definition content_dependencies : list agent_plan_step_dependency :=
  map (dependency_row k n) content_pairs.

(** The dependencies of each step that has any, in the order of the plan. *)
Definition step_dependency_ids (s : ValidatedPlanStep) : option (list string) :=
  match depends_on s with [] => None | l => Some (map (id_of c) l) end.
Definition content_dependency_ids : gmap string (list string) :=
  list_to_map (omap (λ js, pair js.1 <$> step_dependency_ids js.2)
    (zip (c_ids c) (steps (c_plan c)))).

Definition content_record : PlanVersionRecord := {|
  pvr_plan_id := k.2;
  pvr_plan_version := n;
  pvr_objective := objective (c_plan c);
  pvr_constraints := constraints (c_plan c);
  pvr_generation_reason := generation_reason (c_plan c);
  pvr_parent_version := c_parent c;
  pvr_revision_feedback := c_feedback c;
  pvr_schema_version := 1;
  pvr_content_digest := plan_content_digest (c_plan c);
  pvr_created_at := c_created_at c;
  pvr_steps := map hydrate_step content_steps;
  pvr_dependencies := content_dependency_ids;
|}.

(** Version [n] of the Plan consists of these rows and no others. *)
Record holds (d : Db) : Prop := {
  holds_row : agent_plan_versions d !! (k, n) = Some content_row;
  holds_steps s :
    s ∈ content_steps ↔
    agent_plan_steps d !! ste_step_id s = Some s ∧ step_scope s = k ∧ ste_plan_version s = n;
  holds_dependencies x :
    x ∈ content_dependencies ↔
    agent_plan_step_dependencies d !! dependency_key x = Some x ∧
    dependency_scope x = k ∧ dep_plan_version x = n;
}.
End Rows.

Lemma hydrate_step_row `{Env} k n sup j (s : ValidatedPlanStep) :
  hydrate_step (step_row k n sup j s) = {|
    pst_step_id := j;
    pst_logical_step_key := logical_step_key s;
    pst_supersedes_step_id := sup !! logical_step_key s;
    pst_ordinal := ordinal s;
    pst_title := title s;
    pst_description := description s;
    pst_expected_outcome := expected_outcome s;
    pst_assigned_agent_profile_id := None;
    pst_max_attempts := max_attempts s;
    pst_definition_digest := step_definition_digest s |}.
Proof. by destruct k as [[[? ?] ?] ?]. Qed.

Lemma content_row_key `{Env} k n c : version_key (content_row k n c) = (k, n).
Proof. by destruct k as [[[? ?] ?] ?]. Qed.

Lemma content_row_version `{Env} k n c : pv_plan_version (content_row k n c) = n.
Proof. by destruct k as [[[? ?] ?] ?]. Qed.

(** ** The rows of a well-formed content *)

(** The identifier of a step is the one drawn at its place. *)
Lemma id_map_at c i (s : ValidatedPlanStep) j :
  NoDup (plan_keys (c_plan c)) → length (c_ids c) = length (steps (c_plan c)) →
  steps (c_plan c) !! i = Some s → c_ids c !! i = Some j →
  id_map c !! logical_step_key s = Some j.
Proof.
  intros Hn Hlen Hs Hj. apply elem_of_list_to_map_1.
  - rewrite fst_zip; [done|]. unfold plan_keys. rewrite length_map, Hlen. done.
  - eapply list_elem_of_lookup_2, lookup_zip_with_Some. eexists _, _. split_and!; [done| |exact Hj].
    unfold plan_keys. rewrite list_lookup_fmap. by rewrite Hs.
Qed.

Section RowFacts.
Context `{Env} (k : plan_key) (n : Z) (c : Content).
Context (Hc : content_ok c).
Let v := c_plan c.
Let Hw := cok_plan c Hc.

Lemma id_of_at i (s : ValidatedPlanStep) j :
  steps v !! i = Some s → c_ids c !! i = Some j → id_map c !! logical_step_key s = Some j.
Proof using Hc. apply id_map_at; [apply Hw|apply Hc]. Qed.

Lemma id_of_step i (s : ValidatedPlanStep) j :
  steps v !! i = Some s → c_ids c !! i = Some j → id_of c (logical_step_key s) = j.
Proof using Hc. intros Hs Hj. unfold id_of. by rewrite (id_of_at i s j). Qed.

(** A key of the plan, with its step and its identifier. *)
Lemma key_at x :
  x ∈ plan_keys v → ∃ i (s : ValidatedPlanStep) j, steps v !! i = Some s ∧ c_ids c !! i = Some j ∧
    logical_step_key s = x ∧ plan_keys v !! i = Some x ∧ id_of c x = j ∧
    id_map c !! x = Some j ∧ ordinal s = Z.of_nat (S i).
Proof using Hc.
  intros [i Hi]%list_elem_of_lookup_1. pose proof Hi as Hi'. unfold plan_keys in Hi.
  rewrite list_lookup_fmap in Hi. destruct (steps v !! i) as [s|] eqn:Hs; [|done].
  injection Hi as Hx.
  destruct (lookup_lt_is_Some_2 (c_ids c) i) as [j Hj].
  { rewrite (cok_length c Hc). by eapply lookup_lt_Some. }
  exists i, s, j. split_and!; [done|done|done|done|rewrite <-Hx; by eapply id_of_step
    |rewrite <-Hx; by eapply id_of_at|].
  pose proof (f_equal (lookup i) (wpl_ordinals _ Hw)) as Ho. rewrite !list_lookup_fmap in Ho.
  unfold v in Hs. rewrite Hs in Ho. rewrite lookup_seq_lt in Ho by (by eapply lookup_lt_Some).
  simpl in Ho. injection Ho as ->. lia.
Qed.

Lemma id_of_inj x y : x ∈ plan_keys v → y ∈ plan_keys v → id_of c x = id_of c y → x = y.
Proof using Hc.
  intros (i&s&j&Hs&Hj&<-&_&->&_)%key_at (i'&s'&j'&Hs'&Hj'&<-&_&->&_)%key_at <-.
  assert (i = i') as <- by (eapply NoDup_lookup; [apply (cok_ids c Hc)|done|done]).
  congruence.
Qed.

Lemma content_steps_at i r :
  content_steps k n c !! i = Some r ↔
  ∃ j s, c_ids c !! i = Some j ∧ steps v !! i = Some s ∧ r = step_row k n (c_supersedes c) j s.
Proof using Type. unfold content_steps. rewrite lookup_zip_with_Some. naive_solver. Qed.

Lemma content_step_ids : map ste_step_id (content_steps k n c) = c_ids c.
Proof using Hc.
  apply list_eq. intros i. rewrite list_lookup_fmap.
  destruct (content_steps k n c !! i) as [r|] eqn:E.
  - apply content_steps_at in E as (j&s&Hj&_&->). rewrite Hj. by destruct k as [[[? ?] ?] ?].
  - simpl. symmetry. apply lookup_ge_None. apply lookup_ge_None in E.
    unfold content_steps in E. rewrite length_zip_with in E. rewrite (cok_length c Hc) in *. lia.
Qed.

Lemma content_step_scope r :
  r ∈ content_steps k n c → step_scope r = k ∧ ste_plan_version r = n.
Proof using Type.
  intros [i (j&s&_&_&->)%content_steps_at]%list_elem_of_lookup_1.
  by destruct k as [[[? ?] ?] ?].
Qed.

Lemma content_steps_NoDup : NoDup (content_steps k n c).
Proof using Hc.
  apply (NoDup_fmap_1 ste_step_id).
  change (NoDup (map ste_step_id (content_steps k n c))). rewrite content_step_ids. apply Hc.
Qed.

Lemma content_ordinal i r :
  content_steps k n c !! i = Some r → ste_ordinal r = Z.of_nat (S i).
Proof using Hc.
  intros (j&s&Hj&Hs&->)%content_steps_at.
  destruct (key_at (logical_step_key s)) as (i'&s'&j'&Hs'&Hj'&Hkey&Hk&_&_&Ho).
  { unfold plan_keys. apply (list_elem_of_fmap_2 (λ s, logical_step_key (vps_step s))).
    by eapply list_elem_of_lookup_2. }
  assert (i' = i) as ->.
  { eapply NoDup_lookup; [apply Hw|exact Hk|]. unfold plan_keys. rewrite list_lookup_fmap.
    unfold v in Hs. by rewrite Hs. }
  assert (s' = s) as -> by congruence. destruct k as [[[? ?] ?] ?]. simpl. done.
Qed.

Lemma content_steps_sorted :
  StronglySorted (λ a b, step_leb a b = true) (content_steps k n c).
Proof using Hc.
  assert (Hord : ∀ i r, content_steps k n c !! i = Some r →
    ste_ordinal r = Z.of_nat (S i) ∧ ste_plan_version r = n).
  { intros i r Hi. split; [by eapply content_ordinal|].
    eapply content_step_scope. by eapply list_elem_of_lookup_2. }
  revert Hord. generalize (content_steps k n c) as l. clear.
  intros l Hord. assert (Hgen : ∀ a, (∀ i r, l !! i = Some r →
    ste_ordinal r = Z.of_nat (a + S i) ∧ ste_plan_version r = n) →
    StronglySorted (λ a b, step_leb a b = true) l); [|by apply (Hgen 0%nat)].
  clear Hord. induction l as [|x l IH]; intros a Hl; constructor.
  - apply (IH (S a)). intros i r Hi. destruct (Hl (S i) r Hi) as [-> ?]. split; [lia|done].
  - apply Forall_forall. intros y [i Hi]%list_elem_of_lookup_1.
    destruct (Hl 0%nat x eq_refl) as [E1 E2]. destruct (Hl (S i) y Hi) as [E3 E4].
    unfold step_leb. rewrite E1, E2, E3, E4. apply orb_true_iff. right.
    rewrite andb_true_iff, Z.eqb_eq, Z.leb_le. lia.
Qed.
End RowFacts.

(** ** The integrity of a content *)

Section Sound.
Context `{Env} (k : plan_key) (n : Z) (c : Content).
Context (Hc : content_ok c) (Hacc : accepted (c_plan c)).
Let v := c_plan c.
Let Hw := cok_plan c Hc.
Let vr := content_record k n c.

Lemma zip_ids_NoDup : NoDup (zip (c_ids c) (steps v)).*1.
Proof using Hc. rewrite fst_zip; [apply Hc|]. by rewrite (cok_length c Hc). Qed.

Lemma content_dependency_at i (s : ValidatedPlanStep) j :
  steps v !! i = Some s → c_ids c !! i = Some j →
  content_dependency_ids c !! j = step_dependency_ids c s.
Proof using Hc.
  intros Hs Hj. assert (Hin : (j, s) ∈ zip (c_ids c) (steps v)).
  { eapply list_elem_of_lookup_2, lookup_zip_with_Some. eauto. }
  unfold content_dependency_ids. fold v. destruct (step_dependency_ids c s) as [l|] eqn:E.
  - apply omap_map_lookup; [apply zip_ids_NoDup|]. eauto.
  - apply eq_None_not_Some. intros [l (s'&Hs'&El)%omap_map_lookup]; [|apply zip_ids_NoDup].
    assert (s' = s) as ->; [|congruence].
    apply list_elem_of_lookup_1 in Hs' as [i' Hi']. apply lookup_zip_with_Some in Hi'.
    destruct Hi' as (j'&s''&[= <- <-]&Hj'&Hs').
    assert (i' = i) as -> by (eapply NoDup_lookup; [apply (cok_ids c Hc)|done|done]). congruence.
Qed.

Lemma content_dependency_default i (s : ValidatedPlanStep) j :
  steps v !! i = Some s → c_ids c !! i = Some j →
  default [] (content_dependency_ids c !! j) = map (id_of c) (depends_on s).
Proof using Hc.
  intros Hs Hj. rewrite (content_dependency_at i s j) by done.
  unfold step_dependency_ids. by destruct (depends_on s).
Qed.

Lemma content_dependency_Some j l :
  content_dependency_ids c !! j = Some l →
  ∃ i (s : ValidatedPlanStep), steps v !! i = Some s ∧ c_ids c !! i = Some j ∧
    l = map (id_of c) (depends_on s).
Proof using Hc.
  intros Hl. pose proof Hl as Hl'. unfold content_dependency_ids in Hl. fold v in Hl.
  apply omap_map_lookup in Hl as (s&Hs&Hg); [|apply zip_ids_NoDup].
  apply list_elem_of_lookup_1 in Hs as [i Hi]. apply lookup_zip_with_Some in Hi.
  destruct Hi as (j'&s'&[= <- <-]&Hj&Hs). exists i, s. split_and!; [done|done|].
  rewrite <-(content_dependency_default i s j), Hl' by done. done.
Qed.

Lemma pvr_steps_at i r :
  pvr_steps vr !! i = Some r ↔ ∃ j s, c_ids c !! i = Some j ∧ steps v !! i = Some s ∧
    r = hydrate_step (step_row k n (c_supersedes c) j s).
Proof using Type.
  unfold vr. simpl. rewrite list_lookup_fmap, fmap_Some. setoid_rewrite content_steps_at.
  naive_solver.
Qed.

Lemma pvr_ids : map pst_step_id (pvr_steps vr) = c_ids c.
Proof using Hc.
  unfold vr. simpl. rewrite map_map. rewrite <-(content_step_ids k n c Hc).
  apply map_ext. by intros [].
Qed.

Lemma record_by_id i (s : ValidatedPlanStep) j :
  steps v !! i = Some s → c_ids c !! i = Some j →
  steps_by_id (pvr_steps vr) !! j = Some (hydrate_step (step_row k n (c_supersedes c) j s)).
Proof using Hc.
  intros Hs Hj. apply (dict_from_lookup pst_step_id (λ x, x)).
  - rewrite pvr_ids. apply Hc.
  - exists (hydrate_step (step_row k n (c_supersedes c) j s)). split_and!.
    + eapply list_elem_of_lookup_2, pvr_steps_at. eauto.
    + by destruct k as [[[? ?] ?] ?].
    + done.
Qed.

(** The draft that the version spells out is the plan. *)
Definition content_draft : PlanDraft := {|
  pd_objective := objective v;
  pd_constraints := constraints v;
  pd_generation_reason := generation_reason v;
  pd_steps := map vps_step (steps v);
|}.

Lemma content_draft_ok : PlanDraft_ok content_draft = true.
Proof using Hc.
  pose proof (wpl_ok _ Hw) as Hok. unfold ValidatedPlanDraft_ok in Hok.
  unfold PlanDraft_ok, content_draft. simpl. rewrite !andb_true_iff in *. fold v in Hok.
  destruct Hok as [[[[[? ?] ?] ?] Hcnt] Hall]. split_and!; try done.
  - unfold count_between in *. by rewrite length_map.
  - rewrite forallb_forall in *. intros s0 (s&<-&Hs)%in_map_iff. specialize (Hall s Hs).
    unfold ValidatedPlanStep_ok in Hall. rewrite !andb_true_iff in Hall. apply Hall.
Qed.

Lemma stored_draft_content : stored_draft vr = Ok content_draft.
Proof using Hc.
  unfold stored_draft.
  assert (Hm : mapM (stored_draft_step (steps_by_id (pvr_steps vr)) (pvr_dependencies vr))
    (pvr_steps vr) = Ok (map vps_step (steps v))).
  { assert (Hstep : ∀ i r s, pvr_steps vr !! i = Some r → steps v !! i = Some s →
      stored_draft_step (steps_by_id (pvr_steps vr)) (pvr_dependencies vr) r = Ok (vps_step s)).
    { intros i r s (j&s'&Hj&Hs'&->)%pvr_steps_at Hs. replace s' with s by congruence. clear s' Hs'.
      unfold stored_draft_step.
      replace (pst_step_id _) with j by (by rewrite hydrate_step_row).
      change (pvr_dependencies vr) with (content_dependency_ids c).
      rewrite (content_dependency_default i s j) by done.
      assert (Hkey : ∀ x, x ∈ depends_on s → ∃ t,
        steps_by_id (pvr_steps vr) !! id_of c x = Some t ∧ pst_logical_step_key t = x).
      { intros x Hx.
        destruct (wpl_known _ Hw _ x (list_elem_of_lookup_2 _ _ _ Hs) Hx) as [Hxk _].
        destruct (key_at c Hc x Hxk) as (i'&s'&j'&Hs'&Hj'&<-&_&->&_).
        exists (hydrate_step (step_row k n (c_supersedes c) j' s')).
        split; [by apply (record_by_id i')|by rewrite hydrate_step_row]. }
      rewrite (mapM_Ok _ (λ i, match steps_by_id (pvr_steps vr) !! i with
                               | Some t => pst_logical_step_key t | None => "" end)).
      - unfold mbind, result_bind. rewrite hydrate_step_row, map_map. f_equal.
        transitivity (MkPlanDraftStep (logical_step_key s) (title s) (description s)
          (expected_outcome s) (depends_on s) (max_attempts s)); [|by destruct s as [[] ?]].
        f_equal. rewrite <-(map_id (depends_on s)) at 2. apply map_ext_in.
        intros x (t&->&Ht)%list_elem_of_In%Hkey. done.
      - intros x (y&->&(t&->&Ht)%Hkey)%list_elem_of_fmap. done. }
    assert (Hlen : length (pvr_steps vr) = length (steps v)).
    { rewrite <-(length_map pst_step_id), pvr_ids. apply Hc. }
    clear -Hstep Hlen. revert Hlen Hstep.
    generalize (stored_draft_step (steps_by_id (pvr_steps vr)) (pvr_dependencies vr)) as f.
    generalize (pvr_steps vr) (steps v). intros l m f. revert m.
    induction l as [|r l IH]; intros [|s m] Hlen Hf; try done.
    change (mapM f (r :: l)) with (y ← f r; k ← mapM f l; mret (y :: k)).
    rewrite (Hf 0%nat r s) by done. unfold mbind at 1, result_bind at 1.
    rewrite (IH m); [done|by injection Hlen|]. intros i. apply (Hf (S i)). }
  rewrite Hm. unfold mbind, result_bind. change (PlanDraft_ok _) with (PlanDraft_ok content_draft).
  by rewrite content_draft_ok.
Qed.

Lemma content_draft_validates : validate_plan_draft content_draft stored_limits = Ok v.
Proof using Hacc.
  destruct Hacc as (d&lim&Hd). eapply validated_reloads; [exact Hd|].
  unfold reloaded, content_draft. simpl. split_and!; try done.
  apply Forall2_fmap_l, Forall_Forall2_diag, Forall_forall. intros s _. done.
Qed.

Lemma content_ordinals :
  map pst_ordinal (pvr_steps vr) = map Z.of_nat (seq 1 (length (pvr_steps vr))).
Proof using Hc.
  apply list_eq. intros i. rewrite !list_lookup_fmap.
  destruct (pvr_steps vr !! i) as [r|] eqn:E.
  - rewrite lookup_seq_lt by (by eapply lookup_lt_Some). unfold vr in E. simpl in E.
    rewrite list_lookup_fmap in E. destruct (content_steps k n c !! i) as [t|] eqn:Et; [|done].
    injection E as <-. simpl. f_equal. by apply (content_ordinal k n c Hc).
  - rewrite lookup_seq_ge; [done|]. by apply lookup_ge_None.
Qed.

Lemma content_keys_ordinals :
  map (λ s, (logical_step_key (vps_step s), ordinal s)) (steps v) =
  map (λ s, (pst_logical_step_key s, pst_ordinal s)) (pvr_steps vr).
Proof using Hc.
  apply list_eq. intros i. rewrite !list_lookup_fmap.
  destruct (pvr_steps vr !! i) as [r|] eqn:E.
  - apply pvr_steps_at in E as (j&s&_&Hs&->). by rewrite Hs, hydrate_step_row.
  - replace (steps v !! i) with (@None ValidatedPlanStep); [done|]. symmetry.
    apply lookup_ge_None. apply lookup_ge_None in E.
    rewrite <-(length_map pst_step_id), pvr_ids, (cok_length c Hc) in E. done.
Qed.

(** A well-formed content passes the integrity check. *)
Lemma content_integrity : validate_version_integrity vr = Ok tt.
Proof using Hc Hacc.
  assert (Hid : ∀ x, x ∈ c_ids c → is_Some (steps_by_id (pvr_steps vr) !! x)).
  { intros x [i Hi]%list_elem_of_lookup_1.
    destruct (lookup_lt_is_Some_2 (steps v) i) as [s Hs].
    { unfold v. rewrite <-(cok_length c Hc). by eapply lookup_lt_Some. }
    rewrite (record_by_id i s x) by done. eauto. }
  assert (Hv : (draft ← stored_draft vr; validate_plan_draft draft stored_limits) = Ok v).
  { rewrite stored_draft_content. apply content_draft_validates. }
  unfold validate_version_integrity. rewrite Hv.
  repeat (apply ensure_bind_Ok; split); try (apply result_bind_Ok; exists v; split; [done|]);
    repeat (apply ensure_bind_Ok; split).
  - done.
  - apply bool_decide_eq_true, content_ordinals.
  - apply bool_decide_eq_true. apply (dict_from_size pst_step_id (λ x, x)).
    rewrite pvr_ids. apply Hc.
  - apply forallb_forall. intros [j l] Hjl%list_elem_of_In%elem_of_map_to_list.
    apply bool_decide_eq_true. apply content_dependency_Some in Hjl as (i&s&_&Hj&_).
    apply Hid. by eapply list_elem_of_lookup_2.
  - apply forallb_forall. intros [j l] Hjl%list_elem_of_In%elem_of_map_to_list.
    apply content_dependency_Some in Hjl as (i&s&Hs&_&->). apply forallb_forall.
    intros x (y&->&Hy)%list_elem_of_In%list_elem_of_fmap. apply bool_decide_eq_true, Hid.
    destruct (wpl_known _ Hw _ y (list_elem_of_lookup_2 _ _ _ Hs) Hy) as [Hyk _].
    destruct (key_at c Hc y Hyk) as (i'&s'&j'&_&Hj'&_&_&->&_). by eapply list_elem_of_lookup_2.
  - apply bool_decide_eq_true, content_keys_ordinals.
  - apply forallb_forall. intros r Hr%list_elem_of_In. apply list_elem_of_lookup_1 in Hr as [i Hr].
    apply pvr_steps_at in Hr as (j&s&_&Hs&->). rewrite hydrate_step_row.
    cbn [pst_logical_step_key pst_definition_digest].
    replace (validated_by_key v !! _) with (Some s); [by apply bool_decide_eq_true|].
    symmetry. apply (dict_from_lookup (λ s, logical_step_key (vps_step s)) (λ x, x)).
    + apply Hw.
    + exists s. split; [by eapply list_elem_of_lookup_2|done].
  - apply ensure_Ok. by apply bool_decide_eq_true.
Qed.
End Sound.

(** ** Reading the tables *)

(** Every row of the Plan tables is stored under its key. *)
Record keyed (d : Db) : Prop := {
  keyed_plans i p : agent_plans d !! i = Some p → pl_id p = i;
  keyed_versions i v : agent_plan_versions d !! i = Some v → version_key v = i;
  keyed_steps i s : agent_plan_steps d !! i = Some s → ste_step_id s = i;
  keyed_dependencies i x :
    agent_plan_step_dependencies d !! i = Some x → dependency_key x = i;
  keyed_decisions i x : agent_plan_decisions d !! i = Some x → decision_key x = i;
  keyed_step_runs i x : agent_plan_step_runs d !! i = Some x → step_run_key x = i;
}.

Lemma step_leb_total a b : step_leb a b = false → step_leb b a = true.
Proof.
  unfold step_leb. rewrite !orb_false_iff, !orb_true_iff, !andb_false_iff, !andb_true_iff,
    !Z.ltb_lt, !Z.ltb_ge, !Z.eqb_eq, !Z.eqb_neq, !Z.leb_le, !Z.leb_gt. lia.
Qed.

Lemma step_leb_trans a b c : step_leb a b = true → step_leb b c = true → step_leb a c = true.
Proof.
  unfold step_leb. rewrite !orb_true_iff, !andb_true_iff, !Z.ltb_lt, !Z.eqb_eq, !Z.leb_le. lia.
Qed.

Lemma by_ordinal_total o n x y : by_ordinal o n x y = false → by_ordinal o n y x = true.
Proof. unfold by_ordinal. rewrite Z.leb_gt, Z.leb_le. lia. Qed.

Lemma by_ordinal_trans o n x y z :
  by_ordinal o n x y = true → by_ordinal o n y z = true → by_ordinal o n x z = true.
Proof. unfold by_ordinal. rewrite !Z.leb_le. lia. Qed.

(** [setdefault(key, []).append(...)] groups the rows. *)
Lemma dependency_lists_lookup l q :
  dependency_lists l !! q =
  match map dep_depends_on_step_id (List.filter (λ x,
    bool_decide ((dep_plan_version x, dep_step_id x) = q)) l) with
  | [] => None
  | m => Some m
  end.
Proof.
  unfold dependency_lists.
  assert (Hgen : ∀ (m : gmap (Z * string) (list string)),
    foldl (λ m x, let key := (dep_plan_version x, dep_step_id x) in
      <[key := default [] (m !! key) ++ [dep_depends_on_step_id x]]> m) m l !! q =
    match map dep_depends_on_step_id (List.filter (λ x,
      bool_decide ((dep_plan_version x, dep_step_id x) = q)) l) with
    | [] => m !! q
    | l' => Some (default [] (m !! q) ++ l')
    end); [|by rewrite Hgen, lookup_empty].
  induction l as [|x l IH]; intros m; [done|]. cbn [foldl]. rewrite IH. simpl.
  case_bool_decide as Hq; simpl.
  - subst q. rewrite lookup_insert_eq. simpl.
    destruct (map _ _); simpl; [done|]. by rewrite <-app_assoc.
  - by rewrite lookup_insert_ne.
Qed.

Lemma dependencies_by_version_lookup o lists n j :
  dependencies_by_version o lists n !! j = sort_by (by_ordinal o n) <$> lists !! (n, j).
Proof.
  unfold dependencies_by_version.
  set (f := λ kl : Z * string * list string, if Z.eqb kl.1.1 n
    then Some (kl.1.2, sort_by (by_ordinal o n) kl.2) else None).
  assert (Hin : ∀ i l, (i, l) ∈ omap f (map_to_list lists) ↔
    ∃ l0, lists !! (n, i) = Some l0 ∧ l = sort_by (by_ordinal o n) l0).
  { intros i l. rewrite list_elem_of_omap. unfold f. split.
    - intros ([[n' i'] l0]&Hl0%elem_of_map_to_list&Hf). simpl in Hf.
      destruct (Z.eqb_spec n' n) as [->|]; [|done]. injection Hf as -> <-. eauto.
    - intros (l0&Hl0&->). exists (n, i, l0). rewrite elem_of_map_to_list. simpl.
      by rewrite Z.eqb_refl. }
  destruct (lists !! (n, j)) as [l0|] eqn:E; simpl.
  - apply elem_of_list_to_map_1'; [|apply Hin; eauto].
    intros l' (l0'&Hl0'&->)%Hin. congruence.
  - apply not_elem_of_list_to_map_1. rewrite list_elem_of_fmap.
    intros ([j' l]&->&(l0&Hl0&_)%Hin). simpl in *. congruence.
Qed.

Section Reading.
Context `{Env} (d : Db) (k : plan_key) (Hd : keyed d).

Lemma step_scope_predicate_elem s :
  s ∈ step_scope_predicate d k ↔ agent_plan_steps d !! ste_step_id s = Some s ∧ step_scope s = k.
Proof using Hd.
  unfold step_scope_predicate. rewrite elem_of_filter_bool, bool_decide_eq_true, elem_of_rows.
  split; intros [H1 H2]; (split; [|done]).
  - destruct H1 as [i Hi]. by rewrite (keyed_steps d Hd i s Hi).
  - eauto.
Qed.

Lemma dependency_scope_predicate_elem x :
  x ∈ dependency_scope_predicate d k ↔
  agent_plan_step_dependencies d !! dependency_key x = Some x ∧ dependency_scope x = k.
Proof using Hd.
  unfold dependency_scope_predicate.
  rewrite elem_of_filter_bool, bool_decide_eq_true, elem_of_rows.
  split; intros [H1 H2]; (split; [|done]).
  - destruct H1 as [i Hi]. by rewrite (keyed_dependencies d Hd i x Hi).
  - eauto.
Qed.

Lemma step_scope_predicate_NoDup : NoDup (step_scope_predicate d k).
Proof using Hd. apply NoDup_filter_bool, (rows_NoDup ste_step_id), Hd. Qed.

Lemma dependency_scope_predicate_NoDup : NoDup (dependency_scope_predicate d k).
Proof using Hd. apply NoDup_filter_bool, (rows_NoDup dependency_key), Hd. Qed.

Section Version.
Context (n : Z) (c : Content) (Hc : content_ok c) (Hh : holds k n c d).

Lemma read_steps :
  steps_by_version (sort_by step_leb (step_scope_predicate d k)) n =
  pvr_steps (content_record k n c).
Proof using Hd Hc Hh.
  unfold steps_by_version. simpl. f_equal.
  apply sort_by_filter_unique; [apply step_leb_total|apply step_leb_trans| | |].
  - intros x y [i Hi]%list_elem_of_lookup_1 [j Hj]%list_elem_of_lookup_1 Hxy Hyx.
    pose proof (content_ordinal k n c Hc i x Hi) as Ho1.
    pose proof (content_ordinal k n c Hc j y Hj) as Ho2.
    unfold step_leb in *. rewrite !orb_true_iff, !andb_true_iff, !Z.ltb_lt, !Z.eqb_eq,
      !Z.leb_le in *. assert (i = j) as -> by lia. congruence.
  - by apply content_steps_sorted.
  - apply same_elements_perm.
    + apply NoDup_filter_bool, step_scope_predicate_NoDup.
    + by apply content_steps_NoDup.
    + intros s. rewrite elem_of_filter_bool, step_scope_predicate_elem, Z.eqb_eq.
      rewrite (holds_steps k n c d Hh). naive_solver.
Qed.

Lemma read_ordinal i j :
  c_ids c !! i = Some j →
  step_ordinals (sort_by step_leb (step_scope_predicate d k)) !! (n, j) =
  Some (Z.of_nat (S i)).
Proof using Hd Hc Hh.
  intros Hj. destruct (lookup_lt_is_Some_2 (steps (c_plan c)) i) as [s Hs].
  { rewrite <-(cok_length c Hc). by eapply lookup_lt_Some. }
  assert (Hr : content_steps k n c !! i = Some (step_row k n (c_supersedes c) j s))
    by (apply content_steps_at; eauto).
  apply (dict_from_lookup (λ s, (ste_plan_version s, ste_step_id s)) ste_ordinal).
  - apply (NoDup_fmap_2_strong _ _); [|rewrite sort_by_perm; apply step_scope_predicate_NoDup].
    intros x y Hx Hy. rewrite !sort_by_perm, !step_scope_predicate_elem in Hx, Hy.
    intros [= _ Hxy]. rewrite Hxy in Hx. destruct Hx as [Hx _], Hy as [Hy _]. congruence.
  - exists (step_row k n (c_supersedes c) j s). split_and!.
    + rewrite sort_by_perm, step_scope_predicate_elem.
      pose proof (proj1 (holds_steps k n c d Hh _) (list_elem_of_lookup_2 _ _ _ Hr)). naive_solver.
    + by destruct k as [[[? ?] ?] ?].
    + by apply (content_ordinal k n c Hc).
Qed.

(** The dependencies of the step with identifier [j], as the rows have them. *)
Lemma read_dependency_rows i (s : ValidatedPlanStep) j :
  steps (c_plan c) !! i = Some s → c_ids c !! i = Some j →
  map dep_depends_on_step_id (List.filter (λ x,
    bool_decide ((dep_plan_version x, dep_step_id x) = (n, j)))
    (dependency_scope_predicate d k)) ≡ₚ map (id_of c) (depends_on s).
Proof using Hd Hc Hh.
  intros Hs Hj. pose proof (cok_plan c Hc) as Hw.
  pose proof (list_elem_of_lookup_2 _ _ _ Hs) as Hin.
  assert (Hx : ∀ x, x ∈ List.filter (λ x,
      bool_decide ((dep_plan_version x, dep_step_id x) = (n, j)))
    (dependency_scope_predicate d k) ↔
    x ∈ content_dependencies k n c ∧ dep_step_id x = j).
  { intros x. rewrite elem_of_filter_bool, dependency_scope_predicate_elem, bool_decide_eq_true.
    rewrite (holds_dependencies k n c d Hh). naive_solver. }
  apply same_elements_perm.
  - apply (NoDup_fmap_2_strong _ _); [|apply NoDup_filter_bool, dependency_scope_predicate_NoDup].
    intros x y [Hcx Hjx]%Hx [Hcy Hjy]%Hx Heq.
    apply (holds_dependencies k n c d Hh) in Hcx as (_&Hsx&Hnx), Hcy as (_&Hsy&Hny).
    destruct x, y; unfold dependency_scope in *; simpl in *. congruence.
  - apply (NoDup_fmap_2_strong _ _); [|by apply (wpl_distinct _ Hw)].
    intros x y Hx' Hy'. apply (id_of_inj c Hc); by eapply (wpl_known _ Hw).
  - intros y. rewrite !list_elem_of_fmap. setoid_rewrite Hx. clear Hx. split.
    + intros (x&->&(xy&->&Hxy)%list_elem_of_fmap&Hxj).
      unfold content_pairs in Hxy. apply list_elem_of_fmap in Hxy as (sx&->&Hsx).
      unfold dependency_pairs in Hsx. apply list_elem_of_In, in_concat in Hsx as (l&Hl&Hsx).
      apply list_elem_of_In, list_elem_of_fmap in Hl as (s'&->&Hs').
      apply list_elem_of_In, list_elem_of_fmap in Hsx as (x&->&Hx).
      destruct k as [[[? ?] ?] ?]. simpl in *. exists x. split; [done|].
      assert (s' = s) as ->; [|done].
      apply list_elem_of_lookup_1 in Hs' as [i' Hs'].
      destruct (lookup_lt_is_Some_2 (c_ids c) i') as [j' Hj'].
      { rewrite (cok_length c Hc). by eapply lookup_lt_Some. }
      rewrite (id_of_step c Hc i' s' j') in Hxj by done. subst j'.
      assert (i' = i) as -> by (eapply NoDup_lookup; [apply (cok_ids c Hc)|done|done]).
      congruence.
    + intros (x&->&Hx). exists (dependency_row k n (id_of c (logical_step_key s), id_of c x)).
      assert (Hk : dep_depends_on_step_id (dependency_row k n
          (id_of c (logical_step_key s), id_of c x)) = id_of c x ∧
        dep_step_id (dependency_row k n (id_of c (logical_step_key s), id_of c x)) =
          id_of c (logical_step_key s)) by (by destruct k as [[[? ?] ?] ?]).
      destruct Hk as [-> ->]. split_and!; [done| |by apply (id_of_step c Hc i)].
      unfold content_dependencies, content_pairs. apply list_elem_of_fmap_2.
      apply list_elem_of_fmap. exists (logical_step_key s, x). split; [done|].
      apply list_elem_of_In, in_concat. eexists. split.
      * apply list_elem_of_In, list_elem_of_fmap. exists s. split; [done|exact Hin].
      * apply list_elem_of_In, list_elem_of_fmap. eauto.
Qed.

Local Notation ordinals := (step_ordinals (sort_by step_leb (step_scope_predicate d k))).

(** The order of the identifiers is the order of the plan. *)
Lemma by_ordinal_index x y :
  x ∈ plan_keys (c_plan c) → y ∈ plan_keys (c_plan c) →
  by_ordinal ordinals n (id_of c x) (id_of c y) = by_index (indexes (plan_keys (c_plan c))) x y.
Proof using Hd Hc Hh.
  intros (i&s&j&_&Hj&_&Hi&->&_)%(key_at c Hc) (i'&s'&j'&_&Hj'&_&Hi'&->&_)%(key_at c Hc).
  unfold by_ordinal, by_index. rewrite (read_ordinal i j Hj), (read_ordinal i' j' Hj').
  pose proof (wpl_keys _ (cok_plan c Hc)) as Hn.
  rewrite (proj2 (indexes_lookup _ x i Hn) Hi), (proj2 (indexes_lookup _ y i' Hn) Hi'). simpl.
  apply eq_true_iff_eq. rewrite Z.leb_le, Nat.leb_le. lia.
Qed.

Lemma read_dependencies :
  dependencies_by_version ordinals (dependency_lists (dependency_scope_predicate d k)) n =
  content_dependency_ids c.
Proof using Hd Hc Hh.
  pose proof (cok_plan c Hc) as Hw.
  apply map_eq. intros j. rewrite dependencies_by_version_lookup, dependency_lists_lookup.
  destruct (decide (j ∈ c_ids c)) as [[i Hj]%list_elem_of_lookup_1|Hj].
  - destruct (lookup_lt_is_Some_2 (steps (c_plan c)) i) as [s Hs].
    { rewrite <-(cok_length c Hc). by eapply lookup_lt_Some. }
    pose proof (read_dependency_rows i s j Hs Hj) as Hp.
    rewrite (content_dependency_at c Hc i s j Hs Hj). unfold step_dependency_ids.
    assert (Hsort : sort_by (by_ordinal ordinals n) (map dep_depends_on_step_id
      (List.filter (λ x, bool_decide ((dep_plan_version x, dep_step_id x) = (n, j)))
        (dependency_scope_predicate d k))) = map (id_of c) (depends_on s)).
    { pose proof (list_elem_of_lookup_2 _ _ _ Hs) as Hin.
      assert (Hkn : ∀ x, x ∈ depends_on s → x ∈ plan_keys (c_plan c))
        by (intros x Hx; by eapply (wpl_known _ Hw)).
      apply sort_by_unique; [apply by_ordinal_total|apply by_ordinal_trans| | |done].
      - intros x' y' (x&->&Hx%Hkn)%list_elem_of_fmap (y&->&Hy%Hkn)%list_elem_of_fmap.
        rewrite !by_ordinal_index by done. unfold by_index. rewrite !Nat.leb_le.
        destruct (key_at c Hc x Hx) as (i1&_&_&_&_&_&Hi1&_).
        destruct (key_at c Hc y Hy) as (i2&_&_&_&_&_&Hi2&_).
        pose proof (wpl_keys _ Hw) as Hn.
        rewrite (proj2 (indexes_lookup _ x i1 Hn) Hi1), (proj2 (indexes_lookup _ y i2 Hn) Hi2).
        simpl. intros ? ?. assert (i1 = i2) as -> by lia. congruence.
      - apply strongly_map. pose proof (wpl_sorted _ Hw s Hin) as Hso. clear -Hso Hkn Hd Hc Hh.
        induction Hso as [|x l Hl IH Hx]; constructor; [apply IH; set_solver|].
        rewrite Forall_forall in *. intros y Hy. rewrite by_ordinal_index by set_solver. auto. }
    destruct (map dep_depends_on_step_id _) as [|y l] eqn:E.
    + apply Permutation_nil in Hp. by destruct (depends_on s).
    + cbn [fmap option_fmap option_map]. rewrite Hsort. destruct (depends_on s); [|done].
      simpl in Hp. symmetry in Hp. by apply Permutation_nil_cons in Hp.
  - destruct (map dep_depends_on_step_id _) as [|y l] eqn:E.
    + simpl. symmetry. apply eq_None_not_Some. intros [l Hl].
      apply (content_dependency_Some c Hc) in Hl as (i&s&_&Hji&_). destruct Hj.
      by eapply list_elem_of_lookup_2.
    + exfalso. assert (Hy : y ∈ y :: l) by set_solver. rewrite <-E in Hy.
      apply list_elem_of_fmap in Hy as (x&->&Hx). apply elem_of_filter_bool in Hx as [Hx Hq].
      apply bool_decide_eq_true in Hq. injection Hq as Hq1 Hq2.
      apply dependency_scope_predicate_elem in Hx as [Hx Hxk].
      assert (Hcx : x ∈ content_dependencies k n c)
        by (by apply (holds_dependencies k n c d Hh)).
      unfold content_dependencies, content_pairs in Hcx.
      apply list_elem_of_fmap in Hcx as (xy&->&Hxy). apply list_elem_of_fmap in Hxy as (sx&->&Hsx).
      destruct Hj. rewrite <-Hq2.
      replace (dep_step_id _) with (id_of c sx.1) by (by destruct k as [[[? ?] ?] ?]).
      unfold dependency_pairs in Hsx. apply list_elem_of_In, in_concat in Hsx as (m&Hm&Hsx).
      apply list_elem_of_In, list_elem_of_fmap in Hm as (s&->&Hs).
      apply list_elem_of_In, list_elem_of_fmap in Hsx as (z&->&Hz). simpl.
      destruct (key_at c Hc (logical_step_key s)) as (i&s'&j'&_&Hj'&_&_&->&_).
      { unfold plan_keys. by apply (list_elem_of_fmap_2 (λ s, logical_step_key (vps_step s))). }
      by eapply list_elem_of_lookup_2.
Qed.

Lemma load_content_constraints l : load_constraints (print_json (JArr (map JStr l))) = Ok l.
Proof using Type.
  unfold load_constraints. rewrite json_loads_print.
  - simpl. rewrite map_map. replace (mapM as_string _) with (Some l); [done|]. symmetry.
    apply mapM_Some_2. clear. induction l; simpl; by constructor.
  - simpl. apply forallb_forall. by intros j (t&<-&_)%in_map_iff.
Qed.

Lemma read_version :
  accepted (c_plan c) →
  hydrate_version (content_row k n c)
    (steps_by_version (sort_by step_leb (step_scope_predicate d k)) n)
    (dependencies_by_version ordinals (dependency_lists (dependency_scope_predicate d k)) n) =
  Ok (content_record k n c).
Proof using Hd Hc Hh.
  intros Hacc. rewrite read_steps, read_dependencies. unfold hydrate_version.
  apply result_bind_Ok. exists (constraints (c_plan c)). split.
  { unfold content_row. destruct k as [[[? ?] ?] ?]. apply load_content_constraints. }
  apply result_bind_Ok. exists tt.
  match goal with |- validate_version_integrity ?v = _ ∧ _ =>
    assert (Hv : v = content_record k n c) by (unfold content_row, content_record;
      destruct k as [[[? ?] ?] ?]; reflexivity) end.
  rewrite Hv. split; [by apply content_integrity|done].
Qed.
End Version.
End Reading.

(** ** Reading a Plan *)

(** The contents of the versions [1 .. length cs] of a Plan. *)
Record stored `{Env} (d : Db) (k : plan_key) (cs : list Content) : Prop := {
  stored_content i c : cs !! i = Some c →
    content_ok c ∧ accepted (c_plan c) ∧ holds k (Z.of_nat (S i)) c d;
  stored_versions n v : agent_plan_versions d !! (k, n) = Some v →
    (1 <= n <= Z.of_nat (length cs))%Z;
  stored_dependencies i x : agent_plan_step_dependencies d !! i = Some x →
    dependency_scope x = k → is_Some (agent_plan_versions d !! (k, dep_plan_version x));
}.

Section Plan.
Context `{Env} (d : Db) (k : plan_key) (cs : list Content).
Context (Hd : keyed d) (Hs : stored d k cs).

Definition content_rows : list agent_plan_version :=
  imap (λ i c, content_row k (Z.of_nat (S i)) c) cs.
Definition content_records : list PlanVersionRecord :=
  imap (λ i c, content_record k (Z.of_nat (S i)) c) cs.

Lemma content_rows_at i v :
  content_rows !! i = Some v ↔ ∃ c, cs !! i = Some c ∧ v = content_row k (Z.of_nat (S i)) c.
Proof. unfold content_rows. rewrite list_lookup_imap, fmap_Some. naive_solver. Qed.

Lemma content_rows_elem v :
  v ∈ content_rows ↔ agent_plan_versions d !! version_key v = Some v ∧ version_scope v = k.
Proof using Hs.
  split.
  - intros [i (c&Hc&->)%content_rows_at]%list_elem_of_lookup_1.
    rewrite content_row_key. split; [apply (stored_content d k cs Hs i c Hc)|].
    by destruct k as [[[? ?] ?] ?].
  - intros [Hv Hk]. unfold version_key in Hv. rewrite Hk in Hv.
    pose proof (stored_versions d k cs Hs _ _ Hv) as Hr.
    destruct (lookup_lt_is_Some_2 cs (Z.to_nat (pv_plan_version v - 1))) as [c Hc]; [lia|].
    destruct (stored_content d k cs Hs _ c Hc) as (_&_&Hh).
    pose proof (holds_row _ _ _ _ Hh) as Hrow.
    replace (Z.of_nat (S _)) with (pv_plan_version v) in Hrow by lia.
    assert (v = content_row k (pv_plan_version v) c) as -> by congruence.
    eapply list_elem_of_lookup_2, content_rows_at. exists c. split; [done|].
    f_equal. pose proof (f_equal snd (content_row_key k (pv_plan_version v) c)). simpl in *. lia.
Qed.

Lemma read_version_rows : sort_by version_leb (version_scope_predicate d k) = content_rows.
Proof using Hd Hs.
  assert (Hat : ∀ i v, content_rows !! i = Some v → pv_plan_version v = Z.of_nat (S i)).
  { intros i v (c&_&->)%content_rows_at. apply content_row_version. }
  apply sort_by_unique.
  - intros x y. unfold version_leb. rewrite Z.leb_gt, Z.leb_le. lia.
  - intros x y z. unfold version_leb. rewrite !Z.leb_le. lia.
  - intros x y [i Hi]%list_elem_of_lookup_1 [j Hj]%list_elem_of_lookup_1.
    unfold version_leb. rewrite !Z.leb_le, (Hat i x Hi), (Hat j y Hj). intros ? ?.
    assert (i = j) as -> by lia. congruence.
  - assert (Hgen : ∀ l a, (∀ i v, l !! i = Some v → pv_plan_version v = Z.of_nat (a + S i)) →
      StronglySorted (λ x y, version_leb x y = true) l); [|by apply (Hgen _ 0%nat)].
    clear. induction l as [|x l IH]; intros a Hl; constructor.
    + apply (IH (S a)). intros i v Hi. rewrite (Hl (S i) v Hi). lia.
    + apply Forall_forall. intros y [i Hi]%list_elem_of_lookup_1. unfold version_leb.
      rewrite (Hl 0%nat x eq_refl), (Hl (S i) y Hi). apply Z.leb_le. lia.
  - apply same_elements_perm.
    + apply NoDup_filter_bool, (rows_NoDup version_key), Hd.
    + apply NoDup_alt. intros i j v Hi Hj. pose proof (Hat i v Hi). pose proof (Hat j v Hj). lia.
    + intros v. rewrite content_rows_elem. unfold version_scope_predicate.
      rewrite elem_of_filter_bool, bool_decide_eq_true, elem_of_rows.
      split; intros [H1 H2]; (split; [|done]); [|eauto].
      destruct H1 as [i Hi]. by rewrite (keyed_versions d Hd i v Hi).
Qed.

(** Every stored version is read back as its content. *)
Lemma read_versions_stored : read_versions d k = Ok content_records.
Proof using Hd Hs.
  unfold read_versions. apply ensure_bind_Ok. split.
  - apply forallb_forall. intros x Hx%list_elem_of_In. apply bool_decide_eq_true.
    apply dependency_scope_predicate_elem in Hx as [Hx Hxk]; [|done].
    destruct (stored_dependencies d k cs Hs _ x Hx Hxk) as [v Hv].
    pose proof (stored_versions d k cs Hs _ _ Hv) as Hr.
    destruct (lookup_lt_is_Some_2 cs (Z.to_nat (dep_plan_version x - 1))) as [c Hcs]; [lia|].
    destruct (stored_content d k cs Hs _ c Hcs) as (Hc&_&Hh).
    replace (Z.of_nat (S _)) with (dep_plan_version x) in Hh by lia.
    assert (Hcx : x ∈ content_dependencies k (dep_plan_version x) c)
      by (by apply (holds_dependencies _ _ _ _ Hh)).
    unfold content_dependencies, content_pairs in Hcx.
    apply list_elem_of_fmap in Hcx as (xy&Hxe&Hxy). apply list_elem_of_fmap in Hxy as (sx&->&Hsx).
    unfold dependency_pairs in Hsx. apply list_elem_of_In, in_concat in Hsx as (m&Hm&Hsx).
    apply list_elem_of_In, list_elem_of_fmap in Hm as (s&->&Hin).
    apply list_elem_of_In, list_elem_of_fmap in Hsx as (z&->&Hz).
    destruct (wpl_known _ (cok_plan c Hc) s z Hin Hz) as [Hzk _].
    destruct (key_at c Hc z Hzk) as (i&s'&j&_&Hj&_&_&Hid&_).
    replace (dep_depends_on_step_id x) with j; [|rewrite Hxe; destruct k as [[[? ?] ?] ?]; done].
    rewrite (read_ordinal d k Hd (dep_plan_version x) c Hc Hh i j Hj). eauto.
  - rewrite read_version_rows.
    set (f := λ row, hydrate_version row
      (steps_by_version (sort_by step_leb (step_scope_predicate d k)) (pv_plan_version row))
      (dependencies_by_version (step_ordinals (sort_by step_leb (step_scope_predicate d k)))
         (dependency_lists (dependency_scope_predicate d k)) (pv_plan_version row))).
    assert (Hf : ∀ i c, cs !! i = Some c →
      f (content_row k (Z.of_nat (S i)) c) = Ok (content_record k (Z.of_nat (S i)) c)).
    { intros i c Hc. unfold f. rewrite content_row_version.
      destruct (stored_content d k cs Hs i c Hc) as (Hok&Hacc&Hh). by apply read_version. }
    clearbody f. unfold content_rows, content_records. clear Hd Hs.
    assert (Hgen : ∀ a, (∀ i c, cs !! i = Some c → f (content_row k (Z.of_nat (S (a + i))) c) =
        Ok (content_record k (Z.of_nat (S (a + i))) c)) →
      mapM f (imap (λ i c, content_row k (Z.of_nat (S (a + i))) c) cs) =
      Ok (imap (λ i c, content_record k (Z.of_nat (S (a + i))) c) cs)); [|by apply (Hgen 0%nat)].
    clear Hf. induction cs as [|c l IH]; intros a Hf; [done|]. rewrite !imap_cons.
    change (mapM f (?x :: ?m)) with (y ← f x; k ← mapM f m; mret (y :: k)).
    rewrite Nat.add_0_r. pose proof (Hf 0%nat c eq_refl) as H0. rewrite Nat.add_0_r in H0.
    rewrite H0. unfold mbind at 1, result_bind at 1.
    assert (Hshift : ∀ B (g : Z → Content → B),
      imap ((λ i c, g (Z.of_nat (S (a + i))) c) ∘ S) l =
      imap (λ i c, g (Z.of_nat (S (S a + i))) c) l).
    { intros B g. apply imap_ext. intros i x _. simpl. do 2 f_equal. lia. }
    rewrite (Hshift _ (λ z c, content_row k z c)), (Hshift _ (λ z c, content_record k z c)).
    rewrite (IH (S a)); [done|]. intros i c' Hi.
    replace (S (S a + i))%nat with (S (a + S i))%nat by lia. by apply Hf.
Qed.
End Plan.

(** The snapshot of a Plan whose versions are stored with contents [cs], the last of them
    [c]. *)
Definition stored_snapshot `{Env} (t : TenantContext) (d : Db) (k : plan_key)
    (p : agent_plan) (cs : list Content) (c : Content) : PlanSnapshot := {|
  ps_context := t;
  ps_plan_id := pl_id p;
  ps_source_message_id := pl_source_message_id p;
  ps_trigger_mode := pl_trigger_mode p;
  ps_status := pl_status p;
  ps_current_version := pl_current_version p;
  ps_approved_version := pl_approved_version p;
  ps_aggregate_version := pl_version p;
  ps_created_at := pl_created_at p;
  ps_updated_at := pl_updated_at p;
  ps_current := content_record k (pl_current_version p) c;
  ps_versions := content_records k cs;
  ps_decisions := read_decisions d k;
|}.

Section Snapshot.
Context `{Env} (k : plan_key).

Lemma content_records_at cs i r :
  content_records k cs !! i = Some r ↔
  ∃ c, cs !! i = Some c ∧ r = content_record k (Z.of_nat (S i)) c.
Proof. unfold content_records. rewrite list_lookup_imap, fmap_Some. naive_solver. Qed.

Lemma find_at {A} (p : A → bool) l i x :
  l !! i = Some x → p x = true → (∀ j y, (j < i)%nat → l !! j = Some y → p y = false) →
  List.find p l = Some x.
Proof.
  revert i. induction l as [|y l IH]; intros [|i]; simpl; intros Hi Hx Hlt; try done.
  - injection Hi as ->. by rewrite Hx.
  - rewrite (Hlt 0%nat y) by (done || lia). apply (IH i); [done|done|].
    intros j z Hj Hz. apply (Hlt (S j)); [lia|done].
Qed.

Lemma version_numbered_content cs i c :
  cs !! i = Some c →
  version_numbered (Z.of_nat (S i)) (content_records k cs) =
  Some (content_record k (Z.of_nat (S i)) c).
Proof.
  intros Hi. apply (find_at _ _ i).
  - apply content_records_at. eauto.
  - apply Z.eqb_refl.
  - intros j r Hj (c'&_&->)%content_records_at. apply Z.eqb_neq. simpl. lia.
Qed.

(** A stored Plan is always read. *)
Lemma read_plan_stored t d p cs c :
  keyed d → stored d k cs → pl_current_version p = Z.of_nat (length cs) → last cs = Some c →
  read_plan t d k p = Ok (stored_snapshot t d k p cs c).
Proof.
  intros Hd Hs Hp Hl. unfold read_plan. apply result_bind_Ok.
  exists (content_records k cs). split; [by apply read_versions_stored|].
  rewrite last_lookup in Hl. assert (Hpos : length cs ≠ 0%nat) by (by destruct cs).
  assert (Hv : pl_current_version p = Z.of_nat (S (pred (length cs)))) by lia.
  rewrite Hv, (version_numbered_content cs _ c) by done.
  unfold stored_snapshot. by rewrite Hv.
Qed.
End Snapshot.
