(* ===== verification/PlanEffects.v ===== *)
(** * What the Plan repository may do to the database

    [plan_effect d d'] is the abstract specification of the Plan repository: one step per
    call, with no clock, savepoints, SQL or exceptions.  Its consequences, by induction on
    the steps: every version that was stored is still what an accepted plan spelled out
    ([plans_ok]), and history only grows ([grows]). *)

From S2P Require Import Prelude Records Errors Json Regex Tenancy WorkflowModels Storage.
From S2P Require Import Collections PlanStorage Checkpoint PlanValidation PlanOrder.
From S2P Require Import PlanSpec.
From S2P Require Import PlanRecords PlanReading WorkflowRepository PlanRepository.
From S2P Require Import PlanDecisions PlanAttempts PlanContent.
From stdpp Require Import base gmap strings list sorting fin_maps relations.

(** ** The steps *)

Section Effects.
Context `{Env}.

(** The tables with the rows of a content as version [n] of the Plan [k]. *)
Definition add_content (d : Db) (k : plan_key) (n : Z) (c : Content) : Db :=
  d <| agent_plan_versions := <[(k, n) := content_row k n c]> (agent_plan_versions d) |>
    <| agent_plan_steps := foldl (λ m s, <[ste_step_id s := s]> m) (agent_plan_steps d)
                             (content_steps k n c) |>
    <| agent_plan_step_dependencies :=
         foldl (λ m x, <[dependency_key x := x]> m) (agent_plan_step_dependencies d)
           (content_dependencies k n c) |>.

Record fresh_content (d : Db) (k : plan_key) (n : Z) (c : Content) : Prop := {
  fresh_ok : content_ok c;
  fresh_accepted : accepted (c_plan c);
  fresh_version : agent_plan_versions d !! (k, n) = None;
  fresh_ids j : j ∈ c_ids c → agent_plan_steps d !! j = None;
}.

Definition new_plan (p : agent_plan) : Prop :=
  pl_status p = PLAN_AWAITING ∧ pl_current_version p = 1%Z ∧ pl_approved_version p = None ∧
  pl_version p = 1%Z.

Definition revised (now : Z) (p : agent_plan) : agent_plan :=
  p <| pl_status := PLAN_AWAITING |>
    <| pl_current_version := (pl_current_version p + 1)%Z |>
    <| pl_version := (pl_version p + 1)%Z |>
    <| pl_updated_at := now |>.

Definition decided (x : agent_plan_decision) (p : agent_plan) : agent_plan :=
  p <| pl_status := decided_status (dec_action x) |>
    <| pl_approved_version := match dec_action x with
                              | DECIDE_APPROVE => Some (dec_plan_version x)
                              | _ => pl_approved_version p
                              end |>
    <| pl_version := (pl_version p + 1)%Z |>
    <| pl_updated_at := dec_created_at x |>.

(** A decision on the current version of a Plan that awaits one, made on its aggregate
    version, which no other decision was made on. *)
Record decides (d : Db) (p : agent_plan) (x : agent_plan_decision) : Prop := {
  decides_plan : agent_plans d !! pl_id p = Some p;
  decides_scope : decision_scope x = plan_scope p;
  decides_awaiting : pl_status p = PLAN_AWAITING;
  decides_current : dec_plan_version x = pl_current_version p;
  decides_expected : dec_expected_plan_cas_version x = pl_version p;
  decides_open : dec_resulting_plan_version x = None;
  decides_fresh : agent_plan_decisions d !! decision_key x = None;
  decides_unclaimed i y : agent_plan_decisions d !! i = Some y →
    decision_scope y = plan_scope p → dec_expected_plan_cas_version y ≠ pl_version p;
}.

(** The newest attempt of a run at a step of a version. *)
Definition newest_attempt (d : Db) (r : scope_key) (plan_id : string) (n : Z)
    (step_id : string) (y : agent_plan_step_run) : Prop :=
  let at_step x := step_run_scope x = r ∧ srn_plan_id x = plan_id ∧
                   srn_plan_version x = n ∧ srn_step_id x = step_id in
  (∃ i, agent_plan_step_runs d !! i = Some y) ∧ at_step y ∧
  ∀ i x, agent_plan_step_runs d !! i = Some x → at_step x → (srn_attempt x <= srn_attempt y)%Z.

(** When an attempt may be recorded. *)
Record attempt_allowed (d : Db) (x : agent_plan_step_run) : Prop := {
  allowed_constraints : satisfied (agent_plan_step_runs_constraints d x);
  (** the run is executable, and it and its Plan agree on the approved version *)
  allowed_run : ∃ run p, agent_runs d !! srn_run_id x = Some run ∧
    run_scope run = step_run_scope x ∧
    is_plan_run_executable (run_run_status run) (run_cancel_requested_at run) = true ∧
    agent_plans d !! srn_plan_id x = Some p ∧ plan_scope p = step_run_plan x ∧
    active_plan_version run p (srn_plan_id x) (srn_plan_version x) = true;
  (** nothing else of the run is running *)
  allowed_idle i y : agent_plan_step_runs d !! i = Some y →
    step_run_scope y = step_run_scope x → is_running y = false;
  (** the step belongs to that version, and its dependencies have succeeded *)
  allowed_step : ∃ s, agent_plan_steps d !! srn_step_id x = Some s ∧
    step_scope s = step_run_plan x ∧ ste_plan_version s = srn_plan_version x ∧
    (srn_attempt x <= ste_max_attempts s)%Z;
  allowed_dependencies i z : agent_plan_step_dependencies d !! i = Some z →
    dependency_scope z = step_run_plan x → dep_plan_version z = srn_plan_version x →
    dep_step_id z = srn_step_id x →
    ∃ y, newest_attempt d (step_run_scope x) (srn_plan_id x) (srn_plan_version x)
           (dep_depends_on_step_id z) y ∧ srn_status y = STEP_SUCCEEDED;
  (** it is the next attempt at the step, after failures that may be retried *)
  allowed_next :
    (srn_attempt x = 1%Z ∧ ∀ i y, agent_plan_step_runs d !! i = Some y →
       step_run_scope y = step_run_scope x → srn_plan_id y = srn_plan_id x →
       srn_plan_version y = srn_plan_version x → srn_step_id y ≠ srn_step_id x) ∨
    ∃ y, newest_attempt d (step_run_scope x) (srn_plan_id x) (srn_plan_version x)
           (srn_step_id x) y ∧ srn_attempt x = (srn_attempt y + 1)%Z ∧
         srn_status y ∉ NON_DISPATCHABLE_PLAN_STEP_STATUSES;
}.

(** A succeeded attempt of the same run at the same Plan whose result a row repeats. *)
Definition repeats_result (d : Db) (x : agent_plan_step_run) : Prop :=
  ∃ i y, agent_plan_step_runs d !! i = Some y ∧
    step_run_scope y = step_run_scope x ∧ srn_plan_id y = srn_plan_id x ∧
    srn_status y = STEP_SUCCEEDED ∧ srn_reused_from_step_run_id y = None ∧
    srn_reused_from_step_run_id x = Some (srn_step_run_id y) ∧
    srn_result_ref x = srn_result_ref y ∧ srn_result_digest x = srn_result_digest y ∧
    srn_result_summary x = srn_result_summary y ∧ is_Some (srn_result_ref y) ∧
    is_Some (srn_result_digest y).

(** The columns that the end of an attempt leaves alone. *)
Definition same_attempt_row (x x' : agent_plan_step_run) : Prop :=
  step_run_key x' = step_run_key x ∧ srn_run_id x' = srn_run_id x ∧
  srn_attempt x' = srn_attempt x ∧ srn_started_at x' = srn_started_at x ∧
  srn_reused_from_step_run_id x' = srn_reused_from_step_run_id x.

Inductive plan_effect : relation Db :=
| PlanCreated d p c :
    satisfied (agent_plans_constraints d p) → new_plan p →
    fresh_content d (plan_scope p) 1 c →
    plan_effect d (add_content (d <| agent_plans := <[pl_id p := p]> (agent_plans d) |>)
                     (plan_scope p) 1 c)
| PlanRevised d p c now :
    agent_plans d !! pl_id p = Some p → c_parent c = Some (pl_current_version p) →
    fresh_content d (plan_scope p) (pl_current_version p + 1) c →
    plan_effect d ((add_content d (plan_scope p) (pl_current_version p + 1) c)
                     <| agent_plans := <[pl_id p := revised now p]> (agent_plans d) |>)
| PlanDecided d p x :
    decides d p x → dec_action x ≠ DECIDE_REVISE →
    plan_effect d (d <| agent_plan_decisions :=
                          <[decision_key x := x]> (agent_plan_decisions d) |>
                     <| agent_plans := <[pl_id p := decided x p]> (agent_plans d) |>)
| RevisionClaimed d p x :
    decides d p x → dec_action x = DECIDE_REVISE →
    plan_effect d (d <| agent_plan_decisions :=
                          <[decision_key x := x]> (agent_plan_decisions d) |>)
| RevisionFinished d p i x :
    agent_plans d !! pl_id p = Some p →
    agent_plan_decisions d !! (plan_scope p, i) = Some x → dec_action x = DECIDE_REVISE →
    dec_resulting_plan_version x = None → pl_status p = PLAN_AWAITING →
    pl_current_version p = (dec_plan_version x + 1)%Z →
    pl_version p = (dec_expected_plan_cas_version x + 1)%Z →
    plan_effect d (d <| agent_plan_decisions := <[(plan_scope p, i) :=
                          x <| dec_resulting_plan_version := Some (dec_plan_version x + 1)%Z |>]>
                          (agent_plan_decisions d) |>)
| AttemptStarted d x :
    attempt_allowed d x → srn_status x = STEP_RUNNING → srn_version x = 1%Z →
    srn_reused_from_step_run_id x = None →
    plan_effect d (d <| agent_plan_step_runs :=
                          <[step_run_key x := x]> (agent_plan_step_runs d) |>)
| AttemptReused d x :
    attempt_allowed d x → srn_status x = STEP_SUCCEEDED → repeats_result d x →
    plan_effect d (d <| agent_plan_step_runs :=
                          <[step_run_key x := x]> (agent_plan_step_runs d) |>)
| AttemptEnded d i x x' :
    agent_plan_step_runs d !! i = Some x → is_running x = true →
    same_attempt_row x x' → is_running x' = false →
    srn_version x' = (srn_version x + 1)%Z → satisfied (agent_plan_step_runs_checks x') →
    plan_effect d (d <| agent_plan_step_runs :=
                          <[i := x']> (agent_plan_step_runs d) |>)
| RoundReserved d m :
    satisfied (memory_entries_constraints d m) → mem_type m = "plan_round_counter" →
    plan_effect d (d <| memory_entries := <[mem_id m := m]> (memory_entries d) |>).

(** *** The frame *)

(** What no step of the Plan repository touches. *)
Record plan_frame (d d' : Db) : Prop := {
  frame_workspaces : workspaces d' = workspaces d;
  frame_sessions : chat_sessions d' = chat_sessions d;
  frame_runs : agent_runs d' = agent_runs d;
  frame_approvals : approval_requests d' = approval_requests d;
  frame_executions : tool_executions d' = tool_executions d;
  frame_checkpoints : execution_checkpoints d' = execution_checkpoints d;
  frame_audit : audit_logs d' = audit_logs d;
  frame_versions : agent_plan_versions d ⊆ agent_plan_versions d';
  frame_memory : memory_entries d ⊆ memory_entries d';
}.

Lemma plan_effect_frame d d' : plan_effect d d' → plan_frame d d'.
Proof.
  destruct 1 as [d p c _ _ Hf|d p c now _ _ Hf| | | | | | |d m Hm _]; split; try done;
    unfold add_content; simpl.
  - apply insert_subseteq, Hf.
  - apply insert_subseteq, Hf.
  - apply insert_subseteq. unfold memory_entries_constraints in Hm.
    rewrite satisfied_cons, bool_decide_eq_true in Hm. apply Hm.
Qed.
End Effects.
