(* ===== verification/PlanInvariants.v ===== *)
(** * What the steps of the Plan repository preserve

    [plans_ok]: rows sit under their keys, every version of a Plan is the content of an
    accepted plan, versions are numbered without gaps up to the current one, decisions are
    ordered by the aggregate version they were made on, the approved version is the one
    last approved, and at most one attempt of a run is running.  [grows]: versions and
    ended attempts are immutable, decisions are only added, in order. *)

From S2P Require Import Prelude Records Errors Json Regex Tenancy WorkflowModels Storage.
From S2P Require Import Collections PlanStorage Checkpoint PlanValidation PlanOrder.
From S2P Require Import PlanSpec.
From S2P Require Import PlanRecords PlanReading WorkflowRepository PlanRepository.
From S2P Require Import PlanDecisions PlanAttempts PlanContent PlanEffects.
From stdpp Require Import base gmap strings list sorting fin_maps relations.

(** ** Adding a content *)

Section Content.
Context `{Env}.

Lemma NoDup_concat_map {A B} (f : A → list B) l :
  NoDup l → (∀ x, x ∈ l → NoDup (f x)) →
  (∀ x y b, x ∈ l → y ∈ l → b ∈ f x → b ∈ f y → x = y) → NoDup (concat (map f l)).
Proof.
  induction l as [|x l IH]; intros Hn Hf Hd; [by constructor|]. simpl.
  apply NoDup_cons in Hn as [Hx Hn]. apply NoDup_app. split_and!.
  - apply Hf. by left.
  - intros b Hb Hc. apply list_elem_of_In, in_concat in Hc as (m&Hm&Hbm).
    apply list_elem_of_In, list_elem_of_fmap in Hm as (y&->&Hy).
    apply list_elem_of_In in Hbm. destruct Hx.
    rewrite (Hd x y b); [done|by left|by right|done|done].
  - apply IH; [done|intros; apply Hf; by right|intros x' y b ? ?; apply Hd; by right].
Qed.

Lemma dependency_key_row k n ij : dependency_key (dependency_row k n ij) = (k, n, ij.1, ij.2).
Proof. by destruct k as [[[? ?] ?] ?]. Qed.

Lemma dependency_pairs_elem (l : list ValidatedPlanStep) a b :
  (a, b) ∈ dependency_pairs l ↔
  ∃ s : ValidatedPlanStep, s ∈ l ∧ logical_step_key s = a ∧ b ∈ depends_on s.
Proof.
  unfold dependency_pairs. rewrite list_elem_of_In, in_concat. split.
  - intros (m&Hm&Hab). apply list_elem_of_In, list_elem_of_fmap in Hm as (s&->&Hs).
    apply list_elem_of_In, list_elem_of_fmap in Hab as (x&[= -> ->]&Hx). eauto.
  - intros (s&Hs&<-&Hb). eexists. rewrite <-!list_elem_of_In. split.
    + apply list_elem_of_fmap. exists s. eauto.
    + by apply list_elem_of_fmap_2.
Qed.

Lemma content_dependency_keys k n c :
  content_ok c → NoDup (map dependency_key (content_dependencies k n c)).
Proof.
  intros Hc. pose proof (cok_plan c Hc) as Hw. unfold content_dependencies, content_pairs.
  rewrite !map_map. apply (NoDup_fmap_2_strong _ _).
  - intros [a b] [a' b'] (s&Hs&<-&Hb)%dependency_pairs_elem (s'&Hs'&<-&Hb')%dependency_pairs_elem.
    rewrite !dependency_key_row. simpl. intros [= Ha Hbb].
    assert (Hk : ∀ s : ValidatedPlanStep, s ∈ steps (c_plan c) →
      logical_step_key s ∈ plan_keys (c_plan c)).
    { intros t Ht. unfold plan_keys.
      by apply (list_elem_of_fmap_2 (λ s, logical_step_key (vps_step s))). }
    apply (id_of_inj c Hc) in Ha; [|by apply Hk..].
    apply (id_of_inj c Hc) in Hbb;
      [|apply (wpl_known _ Hw s b Hs Hb)|apply (wpl_known _ Hw s' b' Hs' Hb')]. congruence.
  - apply NoDup_concat_map.
    + apply (NoDup_fmap_1 (λ s, logical_step_key (vps_step s))), (wpl_keys _ Hw).
    + intros s Hs. apply (NoDup_fmap_2_strong _ _); [by intros x y _ _ [=]|].
      by apply (wpl_distinct _ Hw).
    + intros s s' [a b] Hs Hs' (x&[= -> ->]&_)%list_elem_of_fmap (x'&[= Hk _]&_)%list_elem_of_fmap.
      apply list_elem_of_lookup_1 in Hs as [i Hi], Hs' as [i' Hi'].
      assert (i = i') as ->; [|congruence].
      eapply NoDup_lookup; [apply (wpl_keys _ Hw)| |]; unfold plan_keys;
        rewrite list_lookup_fmap; [by rewrite Hi|]. rewrite Hi'. simpl. by rewrite Hk.
Qed.

Lemma content_dependency_scope k n c x :
  x ∈ content_dependencies k n c → dependency_scope x = k ∧ dep_plan_version x = n.
Proof.
  intros (ij&->&_)%list_elem_of_fmap. by destruct k as [[[? ?] ?] ?].
Qed.

(** Steps and dependencies belong to stored versions. *)
Record versioned (d : Db) : Prop := {
  versioned_steps i s : agent_plan_steps d !! i = Some s →
    is_Some (agent_plan_versions d !! (step_scope s, ste_plan_version s));
  versioned_dependencies i x : agent_plan_step_dependencies d !! i = Some x →
    is_Some (agent_plan_versions d !! (dependency_scope x, dep_plan_version x));
}.

Section Added.
Context (d : Db) (k : plan_key) (n : Z) (c : Content).
Context (Hd : keyed d) (Hv : versioned d) (Hf : fresh_content d k n c).
Local Notation d' := (add_content d k n c).
Let Hc := fresh_ok d k n c Hf.

Lemma added_steps j s :
  agent_plan_steps d' !! j = Some s ↔
  (s ∈ content_steps k n c ∧ ste_step_id s = j) ∨ agent_plan_steps d !! j = Some s.
Proof using Hf.
  unfold add_content. simpl.
  rewrite (foldl_insert_Some ste_step_id (λ x, x)).
  - naive_solver.
  - rewrite content_step_ids by done. apply (cok_ids c Hc).
  - intros x Hx. apply (fresh_ids d k n c Hf). rewrite <-(content_step_ids k n c Hc).
    by apply list_elem_of_fmap_2.
Qed.

Lemma added_dependencies q x :
  agent_plan_step_dependencies d' !! q = Some x ↔
  (x ∈ content_dependencies k n c ∧ dependency_key x = q) ∨
  agent_plan_step_dependencies d !! q = Some x.
Proof using Hd Hv Hf.
  unfold add_content. simpl.
  rewrite (foldl_insert_Some dependency_key (λ x, x)).
  - naive_solver.
  - by apply content_dependency_keys.
  - intros y [Hy1 Hy2]%content_dependency_scope.
    destruct (agent_plan_step_dependencies d !! dependency_key y) as [z|] eqn:E; [|done].
    pose proof (f_equal (λ q, q.1.1) (keyed_dependencies d Hd _ _ E)) as Hz. simpl in Hz.
    destruct (versioned_dependencies d Hv _ _ E) as [v Hzv]. exfalso.
    pose proof (fresh_version d k n c Hf) as Hn. rewrite <-Hy1, <-Hy2 in Hn. congruence.
Qed.

Lemma added_versions q :
  agent_plan_versions d' !! q =
  if decide (q = (k, n)) then Some (content_row k n c) else agent_plan_versions d !! q.
Proof using Type.
  unfold add_content. simpl. destruct (decide (q = (k, n))) as [->|Hq].
  - by rewrite lookup_insert_eq.
  - by rewrite lookup_insert_ne.
Qed.

Lemma holds_added : holds k n c d'.
Proof using Hd Hv Hf.
  pose proof (fresh_version d k n c Hf) as Hn. split.
  - rewrite added_versions. by rewrite decide_True.
  - intros s. rewrite added_steps. split.
    + intros Hs. destruct (content_step_scope k n c s Hs) as [Hk Hnv]. auto.
    + intros ([[Hs _]|Hs]&Hk&Hnv); [done|]. destruct (versioned_steps d Hv _ _ Hs) as [v Hsv].
      rewrite Hk, Hnv in Hsv. congruence.
  - intros x. rewrite added_dependencies. split.
    + intros Hx. destruct (content_dependency_scope k n c x Hx) as [Hk Hnv]. auto.
    + intros ([[Hx _]|Hx]&Hk&Hnv); [done|]. destruct (versioned_dependencies d Hv _ _ Hx) as [v Hxv].
      rewrite Hk, Hnv in Hxv. congruence.
Qed.

Lemma holds_kept k' n' c' : (k', n') ≠ (k, n) → holds k' n' c' d → holds k' n' c' d'.
Proof using Hd Hv Hf.
  intros Hne [H1 H2 H3]. split.
  - rewrite added_versions. by rewrite decide_False.
  - intros s. rewrite added_steps, H2. split; [naive_solver|].
    intros ([[Hs _]|Hs]&Hk&Hnv); [|done].
    destruct (content_step_scope k n c s Hs) as [Hk' Hnv']. congruence.
  - intros x. rewrite added_dependencies, H3. split; [naive_solver|].
    intros ([[Hx _]|Hx]&Hk&Hnv); [|done].
    destruct (content_dependency_scope k n c x Hx) as [Hk' Hnv']. congruence.
Qed.

Lemma added_keyed : keyed d'.
Proof using Hd Hv Hf.
  destruct Hd as [K1 K2 K3 K4 K5 K6]. split; try done.
  - intros i v. rewrite added_versions. destruct (decide _) as [->|]; [|apply K2].
    intros [= <-]. apply content_row_key.
  - intros i s [[_ Hs]|Hs]%added_steps; [done|by apply K3].
  - intros i x [[_ Hx]|Hx]%added_dependencies; [done|by apply K4].
Qed.

Lemma added_versioned : versioned d'.
Proof using Hd Hv Hf.
  assert (Hsub : ∀ q, is_Some (agent_plan_versions d !! q) → is_Some (agent_plan_versions d' !! q)).
  { intros q Hq. rewrite added_versions. destruct (decide _); eauto. }
  assert (Hnew : is_Some (agent_plan_versions d' !! (k, n))).
  { rewrite added_versions, decide_True by done. eauto. }
  split.
  - intros i s [[Hs _]|Hs]%added_steps; [|by apply Hsub, (versioned_steps d Hv i)].
    by destruct (content_step_scope k n c s Hs) as [-> ->].
  - intros i x [[Hx _]|Hx]%added_dependencies; [|by apply Hsub, (versioned_dependencies d Hv i)].
    by destruct (content_dependency_scope k n c x Hx) as [-> ->].
Qed.
End Added.
End Content.

(** ** The invariant *)

Section Invariant.
Context `{Env}.

(** *** Contents *)

Record contents_ok (d : Db) : Prop := {
  ok_keyed : keyed d;
  ok_versioned : versioned d;
  ok_plan i p : agent_plans d !! i = Some p →
    ∃ cs, cs ≠ [] ∧ pl_current_version p = Z.of_nat (length cs) ∧ stored d (plan_scope p) cs;
  ok_version k n v : agent_plan_versions d !! (k, n) = Some v →
    ∃ p, agent_plans d !! k.2 = Some p ∧ plan_scope p = k;
}.

(** Databases with the same versions, steps and dependencies. *)
Definition same_contents (d d' : Db) : Prop :=
  agent_plan_versions d' = agent_plan_versions d ∧ agent_plan_steps d' = agent_plan_steps d ∧
  agent_plan_step_dependencies d' = agent_plan_step_dependencies d.

Lemma holds_same k n c d d' : same_contents d d' → holds k n c d → holds k n c d'.
Proof. intros (E1&E2&E3) [H1 H2 H3]. by split; rewrite ?E1, ?E2, ?E3. Qed.

Lemma stored_same d d' k cs : same_contents d d' → stored d k cs → stored d' k cs.
Proof.
  intros Hd [H1 H2 H3]. pose proof Hd as (E1&E2&E3). split; rewrite ?E1, ?E2, ?E3; try done.
  intros i c Hi. destruct (H1 i c Hi) as (?&?&?). split_and!; try done. by eapply holds_same.
Qed.

Lemma versioned_same d d' : same_contents d d' → versioned d → versioned d'.
Proof. intros (E1&E2&E3) [H1 H2]. by split; rewrite ?E1, ?E2, ?E3. Qed.

Lemma fresh_content_same d d' k n c :
  same_contents d d' → fresh_content d k n c → fresh_content d' k n c.
Proof. intros (E1&E2&E3) [H1 H2 H3 H4]. by split; rewrite ?E1, ?E2. Qed.

(** The plans move, their contents stay. *)
Lemma contents_ok_moved d d' :
  same_contents d d' → keyed d' →
  (∀ i p', agent_plans d' !! i = Some p' → ∃ p, agent_plans d !! i = Some p ∧
     plan_scope p' = plan_scope p ∧ pl_current_version p' = pl_current_version p) →
  (∀ i p, agent_plans d !! i = Some p → ∃ p', agent_plans d' !! i = Some p' ∧
     plan_scope p' = plan_scope p) →
  contents_ok d → contents_ok d'.
Proof.
  intros Hsame Hk Hback Hforth [_ Hv Hp Hver]. split; [done|by eapply versioned_same| |].
  - intros i p' (p&Hi&->&->)%Hback. destruct (Hp i p Hi) as (cs&?&?&?). exists cs.
    split_and!; try done. by eapply stored_same.
  - intros k n v. rewrite (proj1 Hsame). intros (p&Hi&Hs)%Hver.
    destruct (Hforth _ _ Hi) as (p'&?&?). exists p'. split; [done|congruence].
Qed.

Lemma stored_kept d k n c k' cs :
  keyed d → versioned d → fresh_content d k n c → k' ≠ k →
  stored d k' cs → stored (add_content d k n c) k' cs.
Proof.
  intros Hd Hv Hf Hne [H1 H2 H3]. split.
  - intros i c' Hi. destruct (H1 i c' Hi) as (?&?&?). split_and!; try done.
    apply holds_kept; try done. congruence.
  - intros m v. rewrite added_versions, decide_False by congruence. apply H2.
  - intros i x Hx Hk.
    pose proof (versioned_dependencies _ (added_versioned d k n c Hd Hv Hf) i x Hx) as Hq.
    by rewrite Hk in Hq.
Qed.

Lemma stored_extended d k c cs :
  keyed d → versioned d → fresh_content d k (Z.of_nat (S (length cs))) c →
  stored d k cs → stored (add_content d k (Z.of_nat (S (length cs))) c) k (cs ++ [c]).
Proof.
  intros Hd Hv Hf [H1 H2 H3]. split.
  - intros i c' Hi. apply lookup_app_Some in Hi as [Hi|[Hlen Hi]].
    + destruct (H1 i c' Hi) as (?&?&?). split_and!; try done. apply holds_kept; try done.
      apply lookup_lt_Some in Hi. intros [= Heq]. lia.
    + apply list_lookup_singleton_Some in Hi as [Hi <-]. replace i with (length cs) by lia.
      split_and!; [apply Hf|apply Hf|by apply holds_added].
  - intros m v. rewrite added_versions, length_app. simpl.
    destruct (decide _) as [[= ->]|]; [lia|]. intros Hm%H2. lia.
  - intros i x Hx Hk.
    pose proof (versioned_dependencies _ (added_versioned d k _ c Hd Hv Hf) i x Hx) as Hq.
    by rewrite Hk in Hq.
Qed.

(** The row of a new Plan, before its first version. *)
Lemma created_row d p c :
  agent_plans d !! pl_id p = None → fresh_content d (plan_scope p) 1 c → contents_ok d →
  let d1 := d <| agent_plans := <[pl_id p := p]> (agent_plans d) |> in
  keyed d1 ∧ versioned d1 ∧ fresh_content d1 (plan_scope p) 1 c ∧ stored d1 (plan_scope p) [].
Proof.
  intros Hfresh Hf [Hk Hv _ Hver] d1. assert (Hsame : same_contents d d1) by done. split_and!.
  - destruct Hk as [K1 K2 K3 K4 K5 K6]. split; try done. unfold d1. simpl.
    intros i q [[<- <-]|[_ Hq]]%lookup_insert_Some; [done|by apply K1].
  - by eapply versioned_same.
  - by eapply fresh_content_same.
  - split; [done| |].
    + intros n v Hn. destruct (Hver _ _ _ Hn) as (q&Hq&_). simpl in Hq. congruence.
    + intros i x Hx Hkx. destruct (versioned_dependencies d Hv i x Hx) as [v Hxv].
      destruct (Hver _ _ _ Hxv) as (q&Hq&_). rewrite Hkx in Hq. simpl in Hq. congruence.
Qed.

Lemma stored_created d p c :
  agent_plans d !! pl_id p = None → fresh_content d (plan_scope p) 1 c → contents_ok d →
  stored (add_content (d <| agent_plans := <[pl_id p := p]> (agent_plans d) |>) (plan_scope p) 1 c)
    (plan_scope p) [c].
Proof.
  intros Hfresh Hf Hok. destruct (created_row d p c Hfresh Hf Hok) as (?&?&?&?).
  by apply (stored_extended _ (plan_scope p) c []).
Qed.

Lemma contents_created d p c :
  satisfied (agent_plans_constraints d p) → new_plan p → fresh_content d (plan_scope p) 1 c →
  contents_ok d →
  contents_ok (add_content (d <| agent_plans := <[pl_id p := p]> (agent_plans d) |>)
                 (plan_scope p) 1 c).
Proof.
  intros Hsat (Hst&Hcur&_) Hf Hok.
  assert (Hfresh : agent_plans d !! pl_id p = None).
  { unfold agent_plans_constraints in Hsat.
    rewrite satisfied_app, satisfied_cons, bool_decide_eq_true in Hsat. apply Hsat. }
  pose proof (stored_created d p c Hfresh Hf Hok) as Hnew.
  destruct (created_row d p c Hfresh Hf Hok) as (Hk1&Hv1&Hf1&_).
  set (d1 := d <| agent_plans := <[pl_id p := p]> (agent_plans d) |>) in *.
  destruct Hok as [Hk Hv Hp Hver].
  split; [by apply added_keyed|by apply added_versioned| |].
  - intros i q Hq. change (<[pl_id p := p]> (agent_plans d) !! i = Some q) in Hq.
    apply lookup_insert_Some in Hq as [[<- <-]|[Hne Hq]].
    + exists [c]. split_and!; [done|by rewrite Hcur|done].
    + destruct (Hp i q Hq) as (cs&?&?&?). exists cs. split_and!; try done.
      apply stored_kept; try done; [|by apply (stored_same d)].
      intros Heq. pose proof (f_equal snd Heq) as Hid. simpl in Hid.
      rewrite (keyed_plans d Hk i q Hq) in Hid. congruence.
  - intros k n v Hn. rewrite added_versions in Hn.
    change (agent_plans (add_content d1 (plan_scope p) 1 c))
      with (<[pl_id p := p]> (agent_plans d)).
    destruct (decide _) as [[= -> ->]|Hne].
    + exists p. simpl. by rewrite lookup_insert_eq.
    + destruct (Hver k n v Hn) as (q&Hq&<-). exists q. split; [|done].
      rewrite lookup_insert_ne; [done|]. intros Heq. rewrite <-Heq in Hq. congruence.
Qed.

Lemma contents_revised d p c now :
  agent_plans d !! pl_id p = Some p →
  fresh_content d (plan_scope p) (pl_current_version p + 1) c → contents_ok d →
  contents_ok ((add_content d (plan_scope p) (pl_current_version p + 1) c)
                 <| agent_plans := <[pl_id p := revised now p]> (agent_plans d) |>).
Proof.
  intros Hpl Hf Hok. destruct Hok as [Hk Hv Hp Hver].
  set (d1 := add_content d (plan_scope p) (pl_current_version p + 1) c).
  assert (Hk1 : keyed d1) by (by apply added_keyed).
  assert (Hv1 : versioned d1) by (by apply added_versioned).
  assert (Hsame : same_contents d1
    (d1 <| agent_plans := <[pl_id p := revised now p]> (agent_plans d) |>)) by done.
  split.
  - destruct Hk1 as [K1 K2 K3 K4 K5 K6]. split; try done. simpl.
    intros i q [[<- <-]|[_ Hq]]%lookup_insert_Some; [done|by apply K1].
  - by eapply versioned_same.
  - simpl. intros i q [[<- <-]|[Hne Hq]]%lookup_insert_Some.
    + destruct (Hp _ p Hpl) as (cs&?&Hcur&Hcs). exists (cs ++ [c]). split_and!.
      * by destruct cs.
      * simpl. rewrite Hcur, length_app. simpl. lia.
      * eapply stored_same; [exact Hsame|]. change (plan_scope (revised now p)) with (plan_scope p).
        unfold d1 in *. rewrite Hcur in *.
        replace (Z.of_nat (length cs) + 1)%Z with (Z.of_nat (S (length cs))) in * by lia.
        by apply stored_extended.
    + destruct (Hp i q Hq) as (cs&?&?&?). exists cs. split_and!; try done.
      eapply stored_same; [exact Hsame|]. apply stored_kept; try done.
      intros Heq. pose proof (f_equal snd Heq) as Hid. simpl in Hid.
      rewrite (keyed_plans d Hk i q Hq) in Hid. congruence.
  - intros k n v Hn. change (agent_plan_versions d1 !! (k, n) = Some v) in Hn.
    unfold d1 in Hn. rewrite added_versions in Hn.
    change (∃ q, <[pl_id p := revised now p]> (agent_plans d) !! k.2 = Some q ∧ plan_scope q = k).
    destruct (decide _) as [[= -> _]|Hne].
    + exists (revised now p). simpl. by rewrite lookup_insert_eq.
    + destruct (Hver k n v Hn) as (q&Hq&Hqk). destruct (decide (k.2 = pl_id p)) as [Heq|Hne'].
      * rewrite Heq in *. exists (revised now p). rewrite lookup_insert_eq. split; [done|].
        rewrite Hpl in Hq. injection Hq as <-. done.
      * exists q. by rewrite lookup_insert_ne.
Qed.

(** *** Decisions *)

(** A decision was made on an aggregate version that the Plan has left, except that a
    claimed revision may still be on the current one. *)
Record decision_placed (p : agent_plan) (x : agent_plan_decision) : Prop := {
  placed_version : (dec_plan_version x <= pl_current_version p)%Z;
  placed_expected : (dec_expected_plan_cas_version x < pl_version p)%Z ∨
    (dec_expected_plan_cas_version x = pl_version p ∧ dec_action x = DECIDE_REVISE ∧
     dec_resulting_plan_version x = None);
  placed_result r : dec_resulting_plan_version x = Some r →
    dec_action x = DECIDE_REVISE ∧ (r <= pl_current_version p)%Z;
}.

Definition approves (p : agent_plan) (x : agent_plan_decision) : Prop :=
  decision_scope x = plan_scope p ∧ dec_action x = DECIDE_APPROVE.

(** The approved version is the one that was approved last. *)
Definition approved_by (d : Db) (p : agent_plan) : Prop :=
  match pl_approved_version p with
  | None => ∀ i x, agent_plan_decisions d !! i = Some x → ¬ approves p x
  | Some n => ∃ i x, agent_plan_decisions d !! i = Some x ∧ approves p x ∧
      dec_plan_version x = n ∧
      ∀ j y, agent_plan_decisions d !! j = Some y → approves p y →
        (dec_expected_plan_cas_version y <= dec_expected_plan_cas_version x)%Z
  end.

Record decisions_ok (d : Db) : Prop := {
  ok_decision i x : agent_plan_decisions d !! i = Some x →
    ∃ p, agent_plans d !! dec_plan_id x = Some p ∧ plan_scope p = decision_scope x ∧
      decision_placed p x;
  ok_unambiguous i x j y :
    agent_plan_decisions d !! i = Some x → agent_plan_decisions d !! j = Some y →
    decision_scope x = decision_scope y →
    dec_expected_plan_cas_version x = dec_expected_plan_cas_version y → x = y;
  ok_approved i p : agent_plans d !! i = Some p → approved_by d p;
  ok_status i p : agent_plans d !! i = Some p → pl_status p = PLAN_APPROVED →
    pl_approved_version p = Some (pl_current_version p);
}.

Lemma decisions_same d d' :
  agent_plans d' = agent_plans d → agent_plan_decisions d' = agent_plan_decisions d →
  decisions_ok d → decisions_ok d'.
Proof.
  intros E1 E2 [H1 H2 H3 H4]. split; rewrite ?E1, ?E2; try done.
  intros i p Hp. specialize (H3 i p Hp). unfold approved_by in *. by rewrite E2.
Qed.

(** A Plan whose decisions are all behind it moves on. *)
Lemma decision_placed_mono p p' x :
  (pl_current_version p <= pl_current_version p')%Z → (pl_version p < pl_version p')%Z →
  decision_placed p x → decision_placed p' x.
Proof.
  intros Hc Hv [H1 H2 H3]. split; [lia|lia|]. intros r Hr. destruct (H3 r Hr). split; [done|lia].
Qed.

Lemma decisions_created d p :
  keyed d → agent_plans d !! pl_id p = None → pl_approved_version p = None →
  pl_status p = PLAN_AWAITING → decisions_ok d →
  decisions_ok (d <| agent_plans := <[pl_id p := p]> (agent_plans d) |>).
Proof.
  intros Hk Hf Ha Hst [H1 H2 H3 H4].
  assert (Hother : ∀ i x, agent_plan_decisions d !! i = Some x → dec_plan_id x ≠ pl_id p).
  { intros i x (q&Hq&_)%H1 Heq. rewrite Heq in Hq. congruence. }
  split; simpl; [|done| |].
  - intros i x Hx. destruct (H1 i x Hx) as (q&Hq&?&?). exists q. split; [|done].
    rewrite lookup_insert_ne; [done|]. intros Heq. by apply (Hother i x Hx).
  - intros i q [[<- <-]|[Hne Hq]]%lookup_insert_Some; [|by apply H3 in Hq].
    unfold approved_by. rewrite Ha. intros i x Hx [Hs _]. apply (Hother i x Hx).
    by apply (f_equal snd) in Hs.
  - intros i q [[<- <-]|[Hne Hq]]%lookup_insert_Some; [by rewrite Hst|by apply (H4 i)].
Qed.

Lemma decisions_revised d p now :
  keyed d → agent_plans d !! pl_id p = Some p → decisions_ok d →
  decisions_ok (d <| agent_plans := <[pl_id p := revised now p]> (agent_plans d) |>).
Proof.
  intros Hk Hp [H1 H2 H3 H4]. split; simpl; [|done| |].
  - intros i x Hx. destruct (H1 i x Hx) as (q&Hq&Hs&Hpl).
    destruct (decide (dec_plan_id x = pl_id p)) as [Heq|Hne].
    + rewrite Heq in *. exists (revised now p). rewrite lookup_insert_eq.
      assert (q = p) as -> by congruence. split_and!; [done|done|].
      eapply decision_placed_mono; [| |done]; simpl; lia.
    + exists q. by rewrite lookup_insert_ne.
  - intros i q [[<- <-]|[Hne Hq]]%lookup_insert_Some; [|by apply H3 in Hq].
    apply H3 in Hp. unfold approved_by in *. simpl. done.
  - intros i q [[<- <-]|[Hne Hq]]%lookup_insert_Some; [done|by apply (H4 i)].
Qed.

Lemma inserted_decision d p x i y :
  decides d p x →
  <[decision_key x := x]> (agent_plan_decisions d) !! i = Some y ↔
  (i = decision_key x ∧ y = x) ∨ agent_plan_decisions d !! i = Some y.
Proof.
  intros Hx. rewrite lookup_insert_Some. split; [naive_solver|].
  intros [[-> ->]|Hy]; [by left|]. right. split; [|done]. intros <-.
  pose proof (decides_fresh _ _ _ Hx). congruence.
Qed.

Lemma decisions_unambiguous d p x i y j z :
  decides d p x → decisions_ok d →
  <[decision_key x := x]> (agent_plan_decisions d) !! i = Some y →
  <[decision_key x := x]> (agent_plan_decisions d) !! j = Some z →
  decision_scope y = decision_scope z →
  dec_expected_plan_cas_version y = dec_expected_plan_cas_version z → y = z.
Proof.
  intros Hx [_ H2 _ _]. rewrite !(inserted_decision d p) by done.
  pose proof (decides_scope _ _ _ Hx) as Hs. pose proof (decides_expected _ _ _ Hx) as He.
  intros [[_ ->]|Hy] [[_ ->]|Hz] Hyz Heq; try done.
  - destruct (decides_unclaimed _ _ _ Hx j z Hz); congruence.
  - destruct (decides_unclaimed _ _ _ Hx i y Hy); congruence.
  - by eapply H2.
Qed.

Lemma approved_ext d p p' :
  plan_scope p' = plan_scope p → pl_approved_version p' = pl_approved_version p →
  approved_by d p → approved_by d p'.
Proof. intros Hs Ha. unfold approved_by, approves. by rewrite Hs, Ha. Qed.

(** A decision that does not approve a Plan leaves its last approval. *)
Lemma approved_insert d d' p x q :
  decides d p x →
  agent_plan_decisions d' = <[decision_key x := x]> (agent_plan_decisions d) →
  ¬ approves q x → approved_by d q → approved_by d' q.
Proof.
  intros Hx Hd' Hn. unfold approved_by. rewrite Hd'. destruct (pl_approved_version q) as [n|].
  - intros (i&y&Hy&Ha&Hyn&Hmax). exists i, y. split_and!; try done.
    + apply (inserted_decision d p); [done|by right].
    + intros j z Hz. apply (inserted_decision d p) in Hz as [[_ ->]|Hz]; [done|by apply (Hmax j)|done].
  - intros Hq j z Hz. apply (inserted_decision d p) in Hz as [[_ ->]|Hz]; [done|by apply (Hq j)|done].
Qed.

Lemma decisions_claimed d p x :
  decides d p x → dec_action x = DECIDE_REVISE → decisions_ok d →
  decisions_ok (d <| agent_plan_decisions := <[decision_key x := x]> (agent_plan_decisions d) |>).
Proof.
  intros Hx Hr Hok. pose proof Hok as [H1 H2 H3 H4]. split; simpl.
  - intros i y Hy. apply (inserted_decision d p) in Hy as [[_ ->]|Hy]; [|by apply (H1 i)|done].
    exists p. pose proof (decides_scope _ _ _ Hx) as Hs.
    assert (dec_plan_id x = pl_id p) as -> by (by apply (f_equal snd) in Hs).
    split_and!; [apply Hx|done|]. destruct Hx. split; [lia|by right|naive_solver].
  - intros i y j z Hy Hz. by apply (decisions_unambiguous d p x i y j z).
  - intros i q Hq%H3. eapply (approved_insert d _ p x); [done|done| |done].
    intros [_ Ha]. congruence.
  - done.
Qed.

Lemma decisions_decided d p x :
  keyed d → decides d p x → dec_action x ≠ DECIDE_REVISE → decisions_ok d →
  decisions_ok (d <| agent_plan_decisions := <[decision_key x := x]> (agent_plan_decisions d) |>
                  <| agent_plans := <[pl_id p := decided x p]> (agent_plans d) |>).
Proof.
  intros Hk Hx Hr Hok. pose proof Hok as [H1 H2 H3 H4].
  pose proof (decides_scope _ _ _ Hx) as Hs. pose proof (decides_plan _ _ _ Hx) as Hp.
  pose proof (decides_expected _ _ _ Hx) as He.
  assert (Hid : dec_plan_id x = pl_id p) by (by apply (f_equal snd) in Hs).
  assert (Hother : ∀ i q, i ≠ pl_id p → agent_plans d !! i = Some q → plan_scope q ≠ plan_scope p).
  { intros i q Hne Hq Heq. apply (f_equal snd) in Heq. simpl in Heq.
    rewrite (keyed_plans d Hk i q Hq) in Heq. done. }
  assert (Hbelow : ∀ i y, agent_plan_decisions d !! i = Some y → decision_scope y = plan_scope p →
    (dec_expected_plan_cas_version y < pl_version p)%Z).
  { intros i y Hy Hys. destruct (H1 i y Hy) as (q&Hq&Hqs&[_ Hpl _]).
    assert (q = p) as ->.
    { pose proof Hys as Hys'. apply (f_equal snd) in Hys'. simpl in Hys'. rewrite Hys' in Hq. congruence. }
    pose proof (decides_unclaimed _ _ _ Hx i y Hy Hys). lia. }
  split; simpl.
  - intros i y Hy. apply (inserted_decision d p) in Hy as [[_ ->]|Hy]; [| |done].
    + exists (decided x p). rewrite Hid, lookup_insert_eq. split_and!; [done|done|].
      destruct Hx. split; simpl; [lia|lia|naive_solver].
    + destruct (H1 i y Hy) as (q&Hq&Hqs&Hpl).
      destruct (decide (dec_plan_id y = pl_id p)) as [Heq|Hne].
      * rewrite Heq in *. exists (decided x p). rewrite lookup_insert_eq.
        assert (q = p) as -> by congruence. split_and!; [done|done|].
        eapply decision_placed_mono; [| |done]; simpl; lia.
      * exists q. by rewrite lookup_insert_ne.
  - intros i y j z Hy Hz. by apply (decisions_unambiguous d p x i y j z).
  - intros i q [[<- <-]|[Hne Hq]]%lookup_insert_Some.
    + destruct (decide (dec_action x = DECIDE_APPROVE)) as [Ea|Ea].
      * unfold approved_by, decided. simpl. rewrite Ea.
        exists (decision_key x), x. rewrite lookup_insert_eq. split_and!; try done.
        intros j y Hy [Hys _]. apply (inserted_decision d p) in Hy as [[_ ->]|Hy]; [lia| |done].
        specialize (Hbelow j y Hy Hys). lia.
      * apply (approved_ext _ p); [done|simpl; by destruct (dec_action x)|].
        eapply (approved_insert d _ p x p); [done|done|by intros [_ ?]|by apply (H3 (pl_id p))].
    + eapply (approved_insert d _ p x q); [done|done| |by apply (H3 i)].
      intros [Hq' _]. apply (Hother i q); congruence.
  - intros i q [[<- <-]|[Hne Hq]]%lookup_insert_Some; [|by apply (H4 i)].
    simpl. unfold decided_status. rewrite (decides_current _ _ _ Hx). by destruct (dec_action x).
Qed.

Lemma decisions_finished d p x :
  keyed d → agent_plans d !! pl_id p = Some p → plan_scope p = decision_scope x →
  agent_plan_decisions d !! decision_key x = Some x → dec_action x = DECIDE_REVISE →
  pl_current_version p = (dec_plan_version x + 1)%Z →
  pl_version p = (dec_expected_plan_cas_version x + 1)%Z → decisions_ok d →
  decisions_ok (d <| agent_plan_decisions := <[decision_key x :=
    x <| dec_resulting_plan_version := Some (dec_plan_version x + 1)%Z |>]>
    (agent_plan_decisions d) |>).
Proof.
  intros Hk Hp Hs Hx Ha Hcur Hver [H1 H2 H3 H4].
  set (x' := x <| dec_resulting_plan_version := Some (dec_plan_version x + 1)%Z |>).
  assert (Hid : dec_plan_id x = pl_id p) by (by apply (f_equal snd) in Hs).
  (* the new table is the old one with [x'] for [x] *)
  set (f := λ y, if decide (y = x) then x' else y).
  assert (Hf : ∀ y, decision_scope (f y) = decision_scope y ∧
    dec_expected_plan_cas_version (f y) = dec_expected_plan_cas_version y ∧
    dec_action (f y) = dec_action y ∧ dec_plan_version (f y) = dec_plan_version y).
  { intros y. unfold f. by destruct (decide (y = x)) as [->|]. }
  assert (Htab : ∀ i, <[decision_key x := x']> (agent_plan_decisions d) !! i =
    f <$> agent_plan_decisions d !! i).
  { intros i. destruct (decide (i = decision_key x)) as [->|Hne].
    - rewrite lookup_insert_eq. etrans; [|symmetry; apply (f_equal (fmap f)), Hx]. unfold f. simpl.
      by rewrite decide_True.
    - rewrite lookup_insert_ne by done. destruct (_ !! i) as [y|] eqn:E; [|done]. simpl.
      unfold f. rewrite decide_False; [done|]. intros ->.
      by rewrite (keyed_decisions d Hk _ _ E) in Hne. }
  assert (Hold : ∀ i y, <[decision_key x := x']> (agent_plan_decisions d) !! i = Some y →
    ∃ y0, agent_plan_decisions d !! i = Some y0 ∧ y = f y0).
  { intros i y. rewrite Htab. intros (y0&?&?)%fmap_Some. eauto. }
  split; simpl; fold x'.
  - intros i y [[<- <-]|[Hne Hy]]%lookup_insert_Some; [|by apply (H1 i)].
    exists p. split_and!; [by change (dec_plan_id x') with (dec_plan_id x); rewrite Hid|exact Hs|].
    split; simpl; [lia|left; lia|]. intros r [= <-]. split; [done|lia].
  - intros i y j z (y0&Hy0&->)%Hold (z0&Hz0&->)%Hold.
    destruct (Hf y0) as (->&->&_&_), (Hf z0) as (->&->&_&_). intros. f_equal. by eapply H2.
  - intros i q Hq%H3. unfold approved_by in *. simpl. fold x'.
    destruct (pl_approved_version q) as [n|].
    + destruct Hq as (i'&y&Hy&[Ha1 Ha2]&Hn&Hmax). exists i', (f y). rewrite Htab, Hy.
      unfold approves. destruct (Hf y) as (->&->&->&->). split_and!; try done.
      intros j z (z0&Hz0&->)%Hold. destruct (Hf z0) as (->&->&->&_). by apply (Hmax j).
    + intros j z (z0&Hz0&->)%Hold. unfold approves. destruct (Hf z0) as (->&_&->&_). by apply (Hq j).
  - done.
Qed.

(** *** Attempts *)

Definition attempts_ok (d : Db) : Prop :=
  ∀ i x j y, agent_plan_step_runs d !! i = Some x → agent_plan_step_runs d !! j = Some y →
    is_running x = true → is_running y = true → step_run_scope x = step_run_scope y → x = y.

Lemma attempts_started d x :
  attempt_allowed d x → attempts_ok d →
  attempts_ok (d <| agent_plan_step_runs := <[step_run_key x := x]> (agent_plan_step_runs d) |>).
Proof.
  intros Ha Hok i y j z. simpl.
  intros [[<- <-]|[_ Hy]]%lookup_insert_Some [[<- <-]|[_ Hz]]%lookup_insert_Some Hry Hrz Hs; try done.
  - by rewrite (allowed_idle d x Ha j z Hz) in Hrz.
  - by rewrite (allowed_idle d x Ha i y Hy) in Hry.
  - by apply (Hok i y j z).
Qed.

Lemma attempts_ended d q x' :
  is_running x' = false → attempts_ok d →
  attempts_ok (d <| agent_plan_step_runs := <[q := x']> (agent_plan_step_runs d) |>).
Proof.
  intros Hr Hok i y j z. simpl.
  intros [[<- <-]|[_ Hy]]%lookup_insert_Some [[<- <-]|[_ Hz]]%lookup_insert_Some Hry Hrz Hs;
    try congruence. by apply (Hok i y j z).
Qed.

(** *** All together *)

Record plans_ok (d : Db) : Prop := {
  ok_contents : contents_ok d;
  ok_decisions : decisions_ok d;
  ok_attempts : attempts_ok d;
}.

Lemma keyed_attempt d q x :
  step_run_key x = q → keyed d →
  keyed (d <| agent_plan_step_runs := <[q := x]> (agent_plan_step_runs d) |>).
Proof.
  intros Hx [K1 K2 K3 K4 K5 K6]. split; try done. simpl.
  intros i y [[<- <-]|[_ Hy]]%lookup_insert_Some; [done|by apply K6].
Qed.

Lemma keyed_decision d q x :
  decision_key x = q → keyed d →
  keyed (d <| agent_plan_decisions := <[q := x]> (agent_plan_decisions d) |>).
Proof.
  intros Hx [K1 K2 K3 K4 K5 K6]. split; try done. simpl.
  intros i y [[<- <-]|[_ Hy]]%lookup_insert_Some; [done|by apply K5].
Qed.

Lemma keyed_plan d q p :
  pl_id p = q → keyed d → keyed (d <| agent_plans := <[q := p]> (agent_plans d) |>).
Proof.
  intros Hp [K1 K2 K3 K4 K5 K6]. split; try done. simpl.
  intros i y [[<- <-]|[_ Hy]]%lookup_insert_Some; [done|by apply K1].
Qed.

(** A change that keeps the Plans and their contents. *)
Lemma contents_ok_same d d' :
  same_contents d d' → agent_plans d' = agent_plans d → keyed d' → contents_ok d → contents_ok d'.
Proof.
  intros Hs Hp Hk. apply contents_ok_moved; [done|done| |]; rewrite Hp; naive_solver.
Qed.

Lemma plan_effect_ok d d' : plan_effect d d' → plans_ok d → plans_ok d'.
Proof.
  intros He [Hc Hd Ha]. pose proof (ok_keyed d Hc) as Hk. destruct He.
  - split; [by apply contents_created| |done].
    eapply decisions_same; [| |apply (decisions_created d p)]; try done.
    + unfold agent_plans_constraints in H0.
      rewrite satisfied_app, satisfied_cons, bool_decide_eq_true in H0. apply H0.
    + apply H1.
    + apply H1.
  - split; [by apply contents_revised| |done].
    eapply decisions_same; [| |apply (decisions_revised d p now)]; done.
  - split; [|by apply decisions_decided|done].
    pose proof (decides_plan _ _ _ H0) as Hp.
    eapply (contents_ok_moved d); [done| | |..|done].
    + exact (keyed_plan _ _ (decided x p) eq_refl (keyed_decision d _ x eq_refl Hk)).
    + simpl. intros i q [[<- <-]|[Hne Hq]]%lookup_insert_Some; eauto.
    + simpl. intros i q Hq. destruct (decide (pl_id p = i)) as [<-|Hne].
      * exists (decided x p). rewrite lookup_insert_eq. split; [done|]. by simplify_eq.
      * exists q. by rewrite lookup_insert_ne.
  - split; [|by apply (decisions_claimed d p)|done].
    apply (contents_ok_same d); try done. by apply keyed_decision.
  - pose proof (keyed_decisions d Hk _ _ H1) as Hi. pose proof (f_equal fst Hi) as Hsc.
    simpl in Hsc. rewrite <-Hi in *. split; [|by apply (decisions_finished d p)|done].
    apply (contents_ok_same d); try done. by apply keyed_decision.
  - split; [|by apply (decisions_same d)|by apply attempts_started].
    apply (contents_ok_same d); try done. by apply keyed_attempt.
  - split; [|by apply (decisions_same d)|by apply attempts_started].
    apply (contents_ok_same d); try done. by apply keyed_attempt.
  - split; [|by apply (decisions_same d)|by apply attempts_ended].
    apply (contents_ok_same d); try done. apply keyed_attempt; [|done].
    rewrite (proj1 H2). by apply (keyed_step_runs d Hk).
  - split; [|by apply (decisions_same d)|done].
    apply (contents_ok_same d); try done. by destruct Hk.
Qed.
End Invariant.
