(* ===== verification/PlanHistory.v ===== *)
(** * The history of Plans only grows

    Along the steps of the Plan repository, a stored version keeps its content, a decision
    keeps its columns (a claimed revision gets its result, once), decisions are added at
    aggregate versions that no earlier decision passed, and an ended attempt is final. *)

From S2P Require Import Prelude Records Errors Json Regex Tenancy WorkflowModels Storage.
From S2P Require Import Collections PlanStorage Checkpoint PlanValidation PlanOrder.
From S2P Require Import PlanSpec.
From S2P Require Import PlanRecords PlanReading WorkflowRepository PlanRepository.
From S2P Require Import PlanDecisions PlanAttempts PlanContent PlanEffects.
From S2P Require Import PlanInvariants.
From stdpp Require Import base gmap strings list sorting fin_maps relations.

(** ** Growth *)

Record plan_evolves (p p' : agent_plan) : Prop := {
  evolves_scope : plan_scope p' = plan_scope p;
  evolves_source : pl_source_message_id p' = pl_source_message_id p;
  evolves_trigger : pl_trigger_mode p' = pl_trigger_mode p;
  evolves_created : pl_created_at p' = pl_created_at p;
  evolves_current : (pl_current_version p <= pl_current_version p')%Z;
  evolves_version : (pl_version p <= pl_version p')%Z;
}.

#[export] Instance plan_evolves_preorder : PreOrder plan_evolves.
Proof.
  split; [by intros p; split|].
  intros p q r [A1 A2 A3 A4 A5 A6] [B1 B2 B3 B4 B5 B6]. split; [congruence..|lia|lia].
Qed.

(** The result of a claimed revision is the only change of a decision. *)
Definition decision_finished (x x' : agent_plan_decision) : Prop :=
  dec_action x = DECIDE_REVISE ∧ dec_resulting_plan_version x = None ∧
  ∃ r, x' = x <| dec_resulting_plan_version := Some r |>.

Record attempt_evolves (x x' : agent_plan_step_run) : Prop := {
  attempt_final : is_running x = false → x' = x;
  attempt_same : same_attempt_row x x';
  attempt_version : (srn_version x <= srn_version x')%Z;
}.

#[export] Instance attempt_evolves_preorder : PreOrder attempt_evolves.
Proof.
  split; [by intros x; split|].
  intros x y z [A1 A2 A3] [B1 B2 B3]. split; [|unfold same_attempt_row in *; intuition congruence|lia].
  intros Hx. rewrite (A1 Hx) in *. auto.
Qed.

Section Growth.
Context `{Env}.

Record grows (d d' : Db) : Prop := {
  grows_plans i p : agent_plans d !! i = Some p →
    ∃ p', agent_plans d' !! i = Some p' ∧ plan_evolves p p';
  grows_contents i p n c : agent_plans d !! i = Some p → (n <= pl_current_version p)%Z →
    holds (plan_scope p) n c d → holds (plan_scope p) n c d';
  (** a decision changes only while the Plan has not passed it *)
  grows_decisions i x : agent_plan_decisions d !! i = Some x →
    ∃ x', agent_plan_decisions d' !! i = Some x' ∧
      (x' = x ∨ decision_finished x x' ∧ ∀ p, agent_plans d !! dec_plan_id x = Some p →
         (pl_version p <= dec_expected_plan_cas_version x + 1)%Z);
  (** a new decision is made on the current aggregate version or a later one *)
  grows_new i x p : agent_plan_decisions d' !! i = Some x → agent_plan_decisions d !! i = None →
    agent_plans d !! dec_plan_id x = Some p → plan_scope p = decision_scope x →
    (pl_version p <= dec_expected_plan_cas_version x)%Z;
  grows_attempts i x : agent_plan_step_runs d !! i = Some x →
    ∃ x', agent_plan_step_runs d' !! i = Some x' ∧ attempt_evolves x x';
}.

Lemma grows_refl d : grows d d.
Proof.
  split; [by eexists|done|by eauto|congruence|by eexists].
Qed.

Lemma grows_trans d1 d2 d3 : grows d1 d2 → grows d2 d3 → grows d1 d3.
Proof.
  intros [A1 A2 A3 A4 A5] [B1 B2 B3 B4 B5]. split.
  - intros i p (p2&H2&E2)%A1. destruct (B1 i p2 H2) as (p3&H3&E3). exists p3.
    split; [done|by etrans].
  - intros i p n c Hp Hn Hh. destruct (A1 i p Hp) as (p2&H2&E2). rewrite <-(evolves_scope _ _ E2).
    apply (B2 i p2); [done|pose proof (evolves_current _ _ E2); lia|].
    rewrite (evolves_scope _ _ E2). by apply (A2 i p).
  - intros i x Hx. destruct (A3 i x Hx) as (x2&H2&E2). destruct (B3 i x2 H2) as (x3&H3&E3).
    exists x3. split; [done|]. destruct E2 as [->|[Hf Hv]].
    + destruct E3 as [->|[Hf Hv]]; [by left|]. right. split; [done|]. intros p Hp.
      destruct (A1 _ p Hp) as (p2&Hp2&E2). specialize (Hv p2 Hp2).
      pose proof (evolves_version _ _ E2). lia.
    + right. split; [|done]. destruct E3 as [->|[(_&Hn&_) _]]; [done|].
      destruct Hf as (_&_&r&->). done.
  - intros i x p Hx Hn Hp Hs. destruct (agent_plan_decisions d2 !! i) as [x2|] eqn:E2.
    + destruct (B3 i x2 E2) as (x3&Hx3&E3). assert (x3 = x) as -> by congruence.
      assert (Hsame : dec_plan_id x = dec_plan_id x2 ∧ decision_scope x = decision_scope x2 ∧
        dec_expected_plan_cas_version x = dec_expected_plan_cas_version x2).
      { by destruct E3 as [->|[(_&_&r&->) _]]. }
      destruct Hsame as (E&Es&->). apply (A4 i); [done|done|congruence|congruence].
    + destruct (A1 _ p Hp) as (p2&Hp2&Ep). pose proof (evolves_version _ _ Ep).
      enough (pl_version p2 <= dec_expected_plan_cas_version x)%Z by lia.
      apply (B4 i x p2); [done|done|done|]. rewrite (evolves_scope _ _ Ep). done.
  - intros i x (x2&H2&E2)%A5. destruct (B5 i x2 H2) as (x3&H3&E3). exists x3.
    split; [done|by etrans].
Qed.

#[export] Instance grows_preorder : PreOrder grows.
Proof. split; [exact grows_refl|exact grows_trans]. Qed.

(** What does not touch the Plan tables is growth. *)
Definition same_plan_tables (d d' : Db) : Prop :=
  same_contents d d' ∧ agent_plans d' = agent_plans d ∧
  agent_plan_decisions d' = agent_plan_decisions d ∧
  agent_plan_step_runs d' = agent_plan_step_runs d.

Lemma grows_same d d' : same_plan_tables d d' → grows d d'.
Proof.
  intros (Hs&E1&E2&E3). split; rewrite ?E1, ?E2, ?E3.
  - intros i p Hp. by exists p.
  - intros i p n c _ _. by apply holds_same.
  - intros i x Hx. exists x. auto.
  - intros i x p. congruence.
  - intros i x Hx. by exists x.
Qed.

Lemma plans_ok_same d d' : same_plan_tables d d' → plans_ok d → plans_ok d'.
Proof.
  intros (Hs&E1&E2&E3) [Hc Hd Ha]. pose proof (ok_keyed d Hc) as [K1 K2 K3 K4 K5 K6].
  pose proof Hs as (S1&S2&S3). split.
  - apply (contents_ok_same d); try done. by split; rewrite ?E1, ?E2, ?E3, ?S1, ?S2, ?S3.
  - by apply (decisions_same d).
  - unfold attempts_ok. by rewrite E3.
Qed.

(** *** The steps *)

(** A step on the Plans and the decisions that keeps all contents. *)
Lemma grows_contents_kept d d' :
  same_contents d d' → ∀ i p n c, agent_plans d !! i = Some p →
  (n <= pl_current_version p)%Z → holds (plan_scope p) n c d → holds (plan_scope p) n c d'.
Proof. intros Hs i p n c _ _. by apply holds_same. Qed.

Lemma grows_decided_plan d p x i q :
  agent_plans d !! pl_id p = Some p → agent_plans d !! i = Some q →
  ∃ q', <[pl_id p := decided x p]> (agent_plans d) !! i = Some q' ∧ plan_evolves q q'.
Proof.
  intros Hp Hq. destruct (decide (pl_id p = i)) as [<-|Hne].
  - exists (decided x p). rewrite lookup_insert_eq. split; [done|].
    assert (q = p) as -> by congruence. split; try done; simpl; lia.
  - exists q. by rewrite lookup_insert_ne.
Qed.

Lemma grows_decision_added d p x :
  decides d p x →
  (∀ i y, agent_plan_decisions d !! i = Some y →
     ∃ y', <[decision_key x := x]> (agent_plan_decisions d) !! i = Some y' ∧
       (y' = y ∨ decision_finished y y' ∧ ∀ p, agent_plans d !! dec_plan_id y = Some p →
          (pl_version p <= dec_expected_plan_cas_version y + 1)%Z)) ∧
  (∀ i y q, <[decision_key x := x]> (agent_plan_decisions d) !! i = Some y →
     agent_plan_decisions d !! i = None → agent_plans d !! dec_plan_id y = Some q →
     plan_scope q = decision_scope y → (pl_version q <= dec_expected_plan_cas_version y)%Z).
Proof.
  intros Hx. split.
  - intros i y Hy. exists y. split; [|by left]. apply (inserted_decision d p); auto.
  - intros i y q Hy Hn Hq Hs. apply (inserted_decision d p) in Hy as [[_ ->]|Hy];
      [|discriminate (eq_trans (eq_sym Hn) Hy)|done].
    pose proof (decides_scope _ _ _ Hx) as Hsx. pose proof (decides_plan _ _ _ Hx) as Hp.
    assert (dec_plan_id x = pl_id p) as Hid by (by apply (f_equal snd) in Hsx).
    rewrite Hid in Hq. assert (q = p) as -> by congruence.
    rewrite (decides_expected _ _ _ Hx). lia.
Qed.

Lemma kept_attempt d x i y :
  attempt_allowed d x → agent_plan_step_runs d !! i = Some y →
  ∃ y', <[step_run_key x := x]> (agent_plan_step_runs d) !! i = Some y' ∧ attempt_evolves y y'.
Proof.
  intros Ha Hy. exists y. split; [|done]. rewrite lookup_insert_ne; [done|]. intros <-.
  pose proof (allowed_constraints d x Ha) as Hsat. unfold agent_plan_step_runs_constraints in Hsat.
  rewrite satisfied_app, satisfied_cons, bool_decide_eq_true in Hsat.
  destruct Hsat as (_&Hn&_). discriminate (eq_trans (eq_sym Hn) Hy).
Qed.

Lemma plan_effect_grows d d' : plan_effect d d' → plans_ok d → grows d d'.
Proof.
  intros He [Hc Hd Ha]. pose proof (ok_keyed d Hc) as Hk. destruct He.
  - (* created *)
    assert (Hfresh : agent_plans d !! pl_id p = None).
    { unfold agent_plans_constraints in H0.
      rewrite satisfied_app, satisfied_cons, bool_decide_eq_true in H0. apply H0. }
    set (d1 := d <| agent_plans := <[pl_id p := p]> (agent_plans d) |>).
    assert (Hsame : same_contents d d1) by done. split.
    + simpl. intros i q Hq. exists q. split; [|done]. rewrite lookup_insert_ne; [done|]. congruence.
    + intros i q n c' Hq Hn Hh. apply holds_kept; [by apply keyed_plan| | | |].
      * apply (versioned_same d); [done|apply Hc].
      * by apply (fresh_content_same d).
      * intros Heq. pose proof (keyed_plans d Hk i q Hq) as Hid.
        apply (f_equal (λ k : plan_key * Z, k.1.2)) in Heq. simpl in Heq. congruence.
      * by apply (holds_same _ _ _ d).
    + simpl. eauto.
    + simpl. congruence.
    + simpl. intros i x Hx. by exists x.
  - (* revised *)
    set (d1 := add_content d (plan_scope p) (pl_current_version p + 1) c).
    split.
    + simpl. intros i q Hq. destruct (decide (pl_id p = i)) as [<-|Hne].
      * exists (revised now p). rewrite lookup_insert_eq. split; [done|].
        assert (q = p) as -> by congruence. split; try done; simpl; lia.
      * exists q. by rewrite lookup_insert_ne.
    + intros i q n c' Hq Hn Hh. apply (holds_same _ _ _ d1); [done|].
      apply holds_kept; [done|apply Hc|done| |done].
      intros Heq. pose proof (f_equal (λ k : plan_key * Z, k.1.2) Heq) as Hid.
      apply (f_equal snd) in Heq. simpl in Hid, Heq.
      pose proof (keyed_plans d Hk i q Hq). subst i. rewrite Hid in Hq.
      assert (q = p) as -> by congruence. lia.
    + simpl. eauto.
    + simpl. congruence.
    + simpl. intros i x Hx. by exists x.
  - (* decided *)
    pose proof (decides_plan _ _ _ H0) as Hp.
    destruct (grows_decision_added d p x H0) as [G1 G2]. split; try done.
    + simpl. intros i q. by apply grows_decided_plan.
    + by apply grows_contents_kept.
    + simpl. intros i y Hy. by exists y.
  - (* claimed *)
    destruct (grows_decision_added d p x H0) as [G1 G2]. split; try done.
    + simpl. intros i q Hq. by exists q.
    + by apply grows_contents_kept.
    + simpl. intros i y Hy. by exists y.
  - (* finished *)
    pose proof (f_equal (λ q : plan_key * string, q.1.2) (keyed_decisions d Hk _ _ H1)) as Hid.
    simpl in Hid. split.
    + simpl. intros j q Hq. by exists q.
    + by apply grows_contents_kept.
    + simpl. intros j y Hy. destruct (decide ((plan_scope p, i) = j)) as [<-|Hne].
      * pose proof (eq_trans (eq_sym Hy) H1) as [= ->].
        eexists. rewrite lookup_insert_eq. split; [done|].
        right. split; [split_and!; eauto|]. intros q Hq. rewrite Hid in Hq.
        assert (q = p) as -> by congruence. lia.
      * exists y. rewrite lookup_insert_ne by done. auto.
    + simpl. intros j y q [[<- <-]|[_ Hy]]%lookup_insert_Some Hn.
      * discriminate (eq_trans (eq_sym Hn) H1).
      * congruence.
    + simpl. intros j y Hy. by exists y.
  - (* attempt started *)
    split.
    + simpl. intros i q Hq. by exists q.
    + by apply grows_contents_kept.
    + simpl. eauto.
    + simpl. congruence.
    + simpl. intros i y Hy. by apply kept_attempt.
  - (* attempt reused *)
    split.
    + simpl. intros i q Hq. by exists q.
    + by apply grows_contents_kept.
    + simpl. eauto.
    + simpl. congruence.
    + simpl. intros i y Hy. by apply kept_attempt.
  - (* attempt ended *)
    split.
    + simpl. intros j q Hq. by exists q.
    + by apply grows_contents_kept.
    + simpl. eauto.
    + simpl. congruence.
    + simpl. intros j y Hy. destruct (decide (i = j)) as [<-|Hne].
      * assert (y = x) as -> by congruence. exists x'. rewrite lookup_insert_eq.
        split; [done|]. split; [congruence|done|lia].
      * exists y. by rewrite lookup_insert_ne.
  - (* round *)
    by apply grows_same.
Qed.
End Growth.
