(* ===== verification/WorkflowCoordinator.v ===== *)
(** * Workflow coordinator ([src/multiclaw/workflow/coordinator.py])

    The operations of the workflow engine.  Each runs its repository calls in one
    write transaction, unless the coordinator was given a connection whose transaction
    a caller owns ([co_connection]); [_scoped] is that coordinator.  A refusal is a
    typed exception, raised inside the transaction (which rolls back) except for an
    expired approval, whose expiry is committed before the raise. *)

From S2P Require Import Prelude Records Errors Json Tenancy WorkflowModels Storage.
From S2P Require Import Checkpoint.
From S2P Require Import PlanRecords.
From S2P Require Import WorkflowRepository.
From stdpp Require Import base gmap strings list sets.

(** The settings the coordinator reads. *)
Record Settings : Type := MkSettings {
  set_heartbeat_ms : Z;
  set_lease_ttl_ms : Z;
  set_max_checkpoint_payload_bytes : Z;
  set_max_concurrent_runs_per_tenant : Z;
  set_max_steps : Z;
  set_max_step_attempts : Z;
  set_max_tool_rounds : Z;
}.

Record WorkflowCoordinator : Type := MkWorkflowCoordinator {
  co_settings : Settings;
  co_connection : bool;
  co_event_router : bool;
  co_post_commit_events : bool;
}.

#[export] Instance eta_WorkflowCoordinator : Eta WorkflowCoordinator := λ c,
  MkWorkflowCoordinator (co_settings c) (co_connection c) (co_event_router c)
    (co_post_commit_events c).

Definition write_connection {A} (co : WorkflowCoordinator) (body : M A) : M A :=
  if co_connection co then body else write_transaction body.

Definition scoped (co : WorkflowCoordinator) : WorkflowCoordinator :=
  co <| co_connection := true |>.

Definition repository (co : WorkflowCoordinator) : WorkflowRepository :=
  let s := co_settings co in {|
    repo_heartbeat_ms := set_heartbeat_ms s;
    repo_lease_ttl_ms := set_lease_ttl_ms s;
    repo_plan_round_budget :=
      Some (set_max_steps s * set_max_step_attempts s * set_max_tool_rounds s)%Z;
  |}.

Definition enforce_run_quota (co : WorkflowCoordinator) (tenant_id : string) : M unit :=
  active_runs ← count_active_runs tenant_id;
  require (bool_decide (active_runs < set_max_concurrent_runs_per_tenant (co_settings co))%Z)
    (TenantRunQuotaError "tenant run quota exceeded").

(** The result of a repository call, or the refusal. *)
Definition or_raise {A} (e : exn) (v : option A) : M A :=
  match v with Some a => mret a | None => throw e end.

(** ** Checkpoints *)

Definition PHASE_ALLOWED_EXECUTION_STATUSES (phase : CheckpointPhase)
    : list ExecutionStatus :=
  match phase with
  | EXECUTION_DISPATCHING => [EXEC_REPLAYING; EXEC_EXECUTING]
  | EXECUTION_RESULT_OBSERVED =>
    [EXEC_SUCCEEDED; EXEC_FAILED_RETRYABLE; EXEC_FAILED_TERMINAL; EXEC_UNCERTAIN;
     EXEC_BLOCKED_INCOMPATIBLE; EXEC_BLOCKED_CORRUPT]
  | _ => []
  end.

Definition allowed_statuses_text (phase : CheckpointPhase) : string :=
  Json.join ", " (sort_by String.leb (map enum_value (PHASE_ALLOWED_EXECUTION_STATUSES phase))).

(** The options of [checkpoint] and [write_checkpoint]. *)
Record CheckpointOptions : Type := MkCheckpointOptions {
  co_checkpoint_id : option string;
  co_checkpoint_seq : option Z;
  co_approval_id : option string;
  co_execution_id : option string;
  co_execution_expected_status : option ExecutionStatus;
  co_execution_expected_version : option Z;
}.

Definition at_seq (seq : option Z) : CheckpointOptions :=
  MkCheckpointOptions None seq None None None None.

(** [coordinator._validate_checkpoint_scope]: the payload against the lease; gives the
    approval and execution the row will name. *)
Definition validate_execution_scope (o : CheckpointOptions) (phase : CheckpointPhase)
    (payload_execution_id : string) : result exn (option string * option string) :=
  _ ← ensure (expected (co_execution_id o) payload_execution_id)
        (InvalidTransitionError "checkpoint execution_id does not match payload");
  _ ← ensure (negb (bool_decide (is_Some (co_execution_expected_status o)) &&
                    bool_decide (co_execution_expected_version o = None)))
        (InvalidTransitionError "execution checkpoint version is required with status guard");
  _ ← ensure (negb (bool_decide (is_Some (co_execution_expected_version o)) &&
                    bool_decide (co_execution_expected_status o = None)))
        (InvalidTransitionError "execution checkpoint status is required with version guard");
  _ ← ensure match co_execution_expected_status o with
             | Some s => bool_decide (s ∈ PHASE_ALLOWED_EXECUTION_STATUSES phase)
             | None => false
             end
        (InvalidTransitionError (enum_value phase +:+
           " checkpoints require execution status in {" +:+ allowed_statuses_text phase +:+
           "}"));
  Ok (co_approval_id o, Some payload_execution_id).

Definition validate_checkpoint_scope (lease : RunLease) (p : CheckpointPayload)
    (o : CheckpointOptions) : result exn (option string * option string) :=
  let c := rl_context lease in
  _ ← ensure (bool_decide (Some (payload_run_id p) = tc_run_id c))
        (InvalidTransitionError "checkpoint payload run_id does not match active run");
  match p with
  | PRunStarted p =>
    _ ← ensure (bool_decide (rsp_tenant_id p = tc_tenant_id c))
      (InvalidTransitionError "checkpoint payload tenant_id does not match active run");
    _ ← ensure (bool_decide (rsp_workspace_id p = tc_workspace_id c))
      (InvalidTransitionError "checkpoint payload workspace_id does not match active run");
    _ ← ensure (bool_decide (Some (rsp_session_id p) = tc_session_id c))
      (InvalidTransitionError "checkpoint payload session_id does not match active run");
    Ok (None, None)
  | PAwaitingApproval p =>
    _ ← ensure (bool_decide (co_execution_id o = None))
      (InvalidTransitionError "awaiting_approval checkpoints cannot include execution_id");
    _ ← ensure (expected (co_approval_id o) (aap_approval_id p))
      (InvalidTransitionError "checkpoint approval_id does not match payload");
    Ok (Some (aap_approval_id p), None)
  | PExecutionDispatching q =>
    validate_execution_scope o (phase_of p) (edp_execution_id q)
  | PExecutionResultObserved q =>
    validate_execution_scope o (phase_of p) (eop_execution_id q)
  | _ => Ok (co_approval_id o, co_execution_id o)
  end.

Definition write_checkpoint `{Env} (co : WorkflowCoordinator) (lease : RunLease)
    (i : CheckpointInput) : M Z :=
  write_connection co
    (seq ← insert_checkpoint lease i;
     or_raise (StaleFenceError "run lease is stale") seq).

Definition checkpoint `{Env} (co : WorkflowCoordinator) (lease : RunLease)
    (phase : CheckpointPhase + string) (payload : CheckpointPayload + list (string * json))
    (o : CheckpointOptions) : M CheckpointWrite :=
  '(ph, p) ← lift (validate_phase_payload phase payload);
  '(approval_id, execution_id) ← lift (validate_checkpoint_scope lease p o);
  e ← lift (encode_checkpoint_payload p (set_max_checkpoint_payload_bytes (co_settings co)));
  checkpoint_id ← match co_checkpoint_id o with
                  | None | Some "" => uuid4
                  | Some i => mret i
                  end;
  seq ← write_checkpoint co lease {|
    ci_checkpoint_id := checkpoint_id;
    ci_checkpoint_seq := co_checkpoint_seq o;
    ci_phase := enum_value ph;
    ci_payload_json := ecp_payload_json e;
    ci_payload_hash := ecp_payload_hash e;
    ci_schema_version := ecp_schema_version e;
    ci_approval_id := approval_id;
    ci_execution_id := execution_id;
    ci_expected_execution_status := co_execution_expected_status o;
    ci_expected_execution_version := co_execution_expected_version o |};
  mret {| cw_checkpoint_id := checkpoint_id; cw_checkpoint_seq := seq; cw_phase := ph;
          cw_payload_json := ecp_payload_json e; cw_payload_hash := ecp_payload_hash e;
          cw_schema_version := ecp_schema_version e |}.

Definition run_started_cursor (c : TenantContext) : string :=
  "run:" +:+ default "None" (tc_run_id c) +:+ ":model_inference".

Definition terminal_digest `{Env} (run_id : option string) (target : RunStatus)
    (finished_at_ms : Z) : string :=
  env_sha256_hex (default "None" run_id +:+ ":" +:+ enum_value target +:+ ":" +:+
                  str_of_int finished_at_ms).

(** The dicts the coordinator writes at the start and at the end of a run. *)
Definition run_started_dict (c : TenantContext) (created_at : Z) : list (string * json) :=
  [("tenant_id", JStr (tc_tenant_id c)); ("workspace_id", JStr (tc_workspace_id c));
   ("session_id", opt_str (tc_session_id c)); ("run_id", opt_str (tc_run_id c));
   ("started_at_ms", JInt created_at); ("model_cursor", JStr (run_started_cursor c));
   ("cursor", JStr (run_started_cursor c))].

Definition run_terminal_dict `{Env} (c : TenantContext) (target : RunStatus)
    (finished_at : Z) : list (string * json) :=
  [("run_id", opt_str (tc_run_id c)); ("terminal_status", JStr (enum_value target));
   ("finished_at_ms", JInt finished_at);
   ("final_digest", JStr (terminal_digest (tc_run_id c) target finished_at))].

(** [PlanAwaitingApprovalPayload(...)]: the constructor validates. *)
Definition plan_awaiting_payload (run_id : option string) (plan_id : string)
    (plan_version : Z) (plan_digest : string) : M CheckpointPayload :=
  let cursor := "plan:" +:+ plan_id +:+ ":v" +:+ str_of_int plan_version +:+ ":decision" in
  match run_id with
  | None => throw (ValueError "PlanAwaitingApprovalPayload")
  | Some r =>
    let p := PPlanAwaitingApproval
               (MkPlanAwaitingApproval r plan_id plan_version plan_digest cursor cursor) in
    require (payload_ok p) (ValueError "PlanAwaitingApprovalPayload") ;; mret p
  end.

(** ** Starting runs *)

Definition start_run `{Env} (co : WorkflowCoordinator) (c : TenantContext)
    (runtime_instance_id : string) : M RunLease :=
  write_connection co
    (lock_tenant (tc_tenant_id c) ;;
     enforce_run_quota co (tc_tenant_id c) ;;
     create_run (repository co) c runtime_instance_id RUN_RUNNING None None None).

Definition start_run_with_checkpoint `{Env} (co : WorkflowCoordinator) (c : TenantContext)
    (runtime_instance_id : string) : M RunLease :=
  write_connection co
    (lock_tenant (tc_tenant_id c) ;;
     enforce_run_quota co (tc_tenant_id c) ;;
     lease ← create_run (repository co) c runtime_instance_id RUN_RUNNING None None None;
     rec ← get_run c;
     rec ← or_raise (RuntimeError "run record missing after creation") rec;
     checkpoint (scoped co) lease (inl RUN_STARTED)
       (inr (run_started_dict c (rr_created_at rec))) (at_seq (Some 1%Z)) ;;
     mret lease).

Definition start_plan_run_with_checkpoint `{Env} (co : WorkflowCoordinator)
    (c : TenantContext) (runtime_instance_id plan_id : string) (plan_version : Z)
    (plan_digest : string) : M RunLease :=
  write_connection co
    (lock_tenant (tc_tenant_id c) ;;
     present ← plan_version_exists c plan_id plan_version (Some plan_digest);
     require present (StaleFenceError "Plan version or digest is stale") ;;
     enforce_run_quota co (tc_tenant_id c) ;;
     lease ← create_run (repository co) c runtime_instance_id RUN_AWAITING_USER
               (Some plan_id) (Some plan_version) (Some plan_version);
     p ← plan_awaiting_payload (tc_run_id c) plan_id plan_version plan_digest;
     checkpoint (scoped co) lease (inl PLAN_AWAITING_APPROVAL) (inl p)
       (at_seq (Some 1%Z)) ;;
     mret lease).

Definition start_approved_plan_run_with_checkpoint `{Env} (co : WorkflowCoordinator)
    (c : TenantContext) (runtime_instance_id plan_id : string) (plan_version : Z)
    (plan_digest : string) : M RunLease :=
  write_connection co
    (lock_tenant (tc_tenant_id c) ;;
     present ← plan_version_exists c plan_id plan_version (Some plan_digest);
     require present (StaleFenceError "Plan version or digest is stale") ;;
     enforce_run_quota co (tc_tenant_id c) ;;
     lease ← create_run (repository co) c runtime_instance_id RUN_RUNNING
               (Some plan_id) (Some plan_version) (Some plan_version);
     rec ← get_run c;
     rec ← or_raise (RuntimeError "Plan rerun record missing after creation") rec;
     checkpoint (scoped co) lease (inl RUN_STARTED)
       (inr (run_started_dict c (rr_created_at rec))) (at_seq (Some 1%Z)) ;;
     mret lease).

(** ** Claiming a lease *)

Definition acquire_run `{Env} (co : WorkflowCoordinator) (c : TenantContext)
    (runtime_instance_id : string) : M RunLease :=
  write_connection co
    (lease ← take_over_run (repository co) c runtime_instance_id;
     or_raise (LeaseConflictError "run lease is still current") lease).

Definition co_resume_waiting_run `{Env} (co : WorkflowCoordinator) (c : TenantContext)
    (runtime_instance_id : string) : M RunLease :=
  write_connection co
    (lease ← resume_waiting_run (repository co) c runtime_instance_id;
     or_raise (LeaseConflictError "awaiting_user run could not be resumed") lease).

Definition co_resume_waiting_plan_run `{Env} (co : WorkflowCoordinator) (c : TenantContext)
    (runtime_instance_id plan_id : string) (plan_version expected_run_version : Z)
    : M RunLease :=
  write_connection co
    (lease ← resume_waiting_plan_run (repository co) c runtime_instance_id plan_id
               plan_version expected_run_version;
     or_raise (StaleFenceError "waiting Plan run fence is stale") lease).

Definition co_fence_waiting_plan_run `{Env} (co : WorkflowCoordinator) (c : TenantContext)
    (runtime_instance_id plan_id : string) (plan_version expected_run_version : Z)
    (plan_digest : string) : M RunLease :=
  write_connection co
    (lease ← fence_waiting_plan_run (repository co) c runtime_instance_id plan_id
               plan_version plan_digest expected_run_version;
     lease ← or_raise (StaleFenceError "waiting Plan run fence is stale") lease;
     p ← plan_awaiting_payload (tc_run_id c) plan_id plan_version plan_digest;
     seq ← get_next_checkpoint_seq c;
     checkpoint (scoped co) lease (inl PLAN_AWAITING_APPROVAL) (inl p)
       (at_seq (Some seq)) ;;
     mret lease).

(** The terminal checkpoint of a cancelled run. *)
Definition cancelled_checkpoint `{Env} (co : WorkflowCoordinator) (c : TenantContext)
    (lease : RunLease) (finished_at : Z) : M CheckpointWrite :=
  seq ← get_next_checkpoint_seq c;
  checkpoint (scoped co) lease (inl RUN_TERMINAL)
    (inr (run_terminal_dict c RUN_CANCELLED finished_at)) (at_seq (Some seq)).

Definition co_cancel_waiting_plan_run `{Env} (co : WorkflowCoordinator) (c : TenantContext)
    (runtime_instance_id plan_id : string) (plan_version expected_run_version : Z)
    : M RunLease :=
  write_connection co
    (lease ← cancel_waiting_plan_run (repository co) c runtime_instance_id plan_id
               plan_version expected_run_version;
     lease ← or_raise (StaleFenceError "waiting Plan run fence is stale") lease;
     rec ← get_run c;
     finished ← or_raise (RuntimeError "cancelled Plan run missing finished_at")
                  (rec ≫= rr_finished_at);
     cancelled_checkpoint co c lease finished ;;
     mret lease).

(** ** Cancellation *)

(** The Plan aggregate as the cancellation event reports it. *)
Record PlanReference : Type := MkPlanReference {
  ref_context : TenantContext;
  ref_plan_id : string;
  ref_plan_version : Z;
  ref_aggregate_version : Z;
}.

(** [latest.phase is RUN_TERMINAL]; [CheckpointPhase(...)] raises on an unknown text. *)
Definition latest_is_terminal (latest : option CheckpointRecord) : M bool :=
  match latest with
  | None => mret false
  | Some k =>
    match enum_of_value (cr_phase k) with
    | Some phase => mret (bool_decide (phase = RUN_TERMINAL))
    | None => throw (ValueError (cr_phase k +:+ " is not a valid CheckpointPhase"))
    end
  end.

(** Gives the record and the event to publish once the transaction has committed.
    The Plan is read through its repository. *)
Definition co_request_cancellation `{Env} (plans : PlanReader)
    (co : WorkflowCoordinator) (c : TenantContext)
    : M (RunRecord * option PlanReference) :=
  require (negb (co_connection co && co_event_router co && negb (co_post_commit_events co)))
    (ValueError "externally owned cancellation transactions require a PostCommitEventQueue") ;;
  write_connection co
    (before ← get_run c;
     rec ← request_cancellation (repository co) c;
     rec ← or_raise (RuntimeError "run record missing for cancellation") rec;
     match rr_status rec, rr_finished_at rec with
     | RUN_CANCELLED, Some finished =>
       latest ← get_latest_checkpoint c;
       done ← latest_is_terminal latest;
       if done : bool then mret (rec, None) else
       let lease := {| rl_context := c; rl_lease_owner := default "" (rr_lease_owner rec);
                       rl_fencing_token := rr_fencing_token rec;
                       rl_version := rr_version rec;
                       rl_lease_expires_at := default 0%Z (rr_lease_expires_at rec) |} in
       cancelled_checkpoint co c lease finished ;;
       match rr_status <$> before, rr_plan_id rec with
       | Some RUN_AWAITING_USER, Some plan_id =>
         plan ← plans_get c plan_id;
         match plan with
         | Some plan =>
           require (bool_decide (is_Some (tc_session_id c)) &&
                    bool_decide (is_Some (tc_run_id c))) AssertionError ;;
           mret (rec, Some (MkPlanReference c (ps_plan_id plan) (ps_current_version plan)
                              (ps_aggregate_version plan)))
         | None => mret (rec, None)
         end
       | _, _ => mret (rec, None)
       end
     | _, _ => mret (rec, None)
     end).

Definition raise_if_cancel_requested (co : WorkflowCoordinator) (c : TenantContext)
    : M unit :=
  run ← write_connection co (get_run c);
  match run with
  | None => throw (PlanExecutionBlocked "run is missing")
  | Some run =>
    if bool_decide (is_Some (rr_cancel_requested_at run)) ||
       bool_decide (rr_status run = RUN_CANCELLED)
    then throw PlanCancellationRequested else mret tt
  end.

(** ** Heartbeats and transitions *)

Definition heartbeat `{Env} (co : WorkflowCoordinator) (lease : RunLease) : M RunLease :=
  write_connection co
    (refreshed ← refresh_lease (repository co) lease;
     or_raise (StaleFenceError "run lease is stale") refreshed).

Definition co_transition_run `{Env} (co : WorkflowCoordinator) (lease : RunLease)
    (target : RunStatus) : M RunLease :=
  write_connection co
    (transitioned ← transition_run (repository co) lease target;
     or_raise (StaleFenceError "run lease is stale") transitioned).

(** The part [finish_run] and [finish_run_with_checkpoint] share. *)
Definition finish_transition `{Env} (co : WorkflowCoordinator) (lease : RunLease)
    (target : RunStatus) : M RunLease :=
  (if bool_decide (target = RUN_COMPLETED) then
     open ← has_nonterminal_execution (rl_context lease);
     require (negb open)
       (InvalidTransitionError "run cannot complete while executions are nonterminal")
   else mret tt) ;;
  transitioned ← transition_run (repository co) lease target;
  or_raise (StaleFenceError "run lease is stale") transitioned.

Definition require_terminal_target (target : RunStatus) : M unit :=
  require (run_terminal target)
    (InvalidTransitionError (enum_value target +:+ " is not a terminal run status")).

Definition finish_run `{Env} (co : WorkflowCoordinator) (lease : RunLease)
    (target : RunStatus) : M RunLease :=
  require_terminal_target target ;;
  write_connection co (finish_transition co lease target).

Definition finish_run_with_checkpoint `{Env} (co : WorkflowCoordinator) (lease : RunLease)
    (target : RunStatus) : M RunLease :=
  require_terminal_target target ;;
  write_connection co
    (transitioned ← finish_transition co lease target;
     rec ← get_run (rl_context lease);
     finished ← or_raise (RuntimeError "terminal run record missing finished_at")
                  (rec ≫= rr_finished_at);
     seq ← get_next_checkpoint_seq (rl_context lease);
     checkpoint (scoped co) transitioned (inl RUN_TERMINAL)
       (inr (run_terminal_dict (rl_context lease) target finished)) (at_seq (Some seq)) ;;
     mret transitioned).

(** ** Approvals *)

(** Inside the transaction: the resolved approval, or the expiry that is committed. *)
Definition decide_approval_body `{Env} (c : TenantContext) (approval_id : string)
    (approved : bool) (version : Z) : M (option ApprovalRecord) :=
  resolved ← resolve_approval c approval_id approved version;
  match resolved with
  | Some a => mret (Some a)
  | None =>
    expired ← mark_approval_expired c approval_id version;
    if expired : bool then mret None else
    current ← get_approval c approval_id;
    match current with
    | None => throw (VersionConflictError "approval record not found")
    | Some a =>
      require (bool_decide (ar_status a = APPROVAL_AWAITING_USER))
        (VersionConflictError "approval already resolved") ;;
      require (bool_decide (ar_version a = version))
        (VersionConflictError "approval version conflict") ;;
      throw (InvalidTransitionError "approval could not be resolved")
    end
  end.

Definition decide_approval `{Env} (co : WorkflowCoordinator) (c : TenantContext)
    (approval_id : string) (approved : bool) (version : Z) : M ApprovalRecord :=
  resolved ← write_connection co (decide_approval_body c approval_id approved version);
  or_raise (InvalidTransitionError "approval expired") resolved.

Definition create_approval `{Env} (co : WorkflowCoordinator) (lease : RunLease)
    (approval_id tool_call_id : string) (expires_at : Z → Z) : M ApprovalRecord :=
  write_connection co
    (inserted ← insert_approval lease approval_id tool_call_id expires_at;
     or_raise (StaleFenceError "run lease is stale") inserted).

(** ** Executions *)

Definition create_execution `{Env} (co : WorkflowCoordinator) (lease : RunLease)
    (i : ExecutionInput) : M (option ExecutionRecord) :=
  write_connection co (insert_execution (repository co) lease i).

(** The refusal when the repository changed no row. *)
Definition execution_conflict `{Env} {A} (lease : RunLease) : M A :=
  current ← has_current_lease lease;
  if negb current then throw (StaleFenceError "run lease is stale")
  else throw (VersionConflictError "execution version conflict").

Definition co_transition_execution `{Env} (co : WorkflowCoordinator) (lease : RunLease)
    (execution_id : string) (expected_status : ExecutionStatus) (expected_version : Z)
    (target : ExecutionStatus) : M RunLease :=
  write_connection co
    (transitioned ← transition_execution lease execution_id expected_status
                      expected_version target;
     match transitioned with
     | Some _ => mret lease
     | None => execution_conflict lease
     end).

Definition update_metadata `{Env} (co : WorkflowCoordinator) (lease : RunLease)
    (execution_id : string) (expected_status : ExecutionStatus) (expected_version : Z)
    (m : ExecutionMetadata) : M ExecutionRecoveryRecord :=
  write_connection co
    (updated ← update_execution_metadata lease execution_id expected_status
                 expected_version m;
     match updated with
     | Some x => mret x
     | None => execution_conflict lease
     end).

Definition complete_execution `{Env} (co : WorkflowCoordinator) (lease : RunLease)
    (execution_id : string) (expected_status : ExecutionStatus) (expected_version : Z)
    (target_status : ExecutionStatus)
    (external_request_id result_ref result_digest : option string)
    : M ExecutionRecoveryRecord :=
  update_metadata co lease execution_id expected_status expected_version
    (MkExecutionMetadata external_request_id result_ref result_digest
       (Some target_status)).

Definition record_external_request_id `{Env} (co : WorkflowCoordinator) (lease : RunLease)
    (execution_id : string) (expected_status : ExecutionStatus) (expected_version : Z)
    (external_request_id : string) : M ExecutionRecoveryRecord :=
  update_metadata co lease execution_id expected_status expected_version
    (MkExecutionMetadata (Some external_request_id) None None None).
