(* ===== verification/PlanService.v ===== *)
(** * The planning service ([src/multiclaw/planner/service.py])

    Compound operations on Plans and their runs, each in one unit of work: a Plan is
    created together with the run that waits for its approval; a decision moves the Plan
    and the run; a revision claims the decision, appends the version and fences the run;
    a step that failed for good replaces the version and parks the run.  The model behind
    the generator is asked between transactions.  Events are values of the results. *)

From S2P Require Import Prelude Records Errors Json Regex Redaction Tenancy.
From S2P Require Import WorkflowModels.
From S2P Require Import Storage Collections PlanStorage Checkpoint Events PlanValidation.
From S2P Require Import PlanSpec PlanRecords PlanReading WorkflowRepository.
From S2P Require Import PlanRepository.
From S2P Require Import PlanDecisions PlanAttempts MemoryRepository PlanResults.
From S2P Require Import PlanGenerator WorkflowCoordinator.
From stdpp Require Import base gmap strings list.

Local Notation scoped := WorkflowCoordinator.scoped.
Local Notation steps := PlanValidation.steps.

(** ** References and events *)

Definition reference_ok (r : PlanReference) : bool :=
  let c := ref_context r in
  str_between 1 36 (tc_tenant_id c) && str_between 1 36 (tc_workspace_id c) &&
  uuid_pattern_field (ref_plan_id r) && Z.leb 1 (ref_plan_version r) &&
  match tc_run_id c with Some i => str_between 36 36 i | None => false end &&
  Z.leb 1 (ref_aggregate_version r) &&
  match tc_session_id c with Some s => str_between 1 36 s | None => false end.

(** [_reference]. *)
Definition reference (s : PlanSnapshot) (c : TenantContext) : result exn PlanReference :=
  _ ← ensure (bool_decide (is_Some (tc_session_id c)) && bool_decide (is_Some (tc_run_id c)))
        AssertionError;
  let r := MkPlanReference c (ps_plan_id s) (ps_current_version s) (ps_aggregate_version s) in
  if reference_ok r then Ok r else Err ValidationError.

Definition dump_reference (r : PlanReference) : list (string * json) :=
  let c := ref_context r in
  [("schema_version", JInt 1); ("tenant_id", JStr (tc_tenant_id c));
   ("workspace_id", JStr (tc_workspace_id c)); ("plan_id", JStr (ref_plan_id r));
   ("plan_version", JInt (ref_plan_version r)); ("run_id", opt_str (tc_run_id c));
   ("aggregate_version", JInt (ref_aggregate_version r));
   ("session_id", opt_str (tc_session_id c))].

Definition action_value (a : PlanDecisionAction) : string :=
  match a with
  | DECIDE_APPROVE => "approve"
  | DECIDE_REJECT => "reject"
  | DECIDE_REVISE => "revise"
  end.

Definition opt_int (z : option Z) : json := match z with Some z => JInt z | None => JNull end.

Section Service.
Context `{Env}.
Context (planning : PlanningSettings) (co : WorkflowCoordinator).
(** The generator, when there is one: its router and its models. *)
Context (generator : option (option router * error_reporter * string * string)).

(** [asdict(decision)], with the feedback sanitized. *)
Definition decision_data (x : PlanDecisionRecord) : json :=
  JObj [("decision_id", JStr (pdr_decision_id x));
        ("plan_version", JInt (pdr_plan_version x));
        ("expected_plan_cas_version", JInt (pdr_expected_plan_cas_version x));
        ("action", JStr (action_value (pdr_action x)));
        ("feedback", opt_str (sanitize_plan_text <$> pdr_feedback x));
        ("decided_by", JStr (pdr_decided_by x));
        ("resulting_plan_version", opt_int (pdr_resulting_plan_version x));
        ("created_at", JInt (pdr_created_at x))].

Definition decision_event (s : PlanSnapshot) (run : RunRecord) (x : PlanDecisionRecord)
    (event_type : string) : result exn ScopedEvent :=
  r ← reference s (rr_context run);
  match redact (JObj (dump_reference r ++ [("decision", decision_data x)])) with
  | JObj safe_data => from_context (rr_context run) event_type safe_data
  | _ => Err AssertionError
  end.

(** [repository.for_context]. *)
Definition for_context (own c : TenantContext) : result exn TenantContext :=
  _ ← ensure (bool_decide (is_Some (tc_session_id c)))
        (ValueError "PlanRepository requires session scope");
  _ ← ensure (bool_decide (tc_tenant_id c = tc_tenant_id own) &&
              bool_decide (tc_workspace_id c = tc_workspace_id own))
        (ValueError "PlanRepository context must remain within the UoW scope");
  Ok c.

(** The budget of model rounds of a run. *)
Definition total_budget : Z :=
  (pls_max_steps planning * pls_max_step_attempts planning *
   set_max_tool_rounds (co_settings co))%Z.

(** ** The first version of a Plan *)

Record MaterializeInitialPlan : Type := MkMaterializeInitialPlan {
  mip_context : TenantContext;
  mip_runtime_instance_id : string;
  mip_source_message_id : string;
  mip_assistant_turn_index : Z;
  mip_trigger_mode : PlanTriggerMode;
  mip_draft : PlanDraft;
}.

Record PlanMaterializationResult : Type := MkPlanMaterializationResult {
  pmr_plan : PlanSnapshot;
  pmr_reference : PlanReference;
  pmr_reference_message_id : string;
  pmr_run : RunRecord;
  pmr_event : ScopedEvent;
}.

Definition persist_reference (rq : MaterializeInitialPlan) (r : PlanReference)
    : M MemoryEntry :=
  e ← new_entry "" "chat_message" None "assistant" (mip_assistant_turn_index rq)
        [("parts", JArr [JObj [("type", JStr "data-plan-created");
                               ("data", JObj (dump_reference r))]])];
  save (mip_context rq) e.

(** The Plan, the run that waits for its approval and the message that refers to it, in
    one transaction. *)
Definition store_initial (rq : MaterializeInitialPlan)
    : M (PlanSnapshot * PlanReference * MemoryEntry * RunRecord) :=
  let c := mip_context rq in
  require (bool_decide (is_Some (tc_session_id c)) && bool_decide (is_Some (tc_run_id c)))
    (ValueError "initial Plan materialization requires session and run scope") ;;
  unit_of_work (on_connection (
    _ ← lift (validate_plan_draft (mip_draft rq) (draft_limits planning));
    c ← lift (for_context c c);
    plan_id ← uuid4;
    plan ← create_plan c planning plan_id (mip_source_message_id rq) (mip_trigger_mode rq)
             (mip_draft rq);
    start_plan_run_with_checkpoint (scoped co) c (mip_runtime_instance_id rq)
      (ps_plan_id plan) (ps_current_version plan) (pvr_content_digest (ps_current plan)) ;;
    r ← lift (reference plan c);
    message ← persist_reference rq r;
    run ← get_run c;
    run ← or_raise (RuntimeError "Plan run missing after materialization") run;
    mret (plan, r, message, run))).

Definition materialize_initial (rq : MaterializeInitialPlan) : M PlanMaterializationResult :=
  '(plan, r, message, run) ← store_initial rq;
  event ← lift (from_context (mip_context rq) "plan.created" (dump_reference r));
  mret {| pmr_plan := plan; pmr_reference := r; pmr_reference_message_id := me_id message;
          pmr_run := run; pmr_event := event |}.

(** ** Replacing a version after a failure *)

Record FailureRevisionRequest : Type := MkFailureRevisionRequest {
  frr_context : TenantContext;
  frr_lease : RunLease;
  frr_plan : PlanSnapshot;
  frr_failed_step_run : PlanStepRunRecord;
  frr_draft : PlanDraft;
}.

Record FailureRevisionResult : Type := MkFailureRevisionResult {
  fre_plan : PlanSnapshot;
  fre_run : RunRecord;
  fre_lease : RunLease;
}.

Definition step_numbered (i : string) (l : list PlanStepRecord) : option PlanStepRecord :=
  List.find (λ s, bool_decide (pst_step_id s = i)) l.

Definition step_keyed (k : string) (l : list PlanStepRecord) : option PlanStepRecord :=
  List.find (λ s, bool_decide (pst_logical_step_key s = k)) l.

(** The steps of the draft that keep the key of an earlier step. *)
Definition superseded_steps (draft : PlanDraft) (l : list PlanStepRecord)
    : gmap string string :=
  list_to_map (omap (λ s, prior ← step_keyed (logical_step_key s) l;
                          Some (logical_step_key s, pst_step_id prior)) (pd_steps draft)).

(** The Plan is still the one the caller saw, and the run still executes it. *)
Definition failure_plan_current (rq : FailureRevisionRequest) (run : agent_run)
    (current : PlanSnapshot) : bool :=
  bool_decide (ps_current_version current = ps_current_version (frr_plan rq)) &&
  bool_decide (ps_aggregate_version current = ps_aggregate_version (frr_plan rq)) &&
  bool_decide (run_plan_id run = Some (ps_plan_id current)) &&
  bool_decide (run_active_plan_version run = Some (ps_current_version current)).

(** The attempt is still the failed one of the current version. *)
Definition failure_attempt_current (rq : FailureRevisionRequest) (current : PlanSnapshot)
    (failed : PlanStepRunRecord) : bool :=
  let given := frr_failed_step_run rq in
  bool_decide (psr_step_run_id failed = psr_step_run_id given) &&
  bool_decide (psr_run_id failed = psr_run_id given) &&
  bool_decide (psr_plan_id failed = psr_plan_id given) &&
  bool_decide (psr_plan_version failed = psr_plan_version given) &&
  bool_decide (psr_step_id failed = psr_step_id given) &&
  bool_decide (psr_status failed = psr_status given) &&
  bool_decide (psr_run_id failed = default "None" (tc_run_id (frr_context rq))) &&
  bool_decide (psr_plan_id failed = ps_plan_id current) &&
  bool_decide (psr_plan_version failed = ps_current_version current) &&
  bool_decide (psr_status failed = STEP_FAILED_TERMINAL).

Definition awaiting_approval_dict (run_id : string) (plan : PlanSnapshot)
    : list (string * json) :=
  let cursor := "plan:" +:+ ps_plan_id plan +:+ ":v" +:+ str_of_int (ps_current_version plan)
                +:+ ":decision" in
  [("run_id", JStr run_id); ("plan_id", JStr (ps_plan_id plan));
   ("plan_version", JInt (ps_current_version plan));
   ("plan_digest", JStr (pvr_content_digest (ps_current plan)));
   ("decision_cursor", JStr cursor); ("cursor", JStr cursor)].

(** The failed step of the current version, which the draft has to keep. *)
Definition failed_step_of (rq : FailureRevisionRequest) (current : PlanSnapshot)
    (failed : option PlanStepRunRecord) : result exn (PlanStepRunRecord * PlanStepRecord) :=
  let blocked := PlanExecutionBlocked
                   "failure revision requires a current terminal step attempt" in
  match failed with
  | None => Err blocked
  | Some failed =>
    _ ← ensure (failure_attempt_current rq current failed) blocked;
    match step_numbered (psr_step_id failed) (pvr_steps (ps_current current)) with
    | None => Err blocked
    | Some s =>
      _ ← ensure (bool_decide (pst_logical_step_key s ∈
                               map logical_step_key (pd_steps (frr_draft rq))))
            (PlanGenerationError "failed step must be retained or superseded");
      Ok (failed, s)
    end
  end.

Definition materialize_failure_revision (rq : FailureRevisionRequest)
    : M FailureRevisionResult :=
  let c := frr_context rq in
  let lease := frr_lease rq in
  require (bool_decide (is_Some (tc_session_id c)) && bool_decide (is_Some (tc_run_id c)))
    (ValueError "failure revision requires session and run scope") ;;
  require (bool_decide (rl_context lease = c))
    (ValueError "failure revision lease scope is stale") ;;
  unit_of_work (on_connection (
    run ← lock_run_for_execution c lease;
    current ← get_plan c (ps_plan_id (frr_plan rq));
    match current with
    | None => throw (ValueError "failure revision Plan changed")
    | Some current =>
      require (failure_plan_current rq run current)
        (ValueError "failure revision Plan changed") ;;
      require (Z.ltb (ps_current_version current - 1) (pls_max_revisions planning))
        (PlanRevisionLimitError "Plan revision limit exceeded") ;;
      failed ← read_step_run c (default "None" (tc_run_id c))
                 (psr_step_run_id (frr_failed_step_run rq));
      '(failed, _) ← lift (failed_step_of rq current failed);
      revised ← append_version c planning (ps_plan_id current) (ps_aggregate_version current)
                  (frr_draft rq) (ps_current_version current)
                  (Some ("failure:" +:+ psr_step_run_id failed))
                  (superseded_steps (frr_draft rq) (pvr_steps (ps_current current)));
      waiting_lease ← co_transition_run (scoped co) lease RUN_AWAITING_USER;
      seq ← get_next_checkpoint_seq c;
      checkpoint (scoped co) waiting_lease (inl PLAN_AWAITING_APPROVAL)
        (inr (awaiting_approval_dict (default "None" (tc_run_id c)) revised))
        (at_seq (Some seq)) ;;
      run ← get_run c;
      run ← or_raise (RuntimeError "failure revision run is missing") run;
      mret {| fre_plan := revised; fre_run := run; fre_lease := waiting_lease |}
    end)).

(** ** Decisions *)

Record PlanDecisionResult : Type := MkPlanDecisionResult {
  pdx_snapshot : PlanSnapshot;
  pdx_decision : PlanDecisionRecord;
  pdx_run : RunRecord;
  pdx_lease : option RunLease;
  pdx_idempotent_replay : bool;
  pdx_events : list ScopedEvent;
}.

Definition replayed (a : PlanDecisionMutationResult) (run : RunRecord) : PlanDecisionResult :=
  {| pdx_snapshot := dmr_snapshot a; pdx_decision := dmr_decision a; pdx_run := run;
     pdx_lease := None; pdx_idempotent_replay := true; pdx_events := [] |}.

Definition normalize_decision_request (r : PlanDecisionRequest) : PlanDecisionRequest :=
  {| req_decision_id := req_decision_id r; req_plan_id := req_plan_id r;
     req_plan_version := req_plan_version r; req_expected_version := req_expected_version r;
     req_action := req_action r; req_feedback := sanitize_plan_text <$> req_feedback r |}.

Definition plan_not_found : exn := PlanNotFoundError "Plan not found".

(** Read without a transaction of its own. *)
Definition read_decision_state (r : PlanDecisionRequest) (decided_by : string)
    : M (TenantContext * PlanSnapshot * RunRecord * option PlanDecisionMutationResult) :=
  c ← locate_context decided_by (req_plan_id r);
  replay ← replay_decision c r decided_by;
  snapshot ← match replay with
             | Some a => mret (Some (dmr_snapshot a))
             | None => get_plan c (req_plan_id r)
             end;
  snapshot ← or_raise plan_not_found snapshot;
  run ← get_plan_run c (req_plan_id r);
  run ← or_raise plan_not_found run;
  mret (c, snapshot, run, replay).

(** One model round, in a transaction of its own before the model is asked. *)
Definition reserve_revision_round (c : TenantContext) (plan_id : string) (_ : nat) : M unit :=
  require (bool_decide (is_Some (tc_session_id c)) && bool_decide (is_Some (tc_run_id c)))
    (ValueError "revision requires session and run scope") ;;
  _ ← unit_of_work (on_connection (
        reserve_round_unit c (default "None" (tc_run_id c)) plan_id "revision_generation"
          total_budget None));
  mret tt.

(** The claim, the new version, the fence and the end of the claim, in one transaction. *)
Definition apply_revision (r : PlanDecisionRequest) (c : TenantContext) (draft : PlanDraft)
    (decided_by runtime_instance_id : string)
    : PM (PlanDecisionMutationResult * RunRecord) :=
  c ← lift (for_context c c);
  claim ← begin_revision_decision c r decided_by;
  match pdr_resulting_plan_version claim with
  | Some _ =>
    on_connection (
      replay ← replay_decision c r decided_by;
      a ← or_raise (RuntimeError "completed revision decision could not be replayed") replay;
      run ← get_plan_run c (req_plan_id r);
      run ← or_raise plan_not_found run;
      mret (a, run))
  | None =>
    revised ← on_connection (
      current ← get_plan c (req_plan_id r);
      current ← or_raise plan_not_found current;
      require (Z.ltb (ps_current_version current - 1) (pls_max_revisions planning))
        (PlanRevisionLimitError "Plan revision limit exceeded") ;;
      let prior_steps := dict_from pst_logical_step_key pst_step_id
                           (pvr_steps (ps_current current)) in
      revised ← append_version c planning (req_plan_id r) (req_expected_version r) draft
                  (req_plan_version r) (req_feedback r)
                  (list_to_map (omap (λ s, i ← prior_steps !! logical_step_key s;
                                           Some (logical_step_key s, i)) (pd_steps draft)));
      run ← get_plan_run c (req_plan_id r);
      run ← or_raise plan_not_found run;
      co_fence_waiting_plan_run (scoped co) (rr_context run) runtime_instance_id
        (req_plan_id r) (ps_current_version revised) (rr_version run)
        (pvr_content_digest (ps_current revised)) ;;
      mret revised);
    decision ← finish_revision_decision c (req_plan_id r) (req_decision_id r)
                 (ps_current_version revised);
    on_connection (
      persisted ← get_plan c (req_plan_id r);
      persisted ← or_raise plan_not_found persisted;
      run ← get_plan_run c (req_plan_id r);
      run ← or_raise plan_not_found run;
      mret ({| dmr_snapshot := persisted; dmr_decision := decision;
               dmr_idempotent_replay := false |}, run))
  end.

Definition revise (r : PlanDecisionRequest) (c : TenantContext) (snapshot : PlanSnapshot)
    (decided_by runtime_instance_id : string) : M PlanDecisionResult :=
  match generator with
  | None => throw (RuntimeError "Plan generator is required for revision")
  | Some (ask, report, default_model, generation_model) =>
    current ← lift (revision_current_plan_context (ps_current snapshot));
    revision ← lift (make_revision_context
      {| prc_plan_id := ps_plan_id snapshot; prc_parent_version := ps_current_version snapshot;
         prc_feedback := req_feedback r; prc_failed_step_key := None;
         prc_failed_error := None; prc_completed := [];
         prc_current_plan := Some current |});
    generated ← generate ask report default_model generation_model
                  (pvr_objective (ps_current snapshot)) (Some revision)
                  (draft_limits planning) (reserve_revision_round c (ps_plan_id snapshot));
    let draft := draft_of_validated generated in
    _ ← lift (validate_plan_draft draft (draft_limits planning));
    '(a, run) ← unit_of_work (apply_revision r c draft decided_by runtime_instance_id);
    if dmr_idempotent_replay a then mret (replayed a run) else
    event ← lift (decision_event (dmr_snapshot a) run (dmr_decision a) "plan.revised");
    mret {| pdx_snapshot := dmr_snapshot a; pdx_decision := dmr_decision a; pdx_run := run;
            pdx_lease := None; pdx_idempotent_replay := false; pdx_events := [event] |}
  end.

(** The decision and its consequence for the run, in one transaction. *)
Definition apply_resolution (r : PlanDecisionRequest) (c : TenantContext)
    (decided_by runtime_instance_id : string)
    : PM (PlanDecisionMutationResult * RunRecord * option RunLease) :=
  c ← lift (for_context c c);
  a ← record_decision c r decided_by;
  on_connection (
    run ← get_plan_run c (req_plan_id r);
    run ← or_raise plan_not_found run;
    if dmr_idempotent_replay a then mret (a, run, None) else
    lease ← match req_action r with
            | DECIDE_APPROVE =>
              lease ← co_resume_waiting_plan_run (scoped co) (rr_context run)
                        runtime_instance_id (req_plan_id r) (req_plan_version r)
                        (rr_version run);
              mret (Some lease)
            | _ =>
              co_cancel_waiting_plan_run (scoped co) (rr_context run) runtime_instance_id
                (req_plan_id r) (req_plan_version r) (rr_version run) ;;
              mret None
            end;
    run ← get_run (rr_context run);
    run ← or_raise plan_not_found run;
    mret (a, run, lease)).

Definition resolve (r : PlanDecisionRequest) (c : TenantContext)
    (decided_by runtime_instance_id : string) : M PlanDecisionResult :=
  '(a, run, lease) ← unit_of_work (apply_resolution r c decided_by runtime_instance_id);
  if dmr_idempotent_replay a then mret (replayed a run) else
  event ← lift (decision_event (dmr_snapshot a) run (dmr_decision a) "plan.decision");
  mret {| pdx_snapshot := dmr_snapshot a; pdx_decision := dmr_decision a; pdx_run := run;
          pdx_lease := lease; pdx_idempotent_replay := false; pdx_events := [event] |}.

Definition decide_plan (r : PlanDecisionRequest) (decided_by runtime_instance_id : string)
    : M PlanDecisionResult :=
  let r := normalize_decision_request r in
  '(c, snapshot, run, replay) ← read_decision_state r decided_by;
  match replay with
  | Some a => mret (replayed a run)
  | None =>
    match req_action r with
    | DECIDE_REVISE => revise r c snapshot decided_by runtime_instance_id
    | _ => resolve r c decided_by runtime_instance_id
    end
  end.
End Service.
