(* ===== verification/Recovery.v ===== *)
(** * Recovery of interrupted runs ([workflow/recovery.py] 80-89, 189-612, 669-683)

    [RecoveryService] looks at the last checkpoint of a run and says how to go on: it
    checks the checkpoint against the rows it refers to, chooses an action, and takes
    the lease only when there is something to do. *)

From S2P Require Import Prelude.
From S2P Require Import Records.
From S2P Require Import Errors.
From S2P Require Import Json.
From S2P Require Import Tenancy.
From S2P Require Import WorkflowModels.
From S2P Require Import Storage.
From S2P Require Import Checkpoint.
From S2P Require Import PlanRecords.
From S2P Require Import WorkflowRepository.
From S2P Require Import WorkflowCoordinator.
From stdpp Require Import base gmap strings list.

(** The Plan facts a continuation relies on. *)
Record PlanRecoveryContext : Type := MkPlanRecoveryContext {
  prc_plan : PlanSnapshot;
  prc_version : PlanVersionRecord;
  prc_running_step : option PlanStepRunRecord;
  prc_failed_step : option PlanStepRunRecord;
  prc_revision_awaiting_decision : bool;
  prc_cursor : string;
}.

Record RecoveryOutcome : Type := MkRecoveryOutcome {
  ro_action : option RecoveryAction;
  ro_status : option RunStatus;
  ro_lease : option RunLease;
  ro_execution_id : option string;
  ro_plan_recovery_context : option PlanRecoveryContext;
  ro_executions_started : Z;
  ro_reason : string;
}.

#[export] Instance eta_RecoveryOutcome : Eta RecoveryOutcome := λ o,
  MkRecoveryOutcome (ro_action o) (ro_status o) (ro_lease o) (ro_execution_id o)
    (ro_plan_recovery_context o) (ro_executions_started o) (ro_reason o).

(** [RecoveryOutcome()]: every field at its default. *)
Definition no_outcome : RecoveryOutcome := MkRecoveryOutcome None None None None None 0 "".

Definition blocked (status : RunStatus) (reason : string) : RecoveryOutcome :=
  no_outcome <| ro_status := Some status |> <| ro_reason := reason |>.

Definition acting (a : RecoveryAction) (pc : option PlanRecoveryContext) : RecoveryOutcome :=
  no_outcome <| ro_action := Some a |> <| ro_plan_recovery_context := pc |>.

Definition corrupt (msg : string) : exn := CorruptCheckpointError msg.

(** ** Checks against the rows a checkpoint refers to *)

Definition validate_execution_dispatch (c : TenantContext) (k : CheckpointRecord)
    (p : ExecutionDispatchingPayload) : M unit :=
  found ← get_execution_recovery c (edp_execution_id p);
  match found with
  | None => throw (corrupt "checkpoint references a missing execution")
  | Some e =>
    require (bool_decide (cr_execution_id k = Some (edp_execution_id p)))
      (corrupt "checkpoint execution_id does not match payload") ;;
    require (bool_decide (cr_approval_id k = xr_approval_id e))
      (corrupt "checkpoint approval scope does not match execution") ;;
    require (bool_decide (xr_tool_call_id e = edp_tool_call_id p))
      (corrupt "checkpoint tool_call_id does not match execution") ;;
    require (bool_decide (xr_recovery_strategy e = edp_recovery_strategy p))
      (corrupt "checkpoint recovery_strategy does not match execution") ;;
    require (bool_decide (xr_input_hash e = edp_input_hash p))
      (corrupt "checkpoint input_hash does not match execution") ;;
    require (bool_decide (xr_input_ref e = edp_input_ref p))
      (corrupt "checkpoint input_ref does not match execution") ;;
    require (negb (bool_decide (edp_recovery_strategy p = IDEMPOTENT_RETRY) &&
                   negb (bool_decide (edp_idempotency_key p = xr_idempotency_key e))))
      (corrupt "checkpoint idempotency_key does not match execution")
  end.

Definition validate_execution_result (c : TenantContext) (k : CheckpointRecord)
    (p : CheckpointPayload) : M unit :=
  match p with
  | PExecutionResultObserved p =>
    found ← get_execution_recovery c (eop_execution_id p);
    match found with
    | None => throw (corrupt "checkpoint references a missing execution")
    | Some e =>
      require (bool_decide (cr_execution_id k = Some (eop_execution_id p)))
        (corrupt "checkpoint execution_id does not match payload") ;;
      require (bool_decide (xr_status e = eop_result_status p))
        (corrupt "checkpoint result_status does not match execution") ;;
      require (bool_decide (xr_result_digest e = Some (eop_result_digest p)))
        (corrupt "checkpoint result_digest does not match execution") ;;
      require (bool_decide (xr_result_ref e = Some (eop_result_ref p)))
        (corrupt "checkpoint result_ref does not match execution") ;;
      require (bool_decide (xr_external_request_id e = eop_external_request_id p))
        (corrupt "checkpoint external_request_id does not match execution")
    end
  | _ => throw AssertionError
  end.

Definition dispatch_recovery_action (s : RecoveryStrategy) : RecoveryAction :=
  match s with
  | READ_ONLY_REPLAY => REPLAY_READ_ONLY
  | IDEMPOTENT_RETRY => RETRY_IDEMPOTENT
  | _ => MARK_MANUAL_UNCERTAIN
  end.

Definition is_plan_phase (phase : CheckpointPhase) : bool :=
  bool_decide (phase ∈ [PLAN_AWAITING_APPROVAL; PLAN_STEP_READY; PLAN_REPLAN_REQUIRED]).

(** ** The Plan of a run *)

(** [getattr(payload, "plan_id" | "plan_version" | "plan_digest", None)]. *)
Definition payload_plan (p : CheckpointPayload) : option (string * Z * string) :=
  match p with
  | PPlanAwaitingApproval p => Some (pap_plan_id p, pap_plan_version p, pap_plan_digest p)
  | PPlanStepReady p => Some (psp_plan_id p, psp_plan_version p, psp_plan_digest p)
  | PPlanReplanRequired p => Some (prp_plan_id p, prp_plan_version p, prp_plan_digest p)
  | _ => None
  end.

(** [str(getattr(payload, "cursor", ""))]. *)
Definition payload_cursor (p : CheckpointPayload) : string :=
  match p with
  | PRunStarted p => rsp_cursor p
  | PPlanAwaitingApproval p => pap_cursor p
  | PPlanStepReady p => psp_cursor p
  | PPlanReplanRequired p => prp_cursor p
  | PModelOutput p => mop_cursor p
  | PAwaitingApproval p => aap_cursor p
  | PExecutionDispatching p => edp_cursor p
  | PExecutionResultObserved p => eop_cursor p
  | PRunTerminal _ => ""
  end.

(** [version or default] and [digest or default]: zero and the empty text are falsy. *)
Definition version_or (v : option Z) (default : Z) : Z :=
  match v with Some v => if Z.eqb v 0 then default else v | None => default end.

Definition digest_or (s : option string) (default : string) : string :=
  match s with Some "" | None => default | Some s => s end.

(** A revision that was proposed after a failed step and waits for its decision. *)
Definition revision_awaiting (p : CheckpointPayload) (run : RunRecord) (plan : PlanSnapshot)
    (active plan_version : Z) : bool :=
  match p with PPlanReplanRequired _ => true | _ => false end &&
  bool_decide (ps_status plan = PLAN_AWAITING) &&
  bool_decide (rr_status run = RUN_AWAITING_USER) &&
  bool_decide (active = plan_version) &&
  bool_decide (ps_approved_version plan = Some plan_version) &&
  bool_decide (ps_current_version plan = (plan_version + 1)%Z) &&
  bool_decide (pvr_parent_version (ps_current plan) = Some plan_version).

(** The version in force is the approved one, or the run stands at an approval. *)
Definition plan_in_force (phase : CheckpointPhase) (run : RunRecord) (plan : PlanSnapshot)
    (active : Z) (awaiting : bool) : result exn unit :=
  if bool_decide (ps_approved_version plan = Some (ps_current_version plan)) then
    ensure (bool_decide (ps_status plan = PLAN_APPROVED) &&
            bool_decide (active = ps_current_version plan))
      (corrupt "Plan active version is not approved")
  else
    ensure (awaiting ||
            (bool_decide (phase = PLAN_AWAITING_APPROVAL) &&
             bool_decide (ps_status plan = PLAN_AWAITING) &&
             bool_decide (rr_status run = RUN_AWAITING_USER)))
      (corrupt "unapproved Plan is not at approval boundary").

(** The only attempt of the run that is running, if any. *)
Definition only_running (run_id : string) (plan : PlanSnapshot) (active : Z)
    (l : list PlanStepRunRecord) : result exn (option PlanStepRunRecord) :=
  match l with
  | [] => Ok None
  | [s] =>
    _ ← ensure (bool_decide (psr_plan_id s = ps_plan_id plan) &&
                bool_decide (psr_plan_version s = active) &&
                bool_decide (psr_run_id s = run_id))
          (corrupt "Plan recovery running attempt is inconsistent");
    Ok (Some s)
  | _ => Err (corrupt "Plan recovery has multiple running attempts")
  end.

(** The attempt a step checkpoint speaks of, against the one that is running. *)
Definition step_attempt_ok (p : PlanStepReadyPayload) (plan : PlanSnapshot) (plan_version : Z)
    (found running : option PlanStepRunRecord) : result exn unit :=
  match found with
  | None => Err (corrupt "Plan step checkpoint attempt is inconsistent")
  | Some a =>
    _ ← ensure (bool_decide (psr_plan_id a = ps_plan_id plan) &&
                bool_decide (psr_plan_version a = plan_version) &&
                bool_decide (psr_step_id a = psp_step_id p) &&
                bool_decide (psr_attempt a = psp_attempt p))
          (corrupt "Plan step checkpoint attempt is inconsistent");
    if bool_decide (psp_execution_cursor p ∈ ["dispatch_step"; "continue_step"]) then
      ensure match running with
             | Some s => bool_decide (psr_step_run_id s = psr_step_run_id a) &&
                         bool_decide (psr_status s = STEP_RUNNING)
             | None => false
             end
        (corrupt "Plan step checkpoint is missing its running attempt")
    else
      ensure (bool_decide (running = None))
        (corrupt "Plan selection checkpoint has a running step")
  end.

Definition failed_attempt_ok (plan : PlanSnapshot) (plan_version : Z)
    (found : option PlanStepRunRecord) : result exn unit :=
  match found with
  | None => Err (corrupt "Plan revision references a missing step attempt")
  | Some a =>
    ensure (bool_decide (psr_plan_id a = ps_plan_id plan) &&
            bool_decide (psr_plan_version a = plan_version) &&
            bool_decide (psr_status a = STEP_FAILED_TERMINAL))
      (corrupt "Plan revision failure attempt is inconsistent")
  end.

Section Service.
Context `{Env} `{PlanReader}.

Definition validate_plan_context (c : TenantContext) (run : RunRecord)
    (phase : CheckpointPhase) (p : CheckpointPayload) : M PlanRecoveryContext :=
  match rr_plan_id run, rr_initial_plan_version run, rr_active_plan_version run with
  | Some plan_id, Some _, Some active =>
    require (bool_decide (from_option (λ x, x.1.1) plan_id (payload_plan p) = plan_id))
      (corrupt "checkpoint Plan does not match run binding") ;;
    scoped_run ← get_run c;
    require (bool_decide (scoped_run = Some run))
      (corrupt "Plan recovery run changed during validation") ;;
    found ← plans_get c plan_id;
    match found with
    | None => throw (corrupt "checkpoint references a missing Plan")
    | Some plan =>
      let plan_version := version_or ((λ x, x.1.2) <$> payload_plan p) active in
      match List.find (λ v, bool_decide (pvr_plan_version v = plan_version)) (ps_versions plan) with
      | None => throw (IncompatibleCheckpointError "checkpoint references a missing Plan version")
      | Some version =>
        require (bool_decide (digest_or (snd <$> payload_plan p) (pvr_content_digest version)
                              = pvr_content_digest version))
          (corrupt "checkpoint Plan digest does not match version") ;;
        let awaiting := revision_awaiting p run plan active plan_version in
        lift (plan_in_force phase run plan active awaiting) ;;
        let run_id := default "None" (tc_run_id c) in
        running ← running_step_attempts c run_id;
        running_step ← lift (only_running run_id plan active running);
        require (match p with
                 | PPlanAwaitingApproval _ => bool_decide (running_step = None)
                 | _ => true
                 end) (corrupt "Plan approval boundary has a running step") ;;
        match p with
        | PPlanStepReady p =>
          attempt ← step_run_by_id c run_id (psp_step_run_id p);
          lift (step_attempt_ok p plan plan_version attempt running_step)
        | _ => mret tt
        end ;;
        failed_step ← match p with
                      | PPlanReplanRequired p =>
                        failed ← step_run_by_id c run_id (prp_failed_step_run_id p);
                        lift (failed_attempt_ok plan plan_version failed) ;;
                        mret failed
                      | _ => mret None
                      end;
        mret {| prc_plan := plan;
                prc_version := version;
                prc_running_step := running_step;
                prc_failed_step := failed_step;
                prc_revision_awaiting_decision := awaiting;
                prc_cursor := payload_cursor p |}
      end
    end
  | _, _, _ => throw (corrupt "Plan recovery run binding is incomplete")
  end.

(** ** Classification *)

Definition running_or_resuming (run : RunRecord) : bool :=
  bool_decide (rr_status run ∈ [RUN_RUNNING; RUN_RESUMING]).

Definition classify_plan_approval (run : option RunRecord) (pc : option PlanRecoveryContext)
    : result exn RecoveryOutcome :=
  match run with
  | None => Ok (acting AWAIT_PLAN_DECISION None)
  | Some run =>
    match pc with
    | None => Err AssertionError
    | Some x =>
      if bool_decide (rr_status run = RUN_AWAITING_USER) &&
         negb (bool_decide (ps_approved_version (prc_plan x) = Some (ps_current_version (prc_plan x))))
      then Ok (acting AWAIT_PLAN_DECISION pc)
      else if bool_decide (rr_status run = RUN_RESUMING)
      then Ok (acting RESUME_PLAN_STEP pc)
      else Err (corrupt "Plan approval checkpoint has incompatible run state")
    end
  end.

Definition classify_plan_step (p : PlanStepReadyPayload) (run : option RunRecord)
    (pc : option PlanRecoveryContext) : result exn RecoveryOutcome :=
  match run with
  | None => Ok (acting RESUME_PLAN_STEP None)
  | Some run =>
    match pc with
    | None => Err AssertionError
    | Some _ =>
      if bool_decide (psp_execution_cursor p = "final_summary") &&
         bool_decide (rr_status run = RUN_AWAITING_USER)
      then Ok (acting AWAIT_USER pc)
      else if running_or_resuming run
      then Ok (acting RESUME_PLAN_STEP pc)
      else Err (corrupt "Plan step checkpoint has incompatible run state")
    end
  end.

Definition classify_plan_revision (run : option RunRecord) (pc : option PlanRecoveryContext)
    : result exn RecoveryOutcome :=
  match run with
  | None => Ok (acting RESUME_PLAN_REVISION None)
  | Some run =>
    match pc with
    | None => Err AssertionError
    | Some x =>
      if prc_revision_awaiting_decision x then Ok (acting AWAIT_PLAN_DECISION pc)
      else if running_or_resuming run
      then Ok (acting RESUME_PLAN_REVISION pc)
      else Err (corrupt "Plan revision checkpoint has incompatible run state")
    end
  end.

Definition classify (c : TenantContext) (k : CheckpointRecord) (phase : CheckpointPhase)
    (p : CheckpointPayload) (run : option RunRecord) : M RecoveryOutcome :=
  pc ← match run with
       | Some run =>
         if bool_decide (rr_plan_id run ≠ None) || is_plan_phase phase
         then x ← validate_plan_context c run phase p; mret (Some x)
         else mret None
       | None => mret None
       end;
  match phase, p with
  | PLAN_AWAITING_APPROVAL, PPlanAwaitingApproval _ => lift (classify_plan_approval run pc)
  | PLAN_STEP_READY, PPlanStepReady p => lift (classify_plan_step p run pc)
  | PLAN_REPLAN_REQUIRED, PPlanReplanRequired _ => lift (classify_plan_revision run pc)
  | RUN_STARTED, _ =>
    mret (acting match pc with Some _ => RESUME_PLAN_STEP | None => RESUME_MODEL end pc)
  | MODEL_OUTPUT_COMMITTED, _ => mret (acting RESUME_MODEL pc)
  | EXECUTION_RESULT_OBSERVED, _ =>
    validate_execution_result c k p ;;
    mret (acting RESUME_MODEL pc)
  | AWAITING_APPROVAL, PAwaitingApproval p =>
    found ← get_approval c (aap_approval_id p);
    match found with
    | None => throw (corrupt "checkpoint references a missing approval")
    | Some a =>
      require (bool_decide (ar_tool_call_id a = aap_tool_call_id p))
        (corrupt "checkpoint tool_call_id does not match approval") ;;
      mret (acting (if bool_decide (ar_status a = APPROVAL_AWAITING_USER)
                    then AWAIT_USER else RESUME_MODEL) pc)
    end
  | EXECUTION_DISPATCHING, PExecutionDispatching p =>
    validate_execution_dispatch c k p ;;
    mret ((acting (dispatch_recovery_action (edp_recovery_strategy p)) pc)
            <| ro_execution_id := Some (edp_execution_id p) |>)
  | RUN_TERMINAL, PRunTerminal p =>
    mret (no_outcome <| ro_action := Some TERMINAL_NOOP |>
                     <| ro_status := Some (rtp_terminal_status p) |>)
  | _, _ => throw AssertionError
  end.

(** ** The service *)

(** The common part of [recover] and [validate_live_run]: an outcome to return at once,
    or the run with the outcome of its classification. *)
Definition examine (c : TenantContext) : M (RecoveryOutcome + RunRecord * RecoveryOutcome) :=
  run ← get_run c;
  match run with
  | None => mret (inl (blocked RUN_BLOCKED_CORRUPT "missing run"))
  | Some run =>
    checkpoint ← get_latest_checkpoint c;
    match checkpoint with
    | None => mret (inl (blocked RUN_BLOCKED_CORRUPT "missing checkpoint"))
    | Some k =>
      catch
        ('(phase, p) ← lift (decode_checkpoint k);
         out ← classify c k phase p (Some run);
         mret (if run_terminal (rr_status run)
               then inl (no_outcome <| ro_action := Some TERMINAL_NOOP |>
                                    <| ro_status := Some (rr_status run) |>)
               else inr (run, out)))
        (λ e, match e with
              | IncompatibleCheckpointError m => mret (inl (blocked RUN_BLOCKED_INCOMPATIBLE m))
              | CorruptCheckpointError m => mret (inl (blocked RUN_BLOCKED_CORRUPT m))
              | e => throw e
              end)
    end
  end.

(** [WorkflowCoordinator(self._database, settings=self._settings)]: its operations open
    their own transactions and publish nothing. *)
Definition own_coordinator (settings : Settings) : WorkflowCoordinator := {|
  co_settings := settings;
  co_connection := false;
  co_event_router := false;
  co_post_commit_events := false;
|}.

Definition acquire_recovery_lease (settings : Settings) (c : TenantContext)
    (runtime_instance_id : string) : M RunLease :=
  catch (acquire_run (own_coordinator settings) c runtime_instance_id)
    (λ e, match e with
          | LeaseConflictError m =>
            live ← write_transaction (get_live_lease c runtime_instance_id);
            match live with
            | Some lease => mret lease
            | None => throw (LeaseConflictError m)
            end
          | e => throw e
          end).

Definition recover (settings : Settings) (c : TenantContext)
    (runtime_instance_id : string) : M RecoveryOutcome :=
  found ← examine c;
  match found with
  | inl out => mret out
  | inr (_, out) =>
    if bool_decide (ro_action out ∈ [Some TERMINAL_NOOP; Some AWAIT_USER;
                                     Some AWAIT_PLAN_DECISION])
    then mret out
    else
      lease ← acquire_recovery_lease settings c runtime_instance_id;
      mret (out <| ro_lease := Some lease |> <| ro_executions_started := 0%Z |>)
  end.

Definition validate_live_run (c : TenantContext) : M RecoveryOutcome :=
  found ← examine c;
  mret match found with inl out => out | inr (_, out) => out end.

End Service.
