(* ===== verification/Continuation.v ===== *)
(** * Lease handles and continuation ([workflow/models.py] 414-435,
    [workflow/continuation.py])

    The lease of a run is held in a handle that whoever works for the run may replace.
    The continuation service makes what an agent produced durable before the run goes on:
    the text of the model with the checkpoint that names it, and the result of a tool,
    which is read back against its digest and against the execution it belongs to. *)

From S2P Require Import Prelude Records Errors Json Regex Redaction Tenancy.
From S2P Require Import WorkflowModels.
From S2P Require Import Storage Collections PlanStorage Checkpoint Events PlanValidation.
From S2P Require Import PlanSpec PlanRecords PlanReading WorkflowRepository.
From S2P Require Import PlanRepository.
From S2P Require Import PlanDecisions PlanAttempts MemoryRepository PlanResults.
From S2P Require Import WorkflowCoordinator Recovery.
From Stdlib Require Import Ascii.
From stdpp Require Import base gmap strings list.

(** ** The lease handle and the state *)

Record ExecState : Type := MkExecState {
  xs_world : World;
  xs_lease : RunLease;
  xs_events : list ScopedEvent;
}.

#[export] Instance eta_ExecState : Eta ExecState := λ x,
  MkExecState (xs_world x) (xs_lease x) (xs_events x).

Notation XM := (stM ExecState exn).

Definition on_world {A} (m : M A) : XM A := λ x,
  let '(r, w) := m (xs_world x) in (r, x <| xs_world := w |>).

(** [RunLeaseHandle]. *)
Definition current : XM RunLease := gets xs_lease.

Definition replace (lease : RunLease) : XM RunLease :=
  modify (λ x, x <| xs_lease := lease |>) ;; mret lease.

Definition use_current {A} (operation : RunLease → M A) : XM A :=
  lease ← gets xs_lease; on_world (operation lease).

Definition refresh (refresher : RunLease → M RunLease) : XM RunLease :=
  lease ← gets xs_lease;
  lease ← on_world (refresher lease);
  replace lease.

Definition publish_event (e : ScopedEvent) : XM unit :=
  modify (λ x, x <| xs_events := xs_events x ++ [e] |>).

(** ** Outcomes and results *)

Inductive ContinuationState : Type :=
| CONTINUATION_COMPLETED | CONTINUATION_AWAITING_USER | CONTINUATION_FAILED_TERMINAL.

Record ContinuationOutcome : Type := MkContinuationOutcome {
  con_state : ContinuationState;
  con_assistant_content : option string;
  con_detail : string;
}.

Record PersistedAssistantOutput : Type := MkPersistedAssistantOutput {
  pao_message_id : string;
  pao_output_digest : string;
  pao_model_cursor : string;
}.

Record PersistedToolResult : Type := MkPersistedToolResult {
  ptr_entry_id : string;
  ptr_result_ref : string;
  ptr_result_digest : string;
  ptr_content : string;
  ptr_tool_call_id : string;
  ptr_tool_name : string;
}.

(** [text.strip()]. *)
Fixpoint drop_spaces (s : list N) : list N :=
  match s with
  | c :: s' => if is_space c then drop_spaces s' else s
  | [] => []
  end.

Definition py_strip (s : string) : string :=
  Regex.encode (rev (drop_spaces (rev (drop_spaces (Regex.decode s))))).

(** [value or other]. *)
Definition or_else (value : option string) (other : string) : string :=
  match value with None | Some "" => other | Some s => s end.

(** ** The service *)

Section Continuation.
Context `{Env} (settings : Settings).

(** [_model_cursor]. *)
Definition model_cursor (run_id : option string) (turn_index : Z) (message_id : string)
    : string :=
  "assistant:" +:+ or_else run_id "no-run" +:+ ":" +:+ str_of_int turn_index +:+ ":" +:+
  message_id.

Definition model_output_dict (run_id : option string) (message_id output_digest cursor : string)
    : list (string * json) :=
  [("run_id", opt_str run_id); ("message_id", JStr message_id);
   ("output_digest", JStr output_digest); ("model_cursor", JStr cursor);
   ("cursor", JStr cursor)].

(** The message and the checkpoint that names it, in one transaction. *)
Definition commit_output (c : TenantContext) (content : string) (turn_index : Z)
    (lease : RunLease) : M PersistedAssistantOutput :=
  let output_digest := env_sha256_hex content in
  e ← new_entry content "chat_message" (tc_session_id c) "assistant" turn_index [];
  e ← save c e;
  let cursor := model_cursor (tc_run_id c) turn_index (me_id e) in
  checkpoint (WorkflowCoordinator.scoped (own_coordinator settings)) lease
    (inl MODEL_OUTPUT_COMMITTED)
    (inr (model_output_dict (tc_run_id c) (me_id e) output_digest cursor)) (at_seq None) ;;
  mret {| pao_message_id := me_id e; pao_output_digest := output_digest;
          pao_model_cursor := cursor |}.

Definition persist_assistant_output (c : TenantContext) (content : string) (turn_index : Z)
    : XM PersistedAssistantOutput :=
  require (bool_decide (is_Some (tc_session_id c)))
    (ValueError "session_id is required for workflow continuation output persistence") ;;
  use_current (λ lease, unit_of_work (on_connection (commit_output c content turn_index lease))).

(** The repository is the caller's, and so is its transaction. *)
Definition persist_tool_result (repository c : TenantContext)
    (content tool_call_id tool_name execution_id result_status : string)
    : M PersistedToolResult :=
  require (bool_decide (is_Some (tc_session_id c)))
    (ValueError "session_id is required for workflow tool result persistence") ;;
  e ← new_entry content "tool_result" (tc_session_id c) "tool" 0
        [("tool_call_id", JStr tool_call_id); ("tool_name", JStr tool_name);
         ("execution_id", JStr execution_id); ("result_status", JStr result_status)];
  e ← save repository e;
  mret {| ptr_entry_id := me_id e; ptr_result_ref := "memory://" +:+ me_id e;
          ptr_result_digest := env_sha256_hex content; ptr_content := content;
          ptr_tool_call_id := tool_call_id; ptr_tool_name := tool_name |}.

(** [re.fullmatch(r"memory://([A-Za-z0-9-]{1,64})", ref)], and its group. *)
Definition TOOL_RESULT_REF (ref : string) : option string :=
  id ← strip "memory://" ref;
  if Nat.leb 1 (String.length id) && Nat.leb (String.length id) 64 &&
     forallb ref_char (String.list_ascii_of_string id)
  then Some id else None.

(** [str(...)] of a value that is no string. *)
Context (str_of : json → string).

(** [str(metadata.get(k, "")).strip()]. *)
Definition metadata_text (k : string) (e : MemoryEntry) : string :=
  py_strip match field k (me_metadata e) with
           | None => ""
           | Some (JStr s) => s
           | Some j => str_of j
           end.

(** What the caller expects, where it expects something. *)
Definition load_tool_result (c : TenantContext) (result_ref expected_digest : string)
    (expected_execution_id expected_tool_call_id expected_tool_name : option string)
    : M PersistedToolResult :=
  entry_id ← or_raise (ValueError "unsupported result_ref") (TOOL_RESULT_REF result_ref);
  entry ← unit_of_work (on_connection (memory_get c entry_id (tc_session_id c)));
  e ← or_raise (ValueError "tool result entry not found") entry;
  require (bool_decide (me_type e = "tool_result") && bool_decide (me_role e = "tool"))
    (ValueError "tool result entry has invalid type or role") ;;
  let tool_call_id := metadata_text "tool_call_id" e in
  let tool_name := metadata_text "tool_name" e in
  let execution_id := metadata_text "execution_id" e in
  require (forallb (λ s, negb (String.eqb s ""))
             [tool_call_id; tool_name; execution_id; metadata_text "result_status" e])
    (ValueError "tool result metadata is incomplete") ;;
  require (expected expected_execution_id execution_id)
    (ValueError "tool result execution_id mismatch") ;;
  require (expected expected_tool_call_id tool_call_id)
    (ValueError "tool result tool_call_id mismatch") ;;
  require (expected expected_tool_name tool_name)
    (ValueError "tool result tool_name mismatch") ;;
  let digest := env_sha256_hex (me_content e) in
  require (bool_decide (digest = expected_digest))
    (ValueError "tool result digest mismatch") ;;
  mret {| ptr_entry_id := me_id e; ptr_result_ref := result_ref;
          ptr_result_digest := digest; ptr_content := me_content e;
          ptr_tool_call_id := tool_call_id; ptr_tool_name := tool_name |}.
End Continuation.
