(* ===== verification/Tools.v ===== *)
(** * Tools and their governance ([tools/base.py], [tools/registry.py],
    [governance/permission.py], [governance/audit.py],
    [governance/sandbox/execution_guard.py], [events/bus.py])

    What the scheduler works with: the results and builders of tools, the registry, the
    permission checker, the guard that bounds the time of an operation, the audit logger
    and the event bus.  What a tool does when it is executed is a computation that the
    builder gives; it may report a request identifier through the recorder it is handed.
    How paths resolve and how the file system answers is a parameter. *)

From S2P Require Import Prelude Records Errors Json Regex Redaction Tenancy.
From S2P Require Import WorkflowModels Storage Checkpoint Events WorkflowRepository.
From S2P Require Import WorkflowCoordinator Continuation.
From Stdlib Require Import Ascii.
From stdpp Require Import base gmap strings list.

(** ** Results *)

Inductive ToolStatus : Type :=
| TOOL_SCHEDULED | TOOL_VALIDATING | TOOL_AWAITING_APPROVAL | TOOL_EXECUTING | TOOL_SUCCESS
| TOOL_ERROR | TOOL_CANCELLED.

#[export] Instance ToolStatus_eq_dec : EqDecision ToolStatus.
Proof. solve_decision. Defined.

Definition tool_status_value (s : ToolStatus) : string :=
  match s with
  | TOOL_SCHEDULED => "scheduled" | TOOL_VALIDATING => "validating"
  | TOOL_AWAITING_APPROVAL => "awaiting_approval" | TOOL_EXECUTING => "executing"
  | TOOL_SUCCESS => "success" | TOOL_ERROR => "error" | TOOL_CANCELLED => "cancelled"
  end.

Record ToolExecutionResult : Type := MkToolExecutionResult {
  ter_status : ToolStatus;
  ter_content : string;
  ter_data : list (string * json);
  ter_audit : list (string * json);
  ter_external_request_id : option string;
  ter_result_ref : option string;
  ter_result_digest : option string;
}.

(** A result with the defaults of the class. *)
Definition tool_result (status : ToolStatus) (content : string) : ToolExecutionResult :=
  MkToolExecutionResult status content [] [] None None None.

(** ** The event bus *)

Record Event : Type := MkEvent {
  bev_type : string;
  bev_data : list (string * json);
}.

Module EventBus.
Section Bus.
Context {Handler : Type}.

(** The handlers of each type, oldest first; the type [*] stands for all. *)
Local Notation bus := (gmap string (list (string * Handler))).
Implicit Types (b : bus).

Definition subscribe (event_type sub_id : string) (h : Handler) b : bus :=
  <[event_type := default [] (b !! event_type) ++ [(sub_id, h)]]> b.

Definition unsubscribe (sub_id : string) b : bus :=
  List.filter (λ sh, negb (String.eqb sh.1 sub_id)) <$> b.

(** A dict keeps the place of a key and takes its last value. *)
Fixpoint put (sh : string * Handler) (l : list (string * Handler)) : list (string * Handler) :=
  match l with
  | [] => [sh]
  | x :: l => if String.eqb x.1 sh.1 then sh :: l else x :: put sh l
  end.

(** The handlers that are called, in order. *)
Definition publish (e : Event) b : list (string * Handler) :=
  foldl (λ l sh, put sh l) []
    (default [] (b !! bev_type e) ++ default [] (b !! "*")).
End Bus.
End EventBus.

(** ** The state of the scheduler

    The execution state (database, lease handle, scoped events) and the events given to
    the bus. *)

Record ToolState : Type := MkToolState {
  ts_exec : ExecState;
  ts_bus : list Event;
}.

#[export] Instance eta_ToolState : Eta ToolState := λ s,
  MkToolState (ts_exec s) (ts_bus s).

Notation TM := (stM ToolState exn).

Definition on_exec {A} (m : XM A) : TM A := λ s,
  let '(r, x) := m (ts_exec s) in (r, s <| ts_exec := x |>).

Definition on_db {A} (m : M A) : TM A := on_exec (on_world m).

(** What the code of one execution shares with the tool: the state of its progress
    ([_ExecutionProgressState]), and the two variables that the closures of [run] set. *)
Record RunVars : Type := MkRunVars {
  rv_execution_version : Z;
  rv_external_request_id : option string;
  rv_cancelled_before_dispatch : bool;
  rv_dispatch_started : bool;
}.

#[export] Instance eta_RunVars : Eta RunVars := λ v,
  MkRunVars (rv_execution_version v) (rv_external_request_id v)
    (rv_cancelled_before_dispatch v) (rv_dispatch_started v).

Notation TPM := (stM (ToolState * RunVars) exn).

Definition on_tools {A} (m : TM A) : TPM A := λ sv,
  let '(r, s) := m sv.1 in (r, (s, sv.2)).

(** Run with fresh variables, which the caller sees no more. *)
Definition with_vars {A} (v : RunVars) (m : TPM A) : TM A := λ s,
  let '(r, sv) := m (s, v) in (r, sv.1).

(** ** Builders and the registry *)

(** What a tool does, given the roots it may use and the recorder of its progress, if it
    has one. *)
Definition ToolInvocation : Type :=
  list (list string) → option (string → TPM unit) → TPM ToolExecutionResult.

Record ToolRecoveryMetadata : Type := MkToolRecoveryMetadata {
  trm_tool_kind : string;
  trm_recovery_strategy : RecoveryStrategy;
  trm_idempotency_key : option string;
}.

(** The parameters of a call, once validated, are what they dump to; [tb_key] reads the
    attribute that [idempotency_key_field] names, as a string. *)
Record ToolBuilder : Type := MkToolBuilder {
  tb_name : string;
  tb_tool_kind : string;
  tb_recovery_strategy : option RecoveryStrategy;
  tb_idempotency_key_field : option string;
  tb_read_only : bool;
  tb_workspace_root : option string;
  tb_timeout_seconds : option Z;
  tb_validate : list (string * json) → result exn (list (string * json));
  tb_key : string → list (string * json) → option string;
  tb_build : list (string * json) → result exn ToolInvocation;
  tb_approval_description : list (string * json) → string;
}.

#[export] Instance eta_ToolBuilder : Eta ToolBuilder := λ b,
  MkToolBuilder (tb_name b) (tb_tool_kind b) (tb_recovery_strategy b)
    (tb_idempotency_key_field b) (tb_read_only b) (tb_workspace_root b)
    (tb_timeout_seconds b) (tb_validate b) (tb_key b) (tb_build b)
    (tb_approval_description b).

Definition recovery_metadata (b : ToolBuilder) (params : list (string * json))
    : result exn ToolRecoveryMetadata :=
  match tb_recovery_strategy b with
  | None => Err (ValueError ("tool '" +:+ tb_name b +:+
                             "' is missing recovery_strategy declaration"))
  | Some strategy =>
    let key := match tb_idempotency_key_field b with
               | None | Some "" => None
               | Some f => tb_key b f params
               end in
    _ ← ensure (negb (bool_decide (strategy = IDEMPOTENT_RETRY) &&
                      String.eqb (default "" key) ""))
          (ValueError ("tool '" +:+ tb_name b +:+
                       "' requires idempotency_key_field for idempotent_retry"));
    Ok {| trm_tool_kind := tb_tool_kind b; trm_recovery_strategy := strategy;
          trm_idempotency_key := key |}
  end.

Module ToolRegistry.
Definition registry : Type := gmap string ToolBuilder.

Definition validate_builder (b : ToolBuilder) : result exn unit :=
  match tb_recovery_strategy b with
  | None => Err (ValueError ("tool '" +:+ tb_name b +:+
                             "' must declare recovery_strategy explicitly"))
  | Some strategy =>
    ensure (negb (bool_decide (strategy = IDEMPOTENT_RETRY) &&
                  String.eqb (default "" (tb_idempotency_key_field b)) ""))
      (ValueError ("tool '" +:+ tb_name b +:+
                   "' must declare idempotency_key_field for idempotent_retry"))
  end.

Definition register (b : ToolBuilder) (r : registry) : result exn registry :=
  _ ← validate_builder b; Ok (<[tb_name b := b]> r).

Definition unregister (name : string) (r : registry) : registry := delete name r.

Fixpoint validate_builders (l : list ToolBuilder) : result exn unit :=
  match l with
  | [] => Ok tt
  | b :: l => _ ← validate_builder b; validate_builders l
  end.

Definition replace_namespace (prefix : string) (l : list ToolBuilder) (r : registry)
    : result exn registry :=
  _ ← validate_builders l;
  Ok (foldl (λ r b, <[tb_name b := b]> r)
        (filter (λ nb, strip prefix nb.1 = None) r) l).

Definition get (name : string) (r : registry) : option ToolBuilder := r !! name.

Definition list_all (r : registry) : list ToolBuilder :=
  map snd (sort_by key_leb (map_to_list r)).
End ToolRegistry.

(** ** Permissions *)

Record PermissionDecision : Type := MkPermissionDecision {
  pd_allow : bool;
  pd_requires_approval : bool;
  pd_reason : string;
  pd_approved_roots : list string;
}.

Section Permission.
(** [Path(p).resolve()]: the components of the absolute path that it denotes. *)
Context (resolve : string → list string) (casefold : string → string).

Definition path_str (parts : list string) : string := "/" +:+ Json.join "/" parts.

Definition is_absolute (p : string) : bool := bool_decide (is_Some (strip "/" p)).

Definition canonicalize_tool_name (name : string) : string := casefold (py_strip name).

(** [(workspace / value).resolve()], or that of an absolute value. *)
Definition resolve_in (workspace : list string) (value : string) : list string :=
  resolve (if is_absolute value then value else path_str workspace +:+ "/" +:+ value).

Definition PATH_KEYS : list string := ["file_path"; "dir_path"; "path"].

Definition collect_external_roots (raw_params : list (string * json))
    (workspace_root : option string) : list string :=
  match workspace_root with
  | None => []
  | Some root =>
    let workspace := resolve root in
    flat_map (λ key,
      match Checkpoint.field key raw_params with
      | Some (JStr value) =>
        if String.eqb value "" then [] else
        let resolved := resolve_in workspace value in
        if bool_decide (workspace `prefix_of` resolved) then [] else [path_str resolved]
      | _ => []
      end) PATH_KEYS
  end.

(** [guarded_tools]: the canonical names that the constructor collects. *)
Definition guarded (guarded_tools : list string) : gset string :=
  list_to_set (map canonicalize_tool_name guarded_tools).

Definition check (guarded_tools : list string) (tool_name : string)
    (raw_params : list (string * json)) (workspace_root : option string)
    : PermissionDecision :=
  match collect_external_roots raw_params workspace_root with
  | [] =>
    if bool_decide (canonicalize_tool_name tool_name ∈ guarded guarded_tools)
    then MkPermissionDecision true true "approval_required" []
    else MkPermissionDecision true false "allowed" []
  | roots => MkPermissionDecision true true "external_path_requires_approval" roots
  end.
End Permission.

(** ** The guard

    [expires] says whether the time runs out while the operation has not begun its own
    work; a tool that is cut off later raises [ExecutionTimeoutError] itself.  Of the
    length of time only the sign matters. *)

Definition guard_run {S A} (default_timeout : Z) (expires : S → bool) (timeout : option Z)
    (operation : stM S exn A) : stM S exn A :=
  require (Z.ltb 0 (default default_timeout timeout)) (ValueError "timeout must be positive") ;;
  gets expires ≫= λ late : bool, if late then throw ExecutionTimeoutError else operation.

(** ** Audit

    The logger that the runtime gives to the scheduler, [ScopedAuditLogger]. *)

Record AuditEntry : Type := MkAuditEntry {
  aen_event_type : string;
  aen_status : string;
  aen_tool_name : option string;
  aen_detail : string;
  aen_approval_id : option string;
  aen_execution_id : option string;
}.

(** [record], with the repository and the context where the caller has them. *)
Definition audit_record `{Env} (scope : option TenantContext) (a : AuditEntry)
    : M unit :=
  match scope with
  | None => throw (ValueError "workflow_repository and context are required")
  | Some c =>
    insert_audit_log c (aen_event_type a) (aen_status a) (aen_tool_name a)
      (redact_string (aen_detail a)) (aen_approval_id a) (aen_execution_id a)
  end.
