(* ===== verification/Scheduler.v ===== *)
(** * The tool scheduler ([src/multiclaw/tools/scheduler.py])

    A call of a tool inside a run is made durable before and after it happens: the
    execution row and the checkpoint that says it is being dispatched are committed before
    the tool is called, the result with its checkpoint after it.  A call that needs
    approval stops with a row that is bound to the approval.  After a crash, recovery
    calls [recover_execution], which repeats the call only when the input, the tool, its
    strategy, its key and the approval are still those of the row.

    The tool itself, the uuid5 of a text, the file system and the Unicode tables are
    parameters.  Counters and traces are not modelled; the guard's time may run out before
    the check for cancellation or within the tool. *)

From S2P Require Import Prelude Records Errors Json Regex Redaction Tenancy.
From S2P Require Import WorkflowModels Storage Checkpoint Events WorkflowRepository.
From S2P Require Import PlanAttempts MemoryRepository WorkflowCoordinator Recovery.
From S2P Require Import Continuation Tools.
From Stdlib Require Import Ascii.
From stdpp Require Import base gmap strings list.

Local Notation scoped := WorkflowCoordinator.scoped.

Definition APPROVAL_TTL_MS : Z := 120000.
Definition MAX_CANONICAL_INPUT_BYTES : Z := 262144.

Record CanonicalToolInput : Type := MkCanonicalToolInput {
  cti_payload_json : string;
  cti_payload_hash : string;
}.

(** The progress of a prepared execution is in the variables it runs with. *)
Record PreparedExecution : Type := MkPreparedExecution {
  pe_lease : RunLease;
  pe_execution_id : string;
  pe_approval_id : option string;
  pe_input_payload_json : string;
  pe_input_hash : string;
  pe_recovery_strategy : RecoveryStrategy;
  pe_idempotency_key : option string;
}.

(** ** Input *)

Section Input.
Context `{Env}.
(** Which code points from 128 on are letters or digits ([str.isalnum]). *)
Context (unicode_alnum : N → bool).

(** [''.join(ch for ch in str(key).lower() if ch.isalnum())]. *)
Definition normalized_key (key : string) : list N :=
  List.filter (λ c, if (c <? 128)%N then alnum c else unicode_alnum c) (lower (Regex.decode key)).

Definition secret_field (key : string) : bool :=
  existsb (λ marker, mentions (Regex.decode marker) (normalized_key key)) SECRET_KEY_MARKERS.

(** The first field with a secret name, in the order of the traversal. *)
Fixpoint find_secret_field (value : json) : option string :=
  match value with
  | JObj l =>
    (fix go (l : list (string * json)) : option string :=
       match l with
       | [] => None
       | (key, item) :: l =>
         if secret_field key then Some key
         else match find_secret_field item with Some k => Some k | None => go l end
       end) l
  | JArr l =>
    (fix go (l : list json) : option string :=
       match l with
       | [] => None
       | item :: l => match find_secret_field item with Some k => Some k | None => go l end
       end) l
  | _ => None
  end.

Definition reject_secret_input (value : json) : result exn unit :=
  match find_secret_field value with
  | Some key => Err (ValueError ("tool input contains forbidden secret field '" +:+ key +:+ "'"))
  | None => Ok tt
  end.

Fixpoint redact_secret_values (value : json) : json :=
  match value with
  | JObj l =>
    JObj (map (λ '(key, item),
      (key, if secret_field key then JStr REDACTED else redact_secret_values item)) l)
  | JArr l => JArr (map redact_secret_values l)
  | _ => value
  end.

(** [allow_nan=False]: the floats that JSON has no text for. *)
Fixpoint finite (value : json) : bool :=
  match value with
  | JFloat x => bool_decide (x ∉ ["NaN"; "Infinity"; "-Infinity"])
  | JArr l => forallb finite l
  | JObj l => forallb (λ kv, finite kv.2) l
  | _ => true
  end.

Definition canonicalize_input (value : list (string * json)) : result exn CanonicalToolInput :=
  _ ← reject_secret_input (JObj value);
  _ ← ensure (finite (JObj value))
        (ValueError "Out of range float values are not JSON compliant");
  let encoded := canonical_json value in
  _ ← ensure (Z.leb (Z.of_nat (String.length encoded)) MAX_CANONICAL_INPUT_BYTES)
        (ValueError "tool input exceeds canonical payload size limit");
  Ok {| cti_payload_json := encoded; cti_payload_hash := env_sha256_hex encoded |}.

Definition redacted_params (raw_params : list (string * json)) : list (string * json) :=
  match redact_secret_values (JObj raw_params) with JObj l => l | _ => [] end.

Definition safe_approval_description (b : ToolBuilder) (raw_params : list (string * json))
    : string := tb_approval_description b (redacted_params raw_params).
End Input.

(** ** Cursors *)

Definition approval_cursor (run_id : option string) (tool_call_id : string) : string :=
  "approval:" +:+ or_else run_id "no-run" +:+ ":" +:+ tool_call_id.
Definition dispatch_cursor (run_id : option string) (tool_call_id : string) : string :=
  "dispatch:" +:+ or_else run_id "no-run" +:+ ":" +:+ tool_call_id.
Definition result_cursor (run_id : option string) (tool_call_id : string) : string :=
  "result:" +:+ or_else run_id "no-run" +:+ ":" +:+ tool_call_id.

Definition terminal_execution_status (r : ToolExecutionResult) : ExecutionStatus :=
  match ter_status r with
  | TOOL_SUCCESS => EXEC_SUCCEEDED
  | TOOL_ERROR => EXEC_FAILED_TERMINAL
  | _ => EXEC_FAILED_TERMINAL
  end.

(** ** The binding of an approval *)

Section Binding.
Context (resolve : string → list string) (uuid5 : string → string).

Definition normalized_approved_roots (roots : list string) : list string :=
  sort_by String.leb (elements (list_to_set (C:=gset string)
    (map (λ r, path_str (resolve r)) roots))).

Definition binding_dict (c : TenantContext) (tool_call_id tool_name tool_kind
    input_hash : string) (approved_roots : list string) (s : RecoveryStrategy)
    (idempotency_key : option string) : list (string * json) :=
  [("tenant_id", JStr (tc_tenant_id c)); ("workspace_id", JStr (tc_workspace_id c));
   ("session_id", opt_str (tc_session_id c)); ("run_id", opt_str (tc_run_id c));
   ("tool_call_id", JStr tool_call_id); ("tool_name", JStr tool_name);
   ("tool_kind", JStr tool_kind); ("input_hash", JStr input_hash);
   ("approved_roots", JArr (map JStr (normalized_approved_roots approved_roots)));
   ("recovery_strategy", JStr (enum_value s)); ("idempotency_key", opt_str idempotency_key)].

Definition approval_binding_id (c : TenantContext) (tool_call_id tool_name tool_kind
    input_hash : string) (approved_roots : list string) (s : RecoveryStrategy)
    (idempotency_key : option string) : string :=
  uuid5 (json_dumps_ascii (JObj (binding_dict c tool_call_id tool_name tool_kind input_hash
                             approved_roots s idempotency_key))).
End Binding.

(** ** Audit detail *)

Definition AUDIT_ALLOWLIST : list string :=
  ["sandbox_backend"; "sandbox_profile"; "unsafe_fallback_used"].

Definition audit_token_char (c : N) : bool := alnum c || one_of [46; 95; 45]%N c.

Section AuditDetail.
Context `{UnicodeData}.

(** [text.strip('._-')]. *)
Fixpoint drop_marks (s : list N) : list N :=
  match s with
  | c :: s' => if one_of [46; 95; 45]%N c then drop_marks s' else s
  | [] => []
  end.

Definition strip_marks (s : list N) : list N := rev (drop_marks (rev (drop_marks s))).

Definition sanitize_audit_token (value : string) : string :=
  let token := sub_text (RPlus (RChar (λ c, negb (audit_token_char c)))) "_" (Regex.decode value) in
  let token := strip_marks (sub_text (RPlus (RChar (N.eqb 95))) "_" token) in
  Regex.encode (take 80 token).

Definition normalized_audit_field (audit : list (string * json)) (key : string)
    : list (string * string) :=
  match Checkpoint.field key audit with
  | None => []
  | Some v =>
    if String.eqb key "unsafe_fallback_used" then
      match v with
      | JBool b => [(key, if b then "True" else "False")]
      | _ => []
      end
    else
      match v with
      | JStr value =>
        let safe_value := sanitize_audit_token value in
        if String.eqb safe_value "" then [] else [(key, safe_value)]
      | _ => []
      end
  end.

Definition normalized_audit_fields (audit : list (string * json)) : list (string * string) :=
  flat_map (normalized_audit_field audit) (sort_by String.leb AUDIT_ALLOWLIST).

Definition NEWLINE : string := ch "010"%char.

Definition audit_detail (r : ToolExecutionResult) : string :=
  match normalized_audit_fields (ter_audit r) with
  | [] => ter_content r
  | fields =>
    let prefix := Json.join " " (map (λ kv, kv.1 +:+ "=" +:+ kv.2) fields) in
    if String.eqb (ter_content r) "" then "[audit] " +:+ prefix
    else "[audit] " +:+ prefix +:+ NEWLINE +:+ ter_content r
  end.
End AuditDetail.

(** ** Durable executions *)

(** [async with database.write_transaction()] around code that uses more than the
    database: what it did to the database is undone, the rest stays. *)
Definition tool_transaction {A} (m : TPM A) : TPM A :=
  transaction (λ entry exit,
    (exit.1 <| ts_exec := (ts_exec exit.1)
                 <| xs_world := rollback (xs_world (ts_exec entry.1))
                                  (xs_world (ts_exec exit.1)) |> |>, exit.2)) m.

Definition on_store {A} (m : M A) : TPM A := on_tools (on_db m).

(** The observed version and request identifier of the execution. *)
Definition observe (x : ExecutionRecoveryRecord) : TPM unit :=
  modify (λ sv, (sv.1, sv.2 <| rv_execution_version := xr_version x |>
                            <| rv_external_request_id := xr_external_request_id x |>)).

Definition progress_of (version : Z) (external_request_id : option string) : RunVars :=
  MkRunVars version external_request_id false false.

Section Scheduler.
Context `{Env}.
Context (unicode_alnum : N → bool) (resolve : string → list string)
  (casefold uuid5 : string → string).
Context (settings : Settings) (guarded_tools : list string) (guard_timeout : Z)
  (expires : ToolState * RunVars → bool) (has_database has_event_router : bool).

Local Notation own := (scoped (own_coordinator settings)).

(** *** Events *)

Definition publish (c : option TenantContext) (event_type : string)
    (data : list (string * json)) : TM unit :=
  modify (λ s, s <| ts_bus := ts_bus s ++ [MkEvent event_type data] |>) ;;
  match c with
  | Some c =>
    if has_event_router && bool_decide (is_Some (tc_session_id c)) &&
       bool_decide (is_Some (tc_run_id c))
    then e ← lift (from_context c event_type data); on_exec (publish_event e)
    else mret tt
  | None => mret tt
  end.

Definition call_data (call_id : option string) : list (string * json) :=
  match call_id with None | Some "" => [] | Some i => [("call_id", JStr i)] end.

Definition event_data (tool_name : string) (call_id : option string) : list (string * json) :=
  ("tool", JStr tool_name) :: call_data call_id.

Definition error_data (tool_name label : string) (call_id : option string)
    : list (string * json) :=
  [("tool", JStr tool_name); ("error", JStr label)] ++ call_data call_id.

Definition publish_result_event (tool_name : string) (r : ToolExecutionResult)
    (c : option TenantContext) (call_id error_label : option string) : TM unit :=
  if bool_decide (ter_status r = TOOL_SUCCESS)
  then publish c "tool.completed" (event_data tool_name call_id)
  else
    let label := or_else error_label
      (if bool_decide (ter_status r = TOOL_ERROR) then "tool returned error"
       else "tool returned " +:+ tool_status_value (ter_status r)) in
    publish c "tool.error" (error_data tool_name label call_id).

Definition result_event_type (r : ToolExecutionResult) : string :=
  if bool_decide (ter_status r = TOOL_SUCCESS) then "tool.completed" else "tool.error".

Definition finalize_terminal_result (tool_name : string) (r : ToolExecutionResult)
    (c : option TenantContext) (call_id detail error_label : option string) : TM unit :=
  let a event_type :=
    MkAuditEntry event_type (tool_status_value (ter_status r)) (Some tool_name)
      (default (audit_detail r) detail) None None in
  match (if has_database then c else None) with
  | Some c => on_db (write_transaction (audit_record (Some c) (a (result_event_type r))))
  | None => on_db (audit_record None (a "tool.event"))
  end ;;
  publish_result_event tool_name r c call_id error_label.

(** *** Results *)

Definition lease_for_observed_result (lease : RunLease) (c : TenantContext) : M RunLease :=
  require (bool_decide (rl_context lease = c))
    (StaleFenceError "observed result lease context is stale") ;;
  run ← get_run c;
  mret match run with
  | None => lease
  | Some run =>
    if Z.eqb (rr_version run) (rl_version lease) then lease else
    match rr_lease_expires_at run with
    | Some expires_at =>
      if bool_decide (is_Some (rr_cancel_requested_at run)) &&
         bool_decide (rr_status run ∈ [RUN_RUNNING; RUN_RESUMING]) &&
         bool_decide (rr_lease_owner run = Some (rl_lease_owner lease)) &&
         Z.eqb (rr_fencing_token run) (rl_fencing_token lease)
      then {| rl_context := c; rl_lease_owner := rl_lease_owner lease;
              rl_fencing_token := rl_fencing_token lease; rl_version := rr_version run;
              rl_lease_expires_at := expires_at |}
      else lease
    | None => lease
    end
  end.

Definition result_dict (run_id : option string) (execution_id : string)
    (status : ExecutionStatus) (digest ref : string) (external_request_id : option string)
    (cursor : string) : list (string * json) :=
  [("run_id", opt_str run_id); ("execution_id", JStr execution_id);
   ("result_status", JStr (enum_value status)); ("result_digest", JStr digest);
   ("result_ref", JStr ref); ("external_request_id", opt_str external_request_id);
   ("resume_cursor", JStr cursor); ("cursor", JStr cursor)].

Definition execution_options (approval_id : option string) (execution_id : string)
    (status : ExecutionStatus) (version : Z) : CheckpointOptions :=
  MkCheckpointOptions None None approval_id (Some execution_id) (Some status) (Some version).

Definition external_conflict (recorded reported : option string) : bool :=
  match recorded, reported with
  | Some a, Some b => negb (String.eqb a b)
  | _, _ => false
  end.

(** The result, the row, the checkpoint and the audit entry, in one transaction. *)
Definition commit_result (prepared : PreparedExecution) (tool_name : string)
    (c : TenantContext) (call_id : option string) (r : ToolExecutionResult)
    (status : ExecutionStatus) (external_request_id : option string) : TPM RunLease :=
  let call := or_else call_id (pe_execution_id prepared) in
  on_store (lock_run c) ;;
  lease ← on_store (lease_for_observed_result (pe_lease prepared) c);
  persisted ← on_store (persist_tool_result c c (ter_content r) call tool_name
                          (pe_execution_id prepared) (enum_value status));
  version ← gets (λ sv, rv_execution_version sv.2);
  updated ← on_store (complete_execution own lease (pe_execution_id prepared) EXEC_EXECUTING
                        version status external_request_id
                        (Some (ptr_result_ref persisted)) (Some (ptr_result_digest persisted)));
  observe updated ;;
  on_store (checkpoint own lease (inl EXECUTION_RESULT_OBSERVED)
    (inr (result_dict (tc_run_id c) (pe_execution_id prepared) status
            (ptr_result_digest persisted) (ptr_result_ref persisted)
            (xr_external_request_id updated) (result_cursor (tc_run_id c) call)))
    (execution_options (pe_approval_id prepared) (pe_execution_id prepared) status
       (xr_version updated))) ;;
  on_store (audit_record (Some c)
    (MkAuditEntry (result_event_type r) (tool_status_value (ter_status r)) (Some tool_name)
       (if bool_decide (ter_status r = TOOL_ERROR) then "tool execution failed"
        else audit_detail r)
       (pe_approval_id prepared) (Some (pe_execution_id prepared)))) ;;
  mret lease.

Definition persist_execution_result (prepared : PreparedExecution) (tool_name : string)
    (c : TenantContext) (call_id : option string) (r : ToolExecutionResult)
    (with_handle : bool) (terminal_status : option ExecutionStatus) : TPM unit :=
  let status := default (terminal_execution_status r) terminal_status in
  recorded ← gets (λ sv, rv_external_request_id sv.2);
  require (negb (external_conflict recorded (ter_external_request_id r)))
    (ValueError "external_request_id conflict") ;;
  let external_request_id :=
    match ter_external_request_id r with None | Some "" => recorded | s => s end in
  lease ← tool_transaction
            (commit_result prepared tool_name c call_id r status external_request_id);
  (if with_handle then on_tools (on_exec (replace lease)) ;; mret tt else mret tt) ;;
  on_tools (publish_result_event tool_name r (Some c) call_id
    (if bool_decide (ter_status r = TOOL_ERROR) then Some "tool execution failed" else None)).

(** *** Preparing *)

(** [record_external_request_id] of the recorder that a tool is given. *)
Definition record_progress (execution_id external_request_id : string) : TPM unit :=
  let external_request_id := py_strip external_request_id in
  require (negb (String.eqb external_request_id "") &&
           Z.leb (utf8_length external_request_id) 255)
    (ValueError "external_request_id must be 1-255 characters") ;;
  recorded ← gets (λ sv, rv_external_request_id sv.2);
  match recorded with
  | Some r =>
    require (String.eqb r external_request_id) (ValueError "external_request_id conflict")
  | None =>
    version ← gets (λ sv, rv_execution_version sv.2);
    updated ← on_tools (on_exec (use_current (λ lease,
      write_transaction (record_external_request_id own lease execution_id EXEC_EXECUTING
                           version external_request_id))));
    modify (λ sv, (sv.1, sv.2 <| rv_execution_version := xr_version updated |>
                              <| rv_external_request_id := Some external_request_id |>))
  end.

Definition already_active : exn :=
  ExecutionConflictError "another execution is already active for this run".

Definition dispatch_dict (run_id : option string) (execution_id tool_call_id : string)
    (s : RecoveryStrategy) (input_hash input_ref : string) (idempotency_key : option string)
    : list (string * json) :=
  let cursor := dispatch_cursor run_id tool_call_id in
  [("run_id", opt_str run_id); ("execution_id", JStr execution_id);
   ("tool_call_id", JStr tool_call_id); ("recovery_strategy", JStr (enum_value s));
   ("input_hash", JStr input_hash); ("input_ref", JStr input_ref);
   ("idempotency_key", opt_str idempotency_key); ("dispatch_cursor", JStr cursor);
   ("cursor", JStr cursor)].

Definition input_ref_of (execution_id : string) : string :=
  "tool_execution:" +:+ execution_id +:+ ":input_payload_json".

(** The row of the execution and the checkpoint that it is being dispatched. *)
Definition commit_dispatch (b : ToolBuilder) (c : TenantContext) (lease : RunLease)
    (execution_id tool_call_id : string) (input : CanonicalToolInput) (s : RecoveryStrategy)
    (idempotency_key : option string) : M ExecutionRecord :=
  created ← create_execution own lease {|
    xi_execution_id := execution_id; xi_approval_id := None;
    xi_tool_call_id := tool_call_id; xi_tool_name := tb_name b;
    xi_tool_kind := tb_tool_kind b; xi_recovery_strategy := s;
    xi_idempotency_key := idempotency_key;
    xi_input_payload_json := cti_payload_json input;
    xi_input_hash := cti_payload_hash input; xi_status := EXEC_NOT_STARTED |};
  created ← or_raise already_active created;
  co_transition_execution own lease execution_id EXEC_NOT_STARTED (er_version created)
    EXEC_EXECUTING ;;
  checkpoint own lease (inl EXECUTION_DISPATCHING)
    (inr (dispatch_dict (tc_run_id c) execution_id tool_call_id s (cti_payload_hash input)
            (input_ref_of execution_id) idempotency_key))
    (execution_options None execution_id EXEC_EXECUTING (er_version created + 1)) ;;
  mret created.

Definition prepare_execution (b : ToolBuilder) (c : TenantContext) (call_id : option string)
    (input : CanonicalToolInput) (s : RecoveryStrategy) (idempotency_key : option string)
    : TM (PreparedExecution * RunVars) :=
  lease ← on_exec current;
  execution_id ← on_db uuid4;
  let tool_call_id := or_else call_id execution_id in
  created ← on_db (write_transaction
    (commit_dispatch b c lease execution_id tool_call_id input s idempotency_key));
  mret ({| pe_lease := lease; pe_execution_id := execution_id; pe_approval_id := None;
           pe_input_payload_json := cti_payload_json input;
           pe_input_hash := cti_payload_hash input; pe_recovery_strategy := s;
           pe_idempotency_key := idempotency_key |},
        progress_of (er_version created + 1) None).

(** *** The check before the dispatch *)

Definition fence_lost : exn := StaleFenceError "pre-dispatch run lease is stale".

(** Whether a cancellation was requested, as the row of the run says. *)
Definition cancellation_won (c : TenantContext) (lease : RunLease) : M bool :=
  lock_run c ;;
  run ← get_run c;
  run ← or_raise fence_lost run;
  require (bool_decide (rr_lease_owner run = Some (rl_lease_owner lease)) &&
           Z.eqb (rr_fencing_token run) (rl_fencing_token lease) &&
           bool_decide (rr_lease_expires_at run = Some (rl_lease_expires_at lease)) &&
           (Z.eqb (rr_version run) (rl_version lease) ||
            Z.eqb (rr_version run) (rl_version lease + 1))) fence_lost ;;
  held ← has_current_lease {|
    rl_context := c; rl_lease_owner := rl_lease_owner lease;
    rl_fencing_token := rr_fencing_token run; rl_version := rr_version run;
    rl_lease_expires_at := rl_lease_expires_at lease |};
  require held fence_lost ;;
  match rr_cancel_requested_at run with
  | None => require (Z.eqb (rr_version run) (rl_version lease)) fence_lost ;; mret false
  | Some _ =>
    require (bool_decide (rr_status run ∈ [RUN_RUNNING; RUN_RESUMING]))
      (StaleFenceError "pre-dispatch cancellation lease is stale") ;;
    mret true
  end.

Definition check_pre_dispatch_cancellation (prepared : PreparedExecution) (tool_name : string)
    (c : TenantContext) (call_id : option string) : TPM (option ToolExecutionResult) :=
  lease ← on_tools (on_exec current);
  require (bool_decide (rl_context (pe_lease prepared) = c) &&
           bool_decide (rl_context lease = c))
    (StaleFenceError "pre-dispatch run lease context is stale") ;;
  require (bool_decide (rl_lease_owner (pe_lease prepared) = rl_lease_owner lease) &&
           Z.eqb (rl_fencing_token (pe_lease prepared)) (rl_fencing_token lease)) fence_lost ;;
  cancelled ← on_store (write_transaction (cancellation_won c lease));
  if cancelled : bool then
    let result :=
      tool_result TOOL_CANCELLED "run cancellation requested before tool dispatch" in
    persist_execution_result prepared tool_name c call_id result true
      (Some EXEC_FAILED_RETRYABLE) ;;
    mret (Some result)
  else mret None.

(** *** Running a tool *)

(** [_dispatch_after_check] with the two closures of [run]. *)
Definition dispatch (b : ToolBuilder) (prepared : PreparedExecution) (invocation : ToolInvocation)
    (roots : list string) (c : TenantContext) (call_id : option string)
    : TPM ToolExecutionResult :=
  cancelled ← check_pre_dispatch_cancellation prepared (tb_name b) c call_id;
  modify (λ sv, (sv.1, sv.2 <| rv_cancelled_before_dispatch :=
                                 bool_decide (is_Some cancelled) |>)) ;;
  match cancelled with
  | Some r => mret r
  | None =>
    modify (λ sv, (sv.1, sv.2 <| rv_dispatch_started := true |>)) ;;
    invocation (map resolve roots) (Some (record_progress (pe_execution_id prepared)))
  end.

Definition tool_failed : ToolExecutionResult := tool_result TOOL_ERROR "tool execution failed".

(** The exceptions that say that somebody else has the run. *)
Definition fence_error (e : exn) : bool :=
  match e with
  | StaleFenceError _ | VersionConflictError _ | LeaseConflictError _ => true
  | _ => false
  end.

Definition conflict_error (e : exn) : bool :=
  match e with ExecutionConflictError _ => true | e => fence_error e end.

Definition failed_status (started : bool) (s : RecoveryStrategy) : ExecutionStatus :=
  if started && bool_decide (s = MANUAL_UNCERTAIN) then EXEC_UNCERTAIN
  else if started then EXEC_FAILED_TERMINAL else EXEC_FAILED_RETRYABLE.

(** The guarded dispatch: a result that is recorded already, or one that is not. *)
Definition guarded_dispatch (b : ToolBuilder) (prepared : PreparedExecution)
    (invocation : ToolInvocation) (roots : list string) (c : TenantContext)
    (call_id : option string) : TPM (ToolExecutionResult + ToolExecutionResult) :=
  catch
    (r ← guard_run guard_timeout expires (tb_timeout_seconds b)
           (dispatch b prepared invocation roots c call_id);
     cancelled ← gets (λ sv, rv_cancelled_before_dispatch sv.2);
     mret (if cancelled : bool then inl r else inr r))
    (λ e,
      if fence_error e then throw e else
      started ← gets (λ sv, rv_dispatch_started sv.2);
      persist_execution_result prepared (tb_name b) c call_id tool_failed true
        (Some (failed_status started (pe_recovery_strategy prepared))) ;;
      mret (inl tool_failed)).

(** Run with variables that the caller goes on with. *)
Definition run_vars {A} (v : RunVars) (m : TPM A) : TM (A * RunVars) := λ s,
  match m (s, v) with
  | (Ok a, (s, v)) => (Ok (a, v), s)
  | (Err e, (s, _)) => (Err e, s)
  end.

(** The row of an approval, the execution that waits for it, and their checkpoint. *)
Definition commit_approval (b : ToolBuilder) (c : TenantContext) (lease : RunLease)
    (execution_id tool_call_id approval_id : string) (call_id : option string)
    (input : CanonicalToolInput) (s : RecoveryStrategy) (idempotency_key : option string)
    : M (RunLease * ApprovalRecord) :=
  transitioned ← co_transition_run own lease RUN_AWAITING_USER;
  approval ← create_approval own transitioned approval_id tool_call_id
               (λ now, (now + APPROVAL_TTL_MS)%Z);
  created ← create_execution own transitioned {|
    xi_execution_id := execution_id; xi_approval_id := Some (ar_approval_id approval);
    xi_tool_call_id := tool_call_id; xi_tool_name := tb_name b;
    xi_tool_kind := tb_tool_kind b; xi_recovery_strategy := s;
    xi_idempotency_key := idempotency_key;
    xi_input_payload_json := cti_payload_json input;
    xi_input_hash := cti_payload_hash input; xi_status := EXEC_NOT_STARTED |};
  created ← or_raise already_active created;
  let cursor := approval_cursor (tc_run_id c) (or_else call_id (ar_approval_id approval)) in
  checkpoint own transitioned (inl AWAITING_APPROVAL)
    (inr [("run_id", opt_str (tc_run_id c)); ("approval_id", JStr (ar_approval_id approval));
          ("tool_call_id", JStr tool_call_id);
          ("approval_expires_at_ms", JInt (ar_expires_at approval));
          ("resume_cursor", JStr cursor); ("cursor", JStr cursor)])
    (MkCheckpointOptions None None (Some (ar_approval_id approval)) None None None) ;;
  audit_record (Some c)
    (MkAuditEntry "tool.awaiting_approval" (tool_status_value TOOL_AWAITING_APPROVAL)
       (Some (tb_name b)) ("approval required, approval_id=" +:+ ar_approval_id approval)
       (Some (ar_approval_id approval)) (Some (er_execution_id created))) ;;
  mret (transitioned, approval).

Definition persist_approval_request (b : ToolBuilder) (input : CanonicalToolInput)
    (approved_roots : list string) (s : RecoveryStrategy) (idempotency_key : option string)
    (c : TenantContext) (call_id : option string) : TM ApprovalRecord :=
  lease ← on_exec current;
  execution_id ← on_db uuid4;
  let tool_call_id := or_else call_id execution_id in
  let approval_id := approval_binding_id resolve uuid5 c tool_call_id (tb_name b)
                       (tb_tool_kind b) (cti_payload_hash input) approved_roots s
                       idempotency_key in
  '(transitioned, approval) ← on_db (write_transaction
    (commit_approval b c lease execution_id tool_call_id approval_id call_id input s
       idempotency_key));
  on_exec (replace transitioned) ;;
  mret approval.

Definition permission (b : ToolBuilder) (raw_params : list (string * json))
    : PermissionDecision :=
  check resolve casefold guarded_tools (tb_name b) raw_params (tb_workspace_root b).

Definition can_run_concurrently (b : ToolBuilder) (raw_params : list (string * json)) : bool :=
  tb_read_only b &&
  let decision := permission b raw_params in
  pd_allow decision && negb (pd_requires_approval decision).

Definition awaiting_data (b : ToolBuilder) (raw_params : list (string * json))
    (approval_id : string) (version : option Z) (call_id : option string)
    : list (string * json) :=
  [("approval_id", JStr approval_id)] ++
  match version with Some v => [("version", JInt v)] | None => [] end ++
  [("tool", JStr (tb_name b));
   ("description", JStr (safe_approval_description unicode_alnum b raw_params))] ++
  call_data call_id.

(** The call waits for its approval. *)
Definition request_approval (b : ToolBuilder) (raw_params : list (string * json))
    (input : CanonicalToolInput) (metadata : ToolRecoveryMetadata)
    (decision : PermissionDecision) (c : TenantContext) (call_id : option string)
    : TM ToolExecutionResult :=
  approval ← persist_approval_request b input (pd_approved_roots decision)
               (trm_recovery_strategy metadata) (trm_idempotency_key metadata) c call_id;
  publish (Some c) "tool.awaiting_approval"
    (awaiting_data b raw_params (ar_approval_id approval) (Some (ar_version approval)) call_id) ;;
  mret {| ter_status := TOOL_AWAITING_APPROVAL; ter_content := "approval required";
          ter_data := [("approval_id", JStr (ar_approval_id approval));
                       ("version", JInt (ar_version approval));
                       ("expires_at_ms", JInt (ar_expires_at approval));
                       ("tool_call_id", JStr (or_else call_id (ar_approval_id approval)))];
          ter_audit := []; ter_external_request_id := None; ter_result_ref := None;
          ter_result_digest := None |}.

(** The body of the outer [try] of [run]: the result that is returned at once, or the
    execution and the result that are still to be recorded. *)
Definition durable_call (b : ToolBuilder) (raw_params params : list (string * json))
    (c : TenantContext) (call_id : option string)
    : TM (ToolExecutionResult + PreparedExecution * RunVars * ToolExecutionResult) :=
  input ← lift (canonicalize_input unicode_alnum params);
  metadata ← lift (recovery_metadata b params);
  let decision := permission b raw_params in
  if pd_requires_approval decision then
    r ← request_approval b raw_params input metadata decision c call_id; mret (inl r)
  else if negb (pd_allow decision) then
    let r := tool_result TOOL_CANCELLED (pd_reason decision) in
    publish (Some c) "tool.error" (error_data (tb_name b) (pd_reason decision) call_id) ;;
    finalize_terminal_result (tb_name b) r (Some c) call_id (Some (pd_reason decision))
      (Some (pd_reason decision)) ;;
    mret (inl r)
  else
    invocation ← lift (tb_build b params);
    '(prepared, v) ← prepare_execution b c call_id input (trm_recovery_strategy metadata)
                       (trm_idempotency_key metadata);
    publish (Some c) "tool.executing" (event_data (tb_name b) call_id) ;;
    '(r, v) ← run_vars v (guarded_dispatch b prepared invocation (pd_approved_roots decision)
                            c call_id);
    mret match r with inl r => inl r | inr r => inr (prepared, v, r) end.

Definition run_durable (b : ToolBuilder) (raw_params params : list (string * json))
    (c : TenantContext) (call_id : option string) : TM ToolExecutionResult :=
  outcome ← catch (durable_call b raw_params params c call_id) (λ e,
    if conflict_error e then throw e else
    finalize_terminal_result (tb_name b) tool_failed (Some c) call_id
      (Some "tool execution failed") (Some "tool execution failed") ;;
    mret (inl tool_failed));
  match outcome with
  | inl r => mret r
  | inr (prepared, v, r) =>
    with_vars v (persist_execution_result prepared (tb_name b) c call_id r false None) ;;
    mret r
  end.

(** [uuid4().hex]. *)
Definition uuid_hex (u : string) : string :=
  String.string_of_list_ascii
    (List.filter (λ x, negb (Ascii.eqb x "-"%char)) (String.list_ascii_of_string u)).

Definition ephemeral_call (b : ToolBuilder) (raw_params params : list (string * json))
    (c : option TenantContext) (call_id : option string)
    : TM (ToolExecutionResult + ToolExecutionResult) :=
  let decision := permission b raw_params in
  if pd_requires_approval decision then
    u ← on_db uuid4;
    let approval_id := uuid_hex u in
    on_db (audit_record None
      (MkAuditEntry "tool.event" (tool_status_value TOOL_AWAITING_APPROVAL) (Some (tb_name b))
         ("approval required, approval_id=" +:+ approval_id) None None)) ;;
    publish c "tool.awaiting_approval" (awaiting_data b raw_params approval_id None call_id) ;;
    mret (inl (tool_result TOOL_AWAITING_APPROVAL "approval required"))
  else if negb (pd_allow decision) then
    publish c "tool.error" (error_data (tb_name b) (pd_reason decision) call_id) ;;
    on_db (audit_record None
      (MkAuditEntry "tool.event" (tool_status_value TOOL_CANCELLED) (Some (tb_name b))
         (pd_reason decision) None None)) ;;
    mret (inl (tool_result TOOL_CANCELLED (pd_reason decision)))
  else
    invocation ← lift (tb_build b params);
    publish c "tool.executing" (event_data (tb_name b) call_id) ;;
    r ← with_vars (progress_of 0 None)
          (guard_run guard_timeout expires (tb_timeout_seconds b)
             (invocation (map resolve (pd_approved_roots decision)) None));
    mret (inr r).

Definition run_ephemeral (b : ToolBuilder) (raw_params params : list (string * json))
    (c : option TenantContext) (call_id : option string) : TM ToolExecutionResult :=
  outcome ← catch (ephemeral_call b raw_params params c call_id) (λ e,
    finalize_terminal_result (tb_name b) tool_failed c call_id
      (Some "tool execution failed") (Some "tool execution failed") ;;
    mret (inl tool_failed));
  match outcome with
  | inl r => mret r
  | inr r => finalize_terminal_result (tb_name b) r c call_id None None ;; mret r
  end.

Definition run (b : ToolBuilder) (raw_params : list (string * json))
    (c : option TenantContext) (call_id : option string) (with_handle : bool)
    : TM ToolExecutionResult :=
  publish c "tool.scheduled" (event_data (tb_name b) call_id) ;;
  publish c "tool.validating" (event_data (tb_name b) call_id) ;;
  params ← lift (tb_validate b raw_params);
  match (if has_database && with_handle then c else None) with
  | Some c' =>
    if bool_decide (is_Some (tc_session_id c')) && bool_decide (is_Some (tc_run_id c'))
    then run_durable b raw_params params c' call_id
    else run_ephemeral b raw_params params c call_id
  | None => run_ephemeral b raw_params params c call_id
  end.

(** *** Recovery *)

Definition prepared_again (lease : RunLease) (x : ExecutionRecoveryRecord)
    : PreparedExecution := {|
  pe_lease := lease; pe_execution_id := xr_execution_id x; pe_approval_id := xr_approval_id x;
  pe_input_payload_json := xr_input_payload_json x; pe_input_hash := xr_input_hash x;
  pe_recovery_strategy := xr_recovery_strategy x;
  pe_idempotency_key := xr_idempotency_key x |}.

Definition progress_again (x : ExecutionRecoveryRecord) : RunVars :=
  progress_of (xr_version x) (xr_external_request_id x).

Definition commit_blocked (c : TenantContext) (lease : RunLease) (x : ExecutionRecoveryRecord)
    (status : ExecutionStatus) (detail : string) : M unit :=
  persisted ← persist_tool_result c c detail (xr_tool_call_id x) (xr_tool_name x)
                (xr_execution_id x) (enum_value status);
  updated ← complete_execution own lease (xr_execution_id x) (xr_status x) (xr_version x)
              status (xr_external_request_id x) (Some (ptr_result_ref persisted))
              (Some (ptr_result_digest persisted));
  checkpoint own lease (inl EXECUTION_RESULT_OBSERVED)
    (inr (result_dict (tc_run_id c) (xr_execution_id x) status (ptr_result_digest persisted)
            (ptr_result_ref persisted) (xr_external_request_id updated)
            (result_cursor (tc_run_id c) (xr_tool_call_id x))))
    (execution_options (xr_approval_id x) (xr_execution_id x) status (xr_version updated)) ;;
  audit_record (Some c)
    (MkAuditEntry "tool.error" (tool_status_value TOOL_ERROR) (Some (xr_tool_name x)) detail
       (xr_approval_id x) (Some (xr_execution_id x))).

Definition block_execution (c : TenantContext) (x : ExecutionRecoveryRecord)
    (status : ExecutionStatus) (detail : string) : TM ToolExecutionResult :=
  let r := MkToolExecutionResult TOOL_ERROR detail [] [] (xr_external_request_id x) None None in
  lease ← on_exec current;
  on_db (write_transaction (commit_blocked c lease x status detail)) ;;
  publish_result_event (xr_tool_name x) r (Some c) (Some (xr_tool_call_id x)) (Some detail) ;;
  mret r.

Definition mark_uncertain_execution (c : TenantContext) (x : ExecutionRecoveryRecord)
    : TM ToolExecutionResult :=
  lease ← on_exec current;
  let r := MkToolExecutionResult TOOL_ERROR "tool execution failed" [] []
             (xr_external_request_id x)
             (Some (or_else (xr_result_ref x)
                      ("tool_execution:" +:+ xr_execution_id x +:+ ":uncertain")))
             (Some (or_else (xr_result_digest x) (env_sha256_hex "uncertain"))) in
  with_vars (progress_again x)
    (persist_execution_result (prepared_again lease x) (xr_tool_name x) c
       (Some (xr_tool_call_id x)) r true (Some EXEC_UNCERTAIN)) ;;
  mret r.

Definition redispatch_checkpoint (c : TenantContext) (lease : RunLease)
    (x : ExecutionRecoveryRecord) (input : CanonicalToolInput) (status : ExecutionStatus)
    (version : Z) : M CheckpointWrite :=
  checkpoint own lease (inl EXECUTION_DISPATCHING)
    (inr (dispatch_dict (tc_run_id c) (xr_execution_id x) (xr_tool_call_id x)
            (xr_recovery_strategy x) (cti_payload_hash input) (xr_input_ref x)
            (xr_idempotency_key x)))
    (execution_options (xr_approval_id x) (xr_execution_id x) status version).

(** An execution that has not started is started first. *)
Definition commit_redispatch (c : TenantContext) (lease : RunLease)
    (x : ExecutionRecoveryRecord) (input : CanonicalToolInput) : M ExecutionRecoveryRecord :=
  if negb (bool_decide (xr_status x = EXEC_NOT_STARTED)) then mret x else
  now ← get_execution_recovery c (xr_execution_id x);
  now ← assert_some now;
  (if bool_decide (xr_recovery_strategy x = READ_ONLY_REPLAY) then
     co_transition_execution own lease (xr_execution_id x) EXEC_NOT_STARTED (xr_version now)
       EXEC_REPLAYING ;;
     replaying ← get_execution_recovery c (xr_execution_id x);
     replaying ← assert_some replaying;
     redispatch_checkpoint c lease x input EXEC_REPLAYING (xr_version replaying) ;;
     co_transition_execution own lease (xr_execution_id x) EXEC_REPLAYING
       (xr_version replaying) EXEC_EXECUTING ;;
     mret tt
   else
     co_transition_execution own lease (xr_execution_id x) EXEC_NOT_STARTED (xr_version now)
       EXEC_EXECUTING ;;
     redispatch_checkpoint c lease x input EXEC_EXECUTING (xr_version now + 1) ;;
     mret tt) ;;
  refreshed ← get_execution_recovery c (xr_execution_id x);
  assert_some refreshed.

Definition prepare_recovery_execution (c : TenantContext) (x : ExecutionRecoveryRecord)
    (input : CanonicalToolInput) : TM (PreparedExecution * RunVars) :=
  lease ← on_exec current;
  now ← on_db (write_transaction (commit_redispatch c lease x input));
  mret (prepared_again lease now, progress_again now).

Definition binding_of (b : ToolBuilder) (c : TenantContext) (x : ExecutionRecoveryRecord)
    (input : CanonicalToolInput) (metadata : ToolRecoveryMetadata) (roots : list string)
    : string :=
  approval_binding_id resolve uuid5 c (xr_tool_call_id x) (tb_name b) (tb_tool_kind b)
    (cti_payload_hash input) roots (trm_recovery_strategy metadata)
    (trm_idempotency_key metadata).

(** What keeps an execution from being repeated: the status it is blocked with, and why.
    The checks come in the order of the source; the answer carries what the rest needs. *)
Definition recovery_obstacle (b : ToolBuilder) (c : TenantContext) (x : ExecutionRecoveryRecord)
    : TM ((ExecutionStatus * string) +
          (CanonicalToolInput * list (string * json) * PermissionDecision)) :=
  data ← match json_loads (xr_input_payload_json x) with
         | Some (JObj data) => mret data
         | Some _ => throw (ValueError "persisted input payload must decode to an object")
         | None => throw (ValueError "Expecting value")
         end;
  input ← lift (canonicalize_input unicode_alnum data);
  if negb (String.eqb (cti_payload_hash input) (xr_input_hash x))
  then mret (inl (EXEC_BLOCKED_CORRUPT, "input hash mismatch")) else
  if negb (String.eqb (tb_name b) (xr_tool_name x))
  then mret (inl (EXEC_BLOCKED_INCOMPATIBLE, "tool name mismatch")) else
  if negb (String.eqb (tb_tool_kind b) (xr_tool_kind x))
  then mret (inl (EXEC_BLOCKED_INCOMPATIBLE, "tool kind mismatch")) else
  params ← lift (tb_validate b data);
  metadata ← lift (recovery_metadata b params);
  if negb (bool_decide (trm_recovery_strategy metadata = xr_recovery_strategy x))
  then mret (inl (EXEC_BLOCKED_INCOMPATIBLE, "recovery strategy mismatch")) else
  if negb (bool_decide (trm_idempotency_key metadata = xr_idempotency_key x))
  then mret (inl (EXEC_BLOCKED_CORRUPT, "idempotency key mismatch")) else
  let decision := permission b data in
  if negb (pd_allow decision)
  then mret (inl (EXEC_BLOCKED_INCOMPATIBLE, pd_reason decision)) else
  if negb (pd_requires_approval decision) then mret (inr (input, params, decision)) else
  match xr_approval_id x with
  | None => mret (inl (EXEC_BLOCKED_INCOMPATIBLE, "approval required under current policy"))
  | Some approval_id =>
    if negb (String.eqb approval_id
               (binding_of b c x input metadata (pd_approved_roots decision)))
    then mret (inl (EXEC_BLOCKED_CORRUPT, "approval binding mismatch")) else
    approval ← on_db (get_approval c approval_id);
    mret match approval with
         | Some approval =>
           if bool_decide (ar_status approval = APPROVAL_APPROVED)
           then inr (input, params, decision)
           else inl (EXEC_BLOCKED_INCOMPATIBLE, "approval not currently approved")
         | None => inl (EXEC_BLOCKED_INCOMPATIBLE, "approval not currently approved")
         end
  end.

(** The body of the [try] of [recover_execution]. *)
Definition repeat_execution (b : ToolBuilder) (c : TenantContext) (x : ExecutionRecoveryRecord)
    (action : RecoveryAction) (force_execute : bool) : TM ToolExecutionResult :=
  obstacle ← recovery_obstacle b c x;
  match obstacle with
  | inl (status, detail) => block_execution c x status detail
  | inr (input, params, decision) =>
    if bool_decide (action = MARK_MANUAL_UNCERTAIN) && negb force_execute
    then mark_uncertain_execution c x else
    invocation ← lift (tb_build b params);
    '(prepared, v) ← prepare_recovery_execution c x input;
    '(r, v) ← run_vars v (guard_run guard_timeout expires None
                (invocation (map resolve (pd_approved_roots decision))
                   (Some (record_progress (xr_execution_id x)))));
    with_vars v (persist_execution_result prepared (tb_name b) c (Some (xr_tool_call_id x)) r
                   true None) ;;
    mret r
  end.

(** A call that failed on the way: blocked when the tool was not called yet. *)
Definition settle_failed_recovery (b : ToolBuilder) (c : TenantContext) (execution_id : string)
    (e : exn) : TM ToolExecutionResult :=
  now ← on_db (get_execution_recovery c execution_id);
  match now with
  | None => throw e
  | Some now =>
    if bool_decide (xr_status now ∈ [EXEC_NOT_STARTED; EXEC_REPLAYING])
    then block_execution c now EXEC_BLOCKED_CORRUPT "tool execution failed" else
    lease ← on_exec current;
    with_vars (progress_again now)
      (persist_execution_result (prepared_again lease now) (tb_name b) c
         (Some (xr_tool_call_id now)) tool_failed true
         (Some (if bool_decide (xr_recovery_strategy now = MANUAL_UNCERTAIN)
                then EXEC_UNCERTAIN else EXEC_FAILED_TERMINAL))) ;;
    mret tool_failed
  end.

Definition recover_execution (b : ToolBuilder) (c : TenantContext) (x : ExecutionRecoveryRecord)
    (action : RecoveryAction) (force_execute : bool) : TM ToolExecutionResult :=
  catch (repeat_execution b c x action force_execute) (λ e,
    if conflict_error e then throw e
    else settle_failed_recovery b c (xr_execution_id x) e).
End Scheduler.
