(* ===== verification/PlanExecution.v ===== *)
(** * Executing a Plan: selection, results and reuse ([planner/execution.py] 1-518,
    1160-1763)

    The steps of an approved Plan run one at a time, in a fixed order.  Every step that
    has succeeded is proved again before the next one is chosen: its stored document is
    read back and compared with the attempt, with the step and with the results of the
    steps it depends on.  A step of a revised version takes over the result of the step it
    replaces only with a complete proof that nothing it rests on has changed. *)

From S2P Require Import Prelude Records Errors Json Regex Redaction Tenancy.
From S2P Require Import WorkflowModels.
From S2P Require Import Storage Collections PlanStorage Checkpoint Events PlanValidation.
From S2P Require Import PlanSpec PlanRecords PlanReading WorkflowRepository.
From S2P Require Import PlanRepository.
From S2P Require Import PlanDecisions PlanAttempts MemoryRepository PlanResults.
From S2P Require Import WorkflowCoordinator Recovery PlanGenerator PlanService.
From stdpp Require Import base gmap strings list.

Local Notation scoped := WorkflowCoordinator.scoped.

(** ** Digests *)

Definition canonical_digest `{Env} (value : json) : string :=
  env_sha256_hex (print_json (redact value)).

(** ** Data *)

Record ReadyPlanStep : Type := MkReadyPlanStep {
  rps_plan : PlanSnapshot;
  rps_step : PlanStepRecord;
  rps_prior_attempts : list PlanStepRunRecord;
  rps_dependency_results : list PlanStepResultDocument;
}.

Record StartedPlanStep : Type := MkStartedPlanStep {
  sps_plan : PlanSnapshot;
  sps_step : PlanStepRecord;
  sps_step_run : PlanStepRunRecord;
  sps_dependency_results : list PlanStepResultDocument;
}.

(** The verified dependency of a revised version and its predecessor. *)
Record DependencyReuseProof : Type := MkDependencyReuseProof {
  drp_new_step : PlanStepRecord;
  drp_reused_run : PlanStepRunRecord;
  drp_source_step : PlanStepRecord;
  drp_source_run : PlanStepRunRecord;
  drp_source_result : PlanStepResultDocument;
}.

(** ** When a result may be reused *)

Section Reuse.
Context `{Env}.

(** The result is the one this attempt at this step left. *)
Definition document_of_attempt (doc : PlanStepResultDocument) (x : PlanStepRunRecord)
    (s : PlanStepRecord) (run_id : string) : bool :=
  bool_decide (doc_plan_id doc = psr_plan_id x) &&
  bool_decide (doc_plan_version doc = psr_plan_version x) &&
  bool_decide (doc_run_id doc = run_id) &&
  bool_decide (doc_step_id doc = pst_step_id s) &&
  bool_decide (doc_step_run_id doc = psr_step_run_id x) &&
  bool_decide (doc_attempt doc = psr_attempt x) &&
  bool_decide (doc_status doc = "succeeded") &&
  bool_decide (doc_definition_digest doc = pst_definition_digest s).

(** An attempt of this run at the step, which succeeded and was no reuse itself. *)
Definition original_success (x : PlanStepRunRecord) (s : PlanStepRecord) (run_id : string)
    : bool :=
  bool_decide (psr_run_id x = run_id) &&
  bool_decide (psr_step_id x = pst_step_id s) &&
  bool_decide (psr_status x = STEP_SUCCEEDED) &&
  bool_decide (psr_reused_from_step_run_id x = None).

(** The step replaces the other one and says the same. *)
Definition supersedes_unchanged (new_step source_step : PlanStepRecord) : bool :=
  bool_decide (pst_supersedes_step_id new_step = Some (pst_step_id source_step)) &&
  bool_decide (pst_definition_digest new_step = pst_definition_digest source_step).

Definition valid_dependency_proof (current_run_id expected : string)
    (p : DependencyReuseProof) : bool :=
  let source_run := drp_source_run p in
  let source_result := drp_source_result p in
  let reused_run := drp_reused_run p in
  supersedes_unchanged (drp_new_step p) (drp_source_step p) &&
  original_success source_run (drp_source_step p) current_run_id &&
  document_of_attempt source_result source_run (drp_source_step p) current_run_id &&
  bool_decide (psr_result_digest source_run = Some expected) &&
  bool_decide (psr_result_summary source_run = Some (doc_summary source_result)) &&
  bool_decide (is_Some (psr_result_ref source_run)) &&
  bool_decide (result_digest source_result = expected) &&
  bool_decide (psr_plan_id reused_run = psr_plan_id source_run) &&
  bool_decide (psr_run_id reused_run = current_run_id) &&
  bool_decide (psr_step_id reused_run = pst_step_id (drp_new_step p)) &&
  bool_decide (psr_reused_from_step_run_id reused_run = Some (psr_step_run_id source_run)) &&
  bool_decide (psr_status reused_run = STEP_SUCCEEDED) &&
  bool_decide (psr_result_ref reused_run = psr_result_ref source_run) &&
  bool_decide (psr_result_digest reused_run = Some expected) &&
  bool_decide (psr_result_summary reused_run = Some (doc_summary source_result)).

(** The digests in force now: tool catalog, policy, active skills. *)
Record Compatibility : Type := MkCompatibility {
  cmp_tool_catalog_digest : option string;
  cmp_policy_digest : option string;
  cmp_skill_set_digest : option string;
}.

(** The source of a reuse: the replaced step, its attempt and its document. *)
Definition can_reuse_result (current_run_id : string) (new_step : PlanStepRecord)
    (source_step : option PlanStepRecord) (source_run : option PlanStepRunRecord)
    (source_result : option PlanStepResultDocument) (new_dependency_ids : gset string)
    (dependency_proofs : gmap string DependencyReuseProof) (now : Compatibility) : bool :=
  match source_step, source_run, source_result, cmp_tool_catalog_digest now,
        cmp_policy_digest now, cmp_skill_set_digest now with
  | Some source_step, Some source_run, Some source_result, Some tools, Some policy,
    Some skills =>
    let digests := doc_dependency_result_digests source_result in
    original_success source_run source_step current_run_id &&
    supersedes_unchanged new_step source_step &&
    document_of_attempt source_result source_run source_step current_run_id &&
    bool_decide (psr_result_digest source_run = Some (result_digest source_result)) &&
    bool_decide (psr_result_summary source_run = Some (doc_summary source_result)) &&
    bool_decide (is_Some (psr_result_ref source_run)) &&
    bool_decide (doc_tool_catalog_digest source_result = tools) &&
    bool_decide (doc_policy_digest source_result = policy) &&
    bool_decide (doc_skill_set_digest source_result = skills) &&
    bool_decide (list_to_set (map fst digests) = (dom dependency_proofs : gset string)) &&
    bool_decide (list_to_set (map (λ p, pst_step_id (drp_new_step p))
                                (rows dependency_proofs)) = new_dependency_ids) &&
    forallb (λ '(key, p),
      match (list_to_map digests : gmap string string) !! key with
      | None => false
      | Some expected => valid_dependency_proof current_run_id expected p
      end) (map_to_list dependency_proofs)
  | _, _, _, _, _, _ => false
  end.
End Reuse.

(** ** The next step *)

Definition choose_ready_step (v : PlanVersionRecord) (latest : gmap string PlanStepRunRecord)
    : option PlanStepRecord :=
  List.find (λ s, is_plan_step_ready (pst_step_id s)
                    (default [] (pvr_dependencies v !! pst_step_id s)) latest)
    (in_order (pvr_steps v)).

Definition step_succeeded (latest : gmap string PlanStepRunRecord) (s : PlanStepRecord)
    : bool :=
  match latest !! pst_step_id s with
  | Some x => bool_decide (psr_status x = STEP_SUCCEEDED)
  | None => false
  end.

Definition all_steps_succeeded (plan : PlanSnapshot) (latest : gmap string PlanStepRunRecord)
    : bool :=
  forallb (step_succeeded latest) (pvr_steps (ps_current plan)).

Section Execution.
Context `{Env}.
Context (planning : PlanningSettings) (settings : Settings).

(** The coordinator on the connection of a unit of work. *)
Definition connected : WorkflowCoordinator := scoped (own_coordinator settings).

(** [str(context.run_id)]. *)
Definition run_text (c : TenantContext) : string := default "None" (tc_run_id c).

Definition require_run_context (c : TenantContext) : M unit :=
  require (bool_decide (is_Some (tc_session_id c)) && bool_decide (is_Some (tc_run_id c)))
    (ValueError "Plan execution requires session and run scope").

Definition require_lease_context (c : TenantContext) (lease : RunLease) : M unit :=
  require (bool_decide (rl_context lease = c)) (StaleFenceError "run lease scope is stale").

(** ** Reading the run and its Plan *)

Definition load_run (c : TenantContext) : M RunRecord :=
  run ← get_run c;
  or_raise (PlanExecutionBlocked "Plan execution run is unavailable") run.

Definition load_active_plan (c : TenantContext) : M PlanSnapshot :=
  run ← load_run c;
  plan_id ← or_raise (PlanExecutionBlocked "Plan execution has no active Plan")
              (rr_plan_id run);
  plan ← get_plan c plan_id;
  or_raise (PlanExecutionBlocked "Plan execution Plan is unavailable") plan.

Definition requires_approved : exn :=
  PlanExecutionBlocked "Plan execution requires an approved current active version".

Definition require_executable_run (run : RunRecord) : M unit :=
  require (is_plan_run_executable (rr_status run) (rr_cancel_requested_at run))
    (PlanExecutionBlocked "Plan execution run is not executable").

Definition load_executable_plan (c : TenantContext) : M PlanSnapshot :=
  run ← get_run c;
  run ← or_raise requires_approved run;
  require_executable_run run ;;
  plan_id ← or_raise requires_approved (rr_plan_id run);
  plan ← get_plan c plan_id;
  plan ← or_raise requires_approved plan;
  require (bool_decide (ps_status plan = PLAN_APPROVED) &&
           bool_decide (ps_approved_version plan = Some (ps_current_version plan)) &&
           bool_decide (rr_active_plan_version run = Some (ps_current_version plan)))
    requires_approved ;;
  mret plan.

(** ** Proving what has succeeded *)

Definition inconsistent_lineage : exn :=
  PlanExecutionBlocked "Plan reused result lineage is inconsistent".

(** The attempt and the step whose document an attempt refers to. *)
Definition document_source (c : TenantContext) (plan : PlanSnapshot) (s : PlanStepRecord)
    (x : PlanStepRunRecord) : M (PlanStepRunRecord * PlanStepRecord) :=
  match psr_reused_from_step_run_id x with
  | None => mret (x, s)
  | Some source_id =>
    source ← read_step_run c (run_text c) source_id;
    source ← or_raise inconsistent_lineage source;
    require (bool_decide (psr_reused_from_step_run_id source = None) &&
             bool_decide (psr_plan_id source = ps_plan_id plan) &&
             bool_decide (psr_run_id source = run_text c) &&
             bool_decide (psr_status source = STEP_SUCCEEDED) &&
             bool_decide (psr_result_ref source = psr_result_ref x) &&
             bool_decide (psr_result_digest source = psr_result_digest x) &&
             bool_decide (psr_result_summary source = psr_result_summary x))
      inconsistent_lineage ;;
    source_step ← or_raise inconsistent_lineage
      (v ← version_numbered (psr_plan_version source) (ps_versions plan);
       step_numbered (psr_step_id source) (pvr_steps v));
    require (supersedes_unchanged s source_step) inconsistent_lineage ;;
    mret (source, source_step)
  end.

(** The stored document of an attempt. *)
Definition read_document (c : TenantContext) (plan_id : string) (entry_id : string)
    (source : PlanStepRunRecord) : M PlanStepResultDocument :=
  entry ← memory_get c entry_id (tc_session_id c);
  entry ← or_raise (PlanExecutionBlocked "Plan result document is unavailable") entry;
  require (is_result_entry plan_id (psr_step_run_id source) entry)
    (PlanExecutionBlocked "Plan result document is unavailable") ;;
  require (Z.leb (Z.of_nat (String.length (me_content entry))) MAX_PLAN_STEP_RESULT_BYTES)
    (PlanExecutionBlocked "Plan result document exceeds 262144 bytes") ;;
  or_raise (PlanExecutionBlocked "Plan result document is invalid")
    (model_validate_json (me_content entry)).

Definition inconsistent_proof : exn :=
  PlanExecutionBlocked "Plan dependency result proof is inconsistent".

(** The digests a step's document has to name, by the keys of its dependencies. *)
Fixpoint expected_dependency_digests (by_id : gmap string PlanStepRecord)
    (latest : gmap string PlanStepRunRecord) (x : PlanStepRunRecord) (ids : list string)
    (acc : gmap string string) : result exn (gmap string string) :=
  match ids with
  | [] => Ok acc
  | i :: ids =>
    match latest !! i, by_id !! i with
    | Some dep, found =>
      match psr_result_digest dep, found with
      | None, _ => Err inconsistent_proof
      | Some _, None => Err KeyError
      | Some digest, Some s =>
        _ ← ensure (negb (bool_decide (is_Some (psr_reused_from_step_run_id x)) &&
                          bool_decide (psr_reused_from_step_run_id dep = None)))
              (PlanExecutionBlocked "Plan reused dependency lineage is inconsistent");
        expected_dependency_digests by_id latest x ids
          (<[pst_logical_step_key s := digest]> acc)
      end
    | None, _ => Err KeyError
    end
  end.

(** One succeeded step. *)
Definition load_succeeded_result (c : TenantContext) (plan : PlanSnapshot)
    (latest : gmap string PlanStepRunRecord) (documents : gmap string PlanStepResultDocument)
    (s : PlanStepRecord) (x : PlanStepRunRecord) : M PlanStepResultDocument :=
  let incomplete := PlanExecutionBlocked "Plan succeeded step result is incomplete" in
  ref ← or_raise incomplete (psr_result_ref x);
  digest ← or_raise incomplete (psr_result_digest x);
  summary ← or_raise incomplete (psr_result_summary x);
  entry_id ← or_raise
    (PlanExecutionBlocked "Plan succeeded step result reference is invalid") (RESULT_REF ref);
  '(source, source_step) ← document_source c plan s x;
  doc ← read_document c (ps_plan_id plan) entry_id source;
  require (bool_decide (doc_plan_id doc = ps_plan_id plan) &&
           bool_decide (doc_plan_version doc = psr_plan_version source) &&
           bool_decide (Some (doc_run_id doc) = tc_run_id c) &&
           bool_decide (doc_step_id doc = pst_step_id source_step) &&
           bool_decide (doc_step_run_id doc = psr_step_run_id source) &&
           bool_decide (doc_attempt doc = psr_attempt source) &&
           bool_decide (doc_status doc = "succeeded") &&
           bool_decide (doc_definition_digest doc = pst_definition_digest source_step) &&
           bool_decide (result_digest doc = digest) &&
           bool_decide (doc_summary doc = summary))
    (PlanExecutionBlocked "Plan result document is inconsistent") ;;
  let ids := default [] (pvr_dependencies (ps_current plan) !! pst_step_id s) in
  require (forallb (λ i, bool_decide (is_Some (documents !! i))) ids) inconsistent_proof ;;
  expected ← lift (expected_dependency_digests (steps_by_id (pvr_steps (ps_current plan)))
                     latest x ids ∅);
  require (bool_decide (list_to_map (doc_dependency_result_digests doc) = expected))
    inconsistent_proof ;;
  mret doc.

Fixpoint load_results_loop (c : TenantContext) (plan : PlanSnapshot)
    (latest : gmap string PlanStepRunRecord) (todo : list PlanStepRecord)
    (documents : gmap string PlanStepResultDocument)
    : M (gmap string PlanStepResultDocument) :=
  match todo with
  | [] => mret documents
  | s :: todo =>
    match latest !! pst_step_id s with
    | None => load_results_loop c plan latest todo documents
    | Some x =>
      if negb (bool_decide (psr_status x = STEP_SUCCEEDED)) then
        load_results_loop c plan latest todo documents
      else
        doc ← load_succeeded_result c plan latest documents s x;
        load_results_loop c plan latest todo (<[pst_step_id s := doc]> documents)
    end
  end.

Definition load_succeeded_results (c : TenantContext) (plan : PlanSnapshot)
    (latest : gmap string PlanStepRunRecord) : M (gmap string PlanStepResultDocument) :=
  let by_id := steps_by_id (pvr_steps (ps_current plan)) in
  require (forallb (λ '(i, x), negb (bool_decide (psr_status x = STEP_SUCCEEDED)) ||
                               bool_decide (is_Some (by_id !! i))) (map_to_list latest))
    (PlanExecutionBlocked "Plan succeeded step result is inconsistent") ;;
  load_results_loop c plan latest (in_order (pvr_steps (ps_current plan))) ∅.

(** [tuple(results[i] for i in ids)]. *)
Definition results_named (documents : gmap string PlanStepResultDocument) (ids : list string)
    : result exn (list PlanStepResultDocument) :=
  mapM (λ i, match documents !! i with Some x => Ok x | None => Err KeyError end) ids.

(** ** Selecting and starting *)

Definition latest_attempts (c : TenantContext) (plan : PlanSnapshot)
    : M (gmap string PlanStepRunRecord) :=
  latest_step_attempts c (ps_plan_id plan) (ps_current_version plan) (run_text c).

(** [_select_next]. *)
Definition select_next_step (c : TenantContext) : M (option ReadyPlanStep) :=
  plan ← load_executable_plan c;
  latest ← latest_attempts c plan;
  require (negb (any_latest (λ t, bool_decide (t = STEP_RUNNING)) latest)) already_running ;;
  require (negb (any_latest (λ t, bool_decide (t ∈ TERMINAL_PLAN_STEP_STATUSES)) latest))
    (PlanExecutionBlocked
       "Plan execution is blocked by a failed dependency or terminal step") ;;
  verified ← load_succeeded_results c plan latest;
  match choose_ready_step (ps_current plan) latest with
  | None =>
    require (all_steps_succeeded plan latest)
      (PlanExecutionBlocked "Plan execution is blocked by a failed dependency") ;;
    mret None
  | Some s =>
    results ← lift (results_named verified
      (default [] (pvr_dependencies (ps_current plan) !! pst_step_id s)));
    prior ← step_attempts c (ps_plan_id plan) (ps_current_version plan) (run_text c)
              (pst_step_id s);
    mret (Some {| rps_plan := plan; rps_step := s; rps_prior_attempts := prior;
                  rps_dependency_results := results |})
  end.

Definition select_next (c : TenantContext) (lease : option RunLease)
    : M (option ReadyPlanStep) :=
  require_run_context c ;;
  match lease with
  | None => select_next_step c
  | Some lease =>
    require_lease_context c lease ;;
    current ← plans_has_current_lease c lease;
    require current (StaleFenceError "run lease is stale") ;;
    select_next_step c
  end.

(** The checkpoint of a step boundary. *)
Definition step_ready_dict (c : TenantContext) (plan : PlanSnapshot) (step_id : string)
    (x : PlanStepRunRecord) (cursor : string) : list (string * json) :=
  [("run_id", opt_str (tc_run_id c)); ("plan_id", JStr (ps_plan_id plan));
   ("plan_version", JInt (ps_current_version plan));
   ("plan_digest", JStr (pvr_content_digest (ps_current plan)));
   ("step_id", JStr step_id); ("step_run_id", JStr (psr_step_run_id x));
   ("attempt", JInt (psr_attempt x)); ("execution_cursor", JStr cursor);
   ("cursor", JStr cursor)].

Definition step_checkpoint (c : TenantContext) (lease : RunLease) (plan : PlanSnapshot)
    (step_id : string) (x : PlanStepRunRecord) (cursor : string) : M CheckpointWrite :=
  checkpoint connected lease (inl PLAN_STEP_READY)
    (inr (step_ready_dict c plan step_id x cursor)) (at_seq None).

Definition start_ready_step (c : TenantContext) (lease : RunLease)
    : M (option StartedPlanStep) :=
  lock_run_for_execution c lease ;;
  ready ← select_next_step c;
  match ready with
  | None => mret None
  | Some r =>
    let plan := rps_plan r in
    let s := rps_step r in
    x ← create_step_attempt c planning lease (ps_plan_id plan) (ps_current_version plan)
          (pst_step_id s);
    step_checkpoint c lease plan (pst_step_id s) x "dispatch_step" ;;
    mret (Some {| sps_plan := plan; sps_step := s; sps_step_run := x;
                  sps_dependency_results := rps_dependency_results r |})
  end.

Definition start_next_attempt (c : TenantContext) (lease : RunLease)
    : M (option StartedPlanStep) :=
  require_run_context c ;;
  require_lease_context c lease ;;
  unit_of_work (on_connection (start_ready_step c lease)).

(** ** Reuse across versions *)

(** [_reuse_document]: the document of a succeeded attempt, or nothing. *)
Definition reuse_document (c : TenantContext) (x : option PlanStepRunRecord)
    (s : PlanStepRecord) : M (option PlanStepResultDocument) :=
  match x with
  | None => mret None
  | Some x =>
    match psr_result_ref x, psr_result_digest x, psr_result_summary x with
    | Some ref, Some digest, Some summary =>
      if negb (bool_decide (psr_status x = STEP_SUCCEEDED)) then mret None else
      match RESULT_REF ref with
      | None => mret None
      | Some entry_id =>
        entry ← memory_get c entry_id (tc_session_id c);
        mret (e ← entry;
              doc ← (if is_result_entry (psr_plan_id x) (psr_step_run_id x) e &&
                        Z.leb (Z.of_nat (String.length (me_content e)))
                          MAX_PLAN_STEP_RESULT_BYTES
                     then model_validate_json (me_content e) else None);
              if bool_decide (doc_plan_id doc = psr_plan_id x) &&
                 bool_decide (doc_plan_version doc = psr_plan_version x) &&
                 bool_decide (doc_run_id doc = psr_run_id x) &&
                 bool_decide (doc_step_id doc = psr_step_id x) &&
                 bool_decide (doc_step_run_id doc = psr_step_run_id x) &&
                 bool_decide (doc_attempt doc = psr_attempt x) &&
                 bool_decide (doc_status doc = "succeeded") &&
                 bool_decide (doc_definition_digest doc = pst_definition_digest s) &&
                 bool_decide (result_digest doc = digest) &&
                 bool_decide (doc_summary doc = summary)
              then Some doc else None)
      end
    | _, _, _ => mret None
    end
  end.

(** The steps of every version, by identifier. *)
Definition steps_of_versions (l : list PlanVersionRecord)
    : gmap string (PlanVersionRecord * PlanStepRecord) :=
  foldl (λ m v, foldl (λ m s, <[pst_step_id s := (v, s)]> m) m (pvr_steps v)) ∅ l.

(** The proof that one dependency of the revised step was reused; [None] when there is
    none. *)
Definition dependency_proof (c : TenantContext) (plan : PlanSnapshot)
    (all_steps : gmap string (PlanVersionRecord * PlanStepRecord))
    (current_latest : gmap string PlanStepRunRecord) (dependency_id : string)
    : M (option (string * DependencyReuseProof)) :=
  match (x ← current_latest !! dependency_id;
         i ← psr_reused_from_step_run_id x; Some (x, i)) with
  | None => mret None
  | Some (reused_run, source_id) =>
    source ← read_step_run c (run_text c) source_id;
    match (x ← source; vs ← all_steps !! psr_step_id x; Some (x, vs.2)) with
    | None => mret None
    | Some (source_run, source_step) =>
      doc ← reuse_document c (Some source_run) source_step;
      match doc with
      | None => mret None
      | Some doc =>
        new_step ← or_raise (RuntimeError "coroutine raised StopIteration")
                     (step_numbered dependency_id (pvr_steps (ps_current plan)));
        mret (Some (pst_logical_step_key new_step,
          {| drp_new_step := new_step; drp_reused_run := reused_run;
             drp_source_step := source_step; drp_source_run := source_run;
             drp_source_result := doc |}))
      end
    end
  end.

(** The proofs of all dependencies; the first one that has none ends the search. *)
Fixpoint dependency_proofs (c : TenantContext) (plan : PlanSnapshot)
    (all_steps : gmap string (PlanVersionRecord * PlanStepRecord))
    (current_latest : gmap string PlanStepRunRecord) (ids : list string)
    (proofs : gmap string DependencyReuseProof)
    : M (option (gmap string DependencyReuseProof)) :=
  match ids with
  | [] => mret (Some proofs)
  | i :: ids =>
    found ← dependency_proof c plan all_steps current_latest i;
    match found with
    | None => mret None
    | Some (key, p) =>
      dependency_proofs c plan all_steps current_latest ids (<[key := p]> proofs)
    end
  end.

(** One step of the revised version: the attempt that reuses a result, when it may. *)
Definition reuse_step (c : TenantContext) (lease : RunLease) (plan : PlanSnapshot)
    (now : Compatibility) (all_steps : gmap string (PlanVersionRecord * PlanStepRecord))
    (current_latest : gmap string PlanStepRunRecord) (s : PlanStepRecord)
    : M (option PlanStepRunRecord) :=
  match current_latest !! pst_step_id s,
        (i ← pst_supersedes_step_id s; all_steps !! i) with
  | None, Some (source_version, source_step) =>
    source_latest ← latest_step_attempts c (ps_plan_id plan)
                      (pvr_plan_version source_version) (run_text c);
    let source_run := source_latest !! pst_step_id source_step in
    source_result ← reuse_document c source_run source_step;
    match source_run, source_result with
    | Some source_run, Some source_result =>
      let ids := remove_dups
                   (default [] (pvr_dependencies (ps_current plan) !! pst_step_id s)) in
      proofs ← dependency_proofs c plan all_steps current_latest ids ∅;
      match proofs with
      | Some proofs =>
        if can_reuse_result (run_text c) s (Some source_step) (Some source_run)
             (Some source_result) (list_to_set ids) proofs now
        then
          x ← create_reused_step_attempt c planning lease (ps_plan_id plan)
                (ps_current_version plan) (pst_step_id s) (psr_step_run_id source_run);
          mret (Some x)
        else mret None
      | None => mret None
      end
    | _, _ => mret None
    end
  | _, _ => mret None
  end.

Fixpoint reuse_steps (c : TenantContext) (lease : RunLease) (plan : PlanSnapshot)
    (now : Compatibility) (all_steps : gmap string (PlanVersionRecord * PlanStepRecord))
    (todo : list PlanStepRecord) (current_latest : gmap string PlanStepRunRecord)
    (created : list PlanStepRunRecord) : M (list PlanStepRunRecord) :=
  match todo with
  | [] => mret created
  | s :: todo =>
    reused ← reuse_step c lease plan now all_steps current_latest s;
    match reused with
    | None => reuse_steps c lease plan now all_steps todo current_latest created
    | Some x =>
      reuse_steps c lease plan now all_steps todo (<[pst_step_id s := x]> current_latest)
        (created ++ [x])
    end
  end.

(** What an agent offers: the schemas of its tools, its active skills; and the governance
    settings. *)
Definition compatibility (schemas governance : json) (skills : list string)
    : Compatibility := {|
  cmp_tool_catalog_digest := Some (canonical_digest schemas);
  cmp_policy_digest := Some (canonical_digest governance);
  cmp_skill_set_digest :=
    Some (canonical_digest (JArr (map JStr (sort_by String.leb skills))));
|}.

Definition reuse_in_order (c : TenantContext) (lease : RunLease) (now : Compatibility)
    : M (list PlanStepRunRecord) :=
  lock_run_for_execution c lease ;;
  plan ← load_executable_plan c;
  current_latest ← latest_attempts c plan;
  reuse_steps c lease plan now (steps_of_versions (ps_versions plan))
    (in_order (pvr_steps (ps_current plan))) current_latest [].

Definition apply_compatible_reuse (c : TenantContext) (lease : RunLease)
    (now : Compatibility) : M (list PlanStepRunRecord) :=
  unit_of_work (on_connection (reuse_in_order c lease now)).

(** ** Finishing an attempt *)

Record PlanStepCompletion : Type := MkPlanStepCompletion {
  psc_status : string;
  psc_summary : string;
  psc_evidence : list string;
  psc_retryable : bool;
}.

Record PlanStepExecutionRequest : Type := MkPlanStepExecutionRequest {
  xrq_context : TenantContext;
  xrq_lease : RunLease;
  xrq_plan : PlanSnapshot;
  xrq_step : PlanStepRecord;
  xrq_step_run : PlanStepRunRecord;
  xrq_dependency_results : list PlanStepResultDocument;
}.

(** [d[k] = v] on a dict of strings. *)
Fixpoint set_key (k v : string) (l : list (string * string)) : list (string * string) :=
  match l with
  | [] => [(k, v)]
  | (k', v') :: l => if String.eqb k k' then (k, v) :: l else (k', v') :: set_key k v l
  end.

(** The digests of the results a step was given, by the keys of the steps of the current
    version that left them. *)
Fixpoint dependency_digests (by_id : gmap string PlanStepRecord)
    (l : list PlanStepResultDocument) (acc : list (string * string))
    : result exn (list (string * string)) :=
  match l with
  | [] => Ok acc
  | doc :: l =>
    match by_id !! doc_step_id doc with
    | None => Err KeyError
    | Some s =>
      dependency_digests by_id l (set_key (pst_logical_step_key s) (result_digest doc) acc)
    end
  end.

(** [_build_result_document]. *)
Definition build_result_document (rq : PlanStepExecutionRequest) (done : PlanStepCompletion)
    (schemas governance : json) (skills : list string)
    : result exn PlanStepResultDocument :=
  digests ← dependency_digests (steps_by_id (pvr_steps (ps_current (xrq_plan rq))))
              (xrq_dependency_results rq) [];
  make_document {|
    doc_schema_version := 1;
    doc_plan_id := ps_plan_id (xrq_plan rq);
    doc_plan_version := ps_current_version (xrq_plan rq);
    doc_run_id := run_text (xrq_context rq);
    doc_step_id := pst_step_id (xrq_step rq);
    doc_step_run_id := psr_step_run_id (xrq_step_run rq);
    doc_attempt := psr_attempt (xrq_step_run rq);
    doc_status := psc_status done;
    doc_summary := redact_string (psc_summary done);
    doc_evidence := map redact_string (psc_evidence done);
    doc_definition_digest := pst_definition_digest (xrq_step rq);
    doc_dependency_result_digests := digests;
    doc_tool_catalog_digest := canonical_digest schemas;
    doc_policy_digest := canonical_digest governance;
    doc_skill_set_digest := canonical_digest (JArr (map JStr (sort_by String.leb skills)));
  |}.

(** How an attempt ends: a failure may be retried while the step has attempts left. *)
Definition target_status (done : PlanStepCompletion) (started : StartedPlanStep)
    : PlanStepRunStatus :=
  if bool_decide (psc_status done = "succeeded") then STEP_SUCCEEDED
  else if psc_retryable done &&
          Z.ltb (psr_attempt (sps_step_run started))
            (Z.min (pst_max_attempts (sps_step started)) (pls_max_step_attempts planning))
  then STEP_FAILED_RETRYABLE else STEP_FAILED_TERMINAL.

Definition finish_attempt (c : TenantContext) (lease : RunLease) (started : StartedPlanStep)
    (target : PlanStepRunStatus) (doc : PlanStepResultDocument) : M unit :=
  lock_run_for_execution c lease ;;
  ref ← persist_plan_step_result c doc;
  let failed (text : string) :=
    if bool_decide (target = STEP_SUCCEEDED) then None else Some (redact_string text) in
  finished ← finish_step_attempt c lease (psr_step_run_id (sps_step_run started))
               (psr_version (sps_step_run started)) target doc ref
               (failed "plan_step_failed") (failed (doc_summary doc));
  step_checkpoint c lease (sps_plan started) (pst_step_id (sps_step started)) finished
    "select_next" ;;
  mret tt.

Definition finalize_step_attempt (c : TenantContext) (lease : RunLease)
    (started : StartedPlanStep) (target : PlanStepRunStatus) (doc : PlanStepResultDocument)
    : M unit :=
  unit_of_work (on_connection (finish_attempt c lease started target doc)).

(** ** Going on with an attempt that was interrupted *)

Definition inconsistent_running : exn :=
  PlanExecutionBlocked "Plan recovery running step attempt is inconsistent".

Definition interrupted_attempt (c : TenantContext) (lease : RunLease) : M StartedPlanStep :=
  lock_run_for_execution c lease ;;
  plan ← load_executable_plan c;
  running ← read_running_step_attempts c (run_text c);
  match running with
  | [x] =>
    s ← or_raise inconsistent_running
          (steps_by_id (pvr_steps (ps_current plan)) !! psr_step_id x);
    require (bool_decide (psr_plan_id x = ps_plan_id plan) &&
             bool_decide (psr_plan_version x = ps_current_version plan) &&
             bool_decide (Some (psr_run_id x) = tc_run_id c)) inconsistent_running ;;
    latest ← latest_attempts c plan;
    require (match latest !! psr_step_id x with
             | Some y => bool_decide (psr_step_run_id y = psr_step_run_id x) &&
                         bool_decide (psr_status y = STEP_RUNNING)
             | None => false
             end &&
             negb (any_latest (λ t, bool_decide (t ∈ TERMINAL_PLAN_STEP_STATUSES)) latest))
      inconsistent_running ;;
    verified ← load_succeeded_results c plan latest;
    let ids := default [] (pvr_dependencies (ps_current plan) !! psr_step_id x) in
    require (forallb (λ i, bool_decide (is_Some (verified !! i))) ids)
      (PlanExecutionBlocked "Plan recovery dependency result proof is inconsistent") ;;
    results ← lift (results_named verified ids);
    mret {| sps_plan := plan; sps_step := s; sps_step_run := x;
            sps_dependency_results := results |}
  | _ =>
    throw (PlanExecutionBlocked "Plan recovery requires exactly one running step attempt")
  end.

Definition resume_running_attempt (c : TenantContext) (lease : RunLease)
    : M StartedPlanStep :=
  require_run_context c ;;
  require_lease_context c lease ;;
  unit_of_work (on_connection (interrupted_attempt c lease)).

(** ** What a revision after a failure is asked with *)

Definition step_attempt (c : TenantContext) (step_run_id : string) : M PlanStepRunRecord :=
  x ← read_step_run c (run_text c) step_run_id;
  or_raise (PlanExecutionBlocked "Plan failed step attempt is unavailable") x.

Definition completed_context (verified : gmap string PlanStepResultDocument)
    (s : PlanStepRecord) : option (result exn CompletedStepContext) :=
  doc ← verified !! pst_step_id s;
  let ctx := {| csc_logical_step_key := pst_logical_step_key s;
                csc_summary := redact_string (doc_summary doc);
                csc_result_digest := result_digest doc |} in
  Some (if CompletedStepContext_ok ctx then Ok ctx else Err ValidationError).

Definition revision_facts (c : TenantContext) (lease : RunLease) (plan : PlanSnapshot)
    (failed_step : PlanStepRecord) (failed : PlanStepRunRecord)
    : M (PlanSnapshot * list CompletedStepContext) :=
  let changed := PlanExecutionBlocked "Plan revision context changed" in
  lock_run_for_execution c lease ;;
  current ← get_plan c (ps_plan_id plan);
  current ← or_raise changed current;
  require (bool_decide (ps_current_version current = ps_current_version plan) &&
           bool_decide (ps_aggregate_version current = ps_aggregate_version plan)) changed ;;
  require (bool_decide (psr_plan_id failed = ps_plan_id current) &&
           bool_decide (psr_plan_version failed = ps_current_version current) &&
           bool_decide (psr_run_id failed = run_text c) &&
           match steps_by_id (pvr_steps (ps_current current)) !! psr_step_id failed with
           | Some s => bool_decide (pst_step_id s = pst_step_id failed_step)
           | None => false
           end &&
           bool_decide (psr_status failed = STEP_FAILED_TERMINAL))
    (PlanExecutionBlocked "Plan revision failure is inconsistent") ;;
  latest ← latest_attempts c current;
  verified ← load_succeeded_results c current latest;
  completed ← lift (mapM id (omap (completed_context verified)
                               (in_order (pvr_steps (ps_current current)))));
  mret (current, completed).

Definition revision_context (c : TenantContext) (lease : RunLease) (plan : PlanSnapshot)
    (failed_step : PlanStepRecord) (failed : PlanStepRunRecord) (failure_digest : string)
    : M PlanRevisionContext :=
  '(current, completed) ←
    unit_of_work (on_connection (revision_facts c lease plan failed_step failed));
  current_plan ← lift (revision_current_plan_context (ps_current current));
  lift (make_revision_context
    {| prc_plan_id := ps_plan_id plan; prc_parent_version := ps_current_version plan;
       prc_feedback := None;
       prc_failed_step_key := Some (pst_logical_step_key failed_step);
       prc_failed_error := Some ("failure_digest:" +:+ failure_digest);
       prc_completed := completed;
       prc_current_plan := Some current_plan |}).
End Execution.
