(* ===== verification/PlanLoop.v ===== *)
(** * Executing a Plan: the loop ([planner/execution.py] 520-1160;
    [planner/models.py] 661-720)

    A run executes its Plan from boundary to boundary: it stops when every step has
    succeeded, when the user has to decide, when a step has failed for good, or when the
    run is cancelled.  The lease is held in a handle that every step of the loop may
    replace.  The state of an execution is the database, the handle and the events that
    were published.

    The agent that does the work of a step, the model that writes the final summary and
    the agent's catalog of tools and skills are the [PlanStepRunner] of the source: an
    argument. *)

From S2P Require Import Prelude Records Errors Json Regex Redaction Tenancy.
From S2P Require Import WorkflowModels.
From S2P Require Import Storage Collections PlanStorage Checkpoint Events PlanValidation.
From S2P Require Import PlanSpec PlanRecords PlanReading WorkflowRepository.
From S2P Require Import PlanRepository.
From S2P Require Import PlanDecisions PlanAttempts MemoryRepository PlanResults.
From S2P Require Import WorkflowCoordinator Recovery PlanGenerator PlanService.
From S2P Require Import Continuation.
From S2P Require Import PlanExecution.
From stdpp Require Import base gmap strings list.

Local Notation scoped := WorkflowCoordinator.scoped.

(** ** Outcomes *)

Inductive ExecutionState : Type :=
| OUTCOME_AWAITING_USER | OUTCOME_COMPLETED | OUTCOME_CANCELLED | OUTCOME_FAILED_TERMINAL
| OUTCOME_REPLAN_REQUIRED.

#[export] Instance ExecutionState_eq_dec : EqDecision ExecutionState.
Proof. solve_decision. Defined.

Record PlanExecutionOutcome : Type := MkPlanExecutionOutcome {
  peo_state : ExecutionState;
  peo_plan : PlanSnapshot;
  peo_run : RunRecord;
  peo_assistant_content : option string;
}.

(** The agent: its catalog, the model that summarizes, and the work of one step, which
    gives a completion or stops at a boundary. *)
Record PlanStepRunner : Type := MkPlanStepRunner {
  pru_schemas : json;
  pru_active_skills : list string;
  pru_default_model : string;
  pru_completion : string → list message → result exn string;
  pru_run_plan_step : PlanStepExecutionRequest → option (PersistedToolResult * string) →
                      XM (PlanStepCompletion + ContinuationOutcome);
}.

Section Loop.
Context `{Env}.
Context (planning : PlanningSettings) (settings : Settings) (governance : json).
(** [PlanningService], when there is one, with its generator. *)
Context (planning_service :
           option (option (option PlanGenerator.router * error_reporter * string * string))).
Context (has_event_router : bool).

Local Notation own := (own_coordinator settings).
Local Notation connected := (connected settings).

Definition raise_if_cancelled (c : TenantContext) : M unit := raise_if_cancel_requested own c.

Definition outcome (state : ExecutionState) (plan : PlanSnapshot) (run : RunRecord)
    (content : option string) : PlanExecutionOutcome :=
  {| peo_state := state; peo_plan := plan; peo_run := run; peo_assistant_content := content |}.

(** ** The final summary *)

Definition summary_of (latest : gmap string PlanStepRunRecord) (s : PlanStepRecord) : json :=
  JObj [("logical_step_key", JStr (pst_logical_step_key s));
        ("summary", JStr (default "" (x ← latest !! pst_step_id s; psr_result_summary x)))].

Definition summary_facts (c : TenantContext) (lease : RunLease)
    : M (PlanSnapshot * list json) :=
  lock_run_for_execution c lease ;;
  plan ← load_executable_plan c;
  latest ← latest_attempts c plan;
  require (all_steps_succeeded plan latest)
    (PlanExecutionBlocked "final-summary requires completed Plan steps") ;;
  let ordered := in_order (pvr_steps (ps_current plan)) in
  s ← or_raise IndexError (last ordered);
  x ← or_raise KeyError (latest !! pst_step_id s);
  step_checkpoint settings c lease plan (psr_step_id x) x "final_summary" ;;
  mret (plan, map (summary_of latest) ordered).

Definition prepare_final_summary (c : TenantContext) (lease : RunLease)
    : M (PlanSnapshot * list json) :=
  unit_of_work (on_connection (summary_facts c lease)).

Definition SUMMARY_PROMPT : string :=
  "Write a concise final summary of the completed Plan. Do not call tools and do not add facts beyond the objective and persisted step summaries.".

Definition summary_messages (plan : PlanSnapshot) (summaries : list json) : list message :=
  [MkMessage "system" SUMMARY_PROMPT;
   MkMessage "user"
     (print_json (JObj [("objective", JStr (pvr_objective (ps_current plan)));
                        ("step_summaries", JArr summaries)]))].

(** The round is reserved before the model is asked. *)
Definition write_summary (c : TenantContext) (runner : PlanStepRunner) (plan : PlanSnapshot)
    (summaries : list json) : M string :=
  _ ← unit_of_work (on_connection (
        reserve_round_unit c (run_text c) (ps_plan_id plan) "final_summary"
          (total_budget planning own) None));
  response ← lift (pru_completion runner (pru_default_model runner)
                     (summary_messages plan summaries));
  let content := py_strip (redact_string response) in
  require (negb (String.eqb content "")) (PlanExecutionBlocked "final summary is empty") ;;
  mret content.

(** The message, the end of the run and its last checkpoint, in one transaction. *)
Definition persist_summary (c : TenantContext) (content : string) (lease : RunLease)
    : M (PlanSnapshot * RunLease) :=
  lock_run_for_execution c lease ;;
  plan ← load_executable_plan c;
  latest ← latest_attempts c plan;
  require (all_steps_succeeded plan latest)
    (PlanExecutionBlocked "final-summary Plan changed before persistence") ;;
  newest ← recent c 1 (Some "chat_message");
  let turn_index := match newest with e :: _ => (me_turn_index e + 1)%Z | [] => 1%Z end in
  e ← new_entry content "chat_message" (tc_session_id c) "assistant" turn_index
        [("kind", JStr "plan_final_summary"); ("plan_id", JStr (ps_plan_id plan));
         ("run_id", JStr (run_text c))];
  save c e ;;
  terminal ← finish_run_with_checkpoint connected lease RUN_COMPLETED;
  mret (plan, terminal).

Definition resume_if_resuming (c : TenantContext) : XM unit :=
  run ← on_world (load_run c);
  if bool_decide (rr_status run = RUN_RESUMING)
  then refresh (λ lease, co_transition_run own lease RUN_RUNNING) ;; mret tt
  else mret tt.

Definition complete_final_summary (c : TenantContext) (runner : PlanStepRunner)
    : XM PlanExecutionOutcome :=
  resume_if_resuming c ;;
  lease ← current;
  '(plan, summaries) ← on_world (prepare_final_summary c lease);
  written ← catch
    (content ← on_world (write_summary c runner plan summaries); mret (Some content))
    (λ e, match e with
          | PlanCancellationRequested => throw PlanCancellationRequested
          | _ => mret None
          end);
  match written with
  | None =>
    refresh (λ lease, co_transition_run own lease RUN_AWAITING_USER) ;;
    run ← on_world (load_run c);
    mret (outcome OUTCOME_AWAITING_USER plan run None)
  | Some content =>
    lease ← current;
    '(plan, terminal) ← on_world (unit_of_work (on_connection (persist_summary c content lease)));
    replace terminal ;;
    run ← on_world (load_run c);
    mret (outcome OUTCOME_COMPLETED plan run (Some content))
  end.

(** [payload.get(...)] of what [json.loads] gave. *)
Definition summary_cursor (payload : json) : result exn bool :=
  match payload with
  | JObj d => Ok (bool_decide (str_field "execution_cursor" d = Some "final_summary"))
  | _ => Err AttributeError
  end.

Definition waiting_summary_lease (c : TenantContext) (runtime_instance_id : string)
    : M RunLease :=
  let stale := StaleFenceError "waiting final-summary run is stale" in
  run ← get_run c;
  run ← or_raise stale run;
  require (bool_decide (rr_status run = RUN_AWAITING_USER)) stale ;;
  plan_id ← or_raise stale (rr_plan_id run);
  active ← or_raise stale (rr_active_plan_version run);
  k ← get_latest_checkpoint c;
  k ← or_raise (PlanExecutionBlocked "final-summary checkpoint is unavailable") k;
  payload ← or_raise (PlanExecutionBlocked "final-summary checkpoint is invalid")
              (json_loads (cr_payload_json k));
  waiting ← (if bool_decide (cr_phase k = enum_value PLAN_STEP_READY)
             then lift (summary_cursor payload) else mret false);
  require waiting (PlanExecutionBlocked "run is not waiting for final summary") ;;
  plan ← lock_aggregate c plan_id;
  require (bool_decide (ps_status plan = PLAN_APPROVED) &&
           bool_decide (ps_current_version plan = active) &&
           bool_decide (ps_approved_version plan = Some active))
    (PlanExecutionBlocked "final-summary Plan version is stale") ;;
  latest ← latest_attempts c plan;
  require (all_steps_succeeded plan latest)
    (PlanExecutionBlocked "final-summary requires completed Plan steps") ;;
  co_resume_waiting_plan_run connected c runtime_instance_id (ps_plan_id plan)
    (ps_current_version plan) (rr_version run).

Definition resume_waiting_summary_run (c : TenantContext) (runtime_instance_id : string)
    : M RunLease :=
  require_run_context c ;;
  unit_of_work (on_connection (waiting_summary_lease c runtime_instance_id)).

(** ** Cancellation at a boundary *)

Definition cancellation_stale : exn := StaleFenceError "cancellation run lease is stale".

(** The run when it was cancelled before, or the lease that ended it. *)
Definition cancel_leased_run (c : TenantContext) (original : RunLease)
    : M (RunRecord + RunLease) :=
  let gone := PlanExecutionBlocked "cancelled Plan run has no current lease" in
  lock_run c ;;
  run ← get_run c;
  run ← or_raise gone run;
  if bool_decide (rr_status run = RUN_CANCELLED) then mret (inl run) else
  owner ← or_raise gone (rr_lease_owner run);
  expires ← or_raise gone (rr_lease_expires_at run);
  require (bool_decide (rr_context run = c) &&
           bool_decide (owner = rl_lease_owner original) &&
           Z.eqb (rr_fencing_token run) (rl_fencing_token original) &&
           Z.eqb expires (rl_lease_expires_at original) &&
           (Z.eqb (rr_version run) (rl_version original) ||
            Z.eqb (rr_version run) (rl_version original + 1))) cancellation_stale ;;
  require (bool_decide (is_Some (rr_cancel_requested_at run)) &&
           bool_decide (rr_status run ∈ [RUN_RUNNING; RUN_RESUMING]))
    (PlanExecutionBlocked "Plan cancellation is no longer pending") ;;
  let lease := {| rl_context := c; rl_lease_owner := owner;
                  rl_fencing_token := rr_fencing_token run; rl_version := rr_version run;
                  rl_lease_expires_at := expires |} in
  held ← plans_has_current_lease c lease;
  require held cancellation_stale ;;
  running ← read_running_step_attempts c (run_text c);
  match running with
  | [] => mret tt
  | [x] => cancel_step_attempt c lease (psr_step_run_id x) (psr_version x) ;; mret tt
  | _ => throw (PlanExecutionBlocked "Plan run has multiple running step attempts")
  end ;;
  terminal ← finish_run_with_checkpoint connected lease RUN_CANCELLED;
  mret (inr terminal).

Definition run_status_event (c : TenantContext) (plan : PlanSnapshot)
    : result exn ScopedEvent :=
  r ← reference plan c;
  from_context c "plan.run_status"
    (dump_reference r ++ [("status", JStr (enum_value RUN_CANCELLED))]).

Definition cancel_at_boundary (c : TenantContext) : XM PlanExecutionOutcome :=
  original ← current;
  on_world (require_lease_context c original) ;;
  ended ← on_world (unit_of_work (on_connection (cancel_leased_run c original)));
  match ended with
  | inl run =>
    plan ← on_world (load_active_plan c);
    mret (outcome OUTCOME_CANCELLED plan run None)
  | inr terminal =>
    replace terminal ;;
    plan ← on_world (load_active_plan c);
    run ← on_world (load_run c);
    (if has_event_router then
       e ← lift (run_status_event c plan); publish_event e
     else mret tt) ;;
    mret (outcome OUTCOME_CANCELLED plan run None)
  end.

(** ** A failure for good *)

Definition fail_replan_terminal (plan : PlanSnapshot) : XM PlanExecutionOutcome :=
  lease ← current;
  terminal ← on_world (finish_run_with_checkpoint own lease RUN_FAILED_TERMINAL);
  replace terminal ;;
  run ← on_world (load_run (rl_context lease));
  mret (outcome OUTCOME_FAILED_TERMINAL plan run None).

Definition failure_facts (x : PlanStepRunRecord) : json :=
  JObj [("step_run_id", JStr (psr_step_run_id x));
        ("error_code", opt_str (psr_error_code x));
        ("error_detail_redacted", opt_str (psr_error_detail_redacted x))].

Definition replan_dict (c : TenantContext) (plan : PlanSnapshot) (x : PlanStepRunRecord)
    (failure_digest : string) : list (string * json) :=
  [("run_id", JStr (run_text c)); ("plan_id", JStr (ps_plan_id plan));
   ("plan_version", JInt (ps_current_version plan));
   ("plan_digest", JStr (pvr_content_digest (ps_current plan)));
   ("failed_step_run_id", JStr (psr_step_run_id x));
   ("failure_digest", JStr failure_digest);
   ("revision_cursor", JStr "generate_revision"); ("cursor", JStr "generate_revision")].

(** The model is asked for a version that gets past the failure; [None] for a fault. *)
Definition generate_replacement (c : TenantContext)
    (generator : option PlanGenerator.router * error_reporter * string * string)
    (plan : PlanSnapshot) (revision : PlanRevisionContext) : XM (option ValidatedPlanDraft) :=
  let '(ask, report, default_model, generation_model) := generator in
  catch
    (on_world (raise_if_cancelled c) ;;
     generated ← on_world (generate ask report default_model generation_model
                   (pvr_objective (ps_current plan)) (Some revision) (draft_limits planning)
                   (λ _, mret tt));
     on_world (raise_if_cancelled c) ;;
     mret (Some generated))
    (λ e, match e with
          | PlanCancellationRequested => throw PlanCancellationRequested
          | _ => mret None
          end).

(** The new version, or [None] when the Plan has no revision left. *)
Definition store_replacement (rq : FailureRevisionRequest)
    : XM (option FailureRevisionResult) :=
  catch (x ← on_world (materialize_failure_revision planning own rq); mret (Some x))
    (λ e, match e with PlanRevisionLimitError _ => mret None | e => throw e end).

Definition replan_terminal_failure (c : TenantContext) (plan : PlanSnapshot)
    (failed_step : PlanStepRecord) (failed_step_run_id : string)
    : XM PlanExecutionOutcome :=
  on_world (raise_if_cancelled c) ;;
  failed ← on_world (step_attempt c failed_step_run_id);
  require (bool_decide (psr_status failed = STEP_FAILED_TERMINAL))
    (PlanExecutionBlocked "Plan replan requires a terminal failed attempt") ;;
  lease ← current;
  let failure_digest := canonical_digest (failure_facts failed) in
  on_world (checkpoint own lease (inl PLAN_REPLAN_REQUIRED)
              (inr (replan_dict c plan failed failure_digest)) (at_seq None)) ;;
  match planning_service with
  | Some (Some generator) =>
    if Z.leb (pls_max_revisions planning) (ps_current_version plan - 1)
    then fail_replan_terminal plan else
    revision ← on_world (revision_context c lease plan failed_step failed failure_digest);
    generated ← generate_replacement c generator plan revision;
    match generated with
    | None => fail_replan_terminal plan
    | Some generated =>
      let draft := draft_of_validated generated in
      require (bool_decide (pst_logical_step_key failed_step ∈
                            map logical_step_key (pd_steps draft)))
        (PlanGenerationError "failed step must be retained or superseded") ;;
      stored ← store_replacement
        {| frr_context := c; frr_lease := lease; frr_plan := plan;
           frr_failed_step_run := failed; frr_draft := draft |};
      match stored with
      | None => fail_replan_terminal plan
      | Some x =>
        replace (fre_lease x) ;;
        mret (outcome OUTCOME_AWAITING_USER (fre_plan x) (fre_run x) None)
      end
    end
  | _ => fail_replan_terminal plan
  end.

(** ** From boundary to boundary *)

(** The attempt to work on: one that was interrupted, or the next one. *)
Definition next_work (c : TenantContext) (runner : PlanStepRunner) (lease : RunLease)
    (resume_running : bool) : M (option StartedPlanStep) :=
  if resume_running then
    started ← resume_running_attempt c lease; mret (Some started)
  else
    apply_compatible_reuse planning c lease
      (compatibility (pru_schemas runner) governance (pru_active_skills runner)) ;;
    raise_if_cancelled c ;;
    start_next_attempt planning settings c lease.

(** The top of an iteration: cancellation, and a resuming run becomes a running one. *)
Definition enter_iteration (c : TenantContext) : XM RunLease :=
  on_world (raise_if_cancelled c) ;;
  lease ← current;
  run ← on_world (load_run c);
  if bool_decide (rr_status run = RUN_RESUMING) then
    lease ← on_world (co_transition_run own lease RUN_RUNNING);
    replace lease
  else mret lease.

Definition request_of (c : TenantContext) (lease : RunLease) (started : StartedPlanStep)
    : PlanStepExecutionRequest :=
  {| xrq_context := c; xrq_lease := lease; xrq_plan := sps_plan started;
     xrq_step := sps_step started; xrq_step_run := sps_step_run started;
     xrq_dependency_results := sps_dependency_results started |}.

(** A finished piece of work: the attempt ends, and a failure for good leaves the loop. *)
Definition settle_step (c : TenantContext) (runner : PlanStepRunner) (lease : RunLease)
    (started : StartedPlanStep) (done : PlanStepCompletion)
    : XM (option PlanExecutionOutcome) :=
  on_world (raise_if_cancelled c) ;;
  let target := target_status planning done started in
  doc ← lift (build_result_document (request_of c lease started) done (pru_schemas runner)
                governance (pru_active_skills runner));
  use_current (λ lease, finalize_step_attempt settings c lease started target doc) ;;
  if bool_decide (target = STEP_FAILED_TERMINAL) then
    match planning_service with
    | Some _ =>
      out ← replan_terminal_failure c (sps_plan started) (sps_step started)
              (psr_step_run_id (sps_step_run started));
      mret (Some out)
    | None =>
      run ← on_world (load_run c);
      mret (Some (outcome OUTCOME_REPLAN_REQUIRED (sps_plan started) run None))
    end
  else mret None.

(** One iteration: an outcome leaves the loop, a Plan goes round once more. *)
Definition iteration (c : TenantContext) (runner : PlanStepRunner)
    (last_plan : option PlanSnapshot) (recovered : option (PersistedToolResult * string))
    (resume_running : bool) : XM (PlanExecutionOutcome + PlanSnapshot) :=
  lease ← enter_iteration c;
  started ← on_world (next_work c runner lease resume_running);
  match started with
  | None =>
    plan ← match last_plan with
           | Some plan => mret plan
           | None => on_world (load_active_plan c)
           end;
    run ← on_world (load_run c);
    on_world (raise_if_cancelled c) ;;
    mret (inl (outcome OUTCOME_COMPLETED plan run None))
  | Some started =>
    on_world (raise_if_cancelled c) ;;
    completion ← pru_run_plan_step runner (request_of c lease started) recovered;
    match completion with
    | inr stop =>
      match con_state stop with
      | CONTINUATION_AWAITING_USER =>
        run ← on_world (load_run c);
        mret (inl (outcome OUTCOME_AWAITING_USER (sps_plan started) run
                     (con_assistant_content stop)))
      | _ => throw (PlanExecutionBlocked
                      "Plan step runner returned an invalid continuation boundary")
      end
    | inl done =>
      settled ← settle_step c runner lease started done;
      mret match settled with Some out => inl out | None => inr (sps_plan started) end
    end
  end.

(** [while True], with fuel: [None] when it runs out. *)
Fixpoint execute_loop (fuel : nat) (c : TenantContext) (runner : PlanStepRunner)
    (last_plan : option PlanSnapshot) (recovered : option (PersistedToolResult * string))
    (resume_running : bool) : XM (option PlanExecutionOutcome) :=
  match fuel with
  | 0%nat => mret None
  | S fuel =>
    r ← iteration c runner last_plan recovered resume_running;
    match r with
    | inl out => mret (Some out)
    | inr plan => execute_loop fuel c runner (Some plan) None false
    end
  end.

(** The recovered result and its input come together or not at all. *)
Definition recovered_pair (result : option PersistedToolResult) (input : option string)
    : XM (option (PersistedToolResult * string)) :=
  match result, input with
  | None, None => mret None
  | Some r, Some i => mret (Some (r, i))
  | _, _ => throw (ValueError "recovered tool result and input must be provided together")
  end.

Definition execute_to_boundary (fuel : nat) (c : TenantContext) (runner : PlanStepRunner)
    (recovered_result : option PersistedToolResult) (recovered_input : option string)
    (resume_running : bool) : XM (option PlanExecutionOutcome) :=
  catch
    (recovered ← recovered_pair recovered_result recovered_input;
     execute_loop fuel c runner None recovered
       (resume_running || bool_decide (is_Some recovered)))
    (λ e, match e with
          | PlanCancellationRequested => out ← cancel_at_boundary c; mret (Some out)
          | e => throw e
          end).

(** After the last step, the summary. *)
Definition with_summary (c : TenantContext) (runner : PlanStepRunner)
    (out : option PlanExecutionOutcome) : XM (option PlanExecutionOutcome) :=
  match out with
  | Some o =>
    if bool_decide (peo_state o = OUTCOME_COMPLETED)
    then o ← complete_final_summary c runner; mret (Some o)
    else mret (Some o)
  | None => mret None
  end.

Definition execute_with_final_summary (fuel : nat) (c : TenantContext)
    (runner : PlanStepRunner) : XM (option PlanExecutionOutcome) :=
  out ← execute_to_boundary fuel c runner None None false;
  with_summary c runner out.

(** ** From a recovered boundary *)

Definition resume (fuel : nat) (c : TenantContext) (runner : PlanStepRunner)
    (recovery : RecoveryOutcome) (recovered_result : option PersistedToolResult)
    (recovered_input : option string) : XM (option PlanExecutionOutcome) :=
  match ro_plan_recovery_context recovery with
  | None => throw (PlanExecutionBlocked "Plan recovery context is unavailable")
  | Some pc =>
    if bool_decide (ro_action recovery = Some RESUME_PLAN_REVISION) then
      let inconsistent := PlanExecutionBlocked
                            "Plan revision recovery facts are inconsistent" in
      match (x ← prc_failed_step pc;
             s ← step_numbered (psr_step_id x) (pvr_steps (ps_current (prc_plan pc)));
             Some (x, s)) with
      | None => throw inconsistent
      | Some (x, s) =>
        out ← replan_terminal_failure c (prc_plan pc) s (psr_step_run_id x);
        mret (Some out)
      end
    else if bool_decide (prc_cursor pc = "final_summary") &&
            bool_decide (prc_running_step pc = None) then
      resume_if_resuming c ;;
      out ← complete_final_summary c runner;
      mret (Some out)
    else
      out ← execute_to_boundary fuel c runner recovered_result recovered_input
              (bool_decide (is_Some (prc_running_step pc)));
      with_summary c runner out
  end.
End Loop.
