(* ===== verification/RecoveryWorker.v ===== *)
(** * The recovery worker ([workflow/recovery.py])

    [WorkflowRecoveryWorker], which finds the runs that nobody works on, takes each of them
    over and carries out what the recovery service decided, and
    [RuntimeRecoveryContinuationService], which hands a run back to its Plan or to its
    agent.  The heartbeat that runs beside an execution is among the steps that the tools
    and the agent may take. *)

From S2P Require Import Prelude Records Errors Json Regex Redaction Tenancy.
From S2P Require Import WorkflowModels.
From S2P Require Import Storage Collections PlanStorage Checkpoint Events PlanValidation.
From S2P Require Import PlanSpec PlanRecords PlanReading WorkflowRepository.
From S2P Require Import PlanRepository.
From S2P Require Import PlanDecisions PlanAttempts MemoryRepository PlanResults.
From S2P Require Import WorkflowCoordinator Recovery PlanGenerator PlanService.
From S2P Require Import Continuation Tools Scheduler.
From S2P Require Import PlanExecution PlanLoop.
From stdpp Require Import base gmap strings list.

(** ** Candidates *)

(** The columns of [agent_jobs] that name the run of a delegated job. *)
Record agent_job : Type := MkAgentJob {
  job_tenant_id : string;
  job_workspace_id : string;
  job_child_session_id : option string;
  job_child_run_id : option string;
}.

Record RecoveryCandidate : Type := MkRecoveryCandidate {
  rc_context : TenantContext;
  rc_awaiting_resolution : bool;
}.

Definition DECIDED_APPROVALS : list ApprovalStatus :=
  [APPROVAL_APPROVED; APPROVAL_EXPIRED; APPROVAL_REJECTED].

(** [exists(select(1).select_from(approval_requests).where(...))]. *)
Definition has_decided_approval (d : Db) (r : agent_run) : bool :=
  existsb (λ a, bool_decide (approval_scope a = run_scope r) &&
                bool_decide (apr_approval_status a ∈ DECIDED_APPROVALS))
    (rows (approval_requests d)).

Definition is_child_run (jobs : list agent_job) (r : agent_run) : bool :=
  existsb (λ j, bool_decide (job_tenant_id j = run_tenant_id r) &&
                bool_decide (job_workspace_id j = run_workspace_id r) &&
                bool_decide (job_child_session_id j = Some (run_session_id r)) &&
                bool_decide (job_child_run_id j = Some (run_run_id r))) jobs.

(** The [WHERE] of the query. *)
Definition needs_recovery (d : Db) (jobs : list agent_job) (now : Z) (r : agent_run) : bool :=
  negb (is_child_run jobs r) &&
  (bool_decide (run_run_status r = RUN_AWAITING_USER) && has_decided_approval d r ||
   bool_decide (run_run_status r ∈ [RUN_RUNNING; RUN_AWAITING_USER; RUN_RESUMING]) &&
   expired_by (run_lease_expires_at r) now).

(** [ORDER BY] tenant, workspace, session, run. *)
Definition run_leb (r r' : agent_run) : bool :=
  let before a b rest := if String.eqb a b then rest else String.leb a b in
  before (run_tenant_id r) (run_tenant_id r')
    (before (run_workspace_id r) (run_workspace_id r')
       (before (run_session_id r) (run_session_id r')
          (String.leb (run_run_id r) (run_run_id r')))).

Definition run_context (r : agent_run) : TenantContext :=
  MkTenantContext (run_tenant_id r) (run_workspace_id r) (Some (run_session_id r))
    (Some (run_run_id r)) 0.

Definition candidate_of (d : Db) (r : agent_run) : result exn RecoveryCandidate :=
  c ← post_init (run_context r); Ok (MkRecoveryCandidate c (has_decided_approval d r)).

Fixpoint candidates_of (d : Db) (l : list agent_run) : result exn (list RecoveryCandidate) :=
  match l with
  | [] => Ok []
  | r :: l => x ← candidate_of d r; l ← candidates_of d l; Ok (x :: l)
  end.

Definition load_candidates `{Env} (jobs : list agent_job) (batch_size : nat)
    : M (list RecoveryCandidate) :=
  now ← db_now_ms;
  d ← gets w_db;
  lift (candidates_of d (take batch_size
    (sort_by run_leb (List.filter (needs_recovery d jobs now) (rows (agent_runs d)))))).

(** [_validated_execution_input]. *)
Definition validated_execution_input `{Env} (input_payload_json expected_hash : string)
    : result exn string :=
  value ← decode_json_object input_payload_json;
  _ ← reject_secret_fields (JObj value);
  let encoded := canonical_json value in
  _ ← ensure (String.eqb (env_sha256_hex encoded) expected_hash)
        (ValueError "persisted tool input hash mismatch");
  _ ← ensure (String.eqb input_payload_json encoded)
        (ValueError "persisted tool input is not canonical");
  Ok encoded.

(** [except ValueError]. *)
Definition is_value_error (e : exn) : bool :=
  match e with ValueError _ | ValidationError | PlanValidationError _ => true | _ => false end.

Definition run_blocked (s : option RunStatus) : option RunStatus :=
  match s with
  | Some RUN_BLOCKED_CORRUPT => Some RUN_BLOCKED_CORRUPT
  | Some RUN_BLOCKED_INCOMPATIBLE => Some RUN_BLOCKED_INCOMPATIBLE
  | _ => None
  end.

(** [BLOCKED_CORRUPT if ... else BLOCKED_INCOMPATIBLE]. *)
Definition execution_block (s : RunStatus) : ExecutionStatus :=
  if bool_decide (s = RUN_BLOCKED_CORRUPT) then EXEC_BLOCKED_CORRUPT
  else EXEC_BLOCKED_INCOMPATIBLE.

Definition run_block (s : ExecutionStatus) : RunStatus :=
  if bool_decide (s = EXEC_BLOCKED_CORRUPT) then RUN_BLOCKED_CORRUPT
  else RUN_BLOCKED_INCOMPATIBLE.

(** ** The runtime of a workspace *)

(** [rt_resume_recovery] is the agent's method, where it has one: it returns an outcome,
    [None] standing for a value of another class. *)
Record Runtime : Type := MkRuntime {
  rt_runtime_instance_id : string;
  rt_registry : ToolRegistry.registry;
  rt_recovery_continuation : bool;
  rt_agent_database : bool;
  rt_plan_execution : option PlanStepRunner;
  rt_resume_recovery : option (TenantContext → option PersistedToolResult → option string →
                               TM (option ContinuationOutcome));
}.

Section Worker.
Context `{Env}.
Context (unicode_alnum : N → bool) (resolve : string → list string)
  (casefold uuid5 : string → string).
Context (planning : PlanningSettings) (settings : Settings) (governance : json).
Context (planning_service :
           option (option (option PlanGenerator.router * error_reporter * string * string))).
Context (guarded_tools : list string) (guard_timeout : Z)
  (expires : ToolState * RunVars → bool) (has_event_router : bool).
Context (str_of : json → string) (loop_fuel : nat).
Context `{plans : PlanReader}.

Local Notation own := (own_coordinator settings).

Definition finish (status : RunStatus) : TM unit :=
  on_exec (refresh (λ lease, finish_run_with_checkpoint own lease status)) ;; mret tt.

(** ** [RuntimeRecoveryContinuationService] *)

(** The result and the input of the last tool call, [None] when they are spoilt and the run
    was ended for that. *)
Definition recovered_call (c : TenantContext) (outcome : RecoveryOutcome)
    (result : option PersistedToolResult) (input : option string)
    : TM (option (option PersistedToolResult * option string)) :=
  checkpoint ← on_db (get_latest_checkpoint c);
  match result, checkpoint with
  | None, Some k =>
    '(phase, payload) ← lift (decode_checkpoint k);
    if negb (bool_decide (phase = EXECUTION_RESULT_OBSERVED)) then mret (Some (None, input)) else
    match payload with
    | PExecutionResultObserved p =>
      execution ← on_db (get_execution_recovery c (eop_execution_id p));
      match execution with
      | None => mret (Some (None, input))
      | Some x =>
        catch
          (input ← lift (validated_execution_input (xr_input_payload_json x) (xr_input_hash x));
           result ← on_db (load_tool_result str_of c (eop_result_ref p) (eop_result_digest p)
                             (Some (xr_execution_id x)) (Some (xr_tool_call_id x))
                             (Some (xr_tool_name x)));
           mret (Some (Some result, Some input)))
          (λ e,
            if is_value_error e && bool_decide (is_Some (ro_plan_recovery_context outcome))
            then finish RUN_BLOCKED_CORRUPT ;; mret None
            else throw e)
      end
    | _ => throw AssertionError
    end
  | _, _ => mret (Some (result, input))
  end.

Definition run_again (c : TenantContext) : TM unit :=
  run ← on_db (get_run c);
  if bool_decide (rr_status <$> run = Some RUN_RESUMING)
  then on_exec (refresh (λ lease, co_transition_run own lease RUN_RUNNING)) ;; mret tt
  else mret tt.

(** The agent goes on, and its answer ends the run. *)
Definition resume_agent (rt : Runtime) (c : TenantContext)
    (result : option PersistedToolResult) (input : option string) : TM unit :=
  match rt_resume_recovery rt with
  | None => mret tt
  | Some callback =>
    answer ← catch
      (answer ← callback c result input;
       match answer with
       | Some _ => mret answer
       | None => throw (RuntimeError "resume_recovery must return ContinuationOutcome")
       end)
      (λ _, finish RUN_FAILED_TERMINAL ;; mret None);
    match con_state <$> answer with
    | None | Some CONTINUATION_AWAITING_USER => mret tt
    | Some CONTINUATION_FAILED_TERMINAL => finish RUN_FAILED_TERMINAL
    | Some CONTINUATION_COMPLETED => finish RUN_COMPLETED
    end
  end.

Definition resume_continuation (rt : Runtime) (c : TenantContext) (outcome : RecoveryOutcome)
    (result : option PersistedToolResult) (input : option string) : TM unit :=
  if negb (rt_agent_database rt) then mret tt else
  call ← recovered_call c outcome result input;
  match call with
  | None => mret tt
  | Some (result, input) =>
    run_again c ;;
    match ro_plan_recovery_context outcome, rt_plan_execution rt with
    | Some _, Some runner =>
      catch
        (on_exec (resume planning settings governance planning_service has_event_router
                    loop_fuel c runner outcome result input) ;; mret tt)
        (λ _, finish RUN_FAILED_TERMINAL)
    | _, _ => resume_agent rt c result input
    end
  end.

(** ** [WorkflowRecoveryWorker] *)

Definition invoke_continuation (rt : Runtime) (c : TenantContext)
    (outcome : option RecoveryOutcome) (result : option PersistedToolResult)
    (input : option string) : TM unit :=
  if rt_recovery_continuation rt
  then resume_continuation rt c (default (acting RESUME_MODEL None) outcome) result input
  else mret tt.

Definition block_call (c : TenantContext) (x : ExecutionRecoveryRecord) (status : ExecutionStatus)
    (detail : string) : TM unit :=
  block_execution settings has_event_router c x status detail ;; mret tt.

Definition recover_call (b : ToolBuilder) (c : TenantContext) (x : ExecutionRecoveryRecord)
    (action : RecoveryAction) (force_execute : bool) : TM unit :=
  recover_execution unicode_alnum resolve casefold uuid5 settings guarded_tools guard_timeout
    expires has_event_router b c x action force_execute ;; mret tt.

(** A run that cannot go on: the execution of its last checkpoint, if it names one, and the
    run itself are blocked. *)
Definition consume_blocked (c : TenantContext) (status : RunStatus) (reason : string)
    : TM unit :=
  checkpoint ← on_db (get_latest_checkpoint c);
  match checkpoint ≫= cr_execution_id with
  | None => mret tt
  | Some execution_id =>
    execution ← on_db (get_execution_recovery c execution_id);
    match execution with
    | None => mret tt
    | Some x => block_call c x (execution_block status) (or_else (Some reason) "recovery blocked")
    end
  end ;;
  finish status.

(** [_consume_plan_terminal_result], with the method that consumes an outcome. *)
Definition consume_plan_terminal_result (consume : RecoveryOutcome → TM unit)
    (c : TenantContext) : TM bool :=
  outcome ← on_db (validate_live_run c);
  if bool_decide (is_Some (run_blocked (ro_status outcome))) ||
     bool_decide (is_Some (ro_plan_recovery_context outcome))
  then consume outcome ;; mret true
  else mret false.

(** An interrupted execution is repeated, closed or blocked, and the run goes on from it. *)
Definition repeat_call (consume : RecoveryOutcome → TM unit) (rt : Runtime) (c : TenantContext)
    (outcome : RecoveryOutcome) (action : RecoveryAction)
    (execution : option ExecutionRecoveryRecord) : TM unit :=
  match execution with
  | None => mret tt
  | Some x =>
    match ToolRegistry.get (xr_tool_name x) (rt_registry rt) with
    | None => block_call c x EXEC_BLOCKED_INCOMPATIBLE "missing builder during recovery"
    | Some b =>
      recover_call b c x action false ;;
      if bool_decide (is_Some (ro_plan_recovery_context outcome))
      then consume_plan_terminal_result consume c ;; mret tt
      else if bool_decide (action = MARK_MANUAL_UNCERTAIN) then mret tt
      else invoke_continuation rt c (Some outcome) None None
    end
  end.

Definition carry_out (consume : RecoveryOutcome → TM unit) (rt : Runtime) (c : TenantContext)
    (outcome : RecoveryOutcome) (action : RecoveryAction)
    (execution : option ExecutionRecoveryRecord) : TM unit :=
  match action with
  | TERMINAL_NOOP | AWAIT_USER | AWAIT_PLAN_DECISION => mret tt
  | REPLAY_READ_ONLY | RETRY_IDEMPOTENT | MARK_MANUAL_UNCERTAIN =>
    repeat_call consume rt c outcome action execution
  | RESUME_MODEL | RESUME_PLAN_STEP | RESUME_PLAN_REVISION =>
    invoke_continuation rt c (Some outcome) None None
  end.

(** [_consume_outcome], with the method that it calls again through
    [_consume_plan_terminal_result]. *)
Definition consume_with (consume : RecoveryOutcome → TM unit) (rt : Runtime) (c : TenantContext)
    (outcome : RecoveryOutcome) : TM unit :=
  match run_blocked (ro_status outcome) with
  | Some status => consume_blocked c status (ro_reason outcome)
  | None =>
    match ro_action outcome with
    | None => mret tt
    | Some action =>
      if bool_decide (action ∈ [TERMINAL_NOOP; AWAIT_USER]) then mret tt else
      match ro_execution_id outcome with
      | None => carry_out consume rt c outcome action None
      | Some execution_id =>
        execution ← on_db (get_execution_recovery c execution_id);
        match execution with
        | None => mret tt
        | Some x => carry_out consume rt c outcome action (Some x)
        end
      end
    end
  end.

(** The depth is what the interpreter allows. *)
Fixpoint consume_outcome (depth : nat) (rt : Runtime) (c : TenantContext)
    (outcome : RecoveryOutcome) : TM unit :=
  match depth with
  | O => throw (RuntimeError "maximum recursion depth exceeded")
  | S depth => consume_with (consume_outcome depth rt c) rt c outcome
  end.

Context (depth : nat).

(** A rejected or expired approval: the execution is blocked, and the run learns of it. *)
Definition resume_refused (rt : Runtime) (c : TenantContext) (x : ExecutionRecoveryRecord)
    (content : string) : TM unit :=
  block_call c x EXEC_BLOCKED_INCOMPATIBLE content ;;
  consumed ← consume_plan_terminal_result (consume_outcome depth rt c) c;
  if consumed : bool then mret tt else
  invoke_continuation rt c None
    (Some {| ptr_entry_id := ""; ptr_result_ref := ""; ptr_result_digest := "";
             ptr_content := content; ptr_tool_call_id := xr_tool_call_id x;
             ptr_tool_name := xr_tool_name x |})
    (Some (xr_input_payload_json x)).

(** What follows the repetition of an approved execution. *)
Definition after_approved (rt : Runtime) (c : TenantContext) (execution_id : string) : TM unit :=
  refreshed ← on_db (get_execution_recovery c execution_id);
  let status := xr_status <$> refreshed in
  consumed ←
    (if bool_decide (status ∈ [Some EXEC_SUCCEEDED; Some EXEC_FAILED_TERMINAL;
                               Some EXEC_UNCERTAIN; Some EXEC_BLOCKED_CORRUPT;
                               Some EXEC_BLOCKED_INCOMPATIBLE])
     then consume_plan_terminal_result (consume_outcome depth rt c) c else mret false);
  if consumed : bool then mret tt else
  match status with
  | Some EXEC_BLOCKED_CORRUPT => finish (run_block EXEC_BLOCKED_CORRUPT)
  | Some EXEC_BLOCKED_INCOMPATIBLE => finish (run_block EXEC_BLOCKED_INCOMPATIBLE)
  | Some EXEC_SUCCEEDED =>
    outcome ← on_db (validate_live_run c);
    consume_outcome depth rt c outcome
  | _ => mret tt
  end.

Definition resume_approved (rt : Runtime) (c : TenantContext) (x : ExecutionRecoveryRecord)
    : TM unit :=
  match ToolRegistry.get (xr_tool_name x) (rt_registry rt) with
  | None =>
    block_call c x EXEC_BLOCKED_INCOMPATIBLE "missing builder during recovery" ;;
    consume_plan_terminal_result (consume_outcome depth rt c) c ;; mret tt
  | Some b =>
    recover_call b c x (dispatch_recovery_action (xr_recovery_strategy x)) true ;;
    after_approved rt c (xr_execution_id x)
  end.

(** Whether the latest checkpoint waits for an approval that has been decided. *)
Definition resolved_approval (c : TenantContext)
    : M (option (ApprovalStatus * ExecutionRecoveryRecord)) :=
  checkpoint ← get_latest_checkpoint c;
  match checkpoint ≫= cr_approval_id with
  | None => mret None
  | Some approval_id =>
    approval ← get_approval c approval_id;
    match approval with
    | None => mret None
    | Some a =>
      if bool_decide (ar_status a = APPROVAL_AWAITING_USER) then mret None else
      execution ← get_execution_by_approval_id c approval_id;
      mret match execution with
           | None => None
           | Some x => if bool_decide (xr_status x = EXEC_NOT_STARTED)
                       then Some (ar_status a, x) else None
           end
    end
  end.

Definition resume_resolved_approval_if_present (rt : Runtime) (c : TenantContext) : TM bool :=
  found ← on_db (resolved_approval c);
  match found with
  | None => mret false
  | Some (status, x) =>
    match status with
    | APPROVAL_REJECTED => resume_refused rt c x "rejected by user"
    | APPROVAL_EXPIRED => resume_refused rt c x "approval expired"
    | _ => resume_approved rt c x
    end ;;
    mret true
  end.

(** Taking the run over, where there is something to do. *)
Definition take_candidate (x : RecoveryCandidate) (runtime_instance_id : string)
    : M (option (RecoveryOutcome * RunLease)) :=
  let c := rc_context x in
  catch
    (run ← get_run c;
     match run with
     | None => mret None
     | Some run =>
       if run_terminal (rr_status run) then mret None else
       preflight ← validate_live_run c;
       if bool_decide (ro_action preflight ∈ [Some AWAIT_USER; Some AWAIT_PLAN_DECISION;
                                              Some TERMINAL_NOOP]) then mret None else
       lease ←
         (if bool_decide (rr_status run = RUN_AWAITING_USER) &&
             (rc_awaiting_resolution x ||
              bool_decide (is_Some (run_blocked (ro_status preflight))))
          then co_resume_waiting_run own c runtime_instance_id
          else acquire_run own c runtime_instance_id);
       mret (Some (preflight, lease))
     end)
    (λ e, match e with LeaseConflictError _ => mret None | e => throw e end).

Definition execute_candidate (pool : TenantContext → result exn Runtime)
    (x : RecoveryCandidate) : TM unit :=
  let c := rc_context x in
  rt ← lift (workspace ← post_init (MkTenantContext (tc_tenant_id c) (tc_workspace_id c) None None 0);
             pool workspace);
  taken ← on_db (take_candidate x (rt_runtime_instance_id rt));
  match taken with
  | None => mret tt
  | Some (preflight, lease) =>
    on_exec (replace lease) ;;
    if bool_decide (is_Some (run_blocked (ro_status preflight)))
    then consume_outcome depth rt c preflight else
    resumed ← (if rc_awaiting_resolution x
               then resume_resolved_approval_if_present rt c else mret false);
    if resumed : bool then mret tt else
    outcome ← on_db (validate_live_run c);
    consume_outcome depth rt c outcome
  end.

(** [busy]: the sessions that the background runner is busy with, where there is one; it
    runs the candidate otherwise. *)
Definition process_candidate (pool : TenantContext → result exn Runtime)
    (busy : option (TenantContext → bool)) (x : RecoveryCandidate) : TM unit :=
  match busy with
  | None => execute_candidate pool x
  | Some busy => if busy (rc_context x) then mret tt else execute_candidate pool x
  end.

Definition resume_owned_run (pool : TenantContext → result exn Runtime) (c : TenantContext)
    : TM unit :=
  execute_candidate pool (MkRecoveryCandidate c true).

(** What a candidate raises is logged. *)
Fixpoint process_all (pool : TenantContext → result exn Runtime)
    (busy : option (TenantContext → bool)) (l : list RecoveryCandidate) : TM unit :=
  match l with
  | [] => mret tt
  | x :: l => catch (process_candidate pool busy x) (λ _, mret tt) ;; process_all pool busy l
  end.

Definition run_once (pool : TenantContext → result exn Runtime)
    (busy : option (TenantContext → bool)) (jobs : list agent_job) (batch_size : nat)
    : TM unit :=
  candidates ← on_db (load_candidates jobs batch_size);
  process_all pool busy candidates.
End Worker.
