(* ===== verification/WorkflowSpec.v ===== *)
(** * What the workflow engine may do to the database

    [effect q d d'] is the abstract specification: the single steps a database of runs,
    approvals, executions, checkpoints and memory entries may take, with no mention of clocks, leases'
    expiry, SQL or exceptions.  [q] is the number of runs a tenant may have active.  The
    rules of a small program logic ([wp]) then show that every repository method, hence
    every coordinator operation, moves the database along these steps only
    ([WorkflowRefinement.v]). *)

From S2P Require Import Prelude Records Errors Json Tenancy WorkflowModels Storage.
From S2P Require Import Checkpoint PlanStorage.
From S2P Require Import PlanRecords WorkflowRepository MemoryRepository PlanEffects.
From stdpp Require Import base gmap strings list sets relations.

(** ** One run *)

(** The columns no operation changes. *)
Definition same_run (r r' : agent_run) : Prop :=
  run_scope r' = run_scope r ∧ run_plan_id r' = run_plan_id r ∧
  run_initial_plan_version r' = run_initial_plan_version r ∧
  run_created_at r' = run_created_at r ∧ run_schema_version r' = run_schema_version r.

(** The lease: kept, or claimed with the next fencing token while the run is active. *)
Definition lease_step (r r' : agent_run) : Prop :=
  (run_fencing_token r' = run_fencing_token r ∧ run_lease_owner r' = run_lease_owner r) ∨
  (run_fencing_token r' = run_fencing_token r + 1 ∧ run_active r = true)%Z.

(** The status: kept, or moved along the table; [finished_at] is set on the way out. *)
Definition status_step (r r' : agent_run) : Prop :=
  (run_run_status r' = run_run_status r ∧ run_finished_at r' = run_finished_at r) ∨
  (run_run_status r' ∈ LEGAL_RUN_TRANSITIONS (run_run_status r) ∧
   run_finished_at r' = (if run_terminal (run_run_status r')
                         then Some (run_updated_at r') else run_finished_at r)).

(** A cancellation request is never lost or moved. *)
Definition cancel_step (r r' : agent_run) : Prop :=
  run_cancel_requested_at r' = run_cancel_requested_at r ∨
  (run_cancel_requested_at r = None ∧ is_Some (run_cancel_requested_at r')).

Definition plan_step (d : Db) (r r' : agent_run) : Prop :=
  run_active_plan_version r' = run_active_plan_version r ∨
  ∃ p v, run_plan_id r = Some p ∧ run_active_plan_version r' = Some v ∧
    is_Some (agent_plan_versions d !!
      (run_tenant_id r, run_workspace_id r, run_session_id r, p, v)).

Record run_step (d : Db) (r r' : agent_run) : Prop := MkRunStep {
  step_same : same_run r r';
  step_version : run_version r' = (run_version r + 1)%Z;
  step_lease : lease_step r r';
  step_status : status_step r r';
  step_cancel : cancel_step r r';
  step_plan : plan_step d r r';
}.

(** ** One approval, one execution *)

Definition same_approval (a a' : approval_request) : Prop :=
  approval_scope a' = approval_scope a ∧ apr_approval_id a' = apr_approval_id a ∧
  apr_tool_call_id a' = apr_tool_call_id a ∧ apr_requested_at a' = apr_requested_at a ∧
  apr_expires_at a' = apr_expires_at a.

Record approval_step (a a' : approval_request) : Prop := MkApprovalStep {
  astep_same : same_approval a a';
  astep_version : apr_version a' = (apr_version a + 1)%Z;
  astep_legal : apr_approval_status a' ∈
    LEGAL_APPROVAL_TRANSITIONS (apr_approval_status a);
  astep_time : ∃ t, apr_resolved_at a' = Some t ∧
    (apr_approval_status a' = APPROVAL_EXPIRED ↔ (apr_expires_at a ≤ t)%Z);
}.

Definition same_execution (e e' : tool_execution) : Prop :=
  execution_scope e' = execution_scope e ∧ exe_execution_id e' = exe_execution_id e ∧
  exe_approval_id e' = exe_approval_id e ∧ exe_tool_call_id e' = exe_tool_call_id e ∧
  exe_tool_name e' = exe_tool_name e ∧
  exe_recovery_strategy e' = exe_recovery_strategy e ∧
  exe_idempotency_key e' = exe_idempotency_key e ∧
  exe_input_payload_json e' = exe_input_payload_json e ∧
  exe_input_hash e' = exe_input_hash e.

(** A column that is written at most once. *)
Definition written_once (old new : option string) : Prop := ∀ v, old = Some v → new = Some v.

Record execution_step (e e' : tool_execution) : Prop := MkExecutionStep {
  estep_same : same_execution e e';
  estep_version : exe_version e' = (exe_version e + 1)%Z;
  estep_status :
    (exe_execution_status e' = exe_execution_status e ∧
     exe_finished_at e' = exe_finished_at e) ∨
    (exe_execution_status e' ∈ LEGAL_EXECUTION_TRANSITIONS (exe_execution_status e) ∧
     exe_finished_at e' = (if exec_terminal (exe_execution_status e')
                           then Some (exe_updated_at e') else exe_finished_at e));
  estep_request : written_once (exe_external_request_id e) (exe_external_request_id e');
  estep_ref : written_once (exe_result_ref e) (exe_result_ref e');
  estep_digest : written_once (exe_result_digest e) (exe_result_digest e');
}.

(** ** The database *)

Definition fresh_run (r : agent_run) : Prop :=
  run_fencing_token r = 1%Z ∧ run_version r = 1%Z ∧ run_finished_at r = None ∧
  run_cancel_requested_at r = None ∧ run_active r = true.

Definition fresh_approval (a : approval_request) : Prop :=
  apr_approval_status a = APPROVAL_AWAITING_USER ∧ apr_resolved_at a = None ∧
  apr_version a = 1%Z.

Definition fresh_execution (e : tool_execution) : Prop :=
  exe_version e = 1%Z ∧ exe_finished_at e = None ∧ exe_result_ref e = None ∧
  exe_result_digest e = None ∧ exe_external_request_id e = None.

Definition execution_open (e : tool_execution) : bool :=
  negb (exec_terminal (exe_execution_status e)).

(** No execution of this run is open. *)
Definition scope_idle (d : Db) (k : scope_key) : Prop :=
  ∀ i e, tool_executions d !! i = Some e → execution_scope e = k → execution_open e = false.

(** Where a memory entry is visible. *)
Definition memory_scope (m : memory_entry) : string * string * option string :=
  (mem_tenant_id m, mem_workspace_id m, mem_session_id m).

Inductive effect `{Env} (q : Z) : relation Db :=
| RunCreated d r :
    agent_runs_constraints d r = true → fresh_run r →
    (count_rows (active_runs_of (run_tenant_id r)) (agent_runs d) < q)%Z →
    effect q d (d <| agent_runs := <[run_run_id r := r]> (agent_runs d) |>)
| RunStepped d r r' :
    agent_runs d !! run_run_id r = Some r → run_step d r r' →
    effect q d (d <| agent_runs := <[run_run_id r := r']> (agent_runs d) |>)
| ApprovalInserted d a :
    approval_requests_constraints d a = true → fresh_approval a →
    effect q d (d <| approval_requests := <[apr_approval_id a := a]> (approval_requests d) |>)
| ApprovalStepped d a a' :
    approval_requests d !! apr_approval_id a = Some a → approval_step a a' →
    effect q d (d <| approval_requests := <[apr_approval_id a := a']> (approval_requests d) |>)
| ExecutionInserted d e :
    tool_executions_constraints d e = true → fresh_execution e →
    scope_idle d (execution_scope e) →
    effect q d (d <| tool_executions := <[exe_execution_id e := e]> (tool_executions d) |>)
| ExecutionStepped d e e' :
    tool_executions d !! exe_execution_id e = Some e → execution_step e e' →
    effect q d (d <| tool_executions := <[exe_execution_id e := e']> (tool_executions d) |>)
| CheckpointInserted d k :
    execution_checkpoints_constraints d k = true →
    effect q d (d <| execution_checkpoints :=
                       <[ckp_checkpoint_id k := k]> (execution_checkpoints d) |>)
| AuditInserted d a :
    audit_logs_constraints d a = true →
    effect q d (d <| audit_logs := <[aud_audit_id a := a]> (audit_logs d) |>)
| MemoryInserted d m :
    satisfied (memory_entries_constraints d m) →
    effect q d (d <| memory_entries := <[mem_id m := m]> (memory_entries d) |>)
| MemoryRewritten d m m' :
    memory_entries d !! mem_id m' = Some m → memory_scope m' = memory_scope m →
    effect q d (d <| memory_entries := <[mem_id m' := m']> (memory_entries d) |>)
| MemoryForgotten d i m :
    memory_entries d !! i = Some m → is_source_message d m = false →
    effect q d (d <| memory_entries := delete i (memory_entries d) |>)
| PlanMoved d d' :
    plan_effect d d' → effect q d d'.

(** Sequences of effects, on databases and on worlds. *)
Definition effects `{Env} (q : Z) : relation Db := rtc (effect q).
Definition steps `{Env} (q : Z) : relation World := λ w w', effects q (w_db w) (w_db w').

#[export] Instance steps_preorder `{envi : Env} q : PreOrder (steps q).
Proof.
  split; unfold steps, effects; [by intros w | by intros w1 w2 w3 H1 H2; etrans].
Qed.

(** ** A program logic for repository code

    [wp m Q X w]: run on [w], [m] either returns [a] in a world that satisfies [Q a], or
    raises in a world that satisfies [X]. *)

Definition wp {S A} (m : stM S exn A) (Q : A → S → Prop) (X : S → Prop) (w : S) : Prop :=
  match m w with
  | (Ok a, w') => Q a w'
  | (Err _, w') => X w'
  end.

(** [m] leaves the world as it is (it may raise). *)
Definition read_only {S A} (m : stM S exn A) : Prop := ∀ w, (m w).2 = w.

(** The promise of the Plan repository to its readers: reading changes nothing. *)
Class PlanReads (plans : PlanReader) : Prop := {
  plans_get_reads c p : read_only (plans_get c p);
  running_step_attempts_reads c r : read_only (running_step_attempts c r);
  step_run_by_id_reads c r s : read_only (step_run_by_id c r s);
}.

Section WpRules.
Context {S A : Type}.
Implicit Types (m : stM S exn A) (Q : A → S → Prop) (X : S → Prop) (w : S).

Lemma wp_bind {B} (m : stM S exn B) (f : B → stM S exn A) Q X w :
  wp m (λ b, wp (f b) Q X) X w → wp (m ≫= f) Q X w.
Proof.
  unfold wp, mbind, stM_bind. by destruct (m w) as [[b|e] w'].
Qed.

Lemma wp_ret a Q X w : Q a w → wp (mret a) Q X w.
Proof. done. Qed.

Lemma wp_throw e Q X w : X w → wp (throw e) Q X w.
Proof. done. Qed.

Lemma wp_lift (r : result exn A) Q X w :
  (∀ a, r = Ok a → Q a w) → X w → wp (lift r) Q X w.
Proof. unfold wp, lift. destruct r; auto. Qed.

Lemma wp_mono m Q Q' X w :
  (∀ a w', Q a w' → Q' a w') → wp m Q X w → wp m Q' X w.
Proof. unfold wp. destruct (m w) as [[a|e] w']; auto. Qed.

Lemma wp_read m Q X w :
  read_only m → (∀ a, m w = (Ok a, w) → Q a w) → X w → wp m Q X w.
Proof.
  intros Hr HQ HX. unfold wp. specialize (Hr w).
  destruct (m w) as [[a|e] w']; simpl in *; subst; auto.
Qed.

Lemma wp_catch m (handler : exn → stM S exn A) Q X w :
  wp m Q (λ w', ∀ e, wp (handler e) Q X w') w → wp (catch m handler) Q X w.
Proof.
  unfold wp, catch. destruct (m w) as [[a|e] w']; [done|]. intros H. apply (H e).
Qed.

Lemma wp_weaken m Q Q' X X' w :
  (∀ a w', Q a w' → Q' a w') → (∀ w', X w' → X' w') → wp m Q X w → wp m Q' X' w.
Proof. unfold wp. destruct (m w) as [[a|e] w']; auto. Qed.
End WpRules.

Lemma wp_write_transaction {A} (m : M A) Q X w :
  wp m Q (λ w', X (rollback w w')) w → wp (write_transaction m) Q X w.
Proof.
  unfold wp, write_transaction, transaction. by destruct (m w) as [[a|e] w'].
Qed.

Lemma wp_gets {S A} (f : S → A) Q X w : Q (f w) w → wp (gets f) Q X w.
Proof. done. Qed.

Lemma wp_require {S} b e (Q : unit → S → Prop) X w :
  (b = true → Q tt w) → X w → wp (require b e) Q X w.
Proof. unfold wp. destruct b; simpl; auto. Qed.

Lemma wp_db_now_ms `{Env} Q X w :
  Q (env_clock (w_ticks w)) (w <| w_ticks := S (w_ticks w) |>) → wp db_now_ms Q X w.
Proof. done. Qed.

Lemma wp_moves {S A} (R : relation S) (m : stM S exn A) :
  (∀ w, wp m (λ _, R w) (R w) w) → moves R m.
Proof.
  intros H w. specialize (H w). unfold wp in H. by destruct (m w) as [[a|e] w'].
Qed.

Lemma moves_wp {S A} (R : relation S) `{!PreOrder R} (m : stM S exn A) w0 w :
  moves R m → R w0 w → wp m (λ _, R w0) (R w0) w.
Proof.
  intros Hm H0. specialize (Hm w). unfold wp.
  destruct (m w) as [[a|e] w']; simpl in *; by etrans.
Qed.

(** *** Reading *)

Lemma read_only_ret {S A} (a : A) : read_only (mret a : stM S exn A).
Proof. done. Qed.
Lemma read_only_throw {S A} e : read_only (throw e : stM S exn A).
Proof. done. Qed.
Lemma read_only_gets {S A} (f : S → A) : read_only (gets f).
Proof. done. Qed.
Lemma read_only_lift {S A} (r : result exn A) : read_only (lift r : stM S exn A).
Proof. done. Qed.
Lemma read_only_require {S} b e : read_only (require b e : stM S exn unit).
Proof. by destruct b. Qed.
Lemma read_only_bind {S A B} (m : stM S exn A) (f : A → stM S exn B) :
  read_only m → (∀ a, read_only (f a)) → read_only (m ≫= f).
Proof.
  intros Hm Hf w. unfold mbind, stM_bind. specialize (Hm w).
  destruct (m w) as [[a|e] w']; simpl in *; [|done]. subst. apply Hf.
Qed.

Lemma read_only_Ok {S A} (m : stM S exn A) w a w' : read_only m → m w = (Ok a, w') → w' = w.
Proof. intros Hm Hw. specialize (Hm w). by rewrite Hw in Hm. Qed.

(** A run that returns, statement by statement. *)
Lemma read_bind_Ok {S A B} (m : stM S exn A) (f : A → stM S exn B) w b w' :
  read_only m → (m ≫= f) w = (Ok b, w') → ∃ a, m w = (Ok a, w) ∧ f a w = (Ok b, w').
Proof.
  intros Hm (a&w1&H1&H2)%bind_Ok. pose proof (read_only_Ok _ _ _ _ Hm H1) as ->. eauto.
Qed.

Lemma require_bind_Ok {S B} c e (f : unit → stM S exn B) w b w' :
  (require c e ≫= f) w = (Ok b, w') → c = true ∧ f tt w = (Ok b, w').
Proof. destruct c; [done|]. by intros [=]. Qed.

Lemma lift_bind_Ok {S A B} (r : result exn A) (f : A → stM S exn B) w b w' :
  (lift r ≫= f) w = (Ok b, w') → ∃ a, r = Ok a ∧ f a w = (Ok b, w').
Proof. destruct r; [eauto|]. by intros [=]. Qed.

Create HintDb reads.
#[export] Hint Resolve read_only_ret read_only_throw read_only_gets read_only_lift
  read_only_require : reads.

(** Decompose a computation made of reads. *)
Ltac solve_reads :=
  repeat first
    [ solve [auto with reads]
    | apply read_only_bind; [|intros ?]
    | progress cbv zeta
    | case_match ].

Lemma read_only_run_from_row r : read_only (run_from_row r).
Proof. unfold run_from_row. solve_reads. Qed.
#[export] Hint Resolve read_only_run_from_row : reads.

Lemma read_only_get_run c : read_only (get_run c).
Proof. unfold get_run. solve_reads. Qed.
Lemma read_only_require_lease c o f v : read_only (require_lease c o f v).
Proof. unfold require_lease, lease_of_row. solve_reads. Qed.
Lemma read_only_plan_version_exists c p v g : read_only (plan_version_exists c p v g).
Proof. unfold plan_version_exists. solve_reads. Qed.
Lemma read_only_count_active t : read_only (count_active_runs t).
Proof. unfold count_active_runs. solve_reads. Qed.
Lemma read_only_has_nonterminal c : read_only (has_nonterminal_execution c).
Proof. unfold has_nonterminal_execution. solve_reads. Qed.
Lemma read_only_get_execution c i : read_only (get_execution c i).
Proof. unfold get_execution. solve_reads. Qed.
Lemma read_only_get_execution_recovery c i : read_only (get_execution_recovery c i).
Proof. unfold get_execution_recovery. solve_reads. Qed.
Lemma read_only_get_approval c i : read_only (get_approval c i).
Proof. unfold get_approval. solve_reads. Qed.
Lemma read_only_get_latest_checkpoint c : read_only (get_latest_checkpoint c).
Proof. unfold get_latest_checkpoint. solve_reads. Qed.
Lemma read_only_get_next_checkpoint_seq c : read_only (get_next_checkpoint_seq c).
Proof. unfold get_next_checkpoint_seq. solve_reads. Qed.
Lemma read_only_not_null t v : read_only (not_null t v).
Proof. unfold not_null. solve_reads. Qed.
Lemma read_only_assert_some {A} (v : option A) : read_only (assert_some v).
Proof. unfold assert_some. solve_reads. Qed.
Lemma read_only_claimed c o r n : read_only (claimed c o r n).
Proof. unfold claimed. pose proof read_only_require_lease. solve_reads. Qed.
Lemma read_only_renewed l n : read_only (renewed l n).
Proof. unfold renewed. pose proof read_only_require_lease. solve_reads. Qed.
Lemma read_only_round_budget repo c : read_only (check_plan_round_budget repo c).
Proof. unfold check_plan_round_budget. solve_reads. Qed.
Lemma read_only_checkpoint_execution c i : read_only (check_checkpoint_execution c i).
Proof.
  unfold check_checkpoint_execution. pose proof read_only_get_execution_recovery.
  solve_reads.
Qed.
#[export] Hint Resolve read_only_get_run read_only_require_lease
  read_only_plan_version_exists read_only_count_active read_only_has_nonterminal
  read_only_get_execution read_only_get_execution_recovery read_only_get_approval
  read_only_get_latest_checkpoint read_only_get_next_checkpoint_seq read_only_not_null
  read_only_assert_some read_only_claimed read_only_renewed read_only_round_budget
  read_only_checkpoint_execution : reads.

(** [get_run] finds the row of the context, or nothing. *)
Lemma get_run_Ok c w o w' :
  get_run c w = (Ok o, w') → w' = w ∧ o = run_record <$> context_predicate (w_db w) c.
Proof.
  unfold get_run. rewrite bind_Ok. intros (d & w1 & [= <- <-] & H).
  destruct (context_predicate (w_db w) c) as [r|]; [|by injection H as <- <-].
  apply bind_Ok in H as (rec & w2 & H & [= <- <-]).
  unfold run_from_row in H. apply bind_Ok in H as (? & w3 & H1 & H).
  apply bind_Ok in H as (? & w4 & H2 & [= <- <-]).
  destruct (plan_binding_complete _ _ _); [|done]. injection H1 as _ <-.
  unfold lift in H2. destruct (post_init _); [|done]. by injection H2 as _ <-.
Qed.
