(* ===== verification/WorkflowRefinement.v ===== *)
(** * The workflow engine refines its specification

    Every method of the repository moves the database along [effects] of
    [WorkflowSpec.v], whatever its arguments, and whether it returns or raises. *)

From S2P Require Import Prelude Records Errors Json Tenancy WorkflowModels Storage.
From S2P Require Import Checkpoint.
From S2P Require Import PlanRecords WorkflowRepository WorkflowCoordinator WorkflowSpec.
From stdpp Require Import base gmap strings list sets relations.

(** ** Rows found by the scope predicates *)

Lemma context_predicate_Some d c r :
  context_predicate d c = Some r →
  agent_runs d !! run_run_id r = Some r ∧ in_scope c (run_scope r) = true.
Proof.
  unfold context_predicate. intros (rid & Hc & H)%bind_Some.
  apply bind_Some in H as (r' & Hr & H).
  destruct (in_scope c (run_scope r')) eqn:E; [|done]. injection H as ->.
  split; [|done]. apply in_scope_true in E as (_ & _ & _ & E). congruence.
Qed.

Lemma approval_scope_Some d c i a :
  approval_scope_predicate d c i = Some a →
  approval_requests d !! apr_approval_id a = Some a ∧ apr_approval_id a = i ∧
  in_scope c (approval_scope a) = true.
Proof.
  unfold approval_scope_predicate. intros (x & Hx & H)%bind_Some.
  destruct (in_scope c (approval_scope x)) eqn:E; [|done]. simpl in H.
  case_bool_decide; [|done]. injection H as ->. subst. done.
Qed.

Lemma execution_scope_Some d c i e :
  execution_scope_predicate d c i = Some e →
  tool_executions d !! exe_execution_id e = Some e ∧ exe_execution_id e = i ∧
  in_scope c (execution_scope e) = true.
Proof.
  unfold execution_scope_predicate. intros (x & Hx & H)%bind_Some.
  destruct (in_scope c (execution_scope x)) eqn:E; [|done]. simpl in H.
  case_bool_decide; [|done]. injection H as ->. subst. done.
Qed.

Lemma in_scope_eq c k k' : in_scope c k = true → in_scope c k' = true → k = k'.
Proof.
  destruct k as [[[t w] s] r], k' as [[[t' w'] s'] r'].
  rewrite !in_scope_true. intros (-> & -> & Hs & Hr) (-> & -> & Hs' & Hr'). congruence.
Qed.

(** ** Statements that write *)

Ltac wp_step :=
  match goal with
  | |- wp (_ ≫= _) _ _ _ => apply wp_bind
  | |- wp (mret _) _ _ _ => apply wp_ret
  | |- wp (lock_run _) _ _ _ => apply wp_ret
  | |- wp (lock_tenant _) _ _ _ => apply wp_ret
  | |- wp (throw _) _ _ _ => apply wp_throw
  | |- wp (gets _) _ _ _ => apply wp_gets
  | |- wp (require _ _) _ _ _ => apply wp_require; [intros ?|]
  | |- wp (lift _) _ _ _ => apply wp_lift; [intros ? ?|]
  | |- wp db_now_ms _ _ _ => apply wp_db_now_ms
  | |- wp (if ?b then _ else _) _ _ _ => destruct b eqn:?
  | |- wp (match ?x with _ => _ end) _ _ _ => destruct x eqn:?
  | |- wp _ _ _ _ => apply wp_read; [solve [auto with reads]|intros ? ?|]
  end.

Section Writes.
Context `{Env} (q : Z).
Implicit Types w : World.

(** A world whose database is the one we started from, up to effects. *)
Lemma steps_db w0 w w' : steps q w0 w → w_db w' = w_db w → steps q w0 w'.
Proof. unfold steps. by intros ? ->. Qed.

Lemma steps_effect w0 w w' :
  steps q w0 w → effect q (w_db w) (w_db w') → steps q w0 w'.
Proof. unfold steps, effects. intros H1 H2. by eapply rtc_r. Qed.

Lemma wp_update_agent_runs {A} c where_ set_ (f : Z → M A) w0 w :
  steps q w0 w →
  (∀ now r, context_predicate (w_db w) c = Some r → where_ now r = true →
     run_step (w_db w) r (set_ now r)) →
  (∀ n, read_only (f n)) →
  wp (update_agent_runs c where_ set_ ≫= f) (λ _, steps q w0) (steps q w0) w.
Proof.
  intros H0 Hstep Hf. unfold update_agent_runs. do 3 wp_step. wp_step. wp_step.
  assert (Hread : ∀ n w', steps q w0 w' → wp (f n) (λ _, steps q w0) (steps q w0) w').
  { intros n w' Hw. by apply wp_read. }
  cbn [w_db setter]. destruct (context_predicate (w_db w) c) as [r|] eqn:E.
  - destruct (where_ _ r) eqn:Ew; [|apply Hread; by eapply steps_db].
    apply Hread. eapply steps_effect; [exact H0|].
    apply RunStepped; [by apply context_predicate_Some in E as [? _]|by eapply Hstep].
  - apply Hread. by eapply steps_db.
Qed.

Lemma wp_update_approval_requests {A} c i where_ set_ (f : Z → M A) w0 w :
  steps q w0 w →
  (∀ now a, approval_scope_predicate (w_db w) c i = Some a → where_ now a = true →
     approval_step a (set_ now a)) →
  (∀ n w', steps q w0 w' → wp (f n) (λ _, steps q w0) (steps q w0) w') →
  wp (update_approval_requests c i where_ set_ ≫= f) (λ _, steps q w0) (steps q w0) w.
Proof.
  intros H0 Hstep Hf. unfold update_approval_requests. do 5 wp_step.
  cbn [w_db setter]. destruct (approval_scope_predicate (w_db w) c i) as [a|] eqn:E.
  - destruct (where_ _ a) eqn:Ew; [|apply Hf; by eapply steps_db].
    apply Hf. eapply steps_effect; [exact H0|].
    apply ApprovalStepped; [by apply approval_scope_Some in E as [? _]|by eapply Hstep].
  - apply Hf. by eapply steps_db.
Qed.

Lemma wp_update_tool_executions {A} c i where_ set_ (f : Z → M A) w0 w :
  steps q w0 w →
  (∀ now e, execution_scope_predicate (w_db w) c i = Some e →
     where_ (w_db w) now e = true → execution_step e (set_ now e)) →
  (∀ n, read_only (f n)) →
  wp (update_tool_executions c i where_ set_ ≫= f) (λ _, steps q w0) (steps q w0) w.
Proof.
  intros H0 Hstep Hf. unfold update_tool_executions. do 5 wp_step.
  assert (Hread : ∀ n w', steps q w0 w' → wp (f n) (λ _, steps q w0) (steps q w0) w').
  { intros n w' Hw. by apply wp_read. }
  cbn [w_db setter]. destruct (execution_scope_predicate (w_db w) c i) as [e|] eqn:E.
  - destruct (where_ _ _ e) eqn:Ew; [|apply Hread; by eapply steps_db].
    apply Hread. eapply steps_effect; [exact H0|].
    apply ExecutionStepped; [by apply execution_scope_Some in E as [? _]|by eapply Hstep].
  - apply Hread. by eapply steps_db.
Qed.

Lemma wp_insert_approval_requests a w0 w :
  steps q w0 w → fresh_approval a →
  wp (insert_approval_requests a) (λ _, steps q w0) (steps q w0) w.
Proof.
  intros H0 Ha. unfold insert_approval_requests. repeat wp_step; [|done].
  eapply steps_effect; [exact H0|]. by apply ApprovalInserted.
Qed.

Lemma wp_insert_tool_executions e w0 w :
  steps q w0 w → fresh_execution e → scope_idle (w_db w) (execution_scope e) →
  wp (insert_tool_executions e) (λ _, steps q w0) (steps q w0) w.
Proof.
  intros H0 He Hi. unfold insert_tool_executions. repeat wp_step; [|done].
  eapply steps_effect; [exact H0|]. by apply ExecutionInserted.
Qed.

Lemma wp_insert_execution_checkpoints k w0 w :
  steps q w0 w →
  wp (insert_execution_checkpoints k) (λ _, steps q w0) (steps q w0) w.
Proof.
  intros H0. unfold insert_execution_checkpoints. repeat wp_step; [|done].
  eapply steps_effect; [exact H0|]. by apply CheckpointInserted.
Qed.

Lemma wp_insert_audit_logs a w0 w :
  steps q w0 w → wp (insert_audit_logs a) (λ _, steps q w0) (steps q w0) w.
Proof.
  intros H0. unfold insert_audit_logs. repeat wp_step; [|done].
  eapply steps_effect; [exact H0|]. by apply AuditInserted.
Qed.

(** A run is inserted while its tenant is below the quota. *)
Lemma wp_insert_agent_runs r w0 w :
  steps q w0 w → fresh_run r →
  (count_rows (active_runs_of (run_tenant_id r)) (agent_runs (w_db w)) < q)%Z →
  wp (insert_agent_runs r) (λ _, steps q w0) (steps q w0) w.
Proof.
  intros H0 Hr Hq. unfold insert_agent_runs. repeat wp_step; [|done].
  eapply steps_effect; [exact H0|]. by apply RunCreated.
Qed.

(** Sequencing: after [m], a read-only rest. *)
Lemma wp_then_read {A B} (m : M A) (f : A → M B) w0 w :
  wp m (λ _, steps q w0) (steps q w0) w → (∀ a, read_only (f a)) →
  wp (m ≫= f) (λ _, steps q w0) (steps q w0) w.
Proof.
  intros Hm Hf. apply wp_bind. eapply wp_mono; [|exact Hm].
  intros a w' Hw. by apply wp_read.
Qed.
End Writes.

(** ** Steps of a run *)

Section RunSteps.
Context (repo : WorkflowRepository) (d : Db).

Lemma claim_step i now r : run_active r = true → run_step d r (claim_columns repo i now r).
Proof. intros Ha. split; simpl; [done|done|by right|by left|by left|by left]. Qed.

Lemma refresh_step now r : run_step d r (refresh_columns repo now r).
Proof. split; simpl; [done|done|by left|by left|by left|by left]. Qed.

Lemma claim_status_step i now r t :
  run_active r = true → t ∈ LEGAL_RUN_TRANSITIONS (run_run_status r) →
  run_terminal t = false →
  run_step d r (claim_columns repo i now r <| run_run_status := t |>).
Proof.
  intros Ha Ht Hn. split; simpl; [done|done|by right| |by left|by left].
  right. simpl. by rewrite Hn.
Qed.

Lemma transition_step target now r :
  target ∈ LEGAL_RUN_TRANSITIONS (run_run_status r) →
  run_step d r (transition_columns repo target now r).
Proof.
  intros Ht. unfold transition_columns.
  destruct (run_terminal target) eqn:E;
    (split; simpl; [done|done|by left| |by left|by left]);
    right; simpl; by rewrite E.
Qed.

Lemma awaiting_active r : run_run_status r = RUN_AWAITING_USER → run_active r = true.
Proof. unfold run_active. by intros ->. Qed.

Lemma cancel_step_waiting i now r :
  run_run_status r = RUN_AWAITING_USER →
  run_step d r (claim_columns repo i now r <| run_run_status := RUN_CANCELLED |>
                  <| run_finished_at := Some now |>).
Proof.
  intros Hr. split; simpl; [done|done|right|right|by left|by left].
  - split; [done|by apply awaiting_active].
  - simpl. rewrite Hr. split; [set_solver|done].
Qed.

Lemma cancellation_step now r :
  run_cancel_requested_at r = None →
  run_step d r (cancellation_columns repo
    (bool_decide (run_run_status r = RUN_AWAITING_USER)) now r).
Proof.
  intros Hc. unfold cancellation_columns. case_bool_decide as Hr;
    (split; simpl; [done|done|by left| |right; rewrite Hc; simpl; eauto|by left]).
  - right. simpl. rewrite Hr. split; [set_solver|done].
  - by left.
Qed.

Lemma resume_plan_step i now r p v :
  run_run_status r = RUN_AWAITING_USER → run_plan_id r = Some p →
  is_Some (agent_plan_versions d !!
    (run_tenant_id r, run_workspace_id r, run_session_id r, p, v)) →
  run_step d r (claim_columns repo i now r <| run_run_status := RUN_RESUMING |>
                  <| run_active_plan_version := Some v |>).
Proof.
  intros Hr Hp Hv. split; simpl; [done|done|right|right|by left|right; eauto 10].
  - split; [done|by apply awaiting_active].
  - simpl. rewrite Hr. split; [set_solver|done].
Qed.
End RunSteps.

(** ** Repository methods *)

Create HintDb refine.
#[export] Hint Extern 1 (steps _ ?w ?w) => reflexivity : refine.
#[export] Hint Resolve steps_db : refine.

Section Repository.
Context `{Env} (q : Z) (repo : WorkflowRepository).

Lemma moves_take_over_run c i : moves (steps q) (take_over_run repo c i).
Proof.
  apply wp_moves. intros w. unfold take_over_run. wp_step. wp_step.
  wp_step. wp_step; [|done]. apply get_run_Ok in H0 as [_ ->].
  destruct (context_predicate (w_db w) c) as [r|] eqn:E; [|by apply wp_ret].
  cbn [fmap option_fmap option_map].
  wp_step. wp_step; [|done]. wp_step; [|by apply wp_ret].
  apply wp_update_agent_runs; [done| |auto with reads].
  intros now r' Hr' _. rewrite E in Hr'. injection Hr' as <-. by apply claim_step.
Qed.

Lemma moves_resume_waiting_run c i : moves (steps q) (resume_waiting_run repo c i).
Proof.
  apply wp_moves. intros w. unfold resume_waiting_run. wp_step. wp_step.
  wp_step. wp_step; [|done]. wp_step; [|by apply wp_ret]. wp_step; [by apply wp_ret|].
  apply wp_update_agent_runs; [done| |auto with reads].
  intros now r' _ Hs%bool_decide_eq_true.
  apply claim_status_step; [by apply awaiting_active|rewrite Hs; set_solver|done].
Qed.

Lemma waiting_plan_run_Ok c p v g n w o w' :
  waiting_plan_run c p v g n w = (Ok (Some o), w') →
  w' = w ∧ ∃ r, context_predicate (w_db w) c = Some r ∧ o = run_record r ∧
    run_run_status r = RUN_AWAITING_USER ∧ run_plan_id r = Some p ∧
    run_version r = n ∧
    is_Some (agent_plan_versions (w_db w) !!
      (run_tenant_id r, run_workspace_id r, run_session_id r, p, v)).
Proof.
  unfold waiting_plan_run. intros (u & w1 & [= <- <-] & H0)%bind_Ok.
  apply bind_Ok in H0 as (cur & w2 & [-> ->]%get_run_Ok & H0).
  destruct (context_predicate (w_db w) c) as [r|] eqn:E; [|done]. simpl in H0.
  case_bool_decide as Hst; [done|]. case_bool_decide as Hp; [done|].
  case_bool_decide as Hn; [done|]. simpl in H0.
  apply bind_Ok in H0 as (b & w3 & Hb & H0).
  destruct b; [|done]. injection H0 as <- <-.
  unfold plan_version_exists in Hb. apply bind_Ok in Hb as (d & w4 & [= <- <-] & Hb).
  injection Hb as Hb <-.
  apply context_predicate_Some in E as [_ Hs]. unfold run_scope in Hs.
  apply in_scope_true in Hs as (Ht & Hw & Hs & _). rewrite Hs, <-Ht, <-Hw in Hb.
  destruct (agent_plan_versions (w_db w) !! _) as [pv|] eqn:Ev; [|done].
  split; [done|]. exists r. split_and!; try done; try (by apply dec_stable).
Qed.

Lemma read_only_waiting_plan_run c p v g n : read_only (waiting_plan_run c p v g n).
Proof. unfold waiting_plan_run, lock_run. solve_reads. Qed.
Hint Resolve read_only_waiting_plan_run : reads.

(** The three operations on a waiting Plan run. *)
Lemma moves_waiting_plan (set_ : Z → agent_run → agent_run) c i p v g n :
  (∀ d now r, run_run_status r = RUN_AWAITING_USER → run_plan_id r = Some p →
     is_Some (agent_plan_versions d !!
       (run_tenant_id r, run_workspace_id r, run_session_id r, p, v)) →
     run_step d r (set_ now r)) →
  moves (steps q)
    (current ← waiting_plan_run c p v g n;
     match current with
     | None => mret None
     | Some current =>
       n' ← update_agent_runs c (waiting_plan_where p n) set_;
       claimed c i current n'
     end).
Proof.
  intros Hset. apply wp_moves. intros w. wp_step. wp_step; [|done]. wp_step; [|by apply wp_ret].
  apply wp_update_agent_runs; [done| |auto with reads].
  subst. apply waiting_plan_run_Ok in H0 as (_ & r0 & Hr0 & _ & _ & _ & _ & Hv).
  intros now r1 Hr Hw. rewrite Hr0 in Hr. injection Hr as ->.
  unfold waiting_plan_where in Hw. rewrite !andb_true_iff, !bool_decide_eq_true in Hw.
  destruct Hw as [[? ?] ?]. by apply Hset.
Qed.

Lemma moves_resume_waiting_plan_run c i p v n :
  moves (steps q) (resume_waiting_plan_run repo c i p v n).
Proof. apply moves_waiting_plan. intros. by apply resume_plan_step with (p := p). Qed.

Lemma moves_fence_waiting_plan_run c i p v g n :
  moves (steps q) (fence_waiting_plan_run repo c i p v g n).
Proof. apply moves_waiting_plan. intros. by apply claim_step, awaiting_active. Qed.

Lemma moves_cancel_waiting_plan_run c i p v n :
  moves (steps q) (cancel_waiting_plan_run repo c i p v n).
Proof. apply moves_waiting_plan. intros. by apply cancel_step_waiting. Qed.

Lemma moves_request_cancellation c : moves (steps q) (request_cancellation repo c).
Proof.
  apply wp_moves. intros w. unfold request_cancellation. do 3 wp_step.
  wp_step; [|done]. apply get_run_Ok in H0 as [_ ->].
  destruct (context_predicate (w_db w) c) as [r|] eqn:E; [|by apply wp_ret].
  cbn [fmap option_fmap option_map]. wp_step; [by apply wp_ret|]. wp_step; [by apply wp_ret|].
  apply wp_update_agent_runs; [done| |auto with reads].
  intros now r' Hr' _. rewrite E in Hr'. injection Hr' as <-. apply cancellation_step.
  apply bool_decide_eq_false in Heqb0. simpl in Heqb0.
  by destruct (run_cancel_requested_at r); [destruct Heqb0; eauto|].
Qed.

Lemma moves_refresh_lease l : moves (steps q) (refresh_lease repo l).
Proof.
  apply wp_moves. intros w. unfold refresh_lease.
  apply wp_update_agent_runs; [done| |auto with reads].
  intros. apply refresh_step.
Qed.

Lemma moves_transition_run l t : moves (steps q) (transition_run repo l t).
Proof.
  apply wp_moves. intros w. unfold transition_run. do 3 wp_step.
  wp_step; [|done]. apply get_run_Ok in H0 as [_ ->].
  destruct (context_predicate (w_db w) (rl_context l)) as [r|] eqn:E; [|by apply wp_ret].
  cbn [fmap option_fmap option_map]. unfold validate_run_transition.
  wp_step. wp_step. wp_step; [|done]. wp_step. wp_step; [|done]. wp_step; [|done].
  apply wp_update_agent_runs; [done| |auto with reads].
  intros now r' Hr' _. rewrite E in Hr'. injection Hr' as <-.
  apply transition_step. by apply bool_decide_eq_true in H2.
Qed.
End Repository.

Lemma not_null_Ok t v w s w' : not_null t v w = (Ok s, w') → v = Some s ∧ w' = w.
Proof. destruct v; simpl; [by intros [= -> ->]|done]. Qed.

Lemma nonterminal_execution_statuses s :
  s ∈ NONTERMINAL_EXECUTION_STATUSES ↔ exec_terminal s = false.
Proof.
  unfold NONTERMINAL_EXECUTION_STATUSES. rewrite list_elem_of_In, filter_In.
  rewrite <-list_elem_of_In, negb_true_iff.
  split; [by intros [_ ?]|]. intros Hs. split; [apply enum_members_all|done].
Qed.

(** The [NOT EXISTS] of [insert_execution] is the idleness the specification asks. *)
Lemma open_execution_idle c d k :
  in_scope c k = true → open_execution c d = false → scope_idle d k.
Proof.
  intros Hk Ho i e He Hek. unfold open_execution in Ho.
  rewrite exists_row_false in Ho. specialize (Ho i e He). rewrite Hek, Hk in Ho.
  simpl in Ho. apply bool_decide_eq_false in Ho. unfold execution_open.
  rewrite nonterminal_execution_statuses in Ho. by destruct (exec_terminal _).
Qed.

Lemma write_once_overwrite stored given :
  write_once stored given = true → written_once stored (overwrite given stored).
Proof.
  unfold write_once, overwrite, written_once. intros Hw v ->.
  destruct given as [g|]; [|done]. case_bool_decide; [done|].
  by apply bool_decide_eq_true in Hw.
Qed.

(** Only the clock moved. *)
Ltac same_db := solve [assumption | unfold steps, effects; apply rtc_refl].

Section Executions.
Context `{Env} (q : Z) (repo : WorkflowRepository).

Lemma wp_has_current_lease l Q X w :
  Q (lease_exists l (w_db w) (env_clock (w_ticks w))) (w <| w_ticks := S (w_ticks w) |>) →
  wp (has_current_lease l) Q X w.
Proof. done. Qed.

(** Run the lease check; the branch that found no lease changes nothing. *)
Ltac wp_lease :=
  wp_step; wp_step; wp_step; apply wp_has_current_lease; wp_step;
    [apply wp_ret; same_db|].

Lemma moves_mark_approval_expired c i v : moves (steps q) (mark_approval_expired c i v).
Proof.
  apply wp_moves. intros w. unfold mark_approval_expired.
  apply wp_update_approval_requests; [done| |intros n w' ?; by apply wp_ret].
  intros now a _ Hw. rewrite !andb_true_iff, !bool_decide_eq_true in Hw.
  destruct Hw as [[Hs _] Ht%Z.leb_le]. split; simpl; [done|done|rewrite Hs; set_solver|].
  by exists now.
Qed.

Lemma moves_resolve_approval c i b v : moves (steps q) (resolve_approval c i b v).
Proof.
  apply wp_moves. intros w. unfold resolve_approval.
  apply wp_update_approval_requests; [done| |].
  - intros now a _ Hw. rewrite !andb_true_iff, !bool_decide_eq_true in Hw.
    destruct Hw as [[Hs _] Ht%Z.ltb_lt]. split; simpl; [done|done| |].
    + rewrite Hs. destruct b; set_solver.
    + exists now. split; [done|]. destruct b; (split; [done|lia]).
  - intros n w' Hw. apply wp_read; [|done..]. solve_reads.
Qed.

Lemma moves_insert_approval l i t e : moves (steps q) (insert_approval l i t e).
Proof.
  apply wp_moves. intros w. unfold insert_approval. wp_lease.
  wp_step. wp_step. wp_step. wp_step; [|same_db]. wp_step. wp_step; [|same_db].
  apply wp_then_read; [|intros; solve_reads].
  apply wp_insert_approval_requests; [same_db|done].
Qed.

Lemma moves_insert_execution l i : moves (steps q) (insert_execution repo l i).
Proof.
  apply wp_moves. intros w. unfold insert_execution. wp_lease.
  wp_step. wp_step; [|same_db]. wp_step. wp_step. wp_step. wp_step.
  wp_step; [apply wp_ret; same_db|].
  wp_step. wp_step; [|same_db]. wp_step. wp_step; [|same_db].
  apply wp_then_read; [|intros; solve_reads].
  apply not_null_Ok in H1 as [Hs _], H2 as [Hr _].
  apply wp_insert_tool_executions; [same_db|done|].
  eapply open_execution_idle; [|exact Heqb0].
  by apply in_scope_true.
Qed.

Lemma set_status_step e e' now t :
  same_execution e e' → exe_version e' = (exe_version e + 1)%Z →
  t ∈ LEGAL_EXECUTION_TRANSITIONS (exe_execution_status e) →
  exe_updated_at e' = now → exe_finished_at e' = exe_finished_at e →
  written_once (exe_external_request_id e) (exe_external_request_id e') →
  written_once (exe_result_ref e) (exe_result_ref e') →
  written_once (exe_result_digest e) (exe_result_digest e') →
  execution_step e (set_execution_status t now e').
Proof.
  intros Hsame Hv Ht Hu Hf H1 H2 H3. unfold set_execution_status.
  destruct (exec_terminal t) eqn:E; (split; simpl; [done|done|right|done..]);
    simpl; rewrite E; by subst.
Qed.

Lemma moves_transition_execution l i s v t :
  moves (steps q) (transition_execution l i s v t).
Proof.
  apply wp_moves. intros w. unfold transition_execution. wp_step. wp_step; [|same_db].
  wp_lease. apply wp_update_tool_executions; [same_db| |intros; solve_reads].
  intros now e _ Hw. rewrite !andb_true_iff, !bool_decide_eq_true in Hw.
  destruct Hw as [[Hs _] _]. apply bool_decide_eq_true in H0.
  apply set_status_step; try done; [by rewrite Hs|by intros ? ?..].
Qed.

Lemma metadata_step m now e :
  match xm_target_status m with
  | None => True
  | Some t => t ∈ LEGAL_EXECUTION_TRANSITIONS (exe_execution_status e)
  end →
  write_once (exe_external_request_id e) (xm_external_request_id m) = true →
  write_once (exe_result_ref e) (xm_result_ref m) = true →
  write_once (exe_result_digest e) (xm_result_digest m) = true →
  execution_step e (metadata_columns m now e).
Proof.
  intros Ht H1%write_once_overwrite H2%write_once_overwrite H3%write_once_overwrite.
  unfold metadata_columns. destruct (xm_target_status m) as [t|].
  - by apply set_status_step.
  - split; simpl; [done|done|by left|done..].
Qed.

Lemma moves_update_execution_metadata l i s v m :
  moves (steps q) (update_execution_metadata l i s v m).
Proof.
  apply wp_moves. intros w. unfold update_execution_metadata. wp_lease.
  assert (Hupd : ∀ w1, steps q w w1 →
    match xm_target_status m with None => True | Some t => t ∈ LEGAL_EXECUTION_TRANSITIONS s end →
    wp (n ← update_tool_executions (rl_context l) i
          (λ d now e, bool_decide (exe_execution_status e = s) &&
                  bool_decide (exe_version e = v) && lease_exists l d now &&
                  write_once (exe_external_request_id e) (xm_external_request_id m) &&
                  write_once (exe_result_ref e) (xm_result_ref m) &&
                  write_once (exe_result_digest e) (xm_result_digest m))
          (metadata_columns m);
        if bool_decide (n ≠ 1%Z) then mret None else
        updated ← get_execution_recovery (rl_context l) i;
        row ← assert_some updated;
        mret (Some row)) (λ _, steps q w) (steps q w) w1).
  { intros w1 Hw1 Ht. apply wp_update_tool_executions; [same_db| |intros; solve_reads].
    intros now e _ Hw. rewrite !andb_true_iff, !bool_decide_eq_true in Hw.
    destruct Hw as (((((<- & _) & _) & ?) & ?) & ?). by apply metadata_step. }
  wp_step. destruct (xm_target_status m) as [t|].
  - wp_step; [|same_db]. apply Hupd; [same_db|]. by apply bool_decide_eq_true in H0.
  - apply wp_ret. by apply Hupd; [same_db|].
Qed.

Lemma moves_insert_checkpoint l i : moves (steps q) (insert_checkpoint l i).
Proof.
  apply wp_moves. intros w. unfold insert_checkpoint. wp_lease.
  wp_step. wp_step; [|same_db]. wp_step.
  apply wp_read; [solve_reads|intros seq _|same_db].
  wp_step. wp_step. wp_step. wp_step; [|same_db]. wp_step. wp_step; [|same_db].
  apply wp_then_read; [|intros; solve_reads].
  apply wp_insert_execution_checkpoints; same_db.
Qed.

Lemma moves_insert_audit_log c e s t x a i :
  moves (steps q) (insert_audit_log c e s t x a i).
Proof.
  apply wp_moves. intros w. unfold insert_audit_log. apply wp_bind.
  unfold wp at 1. simpl. wp_step. wp_step. apply wp_insert_audit_logs; same_db.
Qed.
End Executions.

(** ** Coordinator operations *)

Lemma moves_read `{Env} {A} q (m : M A) : read_only m → moves (steps q) m.
Proof. intros Hm w. by rewrite (Hm w). Qed.

Lemma moves_uuid4 `{Env} q : moves (steps q) uuid4.
Proof. intros w. unfold steps. simpl. apply rtc_refl. Qed.

Lemma moves_has_current_lease `{Env} q l : moves (steps q) (has_current_lease l).
Proof. intros w. unfold steps. simpl. apply rtc_refl. Qed.

Lemma moves_write_connection `{Env} {A} q co (m : M A) :
  moves (steps q) m → moves (steps q) (write_connection co m).
Proof.
  intros Hm. unfold write_connection. destruct (co_connection co); [done|].
  apply moves_transaction; [done|]. intros w w'. unfold steps. simpl. apply rtc_refl.
Qed.

#[export] Hint Resolve moves_uuid4 moves_has_current_lease moves_take_over_run
  moves_resume_waiting_run moves_resume_waiting_plan_run moves_fence_waiting_plan_run
  moves_cancel_waiting_plan_run moves_request_cancellation moves_refresh_lease
  moves_transition_run moves_mark_approval_expired moves_resolve_approval
  moves_insert_approval moves_insert_execution moves_transition_execution
  moves_update_execution_metadata moves_insert_checkpoint moves_insert_audit_log : refine.

(** Follow the composition of an operation. *)
Ltac solve_moves :=
  repeat first
    [ solve [auto with refine]
    | apply moves_read; solve [solve_reads]
    | apply moves_write_connection
    | apply moves_bind; [apply _| |intros ?]
    | progress cbv zeta
    | case_match ].

Lemma or_raise_Ok {A} e (v : option A) w a w' :
  or_raise e v w = (Ok a, w') → v = Some a ∧ w' = w.
Proof. destruct v; [|done]. by intros [= -> ->]. Qed.

Lemma or_raise_bind_Ok {A B} e (v : option A) (f : A → M B) w b w' :
  (or_raise e v ≫= f) w = (Ok b, w') → ∃ a, v = Some a ∧ f a w = (Ok b, w').
Proof. destruct v; [eauto|]. by intros [=]. Qed.

Section Coordinator.
Context `{Env} (co : WorkflowCoordinator).
Let q := set_max_concurrent_runs_per_tenant (co_settings co).

Lemma read_only_or_raise {A} e (v : option A) : read_only (or_raise e v).
Proof. unfold or_raise. solve_reads. Qed.
Lemma read_only_plan_awaiting_payload r p v g : read_only (plan_awaiting_payload r p v g).
Proof. unfold plan_awaiting_payload. solve_reads. Qed.
Lemma read_only_latest_is_terminal k : read_only (latest_is_terminal k).
Proof. unfold latest_is_terminal. solve_reads. Qed.
Hint Resolve read_only_or_raise read_only_plan_awaiting_payload
  read_only_latest_is_terminal : reads.

Lemma moves_write_checkpoint co' l i : moves (steps q) (write_checkpoint co' l i).
Proof. unfold write_checkpoint. solve_moves. Qed.
Hint Resolve moves_write_checkpoint : refine.

Lemma moves_checkpoint co' l ph p o : moves (steps q) (checkpoint co' l ph p o).
Proof. unfold checkpoint. solve_moves. Qed.
Hint Resolve moves_checkpoint : refine.

Lemma enforce_run_quota_Ok t w u w' :
  enforce_run_quota co t w = (Ok u, w') →
  w' = w ∧ (count_rows (active_runs_of t) (agent_runs (w_db w)) < q)%Z.
Proof.
  unfold enforce_run_quota. intros (n & w1 & [= <- <-] & H0)%bind_Ok.
  case_bool_decide as Hn; [|done]. by injection H0 as _ <-.
Qed.

Lemma moves_quota_create repo c i s p v a :
  s ∈ ACTIVE_RUN_STATUSES →
  moves (steps q)
    (enforce_run_quota co (tc_tenant_id c) ;; create_run repo c i s p v a).
Proof.
  intros Hs. apply wp_moves. intros w. wp_step.
  apply wp_read; [unfold enforce_run_quota; solve_reads|intros u Hu|done].
  apply enforce_run_quota_Ok in Hu as [_ Hq]. unfold create_run.
  wp_step. wp_step; [|done]. wp_step. wp_step.
  wp_step. wp_step; [|same_db]. wp_step. wp_step; [|same_db].
  apply wp_then_read; [|intros; auto with reads].
  apply wp_insert_agent_runs; [same_db| |exact Hq].
  split_and!; try done. unfold run_active. simpl. by apply bool_decide_eq_true.
Qed.

Lemma moves_bind_assoc {A B C} (m : M A) (f : A → M B) (g : B → M C) :
  moves (steps q) ((m ≫= f) ≫= g) → moves (steps q) (m ≫= λ a, f a ≫= g).
Proof.
  intros H0 w. specialize (H0 w). unfold mbind, stM_bind in *.
  by destruct (m w) as [[a|e] w'].
Qed.

Lemma moves_start_run c i : moves (steps q) (start_run co c i).
Proof.
  unfold start_run. apply moves_write_connection.
  apply moves_bind; [apply _|by apply moves_read|intros _]. apply moves_quota_create. set_solver.
Qed.

Lemma moves_start_run_with_checkpoint c i :
  moves (steps q) (start_run_with_checkpoint co c i).
Proof.
  unfold start_run_with_checkpoint. apply moves_write_connection.
  apply moves_bind; [apply _|by apply moves_read|intros _]. apply moves_bind_assoc.
  apply moves_bind; [apply _|apply moves_quota_create; set_solver|intros l]. solve_moves.
Qed.

Lemma moves_start_plan_run_with_checkpoint c i p v g :
  moves (steps q) (start_plan_run_with_checkpoint co c i p v g).
Proof.
  unfold start_plan_run_with_checkpoint. apply moves_write_connection.
  apply moves_bind; [apply _|by apply moves_read|intros _].
  apply moves_bind; [apply _|solve_moves|intros present].
  apply moves_bind; [apply _|solve_moves|intros _]. apply moves_bind_assoc.
  apply moves_bind; [apply _|apply moves_quota_create; set_solver|intros l]. solve_moves.
Qed.

Lemma moves_start_approved_plan_run_with_checkpoint c i p v g :
  moves (steps q) (start_approved_plan_run_with_checkpoint co c i p v g).
Proof.
  unfold start_approved_plan_run_with_checkpoint. apply moves_write_connection.
  apply moves_bind; [apply _|by apply moves_read|intros _].
  apply moves_bind; [apply _|solve_moves|intros present].
  apply moves_bind; [apply _|solve_moves|intros _]. apply moves_bind_assoc.
  apply moves_bind; [apply _|apply moves_quota_create; set_solver|intros l]. solve_moves.
Qed.

Lemma moves_acquire_run c i : moves (steps q) (acquire_run co c i).
Proof. unfold acquire_run. solve_moves. Qed.
Lemma moves_co_resume_waiting_run c i : moves (steps q) (co_resume_waiting_run co c i).
Proof. unfold co_resume_waiting_run. solve_moves. Qed.
Lemma moves_co_resume_waiting_plan_run c i p v n :
  moves (steps q) (co_resume_waiting_plan_run co c i p v n).
Proof. unfold co_resume_waiting_plan_run. solve_moves. Qed.
Lemma moves_co_fence_waiting_plan_run c i p v n g :
  moves (steps q) (co_fence_waiting_plan_run co c i p v n g).
Proof. unfold co_fence_waiting_plan_run. solve_moves. Qed.
Lemma moves_cancelled_checkpoint c l f : moves (steps q) (cancelled_checkpoint co c l f).
Proof. unfold cancelled_checkpoint. solve_moves. Qed.
Hint Resolve moves_cancelled_checkpoint : refine.
Lemma moves_co_cancel_waiting_plan_run c i p v n :
  moves (steps q) (co_cancel_waiting_plan_run co c i p v n).
Proof. unfold co_cancel_waiting_plan_run. solve_moves. Qed.
Lemma moves_co_request_cancellation plans c :
  PlanReads plans → moves (steps q) (co_request_cancellation plans co c).
Proof. intros Hg. pose proof plans_get_reads. unfold co_request_cancellation. solve_moves. Qed.
Lemma moves_raise_if_cancel_requested c :
  moves (steps q) (raise_if_cancel_requested co c).
Proof. unfold raise_if_cancel_requested. solve_moves. Qed.
Lemma moves_heartbeat l : moves (steps q) (heartbeat co l).
Proof. unfold heartbeat. solve_moves. Qed.
Lemma moves_co_transition_run l t : moves (steps q) (co_transition_run co l t).
Proof. unfold co_transition_run. solve_moves. Qed.
Lemma moves_finish_transition l t : moves (steps q) (finish_transition co l t).
Proof. unfold finish_transition. solve_moves. Qed.
Hint Resolve moves_finish_transition : refine.
Lemma moves_finish_run l t : moves (steps q) (finish_run co l t).
Proof. unfold finish_run, require_terminal_target. solve_moves. Qed.
Lemma moves_finish_run_with_checkpoint l t :
  moves (steps q) (finish_run_with_checkpoint co l t).
Proof. unfold finish_run_with_checkpoint, require_terminal_target. solve_moves. Qed.
Lemma moves_decide_approval c i b v : moves (steps q) (decide_approval co c i b v).
Proof. unfold decide_approval, decide_approval_body. solve_moves. Qed.
Lemma moves_create_approval l i t e : moves (steps q) (create_approval co l i t e).
Proof. unfold create_approval. solve_moves. Qed.
Lemma moves_create_execution l i : moves (steps q) (create_execution co l i).
Proof. unfold create_execution. solve_moves. Qed.
Lemma moves_execution_conflict {A} l : moves (steps q) (execution_conflict l : M A).
Proof. unfold execution_conflict. solve_moves. Qed.
Hint Resolve moves_execution_conflict : refine.
Lemma moves_co_transition_execution l i s v t :
  moves (steps q) (co_transition_execution co l i s v t).
Proof. unfold co_transition_execution. solve_moves. Qed.
Lemma moves_update_metadata l i s v m : moves (steps q) (update_metadata co l i s v m).
Proof. unfold update_metadata. solve_moves. Qed.
End Coordinator.
