(* ===== verification/PlanRefinement.v ===== *)
(** * The Plan repository refines its specification

    Every method of the Plan repository, whatever its arguments and its outcome, moves
    the database along [plan_effect] only: what a savepoint undoes leaves no trace, and
    what is committed is one whole step. *)

From S2P Require Import Prelude Records Errors Json Regex Tenancy WorkflowModels Storage.
From S2P Require Import Collections PlanStorage Checkpoint PlanValidation PlanOrder.
From S2P Require Import PlanSpec.
From S2P Require Import PlanRecords PlanReading WorkflowRepository PlanRepository.
From S2P Require Import PlanDecisions PlanAttempts PlanContent PlanEffects.
From S2P Require Import WorkflowCoordinator WorkflowSpec WorkflowRefinement.
From stdpp Require Import base gmap strings list sorting fin_maps relations.

(** ** Rules *)

Definition plan_steps `{Env} : relation World := λ w w', rtc plan_effect (w_db w) (w_db w').

#[export] Instance plan_steps_preorder `{Env} : PreOrder plan_steps.
Proof. split; unfold plan_steps; [by intros w|by intros w1 w2 w3 ? ?; etrans]. Qed.

(** The same database, later. *)
Definition later (w w' : World) : Prop := w_db w' = w_db w.

#[export] Instance later_preorder : PreOrder later.
Proof. split; unfold later; [done|congruence]. Qed.

Section Rules.
Context `{envi : Env}.

Lemma later_steps w w' : later w w' → plan_steps w w'.
Proof. unfold later, plan_steps. by intros ->. Qed.

Lemma wp_savepoint {A} (m : M A) Q X w :
  wp m Q (λ w', X (rollback w w')) w → wp (savepoint any_exception m) Q X w.
Proof. unfold wp, savepoint, any_exception. by destruct (m w) as [[a|e] w']. Qed.

Lemma wp_savepoint_integrity {A} (m : M A) Q X w :
  wp m Q (λ w', X w' ∧ X (rollback w w')) w → wp (savepoint is_integrity_error m) Q X w.
Proof.
  unfold wp, savepoint. destruct (m w) as [[a|e] w']; [done|].
  intros [? ?]. by destruct (is_integrity_error e).
Qed.

Lemma wp_check_constraints l Q X w :
  (satisfied l → Q tt w) → X w → wp (check_constraints l) Q X w.
Proof.
  intros HQ HX. unfold wp.
  by destruct (check_constraints_cases l w) as [[-> Hl]|(v&->&_)]; [apply HQ|].
Qed.

Lemma wp_set_db d Q X w : Q tt (w <| w_db := d |>) → wp (set_db d) Q X w.
Proof. done. Qed.

Lemma wp_uuid4 Q X w :
  (∀ i, Q i (w <| w_draws := S (w_draws w) |>)) → wp uuid4 Q X w.
Proof. intros HQ. unfold wp. simpl. apply HQ. Qed.

Lemma wp_on_connection {A} (m : M A) Q X t :
  wp m (λ a w, Q a (t <| tx_world := w |>)) (λ w, X (t <| tx_world := w |>)) (tx_world t) →
  wp (on_connection m) Q X t.
Proof. unfold wp, on_connection. by destruct (m (tx_world t)) as [[a|e] w']. Qed.

Lemma read_only_on_connection {A} (m : M A) : read_only m → read_only (on_connection m).
Proof.
  intros Hm t. unfold on_connection. specialize (Hm (tx_world t)).
  destruct (m (tx_world t)) as [r w']. simpl in *. subst. by destruct t.
Qed.
End Rules.

(** ** Reading *)

#[export] Hint Resolve read_only_on_connection : reads.

Section Reads.
Context `{envi : Env} (c : TenantContext) (settings : PlanningSettings).

Lemma read_only_require_session : read_only (require_session c).
Proof. unfold require_session. solve_reads. Qed.
Hint Resolve read_only_require_session : reads.

Lemma read_only_get_plan p : read_only (get_plan c p).
Proof. unfold get_plan. solve_reads. Qed.
Hint Resolve read_only_get_plan : reads.

Lemma read_only_lock_plan p : read_only (lock_plan c p).
Proof. unfold lock_plan. solve_reads. Qed.

Lemma read_only_validate_supersedes p n v m : read_only (validate_supersedes c p n v m).
Proof. unfold validate_supersedes. solve_reads. Qed.

Lemma read_only_get_decision p i : read_only (get_decision c p i).
Proof. unfold get_decision. solve_reads. Qed.

Lemma read_only_history p n : read_only (require_unambiguous_decision_history c p n).
Proof. unfold require_unambiguous_decision_history. solve_reads. Qed.

Lemma read_only_decision_result p i b : read_only (decision_result c p i b).
Proof. unfold decision_result. solve_reads. Qed.
Hint Resolve read_only_decision_result read_only_get_decision : reads.

Lemma read_only_decision_replay r b x : read_only (decision_replay c r b x).
Proof. unfold decision_replay. solve_reads. Qed.
Hint Resolve read_only_decision_replay : reads.

Lemma read_only_replay_decision r b : read_only (replay_decision c r b).
Proof. unfold replay_decision. solve_reads. Qed.

Lemma read_only_unclaimed r l : read_only (unclaimed r l).
Proof. unfold unclaimed. solve_reads. Qed.

Lemma read_only_revision_claim_key p : read_only (revision_claim_key c p).
Proof. unfold revision_claim_key. solve_reads. Qed.
Hint Resolve read_only_revision_claim_key : reads.

Lemma read_only_pending_revision_claim p : read_only (pending_revision_claim c p).
Proof. unfold pending_revision_claim. solve_reads. Qed.

Lemma read_only_count_round_units r p : read_only (count_round_units c r p).
Proof. unfold count_round_units. solve_reads. Qed.

Lemma read_only_latest_step_attempts p n r : read_only (latest_step_attempts c p n r).
Proof. unfold latest_step_attempts. solve_reads. Qed.
Hint Resolve read_only_latest_step_attempts : reads.

Lemma read_only_running_attempts r : read_only (read_running_step_attempts c r).
Proof. unfold read_running_step_attempts. solve_reads. Qed.

Lemma read_only_step_run r i : read_only (read_step_run c r i).
Proof. unfold read_step_run. solve_reads. Qed.

Lemma read_only_has_running_attempt r : read_only (has_running_attempt c r).
Proof. unfold has_running_attempt. solve_reads. Qed.
Hint Resolve read_only_has_running_attempt : reads.

Lemma read_only_no_running_attempt r : read_only (require_no_running_attempt c r).
Proof. unfold require_no_running_attempt. solve_reads. Qed.

Lemma read_only_latest_attempt_number r s : read_only (latest_attempt_number c r s).
Proof. unfold latest_attempt_number. solve_reads. Qed.

Lemma read_only_lease_matches l : read_only (lease_matches_context c l).
Proof. unfold lease_matches_context. solve_reads. Qed.
Hint Resolve read_only_lease_matches : reads.

Lemma read_only_require_lease_scope l : read_only (require_lease_scope c l).
Proof. unfold require_lease_scope. solve_reads. Qed.

Lemma read_only_active_plan_version run p n :
  read_only (require_active_plan_version c run p n).
Proof. unfold require_active_plan_version. solve_reads. Qed.

Lemma read_only_step_ready r p n s : read_only (require_step_ready c settings r p n s).
Proof. unfold require_step_ready, positive_attempt_limit. solve_reads. Qed.
End Reads.

#[export] Hint Resolve read_only_require_session read_only_get_plan read_only_lock_plan
  read_only_validate_supersedes read_only_get_decision read_only_history
  read_only_decision_result read_only_decision_replay read_only_replay_decision
  read_only_unclaimed read_only_revision_claim_key read_only_pending_revision_claim
  read_only_count_round_units read_only_latest_step_attempts read_only_running_attempts
  read_only_step_run read_only_has_running_attempt read_only_no_running_attempt
  read_only_latest_attempt_number read_only_lease_matches read_only_require_lease_scope
  read_only_active_plan_version read_only_step_ready : reads.

(** The repository keeps its promise to its readers. *)
#[export] Instance plan_repository_reads `{Env} : PlanReads plan_repository.
Proof. split; simpl; auto with reads. Qed.

(** ** Versions *)

Local Notation steps := PlanValidation.steps.
Local Notation scoped := PlanRepository.scoped.

Section Versions.
Context `{envi : Env} (c : TenantContext) (settings : PlanningSettings).

(** [insert_each] on a table: the rows have fresh, distinct keys, and are all there. *)
Lemma wp_insert_each {A} (ins : A → M unit) (into : Db → A → Db) (ok : Db → A → Prop) l w :
  (∀ x w, wp (ins x) (λ _ w', ok (w_db w) x ∧ w_db w' = into (w_db w) x) (λ _, True) w) →
  wp (insert_each ins l)
    (λ _ w', w_db w' = foldl into (w_db w) l ∧
       ∀ i x, l !! i = Some x → ok (foldl into (w_db w) (take i l)) x)
    (λ _, True) w.
Proof.
  intros Hins. revert w. induction l as [|x l IH]; intros w; [done|]. simpl.
  apply wp_bind. eapply wp_weaken; [|done|apply Hins]. intros _ w1 [Hok H1].
  eapply wp_weaken; [|done|apply IH]. intros _ w2 [H2 Hl]. rewrite H1 in *.
  split; [done|]. intros [|i] y Hy; [by injection Hy as <-|by apply Hl].
Qed.

Definition into_steps (d : Db) (s : agent_plan_step) : Db :=
  d <| agent_plan_steps := <[ste_step_id s := s]> (agent_plan_steps d) |>.
Definition into_dependencies (d : Db) (x : agent_plan_step_dependency) : Db :=
  d <| agent_plan_step_dependencies :=
         <[dependency_key x := x]> (agent_plan_step_dependencies d) |>.

Lemma foldl_into_steps d l :
  foldl into_steps d l =
  d <| agent_plan_steps := foldl (λ m s, <[ste_step_id s := s]> m) (agent_plan_steps d) l |>.
Proof.
  revert d. induction l as [|s l IH]; intros d; [by destruct d|]. simpl. by rewrite IH.
Qed.

Lemma foldl_into_dependencies d l :
  foldl into_dependencies d l =
  d <| agent_plan_step_dependencies :=
         foldl (λ m x, <[dependency_key x := x]> m) (agent_plan_step_dependencies d) l |>.
Proof.
  revert d. induction l as [|s l IH]; intros d; [by destruct d|]. simpl. by rewrite IH.
Qed.

Lemma foldl_insert_fresh {V} (key : V → string) (m : gmap string V) l :
  (∀ i x, l !! i = Some x →
     foldl (λ m x, <[key x := x]> m) m (take i l) !! key x = None) →
  NoDup (map key l) ∧ ∀ x, x ∈ l → m !! key x = None.
Proof.
  revert m. induction l as [|x l IH]; intros m Hf.
  { split; [constructor|]. by intros x ?%elem_of_nil. }
  pose proof (Hf 0%nat x eq_refl) as Hx. simpl in Hx.
  destruct (IH (<[key x := x]> m)) as [Hn Hl].
  { intros i y Hy. apply (Hf (S i) y Hy). }
  assert (Hrest : ∀ y, y ∈ l → key x ≠ key y ∧ m !! key y = None).
  { intros y Hy. specialize (Hl y Hy). apply lookup_insert_None in Hl as [? ?]; auto. }
  simpl. split.
  - constructor; [|done]. intros (y&Hy&Hin)%list_elem_of_fmap. by destruct (Hrest y Hin).
  - intros y [->|Hy]%elem_of_cons; [done|]. by apply Hrest.
Qed.

Lemma wp_insert_steps l w :
  wp (insert_each insert_agent_plan_steps l)
    (λ _ w', w_db w' = foldl into_steps (w_db w) l ∧ NoDup (map ste_step_id l) ∧
       ∀ s, s ∈ l → agent_plan_steps (w_db w) !! ste_step_id s = None)
    (λ _, True) w.
Proof.
  eapply wp_weaken; [|done|apply (wp_insert_each _ into_steps
    (λ d s, agent_plan_steps d !! ste_step_id s = None))].
  - intros _ w' [Hw Hf]. split; [done|]. apply foldl_insert_fresh. intros i s Hs.
    specialize (Hf i s Hs). by rewrite foldl_into_steps in Hf.
  - intros s w1. unfold insert_agent_plan_steps. wp_step. wp_step. wp_step.
    apply wp_check_constraints; [|done]. intros Hs. apply wp_set_db. split; [|done].
    unfold agent_plan_steps_constraints in Hs.
    rewrite !satisfied_cons, bool_decide_eq_true in Hs. apply Hs.
Qed.

Lemma wp_insert_dependencies l w :
  wp (insert_each insert_agent_plan_step_dependencies l)
    (λ _ w', w_db w' = foldl into_dependencies (w_db w) l) (λ _, True) w.
Proof.
  eapply wp_weaken; [|done|apply (wp_insert_each _ into_dependencies (λ _ _, True))].
  - by intros _ w' [Hw _].
  - intros x w1. unfold insert_agent_plan_step_dependencies. wp_step. wp_step. wp_step.
    apply wp_check_constraints; [|done]. intros _. by apply wp_set_db.
Qed.

Lemma wp_draw_step_ids l m w :
  wp (draw_step_ids l m)
    (λ m' w', later w w' ∧ ∃ ids, length ids = length l ∧
       m' = foldl (λ m ki, <[ki.1 := ki.2]> m) m
              (zip (map (λ s, logical_step_key (vps_step s)) l) ids))
    (λ _, True) w.
Proof.
  revert m w. induction l as [|s l IH]; intros m w; simpl.
  { apply wp_ret. split; [done|]. by exists []. }
  wp_step. apply wp_uuid4. intros i. eapply wp_weaken; [|done|apply IH].
  intros m' w' (Hw&ids&Hlen&->). split; [by unfold later in *|].
  exists (i :: ids). simpl. by rewrite Hlen.
Qed.

(** What was drawn is the identifier map of a content. *)
Lemma drawn_id_map x :
  NoDup (plan_keys (c_plan x)) → length (c_ids x) = length (steps (c_plan x)) →
  foldl (λ m ki, <[ki.1 := ki.2]> m) ∅ (zip (plan_keys (c_plan x)) (c_ids x)) = id_map x.
Proof.
  intros Hn Hlen. apply map_eq. intros j. unfold id_map.
  assert (Hz : (zip (plan_keys (c_plan x)) (c_ids x)).*1 = plan_keys (c_plan x)).
  { apply fst_zip. unfold plan_keys. by rewrite length_map, Hlen. }
  apply option_eq. intros i. assert (Hnd : NoDup (zip (plan_keys (c_plan x)) (c_ids x)).*1) by (by rewrite Hz).
  etrans; [by apply (dict_from_lookup fst snd)|].
  rewrite <-elem_of_list_to_map by done. split.
  - by intros ([a b]&Hab&<-&<-).
  - intros Hji. by exists (j, i).
Qed.

Lemma step_rows_content k n x :
  NoDup (plan_keys (c_plan x)) → length (c_ids x) = length (steps (c_plan x)) →
  step_rows k n (c_supersedes x) (id_map x) (steps (c_plan x)) = Ok (content_steps k n x).
Proof.
  intros Hn Hlen. unfold step_rows.
  rewrite (mapM_Ok _ (λ s, step_row k n (c_supersedes x) (id_of x (logical_step_key (vps_step s))) s)).
  - f_equal. apply list_eq. intros i. unfold content_steps. rewrite list_lookup_fmap.
    destruct (steps (c_plan x) !! i) as [s|] eqn:Hs.
    + destruct (lookup_lt_is_Some_2 (c_ids x) i) as [j Hj].
      { rewrite Hlen. by eapply lookup_lt_Some. }
      symmetry. simpl. apply lookup_zip_with_Some. exists j, s. split_and!; [|done|done].
      unfold id_of. by rewrite (id_map_at x i s j).
    + symmetry. apply lookup_ge_None. rewrite length_zip_with.
      apply lookup_ge_None in Hs. lia.
  - intros s [i Hs]%list_elem_of_lookup_1.
    destruct (lookup_lt_is_Some_2 (c_ids x) i) as [j Hj].
    { rewrite Hlen. by eapply lookup_lt_Some. }
    unfold step_id_of, id_of. by rewrite (id_map_at x i s j).
Qed.

Lemma dependency_rows_content k n x :
  well_planned (c_plan x) → length (c_ids x) = length (steps (c_plan x)) →
  dependency_rows k n (id_map x) (steps (c_plan x)) = Ok (content_dependencies k n x).
Proof.
  intros Hw Hlen. unfold dependency_rows, content_dependencies, content_pairs.
  rewrite map_map. apply mapM_Ok.
  assert (Hkey : ∀ y, y ∈ plan_keys (c_plan x) → step_id_of (id_map x) y = Ok (id_of x y)).
  { intros y (s&->&[i Hs]%list_elem_of_lookup_1)%list_elem_of_fmap.
    destruct (lookup_lt_is_Some_2 (c_ids x) i) as [j Hj].
    { rewrite Hlen. by eapply lookup_lt_Some. }
    unfold step_id_of, id_of. rewrite (id_map_at x i s j) by (done || apply Hw). done. }
  intros [a b] Hab. unfold dependency_pairs in Hab.
  apply list_elem_of_In, in_concat in Hab as (m&Hm&Hab).
  apply list_elem_of_In, list_elem_of_fmap in Hm as (s&->&Hs).
  apply list_elem_of_In, list_elem_of_fmap in Hab as (y&[= -> ->]&Hy).
  simpl. rewrite (Hkey (logical_step_key s)).
  - simpl. rewrite (Hkey y); [done|]. apply (wpl_known _ Hw s y Hs Hy).
  - by apply (list_elem_of_fmap_2 (λ s, logical_step_key (vps_step s))).
Qed.

Lemma wp_insert_version p n v par fb sup now sid w :
  accepted v → tc_session_id c = Some sid →
  wp (insert_version c p n v par fb sup now)
    (λ _ w', ∃ x, c_plan x = v ∧ c_parent x = par ∧ c_feedback x = fb ∧
       fresh_content (w_db w) (scoped c sid p) n x ∧
       w_db w' = add_content (w_db w) (scoped c sid p) n x)
    (λ _, True) w.
Proof.
  intros Ha Hsid. pose proof (accepted_well_planned v Ha) as Hw. unfold insert_version.
  unfold require_session. rewrite Hsid. wp_step. wp_step. wp_step.
  unfold insert_agent_plan_versions. wp_step. wp_step. wp_step.
  apply wp_check_constraints; [|done]. intros Hsat. apply wp_set_db.
  assert (Hfresh : agent_plan_versions (w_db w) !! (scoped c sid p, n) = None).
  { unfold agent_plan_versions_constraints in Hsat.
    rewrite !satisfied_cons, bool_decide_eq_true in Hsat. apply Hsat. }
  clear Hsat. wp_step. eapply wp_weaken; [|done|apply wp_draw_step_ids].
  intros m w1 (Hw1&ids&Hlen&->). set (x := MkContent v ids sup par fb now).
  change (map (λ s, logical_step_key (vps_step s)) (steps v)) with (plan_keys (c_plan x)).
  change ids with (c_ids x). rewrite (drawn_id_map x) by (done || apply Hw).
  change sup with (c_supersedes x). change v with (c_plan x).
  rewrite step_rows_content by (done || apply Hw). wp_step. wp_step; [|done].
  injection H as <-. wp_step. eapply wp_weaken; [|done|apply wp_insert_steps].
  intros _ w2 (H2&Hn&Hnew). rewrite dependency_rows_content by done.
  wp_step. wp_step; [|done]. injection H as <-.
  eapply wp_weaken; [|done|apply wp_insert_dependencies]. intros ? w3 H3.
  unfold later in Hw1.
  assert (Hids : map ste_step_id (content_steps (scoped c sid p) n x) = ids).
  { apply list_eq. intros i. rewrite list_lookup_fmap. unfold content_steps.
    destruct (ids !! i) as [j|] eqn:Hj.
    - destruct (lookup_lt_is_Some_2 (steps v) i) as [s Hs].
      { rewrite <-Hlen. by eapply lookup_lt_Some. }
      apply fmap_Some. exists (step_row (scoped c sid p) n sup j s). split; [|done].
      apply lookup_zip_with_Some. eauto.
    - rewrite (proj2 (lookup_ge_None _ i)); [done|]. rewrite length_zip_with.
      apply lookup_ge_None in Hj. simpl. lia. }
  exists x. split_and!; try done.
  - split; [split; [done|done|change (NoDup ids); by rewrite <-Hids]|done|done|].
    intros j Hj. simpl in Hj. rewrite <-Hids in Hj. apply list_elem_of_fmap in Hj as (s&->&Hs).
    specialize (Hnew s Hs). by rewrite Hw1 in Hnew.
  - rewrite H3, H2, Hw1, foldl_into_dependencies, foldl_into_steps. done.
Qed.
End Versions.

Lemma read_plan_fields `{Env} c d k p s :
  read_plan c d k p = Ok s →
  ps_status s = pl_status p ∧ ps_current_version s = pl_current_version p ∧
  ps_aggregate_version s = pl_version p.
Proof.
  unfold read_plan. intros (vs&_&Hs)%result_bind_Ok.
  destruct (version_numbered _ _); [|done]. by injection Hs as <-.
Qed.

Lemma plan_predicate_Some d k p :
  plan_predicate d k = Some p ↔ agent_plans d !! k.2 = Some p ∧ plan_scope p = k.
Proof.
  unfold plan_predicate. rewrite bind_Some. split.
  - intros (q&Hq&Hs). case_bool_decide; [|done]. by injection Hs as ->.
  - intros [Hp Hs]. exists p. split; [done|]. by rewrite bool_decide_eq_true_2.
Qed.

Lemma plan_predicate_key d k p :
  plan_predicate d k = Some p → agent_plans d !! pl_id p = Some p ∧ plan_scope p = k.
Proof. intros [Hp <-]%plan_predicate_Some. done. Qed.

(** The computation ends here, with the database as it was. *)
Ltac same_world := unfold wp; simpl; first [done | by apply later_steps].

Section Plans.
Context `{envi : Env} (c : TenantContext) (settings : PlanningSettings).
Implicit Types w : World.

Lemma plan_steps_effect w0 w w' :
  plan_steps w0 w → plan_effect (w_db w) (w_db w') → plan_steps w0 w'.
Proof. unfold plan_steps. intros. by eapply rtc_r. Qed.

Lemma moves_create_plan p m t draft : moves plan_steps (create_plan c settings p m t draft).
Proof.
  apply wp_moves. intros w. unfold create_plan, require_session.
  destruct (tc_session_id c) as [sid|] eqn:Hsid; [|same_world].
  wp_step. wp_step. wp_step. wp_step; [|same_world]. rename a into v, H into Hv.
  apply wp_savepoint. wp_step. apply wp_db_now_ms. wp_step. unfold insert_agent_plans.
  wp_step. wp_step. wp_step. apply wp_check_constraints; [|same_world]. intros Hsat.
  apply wp_set_db. wp_step. eapply wp_weaken; [| |apply (wp_insert_version c)]; [|intros; same_world|by eexists _, _|done].
  intros _ w' (x&_&_&_&Hf&Hw'). wp_step. wp_step; [|same_world].
  assert (Hdone : plan_steps w w').
  { eapply plan_steps_effect; [done|]. rewrite Hw'. apply PlanCreated; [done|done|].
    by destruct Hf. }
  destruct a; [exact Hdone|same_world].
Qed.

Lemma moves_append_version p e draft par fb sup :
  moves plan_steps (append_version c settings p e draft par fb sup).
Proof.
  apply wp_moves. intros w. unfold append_version, require_session.
  destruct (tc_session_id c) as [sid|] eqn:Hsid; [|same_world].
  wp_step. wp_step. wp_step. wp_step; [|same_world]. rename a into v, H into Hv.
  wp_step. wp_step. destruct (plan_predicate _ _) as [q|] eqn:Hq; [|same_world].
  wp_step. wp_step; [|same_world]. wp_step. wp_step; [|same_world]. wp_step. wp_step; [|same_world]. wp_step.
  apply bool_decide_eq_true in H, H0. subst e par. clear H1.
  apply plan_predicate_key in Hq as [Hq Hk].
  assert (Hread : ∀ w', plan_steps w w' →
    wp (revised ← get_plan c p; match revised with
        | Some s => mret s
        | None => throw (RuntimeError "Plan missing after revision")
        end) (λ _, plan_steps w) (plan_steps w) w').
  { intros w' Hw'. wp_step. apply wp_read; [auto with reads| |done].
    intros [s|] _; exact Hw'. }
  apply wp_savepoint. wp_step. apply wp_db_now_ms. wp_step.
  eapply wp_weaken; [| |apply (wp_insert_version c)]; [|intros; same_world|by eexists _, _|done].
  intros _ w' (x&_&Hpar&_&Hf&Hw'). wp_step. unfold update_agent_plans. wp_step. wp_step.
  destruct (plan_predicate _ _) as [q'|] eqn:Hq'; [|same_world].
  apply plan_predicate_key in Hq' as [Hq' Hk']. rewrite Hw' in Hq'.
  assert (q' = q) as ->.
  { change (agent_plans (w_db w) !! pl_id q' = Some q') in Hq'.
    assert (pl_id q' = pl_id q) by (rewrite <-Hk in Hk'; by apply (f_equal snd) in Hk').
    congruence. }
  destruct (_ && _); [|same_world]. wp_step.
  apply wp_check_constraints; [|same_world]. intros _. wp_step. apply wp_set_db. wp_step. wp_step; [|same_world].
  apply Hread. eapply plan_steps_effect; [done|]. simpl. rewrite Hw'.
  rewrite <-Hk. rewrite <-Hk in Hf.
  exact (PlanRevised (w_db w) q x (env_clock (w_ticks w)) Hq Hpar Hf).
Qed.
End Plans.

(** ** Decisions *)

Section Decisions.
Context `{envi : Env} (c : TenantContext).
Implicit Types w : World.

Lemma require_session_Ok w sid w' :
  require_session c w = (Ok sid, w') → w' = w ∧ tc_session_id c = Some sid.
Proof. unfold require_session. destruct (tc_session_id c); [by intros [= <- <-]|done]. Qed.

Lemma get_decision_Ok sid p i w o w' :
  tc_session_id c = Some sid → get_decision c p i w = (Ok o, w') →
  o = hydrate_decision <$> agent_plan_decisions (w_db w) !! (scoped c sid p, i).
Proof.
  intros Hs. unfold get_decision, require_session. rewrite Hs. by intros [= <- <-].
Qed.

Lemma lock_plan_Ok sid p w s w' :
  tc_session_id c = Some sid → lock_plan c p w = (Ok s, w') →
  ∃ q, plan_predicate (w_db w) (scoped c sid p) = Some q ∧
    ps_status s = pl_status q ∧ ps_current_version s = pl_current_version q ∧
    ps_aggregate_version s = pl_version q.
Proof.
  intros Hs. unfold lock_plan, get_plan, require_session. rewrite Hs.
  unfold mbind at 1, stM_bind at 1. simpl. unfold mbind at 1, stM_bind at 1. simpl.
  destruct (plan_predicate _ _) as [q|] eqn:Hq; [|done].
  unfold mbind, stM_bind, lift. simpl. rewrite Hq.
  destruct (read_plan _ _ _ _) as [s'|] eqn:Hr; [|done]. simpl. intros [= <- <-].
  exists q. split; [done|]. by apply read_plan_fields in Hr.
Qed.

Lemma history_Ok sid p n w l w' :
  tc_session_id c = Some sid →
  require_unambiguous_decision_history c p n w = (Ok l, w') →
  l = map hydrate_decision
        (List.filter (λ x, Z.leb (dec_expected_plan_cas_version x) n)
           (decision_scope_predicate (w_db w) (scoped c sid p))).
Proof.
  intros Hs. unfold require_unambiguous_decision_history, require_session. rewrite Hs.
  unfold mbind, stM_bind, require. simpl. destruct (unambiguous _); [|done].
  by intros [= <- <-].
Qed.

Definition decision_row (sid : string) (r : PlanDecisionRequest) (decided_by : string)
    (now : Z) : agent_plan_decision := {|
  dec_tenant_id := tc_tenant_id c;
  dec_workspace_id := tc_workspace_id c;
  dec_session_id := sid;
  dec_plan_id := req_plan_id r;
  dec_decision_id := req_decision_id r;
  dec_plan_version := req_plan_version r;
  dec_expected_plan_cas_version := req_expected_version r;
  dec_action := req_action r;
  dec_feedback := req_feedback r;
  dec_decided_by := decided_by;
  dec_resulting_plan_version := None;
  dec_created_at := now |}.

(** What the guards of a decision establish. *)
Lemma guarded_decision d sid q r by_ now latest l :
  plan_predicate d (scoped c sid (req_plan_id r)) = Some q →
  ps_status latest = pl_status q → ps_current_version latest = pl_current_version q →
  ps_aggregate_version latest = pl_version q →
  require_current_decision_target r latest = Ok tt →
  l = map hydrate_decision
        (List.filter (λ x, Z.leb (dec_expected_plan_cas_version x) (req_expected_version r))
           (decision_scope_predicate d (scoped c sid (req_plan_id r)))) →
  existsb (λ x, bool_decide (pdr_expected_plan_cas_version x = req_expected_version r)) l = false →
  agent_plan_decisions d !! (scoped c sid (req_plan_id r), req_decision_id r) = None →
  decides d q (decision_row sid r by_ now).
Proof.
  intros Hq Hst Hcur Hver Htarget -> Hfree Hfresh. unfold require_current_decision_target in Htarget.
  apply ensure_Ok in Htarget. rewrite !andb_true_iff, !bool_decide_eq_true in Htarget.
  destruct Htarget as [[H1 H2] H3]. apply plan_predicate_key in Hq as [Hq Hk].
  split; simpl; try congruence; try done.
  intros i y Hy Hs Heq.
  enough (true = false) by done. rewrite <-Hfree. symmetry. apply existsb_exists.
  exists (hydrate_decision y). split; [|apply bool_decide_eq_true; simpl; congruence].
  apply list_elem_of_In, list_elem_of_fmap_2, elem_of_filter_bool. split; [|apply Z.leb_le; lia].
  apply elem_of_filter_bool. split; [by eapply rows_lookup|]. apply bool_decide_eq_true. congruence.
Qed.

Lemma wp_insert_decision sid r by_ now w :
  tc_session_id c = Some sid →
  wp (insert_decision c r by_ None now)
    (λ _ w', w_db w' = (w_db w)
       <| agent_plan_decisions := <[decision_key (decision_row sid r by_ now) :=
            decision_row sid r by_ now]> (agent_plan_decisions (w_db w)) |>)
    (later w) w.
Proof.
  intros Hs. unfold insert_decision, require_session. rewrite Hs. wp_step. wp_step.
  unfold insert_agent_plan_decisions. wp_step. wp_step. wp_step.
  apply wp_check_constraints; [|done]. intros _. by apply wp_set_db.
Qed.

(** A decision that moved the Plan. *)
Definition decision_applied (sid : string) (r : PlanDecisionRequest) (by_ : string)
    (q : agent_plan) (now : Z) (d d' : Db) : Prop :=
  let x := decision_row sid r by_ now in
  d' = d <| agent_plan_decisions := <[decision_key x := x]> (agent_plan_decisions d) |>
         <| agent_plans := <[pl_id q := decided x q]> (agent_plans d) |>.

(** The savepoint of a decision: it moves the Plan and answers from the new state, or
    finds no row to move. *)
Lemma wp_apply_decision sid r by_ q w :
  tc_session_id c = Some sid → req_action r ≠ DECIDE_REVISE →
  plan_predicate (w_db w) (scoped c sid (req_plan_id r)) = Some q →
  wp (apply_decision c sid r by_)
    (λ o w', ∀ a, o = Some a → (∃ now, decision_applied sid r by_ q now (w_db w) (w_db w')) ∧
       decision_result c (req_plan_id r) (req_decision_id r) false w' = (Ok a, w'))
    (λ _, True) w.
Proof.
  intros Hs Ha Hq. unfold apply_decision. wp_step. apply wp_db_now_ms. wp_step.
  eapply wp_weaken; [| |by apply wp_insert_decision]; [|done]. intros ? w1 H1. cbn beta in H1.
  wp_step. unfold update_agent_plans. wp_step. wp_step.
  destruct (plan_predicate (w_db w1) _) as [q'|] eqn:Hq'.
  2:{ wp_step. simpl. wp_step. done. }
  assert (q' = q) as ->.
  { rewrite H1 in Hq'. change (plan_predicate (w_db w) (scoped c sid (req_plan_id r)) = Some q') in Hq'.
    congruence. }
  destruct (_ && _); [|wp_step; simpl; wp_step; done].
  wp_step. apply wp_check_constraints; [|done]. intros _. wp_step. apply wp_set_db.
  wp_step. simpl. apply wp_bind, wp_read; [auto with reads| |done]. intros a' Hres. wp_step.
  intros ? [= <-]. split; [|done]. exists (env_clock (w_ticks w)).
  unfold decision_applied. simpl. rewrite H1. set (now := env_clock (w_ticks w)).
  assert (decided (decision_row sid r by_ now) q = decide_columns r now q) as ->; [|done].
  unfold decided, decide_columns, decided_status. simpl.
  destruct (req_action r); [done|done|by destruct Ha].
Qed.

(** The steps of a transaction. *)
Definition tx_steps : relation PlanTx := λ t t', plan_steps (tx_world t) (tx_world t').

#[export] Instance tx_steps_preorder : PreOrder tx_steps.
Proof. split; unfold tx_steps; [by intros t|by intros t1 t2 t3 ? ?; etrans]. Qed.

Lemma moves_on_connection {A} (m : M A) : moves plan_steps m → moves tx_steps (on_connection m).
Proof.
  intros Hm t. unfold tx_steps, on_connection. specialize (Hm (tx_world t)).
  by destruct (m (tx_world t)).
Qed.

Lemma wp_read_steps {S A B} (R : relation S) (m : stM S exn A) (f : A → stM S exn B) (w0 w : S) :
  read_only m → R w0 w → (∀ a, m w = (Ok a, w) → wp (f a) (λ _, R w0) (R w0) w) →
  wp (m ≫= f) (λ _, R w0) (R w0) w.
Proof. intros Hm H0 Hf. apply wp_bind, wp_read; auto. Qed.

(** A computation that only reads. *)
Ltac reads_only := apply wp_read; [solve_reads|done..].

(** The answer to a decision is read from the state it leaves, in which the decision is
    either the identical one that was there or a new one that moved the Plan. *)
Definition answered (sid : string) (r : PlanDecisionRequest) (by_ : string) (w w' : World)
    (a : PlanDecisionMutationResult) : Prop :=
  decision_result c (req_plan_id r) (req_decision_id r) (dmr_idempotent_replay a) w' = (Ok a, w') ∧
  ((later w w' ∧ dmr_idempotent_replay a = true ∧ ∃ x,
      agent_plan_decisions (w_db w') !! (scoped c sid (req_plan_id r), req_decision_id r) = Some x ∧
      require_identical_decision r by_ (hydrate_decision x) = Ok tt) ∨
   (dmr_idempotent_replay a = false ∧ req_action r ≠ DECIDE_REVISE ∧ ∃ q now,
      plan_predicate (w_db w) (scoped c sid (req_plan_id r)) = Some q ∧
      decides (w_db w) q (decision_row sid r by_ now) ∧
      decision_applied sid r by_ q now (w_db w) (w_db w'))).

Lemma decision_result_flag p i b w a w' :
  decision_result c p i b w = (Ok a, w') → dmr_idempotent_replay a = b.
Proof.
  unfold decision_result. intros (o&w1&_&H)%bind_Ok. destruct o as [s|]; [|done].
  destruct (List.find _ _) as [x|]; [|done]. apply bind_Ok in H as (s'&w2&_&[= <- <-]). done.
Qed.

Lemma decision_replay_Ok sid r by_ w0 w x a w' :
  later w0 w →
  agent_plan_decisions (w_db w) !! (scoped c sid (req_plan_id r), req_decision_id r) = Some x →
  decision_replay c r by_ (hydrate_decision x) w = (Ok a, w') → answered sid r by_ w0 w a.
Proof.
  intros Hw Hx. unfold decision_replay. intros (u&w1&Hid&Hres)%bind_Ok.
  unfold lift in Hid. injection Hid as Hid <-. destruct u.
  pose proof (decision_result_flag _ _ _ _ _ _ Hres) as Hf. split.
  - rewrite Hf. pose proof (read_only_decision_result c (req_plan_id r) (req_decision_id r) true w) as Hr.
    rewrite Hres in Hr. simpl in Hr. by subst w'.
  - left. eauto.
Qed.

(** Answering from a stored decision. *)
Lemma wp_stored_decision sid r by_ w0 w x (X : World → Prop) :
  tc_session_id c = Some sid → later w0 w →
  (∃ w1, w_db w1 = w_db w ∧
     get_decision c (req_plan_id r) (req_decision_id r) w1 = (Ok (Some x), w1)) →
  X w →
  wp (decision_replay c r by_ x) (λ a w', answered sid r by_ w0 w' a) X w.
Proof.
  intros Hs Hw (w1&E&Hx) HX. apply (get_decision_Ok sid) in Hx; [|done]. symmetry in Hx.
  apply fmap_Some in Hx as (y&Hy&->). rewrite E in Hy.
  apply wp_read; [auto with reads| |done]. intros a Ha. by eapply decision_replay_Ok.
Qed.

Lemma wp_record_decision r by_ t :
  wp (record_decision c r by_)
    (λ a t', tx_pending t' = tx_pending t ∧ ∃ sid, tc_session_id c = Some sid ∧
       answered sid r by_ (tx_world t) (tx_world t') a)
    (λ t', later (tx_world t) (tx_world t')) t.
Proof.
  unfold record_decision. apply wp_bind, wp_read; [auto with reads| |done]. intros sid Hsid.
  assert (Hs : tc_session_id c = Some sid).
  { unfold on_connection in Hsid. destruct (require_session c _) as [[s|] w'] eqn:E; [|done].
    apply require_session_Ok in E as [_ E]. congruence. }
  clear Hsid. apply wp_bind, wp_read; [auto with reads| |done]. intros pending _.
  wp_step. wp_step; [|done]. clear H. apply wp_on_connection.
  set (w := tx_world t). simpl.
  assert (Hend : ∀ w' a, answered sid r by_ w w' a → tx_pending t = tx_pending t ∧
    ∃ sid, tc_session_id c = Some sid ∧ answered sid r by_ w w' a) by eauto.
  apply wp_bind, wp_read; [auto with reads| |done]. intros [x|] Hx.
  { eapply wp_weaken; [| |apply (wp_stored_decision sid r by_ w w x (later w))];
      [intros a w' Hw'; by apply Hend|done|done|done|by exists w|done]. }
  wp_step. wp_step; [|done]. rename H into Ha.
  apply wp_bind, wp_read; [auto with reads| |done]. intros latest Hl.
  apply wp_bind, wp_read; [auto with reads| |done]. intros [x|] Hx'.
  { eapply wp_weaken; [| |apply (wp_stored_decision sid r by_ w w x (later w))];
      [intros a w' Hw'; by apply Hend|done|done|done|by exists w|done]. }
  wp_step. wp_step; [|done]. destruct a. rename H into Ht.
  apply wp_bind, wp_read; [auto with reads| |done]. intros history Hh.
  apply wp_bind, wp_read; [auto with reads| |done]. intros u Hfree.
  wp_step. wp_step. wp_step.
  apply (get_decision_Ok sid) in Hx; [|done]. symmetry in Hx. apply fmap_None in Hx.
  destruct (lock_plan_Ok sid _ _ _ _ Hs Hl) as (q&Hq&Hst&Hcur&Hver).
  apply (history_Ok sid) in Hh; [|done].
  assert (Hd : ∀ now, decides (w_db w) q (decision_row sid r by_ now)).
  { intros now. eapply guarded_decision; try done. unfold unclaimed, require in Hfree.
    by destruct (existsb _ _). }
  apply negb_true_iff, bool_decide_eq_false in Ha.
  apply wp_catch, wp_savepoint. eapply wp_weaken; [| |by apply (wp_apply_decision sid r by_ q)].
  - intros [a|] w' Hw'.
    + destruct (Hw' a eq_refl) as [[now Happ] Hres]. wp_step. apply Hend.
      pose proof (decision_result_flag _ _ _ _ _ _ Hres) as Hf.
      split; [by rewrite Hf|]. right. eauto 10.
    + wp_step. apply wp_set_db. apply wp_bind, wp_read; [auto with reads| |done].
      by intros [s|] _.
  - intros w' _ e. assert (Hr : later w (rollback w w')) by done.
    destruct e; try exact Hr. destruct (negb _); [exact Hr|].
    apply wp_bind. apply wp_read; [auto with reads| |exact Hr]. intros [x|] Hx2; [|exact Hr].
    apply wp_bind.
    eapply wp_weaken; [| |apply (wp_stored_decision sid r by_ w (rollback w w') x (later w))];
      [intros a w1 Hw1; by apply Hend|done|done|done|by eexists|done].
Qed.

Lemma answered_steps sid r by_ w w' a : answered sid r by_ w w' a → plan_steps w w'.
Proof.
  intros [_ [[Hw _]|(_&Ha&q&now&_&Hd&Happ)]]; [by apply later_steps|].
  unfold plan_steps. rewrite Happ. by apply rtc_once, PlanDecided.
Qed.

Lemma moves_record_decision r by_ : moves tx_steps (record_decision c r by_).
Proof.
  apply wp_moves. intros t. eapply wp_weaken; [| |apply wp_record_decision].
  - intros a t' (_&sid&_&Ha). by eapply answered_steps.
  - intros t' Ht. by apply later_steps.
Qed.

Lemma on_session t sid :
  on_connection (require_session c) t = (Ok sid, t) → tc_session_id c = Some sid.
Proof.
  unfold on_connection. destruct (require_session c _) as [[s|] w'] eqn:E; [|done].
  apply require_session_Ok in E as [_ E]. congruence.
Qed.

Lemma on_connection_Ok {A} (m : M A) t a t' :
  on_connection m t = (Ok a, t') → ∃ w', m (tx_world t) = (Ok a, w').
Proof. unfold on_connection. destruct (m _) as [[b|] w']; [|done]. intros [= -> _]. eauto. Qed.

Lemma moves_register p x : moves tx_steps (register_revision_claim c p x).
Proof.
  apply wp_moves. intros t. unfold register_revision_claim.
  apply wp_read_steps; [auto with reads|done|]. intros key _.
  wp_step. wp_step. wp_step. wp_step; [|done]. unfold wp, tx_steps. simpl. done.
Qed.

Lemma moves_clear p i : moves tx_steps (clear_revision_claim c p i).
Proof.
  apply wp_moves. intros t. unfold clear_revision_claim.
  apply wp_read_steps; [auto with reads|done|]. intros key _.
  wp_step. wp_step. unfold wp, tx_steps. destruct (_ !! key); simpl; [|done].
  destruct (bool_decide _); simpl; done.
Qed.

(** The savepoint of a claim. *)
Lemma wp_claim sid r by_ q w :
  tc_session_id c = Some sid → req_action r = DECIDE_REVISE →
  (∀ now, decides (w_db w) q (decision_row sid r by_ now)) →
  wp (now ← db_now_ms;
      insert_decision c r by_ None now ;;
      inserted ← get_decision c (req_plan_id r) (req_decision_id r);
      match inserted with
      | None => throw (RuntimeError "Plan decision missing after insert")
      | Some x => mret (x, true)
      end) (λ _, plan_steps w) (λ _, True) w.
Proof.
  intros Hs Ha Hd. wp_step. apply wp_db_now_ms. wp_step.
  eapply wp_weaken; [| |by apply wp_insert_decision]; [|done]. intros ? w1 H1. cbn beta in H1.
  apply wp_bind, wp_read; [auto with reads| |done]. intros [x|] _; [|done]. wp_step.
  eapply plan_steps_effect; [done|]. rewrite H1. simpl.
  apply (RevisionClaimed _ q); [apply Hd|done].
Qed.

Lemma moves_begin_revision_decision r by_ : moves tx_steps (begin_revision_decision c r by_).
Proof.
  apply wp_moves. intros t. unfold begin_revision_decision.
  apply wp_read_steps; [auto with reads|done|]. intros sid Hs%on_session.
  wp_step. wp_step; [|done]. apply bool_decide_eq_true in H as Ha. clear H.
  apply wp_read_steps; [auto with reads|done|]. intros [x|] _; [reads_only|].
  apply wp_read_steps; [auto with reads|done|]. intros existing _.
  wp_step. wp_step; [|done]. clear H.
  destruct (existing ≫= _) as [x|]; [by wp_step|].
  apply wp_read_steps; [auto with reads|done|]. intros latest Hl.
  apply wp_read_steps; [auto with reads|done|]. intros [x|] Hx.
  { wp_step. wp_step; [|done]. destruct (pdr_resulting_plan_version x); [by wp_step|].
    wp_step. wp_step; [|done].
    apply wp_read_steps; [auto with reads|done|]. intros _ _. wp_step.
    eapply wp_weaken; [| |apply (moves_wp tx_steps); [apply moves_register|done]]; done. }
  wp_step. wp_step; [|done]. destruct a0. rename H into Ht.
  apply wp_read_steps; [auto with reads|done|]. intros history Hh.
  apply wp_read_steps; [auto with reads|done|]. intros u Hfree.
  set (w := tx_world t).
  apply on_connection_Ok in Hl as [w1 Hl], Hx as [w2 Hx], Hh as [w3 Hh], Hfree as [w4 Hfree].
  apply (get_decision_Ok sid) in Hx; [|done]. symmetry in Hx. apply fmap_None in Hx.
  destruct (lock_plan_Ok sid _ _ _ _ Hs Hl) as (q&Hq&Hst&Hcur&Hver).
  apply (history_Ok sid) in Hh; [|done].
  assert (Hd : ∀ now, decides (w_db w) q (decision_row sid r by_ now)).
  { intros now. eapply guarded_decision; try done. unfold unclaimed, require in Hfree.
    by destruct (existsb _ _). }
  assert (Hend : ∀ (xb : PlanDecisionRecord * bool) t', tx_steps t t' →
    wp (let '(x, is_open) := xb in
        (if (is_open : bool) then register_revision_claim c (req_plan_id r) x else mret tt) ;;
        mret x) (λ _, tx_steps t) (tx_steps t) t').
  { intros [x []] t' Ht'; [|exact Ht']. wp_step.
    eapply wp_weaken; [| |apply (moves_wp tx_steps); [apply moves_register|done]]; done. }
  wp_step. apply wp_on_connection, wp_catch, wp_savepoint.
  eapply wp_weaken; [| |by apply (wp_claim sid r by_ q)].
  - intros xb w' Hw'. by apply Hend.
  - intros w' _ e. assert (Hr : plan_steps w (rollback w w')) by (by apply later_steps).
    destruct e; try exact Hr. destruct (negb _); [exact Hr|].
    apply wp_bind. apply wp_read; [auto with reads| |exact Hr]. intros [x|] _; [|exact Hr].
    wp_step. wp_step; [|exact Hr]. by apply (Hend (x, _)).
Qed.

Lemma moves_finish_revision_decision p i n :
  moves tx_steps (finish_revision_decision c p i n).
Proof.
  apply wp_moves. intros t. unfold finish_revision_decision.
  apply wp_read_steps; [auto with reads|done|]. intros sid Hs%on_session.
  wp_step. wp_step; [|done]. clear H.
  apply wp_read_steps; [auto with reads|done|]. intros [x|] Hx; [|by wp_step].
  wp_step. wp_step; [|done]. clear H.
  apply wp_read_steps; [auto with reads|done|]. intros pending _.
  destruct (pdr_resulting_plan_version x); [reads_only|].
  wp_step. wp_step; [|done]. clear H.
  apply wp_read_steps; [auto with reads|done|]. intros _ _.
  apply wp_read_steps; [auto with reads|done|]. intros d Hd.
  assert (d = w_db (tx_world t)) as -> by (by injection Hd). clear Hd.
  set (w := tx_world t). destruct (revision_appended _ _ _ _) eqn:Happ; simpl.
  2:{ apply wp_read_steps; [auto with reads|done|]. by intros [s|] _; wp_step. }
  assert (Hend : ∀ m t', tx_steps t t' → wp (
    found ← on_connection (get_decision c p i);
    match found with
    | None => throw (if bool_decide (m = 1%Z)
                     then RuntimeError "Plan decision missing after finalization"
                     else PlanNotFoundError "Plan decision not found")
    | Some finished =>
      require (bool_decide (m = 1%Z) ||
               bool_decide (pdr_resulting_plan_version finished = Some n))
        (PlanDecisionIdempotencyError
           "Plan decision already has a different resulting version") ;;
      clear_revision_claim c p i ;; mret finished
    end) (λ _, tx_steps t) (tx_steps t) t').
  { intros m t' Ht'. apply wp_read_steps; [auto with reads|done|]. intros [y|] _; [|exact Ht'].
    wp_step. wp_step; [|done]. wp_step.
    eapply wp_weaken; [| |apply (moves_wp tx_steps); [apply moves_clear|done]]; done. }
  wp_step. apply wp_on_connection. unfold update_agent_plan_decisions.
  wp_step. wp_step. destruct (decision_predicate _ _ _) as [y|] eqn:Hy;
    [|wp_step; apply Hend; unfold tx_steps; done].
  destruct (_ && _) eqn:Hw; [|wp_step; apply Hend; unfold tx_steps; done].
  wp_step. apply wp_check_constraints; [|unfold tx_steps; done]. intros _. wp_step. apply wp_set_db. wp_step.
  apply Hend. unfold tx_steps. eapply plan_steps_effect; [done|]. simpl.
  rewrite !andb_true_iff, !bool_decide_eq_true, !Z.eqb_eq in Hw.
  unfold revision_appended in Happ. rewrite !andb_true_iff, bool_decide_eq_true in Happ.
  destruct Happ as [[-> Hp] _].
  destruct (plan_predicate _ _) as [q|] eqn:Hq; [|done].
  rewrite !andb_true_iff, bool_decide_eq_true, !Z.eqb_eq in Hp.
  apply plan_predicate_key in Hq as [Hq Hk].
  destruct Hw as [[[[[Ha Hpv] Hexp] _] _] Hnone]. rewrite <-Hpv, <-Hexp in *. rewrite <-Hk in *.
  destruct Hp as [[Hst Hcur] Hver].
  exact (RevisionFinished _ q i y Hq Hy Ha Hnone Hst Hcur Hver).
Qed.
End Decisions.
