(* ===== verification/PlanAttemptRefinement.v ===== *)
(** * Step attempts refine their specification

    The guards that [plans.py] checks around an attempt, each read back as a fact about
    the tables, add up to [attempt_allowed]. *)

From S2P Require Import Prelude Records Errors Json Regex Tenancy WorkflowModels Storage.
From S2P Require Import Collections PlanStorage Checkpoint PlanValidation PlanOrder.
From S2P Require Import PlanSpec.
From S2P Require Import PlanRecords PlanReading WorkflowRepository PlanRepository.
From S2P Require Import PlanDecisions PlanAttempts PlanContent PlanEffects.
From S2P Require Import WorkflowCoordinator WorkflowSpec WorkflowRefinement.
From S2P Require Import PlanRefinement.
From stdpp Require Import base gmap strings list sorting fin_maps relations.

Local Notation scoped := PlanRepository.scoped.

(** ** The newest attempts *)

Lemma first_per_step_lookup l s :
  first_per_step l !! s =
  hydrate_step_run <$> List.find (λ x, bool_decide (srn_step_id x = s)) l.
Proof.
  unfold first_per_step.
  assert (Hgen : ∀ m : gmap string PlanStepRunRecord,
    foldl (λ m x, match m !! srn_step_id x with
                  | Some _ => m
                  | None => <[srn_step_id x := hydrate_step_run x]> m
                  end) m l !! s =
    match m !! s with
    | Some r => Some r
    | None => hydrate_step_run <$> List.find (λ x, bool_decide (srn_step_id x = s)) l
    end); [|rewrite Hgen; by rewrite lookup_empty].
  induction l as [|x l IH]; intros m; simpl; [by destruct (m !! s)|]. rewrite IH.
  case_bool_decide as Hx.
  - rewrite Hx. destruct (m !! s) as [r|] eqn:E; [by rewrite E|]. by rewrite lookup_insert_eq.
  - destruct (m !! srn_step_id x) as [r|] eqn:E; [done|]. by rewrite lookup_insert_ne.
Qed.

Lemma newest_attempt_first_spec a b :
  newest_attempt_first a b = true ↔
  String.compare (srn_step_id a) (srn_step_id b) = Lt ∨
  (srn_step_id a = srn_step_id b ∧ (srn_attempt b <= srn_attempt a)%Z).
Proof.
  unfold newest_attempt_first, String.ltb.
  rewrite orb_true_iff, andb_true_iff, String.eqb_eq, Z.leb_le.
  by destruct (String.compare _ _); intuition.
Qed.

Lemma newest_attempt_first_total a b :
  newest_attempt_first a b = false → newest_attempt_first b a = true.
Proof.
  rewrite <-not_true_iff_false, !newest_attempt_first_spec.
  destruct (String.compare (srn_step_id a) (srn_step_id b)) eqn:E; intros Hn.
  - apply String.compare_eq_iff in E. right. split; [done|]. destruct (Z.le_gt_cases
      (srn_attempt b) (srn_attempt a)); [|lia]. destruct Hn. auto.
  - destruct Hn. auto.
  - left. rewrite String.compare_antisym, E. done.
Qed.

Lemma newest_attempt_first_trans a b c :
  newest_attempt_first a b = true → newest_attempt_first b c = true →
  newest_attempt_first a c = true.
Proof.
  rewrite !newest_attempt_first_spec. intros [H1|[H1 H1']] [H2|[H2 H2']].
  - left. by eapply string_lt_trans.
  - left. congruence.
  - left. congruence.
  - right. split; [congruence|lia].
Qed.

(** The first row of a step in the sorted list has the greatest attempt number. *)
Lemma find_newest l s y :
  List.find (λ x, bool_decide (srn_step_id x = s)) (sort_by newest_attempt_first l) = Some y →
  y ∈ l ∧ srn_step_id y = s ∧
  ∀ x, x ∈ l → srn_step_id x = s → (srn_attempt x <= srn_attempt y)%Z.
Proof.
  intros Hf. pose proof (sort_by_perm newest_attempt_first l) as Hp.
  setoid_rewrite <-Hp.
  pose proof (sort_by_ordered _ newest_attempt_first_total l) as Ho.
  apply (ordered_strongly _ newest_attempt_first_trans) in Ho.
  clear Hp. revert Hf Ho. generalize (sort_by newest_attempt_first l). clear l.
  induction l as [|z l IH]; simpl; intros Hf Ho; [done|].
  apply StronglySorted_inv in Ho as [Ho Hz]. rewrite Forall_forall in Hz.
  case_bool_decide as Hs.
  - injection Hf as ->. split_and!; [by left|done|].
    intros x [->|Hx]%elem_of_cons Hxs; [lia|]. specialize (Hz x Hx). cbv beta in Hz.
    apply newest_attempt_first_spec in Hz as [Hz|[_ Hz]]; [|done].
    rewrite Hs, Hxs, string_compare_refl in Hz. done.
  - destruct (IH Hf Ho) as (Hy&Hys&Hmax). split_and!; [by right|done|].
    intros x [->|Hx]%elem_of_cons Hxs; [done|by apply Hmax].
Qed.

(** ** Facts of the guards *)

Section Attempts.
Context `{envi : Env} (c : TenantContext) (settings : PlanningSettings).
Context (sid : string) (Hsid : tc_session_id c = Some sid).

Definition run_key (run_id : string) : scope_key :=
  (tc_tenant_id c, tc_workspace_id c, sid, run_id).

Lemma version_attempts_elem d r p n x :
  x ∈ version_attempts c d sid r p n ↔
  (∃ i, agent_plan_step_runs d !! i = Some x) ∧ step_run_scope x = run_key r ∧
  srn_plan_id x = p ∧ srn_plan_version x = n.
Proof using Type.
  unfold version_attempts, step_run_scope_predicate, run_key.
  rewrite !elem_of_filter_bool, elem_of_rows, andb_true_iff, !bool_decide_eq_true, Z.eqb_eq.
  naive_solver.
Qed.

(** What [_latest_step_attempts] gives for a step. *)
Definition latest_at (d : Db) (r p : string) (n : Z) (s : string)
    (o : option PlanStepRunRecord) : Prop :=
  match o with
  | Some a => ∃ y, newest_attempt d (run_key r) p n s y ∧ a = hydrate_step_run y
  | None => ∀ i y, agent_plan_step_runs d !! i = Some y → step_run_scope y = run_key r →
              srn_plan_id y = p → srn_plan_version y = n → srn_step_id y ≠ s
  end.

Lemma latest_step_attempts_Ok p n r w m w' s :
  latest_step_attempts c p n r w = (Ok m, w') → latest_at (w_db w) r p n s (m !! s).
Proof using Hsid.
  unfold latest_step_attempts, require_session. rewrite Hsid. intros [= <- <-].
  rewrite first_per_step_lookup. destruct (List.find _ _) as [y|] eqn:E; simpl.
  - apply find_newest in E as (Hy&Hys&Hmax). exists y. split; [|done].
    apply version_attempts_elem in Hy as (Hy&H1&H2&H3). split_and!; try done.
    intros i x Hx (X1&X2&X3&X4). apply Hmax; [|done]. apply version_attempts_elem. eauto.
  - intros i y Hy H1 H2 H3 H4.
    eapply find_none in E; [by apply bool_decide_eq_false in E; apply E|].
    apply list_elem_of_In. rewrite sort_by_perm. apply version_attempts_elem. eauto.
Qed.

(** The facts behind [_require_step_ready]. *)
Record step_ready (d : Db) (r p : string) (n : Z) (s : string) (attempt : Z) : Prop := {
  ready_step : ∃ st, agent_plan_steps d !! s = Some st ∧ step_scope st = scoped c sid p ∧
    ste_plan_version st = n ∧ (attempt <= ste_max_attempts st)%Z;
  ready_dependencies i z : agent_plan_step_dependencies d !! i = Some z →
    dependency_scope z = scoped c sid p → dep_plan_version z = n → dep_step_id z = s →
    ∃ y, newest_attempt d (run_key r) p n (dep_depends_on_step_id z) y ∧
      srn_status y = STEP_SUCCEEDED;
  ready_next :
    (attempt = 1%Z ∧ latest_at d r p n s None) ∨
    ∃ y, newest_attempt d (run_key r) p n s y ∧ attempt = (srn_attempt y + 1)%Z ∧
      srn_status y ∉ NON_DISPATCHABLE_PLAN_STEP_STATUSES;
  ready_limit : (attempt <= pls_max_step_attempts settings)%Z;
}.

Lemma require_step_ready_Ok r p n s w a w' :
  require_step_ready c settings r p n s w = (Ok a, w') → step_ready (w_db w) r p n s a.1.
Proof using Hsid.
  unfold require_step_ready, require_session. rewrite Hsid.
  rewrite bind_Ok. intros (x&w1&[= <- <-]&H). apply bind_Ok in H as (d&w1&[= <- <-]&H).
  destruct (agent_plan_steps (w_db w) !! s) as [st|] eqn:Hst; [|done].
  apply bind_Ok in H as (u&w1&[Hfk ->]%require_Ok&H).
  apply bind_Ok in H as (latest&w1&Hl&H).
  pose proof (read_only_latest_step_attempts c p n r w) as Hr. rewrite Hl in Hr. simpl in Hr.
  subst w1. pose proof (λ s, latest_step_attempts_Ok p n r w latest w s Hl) as Hat.
  apply bind_Ok in H as (?&w1&[_ ->]%require_Ok&H).
  apply bind_Ok in H as (?&w1&[_ ->]%require_Ok&H).
  apply bind_Ok in H as (?&w1&[Hready ->]%require_Ok&H).
  apply bind_Ok in H as (step_limit&w1&H1&H). unfold positive_attempt_limit in H1.
  apply bind_Ok in H1 as (?&w2&[_ ->]%require_Ok&[= <- <-]).
  apply bind_Ok in H as (tenant_limit&w1&H1&H). unfold positive_attempt_limit in H1.
  apply bind_Ok in H1 as (?&w2&[_ ->]%require_Ok&[= <- <-]).
  apply bind_Ok in H as (?&w1&[Hlim ->]%require_Ok&[= <- <-]).
  apply Z.leb_le in Hlim. unfold is_plan_step_ready in Hready.
  apply andb_true_iff in Hready as [Hcur Hdeps]. split; simpl.
  - exists st. unfold fk_version_step in Hfk. rewrite Hst, andb_true_iff, !bool_decide_eq_true in Hfk.
    destruct Hfk. split_and!; try done. lia.
  - intros i z Hz H1 H2 H3. rewrite forallb_forall in Hdeps.
    specialize (Hdeps (dep_depends_on_step_id z)). specialize (Hat (dep_depends_on_step_id z)).
    assert (Hin : In (dep_depends_on_step_id z) (stored_dependency_ids (w_db w) (scoped c sid p) n s)).
    { apply list_elem_of_In. unfold stored_dependency_ids. rewrite sort_by_perm.
      apply list_elem_of_fmap_2, elem_of_filter_bool. split.
      - apply elem_of_filter_bool. split; [by eapply rows_lookup|]. by apply bool_decide_eq_true.
      - rewrite andb_true_iff, Z.eqb_eq, bool_decide_eq_true. done. }
    destruct (latest !! dep_depends_on_step_id z) as [a|]; [|by specialize (Hdeps Hin)].
    destruct Hat as (y&Hy&->). exists y. split; [done|].
    by apply (bool_decide_eq_true (srn_status y = STEP_SUCCEEDED)), Hdeps.
  - specialize (Hat s). destruct (latest !! s) as [a|]; [|by left].
    destruct Hat as (y&Hy&->). right. exists y. split_and!; [done|done|].
    by apply negb_true_iff, bool_decide_eq_false in Hcur.
  - lia.
Qed.

(** *** The lease and the Plan *)

(** Computations that leave the tables alone. *)
Lemma moves_later_read {A} (m : M A) : read_only m → moves later m.
Proof using Type. intros Hm w. by rewrite (Hm w). Qed.

Lemma wp_later {A} (m : M A) (Q : A → World → Prop) (X : World → Prop) w :
  moves later m → (∀ a w', later w w' → m w = (Ok a, w') → Q a w') →
  (∀ w', later w w' → X w') → wp m Q X w.
Proof using Type.
  intros Hm HQ HX. unfold wp. specialize (Hm w). destruct (m w) as [[a|e] w'] eqn:E; auto.
Qed.

Lemma later_has_current_lease l : moves later (plans_has_current_lease c l).
Proof using Type.
  apply moves_bind; [apply _|apply moves_later_read; auto with reads|]. intros b.
  by destruct b.
Qed.

Lemma later_executable_lease l : moves later (require_current_executable_lease c l).
Proof using Type.
  unfold require_current_executable_lease.
  apply moves_bind; [apply _|apply moves_later_read; auto with reads|]. intros _.
  apply moves_bind; [apply _|apply later_has_current_lease|]. intros b.
  apply moves_later_read. solve_reads.
Qed.

Lemma later_lock_run l : moves later (lock_run_for_execution c l).
Proof using Type.
  unfold lock_run_for_execution.
  apply moves_bind; [apply _|apply moves_later_read; auto with reads|]. intros _.
  apply moves_bind; [apply _|apply moves_later_read; auto with reads|]. intros _.
  apply moves_bind; [apply _|done|]. intros _. apply later_executable_lease.
Qed.

Lemma executable_lease_Ok l w run w' :
  require_current_executable_lease c l w = (Ok run, w') →
  agent_runs (w_db w) !! leased_run_id l = Some run ∧ run_scope run = run_key (leased_run_id l) ∧
  is_plan_run_executable (run_run_status run) (run_cancel_requested_at run) = true.
Proof using Hsid.
  unfold require_current_executable_lease. intros (?&w1&H1&H)%bind_Ok.
  apply bind_Ok in H as (b&w2&H2&H). apply bind_Ok in H as (?&w3&[_ ->]%require_Ok&H).
  pose proof (read_only_require_lease_scope c l w) as E1. rewrite H1 in E1. simpl in E1. subst w1.
  pose proof (later_has_current_lease l w) as E2. rewrite H2 in E2. simpl in E2.
  apply bind_Ok in H as (s&w4&Hs&H). apply require_session_Ok in Hs as [-> Hs].
  assert (s = sid) as -> by congruence.
  apply bind_Ok in H as (d&w4&[= <- <-]&H). unfold later in E2. rewrite E2 in H.
  destruct (agent_runs (w_db w) !! leased_run_id l) as [r|]; [|done].
  apply bind_Ok in H as (?&w4&[Hk ->]%require_Ok&H).
  apply bind_Ok in H as (?&w4&[Hx ->]%require_Ok&[= <- <-]).
  split_and!; [done|by apply bool_decide_eq_true in Hk|done].
Qed.

Lemma executable_lease_current l w run w' :
  require_current_executable_lease c l w = (Ok run, w') →
  ∃ now, lease_exists l (w_db w) now = true.
Proof using Type.
  unfold require_current_executable_lease. intros (?&w1&H1&H)%bind_Ok.
  pose proof (read_only_require_lease_scope c l w) as E1. rewrite H1 in E1. simpl in E1. subst w1.
  apply bind_Ok in H as (b&w2&H2&H). apply bind_Ok in H as (?&w3&[-> _]%require_Ok&_).
  apply bind_Ok in H2 as (m&w4&Hm&H2).
  pose proof (read_only_lease_matches c l w) as Hr. rewrite Hm in Hr. simpl in Hr. subst w4.
  destruct (negb m); [done|]. exists (env_clock (w_ticks w)).
  assert (Hx : has_current_lease l w = (Ok (lease_exists l (w_db w) (env_clock (w_ticks w))),
    w <| w_ticks := S (w_ticks w) |>)) by done. rewrite Hx in H2. by injection H2.
Qed.

Lemma active_plan_version_Ok run p n w u w' :
  require_active_plan_version c run p n w = (Ok u, w') →
  ∃ q, agent_plans (w_db w) !! p = Some q ∧ plan_scope q = scoped c sid p ∧
    active_plan_version run q p n = true.
Proof using Hsid.
  unfold require_active_plan_version. intros (s&w1&Hs&H)%bind_Ok.
  apply require_session_Ok in Hs as [-> Hs]. assert (s = sid) as -> by congruence.
  apply bind_Ok in H as (d&w1&[= <- <-]&[H _]%require_Ok).
  destruct (plan_predicate _ _) as [q|] eqn:Hq; [|done].
  apply plan_predicate_Some in Hq as [Hq Hk]. eauto.
Qed.

Lemma no_running_attempt_Ok r w u w' i y :
  require_no_running_attempt c r w = (Ok u, w') →
  agent_plan_step_runs (w_db w) !! i = Some y → step_run_scope y = run_key r →
  is_running y = false.
Proof using Hsid.
  unfold require_no_running_attempt, has_running_attempt. intros (b&w1&H&Hb)%bind_Ok Hy Hs.
  apply require_Ok in Hb as [Hb _]. apply bind_Ok in H as (s&w2&Hss&H).
  apply require_session_Ok in Hss as [-> Hss]. assert (s = sid) as -> by congruence.
  apply bind_Ok in H as (d&w2&[= <- <-]&[= <- <-]). apply negb_true_iff in Hb.
  apply not_true_is_false. intros Hrun. enough (true = false) by done. rewrite <-Hb.
  symmetry. apply existsb_exists. exists y. split; [|done]. apply list_elem_of_In.
  apply elem_of_filter_bool. split; [by eapply rows_lookup|]. by apply bool_decide_eq_true.
Qed.

(** All the guards together. *)
Lemma guarded_attempt d x run q p n s r :
  satisfied (agent_plan_step_runs_constraints d x) →
  step_run_scope x = run_key r → srn_plan_id x = p → srn_plan_version x = n → srn_step_id x = s →
  agent_runs d !! r = Some run → run_scope run = run_key r →
  is_plan_run_executable (run_run_status run) (run_cancel_requested_at run) = true →
  agent_plans d !! p = Some q → plan_scope q = scoped c sid p →
  active_plan_version run q p n = true →
  (∀ i y, agent_plan_step_runs d !! i = Some y → step_run_scope y = run_key r →
     is_running y = false) →
  step_ready d r p n s (srn_attempt x) → attempt_allowed d x.
Proof using Type.
  intros Hsat Hk <- <- <- Hr Hrk Hexe Hp Hpk Hact Hidle [R1 R2 R3 _].
  assert (Hpl : step_run_plan x = scoped c sid (srn_plan_id x)).
  { unfold run_key, step_run_scope in Hk. unfold step_run_plan, scoped. congruence. }
  assert (Hrid : srn_run_id x = r) by (by apply (f_equal snd) in Hk).
  split; rewrite ?Hk, ?Hpl, ?Hrid; try done.
  - exists run, q. split_and!; done.
Qed.

(** A guard that a database has passed. *)
Definition passed {A} (m : M A) (a : A) (d : Db) : Prop :=
  ∃ w w', w_db w = d ∧ m w = (Ok a, w').

Lemma passed_intro {A} (m : M A) (a : A) w w' d :
  w_db w = d → m w = (Ok a, w') → passed m a d.
Proof using Type. unfold passed. eauto. Qed.

Lemma guards_allow d l x run u v aln :
  passed (require_current_executable_lease c l) run d →
  passed (require_active_plan_version c run (srn_plan_id x) (srn_plan_version x)) u d →
  passed (require_no_running_attempt c (leased_run_id l)) v d →
  passed (require_step_ready c settings (leased_run_id l) (srn_plan_id x)
            (srn_plan_version x) (srn_step_id x)) aln d →
  step_run_scope x = run_key (leased_run_id l) → srn_attempt x = aln.1 →
  satisfied (agent_plan_step_runs_constraints d x) → attempt_allowed d x.
Proof using Hsid.
  intros (w1&?&<-&(L1&L2&L3)%executable_lease_Ok) (w2&?&E2&(q&A1&A2&A3)%active_plan_version_Ok)
    (w3&?&E3&Hidle) (w4&?&E4&Hready%require_step_ready_Ok) Hk Ha Hsat.
  rewrite E2 in *. rewrite E4, <-Ha in *.
  eapply (guarded_attempt _ x run q _ _ _ (leased_run_id l)); try done.
  intros j y Hj Hjk. rewrite <-E3 in Hj. by eapply no_running_attempt_Ok.
Qed.
End Attempts.

(** ** The operations *)

Section Operations.
Context `{envi : Env} (c : TenantContext) (settings : PlanningSettings).
Implicit Types w : World.

Lemma wp_later_bind {A B} (m : M A) (f : A → M B) Q X w0 w :
  moves later m → later w0 w → (∀ w', later w0 w' → X w') →
  (∀ a w', later w0 w' → m w = (Ok a, w') → wp (f a) Q X w') → wp (m ≫= f) Q X w.
Proof.
  intros Hm H0 HX Hf. apply wp_bind, wp_later; [done| |].
  - intros a w' Hw'. apply Hf. by etrans.
  - intros w' Hw'. apply HX. by etrans.
Qed.

Ltac keeps :=
  first [ apply later_lock_run | apply later_executable_lease | apply later_has_current_lease
        | apply moves_later_read; solve [auto with reads | solve_reads] | done ].

(** One statement that keeps the tables. *)
Ltac kept := eapply wp_later_bind; [keeps|eassumption|first [done | by intros; apply later_steps]|].

Ltac stays := eapply wp_later_bind; [keeps|eassumption|by auto|].

Lemma later_plan_steps w w1 w2 : later w w1 → plan_steps w1 w2 → plan_steps w w2.
Proof. unfold later, plan_steps. by intros ->. Qed.

Lemma wp_insert_attempt x w :
  wp (insert_agent_plan_step_runs x)
    (λ _ w', satisfied (agent_plan_step_runs_constraints (w_db w) x) ∧
       w_db w' = (w_db w) <| agent_plan_step_runs :=
                    <[step_run_key x := x]> (agent_plan_step_runs (w_db w)) |>)
    (later w) w.
Proof.
  unfold insert_agent_plan_step_runs. wp_step. wp_step. wp_step.
  apply wp_check_constraints; [|done]. intros Hs. by apply wp_set_db.
Qed.

(** What a new attempt is, and what was checked. *)
Record attempt_started (l : RunLease) (p : string) (n : Z) (s : string) (d d' : Db)
    (x : agent_plan_step_run) : Prop := {
  started_allowed : attempt_allowed d x;
  started_running : srn_status x = STEP_RUNNING ∧ srn_version x = 1%Z ∧
    srn_reused_from_step_run_id x = None;
  started_step : srn_plan_id x = p ∧ srn_plan_version x = n ∧ srn_step_id x = s;
  started_run : srn_run_id x = leased_run_id l;
  started_lease : ∃ now, lease_exists l d now = true;
  started_limit : (srn_attempt x <= pls_max_step_attempts settings)%Z;
  started_row : d' = d <| agent_plan_step_runs :=
                            <[step_run_key x := x]> (agent_plan_step_runs d) |>;
}.

(** The body of the savepoint that inserts an attempt: it raises before the insert, or it
    has inserted an attempt that was allowed. *)
Lemma wp_insert_guarded_attempt sid l p n s i now w :
  tc_session_id c = Some sid →
  wp ('(attempt, _) ← require_step_ready c settings (leased_run_id l) p n s;
      run ← require_current_executable_lease c l;
      require_active_plan_version c run p n ;;
      require_no_running_attempt c (leased_run_id l) ;;
      insert_agent_plan_step_runs
        (attempt_row c sid p n s i (leased_run_id l) attempt now) ;;
      inserted ← read_step_run c (leased_run_id l) i;
      match inserted with
      | None => throw (RuntimeError "Plan step attempt missing after insert")
      | Some x => mret x
      end)
    (λ _ w', ∃ x, attempt_started l p n s (w_db w) (w_db w') x)
    (λ w', later w w' ∨ ∃ x, attempt_started l p n s (w_db w) (w_db w') x) w.
Proof.
  intros Hsid. assert (H0 : later w w) by done.
  stays. intros [a lim] w1 Hw1 Hready.
  stays. intros run w2 Hw2 Hlease.
  stays. intros u1 w3 Hw3 Hactive.
  stays. intros u2 w4 Hw4 Hidle.
  wp_step. eapply wp_weaken; [| |apply wp_insert_attempt].
  2:{ intros w' Hw'. left. by etrans. }
  intros _ w5 [Hsat Hw5]. unfold later in Hw1, Hw2, Hw3, Hw4. rewrite Hw4 in Hsat, Hw5.
  set (x := attempt_row c sid p n s i (leased_run_id l) a now) in *.
  assert (Hdone : ∃ x, attempt_started l p n s (w_db w) (w_db w5) x).
  { exists x. split; try done.
    - apply (guards_allow c settings sid Hsid (w_db w) l x run u1 u2 (a, lim));
        [eapply passed_intro; [|eassumption]; congruence..|done|done|done].
    - rewrite <-Hw1. by eapply executable_lease_current.
    - apply (require_step_ready_Ok c settings sid) in Hready; [|done]. apply Hready. }
  wp_step. apply wp_read; [auto with reads| |by right].
  intros [y|] _; [exact Hdone|right; exact Hdone].
Qed.

Lemma wp_create_step_attempt l p n s w :
  wp (create_step_attempt c settings l p n s)
    (λ _ w', ∃ x, attempt_started l p n s (w_db w) (w_db w') x)
    (λ w', later w w' ∨ ∃ x, attempt_started l p n s (w_db w) (w_db w') x) w.
Proof.
  unfold create_step_attempt. assert (H0 : later w w) by done.
  stays. intros sid w1 Hw1 [_ Hsid]%require_session_Ok. stays. intros _ w2 Hw2 _.
  stays. intros run w3 Hw3 _. stays. intros _ w4 Hw4 _. stays. intros _ w5 Hw5 _.
  stays. intros [_ lim] w6 Hw6 _. stays. intros i w7 Hw7 _. stays. intros now w8 H8 _.
  apply wp_catch, wp_savepoint_integrity.
  assert (Hh : ∀ w', later w w' ∨ (∃ x, attempt_started l p n s (w_db w) (w_db w') x) → ∀ e, wp
    (match e with
     | IntegrityError _ =>
       running ← has_running_attempt c (leased_run_id l);
       if (running : bool) then throw already_running else
       latest_attempt ← latest_attempt_number c (leased_run_id l) s;
       if Z.leb lim latest_attempt
       then throw (PlanAttemptLimitError "Plan step attempt limit exceeded")
       else throw e
     | _ => throw e
     end) (λ (_ : PlanStepRunRecord) w', ∃ x, attempt_started l p n s (w_db w) (w_db w') x)
    (λ w', later w w' ∨ ∃ x, attempt_started l p n s (w_db w) (w_db w') x) w').
  { intros w' Hw' e. destruct e; try exact Hw'. apply wp_bind, wp_read; [auto with reads| |done].
    intros [] _; [exact Hw'|]. apply wp_bind, wp_read; [auto with reads| |done].
    intros k _. by destruct (Z.leb lim k). }
  eapply wp_weaken; [| |by apply (wp_insert_guarded_attempt sid)].
  - intros ? w' Hx. by rewrite H8 in Hx.
  - intros w' Hw'. split; apply Hh; [|left; exact H8].
    destruct Hw' as [Hw'|Hx]; [left; by etrans|right; by rewrite H8 in Hx].
Qed.

Lemma moves_create_step_attempt l p n s :
  moves plan_steps (create_step_attempt c settings l p n s).
Proof.
  assert (Hx : ∀ w w' x, attempt_started l p n s (w_db w) (w_db w') x → plan_steps w w').
  { intros w w' x [H1 (H2&H3&H4) _ _ _ _ H5]. apply rtc_once. rewrite H5.
    by apply AttemptStarted. }
  apply wp_moves. intros w. eapply wp_weaken; [| |apply wp_create_step_attempt].
  - intros _ w' [x ?]. eauto.
  - intros w' [Hw'|[x ?]]; [by apply later_steps|eauto].
Qed.

Lemma step_run_rows_elem d sid r i x :
  x ∈ step_run_rows c d sid r i ↔
  (∃ j, agent_plan_step_runs d !! j = Some x) ∧ step_run_scope x = run_key c sid r ∧
  srn_step_run_id x = i.
Proof.
  unfold step_run_rows, step_run_scope_predicate, run_key.
  rewrite !elem_of_filter_bool, elem_of_rows, !bool_decide_eq_true. naive_solver.
Qed.

Lemma read_step_run_Ok sid r i w o w' :
  tc_session_id c = Some sid → read_step_run c r i w = (Ok o, w') →
  o = hydrate_step_run <$> head (step_run_rows c (w_db w) sid r i).
Proof.
  intros Hs. unfold read_step_run, require_session. rewrite Hs. by intros [= <- <-].
Qed.

Lemma moves_create_reused_step_attempt l p n s src :
  moves plan_steps (create_reused_step_attempt c settings l p n s src).
Proof.
  apply wp_moves. intros w. unfold create_reused_step_attempt.
  assert (H0 : later w w) by done.
  kept. intros sid w1 Hw1 Hsid. apply require_session_Ok in Hsid as [_ Hsid].
  kept. intros _ w2 Hw2 _. kept. intros run w3 Hw3 _. kept. intros _ w4 Hw4 _.
  kept. intros _ w5 Hw5 _. kept. intros source w6 Hw6 Hsource. kept. intros u0 w7 Hw7 Hok.
  kept. intros _ w8 Hw8 _. kept. intros now w9 Hw9 _. kept. intros i w10 Hw10 _.
  apply wp_catch, wp_savepoint.
  assert (Hx : ∀ w', plan_steps w (rollback w10 w')) by (intros w'; by apply later_steps).
  eapply wp_weaken with (Q := λ _, plan_steps w) (X := λ w', True); [done| |].
  { intros w' _ e. destruct e; try exact (Hx w'). destruct (negb _); [exact (Hx w')|].
    apply wp_read; [solve_reads|by intros|exact (Hx w')]. }
  eapply wp_later_bind; [keeps|exact Hw10|done|]. intros run' w11 Hw11 Hlease.
  eapply wp_later_bind; [keeps|exact Hw11|done|]. intros u1 w12 Hw12 Hactive.
  eapply wp_later_bind; [keeps|exact Hw12|done|]. intros u2 w13 Hw13 Hidle.
  eapply wp_later_bind; [keeps|exact Hw13|done|]. intros [y|] w14 Hw14 Hy; [|done].
  eapply wp_later_bind; [keeps|exact Hw14|done|]. intros u3 w15 Hw15 Hre.
  eapply wp_later_bind; [keeps|exact Hw15|done|]. intros [a lim] w16 Hw16 Hready.
  wp_step. eapply wp_weaken; [|done|apply wp_insert_attempt].
  intros _ w17 [Hsat Hw17].
  set (x := reused_row c sid p n s i (leased_run_id l) a now y) in *.
  assert (Hdone : plan_steps w w17).
  { apply (later_plan_steps w w16); [done|]. apply rtc_once. rewrite Hw17.
    unfold later in *. apply AttemptReused; [|done|].
    - apply (guards_allow c settings sid Hsid (w_db w16) l x run' u1 u2 (a, lim));
        [eapply passed_intro; [|eassumption]; congruence..|done|done|done].
    - apply (read_step_run_Ok sid) in Hy; [|done]. apply (read_step_run_Ok sid) in Hsource; [|done].
      apply require_Ok in Hre as [Hre _]. apply require_Ok in Hok as [Hok _].
      rewrite Hw5, <-Hw13, <-Hy in Hsource. subst source. symmetry in Hy.
      rewrite !andb_true_iff, !bool_decide_eq_true in Hok. destruct Hok as [[Hp _] _].
      apply fmap_Some in Hy as (z&Hz&->). apply head_Some_elem_of in Hz.
      apply step_run_rows_elem in Hz as ([j Hj]&Hzk&Hzi).
      unfold reusable in Hre. rewrite !andb_true_iff, !bool_decide_eq_true in Hre.
      rewrite Hw13, <-Hw16 in Hj. exists j, z. simpl in *. naive_solver. }
  wp_step. apply wp_read; [auto with reads| |done]. by intros [z|] _.
Qed.

(** *** Ending an attempt *)

(** What an [UPDATE] of a running attempt writes. *)
Definition ends_attempt (expected_version : Z)
    (set_ : agent_plan_step_run → agent_plan_step_run) : Prop :=
  ∀ x, srn_version x = expected_version →
    same_attempt_row x (set_ x) ∧ is_running (set_ x) = false ∧
    srn_version (set_ x) = (srn_version x + 1)%Z.

Lemma wp_update_each v set_ l w :
  ends_attempt v set_ → NoDup l.*1 →
  (∀ i x, (i, x) ∈ l → agent_plan_step_runs (w_db w) !! i = Some x ∧ is_running x = true ∧
     srn_version x = v) →
  wp (insert_each (λ ix,
        check_constraints (agent_plan_step_runs_checks (set_ ix.2)) ;;
        d ← gets w_db;
        set_db (d <| agent_plan_step_runs := <[ix.1 := set_ ix.2]> (agent_plan_step_runs d) |>))
      l) (λ _, plan_steps w) (plan_steps w) w.
Proof.
  intros Hset. revert w. induction l as [|[i x] l IH]; intros w Hn Hl; simpl; [by apply wp_ret|].
  apply NoDup_cons in Hn as [Hi Hn]. destruct (Hl i x) as (Hx&Hr&Hv); [by left|].
  destruct (Hset x Hv) as (Hsame&Hend&Hver).
  wp_step. wp_step. apply wp_check_constraints; [|done]. intros Hsat. wp_step. wp_step.
  apply wp_set_db.
  set (w1 := w <| w_db := _ |>).
  assert (Hstep : plan_steps w w1).
  { apply rtc_once. by apply (AttemptEnded _ i x (set_ x)). }
  eapply wp_weaken; [| |apply IH; [done|]].
  - intros ? w' Hw'. by etrans.
  - intros w' Hw'. by etrans.
  - intros j y Hy. destruct (Hl j y) as (Hjy&?&?); [by right|]. split_and!; [|done|done].
    simpl. rewrite lookup_insert_ne; [done|]. intros <-. destruct Hi.
    by apply (list_elem_of_fmap_2 fst) in Hy.
Qed.

Lemma moves_update_running_attempt sid r i v set_ :
  ends_attempt v set_ → moves plan_steps (update_running_attempt c sid r i v set_).
Proof.
  intros Hset. apply wp_moves. intros w. unfold update_running_attempt. wp_step. wp_step. wp_step.
  set (hits := List.filter _ _).
  eapply wp_weaken; [| |apply (wp_update_each v)]; try done.
  - unfold hits. pose proof (NoDup_fst_map_to_list (agent_plan_step_runs (w_db w))) as Hn.
    revert Hn. generalize (map_to_list (agent_plan_step_runs (w_db w))) as l.
    induction l as [|[j x] l IH]; simpl; [done|]. intros [Hj Hn]%NoDup_cons.
    destruct (_ && _); simpl; [|by apply IH]. constructor; [|by apply IH].
    intros ((j'&y)&->&Hy)%list_elem_of_fmap. apply elem_of_filter_bool in Hy as [Hy _].
    apply Hj. by apply (list_elem_of_fmap_2 fst) in Hy.
  - intros j x [Hx Hp]%elem_of_filter_bool. apply elem_of_map_to_list in Hx.
    simpl in Hp. rewrite !andb_true_iff, Z.eqb_eq in Hp. naive_solver.
Qed.

Lemma finish_ends st doc ref ec ed v now :
  st ≠ STEP_RUNNING → ends_attempt v (finish_columns st doc ref ec ed v now).
Proof.
  intros Hst x Hx. split_and!; try done; simpl; [|by rewrite Hx].
  unfold is_running. by apply bool_decide_eq_false.
Qed.

Lemma cancel_ends v now : ends_attempt v (cancel_columns v now).
Proof. intros x Hx. split_and!; try done; simpl. by rewrite Hx. Qed.

Lemma wp_moves_bind {A B} (m : M A) (f : A → M B) w0 w :
  moves plan_steps m → plan_steps w0 w →
  (∀ a w', plan_steps w0 w' → wp (f a) (λ _, plan_steps w0) (plan_steps w0) w') →
  wp (m ≫= f) (λ _, plan_steps w0) (plan_steps w0) w.
Proof.
  intros Hm H0 Hf. apply wp_bind.
  eapply wp_weaken; [| |by apply (moves_wp plan_steps)]; [|done]. intros a w' Hw'. by apply Hf.
Qed.

Lemma moves_finish_step_attempt l i v st doc ref ec ed :
  moves plan_steps (finish_step_attempt c l i v st doc ref ec ed).
Proof.
  apply wp_moves. intros w. unfold finish_step_attempt. assert (H0 : later w w) by done.
  kept. intros _ w1 Hw1 _. kept. intros u w2 Hw2 Hout. kept. intros _ w3 Hw3 _.
  kept. intros sid w4 Hw4 _. kept. intros d w5 Hw5 _.
  assert (Hst : st ≠ STEP_RUNNING).
  { intros ->. unfold lift, check_outcome in Hout. done. }
  destruct (head _) as [x|]; [|by apply later_steps].
  kept. intros _ w6 Hw6 _. kept. intros _ w7 Hw7 _. kept. intros _ w8 Hw8 _.
  kept. intros _ w9 Hw9 _. kept. intros now w10 Hw10 _.
  apply wp_moves_bind; [by apply moves_update_running_attempt, finish_ends|by apply later_steps|].
  intros k w11 Hw11. wp_step. wp_step; [|done]. wp_step.
  apply wp_read; [auto with reads| |done]. by intros [y|] _.
Qed.

Lemma moves_cancel_step_attempt l i v : moves plan_steps (cancel_step_attempt c l i v).
Proof.
  apply wp_moves. intros w. unfold cancel_step_attempt. assert (H0 : later w w) by done.
  kept. intros _ w1 Hw1 _. kept. intros _ w2 Hw2 _. kept. intros b w3 Hw3 _.
  kept. intros _ w4 Hw4 _. kept. intros sid w5 Hw5 _. kept. intros d w6 Hw6 _.
  destruct (head _) as [x|]; [|by apply later_steps].
  destruct (bool_decide _); [by apply later_steps|].
  kept. intros _ w7 Hw7 _. kept. intros now w8 Hw8 _.
  apply wp_moves_bind; [by apply moves_update_running_attempt, cancel_ends|by apply later_steps|].
  intros k w9 Hw9. wp_step. wp_step; [|done]. apply wp_read; [auto with reads|done|done].
Qed.

Lemma moves_reserve_round_unit r p k b s : moves plan_steps (reserve_round_unit c r p k b s).
Proof.
  apply wp_moves. intros w. unfold reserve_round_unit. assert (H0 : later w w) by done.
  kept. intros _ w1 Hw1 _. kept. intros _ w2 Hw2 _. kept. intros n w3 Hw3 _.
  kept. intros _ w4 Hw4 _. kept. intros i w5 Hw5 _. kept. intros now w6 Hw6 _.
  unfold insert_memory_entries. wp_step. wp_step. wp_step. wp_step.
  apply wp_check_constraints; [|by apply later_steps]. intros Hsat. apply wp_set_db. wp_step.
  apply (later_plan_steps w w6); [done|]. apply rtc_once. by apply RoundReserved.
Qed.
End Operations.
