(* ===== verification/PlanSystem.v ===== *)
(** * Units of work on the Plan repository

    A [plan_call] is one call of a repository method with its arguments; a unit of work
    makes a sequence of them in one transaction.  Whatever the calls and whatever their
    outcome, the tables move along the specification, together with the steps of the
    workflow engine: hence the invariant [plans_ok] and the growth of history hold in
    every state that the system reaches. *)

From S2P Require Import Prelude Records Errors Json Regex Tenancy WorkflowModels Storage.
From S2P Require Import Collections PlanStorage Checkpoint PlanValidation PlanOrder.
From S2P Require Import PlanSpec.
From S2P Require Import PlanRecords PlanReading WorkflowRepository PlanRepository.
From S2P Require Import PlanDecisions PlanAttempts PlanContent PlanEffects.
From S2P Require Import PlanInvariants.
From S2P Require Import PlanHistory WorkflowCoordinator WorkflowSpec WorkflowRefinement.
From S2P Require Import PlanRefinement PlanAttemptRefinement.
From stdpp Require Import base gmap strings list sorting fin_maps relations.

(** ** Calls *)

Inductive plan_call : Type :=
| CreatePlan (plan_id source_message_id : string) (trigger_mode : PlanTriggerMode)
    (draft : PlanDraft)
| AppendVersion (plan_id : string) (expected_version : Z) (draft : PlanDraft)
    (parent_version : Z) (feedback : option string) (supersedes : gmap string string)
| RecordDecision (r : PlanDecisionRequest) (decided_by : string)
| BeginRevisionDecision (r : PlanDecisionRequest) (decided_by : string)
| FinishRevisionDecision (plan_id decision_id : string) (resulting_plan_version : Z)
| CreateStepAttempt (l : RunLease) (plan_id : string) (plan_version : Z) (step_id : string)
| CreateReusedStepAttempt (l : RunLease) (plan_id : string) (plan_version : Z)
    (step_id source_step_run_id : string)
| FinishStepAttempt (l : RunLease) (step_run_id : string) (expected_version : Z)
    (status : PlanStepRunStatus) (doc : PlanStepResultDocument) (result_ref : string)
    (error_code error_detail : option string)
| CancelStepAttempt (l : RunLease) (step_run_id : string) (expected_version : Z)
| ReserveRoundUnit (run_id plan_id round_kind : string) (total_budget : Z)
    (step_run_id : option string).

Section Calls.
Context `{envi : Env} (c : TenantContext) (settings : PlanningSettings).

Definition discard {S A} (m : stM S exn A) : stM S exn unit := m ≫= λ _, mret tt.

Definition exec_call (k : plan_call) : PM unit :=
  match k with
  | CreatePlan p m t draft => on_connection (discard (create_plan c settings p m t draft))
  | AppendVersion p e draft par fb sup =>
    on_connection (discard (append_version c settings p e draft par fb sup))
  | RecordDecision r by_ => discard (record_decision c r by_)
  | BeginRevisionDecision r by_ => discard (begin_revision_decision c r by_)
  | FinishRevisionDecision p i n => discard (finish_revision_decision c p i n)
  | CreateStepAttempt l p n s => on_connection (discard (create_step_attempt c settings l p n s))
  | CreateReusedStepAttempt l p n s src =>
    on_connection (discard (create_reused_step_attempt c settings l p n s src))
  | FinishStepAttempt l i v st doc ref ec ed =>
    on_connection (discard (finish_step_attempt c l i v st doc ref ec ed))
  | CancelStepAttempt l i v => on_connection (discard (cancel_step_attempt c l i v))
  | ReserveRoundUnit r p k b s => on_connection (discard (reserve_round_unit c r p k b s))
  end.

(** The calls of a unit of work, up to the first exception. *)
Fixpoint exec_calls (l : list plan_call) : PM unit :=
  match l with
  | [] => mret tt
  | k :: l => exec_call k ;; exec_calls l
  end.

Definition plan_work (l : list plan_call) : M unit := unit_of_work (exec_calls l).

(** ** Refinement *)

Lemma moves_discard {S A} (R : relation S) `{!PreOrder R} (m : stM S exn A) :
  moves R m → moves R (discard m).
Proof. intros Hm. apply moves_bind; [done|done|]. intros a. by apply moves_ret. Qed.

Lemma moves_exec_call k : moves tx_steps (exec_call k).
Proof.
  destruct k; cbn [exec_call]; try apply moves_on_connection; apply moves_discard; try apply _;
    auto using moves_create_plan, moves_append_version, moves_record_decision,
      moves_begin_revision_decision, moves_finish_revision_decision, moves_create_step_attempt,
      moves_create_reused_step_attempt, moves_finish_step_attempt, moves_cancel_step_attempt,
      moves_reserve_round_unit.
Qed.

Lemma moves_exec_calls l : moves tx_steps (exec_calls l).
Proof.
  induction l as [|k l IH]; simpl; [apply moves_ret, _|].
  apply moves_bind; [apply _|apply moves_exec_call|done].
Qed.

Lemma moves_unit_of_work {A} (body : PM A) :
  moves tx_steps body → moves plan_steps (unit_of_work body).
Proof.
  intros Hb. apply moves_transaction; [|intros w w'; by apply later_steps].
  intros w. specialize (Hb {| tx_world := w; tx_pending := ∅ |}).
  unfold mbind, stM_bind, require_no_unfinished_revisions, require, gets.
  destruct (body _) as [[a|e] t]; [|done]. simpl. unfold mbind, stM_bind.
  by destruct (bool_decide _).
Qed.

Lemma moves_plan_work l : moves plan_steps (plan_work l).
Proof. apply moves_unit_of_work, moves_exec_calls. Qed.
End Calls.

(** ** The whole system *)

Section Whole.
Context `{envi : Env} (q : Z).

Lemma plan_steps_steps w w' : plan_steps w w' → steps q w w'.
Proof.
  unfold plan_steps, steps, effects. intros Hw. eapply rtc_subrel; [|exact Hw].
  intros d d'. apply PlanMoved.
Qed.

(** A step of the engine does not touch the Plan tables. *)
Lemma effect_plans d d' : effect q d d' → plan_effect d d' ∨ same_plan_tables d d'.
Proof. by intros []; [right..|left]. Qed.

Lemma effects_plans d d' : effects q d d' → plans_ok d → plans_ok d' ∧ grows d d'.
Proof.
  intros He Hok. induction He as [d|d1 d2 d3 H12 _ IH]; [done|].
  assert (H2 : plans_ok d2 ∧ grows d1 d2).
  { destruct (effect_plans _ _ H12) as [Hp|Hs].
    - split; [by eapply plan_effect_ok|by apply plan_effect_grows].
    - split; [by eapply plans_ok_same|by apply grows_same]. }
  destruct H2 as [Hok2 Hg]. destruct (IH Hok2) as [Hok3 Hg']. split; [done|by etrans].
Qed.
End Whole.
