(* ===== verification/ExecutionRefinement.v ===== *)
(** * Memory, planning and execution refine the specification

    Every operation of the memory repository, of the planning service, of the
    continuation service and of the execution of a Plan moves the database along the
    steps of [WorkflowSpec.v], whatever its arguments and its outcome; the loop does so
    when the agent that works on the steps does. *)

From S2P Require Import Prelude Records Errors Json Regex Redaction Tenancy.
From S2P Require Import WorkflowModels.
From S2P Require Import Storage Collections PlanStorage Checkpoint Events PlanValidation.
From S2P Require Import PlanSpec PlanRecords PlanReading WorkflowRepository.
From S2P Require Import PlanRepository.
From S2P Require Import PlanDecisions PlanAttempts MemoryRepository PlanResults.
From S2P Require Import WorkflowCoordinator PlanGenerator PlanService Recovery.
From S2P Require Import Continuation.
From S2P Require Import PlanExecution PlanLoop WorkflowSpec WorkflowRefinement.
From S2P Require Import PlanRefinement PlanAttemptRefinement PlanSystem.
From stdpp Require Import base gmap strings list relations.

Local Notation scoped := WorkflowCoordinator.scoped.

(** ** Transactions and executions *)

Definition unit_steps `{Env} (q : Z) : relation PlanTx := λ t t',
  steps q (tx_world t) (tx_world t').

Definition exec_steps `{Env} (q : Z) : relation ExecState := λ x x',
  steps q (xs_world x) (xs_world x').

#[export] Instance unit_steps_preorder `{Env} q : PreOrder (unit_steps q).
Proof. split; unfold unit_steps; [by intros t|by intros t1 t2 t3 ? ?; etrans]. Qed.

#[export] Instance exec_steps_preorder `{Env} q : PreOrder (exec_steps q).
Proof. split; unfold exec_steps; [by intros x|by intros x1 x2 x3 ? ?; etrans]. Qed.

Section Rules.
Context `{envi : Env} (q : Z).

Lemma moves_reading {S A} (R : relation S) `{!PreOrder R} (m : stM S exn A) :
  read_only m → moves R m.
Proof. intros Hm s. by rewrite (Hm s). Qed.

Lemma moves_connected {A} (m : M A) :
  moves (steps q) m → moves (unit_steps q) (on_connection m).
Proof.
  intros Hm t. unfold unit_steps, on_connection. specialize (Hm (tx_world t)).
  by destruct (m (tx_world t)).
Qed.

Lemma moves_plan_unit {A} (m : PM A) : moves tx_steps m → moves (unit_steps q) m.
Proof. intros Hm t. apply plan_steps_steps, Hm. Qed.

Lemma moves_plan_steps {A} (m : M A) : moves plan_steps m → moves (steps q) m.
Proof. intros Hm w. apply plan_steps_steps, Hm. Qed.

Lemma moves_later {A} (m : M A) : moves later m → moves (steps q) m.
Proof. intros Hm w. unfold steps. rewrite (Hm w). apply rtc_refl. Qed.

Lemma moves_unit {A} (body : PM A) :
  moves (unit_steps q) body → moves (steps q) (unit_of_work body).
Proof.
  intros Hb. apply moves_transaction; [|intros w w'; apply rtc_refl].
  intros w. specialize (Hb {| tx_world := w; tx_pending := ∅ |}).
  unfold mbind, stM_bind, require_no_unfinished_revisions, require, gets.
  destruct (body _) as [[a|e] t]; [|done]. simpl. unfold mbind, stM_bind.
  by destruct (bool_decide _).
Qed.

Lemma moves_on_world {A} (m : M A) : moves (steps q) m → moves (exec_steps q) (on_world m).
Proof.
  intros Hm x. unfold exec_steps, on_world. specialize (Hm (xs_world x)).
  by destruct (m (xs_world x)).
Qed.

Lemma moves_replace l : moves (exec_steps q) (replace l).
Proof. intros x. unfold exec_steps. simpl. apply rtc_refl. Qed.

Lemma moves_publish_event e : moves (exec_steps q) (publish_event e).
Proof. intros x. unfold exec_steps. simpl. apply rtc_refl. Qed.

Lemma moves_use_current {A} (f : RunLease → M A) :
  (∀ l, moves (steps q) (f l)) → moves (exec_steps q) (use_current f).
Proof.
  intros Hf. apply moves_bind; [apply _|apply moves_reading; [apply _|apply read_only_gets]|].
  intros l. by apply moves_on_world.
Qed.

Lemma moves_refresh (f : RunLease → M RunLease) :
  (∀ l, moves (steps q) (f l)) → moves (exec_steps q) (refresh f).
Proof.
  intros Hf. apply moves_bind; [apply _|apply moves_reading; [apply _|apply read_only_gets]|].
  intros l. apply moves_bind; [apply _|by apply moves_on_world|intros; apply moves_replace].
Qed.

Lemma moves_current : moves (exec_steps q) current.
Proof. apply moves_reading; [apply _|apply read_only_gets]. Qed.

Lemma read_only_on_world {A} (m : M A) : read_only m → read_only (on_world m).
Proof.
  intros Hm x. unfold on_world. specialize (Hm (xs_world x)).
  destruct (m (xs_world x)) as [r w']. simpl in *. subst. by destruct x.
Qed.
End Rules.

#[export] Hint Resolve read_only_on_world : reads.

(** Follow the composition of an operation, on any of the three states. *)
Ltac follow :=
  repeat first
    [ solve [eauto 3 with refine]
    | apply moves_reading; [apply _|solve [solve_reads]]
    | apply moves_write_connection
    | apply moves_unit
    | apply moves_connected
    | apply moves_on_world
    | apply moves_use_current; intros ?
    | apply moves_refresh; intros ?
    | apply moves_catch; [apply _| |intros ?]
    | apply moves_bind; [apply _| |intros ?]
    | progress cbv zeta
    | case_match ].

(** ** Memory *)

Section Memory.
Context `{envi : Env} (q : Z) (c : TenantContext).

Lemma exact_row_Some d i s m :
  exact_row c d i s = Some m →
  memory_entries d !! i = Some m ∧ mem_tenant_id m = tc_tenant_id c ∧
  mem_workspace_id m = tc_workspace_id c ∧ mem_session_id m = s.
Proof.
  unfold exact_row, in_workspace. intros (x & Hx & H)%bind_Some.
  destruct (_ && _) eqn:E; [|done]. injection H as ->.
  rewrite !andb_true_iff, !bool_decide_eq_true in E. naive_solver.
Qed.

Lemma read_only_get_row i s : read_only (get_row c i s).
Proof. unfold get_row. solve_reads. Qed.
Lemma read_only_load_rows t n b : read_only (load_rows c t n b).
Proof. unfold load_rows. solve_reads. Qed.
Hint Resolve read_only_get_row read_only_load_rows : reads.
Lemma read_only_memory_get i s : read_only (memory_get c i s).
Proof. unfold memory_get. solve_reads. Qed.
Lemma read_only_recent n t : read_only (recent c n t).
Proof. unfold recent. solve_reads. Qed.
Lemma read_only_memory_context n k t : read_only (memory_context c n k t).
Proof. pose proof read_only_recent. unfold memory_context. solve_reads. Qed.
Lemma read_only_has_final_summary r : read_only (has_final_summary c r).
Proof. unfold has_final_summary. solve_reads. Qed.

Lemma moves_insert_memory m : moves (steps q) (insert_memory_entries m).
Proof.
  apply wp_moves. intros w. unfold insert_memory_entries. do 3 wp_step.
  apply wp_check_constraints; [intros Hs|done].
  apply wp_set_db. apply rtc_once. by apply MemoryInserted.
Qed.

Lemma moves_full_scope_update e : moves (steps q) (full_scope_update c e).
Proof.
  apply wp_moves. intros w. unfold full_scope_update. do 4 wp_step. cbn [w_db setter].
  destruct (exact_row c (w_db w) (me_id e) (me_session_id e)) as [m|] eqn:E;
    [|apply wp_ret; apply rtc_refl].
  apply exact_row_Some in E as (Hm & Ht & Hw & Hs).
  wp_step. apply wp_set_db, wp_ret. apply rtc_once.
  apply (MemoryRewritten q (w_db w) m (entry_row c e _)); [done|].
  unfold memory_scope. simpl. by rewrite Ht, Hw, Hs.
Qed.

Lemma moves_now : moves (steps q) db_now_ms.
Proof. intros w. apply rtc_refl. Qed.
Hint Resolve moves_insert_memory moves_full_scope_update moves_now : refine.

Lemma moves_savepoint {A} (m : M A) :
  moves (steps q) m → moves (steps q) (savepoint any_exception m).
Proof.
  intros Hm w. specialize (Hm w). unfold savepoint, any_exception.
  destruct (m w) as [[a|e] w']; [done|]. apply rtc_refl.
Qed.

Lemma moves_save e : moves (steps q) (save c e).
Proof.
  unfold save, insert_entry. follow. apply moves_savepoint. follow.
Qed.

Lemma moves_forget i : moves (steps q) (forget c i).
Proof.
  apply wp_moves. intros w. unfold forget. do 2 wp_step.
  destruct (memory_entries (w_db w) !! i) as [m|] eqn:E; [|by apply wp_ret].
  destruct (_ && _); [|by apply wp_ret]. wp_step. wp_step; [|done].
  apply wp_set_db. apply rtc_once. apply (MemoryForgotten q _ i m); [done|].
  by apply negb_true_iff.
Qed.

Lemma moves_new_entry a t s r n l : moves (steps q) (new_entry a t s r n l).
Proof. unfold new_entry. follow. Qed.
End Memory.

#[export] Hint Resolve read_only_get_row read_only_load_rows read_only_memory_get
  read_only_recent read_only_memory_context read_only_has_final_summary
  read_only_or_raise : reads.
#[export] Hint Resolve moves_insert_memory moves_full_scope_update moves_now moves_save
  moves_forget moves_new_entry moves_current moves_replace moves_publish_event : refine.
#[export] Hint Extern 2 (moves _ (create_plan _ _ _ _ _ _)) =>
  apply moves_plan_steps, moves_create_plan : refine.
#[export] Hint Extern 2 (moves _ (append_version _ _ _ _ _ _ _ _)) =>
  apply moves_plan_steps, moves_append_version : refine.
#[export] Hint Extern 2 (moves _ (record_decision _ _ _)) =>
  apply moves_plan_unit, moves_record_decision : refine.
#[export] Hint Extern 2 (moves _ (begin_revision_decision _ _ _)) =>
  apply moves_plan_unit, moves_begin_revision_decision : refine.
#[export] Hint Extern 2 (moves _ (finish_revision_decision _ _ _ _)) =>
  apply moves_plan_unit, moves_finish_revision_decision : refine.
#[export] Hint Extern 2 (moves _ (create_step_attempt _ _ _ _ _ _)) =>
  apply moves_plan_steps, moves_create_step_attempt : refine.
#[export] Hint Extern 2 (moves _ (create_reused_step_attempt _ _ _ _ _ _ _)) =>
  apply moves_plan_steps, moves_create_reused_step_attempt : refine.
#[export] Hint Extern 2 (moves _ (finish_step_attempt _ _ _ _ _ _ _ _ _)) =>
  apply moves_plan_steps, moves_finish_step_attempt : refine.
#[export] Hint Extern 2 (moves _ (cancel_step_attempt _ _ _ _)) =>
  apply moves_plan_steps, moves_cancel_step_attempt : refine.
#[export] Hint Extern 2 (moves _ (reserve_round_unit _ _ _ _ _ _)) =>
  apply moves_plan_steps, moves_reserve_round_unit : refine.
#[export] Hint Extern 2 (moves _ (lock_run_for_execution _ _)) =>
  apply moves_later, later_lock_run : refine.
#[export] Hint Extern 2 (moves _ (plans_has_current_lease _ _)) =>
  apply moves_later, later_has_current_lease : refine.

(** ** The planning service *)

Section Service.
Context `{envi : Env} (planning : PlanningSettings) (co : WorkflowCoordinator).
Context (generator : option (option PlanGenerator.router * error_reporter * string * string)).
Local Notation q := (set_max_concurrent_runs_per_tenant (co_settings co)).

Hint Extern 2 (moves _ (start_plan_run_with_checkpoint _ _ _ _ _ _)) =>
  apply (moves_start_plan_run_with_checkpoint (scoped co)) : refine.
Hint Extern 2 (moves _ (co_transition_run _ _ _)) =>
  apply (moves_co_transition_run (scoped co)) : refine.
Hint Extern 2 (moves _ (checkpoint _ _ _ _ _)) =>
  apply (moves_checkpoint (scoped co)) : refine.
Hint Extern 2 (moves _ (co_fence_waiting_plan_run _ _ _ _ _ _ _)) =>
  apply (moves_co_fence_waiting_plan_run (scoped co)) : refine.
Hint Extern 2 (moves _ (co_resume_waiting_plan_run _ _ _ _ _ _)) =>
  apply (moves_co_resume_waiting_plan_run (scoped co)) : refine.
Hint Extern 2 (moves _ (co_cancel_waiting_plan_run _ _ _ _ _ _)) =>
  apply (moves_co_cancel_waiting_plan_run (scoped co)) : refine.

Lemma read_only_get_plan_run c p : read_only (get_plan_run c p).
Proof. unfold get_plan_run. solve_reads. Qed.
Lemma read_only_locate_context t p : read_only (locate_context t p).
Proof. unfold locate_context. solve_reads. Qed.
Hint Resolve read_only_get_plan_run read_only_locate_context : reads.
Lemma read_only_read_decision_state r by_ : read_only (read_decision_state r by_).
Proof. unfold read_decision_state. solve_reads. Qed.
Hint Resolve read_only_read_decision_state : reads.

Lemma moves_store_initial rq : moves (steps q) (store_initial planning co rq).
Proof. unfold store_initial, persist_reference. follow. Qed.
Hint Resolve moves_store_initial : refine.

Lemma moves_materialize_initial rq : moves (steps q) (materialize_initial planning co rq).
Proof. unfold materialize_initial. follow. Qed.

Lemma moves_materialize_failure_revision rq :
  moves (steps q) (materialize_failure_revision planning co rq).
Proof. unfold materialize_failure_revision. follow. Qed.

Lemma moves_apply_revision r c draft by_ i :
  moves (unit_steps q) (apply_revision planning co r c draft by_ i).
Proof. unfold apply_revision. follow. Qed.

Lemma moves_apply_resolution r c by_ i : moves (unit_steps q) (apply_resolution co r c by_ i).
Proof. unfold apply_resolution. follow. Qed.
Hint Resolve moves_apply_revision moves_apply_resolution : refine.

Lemma moves_generate {ask report m1 m2} objective revision limits reserve :
  (∀ n, moves (steps q) (reserve n)) →
  moves (steps q) (generate ask report m1 m2 objective revision limits reserve).
Proof. intros Hr. unfold generate. follow. Qed.

Lemma moves_reserve_revision_round c p n :
  moves (steps q) (reserve_revision_round planning co c p n).
Proof. unfold reserve_revision_round. follow. Qed.
Hint Resolve moves_generate moves_reserve_revision_round : refine.

Lemma moves_revise r c s by_ i : moves (steps q) (revise planning co generator r c s by_ i).
Proof. unfold revise. follow. Qed.

Lemma moves_resolve r c by_ i : moves (steps q) (resolve co r c by_ i).
Proof. unfold resolve. follow. Qed.
Hint Resolve moves_revise moves_resolve : refine.

Lemma moves_decide_plan r by_ i :
  moves (steps q) (decide_plan planning co generator r by_ i).
Proof. unfold decide_plan. follow. Qed.
End Service.

#[export] Hint Resolve read_only_get_plan_run read_only_locate_context
  read_only_read_decision_state : reads.
#[export] Hint Resolve moves_generate : refine.

(** ** The execution of a Plan *)

Section Reading.
Context `{envi : Env} (planning : PlanningSettings) (settings : Settings) (c : TenantContext).

Lemma read_only_load_run : read_only (load_run c).
Proof. unfold load_run. solve_reads. Qed.
Hint Resolve read_only_load_run : reads.
Lemma read_only_load_active_plan : read_only (load_active_plan c).
Proof. unfold load_active_plan. solve_reads. Qed.
Lemma read_only_load_executable_plan : read_only (load_executable_plan c).
Proof. unfold load_executable_plan, require_executable_run. solve_reads. Qed.
Lemma read_only_document_source plan s x : read_only (document_source c plan s x).
Proof. unfold document_source. solve_reads. Qed.
Lemma read_only_read_document p i x : read_only (read_document c p i x).
Proof. unfold read_document. solve_reads. Qed.
Hint Resolve read_only_load_active_plan read_only_load_executable_plan
  read_only_document_source read_only_read_document : reads.

Lemma read_only_load_succeeded_result plan latest docs s x :
  read_only (load_succeeded_result c plan latest docs s x).
Proof. unfold load_succeeded_result. solve_reads. Qed.
Hint Resolve read_only_load_succeeded_result : reads.

Lemma read_only_load_results_loop plan latest todo docs :
  read_only (load_results_loop c plan latest todo docs).
Proof. revert docs. induction todo as [|s todo IH]; intros docs; simpl; solve_reads. Qed.
Hint Resolve read_only_load_results_loop : reads.

Lemma read_only_load_succeeded_results plan latest :
  read_only (load_succeeded_results c plan latest).
Proof. unfold load_succeeded_results. solve_reads. Qed.
Lemma read_only_latest_attempts plan : read_only (latest_attempts c plan).
Proof. unfold latest_attempts. solve_reads. Qed.
Lemma read_only_step_attempts p n r s : read_only (step_attempts c p n r s).
Proof. unfold step_attempts. solve_reads. Qed.
Hint Resolve read_only_load_succeeded_results read_only_latest_attempts
  read_only_step_attempts : reads.

Lemma read_only_select_next_step : read_only (select_next_step c).
Proof. unfold select_next_step. solve_reads. Qed.
Lemma read_only_reuse_document x s : read_only (reuse_document c x s).
Proof. unfold reuse_document. solve_reads. Qed.
Hint Resolve read_only_reuse_document : reads.
Lemma read_only_dependency_proof plan all latest i :
  read_only (dependency_proof c plan all latest i).
Proof. unfold dependency_proof. solve_reads. Qed.
Hint Resolve read_only_dependency_proof : reads.
Lemma read_only_dependency_proofs plan all latest ids proofs :
  read_only (dependency_proofs c plan all latest ids proofs).
Proof. revert proofs. induction ids as [|i ids IH]; intros proofs; simpl; solve_reads. Qed.
Lemma read_only_step_attempt i : read_only (step_attempt c i).
Proof. unfold step_attempt. solve_reads. Qed.
Lemma read_only_require_run_context : read_only (require_run_context c).
Proof. unfold require_run_context. solve_reads. Qed.
Lemma read_only_require_lease_context l : read_only (require_lease_context c l).
Proof. unfold require_lease_context. solve_reads. Qed.
End Reading.

#[export] Hint Resolve read_only_load_run read_only_load_active_plan
  read_only_load_executable_plan read_only_document_source read_only_read_document
  read_only_load_succeeded_result read_only_load_results_loop
  read_only_load_succeeded_results read_only_latest_attempts read_only_step_attempts
  read_only_select_next_step read_only_reuse_document read_only_dependency_proof
  read_only_dependency_proofs read_only_step_attempt read_only_require_run_context
  read_only_require_lease_context : reads.

Section Execution.
Context `{envi : Env} (planning : PlanningSettings) (settings : Settings).
Local Notation q := (set_max_concurrent_runs_per_tenant settings).
Local Notation own := (own_coordinator settings).

Hint Extern 2 (moves _ (checkpoint _ _ _ _ _)) => apply (moves_checkpoint own) : refine.

Lemma moves_select_next c l : moves (steps q) (select_next c l).
Proof. unfold select_next. follow. Qed.

Lemma moves_start_next_attempt c l :
  moves (steps q) (start_next_attempt planning settings c l).
Proof. unfold start_next_attempt, start_ready_step, step_checkpoint. follow. Qed.

Lemma moves_reuse_step c l plan now all latest s :
  moves (steps q) (reuse_step planning c l plan now all latest s).
Proof. unfold reuse_step. follow. Qed.
Hint Resolve moves_reuse_step : refine.

Lemma moves_reuse_steps c l plan now all todo latest created :
  moves (steps q) (reuse_steps planning c l plan now all todo latest created).
Proof.
  revert latest created. induction todo as [|s todo IH]; intros latest created; simpl; follow.
Qed.
Hint Resolve moves_reuse_steps : refine.

Lemma moves_apply_compatible_reuse c l now :
  moves (steps q) (apply_compatible_reuse planning c l now).
Proof. unfold apply_compatible_reuse, reuse_in_order. follow. Qed.

Lemma moves_persist_plan_step_result c doc : moves (steps q) (persist_plan_step_result c doc).
Proof. unfold persist_plan_step_result. follow. Qed.
Hint Resolve moves_persist_plan_step_result : refine.

Lemma moves_finalize_step_attempt c l started target doc :
  moves (steps q) (finalize_step_attempt settings c l started target doc).
Proof. unfold finalize_step_attempt, finish_attempt, step_checkpoint. follow. Qed.

Lemma moves_resume_running_attempt c l : moves (steps q) (resume_running_attempt c l).
Proof. unfold resume_running_attempt, interrupted_attempt. follow. Qed.

Lemma moves_revision_context c l plan s x g : moves (steps q) (revision_context c l plan s x g).
Proof. unfold revision_context, revision_facts. follow. Qed.

(** *** Continuation *)

Lemma moves_persist_assistant_output c content n :
  moves (exec_steps q) (persist_assistant_output settings c content n).
Proof. unfold persist_assistant_output, commit_output. follow. Qed.

Lemma moves_persist_tool_result repo c a t n e s :
  moves (steps q) (persist_tool_result repo c a t n e s).
Proof. unfold persist_tool_result. follow. Qed.

Lemma moves_load_tool_result str_of c ref g e t n :
  moves (steps q) (load_tool_result str_of c ref g e t n).
Proof. unfold load_tool_result. follow. Qed.
End Execution.

(** *** The loop *)

Section Loop.
Context `{envi : Env} (planning : PlanningSettings) (settings : Settings) (governance : json).
Context (planning_service :
           option (option (option PlanGenerator.router * error_reporter * string * string))).
Context (has_event_router : bool) (runner : PlanStepRunner).
Local Notation q := (set_max_concurrent_runs_per_tenant settings).
Local Notation own := (own_coordinator settings).

(** The agent does nothing to the database that the engine does not do. *)
Hypothesis runner_moves : ∀ rq recovered,
  moves (exec_steps q) (pru_run_plan_step runner rq recovered).

Hint Extern 2 (moves _ (checkpoint _ _ _ _ _)) => apply (moves_checkpoint own) : refine.
Hint Extern 2 (moves _ (co_transition_run _ _ _)) =>
  apply (moves_co_transition_run own) : refine.
Hint Extern 2 (moves _ (finish_run_with_checkpoint _ _ _)) =>
  first [apply (moves_finish_run_with_checkpoint own)
        |apply (moves_finish_run_with_checkpoint (scoped own))] : refine.
Hint Extern 2 (moves _ (co_resume_waiting_plan_run _ _ _ _ _ _)) =>
  apply (moves_co_resume_waiting_plan_run (scoped own)) : refine.
Hint Extern 2 (moves _ (materialize_failure_revision _ _ _)) =>
  apply (moves_materialize_failure_revision planning own) : refine.
Hint Resolve moves_start_next_attempt moves_apply_compatible_reuse
  moves_resume_running_attempt moves_finalize_step_attempt moves_revision_context : refine.

Lemma moves_raise_if_cancelled c : moves (steps q) (raise_if_cancelled settings c).
Proof. apply (moves_raise_if_cancel_requested own). Qed.
Hint Resolve moves_raise_if_cancelled : refine.

Lemma moves_prepare_final_summary c l :
  moves (steps q) (prepare_final_summary settings c l).
Proof. unfold prepare_final_summary, summary_facts, step_checkpoint. follow. Qed.

Lemma moves_persist_summary c content l : moves (steps q) (persist_summary settings c content l).
Proof. unfold persist_summary. follow. Qed.

Lemma moves_write_summary c plan l :
  moves (steps q) (write_summary planning settings c runner plan l).
Proof. unfold write_summary. follow. Qed.

Lemma moves_resume_if_resuming c : moves (exec_steps q) (resume_if_resuming settings c).
Proof. unfold resume_if_resuming. follow. Qed.
Hint Resolve moves_prepare_final_summary moves_persist_summary moves_write_summary
  moves_resume_if_resuming : refine.

Lemma moves_complete_final_summary c :
  moves (exec_steps q) (complete_final_summary planning settings c runner).
Proof. unfold complete_final_summary. follow. Qed.

Lemma moves_resume_waiting_summary_run c i :
  moves (steps q) (resume_waiting_summary_run settings c i).
Proof. unfold resume_waiting_summary_run, waiting_summary_lease, lock_aggregate. follow. Qed.

Lemma moves_cancel_leased_run c l : moves (steps q) (cancel_leased_run settings c l).
Proof. unfold cancel_leased_run. follow. Qed.
Hint Resolve moves_cancel_leased_run moves_complete_final_summary : refine.

Lemma moves_cancel_at_boundary c :
  moves (exec_steps q) (cancel_at_boundary settings has_event_router c).
Proof. unfold cancel_at_boundary. follow. Qed.

Lemma moves_fail_replan_terminal plan :
  moves (exec_steps q) (fail_replan_terminal settings plan).
Proof. unfold fail_replan_terminal. follow. Qed.
Hint Resolve moves_cancel_at_boundary moves_fail_replan_terminal : refine.

Lemma moves_generate_replacement c g plan r :
  moves (exec_steps q) (generate_replacement planning settings c g plan r).
Proof.
  unfold generate_replacement. destruct g as [[[ask report] m1] m2]. follow.
  apply (moves_generate own). intros n. by apply moves_ret, _.
Qed.

Lemma moves_store_replacement rq :
  moves (exec_steps q) (store_replacement planning settings rq).
Proof. unfold store_replacement. follow. Qed.
Hint Resolve moves_generate_replacement moves_store_replacement : refine.

Lemma moves_replan_terminal_failure c plan s i :
  moves (exec_steps q) (replan_terminal_failure planning settings planning_service c plan s i).
Proof. unfold replan_terminal_failure. follow. Qed.
Hint Resolve moves_replan_terminal_failure : refine.

Lemma moves_iteration c last recovered b :
  moves (exec_steps q)
    (iteration planning settings governance planning_service c runner last recovered b).
Proof. unfold iteration, enter_iteration, next_work, settle_step. follow. Qed.
Hint Resolve moves_iteration : refine.

Lemma moves_execute_loop fuel c last recovered b :
  moves (exec_steps q)
    (execute_loop planning settings governance planning_service fuel c runner last recovered b).
Proof.
  revert last recovered b. induction fuel as [|fuel IH]; intros last recovered b; simpl; follow.
Qed.
Hint Resolve moves_execute_loop : refine.

Lemma moves_execute_to_boundary fuel c r i b :
  moves (exec_steps q)
    (execute_to_boundary planning settings governance planning_service has_event_router
       fuel c runner r i b).
Proof. unfold execute_to_boundary, recovered_pair. follow. Qed.
Hint Resolve moves_execute_to_boundary : refine.

Lemma moves_with_summary c out :
  moves (exec_steps q) (with_summary planning settings c runner out).
Proof. unfold with_summary. follow. Qed.
Hint Resolve moves_with_summary : refine.

Lemma moves_execute_with_final_summary fuel c :
  moves (exec_steps q)
    (execute_with_final_summary planning settings governance planning_service
       has_event_router fuel c runner).
Proof. unfold execute_with_final_summary. follow. Qed.

Lemma moves_resume fuel c recovery r i :
  moves (exec_steps q)
    (resume planning settings governance planning_service has_event_router fuel c runner
       recovery r i).
Proof. unfold resume. follow. Qed.
End Loop.
