(* ===== verification/SchedulerRefinement.v ===== *)
(** * The scheduler refines the specification

    Running a tool and repeating one move the database along the steps of
    [WorkflowSpec.v], whatever the arguments and the outcome, when the tool does. *)

From S2P Require Import Prelude Records Errors Json Regex Redaction Tenancy.
From S2P Require Import WorkflowModels Storage Checkpoint Events WorkflowRepository.
From S2P Require Import MemoryRepository WorkflowCoordinator Recovery Continuation Tools.
From S2P Require Import Scheduler WorkflowSpec WorkflowRefinement ExecutionRefinement.
From stdpp Require Import base gmap strings list relations.

Local Notation scoped := WorkflowCoordinator.scoped.

(** ** The states of the scheduler *)

Definition tool_steps `{Env} (q : Z) : relation ToolState := λ s s',
  exec_steps q (ts_exec s) (ts_exec s').

Definition vars_steps `{Env} (q : Z) : relation (ToolState * RunVars) := λ s s',
  tool_steps q s.1 s'.1.

#[export] Instance tool_steps_preorder `{Env} q : PreOrder (tool_steps q).
Proof. split; unfold tool_steps; [by intros s|by intros s1 s2 s3 ? ?; etrans]. Qed.

#[export] Instance vars_steps_preorder `{Env} q : PreOrder (vars_steps q).
Proof. split; unfold vars_steps; [by intros s|by intros s1 s2 s3 ? ?; etrans]. Qed.

Section Rules.
Context `{envi : Env} (q : Z).

Lemma moves_write_transaction {A} (m : M A) :
  moves (steps q) m → moves (steps q) (write_transaction m).
Proof.
  intros Hm. apply moves_transaction; [done|]. intros w w'. unfold steps. apply rtc_refl.
Qed.

Lemma moves_on_exec {A} (m : XM A) : moves (exec_steps q) m → moves (tool_steps q) (on_exec m).
Proof.
  intros Hm s. unfold tool_steps, on_exec. specialize (Hm (ts_exec s)).
  by destruct (m (ts_exec s)).
Qed.

Lemma moves_on_db {A} (m : M A) : moves (steps q) m → moves (tool_steps q) (on_db m).
Proof. intros Hm. by apply moves_on_exec, moves_on_world. Qed.

Lemma moves_on_tools {A} (m : TM A) : moves (tool_steps q) m → moves (vars_steps q) (on_tools m).
Proof.
  intros Hm s. unfold vars_steps, on_tools. specialize (Hm s.1). by destruct (m s.1).
Qed.

Lemma moves_on_store {A} (m : M A) : moves (steps q) m → moves (vars_steps q) (on_store m).
Proof. intros Hm. by apply moves_on_tools, moves_on_db. Qed.

Lemma moves_tool_transaction {A} (m : TPM A) :
  moves (vars_steps q) m → moves (vars_steps q) (tool_transaction m).
Proof.
  intros Hm. apply moves_transaction; [done|]. intros w w'.
  unfold vars_steps, tool_steps, exec_steps, steps. apply rtc_refl.
Qed.

Lemma moves_with_vars {A} v (m : TPM A) :
  moves (vars_steps q) m → moves (tool_steps q) (with_vars v m).
Proof. intros Hm s. specialize (Hm (s, v)). unfold with_vars. by destruct (m (s, v)). Qed.

Lemma moves_run_vars {A} v (m : TPM A) :
  moves (vars_steps q) m → moves (tool_steps q) (run_vars v m).
Proof.
  intros Hm s. specialize (Hm (s, v)). unfold run_vars. by destruct (m (s, v)) as [[] [? ?]].
Qed.

(** A change of what is not the database. *)
Lemma moves_modify_vars (f : ToolState * RunVars → RunVars) :
  moves (E:=exn) (vars_steps q) (modify (λ sv, (sv.1, f sv))).
Proof. intros s. unfold vars_steps. simpl. reflexivity. Qed.

(** What a pure computation gave is known to what follows it. *)
Lemma moves_bind_lift {S A B} (R : relation S) `{!PreOrder R} (r : result exn A)
    (f : A → stM S exn B) :
  (∀ a, r = Ok a → moves R (f a)) → moves R (lift r ≫= f).
Proof.
  intros Hf s. unfold mbind, stM_bind, lift. destruct r as [a|e]; [by apply Hf|reflexivity].
Qed.

Lemma moves_guard_run {S A} (R : relation S) `{!PreOrder R} n e t (m : stM S exn A) :
  moves R m → moves R (guard_run n e t m).
Proof.
  intros Hm. apply moves_bind; [done|by apply moves_require|intros _].
  apply moves_bind; [done|by apply moves_gets|intros late].
  destruct late; [by apply moves_throw|done].
Qed.
End Rules.

#[export] Hint Resolve moves_modify_vars moves_persist_tool_result : refine.

(** Follow the composition of an operation of the scheduler. *)
Ltac follow_tool :=
  repeat first
    [ solve [eauto 3 with refine]
    | apply moves_reading; [apply _|solve [solve_reads]]
    | apply moves_write_connection
    | apply moves_write_transaction
    | apply moves_on_store
    | apply moves_on_db
    | apply moves_on_exec
    | apply moves_on_world
    | apply moves_use_current; intros ?
    | apply moves_refresh; intros ?
    | apply moves_on_tools
    | apply moves_tool_transaction
    | apply moves_with_vars
    | apply moves_run_vars
    | apply moves_guard_run; [apply _|]
    | apply moves_gets, _
    | apply moves_require, _
    | apply moves_throw, _
    | apply moves_ret, _
    | apply moves_catch; [apply _| |intros ?]
    | apply moves_bind_lift; [apply _|intros ? ?]
    | apply moves_bind; [apply _| |intros ?]
    | progress cbv zeta
    | case_match ].

Section Scheduler.
Context `{envi : Env}.
Context (unicode_alnum : N → bool) (resolve : string → list string)
  (casefold uuid5 : string → string).
Context (settings : Settings) (guarded_tools : list string) (guard_timeout : Z)
  (expires : ToolState * RunVars → bool) (has_database has_event_router : bool).
Local Notation q := (set_max_concurrent_runs_per_tenant settings).

Lemma moves_publish c t l : moves (tool_steps q) (publish has_event_router c t l).
Proof.
  unfold publish. apply moves_bind; [apply _|intros s; unfold tool_steps; simpl; reflexivity|].
  intros _. follow_tool.
Qed.
Hint Resolve moves_publish : refine.

Lemma moves_audit_record c a : moves (steps q) (audit_record c a).
Proof. unfold audit_record. follow_tool. Qed.
Hint Resolve moves_audit_record : refine.

Lemma moves_publish_result_event n r c i l :
  moves (tool_steps q) (publish_result_event has_event_router n r c i l).
Proof. unfold publish_result_event. follow_tool. Qed.
Hint Resolve moves_publish_result_event : refine.

Lemma moves_finalize n r c i d l :
  moves (tool_steps q) (finalize_terminal_result has_database has_event_router n r c i d l).
Proof. unfold finalize_terminal_result. follow_tool. Qed.
Hint Resolve moves_finalize : refine.

Lemma read_only_lease_for_observed_result l c : read_only (lease_for_observed_result l c).
Proof. unfold lease_for_observed_result. solve_reads. Qed.
Hint Resolve read_only_lease_for_observed_result : reads.

Lemma moves_commit_result p n c i r s x :
  moves (vars_steps q) (commit_result settings p n c i r s x).
Proof. unfold commit_result, observe. follow_tool. Qed.
Hint Resolve moves_commit_result : refine.

Lemma moves_persist_execution_result p n c i r h t :
  moves (vars_steps q) (persist_execution_result settings has_event_router p n c i r h t).
Proof. unfold persist_execution_result. follow_tool. Qed.
Hint Resolve moves_persist_execution_result : refine.

Lemma moves_record_progress e x : moves (vars_steps q) (record_progress settings e x).
Proof. unfold record_progress. follow_tool. Qed.
Hint Resolve moves_record_progress : refine.

Lemma moves_commit_dispatch b c l e t input s k :
  moves (steps q) (commit_dispatch settings b c l e t input s k).
Proof. unfold commit_dispatch. follow_tool. Qed.
Hint Resolve moves_commit_dispatch : refine.

Lemma moves_prepare_execution b c i input s k :
  moves (tool_steps q) (prepare_execution settings b c i input s k).
Proof. unfold prepare_execution. follow_tool. Qed.
Hint Resolve moves_prepare_execution : refine.

Lemma moves_cancellation_won c l : moves (steps q) (cancellation_won c l).
Proof. unfold cancellation_won. follow_tool. Qed.
Hint Resolve moves_cancellation_won : refine.

Lemma moves_check_pre_dispatch p n c i :
  moves (vars_steps q) (check_pre_dispatch_cancellation settings has_event_router p n c i).
Proof. unfold check_pre_dispatch_cancellation. follow_tool. Qed.
Hint Resolve moves_check_pre_dispatch : refine.

Lemma moves_commit_approval b c l e t a i input s k :
  moves (steps q) (commit_approval settings b c l e t a i input s k).
Proof. unfold commit_approval. follow_tool. Qed.
Hint Resolve moves_commit_approval : refine.

Lemma moves_persist_approval_request b input roots s k c i :
  moves (tool_steps q) (persist_approval_request resolve uuid5 settings b input roots s k c i).
Proof. unfold persist_approval_request. follow_tool. Qed.
Hint Resolve moves_persist_approval_request : refine.

Lemma moves_block_execution c x s d :
  moves (tool_steps q) (block_execution settings has_event_router c x s d).
Proof. unfold block_execution, commit_blocked. follow_tool. Qed.
Hint Resolve moves_block_execution : refine.

Lemma moves_mark_uncertain c x :
  moves (tool_steps q) (mark_uncertain_execution settings has_event_router c x).
Proof. unfold mark_uncertain_execution. follow_tool. Qed.
Hint Resolve moves_mark_uncertain : refine.

Lemma moves_prepare_recovery c x input :
  moves (tool_steps q) (prepare_recovery_execution settings c x input).
Proof.
  unfold prepare_recovery_execution, commit_redispatch, redispatch_checkpoint. follow_tool.
Qed.
Hint Resolve moves_prepare_recovery : refine.

Lemma moves_recovery_obstacle b c x :
  moves (tool_steps q)
    (recovery_obstacle unicode_alnum resolve casefold uuid5 guarded_tools b c x).
Proof. unfold recovery_obstacle. follow_tool. Qed.
Hint Resolve moves_recovery_obstacle : refine.

(** ** Calls of a tool *)

(** The tool changes the database as the engine does, if its recorder does. *)
Definition tool_follows (b : ToolBuilder) : Prop :=
  ∀ params invocation roots recorder,
    tb_build b params = Ok invocation →
    (∀ r x, recorder = Some r → moves (vars_steps q) (r x)) →
    moves (vars_steps q) (invocation roots recorder).

Context (b : ToolBuilder) (Hb : tool_follows b).

Lemma moves_dispatch params p invocation roots c i :
  tb_build b params = Ok invocation →
  moves (vars_steps q)
    (dispatch resolve settings has_event_router b p invocation roots c i).
Proof.
  intros Hi. unfold dispatch. follow_tool. eapply Hb; [done|]. intros r x [= <-].
  auto with refine.
Qed.
Hint Resolve moves_dispatch : refine.

Lemma moves_guarded_dispatch params p invocation roots c i :
  tb_build b params = Ok invocation →
  moves (vars_steps q)
    (guarded_dispatch resolve settings guard_timeout expires has_event_router b p invocation
       roots c i).
Proof. intros Hi. unfold guarded_dispatch. follow_tool. Qed.
Hint Resolve moves_guarded_dispatch : refine.

Lemma moves_request_approval raw input m d c i :
  moves (tool_steps q)
    (request_approval unicode_alnum resolve uuid5 settings has_event_router b raw input m d c i).
Proof. unfold request_approval. follow_tool. Qed.
Hint Resolve moves_request_approval : refine.

Lemma moves_durable_call raw params c i :
  moves (tool_steps q)
    (durable_call unicode_alnum resolve casefold uuid5 settings guarded_tools guard_timeout
       expires has_database has_event_router b raw params c i).
Proof.
  unfold durable_call. follow_tool.
Qed.
Hint Resolve moves_durable_call : refine.

Lemma moves_run_durable raw params c i :
  moves (tool_steps q)
    (run_durable unicode_alnum resolve casefold uuid5 settings guarded_tools guard_timeout
       expires has_database has_event_router b raw params c i).
Proof. unfold run_durable. follow_tool. Qed.
Hint Resolve moves_run_durable : refine.

Lemma moves_run_ephemeral raw params c i :
  moves (tool_steps q)
    (run_ephemeral unicode_alnum resolve casefold guarded_tools guard_timeout
       expires has_database has_event_router b raw params c i).
Proof.
  unfold run_ephemeral, ephemeral_call. follow_tool. by eapply Hb.
Qed.
Hint Resolve moves_run_ephemeral : refine.

Lemma moves_run raw c i h :
  moves (tool_steps q)
    (run unicode_alnum resolve casefold uuid5 settings guarded_tools guard_timeout
       expires has_database has_event_router b raw c i h).
Proof. unfold run. follow_tool. Qed.

Lemma moves_settle_failed_recovery c i e :
  moves (tool_steps q) (settle_failed_recovery settings has_event_router b c i e).
Proof.
  unfold settle_failed_recovery. apply moves_bind; [apply _|follow_tool|intros [x|]];
    [|apply moves_throw, _].
  case_match; [by apply moves_block_execution|].
  apply moves_bind; [apply _|apply moves_on_exec, moves_current|intros l].
  apply moves_bind; [apply _| |intros _; apply moves_ret, _].
  apply moves_with_vars, moves_persist_execution_result.
Qed.

Lemma moves_repeat_execution c x action force :
  moves (tool_steps q)
    (repeat_execution unicode_alnum resolve casefold uuid5 settings guarded_tools
       guard_timeout expires has_event_router b c x action force).
Proof.
  unfold repeat_execution. apply moves_bind; [apply _|by apply moves_recovery_obstacle|].
  intros [[s d]|[[input params] decision]]; [by apply moves_block_execution|].
  case_match; [by apply moves_mark_uncertain|].
  apply moves_bind_lift; [apply _|intros invocation Hi].
  apply moves_bind; [apply _|by apply moves_prepare_recovery|intros [p v]].
  apply moves_bind; [apply _| |intros [r v']].
  - apply moves_run_vars, moves_guard_run; [apply _|]. eapply Hb; [done|].
    intros recorder y [= <-]. apply moves_record_progress.
  - apply moves_bind; [apply _| |intros _; apply moves_ret, _].
    apply moves_with_vars, moves_persist_execution_result.
Qed.

Lemma moves_recover_execution c x action force :
  moves (tool_steps q)
    (recover_execution unicode_alnum resolve casefold uuid5 settings guarded_tools
       guard_timeout expires has_event_router b c x action force).
Proof.
  apply moves_catch; [apply _|apply moves_repeat_execution|intros e].
  case_match; [apply moves_throw, _|apply moves_settle_failed_recovery].
Qed.
End Scheduler.
