(* ===== verification/ExecutionFacts.v ===== *)
(** * What the verification of results establishes

    [load_succeeded_results] accepts a set of results only when each is the document that
    its attempt recorded, and its dependencies are exactly the results of the steps it
    depends on ([authentic]); the next step is then the first one that is ready. *)

From S2P Require Import Prelude Records Errors Json Regex Redaction Tenancy.
From S2P Require Import WorkflowModels.
From S2P Require Import Storage Collections PlanStorage Checkpoint Events PlanValidation.
From S2P Require Import PlanSpec PlanRecords PlanReading WorkflowRepository.
From S2P Require Import PlanRepository.
From S2P Require Import PlanDecisions PlanAttempts MemoryRepository PlanResults.
From S2P Require Import WorkflowCoordinator PlanGenerator PlanService Recovery.
From S2P Require Import Continuation.
From S2P Require Import PlanExecution PlanLoop WorkflowSpec WorkflowRefinement.
From S2P Require Import PlanRefinement PlanAttemptRefinement PlanSystem.
From S2P Require Import ExecutionRefinement.
From stdpp Require Import base gmap strings list relations.

(** Split a conjunction of tests. *)
Ltac split_tests H :=
  rewrite ?andb_true_iff, ?bool_decide_eq_true in H; destruct_and? H.

(** ** Authentic results *)

Section Authentic.
Context `{envi : Env} (c : TenantContext) (plan : PlanSnapshot).
Context (latest : gmap string PlanStepRunRecord) (w : World).

Local Notation deps s := (default [] (pvr_dependencies (ps_current plan) !! pst_step_id s)).
Local Notation by_id := (steps_by_id (pvr_steps (ps_current plan))).

(** The entry that a reference names, in the scope of the run. *)
Definition stored_document (x : PlanStepRunRecord) (doc : PlanStepResultDocument) : Prop :=
  ∃ ref i m, psr_result_ref x = Some ref ∧ RESULT_REF ref = Some i ∧
    memory_entries (w_db w) !! i = Some m ∧ mem_tenant_id m = tc_tenant_id c ∧
    mem_workspace_id m = tc_workspace_id c ∧ mem_session_id m = tc_session_id c ∧
    mem_type m = "plan_step_result" ∧ model_validate_json (mem_content m) = Some doc.

(** The result of step [s], recorded by its latest attempt [x]: stored, with the digest
    and the summary of the attempt, by this run for this Plan, of a step that says the
    same, by the attempt itself or by the one it repeats. *)
Record authentic (s : PlanStepRecord) (x : PlanStepRunRecord) (doc : PlanStepResultDocument)
    : Prop := MkAuthentic {
  auth_stored : stored_document x doc;
  auth_digest : psr_result_digest x = Some (result_digest doc);
  auth_summary : psr_result_summary x = Some (doc_summary doc);
  auth_plan : doc_plan_id doc = ps_plan_id plan;
  auth_run : tc_run_id c = Some (doc_run_id doc);
  auth_status : doc_status doc = "succeeded";
  auth_definition : doc_definition_digest doc = pst_definition_digest s;
  auth_attempt : match psr_reused_from_step_run_id x with
                 | None => doc_step_id doc = pst_step_id s ∧
                           doc_step_run_id doc = psr_step_run_id x
                 | Some source => pst_supersedes_step_id s = Some (doc_step_id doc) ∧
                                  doc_step_run_id doc = source
                 end;
}.

(** The key of a dependency, and the digest of its result. *)
Definition key_of_dependency (i : string) : string :=
  match by_id !! i with Some t => pst_logical_step_key t | None => "" end.

Definition digest_of_dependency (documents : gmap string PlanStepResultDocument) (i : string)
    : string :=
  match documents !! i with Some dep => result_digest dep | None => "" end.

(** The document names exactly the digests of the results it rests on. *)
Definition rests_on (s : PlanStepRecord) (doc : PlanStepResultDocument)
    (documents : gmap string PlanStepResultDocument) : Prop :=
  (∀ i, i ∈ deps s → is_Some (documents !! i) ∧ is_Some (by_id !! i)) ∧
  list_to_map (doc_dependency_result_digests doc) =
    dict_from key_of_dependency (digest_of_dependency documents) (deps s).

(** The source of a document. *)
Lemma document_source_Ok s x source source_step w' :
  document_source c plan s x w = (Ok (source, source_step), w') →
  w' = w ∧
  match psr_reused_from_step_run_id x with
  | None => source = x ∧ source_step = s
  | Some i => psr_step_run_id source = i ∧
              pst_supersedes_step_id s = Some (pst_step_id source_step) ∧
              pst_definition_digest source_step = pst_definition_digest s
  end.
Proof.
  intros H. pose proof (read_only_Ok _ _ _ _ (read_only_document_source c plan s x) H) as ->.
  split; [done|]. unfold document_source in H.
  destruct (psr_reused_from_step_run_id x) as [i|]; [|by injection H as <- <-].
  apply read_bind_Ok in H as (o&Ho&H); [|auto with reads].
  apply or_raise_bind_Ok in H as (y&->&H). apply require_bind_Ok in H as [Ht H].
  apply or_raise_bind_Ok in H as (t&_&H). apply require_bind_Ok in H as [Hs H].
  injection H as <- <-. unfold supersedes_unchanged in Hs. split_tests Hs.
  split_and!; [|done|done].
  apply bind_Ok in Ho as (sid&w1&Hsid&Ho). apply bind_Ok in Ho as (d&w2&[= <- <-]&Ho).
  injection Ho as Ho _. apply fmap_Some in Ho as (r&Hr&->).
  apply head_Some in Hr as [l Hl].
  assert (Hin : r ∈ step_run_rows c (w_db w1) sid (run_text c) i) by (rewrite Hl; by left).
  apply elem_of_filter_bool in Hin as [_ Hin]. by apply bool_decide_eq_true in Hin.
Qed.

Lemma read_document_Ok p i source doc w' :
  read_document c p i source w = (Ok doc, w') →
  ∃ m, memory_entries (w_db w) !! i = Some m ∧ mem_tenant_id m = tc_tenant_id c ∧
    mem_workspace_id m = tc_workspace_id c ∧ mem_session_id m = tc_session_id c ∧
    mem_type m = "plan_step_result" ∧ model_validate_json (mem_content m) = Some doc.
Proof.
  intros H. unfold read_document in H.
  apply read_bind_Ok in H as (o&Ho&H); [|auto with reads].
  apply or_raise_bind_Ok in H as (e&->&H). apply require_bind_Ok in H as [Ht H].
  apply require_bind_Ok in H as [_ H]. apply or_raise_Ok in H as [H _].
  unfold memory_get, get_row in Ho. apply bind_Ok in Ho as (d&w1&[= <- <-]&Ho).
  destruct (exact_row _ _ _ _) as [m|] eqn:E; [|done].
  apply lift_bind_Ok in Ho as (e'&He&[= ->]).
  apply exact_row_Some in E as (E1&E2&E3&E4). exists m.
  unfold from_row in He. apply result_bind_Ok in He as (md&_&[= <-]).
  unfold is_result_entry in Ht. split_tests Ht. done.
Qed.

(** The digests that a document has to name. *)
Lemma expected_dependency_digests_Ok x ids acc m :
  expected_dependency_digests by_id latest x ids acc = Ok m →
  (∀ i, i ∈ ids → is_Some (by_id !! i)) ∧
  m = foldl (λ m i, <[key_of_dependency i :=
                        default "" (y ← latest !! i; psr_result_digest y)]> m) acc ids.
Proof.
  revert acc. induction ids as [|i ids IH]; intros acc H; simpl in H.
  { injection H as <-. split; [by intros i Hi%elem_of_nil|done]. }
  destruct (latest !! i) as [y|] eqn:Ey; [|by destruct (by_id !! i)].
  destruct (psr_result_digest y) as [g|] eqn:Eg; [|done].
  destruct (by_id !! i) as [t|] eqn:Et; [|done].
  apply ensure_bind_Ok in H as [_ H]. destruct (IH _ H) as [IH1 ->]. split.
  - intros j [->|Hj]%elem_of_cons; [by rewrite Et|by apply IH1].
  - simpl. assert (key_of_dependency i = pst_logical_step_key t) as ->.
    { unfold key_of_dependency. by rewrite Et. }
    rewrite Ey. simpl. by rewrite Eg.
Qed.

Lemma load_succeeded_result_Ok documents s x doc w' :
  (∀ i dep, documents !! i = Some dep → ∃ y, latest !! i = Some y ∧
     psr_result_digest y = Some (result_digest dep)) →
  load_succeeded_result c plan latest documents s x w = (Ok doc, w') →
  authentic s x doc ∧ rests_on s doc documents.
Proof.
  intros Hdocs H. unfold load_succeeded_result in H. cbv zeta in H.
  apply or_raise_bind_Ok in H as (ref&Hr&H). apply or_raise_bind_Ok in H as (g&Hg&H).
  apply or_raise_bind_Ok in H as (sm&Hsm&H). apply or_raise_bind_Ok in H as (i&Hi&H).
  apply read_bind_Ok in H as ([source source_step]&Hsrc&H); [|auto with reads].
  apply document_source_Ok in Hsrc as [_ Hsrc].
  apply read_bind_Ok in H as (doc'&Hdoc&H); [|auto with reads].
  apply read_document_Ok in Hdoc as (m&Hm).
  apply require_bind_Ok in H as [Ht H]. split_tests Ht.
  apply require_bind_Ok in H as [Hd H]. apply lift_bind_Ok in H as (e&He&H).
  apply require_bind_Ok in H as [Hmap H]. apply bool_decide_eq_true in Hmap.
  injection H as <- _. subst g sm. split.
  - split; try done; [exists ref, i, m; naive_solver|..].
    + destruct (psr_reused_from_step_run_id x);
        [destruct Hsrc as (_&_&<-)|destruct Hsrc as [_ <-]]; done.
    + destruct (psr_reused_from_step_run_id x).
      * destruct Hsrc as (Hs1&Hs2&_). split; congruence.
      * destruct Hsrc as [-> ->]. done.
  - apply expected_dependency_digests_Ok in He as [Hids ->].
    rewrite forallb_forall in Hd. split.
    + intros j Hj. split; [|by apply Hids].
      apply list_elem_of_In, Hd in Hj. by apply bool_decide_eq_true in Hj.
    + rewrite Hmap. unfold dict_from. clear -Hd Hdocs. revert Hd. generalize (∅ : gmap string string).
      induction (deps s) as [|j l IH]; intros acc Hd; simpl; [done|].
      rewrite IH by (intros k Hk; apply Hd; by right). do 2 f_equal.
      assert (Hj : is_Some (documents !! j)).
      { apply (bool_decide_eq_true (is_Some (documents !! j))), Hd. by left. }
      destruct Hj as [dep Hdep]. unfold digest_of_dependency. rewrite Hdep.
      destruct (Hdocs _ _ Hdep) as (y&->&Hy). simpl. by rewrite Hy.
Qed.
Lemma dict_from_ext {A} (key val val' : A → string) l :
  (∀ x, x ∈ l → val x = val' x) → dict_from key val l = dict_from key val' l.
Proof.
  unfold dict_from. generalize (∅ : gmap string string). induction l as [|x l IH]; intros m Hv;
    [done|]. simpl. rewrite (Hv x) by (by left). apply IH. intros y Hy. apply Hv. by right.
Qed.

Lemma rests_on_mono s doc docs docs' :
  docs ⊆ docs' → rests_on s doc docs → rests_on s doc docs'.
Proof.
  intros Hsub [Hd Hm]. split.
  - intros i Hi. destruct (Hd i Hi) as [[dep Hdep] Hb]. split; [|done].
    exists dep. by eapply lookup_weaken.
  - rewrite Hm. apply dict_from_ext. intros i Hi. destruct (Hd i Hi) as [[dep Hdep] _].
    unfold digest_of_dependency. rewrite Hdep. by rewrite (lookup_weaken _ _ _ _ Hdep Hsub).
Qed.

(** The result of a step that the loop has verified. *)
Definition verified (docs : gmap string PlanStepResultDocument) (s : PlanStepRecord)
    (doc : PlanStepResultDocument) : Prop :=
  ∃ x, latest !! pst_step_id s = Some x ∧ psr_status x = STEP_SUCCEEDED ∧
    authentic s x doc ∧ rests_on s doc docs.

Lemma load_results_loop_Ok todo docs docs' w' :
  load_results_loop c plan latest todo docs w = (Ok docs', w') →
  NoDup (map pst_step_id todo) →
  (∀ s, s ∈ todo → docs !! pst_step_id s = None) →
  (∀ i dep, docs !! i = Some dep → ∃ y, latest !! i = Some y ∧
     psr_result_digest y = Some (result_digest dep)) →
  docs ⊆ docs' ∧
  (∀ i dep, docs' !! i = Some dep → docs !! i = Some dep ∨
     ∃ s, s ∈ todo ∧ pst_step_id s = i ∧ verified docs' s dep) ∧
  ∀ s x, s ∈ todo → latest !! pst_step_id s = Some x → psr_status x = STEP_SUCCEEDED →
    is_Some (docs' !! pst_step_id s).
Proof.
  revert docs. induction todo as [|s todo IH]; intros docs H Hn Hf Hd; simpl in H.
  { injection H as <- _. split_and!; [done|by left|by intros s x Hs%elem_of_nil]. }
  apply NoDup_cons in Hn as [Hs Hn].
  assert (Hf' : ∀ t, t ∈ todo → docs !! pst_step_id t = None) by (intros; apply Hf; by right).
  assert (Hskip : (∀ x, latest !! pst_step_id s = Some x → psr_status x ≠ STEP_SUCCEEDED) →
    load_results_loop c plan latest todo docs w = (Ok docs', w') →
    docs ⊆ docs' ∧
    (∀ i dep, docs' !! i = Some dep → docs !! i = Some dep ∨
       ∃ t, t ∈ s :: todo ∧ pst_step_id t = i ∧ verified docs' t dep) ∧
    ∀ t x, t ∈ s :: todo → latest !! pst_step_id t = Some x → psr_status x = STEP_SUCCEEDED →
      is_Some (docs' !! pst_step_id t)).
  { intros Hno H'. destruct (IH _ H' Hn Hf' Hd) as (I1&I2&I3). split_and!; [done|..].
    - intros i dep [?|(t&?&?&?)]%I2; [by left|]. right. exists t. split_and!; [by right|done..].
    - intros t x [->|Ht]%elem_of_cons Hx Hst; [by destruct (Hno x)|by eapply I3]. }
  destruct (latest !! pst_step_id s) as [x|] eqn:Ex; [|by apply Hskip].
  case_bool_decide as Hst; simpl in H; [|by apply Hskip; [intros y [= <-]|]].
  apply read_bind_Ok in H as (doc&Hdoc&H); [|auto with reads].
  destruct (load_succeeded_result_Ok _ _ _ _ _ Hd Hdoc) as [Ha Hr]. clear Hskip.
  set (docs1 := <[pst_step_id s := doc]> docs) in *.
  assert (Hsub : docs ⊆ docs1) by (apply insert_subseteq, Hf; by left).
  destruct (IH docs1 H Hn) as (I1&I2&I3).
  - intros t Ht. unfold docs1. rewrite lookup_insert_ne; [by apply Hf'|].
    intros E. apply Hs. rewrite E. by apply list_elem_of_fmap_2.
  - intros i dep. unfold docs1. rewrite lookup_insert_Some. intros [[<- <-]|[_ Hi]]; [|by apply Hd].
    exists x. split; [done|]. by apply Ha.
  - split_and!; [by etrans|..].
    + intros i dep [Hi|(t&?&?&?)]%I2.
      * unfold docs1 in Hi. apply lookup_insert_Some in Hi as [[<- <-]|[_ Hi]]; [|by left].
        right. exists s. split_and!; [by left|done|]. exists x. split_and!; [done..|].
        eapply rests_on_mono; [|done]. by etrans.
      * right. exists t. split_and!; [by right|done..].
    + intros t y [->|Ht]%elem_of_cons Hy Hyst; [|by eapply I3].
      exists doc. eapply lookup_weaken; [|exact I1]. apply lookup_insert_eq.
Qed.

Lemma in_order_perm l : in_order l ≡ₚ l.
Proof. apply sort_by_perm. Qed.

Lemma load_succeeded_results_Ok docs w' :
  load_succeeded_results c plan latest w = (Ok docs, w') →
  NoDup (map pst_step_id (pvr_steps (ps_current plan))) →
  w' = w ∧
  (∀ i dep, docs !! i = Some dep →
     ∃ s, s ∈ pvr_steps (ps_current plan) ∧ pst_step_id s = i ∧ verified docs s dep) ∧
  ∀ s x, s ∈ pvr_steps (ps_current plan) → latest !! pst_step_id s = Some x →
    psr_status x = STEP_SUCCEEDED → is_Some (docs !! pst_step_id s).
Proof.
  intros H Hn.
  split; [exact (read_only_Ok _ _ _ _ (read_only_load_succeeded_results c plan latest) H)|].
  unfold load_succeeded_results in H. apply require_bind_Ok in H as [_ H].
  destruct (load_results_loop_Ok _ _ _ _ H) as (_&I2&I3).
  - by rewrite (in_order_perm (pvr_steps (ps_current plan))).
  - intros s _. apply lookup_empty.
  - intros i dep. by rewrite lookup_empty.
  - split.
    + intros i dep [Hi|(s&Hs&?&?)]%I2; [by rewrite lookup_empty in Hi|].
      exists s. split_and!; [by rewrite <-in_order_perm|done..].
    + intros s x Hs. apply I3. by rewrite in_order_perm.
Qed.
End Authentic.

(** ** The Plan that is executed *)

Section Selection.
Context `{envi : Env} (c : TenantContext).

Lemma steps_by_id_dict l : steps_by_id l = dict_from pst_step_id id l.
Proof. done. Qed.

(** What the integrity check of a version establishes. *)
Lemma integrity_NoDup v u :
  validate_version_integrity v = Ok u → NoDup (map pst_step_id (pvr_steps v)).
Proof.
  unfold validate_version_integrity. intros H. apply ensure_bind_Ok in H as [_ H].
  apply ensure_bind_Ok in H as [_ H]. apply ensure_bind_Ok in H as [H _].
  apply bool_decide_eq_true in H. by apply (dict_from_size pst_step_id id).
Qed.

Lemma get_plan_NoDup p w plan w' :
  get_plan c p w = (Ok (Some plan), w') →
  NoDup (map pst_step_id (pvr_steps (ps_current plan))).
Proof.
  unfold get_plan. intros H. apply read_bind_Ok in H as (sid&_&H); [|auto with reads].
  apply bind_Ok in H as (d&w1&[= <- <-]&H).
  destruct (plan_predicate _ _) as [row|]; [|done].
  apply lift_bind_Ok in H as (s&Hs&[= <- _]). unfold read_plan in Hs.
  apply result_bind_Ok in Hs as (vs&Hvs&Hs).
  destruct (version_numbered _ vs) as [v|] eqn:Ev; [|done]. injection Hs as <-. simpl.
  apply find_some in Ev as [Hin _]. apply list_elem_of_In in Hin.
  unfold read_versions in Hvs. apply result_bind_Ok in Hvs as (u&_&Hvs).
  apply mapM_Forall2 in Hvs. apply list_elem_of_lookup in Hin as [n Hn].
  destruct (Forall2_lookup_r _ _ _ _ _ Hvs Hn) as (vrow&_&Hv).
  unfold hydrate_version in Hv. apply result_bind_Ok in Hv as (cs&_&Hv).
  apply result_bind_Ok in Hv as (u'&Hi&[= <-]). by eapply integrity_NoDup.
Qed.

(** The Plan of an executable run: approved, current and active. *)
Lemma load_executable_plan_Ok w plan w' :
  load_executable_plan c w = (Ok plan, w') →
  ∃ run, w' = w ∧ get_run c w = (Ok (Some run), w) ∧
    is_plan_run_executable (rr_status run) (rr_cancel_requested_at run) = true ∧
    rr_plan_id run = Some (ps_plan_id plan) ∧
    rr_active_plan_version run = Some (ps_current_version plan) ∧
    ps_status plan = PLAN_APPROVED ∧ ps_approved_version plan = Some (ps_current_version plan) ∧
    NoDup (map pst_step_id (pvr_steps (ps_current plan))).
Proof.
  unfold load_executable_plan. intros H.
  apply read_bind_Ok in H as (o&Hr&H); [|auto with reads].
  apply or_raise_bind_Ok in H as (run&->&H). apply require_bind_Ok in H as [He H].
  apply or_raise_bind_Ok in H as (p&Hp&H).
  apply read_bind_Ok in H as (o&Hg&H); [|auto with reads].
  apply or_raise_bind_Ok in H as (s&->&H). apply require_bind_Ok in H as [Ht H].
  injection H as <- <-. split_tests Ht. exists run. split_and!; try done.
  - rewrite Hp. f_equal. unfold get_plan in Hg.
    apply read_bind_Ok in Hg as (sid&_&Hg); [|auto with reads].
    apply bind_Ok in Hg as (d&w1&[= <- <-]&Hg).
    destruct (plan_predicate _ _) as [row|] eqn:Er; [|done].
    apply lift_bind_Ok in Hg as (s'&Hs&[= ->]). apply plan_predicate_Some in Er as [_ Er].
    unfold read_plan in Hs. apply result_bind_Ok in Hs as (vs&_&Hs).
    destruct (version_numbered _ _); [|done]. injection Hs as <-. simpl.
    unfold plan_scope, PlanRepository.scoped in Er. congruence.
  - by eapply get_plan_NoDup.
Qed.

(** The order of the steps. *)
Lemma ordinal_leb_total a b : ordinal_leb a b = false → ordinal_leb b a = true.
Proof.
  unfold ordinal_leb. rewrite !orb_false_iff, !orb_true_iff, !andb_true_iff, !andb_false_iff.
  rewrite !Z.ltb_lt, !Z.ltb_ge, !Z.eqb_eq, !Z.eqb_neq. intros [H1 [H2|H2]]; [left; lia|].
  destruct (Z.eq_dec (pst_ordinal a) (pst_ordinal b)); [right|left; lia].
  split; [done|]. by apply string_leb_total.
Qed.

Lemma ordinal_leb_trans a b d :
  ordinal_leb a b = true → ordinal_leb b d = true → ordinal_leb a d = true.
Proof.
  unfold ordinal_leb. rewrite !orb_true_iff, !andb_true_iff, !Z.ltb_lt, !Z.eqb_eq.
  intros [H1|[H1 S1]] [H2|[H2 S2]]; [left; lia..|]. right. split; [lia|].
  by eapply string_leb_trans.
Qed.

(** The first element of a sorted list that passes a test is the least that does. *)
Lemma find_sorted_least {A} (leb : A → A → bool) (p : A → bool) l x :
  (∀ a b, leb a b = false → leb b a = true) →
  (∀ a b d, leb a b = true → leb b d = true → leb a d = true) →
  List.find p (sort_by leb l) = Some x →
  x ∈ l ∧ p x = true ∧ ∀ y, y ∈ l → p y = true → leb x y = true.
Proof.
  intros Ht Htr Hx.
  assert (Hrefl : ∀ a, leb a a = true).
  { intros a. destruct (leb a a) eqn:E; [done|]. by rewrite (Ht a a E) in E. }
  pose proof (sort_by_ordered leb Ht l) as Ho. apply (ordered_strongly leb Htr) in Ho.
  assert (Hperm := sort_by_perm leb l).
  assert (x ∈ sort_by leb l ∧ p x = true ∧
    ∀ y, y ∈ sort_by leb l → p y = true → leb x y = true) as (H1&H2&H3).
  { clear Hperm. induction Ho as [|a m Hm IH Ha]; [done|]. simpl in Hx.
    destruct (p a) eqn:Ep.
    - injection Hx as ->. split_and!; [by left|done|].
      intros y [->|Hy]%elem_of_cons _; [done|]. rewrite Forall_forall in Ha. by apply Ha.
    - destruct (IH Hx) as (I1&I2&I3). split_and!; [by right|done|].
      intros y [->|Hy]%elem_of_cons Hp; [congruence|by apply I3]. }
  rewrite Hperm in H1. split_and!; [done|done|]. intros y Hy. apply H3. by rewrite Hperm.
Qed.
(** The steps that [s] depends on. *)
Definition depends (plan : PlanSnapshot) (s : PlanStepRecord) : list string :=
  default [] (pvr_dependencies (ps_current plan) !! pst_step_id s).

Lemma results_named_Ok docs ids l :
  results_named docs ids = Ok l → Forall2 (λ i doc, docs !! i = Some doc) ids l.
Proof.
  intros H%mapM_Forall2. eapply Forall2_impl; [exact H|]. intros i doc. simpl.
  destruct (docs !! i); [|done]. by intros [= ->].
Qed.

Lemma select_next_step_Ok w o w' :
  select_next_step c w = (Ok o, w') →
  w' = w ∧ ∃ plan latest docs,
    load_executable_plan c w = (Ok plan, w) ∧ latest_attempts c plan w = (Ok latest, w) ∧
    load_succeeded_results c plan latest w = (Ok docs, w) ∧
    any_latest (λ t, bool_decide (t = STEP_RUNNING)) latest = false ∧
    any_latest (λ t, bool_decide (t ∈ TERMINAL_PLAN_STEP_STATUSES)) latest = false ∧
    match o with
    | None => all_steps_succeeded plan latest = true
    | Some r =>
      rps_plan r = plan ∧
      choose_ready_step (ps_current plan) latest = Some (rps_step r) ∧
      Forall2 (λ i doc, docs !! i = Some doc) (depends plan (rps_step r))
        (rps_dependency_results r)
    end.
Proof.
  intros H. split; [exact (read_only_Ok _ _ _ _ (read_only_select_next_step c) H)|].
  unfold select_next_step in H.
  apply read_bind_Ok in H as (plan&Hp&H); [|auto with reads].
  apply read_bind_Ok in H as (latest&Hl&H); [|auto with reads].
  apply require_bind_Ok in H as [H1%negb_true_iff H].
  apply require_bind_Ok in H as [H2%negb_true_iff H].
  apply read_bind_Ok in H as (docs&Hd&H); [|auto with reads].
  exists plan, latest, docs. split_and!; try done.
  destruct (choose_ready_step _ _) as [s|] eqn:Es.
  - apply lift_bind_Ok in H as (l&Hr&H). apply read_bind_Ok in H as (pr&_&H); [|auto with reads].
    injection H as <- _. split_and!; [done|done|]. by apply results_named_Ok.
  - apply require_bind_Ok in H as [H3 H]. by injection H as <- _.
Qed.

(** A ready step's dependencies have all succeeded. *)
Lemma step_ready_dependencies i ids latest j :
  is_plan_step_ready i ids latest = true → j ∈ ids →
  ∃ x, latest !! j = Some x ∧ psr_status x = STEP_SUCCEEDED.
Proof.
  unfold is_plan_step_ready. rewrite andb_true_iff, forallb_forall.
  intros [_ H] Hj. apply list_elem_of_In, H in Hj.
  destruct (latest !! j) as [x|]; [|done]. apply bool_decide_eq_true in Hj. eauto.
Qed.
End Selection.
