(* ===== verification/PlanOutcomes.v ===== *)
(** * What the Plan repository answers

    In a state that satisfies [plans_ok], a stored Plan is always read; a decision is
    answered with the Plan as the decision left it, and sending it again, after whatever
    happened in between, is answered with the same snapshot. *)

From S2P Require Import Prelude Records Errors Json Regex Tenancy WorkflowModels Storage.
From S2P Require Import Collections PlanStorage Checkpoint PlanValidation PlanOrder.
From S2P Require Import PlanSpec.
From S2P Require Import PlanRecords PlanReading WorkflowRepository PlanRepository.
From S2P Require Import PlanDecisions PlanAttempts PlanContent PlanEffects.
From S2P Require Import PlanInvariants.
From S2P Require Import PlanHistory WorkflowCoordinator WorkflowSpec WorkflowRefinement.
From S2P Require Import PlanRefinement PlanAttemptRefinement PlanSystem.
From stdpp Require Import base gmap strings list sorting fin_maps relations.

Local Notation scoped := PlanRepository.scoped.
Local Notation steps := PlanValidation.steps.

(** ** Reading a stored Plan *)

Section Reading.
Context `{envi : Env} (c : TenantContext) (sid : string) (Hsid : tc_session_id c = Some sid).

(** The Plan [p] of the context, with the contents of its versions. *)
Record plan_at (d : Db) (p : string) (row : agent_plan) (cs : list Content) (x : Content)
    : Prop := {
  at_row : agent_plans d !! p = Some row;
  at_scope : plan_scope row = scoped c sid p;
  at_stored : stored d (scoped c sid p) cs;
  at_current : pl_current_version row = Z.of_nat (length cs);
  at_last : last cs = Some x;
}.

Lemma plan_at_intro d p row :
  plans_ok d → plan_predicate d (scoped c sid p) = Some row → ∃ cs x, plan_at d p row cs x.
Proof using Type.
  intros [Hc _ _] [Hp Hk]%plan_predicate_Some. simpl in Hp.
  destruct (ok_plan d Hc p row Hp) as (cs&Hne&Hcur&Hcs). rewrite Hk in Hcs.
  destruct (last cs) as [x|] eqn:Hl; [|by apply last_None in Hl].
  exists cs, x. by split.
Qed.

Lemma get_plan_at w p row cs x :
  plans_ok (w_db w) → plan_at (w_db w) p row cs x →
  get_plan c p w = (Ok (Some (stored_snapshot c (w_db w) (scoped c sid p) row cs x)), w).
Proof using Hsid.
  intros [Hc _ _] [H1 H2 H3 H4 H5]. unfold get_plan, require_session. rewrite Hsid.
  unfold mbind, stM_bind. simpl. rewrite (proj2 (plan_predicate_Some _ _ row)) by done.
  unfold lift. rewrite (read_plan_stored (scoped c sid p) c (w_db w) row cs x); try done.
  apply Hc.
Qed.

Lemma get_plan_Some w p s w' :
  plans_ok (w_db w) → get_plan c p w = (Ok (Some s), w') →
  w' = w ∧ ∃ row cs x, plan_at (w_db w) p row cs x ∧
    s = stored_snapshot c (w_db w) (scoped c sid p) row cs x.
Proof using Hsid.
  intros Hok Hs. destruct (plan_predicate (w_db w) (scoped c sid p)) as [row|] eqn:Hp.
  - destruct (plan_at_intro _ _ _ Hok Hp) as (cs&x&Hat).
    rewrite (get_plan_at w p row cs x) in Hs by done. injection Hs as <- <-. split; [done|]. eauto.
  - unfold get_plan, require_session in Hs. rewrite Hsid in Hs.
    unfold mbind, stM_bind in Hs. simpl in Hs. by rewrite Hp in Hs.
Qed.

(** Later, the versions are still there, and more may have come. *)
Lemma plan_at_grows d d' p row cs x :
  plans_ok d → plans_ok d' → grows d d' → plan_at d p row cs x →
  ∃ row' tl x', plan_at d' p row' (cs ++ tl) x' ∧ plan_evolves row row'.
Proof using Type.
  intros Hok [Hc' _ _] Hg [H1 H2 H3 H4 H5].
  destruct (grows_plans d d' Hg p row H1) as (row'&Hp'&Hev).
  pose proof (evolves_scope _ _ Hev) as Hk. rewrite H2 in Hk.
  destruct (ok_plan d' Hc' p row' Hp') as (cs'&Hne&Hcur&Hcs'). rewrite Hk in Hcs'.
  pose proof (evolves_current _ _ Hev) as Hle.
  set (l := cs ++ skipn (length cs) cs').
  assert (Hlen : length l = length cs').
  { unfold l. rewrite length_app, length_drop. lia. }
  assert (Hst : stored d' (scoped c sid p) l).
  { split.
    - intros i y. unfold l. intros [Hi|[Hge Hi]]%lookup_app_Some.
      + destruct (stored_content _ _ _ H3 i y Hi) as (?&?&Hh). split_and!; [done|done|].
        rewrite <-H2. apply (grows_contents d d' Hg p row); [done| |by rewrite H2].
        apply lookup_lt_Some in Hi. lia.
      + rewrite lookup_drop in Hi. replace (length cs + (i - length cs))%nat with i in Hi by lia.
        by apply (stored_content _ _ _ Hcs').
    - intros n v Hv. rewrite Hlen. by apply (stored_versions _ _ _ Hcs' n v).
    - apply (stored_dependencies _ _ _ Hcs'). }
  destruct (last l) as [x'|] eqn:Hl.
  - exists row', (skipn (length cs) cs'), x'. split; [|done]. split; try done.
    rewrite Hcur. by f_equal.
  - apply last_None in Hl. rewrite Hl in Hlen. by destruct cs'.
Qed.

Lemma content_records_app k cs tl :
  ∃ l, content_records k (cs ++ tl) = content_records k cs ++ l ∧
    ∀ v, v ∈ l → (Z.of_nat (length cs) < pvr_plan_version v)%Z.
Proof using Type.
  unfold content_records. rewrite imap_app. eexists. split; [done|].
  intros v (i&y&->&Hi)%elem_of_lookup_imap_1. simpl. lia.
Qed.
End Reading.

(** ** The decisions of a Plan *)

Lemma decision_leb_spec a b :
  decision_leb a b = true ↔
  (dec_created_at a < dec_created_at b)%Z ∨
  (dec_created_at a = dec_created_at b ∧
   String.leb (dec_decision_id a) (dec_decision_id b) = true).
Proof.
  unfold decision_leb. by rewrite orb_true_iff, andb_true_iff, Z.ltb_lt, Z.eqb_eq.
Qed.

Lemma decision_leb_total a b : decision_leb a b = false → decision_leb b a = true.
Proof.
  rewrite <-not_true_iff_false, !decision_leb_spec. intros Hn.
  destruct (Z.lt_trichotomy (dec_created_at a) (dec_created_at b)) as [H|[H|H]].
  - destruct Hn. by left.
  - right. split; [done|]. apply string_leb_total, not_true_is_false. intros ?. apply Hn. auto.
  - by left.
Qed.

Lemma decision_leb_trans a b c :
  decision_leb a b = true → decision_leb b c = true → decision_leb a c = true.
Proof.
  rewrite !decision_leb_spec. intros [H1|[H1 S1]] [H2|[H2 S2]]; [left; lia..|].
  right. split; [lia|]. by eapply string_leb_trans.
Qed.

Lemma decision_scope_elem d k x :
  x ∈ decision_scope_predicate d k ↔
  (∃ i, agent_plan_decisions d !! i = Some x) ∧ decision_scope x = k.
Proof.
  unfold decision_scope_predicate.
  rewrite elem_of_filter_bool, elem_of_rows, bool_decide_eq_true. done.
Qed.

(** Decisions of a Plan that sort alike are the same one. *)
Lemma decision_leb_antisym d k x y :
  keyed d → x ∈ decision_scope_predicate d k → y ∈ decision_scope_predicate d k →
  decision_leb x y = true → decision_leb y x = true → x = y.
Proof.
  rewrite !decision_scope_elem, !decision_leb_spec.
  intros Hk [[i Hx] Hxk] [[j Hy] Hyk] H1 H2.
  assert (Hid : dec_decision_id x = dec_decision_id y).
  { destruct H1 as [?|[? H1]], H2 as [?|[? H2]]; try lia. by apply string_leb_antisym. }
  pose proof (keyed_decisions d Hk _ _ Hx) as Kx. pose proof (keyed_decisions d Hk _ _ Hy) as Ky.
  unfold decision_key in *. rewrite Hxk, Hid in Kx. rewrite Hyk in Ky.
  subst i j. pose proof (eq_trans (eq_sym Hx) Hy) as [= ->]. done.
Qed.

Lemma filter_map_bool {A B} (f : A → B) (p : B → bool) l :
  List.filter p (map f l) = map f (List.filter (λ x, p (f x)) l).
Proof. induction l as [|x l IH]; simpl; [done|]. rewrite IH. by destruct (p (f x)). Qed.

(** The decisions made up to an aggregate version. *)
Definition cut (e : Z) (l : list PlanDecisionRecord) : list PlanDecisionRecord :=
  List.filter (λ y, Z.leb (pdr_expected_plan_cas_version y) e) l.

Lemma cut_read_decisions e d k :
  cut e (read_decisions d k) =
  map hydrate_decision (List.filter (λ y, Z.leb (dec_expected_plan_cas_version y) e)
    (sort_by decision_leb (decision_scope_predicate d k))).
Proof. unfold cut, read_decisions. by rewrite filter_map_bool. Qed.

Section Decided.
Context `{envi : Env}.

Lemma read_decisions_elem d k x :
  x ∈ read_decisions d k ↔
  ∃ y i, agent_plan_decisions d !! i = Some y ∧ decision_scope y = k ∧ x = hydrate_decision y.
Proof.
  unfold read_decisions. rewrite list_elem_of_fmap. setoid_rewrite sort_by_perm.
  setoid_rewrite decision_scope_elem. naive_solver.
Qed.

Lemma decisions_NoDup d k :
  keyed d → NoDup (decision_scope_predicate d k).
Proof.
  intros Hk. apply NoDup_filter_bool, (rows_NoDup decision_key). apply (keyed_decisions d Hk).
Qed.

Lemma cut_unambiguous d k e : plans_ok d → unambiguous (cut e (read_decisions d k)) = true.
Proof.
  intros [Hc Hd _]. unfold unambiguous. apply bool_decide_eq_true.
  rewrite cut_read_decisions, map_map. apply (NoDup_fmap_2_strong _ _).
  - intros x y [Hx _]%elem_of_filter_bool [Hy _]%elem_of_filter_bool. simpl. intros He.
    rewrite sort_by_perm in Hx, Hy. apply decision_scope_elem in Hx as [[i Hx] Hxk], Hy as [[j Hy] Hyk].
    apply (ok_unambiguous d Hd i x j y); congruence.
  - apply NoDup_filter_bool. rewrite sort_by_perm. apply decisions_NoDup, Hc.
Qed.

(** A decision that has taken effect. *)
Definition settled (x : agent_plan_decision) : Prop :=
  dec_action x = DECIDE_REVISE → is_Some (dec_resulting_plan_version x).

(** The decisions up to a settled one are history. *)
Lemma cut_grows d d' i x :
  plans_ok d → plans_ok d' → grows d d' → agent_plan_decisions d !! i = Some x → settled x →
  agent_plan_decisions d' !! i = Some x ∧
  cut (dec_expected_plan_cas_version x) (read_decisions d' (decision_scope x)) =
  cut (dec_expected_plan_cas_version x) (read_decisions d (decision_scope x)).
Proof.
  intros Hok Hok' Hg Hx Hset. set (k := decision_scope x). set (e := dec_expected_plan_cas_version x).
  pose proof (ok_keyed d (ok_contents d Hok)) as Hk.
  pose proof (ok_keyed d' (ok_contents d' Hok')) as Hk'.
  destruct (ok_decision d (ok_decisions d Hok) i x Hx) as (p&Hp&Hps&Hpl).
  assert (Hpast : (e < pl_version p)%Z).
  { destruct (placed_expected _ _ Hpl) as [?|(_&Ha&Hr)]; [done|].
    destruct (Hset Ha) as [? ?]. congruence. }
  assert (Hplan : ∀ y, decision_scope y = k → dec_plan_id y = dec_plan_id x).
  { intros y Hy. by apply (f_equal snd) in Hy. }
  (* an old decision up to [e] is unchanged *)
  assert (Hold : ∀ j y, agent_plan_decisions d !! j = Some y → decision_scope y = k →
    (dec_expected_plan_cas_version y <= e)%Z → agent_plan_decisions d' !! j = Some y).
  { intros j y Hy Hyk Hye. destruct (grows_decisions d d' Hg j y Hy) as (y'&Hy'&[->|[Hf Hv]]); [done|].
    rewrite (Hplan y Hyk) in Hv. specialize (Hv p Hp).
    assert (y = x) as -> by (apply (ok_unambiguous d (ok_decisions d Hok) j y i x); unfold k, e in *; try done; lia).
    destruct Hf as (Ha&Hn&_). destruct (Hset Ha) as [? ?]. congruence. }
  (* and there are no new ones *)
  assert (Hnew : ∀ j y, agent_plan_decisions d' !! j = Some y → decision_scope y = k →
    (dec_expected_plan_cas_version y <= e)%Z → agent_plan_decisions d !! j = Some y).
  { intros j y Hy Hyk Hye. destruct (agent_plan_decisions d !! j) as [y0|] eqn:E.
    - destruct (grows_decisions d d' Hg j y0 E) as (y'&Hy'&Hch). assert (y' = y) as -> by congruence.
      assert (decision_scope y0 = k ∧ (dec_expected_plan_cas_version y0 <= e)%Z) as [? ?].
      { by destruct Hch as [->|[(_&_&r&->) _]]. }
      pose proof (Hold j y0 E) as Hsame. rewrite Hy in Hsame. symmetry. by apply Hsame.
    - exfalso. pose proof (grows_new d d' Hg j y p Hy E) as Hlt.
      rewrite (Hplan y Hyk) in Hlt. specialize (Hlt Hp). rewrite Hps in Hlt.
      specialize (Hlt (eq_sym Hyk)). lia. }
  split; [apply Hold; [done|done|unfold e; lia]|].
  rewrite !cut_read_decisions. f_equal. apply filter_sort_by.
  - apply decision_leb_total.
  - apply decision_leb_trans.
  - intros y z. by apply decision_leb_antisym.
  - apply same_elements_perm; [apply NoDup_filter_bool, decisions_NoDup; done..|].
    intros y. rewrite !elem_of_filter_bool, !decision_scope_elem, Z.leb_le.
    split; intros [[[j Hj] Hjk] Hje]; split_and!; eauto.
Qed.
End Decided.

(** ** The snapshot at a decision *)

(** Two snapshots that agree on what a decision does not replace. *)
Lemma snapshot_at_decision_ext s s' x :
  ps_context s' = ps_context s → ps_plan_id s' = ps_plan_id s →
  ps_source_message_id s' = ps_source_message_id s → ps_trigger_mode s' = ps_trigger_mode s →
  ps_created_at s' = ps_created_at s →
  cut (pdr_expected_plan_cas_version x) (ps_decisions s') =
    cut (pdr_expected_plan_cas_version x) (ps_decisions s) →
  (∀ v, decided_version x = Ok v →
     List.filter (λ r, Z.leb (pvr_plan_version r) v) (ps_versions s') =
     List.filter (λ r, Z.leb (pvr_plan_version r) v) (ps_versions s)) →
  snapshot_at_decision s' x = snapshot_at_decision s x.
Proof.
  unfold cut. intros E1 E2 E3 E4 E5 Hcut Hver. unfold snapshot_at_decision. rewrite Hcut.
  destruct (ensure _ _); [|done]. simpl.
  destruct (decided_version x) as [v|] eqn:Hv; [|done]. simpl. rewrite (Hver v) by done.
  destruct (version_numbered _ _); [|done]. f_equal. simpl. by rewrite E1, E2, E3, E4, E5.
Qed.

Lemma filter_all {A} (p : A → bool) l : (∀ x, x ∈ l → p x = true) → List.filter p l = l.
Proof.
  induction l as [|x l IH]; intros Hp; simpl; [done|].
  rewrite (Hp x), IH by set_solver. done.
Qed.

Lemma filter_none {A} (p : A → bool) l : (∀ x, x ∈ l → p x = false) → List.filter p l = [].
Proof.
  induction l as [|x l IH]; intros Hp; simpl; [done|].
  rewrite (Hp x), IH by set_solver. done.
Qed.

Lemma max_by_spec {A} (key : A → Z) b l :
  max_by key b l ∈ b :: l ∧ ∀ y, y ∈ b :: l → (key y <= key (max_by key b l))%Z.
Proof.
  revert b. induction l as [|x l IH]; intros b; simpl.
  { split; [by left|]. intros y ->%list_elem_of_singleton. lia. }
  destruct (IH (if Z.ltb (key b) (key x) then x else b)) as [Hin Hmax]. split.
  - destruct (Z.ltb (key b) (key x)); set_solver.
  - assert (Hb : (key b <= key (max_by key (if (key b <? key x)%Z then x else b) l))%Z ∧
      (key x <= key (max_by key (if (key b <? key x)%Z then x else b) l))%Z).
    { specialize (Hmax _ (list_elem_of_here _ _)). destruct (Z.ltb_spec (key b) (key x)); lia. }
    intros y [->|[->|Hy]%elem_of_cons]%elem_of_cons; [lia|lia|]. apply Hmax. by right.
Qed.

Section Snapshots.
Context `{envi : Env} (c : TenantContext) (sid : string) (Hsid : tc_session_id c = Some sid).

(** The approved version is the newest approval of the history. *)
Lemma latest_approval_ok d p row :
  plans_ok d → agent_plans d !! p = Some row → plan_scope row = scoped c sid p →
  latest_approval (read_decisions d (scoped c sid p)) = pl_approved_version row.
Proof using Type.
  intros Hok Hp Hk. pose proof (ok_approved d (ok_decisions d Hok) p row Hp) as Ha.
  assert (Happ : ∀ x, x ∈ List.filter (λ x, bool_decide (pdr_action x = DECIDE_APPROVE))
      (read_decisions d (scoped c sid p)) ↔
    ∃ y i, agent_plan_decisions d !! i = Some y ∧ approves row y ∧ x = hydrate_decision y).
  { intros x. rewrite elem_of_filter_bool, read_decisions_elem, bool_decide_eq_true.
    unfold approves. rewrite Hk. naive_solver. }
  unfold approved_by in Ha. unfold latest_approval.
  destruct (List.filter _ _) as [|x l].
  - destruct (pl_approved_version row) as [n|]; [|done]. destruct Ha as (i&y&Hy&Hay&_).
    assert (hydrate_decision y ∈ []) as []%elem_of_nil by (apply Happ; eauto).
  - destruct (max_by_spec pdr_expected_plan_cas_version x l) as [Hin Hmax].
    apply Happ in Hin as (y&i&Hy&Hay&Hm). rewrite Hm. simpl.
    destruct (pl_approved_version row) as [n|]; [|by destruct (Ha i y Hy)].
    destruct Ha as (j&z&Hz&Haz&<-&Hmaxz). f_equal.
    assert (y = z) as ->; [|done].
    apply (ok_unambiguous d (ok_decisions d Hok) i y j z); [done|done| |].
    + destruct Hay, Haz. congruence.
    + assert (Hzin : hydrate_decision z ∈ x :: l) by (apply Happ; eauto).
      specialize (Hmax _ Hzin). rewrite Hm in Hmax. simpl in Hmax.
      specialize (Hmaxz i y Hy Hay). lia.
Qed.

Lemma find_decision d p x i :
  keyed d → agent_plan_decisions d !! (scoped c sid p, i) = Some x →
  List.find (λ y, bool_decide (pdr_decision_id y = i)) (read_decisions d (scoped c sid p)) =
  Some (hydrate_decision x).
Proof using Type.
  intros Hk Hx. pose proof (keyed_decisions d Hk _ _ Hx) as Kx.
  assert (Hxk : decision_scope x = scoped c sid p) by (by apply (f_equal fst) in Kx).
  assert (Hxi : dec_decision_id x = i) by (by apply (f_equal snd) in Kx).
  destruct (List.find _ _) as [y|] eqn:E.
  - apply find_some in E as [Hy Hi]. apply bool_decide_eq_true in Hi.
    apply list_elem_of_In, read_decisions_elem in Hy as (z&j&Hz&Hzk&->).
    pose proof (keyed_decisions d Hk _ _ Hz) as Kz. unfold decision_key in Kz. simpl in Hi.
    rewrite Hzk, Hi in Kz. subst j. pose proof (eq_trans (eq_sym Hz) Hx) as [= ->]. done.
  - assert (Hin : In (hydrate_decision x) (read_decisions d (scoped c sid p))).
    { apply list_elem_of_In, read_decisions_elem. exists x, (scoped c sid p, i). done. }
    pose proof (find_none _ _ E _ Hin) as Hn. apply bool_decide_eq_false in Hn.
    by destruct Hn.
Qed.

(** What [_decision_result] computes. *)
Lemma decision_result_at w p i b x row cs y :
  plans_ok (w_db w) → plan_at c sid (w_db w) p row cs y →
  agent_plan_decisions (w_db w) !! (scoped c sid p, i) = Some x →
  decision_result c p i b w =
  (match snapshot_at_decision (stored_snapshot c (w_db w) (scoped c sid p) row cs y)
           (hydrate_decision x) with
   | Ok s => Ok {| dmr_snapshot := s; dmr_decision := hydrate_decision x;
                   dmr_idempotent_replay := b |}
   | Err e => Err e
   end, w).
Proof using Hsid.
  intros Hok Hat Hx. unfold decision_result. unfold mbind at 1, stM_bind at 1.
  rewrite (get_plan_at c sid Hsid w p row cs y) by done.
  cbn [ps_decisions stored_snapshot]. rewrite (find_decision _ _ x i);
    [|apply (ok_keyed _ (ok_contents _ Hok))|done].
  unfold mbind, stM_bind, lift. by destruct (snapshot_at_decision _ _).
Qed.

(** The snapshot at a settled decision never changes. *)
Lemma snapshot_at_decision_grows d d' p i x row cs y row' tl y' :
  plans_ok d → plans_ok d' → grows d d' →
  agent_plan_decisions d !! (scoped c sid p, i) = Some x → settled x →
  plan_at c sid d p row cs y → plan_at c sid d' p row' (cs ++ tl) y' → plan_evolves row row' →
  snapshot_at_decision (stored_snapshot c d' (scoped c sid p) row' (cs ++ tl) y')
    (hydrate_decision x) =
  snapshot_at_decision (stored_snapshot c d (scoped c sid p) row cs y) (hydrate_decision x).
Proof using Type.
  intros Hok Hok' Hg Hx Hset Hat Hat' [E1 E2 E3 E4 _ _].
  pose proof (keyed_decisions d (ok_keyed _ (ok_contents _ Hok)) _ _ Hx) as Kx.
  assert (Hxk : decision_scope x = scoped c sid p) by (by apply (f_equal fst) in Kx).
  destruct (cut_grows d d' _ x Hok Hok' Hg Hx Hset) as [_ Hcut]. rewrite Hxk in Hcut.
  apply snapshot_at_decision_ext; simpl; try done; [by apply (f_equal snd) in E1|].
  intros v Hv. destruct (content_records_app (scoped c sid p) cs tl) as (l&->&Hl).
  rewrite List.filter_app, (filter_none _ l); [by rewrite app_nil_r|].
  intros r Hr. apply Z.leb_gt. specialize (Hl r Hr).
  enough (v <= Z.of_nat (length cs))%Z by lia. rewrite <-(at_current _ _ _ _ _ _ _ Hat).
  destruct (ok_decision d (ok_decisions d Hok) _ x Hx) as (q&Hq&Hqk&[P1 _ P3]).
  assert (q = row) as ->.
  { pose proof (at_row _ _ _ _ _ _ _ Hat) as Hrow.
    assert (dec_plan_id x = p) as Hid by (by apply (f_equal snd) in Hxk). congruence. }
  unfold decided_version in Hv. simpl in Hv.
  destruct (dec_action x); [by injection Hv as <-|by injection Hv as <-|].
  destruct (dec_resulting_plan_version x) as [r'|]; [|done]. injection Hv as <-. by apply P3.
Qed.

(** The newest decision is answered with the Plan as it is. *)
Lemma snapshot_at_newest d p i x row cs y :
  plans_ok d → plan_at c sid d p row cs y →
  agent_plan_decisions d !! (scoped c sid p, i) = Some x → dec_action x ≠ DECIDE_REVISE →
  pl_version row = (dec_expected_plan_cas_version x + 1)%Z →
  pl_status row = decided_status (dec_action x) →
  pl_current_version row = dec_plan_version x → pl_updated_at row = dec_created_at x →
  (∀ j z, agent_plan_decisions d !! j = Some z → decision_scope z = scoped c sid p →
     (dec_expected_plan_cas_version z <= dec_expected_plan_cas_version x)%Z) →
  let s := stored_snapshot c d (scoped c sid p) row cs y in
  snapshot_at_decision s (hydrate_decision x) = Ok s.
Proof using Type.
  intros Hok Hat Hx Ha Hver Hst Hcur Hupd Hmax s.
  pose proof (keyed_decisions d (ok_keyed _ (ok_contents _ Hok)) _ _ Hx) as Kx.
  assert (Hxk : decision_scope x = scoped c sid p) by (by apply (f_equal fst) in Kx).
  assert (Hcut : List.filter (λ z, Z.leb (pdr_expected_plan_cas_version z)
      (pdr_expected_plan_cas_version (hydrate_decision x))) (ps_decisions s) = ps_decisions s).
  { apply filter_all. intros z (z'&j&Hz&Hzk&->)%read_decisions_elem. apply Z.leb_le. by apply (Hmax j). }
  pose proof (cut_unambiguous d (scoped c sid p) (dec_expected_plan_cas_version x) Hok) as Hun.
  unfold cut in Hun. unfold snapshot_at_decision.
  change (pdr_expected_plan_cas_version (hydrate_decision x)) with (dec_expected_plan_cas_version x) in *.
  change (ps_decisions s) with (read_decisions d (scoped c sid p)) in *.
  rewrite Hcut in *. rewrite Hun.
  rewrite bool_decide_eq_true_2 by (apply read_decisions_elem; by exists x, (scoped c sid p, i)).
  cbn [andb ensure]. unfold mbind at 1, result_bind at 1.
  assert (decided_version (hydrate_decision x) = Ok (pl_current_version row)) as ->.
  { unfold decided_version. simpl. rewrite Hcur. by destruct (dec_action x). }
  unfold mbind, result_bind. destruct Hat as [A1 A2 A3 A4 A5].
  assert (Hall : List.filter (λ v, Z.leb (pvr_plan_version v) (pl_current_version row))
    (ps_versions s) = ps_versions s).
  { apply filter_all. intros v [j Hj]%list_elem_of_lookup_1.
    apply content_records_at in Hj as (c'&Hj&->). apply lookup_lt_Some in Hj.
    apply Z.leb_le. simpl. lia. }
  rewrite Hall. rewrite last_lookup in A5.
  assert (Hlast : pl_current_version row = Z.of_nat (S (pred (length cs)))).
  { destruct cs; [done|]. simpl. rewrite A4. done. }
  rewrite Hlast. change (ps_versions s) with (content_records (scoped c sid p) cs).
  rewrite (version_numbered_content (scoped c sid p) cs _ y) by done.
  rewrite (latest_approval_ok d p row) by done. f_equal. unfold s, stored_snapshot. simpl.
  rewrite Hst, Hver, Hupd. simpl. rewrite <-Hlast.
  by destruct (dec_action x).
Qed.

(** A new decision is answered with the state it leaves. *)
Lemma new_answer_is_current r by_ w w' a :
  plans_ok (w_db w) → answered c sid r by_ w w' a → dmr_idempotent_replay a = false →
  get_plan c (req_plan_id r) w' = (Ok (Some (dmr_snapshot a)), w').
Proof using Hsid.
  intros Hok [Hres [(_&Hf&_)|(_&Ha&q&now&Hq&Hd&Happ)]] Hnew; [congruence|].
  pose proof (PlanDecided (w_db w) q _ Hd Ha) as He.
  pose proof (plan_effect_ok _ _ He Hok) as Hok'.
  unfold decision_applied in Happ. cbv zeta in Happ. rewrite <-Happ in He, Hok'.
  set (x := decision_row c sid r by_ now) in *.
  apply plan_predicate_Some in Hq as [Hqp Hqk]. simpl in Hqp.
  assert (Hid : pl_id q = req_plan_id r) by (by apply (f_equal snd) in Hqk).
  assert (Hrow : plan_predicate (w_db w') (scoped c sid (req_plan_id r)) = Some (decided x q)).
  { apply plan_predicate_Some. rewrite Happ. simpl. rewrite Hid, lookup_insert_eq. done. }
  assert (Hx : agent_plan_decisions (w_db w') !!
    (scoped c sid (req_plan_id r), req_decision_id r) = Some x).
  { rewrite Happ. apply lookup_insert_eq. }
  destruct (plan_at_intro c sid _ _ _ Hok' Hrow) as (cs&y&Hat).
  rewrite (get_plan_at c sid Hsid _ _ _ _ _ Hok' Hat).
  rewrite (decision_result_at w' _ _ _ x _ _ _ Hok' Hat Hx) in Hres.
  rewrite (snapshot_at_newest _ _ _ x _ _ _ Hok' Hat Hx) in Hres; try done.
  - by injection Hres as <-.
  - simpl. by rewrite <-(decides_expected _ _ _ Hd).
  - simpl. by rewrite <-(decides_current _ _ _ Hd).
  - intros j z Hz Hzk. rewrite Happ in Hz. apply (inserted_decision (w_db w) q) in Hz as [[_ ->]|Hz];
      [lia| |done].
    destruct (ok_decision _ (ok_decisions _ Hok) j z Hz) as (q'&Hq'&Hq'k&Hpl).
    assert (q' = q) as ->.
    { assert (dec_plan_id z = req_plan_id r) as E by (by apply (f_equal snd) in Hzk). congruence. }
    rewrite (decides_expected _ _ _ Hd). destruct (placed_expected _ _ Hpl); lia.
Qed.

(** The stored decision behind an answer. *)
Lemma answered_decision r by_ w w' a :
  plans_ok (w_db w) → answered c sid r by_ w w' a →
  plans_ok (w_db w') ∧ ∃ x,
    agent_plan_decisions (w_db w') !! (scoped c sid (req_plan_id r), req_decision_id r) = Some x ∧
    require_identical_decision r by_ (hydrate_decision x) = Ok tt.
Proof using Type.
  intros Hok Ha. split.
  { pose proof (answered_steps c sid r by_ w w' a Ha) as Hst. unfold plan_steps in Hst.
    revert Hok. clear Ha. induction Hst; [done|]. intros. eauto using plan_effect_ok. }
  destruct Ha as [_ [(_&_&x&Hx&Hid)|(_&_&q&now&_&_&Happ)]]; [by exists x|].
  exists (decision_row c sid r by_ now). rewrite Happ. split; [apply lookup_insert_eq|].
  unfold require_identical_decision. apply ensure_Ok.
  by rewrite !andb_true_iff, !bool_decide_eq_true.
Qed.

Lemma snapshot_settled s x s' : snapshot_at_decision s (hydrate_decision x) = Ok s' → settled x.
Proof using Type.
  unfold snapshot_at_decision. intros (u&_&(v&Hv&_)%result_bind_Ok)%result_bind_Ok Ha.
  unfold decided_version in Hv. simpl in Hv. rewrite Ha in Hv.
  destruct (dec_resulting_plan_version x); [done|]. discriminate.
Qed.

Lemma record_stored_decision r by_ w x a :
  agent_plan_decisions (w_db w) !! (scoped c sid (req_plan_id r), req_decision_id r) = Some x →
  require_identical_decision r by_ (hydrate_decision x) = Ok tt →
  decision_result c (req_plan_id r) (req_decision_id r) true w = (Ok a, w) →
  unit_of_work (record_decision c r by_) w = (Ok a, w).
Proof using Hsid.
  intros Hx Hid Hres.
  assert (Hget : get_decision c (req_plan_id r) (req_decision_id r) w =
    (Ok (Some (hydrate_decision x)), w)).
  { unfold get_decision, require_session. rewrite Hsid. unfold mbind, stM_bind. simpl.
    unfold decision_predicate. rewrite Hx. done. }
  set (t := {| tx_world := w; tx_pending := ∅ |}).
  assert (Hrec : record_decision c r by_ t = (Ok a, t)).
  { unfold record_decision. apply bind_Ok. exists sid, t. split.
    { unfold on_connection, require_session. by rewrite Hsid. }
    apply bind_Ok. exists None, t. split.
    { unfold pending_revision_claim. apply bind_Ok. exists (sid, req_plan_id r), t.
      split; [|done]. unfold revision_claim_key. apply bind_Ok. exists sid, t.
      split; [|done]. unfold on_connection, require_session. by rewrite Hsid. }
    apply bind_Ok. exists tt, t. split; [done|].
    unfold on_connection. simpl. unfold mbind, stM_bind. rewrite Hget.
    unfold decision_replay, mbind, stM_bind, lift. rewrite Hid, Hres. done. }
  unfold unit_of_work, write_transaction, transaction. fold t.
  assert ((a ← record_decision c r by_; require_no_unfinished_revisions;; mret a) t = (Ok a, t)) as ->;
    [|done].
  apply bind_Ok. exists a, t. split; [done|]. done.
Qed.

(** Sending a decision again is answered as the first time, whatever happened since. *)
Lemma answered_again r by_ w w1 a w2 :
  plans_ok (w_db w) → answered c sid r by_ w w1 a →
  plans_ok (w_db w2) → grows (w_db w1) (w_db w2) →
  unit_of_work (record_decision c r by_) w2 =
  (Ok {| dmr_snapshot := dmr_snapshot a; dmr_decision := dmr_decision a;
         dmr_idempotent_replay := true |}, w2).
Proof using Hsid.
  intros Hok Ha Hok2 Hg. destruct (answered_decision r by_ w w1 a Hok Ha) as (Hok1&x&Hx&Hid).
  destruct Ha as [Hres _].
  destruct (ok_decision _ (ok_decisions _ Hok1) _ x Hx) as (row&Hrow&Hrk&_).
  pose proof (keyed_decisions _ (ok_keyed _ (ok_contents _ Hok1)) _ _ Hx) as Kx.
  assert (Hxk : decision_scope x = scoped c sid (req_plan_id r)) by (by apply (f_equal fst) in Kx).
  assert (Hpr : plan_predicate (w_db w1) (scoped c sid (req_plan_id r)) = Some row).
  { apply plan_predicate_Some.
    assert (dec_plan_id x = req_plan_id r) as E by (by apply (f_equal snd) in Hxk).
    split; [by rewrite E in Hrow|congruence]. }
  destruct (plan_at_intro c sid _ _ _ Hok1 Hpr) as (cs&y&Hat).
  destruct (plan_at_grows c sid _ _ _ _ _ _ Hok1 Hok2 Hg Hat) as (row'&tl&y'&Hat'&Hev).
  rewrite (decision_result_at w1 _ _ _ x _ _ _ Hok1 Hat Hx) in Hres.
  destruct (snapshot_at_decision _ _) as [s|] eqn:Hs; [|done].
  pose proof (snapshot_settled _ _ _ Hs) as Hset.
  destruct (cut_grows _ _ _ x Hok1 Hok2 Hg Hx Hset) as [Hx2 _].
  apply (record_stored_decision r by_ w2 x); [done|done|].
  rewrite (decision_result_at w2 _ _ _ x _ _ _ Hok2 Hat' Hx2).
  rewrite (snapshot_at_decision_grows _ _ _ _ x _ _ _ _ _ _ Hok1 Hok2 Hg Hx Hset Hat Hat' Hev), Hs.
  by injection Hres as <-.
Qed.
End Snapshots.
