(* ===== verification/PlanCreation.v ===== *)
(** * Creating a Plan succeeds

    With a session, a source message, a fresh plan id, fresh and distinct step ids and
    64-character digests, no constraint of the schema refuses an accepted plan: creation
    returns, and what it returns is what is stored. *)

From S2P Require Import Prelude Records Errors Json Regex Tenancy WorkflowModels Storage.
From S2P Require Import Collections PlanStorage Checkpoint PlanValidation PlanOrder.
From S2P Require Import PlanSpec.
From S2P Require Import PlanRecords PlanReading WorkflowRepository PlanRepository.
From S2P Require Import PlanDecisions PlanAttempts PlanContent PlanEffects.
From S2P Require Import PlanInvariants.
From S2P Require Import PlanHistory WorkflowCoordinator WorkflowSpec WorkflowRefinement.
From S2P Require Import PlanRefinement PlanAttemptRefinement PlanSystem PlanOutcomes.
From stdpp Require Import base gmap strings list sorting fin_maps relations.

Local Notation scoped := PlanRepository.scoped.
Local Notation steps := PlanValidation.steps.

(** ** Statements that are not refused *)

Section Total.
Context `{envi : Env}.
Implicit Types w : World.

Lemma wp_insert_each_total {A} (ins : A → M unit) (into : Db → A → Db) (ok : Db → A → Prop) l w :
  (∀ x w, ok (w_db w) x →
     wp (ins x) (λ _ w', w_db w' = into (w_db w) x) (λ _, False) w) →
  (∀ i x, l !! i = Some x → ok (foldl into (w_db w) (take i l)) x) →
  wp (insert_each ins l) (λ _ w', w_db w' = foldl into (w_db w) l) (λ _, False) w.
Proof.
  intros Hins. revert w. induction l as [|x l IH]; intros w Hok; [done|]. simpl.
  apply wp_bind. eapply wp_weaken; [| |apply Hins, (Hok 0%nat x eq_refl)]; [|done].
  intros ? w1 H1. cbn beta in H1. rewrite <-H1. apply IH. intros i y Hy. rewrite H1.
  apply (Hok (S i) y Hy).
Qed.

Lemma wp_checked (l : list (bool * violation)) d w :
  satisfied l →
  wp (check_constraints l ;; set_db d) (λ _ w', w' = w <| w_db := d |>) (λ _, False) w.
Proof.
  intros Hl. apply wp_bind. unfold wp at 1. by rewrite (check_constraints_Ok l w Hl).
Qed.

(** The identifiers that are drawn. *)
Definition drawn (w : World) (n : nat) : list string := map env_uuid4 (seq (w_draws w) n).

Lemma wp_draw_step_ids_total l m w :
  wp (draw_step_ids l m)
    (λ m' w', later w w' ∧
       m' = foldl (λ m ki, <[ki.1 := ki.2]> m) m
              (zip (map (λ s, logical_step_key (vps_step s)) l) (drawn w (length l))))
    (λ _, False) w.
Proof.
  revert m w. induction l as [|s l IH]; intros m w; simpl; [done|].
  apply wp_bind. unfold wp at 1. simpl.
  eapply wp_weaken; [| |apply IH]; [|done]. intros m' w' [Hw ->]. split; [exact Hw|done].
Qed.
End Total.

(** ** The rows of a content are accepted *)

Lemma step_row_columns `{Env} k n sup j (s : ValidatedPlanStep) :
  let r := step_row k n sup j s in
  ste_ordinal r = ordinal s ∧ ste_max_attempts r = max_attempts s ∧
  ste_definition_digest r = step_definition_digest s ∧
  ste_supersedes_step_id r = sup !! logical_step_key s ∧
  ste_logical_step_key r = logical_step_key s ∧ ste_step_id r = j.
Proof. by destruct k as [[[? ?] ?] ?]. Qed.

Lemma dependency_row_columns k n ij :
  dep_step_id (dependency_row k n ij) = ij.1 ∧ dep_depends_on_step_id (dependency_row k n ij) = ij.2.
Proof. by destruct k as [[[? ?] ?] ?]. Qed.

Section Content.
Context `{envi : Env} (d : Db) (k : plan_key) (n : Z) (x : Content).
Context (Hdig : ∀ s, is_digest (env_sha256_hex s) = true).
Context (Hk : keyed d) (Hv : versioned d) (Hf : fresh_content d k n x).
Context (Hsup : c_supersedes x = ∅).
Context (Hn : (1 <= n)%Z) (Hplan : fk_plan d k = true) (Hpar : c_parent x = None).

Let Hc := fresh_ok d k n x Hf.
Let Hw := cok_plan x Hc.

Lemma version_accepted : satisfied (agent_plan_versions_constraints d (content_row k n x)).
Proof using Hdig Hf Hn Hplan Hpar.
  unfold agent_plan_versions_constraints. rewrite !satisfied_cons.
  rewrite content_row_key, content_row_version.
  assert (version_scope (content_row k n x) = k) as E.
  { pose proof (content_row_key k n x) as E. by apply (f_equal fst) in E. }
  rewrite E. unfold content_row. rewrite Hpar. destruct k as [[[? ?] ?] ?]. cbn [version_row
    pv_schema_version pv_content_digest pv_parent_version fk_version].
  split_and!; try done; try (by apply Z.leb_le); [apply Hdig| |by apply satisfied_nil].
  apply bool_decide_eq_true, (fresh_version _ _ _ _ Hf).
Qed.

(** The database after the version row. *)
Definition with_version : Db :=
  d <| agent_plan_versions := <[(k, n) := content_row k n x]> (agent_plan_versions d) |>.

Lemma with_steps_lookup i j s :
  agent_plan_steps (foldl into_steps with_version (take i (content_steps k n x))) !! j = Some s →
  (∃ i', (i' < i)%nat ∧ content_steps k n x !! i' = Some s ∧ ste_step_id s = j) ∨
  agent_plan_steps d !! j = Some s.
Proof using Hf.
  rewrite foldl_into_steps. simpl. rewrite (foldl_insert_Some ste_step_id (λ y, y)).
  - intros [(y&Hy&<-&->)|Hs]; [left|by right].
    apply list_elem_of_lookup_1 in Hy as [i' Hi']. apply lookup_take_Some in Hi' as [Hi' Hlt]. eauto.
  - eapply sublist_NoDup; [apply (cok_ids x Hc)|]. rewrite <-(content_step_ids k n x Hc).
    apply fmap_sublist, sublist_take.
  - intros y Hy. apply (fresh_ids _ _ _ _ Hf). rewrite <-(content_step_ids k n x Hc).
    apply list_elem_of_fmap_2. by eapply subseteq_take.
Qed.

Lemma step_accepted i s :
  content_steps k n x !! i = Some s →
  satisfied (agent_plan_steps_constraints
    (foldl into_steps with_version (take i (content_steps k n x))) s).
Proof using Hdig Hf Hsup Hv.
  intros Hs. pose proof Hs as (j&st&Hj&Hst&Er)%content_steps_at.
  destruct (content_step_scope k n x s) as [Hsk Hsn]; [by eapply list_elem_of_lookup_2|].
  assert (Hok : ValidatedPlanStep_ok st = true).
  { pose proof (wpl_ok _ Hw) as Hok. unfold ValidatedPlanDraft_ok in Hok.
    rewrite !andb_true_iff, !forallb_forall in Hok. destruct Hok as [_ Hok].
    apply Hok, list_elem_of_In. by eapply list_elem_of_lookup_2. }
  unfold ValidatedPlanStep_ok, PlanDraftStep_ok in Hok. rewrite !andb_true_iff in Hok.
  assert (Hcols : ste_ordinal s = ordinal st ∧ ste_max_attempts s = max_attempts st ∧
    ste_definition_digest s = step_definition_digest st ∧ ste_supersedes_step_id s = None ∧
    ste_logical_step_key s = logical_step_key st ∧ ste_step_id s = j).
  { rewrite Er, Hsup. pose proof (step_row_columns k n ∅ j st) as Hcols.
    by rewrite lookup_empty in Hcols. }
  destruct Hcols as (E1&E2&E3&E4&E5&E6).
  unfold agent_plan_steps_constraints. rewrite !satisfied_cons, E1, E2, E3, E4, Hsk, Hsn.
  split_and!; try (rewrite andb_true_iff; naive_solver); [apply Hdig| | | |done|by apply satisfied_nil].
  - apply bool_decide_eq_true.
    destruct (_ !! ste_step_id s) as [s'|] eqn:E; [|done]. exfalso.
    apply with_steps_lookup in E as [(i'&Hlt&Hi'&Hid)|E].
    + assert (i' = i); [|lia]. eapply NoDup_lookup; [apply (cok_ids x Hc)| |];
        rewrite <-(content_step_ids k n x Hc), list_lookup_fmap.
      * by rewrite Hi'.
      * rewrite Hs. simpl. by rewrite Hid.
    + assert (Hin : j ∈ c_ids x) by (by eapply list_elem_of_lookup_2).
      pose proof (fresh_ids _ _ _ _ Hf j Hin). congruence.
  - apply negb_true_iff, exists_row_false. intros j' s' Hs'.
    rewrite !andb_false_iff, !bool_decide_eq_false.
    apply with_steps_lookup in Hs' as [(i'&Hlt&Hi'&Hid)|Hs'].
    + right. intros Heq. apply content_steps_at in Hi' as (j2&st2&Hj2&Hst2&->).
      assert (i' = i); [|lia]. eapply NoDup_lookup; [apply (wpl_keys _ Hw)| |];
        unfold plan_keys; rewrite list_lookup_fmap; [by rewrite Hst2|].
      rewrite Hst. simpl. rewrite <-E5, <-Heq. f_equal.
      by destruct (step_row_columns k n (c_supersedes x) j2 st2) as (_&_&_&_&->&_).
    + left. destruct (decide (step_scope s' = k)) as [Hks|]; [|by left]. right. intros Hns.
      destruct (versioned_steps _ Hv _ _ Hs') as [v Hvv]. rewrite Hks, Hns in Hvv.
      pose proof (fresh_version _ _ _ _ Hf). congruence.
  - unfold fk_version. apply bool_decide_eq_true. rewrite foldl_into_steps. simpl.
    rewrite lookup_insert_eq. eauto.
Qed.

(** The database after the steps. *)
Definition with_steps : Db := foldl into_steps with_version (content_steps k n x).

Lemma with_steps_step key :
  key ∈ plan_keys (c_plan x) → fk_version_step with_steps k n (id_of x key) = true.
Proof using Hf.
  intros (i&s&j&Hs&Hj&<-&_&->&_)%(key_at x Hc).
  set (r := step_row k n (c_supersedes x) j s).
  assert (Hr : r ∈ content_steps k n x).
  { eapply list_elem_of_lookup_2, content_steps_at. eauto. }
  destruct (content_step_scope k n x r Hr) as [Hrk Hrn].
  assert (Hrj : ste_step_id r = j) by apply step_row_columns.
  assert (Hl : agent_plan_steps with_steps !! j = Some r).
  { unfold with_steps. rewrite foldl_into_steps.
    apply (added_steps d k n x Hf). left. by rewrite <-Hrj. }
  unfold fk_version_step. rewrite Hl. by rewrite Hrk, Hrn, !bool_decide_eq_true_2.
Qed.

(** No dependency of the version was there. *)
Lemma fresh_dependency y z :
  dependency_scope y = k → dep_plan_version y = n →
  agent_plan_step_dependencies with_steps !! dependency_key y = Some z → False.
Proof using Hk Hv Hf.
  intros Hyk Hyn Hz. unfold with_steps in Hz. rewrite foldl_into_steps in Hz. simpl in Hz.
  pose proof (keyed_dependencies d Hk _ _ Hz) as Hkey.
  destruct (versioned_dependencies d Hv _ _ Hz) as [v Hvv].
  pose proof (f_equal (λ q : plan_key * Z * string * string, q.1.1) Hkey) as E. simpl in E.
  pose proof (fresh_version _ _ _ _ Hf) as Hn'. rewrite E, Hyk, Hyn in Hvv. congruence.
Qed.

Lemma dependency_accepted i y :
  content_dependencies k n x !! i = Some y →
  satisfied (agent_plan_step_dependencies_constraints
    (foldl into_dependencies with_steps (take i (content_dependencies k n x))) y).
Proof using Hk Hv Hf.
  intros Hy. set (l := content_dependencies k n x) in *.
  destruct (content_dependency_scope k n x y) as [Hyk Hyn]; [by eapply list_elem_of_lookup_2|].
  pose proof (content_dependency_keys k n x Hc) as Hnd. fold l in Hnd.
  assert (Hpair : ∃ a b, (a, b) ∈ dependency_pairs (steps (c_plan x)) ∧
    dep_step_id y = id_of x a ∧ dep_depends_on_step_id y = id_of x b).
  { apply list_elem_of_lookup_2 in Hy. unfold l, content_dependencies, content_pairs in Hy.
    rewrite map_map in Hy. apply list_elem_of_fmap in Hy as ([a b]&->&Hab).
    exists a, b. split; [done|]. apply dependency_row_columns. }
  destruct Hpair as (a&b&Hab&Ea&Eb). apply dependency_pairs_elem in Hab as (s&Hs&Ha&Hb).
  assert (Hain : a ∈ plan_keys (c_plan x)).
  { rewrite <-Ha. by apply (list_elem_of_fmap_2 (λ s, logical_step_key (vps_step s))). }
  destruct (wpl_known _ Hw s b Hs Hb) as [Hbin Hne].
  assert (Hsame : agent_plan_steps (foldl into_dependencies with_steps (take i l)) =
    agent_plan_steps with_steps) by (by rewrite foldl_into_dependencies).
  unfold agent_plan_step_dependencies_constraints. rewrite !satisfied_cons, Hyk, Hyn, Ea, Eb.
  unfold fk_version_step. rewrite Hsame.
  pose proof (with_steps_step a Hain) as Fa. pose proof (with_steps_step b Hbin) as Fb.
  split_and!; try done; [| |by apply satisfied_nil].
  - apply negb_true_iff, bool_decide_eq_false. intros Heq.
    apply (id_of_inj x Hc) in Heq; [congruence|done|done].
  - apply bool_decide_eq_true. apply eq_None_not_Some. intros [z Hz].
    rewrite foldl_into_dependencies in Hz. simpl in Hz.
    apply (foldl_insert_Some dependency_key (λ y, y)) in Hz as [(z'&Hz'&Hkey&_)|Hz].
    + apply list_elem_of_lookup_1 in Hz' as [i' Hi']. apply lookup_take_Some in Hi' as [Hi' Hlt].
      assert (i' = i); [|lia].
      eapply NoDup_lookup; [exact Hnd| |]; rewrite list_lookup_fmap; [by rewrite Hi'|].
      rewrite Hy. simpl. by rewrite Hkey.
    + by apply (fresh_dependency y z).
    + eapply sublist_NoDup; [exact Hnd|]. apply fmap_sublist, sublist_take.
    + intros z' Hz'. destruct (content_dependency_scope k n x z') as [Hzk Hzn];
        [by eapply subseteq_take|].
      apply eq_None_not_Some. intros [z2 Hz2]. by apply (fresh_dependency z' z2).
Qed.
End Content.

(** ** Creation *)

Section Creation.
Context `{envi : Env} (c : TenantContext) (settings : PlanningSettings).
Context (sid : string) (Hsid : tc_session_id c = Some sid).
Context (Hdig : ∀ s, is_digest (env_sha256_hex s) = true).

Lemma wp_insert_version_total p n v fb now w :
  let k := scoped c sid p in
  let x := MkContent v (drawn w (length (steps v))) ∅ None fb now in
  (1 <= n)%Z → keyed (w_db w) → versioned (w_db w) → fk_plan (w_db w) k = true →
  fresh_content (w_db w) k n x →
  wp (insert_version c p n v None fb ∅ now)
    (λ _ w', w_db w' = add_content (w_db w) k n x) (λ _, False) w.
Proof using Hsid Hdig.
  intros k x Hn Hk Hv Hpl Hf. pose proof (fresh_ok _ _ _ _ Hf) as Hc. pose proof (cok_plan x Hc) as Hw.
  unfold insert_version, require_session. rewrite Hsid. wp_step. wp_step. cbv zeta. fold k. wp_step.
  unfold insert_agent_plan_versions. wp_step. wp_step.
  change (version_row k n v None fb now) with (content_row k n x).
  eapply wp_weaken; [| |apply wp_checked; by apply version_accepted]; [|done].
  intros ? w1 ->. rewrite content_row_key.
  wp_step. eapply wp_weaken; [| |apply wp_draw_step_ids_total]; [|done].
  intros m w2 [H2 ->].
  change (map (λ s, logical_step_key (vps_step s)) (steps v)) with (plan_keys (c_plan x)).
  change (drawn _ (length (steps v))) with (c_ids x).
  rewrite (drawn_id_map x); [|apply Hw|apply Hc].
  change (∅ : gmap string string) with (c_supersedes x) at 1. change (steps v) with (steps (c_plan x)).
  rewrite step_rows_content; [|apply Hw|apply Hc]. wp_step. unfold wp at 1. cbn [lift].
  unfold later in H2. simpl in H2. change (w_db w2 = with_version (w_db w) k n x) in H2.
  wp_step. eapply wp_weaken; [| |apply (wp_insert_each_total _ into_steps
    (λ d s, satisfied (agent_plan_steps_constraints d s)))]; [|done| |].
  2:{ intros s w3 Hs. unfold insert_agent_plan_steps. wp_step. wp_step.
      eapply wp_weaken; [| |by apply wp_checked]; [|done]. by intros ? w4 ->. }
  2:{ intros i s Hs. rewrite H2. by apply step_accepted. }
  intros ? w3 H3. cbn beta in H3. rewrite H2 in H3.
  rewrite dependency_rows_content; [|done|apply Hc]. wp_step. unfold wp at 1. cbn [lift].
  eapply wp_weaken; [| |apply (wp_insert_each_total _ into_dependencies
    (λ d y, satisfied (agent_plan_step_dependencies_constraints d y)))]; [|done| |].
  - intros ? w4 H4. cbn beta in H4. rewrite H4, H3, foldl_into_dependencies, foldl_into_steps. done.
  - intros y w4 Hy. unfold insert_agent_plan_step_dependencies. wp_step. wp_step.
    eapply wp_weaken; [| |by apply wp_checked]; [|done]. by intros ? w5 ->.
  - intros i y Hy. rewrite H3. by apply dependency_accepted.
Qed.

(** What creation relies on. *)
Record can_create (w : World) (p m : string) (v : ValidatedPlanDraft) : Prop := {
  create_session : fk_session (w_db w) (tc_tenant_id c) (tc_workspace_id c) sid = true;
  create_message : fk_memory (w_db w) (tc_tenant_id c) (tc_workspace_id c) sid m = true;
  create_id : agent_plans (w_db w) !! p = None;
  create_draws : NoDup (drawn w (length (steps v)));
  create_fresh j : j ∈ drawn w (length (steps v)) → agent_plan_steps (w_db w) !! j = None;
}.

Lemma create_plan_total p m t draft v w :
  plans_ok (w_db w) → validate_plan_draft draft (draft_limits settings) = Ok v →
  can_create w p m v →
  let x := MkContent v (drawn w (length (steps v))) ∅ None None (env_clock (w_ticks w)) in
  ∃ row w', plans_ok (w_db w') ∧ plan_at c sid (w_db w') p row [x] x ∧ new_plan row ∧
    pl_source_message_id row = m ∧ pl_trigger_mode row = t ∧
    create_plan c settings p m t draft w =
      (Ok (stored_snapshot c (w_db w') (scoped c sid p) row [x] x), w').
Proof using Hsid Hdig.
  intros Hok Hv [C1 C2 C3 C4 C5] x. set (k := scoped c sid p).
  set (now := env_clock (w_ticks w)).
  set (row := {| pl_id := p; pl_tenant_id := tc_tenant_id c; pl_workspace_id := tc_workspace_id c;
    pl_session_id := sid; pl_source_message_id := m; pl_trigger_mode := t;
    pl_status := PLAN_AWAITING; pl_current_version := 1; pl_approved_version := None;
    pl_version := 1; pl_created_at := now; pl_updated_at := now |}).
  set (d1 := (w_db w) <| agent_plans := <[p := row]> (agent_plans (w_db w)) |>).
  pose proof (ok_contents _ Hok) as Hc.
  assert (Ha : accepted v) by (by eexists _, _).
  assert (Hver : ∀ n, agent_plan_versions (w_db w) !! (k, n) = None).
  { intros n. apply eq_None_not_Some. intros [y Hy].
    destruct (ok_version _ Hc _ _ _ Hy) as (q&Hq&_). simpl in Hq. congruence. }
  assert (Hf : fresh_content (w_db w) k 1 x).
  { split; [|done|done|done]. split; [by apply accepted_well_planned| |done].
    simpl. unfold drawn. by rewrite length_map, length_seq. }
  assert (Hsat : satisfied (agent_plans_constraints (w_db w) row)).
  { unfold agent_plans_constraints, agent_plans_checks. simpl. rewrite !satisfied_cons.
    split_and!; try done; [by apply bool_decide_eq_true|by apply satisfied_nil]. }
  pose proof (PlanCreated (w_db w) row x Hsat (conj eq_refl (conj eq_refl (conj eq_refl eq_refl))) Hf)
    as He.
  pose proof (plan_effect_ok _ _ He Hok) as Hok'. fold k in Hok'.
  change (plan_scope row) with k in Hok'. change (pl_id row) with p in Hok'. fold d1 in Hok'.
  destruct (created_row (w_db w) row x C3 Hf Hc) as (Hk1&Hv1&Hf1&_).
  assert (Hrun : wp (create_plan c settings p m t draft)
    (λ s w', w_db w' = add_content d1 k 1 x ∧ get_plan c p w' = (Ok (Some s), w')) (λ _, False) w).
  { unfold create_plan, require_session. rewrite Hsid. wp_step. wp_step. wp_step.
    unfold wp at 1. unfold lift. rewrite Hv. apply wp_savepoint. wp_step. apply wp_db_now_ms.
    wp_step. unfold insert_agent_plans. wp_step. wp_step.
    eapply wp_weaken; [| |apply wp_checked; exact Hsat]; [|done]. intros ? w1 ->.
    wp_step. eapply wp_weaken; [| |apply (wp_insert_version_total p 1)]; [|done|done|..].
    - intros ? w2 H2. cbn beta in H2.
      change (w_db w2 = add_content d1 k 1 x) in H2.
      assert (Hp : plan_predicate (w_db w2) k = Some row).
      { apply plan_predicate_Some. rewrite H2. split; [apply lookup_insert_eq|done]. }
      rewrite <-H2 in Hok'. destruct (plan_at_intro c sid _ _ _ Hok' Hp) as (cs&y&Hat).
      pose proof (get_plan_at c sid Hsid w2 p row cs y Hok' Hat) as Hg.
      wp_step. unfold wp at 1. rewrite Hg. done.
    - exact Hk1.
    - exact Hv1.
    - unfold fk_plan. simpl. rewrite lookup_insert_eq. by apply bool_decide_eq_true.
    - exact Hf1. }
  unfold wp in Hrun. destruct (create_plan c settings p m t draft w) as [[s|e] w'] eqn:E; [|done].
  destruct Hrun as [Hw' Hg]. rewrite <-Hw' in Hok'. exists row, w'.
  assert (Hat : plan_at c sid (w_db w') p row [x] x).
  { split; [rewrite Hw'; apply lookup_insert_eq|done| |done|done].
    rewrite Hw'. by apply (stored_created (w_db w) row x). }
  rewrite (get_plan_at c sid Hsid w' p row [x] x Hok' Hat) in Hg. injection Hg as <-.
  split_and!; done.
Qed.
End Creation.
