(* ===== verification/PlanRounds.v ===== *)
(** * Round accounting

    A reserved round is one more row that the [LIKE] patterns of the count find, so the
    count of a Plan run after a reservation is the number that the reservation returned,
    and it is within the budget. *)

From S2P Require Import Prelude Records Errors Json Regex Tenancy WorkflowModels Storage.
From S2P Require Import Collections PlanStorage Checkpoint PlanValidation PlanOrder.
From S2P Require Import PlanSpec.
From S2P Require Import PlanRecords PlanReading WorkflowRepository PlanRepository.
From S2P Require Import PlanDecisions PlanAttempts.
From S2P Require Import WorkflowCoordinator WorkflowSpec WorkflowRefinement.
From S2P Require Import PlanRefinement.
From stdpp Require Import base gmap strings list.
From Stdlib Require Import Ascii String.

(** ** Plain text *)

(** A character of an identifier: a letter, a digit or a hyphen. *)
Definition identifier_char (c : ascii) : bool :=
  let n := N_of_ascii c in
  ((48 <=? n) && (n <=? 57))%N || is_letter n || (n =? 45)%N.

Definition identifier (s : string) : bool :=
  forallb identifier_char (String.list_ascii_of_string s).

(** A byte below 127 that prints. *)
Definition printing (c : ascii) : bool := (N_of_ascii c <? 127)%N.
Definition printing_text (s : string) : bool :=
  forallb printing (String.list_ascii_of_string s).

Lemma list_ascii_app a b :
  String.list_ascii_of_string (a +:+ b) =
  String.list_ascii_of_string a ++ String.list_ascii_of_string b.
Proof. induction a as [|c a IH]; simpl; [done|]. by rewrite IH. Qed.

Lemma printing_app a b : printing_text (a +:+ b) = printing_text a && printing_text b.
Proof. unfold printing_text. by rewrite list_ascii_app, forallb_app. Qed.

Lemma identifier_escape s : identifier s = true → escape s = s ∧ printing_text s = true.
Proof.
  unfold identifier. induction s as [|c s IH]; simpl; [done|].
  rewrite andb_true_iff. intros [Hc [E1 E2]%IH]. rewrite E1. unfold printing_text. simpl.
  fold (printing_text s). rewrite E2.
  assert (escape_char c = ch c ∧ printing c = true) as [-> ->]; [|done].
  clear -Hc. by destruct c as [[] [] [] [] [] [] [] []]; vm_compute in Hc |- *.
Qed.

(** Text without bytes above ASCII is printed as it is. *)
Lemma decode_printing s o :
  printing_text s = true →
  decode_from o s = match o with Some n => [n] | None => [] end ++
                    map N_of_ascii (String.list_ascii_of_string s).
Proof.
  revert o. induction s as [|c s IH]; intros o; simpl; [by rewrite app_nil_r|].
  unfold printing_text. simpl. rewrite andb_true_iff. intros [Hc Hs].
  assert (utf8_continuation c = false ∧ (N_of_ascii c <? 128)%N = true) as [-> ->].
  { clear -Hc. by destruct c as [[] [] [] [] [] [] [] []]; vm_compute in Hc |- *. }
  rewrite IH by exact Hs. done.
Qed.

Lemma ascii_printing s :
  printing_text s = true →
  foldr (λ n t, ascii_char n +:+ t) "" (Regex.decode s) = s.
Proof.
  intros Hs. unfold Regex.decode. rewrite decode_printing by done. simpl.
  induction s as [|c s IH]; simpl; [done|].
  unfold printing_text in Hs. simpl in Hs. apply andb_true_iff in Hs as [Hc Hs].
  rewrite IH by exact Hs. unfold ascii_char. unfold printing in Hc. rewrite Hc.
  by rewrite ascii_N_embedding.
Qed.

(** ** [LIKE] *)

Lemma drop_continuation_printing l s :
  forallb printing l = true → l ≠ [] → drop_continuation (l ++ s) = l ++ s.
Proof.
  destruct l as [|c l]; [done|]. simpl. rewrite andb_true_iff. intros [Hc _] _.
  assert (utf8_continuation c = false) as ->; [|done].
  clear -Hc. by destruct c as [[] [] [] [] [] [] [] []]; vm_compute in Hc |- *.
Qed.

(** [%] skips a prefix. *)
Lemma like_any p a s : like p s = true → like ("%"%char :: p) (a ++ s) = true.
Proof.
  intros Hp. induction a as [|c a IH]; simpl.
  - destruct s; by rewrite Hp.
  - simpl in IH. rewrite IH. apply orb_true_r.
Qed.

(** Printing text without [%] matches itself. *)
Lemma like_literal l p s :
  forallb (λ c, printing c && negb (Ascii.eqb c "%")) l = true →
  drop_continuation s = s → like p s = true → like (l ++ p) (l ++ s) = true.
Proof.
  intros Hl Hs Hp. induction l as [|c l IH]; [done|]. simpl in Hl.
  rewrite !andb_true_iff, negb_true_iff in Hl. destruct Hl as [[Hc Hne] Hl].
  specialize (IH Hl). assert (Hd : drop_continuation (l ++ s) = l ++ s).
  { destruct l as [|c' l']; [done|]. apply drop_continuation_printing; [|done].
    rewrite forallb_forall in Hl |- *. intros y Hy. specialize (Hl y Hy).
    by apply andb_true_iff in Hl as [? _]. }
  apply Ascii.eqb_neq in Hne. cbn [app like].
  assert (like_char : c = "_"%char ∨ (c ≠ "_"%char ∧ c ≠ "%"%char))
    by (destruct (Ascii.eqb_spec c "_"); auto).
  destruct like_char as [->|[Hu _]]; [by rewrite Hd|].
  destruct c as [[] [] [] [] [] [] [] []]; try done; rewrite IH;
    try (by vm_compute); try (by destruct Hu); by destruct Hne.
Qed.

(** A member of the metadata, as the patterns spell it. *)
Definition member (name value : string) : string :=
  quoted name +:+ ":" +:+ ch DQUOTE +:+ value +:+ ch DQUOTE.

Lemma like_member name value text pre post :
  printing_text (member name value) = true →
  forallb (λ c, negb (Ascii.eqb c "%")) (String.list_ascii_of_string (member name value)) = true →
  drop_continuation (String.list_ascii_of_string post) = String.list_ascii_of_string post →
  text = pre +:+ member name value +:+ post →
  like (member_pattern name value) (String.list_ascii_of_string text) = true.
Proof.
  intros Hp Hn Hd ->. unfold member_pattern.
  replace ("%" +:+ quoted name +:+ ":" +:+ ch DQUOTE +:+ value +:+ ch DQUOTE +:+ "%")
    with ("%" +:+ member name value +:+ "%") by (unfold member; by rewrite !str_app_assoc).
  rewrite !list_ascii_app. change (String.list_ascii_of_string "%") with ["%"%char].
  apply (like_any (String.list_ascii_of_string (member name value) ++ ["%"%char])).
  apply like_literal; [|done|].
  - unfold printing_text in Hp. rewrite forallb_forall in Hp, Hn |- *. intros c Hc.
    by rewrite Hp, Hn.
  - pose proof (like_any [] (String.list_ascii_of_string post) [] eq_refl) as H.
    by rewrite app_nil_r in H.
Qed.

Lemma identifier_no_percent s :
  identifier s = true → forallb (λ c, negb (Ascii.eqb c "%")) (String.list_ascii_of_string s) = true.
Proof.
  unfold identifier. rewrite !forallb_forall. intros Hs c Hc. specialize (Hs c Hc).
  clear -Hs. by destruct c as [[] [] [] [] [] [] [] []]; vm_compute in Hs |- *.
Qed.

Section Metadata.
Context (r p kind : string) (s : option string).
Context (Hr : identifier r = true) (Hp : identifier p = true).
Context (Hk : kind ∈ PLAN_ROUND_KINDS) (Hs : identifier (default "" s) = true).

Definition metadata_tail : string :=
  "," +:+ quoted "schema_version" +:+ ":1," +:+ quoted "step_run_id" +:+ ":" +:+
  match s with Some s => quoted s | None => "null" end +:+ "}".

Lemma metadata_text :
  print_json (round_metadata r p kind s) =
  "{" +:+ member "plan_id" p +:+ "," +:+ quoted "round_kind" +:+ ":" +:+ quoted kind +:+ "," +:+
  member "run_id" r +:+ metadata_tail.
Proof using Hr Hp Hs.
  unfold metadata_tail, member. destruct (identifier_escape r Hr) as [Er _].
  destruct (identifier_escape p Hp) as [Ep _].
  transitivity ("{" +:+ Json.join "," [quoted "plan_id" +:+ ":" +:+ quoted p;
    quoted "round_kind" +:+ ":" +:+ quoted kind; quoted "run_id" +:+ ":" +:+ quoted r;
    quoted "schema_version" +:+ ":" +:+ "1";
    quoted "step_run_id" +:+ ":" +:+ match s with Some s => quoted s | None => "null" end] +:+ "}").
  { destruct s; reflexivity. }
  cbn [Json.join].
  assert (Hq : ∀ t, escape t = t → quoted t = ch DQUOTE +:+ t +:+ ch DQUOTE)
    by (intros t Ht; unfold quoted; by rewrite Ht).
  rewrite (Hq p Ep), (Hq r Er), !str_app_assoc. reflexivity.
Qed.

Lemma printing_quoted t : identifier t = true → printing_text (quoted t) = true.
Proof using Type.
  intros Ht. destruct (identifier_escape t Ht) as [E1 E2]. unfold quoted. rewrite E1.
  change (printing_text ((t +:+ ch DQUOTE))= true). by rewrite printing_app, E2.
Qed.

Lemma printing_kind : printing_text (quoted kind) = true.
Proof using Hk.
  unfold PLAN_ROUND_KINDS in Hk. rewrite !elem_of_cons, elem_of_nil in Hk.
  by destruct Hk as [->|[->|[->|[->|[]]]]].
Qed.

Lemma printing_member name value :
  printing_text (quoted name) = true → identifier value = true →
  printing_text (member name value) = true.
Proof using Type.
  intros Hn Hv. unfold member. destruct (identifier_escape value Hv) as [_ E].
  by rewrite !printing_app, Hn, E.
Qed.

Lemma metadata_printing : printing_text (print_json (round_metadata r p kind s)) = true.
Proof using Hr Hp Hk Hs.
  rewrite metadata_text. unfold metadata_tail.
  rewrite !printing_app, printing_kind, !printing_member by done.
  destruct s as [t|]; [rewrite (printing_quoted t Hs)|]; reflexivity.
Qed.

Lemma no_percent_member name value :
  identifier value = true →
  forallb (λ c, negb (Ascii.eqb c "%")) (String.list_ascii_of_string (quoted name)) = true →
  forallb (λ c, negb (Ascii.eqb c "%")) (String.list_ascii_of_string (member name value)) = true.
Proof using Type.
  intros Hv Hn. unfold member. rewrite !list_ascii_app, !forallb_app, Hn.
  rewrite (identifier_no_percent value Hv). reflexivity.
Qed.

(** Both patterns of the count find the row. *)
Lemma metadata_found :
  let text := String.list_ascii_of_string (json_dumps_ascii (round_metadata r p kind s)) in
  like (member_pattern "run_id" r) text = true ∧ like (member_pattern "plan_id" p) text = true.
Proof using Hr Hp Hk Hs.
  unfold json_dumps_ascii. rewrite ascii_printing by apply metadata_printing.
  rewrite metadata_text. split.
  - eapply (like_member _ _ _ ("{" +:+ member "plan_id" p +:+ "," +:+ quoted "round_kind" +:+
      ":" +:+ quoted kind +:+ ",") metadata_tail); [by apply printing_member|
      by apply no_percent_member|done|]. by rewrite !str_app_assoc.
  - eapply (like_member _ _ _ "{"); [by apply printing_member|by apply no_percent_member|
      |reflexivity]. done.
Qed.
End Metadata.

(** ** Reservations *)

Section Reservation.
Context `{envi : Env} (c : TenantContext).

(** A reservation either raises and changes nothing, or adds one to the count, within the
    budget. *)
Lemma reserve_round_unit_spec sid r p kind b s w :
  tc_session_id c = Some sid →
  identifier r = true → identifier p = true → identifier (default "" s) = true →
  wp (reserve_round_unit c r p kind b s)
    (λ n w', n = (round_units c (w_db w) sid r p + 1)%Z ∧
       n = round_units c (w_db w') sid r p ∧ (n <= b)%Z)
    (later w) w.
Proof.
  intros Hsid Hr Hp Hs. unfold reserve_round_unit. wp_step. wp_step; [|done].
  apply bool_decide_eq_true in H as Hk. clear H. wp_step. wp_step; [|done]. clear H.
  unfold count_round_units. rewrite Hsid. wp_step. wp_step. wp_step. wp_step.
  set (n := round_units c (w_db w) sid r p). wp_step. wp_step; [|done].
  apply Z.ltb_lt in H. wp_step. apply wp_uuid4. intros i. wp_step. apply wp_db_now_ms.
  unfold insert_memory_entries. wp_step. wp_step. wp_step. wp_step.
  apply wp_check_constraints; [|done]. intros Hsat. apply wp_set_db. wp_step.
  split_and!; [done| |lia]. unfold memory_entries_constraints in Hsat.
  rewrite satisfied_cons, bool_decide_eq_true in Hsat. destruct Hsat as [Hfresh _].
  unfold round_units, n. cbn [w_db setter memory_entries tool_executions].
  rewrite count_rows_insert_fresh by exact Hfresh.
  unfold round_units. unfold is_plan_round at 2. cbn [mem_tenant_id mem_workspace_id mem_session_id
    mem_type mem_metadata_json].
  destruct (metadata_found r p kind s Hr Hp Hk Hs) as [-> ->].
  rewrite !bool_decide_eq_true_2 by done. simpl. lia.
Qed.
End Reservation.
