(* ===== verification/RecoveryRefinement.v ===== *)
(** * Recovery refines the specification

    Examining a run only reads; taking its lease is the one write of [recover].  The
    inversion lemmas say what is known of the run, its checkpoint and its Plan when the
    service answers.  A round of the worker moves the database along the steps of
    [WorkflowSpec.v], whatever the candidates, when the tools, the agents and the runners
    of Plan steps do. *)

From S2P Require Import Prelude Records Errors Json Regex Redaction Tenancy.
From S2P Require Import WorkflowModels Storage Checkpoint Events PlanRecords PlanReading.
From S2P Require Import WorkflowRepository PlanDecisions MemoryRepository PlanGenerator.
From S2P Require Import WorkflowCoordinator PlanService Recovery Continuation Tools.
From S2P Require Import Scheduler PlanExecution PlanLoop RecoveryWorker WorkflowSpec.
From S2P Require Import WorkflowRefinement ExecutionRefinement SchedulerRefinement.
From stdpp Require Import base gmap strings list relations sets.

(** ** The recovery service *)

Section Reading.
Context `{Env} {plans : PlanReader} {plans_read : PlanReads plans}.

Lemma read_only_catch {A} (m : M A) h :
  read_only m → (∀ e, read_only (h e)) → read_only (catch m h).
Proof.
  intros Hm Hh w. unfold catch. specialize (Hm w).
  destruct (m w) as [[a|e] w']; simpl in *; subst; [done|apply Hh].
Qed.

Hint Resolve plans_get_reads running_step_attempts_reads step_run_by_id_reads
  read_only_get_run read_only_get_latest_checkpoint read_only_get_approval
  read_only_get_execution_recovery : reads.

Lemma read_only_validate_plan_context c run ph p :
  read_only (validate_plan_context c run ph p).
Proof. unfold validate_plan_context. solve_reads. Qed.

Lemma read_only_validate_execution_dispatch c k p :
  read_only (validate_execution_dispatch c k p).
Proof. unfold validate_execution_dispatch. solve_reads. Qed.

Lemma read_only_validate_execution_result c k p :
  read_only (validate_execution_result c k p).
Proof. unfold validate_execution_result. solve_reads. Qed.

Hint Resolve read_only_validate_plan_context read_only_validate_execution_dispatch
  read_only_validate_execution_result : reads.

Lemma read_only_classify c k ph p run : read_only (classify c k ph p run).
Proof. unfold classify. solve_reads. Qed.

Lemma read_only_examine c : read_only (examine c).
Proof.
  pose proof read_only_classify. unfold examine.
  apply read_only_bind; [auto with reads|]. intros [run|]; [|auto with reads].
  apply read_only_bind; [auto with reads|]. intros [k|]; [|auto with reads].
  apply read_only_catch; [solve_reads|]. intros []; auto with reads.
Qed.

Lemma read_only_validate_live_run c : read_only (validate_live_run c).
Proof. pose proof read_only_examine. unfold validate_live_run. solve_reads. Qed.
End Reading.

Section Refinement.
Context `{Env} {plans : PlanReader} {plans_read : PlanReads plans}.
Context (settings : Settings).
Local Notation q := (set_max_concurrent_runs_per_tenant settings).

Lemma live_lease_db c i w : w_db (write_transaction (get_live_lease c i) w).2 = w_db w.
Proof.
  assert (Hw : wp (get_live_lease c i) (λ _ w', w_db w' = w_db w) (λ w', w_db w' = w_db w) w).
  { unfold get_live_lease. apply wp_bind, wp_db_now_ms, wp_bind, wp_gets. cbn.
    unfold lease_of_row. by repeat (case_match; simplify_eq). }
  unfold write_transaction, transaction, wp in *. by destruct (get_live_lease c i w) as [[a|e] w'].
Qed.

Lemma moves_acquire_recovery_lease c i : moves (steps q) (acquire_recovery_lease settings c i).
Proof.
  unfold acquire_recovery_lease.
  apply moves_catch; [apply _|apply (moves_acquire_run (own_coordinator settings))|].
  intros []; try solve [solve_moves]. apply moves_bind; [apply _| |intros []; solve_moves].
  intros w. unfold steps. by rewrite live_lease_db.
Qed.

Lemma write_transaction_Err {A} (m : M A) w e w' :
  write_transaction m w = (Err e, w') → w_db w' = w_db w.
Proof.
  unfold write_transaction, transaction. destruct (m w) as [[a|e'] w1]; [done|]. by intros [= _ <-].
Qed.

(** A lease that is not taken leaves no trace. *)
Lemma acquire_recovery_lease_Err c i w e w' :
  acquire_recovery_lease settings c i w = (Err e, w') → w_db w' = w_db w.
Proof.
  unfold acquire_recovery_lease, catch, acquire_run, write_connection. simpl.
  destruct (write_transaction _ w) as [[l|e1] w1] eqn:E; [done|].
  apply write_transaction_Err in E.
  destruct e1; try (by intros [= _ <-]). unfold mbind, stM_bind.
  pose proof (live_lease_db c i w1) as Hl.
  destruct (write_transaction (get_live_lease c i) w1) as [[[l|]|e2] w2]; simpl in *; [done|..];
    intros [= _ <-]; congruence.
Qed.

Lemma moves_recover c i : moves (steps q) (recover settings c i).
Proof.
  unfold recover. apply moves_bind; [apply _|apply moves_read, read_only_examine|].
  intros [out|[run out]]; [solve_moves|]. case_match; [solve_moves|].
  apply moves_bind; [apply _|apply moves_acquire_recovery_lease|]. intros l. solve_moves.
Qed.
End Refinement.

(** ** The recovery worker *)

Section Worker.
Context `{envi : Env}.
Context (unicode_alnum : N → bool) (resolve : string → list string)
  (casefold uuid5 : string → string).
Context (planning : PlanningSettings) (settings : Settings) (governance : json).
Context (planning_service :
           option (option (option PlanGenerator.router * error_reporter * string * string))).
Context (guarded_tools : list string) (guard_timeout : Z)
  (expires : ToolState * RunVars → bool) (has_event_router : bool).
Context (str_of : json → string) (loop_fuel : nat).
Context {plans : PlanReader} {plans_read : PlanReads plans}.
Local Notation q := (set_max_concurrent_runs_per_tenant settings).
Local Notation own := (own_coordinator settings).

(** What runs in a runtime moves the database as the engine does. *)
Record runtime_follows (rt : Runtime) : Prop := MkRuntimeFollows {
  rf_tools : ∀ n b, rt_registry rt !! n = Some b → tool_follows settings b;
  rf_runner : ∀ runner rq r, rt_plan_execution rt = Some runner →
    moves (exec_steps q) (pru_run_plan_step runner rq r);
  rf_agent : ∀ callback c r i, rt_resume_recovery rt = Some callback →
    moves (tool_steps q) (callback c r i);
}.

Hint Resolve read_only_get_run read_only_get_latest_checkpoint read_only_get_approval
  read_only_get_execution_recovery read_only_validate_live_run : reads.

Lemma moves_tool_read {A} (m : M A) : read_only m → moves (tool_steps q) (on_db m).
Proof. intros Hm. by apply moves_on_db, moves_read. Qed.

Lemma moves_finish s : moves (tool_steps q) (finish settings s).
Proof.
  unfold finish. apply moves_bind; [apply _| |intros; apply moves_ret, _].
  apply moves_on_exec, moves_refresh. intros l. apply (moves_finish_run_with_checkpoint own).
Qed.
Hint Resolve moves_finish : refine.

Lemma moves_recovered_call c o r i :
  moves (tool_steps q) (recovered_call settings str_of c o r i).
Proof.
  unfold recovered_call.
  apply moves_bind; [apply _|apply moves_tool_read; auto with reads|intros k].
  destruct r as [r|]; [apply moves_ret, _|]. destruct k as [k|]; [|apply moves_ret, _].
  apply moves_bind_lift; [apply _|intros [ph p] _]. case_match; [apply moves_ret, _|].
  destruct p as [p|p|p|p|p|p|p|p|p]; try apply moves_throw, _.
  apply moves_bind; [apply _|apply moves_tool_read; auto with reads|intros [x|]];
    [|apply moves_ret, _].
  apply moves_catch; [apply _| |intros e].
  - apply moves_bind_lift; [apply _|intros input _].
    apply moves_bind; [apply _|apply moves_on_db, moves_load_tool_result|intros; apply moves_ret, _].
  - case_match; [|apply moves_throw, _].
    apply moves_bind; [apply _|apply moves_finish|intros; apply moves_ret, _].
Qed.

Lemma moves_run_again c : moves (tool_steps q) (run_again settings c).
Proof.
  unfold run_again. apply moves_bind; [apply _|apply moves_tool_read; auto with reads|intros r].
  case_match; [|apply moves_ret, _].
  apply moves_bind; [apply _| |intros; apply moves_ret, _].
  apply moves_on_exec, moves_refresh. intros l. apply (moves_co_transition_run own).
Qed.

Section Runtime.
Context (rt : Runtime) (Hrt : runtime_follows rt).

Lemma moves_resume_agent c r i : moves (tool_steps q) (resume_agent settings rt c r i).
Proof.
  unfold resume_agent. destruct (rt_resume_recovery rt) as [callback|] eqn:E; [|apply moves_ret, _].
  apply moves_bind; [apply _| |intros a].
  - apply moves_catch; [apply _| |intros e].
    + apply moves_bind; [apply _|by eapply rf_agent|intros [a|]];
        [apply moves_ret, _|apply moves_throw, _].
    + apply moves_bind; [apply _|apply moves_finish|intros; apply moves_ret, _].
  - destruct (con_state <$> a) as [[]|]; try apply moves_finish; apply moves_ret, _.
Qed.

Lemma moves_resume_continuation c o r i :
  moves (tool_steps q)
    (resume_continuation planning settings governance planning_service has_event_router str_of
       loop_fuel rt c o r i).
Proof.
  unfold resume_continuation. case_match; [apply moves_ret, _|].
  apply moves_bind; [apply _|apply moves_recovered_call|intros [[r' i']|]]; [|apply moves_ret, _].
  apply moves_bind; [apply _|apply moves_run_again|intros _].
  destruct (ro_plan_recovery_context o); [|apply moves_resume_agent].
  destruct (rt_plan_execution rt) as [runner|] eqn:E; [|apply moves_resume_agent].
  apply moves_catch; [apply _| |intros; apply moves_finish].
  apply moves_bind; [apply _| |intros; apply moves_ret, _]. apply moves_on_exec, moves_resume.
  intros rq rr. by eapply rf_runner.
Qed.

Lemma moves_invoke_continuation c o r i :
  moves (tool_steps q)
    (invoke_continuation planning settings governance planning_service has_event_router str_of
       loop_fuel rt c o r i).
Proof.
  unfold invoke_continuation. case_match; [apply moves_resume_continuation|apply moves_ret, _].
Qed.

Lemma moves_block c x s d : moves (tool_steps q) (block_call settings has_event_router c x s d).
Proof.
  apply moves_bind; [apply _|apply moves_block_execution|intros; apply moves_ret, _].
Qed.

Lemma moves_recover_call n b c x a f :
  rt_registry rt !! n = Some b →
  moves (tool_steps q)
    (recover_call unicode_alnum resolve casefold uuid5 settings guarded_tools guard_timeout
       expires has_event_router b c x a f).
Proof.
  intros Hb. apply moves_bind; [apply _| |intros; apply moves_ret, _].
  apply moves_recover_execution. by eapply rf_tools.
Qed.

Lemma moves_consume_blocked c s m :
  moves (tool_steps q) (consume_blocked settings has_event_router c s m).
Proof.
  unfold consume_blocked. apply moves_bind; [apply _|apply moves_tool_read; auto with reads|].
  intros k. apply moves_bind; [apply _| |intros; apply moves_finish].
  case_match; [|apply moves_ret, _].
  apply moves_bind; [apply _|apply moves_tool_read; auto with reads|intros [x|]];
    [apply moves_block|apply moves_ret, _].
Qed.

Lemma moves_consume_plan_terminal_result consume c :
  (∀ o, moves (tool_steps q) (consume o)) →
  moves (tool_steps q) (consume_plan_terminal_result consume c).
Proof.
  intros Hc. unfold consume_plan_terminal_result.
  apply moves_bind; [apply _|apply moves_tool_read; auto with reads|intros o].
  case_match; [|apply moves_ret, _].
  apply moves_bind; [apply _|apply Hc|intros; apply moves_ret, _].
Qed.

Local Notation consume_outcome' :=
  (consume_outcome unicode_alnum resolve casefold uuid5 planning settings governance
     planning_service guarded_tools guard_timeout expires has_event_router str_of loop_fuel).

Lemma moves_carry_out consume c o a x :
  (∀ o, moves (tool_steps q) (consume o)) →
  moves (tool_steps q)
    (carry_out unicode_alnum resolve casefold uuid5 planning settings governance
       planning_service guarded_tools guard_timeout expires has_event_router str_of loop_fuel
       consume rt c o a x).
Proof.
  intros Hc. pose proof (moves_invoke_continuation c (Some o) None None) as Hi.
  assert (Hr : moves (tool_steps q)
    (repeat_call unicode_alnum resolve casefold uuid5 planning settings governance
       planning_service guarded_tools guard_timeout expires has_event_router str_of loop_fuel
       consume rt c o a x)).
  { destruct x as [x|]; [|apply moves_ret, _]. unfold repeat_call.
    destruct (ToolRegistry.get _ _) as [b|] eqn:E; [|apply moves_block].
    apply moves_bind; [apply _|by eapply moves_recover_call|intros _].
    case_match; [|case_match; [apply moves_ret, _|exact Hi]].
    apply moves_bind; [apply _|by apply moves_consume_plan_terminal_result|].
    intros; apply moves_ret, _. }
  destruct a; first [exact Hr|exact Hi|apply moves_ret, _].
Qed.

Lemma moves_consume_outcome n c o : moves (tool_steps q) (consume_outcome' n rt c o).
Proof.
  revert o. induction n as [|n IH]; intros o; [apply moves_throw, _|].
  cbn [consume_outcome]. unfold consume_with.
  case_match; [apply moves_consume_blocked|].
  destruct (ro_action o) as [a|]; [|apply moves_ret, _]. case_match; [apply moves_ret, _|].
  destruct (ro_execution_id o) as [e|]; [|by apply moves_carry_out].
  apply moves_bind; [apply _|apply moves_tool_read; auto with reads|intros [x|]];
    [by apply moves_carry_out|apply moves_ret, _].
Qed.

Context (depth : nat).

Lemma moves_consume_plan c :
  moves (tool_steps q) (consume_plan_terminal_result (consume_outcome' depth rt c) c).
Proof. apply moves_consume_plan_terminal_result. intros o. apply moves_consume_outcome. Qed.

Local Notation with_worker f :=
  (f unicode_alnum resolve casefold uuid5 planning settings governance
     planning_service guarded_tools guard_timeout expires has_event_router str_of loop_fuel
     plans depth) (only parsing).

Lemma moves_resume_refused c x m : moves (tool_steps q) (with_worker (@resume_refused envi) rt c x m).
Proof.
  apply moves_bind; [apply _|apply moves_block|intros _].
  apply moves_bind; [apply _|apply moves_consume_plan|intros []];
    [apply moves_ret, _|apply moves_invoke_continuation].
Qed.

Lemma moves_after_approved c e : moves (tool_steps q) (with_worker (@after_approved envi) rt c e).
Proof.
  apply moves_bind; [apply _|apply moves_tool_read; auto with reads|intros x]. cbv zeta.
  apply moves_bind; [apply _|case_match; [apply moves_consume_plan|apply moves_ret, _]|].
  intros []; [apply moves_ret, _|]. pose proof moves_finish as Hf.
  assert (Ho : moves (tool_steps q) (o ← on_db (validate_live_run c); consume_outcome' depth rt c o)).
  { apply moves_bind; [apply _|apply moves_tool_read; auto with reads|].
    intros o. apply moves_consume_outcome. }
  destruct (xr_status <$> x) as [[]|]; first [apply Hf|exact Ho|apply moves_ret, _].
Qed.

Lemma moves_resume_approved c x : moves (tool_steps q) (with_worker (@resume_approved envi) rt c x).
Proof.
  unfold resume_approved. destruct (ToolRegistry.get _ _) as [b|] eqn:E.
  - apply moves_bind; [apply _|by eapply moves_recover_call|intros _]. apply moves_after_approved.
  - apply moves_bind; [apply _|apply moves_block|intros _].
    apply moves_bind; [apply _|apply moves_consume_plan|intros; apply moves_ret, _].
Qed.

Lemma read_only_resolved_approval c : read_only (resolved_approval c).
Proof. unfold resolved_approval. solve_reads. Qed.

Lemma moves_resume_resolved c :
  moves (tool_steps q) (with_worker (@resume_resolved_approval_if_present envi) rt c).
Proof.
  apply moves_bind; [apply _|apply moves_tool_read, read_only_resolved_approval|].
  intros [[s x]|]; [|apply moves_ret, _]. apply moves_bind; [apply _| |intros; apply moves_ret, _].
  destruct s; first [apply moves_resume_approved|apply moves_resume_refused].
Qed.
End Runtime.

Lemma moves_take_candidate x i : moves (steps q) (take_candidate settings x i).
Proof.
  unfold take_candidate. apply moves_catch; [apply _| |].
  - apply moves_bind; [apply _|apply moves_read; auto with reads|intros [r|]]; [|apply moves_ret, _].
    case_match; [apply moves_ret, _|].
    apply moves_bind; [apply _|apply moves_read, read_only_validate_live_run|intros o].
    case_match; [apply moves_ret, _|].
    apply moves_bind; [apply _| |intros; apply moves_ret, _].
    case_match; [apply (moves_co_resume_waiting_run own)|apply (moves_acquire_run own)].
  - intros []; first [apply moves_ret, _|apply moves_throw, _].
Qed.

Context (depth : nat).

Local Notation with_worker f :=
  (f unicode_alnum resolve casefold uuid5 planning settings governance
     planning_service guarded_tools guard_timeout expires has_event_router str_of loop_fuel
     plans depth) (only parsing).

Section Pool.
Context (pool : TenantContext → result exn Runtime).
Context (Hpool : ∀ c rt, pool c = Ok rt → runtime_follows rt).

Lemma moves_execute_candidate x :
  moves (tool_steps q) (with_worker (@execute_candidate envi) pool x).
Proof.
  unfold execute_candidate. apply moves_bind_lift; [apply _|intros rt Hrt].
  apply result_bind_Ok in Hrt as (c&_&Hrt%Hpool).
  apply moves_bind; [apply _|apply moves_on_db, moves_take_candidate|intros [[o l]|]];
    [|apply moves_ret, _].
  apply moves_bind; [apply _|apply moves_on_exec, moves_replace|intros _].
  case_match; [by apply moves_consume_outcome|].
  apply moves_bind; [apply _|case_match; [by apply moves_resume_resolved|apply moves_ret, _]|].
  intros []; [apply moves_ret, _|].
  apply moves_bind; [apply _|apply moves_tool_read; auto with reads|].
  intros o'. by apply moves_consume_outcome.
Qed.

Lemma moves_run_once busy jobs n :
  moves (tool_steps q) (with_worker (@run_once envi) pool busy jobs n).
Proof.
  unfold run_once. apply moves_bind; [apply _| |].
  - apply moves_on_db. intros w. unfold steps.
    assert (w_db (load_candidates jobs n w).2 = w_db w) as -> by done. apply rtc_refl.
  - intros l. induction l as [|x l IH]; [apply moves_ret, _|]. cbn [process_all].
    apply moves_bind; [apply _| |intros _; exact IH].
    apply moves_catch; [apply _| |intros; apply moves_ret, _]. unfold process_candidate.
    destruct busy as [busy|]; [case_match; [apply moves_ret, _|]|]; apply moves_execute_candidate.
Qed.
End Pool.
End Worker.
