(* ===== verification/RecoveryOutcomes.v ===== *)
(** * What a recovery outcome tells

    Inversion of [examine], [classify] and [recover]: what is known of the run, of its
    latest checkpoint, of the execution and of the Plan when the service answers with an
    action. *)

From S2P Require Import Prelude Records Errors Json Tenancy WorkflowModels Storage.
From S2P Require Import Checkpoint.
From S2P Require Import PlanRecords WorkflowRepository WorkflowCoordinator Recovery.
From S2P Require Import WorkflowSpec WorkflowRefinement RecoveryRefinement.
From stdpp Require Import base gmap strings list sets relations.

Lemma lift_Ok {A} (r : result exn A) (w w' : World) a :
  lift r w = (Ok a, w') ↔ r = Ok a ∧ w' = w.
Proof. unfold lift. split; [by intros [= -> ->]|by intros [-> ->]]. Qed.

(** The actions for which [recover] takes no lease. *)
Definition passive : list (option RecoveryAction) :=
  [Some TERMINAL_NOOP; Some AWAIT_USER; Some AWAIT_PLAN_DECISION].

(** The Plan of a run is approved, and the run works on the approved version. *)
Definition plan_approved (run : RunRecord) (x : PlanRecoveryContext) : Prop :=
  ps_status (prc_plan x) = PLAN_APPROVED ∧
  ps_approved_version (prc_plan x) = Some (ps_current_version (prc_plan x)) ∧
  rr_active_plan_version run = Some (ps_current_version (prc_plan x)).

(** Or it waits for the user: at its first approval, or at the approval of a revision. *)
Definition plan_undecided (ph : CheckpointPhase) (p : CheckpointPayload) (run : RunRecord)
    (x : PlanRecoveryContext) : Prop :=
  ps_approved_version (prc_plan x) ≠ Some (ps_current_version (prc_plan x)) ∧
  rr_status run = RUN_AWAITING_USER ∧
  ((∃ q, p = PPlanReplanRequired q ∧ prc_revision_awaiting_decision x = true) ∨
   ph = PLAN_AWAITING_APPROVAL).

Section Outcomes.
Context `{Env} {plans : PlanReader} {plans_read : PlanReads plans}.

(** ** The Plan *)

Lemma plan_in_force_Ok ph run plan active awaiting :
  plan_in_force ph run plan active awaiting = Ok tt →
  (ps_status plan = PLAN_APPROVED ∧ ps_approved_version plan = Some (ps_current_version plan) ∧
   active = ps_current_version plan) ∨
  (ps_approved_version plan ≠ Some (ps_current_version plan) ∧
   (awaiting = true ∨ (ph = PLAN_AWAITING_APPROVAL ∧ rr_status run = RUN_AWAITING_USER))).
Proof.
  unfold plan_in_force. case_bool_decide as Ha; intros Hb%ensure_Ok.
  - rewrite andb_true_iff, !bool_decide_eq_true in Hb. naive_solver.
  - rewrite orb_true_iff, !andb_true_iff, !bool_decide_eq_true in Hb. naive_solver.
Qed.

Lemma validate_plan_context_Ok c run ph p w x w' :
  validate_plan_context c run ph p w = (Ok x, w') →
  plan_approved run x ∨ plan_undecided ph p run x.
Proof.
  unfold validate_plan_context, plan_approved, plan_undecided.
  destruct (rr_plan_id run) as [plan_id|]; [|done].
  destruct (rr_initial_plan_version run) as [v0|]; [|done].
  destruct (rr_active_plan_version run) as [active|]; [|done].
  intros Hv. apply bind_Ok in Hv as (u&w1&_&Hv). apply bind_Ok in Hv as (r&w2&_&Hv).
  apply bind_Ok in Hv as (u1&w3&_&Hv). apply bind_Ok in Hv as ([plan|]&w4&_&Hv); [|done].
  destruct (List.find _ _) as [version|]; [|done].
  apply bind_Ok in Hv as (u2&w5&_&Hv). apply bind_Ok in Hv as ([]&w6&Hf&Hv).
  apply lift_Ok in Hf as [Hf%plan_in_force_Ok ->].
  apply bind_Ok in Hv as (running&w7&_&Hv). apply bind_Ok in Hv as (step&w8&_&Hv).
  apply bind_Ok in Hv as (u3&w9&_&Hv). apply bind_Ok in Hv as (u4&w10&_&Hv).
  apply bind_Ok in Hv as (failed&w11&_&Hv). injection Hv as <- _. simpl.
  destruct Hf as [(?&?&->)|(Hn&[Ha|[-> Hs]])]; [by left|right; split; [done|]..]; [|by auto].
  unfold revision_awaiting in Ha. rewrite !andb_true_iff, !bool_decide_eq_true in Ha.
  destruct p; destruct_and!; try done. split; [done|]. left. eexists. split; [done|].
  unfold revision_awaiting. rewrite !bool_decide_true; done.
Qed.

(** The context of a classification: none for a run without a Plan. *)
Lemma classify_context c ph p run w pc w' :
  (if bool_decide (rr_plan_id run ≠ None) || is_plan_phase ph
   then x ← validate_plan_context c run ph p; mret (Some x)
   else mret None) w = (Ok pc, w') →
  match pc with
  | None => rr_plan_id run = None ∧ is_plan_phase ph = false
  | Some x => plan_approved run x ∨ plan_undecided ph p run x
  end.
Proof.
  destruct (bool_decide _ || _) eqn:Hb.
  - intros (x&w1&Hx&[= <- _])%bind_Ok. by eapply validate_plan_context_Ok.
  - intros [= <- _]. apply orb_false_iff in Hb as [Hb ?].
    apply bool_decide_eq_false in Hb. split; [|done]. by apply dec_stable.
Qed.

(** ** The execution *)

(** The row of the execution a dispatch checkpoint speaks of. *)
Record dispatched (c : TenantContext) (d : Db) (p : ExecutionDispatchingPayload)
    (e : tool_execution) : Prop := {
  dispatched_row : execution_scope_predicate d c (edp_execution_id p) = Some e;
  dispatched_call : exe_tool_call_id e = edp_tool_call_id p;
  dispatched_strategy : exe_recovery_strategy e = edp_recovery_strategy p;
  dispatched_input : exe_input_hash e = edp_input_hash p;
  dispatched_key : edp_recovery_strategy p = IDEMPOTENT_RETRY →
    exe_idempotency_key e = edp_idempotency_key p;
}.

Lemma validate_execution_dispatch_Ok c k p w u w' :
  validate_execution_dispatch c k p w = (Ok u, w') → ∃ e, dispatched c (w_db w) p e.
Proof.
  unfold validate_execution_dispatch. intros (found&w1&Hf&Hv)%bind_Ok.
  unfold get_execution_recovery, gets, mbind, stM_bind in Hf. injection Hf as <- <-.
  destruct (execution_scope_predicate _ _ _) as [e|] eqn:He; [|done]. exists e. simpl in Hv.
  apply bind_Ok in Hv as (u1&w2&[_ ->]%require_Ok&Hv).
  apply bind_Ok in Hv as (u2&w3&[_ ->]%require_Ok&Hv).
  apply bind_Ok in Hv as (u3&w4&[Hc ->]%require_Ok&Hv).
  apply bind_Ok in Hv as (u4&w5&[Hs ->]%require_Ok&Hv).
  apply bind_Ok in Hv as (u5&w6&[Hi ->]%require_Ok&Hv).
  apply bind_Ok in Hv as (u6&w7&[_ ->]%require_Ok&[Hk _]%require_Ok).
  apply bool_decide_eq_true in Hc, Hs, Hi. split; try done.
  intros Hr. rewrite (bool_decide_true _ Hr) in Hk. simpl in Hk.
  by rewrite negb_involutive, bool_decide_eq_true in Hk.
Qed.

(** ** Classification *)

(** What an outcome of [classify] says when there is something to do. *)
Record action_sound (c : TenantContext) (d : Db) (p : CheckpointPayload) (run : RunRecord)
    (out : RecoveryOutcome) : Prop := {
  sound_plan :
    (rr_plan_id run = None ∧ ro_plan_recovery_context out = None) ∨
    ∃ x, ro_plan_recovery_context out = Some x ∧ plan_approved run x;
  sound_execution :
    match ro_action out with
    | Some REPLAY_READ_ONLY | Some RETRY_IDEMPOTENT | Some MARK_MANUAL_UNCERTAIN =>
      ∃ q e, p = PExecutionDispatching q ∧ dispatched c d q e ∧
        ro_execution_id out = Some (edp_execution_id q) ∧
        ro_action out = Some (dispatch_recovery_action (exe_recovery_strategy e))
    | _ => True
    end;
}.

Lemma classify_cases c k p run w out w' :
  classify c k (phase_of p) p (Some run) w = (Ok out, w') →
  ∃ pc,
    match pc with
    | None => rr_plan_id run = None ∧ is_plan_phase (phase_of p) = false
    | Some x => plan_approved run x ∨ plan_undecided (phase_of p) p run x
    end ∧
    match p with
    | PPlanAwaitingApproval _ => classify_plan_approval (Some run) pc = Ok out
    | PPlanStepReady q => classify_plan_step q (Some run) pc = Ok out
    | PPlanReplanRequired _ => classify_plan_revision (Some run) pc = Ok out
    | PRunStarted _ =>
      out = acting match pc with Some _ => RESUME_PLAN_STEP | None => RESUME_MODEL end pc
    | PModelOutput _ | PExecutionResultObserved _ => out = acting RESUME_MODEL pc
    | PAwaitingApproval _ => out = acting AWAIT_USER pc ∨ out = acting RESUME_MODEL pc
    | PExecutionDispatching q =>
      out = (acting (dispatch_recovery_action (edp_recovery_strategy q)) pc)
              <| ro_execution_id := Some (edp_execution_id q) |> ∧
      ∃ e, dispatched c (w_db w) q e
    | PRunTerminal q => out = no_outcome <| ro_action := Some TERMINAL_NOOP |>
                                         <| ro_status := Some (rtp_terminal_status q) |>
    end.
Proof.
  unfold classify. intros (pc&w1&Hpc&Hc)%bind_Ok. exists pc.
  assert (w1 = w) as ->.
  { pose proof read_only_validate_plan_context as Hr.
    assert (Hro : read_only (if bool_decide (rr_plan_id run ≠ None) || is_plan_phase (phase_of p)
       then x ← validate_plan_context c run (phase_of p) p; mret (Some x) else mret None))
      by solve_reads.
    specialize (Hro w). rewrite Hpc in Hro. by simpl in Hro. }
  apply classify_context in Hpc. split; [done|].
  destruct p; simpl in Hc; try (by apply lift_Ok in Hc as [? _]); try (by injection Hc as <- _).
  - apply bind_Ok in Hc as ([a|]&w2&_&Hc); [|done].
    apply bind_Ok in Hc as (u&w3&_&[= <- _]). destruct (bool_decide _); auto.
  - apply bind_Ok in Hc as (u&w2&Hd&[= <- _]).
    apply validate_execution_dispatch_Ok in Hd. eauto.
  - by apply bind_Ok in Hc as (u&w2&_&[= <- _]).
Qed.

Lemma classify_lease c k p run w out w' :
  classify c k (phase_of p) p (Some run) w = (Ok out, w') → ro_lease out = None.
Proof.
  intros (pc&_&Hout)%classify_cases. revert Hout.
  destruct p; unfold classify_plan_approval, classify_plan_step, classify_plan_revision;
    repeat case_match; naive_solver.
Qed.

(** A step of the Plan is resumed only on an approved version. *)
Lemma resume_needs_approval ph p run x :
  plan_approved run x ∨ plan_undecided ph p run x →
  running_or_resuming run = true → plan_approved run x.
Proof.
  intros [?|(_&Hs&_)]; [done|]. unfold running_or_resuming. rewrite Hs. vm_compute. done.
Qed.

Lemma classify_plan_sound c d p run pc out r :
  match pc with
  | None => rr_plan_id run = None ∧ is_plan_phase (phase_of p) = false
  | Some x => plan_approved run x ∨ plan_undecided (phase_of p) p run x
  end →
  r = classify_plan_approval (Some run) pc ∨ (∃ q, r = classify_plan_step q (Some run) pc) ∨
  r = classify_plan_revision (Some run) pc →
  r = Ok out → ro_action out ∉ passive → action_sound c d p run out.
Proof.
  intros Hpc Hr Hout Hp.
  assert (Hx : ∃ a x, pc = Some x ∧ out = acting a pc ∧ running_or_resuming run = true ∧
            a ∈ [RESUME_PLAN_STEP; RESUME_PLAN_REVISION]).
  { destruct Hr as [->|[[q ->]| ->]]; revert Hout;
      unfold classify_plan_approval, classify_plan_step, classify_plan_revision;
      (destruct pc as [x|]; [|done]);
      repeat (case_match; try (intros [= <-]; exfalso; apply Hp;
                               by apply (bool_decide_eq_true_1 _)));
      intros [= <-]; eexists _, _;
      (split_and!; [done|done| |by apply (bool_decide_eq_true_1 _)]); try done.
    unfold running_or_resuming.
    match goal with Hs : bool_decide _ = true |- _ => by rewrite (bool_decide_eq_true_1 _ Hs) end. }
  destruct Hx as (a&x&->&->&Hrun&Ha). split.
  - right. exists x. split; [done|]. by eapply resume_needs_approval.
  - rewrite !elem_of_cons, elem_of_nil in Ha. by destruct Ha as [->|[->|[]]].
Qed.

Lemma classify_sound c k p run w out w' :
  classify c k (phase_of p) p (Some run) w = (Ok out, w') → ro_action out ∉ passive →
  action_sound c (w_db w) p run out.
Proof.
  intros (pc&Hpc&Hout)%classify_cases Hp.
  assert (Hplan : is_plan_phase (phase_of p) = false →
    (rr_plan_id run = None ∧ pc = None) ∨ ∃ x, pc = Some x ∧ plan_approved run x).
  { intros Hn. destruct pc as [x|]; [|left; naive_solver]. right. exists x. split; [done|].
    destruct Hpc as [?|(_&_&[(q&->&_)|Hq])]; [done| |by rewrite Hq in Hn]. done. }
  destruct p as [| | | | | |q| |]; 
    try (refine (classify_plan_sound c (w_db w) _ run pc out _ Hpc _ Hout Hp); by eauto);
    specialize (Hplan eq_refl).
  - subst out. destruct pc; (split; [naive_solver|done]).
  - subst out. split; [naive_solver|done].
  - destruct Hout as [->| ->]; (split; [naive_solver|done]).
  - destruct Hout as [-> [e He]]. split; [naive_solver|]. simpl.
    pose proof (dispatched_strategy _ _ _ _ He) as Hs.
    destruct (edp_recovery_strategy q) eqn:Hq; exists q, e; (split_and!; [done..|by rewrite Hs]).
  - subst out. split; [naive_solver|done].
  - subst out. destruct Hp. by apply (bool_decide_eq_true_1 _).
Qed.

(** ** The service *)

(** The run is active and its latest checkpoint decodes. *)
Record examined (c : TenantContext) (w : World) (run : RunRecord) (p : CheckpointPayload)
    (out : RecoveryOutcome) : Prop := {
  examined_run : get_run c w = (Ok (Some run), w);
  examined_active : run_terminal (rr_status run) = false;
  examined_checkpoint : ∃ k,
    latest_checkpoint_row (checkpoint_scope_predicate (w_db w) c) = Some k ∧
    decode_checkpoint (checkpoint_from_row k) = Ok (phase_of p, p);
  examined_lease : ro_lease out = None;
  examined_action : ro_action out ∉ passive → action_sound c (w_db w) p run out;
}.

Lemma examine_inr c w run out w' :
  examine c w = (Ok (inr (run, out)), w') → w' = w ∧ ∃ p, examined c w run p out.
Proof.
  intros He. assert (w' = w) as ->.
  { pose proof (read_only_examine c w) as Hr. rewrite He in Hr. by simpl in Hr. }
  split; [done|]. revert He. unfold examine.
  intros ([r|]&w1&Hrun&He)%bind_Ok; [|done].
  assert (w1 = w) as ->.
  { pose proof (read_only_get_run c w) as Hr. rewrite Hrun in Hr. by simpl in Hr. }
  apply bind_Ok in He as ([k|]&w2&Hk&He); [|done].
  unfold get_latest_checkpoint, gets, mbind, stM_bind in Hk. injection Hk as Hk <-.
  apply catch_Ok in He as [Hb|(e&w3&_&Hh)]; [|by destruct e].
  apply bind_Ok in Hb as ([ph p]&w4&[Hd ->]%lift_Ok&Hb).
  apply bind_Ok in Hb as (o&w5&Hc&Hb).
  destruct (run_terminal (rr_status r)) eqn:Ht; [done|]. injection Hb as -> -> ->.
  assert (ph = phase_of p) as -> by (by apply decode_checkpoint_Ok in Hd as (_&_&?&_)).
  exists p. destruct (latest_checkpoint_row _) as [row|] eqn:Hrow; [|done].
  injection Hk as <-. split; try done.
  - eauto.
  - by eapply classify_lease.
  - by eapply classify_sound.
Qed.

Lemma examine_inl c w out w' :
  examine c w = (Ok (inl out), w') →
  ro_lease out = None ∧ (ro_action out = None ∨ ro_action out ∈ passive).
Proof.
  unfold examine. intros ([r|]&w1&_&He)%bind_Ok; [|by injection He as <- _; auto].
  apply bind_Ok in He as ([k|]&w2&_&He); [|by injection He as <- _; auto].
  apply catch_Ok in He as [Hb|(e&w3&_&Hh)].
  - apply bind_Ok in Hb as ([ph p]&w4&_&Hb).
    apply bind_Ok in Hb as (o&w5&_&Hb). destruct (run_terminal _); [|done]. injection Hb as <- _.
    split; [done|]. right. by apply (bool_decide_eq_true_1 _).
  - destruct e; try done; injection Hh as <- _; auto.
Qed.

Lemma recover_cases settings c i w r w' :
  recover settings c i w = (r, w') →
  (w_db w' = w_db w ∧ ∀ out, r = Ok out →
     ro_lease out = None ∧ (ro_action out = None ∨ ro_action out ∈ passive)) ∨
  (∃ run p out l, examined c w run p out ∧ ro_action out ∉ passive ∧
     acquire_recovery_lease settings c i w = (Ok l, w') ∧
     r = Ok (out <| ro_lease := Some l |> <| ro_executions_started := 0%Z |>)).
Proof.
  unfold recover, mbind, stM_bind. pose proof (read_only_examine c w) as Hro.
  destruct (examine c w) as [[[out|[run out]]|e] w1] eqn:He; simpl in Hro; subst w1.
  - intros [= <- <-]. left. split; [done|]. intros o [= <-]. by eapply examine_inl.
  - apply examine_inr in He as (_&p&He). case_bool_decide as Ha.
    + intros [= <- <-]. left. split; [done|]. intros o [= <-].
      split; [apply He|by right].
    + destruct (acquire_recovery_lease settings c i w) as [[l|e] w1] eqn:Hl; intros [= <- <-].
      * right. exists run, p, out, l. by split_and!.
      * left. split; [|done]. by eapply acquire_recovery_lease_Err.
  - intros [= <- <-]. by left.
Qed.

(** The lease: taken over, or found to be the caller's own and still live. *)
Lemma acquire_recovery_lease_Ok settings c i w l w' :
  acquire_recovery_lease settings c i w = (Ok l, w') →
  acquire_run (own_coordinator settings) c i w = (Ok l, w') ∨ w_db w' = w_db w.
Proof.
  intros [?|(e&w1&He&Hh)]%catch_Ok; [by left|]. right.
  apply write_transaction_Err in He. destruct e; try done.
  apply bind_Ok in Hh as ([l1|]&w2&Hl&Hh); [|done]. injection Hh as _ <-.
  pose proof (live_lease_db c i w1) as Hd. rewrite Hl in Hd. simpl in Hd. congruence.
Qed.

(** When a lease comes back, the run was examined and its action is sound. *)
Lemma recover_leased settings c i w out l w' :
  recover settings c i w = (Ok out, w') → ro_lease out = Some l →
  ∃ run p, get_run c w = (Ok (Some run), w) ∧ run_terminal (rr_status run) = false ∧
    (∃ k, latest_checkpoint_row (checkpoint_scope_predicate (w_db w) c) = Some k ∧
       decode_checkpoint (checkpoint_from_row k) = Ok (phase_of p, p)) ∧
    ro_action out ∉ passive ∧ action_sound c (w_db w) p run out.
Proof.
  intros [[_ Ho]|(run&p&o&l'&[Hr Ht Hk _ Ha]&Hp&_&[= ->])]%recover_cases Hl.
  - destruct (Ho out eq_refl) as [Hn _]. congruence.
  - exists run, p. split_and!; try done. specialize (Ha Hp). destruct Ha as [H1 H2]. by split.
Qed.
End Outcomes.
