(* ===== verification/WorkflowHistory.v ===== *)
(** * What never changes in a workflow database

    Consequences of the specification alone: along any sequence of effects rows are
    never removed, and each row evolves by its own steps.  Hence tokens only grow,
    terminal statuses and decided approvals are final, results are written once, and
    checkpoints are immutable. *)

From S2P Require Import Prelude Records Errors Json Tenancy WorkflowModels Storage.
From S2P Require Import Checkpoint.
From S2P Require Import WorkflowRepository PlanEffects WorkflowSpec.
From stdpp Require Import base gmap strings list sets relations.

(** ** Rows evolve by their own steps *)

Definition run_steps : relation agent_run := rtc (λ r r', ∃ d, run_step d r r').

(** The tables of the engine are what the Plan repository does not touch. *)
Ltac plan_moved :=
  match goal with He : plan_effect _ _ |- _ => destruct (plan_effect_frame _ _ He) end;
  repeat match goal with
         | E : ?t ?d' = ?t ?d |- context [?t ?d'] => rewrite E
         end.

Section Evolution.
Context `{envi : Env} (q : Z).

(** A row that an insert at a fresh key or a step of its own may touch. *)
Lemma insert_evolves {V} (R : relation V) (m : gmap string V) k v i x :
  m !! i = Some x → (m !! k = None ∨ ∃ y, m !! k = Some y ∧ R y v) →
  ∃ x', <[k := v]> m !! i = Some x' ∧ rtc R x x'.
Proof.
  intros Hi Hk. destruct (decide (k = i)) as [->|Hne].
  - rewrite lookup_insert_eq. exists v. split; [done|].
    destruct Hk as [Hk|(y & Hy & HR)]; [congruence|].
    rewrite Hi in Hy. injection Hy as ->. by apply rtc_once.
  - rewrite lookup_insert_ne by done. exists x. split; [done|apply rtc_refl].
Qed.

Lemma rtc_rows {V} (R : relation V) (table : Db → gmap string V) :
  (∀ d d' i x, effect q d d' → table d !! i = Some x →
     ∃ x', table d' !! i = Some x' ∧ rtc R x x') →
  ∀ d d' i x, effects q d d' → table d !! i = Some x →
    ∃ x', table d' !! i = Some x' ∧ rtc R x x'.
Proof.
  intros Hone d d' i x Hd. revert x. induction Hd as [d|d1 d2 d3 H12 _ IH]; intros x Hx.
  { exists x. split; [done|apply rtc_refl]. }
  destruct (Hone _ _ _ _ H12 Hx) as (x2 & Hx2 & H1).
  destruct (IH x2 Hx2) as (x3 & Hx3 & H2). exists x3. split; [done|by etrans].
Qed.

Lemma constraint_fresh_run d r :
  agent_runs_constraints d r = true → agent_runs d !! run_run_id r = None.
Proof.
  unfold agent_runs_constraints. rewrite !andb_true_iff, bool_decide_eq_true. naive_solver.
Qed.
Lemma constraint_fresh_approval d a :
  approval_requests_constraints d a = true → approval_requests d !! apr_approval_id a = None.
Proof.
  unfold approval_requests_constraints. rewrite !andb_true_iff, bool_decide_eq_true.
  naive_solver.
Qed.
Lemma constraint_fresh_execution d e :
  tool_executions_constraints d e = true → tool_executions d !! exe_execution_id e = None.
Proof.
  unfold tool_executions_constraints. rewrite !andb_true_iff, bool_decide_eq_true.
  naive_solver.
Qed.
Lemma constraint_fresh_checkpoint d k :
  execution_checkpoints_constraints d k = true →
  execution_checkpoints d !! ckp_checkpoint_id k = None.
Proof.
  unfold execution_checkpoints_constraints. rewrite !andb_true_iff, bool_decide_eq_true.
  naive_solver.
Qed.

Lemma runs_evolve d d' i r :
  effects q d d' → agent_runs d !! i = Some r →
  ∃ r', agent_runs d' !! i = Some r' ∧ run_steps r r'.
Proof.
  apply (rtc_rows _ agent_runs). clear. intros d d' i r He Hr.
  destruct He; simpl; try (exists r; split; [done|apply rtc_refl]).
  - eapply insert_evolves; [done|]. left. by apply constraint_fresh_run.
  - eapply insert_evolves; [done|]. right. eauto.
  - plan_moved. eexists. split; [done|apply rtc_refl].
Qed.

Lemma approvals_evolve d d' i a :
  effects q d d' → approval_requests d !! i = Some a →
  ∃ a', approval_requests d' !! i = Some a' ∧ rtc approval_step a a'.
Proof.
  apply (rtc_rows _ approval_requests). clear. intros d d' i a He Ha.
  destruct He; simpl; try (exists a; split; [done|apply rtc_refl]);
    try (eexists; split; [done|apply rtc_refl]).
  - eapply insert_evolves; [done|]. left. by apply constraint_fresh_approval.
  - eapply insert_evolves; [done|]. right. eauto.
  - plan_moved. eexists. split; [done|apply rtc_refl].
Qed.

Lemma executions_evolve d d' i e :
  effects q d d' → tool_executions d !! i = Some e →
  ∃ e', tool_executions d' !! i = Some e' ∧ rtc execution_step e e'.
Proof.
  apply (rtc_rows _ tool_executions). clear. intros d d' i e He Hx.
  destruct He; simpl; try (eexists; split; [done|apply rtc_refl]).
  - eapply insert_evolves; [done|]. left. by apply constraint_fresh_execution.
  - eapply insert_evolves; [done|]. right. eauto.
  - plan_moved. eexists. split; [done|apply rtc_refl].
Qed.

(** Checkpoints are append-only. *)
Lemma checkpoints_persist d d' i k :
  effects q d d' → execution_checkpoints d !! i = Some k →
  execution_checkpoints d' !! i = Some k.
Proof.
  intros Hd Hk. induction Hd as [|d1 d2 d3 H12 _ IH]; [done|]. apply IH. clear IH.
  destruct H12; simpl; try done.
  - rewrite lookup_insert_ne; [done|]. intros <-.
    apply constraint_fresh_checkpoint in H. congruence.
  - by plan_moved.
Qed.
End Evolution.

(** ** Along the steps of a run *)

Lemma run_steps_ind (P : relation agent_run) `{!PreOrder P} :
  (∀ d r r', run_step d r r' → P r r') → ∀ r r', run_steps r r' → P r r'.
Proof.
  intros Hone r r' Hr. induction Hr as [|x y z [d Hxy] _ IH]; [done|].
  etrans; [by eapply Hone|done].
Qed.

(** Tokens only grow, and a lease is claimed at the price of a version. *)
Definition tokens_grow (r r' : agent_run) : Prop :=
  (run_version r ≤ run_version r' ∧ run_fencing_token r ≤ run_fencing_token r' ∧
   run_fencing_token r' - run_fencing_token r ≤ run_version r' - run_version r)%Z ∧
  (run_version r' = run_version r → r' = r) ∧
  (run_fencing_token r' = run_fencing_token r → run_lease_owner r' = run_lease_owner r).

Lemma run_steps_tokens r r' : run_steps r r' → tokens_grow r r'.
Proof.
  induction 1 as [r|r1 r2 r3 [d [_ Hv Hl _ _ _]] _ IH]; [by split_and!; try lia|].
  destruct IH as ((IH1 & IH2 & IH3) & _ & IHo).
  destruct Hl as [[Hf Ho]|[Hf _]]; (split_and!; [lia..|intros ?; lia|intros ?]).
  - rewrite IHo by lia. done.
  - lia.
Qed.

Lemma run_steps_same r r' : run_steps r r' → same_run r r'.
Proof.
  apply run_steps_ind; [|by intros d x y [H _ _ _ _ _]].
  split; [by intros x|]. unfold same_run. intros x y z. intuition congruence.
Qed.

(** A terminal run keeps its status, its end and its fencing token. *)
Definition terminal_frozen (r r' : agent_run) : Prop :=
  run_terminal (run_run_status r) = true →
  run_run_status r' = run_run_status r ∧ run_finished_at r' = run_finished_at r ∧
  run_fencing_token r' = run_fencing_token r ∧ run_lease_owner r' = run_lease_owner r.

Lemma run_active_terminal r : run_active r = negb (run_terminal (run_run_status r)).
Proof. unfold run_active, run_terminal. by destruct (run_run_status r). Qed.

Lemma run_steps_terminal r r' : run_steps r r' → terminal_frozen r r'.
Proof.
  apply run_steps_ind.
  - split; [by intros x|]. unfold terminal_frozen. intros x y z Hxy Hyz Ht.
    destruct (Hxy Ht) as (H1 & H2 & H3 & H4). rewrite H1 in Hyz. intuition congruence.
  - intros d x y [_ _ Hl Hs _ _] Ht.
    destruct Hs as [[-> ->]|[Hs _]];
      [|by rewrite (legal_run_source_active _ _ Hs) in Ht].
    destruct Hl as [[-> ->]|[_ Ha]]; [done|].
    by rewrite run_active_terminal, Ht in Ha.
Qed.

Definition cancel_kept (r r' : agent_run) : Prop :=
  ∀ t, run_cancel_requested_at r = Some t → run_cancel_requested_at r' = Some t.

Lemma run_steps_cancel r r' : run_steps r r' → cancel_kept r r'.
Proof.
  apply run_steps_ind; [split; unfold cancel_kept; [by intros x|intros x y z; naive_solver]|].
  intros d x y [_ _ _ _ Hc _] t Ht. destruct Hc as [->|[Hn _]]; congruence.
Qed.

(** ** Along the steps of an approval and of an execution *)

Lemma approval_decided_final a a' :
  rtc approval_step a a' → apr_approval_status a ≠ APPROVAL_AWAITING_USER → a' = a.
Proof.
  intros Hr Hs. destruct Hr as [|x y z [_ _ Hl _] _]; [done|].
  by destruct (apr_approval_status x); [done|apply elem_of_nil in Hl..].
Qed.

Definition execution_monotone (e e' : tool_execution) : Prop :=
  same_execution e e' ∧ (exe_version e ≤ exe_version e')%Z ∧
  written_once (exe_external_request_id e) (exe_external_request_id e') ∧
  written_once (exe_result_ref e) (exe_result_ref e') ∧
  written_once (exe_result_digest e) (exe_result_digest e') ∧
  (LEGAL_EXECUTION_TRANSITIONS (exe_execution_status e) = [] →
   exe_execution_status e' = exe_execution_status e ∧
   exe_finished_at e' = exe_finished_at e).

Lemma execution_steps_monotone e e' : rtc execution_step e e' → execution_monotone e e'.
Proof.
  induction 1 as [e|e1 e2 e3 [Hs Hv Hst H1 H2 H3] _ (Is & Iv & I1 & I2 & I3 & It)].
  { by split_and!; try (by intros ? ?). }
  split_and!; [|lia|unfold written_once in *; naive_solver..|].
  - unfold same_execution in *. intuition congruence.
  - intros Hl. destruct Hst as [[Hst Hf]|[Hst _]].
    + rewrite Hst in It. destruct (It Hl) as [-> ->]. by rewrite Hf.
    + rewrite Hl in Hst. by apply elem_of_nil in Hst.
Qed.
