(* ===== verification/Leases.v ===== *)
(** * Superseded leases

    A lease is superseded once the row of its run carries a newer version or fencing
    token: no clock reading makes it current again, and what is guarded by it raises. *)

From S2P Require Import Prelude Records Errors Json Regex Tenancy WorkflowModels Storage.
From S2P Require Import PlanStorage Checkpoint PlanRecords PlanReading.
From S2P Require Import WorkflowRepository.
From S2P Require Import PlanRepository PlanDecisions PlanAttempts MemoryRepository.
From S2P Require Import WorkflowCoordinator WorkflowSpec WorkflowRefinement.
From S2P Require Import WorkflowHistory.
From S2P Require Import PlanRefinement PlanAttemptRefinement ExecutionRefinement.
From stdpp Require Import base gmap strings list relations.

(** The row of the lease's run carries a newer version or a newer fencing token. *)
Definition superseded (l : RunLease) (d : Db) : Prop :=
  ∃ i r, tc_run_id (rl_context l) = Some i ∧ agent_runs d !! i = Some r ∧
    (rl_version l < run_version r ∨ rl_fencing_token l < run_fencing_token r)%Z.

(** No clock reading makes the lease current. *)
Definition fenced (l : RunLease) (d : Db) : Prop := ∀ now, lease_exists l d now = false.

Lemma superseded_fenced l d : superseded l d → fenced l d.
Proof.
  intros (i & r & Hi & Hr & Hlt) now. unfold lease_exists.
  destruct (context_predicate d (rl_context l)) as [r'|] eqn:E; [|done].
  assert (r' = r) as ->.
  { apply context_predicate_Some in E as [E1 E2]. unfold run_scope in E2.
    apply in_scope_true in E2 as (_ & _ & _ & E2). congruence. }
  apply not_true_is_false. unfold current_lease_predicate.
  rewrite !andb_true_iff, !bool_decide_eq_true. lia.
Qed.

Lemma superseded_persists `{Env} q l d d' : superseded l d → effects q d d' → superseded l d'.
Proof.
  intros (i & r & Hi & Hr & Hlt) He.
  destruct (runs_evolve q d d' i r He Hr) as (r' & Hr' & Hs).
  apply run_steps_tokens in Hs as ((H1 & H2 & _) & _). exists i, r'. split_and!; [done|done|lia].
Qed.

(** ** Guarded calls of the Plan repository *)

Section Blocked.
Context `{envi : Env} (c : TenantContext) (settings : PlanningSettings) (l : RunLease).

(** [m] raises in every world whose database fences the lease. *)
Definition blocked {A} (m : M A) : Prop :=
  ∀ w, fenced l (w_db w) → wp m (λ _ _, False) (λ _, True) w.

Lemma blocked_bind {A B} (m : M A) (f : A → M B) : blocked m → blocked (m ≫= f).
Proof. intros Hm w Hw. apply wp_bind. eapply wp_weaken; [| |by apply Hm]; done. Qed.

Lemma blocked_later {A B} (m : M A) (f : A → M B) :
  moves later m → (∀ a, blocked (f a)) → blocked (m ≫= f).
Proof.
  intros Hm Hf w Hw. apply wp_bind, wp_later; [done| |done].
  intros a w' Hw' _. apply Hf. by rewrite Hw'.
Qed.

Lemma blocked_read {A B} (m : M A) (f : A → M B) :
  read_only m → (∀ a, blocked (f a)) → blocked (m ≫= f).
Proof. intros Hm. by apply blocked_later, moves_later_read. Qed.

Lemma plans_lease_fenced w b w' :
  fenced l (w_db w) → plans_has_current_lease c l w = (Ok b, w') → b = false.
Proof.
  intros Hf (m&w1&Hm&H)%bind_Ok.
  pose proof (read_only_lease_matches c l w) as Hr. rewrite Hm in Hr. simpl in Hr. subst w1.
  destruct (negb m); [by injection H as <- _|].
  pose proof (wp_has_current_lease l (λ b _, b = false) (λ _, True) w) as Hw.
  unfold wp in Hw. rewrite H in Hw. apply Hw. apply Hf.
Qed.

Lemma blocked_lease {B} (f : unit → M B) :
  blocked (b ← plans_has_current_lease c l;
           require b (StaleFenceError "run lease is stale") ;; f tt).
Proof.
  intros w Hw. apply wp_bind, wp_later; [apply later_has_current_lease| |done].
  intros b w' _ Hb. by rewrite (plans_lease_fenced w b w' Hw Hb).
Qed.

Lemma blocked_executable : blocked (require_current_executable_lease c l).
Proof.
  unfold require_current_executable_lease. apply blocked_read; [auto with reads|]. intros _.
  apply (blocked_lease (λ _, _)).
Qed.

Lemma blocked_lock_run : blocked (lock_run_for_execution c l).
Proof.
  unfold lock_run_for_execution. do 2 (apply blocked_read; [auto with reads|]; intros _).
  apply blocked_read; [done|]. intros _. apply blocked_executable.
Qed.

Lemma blocked_create p n s : blocked (create_step_attempt c settings l p n s).
Proof.
  unfold create_step_attempt. apply blocked_read; [auto with reads|]. intros sid.
  apply blocked_read; [auto with reads|]. intros _. apply blocked_bind, blocked_lock_run.
Qed.

Lemma blocked_reuse p n s src : blocked (create_reused_step_attempt c settings l p n s src).
Proof.
  unfold create_reused_step_attempt. apply blocked_read; [auto with reads|]. intros sid.
  apply blocked_read; [auto with reads|]. intros _. apply blocked_bind, blocked_lock_run.
Qed.

Lemma blocked_finish i v st doc ref ec ed :
  blocked (finish_step_attempt c l i v st doc ref ec ed).
Proof.
  unfold finish_step_attempt. apply blocked_read; [auto with reads|]. intros _.
  apply blocked_read; [auto with reads|]. intros _. apply blocked_bind, blocked_executable.
Qed.

Lemma blocked_cancel i v : blocked (cancel_step_attempt c l i v).
Proof.
  unfold cancel_step_attempt. apply blocked_read; [auto with reads|]. intros _.
  apply blocked_read; [done|]. intros _. apply (blocked_lease (λ _, _)).
Qed.

(** A unit of work whose body raises leaves no trace. *)
Lemma blocked_unit {A} (m : M A) w :
  blocked m → fenced l (w_db w) →
  wp (unit_of_work (on_connection m)) (λ _ _, False) (λ w', w_db w' = w_db w) w.
Proof.
  intros Hm Hw. specialize (Hm _ Hw).
  unfold unit_of_work, write_transaction, transaction, on_connection, mbind, stM_bind, wp in *.
  simpl. by destruct (m w) as [[a|e] w'].
Qed.
End Blocked.

(** ** The fence is a matter of the run's row alone *)

Definition same_runs (w w' : World) : Prop := agent_runs (w_db w') = agent_runs (w_db w).

#[export] Instance same_runs_preorder : PreOrder same_runs.
Proof. split; unfold same_runs; [done|congruence]. Qed.

Lemma fenced_same_runs l w w' : same_runs w w' → fenced l (w_db w) → fenced l (w_db w').
Proof.
  unfold same_runs, fenced, lease_exists, context_predicate. intros Hs Hf now.
  specialize (Hf now). by rewrite Hs.
Qed.

Section SameRuns.
Context `{envi : Env} (c : TenantContext).

Lemma same_runs_full_scope_update e : moves same_runs (full_scope_update c e).
Proof.
  apply wp_moves. intros w. unfold full_scope_update. do 4 wp_step. cbn [w_db setter].
  by destruct (exact_row _ _ _ _).
Qed.

Lemma same_runs_insert_entry e : moves same_runs (insert_entry c e).
Proof.
  apply wp_moves. intros w. unfold insert_entry, insert_memory_entries. do 5 wp_step.
  by apply wp_check_constraints.
Qed.

Lemma same_runs_save e : moves same_runs (save c e).
Proof.
  unfold save.
  apply moves_bind; [apply _|by apply moves_reading, read_only_lift; apply _|intros e'].
  apply moves_bind; [apply _|apply same_runs_full_scope_update|intros n].
  apply moves_bind; [apply _| |intros u; apply moves_reading; [apply _|solve_reads]].
  destruct (bool_decide _); [|by apply moves_ret, _]. apply moves_catch; [apply _| |].
  - intros w. pose proof (same_runs_insert_entry e' w) as Hi. unfold savepoint, any_exception.
    by destruct (insert_entry c e' w) as [[a|x] w'].
  - intros x. destruct (is_integrity_error x); [|by apply moves_throw, _].
    apply moves_bind; [apply _|apply same_runs_full_scope_update|intros k].
    apply moves_reading; [apply _|solve_reads].
Qed.
End SameRuns.
