(* ===== verification/WorkflowInvariants.v ===== *)
(** * Invariants of the workflow database

    [wf_db q d] collects what the schema and the engine promise of every database state:
    quota, serial executions, tokens, terminal timestamps, referential integrity, unique
    checkpoint numbers.  Every effect preserves it. *)

From S2P Require Import Prelude Records Errors Json Tenancy WorkflowModels Storage.
From S2P Require Import Checkpoint.
From S2P Require Import WorkflowRepository PlanEffects WorkflowSpec WorkflowHistory.
From stdpp Require Import base gmap strings list sets relations.

(** No tenant has more than [q] active runs. *)
Definition quota_ok (q : Z) (d : Db) : Prop :=
  ∀ t, (count_rows (active_runs_of t) (agent_runs d) ≤ q)%Z.

(** A run has at most one open execution. *)
Definition serial (d : Db) : Prop :=
  ∀ i j e e', tool_executions d !! i = Some e → tool_executions d !! j = Some e' →
    execution_scope e = execution_scope e' →
    execution_open e = true → execution_open e' = true → i = j.

Definition run_ok (r : agent_run) : Prop :=
  (1 ≤ run_fencing_token r ≤ run_version r)%Z ∧
  (is_Some (run_finished_at r) ↔ run_terminal (run_run_status r) = true) ∧
  plan_binding_complete (run_plan_id r) (run_initial_plan_version r)
    (run_active_plan_version r) = true.

Definition approval_ok (a : approval_request) : Prop :=
  match apr_approval_status a with
  | APPROVAL_AWAITING_USER => apr_resolved_at a = None
  | APPROVAL_EXPIRED => ∃ t, apr_resolved_at a = Some t ∧ (apr_expires_at a ≤ t)%Z
  | _ => ∃ t, apr_resolved_at a = Some t ∧ (t < apr_expires_at a)%Z
  end.

Definition execution_ok (e : tool_execution) : Prop :=
  (1 ≤ exe_version e)%Z ∧
  (is_Some (exe_finished_at e) → exec_terminal (exe_execution_status e) = true).

(** Rows are stored under their identifiers, and refer to a run of their own scope. *)
Definition refs_ok (d : Db) : Prop :=
  (∀ i r, agent_runs d !! i = Some r → run_run_id r = i) ∧
  (∀ i a, approval_requests d !! i = Some a → fk_run d (approval_scope a) = true) ∧
  (∀ i e, tool_executions d !! i = Some e → fk_run d (execution_scope e) = true) ∧
  (∀ i k, execution_checkpoints d !! i = Some k → fk_run d (checkpoint_scope k) = true).

Definition checkpoints_unique (d : Db) : Prop :=
  ∀ i j k k', execution_checkpoints d !! i = Some k → execution_checkpoints d !! j = Some k' →
    checkpoint_scope k = checkpoint_scope k' →
    ckp_checkpoint_seq k = ckp_checkpoint_seq k' → i = j.

Record wf_db (q : Z) (d : Db) : Prop := MkWfDb {
  wf_quota : quota_ok q d;
  wf_serial : serial d;
  wf_runs : map_Forall (λ _, run_ok) (agent_runs d);
  wf_approvals : map_Forall (λ _, approval_ok) (approval_requests d);
  wf_executions : map_Forall (λ _, execution_ok) (tool_executions d);
  wf_refs : refs_ok d;
  wf_checkpoints : checkpoints_unique d;
}.

(** ** Each effect preserves each part *)

Lemma run_step_active d r r' t :
  run_step d r r' → active_runs_of t r' = true → active_runs_of t r = true.
Proof.
  intros [(Hsame & _) _ _ Hs _ _]. unfold active_runs_of.
  rewrite !andb_true_iff, !bool_decide_eq_true, !run_active_terminal, !negb_true_iff.
  unfold run_scope in Hsame. intros [Ht Ha]. split; [congruence|].
  destruct Hs as [[Hs _]|[Hs _]]; [congruence|by apply legal_run_source_active in Hs].
Qed.

Section Preservation.
Context `{envi : Env} (q : Z).

Lemma effect_quota d d' : quota_ok q d → effect q d d' → quota_ok q d'.
Proof.
  intros Hq He t. specialize (Hq t). destruct He; simpl; try exact Hq.
  - rewrite count_rows_insert_fresh by (by apply constraint_fresh_run).
    unfold active_runs_of at 1. case_bool_decide as Ht; simpl; [|lia].
    rewrite <-Ht in *. destruct (run_active r); lia.
  - erewrite count_rows_insert_update by done.
    destruct (active_runs_of t r') eqn:E;
      [rewrite (run_step_active _ _ _ _ H0 E)|destruct (active_runs_of t r)]; lia.
  - by plan_moved.
Qed.

Lemma execution_step_open e e' :
  execution_step e e' → execution_open e' = true → execution_open e = true.
Proof.
  intros [_ _ Hs _ _ _]. unfold execution_open. rewrite !negb_true_iff.
  destruct Hs as [[-> _]|[Hs _]]; [done|]. intros _. by apply legal_exec_source_open in Hs.
Qed.

Lemma effect_serial d d' : serial d → effect q d d' → serial d'.
Proof.
  intros Hs He. destruct He; try exact Hs;
    [| |unfold serial; by plan_moved]; intros i j x y; simpl;
    rewrite !lookup_insert_Some; intros [[<- <-]|[Hi Hx]] [[<- <-]|[Hj Hy]] Hk Ho Ho';
    try done.
  - specialize (H1 _ _ Hy (eq_sym Hk)). congruence.
  - specialize (H1 _ _ Hx Hk). congruence.
  - by apply (Hs i j x y).
  - pose proof (execution_step_open _ _ H0 Ho). destruct H0 as [[Hsc _] _ _ _ _ _].
    apply (Hs _ j e y); congruence.
  - pose proof (execution_step_open _ _ H0 Ho'). destruct H0 as [[Hsc _] _ _ _ _ _].
    apply (Hs i _ x e); congruence.
  - by apply (Hs i j x y).
Qed.

Lemma run_step_ok d r r' : run_ok r → run_step d r r' → run_ok r'.
Proof.
  intros (Ht & Hf & Hb) [(_ & Hp & Hi & _) Hv Hl Hs _ Hpl]. split_and!.
  - destruct Hl as [[? _]|[? _]]; lia.
  - destruct Hl as [[? _]|[? _]]; lia.
  - destruct Hs as [[-> ->]|[Hs Hfin]]; [done|]. rewrite Hfin.
    destruct (run_terminal (run_run_status r')) eqn:E; [naive_solver|].
    rewrite Hf, (legal_run_source_active _ _ Hs). done.
  - rewrite Hp, Hi. destruct Hpl as [->|(p & v & Hpp & -> & _)]; [done|].
    rewrite Hpp in *. by destruct (run_initial_plan_version r), (run_active_plan_version r).
Qed.

Lemma effect_runs d d' :
  map_Forall (λ _, run_ok) (agent_runs d) → effect q d d' →
  map_Forall (λ _, run_ok) (agent_runs d').
Proof.
  intros Hr He. destruct He; try exact Hr; simpl; [| |by plan_moved];
    apply map_Forall_insert_2; try done.
  - destruct H0 as (Hf & Hv & Hn & _ & Ha). rewrite run_active_terminal in Ha.
    apply negb_true_iff in Ha. split_and!; [lia..| |].
    + rewrite Hn, Ha. by split; [intros [? ?]|].
    + unfold agent_runs_constraints in H. rewrite !andb_true_iff in H. naive_solver.
  - eapply run_step_ok; [|done]. by eapply Hr.
Qed.

Lemma approval_step_ok a a' : approval_step a a' → approval_ok a'.
Proof.
  intros [(_ & _ & _ & _ & He) _ Hl (t & Ht & Hx)]. unfold approval_ok. rewrite Ht, He.
  destruct (apr_approval_status a); [|by apply elem_of_nil in Hl..].
  destruct (apr_approval_status a') eqn:E; simpl in Hl; [set_solver|..];
    exists t; (split; [done|]); try (by apply Hx).
  - destruct (Z.lt_ge_cases t (apr_expires_at a)) as [?|?]; [done|]. by apply Hx in H.
  - destruct (Z.lt_ge_cases t (apr_expires_at a)) as [?|?]; [done|]. by apply Hx in H.
Qed.

Lemma effect_approvals d d' :
  map_Forall (λ _, approval_ok) (approval_requests d) → effect q d d' →
  map_Forall (λ _, approval_ok) (approval_requests d').
Proof.
  intros Hr He. destruct He; try exact Hr; simpl; [| |by plan_moved];
    apply map_Forall_insert_2; try done.
  - destruct H0 as (Hs & Hn & _). unfold approval_ok. by rewrite Hs.
  - by eapply approval_step_ok.
Qed.

Lemma effect_executions d d' :
  map_Forall (λ _, execution_ok) (tool_executions d) → effect q d d' →
  map_Forall (λ _, execution_ok) (tool_executions d').
Proof.
  intros Hr He. destruct He; try exact Hr; simpl; [| |by plan_moved];
    apply map_Forall_insert_2; try done.
  - destruct H0 as (Hv & Hf & _). split; [lia|]. rewrite Hf. by intros [? ?].
  - specialize (Hr _ _ H) as [Hv Hf]. destruct H0 as [_ Hv' Hs _ _ _].
    split; [lia|]. destruct Hs as [[-> ->]|[Hs Hfin]]; [done|]. rewrite Hfin.
    destruct (exec_terminal (exe_execution_status e')); [done|].
    intros H0%Hf. by rewrite (legal_exec_source_open _ _ Hs) in H0.
Qed.

Lemma fk_run_persists d d' k : effect q d d' → fk_run d k = true → fk_run d' k = true.
Proof.
  unfold fk_run. intros He Hk. destruct (agent_runs d !! k.2) as [r|] eqn:E; [|done].
  destruct (runs_evolve q d d' _ _ (rtc_once _ _ He) E) as (r' & -> & Hr).
  apply run_steps_same in Hr as [Hr _]. by rewrite Hr.
Qed.

Lemma fk_run_of_constraints d :
  (∀ a, approval_requests_constraints d a = true → fk_run d (approval_scope a) = true) ∧
  (∀ e, tool_executions_constraints d e = true → fk_run d (execution_scope e) = true) ∧
  (∀ k, execution_checkpoints_constraints d k = true →
     fk_run d (checkpoint_scope k) = true).
Proof.
  unfold approval_requests_constraints, tool_executions_constraints,
    execution_checkpoints_constraints.
  split_and!; intros ?; rewrite !andb_true_iff; naive_solver.
Qed.

(** A table of rows that refer to a run: kept rows, new rows, stepped rows. *)
Lemma effect_fk {V} (scope : V → scope_key) (m m' : gmap string V) d d' :
  effect q d d' →
  (∀ i x, m !! i = Some x → fk_run d (scope x) = true) →
  (∀ i x, m' !! i = Some x →
     (∃ j y, m !! j = Some y ∧ scope x = scope y) ∨ fk_run d (scope x) = true) →
  ∀ i x, m' !! i = Some x → fk_run d' (scope x) = true.
Proof.
  intros He Hm Hm' i x Hx. apply (fk_run_persists _ _ _ He).
  destruct (Hm' _ _ Hx) as [(j & y & Hy & ->)|Hf]; [by eapply Hm|done].
Qed.

Lemma effect_keys d d' :
  (∀ i r, agent_runs d !! i = Some r → run_run_id r = i) → effect q d d' →
  ∀ i r, agent_runs d' !! i = Some r → run_run_id r = i.
Proof.
  intros Hk He. destruct He; try exact Hk; [| |by plan_moved]; intros i x; simpl;
    rewrite lookup_insert_Some; (intros [[<- <-]|[_ Hx]]; [|by apply Hk]); [done|].
  destruct H0 as [(Hs & _) _ _ _ _ _]. unfold run_scope in Hs. congruence.
Qed.

Lemma effect_refs d d' : refs_ok d → effect q d d' → refs_ok d'.
Proof.
  intros (H1 & H2 & H3 & H4) He.
  destruct (fk_run_of_constraints d) as (Ca & Ce & Ck).
  split_and!; [by eapply effect_keys|..].
  - apply (effect_fk _ _ _ _ _ He H2). intros i x.
    destruct He; simpl; try plan_moved; try (intros Hx; left; by exists i, x);
      rewrite lookup_insert_Some; intros [[<- <-]|[_ Hx]];
      try (left; by exists i, x); [right; by apply Ca|].
    left. exists (apr_approval_id a), a. by destruct H0 as [(? & _) _ _ _].
  - apply (effect_fk _ _ _ _ _ He H3). intros i x.
    destruct He; simpl; try plan_moved; try (intros Hx; left; by exists i, x);
      rewrite lookup_insert_Some; intros [[<- <-]|[_ Hx]];
      try (left; by exists i, x); [right; by apply Ce|].
    left. exists (exe_execution_id e), e. by destruct H0 as [(? & _) _ _ _ _ _].
  - apply (effect_fk _ _ _ _ _ He H4). intros i x.
    destruct He; simpl; try plan_moved; try (intros Hx; left; by exists i, x);
      rewrite lookup_insert_Some; intros [[<- <-]|[_ Hx]];
      try (left; by exists i, x). right; by apply Ck.
Qed.

Lemma effect_checkpoints d d' :
  checkpoints_unique d → effect q d d' → checkpoints_unique d'.
Proof.
  intros Hu He. destruct He; try exact Hu;
    [|unfold checkpoints_unique; by plan_moved]. intros i j x y; simpl.
  assert (Hno : ∀ i x, execution_checkpoints d !! i = Some x →
    checkpoint_scope x = checkpoint_scope k →
    ckp_checkpoint_seq x = ckp_checkpoint_seq k → False).
  { intros i0 x0 Hx Hs Hq. unfold execution_checkpoints_constraints in H.
    rewrite !andb_true_iff, negb_true_iff in H. destruct H as ((((_ & Hn) & _) & _) & _).
    rewrite exists_row_false in Hn. specialize (Hn _ _ Hx).
    by rewrite Hs, Hq, !bool_decide_true in Hn. }
  rewrite !lookup_insert_Some. intros [[<- <-]|[Hi Hx]] [[<- <-]|[Hj Hy]] Hs Hq;
    [done|by destruct (Hno _ _ Hy)|by destruct (Hno _ _ Hx)|by apply (Hu i j x y)].
Qed.

Lemma effects_quota d d' : quota_ok q d → effects q d d' → quota_ok q d'.
Proof. intros Hd He. induction He; eauto using effect_quota. Qed.

Lemma effects_serial d d' : serial d → effects q d d' → serial d'.
Proof. intros Hd He. induction He; eauto using effect_serial. Qed.

Lemma effects_checkpoints d d' :
  checkpoints_unique d → effects q d d' → checkpoints_unique d'.
Proof. intros Hd He. induction He; eauto using effect_checkpoints. Qed.

Lemma effect_wf d d' : wf_db q d → effect q d d' → wf_db q d'.
Proof.
  intros [] He. split; eauto using effect_quota, effect_serial, effect_runs,
    effect_approvals, effect_executions, effect_refs, effect_checkpoints.
Qed.

Lemma effects_wf d d' : wf_db q d → effects q d d' → wf_db q d'.
Proof. intros Hd He. induction He; eauto using effect_wf. Qed.
End Preservation.

(** A database without runs is well formed. *)
Lemma no_runs_wf q d :
  (0 ≤ q)%Z → agent_runs d = ∅ → approval_requests d = ∅ → tool_executions d = ∅ →
  execution_checkpoints d = ∅ → wf_db q d.
Proof.
  intros Hq Hr Ha He Hk. split.
  - intros t. rewrite Hr. unfold count_rows, rows. rewrite map_to_list_empty. simpl. lia.
  - intros i j e e'. rewrite He. by rewrite lookup_empty.
  - rewrite Hr. apply map_Forall_empty.
  - rewrite Ha. apply map_Forall_empty.
  - rewrite He. apply map_Forall_empty.
  - unfold refs_ok. rewrite Hr, Ha, He, Hk. split_and!; intros i x; by rewrite lookup_empty.
  - intros i j k k'. rewrite Hk. by rewrite lookup_empty.
Qed.
