(* ===== verification/WorkflowSystem.v ===== *)
(** * The engine as a system: any process, any order

    A [request] is one call of a coordinator operation with its arguments, or a unit of
    work on the Plan repository; [exec_all] runs a sequence of them, each in its
    transaction, whatever their order and whoever sends them: this is every interleaving
    of processes that share the database.  The theorems here are about all such
    sequences. *)

From S2P Require Import Prelude Records Errors Json Tenancy WorkflowModels Storage.
From S2P Require Import Checkpoint PlanValidation PlanRepository PlanDecisions.
From S2P Require Import PlanAttempts.
From S2P Require Import PlanRecords WorkflowRepository MemoryRepository.
From S2P Require Import WorkflowCoordinator PlanService Recovery Continuation.
From S2P Require Import PlanExecution PlanLoop WorkflowSpec RecoveryRefinement.
From S2P Require Import WorkflowRefinement WorkflowHistory WorkflowInvariants.
From S2P Require Import PlanReading PlanRefinement PlanAttemptRefinement PlanSystem.
From S2P Require Import ExecutionRefinement Leases.
From stdpp Require Import base gmap strings list sets relations.

Inductive request : Type :=
| StartRun (c : TenantContext) (i : string)
| StartRunWithCheckpoint (c : TenantContext) (i : string)
| StartPlanRun (c : TenantContext) (i p : string) (v : Z) (g : string)
| StartApprovedPlanRun (c : TenantContext) (i p : string) (v : Z) (g : string)
| AcquireRun (c : TenantContext) (i : string)
| Recover (c : TenantContext) (i : string)
| ResumeWaitingRun (c : TenantContext) (i : string)
| ResumeWaitingPlanRun (c : TenantContext) (i p : string) (v n : Z)
| FenceWaitingPlanRun (c : TenantContext) (i p : string) (v n : Z) (g : string)
| CancelWaitingPlanRun (c : TenantContext) (i p : string) (v n : Z)
| RequestCancellation (c : TenantContext)
| DecideApproval (c : TenantContext) (a : string) (approved : bool) (v : Z)
| Heartbeat (l : RunLease)
| TransitionRun (l : RunLease) (t : RunStatus)
| FinishRun (l : RunLease) (t : RunStatus)
| FinishRunWithCheckpoint (l : RunLease) (t : RunStatus)
| CreateApproval (l : RunLease) (a t : string) (expires_at : Z → Z)
| CreateExecution (l : RunLease) (i : ExecutionInput)
| TransitionExecution (l : RunLease) (e : string) (s : ExecutionStatus) (v : Z)
    (t : ExecutionStatus)
| CompleteExecution (l : RunLease) (e : string) (s : ExecutionStatus) (v : Z)
    (t : ExecutionStatus) (request_id ref digest : option string)
| RecordExternalRequestId (l : RunLease) (e : string) (s : ExecutionStatus) (v : Z)
    (request_id : string)
| WriteCheckpoint (l : RunLease) (i : CheckpointInput)
| Checkpoint (l : RunLease) (ph : CheckpointPhase + string)
    (p : CheckpointPayload + list (string * json)) (o : CheckpointOptions)
| PlanWork (c : TenantContext) (s : PlanningSettings) (calls : list plan_call)
| SaveMemory (c : TenantContext) (e : MemoryEntry)
| ForgetMemory (c : TenantContext) (i : string)
| PersistToolResult (c : TenantContext) (content tool_call_id tool_name execution_id
    result_status : string)
| StoreInitial (s : PlanningSettings) (rq : MaterializeInitialPlan)
| ApplyResolution (r : PlanDecisionRequest) (c : TenantContext) (by_ i : string)
| ApplyRevision (s : PlanningSettings) (r : PlanDecisionRequest) (c : TenantContext)
    (draft : PlanDraft) (by_ i : string)
| ResumeWaitingSummaryRun (c : TenantContext) (i : string)
| CancelLeasedRun (c : TenantContext) (l : RunLease)
| CommitOutput (c : TenantContext) (content : string) (n : Z) (l : RunLease)
| MaterializeFailureRevision (s : PlanningSettings) (rq : FailureRevisionRequest)
| ApplyCompatibleReuse (s : PlanningSettings) (c : TenantContext) (l : RunLease)
    (now : Compatibility)
| StartNextAttempt (s : PlanningSettings) (c : TenantContext) (l : RunLease)
| FinalizeStepAttempt (c : TenantContext) (l : RunLease) (started : StartedPlanStep)
    (t : PlanStepRunStatus) (doc : PlanStepResultDocument)
| PrepareFinalSummary (c : TenantContext) (l : RunLease)
| PersistSummary (c : TenantContext) (content : string) (l : RunLease).

(** The lease a request is guarded by, if it is. *)
Definition request_lease (rq : request) : option RunLease :=
  match rq with
  | Heartbeat l | TransitionRun l _ | FinishRun l _ | FinishRunWithCheckpoint l _
  | CreateApproval l _ _ _ | CreateExecution l _ | TransitionExecution l _ _ _ _
  | CompleteExecution l _ _ _ _ _ _ _ | RecordExternalRequestId l _ _ _ _
  | WriteCheckpoint l _ | Checkpoint l _ _ _ | CommitOutput _ _ _ l
  | ApplyCompatibleReuse _ _ l _ | StartNextAttempt _ _ l | FinalizeStepAttempt _ l _ _ _
  | PrepareFinalSummary _ l | PersistSummary _ _ l => Some l
  | MaterializeFailureRevision _ rq => Some (frr_lease rq)
  | _ => None
  end.

Section System.
Context `{Env}.
(** The Plan repository, which cancellation and recovery read. *)
Context (plans : PlanReader).
Context (co : WorkflowCoordinator).

Definition ignore {A} (m : M A) : M unit := m ≫= λ _, mret tt.

Local Notation settings := (co_settings co).

Definition exec (rq : request) : M unit :=
  match rq with
  | StartRun c i => ignore (start_run co c i)
  | StartRunWithCheckpoint c i => ignore (start_run_with_checkpoint co c i)
  | StartPlanRun c i p v g => ignore (start_plan_run_with_checkpoint co c i p v g)
  | StartApprovedPlanRun c i p v g =>
    ignore (start_approved_plan_run_with_checkpoint co c i p v g)
  | AcquireRun c i => ignore (acquire_run co c i)
  | Recover c i => ignore (recover (co_settings co) c i)
  | ResumeWaitingRun c i => ignore (co_resume_waiting_run co c i)
  | ResumeWaitingPlanRun c i p v n => ignore (co_resume_waiting_plan_run co c i p v n)
  | FenceWaitingPlanRun c i p v n g =>
    ignore (co_fence_waiting_plan_run co c i p v n g)
  | CancelWaitingPlanRun c i p v n => ignore (co_cancel_waiting_plan_run co c i p v n)
  | RequestCancellation c => ignore (co_request_cancellation plans co c)
  | DecideApproval c a b v => ignore (decide_approval co c a b v)
  | Heartbeat l => ignore (heartbeat co l)
  | TransitionRun l t => ignore (co_transition_run co l t)
  | FinishRun l t => ignore (finish_run co l t)
  | FinishRunWithCheckpoint l t => ignore (finish_run_with_checkpoint co l t)
  | CreateApproval l a t e => ignore (create_approval co l a t e)
  | CreateExecution l i => ignore (create_execution co l i)
  | TransitionExecution l e s v t => ignore (co_transition_execution co l e s v t)
  | CompleteExecution l e s v t r f g => ignore (complete_execution co l e s v t r f g)
  | RecordExternalRequestId l e s v r =>
    ignore (record_external_request_id co l e s v r)
  | WriteCheckpoint l i => ignore (write_checkpoint co l i)
  | Checkpoint l ph p o => ignore (checkpoint co l ph p o)
  | PlanWork c s calls => ignore (plan_work c s calls)
  | SaveMemory c e => ignore (unit_of_work (on_connection (save c e)))
  | ForgetMemory c i => ignore (unit_of_work (on_connection (forget c i)))
  | PersistToolResult c a t n e s =>
    ignore (unit_of_work (on_connection (persist_tool_result c c a t n e s)))
  | StoreInitial s rq => ignore (store_initial s co rq)
  | ApplyResolution r c by_ i => ignore (unit_of_work (apply_resolution co r c by_ i))
  | ApplyRevision s r c draft by_ i =>
    ignore (unit_of_work (apply_revision s co r c draft by_ i))
  | ResumeWaitingSummaryRun c i => ignore (resume_waiting_summary_run settings c i)
  | CancelLeasedRun c l =>
    ignore (unit_of_work (on_connection (cancel_leased_run settings c l)))
  | CommitOutput c content n l =>
    ignore (unit_of_work (on_connection (commit_output settings c content n l)))
  | MaterializeFailureRevision s rq => ignore (materialize_failure_revision s co rq)
  | ApplyCompatibleReuse s c l now => ignore (apply_compatible_reuse s c l now)
  | StartNextAttempt s c l => ignore (start_next_attempt s settings c l)
  | FinalizeStepAttempt c l x t doc => ignore (finalize_step_attempt settings c l x t doc)
  | PrepareFinalSummary c l => ignore (prepare_final_summary settings c l)
  | PersistSummary c content l =>
    ignore (unit_of_work (on_connection (persist_summary settings c content l)))
  end.

Fixpoint exec_all (rqs : list request) (w : World) : World :=
  match rqs with
  | [] => w
  | rq :: rqs => exec_all rqs (exec rq w).2
  end.

Local Notation q := (set_max_concurrent_runs_per_tenant (co_settings co)).

Context (plans_read : PlanReads plans).

Lemma moves_ignore {A} (m : M A) : moves (steps q) m → moves (steps q) (ignore m).
Proof.
  intros Hm. apply moves_bind; [apply _|done|intros a; by apply moves_read].
Qed.

Lemma moves_plans c s calls : moves (steps q) (plan_work c s calls).
Proof. intros w. apply plan_steps_steps, moves_plan_work. Qed.

Lemma moves_connected_unit {A} (m : M A) :
  moves (steps q) m → moves (steps q) (unit_of_work (on_connection m)).
Proof. intros Hm. by apply moves_unit, moves_connected. Qed.

Lemma moves_commit_output c content n l :
  moves (steps q) (commit_output settings c content n l).
Proof. unfold commit_output. pose proof (moves_checkpoint (own_coordinator settings)). follow. Qed.

Create HintDb system.
Hint Resolve moves_start_run moves_start_run_with_checkpoint
  moves_start_plan_run_with_checkpoint moves_start_approved_plan_run_with_checkpoint
  moves_acquire_run moves_recover moves_co_resume_waiting_run
  moves_co_resume_waiting_plan_run moves_co_fence_waiting_plan_run
  moves_co_cancel_waiting_plan_run moves_co_request_cancellation moves_decide_approval
  moves_heartbeat moves_co_transition_run moves_finish_run
  moves_finish_run_with_checkpoint moves_create_approval moves_create_execution
  moves_co_transition_execution moves_update_metadata moves_write_checkpoint
  moves_checkpoint moves_plans moves_save moves_forget moves_persist_tool_result
  moves_store_initial moves_apply_resolution moves_apply_revision
  moves_resume_waiting_summary_run moves_cancel_leased_run moves_commit_output
  moves_materialize_failure_revision moves_apply_compatible_reuse moves_start_next_attempt
  moves_finalize_step_attempt moves_prepare_final_summary moves_persist_summary : system.

Lemma exec_moves rq : moves (steps q) (exec rq).
Proof.
  destruct rq; apply moves_ignore; unfold complete_execution, record_external_request_id;
    first [ solve [auto with system]
          | apply moves_connected_unit; solve [auto with system]
          | apply moves_unit; solve [auto with system] ].
Qed.

Lemma exec_all_steps rqs w : steps q w (exec_all rqs w).
Proof.
  revert w. induction rqs as [|rq rqs IH]; intros w; simpl; [done|].
  etrans; [apply exec_moves|apply IH].
Qed.
End System.

(** ** Fencing *)

Section Fencing.
Context `{Env} (l : RunLease) (w : World) (Hf : fenced l (w_db w)).

(** Nothing is returned and nothing is written. *)
Local Notation refused m :=
  (∀ w1, w_db w1 = w_db w → wp m (λ _ _, False) (λ w', w_db w' = w_db w) w1).
Local Notation no_row m :=
  (∀ w1, w_db w1 = w_db w →
     wp m (λ o w', o = None ∧ w_db w' = w_db w) (λ w', w_db w' = w_db w) w1).

Lemma no_row_refused {A B} (m : M (option A)) (f : option A → M B) :
  no_row m →
  (∀ w1, w_db w1 = w_db w → wp (f None) (λ _ _, False) (λ w', w_db w' = w_db w) w1) →
  refused (m ≫= f).
Proof.
  intros Hm Hn w1 Hw. apply wp_bind. eapply wp_mono; [|by apply Hm].
  intros a w' [-> Hw']. by apply Hn.
Qed.

Lemma refused_bind {A B} (m : M A) (f : A → M B) : refused m → refused (m ≫= f).
Proof. intros Hm w1 Hw. apply wp_bind. by eapply wp_mono; [|by apply Hm]. Qed.

Lemma read_refused {A B} (m : M A) (f : A → M B) :
  read_only m → (∀ a, refused (f a)) → refused (m ≫= f).
Proof. intros Hm Hn w1 Hw. apply wp_bind. apply wp_read; [done|intros; by apply Hn|done]. Qed.

Lemma refused_write_connection {A} co (m : M A) :
  refused m → refused (write_connection co m).
Proof.
  intros Hm w1 Hw. unfold write_connection. destruct (co_connection co); [by apply Hm|].
  apply wp_write_transaction. specialize (Hm w1 Hw). unfold wp in *.
  by destruct (m w1) as [[a|e] w'].
Qed.

Lemma fenced_row w1 now r :
  w_db w1 = w_db w → context_predicate (w_db w1) (rl_context l) = Some r →
  current_lease_predicate l now r = false.
Proof.
  intros Hw Hr. specialize (Hf now). unfold lease_exists in Hf. rewrite Hw in Hr.
  by rewrite Hr in Hf.
Qed.

Lemma wp_fenced_update {A} set_ (f : Z → M A) w1 (Q : A → World → Prop) X :
  w_db w1 = w_db w →
  (∀ w', w_db w' = w_db w → wp (f 0%Z) Q X w') →
  wp (update_agent_runs (rl_context l) (current_lease_predicate l) set_ ≫= f) Q X w1.
Proof.
  intros Hw Hn. unfold update_agent_runs. do 5 wp_step. cbn [w_db setter].
  destruct (context_predicate (w_db w1) (rl_context l)) as [r|] eqn:E.
  - erewrite fenced_row by done. apply wp_ret. by apply Hn.
  - apply wp_ret. by apply Hn.
Qed.

Lemma no_row_refresh repo : no_row (refresh_lease repo l).
Proof. intros w1 Hw. by apply wp_fenced_update; [|intros w' Hw']. Qed.

Lemma no_row_transition_run repo t : no_row (transition_run repo l t).
Proof.
  intros w1 Hw. unfold transition_run. do 3 wp_step. wp_step; [|done].
  destruct a as [cur|]; [|by apply wp_ret]. wp_step.
  apply wp_read; [unfold validate_run_transition; solve_reads| |done].
  intros u _. by apply wp_fenced_update; [|intros w' Hw'].
Qed.

(** The operations that check the lease before anything else. *)
Lemma wp_no_lease {A} (m : M A) Q X w1 :
  w_db w1 = w_db w → (∀ w', w_db w' = w_db w → Q None w') →
  wp (lock_run (rl_context l) ;;
      current ← has_current_lease l;
      if negb current then mret None else (a ← m; mret (Some a))) Q X w1 ∧
  ∀ k : M (option A),
  wp (lock_run (rl_context l) ;;
      current ← has_current_lease l;
      if negb current then mret None else k) Q X w1.
Proof.
  intros Hw HQ.
  assert (Hl : ∀ now, lease_exists l (w_db w1) now = false) by (rewrite Hw; done).
  split; [|intros k]; do 3 wp_step; apply wp_has_current_lease; rewrite Hl;
    cbn [negb]; apply wp_ret; by apply HQ.
Qed.

Lemma no_row_insert_approval a t e : no_row (insert_approval l a t e).
Proof. intros w1 Hw. by apply (wp_no_lease (throw AssertionError)). Qed.
Lemma no_row_insert_execution repo i : no_row (insert_execution repo l i).
Proof. intros w1 Hw. by apply (wp_no_lease (throw AssertionError)). Qed.
Lemma no_row_insert_checkpoint i : no_row (insert_checkpoint l i).
Proof. intros w1 Hw. by apply (wp_no_lease (throw AssertionError)). Qed.
Lemma no_row_update_metadata e s v m : no_row (update_execution_metadata l e s v m).
Proof. intros w1 Hw. by apply (wp_no_lease (throw AssertionError)). Qed.
Lemma no_row_transition_execution e s v t : no_row (transition_execution l e s v t).
Proof.
  intros w1 Hw. unfold transition_execution. wp_step. wp_step; [|done].
  by apply (wp_no_lease (throw AssertionError)).
Qed.

Lemma refused_or_raise {A} e : refused (or_raise e (None : option A)).
Proof. intros w1 Hw. by apply wp_throw. Qed.

Lemma refused_execution_conflict {A} : refused (execution_conflict l : M A).
Proof.
  intros w1 Hw. unfold execution_conflict. wp_step. apply wp_has_current_lease.
  by destruct (negb _).
Qed.

Create HintDb fence.
Hint Resolve no_row_refresh no_row_transition_run no_row_insert_approval
  no_row_insert_checkpoint no_row_update_metadata no_row_transition_execution
  refused_or_raise refused_execution_conflict : fence.

Ltac solve_refused :=
  repeat first
    [ solve [auto with fence]
    | apply refused_write_connection
    | (eapply no_row_refused; [solve [auto with fence]|])
    | apply read_refused; [solve [solve_reads]|intros ?]
    | apply refused_bind ].

Lemma refused_write_checkpoint co i : refused (write_checkpoint co l i).
Proof. unfold write_checkpoint. solve_refused. Qed.
Hint Resolve refused_write_checkpoint : fence.

Lemma refused_checkpoint co ph p o : refused (checkpoint co l ph p o).
Proof.
  unfold checkpoint. apply read_refused; [auto with reads|intros [ph' p']].
  apply read_refused; [auto with reads|intros [ap ex]].
  apply read_refused; [auto with reads|intros e].
  intros w1 Hw. wp_step.
  assert (Hid : ∀ s w2, w_db w2 = w_db w → wp (seq ← write_checkpoint co l {|
      ci_checkpoint_id := s; ci_checkpoint_seq := co_checkpoint_seq o;
      ci_phase := enum_value ph'; ci_payload_json := ecp_payload_json e;
      ci_payload_hash := ecp_payload_hash e; ci_schema_version := ecp_schema_version e;
      ci_approval_id := ap; ci_execution_id := ex;
      ci_expected_execution_status := co_execution_expected_status o;
      ci_expected_execution_version := co_execution_expected_version o |};
    mret {| cw_checkpoint_id := s; cw_checkpoint_seq := seq; cw_phase := ph';
        cw_payload_json := ecp_payload_json e; cw_payload_hash := ecp_payload_hash e;
        cw_schema_version := ecp_schema_version e |})
    (λ _ _, False) (λ w', w_db w' = w_db w) w2).
  { intros s. apply refused_bind. auto with fence. }
  destruct (co_checkpoint_id o) as [[|x s]|]; by apply Hid.
Qed.

(** The units of work that begin with the lock on the run. *)
Lemma refused_unit {A} (m : M A) :
  blocked l m → refused (unit_of_work (on_connection m)).
Proof.
  intros Hm w1 Hw. pose proof (blocked_unit l m w1 Hm) as Hu. rewrite Hw in Hu. by apply Hu.
Qed.

Lemma no_row_create_execution co i : no_row (create_execution co l i).
Proof.
  intros w1 Hw. unfold create_execution, write_connection.
  pose proof (no_row_insert_execution (repository co) i w1 Hw) as Hi.
  destruct (co_connection co); [done|]. apply wp_write_transaction.
  unfold wp in *. by destruct (insert_execution _ _ _ w1) as [[a|e] w'].
Qed.


(** The requests that make one unit of work under the lock of the run. *)
Lemma blocked_locked {A} c (f : agent_run → M A) :
  blocked l (run ← lock_run_for_execution c l; f run).
Proof. apply blocked_bind, blocked_lock_run. Qed.

Lemma refused_locked {A} c (f : agent_run → M A) :
  refused (unit_of_work (on_connection (run ← lock_run_for_execution c l; f run))).
Proof. apply refused_unit, blocked_locked. Qed.
Hint Resolve refused_locked : fence.

Lemma refused_request co rq plans :
  request_lease rq = Some l → (∀ i, rq ≠ CreateExecution l i) →
  (∀ c x n, rq ≠ CommitOutput c x n l) → refused (exec plans co rq).
Proof.
  intros Hl Hne Hno. destruct rq; simpl in Hl; try done;
    cbn [exec]; unfold ignore, materialize_failure_revision; injection Hl as ->;
    try (by edestruct Hno); try (by destruct (Hne i)); apply refused_bind;
    unfold complete_execution, record_external_request_id, update_metadata, heartbeat,
      co_transition_run, create_approval, co_transition_execution, finish_run,
      finish_run_with_checkpoint, require_terminal_target, start_next_attempt,
      require_run_context, require_lease_context;
    try solve [solve_refused | apply refused_checkpoint | apply refused_locked];
    do 2 (apply read_refused; [solve_reads|intros ?]); apply refused_locked.
Qed.

End Fencing.

(** The same runs, later, and then a checkpoint. *)
Lemma wp_same_runs `{Env} {A B} l (m : M A) (f : A → M B) w :
  moves same_runs m → fenced l (w_db w) → (∀ a, blocked l (f a)) →
  wp (m ≫= f) (λ _ _, False) (λ _, True) w.
Proof.
  intros Hm Hw Hf. apply wp_bind. specialize (Hm w). unfold wp at 1.
  destruct (m w) as [[a|e] w2]; [|done]. apply Hf. by eapply fenced_same_runs.
Qed.

Lemma blocked_commit_output `{Env} settings c content n l :
  blocked l (commit_output settings c content n l).
Proof.
  intros w Hw. unfold commit_output. cbv zeta.
  apply (wp_same_runs l); [by intros w2|done|]. intros e w2 Hw2.
  apply (wp_same_runs l); [apply same_runs_save|done|]. intros e' w3 Hw3.
  apply wp_bind. eapply wp_weaken; [| |by apply (refused_checkpoint l w3 Hw3)]; done.
Qed.

(** A guarded request under a fenced lease: refused, or (for an execution) no row. *)
Lemma fenced_request `{Env} l w (Hf : fenced l (w_db w)) co rq plans :
  request_lease rq = Some l →
  w_db (exec plans co rq w).2 = w_db w ∧
  ((∃ e, (exec plans co rq w).1 = Err e) ∨
   ∃ i, rq = CreateExecution l i ∧ (create_execution co l i w).1 = Ok None).
Proof.
  intros Hl. assert (Hc : (∃ i, rq = CreateExecution l i) ∨ ∀ i, rq ≠ CreateExecution l i).
  { destruct rq; try (by right); injection Hl as ->. left. eauto. }
  destruct Hc as [[i ->]|Hne].
  - pose proof (no_row_create_execution l w Hf co i w eq_refl) as Hi. unfold wp in Hi.
    cbn [exec]. unfold ignore, mbind, stM_bind.
    destruct (create_execution co l i w) as [[a|e] w'] eqn:E; simpl; [|by eauto].
    destruct Hi as [-> ?]. split; [done|]. right. exists i. by rewrite E.
  - assert (Hr : wp (exec plans co rq) (λ _ _, False) (λ w', w_db w' = w_db w) w).
    { assert (Hc : (∃ c x n, rq = CommitOutput c x n l) ∨ ∀ c x n, rq ≠ CommitOutput c x n l).
      { destruct rq; try (by right); injection Hl as ->. left. eauto. }
      destruct Hc as [(c&x&n&->)|Hno]; [|by apply (refused_request l w Hf)].
      cbn [exec]. unfold ignore. apply wp_bind. eapply wp_mono;
        [|by apply (blocked_unit l), Hf; apply blocked_commit_output]. done. }
    unfold wp in Hr. destruct (exec plans co rq w) as [[a|e] w']; [done|]. simpl. eauto.
Qed.
