(* ===== verification/Scenario.v ===== *)
(** * A concrete engine

    A clock, identifiers and a database with one workspace and one session, on which the
    theorems are exercised.  The digest is a stand-in of the right shape. *)

From S2P Require Import Prelude Records Errors Json Tenancy WorkflowModels Storage.
From S2P Require Import Checkpoint.
From S2P Require Import PlanRecords WorkflowRepository WorkflowCoordinator WorkflowSpec.
From S2P Require Import WorkflowSystem.
From stdpp Require Import base gmap strings list.

Definition TENANT : string := "00000000-0000-4000-8000-000000000001".
Definition WORKSPACE : string := "00000000-0000-4000-8000-000000000002".
Definition SESSION : string := "00000000-0000-4000-8000-000000000003".
Definition RUN : string := "00000000-0000-4000-8000-000000000004".
Definition APPROVAL : string := "00000000-0000-4000-8000-000000000005".
Definition EXECUTION : string := "00000000-0000-4000-8000-000000000006".
Definition PLAN : string := "00000000-0000-4000-8000-000000000007".
Definition OTHER_RUN : string := "00000000-0000-4000-8000-000000000008".
Definition DIGEST : string :=
  "0123456789abcdef0123456789abcdef0123456789abcdef0123456789abcdef".

(** The [n]-th identifier that is drawn. *)
Definition sample_uuid (n : nat) : string :=
  let digits := str_of_int (Z.of_nat n) in
  "11111111-0000-4000-8000-" +:+
  String.substring 0 (12 - String.length digits) "000000000000" +:+ digits.

(** A clock that advances by one millisecond per statement. *)
#[export] Instance sample_env : Env := {|
  env_clock n := (1000 + Z.of_nat n)%Z;
  env_uuid4 := sample_uuid;
  env_sha256_hex _ := DIGEST;
  env_unicode _ := false;
|}.

Definition ctx : TenantContext :=
  MkTenantContext TENANT WORKSPACE (Some SESSION) (Some RUN) 0.
Definition other_ctx : TenantContext :=
  MkTenantContext TENANT WORKSPACE (Some SESSION) (Some OTHER_RUN) 0.

Definition sample_settings (quota : Z) : Settings := {|
  set_heartbeat_ms := 20; set_lease_ttl_ms := 50;
  set_max_checkpoint_payload_bytes := 65536;
  set_max_concurrent_runs_per_tenant := quota;
  set_max_steps := 20; set_max_step_attempts := 3; set_max_tool_rounds := 10;
|}.

Definition sample_co : WorkflowCoordinator :=
  MkWorkflowCoordinator (sample_settings 2) false false false.

Definition sample_plan_version : agent_plan_version := {|
  pv_tenant_id := TENANT; pv_workspace_id := WORKSPACE; pv_session_id := SESSION;
  pv_plan_id := PLAN; pv_plan_version := 1; pv_objective := "objective";
  pv_constraints_json := "[]"; pv_generation_reason := "initial";
  pv_parent_version := None; pv_revision_feedback := None; pv_schema_version := 1;
  pv_content_digest := DIGEST; pv_created_at := 900;
|}.

Definition sample_db : Db :=
  empty_db
    <| workspaces := {[ WORKSPACE := MkWorkspace WORKSPACE TENANT "main" "Main" "active" 900 900 ]} |>
    <| chat_sessions := {[ SESSION := MkChatSession SESSION TENANT WORKSPACE "chat" "active"
                             900 900 None "{}" ]} |>
    <| agent_plan_versions :=
         {[ (TENANT, WORKSPACE, SESSION, PLAN, 1%Z) := sample_plan_version ]} |>.

Definition world0 : World := MkWorld sample_db 0 0.

(** A repository without Plans. *)
Definition no_plan : PlanReader := {|
  plans_get _ _ := mret None;
  running_step_attempts _ _ := mret [];
  step_run_by_id _ _ _ := mret None;
|}.

Definition lease_at (version : Z) : RunLease :=
  MkRunLease ctx "worker-1" 1 version 0.

Definition sample_input : ExecutionInput := {|
  xi_execution_id := EXECUTION; xi_approval_id := None; xi_tool_call_id := "call-1";
  xi_tool_name := "shell"; xi_tool_kind := "execute";
  xi_recovery_strategy := MANUAL_UNCERTAIN; xi_idempotency_key := None;
  xi_input_payload_json := "{}"; xi_input_hash := DIGEST; xi_status := EXEC_NOT_STARTED;
|}.

(** Runs of the sample coordinator. *)
Definition after (rqs : list request) : World := exec_all no_plan sample_co rqs world0.

Definition started : World := after [StartRun ctx "worker-1"].
Definition refreshed : World := after [StartRun ctx "worker-1"; Heartbeat (lease_at 1)].
Definition executing : World :=
  after [StartRun ctx "worker-1"; CreateExecution (lease_at 1) sample_input;
         TransitionExecution (lease_at 1) EXECUTION EXEC_NOT_STARTED 1 EXEC_EXECUTING].

#[export] Instance no_plan_reads : PlanReads no_plan.
Proof. done. Qed.

(** A run of a computation, from its value. *)
Lemma ran {S A} (m : stM S exn A) w r : (m w).1 = r → m w = (r, (m w).2).
Proof. intros <-. apply surjective_pairing. Qed.

(** Runs that return, without their values. *)
Definition returned {A} (r : result exn A) : bool := match r with Ok _ => true | Err _ => false end.

Lemma ran_Ok {S A} (m : stM S exn A) w : returned (m w).1 = true → ∃ a, m w = (Ok a, (m w).2).
Proof. destruct (m w) as [[a|e] w']; [eauto|done]. Qed.

Definition found {A} (r : result exn (option A)) : bool :=
  match r with Ok (Some _) => true | _ => false end.

Lemma ran_Some {S A} (m : stM S exn (option A)) w :
  read_only m → found (m w).1 = true → ∃ a, m w = (Ok (Some a), w).
Proof.
  intros Hm. specialize (Hm w). destruct (m w) as [[[a|]|e] w']; [|done|done].
  simpl in Hm. subst. eauto.
Qed.

Lemma sample_co_quota : set_max_concurrent_runs_per_tenant (co_settings sample_co) = 2%Z.
Proof. reflexivity. Qed.

Example started_run :
  run_version <$> (agent_runs (w_db started) !! RUN) = Some 1%Z.
Proof. vm_compute. reflexivity. Qed.

Example refreshed_run :
  run_version <$> (agent_runs (w_db refreshed) !! RUN) = Some 2%Z.
Proof. vm_compute. reflexivity. Qed.

Example executing_execution :
  exe_execution_status <$> (tool_executions (w_db executing) !! EXECUTION)
  = Some EXEC_EXECUTING.
Proof. vm_compute. reflexivity. Qed.
