(* ===== verification/PlanScenario.v ===== *)
(** * A Plan, step by step

    On the sample engine: a Plan is created, approved and run, and its first step is
    attempted; then it is executed by an agent that does every step, by one that fails at a
    step, and the Plan that replaces it after the failure is made. *)

From S2P Require Import Prelude Records Errors Json Regex Redaction Tenancy.
From S2P Require Import WorkflowModels Storage Collections PlanStorage Checkpoint Events.
From S2P Require Import PlanValidation PlanOrder PlanSpec PlanRecords PlanTheorems.
From S2P Require Import PlanReading WorkflowRepository PlanRepository PlanDecisions.
From S2P Require Import PlanAttempts MemoryRepository PlanResults PlanGenerator.
From S2P Require Import PlanContent PlanEffects PlanInvariants WorkflowCoordinator.
From S2P Require Import PlanService Recovery Continuation PlanExecution PlanLoop.
From S2P Require Import PlanSystem WorkflowSystem Scenario.
From stdpp Require Import base gmap strings list.

Definition MESSAGE : string := "00000000-0000-4000-8000-00000000000a".

(** The repository is bound to the session. *)
Definition plan_ctx : TenantContext :=
  MkTenantContext TENANT WORKSPACE (Some SESSION) None 0.

Definition planning : PlanningSettings := MkPlanningSettings 20 10 5 3.

(** A session with one message and no Plans. *)
Definition plan_world : World := MkWorld (empty_db
    <| workspaces := {[ WORKSPACE := MkWorkspace WORKSPACE TENANT "main" "Main" "active" 900 900 ]} |>
    <| chat_sessions := {[ SESSION := MkChatSession SESSION TENANT WORKSPACE "chat" "active"
                             900 900 None "{}" ]} |>
    <| memory_entries := {[ MESSAGE := MkMemoryEntry MESSAGE TENANT WORKSPACE (Some SESSION)
                              "hi" "message" "user" 0 900 "{}" ]} |>) 0 0.

Definition approval : PlanDecisionRequest :=
  MkPlanDecisionRequest "decision-1" PLAN 1 1 DECIDE_APPROVE None.

Definition create : request :=
  PlanWork plan_ctx planning [CreatePlan PLAN MESSAGE TRIGGER_EXPLICIT sample_draft].
Definition approve : request :=
  PlanWork plan_ctx planning [RecordDecision approval "user"].
Definition start : request := StartApprovedPlanRun ctx "worker-1" PLAN 1 DIGEST.
Definition attempt : request :=
  PlanWork plan_ctx planning [CreateStepAttempt (lease_at 1) PLAN 1 (sample_uuid 0)].
Definition revise : request :=
  PlanWork plan_ctx planning
    [BeginRevisionDecision (MkPlanDecisionRequest "decision-2" PLAN 1 1 DECIDE_REVISE (Some "more"))
       "user";
     AppendVersion PLAN 1 sample_draft 1 (Some "more") ∅;
     FinishRevisionDecision PLAN "decision-2" 2].

Definition plan_after (rqs : list request) : World :=
  exec_all plan_repository sample_co rqs plan_world.

Definition created : World := plan_after [create].
Definition approved : World := plan_after [create; approve].
Definition running : World := plan_after [create; approve; start].
Definition attempting : World := plan_after [create; approve; start; attempt].

(** A database without Plans satisfies the invariant. *)
Lemma no_plans_ok `{Env} d :
  agent_plans d = ∅ → agent_plan_versions d = ∅ → agent_plan_steps d = ∅ →
  agent_plan_step_dependencies d = ∅ → agent_plan_decisions d = ∅ → agent_plan_step_runs d = ∅ →
  plans_ok d.
Proof.
  intros H1 H2 H3 H4 H5 H6. split.
  - split; [split|split|..]; intros *; rewrite ?H1, ?H2, ?H3, ?H4, ?H5, ?H6, lookup_empty; done.
  - split; intros *; rewrite ?H1, ?H5, lookup_empty; done.
  - intros i x j y. by rewrite H6, lookup_empty.
Qed.

Lemma plan_world_ok : plans_ok (w_db plan_world).
Proof. by apply no_plans_ok. Qed.

Example attempting_status :
  srn_status <$> rows (agent_plan_step_runs (w_db attempting)) = [STEP_RUNNING].
Proof. vm_compute. reflexivity. Qed.

Example revised_plan :
  pl_current_version <$> (agent_plans (w_db (plan_after [create; revise])) !! PLAN) = Some 2%Z.
Proof. vm_compute. reflexivity. Qed.

(** ** Its execution *)

(** Leases that last. *)
Definition long_settings : Settings := {|
  set_heartbeat_ms := 20; set_lease_ttl_ms := 100000;
  set_max_checkpoint_payload_bytes := 65536;
  set_max_concurrent_runs_per_tenant := 2;
  set_max_steps := 20; set_max_step_attempts := 3; set_max_tool_rounds := 10 |}.
Definition long_co : WorkflowCoordinator := own_coordinator long_settings.

(** The run of the approved Plan, and its lease. *)
Definition run_world : World :=
  exec_all plan_repository long_co [create; approve; start] plan_world.
Definition run_lease : RunLease :=
  match agent_runs (w_db run_world) !! RUN with
  | Some r => MkRunLease ctx (default "" (run_lease_owner r)) (run_fencing_token r)
                (run_version r) (default 0%Z (run_lease_expires_at r))
  | None => MkRunLease ctx "" 0 0 0
  end.
Definition run_state : ExecState := MkExecState run_world run_lease [].

(** The draft that the model answers with. *)
Definition step_json (s : PlanDraftStep) : json :=
  JObj [("logical_step_key", JStr (logical_step_key s)); ("title", JStr (title s));
        ("description", JStr (description s)); ("expected_outcome", JStr (expected_outcome s));
        ("depends_on", JArr (map JStr (depends_on s))); ("max_attempts", JInt (max_attempts s))].
Definition draft_json (d : PlanDraft) : json :=
  JObj [("objective", JStr (pd_objective d)); ("constraints", JArr (map JStr (pd_constraints d)));
        ("generation_reason", JStr (pd_generation_reason d));
        ("steps", JArr (map step_json (pd_steps d)))].
Definition sample_generator : option PlanGenerator.router * error_reporter * string * string :=
  (Some (λ _ _ _, LLMResponse (Some [("submit_plan", draft_json sample_draft)])),
   (λ _, []), "m", "m").

(** An agent that fails at the steps of one key. *)
Definition sample_runner (bad : string) (retryable : bool) : PlanStepRunner := {|
  pru_schemas := JArr []; pru_active_skills := ["b"; "a"]; pru_default_model := "m";
  pru_completion _ _ := Ok "  all done  ";
  pru_run_plan_step rq _ := mret (inl (MkPlanStepCompletion
    (if String.eqb (pst_logical_step_key (xrq_step rq)) bad then "failed" else "succeeded")
    "did it" [] retryable)) |}.

Definition executed (bad : string) (x : ExecState)
    : result exn (option PlanExecutionOutcome) * ExecState :=
  execute_with_final_summary planning long_settings (JObj []) (Some (Some sample_generator))
    true 20 ctx (sample_runner bad false) x.

(** All steps succeed. *)
Definition completed : ExecState := (executed "none" run_state).2.

(** The second step fails for good: the Plan is revised, and the user approves. *)
Definition replanned : ExecState := (executed "report" run_state).2.
Definition second_approval : PlanDecisionRequest :=
  MkPlanDecisionRequest "decision-9" PLAN 2 3 DECIDE_APPROVE None.
Definition reapproved : result exn PlanDecisionResult * World :=
  decide_plan planning long_co (Some sample_generator) second_approval TENANT "worker-2"
    (xs_world replanned).
Definition state_after (r : result exn PlanDecisionResult) (w : World) : ExecState :=
  match r with
  | Ok r => MkExecState w (default run_lease (pdx_lease r)) []
  | Err _ => MkExecState w run_lease []
  end.
Definition second_state : ExecState := state_after reapproved.1 reapproved.2.

Definition state_of (r : result exn (option PlanExecutionOutcome)) : option ExecutionState :=
  match r with Ok (Some o) => Some (peo_state o) | _ => None end.
Definition attempts_of (x : ExecState) : list PlanStepRunStatus :=
  srn_status <$> rows (agent_plan_step_runs (w_db (xs_world x))).

Example completed_state :
  state_of (executed "none" run_state).1 = Some OUTCOME_COMPLETED.
Proof. vm_compute. reflexivity. Qed.

Example replanned_state :
  state_of (executed "report" run_state).1 = Some OUTCOME_AWAITING_USER.
Proof. vm_compute. reflexivity. Qed.

(** The step that rests on a reused result cannot be recorded. *)
Example second_execution :
  let r := executed "none" second_state in
  r.1 = Err KeyError ∧ bool_decide (STEP_RUNNING ∈ attempts_of r.2) = true.
Proof. split; vm_compute; reflexivity. Qed.
