(* ===== verification/ToolScenario.v ===== *)
(** * Concrete tools and a concrete recovery worker

    Tools that read, fail and are slow, called in the run of the scenario; and the run whose
    call was interrupted, long after its lease has expired, with the runtime that recovers
    it: the tool works now, and the agent completes. *)

From S2P Require Import Prelude Records Errors Json Regex Redaction Tenancy.
From S2P Require Import WorkflowModels Storage Checkpoint Events PlanRecords PlanReading.
From S2P Require Import WorkflowRepository PlanDecisions MemoryRepository PlanGenerator.
From S2P Require Import WorkflowCoordinator PlanService Recovery Continuation Tools.
From S2P Require Import Scheduler PlanExecution PlanLoop RecoveryWorker WorkflowSystem.
From S2P Require Import Scenario PlanScenario.
From Stdlib Require Import Ascii.
From stdpp Require Import base gmap strings list.

(** ** Tools *)

(** Paths without links and dots: their components are what stands between the slashes. *)
Fixpoint path_components (word : string) (p : string) : list string :=
  match p with
  | EmptyString => if String.eqb word "" then [] else [word]
  | String c p =>
    if Ascii.eqb c "/"%char
    then (if String.eqb word "" then [] else [word]) ++ path_components "" p
    else path_components (word +:+ ch c) p
  end.

Definition plain_path (p : string) : list string := path_components "" p.

(** A tool that ignores its input. *)
Definition sample_tool (name : string) (s : RecoveryStrategy)
    (work : TPM ToolExecutionResult) : ToolBuilder := {|
  tb_name := name; tb_tool_kind := "native"; tb_recovery_strategy := Some s;
  tb_idempotency_key_field := None; tb_read_only := true;
  tb_workspace_root := Some "/workspace"; tb_timeout_seconds := None;
  tb_validate := λ raw, Ok raw; tb_key := λ _ _, None;
  tb_build := λ _, Ok (λ _ _, work); tb_approval_description := λ _, "a call" |}.

Definition done : ToolExecutionResult := tool_result TOOL_SUCCESS "done".

Definition reading : ToolBuilder := sample_tool "read_file" READ_ONLY_REPLAY (mret done).
Definition failing : ToolBuilder :=
  sample_tool "broken" MANUAL_UNCERTAIN (throw (RuntimeError "broken")).

(** The heartbeat of the run comes while the tool works. *)
Definition slow : ToolBuilder :=
  sample_tool "slow" READ_ONLY_REPLAY
    (on_tools (on_exec (refresh (heartbeat long_co))) ;; mret done).

Definition tool_world : World :=
  exec_all no_plan long_co [StartRun ctx "worker-1"] plan_world.
Definition tool_lease : RunLease :=
  MkRunLease ctx "worker-1" 1 1
    (default 0%Z (agent_runs (w_db tool_world) !! RUN ≫= run_lease_expires_at)).
Definition tool_state : ToolState := MkToolState (MkExecState tool_world tool_lease []) [].

Definition called (b : ToolBuilder) (raw : list (string * json)) (s : ToolState)
    : result exn ToolExecutionResult * ToolState :=
  run (λ _, false) plain_path (λ x, x) (λ _, APPROVAL) long_settings ["shell"] 30
    (λ _, false) true true b raw (Some ctx) (Some "call-1") true s.

Definition execution_statuses (s : ToolState) : list ExecutionStatus :=
  map exe_execution_status (rows (tool_executions (w_db (xs_world (ts_exec s))))).

(** The call of the slow tool, after its lease was refreshed. *)
Definition interrupted : ToolState := (called slow [] tool_state).2.

(** ** The recovery worker *)

Definition later (s : ToolState) : ToolState :=
  let w := xs_world (ts_exec s) in
  s <| ts_exec := (ts_exec s)
         <| xs_world := w <| w_ticks := (w_ticks w + Z.to_nat 200000)%nat |> |> |>.

Definition idle_run : ToolState := later interrupted.

Definition completing (c : TenantContext) (r : option PersistedToolResult) (i : option string)
    : TM (option ContinuationOutcome) :=
  mret (Some (MkContinuationOutcome CONTINUATION_COMPLETED None "")).

Definition sample_runtime : Runtime := {|
  rt_runtime_instance_id := "worker-2";
  rt_registry := {[ "slow" := sample_tool "slow" READ_ONLY_REPLAY (mret done) ]};
  rt_recovery_continuation := true; rt_agent_database := true; rt_plan_execution := None;
  rt_resume_recovery := Some completing |}.

Definition sample_pool (c : TenantContext) : result exn Runtime := Ok sample_runtime.

Definition once (s : ToolState) : result exn unit * ToolState :=
  @run_once sample_env (λ _, false) plain_path (λ x, x) (λ _, APPROVAL) planning long_settings
    (JObj []) None ["shell"] 30 (λ _, false) true (λ _, "") 20 no_plan 5 sample_pool None [] 20 s.

(** What the worker does about an outcome, with so many nested calls. *)
Definition consumed (depth : nat) (outcome : RecoveryOutcome) (s : ToolState)
    : result exn unit * ToolState :=
  @consume_outcome sample_env (λ _, false) plain_path (λ x, x) (λ _, APPROVAL) planning
    long_settings (JObj []) None ["shell"] 30 (λ _, false) true (λ _, "") 20 no_plan depth
    sample_runtime ctx outcome s.

Definition run_statuses (s : ToolState) : list RunStatus :=
  map run_run_status (rows (agent_runs (w_db (xs_world (ts_exec s))))).

Example recovered_run :
  run_statuses idle_run = [RUN_RUNNING] ∧
  execution_statuses (once idle_run).2 = [EXEC_SUCCEEDED] ∧
  run_statuses (once idle_run).2 = [RUN_COMPLETED].
Proof. vm_compute. auto. Qed.
