(* ===== verification/MemoryTheorems.v ===== *)
(** * Theorems about memory

    Saving an entry writes that entry and nothing else, and what was saved is what is
    read; whatever is requested, the message that a Plan was made from is never lost. *)

From S2P Require Import Prelude Records Errors Json Regex Tenancy WorkflowModels Storage.
From S2P Require Import Collections PlanStorage Checkpoint PlanValidation PlanSpec.
From S2P Require Import PlanRecords PlanReading WorkflowRepository PlanRepository.
From S2P Require Import PlanDecisions PlanAttempts MemoryRepository PlanContent.
From S2P Require Import PlanEffects.
From S2P Require Import WorkflowCoordinator WorkflowSpec WorkflowRefinement.
From S2P Require Import PlanRefinement.
From S2P Require Import ExecutionRefinement WorkflowSystem Scenario PlanScenario.
From stdpp Require Import base gmap strings list relations.

(** ** Source messages *)

(** Entries are stored under their identifiers, and every Plan's source message is an
    entry of the Plan's session. *)
Definition sources_ok (d : Db) : Prop :=
  (∀ i m, memory_entries d !! i = Some m → mem_id m = i) ∧
  ∀ i p, agent_plans d !! i = Some p →
    fk_memory d (pl_tenant_id p) (pl_workspace_id p) (pl_session_id p)
      (pl_source_message_id p) = true.

Section Sources.
Context `{envi : Env} (q : Z).

(** Messages are kept, in their scope. *)
Lemma fk_memory_kept d d' t wk s i :
  (∀ m, memory_entries d !! i = Some m →
     ∃ m', memory_entries d' !! i = Some m' ∧ memory_scope m' = memory_scope m) →
  fk_memory d t wk s i = true → fk_memory d' t wk s i = true.
Proof.
  unfold fk_memory. intros Hm Hf. destruct (memory_entries d !! i) as [m|]; [|done].
  destruct (Hm m eq_refl) as (m'&->&Hs). unfold memory_scope in Hs.
  by injection Hs as -> -> ->.
Qed.

Lemma sources_inserted d m :
  sources_ok d → satisfied (memory_entries_constraints d m) →
  sources_ok (d <| memory_entries := <[mem_id m := m]> (memory_entries d) |>).
Proof.
  intros [Hk Hp] Hs. unfold memory_entries_constraints in Hs.
  rewrite satisfied_cons, bool_decide_eq_true in Hs. destruct Hs as [Hn _]. split; simpl.
  - intros i x [[<- <-]|[_ Hx]]%lookup_insert_Some; [done|by apply Hk].
  - intros i p Hi. eapply fk_memory_kept; [|by apply (Hp i)]. intros x Hx. exists x. simpl.
    split; [|done]. rewrite lookup_insert_ne; [done|]. intros E. congruence.
Qed.

Lemma sources_rewritten d m m' :
  sources_ok d → memory_entries d !! mem_id m' = Some m → memory_scope m' = memory_scope m →
  sources_ok (d <| memory_entries := <[mem_id m' := m']> (memory_entries d) |>).
Proof.
  intros [Hk Hp] Hm Hs. split; simpl.
  - intros i x [[<- <-]|[_ Hx]]%lookup_insert_Some; [done|by apply Hk].
  - intros i p Hi. eapply fk_memory_kept; [|by apply (Hp i)]. intros x Hx. simpl.
    destruct (decide (pl_source_message_id p = mem_id m')) as [E|E].
    + rewrite E in *. rewrite lookup_insert_eq. exists m'. split; [done|]. congruence.
    + rewrite lookup_insert_ne by done. by exists x.
Qed.

Lemma sources_forgotten d i m :
  sources_ok d → memory_entries d !! i = Some m → is_source_message d m = false →
  sources_ok (d <| memory_entries := delete i (memory_entries d) |>).
Proof.
  intros [Hk Hp] Hm Hs. split; simpl.
  - intros j x [_ Hx]%lookup_delete_Some. by apply Hk.
  - intros j p Hj. eapply fk_memory_kept; [|by apply (Hp j)]. intros x Hx. simpl.
    exists x. split; [|done]. rewrite lookup_delete_ne; [done|]. intros ->.
    unfold is_source_message in Hs. rewrite exists_row_false in Hs. specialize (Hs _ _ Hj).
    pose proof (Hp j p Hj) as Hf. unfold fk_memory in Hf. rewrite Hx in Hf.
    assert (x = m) as -> by congruence. rewrite !andb_true_iff, !bool_decide_eq_true in Hf.
    destruct Hf as [[Ht Hw] Hse]. rewrite Ht, Hw, Hse, (Hk _ _ Hm) in Hs.
    by rewrite !bool_decide_true in Hs.
Qed.

(** A Plan keeps its scope and its source. *)
Lemma sources_plan d p p' :
  sources_ok d → agent_plans d !! pl_id p = Some p → plan_scope p' = plan_scope p →
  pl_source_message_id p' = pl_source_message_id p →
  sources_ok (d <| agent_plans := <[pl_id p := p']> (agent_plans d) |>).
Proof.
  intros [Hk Hp] Hi Hsc Hsrc. split; [done|]. simpl. intros j x.
  intros [[<- <-]|[_ Hx]]%lookup_insert_Some; [|by apply (Hp j)].
  unfold plan_scope in Hsc. injection Hsc as -> -> -> _. rewrite Hsrc. by apply (Hp _ _ Hi).
Qed.

Lemma sources_same d d' :
  memory_entries d' = memory_entries d → agent_plans d' = agent_plans d →
  sources_ok d → sources_ok d'.
Proof. intros E1 E2. unfold sources_ok, fk_memory. by rewrite E1, E2. Qed.

Lemma plan_effect_sources d d' : plan_effect d d' → sources_ok d → sources_ok d'.
Proof.
  intros He Hs. destruct He as [d p c Hc _ _|d p c now Hi _ _|d p x Hd _| | | | | |];
    try (by eapply sources_same); [| | |by apply sources_inserted].
  - apply (sources_same (d <| agent_plans := <[pl_id p := p]> (agent_plans d) |>)); [done..|].
    destruct Hs as [Hk Hp]. split; [done|]. simpl. intros j x.
    intros [[<- <-]|[_ Hx]]%lookup_insert_Some; [|by apply (Hp j)].
    unfold satisfied in Hc. rewrite Forall_forall in Hc.
    apply (Hc (fk_memory d (pl_tenant_id p) (pl_workspace_id p) (pl_session_id p)
               (pl_source_message_id p), ForeignKeyFailed
               "fk_agent_plans_source_message_memory_entries")).
    unfold agent_plans_constraints, agent_plans_checks. set_solver.
  - by apply (sources_same (d <| agent_plans := <[pl_id p := revised now p]> (agent_plans d) |>)),
      sources_plan.
  - apply (sources_same (d <| agent_plans := <[pl_id p := decided x p]> (agent_plans d) |>));
      [done..|]. apply sources_plan; [done|apply Hd|done..].
Qed.

Lemma effects_sources d d' : effects q d d' → sources_ok d → sources_ok d'.
Proof.
  induction 1 as [|d1 d2 d3 He _ IH]; [done|]. intros Hs. apply IH. clear IH.
  destruct He; try (by eapply sources_same);
    eauto using sources_inserted, sources_rewritten, sources_forgotten, plan_effect_sources.
Qed.
End Sources.

(** ** Saving *)

Section Saving.
Context `{envi : Env} (c : TenantContext).

(** The entry [e] stands in the table, and nothing else has changed; a row it replaced
    had its tenant, workspace and session. *)
Definition entry_written (e : MemoryEntry) (now : Z) (d d' : Db) : Prop :=
  d' = d <| memory_entries := <[me_id e := entry_row c e now]> (memory_entries d) |> ∧
  ∀ m, memory_entries d !! me_id e = Some m → memory_scope m = memory_scope (entry_row c e now).

Lemma full_scope_update_Ok e w n w' :
  full_scope_update c e w = (Ok n, w') →
  (n = 0%Z ∧ w_db w' = w_db w) ∨ (n = 1%Z ∧ ∃ now, entry_written e now (w_db w) (w_db w')).
Proof.
  unfold full_scope_update. intros (now&w1&H1&H)%bind_Ok. injection H1 as <- <-.
  apply bind_Ok in H as (d&w1&H1&H). injection H1 as <- <-. cbn [w_db setter] in H.
  destruct (exact_row c (w_db w) (me_id e) (me_session_id e)) as [m|] eqn:E.
  - right. injection H as <- <-. split; [done|]. eexists. split; [done|].
    apply exact_row_Some in E as (Hm & Ht & Hw & Hs). intros x Hx.
    assert (x = m) as -> by congruence. unfold memory_scope. simpl. by rewrite Ht, Hw, Hs.
  - left. by injection H as <- <-.
Qed.

Lemma insert_entry_Ok e w w' :
  insert_entry c e w = (Ok tt, w') → ∃ now, entry_written e now (w_db w) (w_db w').
Proof.
  unfold insert_entry, insert_memory_entries. intros (now&w1&H1&H)%bind_Ok.
  injection H1 as <- <-. apply bind_Ok in H as (d&w1&H1&H). injection H1 as <- <-.
  cbn [w_db setter] in H. apply bind_Ok in H as ([]&w1&H1&H). injection H as <-.
  match type of H1 with check_constraints ?l ?w = _ =>
    destruct (check_constraints_cases l w) as [[Hc Hs]|(v&Hc&_)]; rewrite Hc in H1; [|done] end.
  injection H1 as <-. eexists. split; [done|]. intros m Hm.
  unfold memory_entries_constraints in Hs.
  rewrite satisfied_cons, bool_decide_eq_true in Hs. destruct Hs as [Hn _].
  simpl in Hn. congruence.
Qed.

(** Whatever way [save] takes, it has written the prepared entry. *)
Lemma save_Ok e s w w' :
  save c e w = (Ok s, w') →
  ∃ p now, prepare_entry c e = Ok p ∧ entry_written p now (w_db w) (w_db w') ∧
    get_row c (me_id p) (me_session_id p) w' = (Ok (Some s), w').
Proof.
  unfold save. intros (p&Hp&H)%lift_bind_Ok. apply bind_Ok in H as (n&w1&H1&H).
  apply bind_Ok in H as ([]&w2&H2&H). apply read_bind_Ok in H as ([x|]&H3&H);
    [|done|apply read_only_get_row]. injection H as -> ->.
  assert (∃ now, entry_written p now (w_db w) (w_db w')) as (now&Hw);
    [|by exists p, now].
  destruct (full_scope_update_Ok _ _ _ _ H1) as [[-> E]|(-> & now & Hw)];
    [|injection H2 as <-; by exists now].
  simpl in H2. rewrite <- E. unfold catch, savepoint, any_exception in H2.
  destruct (insert_entry c p w1) as [[[]|x] w3] eqn:Ei.
  - injection H2 as <-. by eapply insert_entry_Ok.
  - destruct (is_integrity_error x); [|done]. apply bind_Ok in H2 as (n&w4&H2&H4).
    apply full_scope_update_Ok in H2 as [[-> _]|(-> & now & Hw)]; [done|].
    injection H4 as <-. by exists now.
Qed.

(** What is stored is what the class reads. *)
Lemma written_reads_back e now d d' s w :
  entry_written e now d d' → w_db w = d' →
  get_row c (me_id e) (me_session_id e) w = (Ok (Some s), w) →
  from_row (entry_row c e now) = Ok s.
Proof.
  intros [-> _] Hw. unfold get_row. intros H. apply bind_Ok in H as (d1&w1&H1&H).
  injection H1 as <- <-. rewrite Hw in H. unfold exact_row in H. simpl in H.
  rewrite lookup_insert_eq in H. simpl in H. unfold in_workspace in H. simpl in H.
  rewrite !bool_decide_true in H by done. simpl in H.
  apply lift_bind_Ok in H as (x&Hx&H). injection H as ->. done.
Qed.
End Saving.

(** ** The claims *)

Section Claims.
Context `{envi : Env}.

(** The message that a Plan was made from is never lost: if every Plan's source
    message is an entry of the Plan's own session, then it is so after any requests,
    among them [save] and [forget] of any entries by anybody. *)
Theorem plan_sources_are_kept plans co rqs w :
  PlanReads plans → sources_ok (w_db w) → sources_ok (w_db (exec_all plans co rqs w)).
Proof. intros Hp. eapply effects_sources. by apply exec_all_steps. Qed.

(** Saving an entry, along any of its three ways (rewrite, insert, rewrite after an
    insert that lost a race), writes exactly the row of the prepared entry and nothing
    else, replaces no row of another tenant, workspace or session, returns what is
    stored, and what is stored is what [get] then returns; a chat message is stored in
    the context's session. *)
Theorem saved_entry_reads_back c e s w w' :
  save c e w = (Ok s, w') →
  ∃ p now, prepare_entry c e = Ok p ∧ entry_written c p now (w_db w) (w_db w') ∧
    from_row (entry_row c p now) = Ok s ∧
    memory_get c (me_id e) (me_session_id p) w' = (Ok (Some s), w') ∧
    (me_type e = "chat_message" → me_session_id p = tc_session_id c).
Proof.
  intros (p&now&Hp&Hw&Hg)%save_Ok.
  assert (me_id p = me_id e ∧ (me_type e = "chat_message" → me_session_id p = tc_session_id c))
    as [Hi Hc].
  { unfold prepare_entry in Hp. case_bool_decide as Hc.
    - destruct (tc_session_id c) as [x|]; [|done].
      apply ensure_bind_Ok in Hp as [Hs Hp]. injection Hp as <-. simpl.
      apply bool_decide_eq_true in Hs. by rewrite Hs.
    - destruct (me_session_id e); [apply ensure_bind_Ok in Hp as [_ Hp]|]; by injection Hp as ->. }
  exists p, now. split; [done|]. split; [done|].
  split; [by eapply written_reads_back|]. unfold memory_get. by rewrite <- Hi.
Qed.
End Claims.

(** ** A message, its Plan and attempts to remove it *)

Definition note : MemoryEntry := {|
  me_id := APPROVAL; me_content := "remember"; me_type := "chat_message";
  me_session_id := None; me_role := "user"; me_turn_index := 1; me_created_at := 0;
  me_metadata := [] |}.

Lemma plan_world_sources : sources_ok (w_db plan_world).
Proof.
  unfold plan_world, empty_db. split; simpl.
  - intros i m [<- <-]%lookup_singleton_Some. done.
  - intros i p. by rewrite lookup_empty.
Qed.

Lemma plan_sources_are_kept_witness :
  sources_ok (w_db plan_world) ∧
  sources_ok (w_db (plan_after [create; ForgetMemory plan_ctx MESSAGE; SaveMemory plan_ctx note])).
Proof.
  split; [exact plan_world_sources|].
  exact (plan_sources_are_kept plan_repository sample_co
    [create; ForgetMemory plan_ctx MESSAGE; SaveMemory plan_ctx note] plan_world
    plan_repository_reads plan_world_sources).
Defined.

Lemma saved_entry_reads_back_witness :
  ∃ s, (save plan_ctx note plan_world).1 = Ok s ∧
  ∃ p now, prepare_entry plan_ctx note = Ok p ∧ from_row (entry_row plan_ctx p now) = Ok s ∧
    me_session_id p = Some SESSION.
Proof.
  assert (∃ s, (save plan_ctx note plan_world).1 = Ok s) as (s&Hs)
    by (eexists; vm_compute; reflexivity).
  exists s. split; [exact Hs|].
  destruct (saved_entry_reads_back plan_ctx note s plan_world _ (ran _ _ _ Hs))
    as (p&now&Hp&_&Hr&_&Hc).
  exists p, now. split; [exact Hp|]. split; [exact Hr|]. by apply Hc.
Defined.
