(* ===== verification/WorkflowOperations.v ===== *)
(** * What each operation does, branch by branch

    Exact outcomes of the coordinator's operations: the value or the exception, and the
    database left behind. *)

From S2P Require Import Prelude Records Errors Json Tenancy WorkflowModels Storage.
From S2P Require Import Checkpoint.
From S2P Require Import PlanRecords WorkflowRepository WorkflowCoordinator Recovery.
From S2P Require Import WorkflowSpec WorkflowRefinement RecoveryRefinement.
From S2P Require Import WorkflowHistory WorkflowInvariants.
From S2P Require Import PlanReading PlanDecisions PlanService Continuation PlanExecution.
From S2P Require Import PlanLoop PlanSystem WorkflowSystem Scenario.
From stdpp Require Import base gmap strings list sets relations.

(** What a caller sees of a computation: its value or exception, and the database. *)
Definition outcome {A} (out : result exn A * World) : result exn A * Db :=
  (out.1, w_db out.2).

(** A row that [run_from_row] accepts: complete Plan binding, non-empty identifiers. *)
Definition readable (r : agent_run) : Prop :=
  plan_binding_complete (run_plan_id r) (run_initial_plan_version r)
    (run_active_plan_version r) = true ∧
  valid_context (rr_context (run_record r)).

Lemma run_from_row_readable r w :
  readable r → run_from_row r w = (Ok (run_record r), w).
Proof.
  intros [Hb Hv]. unfold run_from_row. rewrite Hb.
  assert (Hp : post_init (rr_context (run_record r)) = Ok (rr_context (run_record r)))
    by (by apply post_init_Ok).
  unfold mbind, stM_bind, lift. cbn [require mret stM_ret]. by rewrite Hp.
Qed.

Lemma get_run_readable c w r :
  context_predicate (w_db w) c = Some r → readable r →
  get_run c w = (Ok (Some (run_record r)), w).
Proof.
  intros Hc Hr. unfold get_run, gets, mbind, stM_bind. rewrite Hc.
  by rewrite run_from_row_readable.
Qed.

(** The row a context finds after that row was updated. *)
Lemma context_predicate_update d c r r' :
  context_predicate d c = Some r → run_scope r' = run_scope r →
  context_predicate (d <| agent_runs := <[run_run_id r := r']> (agent_runs d) |>) c = Some r'.
Proof.
  intros Hc Hs. pose proof (context_predicate_Some _ _ _ Hc) as [_ Hin].
  assert (Hid : tc_run_id c = Some (run_run_id r)).
  { unfold run_scope in Hin. by apply in_scope_true in Hin as (_ & _ & _ & ->). }
  unfold context_predicate. rewrite Hid. cbn [mbind option_bind agent_runs setter].
  rewrite lookup_insert_eq. cbn [mbind option_bind]. by rewrite Hs, Hin.
Qed.

Lemma require_lease_Ok c o f v w r e :
  context_predicate (w_db w) c = Some r → run_lease_owner r = Some o →
  run_fencing_token r = f → run_version r = v → run_lease_expires_at r = Some e →
  require_lease c o f v w = (Ok (MkRunLease c o f v e), w).
Proof.
  intros Hc Ho Hf Hv He. unfold require_lease, gets, mbind, stM_bind. rewrite Hc.
  rewrite !bool_decide_true by done. simpl. unfold lease_of_row.
  rewrite Ho, He. by subst.
Qed.

(** The UPDATE, when the row is there. *)
Lemma update_agent_runs_row `{Env} c where_ set_ w r :
  context_predicate (w_db w) c = Some r →
  update_agent_runs c where_ set_ w =
  let now := env_clock (w_ticks w) in
  let w' := w <| w_ticks := S (w_ticks w) |> in
  if where_ now r
  then (Ok 1%Z, w' <| w_db := (w_db w) <| agent_runs :=
          <[run_run_id r := set_ now r]> (agent_runs (w_db w)) |> |>)
  else (Ok 0%Z, w').
Proof.
  intros Hc. unfold update_agent_runs, mbind, stM_bind, db_now_ms, gets.
  cbn [w_db w_ticks setter]. rewrite Hc. cbv zeta. by destruct (where_ _ r).
Qed.

Section Leases.
Context `{Env} (co : WorkflowCoordinator).
Local Notation ttl := (set_lease_ttl_ms (co_settings co)).

Definition with_run (d : Db) (r r' : agent_run) : Db :=
  d <| agent_runs := <[run_run_id r := r']> (agent_runs d) |>.

Lemma take_over_run_row c i w r :
  context_predicate (w_db w) c = Some r → readable r →
  let now := env_clock (w_ticks w) in
  let w' := w <| w_ticks := S (w_ticks w) |> in
  take_over_run (repository co) c i w =
  if run_active r then
    match run_lease_expires_at r with
    | None => (Ok None, w)
    | Some e =>
      if Z.leb e now then
        (Ok (Some (MkRunLease c i (run_fencing_token r + 1) (run_version r + 1) (now + ttl))),
         w' <| w_db := with_run (w_db w) r (claim_columns (repository co) i now r) |>)
      else (Ok None, w')
    end
  else (Err (InvalidTransitionError
          ("cannot acquire terminal run: " +:+ enum_value (run_run_status r))), w).
Proof.
  intros Hc Hr now w'. unfold take_over_run, mbind, stM_bind, lock_run.
  cbn [mret stM_ret]. rewrite (get_run_readable _ _ _ Hc Hr).
  cbn [rr_status run_record]. change (bool_decide (run_run_status r ∈ TAKEOVER_ELIGIBLE_STATUSES))
    with (run_active r).
  destruct (run_active r); [|done]. cbn [require mret stM_ret rr_lease_expires_at run_record].
  destruct (run_lease_expires_at r) as [e|] eqn:He; [|done].
  rewrite (update_agent_runs_row _ _ _ _ _ Hc). cbv zeta. unfold expired_by. rewrite He.
  fold now w'. destruct (Z.leb e now) eqn:El; [|done].
  unfold claimed. change (bool_decide (1%Z ≠ 1%Z)) with false. cbv iota.
  unfold mbind, stM_bind.
  by rewrite (require_lease_Ok _ _ _ _ _ (claim_columns (repository co) i now r) (now + ttl))
    by (done || by apply context_predicate_update).
Qed.

Lemma current_lease_row l now r :
  current_lease_predicate l now r = true →
  run_lease_owner r = Some (rl_lease_owner l) ∧
  run_fencing_token r = rl_fencing_token l ∧ run_version r = rl_version l ∧
  expires_after (run_lease_expires_at r) now = true.
Proof.
  unfold current_lease_predicate. rewrite !andb_true_iff, !bool_decide_eq_true. naive_solver.
Qed.

(** [renewed] after an UPDATE that changed the row and kept owner and token. *)
Lemma renewed_Ok l w r r' now :
  context_predicate (w_db w) (rl_context l) = Some r →
  current_lease_predicate l now r = true →
  run_scope r' = run_scope r → run_lease_owner r' = run_lease_owner r →
  run_fencing_token r' = run_fencing_token r → run_version r' = (run_version r + 1)%Z →
  run_lease_expires_at r' = Some (now + ttl)%Z →
  ∀ w', w_db w' = with_run (w_db w) r r' →
  renewed l 1 w' = (Ok (Some (MkRunLease (rl_context l) (rl_lease_owner l)
                      (rl_fencing_token l) (rl_version l + 1) (now + ttl))), w').
Proof.
  intros Hc (Ho & Hf & Hv & _)%current_lease_row Hs Ho' Hf' Hv' He w' Hw.
  unfold renewed. change (bool_decide (1%Z ≠ 1%Z)) with false. cbv iota.
  unfold mbind, stM_bind.
  rewrite (require_lease_Ok _ _ _ _ _ r' (now + ttl)); try congruence; [done|].
  rewrite Hw. by apply context_predicate_update.
Qed.

Lemma refresh_lease_row l w :
  let now := env_clock (w_ticks w) in
  let w' := w <| w_ticks := S (w_ticks w) |> in
  refresh_lease (repository co) l w =
  match context_predicate (w_db w) (rl_context l) with
  | Some r =>
    if current_lease_predicate l now r then
      (Ok (Some (MkRunLease (rl_context l) (rl_lease_owner l) (rl_fencing_token l)
                   (rl_version l + 1) (now + ttl))),
       w' <| w_db := with_run (w_db w) r (refresh_columns (repository co) now r) |>)
    else (Ok None, w')
  | None => (Ok None, w')
  end.
Proof.
  intros now w'. unfold refresh_lease, mbind, stM_bind.
  destruct (context_predicate (w_db w) (rl_context l)) as [r|] eqn:Hc.
  - rewrite (update_agent_runs_row _ _ _ _ _ Hc). cbv zeta. fold now w'.
    destruct (current_lease_predicate l now r) eqn:Hl; [|done].
    by rewrite (renewed_Ok l w r (refresh_columns (repository co) now r) now).
  - unfold update_agent_runs, mbind, stM_bind, db_now_ms, gets.
    cbn [w_db w_ticks setter]. rewrite Hc. done.
Qed.

Lemma transition_run_row l t w r :
  context_predicate (w_db w) (rl_context l) = Some r → readable r →
  current_lease_predicate l (env_clock (w_ticks w)) r = true →
  t ∈ LEGAL_RUN_TRANSITIONS (run_run_status r) →
  let now := env_clock (w_ticks w) in
  transition_run (repository co) l t w =
  (Ok (Some (MkRunLease (rl_context l) (rl_lease_owner l) (rl_fencing_token l)
               (rl_version l + 1) (now + ttl))),
   w <| w_ticks := S (w_ticks w) |>
     <| w_db := with_run (w_db w) r (transition_columns (repository co) t now r) |>).
Proof.
  intros Hc Hr Hl Ht now. unfold transition_run, mbind, stM_bind, lock_run.
  cbn [mret stM_ret]. rewrite (get_run_readable _ _ _ Hc Hr).
  destruct (current_lease_row _ _ _ Hl) as (Ho & Hf & Hv & _).
  unfold validate_run_transition, mbind, stM_bind.
  cbn [rr_lease_owner rr_fencing_token rr_version rr_status run_record].
  rewrite !bool_decide_true by done. cbn [andb require mret stM_ret].
  rewrite (update_agent_runs_row _ _ _ _ _ Hc). cbv zeta. rewrite Hl. fold now.
  rewrite (renewed_Ok l w r (transition_columns (repository co) t now r) now); try done;
    unfold transition_columns; by destruct (run_terminal t).
Qed.
End Leases.

(** ** Approvals *)

Section Approvals.
Context `{Env} (co : WorkflowCoordinator).

Definition with_approval (d : Db) (a a' : approval_request) : Db :=
  d <| approval_requests := <[apr_approval_id a := a']> (approval_requests d) |>.

Definition resolve_row (s : ApprovalStatus) (now : Z) (a : approval_request)
    : approval_request :=
  a <| apr_approval_status := s |> <| apr_resolved_at := Some now |>
    <| apr_version := (apr_version a + 1)%Z |>.

Lemma approval_scope_update d c i a a' :
  approval_scope_predicate d c i = Some a → approval_scope a' = approval_scope a →
  apr_approval_id a' = apr_approval_id a →
  approval_scope_predicate (with_approval d a a') c i = Some a'.
Proof.
  intros Ha Hs Hi. pose proof (approval_scope_Some _ _ _ _ Ha) as (_ & Hid & Hin).
  unfold approval_scope_predicate, with_approval.
  cbn [approval_requests setter]. rewrite <-Hid, lookup_insert_eq.
  cbn [mbind option_bind]. by rewrite Hs, Hin, Hi, bool_decide_true.
Qed.

Lemma update_approval_row c i where_ set_ w a :
  approval_scope_predicate (w_db w) c i = Some a →
  update_approval_requests c i where_ set_ w =
  let now := env_clock (w_ticks w) in
  let w' := w <| w_ticks := S (w_ticks w) |> in
  if where_ now a
  then (Ok 1%Z, w' <| w_db := with_approval (w_db w) a (set_ now a) |>)
  else (Ok 0%Z, w').
Proof.
  intros Ha. unfold update_approval_requests, mbind, stM_bind, db_now_ms, gets.
  cbn [w_db w_ticks setter]. rewrite Ha. cbv zeta. by destruct (where_ _ a).
Qed.

(** The branches of a decision on an approval that exists, at the readings of its two
    UPDATE statements. *)
Definition decision_outcome (c : TenantContext) (d : Db) (a : approval_request)
    (approved : bool) (version now1 now2 : Z) : result exn ApprovalRecord * Db :=
  let target := if approved then APPROVAL_APPROVED else APPROVAL_REJECTED in
  if bool_decide (apr_approval_status a = APPROVAL_AWAITING_USER) then
    if bool_decide (apr_version a = version) then
      if Z.ltb now1 (apr_expires_at a) then
        (Ok (approval_from_row c (resolve_row target now1 a)),
         with_approval d a (resolve_row target now1 a))
      else if Z.leb (apr_expires_at a) now2 then
        (Err (InvalidTransitionError "approval expired"),
         with_approval d a (resolve_row APPROVAL_EXPIRED now2 a))
      else (Err (InvalidTransitionError "approval could not be resolved"), d)
    else (Err (VersionConflictError "approval version conflict"), d)
  else (Err (VersionConflictError "approval already resolved"), d).

Lemma resolve_approval_row c i (b : bool) v w a :
  approval_scope_predicate (w_db w) c i = Some a →
  let now := env_clock (w_ticks w) in
  let w' := w <| w_ticks := S (w_ticks w) |> in
  let a' := resolve_row (if b then APPROVAL_APPROVED else APPROVAL_REJECTED) now a in
  resolve_approval c i b v w =
  if bool_decide (apr_approval_status a = APPROVAL_AWAITING_USER) &&
     bool_decide (apr_version a = v) && Z.ltb now (apr_expires_at a)
  then (Ok (Some (approval_from_row c a')), w' <| w_db := with_approval (w_db w) a a' |>)
  else (Ok None, w').
Proof.
  intros Ha now w' a'. unfold resolve_approval, mbind, stM_bind.
  rewrite (update_approval_row _ _ _ _ _ _ Ha). cbv zeta. fold now w'.
  match goal with |- context [if ?b then _ else _] => destruct b end; [|done].
  change (bool_decide (1%Z ≠ 1%Z)) with false. cbv iota.
  unfold get_approval, gets, mbind, stM_bind. cbn [w_db setter].
  rewrite (approval_scope_update _ _ _ _ a') by (done || by destruct b).
  by destruct b.
Qed.

Lemma mark_approval_expired_row c i v w a :
  approval_scope_predicate (w_db w) c i = Some a →
  let now := env_clock (w_ticks w) in
  let w' := w <| w_ticks := S (w_ticks w) |> in
  mark_approval_expired c i v w =
  if bool_decide (apr_approval_status a = APPROVAL_AWAITING_USER) &&
     bool_decide (apr_version a = v) && Z.leb (apr_expires_at a) now
  then (Ok true, w' <| w_db := with_approval (w_db w) a (resolve_row APPROVAL_EXPIRED now a) |>)
  else (Ok false, w').
Proof.
  intros Ha now w'. unfold mark_approval_expired, mbind, stM_bind.
  rewrite (update_approval_row _ _ _ _ _ _ Ha). cbv zeta. fold now w'.
  by match goal with |- context [if ?b then _ else _] => destruct b end.
Qed.

Lemma decide_approval_row c i b v w a :
  co_connection co = false →
  approval_scope_predicate (w_db w) c i = Some a →
  outcome (decide_approval co c i b v w) =
  decision_outcome c (w_db w) a b v (env_clock (w_ticks w)) (env_clock (S (w_ticks w))).
Proof.
  intros Hco Ha. unfold outcome, decide_approval, decide_approval_body, write_connection, write_transaction,
    transaction, decision_outcome. rewrite Hco.
  unfold mbind, stM_bind. rewrite (resolve_approval_row _ _ _ _ _ _ Ha). cbv zeta.
  case_bool_decide as Hs; cbn [andb]; [case_bool_decide as Hv; cbn [andb];
    [destruct (Z.ltb _ _) eqn:Hx; [by destruct b|]|]|].
  - erewrite mark_approval_expired_row by (cbn [w_db setter]; exact Ha). cbv zeta.
    cbn [w_ticks setter]. rewrite !bool_decide_true by done. cbn [andb].
    destruct (Z.leb _ _); [done|].
    unfold get_approval, gets, mbind, stM_bind. cbn [w_db setter]. rewrite Ha.
    cbn.
    rewrite Hs, Hv, !bool_decide_true by done. done.
  - erewrite mark_approval_expired_row by (cbn [w_db setter]; exact Ha). cbv zeta.
    rewrite bool_decide_true, bool_decide_false by done. cbn [andb].
    unfold get_approval, gets, mbind, stM_bind. cbn [w_db setter]. rewrite Ha.
    cbn.
    rewrite Hs, bool_decide_true, bool_decide_false by done. done.
  - erewrite mark_approval_expired_row by (cbn [w_db setter]; exact Ha). cbv zeta.
    rewrite bool_decide_false by done. cbn [andb].
    unfold get_approval, gets, mbind, stM_bind. cbn [w_db setter]. rewrite Ha.
    cbn.
    rewrite bool_decide_false by done. done.
Qed.
End Approvals.

(** ** Atomicity *)

(** When [m] raises, the database is what it was. *)
Definition atomic {A} (m : M A) : Prop :=
  ∀ w e w', m w = (Err e, w') → w_db w' = w_db w.

(** [m] never writes. *)
Definition db_only_read {A} (m : M A) : Prop := ∀ w, w_db (m w).2 = w_db w.

Lemma atomic_write_connection {A} co (m : M A) :
  co_connection co = false → atomic (write_connection co m).
Proof.
  intros Hco w e w'. unfold write_connection, write_transaction, transaction. rewrite Hco.
  destruct (m w) as [[a|e'] w1]; [done|]. by intros [= _ <-].
Qed.

Lemma atomic_read_bind {A B} (m : M A) (f : A → M B) :
  db_only_read m → (∀ a, atomic (f a)) → atomic (m ≫= f).
Proof.
  intros Hm Hf w e w'. unfold mbind, stM_bind. specialize (Hm w).
  destruct (m w) as [[a|e'] w1]; simpl in *.
  - intros Hw. rewrite <-Hm. by eapply Hf.
  - by intros [= _ <-].
Qed.

(** A rest that cannot raise. *)
Lemma atomic_bind_total {A B} (m : M A) (f : A → B) : atomic m → atomic (m ≫= λ a, mret (f a)).
Proof.
  intros Hm w e w'. unfold mbind, stM_bind. specialize (Hm w).
  destruct (m w) as [[a|e'] w1]; [done|]. intros [= <- <-]. by eapply Hm.
Qed.

Lemma read_only_db {A} (m : M A) : read_only m → db_only_read m.
Proof. intros Hm w. by rewrite Hm. Qed.

Lemma db_only_read_uuid4 `{Env} : db_only_read uuid4.
Proof. done. Qed.

Section Atomicity.
Context `{Env} (co : WorkflowCoordinator) (Hco : co_connection co = false).

Lemma atomic_checkpoint l ph p o : atomic (checkpoint co l ph p o).
Proof.
  unfold checkpoint. apply atomic_read_bind; [by apply read_only_db|intros [ph' p']].
  apply atomic_read_bind; [by apply read_only_db|intros [ap ex]].
  apply atomic_read_bind; [by apply read_only_db|intros e].
  apply atomic_read_bind; [|intros i].
  { destruct (co_checkpoint_id o) as [[|]|]; apply db_only_read_uuid4 || done. }
  apply (atomic_bind_total _ (λ seq, MkCheckpointWrite i seq ph' _ _ _)).
  by apply atomic_write_connection.
Qed.

Lemma atomic_recover plans c i : PlanReads plans → atomic (recover (co_settings co) c i).
Proof.
  intros Hp. unfold recover. apply atomic_read_bind; [apply read_only_db, read_only_examine|].
  intros [out|[run out]]; [done|]. case_match; [done|].
  apply (atomic_bind_total _ (λ l, _)). intros w e w'. apply acquire_recovery_lease_Err.
Qed.

Lemma atomic_unit_of_work {A} (body : PM A) : atomic (unit_of_work body).
Proof.
  intros w e w'. unfold unit_of_work, write_transaction, transaction.
  destruct (_ ≫= _) as [[a|e'] t]; [done|]. by intros [= _ <-].
Qed.

Lemma atomic_exec plans rq :
  PlanReads plans → (∀ c a b v, rq ≠ DecideApproval c a b v) → atomic (exec plans co rq).
Proof.
  intros Hp Hne. destruct rq; try (by destruct (Hne c a approved v)); cbn [exec]; unfold ignore;
    apply (atomic_bind_total _ (λ _, tt));
    unfold complete_execution, record_external_request_id, update_metadata;
    try (by apply atomic_write_connection); try (apply atomic_unit_of_work);
    try (by apply atomic_checkpoint);
    unfold store_initial, resume_waiting_summary_run, require_run_context,
      materialize_failure_revision, start_next_attempt, require_lease_context;
    try (solve [repeat (apply atomic_read_bind;
                          [apply read_only_db, read_only_require|intros _]);
                apply atomic_unit_of_work]).
  - by apply atomic_recover.
  - unfold co_request_cancellation. apply atomic_read_bind;
      [apply read_only_db, read_only_require|intros _; by apply atomic_write_connection].
  - unfold finish_run. apply atomic_read_bind;
      [apply read_only_db, read_only_require|intros _; by apply atomic_write_connection].
  - unfold finish_run_with_checkpoint. apply atomic_read_bind;
      [apply read_only_db, read_only_require|intros _; by apply atomic_write_connection].
Qed.
End Atomicity.

(** ** Executions that can never be closed *)

Lemma stuck_execution_scope `{Env} q d d' i e :
  effects q d d' → tool_executions d !! i = Some e →
  exe_execution_status e = EXEC_FAILED_RETRYABLE →
  ∃ e', tool_executions d' !! i = Some e' ∧ execution_scope e' = execution_scope e ∧
    exe_execution_status e' = EXEC_FAILED_RETRYABLE.
Proof.
  intros He Hi Hs. destruct (executions_evolve q d d' i e He Hi) as (e' & Hi' & Hst).
  apply execution_steps_monotone in Hst as ((Hsc & _) & _ & _ & _ & _ & Hf).
  rewrite Hs in Hf. exists e'. split_and!; [done|done|by apply Hf].
Qed.

Section Stuck.
Context `{Env} (co : WorkflowCoordinator) (l : RunLease) (w : World) (i : string)
  (e : tool_execution)
  (Hi : tool_executions (w_db w) !! i = Some e)
  (Hsc : in_scope (rl_context l) (execution_scope e) = true)
  (Hs : exe_execution_status e = EXEC_FAILED_RETRYABLE).

Lemma stuck_open d : tool_executions d = tool_executions (w_db w) →
  open_execution (rl_context l) d = true.
Proof.
  intros Hd. unfold open_execution. apply exists_row_true. exists i, e.
  rewrite Hd, Hsc, Hs. done.
Qed.

Lemma stuck_create_execution x :
  w_db (create_execution co l x w).2 = w_db w.
Proof.
  assert (Hw : wp (insert_execution (repository co) l x)
    (λ _ w', w_db w' = w_db w) (λ w', w_db w' = w_db w) w).
  { unfold insert_execution. do 3 wp_step. apply wp_has_current_lease.
    wp_step; [by apply wp_ret|]. wp_step. wp_step; [|done]. do 4 wp_step.
    rewrite stuck_open by done. by apply wp_ret. }
  unfold create_execution, write_connection, write_transaction, transaction, wp in *.
  by destruct (co_connection co), (insert_execution _ _ _ w) as [[a|er] w'].
Qed.

Lemma stuck_finish_completed :
  (finish_run co l RUN_COMPLETED w).1 =
    Err (InvalidTransitionError "run cannot complete while executions are nonterminal").
Proof.
  unfold finish_run, require_terminal_target, finish_transition, write_connection,
    write_transaction, transaction.
  assert (Hn : has_nonterminal_execution (rl_context l) w = (Ok true, w)).
  { unfold has_nonterminal_execution, gets, mbind, stM_bind. do 2 f_equal.
    unfold mret, stM_ret. do 2 f_equal. apply Z.ltb_lt. unfold count_rows.
    destruct (List.filter _ (rows (tool_executions (w_db w)))) eqn:El; simpl; [|lia].
    assert (Hin : List.In e []); [|done]. rewrite <-El. apply List.filter_In.
    split; [apply list_elem_of_In, elem_of_rows; eauto|]. by rewrite Hsc, Hs. }
  unfold mbind, stM_bind. cbn [require run_terminal].
  change (run_terminal RUN_COMPLETED) with true. cbn [require mret stM_ret].
  rewrite (bool_decide_true (RUN_COMPLETED = RUN_COMPLETED)) by done.
  by destruct (co_connection co); rewrite Hn.
Qed.
End Stuck.
