(* ===== verification/CheckpointWriting.v ===== *)
(** * Checkpoints that the coordinator writes

    What a successful [checkpoint] call stores, that the stored row decodes to the payload
    that was given, and that the terminal checkpoint of a finished run is the latest one. *)

From S2P Require Import Prelude Records Errors Json Tenancy WorkflowModels Storage.
From S2P Require Import Checkpoint.
From S2P Require Import WorkflowRepository WorkflowCoordinator WorkflowSpec.
From S2P Require Import WorkflowRefinement WorkflowHistory WorkflowInvariants.
From S2P Require Import PlanHistory.
From S2P Require Import WorkflowSystem WorkflowOperations Scenario.
From stdpp Require Import base gmap strings list sets relations.

(** The row a checkpoint call stores. *)
Record stored_row `{Env} (c : TenantContext) (ph : CheckpointPhase) (p : CheckpointPayload)
    (ap ex : option string) (seq : Z) (k : execution_checkpoint) : Prop := MkStoredRow {
  sr_scope : in_scope c (checkpoint_scope k) = true;
  sr_phase : ckp_phase k = enum_value ph;
  sr_json : ckp_payload_json k = canonical_json (model_dump p);
  sr_hash : ckp_payload_hash k = env_sha256_hex (canonical_json (model_dump p));
  sr_schema : ckp_schema_version k = 1%Z;
  sr_approval : ckp_approval_id k = ap;
  sr_execution : ckp_execution_id k = ex;
  sr_seq : ckp_checkpoint_seq k = seq;
}.

Definition with_checkpoint (d : Db) (k : execution_checkpoint) : Db :=
  d <| execution_checkpoints := <[ckp_checkpoint_id k := k]> (execution_checkpoints d) |>.

(** The number of a checkpoint: the one it is given, or the next one. *)
Definition numbered (d : Db) (c : TenantContext) (seq : option Z) : Z :=
  default (default 0 (max_checkpoint_seq (checkpoint_scope_predicate d c)) + 1)%Z seq.

Section Writing.
Context `{Env}.

Lemma insert_checkpoint_Ok l i w seq w' :
  insert_checkpoint l i w = (Ok (Some seq), w') →
  ∃ k, in_scope (rl_context l) (checkpoint_scope k) = true ∧
    ckp_phase k = ci_phase i ∧ ckp_payload_json k = ci_payload_json i ∧
    ckp_payload_hash k = ci_payload_hash i ∧ ckp_schema_version k = ci_schema_version i ∧
    ckp_approval_id k = ci_approval_id i ∧ ckp_execution_id k = ci_execution_id i ∧
    ckp_checkpoint_seq k = seq ∧
    seq = numbered (w_db w) (rl_context l) (ci_checkpoint_seq i) ∧
    execution_checkpoints_constraints (w_db w) k = true ∧
    w_db w' = with_checkpoint (w_db w) k.
Proof.
  unfold insert_checkpoint. intros (u & w1 & [= <- <-] & H0)%bind_Ok.
  apply bind_Ok in H0 as (b & w2 & [= <- <-] & H0).
  destruct (negb _); [done|].
  apply bind_Ok in H0 as (? & w3 & Hc & H0).
  apply read_only_Ok in Hc as ->; [|auto with reads].
  apply bind_Ok in H0 as (s & w4 & Hs & H0).
  assert (w4 = w <| w_ticks := S (w_ticks w) |> ∧
          s = numbered (w_db w) (rl_context l) (ci_checkpoint_seq i)) as [-> Hseq].
  { unfold numbered. destruct (ci_checkpoint_seq i); by injection Hs as <- <-. }
  apply bind_Ok in H0 as (now & w5 & [= <- <-] & H0).
  apply bind_Ok in H0 as (sid & w6 & Hsid & H0).
  apply bind_Ok in H0 as (rid & w7 & Hrid & H0).
  apply not_null_Ok in Hsid as [Hsid ->], Hrid as [Hrid ->].
  apply bind_Ok in H0 as (? & w8 & Hins & H0). injection H0 as <- <-.
  unfold insert_execution_checkpoints in Hins.
  apply bind_Ok in Hins as (d & w9 & [= <- <-] & Hins).
  apply bind_Ok in Hins as (? & w10 & Hreq & Hins).
  destruct (execution_checkpoints_constraints _ _) eqn:Ec; [|done].
  injection Hreq as _ <-. injection Hins as _ <-.
  eexists. split_and!; cycle -2; [exact Ec|reflexivity|..]; try done.
  by apply in_scope_true.
Qed.

Lemma checkpoint_Ok co l ph payload o w cw w' :
  co_connection co = true →
  checkpoint co l ph payload o w = (Ok cw, w') →
  ∃ ph' p ap ex seq k,
    validate_phase_payload ph payload = Ok (ph', p) ∧
    validate_checkpoint_scope l p o = Ok (ap, ex) ∧
    seq = numbered (w_db w) (rl_context l) (co_checkpoint_seq o) ∧
    stored_row (rl_context l) ph' p ap ex seq k ∧
    execution_checkpoints_constraints (w_db w) k = true ∧
    w_db w' = with_checkpoint (w_db w) k.
Proof.
  intros Hco. unfold checkpoint. intros ([ph' p] & w1 & Hv & H0)%bind_Ok.
  unfold lift in Hv. injection Hv as Hv <-.
  apply bind_Ok in H0 as ([ap ex] & w2 & Hs & H0). unfold lift in Hs. injection Hs as Hs <-.
  apply bind_Ok in H0 as (e & w3 & He & H0). unfold lift in He. injection He as He <-.
  apply bind_Ok in H0 as (i & w4 & Hi & H0).
  apply bind_Ok in H0 as (seq & w5 & Hw & H0). injection H0 as <- <-.
  assert (Hd : w_db w4 = w_db w).
  { destruct (co_checkpoint_id o) as [[|]|]; by injection Hi as _ <-. }
  unfold write_checkpoint, write_connection in Hw. rewrite Hco in Hw.
  apply bind_Ok in Hw as (os & w6 & Hw & Hor).
  destruct os as [s|]; [|done]. injection Hor as <- <-.
  apply insert_checkpoint_Ok in Hw as (k & Hsc & Hph & Hj & Hh & Hsv & Hap & Hex & Hsq &
    Hgiven & Hcon & Hdb).
  cbn [ci_phase ci_payload_json ci_payload_hash ci_schema_version ci_approval_id
    ci_execution_id ci_checkpoint_seq] in *.
  destruct (encode_Ok _ _ _ He) as (Ej & Eh & Es & _).
  exists ph', p, ap, ex, s, k. rewrite <-Hd. split_and!; try done.
  split; congruence.
Qed.

(** The scope check of the writer implies the scope check of the reader. *)
Lemma validated_scope_decodes l p o ap ex k :
  validate_checkpoint_scope l p o = Ok (ap, ex) →
  in_scope (rl_context l) (checkpoint_scope k) = true →
  ckp_approval_id k = ap → ckp_execution_id k = ex →
  validate_row_scope (checkpoint_from_row k) p = Ok tt.
Proof.
  unfold validate_checkpoint_scope, checkpoint_scope.
  intros (? & Hr%ensure_Ok & Hv)%result_bind_Ok (Ht & Hw & Hs & Hrun)%in_scope_true Ha He.
  apply bool_decide_eq_true in Hr. rewrite Hrun in Hr. injection Hr as Hr.
  unfold validate_row_scope. simpl. rewrite Hr, bool_decide_true by done.
  cbn [ensure mbind result_bind]. destruct p; try done.
  - apply result_bind_Ok in Hv as (? & H1%ensure_Ok & Hv).
    apply result_bind_Ok in Hv as (? & H2%ensure_Ok & Hv).
    apply result_bind_Ok in Hv as (? & H3%ensure_Ok & Hv).
    apply bool_decide_eq_true in H1, H2, H3. rewrite Hs in H3. injection H3 as H3.
    by rewrite !bool_decide_true by congruence.
  - apply result_bind_Ok in Hv as (? & _ & Hv). apply result_bind_Ok in Hv as (? & _ & Hv).
    injection Hv as <- <-. by rewrite bool_decide_true.
  - unfold validate_execution_scope in Hv.
    do 4 (apply result_bind_Ok in Hv as (? & _ & Hv)). injection Hv as <- <-.
    by rewrite bool_decide_true.
  - unfold validate_execution_scope in Hv.
    do 4 (apply result_bind_Ok in Hv as (? & _ & Hv)). injection Hv as <- <-.
    by rewrite bool_decide_true.
Qed.

Lemma validate_phase_payload_Ok ph payload ph' p :
  validate_phase_payload ph payload = Ok (ph', p) → phase_of p = ph' ∧ payload_ok p = true.
Proof.
  unfold validate_phase_payload. intros (x & Hx & Hv)%result_bind_Ok.
  destruct payload as [p0|d].
  - case_bool_decide; [|done].
    destruct (model_validate x (model_dump p0)) eqn:E; [|done].
    injection Hv as <- <-. by apply model_validate_Some in E.
  - destruct (model_validate x d) eqn:E; [|done].
    injection Hv as <- <-. by apply model_validate_Some in E.
Qed.

Lemma stored_row_decodes l ph payload o ph' p ap ex seq k :
  validate_phase_payload ph payload = Ok (ph', p) →
  validate_checkpoint_scope l p o = Ok (ap, ex) →
  stored_row (rl_context l) ph' p ap ex seq k →
  decode_checkpoint (checkpoint_from_row k) = Ok (ph', p).
Proof.
  intros [Hp Hok]%validate_phase_payload_Ok Hs []. subst ph'.
  apply decode_of_encode; try done. by eapply validated_scope_decodes.
Qed.
End Writing.

(** ** The latest checkpoint *)

Lemma elem_of_checkpoint_scope d c k :
  k ∈ checkpoint_scope_predicate d c ↔
  (∃ i, execution_checkpoints d !! i = Some k) ∧ in_scope c (checkpoint_scope k) = true.
Proof.
  unfold checkpoint_scope_predicate.
  by rewrite list_elem_of_In, filter_In, <-list_elem_of_In, elem_of_rows.
Qed.

Lemma latest_checkpoint_max l k :
  k ∈ l → (∀ x, x ∈ l → x = k ∨ ckp_checkpoint_seq x < ckp_checkpoint_seq k)%Z →
  latest_checkpoint_row l = Some k.
Proof.
  intros Hk Hmax. unfold latest_checkpoint_row.
  destruct (head (sort_by _ l)) as [h|] eqn:Eh.
  - apply sort_by_head in Eh as [Hh Hle]; [|intros; lia..].
    specialize (Hle k Hk). destruct (Hmax h Hh) as [->|]; [done|lia].
  - pose proof (sort_by_perm (λ a b, Z.leb (ckp_checkpoint_seq b) (ckp_checkpoint_seq a)) l)
      as Hp. destruct (sort_by _ l); [|done]. apply Permutation_nil_l in Hp. subst.
    by apply elem_of_nil in Hk.
Qed.

Lemma max_checkpoint_seq_bound l x :
  x ∈ l → (ckp_checkpoint_seq x ≤ default 0 (max_checkpoint_seq l))%Z.
Proof.
  induction l as [|y l IH]; [by intros ?%elem_of_nil|].
  intros [->|Hx]%elem_of_cons; simpl; destruct (max_checkpoint_seq l) eqn:E;
    cbn [default from_option id] in *; [lia..|specialize (IH Hx); lia|].
  destruct l; [by apply elem_of_nil in Hx|done].
Qed.

(** A row numbered by [get_next_checkpoint_seq] becomes the latest of its run. *)
Lemma next_checkpoint_is_latest d c k :
  in_scope c (checkpoint_scope k) = true →
  execution_checkpoints d !! ckp_checkpoint_id k = None →
  ckp_checkpoint_seq k = (default 0 (max_checkpoint_seq (checkpoint_scope_predicate d c)) + 1)%Z →
  latest_checkpoint_row (checkpoint_scope_predicate (with_checkpoint d k) c) = Some k.
Proof.
  intros Hs Hf Hq. apply latest_checkpoint_max.
  - apply elem_of_checkpoint_scope. split; [|done]. exists (ckp_checkpoint_id k).
    apply lookup_insert_eq.
  - intros x [[i Hi] Hx]%elem_of_checkpoint_scope.
    cbn [with_checkpoint execution_checkpoints setter] in Hi.
    apply lookup_insert_Some in Hi as [[_ <-]|[_ Hi]]; [by left|right].
    pose proof (max_checkpoint_seq_bound (checkpoint_scope_predicate d c) x) as Hb.
    rewrite elem_of_checkpoint_scope in Hb. specialize (Hb (conj (ex_intro _ i Hi) Hx)). lia.
Qed.

(** A dict that is checkpointed without a number becomes the latest checkpoint of its run,
    and decodes to the payload that the dict validates to. *)
Lemma dict_checkpoint_Ok `{Env} co l ph dict o w cw w' :
  co_connection co = true → co_checkpoint_seq o = None →
  checkpoint co l (inl ph) (inr dict) o w = (Ok cw, w') →
  ∃ p k, model_validate ph dict = Some p ∧
    latest_checkpoint_row (checkpoint_scope_predicate (w_db w') (rl_context l)) = Some k ∧
    decode_checkpoint (checkpoint_from_row k) = Ok (ph, p) ∧
    w_db w' = with_checkpoint (w_db w) k.
Proof.
  intros Hco Ho (ph' & p & ap & ex & s & k & Hv & Hs & Hseq & Hrow & Hcon & Hd)%checkpoint_Ok;
    [|done].
  pose proof (stored_row_decodes _ _ _ _ _ _ _ _ _ _ Hv Hs Hrow) as Hdec.
  unfold validate_phase_payload in Hv. apply result_bind_Ok in Hv as (px & [= <-] & Hv).
  destruct (model_validate ph dict) as [p'|] eqn:Em; [|done]. injection Hv as <- <-.
  exists p', k. split_and!; [done| |done|done]. rewrite Hd. destruct Hrow.
  apply next_checkpoint_is_latest; [done|by apply constraint_fresh_checkpoint|].
  rewrite Ho in Hseq. cbn [numbered default from_option] in Hseq. congruence.
Qed.

(** ** Finishing a run with its terminal checkpoint *)

Section Finishing.
Context `{Env} (co : WorkflowCoordinator).

Lemma require_lease_Ok_context c o f v w l w' :
  require_lease c o f v w = (Ok l, w') → rl_context l = c.
Proof.
  unfold require_lease. intros (d & w1 & [= <- <-] & Hr)%bind_Ok.
  destruct (context_predicate (w_db w) c) as [y|]; [|done].
  match type of Hr with context [if ?b then _ else _] => destruct b end; [|done].
  unfold lease_of_row in Hr.
  destruct (run_lease_owner y), (run_lease_expires_at y); try done. by injection Hr as <- _.
Qed.

Lemma transition_run_Ok repo l t w l' w' :
  transition_run repo l t w = (Ok (Some l'), w') →
  ∃ r, context_predicate (w_db w) (rl_context l) = Some r ∧
    rl_context l' = rl_context l ∧
    w_db w' = with_run (w_db w) r
      (transition_columns repo t (env_clock (w_ticks w)) r).
Proof.
  unfold transition_run. intros (u & w1 & [= <- <-] & H0)%bind_Ok.
  apply bind_Ok in H0 as (cur & w2 & [-> ->]%get_run_Ok & H0).
  destruct (context_predicate (w_db w) (rl_context l)) as [r|] eqn:Hc; [|done].
  cbn [fmap option_fmap option_map] in H0.
  apply bind_Ok in H0 as (? & w3 & Hv & H0).
  apply read_only_Ok in Hv as ->; [|unfold validate_run_transition; solve_reads].
  apply bind_Ok in H0 as (n & w4 & Hu & H0).
  rewrite (update_agent_runs_row _ _ _ _ _ Hc) in Hu. cbv zeta in Hu.
  exists r. split; [done|].
  destruct (current_lease_predicate l (env_clock (w_ticks w)) r);
    injection Hu as <- <-; [|done].
  unfold renewed in H0. change (bool_decide (1%Z ≠ 1%Z)) with false in H0. cbv iota in H0.
  apply bind_Ok in H0 as (lx & w5 & Hr & [= <- <-]).
  pose proof (read_only_Ok _ _ _ _ (read_only_require_lease _ _ _ _) Hr) as ->.
  split; [|done]. by apply require_lease_Ok_context in Hr.
Qed.

Lemma write_connection_Ok {A} (m : M A) w a w' :
  write_connection co m w = (Ok a, w') → m w = (Ok a, w').
Proof.
  unfold write_connection, write_transaction, transaction.
  destruct (co_connection co); [done|]. by destruct (m w) as [[]].
Qed.

Lemma no_open_execution c w u w' :
  (open ← has_nonterminal_execution c;
   require (negb open)
     (InvalidTransitionError "run cannot complete while executions are nonterminal")) w
    = (Ok u, w') → w' = w ∧ open_execution c (w_db w) = false.
Proof.
  intros (b & w1 & Hb & Hr)%bind_Ok. unfold has_nonterminal_execution in Hb.
  apply bind_Ok in Hb as (d & w2 & [= <- <-] & [= Hb <-]).
  destruct b; [done|]. injection Hr as _ <-. split; [done|].
  apply exists_row_false. intros i e He.
  destruct (in_scope c (execution_scope e)) eqn:Hs; [|done]. simpl.
  apply bool_decide_eq_false. rewrite nonterminal_execution_statuses. intros Ht.
  apply Z.ltb_ge in Hb. unfold count_rows in Hb.
  assert (Hin : List.In e (List.filter (λ e, in_scope c (execution_scope e) &&
    negb (exec_terminal (exe_execution_status e))) (rows (tool_executions (w_db w))))).
  { apply List.filter_In. split; [apply list_elem_of_In, elem_of_rows; eauto|].
    by rewrite Hs, Ht. }
  destruct (List.filter _ _); [done|simpl in Hb; lia].
Qed.

Lemma finish_transition_Ok l t w l' w' :
  finish_transition co l t w = (Ok l', w') →
  ∃ r, context_predicate (w_db w) (rl_context l) = Some r ∧
    rl_context l' = rl_context l ∧
    w_db w' = with_run (w_db w) r
      (transition_columns (repository co) t (env_clock (w_ticks w)) r) ∧
    (t = RUN_COMPLETED → open_execution (rl_context l) (w_db w) = false).
Proof.
  unfold finish_transition. intros (u & w1 & Hu & H0)%bind_Ok.
  assert (Hw : w1 = w ∧ (t = RUN_COMPLETED → open_execution (rl_context l) (w_db w) = false)).
  { case_bool_decide; [by apply no_open_execution in Hu as [-> ?]|].
    by injection Hu as _ <-. }
  destruct Hw as [-> Hopen].
  apply bind_Ok in H0 as (o & w2 & Ht & H0). apply or_raise_Ok in H0 as [-> ->].
  apply transition_run_Ok in Ht as (r & Hr & Hc & Hd). eauto 10.
Qed.

Lemma run_terminal_dict_shape c t f rid p :
  tc_run_id c = Some rid → model_validate RUN_TERMINAL (run_terminal_dict c t f) = Some p →
  p = PRunTerminal (MkRunTerminal rid t f (terminal_digest (Some rid) t f)).
Proof.
  intros Hc. unfold model_validate. intros (p' & Hp & Hok)%bind_Some.
  assert (payload_shape RUN_TERMINAL (run_terminal_dict c t f) =
    Some (PRunTerminal (MkRunTerminal rid t f (terminal_digest (Some rid) t f)))) as Hs.
  { unfold run_terminal_dict. rewrite Hc. by destruct t. }
  rewrite Hs in Hp. injection Hp as <-. by destruct (payload_ok _); [injection Hok as <-|].
Qed.

Lemma finish_run_with_checkpoint_Ok l t w l' w' :
  finish_run_with_checkpoint co l t w = (Ok l', w') →
  ∃ r f k rid, tc_run_id (rl_context l) = Some rid ∧
    context_predicate (w_db w') (rl_context l) = Some r ∧
    run_run_status r = t ∧ run_finished_at r = Some f ∧
    latest_checkpoint_row (checkpoint_scope_predicate (w_db w') (rl_context l)) = Some k ∧
    decode_checkpoint (checkpoint_from_row k) = Ok (RUN_TERMINAL,
      PRunTerminal (MkRunTerminal rid t f (terminal_digest (Some rid) t f))) ∧
    (t = RUN_COMPLETED → open_execution (rl_context l) (w_db w') = false) ∧
    same_plan_tables (w_db w) (w_db w').
Proof.
  unfold finish_run_with_checkpoint. intros (? & w0 & Hreq & H0)%bind_Ok.
  unfold require_terminal_target in Hreq.
  destruct (run_terminal t) eqn:Hterm; [injection Hreq as _ <-|done].
  apply write_connection_Ok in H0.
  apply bind_Ok in H0 as (l1 & w1 & Hft & H0).
  apply finish_transition_Ok in Hft as (r & Hr & Hl1 & Hd1 & Hopen).
  set (r' := transition_columns _ t _ r) in Hd1.
  assert (Hc1 : context_predicate (w_db w1) (rl_context l) = Some r').
  { rewrite Hd1. apply context_predicate_update; [done|].
    unfold r', transition_columns. by destruct (run_terminal t). }
  apply bind_Ok in H0 as (rec & w2 & [-> ->]%get_run_Ok & H0). rewrite Hc1 in H0.
  apply bind_Ok in H0 as (f & w3 & [Hf ->]%or_raise_Ok & H0).
  apply bind_Ok in H0 as (seq & w4 & Hseq & H0).
  unfold get_next_checkpoint_seq in Hseq.
  apply bind_Ok in Hseq as (d & w5 & [= <- <-] & [= <- <-]).
  apply bind_Ok in H0 as (cw & w6 & Hck & H0). injection H0 as <- <-.
  apply checkpoint_Ok in Hck as (ph & p & ap & ex & s & k & Hv & Hs & Hgiven & Hrow &
    Hcon & Hd2); [|done].
  rewrite Hl1 in Hrow. cbn [numbered default from_option co_checkpoint_seq at_seq] in Hgiven.
  subst s.
  pose proof (context_predicate_Some _ _ _ Hc1) as [_ Hin]. unfold run_scope in Hin.
  apply in_scope_true in Hin as (_ & _ & _ & Hrid).
  assert (Hp : p = PRunTerminal (MkRunTerminal (run_run_id r') t f
                 (terminal_digest (Some (run_run_id r')) t f)) ∧ ph = RUN_TERMINAL).
  { unfold validate_phase_payload in Hv. apply result_bind_Ok in Hv as (px & Hpx & Hv).
    injection Hpx as <-. destruct (model_validate RUN_TERMINAL _) eqn:Em; [|done].
    injection Hv as <- <-. split; [|done]. by eapply run_terminal_dict_shape. }
  destruct Hp as [-> ->].
  exists r', f, k, (run_run_id r'). split_and!; [done| |..].
  - rewrite Hd2. exact Hc1.
  - unfold r', transition_columns. by destruct (run_terminal t).
  - exact Hf.
  - rewrite Hd2. destruct Hrow. apply next_checkpoint_is_latest; [done| |done].
    by apply constraint_fresh_checkpoint.
  - eapply stored_row_decodes; [exact Hv|exact Hs|by rewrite Hl1].
  - intros Ht. rewrite Hd2, Hd1. by apply Hopen.
  - by rewrite Hd2, Hd1.
Qed.
End Finishing.
