(* ===== verification/ToolFacts.v ===== *)
(** * What the durable part of a tool call leaves behind

    The rows that the operations on executions write when they succeed, and from them
    what holds when the scheduler calls a tool, and what holds after it recorded a
    result or a request for approval. *)

From S2P Require Import Prelude Records Errors Json Regex Redaction Tenancy.
From S2P Require Import WorkflowModels Storage Checkpoint Events WorkflowRepository.
From S2P Require Import MemoryRepository WorkflowCoordinator Recovery Continuation Tools.
From S2P Require Import Scheduler WorkflowSpec WorkflowRefinement ExecutionRefinement.
From S2P Require Import PlanRefinement SchedulerRefinement WorkflowOperations.
From S2P Require Import CheckpointWriting.
From stdpp Require Import base gmap strings list relations.

Local Notation scoped := WorkflowCoordinator.scoped.

(** ** Computations on the state of the scheduler *)

Definition db_of (s : ToolState) : Db := w_db (xs_world (ts_exec s)).

Definition at_world (s : ToolState) (w : World) : ToolState :=
  s <| ts_exec := (ts_exec s) <| xs_world := w |> |>.

Lemma on_db_run {A} (m : M A) s :
  on_db m s = let '(r, w) := m (xs_world (ts_exec s)) in (r, at_world s w).
Proof. unfold on_db, on_exec, on_world. by destruct (m _). Qed.

Lemma on_db_Ok {A} (m : M A) s a s' :
  on_db m s = (Ok a, s') →
  ∃ w, m (xs_world (ts_exec s)) = (Ok a, w) ∧ s' = at_world s w.
Proof. rewrite on_db_run. destruct (m _) as [r w]. intros [= -> <-]. by exists w. Qed.

Lemma write_transaction_Ok {A} (m : M A) w a w' :
  write_transaction m w = (Ok a, w') → m w = (Ok a, w').
Proof. unfold write_transaction, transaction. by destruct (m w) as [[]]. Qed.

(** ** Rows of executions *)

Definition with_execution (d : Db) (x : tool_execution) : Db :=
  d <| tool_executions := <[exe_execution_id x := x]> (tool_executions d) |>.

Lemma execution_scope_with d c x :
  in_scope c (execution_scope x) = true →
  execution_scope_predicate (with_execution d x) c (exe_execution_id x) = Some x.
Proof.
  intros Hs. unfold execution_scope_predicate. cbn [with_execution tool_executions setter].
  rewrite lookup_insert_eq. cbn [mbind option_bind]. by rewrite Hs, bool_decide_true.
Qed.

Section Rows.
Context `{Env}.

Lemma assert_some_Ok {A} (v : option A) w a w' :
  assert_some v w = (Ok a, w') → v = Some a ∧ w' = w.
Proof. destruct v; [|done]. by intros [= -> <-]. Qed.

Lemma insert_execution_Ok repo l i w r w' :
  insert_execution repo l i w = (Ok (Some r), w') →
  ∃ sid rid now, let c := rl_context l in
    tc_session_id c = Some sid ∧ tc_run_id c = Some rid ∧
    w_db w' = with_execution (w_db w) (execution_row c sid rid i now) ∧
    r = execution_from_row c (execution_row c sid rid i now).
Proof.
  unfold insert_execution. intros (u & w1 & [= <- <-] & H0)%bind_Ok.
  apply bind_Ok in H0 as (b & w2 & [= <- <-] & H0). destruct (negb _); [done|].
  apply bind_Ok in H0 as (? & w3 & Hb & H0).
  apply read_only_Ok in Hb as ->; [|unfold check_plan_round_budget; solve_reads].
  apply bind_Ok in H0 as (now & w4 & [= <- <-] & H0).
  apply bind_Ok in H0 as (d & w5 & [= <- <-] & H0). destruct (open_execution _ _); [done|].
  apply bind_Ok in H0 as (sid & w6 & [Hsid ->]%not_null_Ok & H0).
  apply bind_Ok in H0 as (rid & w7 & [Hrid ->]%not_null_Ok & H0).
  apply bind_Ok in H0 as (? & w8 & Hi & H0). unfold insert_tool_executions in Hi.
  apply bind_Ok in Hi as (d & w9 & [= <- <-] & Hi).
  apply require_bind_Ok in Hi as [_ [= <- <-]].
  apply bind_Ok in H0 as (o & w10 & [= <- <-] & H0).
  apply bind_Ok in H0 as (r' & w11 & [Hx ->]%assert_some_Ok & [= <- <-]).
  cbn [w_db setter] in *. exists sid, rid, (env_clock (S (w_ticks w))).
  split_and!; [done..|].
  set (y := execution_row _ sid rid i _) in Hx |- *.
  assert (Hs : in_scope (rl_context l) (execution_scope y) = true) by by apply in_scope_true.
  pose proof (execution_scope_with (w_db w) (rl_context l) y Hs) as E.
  unfold with_execution in E. change (exe_execution_id y) with (xi_execution_id i) in E.
  enough (Some (execution_from_row (rl_context l) y) = Some r') by congruence.
  etrans; [|exact Hx]. symmetry.
  exact (f_equal (fmap (execution_from_row (rl_context l))) E).
Qed.

Lemma update_tool_executions_Ok c i where_ set_ w n w' :
  update_tool_executions c i where_ set_ w = (Ok n, w') → n = 1%Z →
  let now := env_clock (w_ticks w) in
  ∃ e, execution_scope_predicate (w_db w) c i = Some e ∧ where_ (w_db w) now e = true ∧
    w_db w' = (w_db w) <| tool_executions :=
                 <[exe_execution_id e := set_ now e]> (tool_executions (w_db w)) |>.
Proof.
  unfold update_tool_executions. intros (now & w1 & [= <- <-] & H0)%bind_Ok Hn.
  apply bind_Ok in H0 as (d & w2 & [= <- <-] & H0). cbn [w_db setter] in H0.
  destruct (execution_scope_predicate (w_db w) c i) as [e|] eqn:E;
    [|injection H0 as <- _; lia].
  destruct (where_ _ _ e) eqn:Ew; [|injection H0 as <- _; lia].
  apply bind_Ok in H0 as (u & w3 & [= _ <-] & [= _ <-]). by exists e.
Qed.

(** A status that the row changes to. *)
Lemma transition_execution_Ok l i s v t w r w' :
  transition_execution l i s v t w = (Ok (Some r), w') →
  ∃ e now, execution_scope_predicate (w_db w) (rl_context l) i = Some e ∧
    exe_execution_status e = s ∧ exe_version e = v ∧
    w_db w' = with_execution (w_db w) (set_execution_status t now (touch_execution now e)).
Proof.
  unfold transition_execution. intros [_ H0]%require_bind_Ok.
  apply bind_Ok in H0 as (u & w1 & [= <- <-] & H0).
  apply bind_Ok in H0 as (b & w2 & [= <- <-] & H0). destruct (negb _); [done|].
  apply bind_Ok in H0 as (n & w3 & Hn & H0). case_bool_decide as E1; [done|].
  apply bind_Ok in H0 as (o & w4 & [= <- <-] & H0).
  apply bind_Ok in H0 as (x & w5 & [_ ->]%assert_some_Ok & [= _ <-]).
  apply update_tool_executions_Ok in Hn as (e & He & Hw & Hd);
    [|by destruct (decide (n = 1%Z))].
  cbn [w_db setter] in *. rewrite !andb_true_iff, !bool_decide_eq_true in Hw.
  exists e, (env_clock (S (w_ticks w))). split_and!; [done|apply Hw|apply Hw|].
  rewrite Hd. unfold with_execution, set_execution_status. by destruct (exec_terminal t).
Qed.

Lemma update_execution_metadata_Ok l i s v m w r w' :
  update_execution_metadata l i s v m w = (Ok (Some r), w') →
  ∃ e now, execution_scope_predicate (w_db w) (rl_context l) i = Some e ∧
    exe_execution_status e = s ∧ exe_version e = v ∧
    w_db w' = with_execution (w_db w) (metadata_columns m now e) ∧
    r = execution_recovery_from_row (rl_context l) (metadata_columns m now e).
Proof.
  unfold update_execution_metadata. intros (u & w1 & [= <- <-] & H0)%bind_Ok.
  apply bind_Ok in H0 as (b & w2 & [= <- <-] & H0). destruct (negb _); [done|].
  apply bind_Ok in H0 as (? & w3 & Ht & H0).
  apply read_only_Ok in Ht as ->; [|case_match; solve_reads].
  apply bind_Ok in H0 as (n & w4 & Hn & H0). case_bool_decide as E1; [done|].
  apply bind_Ok in H0 as (o & w5 & [= <- <-] & H0).
  apply bind_Ok in H0 as (r' & w6 & [Hx ->]%assert_some_Ok & [= <- <-]).
  apply update_tool_executions_Ok in Hn as (e & He & Hw & Hd);
    [|by destruct (decide (n = 1%Z))].
  cbn [w_db setter] in *. rewrite !andb_true_iff, !bool_decide_eq_true in Hw.
  set (now := env_clock _) in Hd, Hw. exists e, now.
  assert (execution_scope (metadata_columns m now e) = execution_scope e ∧
          exe_execution_id (metadata_columns m now e) = exe_execution_id e) as [Hc Hi].
  { unfold metadata_columns, set_execution_status. destruct (xm_target_status m) as [t|];
      [destruct (exec_terminal t)|]; done. }
  assert (Hd' : w_db w4 = with_execution (w_db w) (metadata_columns m now e)).
  { rewrite Hd. unfold with_execution. by rewrite Hi. }
  pose proof (execution_scope_Some _ _ _ _ He) as (_ & <- & Hin). rewrite <-Hc in Hin.
  pose proof (execution_scope_with (w_db w) (rl_context l) _ Hin) as E.
  rewrite Hi, <-Hd' in E. rewrite E in Hx. injection Hx as <-.
  split_and!; [done|apply Hw|apply Hw|done|done].
Qed.

(** *** The operations of the coordinator *)

Lemma execution_conflict_raises {A} l w (a : A) w' : execution_conflict l w ≠ (Ok a, w').
Proof.
  unfold execution_conflict. intros (b & w1 & _ & Hw)%bind_Ok. by destruct (negb b).
Qed.

Lemma create_execution_Ok co l i w r w' :
  create_execution co l i w = (Ok (Some r), w') →
  ∃ sid rid now, let c := rl_context l in
    tc_session_id c = Some sid ∧ tc_run_id c = Some rid ∧
    w_db w' = with_execution (w_db w) (execution_row c sid rid i now) ∧
    r = execution_from_row c (execution_row c sid rid i now).
Proof. intros Hw%write_connection_Ok. by eapply insert_execution_Ok. Qed.

Lemma co_transition_execution_Ok co l i s v t w l' w' :
  co_transition_execution co l i s v t w = (Ok l', w') →
  l' = l ∧ ∃ e now, execution_scope_predicate (w_db w) (rl_context l) i = Some e ∧
    exe_execution_status e = s ∧ exe_version e = v ∧
    w_db w' = with_execution (w_db w) (set_execution_status t now (touch_execution now e)).
Proof.
  intros (o & w1 & Ht & Ho)%write_connection_Ok%bind_Ok. destruct o as [r|].
  - injection Ho as <- <-. by apply transition_execution_Ok in Ht.
  - by apply execution_conflict_raises in Ho.
Qed.

Lemma update_metadata_Ok co l i s v m w r w' :
  update_metadata co l i s v m w = (Ok r, w') →
  ∃ e now, execution_scope_predicate (w_db w) (rl_context l) i = Some e ∧
    exe_execution_status e = s ∧ exe_version e = v ∧
    w_db w' = with_execution (w_db w) (metadata_columns m now e) ∧
    r = execution_recovery_from_row (rl_context l) (metadata_columns m now e).
Proof.
  intros (o & w1 & Ht & Ho)%write_connection_Ok%bind_Ok. destruct o as [x|].
  - injection Ho as <- <-. by apply update_execution_metadata_Ok in Ht.
  - by apply execution_conflict_raises in Ho.
Qed.
End Rows.

(** ** A dispatch that is recorded *)

(** A payload that validates is the one its shape gives. *)
Lemma model_validate_shape ph d p p' :
  payload_shape ph d = Some p → model_validate ph d = Some p' → p' = p.
Proof.
  intros Hs. unfold model_validate. rewrite Hs. cbn [mbind option_bind].
  by destruct (payload_ok p); [intros [= ->]|].
Qed.

(** The execution is open, with the input, the strategy and the key of the call, and the
    latest checkpoint of the run says that it is being dispatched. *)
Record dispatch_recorded `{Env} (c : TenantContext) (name kind : string)
    (input : CanonicalToolInput) (s : RecoveryStrategy) (key : option string) (e : string)
    (d : Db) : Prop := MkDispatchRecorded {
  dr_row : ∃ x, execution_scope_predicate d c e = Some x ∧
    exe_execution_status x = EXEC_EXECUTING ∧ exe_tool_name x = name ∧
    exe_tool_kind x = kind ∧ exe_input_payload_json x = cti_payload_json input ∧
    exe_input_hash x = cti_payload_hash input ∧ exe_recovery_strategy x = s ∧
    exe_idempotency_key x = key ∧ exe_result_ref x = None;
  dr_checkpoint : ∃ k p,
    latest_checkpoint_row (checkpoint_scope_predicate d c) = Some k ∧
    decode_checkpoint (checkpoint_from_row k) =
      Ok (EXECUTION_DISPATCHING, PExecutionDispatching p) ∧
    edp_execution_id p = e ∧ edp_recovery_strategy p = s ∧
    edp_input_hash p = cti_payload_hash input ∧ edp_idempotency_key p = key;
}.

Section Dispatch.
Context `{envi : Env} (settings : Settings).

Lemma dispatch_dict_shape rid e t s h i k :
  payload_shape EXECUTION_DISPATCHING (dispatch_dict (Some rid) e t s h i k) =
  Some (PExecutionDispatching (MkExecutionDispatching rid e t s h i k
          (dispatch_cursor (Some rid) t) (dispatch_cursor (Some rid) t))).
Proof. by destruct s, k. Qed.

(** A payload that names no run does not validate. *)
Lemma dispatch_dict_run rid e t s h i k p :
  model_validate EXECUTION_DISPATCHING (dispatch_dict rid e t s h i k) = Some p →
  ∃ r, rid = Some r.
Proof. destruct rid; [by eexists|]. by destruct s, k. Qed.

Lemma commit_dispatch_Ok b c l e t input s key w r w' :
  commit_dispatch settings b c l e t input s key w = (Ok r, w') →
  er_version r = 1%Z ∧ dispatch_recorded (rl_context l) (tb_name b) (tb_tool_kind b) input s key e (w_db w').
Proof.
  unfold commit_dispatch. intros (o & w1 & Hc & H0)%bind_Ok.
  apply bind_Ok in H0 as (r' & w2 & [-> ->]%or_raise_Ok & H0).
  apply create_execution_Ok in Hc as (sid & rid & now & Hs & Hr & Hd1 & ->).
  apply bind_Ok in H0 as (l' & w3 & Ht & H0).
  apply co_transition_execution_Ok in Ht as (_ & x & now' & Hx & _ & _ & Hd2).
  apply bind_Ok in H0 as (cw & w5 & Hk & [= <- <-]).
  apply dict_checkpoint_Ok in Hk as (p & k & Hp & Hl & Hdec & Hd3); [|done|done].
  split; [done|]. set (y := execution_row _ _ _ _ _) in Hd1, Hp.
  assert (Hy : in_scope (rl_context l) (execution_scope y) = true) by by apply in_scope_true.
  rewrite Hd1 in Hx. pose proof (execution_scope_with (w_db w) _ y Hy) as E.
  change (exe_execution_id y) with e in E. rewrite E in Hx. injection Hx as <-.
  pose proof (dispatch_dict_run _ _ _ _ _ _ _ _ Hp) as [rid' Hrid']. rewrite Hrid' in Hp.
  apply (model_validate_shape _ _ _ _ (dispatch_dict_shape _ _ _ _ _ _ _)) in Hp as ->.
  split.
  - exists (set_execution_status EXEC_EXECUTING now' (touch_execution now' y)).
    split; [|done]. rewrite Hd3, Hd2.
    exact (execution_scope_with (w_db w1) _
             (set_execution_status EXEC_EXECUTING now' (touch_execution now' y)) Hy).
  - eexists k, _. split_and!; [exact Hl|exact Hdec|done..].
Qed.

Lemma prepare_execution_Ok b c i input s key ts p v ts' :
  prepare_execution settings b c i input s key ts = (Ok (p, v), ts') →
  dispatch_recorded (rl_context (pe_lease p)) (tb_name b) (tb_tool_kind b) input s key
    (pe_execution_id p) (db_of ts') ∧
  pe_lease p = xs_lease (ts_exec ts) ∧ pe_recovery_strategy p = s ∧
  v = progress_of 2 None ∧ ts_exec ts' = (ts_exec ts) <| xs_world := xs_world (ts_exec ts') |>.
Proof.
  unfold prepare_execution. intros (l & s1 & Hl & H0)%bind_Ok. injection Hl as <- <-.
  apply bind_Ok in H0 as (e & s2 & (w2 & _ & ->)%on_db_Ok & H0).
  apply bind_Ok in H0 as (r & s3 & (w3 & Hw%write_transaction_Ok & ->)%on_db_Ok & H0).
  injection H0 as <- <- <-. apply commit_dispatch_Ok in Hw as [-> Hd]. by destruct ts as [[]].
Qed.

(** The run is held under this lease and nobody asked to cancel it. *)
Definition undisturbed (c : TenantContext) (l : RunLease) (d : Db) : Prop :=
  ∃ r, context_predicate d c = Some r ∧ run_cancel_requested_at r = None ∧
    run_lease_owner r = Some (rl_lease_owner l) ∧
    run_fencing_token r = rl_fencing_token l ∧ run_version r = rl_version l.

Lemma cancellation_won_Ok c l w b w' :
  cancellation_won c l w = (Ok b, w') →
  w_db w' = w_db w ∧ (b = false → undisturbed c l (w_db w)).
Proof.
  unfold cancellation_won. intros (u & w1 & [= <- <-] & H0)%bind_Ok.
  apply bind_Ok in H0 as (o & w2 & [-> ->]%get_run_Ok & H0).
  apply bind_Ok in H0 as (run & w3 & [Hr ->]%or_raise_Ok & H0).
  apply require_bind_Ok in H0 as [Ht H0].
  apply bind_Ok in H0 as (held & w4 & [= <- <-] & H0).
  apply require_bind_Ok in H0 as [_ H0].
  destruct (context_predicate (w_db w) c) as [r|] eqn:E; [|done]. injection Hr as <-.
  rewrite !andb_true_iff, !bool_decide_eq_true, Z.eqb_eq in Ht.
  destruct (rr_cancel_requested_at (run_record r)) eqn:Ec.
  - apply require_bind_Ok in H0 as [_ [= <- <-]]. by split.
  - apply require_bind_Ok in H0 as [Hv [= <- <-]]. apply Z.eqb_eq in Hv.
    split; [done|]. intros _. exists r. split_and!; [done..| | |]; by destruct Ht as [[[]]].
Qed.

End Dispatch.

(** ** When a tool is called

    Two invocations that agree on the states with a property cannot be told apart when
    they are called in such states only. *)

Definition agree_on (P : ToolState → Prop) (i i' : ToolInvocation) : Prop :=
  ∀ roots recorder s v, P s → i roots recorder (s, v) = i' roots recorder (s, v).

Lemma bind_agree {S E A B} (m : stM S E A) (f f' : A → stM S E B) s :
  (∀ a s', m s = (Ok a, s') → f a s' = f' a s') → (m ≫= f) s = (m ≫= f') s.
Proof. intros Hf. unfold mbind, stM_bind. destruct (m s) as [[a|e] s'] eqn:E1; [by apply Hf|done]. Qed.

Lemma lift_bind_agree {S E A B} (r r' : result E A) (f f' : A → stM S E B) s :
  match r, r' with
  | Ok a, Ok a' => f a s = f' a' s
  | Err e, Err e' => e = e'
  | _, _ => False
  end → (lift r ≫= f) s = (lift r' ≫= f') s.
Proof. unfold mbind, stM_bind, lift. destruct r, r'; by try intros ->. Qed.

Lemma catch_agree {S E A} (m m' : stM S E A) h s : m s = m' s → catch m h s = catch m' h s.
Proof. unfold catch. by intros ->. Qed.

Lemma run_vars_agree {A} v (m m' : TPM A) s :
  m (s, v) = m' (s, v) → run_vars v m s = run_vars v m' s.
Proof. unfold run_vars. by intros ->. Qed.

Lemma guard_run_agree {S A} n e t (m m' : stM S exn A) s :
  m s = m' s → guard_run n e t m s = guard_run n e t m' s.
Proof.
  intros Hm. apply bind_agree. intros u s' Hr. unfold require in Hr.
  assert (s' = s) as -> by (destruct (Z.ltb _ _); by inversion Hr).
  apply bind_agree. intros late s' [= <- <-]. by destruct (e s).
Qed.

Section Calls.
Context `{envi : Env}.
Context (unicode_alnum : N → bool) (resolve : string → list string)
  (casefold uuid5 : string → string).
Context (settings : Settings) (guarded_tools : list string) (guard_timeout : Z)
  (expires : ToolState * RunVars → bool) (has_database has_event_router : bool).

Definition ready_to_call (c : TenantContext) (b : ToolBuilder) (input : CanonicalToolInput)
    (m : ToolRecoveryMetadata) (s : ToolState) : Prop :=
  (∃ e, dispatch_recorded c (tb_name b) (tb_tool_kind b) input (trm_recovery_strategy m)
          (trm_idempotency_key m) e (db_of s)) ∧
  undisturbed c (xs_lease (ts_exec s)) (db_of s).

Lemma on_store_Ok {A} (m : M A) sv a sv' :
  on_store m sv = (Ok a, sv') →
  ∃ w, m (xs_world (ts_exec sv.1)) = (Ok a, w) ∧ sv' = (at_world sv.1 w, sv.2).
Proof.
  unfold on_store, on_tools. intros Hm. destruct (on_db m sv.1) as [r s] eqn:E.
  injection Hm as -> <-. apply on_db_Ok in E as (w & Hw & ->). by exists w.
Qed.

Lemma check_pre_dispatch_None p n c i sv sv' :
  check_pre_dispatch_cancellation settings has_event_router p n c i sv = (Ok None, sv') →
  rl_context (pe_lease p) = c ∧ undisturbed c (xs_lease (ts_exec sv.1)) (db_of sv.1) ∧
  ∃ w, w_db w = db_of sv.1 ∧ sv' = (at_world sv.1 w, sv.2).
Proof.
  unfold check_pre_dispatch_cancellation. intros (l & s1 & Hl & H0)%bind_Ok.
  assert (l = xs_lease (ts_exec sv.1) ∧ s1 = sv) as [-> ->].
  { destruct sv as [[[] ] ]. by injection Hl as <- <-. }
  apply require_bind_Ok in H0 as [[Hp _]%andb_true_iff H0]. apply bool_decide_eq_true in Hp.
  apply require_bind_Ok in H0 as [_ H0].
  apply bind_Ok in H0 as (b & s2 & (w & Hw%write_transaction_Ok & ->)%on_store_Ok & H0).
  apply cancellation_won_Ok in Hw as [Hd Hu]. destruct b.
  - by apply bind_Ok in H0 as (u & s3 & _ & [= ? _]).
  - injection H0 as <-. split_and!; [done|by apply Hu|]. by exists w.
Qed.

Lemma dispatch_agree b p i i' roots c call input m s v :
  dispatch_recorded (rl_context (pe_lease p)) (tb_name b) (tb_tool_kind b) input
    (trm_recovery_strategy m) (trm_idempotency_key m) (pe_execution_id p) (db_of s) →
  agree_on (ready_to_call c b input m) i i' →
  dispatch resolve settings has_event_router b p i roots c call (s, v) =
  dispatch resolve settings has_event_router b p i' roots c call (s, v).
Proof.
  intros Hd Hi. unfold dispatch. apply bind_agree. intros o sv Hc. apply bind_agree.
  intros u sv1 [= <- <-]. destruct o as [r|]; [done|]. apply bind_agree.
  intros u sv2 [= <- <-]. apply check_pre_dispatch_None in Hc as (<- & Hu & w & Hw & ->).
  apply Hi. cbn [fst] in *.
  assert (E : db_of (at_world s w) = db_of s) by exact Hw.
  split; [exists (pe_execution_id p)|]; by rewrite E.
Qed.

Lemma guarded_dispatch_agree b p i i' roots c call input m s v :
  dispatch_recorded (rl_context (pe_lease p)) (tb_name b) (tb_tool_kind b) input
    (trm_recovery_strategy m) (trm_idempotency_key m) (pe_execution_id p) (db_of s) →
  agree_on (ready_to_call c b input m) i i' →
  guarded_dispatch resolve settings guard_timeout expires has_event_router b p i roots c call
    (s, v) =
  guarded_dispatch resolve settings guard_timeout expires has_event_router b p i' roots c call
    (s, v).
Proof.
  intros Hd Hi. apply catch_agree. unfold mbind, stM_bind.
  by rewrite (guard_run_agree _ _ _ _ _ _ (dispatch_agree _ _ _ _ _ _ _ _ _ _ _ Hd Hi)).
Qed.

(** The other builds give invocations that agree with those of the tool wherever the call
    needs no approval and is recorded. *)
Definition builds_alike (b : ToolBuilder) (raw params : list (string * json))
    (c : TenantContext) (r r' : result exn ToolInvocation) : Prop :=
  match r, r' with
  | Ok i, Ok i' => ∀ input m,
      canonicalize_input unicode_alnum params = Ok input → recovery_metadata b params = Ok m →
      pd_requires_approval (permission resolve casefold guarded_tools b raw) = false →
      agree_on (ready_to_call c b input m) i i'
  | Err e, Err e' => e = e'
  | _, _ => False
  end.

Lemma publish_db c t l s u s' :
  publish has_event_router c t l s = (Ok u, s') → db_of s' = db_of s.
Proof.
  unfold publish. intros (? & s1 & [= <- <-] & H0)%bind_Ok.
  destruct c as [c|]; [|by injection H0 as _ <-]. destruct (_ && _ && _);
    [|by injection H0 as _ <-]. apply lift_bind_Ok in H0 as (e & _ & H0).
  by injection H0 as _ <-.
Qed.

Lemma durable_call_agree b build' raw params c call s :
  builds_alike b raw params c (tb_build b params) (build' params) →
  durable_call unicode_alnum resolve casefold uuid5 settings guarded_tools guard_timeout
    expires has_database has_event_router b raw params c call s =
  durable_call unicode_alnum resolve casefold uuid5 settings guarded_tools guard_timeout
    expires has_database has_event_router (b <| tb_build := build' |>) raw params c call s.
Proof.
  intros Hb. unfold durable_call. apply bind_agree. intros input s1 Hi.
  unfold lift in Hi. injection Hi as Hi <-. apply bind_agree. intros m s2 Hm.
  unfold lift in Hm. injection Hm as Hm <-. cbv zeta.
  change (permission resolve casefold guarded_tools (b <| tb_build := build' |>) raw)
    with (permission resolve casefold guarded_tools b raw).
  destruct (pd_requires_approval _) eqn:Er; [done|]. destruct (negb _); [done|].
  apply lift_bind_agree. change (tb_build (b <| tb_build := build' |>) params)
    with (build' params). unfold builds_alike in Hb.
  destruct (tb_build b params) as [i|e], (build' params) as [i'|e']; [|done..].
  specialize (Hb _ _ Hi Hm Er). apply bind_agree. intros [p v] s3 Hp.
  apply prepare_execution_Ok in Hp as (Hd & _). apply bind_agree. intros u s4 Hu.
  apply publish_db in Hu. rewrite <-Hu in Hd. unfold mbind, stM_bind.
  by rewrite (run_vars_agree _ _ _ _ (guarded_dispatch_agree b _ _ _ _ _ _ _ _ _ _ Hd Hb)).
Qed.

Lemma run_durable_agree b build' raw params c call s :
  builds_alike b raw params c (tb_build b params) (build' params) →
  run_durable unicode_alnum resolve casefold uuid5 settings guarded_tools guard_timeout
    expires has_database has_event_router b raw params c call s =
  run_durable unicode_alnum resolve casefold uuid5 settings guarded_tools guard_timeout
    expires has_database has_event_router (b <| tb_build := build' |>) raw params c call s.
Proof.
  intros Hb. unfold run_durable, mbind, stM_bind.
  by rewrite (catch_agree _ _ _ _ (durable_call_agree _ _ _ _ _ call s Hb)).
Qed.

(** ** When an execution may be repeated *)

(** The stored input is intact, the tool is the one of the row and declares the strategy
    and the key of the row, and if the call needs an approval today, then the row is bound
    to one, for this very call, and it is approved. *)
Definition may_repeat (b : ToolBuilder) (c : TenantContext) (x : ExecutionRecoveryRecord)
    (params : list (string * json)) (d : Db) : Prop :=
  tb_name b = xr_tool_name x ∧ tb_tool_kind b = xr_tool_kind x ∧
  ∃ data input m,
    json_loads (xr_input_payload_json x) = Some (JObj data) ∧
    canonicalize_input unicode_alnum data = Ok input ∧
    cti_payload_hash input = xr_input_hash x ∧
    tb_validate b data = Ok params ∧ recovery_metadata b params = Ok m ∧
    trm_recovery_strategy m = xr_recovery_strategy x ∧
    trm_idempotency_key m = xr_idempotency_key x ∧
    let decision := permission resolve casefold guarded_tools b data in
    (pd_requires_approval decision = true → ∃ a,
       xr_approval_id x = Some (binding_of resolve uuid5 b c x input m
                                  (pd_approved_roots decision)) ∧
       approval_scope_predicate d c (binding_of resolve uuid5 b c x input m
                                       (pd_approved_roots decision)) = Some a ∧
       apr_approval_status a = APPROVAL_APPROVED).

Lemma recovery_obstacle_Ok b c x s input params decision s' :
  recovery_obstacle unicode_alnum resolve casefold uuid5 guarded_tools b c x s =
    (Ok (inr (input, params, decision)), s') →
  may_repeat b c x params (db_of s).
Proof.
  unfold recovery_obstacle. intros (data & s1 & Hd & H0)%bind_Ok.
  assert (json_loads (xr_input_payload_json x) = Some (JObj data) ∧ s1 = s) as [Hj ->].
  { destruct (json_loads _) as [[]|]; try done. by injection Hd as -> <-. }
  apply lift_bind_Ok in H0 as (input' & Hi & H0).
  destruct (String.eqb (cti_payload_hash input') _) eqn:E1; [|done].
  destruct (String.eqb (tb_name b) _) eqn:E2; [|done].
  destruct (String.eqb (tb_tool_kind b) _) eqn:E3; [|done]. cbn [negb] in H0.
  apply String.eqb_eq in E1, E2, E3.
  apply lift_bind_Ok in H0 as (params' & Hv & H0). apply lift_bind_Ok in H0 as (m & Hm & H0).
  case_bool_decide as E4; [|done]. case_bool_decide as E5; [|done]. cbn [negb] in H0.
  cbv zeta in H0. destruct (negb (pd_allow _)); [done|].
  split; [done|]. split; [done|]. exists data, input', m.
  destruct (pd_requires_approval _) eqn:Er; cbn [negb] in H0.
  - destruct (xr_approval_id x) as [a|] eqn:Ea; [|done].
    destruct (String.eqb a _) eqn:E6; [|done]. apply String.eqb_eq in E6. cbn [negb] in H0.
    apply bind_Ok in H0 as (o & s2 & (w & Hw & ->)%on_db_Ok & H0).
    unfold get_approval in Hw. apply bind_Ok in Hw as (d & w1 & [= <- <-] & [= <- <-]).
    destruct (approval_scope_predicate _ c a) as [row|] eqn:Ep; [|done].
    cbn [fmap option_fmap option_map] in H0. case_bool_decide as E7; [|done].
    injection H0 as <- <- _ _. rewrite E6 in Ep.
    split_and!; try done. cbv zeta. intros _. exists row. by rewrite E6.
  - injection H0 as <- <- _ _. split_and!; try done. cbv zeta. by rewrite Er.
Qed.

(** The code of the tool matters only where the execution may be repeated and is not
    merely marked as uncertain. *)
Lemma recover_execution_agree b build' c x action force s :
  (∀ params, may_repeat b c x params (db_of s) →
     ¬ (action = MARK_MANUAL_UNCERTAIN ∧ force = false) → tb_build b params = build' params) →
  recover_execution unicode_alnum resolve casefold uuid5 settings guarded_tools guard_timeout
    expires has_event_router b c x action force s =
  recover_execution unicode_alnum resolve casefold uuid5 settings guarded_tools guard_timeout
    expires has_event_router (b <| tb_build := build' |>) c x action force s.
Proof.
  intros Hb. apply catch_agree. unfold repeat_execution. apply bind_agree.
  intros [[st d]|[[input params] decision]] s1 Ho; [done|].
  apply (recovery_obstacle_Ok b) in Ho.
  destruct (bool_decide (action = MARK_MANUAL_UNCERTAIN) && negb force) eqn:E; [done|].
  apply lift_bind_agree. change (tb_build (b <| tb_build := build' |>) params)
    with (build' params). rewrite <-Hb; [by destruct (tb_build b params)|done|].
  intros [-> ->]. by rewrite bool_decide_true in E.
Qed.
End Calls.
