(* ===== verification/StoredResults.v ===== *)
(** * Results survive being stored

    The document of a finished step, written to memory, is what the verification of
    results reads back. *)

From S2P Require Import Prelude Records Errors Json Regex Redaction Tenancy.
From S2P Require Import WorkflowModels.
From S2P Require Import Storage Collections PlanStorage Checkpoint Events PlanValidation.
From S2P Require Import PlanSpec PlanRecords PlanReading WorkflowRepository.
From S2P Require Import PlanRepository.
From S2P Require Import PlanDecisions PlanAttempts MemoryRepository PlanResults.
From S2P Require Import PlanRounds.
From S2P Require Import WorkflowCoordinator PlanGenerator PlanService Recovery.
From S2P Require Import Continuation.
From S2P Require Import PlanExecution PlanLoop WorkflowSpec WorkflowRefinement.
From S2P Require Import PlanRefinement ExecutionRefinement MemoryTheorems.
From Stdlib Require Import Ascii.
From stdpp Require Import base gmap strings list.

(** ** Identifiers *)

Lemma combine_forallb {A} (f : nat * A → bool) (p : A → bool) k l :
  (∀ i a, f (i, a) = true → p a = true) →
  forallb f (combine (seq k (length l)) l) = true → forallb p l = true.
Proof.
  intros Hf. revert k. induction l as [|a l IH]; intros k; [done|]. simpl.
  rewrite !andb_true_iff. intros [Ha Hl]. split; [by eapply Hf|by eapply IH].
Qed.

Lemma uuid_identifier s : UUID_PATTERN s = true → identifier s = true.
Proof.
  unfold UUID_PATTERN, identifier. rewrite andb_true_iff, Nat.eqb_eq. intros [Hl H].
  rewrite <- Hl in H at 1. eapply combine_forallb; [|exact H]. intros i a. simpl.
  case_bool_decide.
  - by intros ->%Ascii.eqb_eq.
  - clear. by destruct a as [[] [] [] [] [] [] [] []].
Qed.

Lemma list_ascii_length s : length (String.list_ascii_of_string s) = String.length s.
Proof. induction s; simpl; congruence. Qed.

Lemma uuid_reference s : UUID_PATTERN s = true → RESULT_REF ("memory:" +:+ s) = Some s.
Proof.
  intros Hs. unfold RESULT_REF. change (strip "memory:" ("memory:" +:+ s)) with (Some s).
  cbn [mbind option_bind]. pose proof (uuid_identifier s Hs) as Hi.
  unfold UUID_PATTERN in Hs. rewrite andb_true_iff, Nat.eqb_eq in Hs. destruct Hs as [Hl _].
  rewrite <- list_ascii_length, Hl. simpl.
  assert (forallb ref_char (String.list_ascii_of_string s) = true) as ->; [|done].
  unfold identifier in Hi. rewrite forallb_forall in Hi |- *. intros a Ha.
  specialize (Hi a Ha). clear -Hi. by destruct a as [[] [] [] [] [] [] [] []]; vm_compute in Hi |- *.
Qed.

(** ** The metadata of a result *)

Definition sorted_metadata (r : PlanStepResultDocument) : list (string * json) :=
  [("plan_id", JStr (doc_plan_id r)); ("schema_version", JInt 1);
   ("step_run_id", JStr (doc_step_run_id r))].

Lemma result_metadata_reads_back r :
  identifier (doc_plan_id r) = true → identifier (doc_step_run_id r) = true →
  load_metadata (metadata_json (result_metadata r)) = Ok (sorted_metadata r).
Proof.
  intros Hp Hs.
  assert (Ht : print_json (JObj (result_metadata r)) =
    "{" +:+ quoted "plan_id" +:+ ":" +:+ quoted (doc_plan_id r) +:+ "," +:+
    quoted "schema_version" +:+ ":1," +:+ quoted "step_run_id" +:+ ":" +:+
    quoted (doc_step_run_id r) +:+ "}").
  { transitivity ("{" +:+ Json.join "," [quoted "plan_id" +:+ ":" +:+ quoted (doc_plan_id r);
      quoted "schema_version" +:+ ":" +:+ "1";
      quoted "step_run_id" +:+ ":" +:+ quoted (doc_step_run_id r)] +:+ "}"); [reflexivity|].
    cbn [Json.join]. rewrite !str_app_assoc. reflexivity. }
  unfold metadata_json, json_dumps_ascii. rewrite ascii_printing.
  - unfold load_metadata. rewrite json_loads_print by reflexivity. by rewrite Ht.
  - rewrite Ht, !printing_app, (printing_quoted _ Hp), (printing_quoted _ Hs). reflexivity.
Qed.

(** ** The dependencies of a document have distinct keys *)

Lemma set_key_fst k v l : map fst (set_key k v l) = map fst l ∨
  (k ∉ map fst l ∧ map fst (set_key k v l) = map fst l ++ [k]).
Proof.
  induction l as [|[k' v'] l IH]; simpl.
  - right. split; [apply not_elem_of_nil|done].
  - destruct (String.eqb_spec k k') as [->|Hne]; simpl; [by left|].
    destruct IH as [->|[Hn ->]]; [by left|]. right. split; [|done].
    by apply not_elem_of_cons.
Qed.

Lemma dependency_digests_NoDup `{envi : Env} by_id l acc l' :
  NoDup (map fst acc) → dependency_digests by_id l acc = Ok l' → NoDup (map fst l').
Proof.
  revert acc. induction l as [|d l IH]; intros acc Hn H; simpl in H; [by injection H as <-|].
  destruct (by_id !! doc_step_id d) as [s|]; [|done]. eapply IH; [|exact H].
  destruct (set_key_fst (pst_logical_step_key s) (result_digest d) acc) as [->|[Hk ->]]; [done|].
  apply NoDup_app. split_and!; [done| |apply NoDup_singleton].
  intros x Hx ->%list_elem_of_singleton. done.
Qed.

(** ** The round trip *)

Section Stored.
Context `{envi : Env} (c : TenantContext).

Lemma built_document_ok rq done tools governance skills doc :
  build_result_document rq done tools governance skills = Ok doc →
  PlanStepResultDocument_ok doc = true ∧ NoDup (map fst (doc_dependency_result_digests doc)).
Proof.
  unfold build_result_document. intros (l&Hl&H)%result_bind_Ok.
  unfold make_document in H. destruct (PlanStepResultDocument_ok _) eqn:E; [|done].
  injection H as <-. split; [done|]. simpl. eapply dependency_digests_NoDup, Hl. constructor.
Qed.

(** The entry of a result. *)
Definition result_entry (i s : string) (created_at : Z) (metadata : list (string * json))
    (doc : PlanStepResultDocument) : MemoryEntry := {|
  me_id := i; me_content := result_canonical_json doc; me_type := "plan_step_result";
  me_session_id := Some s; me_role := "assistant"; me_turn_index := 0;
  me_created_at := created_at; me_metadata := metadata |}.

(** What storing a result writes. *)
Lemma persist_plan_step_result_Ok doc ref s w w' :
  tc_session_id c = Some s → s ≠ "" →
  persist_plan_step_result c doc w = (Ok ref, w') →
  ref = "memory:" +:+ env_uuid4 (w_draws w) ∧
  (Z.of_nat (String.length (result_canonical_json doc)) <= MAX_PLAN_STEP_RESULT_BYTES)%Z ∧
  ∃ now, entry_written c (result_entry (env_uuid4 (w_draws w)) s 0 (result_metadata doc) doc)
           now (w_db w) (w_db w').
Proof.
  intros Hs Hne. unfold persist_plan_step_result. intros H.
  apply require_bind_Ok in H as [_ H]. apply require_bind_Ok in H as [Hl%Z.leb_le H].
  apply bind_Ok in H as (e&w1&He&H). unfold new_entry in He.
  apply bind_Ok in He as (i&w2&[= <- <-]&[= <- <-]).
  apply bind_Ok in H as (e'&w2&(p&now&Hp&Hw&Hg)%save_Ok&[= <- <-]).
  assert (p = result_entry (env_uuid4 (w_draws w)) s 0 (result_metadata doc) doc) as ->.
  { rewrite Hs in Hp. unfold prepare_entry in Hp. cbn [me_type me_session_id] in Hp.
    rewrite bool_decide_false in Hp by done.
    assert (normalize_session_scope (Some s) = Some s) as E by (by destruct s).
    rewrite E in Hp. apply ensure_bind_Ok in Hp as [_ Hp]. by injection Hp as <-. }
  apply (written_reads_back _ _ _ _ _ _ _ Hw eq_refl) in Hg.
  unfold from_row in Hg. apply result_bind_Ok in Hg as (md&_&[= <-]).
  split_and!; [done|done|]. by exists now.
Qed.

Lemma written_document_reads_back doc i s now x w d :
  tc_session_id c = Some s → s ≠ "" →
  PlanStepResultDocument_ok doc = true → NoDup (map fst (doc_dependency_result_digests doc)) →
  (Z.of_nat (String.length (result_canonical_json doc)) <= MAX_PLAN_STEP_RESULT_BYTES)%Z →
  psr_step_run_id x = doc_step_run_id doc →
  entry_written c (result_entry i s 0 (result_metadata doc) doc) now d (w_db w) →
  read_document c (doc_plan_id doc) i x w = (Ok (in_key_order doc), w).
Proof.
  intros Hs Hne Hok Hn Hl Hx [Hd _].
  assert (Hids : identifier (doc_plan_id doc) = true ∧ identifier (doc_step_run_id doc) = true).
  { unfold PlanStepResultDocument_ok, uuid_pattern_field in Hok. rewrite !andb_true_iff in Hok.
    split; apply uuid_identifier; tauto. }
  assert (Hg : memory_get c i (tc_session_id c) w =
    (Ok (Some (result_entry i s now (sorted_metadata doc) doc)), w)).
  { unfold memory_get, get_row, mbind, stM_bind, gets. rewrite Hd. unfold exact_row. simpl.
    rewrite lookup_insert_eq. simpl. unfold in_workspace. simpl.
    rewrite Hs, !bool_decide_true by done. cbn [andb]. unfold from_row, lift.
    cbn [entry_row result_entry mem_metadata_json me_metadata].
    rewrite result_metadata_reads_back by apply Hids. simpl. by destruct s. }
  unfold read_document, mbind at 1, stM_bind. rewrite Hg. unfold or_raise, require, mbind, stM_bind.
  cbn -[is_result_entry Z.leb model_validate_json result_entry MAX_PLAN_STEP_RESULT_BYTES].
  assert (is_result_entry (doc_plan_id doc) (psr_step_run_id x)
    (result_entry i s now (sorted_metadata doc) doc) = true) as ->.
  { rewrite Hx. unfold is_result_entry, metadata_str. cbn. by rewrite !bool_decide_true. }
  cbn -[Z.leb model_validate_json result_canonical_json MAX_PLAN_STEP_RESULT_BYTES Z.of_nat].
  rewrite (proj2 (Z.leb_le _ _) Hl).
  cbn -[model_validate_json result_canonical_json]. by rewrite document_reads_back.
Qed.
End Stored.
