(* ===== verification/ToolResults.v ===== *)
(** * Recorded tool results

    What [persist_execution_result] leaves when it succeeds: the row of the execution has
    the status, the reference and the digest of the result, the latest checkpoint of the
    run says the same, and the reference leads back to the text.  And when it cannot
    succeed: when the run has moved on from the lease that the call began with. *)

From S2P Require Import Prelude Records Errors Json Regex Redaction Tenancy.
From S2P Require Import WorkflowModels Storage Checkpoint Events WorkflowRepository.
From S2P Require Import PlanDecisions PlanAttempts MemoryRepository PlanResults.
From S2P Require Import WorkflowCoordinator.
From S2P Require Import Recovery Continuation Tools Scheduler WorkflowSpec.
From S2P Require Import WorkflowRefinement ExecutionRefinement PlanRefinement.
From S2P Require Import SchedulerRefinement PlanRounds Leases MemoryTheorems.
From S2P Require Import WorkflowOperations CheckpointWriting StoredResults.
From S2P Require Import ToolFacts.
From Stdlib Require Import Ascii.
From stdpp Require Import base gmap strings list relations.

Local Notation scoped := WorkflowCoordinator.scoped.

(** ** Texts in metadata *)

Lemma printing_escape_char c : printing c = true → printing_text (escape_char c) = true.
Proof. by destruct c as [[] [] [] [] [] [] [] []]; vm_compute. Qed.

Lemma printing_escape s : printing_text s = true → printing_text (escape s) = true.
Proof.
  induction s as [|c s IH]; [done|]. cbn [printing_text String.list_ascii_of_string forallb].
  rewrite andb_true_iff. intros [Hc Hs]. cbn [escape]. rewrite printing_app.
  by rewrite (printing_escape_char c Hc), (IH Hs).
Qed.

Lemma printing_quotes s : printing_text s = true → printing_text (quoted s) = true.
Proof.
  intros Hs. unfold quoted. change (printing_text (escape s +:+ ch DQUOTE) = true).
  by rewrite printing_app, printing_escape.
Qed.

Lemma printing_join sep l :
  printing_text sep = true → Forall (λ s, printing_text s = true) l →
  printing_text (Json.join sep l) = true.
Proof.
  intros Hs. induction 1 as [|x l Hx Hl IH]; [done|]. destruct l as [|y l]; [done|].
  change (printing_text (x +:+ sep +:+ Json.join sep (y :: l)) = true).
  by rewrite !printing_app, Hx, Hs, IH.
Qed.

(** Values without numbers, all of whose texts are ASCII. *)
Fixpoint ascii_texts (j : json) : bool :=
  match j with
  | JNull | JBool _ => true
  | JInt _ | JFloat _ => false
  | JStr s => printing_text s
  | JArr l => forallb ascii_texts l
  | JObj l => forallb (λ kv, printing_text kv.1 && ascii_texts kv.2) l
  end.

Lemma printing_json : ∀ j, ascii_texts j = true → printing_text (print_json j) = true.
Proof.
  fix IH 1. intros j. destruct j as [| [|]| | |s|l|l]; [done..| | |].
  - exact (printing_quotes s).
  - intros Hl. change (printing_text ("[" +:+ Json.join "," (map print_json l) +:+ "]") = true).
    rewrite !printing_app, printing_join; [done|done|].
    induction l as [|x l IHl]; [constructor|]. cbn [ascii_texts forallb] in Hl.
    apply andb_true_iff in Hl as [Hx Hl]. constructor; [by apply IH|by apply IHl].
  - intros Hl. cbn [print_json]. rewrite !printing_app, printing_join; [done|done|].
    apply Forall_fmap. rewrite sort_by_perm.
    induction l as [|[k v] l IHl]; [constructor|]. cbn [ascii_texts forallb fst snd] in Hl.
    apply andb_true_iff in Hl as [[Hk Hv]%andb_true_iff Hl].
    constructor; [|by apply IHl]. simpl. by rewrite !printing_app, printing_quotes, IH.
Qed.

Lemma json_dumps_ascii_texts j : ascii_texts j = true → json_dumps_ascii j = print_json j.
Proof. intros Hj. unfold json_dumps_ascii. by apply ascii_printing, printing_json. Qed.

(** ASCII text that is not empty and has no blanks around it. *)
Definition tidy (s : string) : bool :=
  printing_text s && negb (String.eqb s "") && String.eqb (py_strip s) s.

Lemma tidy_true s : tidy s = true → printing_text s = true ∧ s ≠ "" ∧ py_strip s = s.
Proof.
  unfold tidy. rewrite !andb_true_iff, negb_true_iff, String.eqb_eq, String.eqb_neq. tauto.
Qed.

(** The metadata of a tool result as it is read. *)
Definition tool_metadata (call name e st : string) : list (string * json) :=
  [("execution_id", JStr e); ("result_status", JStr st); ("tool_call_id", JStr call);
   ("tool_name", JStr name)].

Lemma tool_metadata_reads_back call name e st :
  printing_text call = true → printing_text name = true → printing_text e = true →
  printing_text st = true →
  load_metadata (metadata_json [("tool_call_id", JStr call); ("tool_name", JStr name);
                                ("execution_id", JStr e); ("result_status", JStr st)]) =
  Ok (tool_metadata call name e st).
Proof.
  intros Hc Hn He Hs. unfold metadata_json, load_metadata.
  rewrite json_dumps_ascii_texts by (cbn [ascii_texts forallb fst snd]; by rewrite Hc, Hn, He, Hs).
  by rewrite json_loads_print.
Qed.

(** ** Steps of a computation *)

Lemma require_run {S B} c e (f : unit → stM S exn B) s :
  c = true → (require c e ≫= f) s = f tt s.
Proof. by intros ->. Qed.

Lemma unit_of_work_run {A} (m : M A) w a w' :
  m w = (Ok a, w') → unit_of_work (on_connection m) w = (Ok a, w').
Proof.
  unfold unit_of_work, write_transaction, transaction, on_connection, mbind, stM_bind.
  cbn [tx_world]. by intros ->.
Qed.

(** ** The entry of a result *)

Lemma tool_reference i : UUID_PATTERN i = true → TOOL_RESULT_REF ("memory://" +:+ i) = Some i.
Proof.
  intros Hi. pose proof (uuid_reference i Hi) as Hr. unfold RESULT_REF in Hr.
  change (strip "memory:" ("memory:" +:+ i)) with (Some i) in Hr.
  unfold TOOL_RESULT_REF. change (strip "memory://" ("memory://" +:+ i)) with (Some i).
  exact Hr.
Qed.

Definition tool_entry (i s content call name e st : string) (created_at : Z)
    (metadata : list (string * json)) : MemoryEntry := {|
  me_id := i; me_content := content; me_type := "tool_result"; me_session_id := Some s;
  me_role := "tool"; me_turn_index := 0; me_created_at := created_at;
  me_metadata := metadata |}.

Section Entries.
Context `{envi : Env} (c : TenantContext).

(** What is given to the store. *)
Definition given_metadata (call name e st : string) : list (string * json) :=
  [("tool_call_id", JStr call); ("tool_name", JStr name); ("execution_id", JStr e);
   ("result_status", JStr st)].

(** An entry of the context's session is stored as it is. *)
Lemma prepared_as_given s e p :
  me_type e ≠ "chat_message" → me_session_id e = Some s →
  prepare_entry c e = Ok p → p = e.
Proof.
  intros Ht He. unfold prepare_entry. rewrite bool_decide_false by done. rewrite He.
  intros [_ Hp]%ensure_bind_Ok. by injection Hp.
Qed.

Lemma from_row_id m e : from_row m = Ok e → me_id e = mem_id m.
Proof. unfold from_row. intros (md&_&Hm)%result_bind_Ok. by injection Hm as <-. Qed.

Lemma persist_tool_result_Ok s content call name e st w r w' :
  tc_session_id c = Some s → s ≠ "" →
  persist_tool_result c c content call name e st w = (Ok r, w') →
  let i := env_uuid4 (w_draws w) in
  ptr_result_ref r = "memory://" +:+ i ∧ ptr_result_digest r = env_sha256_hex content ∧
  ∃ now, entry_written c (tool_entry i s content call name e st 0
                            (given_metadata call name e st)) now (w_db w) (w_db w').
Proof.
  intros Hs Hne. unfold persist_tool_result. intros [_ H]%require_bind_Ok.
  apply bind_Ok in H as (n&w1&Hn&H). unfold new_entry in Hn. rewrite Hs in Hn.
  assert (normalize_session_scope (Some s) = Some s) as E by (by destruct s).
  rewrite E in Hn. clear E.
  apply bind_Ok in Hn as (i&w2&[= <- <-]&[= <- <-]).
  apply bind_Ok in H as (x&w2&(p&now&Hp&Hw&Hg)%save_Ok&H). injection H as <- <-.
  apply (prepared_as_given s) in Hp as ->; [|done..].
  apply (written_reads_back _ _ _ _ _ _ _ Hw eq_refl) in Hg.
  apply from_row_id in Hg. cbn [ptr_result_ref ptr_result_digest]. rewrite Hg.
  split; [reflexivity|]. split; [reflexivity|]. exists now. exact Hw.
Qed.

(** The row of the entry is in the table. *)
Definition holds_result (i s content call name e st : string) (now : Z) (d : Db) : Prop :=
  memory_entries d !! i =
    Some (entry_row c (tool_entry i s content call name e st 0
                         (given_metadata call name e st)) now).

Lemma tool_entry_reads_back i s content call name e st now w :
  tc_session_id c = Some s → s ≠ "" → tidy call = true → tidy name = true → tidy e = true →
  printing_text st = true →
  holds_result i s content call name e st now (w_db w) →
  memory_get c i (tc_session_id c) w =
    (Ok (Some (tool_entry i s content call name e st now (tool_metadata call name e st))), w).
Proof.
  intros Hs Hne [Hc _]%tidy_true [Hn _]%tidy_true [He _]%tidy_true Ht Hi.
  unfold memory_get, get_row, mbind, stM_bind, gets, exact_row. rewrite Hi.
  simpl. unfold in_workspace. simpl. rewrite Hs, !bool_decide_true by done.
  cbn [andb]. unfold from_row, lift.
  cbn [entry_row tool_entry mem_metadata_json me_metadata]. unfold given_metadata.
  rewrite tool_metadata_reads_back by done. simpl. by destruct s.
Qed.

Lemma stored_texts str_of i s content call name e st now :
  let x := tool_entry i s content call name e st now (tool_metadata call name e st) in
  Continuation.metadata_text str_of "tool_call_id" x = py_strip call ∧
  Continuation.metadata_text str_of "tool_name" x = py_strip name ∧
  Continuation.metadata_text str_of "execution_id" x = py_strip e ∧
  Continuation.metadata_text str_of "result_status" x = py_strip st.
Proof. done. Qed.

(** [load_tool_result] gives the text back to whoever names the call. *)
Lemma load_tool_result_Ok str_of i s content call name e st now w :
  tc_session_id c = Some s → s ≠ "" → UUID_PATTERN i = true →
  tidy call = true → tidy name = true → tidy e = true → tidy st = true →
  holds_result i s content call name e st now (w_db w) →
  load_tool_result str_of c ("memory://" +:+ i) (env_sha256_hex content)
    (Some e) (Some call) (Some name) w =
  (Ok (MkPersistedToolResult i ("memory://" +:+ i) (env_sha256_hex content) content call name),
   w).
Proof.
  intros Hs Hne Hu Hc Hn He Ht Hi.
  pose proof (tool_entry_reads_back i s content call name e st now w Hs Hne Hc Hn He
    (proj1 (tidy_true _ Ht)) Hi) as Hg.
  apply tidy_true in Hc as (_&Hc0&Hc), Hn as (_&Hn0&Hn), He as (_&He0&He), Ht as (_&Ht0&Ht).
  unfold load_tool_result. rewrite (tool_reference i Hu).
  rewrite (bind_run (or_raise _ (Some i)) _ w i w eq_refl).
  rewrite (bind_run _ _ w _ w (unit_of_work_run _ _ _ _ Hg)).
  rewrite (bind_run (or_raise _ (Some _)) _ w _ w eq_refl).
  rewrite require_run by done. cbv zeta.
  destruct (stored_texts str_of i s content call name e st now) as (->&->&->&->).
  rewrite Hc, Hn, He, Ht.
  rewrite require_run by (cbn [forallb]; by rewrite !(proj2 (String.eqb_neq _ _))).
  do 4 (rewrite require_run by (by apply bool_decide_eq_true)). done.
Qed.
End Entries.

(** ** A result that is recorded *)

(** The execution has ended with this status, its row and the latest checkpoint of the run
    have the reference and the digest of the text, and the text is in memory. *)
Record result_recorded `{Env} (c : TenantContext) (name call e content : string)
    (status : ExecutionStatus) (i s : string) (d : Db) : Prop := MkResultRecorded {
  rrd_row : ∃ x, execution_scope_predicate d c e = Some x ∧
    exe_execution_status x = status ∧
    exe_result_ref x = Some ("memory://" +:+ i) ∧
    exe_result_digest x = Some (env_sha256_hex content);
  rrd_checkpoint : ∃ k p,
    latest_checkpoint_row (checkpoint_scope_predicate d c) = Some k ∧
    decode_checkpoint (checkpoint_from_row k) =
      Ok (EXECUTION_RESULT_OBSERVED, PExecutionResultObserved p) ∧
    eop_execution_id p = e ∧ eop_result_status p = status ∧
    eop_result_ref p = "memory://" +:+ i ∧ eop_result_digest p = env_sha256_hex content;
  rrd_entry : ∃ now, holds_result c i s content call name e (enum_value status) now d;
  rrd_audit : ∃ j a, audit_logs d !! j = Some a ∧ aud_run_id a = tc_run_id c ∧
    aud_execution_id a = Some e ∧ aud_tool_name a = Some name;
}.

Section Recording.
Context `{envi : Env} (settings : Settings).

Local Notation own := (scoped (own_coordinator settings)).

Lemma audit_record_Ok c a w w' :
  audit_record (Some c) a w = (Ok tt, w') →
  ∃ x, w_db w' = (w_db w) <| audit_logs := <[aud_audit_id x := x]> (audit_logs (w_db w)) |> ∧
    aud_run_id x = tc_run_id c ∧ aud_execution_id x = aen_execution_id a ∧
    aud_tool_name x = aen_tool_name a.
Proof.
  unfold audit_record, insert_audit_log. intros (i&w1&Hi&H0)%bind_Ok. injection Hi as <- <-.
  apply bind_Ok in H0 as (now&w2&Hn&H0). injection Hn as <- <-. unfold insert_audit_logs in H0.
  apply bind_Ok in H0 as (d&w3&Hd&H0). injection Hd as <- <-.
  apply require_bind_Ok in H0 as [Hx H0]. injection H0 as <-.
  match type of Hx with audit_logs_constraints _ ?x = _ => exists x end. done.
Qed.

Lemma result_dict_shape rid e st g f q cur :
  payload_shape EXECUTION_RESULT_OBSERVED (result_dict (Some rid) e st g f q cur) =
  Some (PExecutionResultObserved (MkExecutionResultObserved rid e st g f q cur cur)).
Proof. by destruct st, q. Qed.

Lemma result_dict_run rid e st g f q cur p :
  model_validate EXECUTION_RESULT_OBSERVED (result_dict rid e st g f q cur) = Some p →
  ∃ r, rid = Some r.
Proof. destruct rid; [by eexists|]. by destruct st, q. Qed.

(** The transaction of a result, from the entry on. *)
Definition settle (c : TenantContext) (l : RunLease) (content call name e : string)
    (old status : ExecutionStatus) (version : Z) (q ap : option string) (a : AuditEntry)
    : M ExecutionRecoveryRecord :=
  persisted ← persist_tool_result c c content call name e (enum_value status);
  updated ← complete_execution own l e old version status q
              (Some (ptr_result_ref persisted)) (Some (ptr_result_digest persisted));
  checkpoint own l (inl EXECUTION_RESULT_OBSERVED)
    (inr (result_dict (tc_run_id c) e status (ptr_result_digest persisted)
            (ptr_result_ref persisted) (xr_external_request_id updated)
            (result_cursor (tc_run_id c) call)))
    (execution_options ap e status (xr_version updated)) ;;
  audit_record (Some c) a ;;
  mret updated.

Lemma settle_Ok c l content call name e old status v q ap a s w x w' :
  rl_context l = c → tc_session_id c = Some s → s ≠ "" → aen_execution_id a = Some e →
  aen_tool_name a = Some name →
  settle c l content call name e old status v q ap a w = (Ok x, w') →
  result_recorded c name call e content status (env_uuid4 (w_draws w)) s (w_db w').
Proof.
  intros Hc Hs Hne Hae Han. unfold settle. intros (r&w1&Hp&H0)%bind_Ok.
  apply (persist_tool_result_Ok c s) in Hp as (Href&Hdig&now&Hent&_); [|done..].
  rewrite Href, Hdig in H0. set (i := env_uuid4 (w_draws w)) in *.
  apply bind_Ok in H0 as (u&w2&Hu&H0).
  apply update_metadata_Ok in Hu as (y&now'&Hy&_&_&Hd2&->).
  apply bind_Ok in H0 as (cw&w3&Hk&H0).
  apply dict_checkpoint_Ok in Hk as (p&k&Hm&Hl&Hdec&Hd3); [|done|done].
  apply bind_Ok in H0 as ([]&w4&(z&Hd4&Hz1&Hz2&Hz3)%audit_record_Ok&H0). injection H0 as _ <-.
  rewrite Hc in *. pose proof (result_dict_run _ _ _ _ _ _ _ _ Hm) as [rid Hrid].
  rewrite Hrid in Hm.
  apply (model_validate_shape _ _ _ _ (result_dict_shape _ _ _ _ _ _ _)) in Hm as ->.
  apply execution_scope_Some in Hy as (_&Hye&Hyc).
  set (y' := metadata_columns _ now' y) in Hd2.
  assert (execution_scope y' = execution_scope y ∧ exe_execution_id y' = e ∧
          exe_execution_status y' = status ∧ exe_result_ref y' = Some ("memory://" +:+ i) ∧
          exe_result_digest y' = Some (env_sha256_hex content)) as (Hy1&Hy2&Hy3&Hy4&Hy5).
  { unfold y', metadata_columns, set_execution_status. cbn [xm_target_status].
    by destruct (exec_terminal status). }
  split.
  - exists y'. split; [|done]. rewrite Hd4, Hd3, Hd2, <-Hy2.
    apply (execution_scope_with (w_db w1) c y'). by rewrite Hy1.
  - eexists k, _. split_and!; [|exact Hdec|done..]. by rewrite Hd4.
  - exists now. rewrite Hd4, Hd3, Hd2. unfold holds_result. cbn [memory_entries].
    change (memory_entries (w_db w1) !! i =
      Some (entry_row c (tool_entry i s content call name e (enum_value status) 0
                           (given_metadata call name e (enum_value status))) now)).
    rewrite Hent. exact (lookup_insert_eq _ _ _).
  - exists (aud_audit_id z), z. rewrite Hd4, Hz1, Hz2, Hz3.
    split; [exact (lookup_insert_eq _ _ _)|done].
Qed.

Lemma lease_for_observed_result_Ok l c w l' w' :
  lease_for_observed_result l c w = (Ok l', w') → rl_context l' = c ∧ w' = w.
Proof.
  unfold lease_for_observed_result. intros [Hc%bool_decide_eq_true H0]%require_bind_Ok.
  apply bind_Ok in H0 as (o&w1&[-> ->]%get_run_Ok&H0). injection H0 as <- <-. split; [|done].
  repeat case_match; done.
Qed.

Lemma commit_result_Ok p n c call r status q s sv l sv' :
  tc_session_id c = Some s → s ≠ "" →
  commit_result settings p n c call r status q sv = (Ok l, sv') →
  result_recorded c n (or_else call (pe_execution_id p)) (pe_execution_id p) (ter_content r)
    status (env_uuid4 (w_draws (xs_world (ts_exec sv.1)))) s (db_of sv'.1).
Proof.
  intros Hs Hne. unfold commit_result. intros (u&s1&(w1&Hw&->)%on_store_Ok&H0)%bind_Ok.
  injection Hw as <- <-. apply bind_Ok in H0 as (l1&s2&(w2&Hl&->)%on_store_Ok&H0).
  apply lease_for_observed_result_Ok in Hl as [Hl ->].
  apply bind_Ok in H0 as (t&s3&(w3&Hp&->)%on_store_Ok&H0).
  apply bind_Ok in H0 as (v&s4&Hv&H0). injection Hv as <- <-.
  apply bind_Ok in H0 as (x&s5&(w5&Hx&->)%on_store_Ok&H0).
  apply bind_Ok in H0 as (u1&s6&Hu&H0). injection Hu as <- <-.
  apply bind_Ok in H0 as (k&s7&(w7&Hk&->)%on_store_Ok&H0).
  apply bind_Ok in H0 as ([]&s8&(w8&Ha&->)%on_store_Ok&H0). injection H0 as <- <-.
  eapply (settle_Ok c l1 _ _ _ _ EXEC_EXECUTING status); [exact Hl|exact Hs|exact Hne|..];
    [| |unfold settle; erewrite bind_run by exact Hp; erewrite bind_run by exact Hx;
        erewrite bind_run by exact Hk; erewrite bind_run by exact Ha; reflexivity]; done.
Qed.

Lemma tool_transaction_Ok {A} (m : TPM A) sv a sv' :
  tool_transaction m sv = (Ok a, sv') → m sv = (Ok a, sv').
Proof. unfold tool_transaction, transaction. by destruct (m sv) as [[]]. Qed.

Lemma publish_result_event_db ev n r c call label s u s' :
  publish_result_event ev n r c call label s = (Ok u, s') → db_of s' = db_of s.
Proof. unfold publish_result_event. case_bool_decide; apply publish_db. Qed.

Lemma persist_execution_result_Ok ev p n c call r h t s sv sv' :
  tc_session_id c = Some s → s ≠ "" →
  persist_execution_result settings ev p n c call r h t sv = (Ok tt, sv') →
  result_recorded c n (or_else call (pe_execution_id p)) (pe_execution_id p) (ter_content r)
    (default (terminal_execution_status r) t)
    (env_uuid4 (w_draws (xs_world (ts_exec sv.1)))) s (db_of sv'.1).
Proof.
  intros Hs Hne. unfold persist_execution_result. intros (q&s1&Hq&H0)%bind_Ok.
  injection Hq as <- <-. apply require_bind_Ok in H0 as [_ H0].
  apply bind_Ok in H0 as (l&s2&Hl%tool_transaction_Ok&H0).
  apply (commit_result_Ok _ _ _ _ _ _ _ s) in Hl; [|done..].
  apply bind_Ok in H0 as (u&s3&Hu&H0).
  assert (Hd : db_of sv'.1 = db_of s2.1); [|by rewrite Hd].
  assert (Hd3 : db_of s3.1 = db_of s2.1).
  { destruct h; [|by injection Hu as _ <-]. by injection Hu as _ <-. }
  rewrite <-Hd3. unfold on_tools in H0.
  destruct (publish_result_event _ _ _ _ _ _ s3.1) as [x s4] eqn:E.
  injection H0 as -> <-. by eapply publish_result_event_db.
Qed.

(** ** Results that cannot be recorded *)

Lemma update_metadata_fenced l i s v m w r w' :
  fenced l (w_db w) → update_metadata own l i s v m w ≠ (Ok r, w').
Proof.
  intros Hf (o&w1&Ht&Ho)%write_connection_Ok%bind_Ok. destruct o as [x|];
    [|by apply execution_conflict_raises in Ho].
  unfold update_execution_metadata in Ht. apply bind_Ok in Ht as (u&w2&Hu&H0).
  injection Hu as <- <-. apply bind_Ok in H0 as (b&w3&Hb&H0).
  assert (b = false) as ->; [|done].
  pose proof (wp_has_current_lease l (λ b _, b = false) (λ _, True) w) as Hw.
  unfold wp in Hw. rewrite Hb in Hw. apply Hw. apply Hf.
Qed.

Lemma same_runs_persist c content call n e st w r w' :
  persist_tool_result c c content call n e st w = (Ok r, w') → same_runs w w'.
Proof.
  unfold persist_tool_result. intros [_ H0]%require_bind_Ok.
  apply bind_Ok in H0 as (x&w1&Hx&H0). unfold new_entry in Hx.
  apply bind_Ok in Hx as (i&w2&Hi&Hx). injection Hi as <- <-. injection Hx as <- <-.
  apply bind_Ok in H0 as (y&w3&Hy&H0). injection H0 as _ <-.
  match type of Hy with save _ ?x ?w = _ => pose proof (same_runs_save c x w) as Hs end.
  rewrite Hy in Hs. exact Hs.
Qed.

(** The run goes on under a newer version than that of the lease, and nobody has asked to
    cancel it. *)
Definition refreshed (c : TenantContext) (l : RunLease) (d : Db) : Prop :=
  ∃ r, context_predicate d c = Some r ∧ run_cancel_requested_at r = None ∧
    (rl_version l < run_version r)%Z.

Lemma refreshed_fenced c l d : rl_context l = c → refreshed c l d → fenced l d.
Proof.
  intros <- (r&Hr&_&Hv). apply superseded_fenced.
  pose proof (context_predicate_Some _ _ _ Hr) as [Hl Hs]. unfold run_scope in Hs.
  apply in_scope_true in Hs as (_&_&_&Hs). exists (run_run_id r), r.
  split_and!; [done|done|by left].
Qed.

Lemma commit_result_refreshed p n c call r status q sv l sv' :
  refreshed c (pe_lease p) (db_of sv.1) →
  commit_result settings p n c call r status q sv ≠ (Ok l, sv').
Proof.
  intros Hr. unfold commit_result. intros (u&s1&(w1&Hw&->)%on_store_Ok&H0)%bind_Ok.
  injection Hw as <- <-. apply bind_Ok in H0 as (l1&s2&(w2&Hl&->)%on_store_Ok&H0).
  assert (l1 = pe_lease p ∧ w2 = xs_world (ts_exec sv.1) ∧ rl_context l1 = c) as (->&->&Hc).
  { unfold lease_for_observed_result in Hl.
    apply require_bind_Ok in Hl as [Hc%bool_decide_eq_true Hl].
    apply bind_Ok in Hl as (o&w3&[-> ->]%get_run_Ok&Hl). injection Hl as <- <-.
    destruct Hr as (x&Hx&Hn&Hv). unfold db_of in Hx. rewrite Hx.
    cbn [fmap option_fmap option_map run_record rr_version rr_cancel_requested_at
         rr_lease_expires_at].
    rewrite Hn, (proj2 (Z.eqb_neq _ _)) by lia. by destruct (run_lease_expires_at x). }
  apply bind_Ok in H0 as (t&s3&(w3&Hp%same_runs_persist&->)%on_store_Ok&H0).
  apply bind_Ok in H0 as (v&s4&Hv&H0). injection Hv as <- <-.
  apply bind_Ok in H0 as (x&s5&(w5&Hx&->)%on_store_Ok&_). revert Hx.
  apply update_metadata_fenced. eapply fenced_same_runs; [exact Hp|].
  by apply (refreshed_fenced c).
Qed.

Lemma persist_execution_result_refreshed ev p n c call r h t sv :
  refreshed c (pe_lease p) (db_of sv.1) →
  ∃ e sv', persist_execution_result settings ev p n c call r h t sv = (Err e, sv') ∧
    db_of sv'.1 = db_of sv.1.
Proof.
  intros Hr. unfold persist_execution_result, mbind, stM_bind at 1. cbn [gets].
  set (recorded := rv_external_request_id sv.2). unfold require, stM_bind at 1.
  destruct (negb _); [|by eexists _, _]. unfold mret, stM_ret, stM_bind, tool_transaction,
    transaction.
  set (q := match ter_external_request_id r with None | Some "" => _ | s => s end).
  destruct (commit_result settings p n c call r _ q sv) as [[l|e] sv'] eqn:E.
  - by apply commit_result_refreshed in E.
  - by eexists _, _.
Qed.
End Recording.

(** ** Calls that report success *)

Section Success.
Context `{envi : Env}.
Context (unicode_alnum : N → bool) (resolve : string → list string)
  (casefold uuid5 : string → string).
Context (settings : Settings) (guarded_tools : list string) (guard_timeout : Z)
  (expires : ToolState * RunVars → bool) (has_database has_event_router : bool).

(** The flag that a call was cancelled before its dispatch is the scheduler's. *)
Definition same_flag : relation (ToolState * RunVars) := λ sv sv',
  rv_cancelled_before_dispatch sv'.2 = rv_cancelled_before_dispatch sv.2.

Definition leaves_flag (b : ToolBuilder) : Prop :=
  ∀ params invocation roots recorder, tb_build b params = Ok invocation →
    moves same_flag (invocation roots recorder).

Lemma guard_run_Ok {S A} n e t (m : stM S exn A) s a s' :
  guard_run n e t m s = (Ok a, s') → m s = (Ok a, s').
Proof.
  unfold guard_run. intros [_ H0]%require_bind_Ok. apply bind_Ok in H0 as (l&s1&Hl&H0).
  injection Hl as <- <-. by destruct (e s).
Qed.

Lemma dispatch_flagged b params p i roots c call sv r sv' :
  leaves_flag b → tb_build b params = Ok i →
  dispatch resolve settings has_event_router b p i roots c call sv = (Ok r, sv') →
  rv_cancelled_before_dispatch sv'.2 = true → ter_status r = TOOL_CANCELLED.
Proof.
  intros Hb Hi. unfold dispatch. intros (o&s1&Ho&H0)%bind_Ok.
  apply bind_Ok in H0 as (u&s2&Hu&H0). injection Hu as <- <-. destruct o as [x|].
  - injection H0 as <- <-. intros _. unfold check_pre_dispatch_cancellation in Ho.
    apply bind_Ok in Ho as (l&s3&_&Ho). apply require_bind_Ok in Ho as [_ Ho].
    apply require_bind_Ok in Ho as [_ Ho]. apply bind_Ok in Ho as (b'&s4&_&Ho).
    destruct b'; [|done]. apply bind_Ok in Ho as (u&s5&_&Ho). by injection Ho as <- _.
  - apply bind_Ok in H0 as (u&s3&Hu&H0). injection Hu as <- <-. intros Hf.
    pose proof (Hb params i (map resolve roots)
      (Some (record_progress settings (pe_execution_id p))) Hi) as Hm.
    match type of H0 with _ ?s = _ => specialize (Hm s) end.
    rewrite H0 in Hm. unfold same_flag in Hm. cbn [snd] in Hm. rewrite Hf in Hm. done.
Qed.

Lemma guarded_dispatch_inl b params p i roots c call sv r sv' :
  leaves_flag b → tb_build b params = Ok i →
  guarded_dispatch resolve settings guard_timeout expires has_event_router b p i roots c call
    sv = (Ok (inl r), sv') → ter_status r ≠ TOOL_SUCCESS.
Proof.
  intros Hb Hi [H0|(e&s1&_&H0)]%catch_Ok.
  - apply bind_Ok in H0 as (x&s1&Hx%guard_run_Ok&H0). apply bind_Ok in H0 as (f&s2&Hf&H0).
    injection Hf as <- <-. destruct (rv_cancelled_before_dispatch s1.2) eqn:E; [|done].
    injection H0 as <- <-. by rewrite (dispatch_flagged _ _ _ _ _ _ _ _ _ _ Hb Hi Hx E).
  - destruct (fence_error e); [done|]. apply bind_Ok in H0 as (f&s2&_&H0).
    apply bind_Ok in H0 as (u&s3&_&H0). by injection H0 as <- _.
Qed.

Lemma durable_call_inl b raw params c call s r s' :
  leaves_flag b →
  durable_call unicode_alnum resolve casefold uuid5 settings guarded_tools guard_timeout
    expires has_database has_event_router b raw params c call s = (Ok (inl r), s') →
  ter_status r ≠ TOOL_SUCCESS.
Proof.
  intros Hb. unfold durable_call. intros (input&_&H0)%lift_bind_Ok.
  apply lift_bind_Ok in H0 as (m&_&H0). cbv zeta in H0.
  destruct (pd_requires_approval _).
  { apply bind_Ok in H0 as (x&s1&Hx&H0). injection H0 as <- _. unfold request_approval in Hx.
    apply bind_Ok in Hx as (a&s2&_&Hx). apply bind_Ok in Hx as (u&s3&_&Hx).
    by injection Hx as <- _. }
  destruct (negb _).
  { apply bind_Ok in H0 as (u&s1&_&H0). apply bind_Ok in H0 as (u1&s2&_&H0).
    by injection H0 as <- _. }
  apply lift_bind_Ok in H0 as (i&Hi&H0). apply bind_Ok in H0 as ([p v]&s1&_&H0).
  apply bind_Ok in H0 as (u&s2&_&H0). apply bind_Ok in H0 as ([x v']&s3&Hx&H0).
  unfold run_vars in Hx.
  destruct (guarded_dispatch _ _ _ _ _ _ _ _ _ _ _ _) as [[y|e] [s4 v4]] eqn:E; [|done].
  injection Hx as <- <- <-. injection H0 as H0 <-. destruct y as [y|y]; [|done].
  injection H0 as <-. by eapply guarded_dispatch_inl.
Qed.

(** A success has been recorded, and the record leads back to the text. *)
Lemma run_durable_success b raw params c call sid s r s' :
  tc_session_id c = Some sid → sid ≠ "" → leaves_flag b →
  run_durable unicode_alnum resolve casefold uuid5 settings guarded_tools guard_timeout
    expires has_database has_event_router b raw params c call s = (Ok r, s') →
  ter_status r = TOOL_SUCCESS →
  ∃ e i, result_recorded c (tb_name b) (or_else call (env_uuid4 e)) (env_uuid4 e)
           (ter_content r) EXEC_SUCCEEDED (env_uuid4 i) sid (db_of s').
Proof.
  intros Hs Hne Hb. unfold run_durable. intros (o&s1&Ho&H0)%bind_Ok Hr.
  apply catch_Ok in Ho as [Ho|(e&s2&_&Ho)].
  - destruct o as [x|[[p v] x]].
    { injection H0 as <- <-. by apply durable_call_inl in Ho. }
    apply bind_Ok in H0 as (u&s2&Hu&H0). injection H0 as <- <-. unfold with_vars in Hu.
    destruct (persist_execution_result _ _ _ _ _ _ _ _ _ _) as [[[]|e] [s3 v3]] eqn:E; [|done].
    injection Hu as _ <-. apply (persist_execution_result_Ok _ _ _ _ _ _ _ _ _ sid) in E;
      [|done..]. cbn [fst] in E. assert (∃ n, pe_execution_id p = env_uuid4 n) as [n Hn].
    { unfold durable_call in Ho. apply lift_bind_Ok in Ho as (?&_&Ho).
      apply lift_bind_Ok in Ho as (?&_&Ho). cbv zeta in Ho. destruct (pd_requires_approval _);
        [by apply bind_Ok in Ho as (?&?&_&?)|]. destruct (negb _).
      { apply bind_Ok in Ho as (?&?&_&Ho). by apply bind_Ok in Ho as (?&?&_&?). }
      apply lift_bind_Ok in Ho as (?&_&Ho). apply bind_Ok in Ho as ([p1 v1]&s4&Hp&Ho).
      apply bind_Ok in Ho as (?&?&_&Ho). apply bind_Ok in Ho as ([[y|y] ?]&?&_&Ho); [done|].
      injection Ho as <- _ _ _. unfold prepare_execution in Hp.
      apply bind_Ok in Hp as (?&s5&_&Hp). apply bind_Ok in Hp as (j&s6&Hj&Hp).
      apply on_db_Ok in Hj as (w&Hj&->). injection Hj as <- _.
      apply bind_Ok in Hp as (?&?&_&Hp). injection Hp as <- _ _. by eexists. }
    rewrite Hn in E. unfold terminal_execution_status in E. cbn [default] in E. rewrite Hr in E.
    by eexists n, _.
  - destruct (conflict_error e); [done|]. apply bind_Ok in Ho as (u&s3&_&Ho).
    injection Ho as <- <-. by injection H0 as <- <-.
Qed.
End Success.
