(* ===== verification/ExecutionOutcomes.v ===== *)
(** * How an execution ends

    What a cancellation at a boundary leaves: a sealed run without a running attempt. *)

From S2P Require Import Prelude Records Errors Json Regex Redaction Tenancy.
From S2P Require Import WorkflowModels.
From S2P Require Import Storage Collections PlanStorage Checkpoint Events PlanValidation.
From S2P Require Import PlanSpec PlanRecords PlanReading WorkflowRepository.
From S2P Require Import PlanRepository.
From S2P Require Import PlanDecisions PlanAttempts MemoryRepository PlanResults.
From S2P Require Import WorkflowCoordinator PlanGenerator PlanService Recovery.
From S2P Require Import Continuation.
From S2P Require Import PlanExecution PlanLoop WorkflowSpec WorkflowRefinement.
From S2P Require Import PlanRefinement PlanAttemptRefinement PlanHistory PlanSystem.
From S2P Require Import ExecutionRefinement ExecutionFacts WorkflowHistory.
From S2P Require Import CheckpointWriting.
From stdpp Require Import base gmap strings list relations.

Section Ending.
Context `{envi : Env} (c : TenantContext).

(** The attempts of the run in the context. *)
Definition own_attempt (x : agent_plan_step_run) : Prop :=
  ∃ sid, tc_session_id c = Some sid ∧ step_run_scope x = run_key c sid (run_text c).

(** Identifiers of attempts are not given twice in a run. *)
Definition attempt_ids_unique (d : Db) : Prop :=
  ∀ i j x y, agent_plan_step_runs d !! i = Some x → agent_plan_step_runs d !! j = Some y →
    own_attempt x → own_attempt y → srn_step_run_id x = srn_step_run_id y → i = j.

(** No attempt of the run is running. *)
Definition idle (d : Db) : Prop :=
  ∀ i x, agent_plan_step_runs d !! i = Some x → own_attempt x → is_running x = false.

(** Rows written one after the other. *)
Lemma insert_attempts_Ok set_ (l : list (_ * agent_plan_step_run)) w u w' :
  insert_each (λ ix, check_constraints (agent_plan_step_runs_checks (set_ ix.2)) ;;
    d ← gets w_db;
    set_db (d <| agent_plan_step_runs := <[ix.1 := set_ ix.2]> (agent_plan_step_runs d) |>))
    l w = (Ok u, w') →
  ∀ j y, agent_plan_step_runs (w_db w') !! j = Some y →
    (∃ x, (j, x) ∈ l ∧ y = set_ x) ∨
    (agent_plan_step_runs (w_db w) !! j = Some y ∧ ∀ x, (j, x) ∉ l).
Proof.
  revert w. induction l as [|[i x] l IH]; intros w H j y Hy; simpl in H.
  { injection H as _ <-. right. split; [done|]. intros x. apply not_elem_of_nil. }
  apply bind_Ok in H as ([]&w1&H1&H). apply bind_Ok in H1 as ([]&w2&Hc&H1).
  destruct (check_constraints_cases (agent_plan_step_runs_checks (set_ x)) w)
    as [[E _]|(v&E&_)]; simpl in Hc; rewrite E in Hc; [|done]. injection Hc as <-.
  apply bind_Ok in H1 as (d&w2&[= <- <-]&[= <-]).
  destruct (IH _ H _ _ Hy) as [(x'&Hx'&->)|[Hj Hn]]; [left; exists x'; split; [by right|done]|].
  simpl in Hj. apply lookup_insert_Some in Hj as [[<- <-]|[Hne Hj]].
  - left. exists x. split; [by left|done].
  - right. split; [done|]. intros z [[= -> _]|Hz]%elem_of_cons; [done|by destruct (Hn z)].
Qed.

(** An update that ends attempts leaves the others running. *)
Lemma update_running_attempt_Ok sid r i v set_ w n w' :
  (∀ x, is_running (set_ x) = false) →
  update_running_attempt c sid r i v set_ w = (Ok n, w') →
  ∀ j y, agent_plan_step_runs (w_db w') !! j = Some y → is_running y = true →
    agent_plan_step_runs (w_db w) !! j = Some y ∧
    ¬ (step_run_scope y = run_key c sid r ∧ srn_step_run_id y = i ∧ srn_version y = v).
Proof.
  intros Hset H j y Hy Hr. unfold update_running_attempt in H.
  apply bind_Ok in H as (d&w1&[= <- <-]&H). apply bind_Ok in H as (u&w1&H1&[= _ <-]).
  destruct (insert_attempts_Ok _ _ _ _ _ H1 _ _ Hy) as [(x&_&->)|[Hj Hn]].
  { by rewrite Hset in Hr. }
  split; [done|]. intros (E1&E2&E3). apply (Hn y). apply elem_of_filter_bool. split.
  - by apply elem_of_map_to_list.
  - simpl. unfold run_key in E1. rewrite Hr, E3, Z.eqb_refl, !bool_decide_true; done.
Qed.

Lemma moves_later_Ok {A} (m : M A) w r w' : moves later m → m w = (r, w') → w_db w' = w_db w.
Proof. intros Hm H. specialize (Hm w). by rewrite H in Hm. Qed.

(** The attempt has ended, and no other has started. *)
Lemma cancel_step_attempt_Ok l y j w o w' :
  attempt_ids_unique (w_db w) → rl_context l = c → own_attempt y →
  agent_plan_step_runs (w_db w) !! j = Some y → is_running y = true →
  cancel_step_attempt c l (srn_step_run_id y) (srn_version y) w = (Ok o, w') →
  ∀ k z, agent_plan_step_runs (w_db w') !! k = Some z → is_running z = true →
    agent_plan_step_runs (w_db w) !! k = Some z ∧ k ≠ j.
Proof.
  intros Hu Hl (sid&Hsid&Hs) Hj Hr H. unfold cancel_step_attempt in H.
  apply bind_Ok in H as ([]&w1&H1&H).
  assert (E1 : w_db w1 = w_db w).
  { revert H1. apply moves_later_Ok, moves_later_read. auto with reads. }
  apply bind_Ok in H as (u&w2&[= <- <-]&H). apply bind_Ok in H as (b&w3&H3&H).
  apply (moves_later_Ok _ _ _ _ (later_has_current_lease c l)) in H3 as E3.
  apply require_bind_Ok in H as [_ H]. apply bind_Ok in H as (sid'&w4&H4&H).
  apply require_session_Ok in H4 as [-> H4]. assert (sid' = sid) as -> by congruence.
  apply bind_Ok in H as (d&w4&[= <- <-]&H). rewrite E3, E1 in H.
  unfold leased_run_id in H. rewrite Hl in H. fold (run_text c) in H.
  assert (Hin : y ∈ step_run_rows c (w_db w) sid (run_text c) (srn_step_run_id y)).
  { apply step_run_rows_elem. eauto. }
  destruct (head _) as [x|] eqn:Eh; [|by apply head_None in Eh; rewrite Eh in Hin; apply elem_of_nil in Hin].
  apply head_Some_elem_of, step_run_rows_elem in Eh as ((k0&Hk0)&Hx1&Hx2).
  assert (k0 = j) as -> by (eapply Hu; [exact Hk0|exact Hj|by exists sid|by exists sid|done]).
  assert (x = y) as -> by congruence.
  case_bool_decide as Ec; [unfold is_running in Hr; by rewrite Ec in Hr|].
  apply require_bind_Ok in H as [_ H]. apply bind_Ok in H as (now&w5&[= <- <-]&H).
  apply bind_Ok in H as (n&w6&H6&H). apply require_bind_Ok in H as [_ H].
  apply (read_only_Ok _ _ _ _ (read_only_step_run c _ _)) in H as ->.
  intros k z Hk Hz. eapply (update_running_attempt_Ok) in H6 as [H6 Hno]; [|done|exact Hk|done].
  simpl in H6. rewrite E3, E1 in H6. split; [done|]. intros ->.
  assert (z = y) as -> by congruence. by apply Hno.
Qed.

(** The running attempts that are read are those of the table. *)
Lemma read_running_Ok w l w' i x :
  read_running_step_attempts c (run_text c) w = (Ok l, w') →
  agent_plan_step_runs (w_db w) !! i = Some x → own_attempt x → is_running x = true →
  hydrate_step_run x ∈ l.
Proof.
  intros H Hi (sid&Hsid&Hs) Hr. unfold read_running_step_attempts in H.
  apply bind_Ok in H as (sid'&w1&H1&H). apply require_session_Ok in H1 as [-> H1].
  assert (sid' = sid) as -> by congruence. apply bind_Ok in H as (d&w1&[= <- <-]&[= <- _]).
  apply list_elem_of_fmap_2. rewrite sort_by_perm. apply elem_of_filter_bool.
  split; [|done]. unfold step_run_scope_predicate. apply elem_of_filter_bool.
  split; [by eapply rows_lookup|]. by apply bool_decide_eq_true.
Qed.

Lemma read_running_row w l w' r :
  read_running_step_attempts c (run_text c) w = (Ok l, w') → r ∈ l →
  ∃ i x, agent_plan_step_runs (w_db w) !! i = Some x ∧ own_attempt x ∧ is_running x = true ∧
    r = hydrate_step_run x.
Proof.
  intros H Hr. unfold read_running_step_attempts in H.
  apply bind_Ok in H as (sid&w1&H1&H). apply require_session_Ok in H1 as [-> H1].
  apply bind_Ok in H as (d&w1&[= <- <-]&[= <- _]).
  apply list_elem_of_fmap in Hr as (x&->&Hx). rewrite sort_by_perm in Hx.
  apply elem_of_filter_bool in Hx as [Hx Hrun].
  unfold step_run_scope_predicate in Hx. apply elem_of_filter_bool in Hx as [Hx Hs].
  apply elem_of_rows in Hx as [i Hi]. apply bool_decide_eq_true in Hs.
  exists i, x. split_and!; [done|by exists sid|done|done].
Qed.

(** The one running attempt, if any, ends. *)
Lemma running_attempts_end l lease w w1 u w' :
  attempt_ids_unique (w_db w) → rl_context lease = c →
  read_running_step_attempts c (run_text c) w = (Ok l, w1) →
  match l with
  | [] => mret tt
  | [x] => cancel_step_attempt c lease (psr_step_run_id x) (psr_version x) ;; mret tt
  | _ => throw (PlanExecutionBlocked "Plan run has multiple running step attempts")
  end w = (Ok u, w') → idle (w_db w').
Proof.
  intros Hu Hl Hrd H. destruct l as [|r [|]]; [| |done].
  - injection H as _ <-. intros i x Hi Hx. apply not_true_is_false. intros Hr.
    by eapply read_running_Ok, elem_of_nil in Hrd.
  - destruct (read_running_row _ _ _ r Hrd ltac:(by left)) as (j&y&Hj&Hy&Hr&->).
    apply bind_Ok in H as (o&w2&H&[= _ <-]). intros i x Hi Hx. apply not_true_is_false.
    intros Hrun. change (psr_step_run_id (hydrate_step_run y)) with (srn_step_run_id y) in H.
    change (psr_version (hydrate_step_run y)) with (srn_version y) in H.
    destruct (cancel_step_attempt_Ok _ _ _ _ _ _ Hu Hl Hy Hj Hr H _ _ Hi Hrun) as [Hi' Hne].
    pose proof (read_running_Ok _ _ _ _ _ Hrd Hi' Hx Hrun) as Hin.
    apply list_elem_of_singleton in Hin.
    apply Hne, (Hu _ _ x y); [done..|]. by injection Hin.
Qed.

Lemma idle_same d d' : agent_plan_step_runs d' = agent_plan_step_runs d → idle d → idle d'.
Proof. unfold idle. by intros ->. Qed.

(** The row of the run is sealed: cancelled, finished, and its last checkpoint says so. *)
Definition sealed_as (t : RunStatus) (d : Db) : Prop :=
  ∃ r f k rid, tc_run_id c = Some rid ∧ context_predicate d c = Some r ∧
    run_run_status r = t ∧ run_finished_at r = Some f ∧
    latest_checkpoint_row (checkpoint_scope_predicate d c) = Some k ∧
    decode_checkpoint (checkpoint_from_row k) = Ok (RUN_TERMINAL,
      PRunTerminal (MkRunTerminal rid t f (terminal_digest (Some rid) t f))).

Lemma cancel_leased_run_Ok settings original w terminal w' :
  attempt_ids_unique (w_db w) →
  cancel_leased_run settings c original w = (Ok (inr terminal), w') →
  idle (w_db w') ∧ sealed_as RUN_CANCELLED (w_db w').
Proof.
  intros Hu H. unfold cancel_leased_run in H. apply bind_Ok in H as (u&w1&[= <- <-]&H).
  apply read_bind_Ok in H as (o&_&H); [|auto with reads].
  apply or_raise_bind_Ok in H as (run&_&H). case_bool_decide; [done|].
  apply or_raise_bind_Ok in H as (owner&_&H). apply or_raise_bind_Ok in H as (expires&_&H).
  apply require_bind_Ok in H as [_ H]. apply require_bind_Ok in H as [_ H]. cbv zeta in H.
  set (lease := {| rl_context := c |}) in H.
  apply bind_Ok in H as (b&w1&H1&H).
  apply (moves_later_Ok _ _ _ _ (later_has_current_lease c lease)) in H1 as E1.
  apply require_bind_Ok in H as [_ H]. rewrite <- E1 in Hu.
  apply read_bind_Ok in H as (l&Hl&H); [|auto with reads].
  apply bind_Ok in H as ([]&w2&H2&H). apply bind_Ok in H as (t&w3&H3&[= _ <-]).
  assert (Hidle := running_attempts_end l lease w1 _ _ _ Hu eq_refl Hl H2).
  apply finish_run_with_checkpoint_Ok in H3 as (r&f&k&rid&?&?&?&?&?&?&_&_&_&_&E).
  split; [by eapply idle_same|]. by exists r, f, k, rid.
Qed.

(** A unit of work that commits has run its body. *)
Lemma unit_connected_Ok {A} (m : M A) w a w' :
  unit_of_work (on_connection m) w = (Ok a, w') → m w = (Ok a, w').
Proof.
  unfold unit_of_work, write_transaction, transaction, on_connection.
  unfold mbind, stM_bind, gets. simpl. destruct (m w) as [[b|e] w1]; simpl; [|done].
  by intros [= <- <-].
Qed.

Lemma on_world_Ok {A} (m : M A) x a x' :
  on_world m x = (Ok a, x') →
  m (xs_world x) = (Ok a, xs_world x') ∧ x' = x <| xs_world := xs_world x' |>.
Proof.
  unfold on_world. destruct (m (xs_world x)) as [r w]. by intros [= -> <-].
Qed.

Lemma load_run_Ok w run w' :
  load_run c w = (Ok run, w') → w' = w ∧ ∃ r, context_predicate (w_db w) c = Some r ∧
    run = run_record r.
Proof.
  unfold load_run. intros (o&w1&[-> Ho]%get_run_Ok&H)%bind_Ok.
  apply or_raise_Ok in H as [-> ->]. split; [done|]. symmetry in Ho.
  apply fmap_Some in Ho as (r&Hr&->). eauto.
Qed.

Lemma cancelled_before settings original w run w' :
  cancel_leased_run settings c original w = (Ok (inl run), w') →
  w' = w ∧ rr_status run = RUN_CANCELLED.
Proof.
  intros H. unfold cancel_leased_run in H. apply bind_Ok in H as (u&w1&[= <- <-]&H).
  apply read_bind_Ok in H as (o&_&H); [|auto with reads].
  apply or_raise_bind_Ok in H as (r&_&H). case_bool_decide; [by injection H as <- <-|].
  do 2 apply or_raise_bind_Ok in H as (?&_&H). do 2 apply require_bind_Ok in H as [_ H].
  apply bind_Ok in H as (b&w1&H1&H). apply require_bind_Ok in H as [_ H].
  do 3 apply bind_Ok in H as (?&?&_&H). done.
Qed.

(** What a cancellation at a boundary gives. *)
Lemma cancel_at_boundary_Ok settings router x out x' :
  attempt_ids_unique (w_db (xs_world x)) →
  cancel_at_boundary settings router c x = (Ok out, x') →
  peo_state out = OUTCOME_CANCELLED ∧ rr_status (peo_run out) = RUN_CANCELLED ∧
  (x' = x ∨
   (idle (w_db (xs_world x')) ∧ sealed_as RUN_CANCELLED (w_db (xs_world x')) ∧
    if router
    then ∃ e, run_status_event c (peo_plan out) = Ok e ∧ xs_events x' = xs_events x ++ [e]
    else xs_events x' = xs_events x)).
Proof.
  intros Hu H. unfold cancel_at_boundary in H. apply bind_Ok in H as (l&x1&[= <- <-]&H).
  apply read_bind_Ok in H as (u&_&H); [|apply read_only_on_world; auto with reads].
  apply bind_Ok in H as (ended&x1&[H1 E1]%on_world_Ok&H). apply unit_connected_Ok in H1.
  destruct ended as [run|terminal].
  - apply cancelled_before in H1 as [Hw Hr].
    apply read_bind_Ok in H as (plan&_&[= <- <-]); [|apply read_only_on_world; auto with reads].
    split_and!; [done|done|]. left. rewrite E1, Hw. by destruct x.
  - apply cancel_leased_run_Ok in H1 as [Hi Hs]; [|done].
    apply bind_Ok in H as (l&x2&[= <- <-]&H).
    apply read_bind_Ok in H as (plan&_&H); [|apply read_only_on_world; auto with reads].
    apply bind_Ok in H as (run&x3&[H3 E3]%on_world_Ok&H).
    apply load_run_Ok in H3 as [Hw3 (r&Hr&->)]. simpl in Hw3, Hr.
    assert (Hst : run_run_status r = RUN_CANCELLED).
    { destruct Hs as (r0&?&?&?&_&Hr0&?&_). congruence. }
    apply bind_Ok in H as ([]&x4&H4&[= <- <-]). simpl. split_and!; [done|done|]. right.
    destruct router.
    + apply lift_bind_Ok in H4 as (e&He&[= <-]). rewrite E3, E1. simpl. rewrite Hw3.
      split_and!; [done..|]. by exists e.
    + injection H4 as <-. rewrite E3, E1. simpl. by rewrite Hw3.
Qed.
End Ending.
