(* ===== verification/RecoveryWorkerFacts.v ===== *)
(** * What the recovery worker relies on

    After an interrupted execution was repeated, closed or blocked, the latest checkpoint of
    the run holds its result; so the next decision of the recovery service repeats nothing,
    and the worker's recursion ends.  A run that is blocked is sealed, and an execution that
    has ended cannot be blocked. *)

From S2P Require Import Prelude Records Errors Json Regex Redaction Tenancy.
From S2P Require Import WorkflowModels Storage Collections Checkpoint Events PlanRecords.
From S2P Require Import PlanReading.
From S2P Require Import WorkflowRepository PlanDecisions PlanAttempts MemoryRepository.
From S2P Require Import WorkflowCoordinator Recovery PlanGenerator PlanService.
From S2P Require Import Continuation.
From S2P Require Import Tools Scheduler PlanExecution PlanLoop RecoveryWorker.
From S2P Require Import WorkflowSpec.
From S2P Require Import WorkflowRefinement RecoveryRefinement ExecutionRefinement.
From S2P Require Import SchedulerRefinement RecoveryOutcomes CheckpointWriting Leases.
From S2P Require Import ToolFacts ToolResults ExecutionOutcomes.
From stdpp Require Import base gmap strings list relations sorting.

Local Notation scoped := WorkflowCoordinator.scoped.

(** ** The lease of the handle stays one of the run *)

Definition lease_context (s : ToolState) : TenantContext := rl_context (xs_lease (ts_exec s)).

Definition keeps_context (c : TenantContext) : relation ToolState := λ s s',
  lease_context s = c → lease_context s' = c.

Definition vars_keep_context (c : TenantContext) : relation (ToolState * RunVars) := λ s s',
  keeps_context c s.1 s'.1.

#[export] Instance keeps_context_preorder c : PreOrder (keeps_context c).
Proof. split; unfold keeps_context; [by intros s|intros s1 s2 s3; tauto]. Qed.

#[export] Instance vars_keep_context_preorder c : PreOrder (vars_keep_context c).
Proof. split; unfold vars_keep_context; [by intros s|by intros s1 s2 s3 ? ?; etrans]. Qed.

Section Keeping.
Context `{envi : Env} (c : TenantContext).

Lemma keeps_same {A} (m : TM A) :
  (∀ s, lease_context (m s).2 = lease_context s) → moves (keeps_context c) m.
Proof. intros Hm s. unfold keeps_context. by rewrite Hm. Qed.

Lemma keeps_modify_vars (f : ToolState * RunVars → RunVars) :
  moves (E:=exn) (vars_keep_context c) (modify (λ sv, (sv.1, f sv))).
Proof. intros s Hs. exact Hs. Qed.

Lemma keeps_on_db {A} (m : M A) : moves (keeps_context c) (on_db m).
Proof. apply keeps_same. intros s. rewrite on_db_run. by destruct (m _). Qed.

Lemma keeps_use_lease {A} (f : RunLease → M A) :
  moves (keeps_context c) (on_exec (use_current f)).
Proof.
  apply keeps_same. intros s. unfold on_exec, use_current, on_world, mbind, stM_bind, gets.
  by destruct (f _ _).
Qed.

Lemma keeps_on_tools {A} (m : TM A) :
  moves (keeps_context c) m → moves (vars_keep_context c) (on_tools m).
Proof.
  intros Hm s. unfold vars_keep_context, on_tools. specialize (Hm s.1). by destruct (m s.1).
Qed.

Lemma keeps_on_store {A} (m : M A) : moves (vars_keep_context c) (on_store m).
Proof. apply keeps_on_tools, keeps_on_db. Qed.

Lemma keeps_publish ev oc t l : moves (keeps_context c) (publish ev oc t l).
Proof.
  unfold publish. apply moves_bind; [apply _|by apply keeps_same|intros _].
  destruct oc as [x|]; [|apply moves_ret, _]. case_match; [|apply moves_ret, _].
  apply moves_bind_lift; [apply _|intros e _]. by apply keeps_same.
Qed.

Lemma keeps_publish_result ev n r oc i l :
  moves (keeps_context c) (publish_result_event ev n r oc i l).
Proof. unfold publish_result_event. case_match; apply keeps_publish. Qed.

Lemma keeps_with_vars {A} v (m : TPM A) :
  moves (vars_keep_context c) m → moves (keeps_context c) (with_vars v m).
Proof. intros Hm s. specialize (Hm (s, v)). unfold with_vars. by destruct (m (s, v)). Qed.

Lemma keeps_run_vars {A} v (m : TPM A) :
  moves (vars_keep_context c) m → moves (keeps_context c) (run_vars v m).
Proof.
  intros Hm s. specialize (Hm (s, v)). unfold run_vars. by destruct (m (s, v)) as [[] [? ?]].
Qed.

Lemma keeps_tool_transaction {A} (m : TPM A) :
  moves (vars_keep_context c) m → moves (vars_keep_context c) (tool_transaction m).
Proof.
  intros Hm s. specialize (Hm s). unfold tool_transaction, transaction.
  by destruct (m s) as [[a|e] s'].
Qed.

(** What is known of a result may be used by what follows. *)
Lemma keeps_bind_Ok {A B} (m : TPM A) (f : A → TPM B) (P : A → Prop) :
  moves (vars_keep_context c) m → (∀ s a s', m s = (Ok a, s') → P a) →
  (∀ a, P a → moves (vars_keep_context c) (f a)) → moves (vars_keep_context c) (m ≫= f).
Proof.
  intros Hm Hp Hf s. specialize (Hm s). unfold mbind, stM_bind.
  destruct (m s) as [[a|e] s1] eqn:E; [|exact Hm]. etrans; [exact Hm|]. by apply Hf, (Hp s a s1).
Qed.

Context (settings : Settings).

Lemma keeps_commit_result p n call r st q :
  moves (vars_keep_context c) (commit_result settings p n c call r st q).
Proof.
  unfold commit_result.
  repeat first [apply keeps_on_store|apply moves_gets, _|apply moves_ret, _
               |apply keeps_modify_vars|apply moves_bind; [apply _| |intros ?]].
Qed.

Lemma commit_result_context p n call r st q sv l sv' :
  commit_result settings p n c call r st q sv = (Ok l, sv') → rl_context l = c.
Proof.
  unfold commit_result. intros (u&s1&_&H0)%bind_Ok.
  apply bind_Ok in H0 as (l1&s2&(w&Hl&_)%on_store_Ok&H0).
  apply lease_for_observed_result_Ok in Hl as [Hl _].
  do 6 (apply bind_Ok in H0 as (?&?&_&H0)). by injection H0 as <- _.
Qed.

Lemma keeps_persist ev p n call r h t :
  moves (vars_keep_context c) (persist_execution_result settings ev p n c call r h t).
Proof.
  unfold persist_execution_result. apply moves_bind; [apply _|apply moves_gets, _|intros x].
  apply moves_bind; [apply _|apply moves_require, _|intros _]. cbv zeta.
  apply (keeps_bind_Ok _ _ (λ l, rl_context l = c)).
  - apply keeps_tool_transaction, keeps_commit_result.
  - intros s l s' Hl%tool_transaction_Ok. by eapply commit_result_context.
  - intros l Hl. apply moves_bind; [apply _| |intros; apply keeps_on_tools, keeps_publish_result].
    destruct h; [|apply moves_ret, _].
    apply moves_bind; [apply _| |intros; apply moves_ret, _].
    apply keeps_on_tools. intros s _. exact Hl.
Qed.

Lemma keeps_block ev x st d : moves (keeps_context c) (block_execution settings ev c x st d).
Proof.
  unfold block_execution. apply moves_bind; [apply _|by apply keeps_same|intros l].
  apply moves_bind; [apply _|apply keeps_on_db|intros _].
  apply moves_bind; [apply _|apply keeps_publish_result|intros; apply moves_ret, _].
Qed.
End Keeping.

(** ** After a repetition *)

(** The latest checkpoint of the run holds the result of an execution. *)
Definition observed `{Env} (c : TenantContext) (d : Db) : Prop := ∃ k p,
  latest_checkpoint_row (checkpoint_scope_predicate d c) = Some k ∧
  decode_checkpoint (checkpoint_from_row k) =
    Ok (EXECUTION_RESULT_OBSERVED, PExecutionResultObserved p).

Lemma recorded_observed `{Env} c n call e t st i s d :
  result_recorded c n call e t st i s d → observed c d.
Proof. intros [_ (k&p&Hk&Hp&_) _ _]. by exists k, p. Qed.

Section Repeating.
Context `{envi : Env}.
Context (unicode_alnum : N → bool) (resolve : string → list string)
  (casefold uuid5 : string → string).
Context (settings : Settings) (guarded_tools : list string) (guard_timeout : Z)
  (expires : ToolState * RunVars → bool) (has_event_router : bool).
Context (c : TenantContext) (sid : string) (Hsid : tc_session_id c = Some sid)
  (Hne : sid ≠ "").

Lemma block_execution_Ok x st d s r s' :
  lease_context s = c →
  block_execution settings has_event_router c x st d s = (Ok r, s') →
  ∃ i, result_recorded c (xr_tool_name x) (xr_tool_call_id x) (xr_execution_id x) d st i sid
         (db_of s').
Proof.
  intros Hl. unfold block_execution. intros (l&s1&Hc&H0)%bind_Ok. injection Hc as <- <-.
  apply bind_Ok in H0 as (u&s2&(w&Hw%write_transaction_Ok&->)%on_db_Ok&H0).
  apply bind_Ok in H0 as (u1&s3&Hp%publish_result_event_db&H0). injection H0 as _ <-.
  rewrite Hp. unfold commit_blocked in Hw. apply bind_Ok in Hw as (t&w1&Ht&Hw).
  apply bind_Ok in Hw as (y&w2&Hy&Hw). apply bind_Ok in Hw as (k&w3&Hk&Hw). destruct u.
  eexists. eapply (settle_Ok settings c (xs_lease (ts_exec s)) d (xr_tool_call_id x)
    (xr_tool_name x) (xr_execution_id x) (xr_status x) st); [exact Hl|exact Hsid|exact Hne|..];
    [| |unfold settle; erewrite bind_run by exact Ht; erewrite bind_run by exact Hy;
        erewrite bind_run by exact Hk; erewrite bind_run by exact Hw; reflexivity]; done.
Qed.

Lemma persist_observed p n call r h t sv u sv' :
  persist_execution_result settings has_event_router p n c call r h t sv = (Ok u, sv') →
  observed c (db_of sv'.1).
Proof.
  destruct u. intros H0%(persist_execution_result_Ok settings _ _ _ _ _ _ _ _ sid); [|done..].
  by eapply recorded_observed.
Qed.

Lemma with_vars_Ok {A} v (m : TPM A) s a s' :
  with_vars v m s = (Ok a, s') → ∃ sv', m (s, v) = (Ok a, sv') ∧ s' = sv'.1.
Proof.
  unfold with_vars. destruct (m (s, v)) as [r sv]. intros [= -> <-]. by exists sv.
Qed.

Lemma persisted_observed v p n call r h t s u s' :
  with_vars v (persist_execution_result settings has_event_router p n c call r h t) s =
    (Ok u, s') → observed c (db_of s').
Proof. intros (sv&Hp&->)%with_vars_Ok. by eapply persist_observed. Qed.

(** The tool does not exchange the run whose lease it is given. *)
Definition leaves_context (b : ToolBuilder) : Prop :=
  ∀ params invocation roots recorder, tb_build b params = Ok invocation →
    (∀ r x, recorder = Some r → moves (vars_keep_context c) (r x)) →
    moves (vars_keep_context c) (invocation roots recorder).

Lemma keeps_record_progress e x :
  moves (vars_keep_context c) (record_progress settings e x).
Proof.
  unfold record_progress. apply moves_bind; [apply _|apply moves_require, _|intros _].
  apply moves_bind; [apply _|apply moves_gets, _|intros [r|]]; [apply moves_require, _|].
  apply moves_bind; [apply _|apply moves_gets, _|intros v].
  apply moves_bind; [apply _| |intros u; apply keeps_modify_vars].
  apply keeps_on_tools, keeps_use_lease.
Qed.

Context (b : ToolBuilder) (Hb : leaves_context b).

Local Notation repeat_execution' :=
  (repeat_execution unicode_alnum resolve casefold uuid5 settings guarded_tools guard_timeout
     expires has_event_router b c).

Lemma keeps_obstacle x :
  moves (keeps_context c)
    (recovery_obstacle unicode_alnum resolve casefold uuid5 guarded_tools b c x).
Proof.
  unfold recovery_obstacle. apply moves_bind; [apply _|case_match; [case_match|]|intros data];
    try (first [apply moves_throw, _|apply moves_ret, _]).
  apply moves_bind_lift; [apply _|intros input _]. do 3 (case_match; [apply moves_ret, _|]).
  apply moves_bind_lift; [apply _|intros params _].
  apply moves_bind_lift; [apply _|intros m _]. do 2 (case_match; [apply moves_ret, _|]).
  cbv zeta. do 2 (case_match; [apply moves_ret, _|]). destruct (xr_approval_id x);
    [|apply moves_ret, _]. case_match; [apply moves_ret, _|].
  apply moves_bind; [apply _|apply keeps_on_db|intros; apply moves_ret, _].
Qed.

Lemma keeps_repeat_execution x action force :
  moves (keeps_context c) (repeat_execution' x action force).
Proof.
  unfold repeat_execution. apply moves_bind; [apply _|apply keeps_obstacle|].
  intros [[st d]|[[input params] decision]]; [apply keeps_block|].
  case_match.
  - unfold mark_uncertain_execution. apply moves_bind; [apply _|by apply keeps_same|intros l].
    cbv zeta. apply moves_bind; [apply _|apply keeps_with_vars, keeps_persist|].
    intros; apply moves_ret, _.
  - apply moves_bind_lift; [apply _|intros i Hi].
    apply moves_bind; [apply _| |intros [p v]].
    + unfold prepare_recovery_execution. apply moves_bind; [apply _|by apply keeps_same|intros l].
      apply moves_bind; [apply _|apply keeps_on_db|intros; apply moves_ret, _].
    + apply moves_bind; [apply _| |intros [r v']].
      * apply keeps_run_vars, moves_guard_run; [apply _|]. eapply Hb; [done|].
        intros r y [= <-]. apply keeps_record_progress.
      * apply moves_bind; [apply _|apply keeps_with_vars, keeps_persist|].
        intros; apply moves_ret, _.
Qed.

Lemma repeat_execution_observed x action force s r s' :
  lease_context s = c → repeat_execution' x action force s = (Ok r, s') → observed c (db_of s').
Proof.
  intros Hl. unfold repeat_execution. intros (o&s1&Ho&H0)%bind_Ok.
  pose proof (keeps_obstacle x s) as Hk. rewrite Ho in Hk. specialize (Hk Hl). cbn [snd] in Hk.
  destruct o as [[st d]|[[input params] decision]].
  { apply block_execution_Ok in H0 as [i Hi]; [|done]. by eapply recorded_observed. }
  destruct (_ && _).
  - unfold mark_uncertain_execution in H0. apply bind_Ok in H0 as (l&s2&_&H0). cbv zeta in H0.
    apply bind_Ok in H0 as (u&s3&Hp&H0). injection H0 as _ <-. by eapply persisted_observed.
  - apply lift_bind_Ok in H0 as (i&_&H0). apply bind_Ok in H0 as ([p v]&s2&_&H0).
    apply bind_Ok in H0 as ([y v']&s3&_&H0). apply bind_Ok in H0 as (u&s4&Hp&H0).
    injection H0 as _ <-. by eapply persisted_observed.
Qed.

Lemma recover_execution_observed x action force s r s' :
  lease_context s = c →
  recover_execution unicode_alnum resolve casefold uuid5 settings guarded_tools guard_timeout
    expires has_event_router b c x action force s = (Ok r, s') →
  observed c (db_of s').
Proof.
  intros Hl [H0|(e&s1&He&H0)]%catch_Ok; [by eapply repeat_execution_observed|].
  pose proof (keeps_repeat_execution x action force s) as Hk. rewrite He in Hk.
  specialize (Hk Hl). cbn [snd] in Hk.
  destruct (conflict_error e); [done|]. unfold settle_failed_recovery in H0.
  apply bind_Ok in H0 as ([y|]&s2&(w&_&->)%on_db_Ok&H0); [|done].
  destruct (bool_decide _).
  - apply block_execution_Ok in H0 as [i Hi]; [|done]. by eapply recorded_observed.
  - apply bind_Ok in H0 as (l&s3&_&H0). apply bind_Ok in H0 as (u&s4&Hp&H0).
    injection H0 as _ <-. by eapply persisted_observed.
Qed.
End Repeating.

(** ** The next decision *)

Section Deciding.
Context `{envi : Env} {plans : PlanReader} {plans_read : PlanReads plans}.

(** From the result of an execution the run goes on with its model, if it goes on. *)
Lemma validate_observed c w o w' :
  observed c (w_db w) → validate_live_run c w = (Ok o, w') →
  is_Some (run_blocked (ro_status o)) ∨ ro_action o ∈ [Some TERMINAL_NOOP; Some RESUME_MODEL].
Proof.
  intros (k&p&Hk&Hd) (f&w1&He&Hf)%bind_Ok. injection Hf as <- _. unfold examine in He.
  apply bind_Ok in He as (r&w2&[-> _]%get_run_Ok&He). destruct r as [r|];
    [|injection He as <- _; left; by eexists].
  apply bind_Ok in He as (o&w3&Ho&He). unfold get_latest_checkpoint in Ho.
  apply bind_Ok in Ho as (d&w4&Hg&Ho). injection Hg as <- <-. injection Ho as <- <-.
  rewrite Hk in He. cbn [fmap option_fmap option_map] in He.
  apply catch_Ok in He as [Hb|(e&w5&_&Hh)].
  - apply lift_bind_Ok in Hb as ([ph q]&Hp&Hb). rewrite Hd in Hp. injection Hp as <- <-.
    apply bind_Ok in Hb as (o&w5&Hc&Hb). right. destruct (run_terminal _);
      injection Hb as <- _; [by left|]. unfold classify in Hc.
    apply bind_Ok in Hc as (pc&w6&_&Hc). apply bind_Ok in Hc as (u&w7&_&Hc).
    injection Hc as <- _. cbn. set_solver.
  - left. destruct e; try done; injection Hh as <- _; by eexists.
Qed.

Context (unicode_alnum : N → bool) (resolve : string → list string)
  (casefold uuid5 : string → string).
Context (planning : PlanningSettings) (settings : Settings) (governance : json).
Context (planning_service :
           option (option (option PlanGenerator.router * error_reporter * string * string))).
Context (guarded_tools : list string) (guard_timeout : Z)
  (expires : ToolState * RunVars → bool) (has_event_router : bool).
Context (str_of : json → string) (loop_fuel : nat).

Local Notation consume_outcome' :=
  (consume_outcome unicode_alnum resolve casefold uuid5 planning settings governance
     planning_service guarded_tools guard_timeout expires has_event_router str_of loop_fuel).

Local Notation carry_out' :=
  (carry_out unicode_alnum resolve casefold uuid5 planning settings governance planning_service
     guarded_tools guard_timeout expires has_event_router str_of loop_fuel).

Local Notation consume_with' :=
  (consume_with unicode_alnum resolve casefold uuid5 planning settings governance
     planning_service guarded_tools guard_timeout expires has_event_router str_of loop_fuel).

Lemma consume_without_repetition n m rt c o s :
  is_Some (run_blocked (ro_status o)) ∨ ro_action o ∈ [Some TERMINAL_NOOP; Some RESUME_MODEL] →
  consume_outcome' (S n) rt c o s = consume_outcome' (S m) rt c o s.
Proof.
  intros Ho. cbn [consume_outcome]. unfold consume_with.
  destruct (run_blocked (ro_status o)) as [st|]; [done|].
  destruct Ho as [[x Hx]|Ho]; [done|].
  assert (∃ a, ro_action o = Some a ∧ (a = TERMINAL_NOOP ∨ a = RESUME_MODEL)) as (a&->&Ha).
  { rewrite !elem_of_cons, elem_of_nil in Ho. destruct Ho as [Ho|[Ho|[]]]; eauto. }
  by destruct Ha as [-> | ->].
Qed.

Lemma consume_plan_nests_once n c rt s :
  observed c (db_of s) →
  consume_plan_terminal_result (consume_outcome' (S n) rt c) c s =
  consume_plan_terminal_result (consume_outcome' 1 rt c) c s.
Proof.
  intros Ho. unfold consume_plan_terminal_result. apply bind_agree.
  intros o s1 (w&Hv&->)%on_db_Ok. apply validate_observed in Hv as Ha; [|exact Ho].
  destruct (_ || _); [|done]. unfold mbind, stM_bind.
  by rewrite (consume_without_repetition n 0).
Qed.

Lemma bind_first {S E A B} (m m' : stM S E A) (f : A → stM S E B) s :
  m s = m' s → (m ≫= f) s = (m' ≫= f) s.
Proof. unfold mbind, stM_bind. by intros ->. Qed.

Section Depth.
Context (c : TenantContext) (sid : string) (Hsid : tc_session_id c = Some sid)
  (Hne : sid ≠ "").
Context (rt : Runtime) (Hrt : ∀ t b, rt_registry rt !! t = Some b → leaves_context c b).

Lemma repeat_call_nests_once n o a x s :
  lease_context s = c →
  repeat_call unicode_alnum resolve casefold uuid5 planning settings governance planning_service
    guarded_tools guard_timeout expires has_event_router str_of loop_fuel
    (consume_outcome' (S n) rt c) rt c o a x s =
  repeat_call unicode_alnum resolve casefold uuid5 planning settings governance planning_service
    guarded_tools guard_timeout expires has_event_router str_of loop_fuel
    (consume_outcome' 1 rt c) rt c o a x s.
Proof.
  intros Hl. destruct x as [x|]; [|done]. unfold repeat_call.
  destruct (ToolRegistry.get _ _) as [b|] eqn:E; [|done]. apply bind_agree. intros u s1 Hr.
  destruct (bool_decide _); [|done]. apply bind_first, consume_plan_nests_once.
  unfold recover_call in Hr. apply bind_Ok in Hr as (r&s2&Hr&Hu). injection Hu as _ <-.
  eapply (recover_execution_observed _ _ _ _ _ _ _ _ _ c sid Hsid Hne b); [|exact Hl|exact Hr].
  by eapply Hrt.
Qed.

(** The recursion of the worker is one call deep. *)
Lemma consume_outcome_depth n o s :
  lease_context s = c → consume_outcome' (S (S n)) rt c o s = consume_outcome' 2 rt c o s.
Proof.
  intros Hl. change (consume_with' (consume_outcome' (S n) rt c) rt c o s =
                     consume_with' (consume_outcome' 1 rt c) rt c o s). unfold consume_with.
  destruct (run_blocked (ro_status o)); [reflexivity|].
  destruct (ro_action o) as [a|]; [|reflexivity]. destruct (bool_decide _); [reflexivity|].
  assert (E : ∀ x s, lease_context s = c → carry_out' (consume_outcome' (S n) rt c) rt c o a x s =
                                           carry_out' (consume_outcome' 1 rt c) rt c o a x s).
  { intros x s0 Hs0. destruct a; first [reflexivity|by apply repeat_call_nests_once]. }
  destruct (ro_execution_id o) as [e|]; [|by apply E]. apply bind_agree.
  intros [x|] s1 (w&_&->)%on_db_Ok; [|reflexivity]. by apply E.
Qed.
End Depth.
End Deciding.

(** ** Blocked runs *)

Section Blocking.
Context `{envi : Env} (settings : Settings) (has_event_router : bool) (c : TenantContext).

Lemma finish_Ok st s u s' :
  finish settings st s = (Ok u, s') → sealed_as (lease_context s) st (db_of s').
Proof.
  unfold finish. intros (l&s1&Hl&H0)%bind_Ok. injection H0 as _ <-. unfold on_exec in Hl.
  destruct (refresh _ (ts_exec s)) as [r x] eqn:E. injection Hl as -> <-.
  unfold refresh in E. apply bind_Ok in E as (l0&x1&Hc&E). injection Hc as <- <-.
  apply bind_Ok in E as (l1&x2&Hf&E). injection E as _ <-. unfold on_world in Hf.
  destruct (finish_run_with_checkpoint _ _ _ _) as [y w] eqn:Ef. injection Hf as -> <-.
  apply finish_run_with_checkpoint_Ok in Ef as (r&f&k&rid&?&?&?&?&?&?&_).
  exists r, f, k, rid. by split_and!.
Qed.

(** A run that is blocked is sealed. *)
Lemma consume_blocked_Ok st m s u s' :
  lease_context s = c → consume_blocked settings has_event_router c st m s = (Ok u, s') →
  sealed_as c st (db_of s').
Proof.
  intros Hl. unfold consume_blocked. intros (k&s1&(w&_&->)%on_db_Ok&H0)%bind_Ok.
  apply bind_Ok in H0 as (u1&s2&Hx&H0).
  assert (Hs2 : lease_context s2 = c); [|rewrite <-Hs2; by eapply finish_Ok].
  destruct (k ≫= cr_execution_id) as [e|]; [|by injection Hx as _ <-].
  apply bind_Ok in Hx as ([x|]&s3&(w'&_&->)%on_db_Ok&Hx); [|by injection Hx as _ <-].
  unfold block_call in Hx. apply bind_Ok in Hx as (r&s4&Hb&Hx). injection Hx as _ <-.
  match type of Hb with block_execution _ _ _ ?x ?st ?d ?s = _ =>
    pose proof (keeps_block c settings has_event_router x st d s) as Hk end.
  rewrite Hb in Hk. by apply Hk.
Qed.

(** An execution that has ended cannot be blocked. *)
Lemma update_metadata_ended l e s v m t w r w' :
  xm_target_status m = Some t → LEGAL_EXECUTION_TRANSITIONS s = [] →
  update_metadata (scoped (own_coordinator settings)) l e s v m w ≠ (Ok r, w').
Proof.
  intros Ht Hs (o&w1&Hu&Ho)%write_connection_Ok%bind_Ok. destruct o as [x|];
    [|by apply execution_conflict_raises in Ho].
  unfold update_execution_metadata in Hu. apply bind_Ok in Hu as (u&w2&_&Hu).
  apply bind_Ok in Hu as (b&w3&_&Hu). destruct (negb b); [done|].
  apply bind_Ok in Hu as (u1&w4&Hr&_). rewrite Ht, Hs in Hr.
  apply require_Ok in Hr as [Hr _]. apply bool_decide_eq_true in Hr. by apply elem_of_nil in Hr.
Qed.

Lemma commit_blocked_ended l x st d w u w' :
  LEGAL_EXECUTION_TRANSITIONS (xr_status x) = [] →
  commit_blocked settings c l x st d w ≠ (Ok u, w').
Proof.
  intros Hs. unfold commit_blocked. intros (t&w1&_&H0)%bind_Ok.
  apply bind_Ok in H0 as (y&w2&Hy&_). by eapply update_metadata_ended in Hy.
Qed.

Lemma on_db_read_run {A} (m : M A) s a :
  m (xs_world (ts_exec s)) = (Ok a, xs_world (ts_exec s)) → on_db m s = (Ok a, s).
Proof. intros Hm. rewrite on_db_run, Hm. by destruct s as [[] ]. Qed.

Lemma bind_Err {S E A B} (m : stM S E A) (f : A → stM S E B) s e s' :
  m s = (Err e, s') → (m ≫= f) s = (Err e, s').
Proof. unfold mbind, stM_bind. by intros ->. Qed.

Lemma block_call_ended x st d s :
  LEGAL_EXECUTION_TRANSITIONS (xr_status x) = [] →
  ∃ e s', block_call settings has_event_router c x st d s = (Err e, s') ∧ db_of s' = db_of s.
Proof.
  intros Ht. unfold block_call, block_execution. cbv zeta.
  destruct (commit_blocked settings c (xs_lease (ts_exec s)) x st d (xs_world (ts_exec s)))
    as [[u|e] w] eqn:E; [by apply commit_blocked_ended in E|].
  eexists e, _. split; [apply bind_Err|].
  - rewrite (bind_run (on_exec current) _ s (xs_lease (ts_exec s)) s) by (by destruct s as [[] ]).
    apply bind_Err. rewrite on_db_run. unfold write_transaction, transaction. by rewrite E.
  - done.
Qed.

(** The run is not sealed when the execution of its last checkpoint has ended. *)
Lemma consume_blocked_ended st m s k e x :
  latest_checkpoint_row (checkpoint_scope_predicate (db_of s) c) = Some k →
  ckp_execution_id k = Some e → execution_scope_predicate (db_of s) c e = Some x →
  LEGAL_EXECUTION_TRANSITIONS (exe_execution_status x) = [] →
  ∃ e s', consume_blocked settings has_event_router c st m s = (Err e, s') ∧
    db_of s' = db_of s.
Proof.
  intros Hk He Hx Ht. unfold db_of in Hk, Hx.
  destruct (block_call_ended (execution_recovery_from_row c x) (execution_block st)
    (or_else (Some m) "recovery blocked") s Ht) as (e'&s'&Hb&Hd).
  exists e', s'. split; [|done]. unfold consume_blocked.
  rewrite (bind_run (on_db (get_latest_checkpoint c)) _ s (Some (checkpoint_from_row k)) s).
  2: { apply on_db_read_run. unfold get_latest_checkpoint, mbind, stM_bind, gets.
       cbn beta iota. by rewrite Hk. }
  cbn [mbind option_bind checkpoint_from_row cr_execution_id]. rewrite He. apply bind_Err.
  rewrite (bind_run (on_db (get_execution_recovery c e)) _ s
    (Some (execution_recovery_from_row c x)) s); [exact Hb|].
  apply on_db_read_run. unfold get_execution_recovery, mbind, stM_bind, gets.
  cbn beta iota. by rewrite Hx.
Qed.
End Blocking.

(** ** Candidates *)

Section Candidates.
Context `{envi : Env}.

Lemma run_leb_total r r' : run_leb r r' = false → run_leb r' r = true.
Proof.
  unfold run_leb. rewrite (String.eqb_sym (run_tenant_id r')),
    (String.eqb_sym (run_workspace_id r')), (String.eqb_sym (run_session_id r')).
  repeat (destruct (String.eqb _ _)); apply string_leb_total.
Qed.

(** A lexicographic comparison is transitive when its last part is. *)
Lemma lexicographic_trans a b d x y z :
  (if String.eqb a b then x else String.leb a b) = true →
  (if String.eqb b d then y else String.leb b d) = true →
  (x = true → y = true → z = true) →
  (if String.eqb a d then z else String.leb a d) = true.
Proof.
  intros H1 H2 Hz. destruct (String.eqb_spec a b) as [->|Hab].
  - destruct (String.eqb_spec b d) as [->|]; [by apply Hz|done].
  - destruct (String.eqb_spec b d) as [->|Hbd].
    + destruct (String.eqb_spec a d) as [->|]; [done|done].
    + destruct (String.eqb_spec a d) as [->|]; [|by eapply string_leb_trans].
      by destruct Hab; apply string_leb_antisym.
Qed.

Lemma run_leb_trans r1 r2 r3 : run_leb r1 r2 = true → run_leb r2 r3 = true → run_leb r1 r3 = true.
Proof.
  unfold run_leb. intros H1 H2. eapply lexicographic_trans; [exact H1|exact H2|].
  clear H1 H2. intros H1 H2. eapply lexicographic_trans; [exact H1|exact H2|].
  clear H1 H2. intros H1 H2. eapply lexicographic_trans; [exact H1|exact H2|].
  apply string_leb_trans.
Qed.

Lemma candidates_of_Ok d l cs :
  candidates_of d l = Ok cs →
  cs = map (λ r, MkRecoveryCandidate (run_context r) (has_decided_approval d r)) l.
Proof.
  revert cs. induction l as [|r l IH]; intros cs; cbn [candidates_of]; [by intros [= <-]|].
  intros (x&Hx&H0)%result_bind_Ok. apply result_bind_Ok in H0 as (cs'&Hl&H0).
  injection H0 as <-. unfold candidate_of in Hx. apply result_bind_Ok in Hx as (c&Hc&Hx).
  injection Hx as <-. apply post_init_Ok in Hc as [-> _]. cbn [map]. by rewrite (IH _ Hl).
Qed.

(** The first ones of a sorted list come before the others. *)
(** What makes a run a candidate, read off the rows. *)
Definition decided (d : Db) (r : agent_run) : Prop :=
  ∃ i a, approval_requests d !! i = Some a ∧ approval_scope a = run_scope r ∧
    apr_approval_status a ∈ [APPROVAL_APPROVED; APPROVAL_EXPIRED; APPROVAL_REJECTED].

Definition delegated (jobs : list agent_job) (r : agent_run) : Prop :=
  ∃ j, j ∈ jobs ∧ job_tenant_id j = run_tenant_id r ∧ job_workspace_id j = run_workspace_id r ∧
    job_child_session_id j = Some (run_session_id r) ∧ job_child_run_id j = Some (run_run_id r).

Definition idle (d : Db) (jobs : list agent_job) (now : Z) (r : agent_run) : Prop :=
  ¬ delegated jobs r ∧
  (run_run_status r = RUN_AWAITING_USER ∧ decided d r ∨
   run_run_status r ∈ [RUN_RUNNING; RUN_AWAITING_USER; RUN_RESUMING] ∧
   ∃ t, run_lease_expires_at r = Some t ∧ (t ≤ now)%Z).

Lemma has_decided_approval_spec d r : has_decided_approval d r = true ↔ decided d r.
Proof.
  unfold has_decided_approval, decided. rewrite existsb_exists. split.
  - intros (a&[i Ha]%list_elem_of_In%elem_of_rows&[H1%bool_decide_eq_true H2%bool_decide_eq_true]
      %andb_true_iff). by exists i, a.
  - intros (i&a&Ha&H1&H2). exists a. rewrite <-list_elem_of_In, elem_of_rows. split; [eauto|].
    by rewrite !bool_decide_eq_true_2.
Qed.

Lemma is_child_run_spec jobs r : is_child_run jobs r = true ↔ delegated jobs r.
Proof.
  unfold is_child_run, delegated. rewrite existsb_exists. setoid_rewrite list_elem_of_In.
  setoid_rewrite andb_true_iff. setoid_rewrite andb_true_iff. setoid_rewrite andb_true_iff.
  setoid_rewrite bool_decide_eq_true. naive_solver.
Qed.

Lemma needs_recovery_idle d jobs now r : needs_recovery d jobs now r = true ↔ idle d jobs now r.
Proof.
  unfold needs_recovery, idle. rewrite andb_true_iff, negb_true_iff, orb_true_iff, !andb_true_iff.
  rewrite has_decided_approval_spec, <-not_true_iff_false, is_child_run_spec.
  rewrite !bool_decide_eq_true. unfold expired_by.
  destruct (run_lease_expires_at r) as [t|]; [rewrite Z.leb_le|]; naive_solver.
Qed.

Lemma take_before n l r :
  ordered run_leb l → r ∈ l →
  r ∈ take n l ∨ length (take n l) = n ∧ ∀ r', r' ∈ take n l → run_leb r' r = true.
Proof.
  intros Ho%ordered_strongly Hr; [|exact run_leb_trans].
  rewrite <-(take_drop n l) in Hr, Ho. apply elem_of_app in Hr as [?|Hr]; [by left|].
  right. split.
  - rewrite length_take. destruct (decide (n ≤ length l)%nat) as [|Hlt]; [lia|].
    rewrite drop_ge in Hr by lia. by apply elem_of_nil in Hr.
  - intros r' Hr'. apply StronglySorted_app in Ho as (Ho&_&_). by apply Ho.
Qed.
End Candidates.
