(* ===== verification/LoopTermination.v ===== *)
(** * The execution loop ends

    Every turn of the loop starts an attempt at a step; attempts are numbered, a step has
    a limit of them, and nothing in the loop adds steps.  So the attempts that are left to
    the run ([attempts_left]) go down with every turn. *)

From S2P Require Import Prelude Records Errors Json Regex Redaction Tenancy.
From S2P Require Import WorkflowModels.
From S2P Require Import Storage Collections PlanStorage Checkpoint Events PlanValidation.
From S2P Require Import PlanSpec PlanRecords PlanReading WorkflowRepository.
From S2P Require Import PlanRepository.
From S2P Require Import PlanDecisions PlanAttempts MemoryRepository PlanResults.
From S2P Require Import PlanEffects.
From S2P Require Import WorkflowCoordinator PlanGenerator PlanService Recovery.
From S2P Require Import Continuation.
From S2P Require Import PlanExecution PlanLoop WorkflowSpec WorkflowRefinement.
From S2P Require Import PlanRefinement PlanAttemptRefinement PlanHistory PlanSystem.
From S2P Require Import ExecutionRefinement ExecutionFacts WorkflowHistory.
From S2P Require Import CheckpointWriting.
From S2P Require Import ExecutionOutcomes.
From stdpp Require Import base gmap strings list relations.

(** ** What the loop keeps *)

(** The steps are the same, and attempts keep their identity and their number. *)
Definition kept (d d' : Db) : Prop :=
  agent_plan_steps d' = agent_plan_steps d ∧
  ∀ i x, agent_plan_step_runs d !! i = Some x →
    ∃ x', agent_plan_step_runs d' !! i = Some x' ∧ step_run_scope x' = step_run_scope x ∧
      srn_plan_id x' = srn_plan_id x ∧ srn_plan_version x' = srn_plan_version x ∧
      srn_step_id x' = srn_step_id x ∧ srn_attempt x' = srn_attempt x.

#[export] Instance kept_preorder : PreOrder kept.
Proof.
  split; [by intros d; split; [|intros i x; exists x]|].
  intros d1 d2 d3 [A1 A2] [B1 B2]. split; [congruence|].
  intros i x (y&Hy&?&?&?&?&?)%A2. apply B2 in Hy as (z&Hz&?&?&?&?&?).
  exists z. split_and!; congruence.
Qed.

Definition kept_world : relation World := λ w w', kept (w_db w) (w_db w').
Definition kept_unit : relation PlanTx := λ t t', kept_world (tx_world t) (tx_world t').
Definition kept_state : relation ExecState := λ x x', kept_world (xs_world x) (xs_world x').

#[export] Instance kept_world_preorder : PreOrder kept_world.
Proof. split; unfold kept_world; [by intros w|by intros w1 w2 w3 ? ?; etrans]. Qed.
#[export] Instance kept_unit_preorder : PreOrder kept_unit.
Proof. split; unfold kept_unit; [by intros w|by intros w1 w2 w3 ? ?; etrans]. Qed.
#[export] Instance kept_state_preorder : PreOrder kept_state.
Proof. split; unfold kept_state; [by intros w|by intros w1 w2 w3 ? ?; etrans]. Qed.

Lemma kept_same d d' :
  agent_plan_steps d' = agent_plan_steps d → agent_plan_step_runs d' = agent_plan_step_runs d →
  kept d d'.
Proof. intros E1 E2. split; [done|]. rewrite E2. intros i x Hx. by exists x. Qed.

Section Rules.
Context `{envi : Env}.

Lemma keeps_later {A} (m : M A) : moves later m → moves kept_world m.
Proof. intros Hm w. unfold kept_world. by rewrite (Hm w). Qed.

Lemma keeps_connected {A} (m : M A) : moves kept_world m → moves kept_unit (on_connection m).
Proof.
  intros Hm t. unfold kept_unit, on_connection. specialize (Hm (tx_world t)).
  by destruct (m (tx_world t)).
Qed.

Lemma kept_rollback w w' : kept_world w (rollback w w').
Proof. by apply kept_same. Qed.

Lemma keeps_unit {A} (body : PM A) : moves kept_unit body → moves kept_world (unit_of_work body).
Proof.
  intros Hb. apply moves_transaction; [|apply kept_rollback].
  intros w. specialize (Hb {| tx_world := w; tx_pending := ∅ |}).
  unfold mbind, stM_bind, require_no_unfinished_revisions, require, gets.
  destruct (body _) as [[a|e] t]; [|done]. simpl. unfold mbind, stM_bind.
  by destruct (bool_decide _).
Qed.

Lemma keeps_write_connection {A} co (m : M A) :
  moves kept_world m → moves kept_world (write_connection co m).
Proof.
  intros Hm. unfold write_connection. destruct (co_connection co); [done|].
  apply moves_transaction; [done|apply kept_rollback].
Qed.

Lemma keeps_savepoint {A} p (m : M A) : moves kept_world m → moves kept_world (savepoint p m).
Proof.
  intros Hm w. specialize (Hm w). unfold savepoint.
  destruct (m w) as [[a|e] w']; [done|]. destruct (p e); [apply kept_rollback|done].
Qed.

Lemma keeps_on_world {A} (m : M A) : moves kept_world m → moves kept_state (on_world m).
Proof.
  intros Hm x. unfold kept_state, on_world. specialize (Hm (xs_world x)).
  by destruct (m (xs_world x)).
Qed.

Lemma keeps_replace l : moves kept_state (replace l).
Proof. intros x. by apply kept_same. Qed.

Lemma keeps_current : moves kept_state current.
Proof. intros x. by apply kept_same. Qed.

Lemma keeps_use_current {A} (f : RunLease → M A) :
  (∀ l, moves kept_world (f l)) → moves kept_state (use_current f).
Proof. intros Hf. apply moves_bind; [apply _|intros x; by apply kept_same|]. intros l. by apply keeps_on_world. Qed.
End Rules.

Create HintDb keeps.
#[export] Hint Resolve keeps_replace keeps_current : keeps.

Ltac keep_inside :=
  lazymatch goal with
  | |- moves _ (write_connection _ _) => apply keeps_write_connection
  | |- moves _ (unit_of_work _) => apply keeps_unit
  | |- moves _ (on_connection _) => apply keeps_connected
  | |- moves _ (on_world _) => apply keeps_on_world
  | |- moves _ (savepoint _ _) => apply keeps_savepoint
  | |- moves _ (use_current _) => apply keeps_use_current; intros ?
  | |- moves _ (catch _ _) => apply moves_catch; [apply _| |intros ?]
  | |- moves _ (_ ≫= _) => apply moves_bind; [apply _| |intros ?]
  end.

Ltac keep :=
  repeat first
    [ solve [eauto 3 with keeps]
    | apply moves_reading; [apply _|solve [solve_reads]]
    | keep_inside
    | progress cbv zeta
    | case_match ].

(** ** Single statements *)

Section Statements.
Context `{envi : Env}.

Lemma keeps_now : moves kept_world db_now_ms.
Proof. intros w. by apply kept_same. Qed.
Lemma keeps_uuid4 : moves kept_world uuid4.
Proof. intros w. by apply kept_same. Qed.
Hint Resolve keeps_now keeps_uuid4 : keeps.

(** A statement that reads the database it writes. *)
Lemma keeps_update_runs c p f : moves kept_world (update_agent_runs c p f).
Proof.
  intros w. unfold update_agent_runs, mbind, stM_bind, db_now_ms, gets. simpl.
  repeat case_match; by apply kept_same.
Qed.

Lemma keeps_insert_checkpoints k : moves kept_world (insert_execution_checkpoints k).
Proof.
  intros w. unfold insert_execution_checkpoints, mbind, stM_bind, gets, require. simpl.
  destruct (execution_checkpoints_constraints _ _); by apply kept_same.
Qed.
Hint Resolve keeps_update_runs keeps_insert_checkpoints : keeps.

Lemma keeps_transition_run repo l t : moves kept_world (transition_run repo l t).
Proof. unfold transition_run, renewed. keep. Qed.

Lemma keeps_current_lease l : moves kept_world (has_current_lease l).
Proof. unfold has_current_lease. keep. Qed.
Hint Resolve keeps_transition_run keeps_current_lease : keeps.

Lemma keeps_insert_checkpoint l i : moves kept_world (insert_checkpoint l i).
Proof. unfold insert_checkpoint. keep. Qed.
Hint Resolve keeps_insert_checkpoint : keeps.

Lemma keeps_checkpoint co l ph p o : moves kept_world (checkpoint co l ph p o).
Proof. unfold checkpoint, write_checkpoint. keep. Qed.

Lemma keeps_insert_memory m : moves kept_world (insert_memory_entries m).
Proof.
  intros w. unfold insert_memory_entries, mbind, stM_bind, gets.
  destruct (check_constraints_cases (memory_entries_constraints (w_db w) m) w)
    as [[-> _]|(v&->&_)]; by apply kept_same.
Qed.

Lemma keeps_full_scope_update c e : moves kept_world (full_scope_update c e).
Proof.
  intros w. unfold full_scope_update, mbind, stM_bind, db_now_ms, gets. simpl.
  case_match; by apply kept_same.
Qed.
Hint Resolve keeps_insert_memory keeps_full_scope_update : keeps.

Lemma keeps_save c e : moves kept_world (save c e).
Proof.
  unfold save, insert_entry.
  pose proof (read_only_get_row c). keep.
Qed.
End Statements.

#[export] Hint Resolve keeps_now keeps_uuid4 keeps_update_runs keeps_insert_checkpoints
  keeps_transition_run keeps_current_lease keeps_insert_checkpoint keeps_checkpoint
  keeps_insert_memory keeps_full_scope_update keeps_save : keeps.
#[export] Hint Extern 2 (moves kept_world (lock_run_for_execution _ _)) =>
  apply keeps_later, later_lock_run : keeps.
#[export] Hint Extern 2 (moves kept_world (plans_has_current_lease _ _)) =>
  apply keeps_later, later_has_current_lease : keeps.
#[export] Hint Extern 2 (moves kept_world (require_current_executable_lease _ _)) =>
  apply keeps_later, later_executable_lease : keeps.

(** ** Attempts *)

Section Attempts.
Context `{envi : Env} (c : TenantContext) (planning : PlanningSettings) (settings : Settings).

Lemma kept_inserted d x :
  agent_plan_step_runs d !! step_run_key x = None →
  kept d (d <| agent_plan_step_runs := <[step_run_key x := x]> (agent_plan_step_runs d) |>).
Proof.
  intros Hn. split; [done|]. simpl. intros i y Hy. exists y. split; [|done].
  rewrite lookup_insert_ne; [done|]. intros E. subst i.
  assert (None = Some y) by (etrans; [symmetry; exact Hn|exact Hy]). done.
Qed.

Lemma kept_rewritten d i x x' :
  agent_plan_step_runs d !! i = Some x → same_attempt_row x x' →
  kept d (d <| agent_plan_step_runs := <[i := x']> (agent_plan_step_runs d) |>).
Proof.
  intros Hi (H1&H2&H3&_). split; [done|]. simpl. intros j y Hy.
  destruct (decide (i = j)) as [<-|Hne].
  - rewrite lookup_insert_eq. exists x'. assert (y = x) as -> by congruence.
    unfold step_run_key, step_run_plan in H1. unfold step_run_scope. injection H1 as ? ? ? ? ? ? ?.
    split_and!; congruence.
  - rewrite lookup_insert_ne by done. by exists y.
Qed.

Lemma keeps_insert_attempt x : moves kept_world (insert_agent_plan_step_runs x).
Proof.
  intros w. unfold insert_agent_plan_step_runs, mbind, stM_bind, gets.
  destruct (check_constraints_cases (agent_plan_step_runs_constraints (w_db w) x) w)
    as [[-> Hs]|(v&->&_)]; [|by apply kept_same].
  apply kept_inserted. unfold agent_plan_step_runs_constraints in Hs.
  rewrite satisfied_app, satisfied_cons, bool_decide_eq_true in Hs. apply Hs.
Qed.
Hint Resolve keeps_insert_attempt : keeps.

(** Updates of running attempts, one after the other. *)
Lemma keeps_update_each v set_ l :
  ends_attempt v set_ → NoDup l.*1 → ∀ w,
  (∀ i x, (i, x) ∈ l → agent_plan_step_runs (w_db w) !! i = Some x ∧ srn_version x = v) →
  kept_world w (insert_each (λ ix,
    check_constraints (agent_plan_step_runs_checks (set_ ix.2)) ;;
    d ← gets w_db;
    set_db (d <| agent_plan_step_runs := <[ix.1 := set_ ix.2]> (agent_plan_step_runs d) |>))
    l w).2.
Proof.
  intros Hset. induction l as [|[i x] l IH]; intros Hn w Hl; simpl; [by apply kept_same|].
  apply NoDup_cons in Hn as [Hi Hn]. destruct (Hl i x) as [Hx Hv]; [by left|].
  destruct (Hset x Hv) as (Hsame&_&_). unfold mbind, stM_bind, gets.
  destruct (check_constraints_cases (agent_plan_step_runs_checks (set_ x)) w)
    as [[-> _]|(e&->&_)]; [|by apply kept_same]. simpl.
  set (w1 := {| w_db := _ |}). assert (Hk : kept_world w w1) by (by eapply kept_rewritten).
  etrans; [exact Hk|]. apply IH; [done|]. intros j y Hy. destruct (Hl j y) as [Hj ?]; [by right|].
  split; [|done]. simpl. rewrite lookup_insert_ne; [done|]. intros <-. destruct Hi.
  by apply (list_elem_of_fmap_2 fst) in Hy.
Qed.

(** The attempts an [UPDATE] finds are rows of the table, each once. *)
Lemma hits_NoDup {V} (p : _ * V → bool) (m : gmap _ V) :
  NoDup (List.filter p (map_to_list (K:=string * string * string * string * Z * string * string) m)).*1.
Proof.
  pose proof (NoDup_fst_map_to_list m) as Hn. revert Hn. generalize (map_to_list m) as l.
  induction l as [|[j x] l IH]; simpl; [done|]. intros [Hj Hn]%NoDup_cons.
  destruct (p (j, x)); simpl; [|by apply IH]. constructor; [|by apply IH].
  intros ((j'&y)&->&Hy)%list_elem_of_fmap. apply elem_of_filter_bool in Hy as [Hy _].
  apply Hj. by apply (list_elem_of_fmap_2 fst) in Hy.
Qed.

Lemma gets_bind_run {S E A B} (f : S → A) (k : A → stM S E B) s : (gets f ≫= k) s = k (f s) s.
Proof. done. Qed.

Lemma kept_then {A B} (m : M A) (b : A → B) w :
  kept_world w (m w).2 → kept_world w ((m ≫= λ a, mret (b a)) w).2.
Proof. unfold mbind, stM_bind. by destruct (m w) as [[a|e] w']. Qed.

Lemma keeps_update_running sid r i v set_ :
  ends_attempt v set_ → moves kept_world (update_running_attempt c sid r i v set_).
Proof.
  intros Hset w. unfold update_running_attempt. rewrite gets_bind_run. cbv zeta.
  apply kept_then, (keeps_update_each v); [done|apply hits_NoDup|].
  intros j x [Hx Hp]%elem_of_filter_bool. apply elem_of_map_to_list in Hx. simpl in Hp.
  rewrite !andb_true_iff, Z.eqb_eq in Hp. naive_solver.
Qed.

Lemma keeps_create_step_attempt l p n s :
  moves kept_world (create_step_attempt c planning l p n s).
Proof. unfold create_step_attempt. keep. Qed.

Lemma keeps_create_reused l p n s i :
  moves kept_world (create_reused_step_attempt c planning l p n s i).
Proof. unfold create_reused_step_attempt. keep. Qed.
Hint Resolve keeps_create_step_attempt keeps_create_reused : keeps.

Lemma keeps_finish_step_attempt l i v st doc ref ec ed :
  moves kept_world (finish_step_attempt c l i v st doc ref ec ed).
Proof.
  destruct (decide (st = STEP_RUNNING)) as [->|Hst].
  - intros w. unfold finish_step_attempt, mbind, stM_bind at 1.
    pose proof (read_only_require_lease_scope c l w) as Hr.
    destruct (require_lease_scope c l w) as [[u|e] w1]; simpl in Hr; subst w1; by apply kept_same.
  - pose proof (λ sid r now, keeps_update_running sid r i v _ (finish_ends st doc ref ec ed v now Hst)).
    unfold finish_step_attempt. keep.
Qed.
Hint Resolve keeps_finish_step_attempt : keeps.

(** ** The parts of a turn *)

Lemma keeps_start_next_attempt l :
  moves kept_world (start_next_attempt planning settings c l).
Proof. unfold start_next_attempt, start_ready_step, step_checkpoint. keep. Qed.

Lemma keeps_reuse_steps l plan now all todo latest created :
  moves kept_world (reuse_steps planning c l plan now all todo latest created).
Proof.
  revert latest created. induction todo as [|s todo IH]; intros latest created; simpl;
    unfold reuse_step; keep.
Qed.
Hint Resolve keeps_reuse_steps : keeps.

Lemma keeps_apply_compatible_reuse l now :
  moves kept_world (apply_compatible_reuse planning c l now).
Proof. unfold apply_compatible_reuse, reuse_in_order. keep. Qed.

Lemma keeps_finalize_step_attempt l started target doc :
  moves kept_world (finalize_step_attempt settings c l started target doc).
Proof.
  unfold finalize_step_attempt, finish_attempt, persist_plan_step_result, new_entry,
    step_checkpoint. keep.
Qed.

Lemma keeps_resume_running_attempt l : moves kept_world (resume_running_attempt c l).
Proof. unfold resume_running_attempt, interrupted_attempt. keep. Qed.

Lemma keeps_raise_if_cancelled : moves kept_world (raise_if_cancelled settings c).
Proof. unfold raise_if_cancelled, raise_if_cancel_requested. keep. Qed.

Lemma keeps_enter_iteration : moves kept_state (enter_iteration settings c).
Proof.
  pose proof keeps_raise_if_cancelled. unfold enter_iteration, co_transition_run. keep.
Qed.
End Attempts.

#[export] Hint Resolve keeps_start_next_attempt keeps_apply_compatible_reuse
  keeps_finalize_step_attempt keeps_resume_running_attempt keeps_raise_if_cancelled
  keeps_enter_iteration : keeps.

(** ** The attempts that are left *)

Section Left.
Context `{envi : Env} (c : TenantContext) (planning : PlanningSettings).

(** The attempts of the run at a step. *)
Definition attempt_at (i : string) (st : agent_plan_step) (x : agent_plan_step_run) : bool :=
  in_scope c (step_run_scope x) && bool_decide (srn_plan_id x = ste_plan_id st) &&
  Z.eqb (srn_plan_version x) (ste_plan_version st) && bool_decide (srn_step_id x = i).

Definition last_attempt (d : Db) (i : string) (st : agent_plan_step) : Z :=
  foldr Z.max 0%Z (map srn_attempt (List.filter (attempt_at i st) (rows (agent_plan_step_runs d)))).

Definition left_at (d : Db) (ist : string * agent_plan_step) : nat :=
  Z.to_nat (pls_max_step_attempts planning - last_attempt d ist.1 ist.2).

(** Over all steps: an upper bound on the turns of the loop. *)
Definition attempts_left (d : Db) : nat :=
  sum_list_with (left_at d) (map_to_list (agent_plan_steps d)).

Lemma foldr_max_ge l x : x ∈ l → (x <= foldr Z.max 0 l)%Z.
Proof.
  induction l as [|y l IH]; [by intros ?%elem_of_nil|].
  simpl. intros [->|Hx%IH]%elem_of_cons; lia.
Qed.

Lemma foldr_max_le l n : (0 <= n)%Z → (∀ x, x ∈ l → (x <= n)%Z) → (foldr Z.max 0 l <= n)%Z.
Proof.
  intros Hn. induction l as [|y l IH]; intros Hl; simpl; [done|].
  assert (y <= n)%Z by (apply Hl; by left).
  assert (foldr Z.max 0 l <= n)%Z by (apply IH; intros x Hx; apply Hl; by right). lia.
Qed.

Lemma last_attempt_ge d i st j x :
  agent_plan_step_runs d !! j = Some x → attempt_at i st x = true →
  (srn_attempt x <= last_attempt d i st)%Z.
Proof.
  intros Hj Hx. apply foldr_max_ge, list_elem_of_fmap_2, elem_of_filter_bool.
  split; [by eapply rows_lookup|done].
Qed.

Lemma last_attempt_le d i st n :
  (0 <= n)%Z →
  (∀ j x, agent_plan_step_runs d !! j = Some x → attempt_at i st x = true → (srn_attempt x <= n)%Z) →
  (last_attempt d i st <= n)%Z.
Proof.
  intros Hn Hx. apply foldr_max_le; [done|]. intros a (x&->&Hin)%list_elem_of_fmap.
  apply elem_of_filter_bool in Hin as [(j&Hj)%elem_of_rows Ha]. by eapply Hx.
Qed.

Lemma last_attempt_nonneg d i st : (0 <= last_attempt d i st)%Z.
Proof.
  unfold last_attempt. generalize (map srn_attempt (List.filter (attempt_at i st) (rows (agent_plan_step_runs d)))).
  intros l. induction l; simpl; lia.
Qed.

Lemma kept_last_attempt d d' i st : kept d d' → (last_attempt d i st <= last_attempt d' i st)%Z.
Proof.
  intros [_ Hk]. apply last_attempt_le; [apply last_attempt_nonneg|]. intros j x Hj Hx.
  destruct (Hk j x Hj) as (x'&Hj'&E1&E2&E3&E4&<-). eapply last_attempt_ge; [exact Hj'|].
  unfold attempt_at in *. by rewrite E1, E2, E3, E4.
Qed.

Lemma sum_list_with_le {A} (f g : A → nat) l :
  (∀ x, f x <= g x)%nat → (sum_list_with f l <= sum_list_with g l)%nat.
Proof. intros Hfg. induction l as [|x l IH]; simpl; [done|]. specialize (Hfg x). lia. Qed.

Lemma sum_list_with_lt {A} (f g : A → nat) l x :
  (∀ x, f x <= g x)%nat → x ∈ l → (f x < g x)%nat → (sum_list_with f l < sum_list_with g l)%nat.
Proof.
  intros Hfg Hx Hlt. induction l as [|y l IH]; [by apply elem_of_nil in Hx|]. simpl.
  pose proof (sum_list_with_le f g l Hfg). pose proof (Hfg y).
  apply elem_of_cons in Hx as [->|Hx]; [lia|]. specialize (IH Hx). lia.
Qed.

Lemma kept_left d d' : kept d d' → (attempts_left d' <= attempts_left d)%nat.
Proof.
  intros Hk. unfold attempts_left. rewrite (proj1 Hk). apply sum_list_with_le. intros [i st].
  unfold left_at. pose proof (kept_last_attempt d d' i st Hk). simpl. lia.
Qed.

(** A new attempt belongs to the run, and it is newer than the others at its step. *)
Lemma fresh_attempt d x :
  attempt_allowed d x → agent_plan_step_runs d !! step_run_key x = None ∧ (1 <= srn_attempt x)%Z.
Proof.
  intros Ha. pose proof (allowed_constraints _ _ Ha) as Hs.
  unfold agent_plan_step_runs_constraints, agent_plan_step_runs_checks in Hs.
  rewrite satisfied_app, !satisfied_cons, bool_decide_eq_true, Z.leb_le in Hs. tauto.
Qed.

Lemma started_scope l p n s d d' x :
  rl_context l = c → attempt_started planning l p n s d d' x →
  in_scope c (step_run_scope x) = true.
Proof.
  intros Hl [Ha _ _ Hrun (now&Hlease) _ _]. unfold lease_exists in Hlease. rewrite Hl in Hlease.
  destruct (context_predicate d c) as [r|] eqn:Er; [|done].
  apply context_predicate_Some in Er as [Hr Hin].
  destruct (allowed_run _ _ Ha) as (run&q&Hrow&Hsc&_). rewrite <- Hsc.
  pose proof Hin as Hin'. unfold run_scope in Hin'. apply in_scope_true in Hin' as (_&_&_&Hrid).
  unfold leased_run_id in Hrun. rewrite Hl, Hrid in Hrun. simpl in Hrun.
  rewrite Hrun, Hr in Hrow. by injection Hrow as <-.
Qed.

Lemma in_scope_same k k' : in_scope c k = true → in_scope c k' = true → k = k'.
Proof.
  destruct k as [[[? ?] ?] ?], k' as [[[? ?] ?] ?].
  intros (->&->&Hs1&Hs2)%in_scope_true (->&->&Hs3&Hs4)%in_scope_true. congruence.
Qed.

Lemma newer_attempt d x st :
  attempt_allowed d x → in_scope c (step_run_scope x) = true →
  ste_plan_id st = srn_plan_id x → ste_plan_version st = srn_plan_version x →
  (last_attempt d (srn_step_id x) st < srn_attempt x)%Z.
Proof.
  intros Ha Hscope Ep Ev. destruct (fresh_attempt _ _ Ha) as [_ Hpos].
  enough (last_attempt d (srn_step_id x) st <= srn_attempt x - 1)%Z by lia.
  apply last_attempt_le; [lia|]. intros j y Hj Hy. unfold attempt_at in Hy.
  rewrite !andb_true_iff, !bool_decide_eq_true, Z.eqb_eq in Hy. destruct Hy as [[[Hin Hp] Hv] Hs].
  pose proof (in_scope_same _ _ Hin Hscope) as Hsc. rewrite Ep in Hp. rewrite Ev in Hv.
  destruct (allowed_next _ _ Ha) as [[_ Hno]|(z&(_&_&Hmax)&Hz&_)].
  - by destruct (Hno _ _ Hj Hsc Hp Hv).
  - specialize (Hmax _ _ Hj ltac:(by split_and!)). lia.
Qed.

(** It takes one away. *)
Lemma started_left l p n s d d' x :
  rl_context l = c → attempt_started planning l p n s d d' x →
  (attempts_left d' < attempts_left d)%nat.
Proof.
  intros Hl Hx. pose proof (started_scope _ _ _ _ _ _ _ Hl Hx) as Hscope.
  destruct Hx as [Ha _ _ _ _ Hlim Hd]. destruct (fresh_attempt _ _ Ha) as [Hnew _].
  assert (Hk : kept d d') by (rewrite Hd; by apply kept_inserted).
  destruct (allowed_step _ _ Ha) as (st&Hst&Hsc&Hv&_).
  unfold step_scope, step_run_plan in Hsc. injection Hsc as _ _ _ Hp.
  pose proof (newer_attempt d x st Ha Hscope Hp Hv) as Hold.
  assert (srn_attempt x <= last_attempt d' (srn_step_id x) st)%Z.
  { eapply (last_attempt_ge _ _ _ (step_run_key x)); [rewrite Hd; apply lookup_insert_eq|].
    unfold attempt_at. rewrite Hscope, Hp, Hv, Z.eqb_refl, !bool_decide_true; done. }
  unfold attempts_left. rewrite (proj1 Hk).
  apply (sum_list_with_lt _ _ _ (srn_step_id x, st)); [|by apply elem_of_map_to_list|].
  - intros [i st']. unfold left_at. pose proof (kept_last_attempt d d' i st' Hk). simpl. lia.
  - unfold left_at. simpl. lia.
Qed.
End Left.

(** ** The loop *)

Section Turns.
Context `{envi : Env}.
Context (planning : PlanningSettings) (settings : Settings) (governance : json).
Context (planning_service :
           option (option (option PlanGenerator.router * error_reporter * string * string))).
Context (c : TenantContext) (runner : PlanStepRunner).
Hypothesis runner_keeps : ∀ rq recovered, moves kept_state (pru_run_plan_step runner rq recovered).

Local Notation left w := (attempts_left c planning (w_db w)).

Lemma keeps_left {A} (m : M A) w r w' : moves kept_world m → m w = (r, w') → (left w' <= left w)%nat.
Proof. intros Hm H. specialize (Hm w). rewrite H in Hm. by apply kept_left. Qed.

Lemma keeps_state_left {A} (m : XM A) x r x' :
  moves kept_state m → m x = (r, x') → (left (xs_world x') <= left (xs_world x))%nat.
Proof. intros Hm H. specialize (Hm x). rewrite H in Hm. by apply kept_left. Qed.

Lemma start_next_attempt_left l w st w' :
  start_next_attempt planning settings c l w = (Ok (Some st), w') → (left w' < left w)%nat.
Proof.
  unfold start_next_attempt. intros H. apply read_bind_Ok in H as (u&_&H); [|auto with reads].
  apply bind_Ok in H as (u'&w0&Hl&H). unfold require_lease_context in Hl.
  apply require_Ok in Hl as [Hl%bool_decide_eq_true ->].
  apply unit_connected_Ok in H. unfold start_ready_step in H.
  apply bind_Ok in H as (run&w1&H1&H).
  apply (moves_later_Ok _ _ _ _ (later_lock_run c l)) in H1 as E1.
  apply read_bind_Ok in H as (o&_&H); [|auto with reads]. destruct o as [r|]; [|done].
  apply bind_Ok in H as (x&w2&H2&H).
  pose proof (wp_create_step_attempt c planning l (ps_plan_id (rps_plan r))
    (ps_current_version (rps_plan r)) (pst_step_id (rps_step r)) w1) as Hx.
  unfold wp in Hx. rewrite H2 in Hx. destruct Hx as (row&Hx). rewrite E1 in Hx.
  apply (started_left c planning l) in Hx; [|done].
  apply bind_Ok in H as (k&w3&H3&[= _ <-]).
  apply keeps_left in H3; [lia|]. unfold step_checkpoint. auto with keeps.
Qed.

(** The work of a turn. *)
Lemma next_work_left l b w st w' :
  next_work planning settings governance c runner l b w = (Ok (Some st), w') →
  (left w' <= left w)%nat ∧ (b = false → (left w' < left w)%nat).
Proof.
  unfold next_work. destruct b.
  - intros H. split; [|done]. apply keeps_left in H; [done|]. keep.
  - intros H. apply bind_Ok in H as (l1&w1&H1&H). apply bind_Ok in H as (u&w2&H2&H).
    apply keeps_left in H1; [|auto with keeps]. apply keeps_left in H2; [|auto with keeps].
    apply start_next_attempt_left in H. lia.
Qed.

Lemma settle_step_left l started done x x' :
  settle_step planning settings governance planning_service c runner l started done x =
    (Ok None, x') → (left (xs_world x') <= left (xs_world x))%nat.
Proof.
  unfold settle_step. intros H. apply bind_Ok in H as (u&x1&H1&H).
  apply keeps_state_left in H1; [|keep]. apply lift_bind_Ok in H as (doc&_&H).
  apply bind_Ok in H as (u'&x2&H2&H). apply keeps_state_left in H2; [|keep].
  case_bool_decide; [|injection H as <-; lia].
  destruct planning_service; [apply bind_Ok in H as (?&?&_&H)|apply bind_Ok in H as (?&?&_&H)]; done.
Qed.

(** A turn that goes round leaves fewer attempts, unless it went on with an old one. *)
Lemma iteration_left last recovered b x plan x' :
  iteration planning settings governance planning_service c runner last recovered b x =
    (Ok (inr plan), x') →
  (left (xs_world x') <= left (xs_world x))%nat ∧
  (b = false → (left (xs_world x') < left (xs_world x))%nat).
Proof.
  unfold iteration. intros H. apply bind_Ok in H as (l&x1&H1&H).
  apply keeps_state_left in H1; [|auto with keeps].
  apply bind_Ok in H as (o&x2&[H2 _]%on_world_Ok&H). destruct o as [started|].
  2:{ do 3 apply bind_Ok in H as (?&?&_&H). done. }
  apply next_work_left in H2 as [Hle Hlt].
  apply bind_Ok in H as (u&x3&H3&H). apply keeps_state_left in H3; [|keep].
  apply bind_Ok in H as (done_&x4&H4&H). apply keeps_state_left in H4; [|apply runner_keeps].
  destruct done_ as [done_|stop].
  - apply bind_Ok in H as (settled&x5&H5&H). destruct settled; [done|]. injection H as _ <-.
    apply settle_step_left in H5. split; [lia|]. intros Hb. specialize (Hlt Hb). lia.
  - destruct (con_state stop); [done| |done]. by apply bind_Ok in H as (?&?&_&H).
Qed.

(** With more fuel than attempts, the loop does not run out of it. *)
Lemma execute_loop_ends fuel last recovered (b : bool) x :
  (left (xs_world x) + (if b then 1 else 0) < fuel)%nat →
  (execute_loop planning settings governance planning_service fuel c runner last recovered b x).1
    ≠ Ok None.
Proof.
  revert last recovered b x. induction fuel as [|fuel IH]; intros last recovered b x Hf; [lia|].
  simpl. unfold mbind, stM_bind.
  destruct (iteration planning settings governance planning_service c runner last recovered b x)
    as [[[out|plan]|e] x1] eqn:E; [done| |done].
  apply iteration_left in E as [Hle Hlt]. apply IH.
  destruct b; [lia|]. specialize (Hlt eq_refl). lia.
Qed.

Lemma execute_to_boundary_ends router fuel r i b x :
  (left (xs_world x) + 1 < fuel)%nat →
  (execute_to_boundary planning settings governance planning_service router fuel c runner r i b x).1
    ≠ Ok None.
Proof.
  intros Hf. unfold execute_to_boundary, catch.
  match goal with |- context [(?m ≫= ?k) x] => destruct ((m ≫= k) x) as [[o|e] x1] eqn:E end.
  - simpl. intros [= ->]. apply bind_Ok in E as (recovered&x0&H0&H).
    assert (x0 = x) as -> by (unfold recovered_pair in H0; destruct r, i; by injection H0).
    eapply (f_equal fst) in H. revert H. apply execute_loop_ends.
    destruct (b || _); lia.
  - destruct e; try done. unfold mbind, stM_bind.
    by destruct (cancel_at_boundary settings router c x1) as [[out|e] x2].
Qed.
End Turns.

(** Every step has its attempts left at most. *)
Lemma attempts_left_bound c planning d :
  (attempts_left c planning d <=
     size (agent_plan_steps d) * Z.to_nat (pls_max_step_attempts planning))%nat.
Proof.
  unfold attempts_left. rewrite <- length_map_to_list.
  induction (map_to_list (agent_plan_steps d)) as [|ist l IH]; simpl; [lia|].
  unfold left_at at 1. pose proof (last_attempt_nonneg c d ist.1 ist.2). lia.
Qed.
