(* ===== verification/ExecutionTheorems.v ===== *)
(** * Theorems about the execution of Plans

    From the refinement of the execution ([ExecutionRefinement]) and from what the
    verification of results establishes ([ExecutionFacts]). *)

From S2P Require Import Prelude Records Errors Json Regex Redaction Tenancy.
From S2P Require Import WorkflowModels.
From S2P Require Import Storage Collections PlanStorage Checkpoint Events PlanValidation.
From S2P Require Import PlanSpec PlanRecords PlanTheorems PlanReading WorkflowRepository.
From S2P Require Import PlanRepository.
From S2P Require Import PlanDecisions PlanAttempts MemoryRepository PlanResults.
From S2P Require Import PlanContent.
From S2P Require Import PlanEffects PlanInvariants PlanHistory.
From S2P Require Import WorkflowCoordinator PlanGenerator PlanService Recovery.
From S2P Require Import Continuation.
From S2P Require Import PlanExecution PlanLoop WorkflowSpec WorkflowRefinement.
From S2P Require Import PlanRefinement PlanAttemptRefinement PlanSystem.
From S2P Require Import ExecutionRefinement.
From S2P Require Import ExecutionFacts WorkflowInvariants WorkflowSystem Scenario.
From S2P Require Import PlanScenario.
From S2P Require Import MemoryTheorems StoredResults CheckpointWriting.
From S2P Require Import ExecutionOutcomes LoopTermination.
From stdpp Require Import base gmap strings list relations.

(** ** Lemmas *)

Section Facts.
Context `{envi : Env}.

(** The context of a Plan, found for a user, names no run. *)
Lemma locate_context_Ok t p w c w' :
  locate_context t p w = (Ok c, w') → w' = w ∧ tc_run_id c = None.
Proof.
  intros H. split; [exact (read_only_Ok _ _ _ _ (read_only_locate_context t p) H)|].
  unfold locate_context in H. apply bind_Ok in H as (d&w1&[= <- <-]&H).
  destruct (agent_plans (w_db w) !! p) as [x|]; [|done].
  case_bool_decide; [|done]. unfold lift in H. injection H as H _.
  by apply post_init_Ok in H as [-> _].
Qed.

(** Without a run, no round can be reserved, so nothing is generated. *)
Lemma generate_without_run planning co g m m' c p objective revision limits ask :
  tc_run_id c = None →
  ∃ e, ∀ w, generate ask g m m' objective revision limits
              (reserve_revision_round planning co c p) w = (Err e, w).
Proof.
  intros Hc. unfold generate. destruct ask as [ask|]; [|by eexists].
  unfold require. destruct (negb _ && _); [|by eexists].
  unfold reserve_revision_round, require. rewrite Hc, (bool_decide_false (is_Some None)),
    andb_false_r by (by intros []). by eexists.
Qed.

Lemma read_decision_state_Ok r by_ w c s run replay w' :
  read_decision_state r by_ w = (Ok (c, s, run, replay), w') → tc_run_id c = None.
Proof.
  unfold read_decision_state. intros (x&w1&Hc&H)%bind_Ok.
  apply locate_context_Ok in Hc as [-> Hc].
  do 5 apply bind_Ok in H as (?&?&_&H). by injection H as <- <- <- <-.
Qed.

Lemma revise_without_run planning co generator r c s by_ rt w :
  tc_run_id c = None → ∃ e, PlanService.revise planning co generator r c s by_ rt w = (Err e, w).
Proof.
  intros Hc. unfold PlanService.revise. destruct generator as [[[[ask g] m] m']|]; [|by eexists].
  unfold mbind, stM_bind, lift.
  destruct (revision_current_plan_context _) as [cp|e]; [|by eexists].
  destruct (make_revision_context _) as [rv|e]; [|by eexists].
  match goal with |- context [generate ?a ?b ?d ?f ?o ?v ?l (reserve_revision_round ?x ?y c ?p)] =>
    destruct (generate_without_run x y b d f c p o v l a Hc) as (e&He) end.
  rewrite He. by eexists.
Qed.

Lemma any_latest_false p latest i x :
  any_latest p latest = false → latest !! i = Some x → p (psr_status x) = false.
Proof.
  unfold any_latest. intros Hn Hx. destruct (p (psr_status x)) eqn:E; [|done].
  rewrite <- Hn. symmetry. apply existsb_exists. exists x. split; [|done].
  apply list_elem_of_In. by eapply rows_lookup.
Qed.
Lemma dependency_digests_missing by_id l acc doc :
  doc ∈ l → by_id !! doc_step_id doc = None → dependency_digests by_id l acc = Err KeyError.
Proof.
  revert acc. induction l as [|a l IH]; intros acc Hin Hn; [by apply elem_of_nil in Hin|].
  simpl. apply elem_of_cons in Hin as [->|Hin]; [by rewrite Hn|].
  destruct (by_id !! doc_step_id a); [by apply IH|done].
Qed.

Lemma steps_by_id_None l i : (∀ t, t ∈ l → pst_step_id t ≠ i) → steps_by_id l !! i = None.
Proof.
  unfold steps_by_id, dict_from. rewrite <- (lookup_empty (M:=gmap string) (A:=PlanStepRecord) i).
  generalize (∅ : gmap string PlanStepRecord). induction l as [|t l IH]; intros m Hl; [done|].
  simpl. rewrite IH by (intros u Hu; apply Hl; by right).
  apply lookup_insert_ne, Hl. by left.
Qed.

(** A dependency of the step was taken over from another attempt. *)
Definition rests_on_reuse (c : TenantContext) (w : World) (plan : PlanSnapshot)
    (s : PlanStepRecord) : bool :=
  match (latest_attempts c plan w).1 with
  | Ok latest =>
    existsb (λ i, match latest !! i with
                  | Some x => bool_decide (is_Some (psr_reused_from_step_run_id x))
                  | None => false
                  end) (depends plan s)
  | Err _ => false
  end.

(** Steps replace steps of other versions. *)
Definition superseded_elsewhere (plan : PlanSnapshot) : bool :=
  forallb (λ s, forallb (λ t, negb (bool_decide (pst_supersedes_step_id s = Some (pst_step_id t))))
                  (pvr_steps (ps_current plan))) (pvr_steps (ps_current plan)).

Lemma superseded_elsewhere_true plan s t :
  superseded_elsewhere plan = true → s ∈ pvr_steps (ps_current plan) →
  t ∈ pvr_steps (ps_current plan) → pst_supersedes_step_id s ≠ Some (pst_step_id t).
Proof.
  unfold superseded_elsewhere. rewrite forallb_forall. intros H Hs%list_elem_of_In%H Ht.
  rewrite forallb_forall in Hs. apply list_elem_of_In, Hs, negb_true_iff in Ht.
  by apply bool_decide_eq_false in Ht.
Qed.
End Facts.

(** ** The claims *)

Section Claims.
Context `{envi : Env}.
Context (planning : PlanningSettings) (settings : Settings) (governance : json).
Context (planning_service :
           option (option (option PlanGenerator.router * error_reporter * string * string))).
Context (has_event_router : bool) (runner : PlanStepRunner).
Local Notation q := (set_max_concurrent_runs_per_tenant settings).

(** C4: Executing a Plan, from the first step to the final summary, through failures,
    revisions, cancellation and reuse, and with whatever exception it ends, moves the
    database along the effects of the specification only, and so preserves the
    invariants of the engine, of the Plans and of their source messages, provided that
    the agent that does the work of the steps changes the database only as the engine
    does. *)
Theorem execution_follows_specification fuel c x :
  (∀ rq recovered, moves (exec_steps q) (pru_run_plan_step runner rq recovered)) →
  wf_db q (w_db (xs_world x)) → plans_ok (w_db (xs_world x)) → sources_ok (w_db (xs_world x)) →
  let d' := w_db (xs_world (execute_with_final_summary planning settings governance
                              planning_service has_event_router fuel c runner x).2) in
  effects q (w_db (xs_world x)) d' ∧ wf_db q d' ∧ plans_ok d' ∧ sources_ok d'.
Proof.
  intros Hr Hw Hp Hs d'.
  assert (He : effects q (w_db (xs_world x)) d') by (by apply moves_execute_with_final_summary).
  split_and!; [done|by eapply effects_wf|by eapply effects_plans|by eapply effects_sources].
Qed.

(** C5: Execution ends.  Provided that the agent that does the work of the steps adds no
    steps and removes no attempts, the execution of a Plan, from the first step to the
    final summary, returns an outcome or raises: a loop over [s] stored steps with a
    limit of [a] attempts each never takes more than [s * a + 2] turns, whatever fails,
    is retried, reused or cancelled on the way. *)
Theorem execution_terminates fuel c x :
  (∀ rq recovered, moves kept_state (pru_run_plan_step runner rq recovered)) →
  (size (agent_plan_steps (w_db (xs_world x))) * Z.to_nat (pls_max_step_attempts planning) + 1
     < fuel)%nat →
  (∃ out, (execute_with_final_summary planning settings governance planning_service
             has_event_router fuel c runner x).1 = Ok (Some out)) ∨
  (∃ e, (execute_with_final_summary planning settings governance planning_service
           has_event_router fuel c runner x).1 = Err e).
Proof.
  intros Hr Hf. pose proof (attempts_left_bound c planning (w_db (xs_world x))).
  pose proof (execute_to_boundary_ends planning settings governance planning_service c runner Hr
    has_event_router fuel None None false x ltac:(lia)) as Hne.
  unfold execute_with_final_summary, mbind, stM_bind.
  destruct (execute_to_boundary _ _ _ _ _ _ _ _ _ _ _ x) as [[[out|]|e] x1]; [|done|by right; eexists].
  unfold with_summary. case_bool_decide; [|by left; eexists].
  unfold mbind, stM_bind. destruct (complete_final_summary _ _ _ _ x1) as [[o|e] x2];
    [by left; eexists|by right; eexists].
Qed.

(** C16: The next step.  When a selection succeeds, the run and its Plan are executable
    (approved, current, active), no attempt is running or has failed for good, and
    either every step has succeeded, or the chosen step is a step of the version that is
    ready, comes before every other ready step, and is given, for each of its
    dependencies in order, the document that the latest, succeeded attempt of that
    dependency recorded; a selection changes nothing. *)
Theorem next_step_is_first_ready c w o w' :
  select_next_step c w = (Ok o, w') →
  w' = w ∧ ∃ plan latest,
    load_executable_plan c w = (Ok plan, w) ∧ latest_attempts c plan w = (Ok latest, w) ∧
    (∀ i x, latest !! i = Some x → psr_status x ≠ STEP_RUNNING ∧
       psr_status x ∉ TERMINAL_PLAN_STEP_STATUSES) ∧
    let ready s := is_plan_step_ready (pst_step_id s) (depends plan s) latest = true in
    match o with
    | None => ∀ s, s ∈ pvr_steps (ps_current plan) →
        ∃ x doc, latest !! pst_step_id s = Some x ∧ psr_status x = STEP_SUCCEEDED ∧
          authentic c plan w s x doc
    | Some r =>
      rps_plan r = plan ∧ rps_step r ∈ pvr_steps (ps_current plan) ∧ ready (rps_step r) ∧
      (∀ s, s ∈ pvr_steps (ps_current plan) → ready s → ordinal_leb (rps_step r) s = true) ∧
      Forall2 (λ i doc, ∃ s x, s ∈ pvr_steps (ps_current plan) ∧ pst_step_id s = i ∧
                 latest !! i = Some x ∧ psr_status x = STEP_SUCCEEDED ∧ authentic c plan w s x doc)
        (depends plan (rps_step r)) (rps_dependency_results r)
    end.
Proof.
  intros (->&plan&latest&docs&Hp&Hl&Hd&Hn1&Hn2&Ho)%select_next_step_Ok. split; [done|].
  destruct (load_executable_plan_Ok _ _ _ _ Hp) as (run&_&_&_&_&_&_&_&HN).
  destruct (load_succeeded_results_Ok _ _ _ _ _ _ Hd HN) as (_&Hv&Hall).
  exists plan, latest. split_and!; [done..| |].
  - intros i x Hx. apply (any_latest_false _ _ _ _ Hn1) in Hx as H1.
    apply (any_latest_false _ _ _ _ Hn2) in Hx as H2.
    by rewrite bool_decide_eq_false in H1, H2.
  - intros ready. unfold ready. clear ready. destruct o as [r|].
    + destruct Ho as (->&Hc&Hf). unfold choose_ready_step, in_order in Hc.
      apply (find_sorted_least ordinal_leb) in Hc as (Hin&Hr&Hmin);
        [|apply ordinal_leb_total|apply ordinal_leb_trans].
      split_and!; [done..|]. eapply Forall2_impl; [exact Hf|]. simpl.
      intros i doc (s&Hs&<-&x&Hx&Hst&Ha&_)%Hv. by exists s, x.
    + intros s Hs. unfold all_steps_succeeded in Ho. rewrite forallb_forall in Ho.
      specialize (Ho s (proj1 (list_elem_of_In _ _) Hs)). unfold step_succeeded in Ho.
      destruct (latest !! pst_step_id s) as [x|] eqn:Hx; [|done].
      apply bool_decide_eq_true in Ho. destruct (Hall _ _ Hs Hx Ho) as [doc Hdoc].
      destruct (Hv _ _ Hdoc) as (t&Ht&Ei&y&Hy&Hst&Ha&_).
      assert (t = s) as -> by (by eapply NoDup_map_inj).
      assert (y = x) as -> by congruence. by exists x, doc.
Qed.

(** C34: Known defect, revision by the user.  A decision to revise a Plan never makes a
    new version: whatever the database, the request and the generator, the service
    either replays a decision that was recorded before or raises, because a model round
    can only be reserved for a run and the context of the Plan names none; it changes
    nothing. *)
Theorem user_revision_never_succeeds co generator r by_ rt w x w' :
  req_action r = DECIDE_REVISE →
  decide_plan planning co generator r by_ rt w = (x, w') →
  w' = w ∧ ∀ a, x = Ok a → pdx_idempotent_replay a = true.
Proof.
  intros Hr H. unfold decide_plan in H. cbv zeta in H.
  pose proof (read_only_read_decision_state (normalize_decision_request r) by_ w) as Hro.
  unfold mbind at 1, stM_bind in H.
  destruct (read_decision_state _ _ w) as [[[[[c s] run] replay]|e] w1] eqn:E;
    simpl in Hro; subst w1; [|by injection H as <- <-].
  destruct replay as [a|]; [by injection H as <- <-; split; [|intros ? [= <-]]|].
  simpl in H. rewrite Hr in H. apply read_decision_state_Ok in E.
  destruct (revise_without_run planning co generator (normalize_decision_request r) c s by_ rt w E)
    as (e&He). rewrite He in H. by injection H as <- <-.
Qed.

(** C35: Known defect, reused dependencies.  A step that rests on a result that was taken
    over from an earlier version cannot be recorded: whatever its work gave, the document
    of its result cannot be built, because the results it was given are looked up by the
    identifiers of the steps that left them, and those are not steps of the version. *)
Theorem reused_dependency_cannot_be_recorded c w r w' lease step_run done tools skills :
  select_next_step c w = (Ok (Some r), w') →
  rests_on_reuse c w (rps_plan r) (rps_step r) = true →
  superseded_elsewhere (rps_plan r) = true →
  build_result_document
    (request_of c lease {| sps_plan := rps_plan r; sps_step := rps_step r;
                           sps_step_run := step_run;
                           sps_dependency_results := rps_dependency_results r |})
    done tools governance skills = Err KeyError.
Proof.
  intros H Hreuse Hsup.
  apply select_next_step_Ok in H as (_&plan&latest&docs&Hp&Hl&Hd&_&_&<-&_&Hf).
  destruct (load_executable_plan_Ok _ _ _ _ Hp) as (run&_&_&_&_&_&_&_&HN).
  destruct (load_succeeded_results_Ok _ _ _ _ _ _ Hd HN) as (_&Hv&_).
  unfold rests_on_reuse in Hreuse. rewrite Hl in Hreuse. simpl in Hreuse.
  apply existsb_exists in Hreuse as (i&Hi%list_elem_of_In&Hx).
  destruct (latest !! i) as [x|] eqn:Ex; [|done].
  apply bool_decide_eq_true in Hx as [source Hsrc]. apply list_elem_of_lookup in Hi as [n Hn].
  destruct (Forall2_lookup_l _ _ _ _ _ Hf Hn) as (doc&Hdoc&Hin).
  destruct (Hv _ _ Hin) as (s&Hs&<-&y&Hy&_&Ha&_). assert (y = x) as -> by congruence.
  pose proof (auth_attempt _ _ _ _ _ _ Ha) as Hatt. rewrite Hsrc in Hatt. destruct Hatt as [Hatt _].
  unfold build_result_document. simpl. rewrite (dependency_digests_missing _ _ _ doc); [done| |].
  - by eapply list_elem_of_lookup_2.
  - apply steps_by_id_None. intros t Ht E. apply (superseded_elsewhere_true _ s t Hsup Hs Ht).
    congruence.
Qed.

(** C17: Results are tamper evident.  Whatever happens to the stored documents between
    two verifications of the same attempts, both accept the same steps and, when SHA-256
    has no collisions, the results they accept have the same canonical text: an edited,
    swapped or re-written document is refused. *)
Theorem verified_results_are_tamper_evident c plan latest w1 w2 docs1 docs2 :
  (∀ a b, env_sha256_hex a = env_sha256_hex b → a = b) →
  NoDup (map pst_step_id (pvr_steps (ps_current plan))) →
  (load_succeeded_results c plan latest w1).1 = Ok docs1 →
  (load_succeeded_results c plan latest w2).1 = Ok docs2 →
  result_canonical_json <$> docs1 = result_canonical_json <$> docs2.
Proof.
  intros Hinj HN H1 H2.
  assert (Hsub : ∀ w w' docs docs' i a, (load_succeeded_results c plan latest w).1 = Ok docs →
    (load_succeeded_results c plan latest w').1 = Ok docs' → docs !! i = Some a →
    ∃ b, docs' !! i = Some b ∧ result_canonical_json b = result_canonical_json a).
  { intros w w' docs docs' i a E E' Ha.
    destruct (load_succeeded_results_Ok c plan latest w docs _ (ran _ _ _ E) HN) as (_&Hv&_).
    destruct (load_succeeded_results_Ok c plan latest w' docs' _ (ran _ _ _ E') HN) as (_&Hv'&Hall).
    destruct (Hv _ _ Ha) as (s&Hs&<-&x&Hx&Hst&Hau&_). destruct (Hall _ _ Hs Hx Hst) as [b Hb].
    exists b. split; [done|]. destruct (Hv' _ _ Hb) as (t&Ht&Ei&y&Hy&_&Hbu&_).
    assert (t = s) as -> by (by eapply NoDup_map_inj). assert (y = x) as -> by congruence.
    apply Hinj. pose proof (auth_digest _ _ _ _ _ _ Hau) as D.
    pose proof (auth_digest _ _ _ _ _ _ Hbu) as D'. rewrite D in D'. by injection D'. }
  apply map_eq. intros i. rewrite !lookup_fmap.
  destruct (docs1 !! i) as [a|] eqn:Ea.
  - destruct (Hsub _ _ _ _ _ _ H1 H2 Ea) as (b&->&Hb). simpl. by rewrite Hb.
  - destruct (docs2 !! i) as [b|] eqn:Eb; [|done].
    destruct (Hsub _ _ _ _ _ _ H2 H1 Eb) as (a&Ha&_). congruence.
Qed.

(** C32: Results survive being stored.  The document that the loop builds for a finished
    step, once stored, is found by its reference and read back as the same document (its
    dependencies in the order of their keys) with the same digest: metadata, size limit,
    scope and JSON form all agree between the writer and the reader. *)
Theorem stored_result_reads_back c rq done tools skills doc ref s x w w' :
  UUID_PATTERN (env_uuid4 (w_draws w)) = true → tc_session_id c = Some s → s ≠ "" →
  build_result_document rq done tools governance skills = Ok doc →
  psr_step_run_id x = doc_step_run_id doc →
  persist_plan_step_result c doc w = (Ok ref, w') →
  ∃ i, RESULT_REF ref = Some i ∧
    read_document c (doc_plan_id doc) i x w' = (Ok (in_key_order doc), w') ∧
    result_digest (in_key_order doc) = result_digest doc.
Proof.
  intros Hu Hs Hne Hb Hx Hw. destruct (built_document_ok _ _ _ _ _ _ Hb) as [Hok Hn].
  destruct (persist_plan_step_result_Ok _ _ _ _ _ _ Hs Hne Hw) as (->&Hl&now&He).
  exists (env_uuid4 (w_draws w)). split_and!; [by apply uuid_reference| |].
  - by eapply written_document_reads_back.
  - unfold result_digest. by rewrite in_key_order_text.
Qed.

(** C18: Cancellation at a boundary.  When it returns, the outcome and the run say
    cancelled, and either the run had been cancelled before and nothing changes, or the
    run is sealed (terminal status, [finished_at], a last checkpoint that decodes to the
    same), none of its step attempts is running any more, and exactly one event was
    published when there is a router.  Identifiers of attempts are drawn at random and
    taken to be distinct within the run. *)
Theorem cancellation_at_boundary_seals c x out x' :
  attempt_ids_unique c (w_db (xs_world x)) →
  cancel_at_boundary settings has_event_router c x = (Ok out, x') →
  peo_state out = OUTCOME_CANCELLED ∧ rr_status (peo_run out) = RUN_CANCELLED ∧
  (x' = x ∨
   (idle c (w_db (xs_world x')) ∧ sealed_as c RUN_CANCELLED (w_db (xs_world x')) ∧
    if has_event_router
    then ∃ e, run_status_event c (peo_plan out) = Ok e ∧ xs_events x' = xs_events x ++ [e]
    else xs_events x' = xs_events x)).
Proof. apply cancel_at_boundary_Ok. Qed.
End Claims.

(** ** The sample execution *)

Lemma plan_world_wf : wf_db 2 (w_db plan_world).
Proof. apply no_runs_wf; done. Qed.

Lemma run_world_effects : effects 2 (w_db plan_world) (w_db run_world).
Proof. exact (exec_all_steps plan_repository long_co plan_repository_reads [create; approve; start] plan_world). Qed.

Lemma execution_follows_specification_witness :
  (∀ rq recovered, moves (exec_steps 2) (pru_run_plan_step (sample_runner "report" false) rq recovered)) ∧
  plans_ok (w_db (xs_world run_state)) ∧ plans_ok (w_db (xs_world replanned)).
Proof.
  assert (Hr : ∀ rq recovered, moves (exec_steps 2)
    (pru_run_plan_step (sample_runner "report" false) rq recovered)) by (intros rq rc x; apply rtc_refl).
  assert (Hp : plans_ok (w_db (xs_world run_state))).
  { eapply effects_plans; [exact run_world_effects|exact plan_world_ok]. }
  split; [exact Hr|]. split; [exact Hp|].
  apply (execution_follows_specification planning long_settings (JObj [])
    (Some (Some sample_generator)) true (sample_runner "report" false) 20 ctx run_state Hr).
  - eapply effects_wf; [exact plan_world_wf|exact run_world_effects].
  - exact Hp.
  - eapply effects_sources; [exact run_world_effects|exact plan_world_sources].
Defined.

Lemma execution_terminates_witness :
  ∃ out, (execute_with_final_summary planning long_settings (JObj []) (Some (Some sample_generator))
            true 12 ctx (sample_runner "none" false) run_state).1 = Ok (Some out).
Proof.
  destruct (execution_terminates planning long_settings (JObj []) (Some (Some sample_generator)) true
    (sample_runner "none" false) 12 ctx run_state) as [Hout|[e He]].
  - intros rq recovered x. by apply kept_same.
  - apply Nat.ltb_lt. vm_compute. reflexivity.
  - exact Hout.
  - assert (Hr : returned (execute_with_final_summary planning long_settings (JObj [])
      (Some (Some sample_generator)) true 12 ctx (sample_runner "none" false) run_state).1 = true)
      by (vm_compute; reflexivity).
    rewrite He in Hr. discriminate Hr.
Defined.

Lemma next_step_is_first_ready_witness :
  ∃ r, select_next_step ctx run_world = (Ok (Some r), run_world) ∧
  ∃ plan, rps_plan r = plan ∧ rps_step r ∈ pvr_steps (ps_current plan).
Proof.
  assert (∃ r, select_next_step ctx run_world = (Ok (Some r), run_world)) as (r&Hr).
  { apply ran_Some; [apply read_only_select_next_step|vm_compute; reflexivity]. }
  exists r. split; [exact Hr|].
  destruct (next_step_is_first_ready ctx run_world (Some r) run_world Hr)
    as (_&plan&latest&_&_&_&Hp&Hs&_).
  exists plan. split; [exact Hp|exact Hs].
Defined.

(** The user asks for another version. *)
Definition second_revision : PlanDecisionRequest :=
  MkPlanDecisionRequest "decision-9" PLAN 2 3 DECIDE_REVISE (Some "more").

Lemma user_revision_never_succeeds_witness :
  let r := decide_plan planning long_co (Some sample_generator) second_revision TENANT "worker-2"
             (xs_world replanned) in
  r.1 = Err (ValueError "revision requires session and run scope") ∧ r.2 = xs_world replanned.
Proof.
  split; [vm_compute; reflexivity|].
  apply (user_revision_never_succeeds planning long_co (Some sample_generator) second_revision
    TENANT "worker-2" (xs_world replanned) _ _ eq_refl (surjective_pairing _)).
Defined.

(** The second version, with the results of the first taken over. *)
Definition reuse_world : World :=
  let x := (enter_iteration long_settings ctx second_state).2 in
  (apply_compatible_reuse planning ctx (xs_lease x)
     (compatibility (JArr []) (JObj []) ["b"; "a"]) (xs_world x)).2.

Definition reuses (r : result exn (option ReadyPlanStep)) : bool :=
  match r with
  | Ok (Some r) => rests_on_reuse ctx reuse_world (rps_plan r) (rps_step r) &&
                   superseded_elsewhere (rps_plan r)
  | _ => false
  end.

Lemma reused_dependency_cannot_be_recorded_witness :
  ∃ r, (select_next_step ctx reuse_world).1 = Ok (Some r) ∧
  ∀ step_run, build_result_document
    (request_of ctx run_lease {| sps_plan := rps_plan r; sps_step := rps_step r;
                                 sps_step_run := step_run;
                                 sps_dependency_results := rps_dependency_results r |})
    (MkPlanStepCompletion "succeeded" "did it" [] false) (JArr []) (JObj []) ["b"; "a"] = Err KeyError.
Proof.
  assert (H : reuses (select_next_step ctx reuse_world).1 = true) by (vm_compute; reflexivity).
  destruct (select_next_step ctx reuse_world) as [[[r|]|e] w'] eqn:E; [|done|done].
  simpl in H. apply andb_true_iff in H as [H1 H2]. exists r. split; [reflexivity|]. intros step_run.
  exact (reused_dependency_cannot_be_recorded (JObj []) ctx reuse_world r w' run_lease step_run
    (MkPlanStepCompletion "succeeded" "did it" [] false) (JArr []) ["b"; "a"] E H1 H2).
Defined.

(** A step is running when the user cancels. *)
Definition cancelling : ExecState :=
  MkExecState (exec_all plan_repository long_co [RequestCancellation ctx]
    (start_next_attempt planning long_settings ctx run_lease run_world).2) run_lease [].

Lemma ids_unique `{Env} c d :
  NoDup (map (λ ix, srn_step_run_id ix.2) (map_to_list (agent_plan_step_runs d))) →
  attempt_ids_unique c d.
Proof.
  intros Hn i j x y Hi%elem_of_map_to_list Hj%elem_of_map_to_list _ _ E.
  pose proof (NoDup_map_inj _ _ _ _ Hn Hi Hj E). congruence.
Qed.

Lemma cancellation_at_boundary_seals_witness :
  attempts_of cancelling = [STEP_RUNNING] ∧
  ∃ out, (cancel_at_boundary long_settings true ctx cancelling).1 = Ok out ∧
    rr_status (peo_run out) = RUN_CANCELLED.
Proof.
  split; [vm_compute; reflexivity|].
  destruct (ran_Ok (cancel_at_boundary long_settings true ctx) cancelling) as (out&Ho);
    [vm_compute; reflexivity|].
  exists out. split; [by rewrite Ho|].
  apply (cancellation_at_boundary_seals long_settings true ctx cancelling out _) in Ho as (_&Hr&_);
    [exact Hr|].
  apply ids_unique, (bool_decide_eq_true_1 _). vm_compute. reflexivity.
Defined.

(** One succeeded step, and its document stored with other white space. *)
Definition proof_document : PlanStepResultDocument :=
  MkPlanStepResultDocument 1 PLAN 1 RUN APPROVAL EXECUTION 1 "succeeded" "did it" [] DIGEST []
    DIGEST DIGEST DIGEST.
Definition proof_step : PlanStepRecord :=
  MkPlanStepRecord APPROVAL "build" None 1 "Title" "Description" "Outcome" None 2 DIGEST.
Definition proof_plan : PlanSnapshot :=
  let v := MkPlanVersionRecord PLAN 1 "Objective" [] "Reason" None None 1 DIGEST 0 [proof_step] ∅ in
  MkPlanSnapshot ctx PLAN MESSAGE TRIGGER_EXPLICIT PLAN_APPROVED 1 (Some 1%Z) 2 0 0 v [v] [].
Definition proof_attempts : gmap string PlanStepRunRecord :=
  {[ APPROVAL := MkPlanStepRunRecord EXECUTION RUN PLAN 1 APPROVAL 1 STEP_SUCCEEDED (Some "did it")
       (Some ("memory:" +:+ OTHER_RUN)) (Some (result_canonical_json proof_document)) None None None
       2 0 (Some 0%Z) ]}.
Definition proof_world (content : string) : World :=
  MkWorld (empty_db <| memory_entries := {[ OTHER_RUN := MkMemoryEntry OTHER_RUN TENANT WORKSPACE
    (Some SESSION) content "plan_step_result" "assistant" 0 0
    (metadata_json (result_metadata proof_document)) ]} |>) 0 0.

Lemma verified_results_are_tamper_evident_witness :
  let load content := @load_succeeded_results collision_free ctx proof_plan proof_attempts
                        (proof_world content) in
  let text := result_canonical_json proof_document in
  ∃ docs1 docs2, (load text).1 = Ok docs1 ∧ (load (" " +:+ text +:+ " ")).1 = Ok docs2 ∧
    result_canonical_json <$> docs1 = result_canonical_json <$> docs2.
Proof.
  intros load text. unfold load.
  destruct (ran_Ok (@load_succeeded_results collision_free ctx proof_plan proof_attempts)
    (proof_world text)) as (docs1&H1); [vm_compute; reflexivity|].
  destruct (ran_Ok (@load_succeeded_results collision_free ctx proof_plan proof_attempts)
    (proof_world (" " +:+ text +:+ " "))) as (docs2&H2); [vm_compute; reflexivity|].
  exists docs1, docs2. rewrite H1, H2. split; [reflexivity|]. split; [reflexivity|].
  apply (@verified_results_are_tamper_evident collision_free ctx proof_plan proof_attempts
    (proof_world text) (proof_world (" " +:+ text +:+ " "))).
  - intros a b E. exact E.
  - apply (bool_decide_eq_true_1 _). vm_compute. reflexivity.
  - by rewrite H1.
  - by rewrite H2.
Defined.

(** The same step, finished and stored. *)
Definition proof_request : PlanStepExecutionRequest :=
  MkPlanStepExecutionRequest ctx run_lease proof_plan proof_step
    (MkPlanStepRunRecord EXECUTION RUN PLAN 1 APPROVAL 1 STEP_RUNNING None None None None None None
       1 0 None) [].

Lemma stored_result_reads_back_witness :
  let doc := proof_document in
  let stored := persist_plan_step_result ctx doc run_world in
  ∃ ref i, stored.1 = Ok ref ∧ RESULT_REF ref = Some i ∧
    (read_document ctx PLAN i (xrq_step_run proof_request) stored.2).1 = Ok (in_key_order doc).
Proof.
  intros doc stored. unfold stored.
  destruct (ran_Ok (persist_plan_step_result ctx doc) run_world) as (ref&Hr);
    [vm_compute; reflexivity|].
  assert (Hu : UUID_PATTERN (env_uuid4 (w_draws run_world)) = true) by (vm_compute; reflexivity).
  assert (Hb : build_result_document proof_request
    (MkPlanStepCompletion "succeeded" "did it" [] false) (JArr []) (JObj []) [] = Ok doc)
    by (vm_compute; reflexivity).
  destruct (stored_result_reads_back (JObj []) ctx proof_request
    (MkPlanStepCompletion "succeeded" "did it" [] false) (JArr []) [] doc ref SESSION
    (xrq_step_run proof_request) run_world (persist_plan_step_result ctx doc run_world).2
    Hu eq_refl ltac:(discriminate) Hb eq_refl Hr) as (i&Hi&Hd&_).
  exists ref, i. split; [by rewrite Hr|]. split; [exact Hi|].
  change PLAN with (doc_plan_id doc). by rewrite Hd.
Defined.
