(* ===== verification/WorkflowTheorems.v ===== *)
(** * Theorems about the running engine

    Statements over every sequence of requests, from the refinement
    ([WorkflowRefinement]), the history lemmas and the invariants. *)

From S2P Require Import Prelude Records Errors Json Tenancy WorkflowModels Storage.
From S2P Require Import Checkpoint.
From S2P Require Import PlanRecords WorkflowRepository WorkflowCoordinator WorkflowSpec.
From S2P Require Import WorkflowRefinement WorkflowHistory WorkflowInvariants.
From S2P Require Import Leases WorkflowSystem Scenario.
From stdpp Require Import base gmap strings list sets relations.

(** Evaluate a closed goal on the sample engine. *)
Ltac by_run := vm_compute; first [reflexivity | done].

Section Claims.
Context `{Env} (plans : PlanReader).
Context (co : WorkflowCoordinator).
Local Notation q := (set_max_concurrent_runs_per_tenant (co_settings co)).
Local Notation run rqs w := (exec_all plans co rqs w).

(** C2: Refinement.  Whatever requests are executed, in whatever order and with whatever
    outcome, the database moves along the effects of the specification only. *)
Theorem engine_refines_spec rqs w :
  PlanReads plans → effects q (w_db w) (w_db (run rqs w)).
Proof. intros Hp. by apply exec_all_steps. Qed.

(** C1: Fencing.  Once a run's row carries a newer version or fencing token than a lease,
    then after any further requests of any process, every operation guarded by that
    lease leaves the database exactly as it is, and is refused with an exception (an
    execution is refused with [None]). *)
Theorem superseded_lease_never_writes rqs rq l w :
  PlanReads plans →
  superseded l (w_db w) → request_lease rq = Some l →
  let w' := run rqs w in
  w_db (exec plans co rq w').2 = w_db w' ∧
  ((∃ e, (exec plans co rq w').1 = Err e) ∨
   ∃ i, rq = CreateExecution l i ∧ (create_execution co l i w').1 = Ok None).
Proof.
  intros Hp Hs Hl w'. apply fenced_request; [|done]. apply superseded_fenced.
  eapply superseded_persists; [done|]. by apply exec_all_steps.
Qed.

(** C3: The whole-database invariant (quota, serial executions, token bounds, terminal
    timestamps, approval times, referential integrity, unique checkpoint numbers) holds
    after any requests if it holds before. *)
Theorem database_stays_well_formed rqs w :
  PlanReads plans →
  wf_db q (w_db w) → wf_db q (w_db (run rqs w)).
Proof. intros Hp Hw. eapply effects_wf; [done|]. by apply exec_all_steps. Qed.

(** Quota.  Starting without runs, no sequence of requests ever gives a tenant more
    active runs than [max_concurrent_runs_per_tenant]. *)
Theorem tenant_quota_never_exceeded rqs w t :
  PlanReads plans → (0 ≤ q)%Z → agent_runs (w_db w) = ∅ →
  (count_rows (active_runs_of t) (agent_runs (w_db (run rqs w))) ≤ q)%Z.
Proof.
  intros Hp Hq Hr.
  assert (Hok : quota_ok q (w_db w)).
  { intros t'. rewrite Hr. unfold count_rows, rows. rewrite map_to_list_empty. simpl. lia. }
  eapply effects_quota; [exact Hok|]. by apply exec_all_steps.
Qed.

(** Serial execution.  A run never has two open tool executions. *)
Theorem executions_are_serial rqs w i j e e' :
  PlanReads plans → serial (w_db w) →
  let d := w_db (run rqs w) in
  tool_executions d !! i = Some e → tool_executions d !! j = Some e' →
  execution_scope e = execution_scope e' →
  execution_open e = true → execution_open e' = true → i = j.
Proof.
  intros Hp Hs d. eapply effects_serial; [exact Hs|]. by apply exec_all_steps.
Qed.

(** Terminal runs are final.  A run in a terminal status keeps that status, its
    [finished_at], its owner and its fencing token whatever happens later. *)
Theorem terminal_runs_are_final rqs w i r :
  PlanReads plans →
  agent_runs (w_db w) !! i = Some r → run_terminal (run_run_status r) = true →
  ∃ r', agent_runs (w_db (run rqs w)) !! i = Some r' ∧
    run_run_status r' = run_run_status r ∧ run_finished_at r' = run_finished_at r ∧
    run_fencing_token r' = run_fencing_token r ∧ run_lease_owner r' = run_lease_owner r.
Proof.
  intros Hp Hr Ht. edestruct runs_evolve as (r' & Hr' & Hs);
    [by apply (exec_all_steps plans co Hp rqs w)|done|].
  exists r'. split; [done|]. by apply run_steps_terminal.
Qed.

(** Tokens.  A run's version and fencing token never decrease, the token grows no
    faster than the version, the owner changes only with the token, a row whose version
    did not change is untouched, a requested cancellation is never lost, and the run
    keeps its scope and its Plan. *)
Theorem run_tokens_are_monotone rqs w i r :
  PlanReads plans → agent_runs (w_db w) !! i = Some r →
  ∃ r', agent_runs (w_db (run rqs w)) !! i = Some r' ∧
    tokens_grow r r' ∧ same_run r r' ∧ cancel_kept r r'.
Proof.
  intros Hp Hr. edestruct runs_evolve as (r' & Hr' & Hs);
    [by apply (exec_all_steps plans co Hp rqs w)|done|].
  exists r'. split_and!; auto using run_steps_tokens, run_steps_same, run_steps_cancel.
Qed.

(** An approval is decided at most once: a row that is no longer awaiting the user
    is never changed again. *)
Theorem approvals_are_decided_once rqs w i a :
  PlanReads plans → approval_requests (w_db w) !! i = Some a →
  apr_approval_status a ≠ APPROVAL_AWAITING_USER →
  approval_requests (w_db (run rqs w)) !! i = Some a.
Proof.
  intros Hp Ha Hs. edestruct approvals_evolve as (a' & Ha' & Hst);
    [by apply (exec_all_steps plans co Hp rqs w)|done|].
  by rewrite <-(approval_decided_final _ _ Hst Hs).
Qed.

(** An execution keeps its identity and its input, its request id, result reference
    and result digest are written at most once, and a status without outgoing
    transitions is final. *)
Theorem execution_results_are_written_once rqs w i e :
  PlanReads plans → tool_executions (w_db w) !! i = Some e →
  ∃ e', tool_executions (w_db (run rqs w)) !! i = Some e' ∧ execution_monotone e e'.
Proof.
  intros Hp He. edestruct executions_evolve as (e' & He' & Hst);
    [by apply (exec_all_steps plans co Hp rqs w)|done|].
  exists e'. split; [done|]. by apply execution_steps_monotone.
Qed.

(** Checkpoints are append-only and their sequence numbers are unique per run. *)
Theorem checkpoints_are_append_only rqs w :
  PlanReads plans → checkpoints_unique (w_db w) →
  checkpoints_unique (w_db (run rqs w)) ∧
  ∀ i k, execution_checkpoints (w_db w) !! i = Some k →
    execution_checkpoints (w_db (run rqs w)) !! i = Some k.
Proof.
  intros Hp Hu. pose proof (exec_all_steps plans co Hp rqs w) as Hs. split.
  - by eapply effects_checkpoints.
  - intros i k Hk. by eapply checkpoints_persist.
Qed.
End Claims.

(** ** The theorems at work on the sample engine *)

Lemma engine_refines_spec_witness : effects 2 sample_db (w_db refreshed).
Proof.
  exact (engine_refines_spec no_plan sample_co
           [StartRun ctx "worker-1"; Heartbeat (lease_at 1)] world0 no_plan_reads).
Defined.

Lemma superseded_lease_never_writes_witness :
  let w' := exec_all no_plan sample_co [Heartbeat (lease_at 2)] refreshed in
  superseded (lease_at 1) (w_db refreshed) ∧
  w_db (exec no_plan sample_co (FinishRun (lease_at 1) RUN_COMPLETED) w').2 = w_db w'.
Proof.
  assert (Hs : superseded (lease_at 1) (w_db refreshed)).
  { eexists RUN, _. split; [reflexivity|]. split; [vm_compute; reflexivity|].
    left. vm_compute. reflexivity. }
  split; [exact Hs|].
  exact (proj1 (superseded_lease_never_writes no_plan sample_co [Heartbeat (lease_at 2)]
    (FinishRun (lease_at 1) RUN_COMPLETED) (lease_at 1) refreshed no_plan_reads Hs eq_refl)).
Defined.

Lemma sample_db_wf : wf_db 2 sample_db.
Proof. apply no_runs_wf; done. Qed.

Lemma database_stays_well_formed_witness :
  wf_db 2 sample_db ∧ wf_db 2 (w_db executing).
Proof.
  split; [exact sample_db_wf|].
  exact (database_stays_well_formed no_plan sample_co
    [StartRun ctx "worker-1"; CreateExecution (lease_at 1) sample_input;
     TransitionExecution (lease_at 1) EXECUTION EXEC_NOT_STARTED 1 EXEC_EXECUTING]
    world0 no_plan_reads sample_db_wf).
Defined.

Lemma tenant_quota_never_exceeded_witness :
  (count_rows (active_runs_of TENANT) (agent_runs (w_db
     (after [StartRun ctx "worker-1"; StartRun other_ctx "worker-2"]))) ≤ 2)%Z.
Proof.
  rewrite <-sample_co_quota. unfold after.
  apply (tenant_quota_never_exceeded no_plan sample_co
           [StartRun ctx "worker-1"; StartRun other_ctx "worker-2"] world0 TENANT).
  - exact no_plan_reads.
  - vm_compute. discriminate.
  - reflexivity.
Defined.

Lemma executions_are_serial_witness :
  ∃ e, tool_executions (w_db executing) !! EXECUTION = Some e ∧
    execution_open e = true ∧ EXECUTION = EXECUTION.
Proof.
  eexists. split; [vm_compute; reflexivity|]. split; [vm_compute; reflexivity|].
  eapply (executions_are_serial no_plan sample_co [] executing EXECUTION EXECUTION).
  - exact no_plan_reads.
  - exact (wf_serial _ _ (effects_wf 2 _ _ sample_db_wf
      (exec_all_steps no_plan sample_co no_plan_reads
        [StartRun ctx "worker-1"; CreateExecution (lease_at 1) sample_input;
         TransitionExecution (lease_at 1) EXECUTION EXEC_NOT_STARTED 1 EXEC_EXECUTING]
        world0))).
  - vm_compute. reflexivity.
  - vm_compute. reflexivity.
  - reflexivity.
  - vm_compute. reflexivity.
  - vm_compute. reflexivity.
Defined.

Definition finished : World :=
  after [StartRun ctx "worker-1"; FinishRun (lease_at 1) RUN_COMPLETED].

Lemma terminal_runs_are_final_witness :
  ∃ r', agent_runs (w_db (exec_all no_plan sample_co
           [Heartbeat (lease_at 2); TransitionRun (lease_at 3) RUN_RUNNING] finished)) !! RUN
        = Some r' ∧ run_run_status r' = RUN_COMPLETED.
Proof.
  edestruct (terminal_runs_are_final no_plan sample_co
    [Heartbeat (lease_at 2); TransitionRun (lease_at 3) RUN_RUNNING] finished RUN)
    as (r' & Hr' & Hs & _).
  - exact no_plan_reads.
  - vm_compute. reflexivity.
  - vm_compute. reflexivity.
  - exists r'. split; [exact Hr'|]. rewrite Hs. reflexivity.
Defined.

Lemma run_tokens_are_monotone_witness :
  ∃ r r', agent_runs (w_db started) !! RUN = Some r ∧
    agent_runs (w_db (exec_all no_plan sample_co [Heartbeat (lease_at 1)] started)) !! RUN
      = Some r' ∧ tokens_grow r r'.
Proof.
  edestruct (run_tokens_are_monotone no_plan sample_co [Heartbeat (lease_at 1)] started RUN)
    as (r' & Hr' & Ht & _).
  - exact no_plan_reads.
  - vm_compute. reflexivity.
  - eexists _, r'. split; [vm_compute; reflexivity|]. split; [exact Hr'|exact Ht].
Defined.

Definition decided : World :=
  after [StartRun ctx "worker-1"; CreateApproval (lease_at 1) APPROVAL "call-1" (λ _, 9000%Z);
         DecideApproval ctx APPROVAL true 1].

Lemma approvals_are_decided_once_witness :
  apr_approval_status <$> approval_requests (w_db decided) !! APPROVAL
    = Some APPROVAL_APPROVED ∧
  approval_requests (w_db (exec_all no_plan sample_co
     [DecideApproval ctx APPROVAL false 2] decided)) !! APPROVAL
    = approval_requests (w_db decided) !! APPROVAL.
Proof.
  split; [vm_compute; reflexivity|].
  edestruct (approval_requests (w_db decided) !! APPROVAL) as [a|] eqn:E;
    [|vm_compute in E; discriminate].
  apply (approvals_are_decided_once no_plan sample_co
           [DecideApproval ctx APPROVAL false 2] decided APPROVAL a).
  - exact no_plan_reads.
  - exact E.
  - vm_compute in E. injection E as <-. discriminate.
Defined.

Lemma execution_results_are_written_once_witness :
  ∃ e e', tool_executions (w_db executing) !! EXECUTION = Some e ∧
    tool_executions (w_db (exec_all no_plan sample_co
      [CompleteExecution (lease_at 1) EXECUTION EXEC_EXECUTING 2 EXEC_SUCCEEDED None
         (Some "ref") (Some DIGEST)] executing)) !! EXECUTION = Some e' ∧
    execution_monotone e e'.
Proof.
  edestruct (execution_results_are_written_once no_plan sample_co
    [CompleteExecution (lease_at 1) EXECUTION EXEC_EXECUTING 2 EXEC_SUCCEEDED None
         (Some "ref") (Some DIGEST)] executing EXECUTION) as (e' & He' & Hm).
  - exact no_plan_reads.
  - vm_compute. reflexivity.
  - eexists _, e'. split; [vm_compute; reflexivity|]. split; [exact He'|exact Hm].
Defined.

Lemma checkpoints_are_append_only_witness :
  checkpoints_unique (w_db (after [StartRunWithCheckpoint ctx "worker-1"])).
Proof.
  unfold after. apply (checkpoints_are_append_only no_plan sample_co
           [StartRunWithCheckpoint ctx "worker-1"] world0 no_plan_reads).
  exact (wf_checkpoints _ _ sample_db_wf).
Defined.
