(* ===== verification/OperationTheorems.v ===== *)
(** * Theorems about single operations

    The outcome of each operation on every branch, and what a successful one has
    established. *)

From S2P Require Import Prelude Records Errors Json Tenancy WorkflowModels Storage.
From S2P Require Import Checkpoint.
From S2P Require Import PlanRecords WorkflowRepository WorkflowCoordinator WorkflowSpec.
From S2P Require Import WorkflowRefinement WorkflowHistory WorkflowInvariants.
From S2P Require Import Leases WorkflowSystem WorkflowOperations CheckpointWriting.
From S2P Require Import Scenario.
From stdpp Require Import base gmap strings list sets relations.

Section LeaseTheorems.
Context `{Env} (co : WorkflowCoordinator) (Hco : co_connection co = false).
Local Notation ttl := (set_lease_ttl_ms (co_settings co)).

(** [acquire_run], every branch.  A terminal run is refused with
    [InvalidTransitionError]; an active run whose lease has not expired, or has none,
    with [LeaseConflictError]; otherwise the caller gets the lease with the next fencing
    token and version, and exactly that row is claimed. *)
Theorem acquire_run_outcome c i w r :
  context_predicate (w_db w) c = Some r → readable r →
  let now := env_clock (w_ticks w) in
  outcome (acquire_run co c i w) =
  if run_active r then
    if expired_by (run_lease_expires_at r) now then
      (Ok (MkRunLease c i (run_fencing_token r + 1) (run_version r + 1) (now + ttl)),
       with_run (w_db w) r (claim_columns (repository co) i now r))
    else (Err (LeaseConflictError "run lease is still current"), w_db w)
  else (Err (InvalidTransitionError
          ("cannot acquire terminal run: " +:+ enum_value (run_run_status r))), w_db w).
Proof.
  intros Hc Hr now. unfold outcome, acquire_run, write_connection, write_transaction,
    transaction, mbind, stM_bind. rewrite Hco, (take_over_run_row co c i w r Hc Hr).
  destruct (run_active r); [|done].
  destruct (run_lease_expires_at r) as [e|]; [|done]. simpl.
  fold now. by destruct (Z.leb e now).
Qed.

(** After a successful [acquire_run], every lease handed out before for that run is
    superseded, and the new one is current until its expiry. *)
Theorem acquire_run_fences_out_others c i w l' w' r :
  acquire_run co c i w = (Ok l', w') →
  context_predicate (w_db w) c = Some r → readable r →
  (∀ l, rl_context l = c → (rl_version l ≤ run_version r)%Z → superseded l (w_db w')) ∧
  (∀ t, (t < rl_lease_expires_at l')%Z → lease_exists l' (w_db w') t = true).
Proof.
  intros Ha Hc Hr. unfold acquire_run in Ha. apply write_connection_Ok in Ha.
  apply bind_Ok in Ha as (o & w1 & Ht & [-> ->]%or_raise_Ok).
  rewrite (take_over_run_row co c i w r Hc Hr) in Ht.
  destruct (run_active r); [|done]. destruct (run_lease_expires_at r) as [e|] eqn:He; [|done].
  destruct (Z.leb e _); [|done]. injection Ht as <- <-. cbn [w_db setter].
  set (r' := claim_columns _ _ _ r).
  assert (Hc' : context_predicate (with_run (w_db w) r r') c = Some r')
    by (by apply context_predicate_update).
  split.
  - intros l <- Hv. exists (run_run_id r), r'. split_and!.
    + apply context_predicate_Some in Hc as [_ Hin]. unfold run_scope in Hin.
      by apply in_scope_true in Hin as (_ & _ & _ & ->).
    + apply lookup_insert_eq.
    + left. simpl. lia.
  - intros t Ht. unfold lease_exists. cbn [rl_context]. rewrite Hc'.
    apply context_predicate_Some in Hc' as [_ Hin]. unfold current_lease_predicate.
    cbn [rl_context rl_lease_owner rl_fencing_token rl_version]. rewrite Hin.
    rewrite !bool_decide_true by done. simpl in *. by apply Z.ltb_lt.
Qed.

(** [heartbeat], every branch: the current lease is extended by the TTL, with the
    version bumped and nothing else of the row's identity or status touched; any other
    lease is refused with [StaleFenceError] and nothing is written. *)
Theorem heartbeat_outcome l w :
  let now := env_clock (w_ticks w) in
  outcome (heartbeat co l w) =
  match context_predicate (w_db w) (rl_context l) with
  | Some r =>
    if current_lease_predicate l now r then
      (Ok (MkRunLease (rl_context l) (rl_lease_owner l) (rl_fencing_token l)
             (rl_version l + 1) (now + ttl)),
       with_run (w_db w) r (refresh_columns (repository co) now r))
    else (Err (StaleFenceError "run lease is stale"), w_db w)
  | None => (Err (StaleFenceError "run lease is stale"), w_db w)
  end.
Proof.
  intros now. unfold outcome, heartbeat, write_connection, write_transaction,
    transaction, mbind, stM_bind. rewrite Hco, (refresh_lease_row co l w).
  destruct (context_predicate (w_db w) (rl_context l)) as [r|]; [|done].
  fold now. by destruct (current_lease_predicate l now r).
Qed.

(** [decide_approval], every branch, at the clock readings of its two statements.
    In particular the decision is stored only before the expiry, an expired approval is
    marked expired and that is committed although the caller gets an exception, and a
    decision that lost the race changes nothing. *)
Theorem decide_approval_outcome c i b v w a :
  approval_scope_predicate (w_db w) c i = Some a →
  outcome (decide_approval co c i b v w) =
  decision_outcome c (w_db w) a b v (env_clock (w_ticks w)) (env_clock (S (w_ticks w))).
Proof. intros Ha. by apply decide_approval_row. Qed.

(** Atomicity.  A request that raises leaves the database as it was, with the one
    exception of [decide_approval], which commits the expiry it reports. *)
Theorem failed_requests_roll_back plans rq w e w' :
  PlanReads plans → exec plans co rq w = (Err e, w') → (∀ c a b v, rq ≠ DecideApproval c a b v) →
  w_db w' = w_db w.
Proof. intros Hp He Hne. by eapply atomic_exec. Qed.
End LeaseTheorems.

Section CheckpointTheorems.
Context `{Env}.

(** A finished run is sealed.  When [finish_run_with_checkpoint] succeeds, the run has
    the target status and a [finished_at], its latest checkpoint decodes to the
    [RUN_TERMINAL] payload with that status and time, and a run that completed has no open
    execution. *)
Theorem finish_run_with_checkpoint_seals co l t w l' w' :
  finish_run_with_checkpoint co l t w = (Ok l', w') →
  ∃ r f k rid, tc_run_id (rl_context l) = Some rid ∧
    context_predicate (w_db w') (rl_context l) = Some r ∧
    run_run_status r = t ∧ run_finished_at r = Some f ∧
    latest_checkpoint_row (checkpoint_scope_predicate (w_db w') (rl_context l)) = Some k ∧
    decode_checkpoint (checkpoint_from_row k) = Ok (RUN_TERMINAL,
      PRunTerminal (MkRunTerminal rid t f (terminal_digest (Some rid) t f))) ∧
    (t = RUN_COMPLETED → open_execution (rl_context l) (w_db w') = false).
Proof.
  intros (r&f&k&rid&?&?&?&?&?&?&?&_)%finish_run_with_checkpoint_Ok. by exists r, f, k, rid.
Qed.

(** C23: Whatever [checkpoint] accepts and stores, [decode_checkpoint] reads back as the
    same phase and the same payload. *)
Theorem written_checkpoints_decode co l ph payload o w cw w' :
  co_connection co = true → checkpoint co l ph payload o w = (Ok cw, w') →
  ∃ k p, execution_checkpoints (w_db w') !! ckp_checkpoint_id k = Some k ∧
    in_scope (rl_context l) (checkpoint_scope k) = true ∧
    validate_phase_payload ph payload = Ok (cw_phase cw, p) ∧
    decode_checkpoint (checkpoint_from_row k) = Ok (cw_phase cw, p).
Proof.
  intros Hco Hck. assert (Hph : ∃ p, validate_phase_payload ph payload = Ok (cw_phase cw, p)).
  { unfold checkpoint in Hck. apply bind_Ok in Hck as ([ph' p] & w1 & Hv & Hck).
    unfold lift in Hv. injection Hv as Hv <-. exists p.
    apply bind_Ok in Hck as ([ap ex] & w2 & _ & Hck).
    apply bind_Ok in Hck as (e & w3 & _ & Hck). apply bind_Ok in Hck as (i & w4 & _ & Hck).
    apply bind_Ok in Hck as (s & w5 & _ & [= <- _]). done. }
  destruct Hph as [p Hp]. pose proof Hck as Hck'.
  apply checkpoint_Ok in Hck' as (ph' & p' & ap & ex & s & k & Hv & Hs & _ & Hrow & _ & Hd);
    [|done].
  rewrite Hv in Hp. injection Hp as -> ->. exists k, p. split_and!; [|by destruct Hrow|done|].
  - rewrite Hd. apply lookup_insert_eq.
  - by eapply stored_row_decodes.
Qed.

(** What recovery may rely on.  A checkpoint that decodes has schema version 1, a
    phase that is its payload's class, field values within their declared bounds, the
    digest of its canonical encoding, and the run of its row. *)
Theorem decoded_checkpoints_are_authentic k ph p :
  decode_checkpoint k = Ok (ph, p) →
  cr_schema_version k = 1%Z ∧ cr_phase k = enum_value ph ∧ phase_of p = ph ∧
  payload_ok p = true ∧
  cr_payload_hash k = env_sha256_hex (canonical_json (model_dump p)) ∧
  payload_run_id p = cr_run_id k.
Proof.
  intros Hd. apply decode_checkpoint_Ok in Hd as (H1 & H2 & H3 & H4 & H5 & H6).
  split_and!; try done. by apply validate_row_scope_run.
Qed.

(** The stored digest determines the payload: with a digest that has no collision,
    two checkpoints with the same digest decode to the same phase and payload, whatever
    their stored texts. *)
Theorem checkpoint_digest_determines_payload k1 k2 ph1 ph2 p1 p2 :
  (∀ a b, env_sha256_hex a = env_sha256_hex b → a = b) →
  decode_checkpoint k1 = Ok (ph1, p1) → decode_checkpoint k2 = Ok (ph2, p2) →
  cr_payload_hash k1 = cr_payload_hash k2 → ph1 = ph2 ∧ p1 = p2.
Proof.
  intros Hinj H1 H2 Hh.
  apply decode_checkpoint_Ok in H1 as (_ & _ & <- & _ & E1 & _).
  apply decode_checkpoint_Ok in H2 as (_ & _ & <- & _ & E2 & _).
  assert (p1 = p2) as ->; [|done].
  apply canonical_dump_inj, Hinj. congruence.
Qed.

(** Encoding succeeds exactly when the canonical text fits in [max_bytes]: no payload
    class is rejected by the secret scan of its own field names. *)
Theorem encode_checkpoint_outcome p max_bytes :
  encode_checkpoint_payload p max_bytes =
  let s := canonical_json (model_dump p) in
  let n := Z.of_nat (String.length s) in
  if Z.leb n max_bytes then Ok (MkEncodedCheckpointPayload s (env_sha256_hex s) 1)
  else Err (CheckpointTooLargeError ("checkpoint payload exceeds " +:+
         str_of_int max_bytes +:+ " bytes (" +:+ str_of_int n +:+ " bytes)")).
Proof. apply encode_checkpoint_payload_eq. Qed.

(** C40: An execution in [failed_retryable] is never closed: after any requests, no
    execution can be created for its run and the run cannot be completed. *)
Theorem failed_retryable_blocks_its_run plans co rqs w i e l x :
  PlanReads plans →
  tool_executions (w_db w) !! i = Some e →
  exe_execution_status e = EXEC_FAILED_RETRYABLE →
  in_scope (rl_context l) (execution_scope e) = true →
  let w' := exec_all plans co rqs w in
  w_db (create_execution co l x w').2 = w_db w' ∧
  (finish_run co l RUN_COMPLETED w').1 =
    Err (InvalidTransitionError "run cannot complete while executions are nonterminal").
Proof.
  intros Hp Hi Hs Hin w'.
  destruct (stuck_execution_scope _ _ (w_db w') i e (exec_all_steps plans co Hp rqs w) Hi Hs)
    as (e' & Hi' & Hsc & Hs').
  rewrite <-Hsc in Hin. split.
  - by eapply stuck_create_execution.
  - by eapply stuck_finish_completed.
Qed.
End CheckpointTheorems.

(** Canonical JSON is read back: [json.loads] of the canonical text of a value without
    floats or repeated keys gives the value with its keys sorted, and two values have the
    same text exactly when they are equal up to the order of keys. *)
Theorem canonical_json_roundtrip j k :
  plain j = true → plain k = true →
  json_loads (print_json j) = Some (canon j) ∧
  (print_json j = print_json k ↔ canon j = canon k).
Proof. intros Hj Hk. split; [by apply json_loads_print|by apply print_json_canon_eq]. Qed.

(** ** The theorems at work on the sample engine *)

(** The started run, its lease long expired. *)
Definition expired_world : World := MkWorld (w_db started) 100 0.

Definition run_row (w : World) : agent_run :=
  match context_predicate (w_db w) ctx with
  | Some r => r
  | None => MkAgentRun "" "" "" "" None None None None RUN_RUNNING None None 0 None None 0 0 0 0
              None
  end.

Lemma acquire_run_outcome_witness :
  (outcome (acquire_run sample_co ctx "worker-2" expired_world)).1 =
    Ok (MkRunLease ctx "worker-2" 2 2 1150).
Proof.
  rewrite (acquire_run_outcome sample_co eq_refl ctx "worker-2" expired_world
             (run_row expired_world)).
  - vm_compute. reflexivity.
  - vm_compute. reflexivity.
  - split; [vm_compute; reflexivity|]. split; [vm_compute; discriminate|].
    split; [vm_compute; discriminate|]. vm_compute. reflexivity.
Defined.

Lemma acquire_run_fences_out_others_witness :
  superseded (lease_at 1) (w_db (acquire_run sample_co ctx "worker-2" expired_world).2).
Proof.
  eapply (acquire_run_fences_out_others sample_co ctx "worker-2" expired_world
            (MkRunLease ctx "worker-2" 2 2 1150) _ (run_row expired_world)).
  - apply ran. vm_compute. reflexivity.
  - vm_compute. reflexivity.
  - split; [vm_compute; reflexivity|]. split; [vm_compute; discriminate|].
    split; [vm_compute; discriminate|]. vm_compute. reflexivity.
  - reflexivity.
  - vm_compute. discriminate.
Defined.

Lemma heartbeat_outcome_witness :
  (outcome (heartbeat sample_co (lease_at 1) started)).1
    = Ok (MkRunLease ctx "worker-1" 1 2 1051).
Proof.
  rewrite (heartbeat_outcome sample_co eq_refl (lease_at 1) started).
  vm_compute. reflexivity.
Defined.

Definition awaiting : World :=
  after [StartRun ctx "worker-1"; CreateApproval (lease_at 1) APPROVAL "call-1" (λ _, 1001%Z)].

Definition approval_row (w : World) : approval_request :=
  match approval_scope_predicate (w_db w) ctx APPROVAL with
  | Some a => a
  | None => MkApprovalRequest "" "" "" "" "" "" APPROVAL_EXPIRED 0 None 0 0
  end.

Lemma decide_approval_outcome_witness :
  (outcome (decide_approval sample_co ctx APPROVAL true 1 awaiting)).1 =
    Err (InvalidTransitionError "approval expired").
Proof.
  rewrite (decide_approval_outcome sample_co eq_refl ctx APPROVAL true 1 awaiting
             (approval_row awaiting)); vm_compute; reflexivity.
Defined.

Lemma failed_requests_roll_back_witness :
  w_db (exec no_plan sample_co (FinishRun (lease_at 1) RUN_COMPLETED) executing).2
    = w_db executing.
Proof.
  eapply (failed_requests_roll_back sample_co eq_refl no_plan
            (FinishRun (lease_at 1) RUN_COMPLETED) executing
            (InvalidTransitionError "run cannot complete while executions are nonterminal")).
  - exact no_plan_reads.
  - apply ran. vm_compute. reflexivity.
  - intros. discriminate.
Defined.

Lemma finish_run_with_checkpoint_seals_witness :
  ∃ r, context_predicate
         (w_db (finish_run_with_checkpoint sample_co (lease_at 1) RUN_COMPLETED started).2) ctx
       = Some r ∧ run_run_status r = RUN_COMPLETED.
Proof.
  edestruct (finish_run_with_checkpoint_seals sample_co (lease_at 1) RUN_COMPLETED started
    (MkRunLease ctx "worker-1" 1 2 1051)) as (r & f & k & rid & _ & Hr & Hs & _).
  - apply ran. vm_compute. reflexivity.
  - exists r. split; [exact Hr|exact Hs].
Defined.

Definition sample_terminal : CheckpointPayload :=
  PRunTerminal (MkRunTerminal RUN RUN_CANCELLED 1234 DIGEST).

Definition sample_write : CheckpointWrite := {|
  cw_checkpoint_id := sample_uuid 0; cw_checkpoint_seq := 1; cw_phase := RUN_TERMINAL;
  cw_payload_json := canonical_json (model_dump sample_terminal);
  cw_payload_hash := DIGEST; cw_schema_version := 1;
|}.

Lemma written_checkpoints_decode_witness :
  ∃ k, execution_checkpoints (w_db (checkpoint (scoped sample_co) (lease_at 1)
         (inr "run_terminal") (inl sample_terminal) (at_seq None) started).2)
         !! ckp_checkpoint_id k = Some k ∧
    ∃ p, decode_checkpoint (checkpoint_from_row k) = Ok (RUN_TERMINAL, p).
Proof.
  edestruct (written_checkpoints_decode (scoped sample_co) (lease_at 1) (inr "run_terminal")
    (inl sample_terminal) (at_seq None) started sample_write) as (k & p & Hk & _ & _ & Hd).
  - reflexivity.
  - apply ran. vm_compute. reflexivity.
  - exists k. split; [exact Hk|]. exists p. exact Hd.
Defined.

Definition sample_record : CheckpointRecord := {|
  cr_checkpoint_id := "k"; cr_tenant_id := TENANT; cr_workspace_id := WORKSPACE;
  cr_session_id := SESSION; cr_run_id := RUN; cr_approval_id := None;
  cr_execution_id := None; cr_phase := "run_terminal"; cr_checkpoint_seq := 2;
  cr_payload_json := canonical_json (model_dump sample_terminal); cr_payload_hash := DIGEST;
  cr_schema_version := 1; cr_created_at := 1300;
|}.

Lemma decoded_checkpoints_are_authentic_witness :
  payload_run_id sample_terminal = cr_run_id sample_record.
Proof.
  eapply (decoded_checkpoints_are_authentic sample_record RUN_TERMINAL sample_terminal).
  vm_compute. reflexivity.
Defined.

(** An environment whose digest has no collision. *)
Definition injective_env : Env := {|
  env_clock _ := 0%Z; env_uuid4 := sample_uuid; env_sha256_hex s := s;
|}.

Definition injective_record (text : string) : CheckpointRecord := {|
  cr_checkpoint_id := "k"; cr_tenant_id := TENANT; cr_workspace_id := WORKSPACE;
  cr_session_id := SESSION; cr_run_id := RUN; cr_approval_id := None;
  cr_execution_id := None; cr_phase := "run_terminal"; cr_checkpoint_seq := 2;
  cr_payload_json := text; cr_payload_hash := canonical_json (model_dump sample_terminal);
  cr_schema_version := 1; cr_created_at := 1300;
|}.

Lemma checkpoint_digest_determines_payload_witness :
  RUN_TERMINAL = RUN_TERMINAL ∧ sample_terminal = sample_terminal.
Proof.
  apply (@checkpoint_digest_determines_payload injective_env
    (injective_record (canonical_json (model_dump sample_terminal)))
    (injective_record (" " +:+ canonical_json (model_dump sample_terminal)))).
  - intros a b Hab. exact Hab.
  - vm_compute. reflexivity.
  - vm_compute. reflexivity.
  - reflexivity.
Defined.

Definition stuck : World :=
  after [StartRun ctx "worker-1"; CreateExecution (lease_at 1) sample_input;
         TransitionExecution (lease_at 1) EXECUTION EXEC_NOT_STARTED 1 EXEC_EXECUTING;
         TransitionExecution (lease_at 1) EXECUTION EXEC_EXECUTING 2 EXEC_FAILED_RETRYABLE].

Lemma failed_retryable_blocks_its_run_witness :
  (finish_run sample_co (lease_at 1) RUN_COMPLETED
     (exec_all no_plan sample_co [Heartbeat (lease_at 7)] stuck)).1 =
    Err (InvalidTransitionError "run cannot complete while executions are nonterminal").
Proof.
  eapply (failed_retryable_blocks_its_run no_plan sample_co [Heartbeat (lease_at 7)] stuck
            EXECUTION _ (lease_at 1) sample_input).
  - exact no_plan_reads.
  - vm_compute. reflexivity.
  - vm_compute. reflexivity.
  - vm_compute. reflexivity.
Defined.

Lemma canonical_json_roundtrip_witness :
  json_loads (print_json (JObj [("b", JInt (-7)); ("a", JArr [JStr "x"; JNull])])) =
    Some (canon (JObj [("b", JInt (-7)); ("a", JArr [JStr "x"; JNull])])).
Proof.
  apply (canonical_json_roundtrip (JObj [("b", JInt (-7)); ("a", JArr [JStr "x"; JNull])])
           JNull); vm_compute; reflexivity.
Defined.
