(* ===== verification/PlanRepositoryTheorems.v ===== *)
(** * Theorems about the Plan repository

    Over every sequence of requests: stored Plans are always readable and their history is
    immutable, decisions are answered as the first time however often they are sent, a run
    has one attempt at a time.  Per operation: what starts an attempt, what creation
    stores, what a round costs, and what a superseded lease cannot do. *)

From S2P Require Import Prelude Records Errors Json Regex Tenancy WorkflowModels Storage.
From S2P Require Import Collections PlanStorage Checkpoint PlanValidation PlanOrder.
From S2P Require Import PlanSpec PlanRecords PlanTheorems PlanReading WorkflowRepository.
From S2P Require Import PlanRepository PlanDecisions PlanAttempts PlanContent.
From S2P Require Import PlanEffects PlanInvariants PlanHistory WorkflowCoordinator.
From S2P Require Import WorkflowSpec WorkflowRefinement PlanRefinement.
From S2P Require Import PlanAttemptRefinement PlanSystem PlanOutcomes PlanCreation.
From S2P Require Import PlanRounds Leases WorkflowSystem Scenario PlanScenario.
From stdpp Require Import base gmap strings list relations.

(** ** Fenced Plan work *)

(** The lease a call is guarded by, if it is. *)
Definition call_lease (k : plan_call) : option RunLease :=
  match k with
  | CreateStepAttempt l _ _ _ | CreateReusedStepAttempt l _ _ _ _
  | FinishStepAttempt l _ _ _ _ _ _ _ | CancelStepAttempt l _ _ => Some l
  | _ => None
  end.

Section Fencing.
Context `{envi : Env} (c : TenantContext) (settings : PlanningSettings) (l : RunLease).

Lemma blocked_call k t :
  call_lease k = Some l → fenced l (w_db (tx_world t)) →
  ∃ e t', exec_call c settings k t = (Err e, t').
Proof.
  intros Hk Hf.
  assert (Hm : ∀ {A} (m : M A), blocked l m →
    ∃ e t', on_connection (discard m) t = (Err e, t')).
  { intros A m Hm. specialize (Hm _ Hf). unfold wp in Hm.
    unfold on_connection, discard, mbind, stM_bind.
    destruct (m (tx_world t)) as [[a|e] w']; [done|]. eauto. }
  destruct k; simpl in Hk; try done; injection Hk as ->; cbn [exec_call]; apply Hm;
    auto using blocked_create, blocked_reuse, blocked_finish, blocked_cancel.
Qed.

(** The calls of a transaction, one of which is guarded by the superseded lease. *)
Lemma blocked_calls calls k t :
  k ∈ calls → call_lease k = Some l → superseded l (w_db (tx_world t)) →
  ∃ e t', exec_calls c settings calls t = (Err e, t').
Proof.
  intros Hin Hk. revert t. induction calls as [|k' calls IH]; intros t Hsup;
    [by apply elem_of_nil in Hin|]. simpl. unfold mbind at 1, stM_bind at 1.
  destruct (exec_call c settings k' t) as [[u|e] t'] eqn:E; [|by eauto].
  apply elem_of_cons in Hin as [<-|Hin].
  - destruct (blocked_call k t Hk) as (e&t2&Hk'); [by apply superseded_fenced|]. congruence.
  - apply (IH Hin). pose proof (moves_exec_call c settings k' t) as Hs. rewrite E in Hs.
    eapply (superseded_persists 0); [done|]. apply (plan_steps_steps 0 _ _ Hs).
Qed.

Lemma blocked_work calls k w :
  k ∈ calls → call_lease k = Some l → superseded l (w_db w) →
  ∃ e w', plan_work c settings calls w = (Err e, w') ∧ w_db w' = w_db w.
Proof.
  intros Hin Hk Hsup. unfold plan_work, unit_of_work, write_transaction, transaction.
  destruct (blocked_calls calls k {| tx_world := w; tx_pending := ∅ |} Hin Hk Hsup) as (e&t'&E).
  unfold mbind, stM_bind. rewrite E. eauto.
Qed.
End Fencing.

(** ** The claims *)

Local Notation scoped := PlanRepository.scoped.
Local Notation steps := PlanValidation.steps.

Section History.
Context `{envi : Env} (plans : PlanReader) (co : WorkflowCoordinator).
Context (plans_read : PlanReads plans).
Local Notation run rqs w := (exec_all plans co rqs w).

(** What any requests leave of the Plan tables. *)
Lemma run_plans rqs w :
  plans_ok (w_db w) → plans_ok (w_db (run rqs w)) ∧ grows (w_db w) (w_db (run rqs w)).
Proof using plans_read.
  apply (effects_plans (set_max_concurrent_runs_per_tenant (co_settings co))).
  by apply exec_all_steps.
Qed.

(** C20: Whatever was requested, every stored Plan can be read, and what is read is what
    was accepted: the versions are numbered from one without gaps up to the current one,
    and each is the content of a plan that validation accepted, with its steps, its
    dependencies and its digests. *)
Theorem stored_plans_read_back rqs w c sid p row :
  plans_ok (w_db w) → tc_session_id c = Some sid →
  agent_plans (w_db (run rqs w)) !! p = Some row → plan_scope row = scoped c sid p →
  ∃ s, get_plan c p (run rqs w) = (Ok (Some s), run rqs w) ∧
    ps_status s = pl_status row ∧ ps_aggregate_version s = pl_version row ∧
    ps_current_version s = Z.of_nat (length (ps_versions s)) ∧
    last (ps_versions s) = Some (ps_current s) ∧
    ∀ i v, ps_versions s !! i = Some v → ∃ x, content_ok x ∧ accepted (c_plan x) ∧
      v = content_record (scoped c sid p) (Z.of_nat (S i)) x.
Proof using plans_read.
  intros Hok Hs Hp Hk. destruct (run_plans rqs w Hok) as [Hok' _].
  set (w' := run rqs w) in *.
  destruct (plan_at_intro c sid (w_db w') p row Hok') as (cs&x&Hat);
    [by apply plan_predicate_Some|].
  rewrite (get_plan_at c sid Hs w' p row cs x Hok' Hat). eexists. split; [done|].
  destruct Hat as [_ _ Hst Hcur Hl]. simpl. unfold content_records. rewrite length_imap.
  split_and!; try done.
  - rewrite last_lookup in Hl. rewrite last_lookup, length_imap, list_lookup_imap, Hl. simpl.
    rewrite Hcur. do 2 f_equal. by destruct cs.
  - intros i v. rewrite list_lookup_imap. intros (y&Hy&->)%fmap_Some.
    destruct (stored_content _ _ _ Hst i y Hy) as (?&?&_). eauto.
Qed.

(** C31: The history of a Plan is immutable.  After any further requests the versions that
    were stored come first and unchanged, a decision is kept as it was except that a
    claimed revision gets its resulting version, the aggregate version never decreases,
    and an attempt that has ended stays as it ended. *)
Theorem plan_history_is_kept rqs w c p s :
  plans_ok (w_db w) → get_plan c p w = (Ok (Some s), w) →
  (∃ s', get_plan c p (run rqs w) = (Ok (Some s'), run rqs w) ∧
     ps_versions s `prefix_of` ps_versions s' ∧
     ps_source_message_id s' = ps_source_message_id s ∧
     ps_trigger_mode s' = ps_trigger_mode s ∧ ps_created_at s' = ps_created_at s ∧
     (ps_aggregate_version s <= ps_aggregate_version s')%Z ∧
     ∀ x, x ∈ ps_decisions s → ∃ x', x' ∈ ps_decisions s' ∧
       (x' = x ∨ pdr_action x = DECIDE_REVISE ∧ pdr_resulting_plan_version x = None ∧
          ∃ v, x' = x <| pdr_resulting_plan_version := Some v |>)) ∧
  ∀ i a, agent_plan_step_runs (w_db w) !! i = Some a → is_running a = false →
    agent_plan_step_runs (w_db (run rqs w)) !! i = Some a.
Proof using plans_read.
  intros Hok Hg. destruct (run_plans rqs w Hok) as [Hok' Hgr]. set (w' := run rqs w) in *.
  assert (∃ sid, tc_session_id c = Some sid) as [sid Hs].
  { unfold get_plan, require_session in Hg. destruct (tc_session_id c); [eauto|done]. }
  destruct (get_plan_Some c sid Hs w p s w Hok Hg) as (_&row&cs&x&Hat&->).
  destruct (plan_at_grows c sid _ _ p row cs x Hok Hok' Hgr Hat) as (row'&tl&x'&Hat'&Hev).
  split.
  - rewrite (get_plan_at c sid Hs w' p row' _ x' Hok' Hat'). eexists. split; [done|].
    destruct Hev as [_ E1 E2 E3 _ E4]. simpl. split_and!; try done.
    + destruct (content_records_app (scoped c sid p) cs tl) as (l&->&_). by exists l.
    + intros y (z&i&Hz&Hzk&->)%read_decisions_elem.
      destruct (grows_decisions _ _ Hgr i z Hz) as (z'&Hz'&[->|[(Ha&Hn&v&->) _]]).
      * exists (hydrate_decision z). split; [apply read_decisions_elem; eauto|by left].
      * exists (hydrate_decision (z <| dec_resulting_plan_version := Some v |>)).
        split; [apply read_decisions_elem; eauto|right; eauto].
  - intros i a Ha Hr. destruct (grows_attempts _ _ Hgr i a Ha) as (a'&Ha'&[Hf _ _]).
    by rewrite Ha', (Hf Hr).
Qed.

(** C19: A decision is idempotent.  Its first answer is the Plan exactly as the decision
    left it; and the same decision sent again, after any requests (further revisions,
    decisions and runs included), changes nothing and is answered with the same snapshot
    and the same record. *)
Theorem decisions_replay_exactly rqs w c r decided_by a w1 :
  plans_ok (w_db w) → unit_of_work (record_decision c r decided_by) w = (Ok a, w1) →
  (dmr_idempotent_replay a = false →
     get_plan c (req_plan_id r) w1 = (Ok (Some (dmr_snapshot a)), w1)) ∧
  unit_of_work (record_decision c r decided_by) (run rqs w1) =
    (Ok {| dmr_snapshot := dmr_snapshot a; dmr_decision := dmr_decision a;
           dmr_idempotent_replay := true |}, run rqs w1).
Proof using plans_read.
  intros Hok Hd. assert (Ha : ∃ sid, tc_session_id c = Some sid ∧
    answered c sid r decided_by w w1 a).
  { unfold unit_of_work, write_transaction, transaction, mbind, stM_bind in Hd.
    set (t := {| tx_world := w; tx_pending := ∅ |}) in Hd.
    pose proof (wp_record_decision c r decided_by t) as Hw. unfold wp in Hw.
    destruct (record_decision c r decided_by t) as [[a'|e] t']; [|done].
    destruct Hw as (_&sid&Hs&Ha). exists sid. split; [done|].
    unfold require_no_unfinished_revisions, mbind, stM_bind, require in Hd. simpl in Hd.
    destruct (bool_decide _); [|done]. by injection Hd as <- <-. }
  destruct Ha as (sid&Hs&Ha). destruct (answered_decision c sid r decided_by w w1 a Hok Ha) as [Hok1 _].
  destruct (run_plans rqs w1 Hok1) as [Hok2 Hg]. split.
  - by apply (new_answer_is_current c sid Hs r decided_by w).
  - by apply (answered_again c sid Hs r decided_by w w1).
Qed.

(** C21: Whatever was requested, a run has at most one attempt that is running. *)
Theorem one_attempt_at_a_time rqs w c r l w1 :
  plans_ok (w_db w) → read_running_step_attempts c r (run rqs w) = (Ok l, w1) →
  (length l <= 1)%nat.
Proof using plans_read.
  intros Hok Hl. destruct (run_plans rqs w Hok) as [[Hc _ Ha] _]. set (w' := run rqs w) in *.
  unfold read_running_step_attempts in Hl. apply bind_Ok in Hl as (sid&w2&Hs&Hl).
  apply require_session_Ok in Hs as [-> Hs]. apply bind_Ok in Hl as (d&w2&[= <- <-]&[= <- <-]).
  rewrite length_map, (Permutation_length (sort_by_perm _ _)).
  assert (Hn : NoDup (List.filter is_running (step_run_scope_predicate c (w_db w') sid r))).
  { apply NoDup_filter_bool, NoDup_filter_bool, (rows_NoDup step_run_key).
    apply (keyed_step_runs _ (ok_keyed _ Hc)). }
  assert (He : ∀ x, x ∈ List.filter is_running (step_run_scope_predicate c (w_db w') sid r) →
    (∃ i, agent_plan_step_runs (w_db w') !! i = Some x) ∧ is_running x = true ∧
    step_run_scope x = (tc_tenant_id c, tc_workspace_id c, sid, r)).
  { intros x. unfold step_run_scope_predicate.
    rewrite !elem_of_filter_bool, elem_of_rows, bool_decide_eq_true. naive_solver. }
  destruct (List.filter _ _) as [|x [|y m]]; simpl; [lia|lia|].
  destruct (He x) as ([i Hi]&Hx&Hxs); [by left|]. destruct (He y) as ([j Hj]&Hy&Hys); [by right; left|].
  assert (x = y) as ->; [apply (Ha i x j y); congruence|].
  apply NoDup_cons in Hn as [Hn _]. destruct Hn. by left.
Qed.

(** C22: Once a run's row carries a newer version or fencing token than a lease, then after
    any further requests no unit of work commits in which an attempt is started, reused,
    finished or cancelled under that lease: it raises, and the database stays as it was. *)
Theorem superseded_lease_blocks_plan_work rqs w l c settings calls k :
  superseded l (w_db w) → k ∈ calls → call_lease k = Some l →
  ∃ e w1, plan_work c settings calls (run rqs w) = (Err e, w1) ∧ w_db w1 = w_db (run rqs w).
Proof using plans_read.
  intros Hsup Hin Hk. apply (blocked_work c settings l calls k); [done|done|].
  eapply superseded_persists; [exact Hsup|]. by apply exec_all_steps.
Qed.
End History.

(** An attempt is started only when it may: under the current lease of an executable
    run, on the approved and current version of the run's Plan, with no other attempt of
    the run running, at a step of that version whose dependencies have all succeeded, as
    the next attempt after failures that may be retried, and within the limits of the
    step and of the settings.  Nothing but the new row changes, and an exception leaves
    the tables alone or with such a row. *)
Theorem attempts_start_only_when_allowed `{Env} c settings l p n s w :
  match create_step_attempt c settings l p n s w with
  | (Ok _, w') => ∃ x, attempt_started settings l p n s (w_db w) (w_db w') x
  | (Err _, w') => w_db w' = w_db w ∨
                   ∃ x, attempt_started settings l p n s (w_db w) (w_db w') x
  end.
Proof. exact (wp_create_step_attempt c settings l p n s w). Qed.

(** Creating a Plan succeeds when the session and the source message exist, the id is
    free, the identifiers drawn for the steps are new, and digests have 64 characters; it
    returns the new Plan, awaiting approval, with the accepted plan as its only version,
    and reading the Plan gives the same. *)
Theorem created_plan_reads_back `{Env} c settings sid p m t draft v w :
  tc_session_id c = Some sid → (∀ s, is_digest (env_sha256_hex s) = true) →
  plans_ok (w_db w) → validate_plan_draft draft (draft_limits settings) = Ok v →
  can_create c sid w p m v →
  ∃ s w', create_plan c settings p m t draft w = (Ok s, w') ∧
    get_plan c p w' = (Ok (Some s), w') ∧
    ps_status s = PLAN_AWAITING ∧ ps_current_version s = 1%Z ∧ ps_approved_version s = None ∧
    ps_aggregate_version s = 1%Z ∧ ps_source_message_id s = m ∧ ps_trigger_mode s = t ∧
    ps_versions s = [ps_current s] ∧
    ps_current s = content_record (scoped c sid p) 1
      (MkContent v (drawn w (length (steps v))) ∅ None None (env_clock (w_ticks w))).
Proof.
  intros Hs Hdig Hok Hv Hc.
  destruct (create_plan_total c settings sid Hs Hdig p m t draft v w Hok Hv Hc)
    as (row&w'&Hok'&Hat&(N1&N2&N3&N4)&E1&E2&Hrun).
  eexists _, w'. split; [exact Hrun|]. split; [by apply (get_plan_at c sid Hs)|]. simpl.
  rewrite N1, N2, N3, N4, E1, E2. by split_and!.
Qed.

(** Rounds stay within the budget.  A reservation for identifiers of letters, digits
    and hyphens either changes no table, or returns the number of rounds of the run that
    are counted from then on: one more than before, and at most the budget.  When the
    budget is used up the exception says so. *)
Theorem rounds_stay_within_budget `{Env} c sid r p kind budget step w :
  tc_session_id c = Some sid → identifier r = true → identifier p = true →
  identifier (default "" step) = true → kind ∈ PLAN_ROUND_KINDS → (1 <= budget)%Z →
  let used := round_units c (w_db w) sid r p in
  match reserve_round_unit c r p kind budget step w with
  | (Ok n, w') => n = (used + 1)%Z ∧ (n <= budget)%Z ∧ count_round_units c r p w' = (Ok n, w')
  | (Err e, w') => w_db w' = w_db w
  end ∧
  ((budget <= used)%Z → (reserve_round_unit c r p kind budget step w).1 =
     Err (PlanRoundBudgetExceeded "Plan round budget exceeded")).
Proof.
  intros Hs Hr Hp Hst Hk Hb used. split.
  - pose proof (reserve_round_unit_spec c sid r p kind budget step w Hs Hr Hp Hst) as Hw.
    unfold wp in Hw. destruct (reserve_round_unit c r p kind budget step w) as [[n|e] w']; [|done].
    destruct Hw as (E1&E2&E3). split_and!; [done|done|]. unfold count_round_units. rewrite Hs, E2.
    done.
  - intros Hu. unfold reserve_round_unit. rewrite bool_decide_eq_true_2 by done.
    rewrite (proj2 (Z.leb_le 1 budget) Hb). unfold count_round_units. rewrite Hs.
    unfold mbind, stM_bind. simpl. fold used. by rewrite (proj2 (Z.ltb_ge used budget) Hu).
Qed.

(** ** The theorems at work on the sample Plan *)

Lemma created_ok : plans_ok (w_db created).
Proof.
  unfold created, plan_after.
  exact (proj1 (run_plans plan_repository sample_co plan_repository_reads [create] plan_world
    plan_world_ok)).
Qed.

Lemma created_read : ∃ s, get_plan plan_ctx PLAN created = (Ok (Some s), created).
Proof. apply ran_Some; [apply read_only_get_plan|]. vm_compute. reflexivity. Qed.

Lemma stored_plans_read_back_witness :
  ∃ row s, agent_plans (w_db running) !! PLAN = Some row ∧
    get_plan plan_ctx PLAN running = (Ok (Some s), running) ∧ ps_status s = pl_status row.
Proof.
  assert (Hrow : (plan_scope <$> agent_plans (w_db running) !! PLAN) =
    Some (scoped plan_ctx SESSION PLAN)) by (vm_compute; reflexivity).
  apply fmap_Some in Hrow as (row&Hrow&Hk). unfold running, plan_after in *.
  destruct (stored_plans_read_back plan_repository sample_co plan_repository_reads
    [create; approve; start] plan_world plan_ctx SESSION PLAN row plan_world_ok eq_refl Hrow
    (eq_sym Hk)) as (s&Hs&Hst&_).
  exists row, s. exact (conj Hrow (conj Hs Hst)).
Defined.

Lemma plan_history_is_kept_witness :
  ∃ s s', get_plan plan_ctx PLAN created = (Ok (Some s), created) ∧
    get_plan plan_ctx PLAN (exec_all plan_repository sample_co [revise] created) =
      (Ok (Some s'), exec_all plan_repository sample_co [revise] created) ∧
    ps_versions s `prefix_of` ps_versions s'.
Proof.
  destruct created_read as [s Hs].
  destruct (plan_history_is_kept plan_repository sample_co plan_repository_reads
    [revise] created plan_ctx PLAN s created_ok Hs) as [(s'&Hs'&Hp&_) _].
  exists s, s'. exact (conj Hs (conj Hs' Hp)).
Defined.

Lemma decisions_replay_exactly_witness :
  ∃ a w1, unit_of_work (record_decision plan_ctx approval "user") created = (Ok a, w1) ∧
    unit_of_work (record_decision plan_ctx approval "user")
      (exec_all plan_repository sample_co [start; attempt] w1) =
    (Ok {| dmr_snapshot := dmr_snapshot a; dmr_decision := dmr_decision a;
           dmr_idempotent_replay := true |},
     exec_all plan_repository sample_co [start; attempt] w1).
Proof.
  destruct (ran_Ok (unit_of_work (record_decision plan_ctx approval "user")) created)
    as [a Ha]; [vm_compute; reflexivity|].
  eexists a, _. split; [exact Ha|].
  exact (proj2 (decisions_replay_exactly plan_repository sample_co plan_repository_reads
    [start; attempt] created plan_ctx approval "user" a _ created_ok Ha)).
Defined.

Lemma one_attempt_at_a_time_witness :
  ∃ l w1, read_running_step_attempts plan_ctx RUN attempting = (Ok l, w1) ∧
    (length l <= 1)%nat.
Proof.
  unfold attempting, plan_after.
  destruct (ran_Ok (read_running_step_attempts plan_ctx RUN)
    (exec_all plan_repository sample_co [create; approve; start; attempt] plan_world)) as [l Hl];
    [vm_compute; reflexivity|].
  eexists l, _. split; [exact Hl|].
  exact (one_attempt_at_a_time plan_repository sample_co plan_repository_reads
    [create; approve; start; attempt] plan_world plan_ctx RUN l _ plan_world_ok Hl).
Defined.

Lemma superseded_lease_blocks_plan_work_witness :
  let w := plan_after [create; approve; start; Heartbeat (lease_at 1)] in
  superseded (lease_at 1) (w_db w) ∧
  ∃ e w1, plan_work plan_ctx planning [CreateStepAttempt (lease_at 1) PLAN 1 (sample_uuid 0)]
            (exec_all plan_repository sample_co [approve] w) = (Err e, w1) ∧
    w_db w1 = w_db (exec_all plan_repository sample_co [approve] w).
Proof.
  assert (Hs : superseded (lease_at 1)
    (w_db (plan_after [create; approve; start; Heartbeat (lease_at 1)]))).
  { eexists RUN, _. split; [reflexivity|]. split; [vm_compute; reflexivity|].
    left. vm_compute. reflexivity. }
  split; [exact Hs|].
  eapply (superseded_lease_blocks_plan_work plan_repository sample_co plan_repository_reads
    [approve] _ (lease_at 1)); [exact Hs|by left|reflexivity].
Defined.

Lemma sample_draft_accepted :
  validate_plan_draft sample_draft (draft_limits planning) = Ok sample_plan.
Proof. vm_compute. reflexivity. Qed.

Lemma created_plan_reads_back_witness :
  ∃ s w', create_plan plan_ctx planning PLAN MESSAGE TRIGGER_EXPLICIT sample_draft plan_world =
            (Ok s, w') ∧ get_plan plan_ctx PLAN w' = (Ok (Some s), w').
Proof.
  destruct (created_plan_reads_back plan_ctx planning SESSION PLAN MESSAGE TRIGGER_EXPLICIT
    sample_draft sample_plan plan_world) as (s&w'&H1&H2&_).
  - reflexivity.
  - intros s. vm_compute. reflexivity.
  - exact plan_world_ok.
  - exact sample_draft_accepted.
  - split; try reflexivity. apply (bool_decide_eq_true_1 _). vm_compute. reflexivity.
  - eauto.
Defined.

Lemma rounds_stay_within_budget_witness :
  ∃ n w', reserve_round_unit plan_ctx RUN PLAN "step_model" 3 None running = (Ok n, w') ∧
    (n <= 3)%Z ∧ count_round_units plan_ctx RUN PLAN w' = (Ok n, w').
Proof.
  destruct (ran_Ok (reserve_round_unit plan_ctx RUN PLAN "step_model" 3 None) running)
    as [n Hn]; [vm_compute; reflexivity|].
  assert (Hk : "step_model" ∈ PLAN_ROUND_KINDS)
    by (apply (bool_decide_eq_true_1 _); vm_compute; reflexivity).
  generalize dependent running. intros w Hn.
  destruct (rounds_stay_within_budget plan_ctx SESSION RUN PLAN "step_model" 3 None w
    eq_refl eq_refl eq_refl eq_refl Hk) as [Hb _]; [lia|].
  rewrite Hn in Hb. destruct Hb as (_&Hle&Hc). eauto.
Defined.
