(* ===== verification/RecoveryTheorems.v ===== *)
(** * Theorems on recovery

    What the recovery service may do with an interrupted run. *)

From S2P Require Import Prelude Records Errors Json Tenancy WorkflowModels Storage.
From S2P Require Import Checkpoint.
From S2P Require Import PlanRecords WorkflowRepository WorkflowCoordinator Recovery.
From S2P Require Import WorkflowSpec RecoveryRefinement RecoveryOutcomes.
From S2P Require Import Leases WorkflowSystem Scenario.
From stdpp Require Import base gmap strings list sets relations.

Section Claims.
Context `{Env} (plans : PlanReader) (settings : Settings).

(** C30: Recovery fails closed.  It changes the database, or gives a lease, only for a run
    that exists, is not terminal, and whose latest checkpoint decodes to a well-formed
    payload with the recorded digest; and the only change is the one that [acquire_run]
    makes.  In every other case, exceptions included, the database stays as it was. *)
Theorem recovery_fails_closed c i w r w' :
  PlanReads plans → recover settings c i w = (r, w') →
  (w_db w' = w_db w ∧ ∀ out, r = Ok out → ro_lease out = None) ∨
  ∃ run k p out l,
    get_run c w = (Ok (Some run), w) ∧ run_terminal (rr_status run) = false ∧
    latest_checkpoint_row (checkpoint_scope_predicate (w_db w) c) = Some k ∧
    decode_checkpoint (checkpoint_from_row k) = Ok (phase_of p, p) ∧ payload_ok p = true ∧
    ckp_payload_hash k = env_sha256_hex (canonical_json (model_dump p)) ∧
    r = Ok out ∧ ro_lease out = Some l ∧
    (acquire_run (own_coordinator settings) c i w = (Ok l, w') ∨ w_db w' = w_db w).
Proof.
  intros Hp [[Hw Ho]|(run&p&o&l&He&_&Hl&->)]%recover_cases.
  - left. split; [done|]. intros out Hr. by apply Ho.
  - right. destruct (examined_checkpoint _ _ _ _ _ He) as (k&Hk&Hd).
    pose proof (decode_checkpoint_Ok _ _ _ Hd) as (_&_&_&Hok&Hh&_).
    eexists run, k, p, _, l. split_and!; try done; [apply He|apply He|].
    by apply acquire_recovery_lease_Ok.
Qed.

(** C28: Side effects are not repeated blindly.  Recovery says that an execution is to be
    replayed, retried or marked uncertain only when the latest checkpoint of the run decodes
    and says that this very execution, with this call and this input, was being dispatched,
    and the row of the execution agrees.  It is replayed only if that row is one of a
    reading call, retried only if the row is one of an idempotent call and carries a key
    that is not empty, and otherwise left to a human. *)
Theorem recovery_repeats_only_safe_executions c i w out w' a :
  PlanReads plans → recover settings c i w = (Ok out, w') → ro_action out = Some a →
  a ∈ [REPLAY_READ_ONLY; RETRY_IDEMPOTENT; MARK_MANUAL_UNCERTAIN] →
  ∃ k p e,
    latest_checkpoint_row (checkpoint_scope_predicate (w_db w) c) = Some k ∧
    decode_checkpoint (checkpoint_from_row k) =
      Ok (EXECUTION_DISPATCHING, PExecutionDispatching p) ∧
    ro_execution_id out = Some (edp_execution_id p) ∧
    execution_scope_predicate (w_db w) c (edp_execution_id p) = Some e ∧
    exe_tool_call_id e = edp_tool_call_id p ∧ exe_input_hash e = edp_input_hash p ∧
    match a with
    | REPLAY_READ_ONLY => exe_recovery_strategy e = READ_ONLY_REPLAY
    | RETRY_IDEMPOTENT => exe_recovery_strategy e = IDEMPOTENT_RETRY ∧
        ∃ key, exe_idempotency_key e = Some key ∧ edp_idempotency_key p = Some key ∧ key ≠ ""
    | _ => exe_recovery_strategy e = MANUAL_UNCERTAIN
    end.
Proof.
  intros Hp Hr Ha Hin. destruct (ro_lease out) as [l|] eqn:Hl.
  - destruct (recover_leased _ _ _ _ _ _ _ Hr Hl) as (run&p&_&_&(k&Hk&Hd)&_&[_ He]).
    rewrite Ha in He. pose proof (decode_checkpoint_Ok _ _ _ Hd) as (_&_&_&Hok&_).
    assert (Hq : ∃ q e, p = PExecutionDispatching q ∧ dispatched c (w_db w) q e ∧
      ro_execution_id out = Some (edp_execution_id q) ∧
      Some a = Some (dispatch_recovery_action (exe_recovery_strategy e))).
    { rewrite !elem_of_cons, elem_of_nil in Hin. by destruct Hin as [->|[->|[->|[]]]]. }
    destruct Hq as (q&e&->&[Hrow Hcall Hs Hi Hkey]&Hid&[= ->]).
    exists k, q, e. split_and!; try done.
    destruct (exe_recovery_strategy e); cbn [dispatch_recovery_action]; try done.
    split; [done|]. rewrite (Hkey (eq_sym Hs)). simpl in Hok.
    rewrite !andb_true_iff, <-Hs in Hok. destruct Hok as [_ Hok].
    destruct (edp_idempotency_key q) as [[|x s]|]; try done. eauto.
  - apply recover_cases in Hr as [[_ Ho]|(run&p&o&l&_&_&_&[= ->])]; [|done].
    destruct (Ho out eq_refl) as [_ [Hn|Hn]]; [congruence|]. rewrite Ha in Hn.
    rewrite !elem_of_cons, elem_of_nil in Hin. unfold passive in Hn.
    rewrite !elem_of_cons, elem_of_nil in Hn. naive_solver.
Qed.

(** C29: Recovery never works on a Plan that the user did not approve: when it gives a
    lease for a Plan run, the Plan is approved, its current version is the approved one,
    and it is the version the run is bound to. *)
Theorem recovery_runs_only_approved_plans c i w out w' l :
  PlanReads plans → recover settings c i w = (Ok out, w') → ro_lease out = Some l →
  ∃ run, get_run c w = (Ok (Some run), w) ∧
    (rr_plan_id run ≠ None →
     ∃ x, ro_plan_recovery_context out = Some x ∧ plan_approved run x).
Proof.
  intros Hp Hr Hl. destruct (recover_leased _ _ _ _ _ _ _ Hr Hl) as (run&p&Hrun&_&_&_&[Hplan _]).
  exists run. split; [done|]. naive_solver.
Qed.
End Claims.

(** ** The theorems at work *)

Definition retry_input : ExecutionInput := {|
  xi_execution_id := EXECUTION; xi_approval_id := None; xi_tool_call_id := "call-1";
  xi_tool_name := "deploy"; xi_tool_kind := "execute";
  xi_recovery_strategy := IDEMPOTENT_RETRY; xi_idempotency_key := Some "key-1";
  xi_input_payload_json := "{}"; xi_input_hash := DIGEST; xi_status := EXEC_NOT_STARTED;
|}.

Definition retry_payload : CheckpointPayload :=
  PExecutionDispatching (MkExecutionDispatching RUN EXECUTION "call-1" IDEMPOTENT_RETRY DIGEST
    ("tool_execution:" +:+ EXECUTION +:+ ":input_payload_json") (Some "key-1") "c1" "c1").

(** A run that was interrupted while its execution was being dispatched. *)
Definition dispatching : World :=
  after [StartRunWithCheckpoint ctx "worker-1"; CreateExecution (lease_at 1) retry_input;
         TransitionExecution (lease_at 1) EXECUTION EXEC_NOT_STARTED 1 EXEC_EXECUTING;
         Checkpoint (lease_at 1) (inl EXECUTION_DISPATCHING) (inl retry_payload)
           (MkCheckpointOptions None None None (Some EXECUTION) (Some EXEC_EXECUTING)
              (Some 2%Z))].

Definition own_lease : RunLease := MkRunLease ctx "worker-1" 1 1 1050.

Definition retry_outcome : RecoveryOutcome :=
  MkRecoveryOutcome (Some RETRY_IDEMPOTENT) None (Some own_lease) (Some EXECUTION) None 0 "".

Lemma recovery_fails_closed_witness :
  ∃ k p, latest_checkpoint_row (checkpoint_scope_predicate (w_db dispatching) ctx) = Some k ∧
    decode_checkpoint (checkpoint_from_row k) = Ok (phase_of p, p).
Proof.
  destruct (recovery_fails_closed no_plan (sample_settings 2) ctx "worker-1" dispatching
    (Ok retry_outcome) (@recover _ no_plan (sample_settings 2) ctx "worker-1" dispatching).2)
    as [[_ Hn]|(run&k&p&out&l&_&_&Hk&Hd&_)].
  - exact no_plan_reads.
  - apply ran. vm_compute. reflexivity.
  - discriminate (Hn retry_outcome eq_refl).
  - exists k, p. split; [exact Hk|exact Hd].
Defined.

Lemma recovery_repeats_only_safe_executions_witness :
  ∃ e, execution_scope_predicate (w_db dispatching) ctx EXECUTION = Some e ∧
    exe_recovery_strategy e = IDEMPOTENT_RETRY ∧
    ∃ key, exe_idempotency_key e = Some key ∧ key ≠ "".
Proof.
  edestruct (recovery_repeats_only_safe_executions no_plan (sample_settings 2) ctx "worker-1"
    dispatching retry_outcome (@recover _ no_plan (sample_settings 2) ctx "worker-1" dispatching).2
    RETRY_IDEMPOTENT) as (k&p&e&_&_&Hid&Hrow&_&_&Hs&key&Hkey&_&Hne).
  - exact no_plan_reads.
  - apply ran. vm_compute. reflexivity.
  - reflexivity.
  - apply (bool_decide_eq_true_1 _). reflexivity.
  - injection Hid as Hid. rewrite <-Hid in Hrow. exists e. split; [exact Hrow|].
    split; [exact Hs|]. exists key. split; [exact Hkey|exact Hne].
Defined.

Definition approved_version : PlanVersionRecord :=
  MkPlanVersionRecord PLAN 1 "objective" [] "initial" None None 1 DIGEST 900 [] ∅.

Definition approved_snapshot : PlanSnapshot :=
  MkPlanSnapshot ctx PLAN "message" TRIGGER_EXPLICIT PLAN_APPROVED 1 (Some 1%Z) 2 900 900
    approved_version [approved_version] [].

(** A repository with one approved Plan. *)
Definition one_plan : PlanReader := {|
  plans_get _ _ := mret (Some approved_snapshot);
  running_step_attempts _ _ := mret [];
  step_run_by_id _ _ _ := mret None;
|}.

Lemma one_plan_reads : PlanReads one_plan.
Proof. split; done. Qed.

Definition planned : World := after [StartApprovedPlanRun ctx "worker-1" PLAN 1 DIGEST].

Definition plan_outcome : RecoveryOutcome :=
  MkRecoveryOutcome (Some RESUME_PLAN_STEP) None (Some own_lease) None
    (Some (MkPlanRecoveryContext approved_snapshot approved_version None None false
             ("run:" +:+ RUN +:+ ":model_inference"))) 0 "".

Lemma recovery_runs_only_approved_plans_witness :
  ∃ run, get_run ctx planned = (Ok (Some run), planned).
Proof.
  edestruct (recovery_runs_only_approved_plans one_plan (sample_settings 2) ctx "worker-1"
    planned plan_outcome (@recover _ one_plan (sample_settings 2) ctx "worker-1" planned).2
    own_lease) as (run&Hrun&_).
  - exact one_plan_reads.
  - apply (ran (@recover _ one_plan (sample_settings 2) ctx "worker-1")). vm_compute. reflexivity.
  - reflexivity.
  - exists run. exact Hrun.
Defined.
