(* ===== verification/ToolTheorems.v ===== *)
(** * Theorems about tool calls

    From the refinement of the scheduler ([SchedulerRefinement]), from what its
    transactions leave behind ([ToolFacts], [ToolResults]) and from the permission check. *)

From S2P Require Import Prelude Records Errors Json Regex Redaction Tenancy.
From S2P Require Import WorkflowModels Storage Checkpoint Events WorkflowRepository.
From S2P Require Import PlanDecisions PlanAttempts MemoryRepository PlanResults.
From S2P Require Import PlanInvariants PlanHistory PlanRefinement PlanSystem.
From S2P Require Import WorkflowCoordinator Recovery Continuation Tools Scheduler.
From S2P Require Import WorkflowSpec WorkflowRefinement WorkflowInvariants.
From S2P Require Import ExecutionRefinement SchedulerRefinement PlanRounds Leases.
From S2P Require Import WorkflowSystem Scenario PlanScenario.
From S2P Require Import ToolScenario.
From S2P Require Import MemoryTheorems ToolFacts StoredResults ToolResults.
From Stdlib Require Import Ascii.
From stdpp Require Import base gmap strings list relations.

(** ** The binding of an approval *)

Section Bindings.
Context (resolve : string → list string).

Local Notation binding := (binding_dict resolve).

Lemma map_canon_texts l : map canon (map JStr l) = map JStr l.
Proof. induction l as [|x l IH]; simpl; congruence. Qed.

Lemma plain_texts l : forallb plain (map JStr l) = true.
Proof. by induction l. Qed.

Lemma binding_plain c t n k h roots s key :
  plain (JObj (binding c t n k h roots s key)) = true.
Proof.
  unfold binding_dict. cbn [plain]. rewrite bool_decide_true by (by apply (bool_decide_unpack _)).
  cbn [forallb snd plain andb]. rewrite plain_texts. unfold opt_str.
  by destruct (tc_session_id c), (tc_run_id c), key.
Qed.

(** The members in the order in which they are printed. *)
Lemma binding_canon c t n k h roots s key :
  canon (JObj (binding c t n k h roots s key)) = JObj
    [("approved_roots", JArr (map JStr (normalized_approved_roots resolve roots)));
     ("idempotency_key", opt_str key); ("input_hash", JStr h);
     ("recovery_strategy", JStr (enum_value s)); ("run_id", opt_str (tc_run_id c));
     ("session_id", opt_str (tc_session_id c)); ("tenant_id", JStr (tc_tenant_id c));
     ("tool_call_id", JStr t); ("tool_kind", JStr k); ("tool_name", JStr n);
     ("workspace_id", JStr (tc_workspace_id c))].
Proof.
  rewrite <-map_canon_texts.
  assert (Ho : ∀ o, canon (opt_str o) = opt_str o) by (by intros []).
  rewrite <-(Ho key), <-(Ho (tc_run_id c)), <-(Ho (tc_session_id c)). reflexivity.
Qed.

Lemma opt_str_inj o o' : opt_str o = opt_str o' → o = o'.
Proof. destruct o, o'; simpl; congruence. Qed.

Lemma map_JStr_inj l l' : map JStr l = map JStr l' → l = l'.
Proof. revert l'. induction l as [|x l IH]; intros [|y l']; simpl; try done. intros [= -> H]. f_equal. auto. Qed.

Lemma strategy_value_inj (s s' : RecoveryStrategy) : enum_value s = enum_value s' → s = s'.
Proof. by destruct s, s'. Qed.
End Bindings.

(** ** Identifiers have no blanks *)

Definition no_blank (c : N) : Prop := (c < 127)%N ∧ is_space c = false.

Lemma drop_spaces_none l : Forall no_blank l → drop_spaces l = l.
Proof. destruct 1 as [|c l [_ Hc] Hl]; [done|]. cbn [drop_spaces]. by rewrite Hc. Qed.

Lemma encode_printing s :
  printing_text s = true → Regex.encode (map N_of_ascii (String.list_ascii_of_string s)) = s.
Proof.
  induction s as [|c s IH]; [done|]. unfold printing_text.
  cbn [String.list_ascii_of_string forallb]. rewrite andb_true_iff. intros [Hc Hs].
  change (utf8_encode (N_of_ascii c) +:+
          Regex.encode (map N_of_ascii (String.list_ascii_of_string s)) = String c s).
  rewrite IH by exact Hs. clear -Hc.
  by destruct c as [[] [] [] [] [] [] [] []]; vm_compute in Hc |- *.
Qed.

Lemma uuid_tidy u : UUID_PATTERN u = true → tidy u = true.
Proof.
  intros Hu. pose proof (uuid_identifier u Hu) as Hi.
  pose proof (proj2 (identifier_escape u Hi)) as Hp.
  unfold tidy. rewrite Hp. assert (py_strip u = u) as ->.
  { unfold py_strip, Regex.decode. rewrite decode_printing by done. cbn [app].
    assert (Hl : Forall no_blank (map N_of_ascii (String.list_ascii_of_string u))).
    { apply Forall_fmap, Forall_forall. intros c Hc. unfold identifier in Hi.
      rewrite forallb_forall in Hi. apply list_elem_of_In, Hi in Hc. clear -Hc.
      by destruct c as [[] [] [] [] [] [] [] []]; vm_compute in Hc |- *. }
    rewrite !drop_spaces_none, rev_involutive by (rewrite ?drop_spaces_none by done;
      by try apply Forall_rev). by apply encode_printing. }
  rewrite String.eqb_refl. by destruct u.
Qed.

(** ** Permissions

    Where a path leads.  [step] is how one component leads on from a place in the file
    system, through links and dots; a place is the list of the names on the way to it. *)

Section Paths.
Context (resolve : string → list string) (step : list string → string → list string).

Definition slashless (n : string) : Prop := n ≠ "" ∧ "/"%char ∉ String.list_ascii_of_string n.

Definition walk (from : list string) (path : string) : list string :=
  foldl step from (path_components "" path).

(** What is known of [Path.resolve]: it walks an absolute path from the root of the file
    system, and the place that it gives is reached by its own names.  Two leading slashes
    have a meaning of their own on some systems. *)
Record resolves : Prop := MkResolves {
  resolves_absolute : ∀ p, String.prefix "/" p = true → String.prefix "//" p = false →
    resolve p = walk [] p;
  resolves_canonical : ∀ p, foldl step [] (resolve p) = resolve p;
  resolves_names : ∀ p, Forall slashless (resolve p);
}.

(** The place that [value] names for one who stands in [workspace]. *)
Definition destination (workspace : list string) (value : string) : list string :=
  if String.prefix "//" value then resolve value else
  if String.prefix "/" value then walk [] value else walk workspace value.

Lemma components_word n : ∀ word p, "/"%char ∉ String.list_ascii_of_string n →
  path_components word (n +:+ p) = path_components (word +:+ n) p.
Proof.
  induction n as [|c n IH]; intros word p Hn.
  - by rewrite str_app_nil.
  - cbn [String.list_ascii_of_string] in Hn. rewrite not_elem_of_cons in Hn. destruct Hn as [Hc Hn].
    change (String c n +:+ p) with (String c (n +:+ p)). cbn [path_components].
    destruct (Ascii.eqb_spec c "/"%char); [congruence|].
    rewrite IH by done. by rewrite str_app_assoc.
Qed.

Lemma components_slash n v :
  n ≠ "" → path_components n ("/" +:+ v) = n :: path_components "" v.
Proof.
  intros Hn. change (path_components n ("/" +:+ v))
    with ((if String.eqb n "" then [] else [n]) ++ path_components "" v).
  by destruct (String.eqb_spec n "").
Qed.

Lemma components_joined l v : Forall slashless l → l ≠ [] →
  path_components "" (Json.join "/" l +:+ "/" +:+ v) = l ++ path_components "" v.
Proof.
  induction 1 as [|n l [Hne Hn] Hl IH]; intros; [done|]. destruct l as [|m l].
  - cbn [Json.join]. rewrite components_word by done. by apply components_slash.
  - assert (E : Json.join "/" (n :: m :: l) = n +:+ "/" +:+ Json.join "/" (m :: l)) by done.
    rewrite E, !str_app_assoc, components_word, (components_slash n) by done.
    rewrite IH by done. reflexivity.
Qed.

Lemma prefix_slash v : String.prefix "/" (String "/" v) = true.
Proof. by destruct v. Qed.

Lemma is_absolute_prefix v : is_absolute v = String.prefix "/" v.
Proof.
  destruct v as [|c v]; [done|]. destruct (decide (c = "/"%char)) as [->|Hc].
  - transitivity true; [by apply bool_decide_eq_true_2; exists v|by rewrite prefix_slash].
  - transitivity false.
    + apply bool_decide_eq_false_2. intros [x Hx]. cbn [strip] in Hx.
      destruct (Ascii.eqb_spec "/" c); congruence.
    + cbn [String.prefix]. destruct (ascii_dec "/" c); congruence.
Qed.

Lemma prefix_slashes v : String.prefix "/" v = false → String.prefix "//" v = false.
Proof.
  destruct v as [|c v]; [done|]. cbn [String.prefix]. destruct (ascii_dec "/" c); [|done].
  by destruct v.
Qed.

Context (Hr : resolves).

Lemma resolve_in_destination root value :
  resolve root ≠ [] → resolve_in resolve (resolve root) value = destination (resolve root) value.
Proof.
  intros Hne. unfold resolve_in, destination. rewrite is_absolute_prefix.
  destruct (String.prefix "/" value) eqn:E1.
  - destruct (String.prefix "//" value) eqn:E2; [done|]. by apply resolves_absolute.
  - rewrite prefix_slashes by done.
    pose proof (resolves_names Hr root) as Hn. pose proof (resolves_canonical Hr root) as Hc.
    destruct (resolve root) as [|n l] eqn:E; [done|].
    pose proof Hn as [[Hn1 Hn2] _]%Forall_cons. unfold path_str.
    rewrite resolves_absolute, !str_app_assoc; [|done|apply prefix_slash|].
    + unfold walk. change (path_components "" ("/" +:+ ?x)) with (path_components "" x).
      rewrite components_joined by done. by rewrite foldl_app, Hc.
    + destruct n as [|c n]; [done|]. cbn in Hn2. apply not_elem_of_cons in Hn2 as [Hn2 _].
      assert (Json.join "/" (String c n :: l) = String c (Json.join "/" (n :: l))) as ->
        by (by destruct l).
      change (String.prefix "/" (String c (Json.join "/" (n :: l) +:+ "/" +:+ value)) = false).
      cbn [String.prefix]. by destruct (ascii_dec "/" c).
Qed.

(** A path that a parameter names, and that leads out of the workspace, to [p]. *)
Definition leads_outside (workspace_root : option string) (raw : list (string * json))
    (p : string) : Prop :=
  ∃ root key value, workspace_root = Some root ∧ key ∈ ["file_path"; "dir_path"; "path"] ∧
    Checkpoint.field key raw = Some (JStr value) ∧ value ≠ "" ∧
    let place := destination (resolve root) value in
    ¬ resolve root `prefix_of` place ∧ p = "/" +:+ Json.join "/" place.

Lemma external_roots_outside raw workspace_root p :
  p ∈ collect_external_roots resolve raw workspace_root ↔ leads_outside workspace_root raw p.
Proof.
  unfold leads_outside. destruct workspace_root as [root|]; cbn [collect_external_roots].
  2: { split; [by intros ?%not_elem_of_nil|by intros (?&?&?&?&_)]. }
  rewrite list_elem_of_In, in_flat_map. setoid_rewrite <-list_elem_of_In.
  assert (Hd : ∀ value, resolve root `prefix_of` resolve_in resolve (resolve root) value ∨
    resolve_in resolve (resolve root) value = destination (resolve root) value).
  { intros value. destruct (decide (resolve root = [])) as [->|Hne].
    - left. apply prefix_nil.
    - right. by apply resolve_in_destination. }
  split.
  - intros (key&Hk&Hp). destruct (Checkpoint.field key raw) as [[]|] eqn:Hf;
      try by apply not_elem_of_nil in Hp.
    destruct (String.eqb_spec s "") as [|Hs]; [by apply not_elem_of_nil in Hp|].
    case_bool_decide as Hin; [by apply not_elem_of_nil in Hp|].
    apply list_elem_of_singleton in Hp. destruct (Hd s) as [|E]; [done|]. rewrite E in *.
    exists root, key, s. by split_and!.
  - intros (?&key&value&[= <-]&Hk&Hf&Hv&Hout&->). exists key. split; [exact Hk|]. rewrite Hf.
    rewrite (proj2 (String.eqb_neq value "")) by done.
    assert (resolve root ≠ []) as Hne. { intros E. destruct Hout. rewrite E. apply prefix_nil. }
    rewrite resolve_in_destination by done. rewrite bool_decide_eq_false_2 by done.
    by apply list_elem_of_singleton.
Qed.
End Paths.

(** ** The claims *)

Section Claims.
Context `{envi : Env}.
Context (unicode_alnum : N → bool) (resolve : string → list string)
  (casefold uuid5 : string → string).
Context (settings : Settings) (guarded_tools : list string) (guard_timeout : Z)
  (expires : ToolState * RunVars → bool) (has_database has_event_router : bool).
Local Notation q := (set_max_concurrent_runs_per_tenant settings).

(** C6: Calling a tool, and repeating a call after a crash, whatever the arguments, the
    permission, the outcome of the tool and the exception that it ends with, move the
    database along the effects of the specification only, and so preserve the invariants
    of the engine, of the Plans and of their source messages, provided that the tool
    changes the database only as the engine does. *)
Theorem scheduler_follows_specification b raw oc call h c x action force s :
  tool_follows settings b →
  wf_db q (db_of s) → plans_ok (db_of s) → sources_ok (db_of s) →
  let called := (run unicode_alnum resolve casefold uuid5 settings guarded_tools guard_timeout
                   expires has_database has_event_router b raw oc call h s).2 in
  let repeated := (recover_execution unicode_alnum resolve casefold uuid5 settings
                     guarded_tools guard_timeout expires has_event_router b c x action force
                     s).2 in
  Forall (λ d, effects q (db_of s) d ∧ wf_db q d ∧ plans_ok d ∧ sources_ok d)
    [db_of called; db_of repeated].
Proof.
  intros Hb Hw Hp Hs called repeated.
  assert (Hd : ∀ d, effects q (db_of s) d →
    effects q (db_of s) d ∧ wf_db q d ∧ plans_ok d ∧ sources_ok d).
  { intros d He. split_and!; [done|by eapply effects_wf|by eapply effects_plans|
      by eapply effects_sources]. }
  apply Forall_cons. split; [apply Hd; by apply moves_run|].
  apply Forall_singleton, Hd. by apply moves_recover_execution.
Qed.

(** C7: A tool of a run is called only after its execution has been recorded: the code of
    the tool cannot matter, for the answer, for the database or for the events, unless the
    permission check lets the call pass without an approval, the execution is in the
    database as executing, with the input, the recovery strategy and the idempotency key
    of the call, the latest checkpoint of the run says that it is being dispatched, and
    the run is held under the current lease with no cancellation requested. *)
Theorem tools_run_only_when_recorded b build' raw c call s :
  is_Some (tc_session_id c) → is_Some (tc_run_id c) →
  (∀ params, tb_validate b raw = Ok params →
     builds_alike unicode_alnum resolve casefold guarded_tools b raw params c
       (tb_build b params) (build' params)) →
  run unicode_alnum resolve casefold uuid5 settings guarded_tools guard_timeout expires
    true has_event_router b raw (Some c) call true s =
  run unicode_alnum resolve casefold uuid5 settings guarded_tools guard_timeout expires
    true has_event_router (b <| tb_build := build' |>) raw (Some c) call true s.
Proof.
  intros Hs Hr Hb. unfold run. apply bind_agree. intros u s1 _. apply bind_agree.
  intros u' s2 _. apply bind_agree. intros params s3 Hp. unfold lift in Hp.
  injection Hp as Hp ->. cbn [andb]. rewrite !bool_decide_true by done. cbn [andb].
  apply run_durable_agree. by apply Hb.
Qed.

(** C8: A call that was interrupted is repeated only when that is allowed: the code of the
    tool cannot matter unless the stored input is intact, the tool has the name and the
    kind of the stored execution and declares its recovery strategy and its idempotency
    key, and, if the call needs an approval today, the execution is bound to an approval
    of this very call that is approved; and unless it is not to be marked as uncertain. *)
Theorem executions_repeat_only_when_allowed b build' c x action force s :
  (∀ params,
     may_repeat unicode_alnum resolve casefold uuid5 guarded_tools b c x params (db_of s) →
     ¬ (action = MARK_MANUAL_UNCERTAIN ∧ force = false) → tb_build b params = build' params) →
  recover_execution unicode_alnum resolve casefold uuid5 settings guarded_tools guard_timeout
    expires has_event_router b c x action force s =
  recover_execution unicode_alnum resolve casefold uuid5 settings guarded_tools guard_timeout
    expires has_event_router (b <| tb_build := build' |>) c x action force s.
Proof. apply recover_execution_agree. Qed.

(** C9: A durable call that reports success is on record: its execution has succeeded, its
    row and the latest checkpoint of the run, which decodes, carry the reference and the
    digest of the text that the tool returned, the call is in the audit log, and
    [load_tool_result] returns exactly that text to whoever names the execution, the call
    and the tool, where the identifiers that were drawn are UUIDs. *)
Theorem successful_calls_are_recorded str_of b raw params c call sid s r s' :
  tc_session_id c = Some sid → sid ≠ "" → leaves_flag b →
  tidy call = true → tidy (tb_name b) = true →
  run_durable unicode_alnum resolve casefold uuid5 settings guarded_tools guard_timeout
    expires has_database has_event_router b raw params c (Some call) s = (Ok r, s') →
  ter_status r = TOOL_SUCCESS →
  ∃ n m, let e := env_uuid4 n in let i := env_uuid4 m in
    let digest := env_sha256_hex (ter_content r) in
    result_recorded c (tb_name b) call e (ter_content r) EXEC_SUCCEEDED i sid (db_of s') ∧
    (UUID_PATTERN e = true → UUID_PATTERN i = true →
    load_tool_result str_of c ("memory://" +:+ i) digest (Some e) (Some call)
      (Some (tb_name b)) (xs_world (ts_exec s')) =
    (Ok (MkPersistedToolResult i ("memory://" +:+ i) digest (ter_content r) call (tb_name b)),
     xs_world (ts_exec s'))).
Proof.
  intros Hs Hne Hb Hc Hn Hr Ht.
  destruct (run_durable_success _ _ _ _ _ _ _ _ _ _ _ _ _ _ _ _ _ _ _ Hs Hne Hb Hr Ht)
    as (e&i&Hrec).
  assert (or_else (Some call) (env_uuid4 e) = call) as E
    by (by destruct call; [apply tidy_true in Hc as (_&?&_)|]).
  rewrite E in Hrec. exists e, i. cbv zeta. split; [done|]. intros He Hi.
  destruct Hrec as [_ _ [now Hh] _].
  apply (load_tool_result_Ok c str_of _ sid _ call (tb_name b) _ (enum_value EXEC_SUCCEEDED) now);
    [done|done|done|done|done|by apply uuid_tidy|done|exact Hh].
Qed.

(** C36: A result is lost when the heartbeat of its run comes while the tool works.  The
    transaction that records the result insists on the lease that the call began with; a
    heartbeat raises the version of the run and so puts that lease out of date, and unless
    a cancellation was requested nothing replaces it: whatever the tool returned, the call
    raises and the database stays as it is, with the execution still executing. *)
Theorem heartbeat_loses_tool_result prepared name c call r h t sv :
  (∃ run, context_predicate (db_of sv.1) c = Some run ∧ run_cancel_requested_at run = None ∧
     (rl_version (pe_lease prepared) < run_version run)%Z) →
  ∃ e sv', persist_execution_result settings has_event_router prepared name c call r h t sv =
      (Err e, sv') ∧ db_of sv'.1 = db_of sv.1.
Proof. apply persist_execution_result_refreshed. Qed.

(** C10: A call passes without an approval exactly when its tool is not among the guarded
    ones, up to the case of the names and the spaces around them, and no file path,
    directory path or path among its parameters leads out of the workspace, be it absolute,
    relative to the workspace or through links; a tool without a workspace is judged by
    its name alone.  The places outside that it names, and no others, are those that the
    user is asked to approve.  Of [Path.resolve] it takes that an absolute path leads where
    its components lead, one after the other, from the root of the file system. *)
Theorem unapproved_calls_stay_inside step b raw :
  resolves resolve step →
  let d := permission resolve casefold guarded_tools b raw in
  (pd_requires_approval d = false ↔
     (∀ name, name ∈ guarded_tools →
        casefold (py_strip name) ≠ casefold (py_strip (tb_name b))) ∧
     ∀ p, ¬ leads_outside resolve step (tb_workspace_root b) raw p) ∧
  ∀ p, p ∈ pd_approved_roots d ↔ leads_outside resolve step (tb_workspace_root b) raw p.
Proof.
  intros Hr. pose proof (external_roots_outside resolve step Hr raw (tb_workspace_root b)) as Ho.
  unfold permission, check.
  destruct (collect_external_roots resolve raw (tb_workspace_root b)) as [|p l];
    cbn [pd_requires_approval pd_approved_roots].
  2: { split; [|apply Ho]. split; [done|]. intros [_ Hn]. destruct (Hn p). apply Ho. left. }
  assert (Hg : canonicalize_tool_name casefold (tb_name b) ∈ guarded casefold guarded_tools ↔
    ∃ name, name ∈ guarded_tools ∧ casefold (py_strip name) = casefold (py_strip (tb_name b))).
  { unfold guarded. rewrite elem_of_list_to_set, list_elem_of_fmap.
    split; intros (name&?&?); exists name; by split. }
  case_bool_decide as E; cbn [pd_requires_approval pd_approved_roots]; rewrite Hg in E;
    (split; [|apply Ho]).
  - split; [done|]. intros [Hn _]. destruct E as (name&Hin&E). by destruct (Hn name Hin).
  - split; [|done]. intros _. split; [by intros name ? ?; apply E; exists name|]. intros p Hp%Ho. by apply not_elem_of_nil in Hp.
Qed.

(** C11: An approval is good for one call only: approvals of different calls have different
    identifiers.  If two identifiers agree, so do the tenant, the workspace, the session,
    the run, the call, the name and the kind of the tool, the hash of the input, the
    places outside the workspace, the recovery strategy and the idempotency key; provided
    that the name-based UUIDs do not collide and that the texts are ASCII. *)
Theorem approval_binds_one_call c t n k h roots s key c' t' n' k' h' roots' s' key' :
  (∀ x y, uuid5 x = uuid5 y → x = y) →
  ascii_texts (JObj (binding_dict resolve c t n k h roots s key)) = true →
  ascii_texts (JObj (binding_dict resolve c' t' n' k' h' roots' s' key')) = true →
  approval_binding_id resolve uuid5 c t n k h roots s key =
    approval_binding_id resolve uuid5 c' t' n' k' h' roots' s' key' →
  (tc_tenant_id c, tc_workspace_id c, tc_session_id c, tc_run_id c) =
    (tc_tenant_id c', tc_workspace_id c', tc_session_id c', tc_run_id c') ∧
  (t, n, k, h, s, key) = (t', n', k', h', s', key') ∧
  normalized_approved_roots resolve roots = normalized_approved_roots resolve roots'.
Proof.
  intros Hu Ha Ha' E%Hu. rewrite !json_dumps_ascii_texts in E by done.
  apply print_json_canon_eq in E; [|apply binding_plain..]. rewrite !binding_canon in E.
  injection E. intros ? ? ? ? ? Hs Hr He ? Hk Hroots.
  apply opt_str_inj in Hs, Hr, Hk. apply strategy_value_inj in He. apply map_JStr_inj in Hroots.
  split_and!; congruence.
Qed.
End Claims.

(** ** The sample calls *)

Lemma tool_world_effects : effects 2 (w_db plan_world) (w_db tool_world).
Proof.
  exact (exec_all_steps no_plan long_co no_plan_reads [StartRun ctx "worker-1"] plan_world).
Qed.

Lemma sample_tool_follows n s work :
  moves (vars_steps 2) work → tool_follows long_settings (sample_tool n s work).
Proof. intros Hw params i roots recorder [= <-] _. exact Hw. Qed.

Lemma scheduler_follows_specification_witness :
  wf_db 2 (db_of tool_state) ∧ wf_db 2 (db_of (called reading [] tool_state).2).
Proof.
  assert (Hw : wf_db 2 (db_of tool_state)).
  { eapply effects_wf; [|exact tool_world_effects]. apply no_runs_wf; done. }
  split; [exact Hw|].
  assert (Hp : plans_ok (db_of tool_state)).
  { eapply effects_plans; [exact tool_world_effects|exact plan_world_ok]. }
  assert (Hs : sources_ok (db_of tool_state)).
  { eapply effects_sources; [exact tool_world_effects|exact plan_world_sources]. }
  assert (Hf : tool_follows long_settings reading)
    by (apply sample_tool_follows, moves_ret, _).
  pose proof (scheduler_follows_specification (λ _, false) plain_path (λ x, x) (λ _, APPROVAL)
    long_settings ["shell"] 30 (λ _, false) true true reading [] (Some ctx) (Some "call-1") true
    ctx (execution_recovery_from_row ctx (execution_row ctx SESSION RUN
      (MkExecutionInput EXECUTION None "call-1" "read_file" "native" READ_ONLY_REPLAY None "{}"
         "" EXEC_NOT_STARTED) 0)) MARK_MANUAL_UNCERTAIN false tool_state Hf Hw Hp Hs) as H.
  apply Forall_cons in H as [(_&H&_) _]. exact H.
Defined.

(** A tool that refuses to work while no execution is in the database. *)
Definition wary (params : list (string * json)) : result exn ToolInvocation :=
  Ok (λ _ _ sv,
    if bool_decide (tool_executions (db_of sv.1) = ∅)
    then (Err (RuntimeError "called without a record"), sv) else (Ok done, sv)).

Lemma tools_run_only_when_recorded_witness :
  called reading [("path", JStr "notes")] tool_state =
    called (reading <| tb_build := wary |>) [("path", JStr "notes")] tool_state ∧
  (called reading [("path", JStr "notes")] tool_state).1 = Ok done.
Proof.
  split; [|vm_compute; reflexivity].
  unfold called. apply (tools_run_only_when_recorded (λ _, false) plain_path (λ x, x) (λ _, APPROVAL)
    long_settings ["shell"] 30 (λ _, false) true reading wary [("path", JStr "notes")] ctx
    (Some "call-1") tool_state); [by eexists|by eexists|].
  intros params _ input m _ _ _ roots recorder s v [(e&[(x&Hx&_) _]) _]. cbn.
  rewrite bool_decide_false; [reflexivity|]. intros E.
  apply execution_scope_Some in Hx as (Hx&_). rewrite E, lookup_empty in Hx. discriminate.
Defined.

(** The execution that the slow tool left behind. *)
Definition interrupted_execution : option ExecutionRecoveryRecord :=
  execution_recovery_from_row ctx <$> head (rows (tool_executions (db_of interrupted))).

Definition repeated (b : ToolBuilder) (x : ExecutionRecoveryRecord)
    : result exn ToolExecutionResult * ToolState :=
  recover_execution (λ _, false) plain_path (λ x, x) (λ _, APPROVAL) long_settings ["shell"] 30
    (λ _, false) true b ctx x REPLAY_READ_ONLY false interrupted.

Lemma executions_repeat_only_when_allowed_witness :
  ∃ x, interrupted_execution = Some x ∧ xr_status x = EXEC_EXECUTING ∧
    repeated reading x = repeated (reading <| tb_build := wary |>) x ∧
    execution_statuses (repeated reading x).2 = [EXEC_BLOCKED_INCOMPATIBLE].
Proof.
  destruct interrupted_execution as [x|] eqn:E; [|vm_compute in E; discriminate E].
  exists x. split; [reflexivity|].
  assert (Hx : xr_status x = EXEC_EXECUTING ∧ xr_tool_name x = "slow" ∧
               execution_statuses (repeated reading x).2 = [EXEC_BLOCKED_INCOMPATIBLE]).
  { vm_compute in E. injection E as <-. vm_compute. auto. }
  destruct Hx as (Hs&Hn&Hb). split; [exact Hs|]. split; [|exact Hb].
  unfold repeated. apply (executions_repeat_only_when_allowed (λ _, false) plain_path (λ x, x) (λ _, APPROVAL)
    long_settings ["shell"] 30 (λ _, false) true reading wary ctx x REPLAY_READ_ONLY false
    interrupted).
  intros params (Ht&_). rewrite Hn in Ht. discriminate Ht.
Defined.

Definition durably (b : ToolBuilder) (raw : list (string * json)) (s : ToolState)
    : result exn ToolExecutionResult * ToolState :=
  run_durable (λ _, false) plain_path (λ x, x) (λ _, APPROVAL) long_settings ["shell"] 30
    (λ _, false) true true b raw raw ctx (Some "call-1") s.

Lemma successful_calls_are_recorded_witness :
  (durably reading [] tool_state).1 = Ok done ∧
  ∃ e i, result_recorded ctx "read_file" "call-1" e "done" EXEC_SUCCEEDED i SESSION
           (db_of (durably reading [] tool_state).2).
Proof.
  assert (Hr : (durably reading [] tool_state).1 = Ok done) by (vm_compute; reflexivity).
  split; [exact Hr|].
  destruct (successful_calls_are_recorded (λ _, false) plain_path (λ x, x) (λ _, APPROVAL)
    long_settings ["shell"] 30 (λ _, false) true true (λ _, "") reading [] [] ctx "call-1"
    SESSION tool_state done (durably reading [] tool_state).2 eq_refl
    ltac:(discriminate) ltac:(intros p i roots r [= <-] sv; reflexivity) eq_refl eq_refl
    (ran _ _ _ Hr) eq_refl) as (n&m&H&_).
  exists (env_uuid4 n), (env_uuid4 m). exact H.
Defined.

(** The slow tool has returned, its heartbeat has come, and its result is to be recorded. *)
Definition slow_prepared : PreparedExecution := {|
  pe_lease := tool_lease; pe_execution_id := EXECUTION; pe_approval_id := None;
  pe_input_payload_json := "{}"; pe_input_hash := env_sha256_hex "{}";
  pe_recovery_strategy := READ_ONLY_REPLAY; pe_idempotency_key := None |}.

Lemma heartbeat_loses_tool_result_witness :
  (called slow [] tool_state).1 = Err (StaleFenceError "run lease is stale") ∧
  execution_statuses interrupted = [EXEC_EXECUTING] ∧
  ∃ e sv', persist_execution_result long_settings true slow_prepared "slow" ctx (Some "call-1")
             done false None (interrupted, progress_of 2 None) = (Err e, sv') ∧
    db_of sv'.1 = db_of interrupted.
Proof.
  split; [vm_compute; reflexivity|]. split; [vm_compute; reflexivity|].
  apply (heartbeat_loses_tool_result long_settings true slow_prepared "slow" ctx (Some "call-1")
    done false None (interrupted, progress_of 2 None)).
  destruct (context_predicate (db_of interrupted) ctx) as [r|] eqn:E;
    [|vm_compute in E; discriminate E].
  exists r. split; [exact E|]. vm_compute in E. injection E as <-. vm_compute. auto.
Defined.

(** A file system without links, where a dot stays and two dots lead to the parent. *)
Definition lexical (place : list string) (name : string) : list string :=
  if String.eqb name "." then place else
  if String.eqb name ".." then removelast place else place ++ [name].

Definition dotted_path (p : string) : list string := walk lexical [] p.

Definition proper (n : string) : Prop := slashless n ∧ n ≠ "." ∧ n ≠ "..".

Lemma components_slashless p : ∀ word, "/"%char ∉ String.list_ascii_of_string word →
  Forall slashless (path_components word p).
Proof.
  assert (Hw : ∀ word, "/"%char ∉ String.list_ascii_of_string word →
    Forall slashless (if String.eqb word "" then [] else [word])).
  { intros word Hw. destruct (String.eqb_spec word ""); by repeat constructor. }
  induction p as [|c p IH]; intros word Hn; cbn [path_components]; [by apply Hw|].
  destruct (Ascii.eqb_spec c "/"%char) as [|Hc].
  - apply Forall_app. split; [by apply Hw|]. apply IH, not_elem_of_nil.
  - apply IH. clear -Hn Hc. induction word as [|a word IH].
    + intros ?%list_elem_of_singleton. congruence.
    + apply not_elem_of_cons in Hn as [Ha Hn].
      change (String a word +:+ ch c) with (String a (word +:+ ch c)).
      apply not_elem_of_cons. auto.
Qed.

Lemma lexical_proper l : ∀ place,
  Forall slashless l → Forall proper place → Forall proper (foldl lexical place l).
Proof.
  induction l as [|n l IH]; intros place Hl Hp; [done|]. apply Forall_cons in Hl as [Hn Hl].
  apply IH; [done|]. unfold lexical. destruct (String.eqb_spec n "."); [done|].
  destruct (String.eqb_spec n "..").
  - clear -Hp. induction Hp as [|m [|m' k] Hm Hk IH]; [done|constructor|by constructor].
  - apply Forall_app. split; [done|]. by apply Forall_singleton.
Qed.

Lemma lexical_canonical l : ∀ place, Forall proper l → foldl lexical place l = place ++ l.
Proof.
  induction l as [|n l IH]; intros place Hl; [symmetry; apply app_nil_r|].
  apply Forall_cons in Hl as [(_&H1&H2) Hl]. cbn [foldl]. rewrite IH by done. unfold lexical.
  rewrite (proj2 (String.eqb_neq n ".")), (proj2 (String.eqb_neq n "..")) by done.
  by rewrite <-app_assoc.
Qed.

Lemma dotted_resolves : resolves dotted_path lexical.
Proof.
  assert (Hp : ∀ p, Forall proper (dotted_path p)).
  { intros p. apply lexical_proper; [|done]. apply components_slashless, not_elem_of_nil. }
  split; [done| |].
  - intros p. apply (lexical_canonical _ []), Hp.
  - intros p. eapply Forall_impl; [apply Hp|]. by intros n [].
Qed.

Lemma unapproved_calls_stay_inside_witness :
  let verdict path := permission dotted_path (λ x, x) ["shell"] reading [("path", JStr path)] in
  (pd_requires_approval (verdict "../outside/x") = true ∧
   "/outside/x" ∈ pd_approved_roots (verdict "../outside/x")) ∧
  pd_requires_approval (verdict "drafts/../notes") = false.
Proof.
  intros verdict.
  pose proof (λ raw, unapproved_calls_stay_inside dotted_path (λ x, x) ["shell"] lexical reading
    raw dotted_resolves) as H. split.
  - destruct (H [("path", JStr "../outside/x")]) as [Hp Hr].
    assert (Hout : leads_outside dotted_path lexical (tb_workspace_root reading)
      [("path", JStr "../outside/x")] "/outside/x").
    { exists "/workspace", "path", "../outside/x". split_and!; try reflexivity.
      - apply (bool_decide_eq_true_1 _). reflexivity.
      - discriminate.
      - cbv zeta. split; [|reflexivity]. intros [k E]. vm_compute in E. discriminate E. }
    split; [|by apply Hr]. fold (verdict "../outside/x") in Hp.
    destruct (pd_requires_approval (verdict "../outside/x")); [reflexivity|].
    destruct (proj1 Hp eq_refl) as [_ Hn]. destruct (Hn _ Hout).
  - apply H. split.
    + intros name ->%list_elem_of_singleton. vm_compute. discriminate.
    + intros p (root&key&value&[= <-]&Hk&Hf&_&Hn&_).
      repeat (apply elem_of_cons in Hk as [->|Hk]; [try discriminate Hf|]).
      * injection Hf as <-. destruct Hn. exists ["notes"]. reflexivity.
      * by apply elem_of_nil in Hk.
Defined.

Lemma approval_binds_one_call_witness :
  let id h := approval_binding_id plain_path (λ x, x) ctx "call-1" "shell" "native" h []
                MANUAL_UNCERTAIN None in
  id "aa" ≠ id "bb".
Proof.
  intros id E.
  destruct (approval_binds_one_call plain_path (λ x, x) ctx "call-1" "shell" "native" "aa" []
    MANUAL_UNCERTAIN None ctx "call-1" "shell" "native" "bb" [] MANUAL_UNCERTAIN None
    (λ x y E, E) eq_refl eq_refl E) as (_&H&_). discriminate H.
Defined.
