(* ===== verification/RecoveryWorkerTheorems.v ===== *)
(** * Theorems about the recovery worker

    From its refinement ([RecoveryRefinement]) and from [RecoveryWorkerFacts]. *)

From S2P Require Import Prelude Records Errors Json Regex Redaction Tenancy.
From S2P Require Import WorkflowModels Storage Collections Checkpoint Events PlanRecords.
From S2P Require Import PlanReading.
From S2P Require Import WorkflowRepository PlanDecisions MemoryRepository.
From S2P Require Import PlanInvariants PlanHistory PlanRefinement PlanSystem.
From S2P Require Import WorkflowCoordinator Recovery PlanGenerator PlanService.
From S2P Require Import Continuation.
From S2P Require Import Tools Scheduler PlanExecution PlanLoop RecoveryWorker.
From S2P Require Import WorkflowSpec.
From S2P Require Import WorkflowRefinement RecoveryRefinement WorkflowInvariants.
From S2P Require Import ExecutionRefinement.
From S2P Require Import SchedulerRefinement WorkflowSystem.
From S2P Require Import Scenario.
From S2P Require Import PlanScenario ToolScenario.
From S2P Require Import MemoryTheorems ToolFacts ToolResults ExecutionOutcomes.
From S2P Require Import RecoveryWorkerFacts ToolTheorems.
From stdpp Require Import base gmap strings list relations.

(** ** The claims *)

Section Claims.
Context `{envi : Env} {plans : PlanReader}.
Context (unicode_alnum : N → bool) (resolve : string → list string)
  (casefold uuid5 : string → string).
Context (planning : PlanningSettings) (settings : Settings) (governance : json).
Context (planning_service :
           option (option (option PlanGenerator.router * error_reporter * string * string))).
Context (guarded_tools : list string) (guard_timeout : Z)
  (expires : ToolState * RunVars → bool) (has_event_router : bool).
Context (str_of : json → string) (loop_fuel : nat).
Local Notation q := (set_max_concurrent_runs_per_tenant settings).
Local Notation consume_outcome' :=
  (consume_outcome unicode_alnum resolve casefold uuid5 planning settings governance
     planning_service guarded_tools guard_timeout expires has_event_router str_of loop_fuel).

(** C12: A round of the recovery worker, over any candidates, with whatever the recovery
    service decides for each of them, through repeated tool calls, resumed Plans, agents
    and exceptions, moves the database along the effects of the specification only, and so
    preserves the invariants of the engine, of the Plans and of their source messages,
    provided that the tools, the agents and the runners of Plan steps do. *)
Theorem worker_follows_specification depth pool busy jobs n s :
  PlanReads plans → (∀ c rt, pool c = Ok rt → runtime_follows settings rt) →
  wf_db q (db_of s) → plans_ok (db_of s) → sources_ok (db_of s) →
  let d' := db_of (run_once unicode_alnum resolve casefold uuid5 planning settings governance
                     planning_service guarded_tools guard_timeout expires has_event_router
                     str_of loop_fuel depth pool busy jobs n s).2 in
  effects q (db_of s) d' ∧ wf_db q d' ∧ plans_ok d' ∧ sources_ok d'.
Proof.
  intros Hr Hp Hw Hpl Hs d'.
  assert (He : effects q (db_of s) d') by (by apply moves_run_once).
  split_and!; [done|by eapply effects_wf|by eapply effects_plans|by eapply effects_sources].
Qed.

(** C13: No idle run is overlooked: every candidate is a run that waits for the user after
    an approval of it was decided, or a live run whose lease has expired, and that is not
    the run of a delegated job; and every such run is among the candidates, unless the
    batch is full of runs that come before it in the order of tenants, workspaces,
    sessions and runs. *)
Theorem idle_runs_are_found jobs n w l w' :
  load_candidates jobs n w = (Ok l, w') →
  let d := w_db w in let now := env_clock (w_ticks w) in
  let is_candidate x r :=
    rc_context x = run_context r ∧ (rc_awaiting_resolution x = true ↔ decided d r) in
  (length l ≤ n)%nat ∧
  (∀ x, x ∈ l → ∃ i r, agent_runs d !! i = Some r ∧ idle d jobs now r ∧ is_candidate x r) ∧
  (∀ i r, agent_runs d !! i = Some r → idle d jobs now r →
     (∃ x, x ∈ l ∧ is_candidate x r) ∨
     length l = n ∧ ∀ x, x ∈ l → ∃ r', rc_context x = run_context r' ∧ run_leb r' r = true).
Proof.
  unfold load_candidates. intros (now&w1&Hn&H0)%bind_Ok. injection Hn as <- <-.
  apply bind_Ok in H0 as (d&w2&Hd&H0). injection Hd as <- <-. unfold lift in H0.
  injection H0 as H0 _. apply candidates_of_Ok in H0 as ->. cbn [w_db setter] in *.
  set (d := w_db w). set (now := env_clock (w_ticks w)).
  set (found := List.filter (needs_recovery d jobs now) (rows (agent_runs d))).
  assert (Hfound : ∀ r, r ∈ sort_by run_leb found ↔
    (∃ i, agent_runs d !! i = Some r) ∧ idle d jobs now r).
  { intros r. rewrite (sort_by_perm run_leb found), <-needs_recovery_idle. unfold found.
    by rewrite list_elem_of_In, filter_In, <-list_elem_of_In, elem_of_rows. }
  pose proof (has_decided_approval_spec d) as Hdec. split_and!.
  - rewrite length_map, length_take. lia.
  - intros x (r&->&Hr)%list_elem_of_fmap. apply elem_of_take in Hr as (i&Hr&_).
    apply list_elem_of_lookup_2, Hfound in Hr as [[j Hj] Hr]. exists j, r. split_and!; [done..|by apply Hdec].
  - intros i r Hi Hr. assert (Hs : r ∈ sort_by run_leb found) by (apply Hfound; eauto).
    destruct (take_before n (sort_by run_leb found) r) as [Ht|[Hl Hb]].
    + apply sort_by_ordered, run_leb_total.
    + done.
    + left. eexists. split; [apply list_elem_of_fmap; by exists r|split; [done|by apply Hdec]].
    + right. rewrite length_map. split; [done|]. intros x (r'&->&Hr')%list_elem_of_fmap.
      exists r'. split; [done|by apply Hb].
Qed.

(** C14: The worker comes to an end: [_consume_outcome] calls itself through
    [_consume_plan_terminal_result], but never more than once, since after an execution
    was repeated, closed or blocked the latest checkpoint of the run holds its result, and
    from there the recovery service never decides to repeat; two levels of calls are as
    good as any number. *)
Theorem repetitions_never_nest n rt c sid outcome s :
  PlanReads plans → tc_session_id c = Some sid → sid ≠ "" → lease_context s = c →
  (∀ t b, rt_registry rt !! t = Some b → leaves_context c b) →
  consume_outcome' (S (S n)) rt c outcome s = consume_outcome' 2 rt c outcome s.
Proof. intros Hr Hs Hne Hl Hrt. by eapply consume_outcome_depth. Qed.

(** C15: A run that the recovery service finds corrupt or incompatible, and that the worker
    could deal with, is sealed as such: it has that status and an end, and its latest
    checkpoint, which decodes, says so. *)
Theorem blocked_runs_are_sealed n rt c outcome status s s' :
  lease_context s = c → run_blocked (ro_status outcome) = Some status →
  consume_outcome' (S n) rt c outcome s = (Ok tt, s') →
  sealed_as c status (db_of s').
Proof.
  intros Hl Hb. cbn [consume_outcome]. unfold consume_with. rewrite Hb. by apply consume_blocked_Ok.
Qed.

(** C37: The worker cannot deal with a blocked run whose last checkpoint names an execution
    that has ended, as every checkpoint of a tool result does: it insists on blocking the
    execution first, which no transition allows, so it raises and leaves the database as
    it is, and the run stays as it was for the next round. *)
Theorem ended_execution_keeps_run_unsealed n rt c outcome status s k e x :
  run_blocked (ro_status outcome) = Some status →
  latest_checkpoint_row (checkpoint_scope_predicate (db_of s) c) = Some k →
  ckp_execution_id k = Some e → execution_scope_predicate (db_of s) c e = Some x →
  LEGAL_EXECUTION_TRANSITIONS (exe_execution_status x) = [] →
  ∃ err s', consume_outcome' (S n) rt c outcome s = (Err err, s') ∧ db_of s' = db_of s.
Proof.
  intros Hb Hk He Hx Ht. cbn [consume_outcome]. unfold consume_with. rewrite Hb.
  by eapply consume_blocked_ended.
Qed.
End Claims.

(** ** The sample rounds *)

Lemma slow_follows : tool_follows long_settings slow.
Proof.
  apply sample_tool_follows. apply moves_bind; [apply _| |intros; apply moves_ret, _].
  apply moves_on_tools, moves_on_exec, moves_refresh. intros l. apply (moves_heartbeat long_co).
Qed.

Lemma later_db s : db_of (later s) = db_of s.
Proof. done. Qed.

Lemma called_effects b raw s :
  tool_follows long_settings b → effects 2 (db_of s) (db_of (called b raw s).2).
Proof.
  intros Hb. exact (moves_run (λ _, false) plain_path (λ x, x) (λ _, APPROVAL) long_settings
    ["shell"] 30 (λ _, false) true true b Hb raw (Some ctx) (Some "call-1") true s).
Qed.

Lemma idle_run_effects : effects 2 (w_db plan_world) (db_of idle_run).
Proof.
  apply (transitivity tool_world_effects). unfold idle_run. rewrite later_db.
  unfold interrupted. apply (called_effects slow [] tool_state), slow_follows.
Qed.

Lemma sample_registry t b :
  rt_registry sample_runtime !! t = Some b → b = sample_tool "slow" READ_ONLY_REPLAY (mret done).
Proof. cbn [rt_registry sample_runtime]. by intros [_ <-]%lookup_singleton_Some. Qed.

Lemma sample_pool_follows c rt : sample_pool c = Ok rt → runtime_follows long_settings rt.
Proof.
  intros [= <-]. split.
  - intros n b ->%sample_registry. apply sample_tool_follows, moves_ret, _.
  - done.
  - intros callback c' r i [= <-]. apply moves_ret, _.
Qed.

Lemma worker_follows_specification_witness :
  wf_db 2 (db_of idle_run) ∧ wf_db 2 (db_of (once idle_run).2).
Proof.
  assert (Hw : wf_db 2 (db_of idle_run)).
  { eapply effects_wf; [|exact idle_run_effects]. apply no_runs_wf; done. }
  split; [exact Hw|].
  assert (Hp : plans_ok (db_of idle_run)).
  { eapply effects_plans; [exact idle_run_effects|exact plan_world_ok]. }
  assert (Hs : sources_ok (db_of idle_run)).
  { eapply effects_sources; [exact idle_run_effects|exact plan_world_sources]. }
  pose proof (worker_follows_specification (λ _, false) plain_path (λ x, x) (λ _, APPROVAL)
    planning long_settings (JObj []) None ["shell"] 30 (λ _, false) true (λ _, "") 20 5
    sample_pool None [] 20 idle_run no_plan_reads sample_pool_follows Hw Hp Hs) as H.
  exact (proj1 (proj2 H)).
Defined.

Lemma idle_runs_are_found_witness :
  ∃ l w', load_candidates [] 20 (xs_world (ts_exec idle_run)) = (Ok l, w') ∧
    length l = 1%nat ∧ (length l ≤ 20)%nat.
Proof.
  assert (H : ∃ l, (load_candidates [] 20 (xs_world (ts_exec idle_run))).1 = Ok l ∧
    length l = 1%nat).
  { eexists. split; [vm_compute; reflexivity|reflexivity]. }
  destruct H as (l&H&Hl). apply ran in H. eexists l, _. split_and!; [exact H|exact Hl|].
  exact (proj1 (idle_runs_are_found [] 20 _ l _ H)).
Defined.

Lemma repetitions_never_nest_witness :
  lease_context idle_run = ctx ∧
  let outcome := (acting REPLAY_READ_ONLY None) <| ro_execution_id := Some EXECUTION |> in
  consumed 7 outcome idle_run = consumed 2 outcome idle_run.
Proof.
  assert (Hl : lease_context idle_run = ctx) by (vm_compute; reflexivity).
  split; [exact Hl|]. intros outcome.
  apply (repetitions_never_nest (λ _, false) plain_path (λ x, x) (λ _, APPROVAL) planning
    long_settings (JObj []) None ["shell"] 30 (λ _, false) true (λ _, "") 20 5
    sample_runtime ctx SESSION outcome idle_run no_plan_reads eq_refl ltac:(done) Hl).
  intros t b ->%sample_registry params i roots recorder [= <-] _. apply moves_ret, _.
Defined.

Lemma blocked_runs_are_sealed_witness :
  sealed_as ctx RUN_BLOCKED_CORRUPT
    (db_of (consumed 1 (blocked RUN_BLOCKED_CORRUPT "missing checkpoint") tool_state).2).
Proof.
  assert (H : (consumed 1 (blocked RUN_BLOCKED_CORRUPT "missing checkpoint") tool_state).1 =
     Ok tt) by (vm_compute; reflexivity).
  apply ran in H. revert H.
  exact (blocked_runs_are_sealed (λ _, false) plain_path (λ x, x) (λ _, APPROVAL) planning
    long_settings (JObj []) None ["shell"] 30 (λ _, false) true (λ _, "") 20 0
    sample_runtime ctx (blocked RUN_BLOCKED_CORRUPT "missing checkpoint") RUN_BLOCKED_CORRUPT
    tool_state _ eq_refl eq_refl).
Defined.

(** A call that succeeded, in a run whose Plan went missing. *)
Definition succeeded_run : ToolState := (called reading [] tool_state).2.

Lemma ended_execution_keeps_run_unsealed_witness :
  ∃ err s', consumed 5 (blocked RUN_BLOCKED_INCOMPATIBLE "plan missing") succeeded_run =
     (Err err, s') ∧ db_of s' = db_of succeeded_run.
Proof.
  assert (H : ∃ k e x,
    latest_checkpoint_row (checkpoint_scope_predicate (db_of succeeded_run) ctx) = Some k ∧
    ckp_execution_id k = Some e ∧
    execution_scope_predicate (db_of succeeded_run) ctx e = Some x ∧
    LEGAL_EXECUTION_TRANSITIONS (exe_execution_status x) = []).
  { eexists _, _, _. split; [vm_compute; reflexivity|]. split; [reflexivity|].
    split; [vm_compute; reflexivity|reflexivity]. }
  destruct H as (k&e&x&Hk&He&Hx&Ht).
  exact (ended_execution_keeps_run_unsealed (λ _, false) plain_path (λ x, x) (λ _, APPROVAL)
    planning long_settings (JObj []) None ["shell"] 30 (λ _, false) true (λ _, "") 20 4
    sample_runtime ctx (blocked RUN_BLOCKED_INCOMPATIBLE "plan missing")
    RUN_BLOCKED_INCOMPATIBLE succeeded_run k e x eq_refl Hk He Hx Ht).
Defined.
