(* ===== verification/TenantRuntime.v ===== *)
(** * The runtime of a tenant ([runtime/models.py])

    [TenantRuntime], its counters, the leases that runs hold on it
    ([RuntimeExecutionLease]) and its closing, and its creation by [runtime/factory.py] as
    far as the counters are concerned.  A lease refers to the runtime it was taken from, so
    an operation of a lease is a function on both.  [now] is what the clock of the runtime
    shows. *)

From S2P Require Import Prelude Records Errors Json Regex Tenancy WorkflowModels Storage.
From S2P Require Import Collections WorkflowRepository.
From stdpp Require Import base gmap strings list.

(** What a runtime owns and closes. *)
Inductive part : Type :=
| MCP_MANAGER | SKILL_MANAGER | REGISTRY | EVENT_ROUTER | SANDBOX_CONTROLLER
| SECRET_HANDLE (n : nat).

#[export] Instance part_eq_dec : EqDecision part.
Proof. solve_decision. Defined.

Record TenantRuntime : Type := MkTenantRuntime {
  tr_tenant_id : string;
  tr_runtime_instance_id : string;
  tr_mcp_manager : bool;
  tr_sandbox_controller : bool;
  tr_last_used_at_ms : Z;
  tr_secret_handles : list nat;
  tr_clock : bool;
  tr_active_run_count : Z;
  tr_awaiting_user_run_count : Z;
  tr_checkpointed_awaiting_user_run_count : Z;
  tr_active_executing_run_count : Z;
  tr_active_tool_execution_count : Z;
  tr_available : bool;
  tr_close_complete : bool;
  tr_mcp_stopped : bool;
  tr_skill_closed : bool;
  tr_registry_cleared : bool;
  tr_event_router_cleared : bool;
  tr_sandbox_closed : bool;
}.

#[export] Instance eta_TenantRuntime : Eta TenantRuntime := λ r,
  MkTenantRuntime (tr_tenant_id r) (tr_runtime_instance_id r) (tr_mcp_manager r)
    (tr_sandbox_controller r) (tr_last_used_at_ms r) (tr_secret_handles r) (tr_clock r)
    (tr_active_run_count r) (tr_awaiting_user_run_count r)
    (tr_checkpointed_awaiting_user_run_count r) (tr_active_executing_run_count r)
    (tr_active_tool_execution_count r) (tr_available r) (tr_close_complete r)
    (tr_mcp_stopped r) (tr_skill_closed r) (tr_registry_cleared r)
    (tr_event_router_cleared r) (tr_sandbox_closed r).

Record RuntimeExecutionLease : Type := MkRuntimeExecutionLease {
  el_closed : bool;
  el_executing : bool;
  el_awaiting_user : bool;
  el_checkpoint_persisted : bool;
  el_active_tool_executions : Z;
}.

#[export] Instance eta_RuntimeExecutionLease : Eta RuntimeExecutionLease := λ l,
  MkRuntimeExecutionLease (el_closed l) (el_executing l) (el_awaiting_user l)
    (el_checkpoint_persisted l) (el_active_tool_executions l).

(** ** [TenantRuntime] *)

Definition idle_expired (r : TenantRuntime) (now idle_ttl_ms : Z) : bool :=
  Z.ltb idle_ttl_ms (now - tr_last_used_at_ms r).

Definition can_evict (r : TenantRuntime) (now idle_ttl_ms : Z) : bool :=
  if negb (idle_expired r now idle_ttl_ms) then false else
  if Z.ltb 0 (tr_active_executing_run_count r) then false else
  if Z.eqb (tr_active_run_count r) 0 then true else
  Z.eqb (tr_active_run_count r) (tr_checkpointed_awaiting_user_run_count r) &&
  Z.eqb (tr_active_tool_execution_count r) 0.

Definition is_available (r : TenantRuntime) : bool := tr_available r && negb (tr_close_complete r).

Definition mark_unavailable (r : TenantRuntime) : TenantRuntime := r <| tr_available := false |>.

(** [touch()], by the clock of the runtime, if it has one. *)
Definition touch (now : Z) (r : TenantRuntime) : TenantRuntime :=
  if tr_clock r then r <| tr_last_used_at_ms := now |> else r.

(** [touch(now_ms)]. *)
Definition touch_at (now : Z) (r : TenantRuntime) : TenantRuntime :=
  r <| tr_last_used_at_ms := now |>.

Definition apply_workflow_counters (k : WorkflowRuntimeCounters) (r : TenantRuntime)
    : TenantRuntime :=
  r <| tr_active_run_count := active_run_count k |>
    <| tr_active_executing_run_count := active_executing_run_count k |>
    <| tr_awaiting_user_run_count := awaiting_user_run_count k |>
    <| tr_checkpointed_awaiting_user_run_count := checkpointed_awaiting_user_run_count k |>.

(** ** [RuntimeExecutionLease] *)

(** [max(0, n - k)]. *)
Definition less (n k : Z) : Z := Z.max 0 (n - k).

(** The constructor. *)
Definition new_lease (now : Z) (r : TenantRuntime) : RuntimeExecutionLease * TenantRuntime :=
  (MkRuntimeExecutionLease false true false false 0,
   touch now (r <| tr_active_run_count := (tr_active_run_count r + 1)%Z |>
     <| tr_active_executing_run_count := (tr_active_executing_run_count r + 1)%Z |>)).

Definition begin_run (now : Z) (r : TenantRuntime)
    : result exn (RuntimeExecutionLease * TenantRuntime) :=
  _ ← ensure (is_available r) (RuntimeError "runtime is unavailable");
  Ok (new_lease now (touch now r)).

Definition mark_tool_execution_started (now : Z) (l : RuntimeExecutionLease) (r : TenantRuntime)
    : RuntimeExecutionLease * TenantRuntime :=
  if el_closed l then (l, r) else
  (l <| el_active_tool_executions := (el_active_tool_executions l + 1)%Z |>,
   touch now (r <| tr_active_tool_execution_count :=
                     (tr_active_tool_execution_count r + 1)%Z |>)).

Definition mark_tool_execution_finished (now : Z) (l : RuntimeExecutionLease) (r : TenantRuntime)
    : RuntimeExecutionLease * TenantRuntime :=
  if el_closed l || Z.eqb (el_active_tool_executions l) 0 then (l, r) else
  (l <| el_active_tool_executions := (el_active_tool_executions l - 1)%Z |>,
   touch now (r <| tr_active_tool_execution_count := less (tr_active_tool_execution_count r) 1 |>)).

Definition mark_awaiting_user (now : Z) (checkpoint_persisted : bool) (l : RuntimeExecutionLease)
    (r : TenantRuntime) : RuntimeExecutionLease * TenantRuntime :=
  if el_closed l || el_awaiting_user l then (l, r) else
  let '(l, r) :=
    if el_executing l
    then (l <| el_executing := false |>,
          r <| tr_active_executing_run_count := less (tr_active_executing_run_count r) 1 |>)
    else (l, r) in
  let r := r <| tr_awaiting_user_run_count := (tr_awaiting_user_run_count r + 1)%Z |> in
  let l := l <| el_awaiting_user := true |> in
  let '(l, r) :=
    if checkpoint_persisted
    then (l <| el_checkpoint_persisted := true |>,
          r <| tr_checkpointed_awaiting_user_run_count :=
                 (tr_checkpointed_awaiting_user_run_count r + 1)%Z |>)
    else (l, r) in
  (l, touch now r).

Definition close_lease (now : Z) (l : RuntimeExecutionLease) (r : TenantRuntime)
    : RuntimeExecutionLease * TenantRuntime :=
  if el_closed l then (l, r) else
  let l := l <| el_closed := true |> in
  let r :=
    if el_awaiting_user l then
      let r := r <| tr_awaiting_user_run_count := less (tr_awaiting_user_run_count r) 1 |> in
      if el_checkpoint_persisted l
      then r <| tr_checkpointed_awaiting_user_run_count :=
                  less (tr_checkpointed_awaiting_user_run_count r) 1 |>
      else r
    else if el_executing l
    then r <| tr_active_executing_run_count := less (tr_active_executing_run_count r) 1 |>
    else r in
  let '(l, r) :=
    if Z.eqb (el_active_tool_executions l) 0 then (l, r) else
    (l <| el_active_tool_executions := 0%Z |>,
     r <| tr_active_tool_execution_count :=
            less (tr_active_tool_execution_count r) (el_active_tool_executions l) |>) in
  (l, touch now (r <| tr_active_run_count := less (tr_active_run_count r) 1 |>)).

(** ** Closing a runtime

    What is closed is outside this model: [works p log] says whether closing [p] succeeds
    after the attempts of [log], and each attempt is added to the log. *)

Definition attempts : Type := list (part * bool).

Section Closing.
Context (works : part → attempts → bool) (error_of : part → exn) (has_close : nat → bool).

Definition attempt (p : part) (log : attempts) : bool * attempts :=
  let ok := works p log in (ok, log ++ [(p, ok)]).

(** [_remember]: the first exception is raised at the end. *)
Definition remember (primary : option exn) (p : part) : option exn :=
  match primary with Some e => Some e | None => Some (error_of p) end.

Definition is_closed (p : part) (r : TenantRuntime) : bool :=
  match p with
  | MCP_MANAGER => tr_mcp_stopped r
  | SKILL_MANAGER => tr_skill_closed r
  | REGISTRY => tr_registry_cleared r
  | EVENT_ROUTER => tr_event_router_cleared r
  | SANDBOX_CONTROLLER => tr_sandbox_closed r
  | SECRET_HANDLE n => negb (bool_decide (n ∈ tr_secret_handles r))
  end.

(** [is not None]. *)
Definition is_present (p : part) (r : TenantRuntime) : bool :=
  match p with
  | MCP_MANAGER => tr_mcp_manager r
  | SANDBOX_CONTROLLER => tr_sandbox_controller r
  | _ => true
  end.

Definition set_closed (p : part) (r : TenantRuntime) : TenantRuntime :=
  match p with
  | MCP_MANAGER => r <| tr_mcp_stopped := true |>
  | SKILL_MANAGER => r <| tr_skill_closed := true |>
  | REGISTRY => r <| tr_registry_cleared := true |>
  | EVENT_ROUTER => r <| tr_event_router_cleared := true |>
  | SANDBOX_CONTROLLER => r <| tr_sandbox_closed := true |>
  | SECRET_HANDLE n => r
  end.

(** One of the blocks [if not self._..._closed and self.... is not None: try: ...]. *)
Definition close_part (p : part) (s : option exn * TenantRuntime * attempts)
    : option exn * TenantRuntime * attempts :=
  let '(primary, r, log) := s in
  if negb (is_closed p r) && is_present p r then
    let '(ok, log) := attempt p log in
    if ok : bool then (primary, set_closed p r, log) else (remember primary p, r, log)
  else (primary, r, log).

(** The handles that could not be closed remain. *)
Fixpoint close_handles (l : list nat) (primary : option exn) (log : attempts)
    : option exn * list nat * attempts :=
  match l with
  | [] => (primary, [], log)
  | n :: l =>
    if negb (has_close n) then close_handles l primary log else
    let '(ok, log) := attempt (SECRET_HANDLE n) log in
    let primary := if ok : bool then primary else remember primary (SECRET_HANDLE n) in
    let '(primary, remaining, log) := close_handles l primary log in
    (primary, if ok then remaining else n :: remaining, log)
  end.

Definition close_runtime (r : TenantRuntime) (log : attempts)
    : result exn unit * TenantRuntime * attempts :=
  if tr_close_complete r then (Ok tt, r, log) else
  let '(primary, r, log) :=
    close_part EVENT_ROUTER (close_part REGISTRY (close_part SKILL_MANAGER
      (close_part MCP_MANAGER (None, r <| tr_available := false |>, log)))) in
  let '(primary, remaining, log) := close_handles (tr_secret_handles r) primary log in
  let '(primary, r, log) :=
    close_part SANDBOX_CONTROLLER (primary, r <| tr_secret_handles := remaining |>, log) in
  match primary with
  | Some e => (Err e, r, log)
  | None => (Ok tt, r <| tr_close_complete := true |>, log)
  end.
End Closing.

(** ** Creation

    The end of [RuntimeFactory.create]: a fresh runtime gets the counters of the database. *)

Definition fresh_runtime (tenant_id runtime_instance_id : string) (mcp sandbox : bool) (now : Z)
    : TenantRuntime :=
  MkTenantRuntime tenant_id runtime_instance_id mcp sandbox now [] true 0 0 0 0 0 true false
    false false false false false.

Definition load_workflow_counters (c : TenantContext) : M WorkflowRuntimeCounters :=
  get_runtime_counters c.

Definition create_runtime (c : TenantContext) (runtime_instance_id : string)
    (mcp sandbox : bool) (now : Z) : M TenantRuntime :=
  k ← load_workflow_counters c;
  mret (apply_workflow_counters k
          (fresh_runtime (tc_tenant_id c) runtime_instance_id mcp sandbox now)).
