(* ===== verification/RuntimePool.v ===== *)
(** * The pool of runtimes ([runtime/pool.py])

    [RuntimePool] as a system of processes, one for each call of one of its methods.  A
    process runs from one point where it may be suspended to the next: where it waits for a
    lock, for the factory, or for a runtime to close.  Runtimes, entries of the lock table
    and leases are objects with an identity, their position in [po_store], [po_entries] and
    [po_leases].  Sections under [_tenant_lock_table_lock] are never suspended, so that lock
    is always free.  The runtimes that the factory makes, the clock and the success of
    closing come with each step. *)

From S2P Require Import Prelude Records Errors Json Regex Tenancy WorkflowModels Storage.
From S2P Require Import Collections WorkflowRepository TenantRuntime.
From stdpp Require Import base gmap strings list.

(** ** State *)

Inductive pool_exn : Type :=
| PoolClosed
| RuntimeCapacityError (retry_after_seconds : Z)
| RuntimeUnavailableError (retry_after_seconds : Z)
| Raised (e : exn).

(** [_TenantLockEntry]; an [asyncio.Lock] is known by its holder. *)
Record LockEntry : Type := MkLockEntry {
  le_lock : option nat;
  le_users : Z;
}.

#[export] Instance eta_LockEntry : Eta LockEntry := λ e, MkLockEntry (le_lock e) (le_users e).

Inductive call : Type :=
| Acquire (tenant_id : string)
| Revoke (tenant_id : string)
| EvictIdle (now : Z)
| Close.

Inductive answer : Type :=
| ARuntime (r : nat)
| ACount (n : Z)
| ANone.

(** The two loops over the runtimes: [evict_idle], for a call of its own or inside
    [acquire] for a tenant and the entry of its lock, and the loop of [close]. *)
Inductive loop : Type :=
| EvictLoop (now : Z) (evicted : Z) (caller : option (string * nat))
| CloseLoop (primary : option pool_exn).

(** What a process does under the lock of a tenant. *)
Inductive task : Type :=
| TAcquire
| TRevoke
| TVisit (l : loop) (expected : nat) (todo : list (string * nat)).

Inductive process : Type :=
| PStart (c : call)
| PTenant (tenant_id : string) (e : nat) (k : task)
| PCapacity (tenant_id : string) (e : nat)
| PLoop (l : loop) (todo : list (string * nat))
| PClosing (tenant_id : string) (e : nat) (k : task) (r : nat)
| PCreating (tenant_id : string) (e : nat)
| PDiscarding (tenant_id : string) (e : nat) (r : nat)
| PCloseLock
| PCloseCapacity
| PDone (c : result pool_exn answer).

Record Pool : Type := MkPool {
  po_max_resident_tenants : Z;
  po_idle_ttl_ms : Z;
  po_runtimes : list (string * nat);
  po_store : list TenantRuntime;
  po_leases : list (nat * RuntimeExecutionLease);
  po_tenant_locks : gmap string nat;
  po_entries : list LockEntry;
  po_capacity_lock : option nat;
  po_close_lock : option nat;
  po_closed : bool;
  po_processes : list process;
}.

#[export] Instance eta_Pool : Eta Pool := λ s,
  MkPool (po_max_resident_tenants s) (po_idle_ttl_ms s) (po_runtimes s) (po_store s)
    (po_leases s) (po_tenant_locks s) (po_entries s) (po_capacity_lock s) (po_close_lock s)
    (po_closed s) (po_processes s).

(** The constructor. *)
Definition new_pool (max_resident_tenants idle_ttl_ms : Z) : Pool :=
  MkPool max_resident_tenants idle_ttl_ms [] [] [] ∅ [] None None false [].

(** ** The dictionary of runtimes, in the order of insertion *)

Fixpoint runtimes_get (t : string) (l : list (string * nat)) : option nat :=
  match l with
  | [] => None
  | (t', r) :: l => if String.eqb t t' then Some r else runtimes_get t l
  end.

Fixpoint runtimes_set (t : string) (r : nat) (l : list (string * nat)) : list (string * nat) :=
  match l with
  | [] => [(t, r)]
  | (t', r') :: l => if String.eqb t t' then (t, r) :: l else (t', r') :: runtimes_set t r l
  end.

Definition runtimes_pop (t : string) (l : list (string * nat)) : list (string * nat) :=
  List.filter (λ x, negb (String.eqb t x.1)) l.

Definition retry_after_seconds (s : Pool) : Z := Z.max 1 (- ((- po_idle_ttl_ms s) / 1000)).

Definition full (s : Pool) : bool :=
  Z.leb (po_max_resident_tenants s) (Z.of_nat (length (po_runtimes s))).

Definition on_runtime (r : nat) (f : TenantRuntime → TenantRuntime) (s : Pool) : Pool :=
  s <| po_store := alter f r (po_store s) |>.

(** A runtime leaves the dictionary only if it is still the one that was closed. *)
Definition pop_if_current (t : string) (r : nat) (s : Pool) : Pool :=
  if bool_decide (runtimes_get t (po_runtimes s) = Some r)
  then s <| po_runtimes := runtimes_pop t (po_runtimes s) |> else s.

Definition go (p : nat) (k : process) (s : Pool) : Pool :=
  s <| po_processes := <[p := k]> (po_processes s) |>.

(** ** [_tenant_lock] *)

Definition on_entry (e : nat) (f : LockEntry → LockEntry) (s : Pool) : Pool :=
  s <| po_entries := alter f e (po_entries s) |>.

Definition add_user (n : Z) (x : LockEntry) : LockEntry :=
  x <| le_users := (le_users x + n)%Z |>.

(** Up to [await entry.lock.acquire()]. *)
Definition enter (t : string) (s : Pool) : nat * Pool :=
  match po_tenant_locks s !! t with
  | Some e => (e, on_entry e (add_user 1) s)
  | None =>
    let e := length (po_entries s) in
    (e, s <| po_entries := po_entries s ++ [MkLockEntry None 1] |>
          <| po_tenant_locks := <[t := e]> (po_tenant_locks s) |>)
  end.

Definition wait (p : nat) (t : string) (k : task) (s : Pool) : Pool :=
  let '(e, s) := enter t s in go p (PTenant t e k) s.

(** The [finally]: the lock is released, and the last user removes the entry. *)
Definition leave (t : string) (e : nat) (s : Pool) : Pool :=
  let s := on_entry e (λ x, add_user (-1) (x <| le_lock := None |>)) s in
  if bool_decide (po_tenant_locks s !! t = Some e) &&
     bool_decide (le_users <$> po_entries s !! e = Some 0%Z)
  then s <| po_tenant_locks := delete t (po_tenant_locks s) |> else s.

(** ** The steps *)

(** What the outside contributes to a step. *)
Record input : Type := MkInput {
  in_now : Z;
  in_works : part → attempts → bool;
  in_error : part → exn;
  in_has_close : nat → bool;
  in_created : result exn TenantRuntime;
}.

Section Steps.
Context (i : input) (p : nat).

Definition finish_call (a : result pool_exn answer) (s : Pool) : Pool := go p (PDone a) s.

(** The end of [acquire], which may hold the capacity lock. *)
Definition end_acquire (t : string) (e : nat) (capacity : bool) (a : result pool_exn answer)
    (s : Pool) : Pool :=
  finish_call a (leave t e (if capacity then s <| po_capacity_lock := None |> else s)).

(** [if not is_available: raise ...; self._touch_runtime(runtime); return runtime]. *)
Definition hand_out (r : nat) (s : Pool) : result pool_exn answer * Pool :=
  if default true (is_available <$> po_store s !! r)
  then (Ok (ARuntime r), on_runtime r (touch_at (in_now i)) s)
  else (Err (RuntimeUnavailableError (retry_after_seconds s)), s).

Definition start (c : call) (s : Pool) : Pool :=
  match c with
  | Acquire t => if po_closed s then finish_call (Err PoolClosed) s else wait p t TAcquire s
  | Revoke t => wait p t TRevoke s
  | EvictIdle now => go p (PLoop (EvictLoop now 0 None) (po_runtimes s)) s
  | Close => go p PCloseLock s
  end.

(** [acquire], under the lock of the tenant. *)
Definition acquire_locked (t : string) (e : nat) (s : Pool) : Pool :=
  match runtimes_get t (po_runtimes s) with
  | Some r =>
    if po_closed s then end_acquire t e false (Err PoolClosed) s else
    let '(a, s) := hand_out r s in end_acquire t e false a s
  | None => go p (PCapacity t e) s
  end.

(** A visit of a loop, under the lock of the tenant: whether the runtime is to be closed. *)
Definition to_visit (l : loop) (t : string) (expected : nat) (s : Pool) : bool :=
  bool_decide (runtimes_get t (po_runtimes s) = Some expected) &&
  match l with
  | EvictLoop now _ _ =>
    default false ((λ r, can_evict r now (po_idle_ttl_ms s)) <$> po_store s !! expected)
  | CloseLoop _ => true
  end.

Definition tenant_locked (t : string) (e : nat) (k : task) (s : Pool) : Pool :=
  match k with
  | TAcquire => acquire_locked t e s
  | TRevoke =>
    match runtimes_get t (po_runtimes s) with
    | None => finish_call (Ok ANone) (leave t e s)
    | Some r => go p (PClosing t e k r) (on_runtime r mark_unavailable s)
    end
  | TVisit l expected todo =>
    if to_visit l t expected s
    then go p (PClosing t e k expected) (on_runtime expected mark_unavailable s)
    else go p (PLoop l todo) (leave t e s)
  end.

(** [await runtime.close()]. *)
Definition closed_runtime (r : nat) (s : Pool) : result exn unit * Pool :=
  match po_store s !! r with
  | None => (Ok tt, s)
  | Some x =>
    let '(a, x, _) := close_runtime (in_works i) (in_error i) (in_has_close i) x [] in
    (a, on_runtime r (λ _, x) s)
  end.

(** How a loop counts the end of a visit. *)
Definition visited (l : loop) (a : result exn unit) : loop :=
  match l, a with
  | EvictLoop now n caller, Ok _ => EvictLoop now (n + 1) caller
  | EvictLoop now n caller, Err _ => EvictLoop now n caller
  | CloseLoop None, Err x => CloseLoop (Some (Raised x))
  | CloseLoop primary, _ => CloseLoop primary
  end.

Definition close_done (t : string) (e : nat) (k : task) (r : nat) (s : Pool) : Pool :=
  let '(a, s) := closed_runtime r s in
  let s := leave t e (match a with Ok _ => pop_if_current t r s | Err _ => s end) in
  match k with
  | TVisit l _ todo => go p (PLoop (visited l a) todo) s
  | _ => finish_call (match a with Ok _ => Ok ANone | Err x => Err (Raised x) end) s
  end.

(** [acquire], under the capacity lock: [_ensure_capacity], first part. *)
Definition capacity_locked (t : string) (e : nat) (s : Pool) : Pool :=
  if po_closed s then end_acquire t e true (Err PoolClosed) s else
  if full s then go p (PLoop (EvictLoop (in_now i) 0 (Some (t, e))) (po_runtimes s)) s
  else go p (PCreating t e) s.

Definition next_visit (l : loop) (todo : list (string * nat)) (s : Pool) : Pool :=
  match todo with
  | (t, r) :: todo => wait p t (TVisit l r todo) s
  | [] =>
    match l with
    | EvictLoop _ n None => finish_call (Ok (ACount n)) s
    | EvictLoop _ _ (Some (t, e)) =>
      if full s
      then end_acquire t e true (Err (RuntimeCapacityError (retry_after_seconds s))) s
      else go p (PCreating t e) s
    | CloseLoop primary =>
      finish_call (match primary with None => Ok ANone | Some x => Err x end)
        (s <| po_close_lock := None |>)
    end
  end.

(** [acquire], from the second look into the dictionary. *)
Definition create_locked (t : string) (e : nat) (s : Pool) : Pool :=
  match runtimes_get t (po_runtimes s) with
  | Some r => let '(a, s) := hand_out r s in end_acquire t e true a s
  | None =>
    match in_created i with
    | Err x => end_acquire t e true (Err (Raised x)) s
    | Ok x =>
      let r := length (po_store s) in
      let s := s <| po_store := po_store s ++ [x] |> in
      if po_closed s then go p (PDiscarding t e r) (on_runtime r mark_unavailable s) else
      let '(a, s) := hand_out r (s <| po_runtimes := runtimes_set t r (po_runtimes s) |>) in
      end_acquire t e true a s
    end
  end.

Definition discard (t : string) (e : nat) (r : nat) (s : Pool) : Pool :=
  let '(a, s) := closed_runtime r s in
  end_acquire t e true (match a with Ok _ => Err PoolClosed | Err x => Err (Raised x) end) s.

Definition close_locked (s : Pool) : Pool :=
  if po_closed s && bool_decide (po_runtimes s = [])
  then finish_call (Ok ANone) (s <| po_close_lock := None |>)
  else go p PCloseCapacity (s <| po_closed := true |>).

(** A step of the process, unless it has to wait. *)
Definition step_of (k : process) (s : Pool) : option Pool :=
  match k with
  | PStart c => Some (start c s)
  | PTenant t e k =>
    x ← po_entries s !! e;
    if bool_decide (le_lock x = None)
    then Some (tenant_locked t e k (on_entry e (λ x, x <| le_lock := Some p |>) s)) else None
  | PCapacity t e =>
    if bool_decide (po_capacity_lock s = None)
    then Some (capacity_locked t e (s <| po_capacity_lock := Some p |>)) else None
  | PLoop l todo => Some (next_visit l todo s)
  | PClosing t e k r => Some (close_done t e k r s)
  | PCreating t e => Some (create_locked t e s)
  | PDiscarding t e r => Some (discard t e r s)
  | PCloseLock =>
    if bool_decide (po_close_lock s = None)
    then Some (close_locked (s <| po_close_lock := Some p |>)) else None
  | PCloseCapacity =>
    if bool_decide (po_capacity_lock s = None)
    then Some (go p (PLoop (CloseLoop None) (po_runtimes s)) s) else None
  | PDone _ => None
  end.

Definition step (s : Pool) : option Pool := k ← po_processes s !! p; step_of k s.
End Steps.

(** ** The runs on the runtimes *)

Inductive lease_call : Type :=
| ToolStarted
| ToolFinished
| AwaitingUser (checkpoint_persisted : bool)
| LeaseClosed.

Definition call_lease (now : Z) (c : lease_call) (l : RuntimeExecutionLease) (r : TenantRuntime)
    : RuntimeExecutionLease * TenantRuntime :=
  match c with
  | ToolStarted => mark_tool_execution_started now l r
  | ToolFinished => mark_tool_execution_finished now l r
  | AwaitingUser persisted => mark_awaiting_user now persisted l r
  | LeaseClosed => close_lease now l r
  end.

(** [runtime.begin_run()]. *)
Definition begin_on (now : Z) (r : nat) (s : Pool) : Pool :=
  match po_store s !! r with
  | None => s
  | Some x =>
    match begin_run now x with
    | Ok (l, x) => on_runtime r (λ _, x) s <| po_leases := po_leases s ++ [(r, l)] |>
    | Err _ => s
    end
  end.

Definition lease_on (now : Z) (j : nat) (c : lease_call) (s : Pool) : Pool :=
  match po_leases s !! j with
  | None => s
  | Some (r, l) =>
    match po_store s !! r with
    | None => s
    | Some x =>
      let '(l, x) := call_lease now c l x in
      on_runtime r (λ _, x) s <| po_leases := <[j := (r, l)]> (po_leases s) |>
    end
  end.

(** A new call, a step of a process, or a run on a runtime. *)
Inductive event : Type :=
| Called (c : call)
| Stepped (i : input) (p : nat)
| Began (now : Z) (r : nat)
| Leased (now : Z) (j : nat) (c : lease_call).

Definition happens (ev : event) (s : Pool) : option Pool :=
  match ev with
  | Called c => Some (s <| po_processes := po_processes s ++ [PStart c] |>)
  | Stepped i p => step i p s
  | Began now r => Some (begin_on now r s)
  | Leased now j c => Some (lease_on now j c s)
  end.

Fixpoint happen (l : list event) (s : Pool) : option Pool :=
  match l with [] => Some s | ev :: l => s ← happens ev s; happen l s end.
