(* ===== verification/RuntimePoolFacts.v ===== *)
(** * Invariants of the pool of runtimes

    The counters of a runtime as sums of the shares of the leases on it; what a step of a
    process does to the locks, to the dictionary and to the runtimes; and the invariants
    that follow: the lock table gives one lock to each tenant, the capacity lock guards the
    size of the dictionary, and a closed pool takes no runtime in. *)

From S2P Require Import Prelude Records Errors Json Regex Tenancy WorkflowModels Storage.
From S2P Require Import Collections WorkflowRepository TenantRuntime RuntimePool.
From stdpp Require Import base gmap strings list.

(** ** Sums *)

Section Tally.
Context {A : Type} (f : A → Z).

Fixpoint tally (l : list A) : Z :=
  match l with [] => 0 | x :: l => f x + tally l end.

Lemma tally_app l l' : tally (l ++ l') = (tally l + tally l')%Z.
Proof. induction l as [|x l IH]; cbn; lia. Qed.

Lemma tally_insert l i x y :
  l !! i = Some x → tally (<[i := y]> l) = (tally l - f x + f y)%Z.
Proof.
  revert i. induction l as [|z l IH]; intros [|i] Hi; cbn in *; simplify_eq; [lia|].
  change (f z + tally (<[i := y]> l) = f z + tally l - f x + f y)%Z. rewrite (IH i Hi). lia.
Qed.

Lemma tally_nonneg l : (∀ x, x ∈ l → (0 ≤ f x)%Z) → (0 ≤ tally l)%Z.
Proof.
  induction l as [|x l IH]; cbn; [lia|]. intros H. setoid_rewrite elem_of_cons in H.
  assert (0 ≤ f x)%Z by auto. assert (0 ≤ tally l)%Z by auto. lia.
Qed.

Lemma tally_ge l i x :
  (∀ x, x ∈ l → (0 ≤ f x)%Z) → l !! i = Some x → (f x ≤ tally l)%Z.
Proof.
  intros H Hi. pose proof (tally_insert l i x x Hi) as E.
  assert (H0 : (0 ≤ tally (delete i l))%Z).
  { apply tally_nonneg. intros y Hy. apply H. eapply elem_of_submseteq; [exact Hy|].
    apply sublist_submseteq, sublist_delete. }
  assert (tally l = f x + tally (delete i l))%Z; [|lia]. clear E H H0. revert i Hi.
  induction l as [|z l IH]; intros [|i] Hi; cbn in *; simplify_eq; [lia|].
  change (f z + tally l = f x + (f z + tally (delete i l)))%Z. rewrite (IH i Hi). lia.
Qed.
End Tally.

(** ** Counters and shares *)

Inductive counter : Type := ACTIVE | EXECUTING | AWAITING | CHECKPOINTED | TOOLS.

Definition value (n : counter) (r : TenantRuntime) : Z :=
  match n with
  | ACTIVE => tr_active_run_count r
  | EXECUTING => tr_active_executing_run_count r
  | AWAITING => tr_awaiting_user_run_count r
  | CHECKPOINTED => tr_checkpointed_awaiting_user_run_count r
  | TOOLS => tr_active_tool_execution_count r
  end.

(** What an open lease adds. *)
Definition share (n : counter) (l : RuntimeExecutionLease) : Z :=
  if el_closed l then 0 else
  match n with
  | ACTIVE => 1
  | EXECUTING => if el_executing l then 1 else 0
  | AWAITING => if el_awaiting_user l then 1 else 0
  | CHECKPOINTED => if el_checkpoint_persisted l then 1 else 0
  | TOOLS => el_active_tool_executions l
  end.

Definition lease_ok (l : RuntimeExecutionLease) : Prop :=
  el_awaiting_user l = negb (el_executing l) ∧
  (el_checkpoint_persisted l = true → el_awaiting_user l = true) ∧
  (0 ≤ el_active_tool_executions l)%Z.

Lemma share_nonneg n l : lease_ok l → (0 ≤ share n l)%Z.
Proof. intros (_&_&H). unfold share. destruct (el_closed l), n; repeat case_match; lia. Qed.

Lemma value_touch n now r : value n (touch now r) = value n r.
Proof. unfold touch. by destruct (tr_clock r), n. Qed.

(** Neither counters nor the end of a runtime's availability are taken back. *)
Definition quiet (r r' : TenantRuntime) : Prop :=
  (∀ n, value n r' = value n r) ∧ (tr_available r = false → tr_available r' = false).

#[export] Instance quiet_preorder : PreOrder quiet.
Proof. split; [done|]. intros x y z [H1 H2] [H3 H4]. split; [congruence|auto]. Qed.

Lemma touch_available now r : tr_available (touch now r) = tr_available r.
Proof. unfold touch. by destruct (tr_clock r). Qed.

Ltac lease_cases c closed ex :=
  destruct c as [| |persisted|]; cbn [call_lease];
    unfold mark_tool_execution_started, mark_tool_execution_finished, mark_awaiting_user,
      close_lease; cbn [setter el_closed el_executing el_awaiting_user el_checkpoint_persisted
        el_active_tool_executions];
    destruct closed; cbn [orb]; try (by intros [= <- <-]);
    destruct ex.

Ltac conditions := repeat match goal with
  | |- context [if ?b then _ else _] => destruct b eqn:?
  | H : context [if ?b then _ else _] |- _ => destruct b eqn:?
  end.

Lemma call_lease_ok now c l r l' r' :
  lease_ok l → call_lease now c l r = (l', r') → lease_ok l'.
Proof.
  intros (Ha&Hp&Ht). destruct l as [closed ex aw cp tools]. cbn in Ha, Hp, Ht.
  lease_cases c closed ex; cbn in Ha; subst aw; cbn; conditions; intros [= <- <-];
    unfold lease_ok; cbn; rewrite ?Z.eqb_neq in *; naive_solver lia.
Qed.

(** A run that was parked does not run again. *)
Definition parked (l : RuntimeExecutionLease) : Prop :=
  el_closed l = true ∨ el_awaiting_user l = true ∧ el_checkpoint_persisted l = true.

Lemma call_lease_parked now c l r l' r' :
  parked l → call_lease now c l r = (l', r') → parked l'.
Proof.
  intros Hl. destruct l as [closed ex aw cp tools]. unfold parked in *. cbn in Hl.
  lease_cases c closed ex; destruct aw, cp; cbn; conditions; intros [= <- <-];
    cbn; naive_solver.
Qed.

Lemma call_lease_available now c l r l' r' :
  call_lease now c l r = (l', r') → tr_available r' = tr_available r.
Proof.
  destruct l as [closed ex aw cp tools].
  lease_cases c closed ex; destruct aw, cp; cbn; conditions; intros [= <- <-];
    rewrite ?touch_available; done.
Qed.

(** A call of a lease changes a counter as it changes the share of the lease. *)
Lemma call_lease_counts now c l r l' r' :
  lease_ok l → (∀ n, (share n l ≤ value n r)%Z) → call_lease now c l r = (l', r') →
  ∀ n, value n r' = (value n r + share n l' - share n l)%Z.
Proof.
  intros (Ha&Hp&Ht) Hle. pose proof (Hle ACTIVE) as H1. pose proof (Hle EXECUTING) as H2.
  pose proof (Hle AWAITING) as H3. pose proof (Hle CHECKPOINTED) as H4.
  pose proof (Hle TOOLS) as H5. clear Hle. destruct l as [closed ex aw cp tools].
  unfold share in H1, H2, H3, H4, H5. cbn in Ha, Hp, Ht, H1, H2, H3, H4, H5.
  destruct c as [| |persisted|]; cbn [call_lease];
    unfold mark_tool_execution_started, mark_tool_execution_finished, mark_awaiting_user,
      close_lease; cbn [setter el_closed el_executing el_awaiting_user el_checkpoint_persisted
        el_active_tool_executions];
    destruct closed; cbn [orb]; try (by intros [= <- <-] n; lia).
  all: destruct ex; cbn in Ha; subst aw; cbn.
  all: conditions; intros [= <- <-]; rewrite ?Z.eqb_eq, ?Z.eqb_neq in *.
  all: intros []; rewrite ?value_touch; unfold share, less; cbn; lia.
Qed.

(** ** What a process uses *)

Definition caller (l : loop) : list (string * nat) :=
  match l with EvictLoop _ _ (Some c) => [c] | _ => [] end.

Definition task_caller (k : task) : list (string * nat) :=
  match k with TVisit l _ _ => caller l | _ => [] end.

(** The entries of the lock table that it has registered for. *)
Definition refs (k : process) : list (string * nat) :=
  match k with
  | PTenant t e k | PClosing t e k _ => (t, e) :: task_caller k
  | PCapacity t e | PCreating t e | PDiscarding t e _ => [(t, e)]
  | PLoop l _ => caller l
  | _ => []
  end.

(** Those whose lock it holds. *)
Definition holds (k : process) : list (string * nat) :=
  match k with PTenant _ _ k => task_caller k | _ => refs k end.

Definition holds_capacity (k : process) : bool :=
  match k with
  | PTenant _ _ (TVisit (EvictLoop _ _ (Some _)) _ _)
  | PClosing _ _ (TVisit (EvictLoop _ _ (Some _)) _ _) _
  | PLoop (EvictLoop _ _ (Some _)) _
  | PCreating _ _ | PDiscarding _ _ _ => true
  | _ => false
  end.

(** ** What a step changes *)

(** Runtimes keep their counters, and leases are not touched. *)
Definition calm (s s' : Pool) : Prop :=
  po_leases s' = po_leases s ∧
  ∀ r x, po_store s !! r = Some x → ∃ x', po_store s' !! r = Some x' ∧ quiet x x'.

#[export] Instance calm_preorder : PreOrder calm.
Proof.
  split.
  - intros s. split; [done|]. intros r x Hx. by exists x.
  - intros s1 s2 s3 [H1 H2] [H3 H4]. split; [congruence|]. intros r x Hx.
    apply H2 in Hx as (y&Hy&?). apply H4 in Hy as (z&Hz&?). exists z. split; [done|by etrans].
Qed.

Lemma calm_same s s' : po_store s' = po_store s → po_leases s' = po_leases s → calm s s'.
Proof. intros E1 E2. split; [done|]. rewrite E1. intros r x Hx. by exists x. Qed.

Lemma calm_on_runtime r f s : (∀ x, po_store s !! r = Some x → quiet x (f x)) →
  calm s (on_runtime r f s).
Proof.
  intros Hf. split; [done|]. intros r' x Hx. cbn. destruct (decide (r = r')) as [->|Hr].
  - exists (f x). rewrite list_lookup_alter_eq, Hx. split; [done|auto].
  - exists x. by rewrite list_lookup_alter_ne.
Qed.

Lemma calm_append x s : calm s (s <| po_store := po_store s ++ [x] |>).
Proof.
  split; [done|]. intros r y Hy. exists y. split; [|done]. cbn.
  by apply lookup_app_l_Some.
Qed.

Lemma quiet_touch_at now x : quiet x (touch_at now x).
Proof. split; [by intros []|done]. Qed.

Lemma quiet_mark_unavailable x : quiet x (mark_unavailable x).
Proof. split; [by intros []|done]. Qed.

Lemma quiet_close_part works error p s :
  quiet s.1.2 (close_part works error p s).1.2.
Proof.
  destruct s as [[primary x] log]. cbn. case_match; [|done]. destruct (works p log); cbn; [|done].
  destruct p; (split; [by intros []|done]).
Qed.

Lemma close_runtime_quiet works error has_close x log :
  quiet x (close_runtime works error has_close x log).1.2.
Proof.
  unfold close_runtime. case_match; [done|].
  set (s := close_part works error EVENT_ROUTER _).
  assert (H1 : quiet x s.1.2).
  { subst s. do 4 (etrans; [|apply quiet_close_part]). split; [by intros []|done]. }
  destruct s as [[primary y] log1]. cbn in H1.
  destruct (close_handles _ _ _ _ _ _) as [[primary2 remaining] log2].
  set (s := close_part works error SANDBOX_CONTROLLER _).
  assert (H2 : quiet y s.1.2).
  { subst s. etrans; [|apply quiet_close_part]. split; [by intros []|done]. }
  destruct s as [[primary3 z] log3]. cbn in H2.
  assert (H3 : quiet x z) by (by etrans).
  destruct primary3; cbn; [done|]. etrans; [exact H3|]. split; [by intros []|done].
Qed.

Lemma hand_out_calm i r s : calm s (hand_out i r s).2.
Proof.
  unfold hand_out. case_match; [|done]. apply calm_on_runtime. intros. apply quiet_touch_at.
Qed.

Lemma closed_runtime_calm i r s : calm s (closed_runtime i r s).2.
Proof.
  unfold closed_runtime. destruct (po_store s !! r) as [x|] eqn:Hx; [|done].
  pose proof (close_runtime_quiet (in_works i) (in_error i) (in_has_close i) x []) as Hq.
  destruct (close_runtime _ _ _ _ _) as [[a y] log]. apply calm_on_runtime.
  intros x' Hx'. by simplify_eq.
Qed.

(** ** The lock table

    [U] and [H] list, for each process, the entries that it has registered for and those
    whose lock it holds. *)

Definition uses (e : nat) (u : list (string * nat)) : Z :=
  tally (λ x, if bool_decide (x.2 = e) then 1%Z else 0%Z) u.

Record table_ok (s : Pool) (U H : list (list (string * nat))) : Prop := MkTableOk {
  tk_ref : ∀ p u t e, U !! p = Some u → (t, e) ∈ u → po_tenant_locks s !! t = Some e;
  tk_used : ∀ t e, po_tenant_locks s !! t = Some e →
    ∃ x, po_entries s !! e = Some x ∧ le_users x = tally (uses e) U ∧ (0 < le_users x)%Z;
  tk_inj : ∀ t t' e, po_tenant_locks s !! t = Some e → po_tenant_locks s !! t' = Some e → t = t';
  tk_has : ∀ p h t e, H !! p = Some h → (t, e) ∈ h →
    le_lock <$> po_entries s !! e = Some (Some p);
  tk_once : ∀ p h, H !! p = Some h → NoDup h.*2;
}.

Definition same_locks (s s' : Pool) : Prop :=
  po_tenant_locks s' = po_tenant_locks s ∧ po_entries s' = po_entries s.

Lemma table_ok_same s s' U H : same_locks s s' → table_ok s U H → table_ok s' U H.
Proof. intros [E1 E2] []. split; rewrite ?E1, ?E2; done. Qed.

Lemma uses_cons t e e' u :
  uses e' ((t, e) :: u) = ((if bool_decide (e = e') then 1 else 0) + uses e' u)%Z.
Proof. done. Qed.

Lemma uses_nonneg e u : (0 ≤ uses e u)%Z.
Proof. apply tally_nonneg. intros x _. case_bool_decide; lia. Qed.

Lemma uses_pos t e u : (t, e) ∈ u → (0 < uses e u)%Z.
Proof.
  induction u as [|[t' e'] u IH]; [by intros ?%elem_of_nil|].
  rewrite uses_cons. pose proof (uses_nonneg e u). intros [[= -> ->]|Hu]%elem_of_cons.
  - rewrite bool_decide_eq_true_2 by done. lia.
  - specialize (IH Hu). case_bool_decide; lia.
Qed.

Lemma total_nonneg e U : (0 ≤ tally (uses e) U)%Z.
Proof. apply tally_nonneg. intros. apply uses_nonneg. Qed.

Lemma total_pos e U p u t : U !! p = Some u → (t, e) ∈ u → (0 < tally (uses e) U)%Z.
Proof.
  intros Hu Ht%uses_pos. pose proof (tally_ge (uses e) U p u) as H.
  assert (uses e u ≤ tally (uses e) U)%Z; [|lia]. apply H; [|done]. intros. apply uses_nonneg.
Qed.

Lemma table_ok_start s U H : table_ok s U H → table_ok s (U ++ [[]]) (H ++ [[]]).
Proof.
  intros [H1 H2 H3 H4 H5]. split.
  - intros p u t e [Hu|[_ Hu]]%lookup_app_Some Ht; [by eapply H1|].
    destruct (p - length U)%nat; simplify_eq/=. by apply elem_of_nil in Ht.
  - intros t e Ht. rewrite tally_app. cbn. destruct (H2 t e Ht) as (x&?&?&?). exists x.
    split_and!; [done|lia|done].
  - done.
  - intros p h t e [Hu|[_ Hu]]%lookup_app_Some Ht; [by eapply H4|].
    destruct (p - length H)%nat; simplify_eq/=. by apply elem_of_nil in Ht.
  - intros p h [Hu|[_ Hu]]%lookup_app_Some; [by eapply H5|].
    destruct (p - length H)%nat; simplify_eq/=. apply NoDup_nil_2.
Qed.

(** An entry whose users change by the same number as its uses. *)
Lemma entry_used s U U' e (f : LockEntry → LockEntry) n :
  (∀ t e, po_tenant_locks s !! t = Some e →
     ∃ x, po_entries s !! e = Some x ∧ le_users x = tally (uses e) U ∧ (0 < le_users x)%Z) →
  (∀ x, le_users (f x) = (le_users x + n)%Z) →
  (∀ e', tally (uses e') U' = tally (uses e') U + (if bool_decide (e = e') then n else 0))%Z →
  ∀ t e', po_tenant_locks s !! t = Some e' →
    (0 < tally (uses e') U')%Z →
    ∃ x, alter f e (po_entries s) !! e' = Some x ∧ le_users x = tally (uses e') U' ∧
      (0 < le_users x)%Z.
Proof.
  intros Hu Hf HU t e' (x&Hx&Hn&Hp)%Hu Hpos. rewrite HU in Hpos. rewrite HU.
  case_bool_decide as He.
  - subst e'. exists (f x). rewrite list_lookup_alter_eq, Hx, Hf, Hn. split_and!; [done|lia|lia].
  - exists x. rewrite list_lookup_alter_ne by done. split_and!; [done|lia|lia].
Qed.

Lemma tally_zero {A} (f : A → Z) l : (∀ x, x ∈ l → f x = 0%Z) → tally f l = 0%Z.
Proof.
  induction l as [|x l IH]; cbn; [done|]. intros H. setoid_rewrite elem_of_cons in H.
  rewrite IH by auto. rewrite H by auto. done.
Qed.

Lemma total_zero e U : (∀ p u t, U !! p = Some u → (t, e) ∉ u) → tally (uses e) U = 0%Z.
Proof.
  intros Hn. apply tally_zero. intros u [p Hu]%list_elem_of_lookup. apply tally_zero.
  intros [t e'] Ht. cbn. case_bool_decide; [|done]. subst e'. by destruct (Hn p u t Hu).
Qed.

(** The uses after a process has registered for an entry, or given one up. *)
Lemma total_more e e' t U p u : U !! p = Some u →
  tally (uses e') (<[p := (t, e) :: u]> U) =
    (tally (uses e') U + (if bool_decide (e = e') then 1 else 0))%Z.
Proof. intros Hu. rewrite (tally_insert _ _ _ _ _ Hu), uses_cons. lia. Qed.

Lemma total_less e e' t U p u : U !! p = Some ((t, e) :: u) →
  tally (uses e') (<[p := u]> U) =
    (tally (uses e') U + (if bool_decide (e = e') then -1 else 0))%Z.
Proof.
  intros Hu. rewrite (tally_insert _ _ _ _ _ Hu), uses_cons. case_bool_decide; lia.
Qed.

Lemma table_ok_fresh s U H e :
  table_ok s U H → po_entries s !! e = None →
  (∀ t, po_tenant_locks s !! t ≠ Some e) ∧ tally (uses e) U = 0%Z.
Proof.
  intros [H1 H2 _ _ _] He. assert (Hl : ∀ t, po_tenant_locks s !! t ≠ Some e).
  { intros t (x&Hx&_)%H2. congruence. }
  split; [done|]. apply total_zero. intros p u t Hu Ht. by eapply Hl, H1.
Qed.

Lemma table_ok_enter s U H t p u :
  table_ok s U H → U !! p = Some u →
  table_ok (enter t s).2 (<[p := (t, (enter t s).1) :: u]> U) H.
Proof.
  intros Hok Hu. unfold enter. destruct (po_tenant_locks s !! t) as [e|] eqn:Ht; cbn [fst snd].
  - destruct Hok as [H1 H2 H3 H4 H5]. split; cbn.
    + intros q v t' e' [(<-&<-&_)|[_ Hv]]%list_lookup_insert_Some Ht'; [|by eapply H1].
      apply elem_of_cons in Ht' as [[= -> ->]|Ht']; [done|by eapply H1].
    + intros t' e' Ht'. eapply (entry_used s U _ e _ 1); [done|done| |exact Ht'|].
      * intros e2. by apply total_more.
      * rewrite (total_more _ _ _ _ _ _ Hu). destruct (H2 _ _ Ht') as (x&_&Hx&Hp).
        case_bool_decide; lia.
    + done.
    + intros q h t' e' Hq Hh. specialize (H4 q h t' e' Hq Hh).
      destruct (decide (e = e')) as [->|He]; [|by rewrite list_lookup_alter_ne].
      rewrite list_lookup_alter_eq. destruct (po_entries s !! e'); naive_solver.
    + done.
  - destruct (table_ok_fresh s U H (length (po_entries s)) Hok) as [Hf H0].
    { by apply lookup_ge_None_2. }
    destruct Hok as [H1 H2 H3 H4 H5]. split; cbn.
    + intros q v t' e' [(<-&<-&_)|[_ Hv]]%list_lookup_insert_Some Ht'.
      * apply elem_of_cons in Ht' as [[= -> ->]|Ht']; [by rewrite lookup_insert_eq|].
        rewrite lookup_insert_ne; [by eapply H1|]. intros <-. by rewrite (H1 _ _ _ _ Hu Ht') in Ht.
      * rewrite lookup_insert_ne; [by eapply H1|]. intros <-. by rewrite (H1 _ _ _ _ Hv Ht') in Ht.
    + intros t' e' [[<- <-]|[Hne Ht']]%lookup_insert_Some.
      * exists (MkLockEntry None 1). rewrite lookup_app_r, Nat.sub_diag by done.
        rewrite (total_more _ _ _ _ _ _ Hu), H0, bool_decide_eq_true_2 by done. done.
      * destruct (H2 _ _ Ht') as (x&Hx&Hn&Hp). exists x.
        rewrite (total_more _ _ _ _ _ _ Hu), bool_decide_eq_false_2 by (intros <-; by eapply Hf).
        split_and!; [by apply lookup_app_l_Some|lia|done].
    + intros t1 t2 e' [[<- <-]|[Hne Ht1]]%lookup_insert_Some [[<- E]|[Hne' Ht2]]%lookup_insert_Some.
      * done.
      * by destruct (Hf t2).
      * subst e'. by destruct (Hf t1).
      * by eapply H3.
    + intros q h t' e' Hq Hh. specialize (H4 q h t' e' Hq Hh).
      destruct (po_entries s !! e') eqn:He; [|done]. by rewrite (lookup_app_l_Some _ _ _ _ He).
    + done.
Qed.

Lemma table_ok_take s U H t e p u h x :
  table_ok s U H → U !! p = Some u → (t, e) ∈ u → H !! p = Some h →
  po_entries s !! e = Some x → le_lock x = None →
  table_ok (on_entry e (λ x, x <| le_lock := Some p |>) s) U (<[p := (t, e) :: h]> H).
Proof.
  intros [H1 H2 H3 H4 H5] Hu Ht Hh Hx Hl. split; cbn; [done| |done|..].
  - intros t' e' Ht'. destruct (H2 _ _ Ht') as (y&Hy&Hn&Hp).
    destruct (decide (e = e')) as [->|He].
    + rewrite list_lookup_alter_eq, Hy. eexists. split; [done|]. done.
    + exists y. by rewrite list_lookup_alter_ne.
  - intros q h' t' e' [(<-&<-&_)|[Hq Hh']]%list_lookup_insert_Some Ht'.
    + apply elem_of_cons in Ht' as [[= -> ->]|Ht']; [by rewrite list_lookup_alter_eq, Hx|].
      specialize (H4 _ _ _ _ Hh Ht'). destruct (decide (e = e')) as [->|He].
      * by rewrite list_lookup_alter_eq, Hx.
      * by rewrite list_lookup_alter_ne.
    + specialize (H4 _ _ _ _ Hh' Ht'). destruct (decide (e = e')) as [->|He].
      * rewrite Hx in H4. cbn in H4. congruence.
      * by rewrite list_lookup_alter_ne.
  - intros q h' [(<-&<-&_)|[Hq Hh']]%list_lookup_insert_Some; [|by eapply H5].
    rewrite fmap_cons. apply NoDup_cons_2; [|by eapply H5].
    intros ([t' e']&E&Ht')%list_elem_of_fmap. cbn in E. subst e'.
    specialize (H4 _ _ _ _ Hh Ht'). rewrite Hx in H4. cbn in H4. congruence.
Qed.

Lemma table_ok_leave s U H t e p u h :
  table_ok s U H → U !! p = Some ((t, e) :: u) → H !! p = Some ((t, e) :: h) →
  table_ok (leave t e s) (<[p := u]> U) (<[p := h]> H).
Proof.
  intros Hok Hu Hh. destruct Hok as [H1 H2 H3 H4 H5].
  assert (Ht : po_tenant_locks s !! t = Some e) by (eapply H1; [exact Hu|left]).
  assert (Hlt : (p < length H)%nat) by (by apply lookup_lt_Some in Hh).
  set (f := λ x, add_user (-1) (x <| le_lock := None |>)).
  assert (Huse : ∀ t' e', po_tenant_locks s !! t' = Some e' →
    (0 < tally (uses e') (<[p := u]> U))%Z →
    ∃ x, alter f e (po_entries s) !! e' = Some x ∧
      le_users x = tally (uses e') (<[p := u]> U) ∧ (0 < le_users x)%Z).
  { intros t' e' Ht'. eapply (entry_used s U _ e f (-1)); [done|done| |exact Ht'].
    intros e2. by eapply total_less. }
  assert (Href : ∀ q v t' e', <[p := u]> U !! q = Some v → (t', e') ∈ v →
    po_tenant_locks s !! t' = Some e').
  { intros q v t' e' [(<-&<-&_)|[_ Hv]]%list_lookup_insert_Some Ht'; [|by eapply H1].
    eapply H1; [exact Hu|by right]. }
  assert (Hhas : ∀ q h' t' e', <[p := h]> H !! q = Some h' → (t', e') ∈ h' →
    le_lock <$> alter f e (po_entries s) !! e' = Some (Some q)).
  { intros q h' t' e' Hq Ht'. rewrite list_lookup_alter_ne.
    - apply list_lookup_insert_Some in Hq as [(<-&<-&_)|[Hq Hh']]; [|by eapply H4].
      eapply H4; [exact Hh|by right].
    - intros <-. apply list_lookup_insert_Some in Hq as [(<-&<-&_)|[Hq Hh']].
      + pose proof (H5 _ _ Hh) as Hd. rewrite fmap_cons in Hd. apply NoDup_cons in Hd as [Hd _].
        destruct Hd. apply list_elem_of_fmap. by exists (t', e).
      + pose proof (H4 _ _ t e Hh ltac:(left)) as E1. pose proof (H4 _ _ _ _ Hh' Ht') as E2.
        congruence. }
  assert (Honce : ∀ q h', <[p := h]> H !! q = Some h' → NoDup h'.*2).
  { intros q h' [(<-&<-&_)|[_ Hq]]%list_lookup_insert_Some; [|by eapply H5].
    pose proof (H5 _ _ Hh) as Hd. rewrite fmap_cons in Hd. by apply NoDup_cons in Hd as [_ ?]. }
  assert (Hpos : ∀ t' e', po_tenant_locks s !! t' = Some e' → e' ≠ e →
    (0 < tally (uses e') (<[p := u]> U))%Z).
  { intros t' e' (x&_&Hn&Hp)%H2 He. rewrite (total_less _ _ _ _ _ _ Hu).
    rewrite bool_decide_eq_false_2 by congruence. lia. }
  destruct (H2 _ _ Ht) as (x&Hx&Hn&_). pose proof (total_less e e t U p u Hu) as HU.
  rewrite bool_decide_eq_true_2 in HU by done.
  unfold leave. fold f. cbn [po_tenant_locks on_entry setter po_entries].
  rewrite (bool_decide_eq_true_2 (po_tenant_locks s !! t = Some e)) by done.
  rewrite list_lookup_alter_eq, Hx. cbn [fmap option_fmap option_map andb].
  case_bool_decide as E; (split; cbn; [|intros t' e' Ht'|intros t1 t2 e'| done|done]).
  - intros q v t' e' Hq Hv. rewrite lookup_delete_ne; [by eapply Href|]. intros <-.
    injection E as E. cbn in E. pose proof (Href _ _ _ _ Hq Hv). simplify_eq. pose proof (total_pos _ _ _ _ _ Hq Hv).
    lia.
  - apply lookup_delete_Some in Ht' as [Hne Ht']. eapply Huse, Hpos; [exact Ht'..|].
    intros ->. by destruct Hne; eapply H3.
  - rewrite !lookup_delete_Some. intros [_ ?] [_ ?]. by eapply H3.
  - exact Href.
  - eapply Huse; [exact Ht'|]. destruct (decide (e' = e)) as [->|He]; [|by eapply Hpos].
    pose proof (total_nonneg e (<[p := u]> U)). cbn in E.
    assert (le_users x + -1 ≠ 0)%Z by congruence. lia.
  - apply H3.
Qed.

(** ** The cases of a step *)

Section Leave.
Context (t : string) (e : nat) (s : Pool).
Lemma leave_max_resident_tenants : po_max_resident_tenants (leave t e s) = po_max_resident_tenants s.
Proof. unfold leave. by case_match. Qed.
Lemma leave_idle_ttl_ms : po_idle_ttl_ms (leave t e s) = po_idle_ttl_ms s.
Proof. unfold leave. by case_match. Qed.
Lemma leave_runtimes : po_runtimes (leave t e s) = po_runtimes s.
Proof. unfold leave. by case_match. Qed.
Lemma leave_store : po_store (leave t e s) = po_store s.
Proof. unfold leave. by case_match. Qed.
Lemma leave_leases : po_leases (leave t e s) = po_leases s.
Proof. unfold leave. by case_match. Qed.
Lemma leave_capacity_lock : po_capacity_lock (leave t e s) = po_capacity_lock s.
Proof. unfold leave. by case_match. Qed.
Lemma leave_close_lock : po_close_lock (leave t e s) = po_close_lock s.
Proof. unfold leave. by case_match. Qed.
Lemma leave_closed : po_closed (leave t e s) = po_closed s.
Proof. unfold leave. by case_match. Qed.
Lemma leave_processes : po_processes (leave t e s) = po_processes s.
Proof. unfold leave. by case_match. Qed.
End Leave.

Section Enter.
Context (t : string) (s : Pool).
Lemma enter_max_resident_tenants : po_max_resident_tenants (enter t s).2 = po_max_resident_tenants s.
Proof. unfold enter. by case_match. Qed.
Lemma enter_idle_ttl_ms : po_idle_ttl_ms (enter t s).2 = po_idle_ttl_ms s.
Proof. unfold enter. by case_match. Qed.
Lemma enter_runtimes : po_runtimes (enter t s).2 = po_runtimes s.
Proof. unfold enter. by case_match. Qed.
Lemma enter_store : po_store (enter t s).2 = po_store s.
Proof. unfold enter. by case_match. Qed.
Lemma enter_leases : po_leases (enter t s).2 = po_leases s.
Proof. unfold enter. by case_match. Qed.
Lemma enter_capacity_lock : po_capacity_lock (enter t s).2 = po_capacity_lock s.
Proof. unfold enter. by case_match. Qed.
Lemma enter_close_lock : po_close_lock (enter t s).2 = po_close_lock s.
Proof. unfold enter. by case_match. Qed.
Lemma enter_closed : po_closed (enter t s).2 = po_closed s.
Proof. unfold enter. by case_match. Qed.
Lemma enter_processes : po_processes (enter t s).2 = po_processes s.
Proof. unfold enter. by case_match. Qed.
End Enter.

Section Hand_out.
Context (i : input) (r : nat) (s : Pool).
Lemma hand_out_max_resident_tenants : po_max_resident_tenants (hand_out i r s).2 = po_max_resident_tenants s.
Proof. unfold hand_out. by case_match. Qed.
Lemma hand_out_idle_ttl_ms : po_idle_ttl_ms (hand_out i r s).2 = po_idle_ttl_ms s.
Proof. unfold hand_out. by case_match. Qed.
Lemma hand_out_runtimes : po_runtimes (hand_out i r s).2 = po_runtimes s.
Proof. unfold hand_out. by case_match. Qed.
Lemma hand_out_capacity_lock : po_capacity_lock (hand_out i r s).2 = po_capacity_lock s.
Proof. unfold hand_out. by case_match. Qed.
Lemma hand_out_close_lock : po_close_lock (hand_out i r s).2 = po_close_lock s.
Proof. unfold hand_out. by case_match. Qed.
Lemma hand_out_closed : po_closed (hand_out i r s).2 = po_closed s.
Proof. unfold hand_out. by case_match. Qed.
Lemma hand_out_processes : po_processes (hand_out i r s).2 = po_processes s.
Proof. unfold hand_out. by case_match. Qed.
Lemma hand_out_tenant_locks : po_tenant_locks (hand_out i r s).2 = po_tenant_locks s.
Proof. unfold hand_out. by case_match. Qed.
Lemma hand_out_entries : po_entries (hand_out i r s).2 = po_entries s.
Proof. unfold hand_out. by case_match. Qed.
End Hand_out.

Lemma closed_runtime_store i r s :
  ∃ st, (closed_runtime i r s).2 = s <| po_store := st |>.
Proof.
  unfold closed_runtime. destruct (po_store s !! r) as [x|].
  - destruct (close_runtime _ _ _ _ _) as [[a y] log]. by eexists.
  - exists (po_store s). by destruct s.
Qed.

Section Closed_runtime.
Context (i : input) (r : nat) (s : Pool).
Lemma closed_runtime_max_resident_tenants : po_max_resident_tenants (closed_runtime i r s).2 = po_max_resident_tenants s.
Proof. by destruct (closed_runtime_store i r s) as [st ->]. Qed.
Lemma closed_runtime_idle_ttl_ms : po_idle_ttl_ms (closed_runtime i r s).2 = po_idle_ttl_ms s.
Proof. by destruct (closed_runtime_store i r s) as [st ->]. Qed.
Lemma closed_runtime_runtimes : po_runtimes (closed_runtime i r s).2 = po_runtimes s.
Proof. by destruct (closed_runtime_store i r s) as [st ->]. Qed.
Lemma closed_runtime_capacity_lock : po_capacity_lock (closed_runtime i r s).2 = po_capacity_lock s.
Proof. by destruct (closed_runtime_store i r s) as [st ->]. Qed.
Lemma closed_runtime_close_lock : po_close_lock (closed_runtime i r s).2 = po_close_lock s.
Proof. by destruct (closed_runtime_store i r s) as [st ->]. Qed.
Lemma closed_runtime_closed : po_closed (closed_runtime i r s).2 = po_closed s.
Proof. by destruct (closed_runtime_store i r s) as [st ->]. Qed.
Lemma closed_runtime_processes : po_processes (closed_runtime i r s).2 = po_processes s.
Proof. by destruct (closed_runtime_store i r s) as [st ->]. Qed.
Lemma closed_runtime_tenant_locks : po_tenant_locks (closed_runtime i r s).2 = po_tenant_locks s.
Proof. by destruct (closed_runtime_store i r s) as [st ->]. Qed.
Lemma closed_runtime_entries : po_entries (closed_runtime i r s).2 = po_entries s.
Proof. by destruct (closed_runtime_store i r s) as [st ->]. Qed.
End Closed_runtime.

Global Hint Rewrite leave_max_resident_tenants leave_idle_ttl_ms leave_runtimes leave_store
  leave_leases leave_capacity_lock leave_close_lock leave_closed leave_processes
  enter_max_resident_tenants enter_idle_ttl_ms enter_runtimes enter_store enter_leases
  enter_capacity_lock enter_close_lock enter_closed enter_processes
  hand_out_max_resident_tenants hand_out_idle_ttl_ms hand_out_runtimes hand_out_capacity_lock
  hand_out_close_lock hand_out_closed hand_out_processes hand_out_tenant_locks hand_out_entries
  closed_runtime_max_resident_tenants closed_runtime_idle_ttl_ms closed_runtime_runtimes
  closed_runtime_capacity_lock closed_runtime_close_lock closed_runtime_closed
  closed_runtime_processes closed_runtime_tenant_locks closed_runtime_entries : pool.

(** What a process does to the lock table on its way from [k] to [k']. *)
Inductive lock_change (p : nat) (k k' : process) (s s' : Pool) : Prop :=
| locks_same : same_locks s s' → refs k' = refs k → holds k' = holds k → lock_change p k k' s s'
| locks_enter t : same_locks (enter t s).2 s' → refs k' = (t, (enter t s).1) :: refs k →
    holds k' = holds k → lock_change p k k' s s'
| locks_take t e x : (t, e) ∈ refs k → po_entries s !! e = Some x → le_lock x = None →
    same_locks (on_entry e (λ x, x <| le_lock := Some p |>) s) s' →
    refs k' = refs k → holds k' = (t, e) :: holds k → lock_change p k k' s s'
| locks_pass t e x : refs k = (t, e) :: refs k' → holds k' = holds k →
    po_entries s !! e = Some x → le_lock x = None →
    same_locks (leave t e (on_entry e (λ x, x <| le_lock := Some p |>) s)) s' →
    lock_change p k k' s s'
| locks_leave t e : refs k = (t, e) :: refs k' → holds k = (t, e) :: holds k' →
    same_locks (leave t e s) s' → lock_change p k k' s s'.

Inductive capacity_change (p : nat) (k k' : process) (s s' : Pool) : Prop :=
| capacity_same : po_capacity_lock s' = po_capacity_lock s →
    holds_capacity k' = holds_capacity k → capacity_change p k k' s s'
| capacity_take : po_capacity_lock s = None → po_capacity_lock s' = Some p →
    capacity_change p k k' s s'
| capacity_free : holds_capacity k = true → holds_capacity k' = false →
    po_capacity_lock s' = None → capacity_change p k k' s s'.

Inductive dict_change (k k' : process) (s s' : Pool) : Prop :=
| dict_same : po_runtimes s' = po_runtimes s →
    (∀ t e, k' = PCreating t e → full s = false) → dict_change k k' s s'
| dict_pop t : po_runtimes s' = runtimes_pop t (po_runtimes s) →
    (∀ t e, k' ≠ PCreating t e) → dict_change k k' s s'
| dict_set t e r : k = PCreating t e → po_closed s = false →
    runtimes_get t (po_runtimes s) = None → po_runtimes s' = runtimes_set t r (po_runtimes s) →
    (∀ t e, k' ≠ PCreating t e) → dict_change k k' s s'.

Record step_change (p : nat) (k k' : process) (s s' : Pool) : Prop := MkStepChange {
  sc_processes : po_processes s' = <[p := k']> (po_processes s);
  sc_calm : calm s s';
  sc_limits : po_max_resident_tenants s' = po_max_resident_tenants s ∧
    po_idle_ttl_ms s' = po_idle_ttl_ms s;
  sc_closed : po_closed s = true → po_closed s' = true;
  sc_locks : lock_change p k k' s s';
  sc_capacity : capacity_change p k k' s s';
  sc_dict : dict_change k k' s s';
}.

Lemma same_locks_leave t e s s' :
  same_locks s s' → same_locks (leave t e s) (leave t e s').
Proof.
  intros [E1 E2]. unfold leave. cbn. rewrite E1, E2. case_match; by split; cbn; rewrite ?E1, ?E2.
Qed.

#[local] Opaque leave enter hand_out closed_runtime.

Ltac frame := cbn; autorewrite with pool; cbn; autorewrite with pool; try done.

(** A process that goes on without touching the pool. *)
Lemma step_stays p k k' s :
  refs k' = refs k → holds k' = holds k → holds_capacity k' = holds_capacity k →
  (∀ t e, k' = PCreating t e → full s = false) → step_change p k k' s (go p k' s).
Proof.
  intros. split; [done|by apply calm_same|done|done|by apply locks_same|by apply capacity_same|].
  by apply dict_same.
Qed.

Lemma step_enters p k t j s :
  refs k = task_caller j → holds k = task_caller j →
  holds_capacity k = holds_capacity (PTenant t 0 j) →
  step_change p k (PTenant t (enter t s).1 j) s (wait p t j s).
Proof.
  intros H1 H2 H3. unfold wait. rewrite (surjective_pairing (enter t s)). split; frame.
  - apply calm_same; frame.
  - apply (locks_enter _ _ _ _ _ t); cbn; [done|by rewrite H1|by rewrite H2].
  - apply capacity_same; frame.
  - apply dict_same; frame.
Qed.

Lemma step_goes p k k' s s1 :
  refs k' = refs k → holds k' = holds k →
  po_processes s1 = po_processes s → calm s s1 →
  po_max_resident_tenants s1 = po_max_resident_tenants s ∧ po_idle_ttl_ms s1 = po_idle_ttl_ms s →
  (po_closed s = true → po_closed s1 = true) → same_locks s s1 →
  capacity_change p k k' s s1 → dict_change k k' s s1 →
  step_change p k k' s (go p k' s1).
Proof.
  intros H1 H2 H3 H4 H5 H6 H7 H8 H9. split; frame.
  - by rewrite H3.
  - by apply locks_same.
  - destruct H8; [apply capacity_same|apply capacity_take|apply capacity_free]; frame.
  - destruct H9; [apply dict_same|eapply dict_pop|eapply dict_set]; frame.
Qed.

(** The end of a section under the lock of a tenant, after which the process is [k']: [s1]
    is the pool at that point. *)
Lemma step_leaves p k k' t e s s1 :
  refs k = (t, e) :: refs k' → holds k = (t, e) :: holds k' →
  po_processes s1 = po_processes s → calm s s1 →
  po_max_resident_tenants s1 = po_max_resident_tenants s ∧ po_idle_ttl_ms s1 = po_idle_ttl_ms s →
  (po_closed s = true → po_closed s1 = true) → same_locks s s1 →
  capacity_change p k k' s s1 → dict_change k k' s s1 →
  step_change p k k' s (go p k' (leave t e s1)).
Proof.
  intros H1 H2 H3 H4 H5 H6 H7 H8 H9. split; frame.
  - by rewrite H3.
  - etrans; [exact H4|]. apply calm_same; frame.
  - eapply locks_leave; [exact H1|exact H2|]. by apply same_locks_leave.
  - destruct H8; [apply capacity_same|apply capacity_take|apply capacity_free]; frame.
  - destruct H9; [apply dict_same|eapply dict_pop|eapply dict_set]; frame.
Qed.

(** The same for a process that has just been given the lock. *)
Lemma step_passes p k k' t e x s s1 :
  refs k = (t, e) :: refs k' → holds k = holds k' →
  po_entries s !! e = Some x → le_lock x = None →
  po_processes s1 = po_processes s → calm s s1 →
  po_max_resident_tenants s1 = po_max_resident_tenants s ∧ po_idle_ttl_ms s1 = po_idle_ttl_ms s →
  (po_closed s = true → po_closed s1 = true) →
  same_locks (on_entry e (λ x, x <| le_lock := Some p |>) s) s1 →
  capacity_change p k k' s s1 → dict_change k k' s s1 →
  step_change p k k' s (go p k' (leave t e s1)).
Proof.
  intros H1 H2 Hx Hl H3 H4 H5 H6 H7 H8 H9. split; frame.
  - by rewrite H3.
  - etrans; [exact H4|]. apply calm_same; frame.
  - eapply locks_pass; [exact H1|done|exact Hx|exact Hl|]. by apply same_locks_leave.
  - destruct H8; [apply capacity_same|apply capacity_take|apply capacity_free]; frame.
  - destruct H9; [apply dict_same|eapply dict_pop|eapply dict_set]; frame.
Qed.

(** The same for one that keeps the lock. *)
Lemma step_takes p k k' t e x s s1 :
  (t, e) ∈ refs k → refs k' = refs k → holds k' = (t, e) :: holds k →
  po_entries s !! e = Some x → le_lock x = None →
  po_processes s1 = po_processes s → calm s s1 →
  po_max_resident_tenants s1 = po_max_resident_tenants s ∧ po_idle_ttl_ms s1 = po_idle_ttl_ms s →
  po_closed s1 = po_closed s → po_runtimes s1 = po_runtimes s →
  po_capacity_lock s1 = po_capacity_lock s → holds_capacity k' = holds_capacity k →
  same_locks (on_entry e (λ x, x <| le_lock := Some p |>) s) s1 →
  (∀ t e, k' ≠ PCreating t e) →
  step_change p k k' s (go p k' s1).
Proof.
  intros H1 H2 H3 Hx Hl H4 H5 H6 H7 H8 H9 H10 H11 H12. split; frame.
  - by rewrite H4.
  - by rewrite H7.
  - eapply locks_take; [exact H1|exact Hx|exact Hl|done..].
  - by apply capacity_same.
  - apply dict_same; [done|]. intros t' e' ->. by destruct (H12 t' e').
Qed.

Lemma calm_entry e f s : calm s (on_entry e f s).
Proof. by apply calm_same. Qed.

Lemma calm_pop t r s : calm s (pop_if_current t r s).
Proof. unfold pop_if_current. case_match; [by apply calm_same|done]. Qed.

Section Cases.
Context (i : input) (p : nat) (s : Pool).
Local Notation held e := (on_entry e (λ x, x <| le_lock := Some p |>) s).

Lemma tenant_locked_change t e j x :
  po_entries s !! e = Some x → le_lock x = None →
  ∃ k', step_change p (PTenant t e j) k' s (tenant_locked i p t e j (held e)).
Proof.
  intros Hx Hl. destruct j as [| |l r todo]; cbn [tenant_locked].
  - unfold acquire_locked, end_acquire, finish_call.
    change (po_runtimes (held e)) with (po_runtimes s).
    change (po_closed (held e)) with (po_closed s).
    destruct (runtimes_get t (po_runtimes s)) as [r|].
    + destruct (po_closed s).
      * eexists. eapply step_passes; [done|done|exact Hx|exact Hl|done|apply calm_entry|done..| |].
        -- by apply capacity_same.
        -- by apply dict_same.
      * rewrite (surjective_pairing (hand_out i r (held e))). eexists.
        eapply step_passes; [done|done|exact Hx|exact Hl|frame| | |frame|split; frame| |].
        -- etrans; [apply calm_entry|apply hand_out_calm].
        -- split; frame.
        -- apply capacity_same; frame.
        -- apply dict_same; frame.
    + eexists. eapply (step_takes _ _ _ t e); [left|done|done|exact Hx|exact Hl|done| |done..].
      apply calm_entry.
  - change (po_runtimes (held e)) with (po_runtimes s). destruct (runtimes_get t (po_runtimes s)) as [r|].
    + eexists. eapply (step_takes _ _ _ t e); [left|done|done|exact Hx|exact Hl|done| |done..].
      etrans; [apply calm_entry|]. apply calm_on_runtime. intros. apply quiet_mark_unavailable.
    + eexists. eapply step_passes; [done|done|exact Hx|exact Hl|done|apply calm_entry|done..| |].
      * by apply capacity_same.
      * by apply dict_same.
  - destruct (to_visit l t r (held e)).
    + eexists. eapply (step_takes _ _ _ t e); [left|done|done|exact Hx|exact Hl|done| |done..].
      etrans; [apply calm_entry|]. apply calm_on_runtime. intros. apply quiet_mark_unavailable.
    + eexists. eapply step_passes; [done|done|exact Hx|exact Hl|done|apply calm_entry|done..| |].
      * by apply capacity_same.
      * by apply dict_same.
Qed.

Lemma capacity_locked_change t e :
  po_capacity_lock s = None →
  ∃ k', step_change p (PCapacity t e) k' s
    (capacity_locked i p t e (s <| po_capacity_lock := Some p |>)).
Proof.
  intros Hc. unfold capacity_locked, end_acquire, finish_call.
  set (s0 := s <| po_capacity_lock := Some p |>).
  change (po_closed s0) with (po_closed s). change (full s0) with (full s).
  destruct (po_closed s).
  - eexists. eapply step_leaves; [done|done|done|by apply calm_same|done..| |].
    + by apply capacity_same.
    + by apply dict_same.
  - destruct (full s) eqn:Hf.
    + eexists. eapply step_goes; [done|done|done|by apply calm_same|done..| |].
      * by apply capacity_take.
      * by apply dict_same.
    + eexists. eapply step_goes; [done|done|done|by apply calm_same|done..| |].
      * by apply capacity_take.
      * by apply dict_same.
Qed.

Lemma next_visit_change l todo :
  ∃ k', step_change p (PLoop l todo) k' s (next_visit p l todo s).
Proof.
  destruct todo as [|[t r] todo]; cbn [next_visit].
  - destruct l as [now n [[t e]|]|primary].
    + unfold end_acquire, finish_call. destruct (full s) eqn:Hf.
      * eexists. eapply step_leaves; [done|done|done|by apply calm_same|done..| |].
        -- by apply capacity_free.
        -- by apply dict_same.
      * eexists. by apply step_stays.
    + eexists. by apply step_stays.
    + eexists. eapply step_goes; [done|done|done|by apply calm_same|done..| |].
      * by apply capacity_same.
      * by apply dict_same.
  - eexists. apply step_enters; [done..|]. by destruct l as [? ? []|].
Qed.

Lemma close_done_change t e j r :
  ∃ k', step_change p (PClosing t e j r) k' s (close_done i p t e j r s).
Proof.
  unfold close_done, finish_call. rewrite (surjective_pairing (closed_runtime i r s)).
  set (s1 := match (closed_runtime i r s).1 with
             | Ok _ => pop_if_current t r (closed_runtime i r s).2
             | Err _ => (closed_runtime i r s).2
             end).
  assert (Hs : po_processes s1 = po_processes s ∧ calm s s1 ∧
    po_max_resident_tenants s1 = po_max_resident_tenants s ∧
    po_idle_ttl_ms s1 = po_idle_ttl_ms s ∧ po_closed s1 = po_closed s ∧ same_locks s s1 ∧
    po_capacity_lock s1 = po_capacity_lock s ∧
    (po_runtimes s1 = po_runtimes s ∨ po_runtimes s1 = runtimes_pop t (po_runtimes s))).
  { pose proof (closed_runtime_calm i r s) as Hq.
    destruct (closed_runtime_store i r s) as [st E]. subst s1. rewrite E in *.
    destruct (closed_runtime i r s).1; [|by split_and!; auto].
    unfold pop_if_current. case_match; [|by split_and!; auto].
    by split_and!; auto. }
  destruct Hs as (H1&H2&H3&H4&H5&H6&H7&H8). clearbody s1.
  destruct (closed_runtime i r s).1, j as [| |[now n [c|]|[primary|]] r' todo]; eexists;
    (eapply step_leaves; [done|done|done|done|done|by rewrite H5|done| |]).
  all: try (by apply capacity_same).
  all: destruct H8 as [H8|H8]; [by apply dict_same|by eapply dict_pop].
Qed.

Lemma create_locked_change t e :
  ∃ k', step_change p (PCreating t e) k' s (create_locked i p t e s).
Proof.
  unfold create_locked, end_acquire, finish_call.
  destruct (runtimes_get t (po_runtimes s)) as [r|] eqn:Hr.
  - rewrite (surjective_pairing (hand_out i r s)). eexists.
    eapply step_leaves; [done|done|frame| | |frame|split; frame|apply capacity_free; frame|].
    + etrans; [apply hand_out_calm|by apply calm_same].
    + split; frame.
    + apply dict_same; frame.
  - destruct (in_created i) as [x|x].
    + set (s1 := s <| po_store := po_store s ++ [x] |>). set (r := length (po_store s)).
      assert (Hc : calm s s1) by apply calm_append. change (po_closed s1) with (po_closed s).
      destruct (po_closed s) eqn:Hcl.
      * eexists. eapply step_goes; [done|done|done| |done..| |].
        -- etrans; [exact Hc|]. apply calm_on_runtime. intros. apply quiet_mark_unavailable.
        -- by apply capacity_same.
        -- by apply dict_same.
      * set (s2 := s1 <| po_runtimes := runtimes_set t r (po_runtimes s1) |>).
        rewrite (surjective_pairing (hand_out i r s2)). eexists.
        eapply step_leaves; [done|done|frame| | |frame|split; frame|apply capacity_free; frame|].
        -- etrans; [exact Hc|]. apply (transitivity (y := s2)); [by apply calm_same|].
           etrans; [apply hand_out_calm|by apply calm_same].
        -- split; frame.
        -- eapply (dict_set _ _ _ _ t e r); frame.
    + eexists. eapply step_leaves; [done|done|done|by apply calm_same|done..| |].
      * by apply capacity_free.
      * by apply dict_same.
Qed.

Lemma discard_change t e r :
  ∃ k', step_change p (PDiscarding t e r) k' s (discard i p t e r s).
Proof.
  unfold discard, end_acquire, finish_call. rewrite (surjective_pairing (closed_runtime i r s)).
  eexists. eapply step_leaves; [done|done|frame| | |frame|split; frame|apply capacity_free; frame|].
  - etrans; [apply closed_runtime_calm|by apply calm_same].
  - split; frame.
  - apply dict_same; frame.
Qed.

Lemma step_of_change k s' :
  step_of i p k s = Some s' → ∃ k', step_change p k k' s s'.
Proof.
  destruct k; cbn [step_of].
  - intros [= <-]. destruct c as [t|t|now|]; cbn [start].
    + destruct (po_closed s); eexists; [by apply step_stays|by apply step_enters].
    + eexists. by apply step_enters.
    + eexists. by apply step_stays.
    + eexists. by apply step_stays.
  - destruct (po_entries s !! e) as [x|] eqn:Hx; [|done]. cbn [mbind option_bind].
    case_bool_decide; [|done]. intros [= <-]. by eapply tenant_locked_change.
  - case_bool_decide; [|done]. intros [= <-]. by apply capacity_locked_change.
  - intros [= <-]. apply next_visit_change.
  - intros [= <-]. apply close_done_change.
  - intros [= <-]. apply create_locked_change.
  - intros [= <-]. apply discard_change.
  - case_bool_decide; [|done]. intros [= <-]. unfold close_locked, finish_call. cbn [po_closed setter].
    case_match; (eexists; eapply step_goes; [done|done|done|by apply calm_same|done..| |]).
    all: try (by apply capacity_same). all: by apply dict_same.
  - case_bool_decide; [|done]. intros [= <-]. eexists. by apply step_stays.
  - done.
Qed.
End Cases.

(** ** The invariant *)

Record pool_ok (s : Pool) : Prop := MkPoolOk {
  pk_table : table_ok s (refs <$> po_processes s) (holds <$> po_processes s);
  pk_capacity : ∀ p k, po_processes s !! p = Some k → holds_capacity k = true →
    po_capacity_lock s = Some p;
  pk_size : (Z.of_nat (length (po_runtimes s)) ≤ po_max_resident_tenants s)%Z;
  pk_room : ∀ p t e, po_processes s !! p = Some (PCreating t e) → full s = false;
  pk_keys : NoDup (po_runtimes s).*1;
}.

Lemma runtimes_get_elem t l : runtimes_get t l = None ↔ t ∉ l.*1.
Proof.
  induction l as [|[t' r] l IH]; cbn.
  - split; [intros _ ?%elem_of_nil; done|done].
  - rewrite elem_of_cons. destruct (String.eqb_spec t t') as [->|]; naive_solver.
Qed.

Lemma runtimes_get_Some t r l : NoDup l.*1 → runtimes_get t l = Some r ↔ (t, r) ∈ l.
Proof.
  induction l as [|[t' r'] l IH]; cbn; intros Hd.
  - split; [done|intros ?%elem_of_nil; done].
  - apply NoDup_cons in Hd as [Hn Hd]. rewrite elem_of_cons, <-IH by done.
    destruct (String.eqb_spec t t') as [->|]; [|naive_solver].
    split; [naive_solver|]. intros [[= ->]|Hr]; [done|]. destruct Hn.
    apply IH in Hr; [|done]. apply list_elem_of_fmap. by exists (t', r).
Qed.

Lemma runtimes_set_new t r l : runtimes_get t l = None → runtimes_set t r l = l ++ [(t, r)].
Proof.
  induction l as [|[t' r'] l IH]; cbn; [done|]. case_match; [done|]. intros Hg. by rewrite IH.
Qed.

Lemma elem_of_pop t x l : x ∈ runtimes_pop t l ↔ x ∈ l ∧ x.1 ≠ t.
Proof.
  unfold runtimes_pop. rewrite list_elem_of_In, filter_In, <-list_elem_of_In.
  rewrite negb_true_iff, String.eqb_neq. naive_solver.
Qed.

Lemma pop_length t l : (length (runtimes_pop t l) ≤ length l)%nat.
Proof. apply filter_length_le. Qed.

Lemma pop_keys t l : NoDup l.*1 → NoDup (runtimes_pop t l).*1.
Proof.
  induction l as [|[t' r] l IH]; cbn; [done|]. intros [Hn Hd]%NoDup_cons. case_match; cbn; [|auto].
  apply NoDup_cons_2; [|auto]. intros (x&E&Hx)%list_elem_of_fmap. destruct Hn.
  apply elem_of_pop in Hx as [Hx _]. apply list_elem_of_fmap. by exists x.
Qed.

Section Preservation.
Context (p : nat) (k k' : process) (s s' : Pool).
Context (Hs : pool_ok s) (Hk : po_processes s !! p = Some k) (Hc : step_change p k k' s s').

Lemma table_step : table_ok s' (refs <$> po_processes s') (holds <$> po_processes s').
Proof.
  destruct Hs as [Ht _ _ _ _]. rewrite (sc_processes _ _ _ _ _ Hc), !list_fmap_insert.
  assert (HU : (refs <$> po_processes s) !! p = Some (refs k)) by (by rewrite list_lookup_fmap, Hk).
  assert (HH : (holds <$> po_processes s) !! p = Some (holds k))
    by (by rewrite list_lookup_fmap, Hk).
  destruct (sc_locks _ _ _ _ _ Hc) as [Hl E1 E2|t Hl E1 E2|t e x Hin Hx Hn Hl E1 E2|
    t e x E1 E2 Hx Hn Hl|t e E1 E2 Hl]; (eapply table_ok_same; [exact Hl|]).
  - rewrite E1, E2, !list_insert_id by done. done.
  - rewrite E1, E2, (list_insert_id (holds <$> _)) by done. by apply table_ok_enter.
  - rewrite E1, E2, (list_insert_id (refs <$> _)) by done. by eapply table_ok_take.
  - rewrite E1 in HU. rewrite E2.
    pose proof (table_ok_take _ _ _ t e p _ _ x Ht HU ltac:(left) HH Hx Hn) as Htk.
    eapply (table_ok_leave _ _ _ t e p (refs k') (holds k)) in Htk.
    + by rewrite list_insert_insert_eq in Htk.
    + done.
    + apply list_lookup_insert_eq. by apply lookup_lt_Some in HH.
  - rewrite E1 in HU. rewrite E2 in HH. by eapply table_ok_leave.
Qed.

Lemma capacity_step q j :
  po_processes s' !! q = Some j → holds_capacity j = true → po_capacity_lock s' = Some q.
Proof.
  destruct Hs as [_ Hcap _ _ _]. rewrite (sc_processes _ _ _ _ _ Hc).
  intros [(<-&<-&_)|[Hne Hq]]%list_lookup_insert_Some Hj;
    destruct (sc_capacity _ _ _ _ _ Hc) as [E1 E2|E1 E2|E1 E2 E3].
  - rewrite E1. eapply Hcap; [exact Hk|]. by rewrite <-E2.
  - done.
  - congruence.
  - rewrite E1. by eapply Hcap.
  - pose proof (Hcap _ _ Hq Hj). congruence.
  - pose proof (Hcap _ _ Hq Hj). pose proof (Hcap _ _ Hk E1). congruence.
Qed.

Lemma full_fewer d :
  po_max_resident_tenants d = po_max_resident_tenants s →
  (length (po_runtimes d) ≤ length (po_runtimes s))%nat → full s = false → full d = false.
Proof. unfold full. intros -> Hl. rewrite !Z.leb_gt. lia. Qed.

Lemma dict_step :
  (Z.of_nat (length (po_runtimes s')) ≤ po_max_resident_tenants s')%Z ∧
  (∀ q t e, po_processes s' !! q = Some (PCreating t e) → full s' = false) ∧
  NoDup (po_runtimes s').*1.
Proof.
  destruct Hs as [_ Hcap Hsize Hroom Hkeys]. destruct (sc_limits _ _ _ _ _ Hc) as [Em _].
  pose proof (sc_processes _ _ _ _ _ Hc) as Ep.
  destruct (sc_dict _ _ _ _ _ Hc) as [E Hn|t E Hn|t e r -> Hcl Hg E Hn].
  - split_and!; [by rewrite Em, E| |by rewrite E].
    intros q t e. rewrite Ep. intros [(<-&->&_)|[_ Hq]]%list_lookup_insert_Some.
    + apply full_fewer; [done|by rewrite E|by eapply Hn].
    + apply full_fewer; [done|by rewrite E|by eapply Hroom].
  - pose proof (pop_length t (po_runtimes s)) as Hl. split_and!; rewrite ?Em, ?E; [lia| |].
    + intros q t' e. rewrite Ep. intros [(<-&->&_)|[_ Hq]]%list_lookup_insert_Some.
      * by destruct (Hn t' e).
      * apply full_fewer; [done|by rewrite E|by eapply Hroom].
    + by apply pop_keys.
  - rewrite runtimes_set_new in E by done. pose proof (Hroom _ _ _ Hk) as Hf.
    unfold full in Hf. apply Z.leb_gt in Hf. split_and!; rewrite ?Em, ?E.
    + rewrite length_app. cbn. lia.
    + intros q t' e'. rewrite Ep. intros [(<-&->&_)|[Hne Hq]]%list_lookup_insert_Some.
      * by destruct (Hn t' e').
      * pose proof (Hcap _ _ Hk eq_refl). pose proof (Hcap _ _ Hq eq_refl). congruence.
    + rewrite fmap_app. apply NoDup_app. split_and!; [done| |apply NoDup_singleton].
      intros t' Ht' ->%list_elem_of_singleton. by apply runtimes_get_elem in Hg.
Qed.

Lemma pool_ok_step : pool_ok s'.
Proof.
  destruct dict_step as (H1&H2&H3). split; [apply table_step|apply capacity_step|done..].
Qed.
End Preservation.

Lemma pool_ok_same s s' :
  same_locks s s' → po_processes s' = po_processes s →
  po_capacity_lock s' = po_capacity_lock s → po_runtimes s' = po_runtimes s →
  po_max_resident_tenants s' = po_max_resident_tenants s → pool_ok s → pool_ok s'.
Proof.
  intros Hl E1 E2 E3 E4 []. split; unfold full in *; rewrite ?E1, ?E2, ?E3, ?E4; try done.
  by eapply table_ok_same.
Qed.

Lemma begin_on_frame now r s :
  ∃ st ls, begin_on now r s = s <| po_store := st |> <| po_leases := ls |>.
Proof.
  unfold begin_on. destruct (po_store s !! r) as [x|].
  - destruct (begin_run now x) as [[l y]|]; [by eexists _, _|].
    exists (po_store s), (po_leases s). by destruct s.
  - exists (po_store s), (po_leases s). by destruct s.
Qed.

Lemma lease_on_frame now j c s :
  ∃ st ls, lease_on now j c s = s <| po_store := st |> <| po_leases := ls |>.
Proof.
  unfold lease_on. destruct (po_leases s !! j) as [[r l]|].
  - destruct (po_store s !! r) as [x|].
    + destruct (call_lease now c l x) as [l' y]. by eexists _, _.
    + exists (po_store s), (po_leases s). by destruct s.
  - exists (po_store s), (po_leases s). by destruct s.
Qed.

Lemma step_change_of i p s s' :
  step i p s = Some s' →
  ∃ k k', po_processes s !! p = Some k ∧ step_of i p k s = Some s' ∧ step_change p k k' s s'.
Proof.
  unfold step. destruct (po_processes s !! p) as [k|] eqn:Hk; [|done]. cbn. intros H.
  destruct (step_of_change i p s k s' H) as [k' Hc]. eauto 10.
Qed.

Lemma pool_ok_happens ev s s' : happens ev s = Some s' → pool_ok s → pool_ok s'.
Proof.
  destruct ev as [c|i p|now r|now j c]; cbn [happens].
  - intros [= <-] [Ht Hcap Hsize Hroom Hkeys]. split; cbn; rewrite ?fmap_app.
    + eapply table_ok_same; [|by apply table_ok_start]. done.
    + intros q k [Hq|[_ Hq]]%lookup_app_Some Hh; [by eapply Hcap|].
      by destruct (q - length (po_processes s))%nat; simplify_eq/=.
    + done.
    + intros q t e [Hq|[_ Hq]]%lookup_app_Some; [by eapply Hroom|].
      by destruct (q - length (po_processes s))%nat; simplify_eq/=.
    + done.
  - intros (k&k'&Hk&_&Hc)%step_change_of Hs. by eapply pool_ok_step.
  - intros [= <-]. destruct (begin_on_frame now r s) as (st&ls&->). by apply pool_ok_same.
  - intros [= <-]. destruct (lease_on_frame now j c s) as (st&ls&->). by apply pool_ok_same.
Qed.

Lemma happen_invariant (P : Pool → Prop) l s s' :
  (∀ ev s s', happens ev s = Some s' → P s → P s') → happen l s = Some s' → P s → P s'.
Proof.
  intros HP. revert s. induction l as [|ev l IH]; cbn; intros s; [by intros [= <-]|].
  destruct (happens ev s) as [s1|] eqn:E; [|done]. cbn. intros H Hs. eauto.
Qed.

Lemma pool_ok_new n ttl : (0 ≤ n)%Z → pool_ok (new_pool n ttl).
Proof.
  intros Hn. split; cbn; [|done|done|done|apply NoDup_nil_2].
  by split; cbn; try done; intros t e; rewrite ?lookup_empty.
Qed.
