(* ===== verification/RuntimePoolRuns.v ===== *)
(** * Runs on the runtimes of the pool

    The counters of a runtime through any events of the pool, what an eviction may assume of
    the runs on a runtime, and what the closing of the pool leaves. *)

From S2P Require Import Prelude Records Errors Json Regex Tenancy WorkflowModels Storage.
From S2P Require Import Collections WorkflowRepository TenantRuntime RuntimePool.
From S2P Require Import RuntimePoolFacts.
From stdpp Require Import base gmap strings list.

(** ** Sums of shares *)

Lemma tally_zero_all {A} (f : A → Z) l :
  (∀ x, x ∈ l → (0 ≤ f x)%Z) → tally f l = 0%Z → ∀ x, x ∈ l → f x = 0%Z.
Proof.
  intros Hn H0 x [i Hi]%list_elem_of_lookup. pose proof (tally_ge f l i x Hn Hi).
  assert (0 ≤ f x)%Z; [|lia]. apply Hn. by eapply list_elem_of_lookup_2.
Qed.

Lemma tally_sub {A} (f g : A → Z) l :
  (tally f l - tally g l = tally (λ x, f x - g x) l)%Z.
Proof. induction l as [|x l IH]; cbn; lia. Qed.

(** The share of a lease in a counter of the runtime [r]. *)
Definition share_on (r : nat) (n : counter) (x : nat * RuntimeExecutionLease) : Z :=
  if bool_decide (x.1 = r) then share n x.2 else 0.

Definition leases_ok (s : Pool) : Prop :=
  ∀ j r l, po_leases s !! j = Some (r, l) → lease_ok l ∧ (r < length (po_store s))%nat.

(** The counters of [r] are [b] and the shares of its leases. *)
Definition counted (b : counter → Z) (r : nat) (s : Pool) : Prop :=
  ∃ x, po_store s !! r = Some x ∧ ∀ n, value n x = (b n + tally (share_on r n) (po_leases s))%Z.

Lemma share_on_nonneg s r n x : leases_ok s → x ∈ po_leases s → (0 ≤ share_on r n x)%Z.
Proof.
  intros Hl [j Hj]%list_elem_of_lookup. destruct x as [r' l]. unfold share_on. cbn.
  case_bool_decide; [|done]. apply share_nonneg. by eapply Hl.
Qed.

(** ** The counters through an event *)

Lemma leases_ok_calm s s' : calm s s' → leases_ok s → leases_ok s'.
Proof.
  intros [E Hs] Hl j r l. rewrite E. intros Hj. destruct (Hl j r l Hj) as [H1 H2].
  split; [done|]. apply lookup_lt_is_Some_2 in H2 as [x Hx]. apply Hs in Hx as (y&Hy&_).
  by apply lookup_lt_Some in Hy.
Qed.

Lemma counted_calm b r s s' : calm s s' → counted b r s → counted b r s'.
Proof.
  intros [E Hs] (x&Hx&Hn). apply Hs in Hx as (y&Hy&[Hq _]). exists y. split; [done|].
  intros n. by rewrite Hq, E.
Qed.

Lemma happens_calm ev s s' :
  match ev with Began _ _ | Leased _ _ _ => False | _ => True end →
  happens ev s = Some s' → calm s s'.
Proof.
  destruct ev as [c|i p|now r|now j c]; [..|done|done]; intros _ H.
  - injection H as <-. by apply calm_same.
  - apply step_change_of in H as (k&k'&_&_&[]). done.
Qed.

Lemma begin_on_cases now r s :
  begin_on now r s = s ∨
  ∃ x, po_store s !! r = Some x ∧ is_available x = true ∧
    begin_on now r s = on_runtime r (λ _, (new_lease now (touch now x)).2) s
      <| po_leases := po_leases s ++ [(r, (new_lease now (touch now x)).1)] |>.
Proof.
  unfold begin_on. destruct (po_store s !! r) as [x|]; [|auto]. unfold begin_run.
  destruct (is_available x) eqn:Ha; cbn; [|auto]. right. exists x. split_and!; done.
Qed.

Lemma begin_on_ok now r s : leases_ok s → leases_ok (begin_on now r s).
Proof.
  intros Hl. destruct (begin_on_cases now r s) as [->|(x&Hx&_&->)]; [done|].
  intros j r' l'. cbn. rewrite length_alter. intros [Hj|[_ Hj]]%lookup_app_Some; [by eapply Hl|].
  destruct (j - length (po_leases s))%nat as [|m]; [|done]. injection Hj as <- <-.
  apply lookup_lt_Some in Hx. split; [|done]. unfold lease_ok. cbn. split_and!; done.
Qed.

Lemma new_lease_counts now x n :
  let z := new_lease now (touch now x) in value n z.2 = (value n x + share n z.1)%Z.
Proof.
  unfold new_lease. cbn [fst snd]. rewrite value_touch, <-(value_touch n now x).
  destruct n; cbn; lia.
Qed.

Lemma begin_on_counted b r now r' s : counted b r s → counted b r (begin_on now r' s).
Proof.
  intros (x&Hx&Hn). destruct (begin_on_cases now r' s) as [->|(y&Hy&_&->)]; [by exists x|].
  pose proof (new_lease_counts now y) as E. set (z := new_lease now (touch now y)) in *.
  clearbody z. unfold counted. cbn. destruct (decide (r' = r)) as [->|Hne].
  - simplify_eq. rewrite list_lookup_alter_eq, Hx. eexists. split; [done|]. intros n.
    rewrite tally_app. cbn [tally]. unfold share_on at 2. cbn [fst snd].
    rewrite bool_decide_eq_true_2 by done. rewrite E, Hn. lia.
  - rewrite list_lookup_alter_ne by done. exists x. split; [done|]. intros n.
    rewrite tally_app. cbn [tally]. unfold share_on at 2. cbn [fst snd].
    rewrite bool_decide_eq_false_2 by done. rewrite Hn. lia.
Qed.

Lemma lease_on_cases now j c s :
  lease_on now j c s = s ∨
  ∃ r l x l' x', po_leases s !! j = Some (r, l) ∧ po_store s !! r = Some x ∧
    call_lease now c l x = (l', x') ∧
    lease_on now j c s = on_runtime r (λ _, x') s <| po_leases := <[j := (r, l')]> (po_leases s) |>.
Proof.
  unfold lease_on. destruct (po_leases s !! j) as [[r l]|]; [|auto].
  destruct (po_store s !! r) as [x|] eqn:Hx; [|auto].
  destruct (call_lease now c l x) as [l' x'] eqn:E. right. eexists r, l, x, l', x'.
  split_and!; done.
Qed.

Lemma lease_on_ok now j c s : leases_ok s → leases_ok (lease_on now j c s).
Proof.
  intros Hl. destruct (lease_on_cases now j c s) as [->|(r&l&x&l'&x'&Hj&Hx&E&->)]; [done|].
  intros j' r' l2. cbn. rewrite length_alter.
  intros [(<-&[= <- <-]&_)|[_ Hj']]%list_lookup_insert_Some; [|by eapply Hl].
  destruct (Hl _ _ _ Hj) as [H1 H2]. split; [by eapply call_lease_ok|done].
Qed.

Lemma lease_on_counted b r now j c s :
  (∀ n, (0 ≤ b n)%Z) → leases_ok s → counted b r s → counted b r (lease_on now j c s).
Proof.
  intros Hb Hl (x&Hx&Hn).
  destruct (lease_on_cases now j c s) as [->|(r'&l&y&l'&y'&Hj&Hy&E&->)]; [by exists x|].
  unfold counted. cbn. destruct (decide (r' = r)) as [->|Hne].
  - simplify_eq. rewrite list_lookup_alter_eq, Hx. eexists. split; [done|]. intros n.
    rewrite (tally_insert _ _ _ _ _ Hj). unfold share_on at 2 3. cbn [fst snd].
    rewrite bool_decide_eq_true_2 by done. destruct (Hl _ _ _ Hj) as [Hok _].
    erewrite (call_lease_counts now c l x l' y'); [|done| |exact E].
    + rewrite Hn. lia.
    + intros m. rewrite Hn. pose proof (tally_ge (share_on r m) _ j (r, l)
        (λ z Hz, share_on_nonneg s r m z Hl Hz) Hj) as Hge. specialize (Hb m).
      unfold share_on at 1 in Hge. cbn in Hge. rewrite bool_decide_eq_true_2 in Hge by done. lia.
  - rewrite list_lookup_alter_ne by done. exists x. split; [done|]. intros n.
    rewrite (tally_insert _ _ _ _ _ Hj). unfold share_on at 2 3. cbn [fst snd].
    rewrite bool_decide_eq_false_2 by done. rewrite Hn. lia.
Qed.

Lemma leases_ok_happens ev s s' : happens ev s = Some s' → leases_ok s → leases_ok s'.
Proof.
  destruct ev; intros H; try (apply leases_ok_calm; by eapply happens_calm; [|exact H]).
  - injection H as <-. apply begin_on_ok.
  - injection H as <-. apply lease_on_ok.
Qed.

Lemma counted_happens b r ev s s' :
  (∀ n, (0 ≤ b n)%Z) → happens ev s = Some s' → leases_ok s → counted b r s → counted b r s'.
Proof.
  intros Hb. destruct ev; intros H Hl;
    try (apply counted_calm; by eapply happens_calm; [|exact H]).
  - injection H as <-. apply begin_on_counted.
  - injection H as <-. by apply lease_on_counted.
Qed.

Lemma counted_happen b r l s s' :
  (∀ n, (0 ≤ b n)%Z) → happen l s = Some s' → leases_ok s → counted b r s →
  leases_ok s' ∧ counted b r s'.
Proof.
  intros Hb H Hl Hc.
  eapply (happen_invariant (λ s, leases_ok s ∧ counted b r s)); [|exact H|done].
  intros ev s1 s2 He [? ?]. split; [by eapply leases_ok_happens|by eapply counted_happens].
Qed.

(** ** When a runtime can be evicted *)

Definition good (b : counter → Z) : Prop :=
  (∀ n, (0 ≤ b n)%Z) ∧ (b CHECKPOINTED ≤ b ACTIVE)%Z.

Lemma share_on_same r n l : share_on r n (r, l) = share n l.
Proof. unfold share_on. cbn. by rewrite bool_decide_eq_true_2. Qed.

Lemma can_evict_cases x now ttl :
  can_evict x now ttl = true ↔
  idle_expired x now ttl = true ∧ (value EXECUTING x ≤ 0)%Z ∧
  (value ACTIVE x = 0%Z ∨ value ACTIVE x = value CHECKPOINTED x ∧ value TOOLS x = 0%Z).
Proof.
  unfold can_evict. destruct (idle_expired x now ttl); cbn [negb]; [|naive_solver].
  destruct (Z.ltb_spec 0 (tr_active_executing_run_count x)) as [He|He]; [cbn; naive_solver lia|].
  destruct (Z.eqb_spec (tr_active_run_count x) 0) as [Ha|Ha]; [cbn; naive_solver lia|].
  rewrite andb_true_iff, !Z.eqb_eq. cbn. naive_solver lia.
Qed.

(** The shares that are zero in sum are zero for each lease. *)
Lemma no_share s r n l :
  leases_ok s → tally (share_on r n) (po_leases s) = 0%Z → (r, l) ∈ po_leases s →
  share n l = 0%Z.
Proof.
  intros Hl H0 Hin. rewrite <-(share_on_same r n l).
  eapply (tally_zero_all (share_on r n)); [|exact H0|exact Hin].
  intros. by eapply share_on_nonneg.
Qed.

Lemma equal_shares s r l :
  leases_ok s →
  tally (share_on r ACTIVE) (po_leases s) = tally (share_on r CHECKPOINTED) (po_leases s) →
  (r, l) ∈ po_leases s → share ACTIVE l = share CHECKPOINTED l.
Proof.
  intros Hl H0 Hin. rewrite <-!(share_on_same r _ l).
  assert (share_on r ACTIVE (r, l) - share_on r CHECKPOINTED (r, l) = 0)%Z; [|lia].
  apply (tally_zero_all (λ x, share_on r ACTIVE x - share_on r CHECKPOINTED x)%Z (po_leases s));
    [|rewrite <-tally_sub; lia|done].
  intros [r' l'] Hin'. unfold share_on. cbn. case_bool_decide; [|done]. unfold share.
  destruct (el_closed l'), (el_checkpoint_persisted l'); lia.
Qed.

(** Nothing runs on a runtime that may be evicted. *)
Lemma evictable_parked b r s x now ttl l :
  good b → leases_ok s → counted b r s → po_store s !! r = Some x →
  can_evict x now ttl = true → (r, l) ∈ po_leases s → parked l ∧ share TOOLS l = 0%Z.
Proof.
  intros [Hb Hba] Hl (y&Hy&Hn) Hx (_&He&Ha)%can_evict_cases Hin. simplify_eq.
  assert (Hnn : ∀ n, (0 ≤ tally (share_on r n) (po_leases s))%Z).
  { intros n. apply tally_nonneg. intros. by eapply share_on_nonneg. }
  pose proof Hin as [j Hj]%list_elem_of_lookup. destruct (Hl _ _ _ Hj) as [(Haw&Hcp&_) _].
  assert (HE : share EXECUTING l = 0%Z).
  { eapply no_share; [done| |done]. rewrite Hn in He.
    pose proof (Hb EXECUTING). pose proof (Hnn EXECUTING). lia. }
  destruct Ha as [Ha|[Ha Ht]].
  - assert (HA : share ACTIVE l = 0%Z).
    { eapply no_share; [done| |done]. rewrite Hn in Ha.
      pose proof (Hb ACTIVE). pose proof (Hnn ACTIVE). lia. }
    unfold share, parked in *. destruct (el_closed l); [auto|lia].
  - assert (HT : share TOOLS l = 0%Z).
    { eapply no_share; [done| |done]. rewrite Hn in Ht.
      pose proof (Hb TOOLS). pose proof (Hnn TOOLS). lia. }
    assert (HA : share ACTIVE l = share CHECKPOINTED l).
    { eapply equal_shares; [done| |done]. rewrite !Hn in Ha.
      pose proof (Hnn ACTIVE). assert (tally (share_on r CHECKPOINTED) (po_leases s) ≤
        tally (share_on r ACTIVE) (po_leases s))%Z; [|lia].
      assert (0 ≤ tally (λ x, share_on r ACTIVE x - share_on r CHECKPOINTED x)
        (po_leases s))%Z as Hd; [|rewrite <-tally_sub in Hd; lia].
      apply tally_nonneg. intros [r' l'] _. unfold share_on. cbn. case_bool_decide; [|done].
      unfold share. destruct (el_closed l'), (el_checkpoint_persisted l'); lia. }
    split; [|done]. unfold share, parked in *.
    destruct (el_closed l); [auto|]. right. destruct (el_checkpoint_persisted l); [auto|lia].
Qed.

(** A runtime without runs to start from can be evicted when nothing runs on it. *)
Lemma parked_evictable r s x now ttl :
  leases_ok s → counted (λ _, 0%Z) r s → po_store s !! r = Some x →
  idle_expired x now ttl = true →
  (∀ l, (r, l) ∈ po_leases s → parked l ∧ share TOOLS l = 0%Z) → can_evict x now ttl = true.
Proof.
  intros Hl (y&Hy&Hn) Hx Hi Hp. rewrite Hx in Hy. injection Hy as <-. apply can_evict_cases. split; [done|].
  assert (Hz : ∀ n, (∀ l, (r, l) ∈ po_leases s → share n l = 0%Z) → value n x = 0%Z).
  { intros n Hz. rewrite Hn. cbn. rewrite tally_zero; [done|]. intros [r' l] Hin.
    unfold share_on. cbn. case_bool_decide; [|done]. subst. auto. }
  split.
  - rewrite Hz; [done|]. intros l Hin. destruct (Hp l Hin) as [[Hc|[Ha Hc]] _].
    + unfold share. by rewrite Hc.
    + apply list_elem_of_lookup in Hin as [j Hj]. destruct (Hl _ _ _ Hj) as [(Haw&_&_) _].
      rewrite Ha in Haw. unfold share. by destruct (el_closed l), (el_executing l).
  - right. split; [|apply Hz; intros l Hin; by apply Hp].
    rewrite !Hn. cbn. assert (tally (share_on r ACTIVE) (po_leases s) -
      tally (share_on r CHECKPOINTED) (po_leases s) = 0)%Z; [|lia]. rewrite tally_sub.
    apply tally_zero. intros [r' l] Hin. unfold share_on. cbn. case_bool_decide; [|done]. subst.
    destruct (Hp l Hin) as [[Hc|[_ Hc]] _]; unfold share; rewrite Hc; [done|].
    by destruct (el_closed l).
Qed.

(** ** The steps of a process, seen from the process *)

Lemma hand_out_length i r s : length (po_store (hand_out i r s).2) = length (po_store s).
Proof. unfold hand_out. case_match; [|done]. cbn. apply length_alter. Qed.

Lemma closed_runtime_length i r s : length (po_store (closed_runtime i r s).2) = length (po_store s).
Proof.
  unfold closed_runtime. destruct (po_store s !! r) as [x|]; [|done].
  destruct (close_runtime _ _ _ _ _) as [[a y] log]. cbn. apply length_alter.
Qed.

Lemma pop_processes t r s : po_processes (pop_if_current t r s) = po_processes s.
Proof. unfold pop_if_current. by case_match. Qed.

Global Hint Rewrite hand_out_length closed_runtime_length @length_alter pop_processes : pool.

#[local] Opaque leave enter hand_out closed_runtime.

Ltac open_step :=
  unfold start, tenant_locked, acquire_locked, capacity_locked, next_visit, close_done,
    discard, close_locked, end_acquire, finish_call, wait, pop_if_current.

Ltac split_step := repeat match goal with
  | |- context [hand_out ?i ?r ?s] =>
      lazymatch goal with |- context [let '(_, _) := hand_out i r s in _] =>
        rewrite (surjective_pairing (hand_out i r s)) end
  | |- context [let '(_, _) := closed_runtime ?i ?r ?s in _] =>
      rewrite (surjective_pairing (closed_runtime i r s))
  | |- context [let '(_, _) := enter ?t ?s in _] => rewrite (surjective_pairing (enter t s))
  | |- context [match ?x with _ => _ end] => destruct x eqn:?
  end.

Lemma step_length i p k s s' :
  step_of i p k s = Some s' → (∀ t e, k ≠ PCreating t e) →
  length (po_store s') = length (po_store s).
Proof.
  intros H Hk. revert H. destruct k; cbn [step_of]; try (by destruct (Hk tenant_id e)).
  all: try (destruct (po_entries s !! e); [cbn [mbind option_bind]|done]).
  all: try (case_bool_decide; [|done]). all: try done.
  all: intros [= <-]; open_step; split_step; frame.
Qed.

(** A runtime that is new in the pool comes from the factory. *)
Lemma step_store i p k s s' r x' :
  step_of i p k s = Some s' → po_store s' !! r = Some x' →
  is_Some (po_store s !! r) ∨
  r = length (po_store s) ∧ ∃ x, in_created i = Ok x ∧ ∀ n, value n x' = value n x.
Proof.
  intros H Hx. assert (Hr : (r < length (po_store s'))%nat) by (by apply lookup_lt_Some in Hx).
  destruct (decide (r < length (po_store s))%nat) as [Hlt|Hge].
  { left. by apply lookup_lt_is_Some_2. }
  destruct k; try (rewrite (step_length i p _ s s' H) in Hr by done; lia).
  right. injection H as <-. revert Hr Hx. unfold create_locked, end_acquire, finish_call.
  destruct (runtimes_get tenant_id (po_runtimes s)) as [r'|].
  { rewrite (surjective_pairing (hand_out i r' s)). frame; lia. }
  destruct (in_created i) as [x|x] eqn:Hc; [|frame; lia].
  set (s1 := s <| po_store := po_store s ++ [x] |>).
  assert (E : ∀ s2, calm s1 s2 → length (po_store s2) = length (po_store s1) →
    (r < length (po_store s2))%nat → po_store s2 !! r = Some x' →
    r = length (po_store s) ∧ ∃ y, Ok x = (Ok y : result exn _) ∧ ∀ n, value n x' = value n y).
  { intros s2 [_ Hq] El Hr Hx'. rewrite El in Hr. subst s1. cbn in Hr. rewrite length_app in Hr.
    cbn in Hr. assert (r = length (po_store s)) as -> by lia. split; [done|].
    destruct (Hq (length (po_store s)) x) as (y&Hy&[Hv _]).
    - cbn. rewrite lookup_app_r, Nat.sub_diag by done. done.
    - rewrite Hy in Hx'. injection Hx' as <-. by exists x. }
  change (po_closed s1) with (po_closed s). destruct (po_closed s).
  - intros Hr' Hx'. eapply E; [| |exact Hr'|exact Hx'].
    + apply (transitivity (y := on_runtime (length (po_store s)) mark_unavailable s1));
        [|by apply calm_same].
      apply calm_on_runtime. intros. apply quiet_mark_unavailable.
    + frame.
  - set (s2 := s1 <| po_runtimes := runtimes_set tenant_id (length (po_store s)) (po_runtimes s1) |>).
    rewrite (surjective_pairing (hand_out i (length (po_store s)) s2)).
    intros Hr' Hx'. eapply E; [| |exact Hr'|exact Hx'].
    + apply (transitivity (y := s2)); [by apply calm_same|].
      etrans; [apply hand_out_calm|]. apply calm_same; frame.
    + frame.
Qed.

(** The runtime that a process is evicting. *)
Definition evicting (k : process) : option nat :=
  match k with PClosing _ _ (TVisit (EvictLoop _ _ _) _ _) r => Some r | _ => None end.

Ltac own_process Hp := revert Hp; frame; rewrite list_lookup_insert_eq by done; intros [= <-].

Lemma step_evicts i p k s s' k' r :
  (p < length (po_processes s))%nat → step_of i p k s = Some s' →
  po_processes s' !! p = Some k' → evicting k' = Some r →
  ∃ x now, po_store s !! r = Some x ∧ can_evict x now (po_idle_ttl_ms s) = true ∧
    po_store s' !! r = Some (mark_unavailable x).
Proof.
  intros Hlt H Hp He. revert H Hp. destruct k; cbn [step_of].
  all: try (destruct (po_entries s !! e) as [entry|] eqn:Hx; [cbn [mbind option_bind]|done]).
  all: try (case_bool_decide; [|done]). all: try done.
  all: intros [= <-].
  2: { destruct k as [| |l r' todo]; cbn [tenant_locked].
       1, 2: unfold acquire_locked, finish_call, end_acquire; split_step; intros Hp;
             own_process Hp; done.
       destruct (to_visit l tenant_id r' _) eqn:Hv.
       - intros Hp. own_process Hp. destruct l as [now n c|]; [|done]. cbn in He.
         injection He as ->. unfold to_visit in Hv. apply andb_true_iff in Hv as [_ Hv].
         cbn in Hv. destruct (po_store s !! r) as [x|] eqn:Hx'; [|done]. cbn in Hv.
         exists x, now. split_and!; [done|done|]. cbn. by rewrite list_lookup_alter_eq, Hx'.
       - intros Hp. own_process Hp. done. }
  all: unfold create_locked; open_step; split_step; intros Hp; own_process Hp; done.
Qed.

(** ** Evictions spare what runs *)

(** The factory counts what is in the database. *)
Definition created_ok (ev : event) : Prop :=
  match ev with
  | Stepped i _ => ∀ x, in_created i = Ok x → good (λ n, value n x)
  | _ => True
  end.

Definition runs_counted (s : Pool) : Prop :=
  leases_ok s ∧ ∀ r x, po_store s !! r = Some x → ∃ b, good b ∧ counted b r s.

Definition evicted_idle (s : Pool) : Prop :=
  ∀ p k r, po_processes s !! p = Some k → evicting k = Some r →
    (∃ x, po_store s !! r = Some x ∧ tr_available x = false) ∧
    ∀ l, (r, l) ∈ po_leases s → parked l.

Lemma runs_counted_happens ev s s' :
  created_ok ev → happens ev s = Some s' → runs_counted s → runs_counted s'.
Proof.
  intros Hev H [Hl Hc]. split; [by eapply leases_ok_happens|]. intros r x' Hx'.
  destruct (po_store s !! r) as [x|] eqn:Hx.
  - destruct (Hc r x Hx) as (b&Hg&Hb). exists b. split; [done|].
    eapply counted_happens; [apply Hg|exact H|done..].
  - destruct ev as [c|i p|now r'|now j c].
    + injection H as <-. cbn in Hx'. congruence.
    + apply step_change_of in H as (k&k'&Hk&Hs&[]).
      destruct (step_store i p k s s' r x' Hs Hx') as [[y Hy]|[-> (x&Hcr&Hv)]]; [congruence|].
      exists (λ n, value n x). split; [by apply Hev|]. exists x'. split; [done|]. intros n.
      rewrite Hv, (proj1 sc_calm), tally_zero; [lia|]. intros [r' l] [j Hj]%list_elem_of_lookup.
      unfold share_on. cbn. case_bool_decide; [|done]. subst r'. destruct (Hl _ _ _ Hj). lia.
    + injection H as <-. destruct (begin_on_cases now r' s) as [E|(y&Hy&_&E)];
        rewrite E in Hx'; [congruence|]. cbn in Hx'.
      apply lookup_lt_Some in Hx'. rewrite length_alter in Hx'. apply lookup_ge_None in Hx. lia.
    + injection H as <-. destruct (lease_on_cases now j c s) as [E|(?&?&?&?&?&_&_&_&E)];
        rewrite E in Hx'; [congruence|]. cbn in Hx'.
      apply lookup_lt_Some in Hx'. rewrite length_alter in Hx'. apply lookup_ge_None in Hx. lia.
Qed.

Lemma evicted_idle_step i p s s' :
  step i p s = Some s' → runs_counted s → evicted_idle s → evicted_idle s'.
Proof.
  intros H [Hl Hc] He. pose proof H as (k&k'&Hk&Hs&Hch)%step_change_of.
  pose proof (sc_processes _ _ _ _ _ Hch) as Ep. pose proof (sc_calm _ _ _ _ _ Hch) as [El Hq].
  intros q j r Hj Hr. rewrite El.
  pose proof Hj as Hj'. rewrite Ep in Hj'.
  apply list_lookup_insert_Some in Hj' as [(<-&<-&Hlt)|[Hne Hj']].
  - destruct (step_evicts i p k s s' k' r) as (x&now&Hx&Hcan&Hx'); [done|done|done|done|].
    split; [by exists (mark_unavailable x)|]. intros l Hin.
    destruct (Hc r x Hx) as (b&Hg&Hb). by eapply evictable_parked.
  - destruct (He q j r Hj' Hr) as [(x&Hx&Ha) Hp]. split; [|done].
    destruct (Hq r x Hx) as (y&Hy&[_ Hav]). exists y. auto.
Qed.

Lemma evicted_idle_happens ev s s' :
  happens ev s = Some s' → runs_counted s → evicted_idle s → evicted_idle s'.
Proof.
  intros H Hc He. destruct ev as [c|i p|now r'|now j c]; cbn [happens] in H.
  - injection H as <-. intros p k r [Hk|[_ Hk]]%lookup_app_Some; [by eapply He|].
    by destruct (p - length (po_processes s))%nat; simplify_eq/=.
  - by eapply evicted_idle_step.
  - injection H as <-. destruct (begin_on_cases now r' s) as [->|(y&Hy&Ha&->)]; [done|].
    intros p k r Hk Hr. destruct (He p k r Hk Hr) as [(x&Hx&Hav) Hp]. cbn.
    assert (Hne : r' ≠ r).
    { intros ->. unfold is_available in Ha. assert (x = y) as -> by congruence.
      by rewrite Hav in Ha. }
    rewrite list_lookup_alter_ne by done. split; [by exists x|].
    intros l [Hin|[= <- _]%list_elem_of_singleton]%elem_of_app; [auto|done].
  - injection H as <-.
    destruct (lease_on_cases now j c s) as [->|(r1&l&x&l'&x'&Hj&Hx&E&->)]; [done|].
    intros p k r Hk Hr. destruct (He p k r Hk Hr) as [(y&Hy&Hav) Hp]. cbn. split.
    + destruct (decide (r1 = r)) as [->|Hne].
      * exists x'. rewrite list_lookup_alter_eq, Hx. split; [done|]. simplify_eq.
        by rewrite (call_lease_available _ _ _ _ _ _ E).
      * exists y. by rewrite list_lookup_alter_ne.
    + intros l2 [j' Hj']%list_elem_of_lookup.
      apply list_lookup_insert_Some in Hj' as [(<-&[= -> <-]&_)|[_ Hj']].
      * eapply call_lease_parked; [|exact E]. apply Hp. by eapply list_elem_of_lookup_2.
      * apply Hp. by eapply list_elem_of_lookup_2.
Qed.

(** ** A closed pool *)

(** What the loop of [close] has still to close, as long as nothing failed. *)
Definition pending (k : process) : option (list (string * nat)) :=
  match k with
  | PLoop (CloseLoop None) todo => Some todo
  | PTenant t _ (TVisit (CloseLoop None) r todo)
  | PClosing t _ (TVisit (CloseLoop None) _ todo) r => Some ((t, r) :: todo)
  | _ => None
  end.

(** Processes of [close]. *)
Definition of_close (k : process) : bool :=
  match k with
  | PStart Close | PCloseLock | PCloseCapacity | PLoop (CloseLoop _) _
  | PTenant _ _ (TVisit (CloseLoop _) _ _) | PClosing _ _ (TVisit (CloseLoop _) _ _) _ => true
  | _ => false
  end.

Lemma step_opens i p k s s' k' :
  (p < length (po_processes s))%nat → step_of i p k s = Some s' →
  po_processes s' !! p = Some k' → of_close k = false → of_close k' = false.
Proof.
  intros Hlt H Hp Hk. revert H Hp. destruct k; cbn [step_of].
  all: try (destruct (po_entries s !! e) as [entry|] eqn:Hx; [cbn [mbind option_bind]|done]).
  all: try (case_bool_decide; [|done]). all: try done.
  all: intros [= <-].
  all: unfold create_locked; open_step; split_step; intros Hp; own_process Hp; try done.
  all: by destruct l.
Qed.

(** The progress of [close]: an end with an exception, the end, or a step on the way. *)
Lemma step_closes i p k s s' k' :
  (p < length (po_processes s))%nat → NoDup (po_runtimes s).*1 →
  step_of i p k s = Some s' → po_processes s' !! p = Some k' → of_close k = true →
  (∃ x, k' = PDone (Err x)) ∨
  (∃ a, k' = PDone (Ok a) ∧ po_runtimes s' = po_runtimes s ∧
     (po_closed s = true ∧ po_closed s' = true ∧ po_runtimes s = [] ∨ pending k = Some [])) ∨
  of_close k' = true ∧ (k' = PCloseCapacity → po_closed s' = true) ∧
  ∀ l', pending k' = Some l' →
    (k = PCloseCapacity ∧ l' = po_runtimes s ∧ po_runtimes s' = po_runtimes s) ∨
    ∃ l, pending k = Some l ∧
      ((l' = l ∧ po_runtimes s' = po_runtimes s) ∨
       ∃ x, l = x :: l' ∧ x ∉ po_runtimes s' ∧ ∀ y, y ∈ po_runtimes s' → y ∈ po_runtimes s).
Proof.
  intros Hlt Hd H Hp Hk. revert H Hp. destruct k as [c|t e j|t e|l todo|t e j r|t e|t e r| | |a];
    cbn [step_of]; try done.
  - destruct c; try done. intros [= <-] Hp. own_process Hp. right. right. split_and!; [done|done|by intros ?].
  - destruct j as [| |[|primary] r todo]; try done.
    destruct (po_entries s !! e) as [entry|] eqn:Hx; [cbn [mbind option_bind]|done].
    case_bool_decide; [|done]. intros [= <-]. cbn [tenant_locked].
    destruct (to_visit _ _ _ _) eqn:Hv; intros Hp; own_process Hp; right; right;
      (split_and!; [done|done|]); (destruct primary as [|]; [by intros ?|intros l' [= <-]; right]).
    + eexists. split; [done|]. left. by split.
    + eexists. split; [done|]. right. exists (t, r). frame. split_and!; [done| |done].
      intros Hin. apply runtimes_get_Some in Hin; [|done]. unfold to_visit in Hv. cbn in Hv.
      by rewrite andb_true_r, bool_decide_eq_false in Hv.
  - destruct l as [|primary]; [done|]. intros [= <-].
    destruct todo as [|[t r] todo]; cbn [next_visit].
    + unfold finish_call. intros Hp. own_process Hp. destruct primary as [x|]; [left; by exists x|].
      right. left. eexists. split_and!; [done|done|by right].
    + unfold wait. rewrite (surjective_pairing (enter t s)). intros Hp. own_process Hp.
      right. right. split_and!; [done|done|]. destruct primary; [by intros ?|]. intros l' [= <-]. right.
      eexists. split; [done|]. left. split; [done|]. frame.
  - destruct j as [| |[|primary] r' todo]; try done. intros [= <-]. unfold close_done.
    rewrite (surjective_pairing (closed_runtime i r s)).
    destruct (closed_runtime i r s).1 as [u|x]; intros Hp; own_process Hp; right; right.
    + split_and!; [by destruct primary|done|]. destruct primary; [by intros ?|]. intros l' [= <-].
      right. eexists. split; [done|]. right. exists (t, r). unfold pop_if_current. frame.
      case_bool_decide as Hg; frame; (split; [done|]); split.
      * rewrite elem_of_pop. cbn. naive_solver.
      * intros y. rewrite elem_of_pop. naive_solver.
      * intros Hin. by apply runtimes_get_Some in Hin.
      * done.
    + split_and!; [by destruct primary|by destruct primary|]. by destruct primary.
  - case_bool_decide; [|done]. intros [= <-]. unfold close_locked, finish_call. cbn [po_closed setter].
    case_match eqn:E; intros Hp; own_process Hp.
    + right. left. apply andb_true_iff in E as [E1 E2%bool_decide_eq_true]. eexists.
      split_and!; [done|done|by left].
    + right. right. split_and!; [done|done|by intros ?].
  - case_bool_decide; [|done]. intros [= <-] Hp. own_process Hp. right. right.
    split_and!; [done|done|]. intros l' [= <-]. by left.
Qed.

Definition closing_ok (s : Pool) : Prop :=
  ∀ p k, po_processes s !! p = Some k →
    (k = PCloseCapacity → po_closed s = true) ∧
    ∀ l, pending k = Some l → po_closed s = true ∧ ∀ x, x ∈ po_runtimes s → x ∈ l.

Lemma pending_of_close k l : pending k = Some l → of_close k = true.
Proof. by destruct k as [| |?|[| []]|? ? [| |[| []]] ?| | | | |]; cbn; try done; repeat case_match. Qed.

(** A closed pool only loses runtimes. *)
Lemma closed_shrinks p k k' s s' x :
  step_change p k k' s s' → po_closed s = true → x ∈ po_runtimes s' → x ∈ po_runtimes s.
Proof.
  intros Hc Hcl. destruct (sc_dict _ _ _ _ _ Hc) as [E _|t E _|t e r _ Hn _ _ _].
  - by rewrite E.
  - rewrite E, elem_of_pop. naive_solver.
  - congruence.
Qed.

Lemma closing_ok_step i p s s' :
  step i p s = Some s' → pool_ok s → closing_ok s → closing_ok s'.
Proof.
  intros (k&k'&Hk&Hs&Hch)%step_change_of Hok Hc q j Hj.
  pose proof (sc_closed _ _ _ _ _ Hch) as Hcl. pose proof Hj as Hj'.
  rewrite (sc_processes _ _ _ _ _ Hch) in Hj'.
  apply list_lookup_insert_Some in Hj' as [(<-&<-&Hlt)|[Hne Hj']].
  - destruct (of_close k) eqn:Ho.
    2: { assert (of_close k' = false) as Ho' by (by eapply step_opens).
         split; [intros ->; done|]. intros l Hl%pending_of_close. congruence. }
    destruct (Hc p k Hk) as [Hc1 Hc2].
    destruct (step_closes i p k s s' k') as [[x ->]|[(a&->&_)|(_&H1&H2)]];
      [done|apply Hok|done..|split; [done|]].
    intros l' Hl'. destruct (H2 l' Hl') as [(->&->&E)|(l&Hl&H3)].
    + rewrite E. auto.
    + destruct (Hc2 l Hl) as [Hcs Hin]. split; [auto|].
      destruct H3 as [[-> E]|((t&r)&->&Hnot&Hsub)]; [by rewrite E|].
      intros y Hy. pose proof (Hin y (Hsub y Hy)) as [->|?]%elem_of_cons; [by destruct Hnot|done].
  - destruct (Hc q j Hj') as [Hc1 Hc2]. split; [auto|]. intros l Hl.
    destruct (Hc2 l Hl) as [Hcs Hin]. split; [auto|]. intros x Hx.
    apply Hin. by eapply closed_shrinks.
Qed.

Lemma closing_ok_happens ev s s' :
  happens ev s = Some s' → pool_ok s → closing_ok s → closing_ok s'.
Proof.
  destruct ev as [c|i p|now r|now j c]; cbn [happens].
  - intros [= <-] _ Hc p k [Hk|[_ Hk]]%lookup_app_Some; [by eapply Hc|].
    by destruct (p - length (po_processes s))%nat; simplify_eq/=.
  - apply closing_ok_step.
  - intros [= <-]. destruct (begin_on_frame now r s) as (st&ls&->). done.
  - intros [= <-]. destruct (lease_on_frame now j c s) as (st&ls&->). done.
Qed.

(** How far a call of [close] has come. *)
Definition close_progress (p : nat) (s : Pool) : Prop :=
  ∃ k, po_processes s !! p = Some k ∧
    (of_close k = true ∨ (∃ x, k = PDone (Err x)) ∨
     (∃ a, k = PDone (Ok a)) ∧ po_closed s = true ∧ po_runtimes s = []).

Lemma close_progress_step i q p s s' :
  step i q s = Some s' → pool_ok s → closing_ok s → close_progress p s → close_progress p s'.
Proof.
  intros (k&k'&Hk&Hs&Hch)%step_change_of Hok Hc (j&Hj&Hp).
  assert (Hlt : (q < length (po_processes s))%nat) by (by apply lookup_lt_Some in Hk).
  pose proof (sc_processes _ _ _ _ _ Hch) as Ep. destruct (decide (q = p)) as [->|Hne].
  - exists k'. assert (Hk' : po_processes s' !! p = Some k') by (by rewrite Ep, list_lookup_insert_eq).
    split; [done|]. rewrite Hj in Hk. injection Hk as <-.
    destruct Hp as [Ho|[[x ->]|[[a ->] _]]]; [|done|done].
    destruct (step_closes i p j s s' k') as [Hx|[(a&->&E&He)|(Ho'&_)]];
      [done|apply Hok|done..|by right; left|right; right|by left].
    split; [by exists a|]. rewrite E. destruct He as [(_&Hcl&He)|He]; [done|].
    destruct (proj2 (Hc p j Hj) [] He) as [Hcl Hin].
    split; [by apply (sc_closed _ _ _ _ _ Hch)|]. destruct (po_runtimes s) as [|x l]; [done|].
    exfalso. eapply not_elem_of_nil, (Hin x). left.
  - exists j. rewrite Ep, list_lookup_insert_ne by done. split; [done|].
    destruct Hp as [?|[?|(?&Hcl&He)]]; [by left|by right; left|right; right].
    split_and!; [done|by apply (sc_closed _ _ _ _ _ Hch)|].
    destruct (po_runtimes s') as [|x l] eqn:E; [done|]. exfalso.
    eapply (not_elem_of_nil x). rewrite <-He. eapply closed_shrinks; [exact Hch|done|].
    rewrite E. left.
Qed.

Lemma close_progress_happens p ev s s' :
  happens ev s = Some s' → pool_ok s → closing_ok s → close_progress p s → close_progress p s'.
Proof.
  destruct ev as [c|i q|now r|now j c]; cbn [happens].
  - intros [= <-] _ _ (k&Hk&Hp). exists k. cbn. split; [by apply lookup_app_l_Some|done].
  - apply close_progress_step.
  - intros [= <-]. destruct (begin_on_frame now r s) as (st&ls&->). done.
  - intros [= <-]. destruct (lease_on_frame now j c s) as (st&ls&->). done.
Qed.
