(* ===== verification/RuntimeTheorems.v ===== *)
(** * Theorems about the pool of runtimes

    From the invariants of [RuntimePoolFacts] and [RuntimePoolRuns]; at the end, a pool of
    two runtimes on which they are run. *)

From S2P Require Import Prelude Records Errors Json Regex Tenancy WorkflowModels Storage.
From S2P Require Import Collections WorkflowRepository TenantRuntime RuntimePool.
From S2P Require Import RuntimePoolFacts RuntimePoolRuns.
From S2P Require Import WorkflowSystem Scenario.
From stdpp Require Import base gmap strings list.

(** ** Reachable pools *)

Section Reachable.
Context (n ttl : Z).

Lemma reachable_ok l s : (0 ≤ n)%Z → happen l (new_pool n ttl) = Some s → pool_ok s.
Proof.
  intros Hn H. eapply happen_invariant; [exact pool_ok_happens|exact H|by apply pool_ok_new].
Qed.

Lemma reachable_leases l s : happen l (new_pool n ttl) = Some s → leases_ok s.
Proof. intros H. by eapply happen_invariant; [exact leases_ok_happens|exact H|]. Qed.

Lemma reachable_closing l s :
  (0 ≤ n)%Z → happen l (new_pool n ttl) = Some s → pool_ok s ∧ closing_ok s.
Proof.
  intros Hn H. eapply (happen_invariant (λ s, pool_ok s ∧ closing_ok s)); [|exact H|].
  - intros ev s1 s2 He [? ?]. split; [by eapply pool_ok_happens|by eapply closing_ok_happens].
  - split; [by apply pool_ok_new|done].
Qed.

Lemma limits_happens ev s s' :
  happens ev s = Some s' → po_max_resident_tenants s' = po_max_resident_tenants s.
Proof.
  destruct ev as [c|i p|now r|now j c]; cbn [happens].
  - by intros [= <-].
  - by intros (k&k'&_&_&[? ? []])%step_change_of.
  - intros [= <-]. by destruct (begin_on_frame now r s) as (st&ls&->).
  - intros [= <-]. by destruct (lease_on_frame now j c s) as (st&ls&->).
Qed.

Lemma reachable_limit l s :
  happen l (new_pool n ttl) = Some s → po_max_resident_tenants s = n.
Proof.
  intros H. eapply (happen_invariant (λ s, po_max_resident_tenants s = n)); [|exact H|done].
  intros ev s1 s2 He <-. by eapply limits_happens.
Qed.

Lemma reachable_runs l s :
  Forall created_ok l → happen l (new_pool n ttl) = Some s → runs_counted s ∧ evicted_idle s.
Proof.
  assert (H0 : runs_counted (new_pool n ttl) ∧ evicted_idle (new_pool n ttl)) by done.
  revert H0. generalize (new_pool n ttl). induction l as [|ev l IH]; cbn; intros s0 H0 Hl H.
  - by injection H as <-.
  - apply Forall_cons in Hl as [Hev Hl]. destruct (happens ev s0) as [s1|] eqn:E; [|done].
    eapply IH; [|done|exact H]. destruct H0. split.
    + by eapply runs_counted_happens.
    + by eapply evicted_idle_happens.
Qed.
End Reachable.

(** The counters of a new runtime. *)
Lemma count_rows_mono {K V} `{Countable K} (f g : V → bool) (m : gmap K V) :
  (∀ x, f x = true → g x = true) → (count_rows f m ≤ count_rows g m)%Z.
Proof.
  intros Hfg. unfold count_rows. induction (rows m) as [|x l IH]; cbn; [done|].
  specialize (Hfg x). destruct (f x), (g x); cbn; lia.
Qed.

Lemma count_rows_pos {K V} `{Countable K} (f : V → bool) (m : gmap K V) k v :
  m !! k = Some v → f v = true → (0 < count_rows f m)%Z.
Proof.
  intros Hk Hf. unfold count_rows. assert (Hin : In v (List.filter f (rows m))).
  { apply filter_In. split; [|done]. apply list_elem_of_In, elem_of_rows. by exists k. }
  destruct (List.filter f (rows m)); [done|]. cbn. lia.
Qed.

Lemma create_runtime_good c id mcp sandbox now w x w' :
  create_runtime c id mcp sandbox now w = (Ok x, w') → good (λ n, value n x).
Proof.
  intros [= <- <-]. split.
  - intros []; cbn; try done; apply count_rows_nonneg.
  - cbn. apply count_rows_mono. intros row [[Hs Ha%bool_decide_eq_true]%andb_true_iff _]%andb_true_iff.
    rewrite Hs, andb_true_r. unfold run_active. by rewrite Ha.
Qed.

(** The counters of a runtime on which nothing has begun. *)
Lemma counted_start r s x :
  po_store s !! r = Some x → (∀ j, (r, j) ∉ po_leases s) → counted (λ n, value n x) r s.
Proof.
  intros Hx Hn. exists x. split; [done|]. intros n. rewrite tally_zero; [lia|].
  intros [r' j] Hj. unfold share_on. cbn. case_bool_decide; [|done]. subst r'. by destruct (Hn j).
Qed.

(** A process moves only by a step of its own. *)
Lemma process_kept ev s s' p k :
  happens ev s = Some s' → po_processes s !! p = Some k →
  po_processes s' !! p = Some k ∨ ∃ i, step_of i p k s = Some s'.
Proof.
  intros H Hk. destruct ev as [c|i q|now r|now j c]; cbn [happens] in H.
  - injection H as <-. left. by apply lookup_app_l_Some.
  - apply step_change_of in H as (k1&k2&Hk1&Hs&Hc). destruct (decide (q = p)) as [->|Hne].
    + right. exists i. by simplify_eq.
    + left. by rewrite (sc_processes _ _ _ _ _ Hc), list_lookup_insert_ne.
  - injection H as <-. left. by destruct (begin_on_frame now r s) as (st&ls&->).
  - injection H as <-. left. by destruct (lease_on_frame now j c s) as (st&ls&->).
Qed.

Lemma holds_refs k : holds k ⊆ refs k.
Proof. destruct k as [| | | | | | | | |]; cbn; set_solver. Qed.

(** ** The claims *)

(** C24: The table of locks gives each tenant one lock, although entries come and go: in
    every state that the pool can reach, whatever calls are made and however their steps
    interleave, at most one of them works under the lock of a tenant. *)
Theorem tenant_work_is_serial n ttl l s p q k j t e e' :
  (0 ≤ n)%Z → happen l (new_pool n ttl) = Some s →
  po_processes s !! p = Some k → po_processes s !! q = Some j →
  (t, e) ∈ holds k → (t, e') ∈ holds j → p = q ∧ e = e'.
Proof.
  intros Hn H Hp Hq Hk Hj. destruct (reachable_ok n ttl l s Hn H) as [[H1 _ _ H4 _] _ _ _ _].
  assert (HU : ∀ p k, po_processes s !! p = Some k → (refs <$> po_processes s) !! p = Some (refs k)).
  { intros p' k' E. by rewrite list_lookup_fmap, E. }
  assert (HH : ∀ p k, po_processes s !! p = Some k → (holds <$> po_processes s) !! p = Some (holds k)).
  { intros p' k' E. by rewrite list_lookup_fmap, E. }
  assert (e = e') as <-.
  { pose proof (H1 _ _ t e (HU _ _ Hp) (holds_refs k _ Hk)).
    pose proof (H1 _ _ t e' (HU _ _ Hq) (holds_refs j _ Hj)). congruence. }
  split; [|done]. pose proof (H4 _ _ t e (HH _ _ Hp) Hk). pose proof (H4 _ _ t e (HH _ _ Hq) Hj).
  congruence.
Qed.

(** C26: The pool never holds more runtimes than it may, and never two for one tenant,
    whatever calls are made and however their steps interleave. *)
Theorem residents_stay_within_capacity n ttl l s :
  (0 ≤ n)%Z → happen l (new_pool n ttl) = Some s →
  (Z.of_nat (length (po_runtimes s)) ≤ n)%Z ∧ NoDup (po_runtimes s).*1.
Proof.
  intros Hn H. pose proof (reachable_limit n ttl l s H) as E.
  destruct (reachable_ok n ttl l s Hn H) as [_ _ H1 _ H2]. by rewrite E in H1.
Qed.

(** C27: Once a call of [close] has returned without an exception, the pool is empty and
    closed for good, even when runtimes were being created or evicted meanwhile. *)
Theorem closed_pool_stays_empty n ttl l s p l' s' a :
  (0 ≤ n)%Z → happen l (new_pool n ttl) = Some s → po_processes s !! p = Some (PStart Close) →
  happen l' s = Some s' → po_processes s' !! p = Some (PDone (Ok a)) →
  po_closed s' = true ∧ po_runtimes s' = [].
Proof.
  intros Hn H Hp H' Hd.
  assert (HI : (pool_ok s' ∧ closing_ok s') ∧ close_progress p s').
  { eapply (happen_invariant (λ s, (pool_ok s ∧ closing_ok s) ∧ close_progress p s));
      [|exact H'|].
    - intros ev s1 s2 He [[? ?] ?]. split_and!; [by eapply pool_ok_happens|
        by eapply closing_ok_happens|by eapply close_progress_happens].
    - split; [by eapply reachable_closing|]. eexists. split; [exact Hp|by left]. }
  destruct HI as [_ (k&Hk&Hc)]. rewrite Hd in Hk. injection Hk as <-.
  destruct Hc as [Hc|[[x Hx]|[_ Hc]]]; [done|done|exact Hc].
Qed.

(** C25: Nothing that runs is evicted: while a runtime is being evicted, each run on it is
    over or waits for the user with its checkpoint written, and no other run can begin on
    it, provided that the factory counts the runs of the database. *)
Theorem eviction_spares_running_runs n ttl l s p k r :
  Forall created_ok l → happen l (new_pool n ttl) = Some s →
  po_processes s !! p = Some k → evicting k = Some r →
  (∀ x, (r, x) ∈ po_leases s →
     el_closed x = true ∨ el_awaiting_user x = true ∧ el_checkpoint_persisted x = true) ∧
  ∀ now, begin_on now r s = s.
Proof.
  intros Hl H Hp Hr. destruct (reachable_runs n ttl l s Hl H) as [_ He].
  destruct (He p k r Hp Hr) as [(x&Hx&Ha) Hk]. split; [exact Hk|]. intros now.
  destruct (begin_on_cases now r s) as [->|(y&Hy&Hav&_)]; [done|].
  unfold is_available in Hav. assert (x = y) as -> by congruence. by rewrite Ha in Hav.
Qed.

(** C38: The runs that the database shows when a runtime is created are counted and never
    taken off: a runtime created while a run of its workspace is running, such as the one
    that the recovery worker is about to take over, can never be evicted, whatever happens
    on it and however long it is idle. *)
Theorem inherited_runs_pin_runtime c id mcp sandbox now w x w' i row n ttl l s r y l' s' x' t
    ttl' :
  create_runtime c id mcp sandbox now w = (Ok x, w') →
  agent_runs (w_db w) !! i = Some row → run_tenant_id row = tc_tenant_id c →
  run_workspace_id row = tc_workspace_id c → run_run_status row ∈ [RUN_RUNNING; RUN_RESUMING] →
  happen l (new_pool n ttl) = Some s → po_store s !! r = Some y → quiet x y →
  (∀ j, (r, j) ∉ po_leases s) → happen l' s = Some s' → po_store s' !! r = Some x' →
  can_evict x' t ttl' = false.
Proof.
  intros Hx Hi Ht Hw Hst H Hr [Hq _] Hfree H' Hr'. apply not_true_iff_false.
  intros (_&He&_)%can_evict_cases. pose proof (create_runtime_good _ _ _ _ _ _ _ _ Hx) as Hg.
  destruct (counted_happen (λ n, value n y) r l' s s') as [Hl (z&Hz&Hv)];
    [|done|by eapply reachable_leases|by apply counted_start|].
  { intros m. rewrite Hq. apply Hg. }
  assert (z = x') as -> by congruence. rewrite Hv, Hq in He.
  assert (0 < value EXECUTING x)%Z.
  { injection Hx as <- _. cbn. eapply count_rows_pos; [exact Hi|].
    by rewrite Ht, Hw, !bool_decide_eq_true_2. }
  assert (0 ≤ tally (share_on r EXECUTING) (po_leases s'))%Z; [|lia].
  apply tally_nonneg. intros. by eapply share_on_nonneg.
Qed.

(** A runtime that was created without runs can be evicted exactly when it has been idle for
    long enough and every run on it is over or parked and calls no tool. *)
Theorem evictable_when_parked n ttl l s r x l' s' x' t ttl' :
  happen l (new_pool n ttl) = Some s → po_store s !! r = Some x →
  (∀ j, (r, j) ∉ po_leases s) → (∀ m, value m x = 0%Z) →
  happen l' s = Some s' → po_store s' !! r = Some x' →
  can_evict x' t ttl' = true ↔
    idle_expired x' t ttl' = true ∧
    ∀ j, (r, j) ∈ po_leases s' → parked j ∧ share TOOLS j = 0%Z.
Proof.
  intros H Hr Hfree Hz H' Hr'.
  destruct (counted_happen (λ _, 0%Z) r l' s s') as [Hl Hc]; [done|done|by eapply reachable_leases| |].
  { destruct (counted_start r s x Hr Hfree) as (y&Hy&Hv). exists y. split; [done|]. intros m.
    by rewrite Hv, Hz. }
  split.
  - intros Hcan. split; [by apply can_evict_cases in Hcan as [? _]|]. intros j Hj.
    by eapply (evictable_parked (λ _, 0%Z)).
  - intros [Hi Hp]. by eapply parked_evictable.
Qed.

(** C39: Two calls of [acquire] can block each other for ever: one holds the capacity lock
    and is to evict the runtime of a tenant, whose own call holds the lock of that tenant and
    waits for the capacity lock.  Neither moves again, whatever else happens. *)
Theorem crossed_acquisitions_never_end n ttl l s p q t e k l' s' :
  (0 ≤ n)%Z → happen l (new_pool n ttl) = Some s →
  po_processes s !! p = Some (PTenant t e k) → holds_capacity (PTenant t e k) = true →
  po_processes s !! q = Some (PCapacity t e) → happen l' s = Some s' →
  po_processes s' !! p = Some (PTenant t e k) ∧ po_processes s' !! q = Some (PCapacity t e).
Proof.
  intros Hn H Hp Hcap Hq H'.
  eapply (happen_invariant (λ s, pool_ok s ∧ po_processes s !! p = Some (PTenant t e k) ∧
    po_processes s !! q = Some (PCapacity t e))); [|exact H'|].
  2: { split; [by eapply reachable_ok|done]. }
  clear -Hcap. intros ev s s' He (Hok&Hp&Hq). split; [by eapply pool_ok_happens|].
  assert (Hpq : p ≠ q) by congruence. pose proof Hok as [[_ _ _ Hhas _] Hc _ _ _]. split.
  - destruct (process_kept ev s s' p _ He Hp) as [?|(i&Hs)]; [done|]. cbn [step_of] in Hs.
    pose proof (Hhas q [(t, e)] t e) as El. rewrite list_lookup_fmap, Hq in El.
    specialize (El eq_refl ltac:(left)). destruct (po_entries s !! e) as [x|]; [|done].
    cbn in Hs, El. injection El as El. by rewrite El in Hs.
  - destruct (process_kept ev s s' q _ He Hq) as [?|(i&Hs)]; [done|]. cbn [step_of] in Hs.
    by rewrite (Hc p _ Hp Hcap) in Hs.
Qed.

(** ** A pool of two runtimes *)

Definition given (now : Z) (x : TenantRuntime) : input :=
  MkInput now (λ _ _, true) (λ _, RuntimeError "") (λ _, true) (Ok x).
Definition sample_made (t : string) : TenantRuntime := fresh_runtime t t false false 0.

(** A process that goes on for some steps. *)
Definition steps_of (now : Z) (t : string) (p k : nat) : list event :=
  repeat (Stepped (given now (sample_made t)) p) k.

Definition resident (t : string) (p : nat) : list event :=
  Called (Acquire t) :: steps_of 0 t p 4.

(** The runtimes of C and B, and a call for A that has begun to evict that of C, on which a
    run is parked. *)
Definition evicting_C : list event :=
  resident "C" 0 ++ resident "B" 1 ++
  [Began 0 0; Leased 0 0 (AwaitingUser true); Called (Acquire "A")] ++
  steps_of 100000 "A" 2 5.

(** Meanwhile the runtime of B is revoked, and called for again. *)
Definition crossing : list event :=
  evicting_C ++ (Called (Revoke "B") :: steps_of 100000 "B" 3 3) ++
  (Called (Acquire "B") :: steps_of 100000 "B" 4 2) ++ steps_of 100000 "A" 2 2.

Definition small_pool : Pool := new_pool 2 1000.
Definition ran_to (l : list event) : Pool := default small_pool (happen l small_pool).

Example crossing_state :
  po_runtimes (ran_to evicting_C) = [("C", 0%nat); ("B", 1%nat)] ∧
  po_processes (ran_to crossing) = [PDone (Ok (ARuntime 0)); PDone (Ok (ARuntime 1));
    PTenant "B" 5 (TVisit (EvictLoop 100000 1 (Some ("A", 2%nat))) 1 []);
    PDone (Ok ANone); PCapacity "B" 5].
Proof. vm_compute. auto. Qed.

Lemma tenant_work_is_serial_witness :
  ∃ s k, happen evicting_C small_pool = Some s ∧ po_processes s !! 2%nat = Some k ∧
    ("C", 3%nat) ∈ holds k ∧
    ∀ q j e, po_processes s !! q = Some j → ("C", e) ∈ holds j → 2%nat = q ∧ 3%nat = e.
Proof.
  assert (H : ∃ s k, happen evicting_C small_pool = Some s ∧ po_processes s !! 2%nat = Some k ∧
    ("C", 3%nat) ∈ holds k).
  { eexists _, _. split; [vm_compute; reflexivity|]. split; [reflexivity|]. left. }
  destruct H as (s&k&H&Hk&Hc). exists s, k. split_and!; [done|done|done|].
  intros q j e Hj He.
  exact (tenant_work_is_serial 2 1000 evicting_C s 2 q k j "C" 3 e ltac:(lia) H Hk Hj Hc He).
Defined.

Lemma residents_stay_within_capacity_witness :
  ∃ s, happen evicting_C small_pool = Some s ∧ length (po_runtimes s) = 2%nat ∧
    (Z.of_nat (length (po_runtimes s)) ≤ 2)%Z.
Proof.
  assert (H : ∃ s, happen evicting_C small_pool = Some s ∧ length (po_runtimes s) = 2%nat).
  { eexists. split; [vm_compute; reflexivity|reflexivity]. }
  destruct H as (s&H&Hl). exists s. split_and!; [done|done|].
  exact (proj1 (residents_stay_within_capacity 2 1000 evicting_C s ltac:(lia) H)).
Defined.

(** The pool is closed while a runtime is being evicted and another one created. *)
Definition closing_pool : list event :=
  steps_of 100000 "A" 3 2 ++ steps_of 100000 "A" 2 7 ++ steps_of 100000 "A" 3 2.

Lemma closed_pool_stays_empty_witness :
  ∃ s s', happen (evicting_C ++ [Called Close]) small_pool = Some s ∧
    length (po_runtimes s) = 2%nat ∧ happen closing_pool s = Some s' ∧ po_runtimes s' = [].
Proof.
  assert (H : ∃ s s' a, happen (evicting_C ++ [Called Close]) small_pool = Some s ∧
    po_processes s !! 3%nat = Some (PStart Close) ∧ length (po_runtimes s) = 2%nat ∧
    happen closing_pool s = Some s' ∧ po_processes s' !! 3%nat = Some (PDone (Ok a))).
  { eexists _, _, _. split; [vm_compute; reflexivity|]. split; [reflexivity|].
    split; [reflexivity|]. split; [vm_compute; reflexivity|reflexivity]. }
  destruct H as (s&s'&a&H&Hp&Hl&H'&Hd). exists s, s'. split_and!; [done|done|done|].
  exact (proj2 (closed_pool_stays_empty 2 1000 _ s 3 closing_pool s' a ltac:(lia) H Hp H' Hd)).
Defined.

Lemma sample_made_ok t : good (λ n, value n (sample_made t)).
Proof. split; [by intros []|done]. Qed.

Lemma steps_of_ok now t p k : Forall created_ok (steps_of now t p k).
Proof.
  apply Forall_forall. intros ev Hev. apply list_elem_of_In, repeat_spec in Hev as ->.
  intros x [= <-]. apply sample_made_ok.
Qed.

Lemma eviction_spares_running_runs_witness :
  ∃ s k, happen evicting_C small_pool = Some s ∧ po_processes s !! 2%nat = Some k ∧
    evicting k = Some 0%nat ∧ length (po_leases s) = 1%nat ∧
    (∀ x, (0%nat, x) ∈ po_leases s → el_closed x = true ∨
       el_awaiting_user x = true ∧ el_checkpoint_persisted x = true) ∧
    ∀ now, begin_on now 0 s = s.
Proof.
  assert (Hok : Forall created_ok evicting_C).
  { unfold evicting_C, resident.
    repeat first [apply steps_of_ok | apply Forall_app_2 | apply Forall_cons_2; [done|]].
    apply Forall_nil_2. }
  assert (H : ∃ s k, happen evicting_C small_pool = Some s ∧ po_processes s !! 2%nat = Some k ∧
    evicting k = Some 0%nat ∧ length (po_leases s) = 1%nat).
  { eexists _, _. split; [vm_compute; reflexivity|]. split_and!; reflexivity. }
  destruct H as (s&k&H&Hk&He&Hl). exists s, k. split; [done|]. split; [done|]. split; [done|].
  split; [done|]. exact (eviction_spares_running_runs 2 1000 evicting_C s 2 k 0 Hok H Hk He).
Defined.

Lemma crossed_acquisitions_never_end_witness :
  ∃ s k, happen crossing small_pool = Some s ∧ po_processes s !! 2%nat = Some (PTenant "B" 5 k) ∧
    po_processes s !! 4%nat = Some (PCapacity "B" 5) ∧
    ∀ l' s', happen l' s = Some s' →
      po_processes s' !! 2%nat = Some (PTenant "B" 5 k) ∧
      po_processes s' !! 4%nat = Some (PCapacity "B" 5).
Proof.
  assert (H : ∃ s k, happen crossing small_pool = Some s ∧
    po_processes s !! 2%nat = Some (PTenant "B" 5 k) ∧
    holds_capacity (PTenant "B" 5 k) = true ∧ po_processes s !! 4%nat = Some (PCapacity "B" 5)).
  { eexists _, _. split; [vm_compute; reflexivity|]. split_and!; reflexivity. }
  destruct H as (s&k&H&Hp&Hc&Hq). exists s, k. split_and!; [done|done|done|]. intros l' s' H'.
  exact (crossed_acquisitions_never_end 2 1000 crossing s 2 4 "B" 5 k l' s' ltac:(lia) H Hp Hc Hq H').
Defined.

(** The runtime that is created while the run of the scenario is running. *)
Definition busy_world : World := after [StartRun ctx "worker-1"].

Lemma inherited_runs_pin_runtime_witness :
  ∃ x s, (create_runtime ctx "worker-2" false false 0 busy_world).1 = Ok x ∧
    happen (Called (Acquire TENANT) :: repeat (Stepped (given 5 x) 0) 4) small_pool = Some s ∧
    ∀ l' s' x', happen l' s = Some s' → po_store s' !! 0%nat = Some x' →
      can_evict x' 1000000000 1000 = false.
Proof.
  assert (H : ∃ x s y i row, (create_runtime ctx "worker-2" false false 0 busy_world).1 = Ok x ∧
    agent_runs (w_db busy_world) !! i = Some row ∧ run_tenant_id row = tc_tenant_id ctx ∧
    run_workspace_id row = tc_workspace_id ctx ∧ run_run_status row = RUN_RUNNING ∧
    happen (Called (Acquire TENANT) :: repeat (Stepped (given 5 x) 0) 4) small_pool = Some s ∧
    po_store s !! 0%nat = Some y ∧ y = touch_at 5 x ∧ po_leases s = []).
  { eexists _, _, _, RUN, _. split; [vm_compute; reflexivity|]. split; [vm_compute; reflexivity|].
    split; [reflexivity|]. split; [reflexivity|]. split; [reflexivity|].
    split; [vm_compute; reflexivity|]. split_and!; reflexivity. }
  destruct H as (x&s&y&i&row&Hx&Hi&Ht&Hw&Hst&H&Hr&->&Hl). apply ran in Hx.
  exists x, s. split; [by rewrite Hx|]. split; [done|]. intros l' s' x' H' Hr'.
  eapply (inherited_runs_pin_runtime ctx "worker-2" false false 0 busy_world x _ i row 2 1000 _ s 0
    (touch_at 5 x) l' s' x' 1000000000 1000 Hx Hi Ht Hw).
  - rewrite Hst. left.
  - exact H.
  - exact Hr.
  - apply quiet_touch_at.
  - intros j. rewrite Hl. apply not_elem_of_nil.
  - exact H'.
  - exact Hr'.
Defined.
